(* ===== verification/_CoqProject ===== *)
-Q . S2P
Prelude.v
Digits.v
SmsConv.v
SmsParser.v
SmsDeliver.v
SmsDeliverSpec.v
SmsDeliverSafe.v
SmsSubmit.v
SmsSubmitSpec.v
SmsRelay.v
SmsCore.v
SmsCoreSpec.v
NdefRecord.v
NdefMsg.v
NdefPayload.v
NdefCh.v
NdefChParse.v
NdefLeOob.v
EmdsFlash.v
EmdsFlashSpec.v
Emds.v
EmdsSpec.v
Pcm.v
DataFifo.v
T4t.v
T4tSpec.v
T4tHl.v
T4tHlSpec.v
T4tReader.v
IsoDep.v
IsoDepSpec.v
IsoDepSafe.v
IsoDepSession.v
DfuMultiImage.v
BlStorage.v
BlStorageSpec.v
BlBoot.v
BlBootSpec.v
GattDm.v
GattDmSpec.v
GattDmLookup.v
Ancs.v
AncsSpec.v
AncsDeliver.v
AncsSession.v
MeshTime.v
MeshTimeSpec.v
MeshSched.v
MeshSchedSpec.v
MeshSchedSrv.v
MeshSchedRun.v
MeshDemo.v
