(* ===== verification/Prelude.v ===== *)
(** * Verified models of libraries of the nRF Connect SDK

    The nRF Connect SDK (version 2.9.0) is a collection of C libraries for
    devices with a cellular modem, Bluetooth or NFC. This development models some
    of them function by function, as Rocq functions that can be run, and proves
    that they do what they are for:

    - the SMS library (src/lib/sms), which decodes the messages that the modem
      receives, splits and encodes the messages to send, and hands messages to
      the listeners of the application;
    - the NDEF library (src/subsys/nfc/ndef), which encodes and parses the
      messages that NFC devices exchange, with the records for texts, links,
      application launch, TNEP services and connection handover;
    - the reader of Type 4 Tags (src/subsys/nfc/t4t), which carries such messages:
      the block protocol ISO-DEP, the commands and files above it, and the
      procedures that read and update the message of a tag;
    - the emergency data storage (src/subsys/emds), which writes registered data to
      flash when the supply is about to fail and restores it after the restart;
    - the immutable bootloader: its storage (src/subsys/bootloader/bl_storage) and
      the validation and the start of the firmware (src/subsys/fw_info,
      src/subsys/bootloader, src/samples/bootloader);
    - the parser of update packages (src/subsys/dfu/dfu_multi_image);
    - the GATT Discovery Manager (src/subsys/bluetooth/gatt_dm.c) and, over it, the
      client of the Apple notification service
      (src/subsys/bluetooth/services/ancs_*.c);
    - the Time and Scheduler Servers of Bluetooth mesh (src/subsys/bluetooth/mesh:
      time_util.c, time.c, time_srv.c, scheduler_srv.c);
    - libraries on buffers: data_fifo, contin_array, pcm_mix and
      pcm_stream_channel_modifier of src/lib.

    Most of them read data that comes from outside of the device, through pointers
    and lengths, which is why a parser has three kinds of theorems: it inverts its
    encoding, it refuses what it cannot hold, and it stays within its buffers on
    every input that the theorem names. The protocols and storages have state that
    outlives a call: they have invariants over all sequences of events, and
    refinements of what they promise to their users.

    ** How C is modelled

    A function returns a [res]: [Ok] with its results and its out-parameters,
    [Err e] for a return of [-e], [Fault] for undefined behaviour (an access
    outside of an object, a failed [__ASSERT]), or [NoFuel]. An integer of [w]
    bits is a [Z], reduced by [u8], [u16] or [u32] where the C type of a result
    makes it wrap around. A buffer is the list of its bytes; a pointer into a
    buffer is the list of the bytes from there on, and a pointer that may be
    [NULL] is an [option]. Static variables are the fields of a state record that
    is passed along. Messages for the log are left out.

    A loop is a [Fixpoint] over a number of rounds: a number that bounds it by the
    source where there is one (the length of the text or of the payload, the
    capacity of the message; 128 for a user data header, whose length is an octet
    and whose elements have at least two octets; the days since 2000 divided by 365
    for the years of a date; 1024 for the stages of the search for the next point
    in time of the scheduler, of which 362 are enough; 0x8000, the number of
    unicast addresses, for the elements of a mesh node). Running out of rounds is
    [NoFuel], which is neither [Ok] nor [Err]: each theorem that a function
    returns shows that the rounds are enough.

    What is not part of the tree is a parameter, with its documented behaviour as
    a law and an instance that can be run. Each one is a [Class]:

    - [Hex2Bin] (hex2bin of the operating system), [Modem] and [ModemCmd]
      (nrf_modem_at_printf, nrf_modem_at_scanf, nrf_modem_at_cmd,
      nrf_modem_at_cmd_async and the allocator) for the SMS library;
    - [ByteOrder] (sys_get_be32, sys_put_be16 and their like), [NetBuf] (the linear
      allocator net_buf_simple) and [BtData] (assigned numbers of Bluetooth) for
      the NDEF library;
    - [FlashDev] and [Partition] (the flash driver and its region), [Kernel] (memory
      slabs and message queues), [Isodep] and [IsodepLaws] (the link the procedures
      of Type 4 Tags ask for, instantiated with [isodep_reference]), [Work]
      (delayed work of ISO-DEP), [Zcbor] (the CBOR decoder);
    - [Nvmc] (memory whose bits can only be cleared, with a supply that may fail),
      [Fih] (hardened integers of MCUboot), [Ocrypto] (hash and signature);
    - [GattStack] and [GattServer] (the discovery procedures of the Bluetooth host
      against the services of a peer), [LittleEndian] and [NetBuf] of [Ancs];
    - [MeshBuf], [MeshStack] (message buffers, elements of a node, random numbers,
      counting of bits).

    Classes whose name ends in [Config] have the constants of a build. The sizes of
    structures, which depend on the compiler, are the records [layout], [ch_layout]
    and [oob_layout], with the ones of a 32-bit ARM for evaluation.

    ** The files

    - [Prelude]: results, machine integers, reads and writes of buffers, their
      lemmas, the rewrite databases [cint] and [clen] and the shared tactics.
      [post r Q] says that a function does not fault, ends, and that [Q] holds of
      what it returns; [seen b pos l] that [l] is in [b] at [pos].
    - [Digits]: lists of digits and the integer they denote.

    The SMS library:

    - [SmsConv] (string_conversion.c): the conversion tables, packing of septets
      into octets, unpacking, and conversion between text and septets. Packing is
      a change of representation of one integer and is undone by unpacking
      ([packing_round_trip]); the conversion takes the longest prefix that fits
      ([ascii_to_gsm7bit_longest_prefix]); representable texts survive both ways
      ([text_round_trip]), and which characters those are
      ([printable_representable]).
    - [SmsParser] (parser.c): the parser instance and the run of its sub-parsers.
    - [SmsDeliver] (sms_deliver.c): the sub-parsers of an SMS-DELIVER PDU and
      [sms_deliver_pdu_parse]. [SmsDeliverSpec] has the messages of 3GPP TS 23.040
      and their octets: decoding inverts encoding ([deliver_round_trip]), and a
      user data header is taken as a whole or not at all ([udh_all_or_nothing]).
      [SmsDeliverSafe] has the memory safety on arbitrary PDUs
      ([deliver_parse_safe]) and when the heap block is given back
      ([deliver_parse_blocks]).
    - [SmsSubmit] (sms_submit.c): the encoder of numbers, of the service centre
      address and of SMS-SUBMIT PDUs, and the splitting of long texts; the AT
      commands sent so far are part of the state. [SmsSubmitSpec] has the commands
      as a specification: [submit_short_text], [submit_long_text],
      [encode_sca_decision].
    - [SmsRelay]: a service centre that reads the PDUs of the commands and delivers
      their user data; the receiver decodes the parts of the text that was sent
      ([submit_deliver_round_trip]).
    - [SmsCore] (sms.c): the state of the client, its listeners, the handlers of
      the notifications, the work items, and the functions of the interface.
      [SmsCoreSpec] has the delivery of a message to the listeners, whatever other
      events come before the work item ([message_reaches_listeners], [second_message_overwrites]), registration
      ([register_first_free_slot], [unregister_last_listener]) and the client as
      a transition system whose events come in any order ([client_invariant]).

    The NDEF library:

    - [NdefRecord] (record.c, record_parser.c): a descriptor has the fields of a
      record and a constructor for its payload. [builds q f p] is the contract of
      a constructor, which encoding a record asks of the constructor of its
      payload and gives in turn ([record_encode_builds]), so that records nest.
      Parsing: [record_parse_forms], [record_parse_safe].
    - [NdefMsg] (msg.c, msg_parser.c, msg_parser_local.c): [msg_encode_builds],
      [msg_parse_forms] with the memory the header file asks for,
      [msg_round_trip]; what is accepted lies within the octets
      ([msg_parse_safe]).
    - [NdefPayload] (text_rec.c, uri_rec.c, uri_msg.c, launchapp_rec.c,
      launchapp_msg.c, tnep_rec.c), in the modules [Text], [Uri], [LaunchApp] and
      [Tnep]: the constructors meet the contract for the payload of their records
      ([text_payload], [uri_message], [launchapp_message], [svc_param_payload]).
    - [NdefCh] (ch.c, ch_msg.c): the records of connection handover, and the
      messages put together of them ([handover_select_message],
      [handover_request_message]).
    - [NdefChParse] (ch_rec_parser.c): what the parsers of these records return
      ([ac_parse_exact], [hc_parse_exact]), that they are safe
      ([ch_payloads_safe]), and a handover message from the descriptors on one
      side to those on the other ([handover_round_trip]).
    - [NdefLeOob] (le_oob_rec.c, le_oob_rec_parser.c and
      nfc_ndef_ch_msg_le_oob_encode of ch_msg.c): the Bluetooth LE out-of-band
      record ([le_oob_message], [le_oob_parse_exact], [le_oob_parse_safe]).

    Emergency data storage:

    - [EmdsFlash] (emds_flash.c) and [EmdsFlashSpec]: data grows upwards and its
      table downwards in a region of flash; the contents as a list of entries.
    - [Emds] (emds.c) and [EmdsSpec]: until the next preparation the flash is a map
      ([flash_refines_map]); what a store wrote is restored ([emds_round_trip]); a
      supply failure at any write leaves each entry whole, old or absent
      ([emds_power_loss]); any flash can be taken over ([emds_init_prepare]); the
      estimate of the time counts the words written ([store_time_counts_words]).

    Buffers:

    - [Pcm] (contin_array.c, pcm_mix.c, pcm_stream_channel_modifier.c), in the
      modules [Contin], [Mix] and [Channels]: [play_is_repetition], [pcm_mix_mixes],
      [split_combine].
    - [DataFifo] (data_fifo.c): producer and consumer as a transition system
      ([fifo_invariant]); queued blocks come out ([queued_block_is_fetched]).

    Type 4 Tags:

    - [T4t] (tlv_block.c, cc_file.c, apdu.c, ndef_file.c) and [T4tSpec]: the
      capability container and the commands as octets ([cc_parse_total],
      [cc_octets_parse]).
    - [T4tHl] (hl_procedure.c), [T4tHlSpec] and [T4tReader]: calls and responses in
      any order ([hl_calls_safe]); against a tag as the specification has it, an
      update leaves the old, an empty or the new message ([ndef_update_session]),
      and reading gives the message ([reader_gets_message]).
    - [IsoDep] (isodep.c) and [IsoDepSpec], [IsoDepSafe], [IsoDepSession]: with lost
      and corrupted frames, commands arrive once and answers are delivered
      ([isodep_session]); with more of them than the retransmissions allow, a
      command arrives at most once and the exchange still ends
      ([isodep_at_most_once]); the state stays in its types and buffers
      ([isodep_state_typed]).

    Update and start:

    - [DfuMultiImage] (dfu_multi_image.c): [multi_image_delivers].
    - [BlStorage] (bl_storage.c, nrf_nv_counters.c) and [BlStorageSpec]:
      the storage implements an abstract state that follows the header file
      ([storage_refines]) and never goes back ([storage_never_goes_back]).
    - [BlBoot] (fw_info, bl_crypto, bl_validation, bl_boot, main.c) and
      [BlBootSpec]: [no_rollback], [only_signed_is_started],
      [good_firmware_starts].

    Bluetooth:

    - [GattDm] (gatt_dm.c) and [GattDmSpec], [GattDmLookup]: all services of a
      server are reported ([discovery_reports_all_services]), every call returns
      and every discovery is answered once ([each_discovery_answered_once]), and the
      look-up functions find what was discovered.
    - [Ancs] (ancs_client.c, ancs_attr_parser.c, ancs_app_attr_get.c): [AncsSpec]
      has the parser of responses ([pieces_parsed_as_whole]), [AncsDeliver] the
      delivery of the attributes ([notification_attributes_delivered]),
      [AncsSession] the client over the Discovery Manager
      ([ancs_service_connected], [ancs_calls_safe]).
    - [MeshTime] (time_util.c, time.c, time_srv.c) and [MeshTimeSpec]: seconds and
      dates ([calendar_round_trip]), the coding in messages
      ([time_params_round_trip]), local time ([local_time_inverse]).
    - [MeshSched] (scheduler_srv.c, scheduler_internal.h, the transition time of
      model_utils.c): [MeshSchedSpec] shows that the search over the stages finds
      the next second an entry describes ([next_time_found]), [MeshSchedSrv] that
      the server refines an abstract scheduler ([scheduler_refines]), and
      [MeshSchedRun] that no second is missed in a run ([every_second_served]).
      [MeshDemo] has instances, concrete inputs and the inputs where the servers go
      wrong.

    Where the code does something else than it means to, a hypothesis of the
    theorem says where it stops being right, and a lemma, mostly in the last section
    of a file or in its [Demo] module, evaluates the model there:
    [long_header_not_skipped], [cmt_buffer_overflow], [record_parse_length_wraps],
    [carrier_format_lost], [empty_structure_leaks], [one_octet_buffer_overrun],
    [registered_in_attribute_overruns], [announced_zone_inverse],
    [last_day_overwritten], [cancelled_still_fires] and others.

    ** What is not modelled

    Of the libraries above: the log output, with the functions that only print; the
    build of emds for RRAM and of the bootloader storage for counters of a word; the
    crypto back ends other than Oberon; what the bootloader does to interrupts,
    peripherals and processor registers before the jump; of the mesh servers, the
    set-up of their second models, the tables of operation codes with the lengths of
    messages, and the clients. A call is atomic: interrupts between the statements of
    a function, and callbacks that call the library again, are not modelled; the
    calls that others receive are events of the state.

    Time servers are shown right for times set to the second, without announced
    changes of the zone or of the leap seconds; schedulers, for entries that are
    repeated for ever and work items that run within the second they were started
    for. The code for the other cases is modelled and can be run.

    The rest of the SDK stays outside. Drivers, shells, log output and the glue to
    precompiled libraries (radio, modem, audio codecs) have no behaviour of their own
    that could be stated without the hardware or library behind them. Other libraries
    (the dispatch and the parsers of AT commands, Type 2 Tags, TNEP, the other
    services and mesh models, the network clients, SUIT, applications and samples)
    stand beside the parts above: none of these calls them. *)

From stdpp Require Import prelude strings.
From Stdlib Require Import ZArith Lia Btauto.

Open Scope Z_scope.

(** ** Results of C functions

    [Ok a] is a normal return, [Err e] a return of [-e], [Fault] an access
    outside an object (undefined behaviour in C), and [NoFuel] a loop that did
    not finish within the iterations it was given. *)

Inductive errno :=
  | EINVAL | ENOMEM | EMSGSIZE | ENOTSUP | E2BIG | ENOSPC | EBADMSG | EBUSY
  | ENOSR | EFAULT | ENXIO | EACCES | EIO | ECANCELED | EALREADY | EDOM | ENODEV
  | EPERM | ENOENT | EAGAIN | ENODATA | EPROTO | EOVERFLOW | ENOBUFS | ETIMEDOUT
  | EEXIST | ENOTEMPTY | ESRCH | ENOMSG | ESPIPE | ENOEXEC | EOPNOTSUPP | ENOTCONN | EROFS
  | EMODEM (code : Z).

(** Error numbers of the C library the SDK builds with. *)
Definition errno_num (e : errno) : Z :=
  match e with
  | EINVAL => 22 | ENOMEM => 12 | EMSGSIZE => 122 | ENOTSUP => 134 | E2BIG => 7
  | ENOSPC => 28 | EBADMSG => 77 | EBUSY => 16 | ENOSR => 63 | EFAULT => 14
  | ENXIO => 6 | EACCES => 13 | EIO => 5 | ECANCELED => 140 | EALREADY => 120 | EDOM => 33
  | ENODEV => 19 | EPERM => 1 | ENOENT => 2 | EAGAIN => 11 | ENODATA => 61 | EPROTO => 71
  | EOVERFLOW => 139 | ENOBUFS => 105 | ETIMEDOUT => 116 | EEXIST => 17 | ENOTEMPTY => 90
  | ESRCH => 3 | ENOMSG => 35 | ESPIPE => 29 | ENOEXEC => 8 | EOPNOTSUPP => 95 | ENOTCONN => 128
  | EROFS => 30
  | EMODEM code => code
  end.

#[export] Instance errno_eq_dec : EqDecision errno.
Proof. solve_decision. Defined.

Inductive res (A : Type) :=
  | Ok (a : A)
  | Err (e : errno)
  | Fault
  | NoFuel.
Arguments Ok {A} a.
Arguments Err {A} e.
Arguments Fault {A}.
Arguments NoFuel {A}.

#[export] Instance res_ret : MRet res := @Ok.
#[export] Instance res_bind : MBind res := fun A B f m =>
  match m with
  | Ok a => f a
  | Err e => Err e
  | Fault => Fault
  | NoFuel => NoFuel
  end.

#[export] Instance res_eq_dec {A} `{EqDecision A} : EqDecision (res A).
Proof. solve_decision. Defined.

Declare Scope c_scope.
Delimit Scope c_scope with c.
Open Scope c_scope.

Notation "'let*' x ':=' c 'in' k" := (mbind (M := res) (fun x => k) c)
  (at level 10, x name, c at level 100, k at level 200) : c_scope.
Notation "'let*' ' p ':=' c 'in' k" :=
  (mbind (M := res) (fun x => match x with p => k end) c)
  (at level 10, p strict pattern, c at level 100, k at level 200) : c_scope.

(** A result that is neither undefined behaviour nor an unfinished loop. *)
Definition safe {A} (r : res A) : Prop :=
  match r with Ok _ | Err _ => True | Fault | NoFuel => False end.

Lemma bind_Ok_inv {A B} (m : res A) (f : A -> res B) b :
  (let* x := m in f x) = Ok b -> exists a, m = Ok a /\ f a = Ok b.
Proof. destruct m; cbn; try discriminate; eauto. Qed.

Lemma safe_bind {A B} (m : res A) (f : A -> res B) :
  safe m -> (forall a, m = Ok a -> safe (f a)) -> safe (let* x := m in f x).
Proof. destruct m; cbn; auto. Qed.

(** The result is safe, and [Q] holds of it if the call succeeds. *)
Definition post {A} (r : res A) (Q : A -> Prop) : Prop :=
  match r with Ok a => Q a | Err _ => True | Fault | NoFuel => False end.

Lemma post_bind {A B} (m : res A) (f : A -> res B) Q :
  post m (fun a => post (f a) Q) -> post (let* x := m in f x) Q.
Proof. by destruct m. Qed.

Lemma post_impl {A} (r : res A) (P Q : A -> Prop) :
  post r P -> (forall a, P a -> Q a) -> post r Q.
Proof. destruct r; cbn; auto. Qed.

Lemma post_safe {A} (r : res A) Q : post r Q -> safe r.
Proof. by destruct r. Qed.

(** ** Machine integers *)

Definition u8 (z : Z) : Z := z mod 2 ^ 8.
Definition u16 (z : Z) : Z := z mod 2 ^ 16.
Definition u32 (z : Z) : Z := z mod 2 ^ 32.

(** Conversion to a signed [w]-bit integer (two's complement). *)
Definition sint (w z : Z) : Z :=
  let m := z mod 2 ^ w in if m <? 2 ^ (w - 1) then m else m - 2 ^ w.
Definition i8 (z : Z) : Z := sint 8 z.

(** A value of at most [w] bits. *)
Definition bits (w z : Z) : Prop := 0 <= z < 2 ^ w.
Abbreviation byte := (bits 8).
Abbreviation bytes := (Forall (bits 8)).
Abbreviation septets := (Forall (bits 7)).

#[export] Instance bits_dec w z : Decision (bits w z).
Proof. unfold bits. apply _. Defined.

(** The truth value a C condition gives an integer. *)
Definition ctrue (z : Z) : bool := negb (z =? 0).

Lemma u8_range z : 0 <= u8 z < 256.
Proof. unfold u8. change (2 ^ 8) with 256. apply Z.mod_pos_bound. lia. Qed.
Lemma u16_range z : 0 <= u16 z < 65536.
Proof. unfold u16. change (2 ^ 16) with 65536. apply Z.mod_pos_bound. lia. Qed.
Lemma u32_range z : 0 <= u32 z < 4294967296.
Proof. unfold u32. change (2 ^ 32) with 4294967296. apply Z.mod_pos_bound. lia. Qed.
Lemma u8_small z : 0 <= z < 256 -> u8 z = z.
Proof. intros. apply Z.mod_small. lia. Qed.
Lemma u16_small z : 0 <= z < 65536 -> u16 z = z.
Proof. intros. apply Z.mod_small. lia. Qed.
Lemma u32_small z : 0 <= z < 4294967296 -> u32 z = z.
Proof. intros. apply Z.mod_small. lia. Qed.
Lemma i8_small z : -128 <= z < 128 -> i8 z = z.
Proof.
  intros. unfold i8, sint. change (2 ^ (8 - 1)) with 128. change (2 ^ 8) with 256.
  destruct (decide (0 <= z)).
  - rewrite Z.mod_small by lia. destruct (Z.ltb_spec z 128); lia.
  - replace (z mod 256) with (z + 256); [destruct (Z.ltb_spec (z + 256) 128); lia|].
    apply Z.mod_unique with (-1); lia.
Qed.

Create HintDb cint.
Create Rewrite HintDb cint.
#[export] Hint Resolve u8_range u16_range u32_range : cint.
#[export] Hint Rewrite u8_small u16_small u32_small i8_small using lia : cint.

(** Evaluates conversions of values in range. *)
Ltac csimp := autorewrite with cint in *.

(** ** Bit-level reasoning *)

Lemma bits_testbit_high w z n : 0 <= w -> bits w z -> w <= n -> Z.testbit z n = false.
Proof.
  intros Hw Hz Hn. rewrite <- (Z.mod_small z (2 ^ w)) by exact Hz.
  apply Z.mod_pow2_bits_high. lia.
Qed.

Lemma bits_inj_below w a b :
  0 <= w -> bits w a -> bits w b ->
  (forall n, 0 <= n < w -> Z.testbit a n = Z.testbit b n) -> a = b.
Proof.
  intros Hw Ha Hb H. apply Z.bits_inj'. intros n Hn.
  destruct (decide (n < w)); [apply H; lia|].
  by rewrite !(bits_testbit_high w) by (done || lia).
Qed.

Lemma bits_mod w z : 0 <= w -> bits w (z mod 2 ^ w).
Proof. intros. apply Z.mod_pos_bound. lia. Qed.

Lemma bits_mono v w z : 0 <= v <= w -> bits v z -> bits w z.
Proof. intros Hv [??]. split; [done|]. pose proof (Z.pow_le_mono_r 2 v w). lia. Qed.

Lemma bits_land w a b : 0 <= w -> bits w a -> bits w (Z.land a b).
Proof.
  intros Hw Ha. rewrite <- (Z.mod_small a (2 ^ w)) by exact Ha.
  rewrite <- Z.land_ones by lia.
  replace (Z.land (Z.land a (Z.ones w)) b) with (Z.land (Z.land a b) (Z.ones w)).
  - rewrite Z.land_ones by lia. by apply bits_mod.
  - apply Z.bits_inj'. intros. rewrite !Z.land_spec. btauto.
Qed.

Lemma bits_land_r w a b : 0 <= w -> bits w b -> bits w (Z.land a b).
Proof. intros. rewrite Z.land_comm. by apply bits_land. Qed.

#[export] Hint Resolve bits_mod bits_land bits_land_r : cint.

Lemma shiftr_byte b n : 0 <= n -> bits 8 b -> bits 8 (Z.shiftr b n).
Proof.
  intros Hn [??]. rewrite Z.shiftr_div_pow2 by lia. split.
  - apply Z.div_pos; lia.
  - apply Z.le_lt_trans with b; [|done].
    apply Z.div_le_upper_bound; [lia|]. pose proof (Z.pow_pos_nonneg 2 n). nia.
Qed.

(** ** Buffers

    An array of C is the list of its elements. Reading or writing outside it
    is a [Fault]; indices are integers, as in the code. *)

Definition rd (m : list Z) (i : Z) : res Z :=
  if i <? 0 then Fault else
  match m !! Z.to_nat i with Some v => Ok v | None => Fault end.

Definition wr (m : list Z) (i v : Z) : res (list Z) :=
  if (i <? 0) || (Z.of_nat (length m) <=? i) then Fault
  else Ok (<[Z.to_nat i := v]> m).

(** The [n] elements from [off], the source of a [memcpy]. *)
Definition rd_block (m : list Z) (off n : Z) : res (list Z) :=
  if (off <? 0) || (n <? 0) || (Z.of_nat (length m) <? off + n) then Fault
  else Ok (take (Z.to_nat n) (drop (Z.to_nat off) m)).

(** The elements [bs] stored from [off], the destination of a [memcpy]. *)
Definition wr_block (m : list Z) (off : Z) (bs : list Z) : res (list Z) :=
  if (off <? 0) || (Z.of_nat (length m) <? off + Z.of_nat (length bs)) then Fault
  else Ok (take (Z.to_nat off) m ++ bs ++ drop (Z.to_nat off + length bs) m).

(** Value of an element of a list, [0] outside it. *)
Definition zth (m : list Z) (i : Z) : Z := default 0 (m !! Z.to_nat i).

(** Length of a list as an integer. *)
Abbreviation zlen m := (Z.of_nat (length m)).

Lemma rd_Ok m i : 0 <= i < zlen m -> rd m i = Ok (zth m i).
Proof.
  intros Hi. unfold rd, zth. destruct (Z.ltb_spec i 0); [lia|].
  destruct (m !! Z.to_nat i) eqn:E; [done|].
  apply lookup_ge_None in E. lia.
Qed.

Lemma rd_Ok_inv m i v : rd m i = Ok v -> 0 <= i < zlen m /\ v = zth m i.
Proof.
  unfold rd, zth. destruct (Z.ltb_spec i 0); [done|].
  destruct (m !! Z.to_nat i) eqn:E; intros [= <-].
  apply lookup_lt_Some in E. split; [lia|done].
Qed.

Lemma rd_Fault m i : ~ (0 <= i < zlen m) -> rd m i = Fault.
Proof.
  intros Hi. unfold rd. destruct (Z.ltb_spec i 0); [done|].
  by rewrite lookup_ge_None_2 by lia.
Qed.

Lemma wr_Ok m i v : 0 <= i < zlen m -> wr m i v = Ok (<[Z.to_nat i := v]> m).
Proof.
  intros Hi. unfold wr. destruct (Z.ltb_spec i 0); [lia|].
  destruct (Z.leb_spec (zlen m) i); [lia|done].
Qed.

Lemma wr_Ok_inv m i v m' :
  wr m i v = Ok m' -> 0 <= i < zlen m /\ m' = <[Z.to_nat i := v]> m.
Proof.
  unfold wr. destruct (Z.ltb_spec i 0); [done|].
  destruct (Z.leb_spec (zlen m) i); [done|]. intros [= <-]. split; [lia|done].
Qed.

Lemma rd_block_Ok m off n :
  0 <= off -> 0 <= n -> off + n <= zlen m ->
  rd_block m off n = Ok (take (Z.to_nat n) (drop (Z.to_nat off) m)).
Proof.
  intros. unfold rd_block. destruct (Z.ltb_spec off 0); [lia|].
  destruct (Z.ltb_spec n 0); [lia|]. by destruct (Z.ltb_spec (zlen m) (off + n)); [lia|].
Qed.

Lemma wr_block_Ok m off bs :
  0 <= off -> off + zlen bs <= zlen m ->
  wr_block m off bs =
    Ok (take (Z.to_nat off) m ++ bs ++ drop (Z.to_nat off + length bs) m).
Proof.
  intros. unfold wr_block. destruct (Z.ltb_spec off 0); [lia|].
  by destruct (Z.ltb_spec (zlen m) (off + zlen bs)); [lia|].
Qed.

Lemma rd_block_middle (pre text rest : list Z) :
  rd_block (pre ++ text ++ rest) (zlen pre) (zlen text) = Ok text.
Proof.
  rewrite rd_block_Ok by (rewrite ?length_app; lia).
  by rewrite !Nat2Z.id, drop_app_length, take_app_length.
Qed.

Lemma rd_block_start (text rest : list Z) : rd_block (text ++ rest) 0 (zlen text) = Ok text.
Proof. apply (rd_block_middle []). Qed.

Lemma wr_block_start m bs :
  zlen bs <= zlen m -> wr_block m 0 bs = Ok (bs ++ drop (length bs) m).
Proof. intros H. by rewrite wr_block_Ok by lia. Qed.

Lemma post_rd m i Q : 0 <= i < zlen m -> Q (zth m i) -> post (rd m i) Q.
Proof. intros Hi HQ. by rewrite rd_Ok. Qed.

Lemma post_rd_byte m i (Q : Z -> Prop) :
  bytes m -> 0 <= i < zlen m -> (forall v, byte v -> Q v) -> post (rd m i) Q.
Proof.
  intros Hm Hi HQ. apply post_rd; [done|]. apply HQ. unfold zth.
  destruct (m !! Z.to_nat i) eqn:E; cbn; [by eapply Forall_lookup_1|done].
Qed.

Lemma post_wr m i v (Q : list Z -> Prop) :
  0 <= i < zlen m -> (forall m', length m' = length m -> Q m') -> post (wr m i v) Q.
Proof. intros Hi HQ. rewrite wr_Ok by done. apply HQ, length_insert. Qed.

Lemma post_wr_block m off bs (Q : list Z -> Prop) :
  0 <= off -> off + zlen bs <= zlen m -> (forall m', length m' = length m -> Q m') ->
  post (wr_block m off bs) Q.
Proof.
  intros Ho Hl HQ. rewrite wr_block_Ok by done. apply HQ.
  rewrite !length_app, length_take, length_drop. lia.
Qed.

Lemma post_rd_block m off n (Q : list Z -> Prop) :
  bytes m -> 0 <= off -> 0 <= n -> off + n <= zlen m ->
  (forall bs, bytes bs -> zlen bs = n -> Q bs) -> post (rd_block m off n) Q.
Proof.
  intros Hm Ho Hn Hl HQ. rewrite rd_block_Ok by done. apply HQ.
  - by apply Forall_take, Forall_drop.
  - rewrite length_take, length_drop. lia.
Qed.

(** [gives r Q]: the function ends without an error, and [Q] holds of its result. *)
Definition gives {A} (r : res A) (Q : A -> Prop) : Prop := exists a, r = Ok a /\ Q a.

Lemma gives_bind {A B} (m : res A) (f : A -> res B) Q :
  gives m (fun a => gives (f a) Q) -> gives (let* x := m in f x) Q.
Proof. intros (a & -> & H). exact H. Qed.
Lemma gives_Ok {A} (a : A) (Q : A -> Prop) : Q a -> gives (Ok a) Q.
Proof. intros H. by exists a. Qed.
Lemma gives_impl {A} (r : res A) (P Q : A -> Prop) : gives r P -> (forall a, P a -> Q a) -> gives r Q.
Proof. intros (a & -> & H) HPQ. exists a. auto. Qed.
Lemma gives_wr m i v (Q : list Z -> Prop) :
  0 <= i < zlen m -> (forall m', length m' = length m -> Q m') -> gives (wr m i v) Q.
Proof. intros Hi HQ. rewrite wr_Ok by done. apply gives_Ok, HQ, length_insert. Qed.
Lemma gives_wr_block m off bs (Q : list Z -> Prop) :
  0 <= off -> off + zlen bs <= zlen m -> (forall m', length m' = length m -> Q m') -> gives (wr_block m off bs) Q.
Proof.
  intros Ho Hl HQ. rewrite wr_block_Ok by done. apply gives_Ok, HQ.
  rewrite !length_app, length_take, length_drop. lia.
Qed.
Lemma gives_rd_block m off n (Q : list Z -> Prop) :
  0 <= off -> 0 <= n -> off + n <= zlen m -> (forall bs, zlen bs = n -> Q bs) -> gives (rd_block m off n) Q.
Proof. intros Ho Hn Hl HQ. rewrite rd_block_Ok by done. apply gives_Ok, HQ. rewrite length_take, length_drop. lia. Qed.
Lemma gives_rd m i (Q : Z -> Prop) : 0 <= i < zlen m -> Q (zth m i) -> gives (rd m i) Q.
Proof. intros Hi HQ. by rewrite rd_Ok; [apply gives_Ok|]. Qed.
Lemma gives_then {A B} (m : res A) (f : A -> res B) P Q :
  gives m P -> (forall a, P a -> gives (f a) Q) -> gives (let* x := m in f x) Q.
Proof. intros (a & -> & Ha) Hf. by apply Hf. Qed.

Lemma zth_insert m i j v :
  0 <= i < zlen m -> 0 <= j ->
  zth (<[Z.to_nat i := v]> m) j = if decide (i = j) then v else zth m j.
Proof.
  intros Hi Hj. unfold zth. case_decide as E.
  - subst j. by rewrite list_lookup_insert_eq by lia.
  - by rewrite list_lookup_insert_ne by lia.
Qed.

Lemma zth_Forall (P : Z -> Prop) m i : P 0 -> Forall P m -> P (zth m i).
Proof.
  intros H0 Hm. unfold zth. destruct (m !! Z.to_nat i) eqn:E; [|done].
  by eapply Forall_lookup_1.
Qed.

Lemma zth_out m i : zlen m <= i -> zth m i = 0.
Proof. intros. unfold zth. by rewrite lookup_ge_None_2 by lia. Qed.

Lemma zth_take m n i : 0 <= i < n -> zth (take (Z.to_nat n) m) i = zth m i.
Proof. intros. unfold zth. by rewrite lookup_take_lt by lia. Qed.

Lemma zth_drop m n i : 0 <= i -> 0 <= n -> zth (drop (Z.to_nat n) m) i = zth m (n + i).
Proof. intros. unfold zth. rewrite lookup_drop. do 2 f_equal. lia. Qed.

Lemma zth_app_l l k i : 0 <= i < zlen l -> zth (l ++ k) i = zth l i.
Proof. intros. unfold zth. by rewrite lookup_app_l by lia. Qed.

Lemma zth_app_r l k i : zlen l <= i -> zth (l ++ k) i = zth k (i - zlen l).
Proof.
  intros. unfold zth. rewrite lookup_app_r by lia. do 2 f_equal. lia.
Qed.

Lemma zth_zeros l n i : 0 <= i -> zth (l ++ replicate n 0) i = zth l i.
Proof.
  intros Hi. destruct (Z.lt_ge_cases i (zlen l)); [by apply zth_app_l|].
  rewrite zth_app_r, (zth_out l) by done. unfold zth.
  destruct (replicate n 0 !! Z.to_nat (i - zlen l)) eqn:E; [|done].
  by apply lookup_replicate in E as [-> _].
Qed.

Lemma zth_ext l k :
  length l = length k -> (forall i, 0 <= i < zlen l -> zth l i = zth k i) -> l = k.
Proof.
  intros Hlen H. apply list_eq_same_length with (length k); [done..|].
  intros i x y Hi Hx Hy. specialize (H (Z.of_nat i)). unfold zth in H.
  rewrite Nat2Z.id, Hx, Hy in H. cbn in H. apply H. lia.
Qed.

Lemma u8_lor_u8 a b : u8 (Z.lor (u8 a) b) = u8 (Z.lor a b).
Proof.
  unfold u8. apply Z.bits_inj'. intros n Hn. destruct (decide (n < 8)).
  - rewrite !Z.mod_pow2_bits_low, !Z.lor_spec, Z.mod_pow2_bits_low by lia. done.
  - by rewrite !Z.mod_pow2_bits_high by lia.
Qed.

(** Lengths of updated buffers. *)
Create Rewrite HintDb clen.
#[export] Hint Rewrite @length_insert @length_app @length_take @length_drop
  @length_replicate @length_fmap : clen.

(** Runs the reads and writes whose index is within its buffer. *)
Ltac cstep := cbn [mbind res_bind].
Ltac cmem :=
  cstep; repeat
    (first [ rewrite rd_Ok by (autorewrite with clen; lia)
           | rewrite wr_Ok by (autorewrite with clen; lia)
           | rewrite rd_block_Ok by (autorewrite with clen; lia)
           | rewrite wr_block_Ok by (autorewrite with clen; lia) ]; cstep).

(** Extending a prefix taken from [a] over the rest of [b] by one element. *)
Lemma prefix_insert (a b : list Z) i :
  0 <= i < zlen a -> zlen a <= zlen b ->
  <[Z.to_nat i := zth a i]> (take (Z.to_nat i) a ++ drop (Z.to_nat i) b) =
    take (Z.to_nat (i + 1)) a ++ drop (Z.to_nat (i + 1)) b.
Proof.
  intros Hi Hlen. apply zth_ext; autorewrite with clen; [lia|]. intros j Hj.
  rewrite zth_insert by (autorewrite with clen; lia). case_decide as E.
  - subst j. rewrite zth_app_l by (autorewrite with clen; lia). by rewrite zth_take by lia.
  - destruct (decide (j < i)).
    + rewrite !zth_app_l by (autorewrite with clen; lia). by rewrite !zth_take by lia.
    + rewrite !zth_app_r by (autorewrite with clen; lia). autorewrite with clen.
      rewrite !zth_drop by lia. f_equal. lia.
Qed.

(** A property of bytes is checked by evaluating it on all of them. *)
Lemma byte_check (P : Z -> bool) :
  forallb P (seqZ 0 256) = true -> forall c, byte c -> P c = true.
Proof.
  intros H c [??]. rewrite forallb_forall in H. apply H.
  apply list_elem_of_In, elem_of_seqZ. change (2 ^ 8) with 256 in *. lia.
Qed.

Lemma zth_middle l x k : zth (l ++ x :: k) (zlen l) = x.
Proof. rewrite zth_app_r by lia. rewrite Z.sub_diag. done. Qed.

(** Writing just behind the part [e] of a buffer that is already filled. *)
Lemma wr_append e rest i v :
  i = zlen e -> 0 < zlen rest -> wr (e ++ rest) i v = Ok ((e ++ [v]) ++ drop 1 rest).
Proof.
  intros -> Hr. rewrite wr_Ok by (autorewrite with clen; lia).
  rewrite Nat2Z.id. destruct rest as [|x rest]; [cbn in Hr; lia|].
  rewrite insert_app_r_alt by lia. rewrite Nat.sub_diag. cbn. by rewrite <- app_assoc.
Qed.

(** Decides a closed proposition by evaluating its decision procedure. *)
Ltac by_compute := apply (bool_decide_unpack _); vm_compute; exact I.

(** ** C strings *)

(** Induction on a list two elements at a time. *)
Lemma list_ind2 {A} (P : list A -> Prop) :
  P [] -> (forall x, P [x]) -> (forall x y l, P l -> P (x :: y :: l)) -> forall l, P l.
Proof.
  intros H0 H1 H2. enough (H : forall l, P l /\ forall x, P (x :: l)) by apply H.
  induction l as [|y l [IH IH']]; auto.
Qed.

(** The characters of a literal. *)
Definition chars (s : string) : list Z :=
  (fun a => Z.of_N (Ascii.N_of_ascii a)) <$> String.list_ascii_of_string s.

(** The string in a buffer: the characters before the first [NUL]. *)
Fixpoint cstr (m : list Z) : list Z :=
  match m with
  | [] => []
  | c :: m => if c =? 0 then [] else c :: cstr m
  end.

(** [strlen]: the NUL has to be inside the object. *)
Fixpoint strlen (m : list Z) : res Z :=
  match m with
  | [] => Fault
  | c :: m => if c =? 0 then Ok 0 else let* n := strlen m in Ok (n + 1)
  end.

Lemma strlen_app s m : Forall (fun c => c <> 0) s -> strlen (s ++ 0 :: m) = Ok (zlen s).
Proof.
  induction 1 as [|c s Hc _ IH]; [done|]. cbn [app strlen].
  destruct (Z.eqb_spec c 0); [done|]. rewrite IH. cbn. f_equal. lia.
Qed.

Lemma cstr_app s m : Forall (fun c => c <> 0) s -> cstr (s ++ 0 :: m) = s.
Proof.
  induction 1 as [|c s Hc Hs IH]; cbn; [done|].
  destruct (Z.eqb_spec c 0); [done|]. by rewrite IH.
Qed.

(** [%d] of a non-negative integer; ten digits cover the 32-bit ones. *)
Fixpoint dec_digits (fuel : nat) (z : Z) : list Z :=
  match fuel with
  | O => []
  | S fuel => if z <? 10 then [48 + z] else dec_digits fuel (z / 10) ++ [48 + z mod 10]
  end.
Definition dec (z : Z) : list Z := dec_digits 10 z.

(** [%02X] of a byte. *)
Definition hex_digit (d : Z) : Z := if d <? 10 then 48 + d else 55 + d.
Definition hex2 (b : Z) : list Z := [hex_digit (b / 16); hex_digit (b mod 16)].
Definition hex_string (bs : list Z) : list Z := bs ≫= hex2.

(** Value of a hexadecimal digit, of either case. *)
Definition unhex_digit (c : Z) : option Z :=
  if (48 <=? c) && (c <=? 57) then Some (c - 48)
  else if (65 <=? c) && (c <=? 70) then Some (c - 55)
  else if (97 <=? c) && (c <=? 102) then Some (c - 87)
  else None.

(** The bytes a hexadecimal string denotes. *)
Fixpoint unhex (s : list Z) : option (list Z) :=
  match s with
  | [] => Some []
  | h :: l :: s =>
    h ← unhex_digit h; l ← unhex_digit l; bs ← unhex s; Some (16 * h + l :: bs)
  | _ => None
  end.

Lemma unhex_hex2 b s : byte b -> unhex (hex2 b ++ s) = (bs ← unhex s; Some (b :: bs)).
Proof.
  intros Hb.
  assert (H : match unhex_digit (hex_digit (b / 16)), unhex_digit (hex_digit (b mod 16)) with
    | Some h, Some l => 16 * h + l =? b | _, _ => false end = true).
  { revert b Hb. apply byte_check. vm_compute. done. }
  cbn [hex2 app unhex]. destruct (unhex_digit (hex_digit (b / 16))) as [h|]; [|done].
  destruct (unhex_digit (hex_digit (b mod 16))) as [l|]; [|done].
  apply Z.eqb_eq in H. cbn [mbind option_bind]. by rewrite H.
Qed.

Lemma unhex_hex_string bs : bytes bs -> unhex (hex_string bs) = Some bs.
Proof.
  induction 1 as [|b bs Hb Hbs IH]; [done|].
  change (hex_string (b :: bs)) with (hex2 b ++ hex_string bs).
  rewrite unhex_hex2, IH by done. done.
Qed.

Lemma length_hex_string bs : length (hex_string bs) = (2 * length bs)%nat.
Proof.
  induction bs as [|b bs IH]; [done|].
  change (hex_string (b :: bs)) with (hex2 b ++ hex_string bs).
  rewrite length_app, IH. cbn. lia.
Qed.

Lemma unhex_length s bs : unhex s = Some bs -> zlen s = 2 * zlen bs.
Proof.
  revert bs. induction s as [|c|c1 c2 s IH] using list_ind2; intros bs; cbn [unhex].
  - by intros [= <-].
  - done.
  - intros H. repeat (apply bind_Some in H as (? & ? & H)). simplify_eq.
    cbn [length]. rewrite !Nat2Z.inj_succ, (IH _ H2). lia.
Qed.

Lemma unhex_digit_range c d : unhex_digit c = Some d -> 0 <= d < 16.
Proof. unfold unhex_digit. intros. repeat case_match; simplify_eq; lia. Qed.

Lemma unhex_bytes s bs : unhex s = Some bs -> bytes bs.
Proof.
  revert bs. induction s as [|c|c1 c2 s IH] using list_ind2; intros bs; cbn [unhex].
  - intros [= <-]. constructor.
  - done.
  - intros H. apply bind_Some in H as (h & Hh & H). apply bind_Some in H as (l & Hl & H).
    apply bind_Some in H as (bs' & Hbs & [= <-]).
    apply unhex_digit_range in Hh, Hl. constructor; [|by apply IH].
    split; change (2 ^ 8) with 256; lia.
Qed.

(** ** Contents of a buffer at a position *)

(** The buffer holds [l] from position [pos]. *)
Definition seen (b : list Z) (pos : Z) (l : list Z) : Prop :=
  0 <= pos /\ take (length l) (drop (Z.to_nat pos) b) = l.

Lemma seen_length b pos l : seen b pos l -> pos + zlen l <= zlen b \/ l = [].
Proof.
  intros [Hp Hl]. apply (f_equal length) in Hl. revert Hl. autorewrite with clen.
  destruct l; [by right|left; cbn [length] in *; lia].
Qed.

Lemma seen_zth b pos l k : seen b pos l -> 0 <= k < zlen l -> zth b (pos + k) = zth l k.
Proof.
  intros [Hp Hl] Hk. rewrite <- Hl. unfold zth.
  rewrite lookup_take_lt, lookup_drop by lia. do 2 f_equal. lia.
Qed.

Lemma rd_seen b pos l k : seen b pos l -> 0 <= k < zlen l -> rd b (pos + k) = Ok (zth l k).
Proof.
  intros Hs Hk. rewrite rd_Ok; [by rewrite (seen_zth b pos l k)|].
  destruct (seen_length _ _ _ Hs) as [?| ->]; [destruct Hs; lia|cbn in *; lia].
Qed.

Lemma rd_seen0 b pos x l : seen b pos (x :: l) -> rd b pos = Ok x.
Proof.
  intros H. rewrite <- (Z.add_0_r pos). apply (rd_seen b pos (x :: l) 0 H). cbn. lia.
Qed.

Lemma seen_app b pos l k : seen b pos (l ++ k) <-> seen b pos l /\ seen b (pos + zlen l) k.
Proof.
  unfold seen. rewrite length_app. split.
  - intros [Hp H]. assert (Hd : drop (Z.to_nat pos) b =
      (l ++ k) ++ drop (length l + length k) (drop (Z.to_nat pos) b))
      by (rewrite <- H at 1; by rewrite take_drop).
    split; [split; [done|]|split; [lia|]].
    + rewrite Hd, <- app_assoc. apply take_app_length.
    + rewrite Z2Nat.inj_add, Nat2Z.id, <- drop_drop, Hd, <- app_assoc by lia.
      rewrite drop_app_length. apply take_app_length.
  - intros [[Hp Hl] [_ Hk]]. split; [done|].
    rewrite Z2Nat.inj_add, Nat2Z.id, <- drop_drop in Hk by lia.
    rewrite <- (take_drop (length l) (drop (Z.to_nat pos) b)), Hl.
    rewrite take_app_add, Hk. done.
Qed.

Lemma seen_cons b pos x l : seen b pos (x :: l) <-> seen b pos [x] /\ seen b (pos + 1) l.
Proof. apply (seen_app b pos [x] l). Qed.

Lemma rd_block_seen b pos l : seen b pos l -> pos <= zlen b -> rd_block b pos (zlen l) = Ok l.
Proof.
  intros Hs Hp. pose proof (seen_length _ _ _ Hs) as Hl. destruct Hs as [Hp0 Hs].
  rewrite rd_block_Ok by (destruct Hl as [?| ->]; cbn; lia).
  by rewrite Nat2Z.id, Hs.
Qed.

Lemma seen_here l k : seen (l ++ k) 0 l.
Proof. split; [lia|]. apply take_app_length. Qed.

(** Storing a block just behind the part [e] of a buffer that is filled. *)
Lemma wr_block_append e rest i bs :
  i = zlen e -> (length bs <= length rest)%nat ->
  wr_block (e ++ rest) i bs = Ok (e ++ bs ++ drop (length bs) rest).
Proof.
  intros -> Hr. rewrite wr_block_Ok by (autorewrite with clen; lia).
  by rewrite Nat2Z.id, take_app_length, <- drop_drop, drop_app_length.
Qed.

Lemma seen_all l : seen l 0 l.
Proof. split; [lia|]. by apply take_ge. Qed.

(** A property of a range of integers is checked by evaluating it on them. *)
Lemma range_check (P : Z -> bool) lo n :
  forallb P (seqZ lo n) = true -> forall c, lo <= c < lo + n -> P c = true.
Proof.
  intros H c Hc. rewrite forallb_forall in H. apply H.
  apply list_elem_of_In, elem_of_seqZ. lia.
Qed.

(** Two bytes read as a big-endian 16-bit integer. *)
Lemma lor_be16 a b : byte a -> byte b -> Z.lor (u16 (Z.shiftl a 8)) b = 256 * a + b.
Proof.
  intros [??] [??]. change (2 ^ 8) with 256 in *.
  rewrite Z.shiftl_mul_pow2, u16_small by lia.
  pose proof (Z.add_lor_land (a * 2 ^ 8) b) as H'.
  enough (E : Z.land (a * 2 ^ 8) b = 0) by (rewrite E in H'; lia).
  apply Z.bits_inj'. intros n Hn. rewrite Z.land_spec, Z.bits_0.
  destruct (decide (n < 8)).
  - by rewrite Z.mul_pow2_bits_low by lia.
  - by rewrite (bits_testbit_high 8 b), andb_false_r by (done || lia).
Qed.

Lemma seen_Forall (P : Z -> Prop) b pos l : Forall P b -> seen b pos l -> Forall P l.
Proof. intros Hb [_ <-]. by apply Forall_take, Forall_drop. Qed.

Lemma seen_zth_one b pos : 0 <= pos < zlen b -> seen b pos [zth b pos].
Proof.
  intros Hp. split; [lia|]. unfold zth.
  destruct (b !! Z.to_nat pos) as [x|] eqn:E; [|apply lookup_ge_None in E; lia].
  by rewrite (drop_S _ x) by done.
Qed.

Lemma seen_take b pos n :
  0 <= pos -> 0 <= n -> seen b pos (take (Z.to_nat n) (drop (Z.to_nat pos) b)).
Proof.
  intros Hp Hn. split; [done|]. rewrite length_take.
  destruct (decide (Z.to_nat n <= length (drop (Z.to_nat pos) b))%nat).
  - by rewrite Nat.min_l.
  - rewrite Nat.min_r by lia. rewrite !take_ge by lia. done.
Qed.

Lemma seen_drop b pos l : seen b pos l -> drop (Z.to_nat pos) b = l ++ drop (Z.to_nat pos + length l) b.
Proof. intros [_ Hl]. rewrite <- drop_drop. rewrite <- Hl at 1. by rewrite take_drop. Qed.

(** What is seen behind a pointer that was advanced. *)
Lemma seen_shift b n pos l : 0 <= n -> 0 <= pos -> seen b (n + pos) l <-> seen (drop (Z.to_nat n) b) pos l.
Proof.
  intros Hn Hp. unfold seen. rewrite drop_drop, <- Z2Nat.inj_add by done. split; intros [_ H]; (split; [lia|done]).
Qed.

(** Stores that follow each other. *)
Lemma wr_block_next e rest i bs :
  i = zlen e -> zlen bs <= zlen rest ->
  wr_block (e ++ rest) i bs = Ok ((e ++ bs) ++ drop (length bs) rest).
Proof. intros. rewrite wr_block_append by (done || lia). by rewrite app_assoc. Qed.

(** The next of several stores that follow each other; the sizes are found by
    arithmetic. *)
Ltac zsize := cbn [length] in *; rewrite ?length_app, ?length_drop in *; cbn [length] in *; lia.
Ltac store := first [rewrite wr_append by zsize | rewrite wr_block_next by zsize]; cstep.
