(* ===== verification/Digits.v ===== *)
(** * Little-endian digit strings

    A list of [w]-bit digits, least significant first, and the integer it
    denotes. The 7-bit packing of SMS text is the change of representation of
    one integer from 7-bit to 8-bit digits; the byte orders of the NDEF length
    fields are the same digits read the other way round. *)

From stdpp Require Import prelude.
From Stdlib Require Import ZArith Lia Btauto.
From S2P Require Import Prelude.

Open Scope Z_scope.

(** The integer denoted by the digits [l]. *)
Fixpoint value (w : Z) (l : list Z) : Z :=
  match l with
  | [] => 0
  | d :: l => d + 2 ^ w * value w l
  end.

(** The [n] lowest digits of [v]. *)
Fixpoint digits (w : Z) (n : nat) (v : Z) : list Z :=
  match n with
  | O => []
  | S n => v mod 2 ^ w :: digits w n (v / 2 ^ w)
  end.

Lemma length_digits w n v : length (digits w n v) = n.
Proof. revert v. induction n; intros; cbn; [done|by rewrite IHn]. Qed.

Lemma digits_bits w n v : 0 <= w -> Forall (bits w) (digits w n v).
Proof. intros Hw. revert v. induction n; intros; cbn; auto with cint. Qed.

Lemma value_bits w l : 0 <= w -> Forall (bits w) l -> bits (w * zlen l) (value w l).
Proof.
  intros Hw. induction 1 as [|d l Hd Hl IH]; cbn -[Z.mul Z.of_nat].
  { rewrite Z.mul_0_r. unfold bits. cbn. lia. }
  rewrite Nat2Z.inj_succ, Z.mul_succ_r. unfold bits in *.
  rewrite Z.pow_add_r by lia. nia.
Qed.

Lemma value_app w l k :
  0 <= w -> value w (l ++ k) = value w l + 2 ^ (w * zlen l) * value w k.
Proof.
  intros Hw. induction l as [|d l IH]; cbn -[Z.mul Z.of_nat].
  { rewrite Z.mul_0_r. lia. }
  rewrite IH, Nat2Z.inj_succ, Z.mul_succ_r, Z.pow_add_r by lia. lia.
Qed.

(** Bit [i] of the integer is bit [i mod w] of digit [i / w]. *)
Lemma value_testbit w l i :
  0 < w -> Forall (bits w) l -> 0 <= i ->
  Z.testbit (value w l) i = Z.testbit (zth l (i / w)) (i mod w).
Proof.
  intros Hw Hl. revert i. induction Hl as [|d l Hd Hl IH]; intros i Hi.
  { cbn [value]. unfold zth. cbn. by rewrite !Z.testbit_0_l. }
  cbn [value]. pose proof (Z.mod_pos_bound i w Hw).
  pose proof (Z.pow_pos_nonneg 2 w).
  destruct (decide (i < w)) as [Hlt|Hge].
  - rewrite Z.div_small, Z.mod_small by lia.
    rewrite <- (Z.mod_pow2_bits_low _ w) by lia.
    rewrite Z.mul_comm, Z.mod_add by lia. by rewrite Z.mod_small.
  - replace i with ((i - w) + w) at 1 by lia.
    rewrite <- Z.div_pow2_bits by lia.
    rewrite Z.mul_comm, Z.div_add, Z.div_small, Z.add_0_l by (exact Hd || lia).
    rewrite IH by lia. f_equal.
    + unfold zth. replace (i / w) with (1 + (i - w) / w).
      * rewrite Z2Nat.inj_add by (try apply Z.div_pos; lia). done.
      * replace i with ((i - w) + 1 * w) at 2 by lia. rewrite Z.div_add by lia. lia.
    + replace i with ((i - w) + 1 * w) at 2 by lia. by rewrite Z.mod_add by lia.
Qed.

Lemma digits_zth w n v j :
  0 <= w -> 0 <= j < Z.of_nat n ->
  zth (digits w n v) j = (v / 2 ^ (w * j)) mod 2 ^ w.
Proof.
  intros Hw. revert v j. induction n as [|n IH]; intros v j Hj; [lia|].
  cbn [digits]. destruct (decide (j = 0)) as [->|Hne].
  { rewrite Z.mul_0_r, Z.div_1_r. done. }
  replace (zth _ j) with (zth (digits w n (v / 2 ^ w)) (j - 1)).
  - pose proof (Z.pow_pos_nonneg 2 w). pose proof (Z.pow_pos_nonneg 2 (w * (j - 1))).
    rewrite IH, Z.div_div by nia. rewrite <- Z.pow_add_r by nia. do 3 f_equal. lia.
  - unfold zth. replace (Z.to_nat j) with (S (Z.to_nat (j - 1))) by lia. done.
Qed.

(** Bit [b] of digit [j] is bit [w * j + b] of the integer. *)
Lemma digits_testbit w n v j b :
  0 <= w -> 0 <= j < Z.of_nat n -> 0 <= b < w ->
  Z.testbit (zth (digits w n v) j) b = Z.testbit v (w * j + b).
Proof.
  intros. rewrite digits_zth, Z.mod_pow2_bits_low, Z.div_pow2_bits by nia.
  f_equal. lia.
Qed.

Lemma digits_value w l : 0 <= w -> Forall (bits w) l -> digits w (length l) (value w l) = l.
Proof.
  intros Hw. induction 1 as [|d l Hd Hl IH]; cbn [length digits value]; [done|].
  pose proof (Z.pow_pos_nonneg 2 w).
  rewrite Z.mul_comm, Z.mod_add, Z.div_add by lia.
  by rewrite Z.mod_small, Z.div_small, Z.add_0_l, IH by exact Hd.
Qed.

Lemma value_digits w n v : 0 <= w -> value w (digits w n v) = v mod 2 ^ (w * Z.of_nat n).
Proof.
  intros Hw. revert v. induction n as [|n IH]; intros v; cbn [digits value].
  { by rewrite Z.mul_0_r, Z.mod_1_r. }
  rewrite IH, Nat2Z.inj_succ, Z.mul_succ_r, Z.add_comm, (Z.add_comm (w * _)).
  rewrite Z.pow_add_r by lia. pose proof (Z.pow_pos_nonneg 2 w).
  pose proof (Z.pow_pos_nonneg 2 (w * Z.of_nat n)).
  rewrite Z.rem_mul_r by lia. lia.
Qed.

Lemma digits_mod w n v : 0 <= w -> digits w n (v mod 2 ^ (w * Z.of_nat n)) = digits w n v.
Proof.
  intros Hw. rewrite <- value_digits by done.
  rewrite <- (length_digits w n v) at 1. by apply digits_value, digits_bits.
Qed.

(** Changing the digit width and back is the identity when the wider string
    has room for every bit. *)
Lemma digits_width w1 w2 n l :
  0 <= w1 -> 0 <= w2 -> Forall (bits w1) l -> w1 * zlen l <= w2 * Z.of_nat n ->
  digits w1 (length l) (value w2 (digits w2 n (value w1 l))) = l.
Proof.
  intros Hw1 Hw2 Hl Hn. rewrite value_digits by done.
  rewrite Z.mod_small.
  - by apply digits_value.
  - eapply bits_mono; [|by apply value_bits]. split; [|done].
    apply Z.mul_nonneg_nonneg; lia.
Qed.

(** The first digits of a number, and the rest. *)
Lemma digits_app w n m v :
  0 <= w -> digits w (n + m) v = digits w n v ++ digits w m (v / 2 ^ (w * Z.of_nat n)).
Proof.
  intros Hw. revert v. induction n as [|n IH]; intros v.
  { cbn [Nat.add digits app]. by rewrite Z.mul_0_r, Z.div_1_r. }
  cbn [Nat.add digits app]. rewrite IH, Z.div_div by lia. do 4 f_equal.
  rewrite <- Z.pow_add_r by lia. f_equal. lia.
Qed.

(** Digits below a multiple of a high power are those of the low part. *)
Lemma digits_low w n v k x :
  0 <= w -> w * Z.of_nat n <= k -> digits w n (v + 2 ^ k * x) = digits w n v.
Proof.
  intros Hw Hk. rewrite <- (digits_mod w n (v + _)), <- (digits_mod w n v) by done. f_equal.
  replace k with (w * Z.of_nat n + (k - w * Z.of_nat n)) by lia.
  rewrite Z.pow_add_r by lia.
  replace (v + 2 ^ (w * Z.of_nat n) * 2 ^ (k - w * Z.of_nat n) * x)
    with (v + 2 ^ (k - w * Z.of_nat n) * x * 2 ^ (w * Z.of_nat n)) by lia.
  apply Z.mod_add. lia.
Qed.
