(* ===== verification/SmsConv.v ===== *)
(** * GSM 7-bit text conversion (lib/sms/string_conversion.c)

    The two conversion tables, the in-place packing of septets into octets, the
    unpacking, and the two conversions between ISO-8859-15 text and the GSM
    7-bit default alphabet that are built on them. *)

From stdpp Require Import prelude.
From Stdlib Require Import ZArith Lia Btauto.
From S2P Require Import Prelude Digits.

Open Scope Z_scope.

(** ** Data and operations *)

Definition STR_MAX_CHARACTERS : Z := 160.
Definition STR_7BIT_ESCAPE_IND : Z := 0x80.
Definition STR_7BIT_CODE_MASK : Z := 0x7F.
Definition STR_7BIT_ESCAPE_CODE : Z := 0x1B.

(** Text code to septet; bit 7 marks a code of the extension table. *)
Definition ascii_to_7bit_table : list Z := [
  0x20; 0x20; 0x20; 0x20; 0x20; 0x20; 0x20; 0x20; 0x20; 0x20; 0x0A; 0x20; 0x20; 0x0D; 0x20; 0x20;
  0x20; 0x20; 0x20; 0x20; 0x20; 0x20; 0x20; 0x20; 0x20; 0x20; 0x20; 0x20; 0x20; 0x20; 0x20; 0x20;
  0x20; 0x21; 0x22; 0x23; 0x02; 0x25; 0x26; 0x27; 0x28; 0x29; 0x2A; 0x2B; 0x2C; 0x2D; 0x2E; 0x2F;
  0x30; 0x31; 0x32; 0x33; 0x34; 0x35; 0x36; 0x37; 0x38; 0x39; 0x3A; 0x3B; 0x3C; 0x3D; 0x3E; 0x3F;
  0x00; 0x41; 0x42; 0x43; 0x44; 0x45; 0x46; 0x47; 0x48; 0x49; 0x4A; 0x4B; 0x4C; 0x4D; 0x4E; 0x4F;
  0x50; 0x51; 0x52; 0x53; 0x54; 0x55; 0x56; 0x57; 0x58; 0x59; 0x5A; 0xBC; 0xAF; 0xBE; 0x94; 0x11;
  0x27; 0x61; 0x62; 0x63; 0x64; 0x65; 0x66; 0x67; 0x68; 0x69; 0x6A; 0x6B; 0x6C; 0x6D; 0x6E; 0x6F;
  0x70; 0x71; 0x72; 0x73; 0x74; 0x75; 0x76; 0x77; 0x78; 0x79; 0x7A; 0xA8; 0xC0; 0xA9; 0xBD; 0x20;
  0x20; 0x20; 0x20; 0x20; 0x20; 0x20; 0x20; 0x20; 0x20; 0x20; 0x20; 0x20; 0x20; 0x20; 0x20; 0x20;
  0x20; 0x20; 0x20; 0x20; 0x20; 0x20; 0x20; 0x20; 0x20; 0x20; 0x20; 0x20; 0x20; 0x20; 0x20; 0x20;
  0x20; 0x40; 0x63; 0x01; 0xE5; 0x03; 0x53; 0x5F; 0x73; 0x63; 0x20; 0x20; 0x20; 0x2D; 0x20; 0x20;
  0x20; 0x20; 0x20; 0x20; 0x5A; 0x75; 0x0A; 0x20; 0x7A; 0x20; 0x20; 0x20; 0x20; 0x20; 0x59; 0x60;
  0x41; 0x41; 0x41; 0x41; 0x5B; 0x0E; 0x1C; 0x09; 0x45; 0x1F; 0x45; 0x45; 0x49; 0x49; 0x49; 0x49;
  0x44; 0x5D; 0x4F; 0x4F; 0x4F; 0x4F; 0x5C; 0x2A; 0x0B; 0x55; 0x55; 0x55; 0x5E; 0x59; 0x20; 0x1E;
  0x7F; 0x61; 0x61; 0x61; 0x7B; 0x0F; 0x1D; 0x63; 0x04; 0x05; 0x65; 0x65; 0x07; 0x69; 0x69; 0x69;
  0x20; 0x7D; 0x08; 0x6F; 0x6F; 0x6F; 0x7C; 0x2F; 0x0C; 0x06; 0x75; 0x75; 0x7E; 0x79; 0x20; 0x79].

(** Septet to text code; the upper half is the extension table. *)
Definition gsm7bit_to_ascii_table : list Z := [
  0x40; 0xA3; 0x24; 0xA5; 0xE8; 0xE9; 0xF9; 0xEC; 0xF2; 0xC7; 0x0A; 0xD8; 0xF8; 0x0D; 0xC5; 0xE5;
  0x20; 0x5F; 0x20; 0x20; 0x20; 0x20; 0x20; 0x20; 0x20; 0x20; 0x20; 0x20; 0xC6; 0xE6; 0xDF; 0xC9;
  0x20; 0x21; 0x22; 0x23; 0x20; 0x25; 0x26; 0x27; 0x28; 0x29; 0x2A; 0x2B; 0x2C; 0x2D; 0x2E; 0x2F;
  0x30; 0x31; 0x32; 0x33; 0x34; 0x35; 0x36; 0x37; 0x38; 0x39; 0x3A; 0x3B; 0x3C; 0x3D; 0x3E; 0x3F;
  0xA1; 0x41; 0x42; 0x43; 0x44; 0x45; 0x46; 0x47; 0x48; 0x49; 0x4A; 0x4B; 0x4C; 0x4D; 0x4E; 0x4F;
  0x50; 0x51; 0x52; 0x53; 0x54; 0x55; 0x56; 0x57; 0x58; 0x59; 0x5A; 0xC4; 0xD6; 0xD1; 0xDC; 0xA7;
  0xBF; 0x61; 0x62; 0x63; 0x64; 0x65; 0x66; 0x67; 0x68; 0x69; 0x6A; 0x6B; 0x6C; 0x6D; 0x6E; 0x6F;
  0x70; 0x71; 0x72; 0x73; 0x74; 0x75; 0x76; 0x77; 0x78; 0x79; 0x7A; 0xE4; 0xF6; 0xF1; 0xFC; 0xE0;
  0x20; 0x20; 0x20; 0x20; 0x20; 0x20; 0x20; 0x20; 0x20; 0x20; 0x20; 0x20; 0x20; 0x20; 0x20; 0x20;
  0x20; 0x20; 0x20; 0x20; 0x5E; 0x20; 0x20; 0x20; 0x20; 0x20; 0x20; 0x20; 0x20; 0x20; 0x20; 0x20;
  0x20; 0x20; 0x20; 0x20; 0x20; 0x20; 0x20; 0x20; 0x7B; 0x7D; 0x20; 0x20; 0x20; 0x20; 0x20; 0x5C;
  0x20; 0x20; 0x20; 0x20; 0x20; 0x20; 0x20; 0x20; 0x20; 0x20; 0x20; 0x20; 0x5B; 0x7E; 0x5D; 0x20;
  0x7C; 0x20; 0x20; 0x20; 0x20; 0x20; 0x20; 0x20; 0x20; 0x20; 0x20; 0x20; 0x20; 0x20; 0x20; 0x20;
  0x20; 0x20; 0x20; 0x20; 0x20; 0x20; 0x20; 0x20; 0x20; 0x20; 0x20; 0x20; 0x20; 0x20; 0x20; 0x20;
  0x20; 0x20; 0x20; 0x20; 0x20; 0xA4; 0x20; 0x20; 0x20; 0x20; 0x20; 0x20; 0x20; 0x20; 0x20; 0x20;
  0x20; 0x20; 0x20; 0x20; 0x20; 0x20; 0x20; 0x20; 0x20; 0x20; 0x20; 0x20; 0x20; 0x20; 0x20; 0x20].

(** The [while] loop of the packing, in place on [data]. *)
Fixpoint packing_loop (fuel : nat) (data : list Z) (data_len src dst shift : Z)
    : res (list Z * Z) :=
  if src <? data_len then
    match fuel with
    | O => NoFuel
    | S fuel =>
      let* d := rd data src in
      let* data := wr data dst (u8 (Z.shiftr d shift)) in
      let src := u8 (src + 1) in
      if src <? data_len then
        let* x := rd data dst in
        let* y := rd data src in
        let* data := wr data dst (u8 (Z.lor x (Z.shiftl y (7 - shift)))) in
        let shift := u8 (shift + 1) in
        if shift =? 7
        then packing_loop fuel data data_len (u8 (src + 1)) (u8 (dst + 1)) 0
        else packing_loop fuel data data_len src (u8 (dst + 1)) shift
      else packing_loop fuel data data_len src (u8 (dst + 1)) shift
    end
  else Ok (data, dst).

(** Returns the buffer after packing and the number of packed bytes. A pointer
    the code compares with [NULL] is an [option]. Every iteration advances
    [src], so [data_len] iterations are enough. *)
Definition string_conversion_7bit_sms_packing (data : option (list Z)) (data_len : Z)
    : res (list Z * Z) :=
  match data with
  | None => Ok ([], 0)
  | Some data => packing_loop (Z.to_nat data_len) data data_len 0 0 0
  end.

(** The [while] loop of the unpacking. *)
Fixpoint unpacking_loop (fuel : nat) (packed unpacked : list Z)
    (num_char shift index_pack index_char : Z) : res (list Z * Z) :=
  if index_char <? num_char then
    match fuel with
    | O => NoFuel
    | S fuel =>
      let* hi := rd packed index_pack in
      let* lo := rd packed (index_pack - 1) in
      let* unpacked := wr unpacked index_char
        (u8 (Z.lor (Z.shiftl hi shift) (Z.shiftr lo (8 - shift)))) in
      let* c := rd unpacked index_char in
      let* unpacked := wr unpacked index_char (Z.land c STR_7BIT_CODE_MASK) in
      let shift := u8 (shift + 1) in
      if shift =? 8
      then unpacking_loop fuel packed unpacked num_char 0 index_pack (u8 (index_char + 1))
      else unpacking_loop fuel packed unpacked num_char shift
             (u8 (index_pack + 1)) (u8 (index_char + 1))
    end
  else Ok (unpacked, index_char).

Definition string_conversion_7bit_sms_unpacking (packed unpacked : option (list Z))
    (num_char : Z) : res (list Z * Z) :=
  match packed, unpacked with
  | Some packed, Some unpacked =>
    if num_char =? 0 then Ok (unpacked, 0) else
    let* p0 := rd packed 0 in
    let* unpacked := wr unpacked 0 (Z.land p0 STR_7BIT_CODE_MASK) in
    unpacking_loop (Z.to_nat num_char) packed unpacked num_char 1 1 1
  | _, _ => Ok (default [] unpacked, 0)
  end.

(** The [for] loop of the text conversion: the output buffer, the number of
    septets written and the number of characters consumed. *)
Fixpoint ascii_to_gsm7bit_loop (fuel : nat) (data : list Z) (data_len : Z)
    (out_data : list Z) (index_ascii index_7bit : Z) : res (list Z * Z * Z) :=
  if index_ascii <? data_len then
    match fuel with
    | O => NoFuel
    | S fuel =>
      let* char_ascii := rd data index_ascii in
      let* char_7bit := rd ascii_to_7bit_table char_ascii in
      if Z.land char_7bit STR_7BIT_ESCAPE_IND =? 0 then
        if index_7bit <? STR_MAX_CHARACTERS then
          let* out_data := wr out_data index_7bit char_7bit in
          ascii_to_gsm7bit_loop fuel data data_len out_data
            (u8 (index_ascii + 1)) (u8 (index_7bit + 1))
        else Ok (out_data, index_7bit, index_ascii)
      else
        if index_7bit <? STR_MAX_CHARACTERS - 1 then
          let* out_data := wr out_data index_7bit STR_7BIT_ESCAPE_CODE in
          let index_7bit := u8 (index_7bit + 1) in
          let* out_data := wr out_data index_7bit (Z.land char_7bit STR_7BIT_CODE_MASK) in
          ascii_to_gsm7bit_loop fuel data data_len out_data
            (u8 (index_ascii + 1)) (u8 (index_7bit + 1))
        else Ok (out_data, index_7bit, index_ascii)
    end
  else Ok (out_data, index_7bit, index_ascii).

(** The values the function stores through its pointers and returns. *)
Record gsm7bit_out := {
  g_data : list Z;    (* the buffer out_data points to *)
  g_bytes : Z;        (* stored in *out_bytes unless it is NULL *)
  g_chars : Z;        (* stored in *out_chars unless it is NULL *)
  g_consumed : Z      (* the return value *)
}.

Definition string_conversion_ascii_to_gsm7bit (data : option (list Z)) (data_len : Z)
    (out_data : option (list Z)) (packing : bool) : res gsm7bit_out :=
  match data, out_data with
  | Some data, Some out_data =>
    let* '(out_data, index_7bit, index_ascii) :=
      ascii_to_gsm7bit_loop (Z.to_nat data_len) data data_len out_data 0 0 in
    let* '(out_data, out_bytes) :=
      if packing then string_conversion_7bit_sms_packing (Some out_data) index_7bit
      else Ok (out_data, index_7bit) in
    Ok {| g_data := out_data; g_bytes := out_bytes;
          g_chars := index_7bit; g_consumed := index_ascii |}
  | _, _ => Ok {| g_data := default [] out_data; g_bytes := 0; g_chars := 0; g_consumed := 0 |}
  end.

(** The [for] loop of the conversion to text. When the input was packed, the
    septets are read from [out_data] itself: [src] is [None] then. *)
Fixpoint gsm7bit_to_ascii_loop (fuel : nat) (src : option (list Z)) (out_data : list Z)
    (num_char index_7bit index_ascii : Z) : res (list Z * Z) :=
  if index_7bit <? num_char then
    match fuel with
    | O => NoFuel
    | S fuel =>
      let* char_7bit := rd (default out_data src) index_7bit in
      if char_7bit =? STR_7BIT_ESCAPE_CODE then
        let index_7bit := u8 (index_7bit + 1) in
        if index_7bit <? num_char then
          let* char_7bit := rd (default out_data src) index_7bit in
          let* c := rd gsm7bit_to_ascii_table (128 + char_7bit) in
          let* out_data := wr out_data index_ascii c in
          gsm7bit_to_ascii_loop fuel src out_data num_char
            (u8 (index_7bit + 1)) (u8 (index_ascii + 1))
        else Ok (out_data, index_ascii)
      else
        let* c := rd gsm7bit_to_ascii_table char_7bit in
        let* out_data := wr out_data index_ascii c in
        gsm7bit_to_ascii_loop fuel src out_data num_char
          (u8 (index_7bit + 1)) (u8 (index_ascii + 1))
    end
  else Ok (out_data, index_ascii).

Definition string_conversion_gsm7bit_to_ascii (data out_data : option (list Z))
    (num_char : Z) (packed : bool) : res (list Z * Z) :=
  let* '(out_data', num_char, buf_7bit) :=
    if packed then
      let* '(o, n) := string_conversion_7bit_sms_unpacking data out_data num_char in
      Ok (o, n, None)
    else Ok (default [] out_data, num_char, data) in
  match data, out_data with
  | Some _, Some _ =>
    gsm7bit_to_ascii_loop (Z.to_nat num_char) buf_7bit out_data' num_char 0 0
  | _, _ => Ok (default [] out_data, 0)
  end.

(** ** Reference definitions

    A string of septets and its packed form are the 7-bit and the 8-bit digits
    of one integer (3GPP TS 23.038 section 6.1.2.1). *)

Definition packed_len (n : Z) : Z := (7 * n + 7) / 8.
Definition pack (s : list Z) : list Z :=
  digits 8 (Z.to_nat (packed_len (zlen s))) (value 7 s).
Definition unpack (n : nat) (p : list Z) : list Z := digits 7 n (value 8 p).

(** Number of bytes the unpacking of [n] septets reads: one more than they
    occupy when the last octet is full. *)
Definition unpack_reads (n : Z) : Z :=
  if n =? 0 then 0 else (n - 1) - (n - 1) / 8 + 1.

(** The septets of one text code, and of a text. *)
Definition encode_char (c : Z) : list Z :=
  let s := zth ascii_to_7bit_table c in
  if Z.testbit s 7 then [STR_7BIT_ESCAPE_CODE; Z.land s STR_7BIT_CODE_MASK] else [s].
Definition encode_text (t : list Z) : list Z := t ≫= encode_char.

(** The text of a string of septets. *)
Fixpoint decode_septets (s : list Z) : list Z :=
  match s with
  | [] => []
  | c :: s =>
    if c =? STR_7BIT_ESCAPE_CODE then
      match s with
      | [] => []
      | e :: s => zth gsm7bit_to_ascii_table (128 + e) :: decode_septets s
      end
    else zth gsm7bit_to_ascii_table c :: decode_septets s
  end.

(** ** Packing *)

Lemma packed_len_bounds n : 0 <= n -> 7 * n <= 8 * packed_len n <= 7 * n + 7.
Proof.
  intros. unfold packed_len. pose proof (Z.div_mod (7 * n + 7) 8).
  pose proof (Z.mod_pos_bound (7 * n + 7) 8). lia.
Qed.

Lemma packed_len_unique n d : 0 <= n -> 7 * n <= 8 * d <= 7 * n + 7 -> d = packed_len n.
Proof. intros. pose proof (packed_len_bounds n). lia. Qed.

Lemma length_pack s : zlen (pack s) = packed_len (zlen s).
Proof.
  unfold pack. rewrite length_digits. pose proof (packed_len_bounds (zlen s)). lia.
Qed.

Lemma pack_bytes s : bytes (pack s).
Proof. by apply digits_bits. Qed.

Lemma pack_byte s d q r :
  septets s -> 8 * d = 7 * q + r -> 0 <= r < 7 -> 0 <= d < packed_len (zlen s) ->
  zth (pack s) d =
    u8 (Z.lor (Z.shiftr (zth s q) r) (Z.shiftl (zth s (q + 1)) (7 - r))).
Proof.
  intros Hs Hd Hr Hlen.
  assert (Hq : bits 7 (zth s q)) by (apply zth_Forall; done).
  apply (bits_inj_below 8); [lia| |apply bits_mod; lia|].
  { apply zth_Forall; [done|apply pack_bytes]. }
  intros b Hb. unfold pack, u8.
  rewrite digits_testbit, Z.mod_pow2_bits_low, Z.lor_spec, Z.shiftr_spec by lia.
  rewrite Z.shiftl_spec, value_testbit by (done || lia).
  destruct (decide (r + b < 7)).
  - rewrite (Z.testbit_neg_r _ (b - _)), orb_false_r by lia.
    f_equal; [f_equal|]; symmetry; [apply Z.div_unique with (r + b)
      | rewrite Z.add_comm; apply Z.mod_unique with q]; lia.
  - rewrite (bits_testbit_high 7 _ (b + r)), orb_false_l by (done || lia).
    f_equal; [f_equal|]; symmetry; [apply Z.div_unique with (r + b - 7)
      | replace (b - (7 - r)) with (r + b - 7) by lia; apply Z.mod_unique with (q + 1)]; lia.
Qed.

(** The buffer while the loop runs: the bytes packed so far, then the original
    contents. *)
Definition packing_buf (s rest : list Z) (d : Z) : list Z :=
  take (Z.to_nat d) (pack s) ++ drop (Z.to_nat d) (s ++ rest).

Lemma length_packing_buf s rest d :
  0 <= d <= packed_len (zlen s) -> length (packing_buf s rest d) = length (s ++ rest).
Proof.
  intros. pose proof (packed_len_bounds (zlen s)). pose proof (length_pack s).
  unfold packing_buf. rewrite length_app, length_take, length_drop, length_app. lia.
Qed.

Lemma packing_buf_zth s rest d i :
  0 <= d <= packed_len (zlen s) -> d <= i < zlen s ->
  zth (packing_buf s rest d) i = zth s i.
Proof.
  intros Hd Hi. pose proof (length_pack s). unfold packing_buf.
  rewrite zth_app_r; rewrite ?length_take; [|lia].
  rewrite zth_drop by lia. rewrite zth_app_l by lia. f_equal. lia.
Qed.

Lemma packing_buf_insert s rest d :
  0 <= d < packed_len (zlen s) ->
  <[Z.to_nat d := zth (pack s) d]> (packing_buf s rest d) = packing_buf s rest (d + 1).
Proof.
  intros Hd. pose proof (packed_len_bounds (zlen s)). pose proof (length_pack s).
  apply prefix_insert; autorewrite with clen; lia.
Qed.

Lemma packing_buf_start s rest : packing_buf s rest 0 = s ++ rest.
Proof. done. Qed.

Lemma packing_loop_spec fuel s rest d q r :
  septets s -> zlen s <= 255 -> 8 * d = 7 * q + r -> 0 <= r < 7 ->
  0 <= d <= packed_len (zlen s) -> zlen s - q <= Z.of_nat fuel ->
  packing_loop fuel (packing_buf s rest d) (zlen s) q d r =
    Ok (packing_buf s rest (packed_len (zlen s)), packed_len (zlen s)).
Proof.
  intros Hs Hn. pose proof (packed_len_bounds (zlen s)) as Hpl.
  revert d q r. induction fuel as [|fuel IH]; intros d q r Hd Hr Hdl Hf;
    cbn [packing_loop]; destruct (Z.ltb_spec q (zlen s)) as [Hq|Hq]; try lia.
  1, 3: by rewrite (packed_len_unique (zlen s) d) by lia.
  assert (Hlen := length_packing_buf s rest d Hdl). rewrite length_app in Hlen.
  rewrite rd_Ok, packing_buf_zth by lia. cbn [mbind res_bind].
  rewrite wr_Ok by lia. cbn [mbind res_bind]. rewrite (u8_small (q + 1)) by lia.
  assert (Hb := pack_byte s d q r Hs Hd Hr).
  destruct (Z.ltb_spec (q + 1) (zlen s)) as [Hq1|Hq1].
  - rewrite rd_Ok by (rewrite length_insert; lia). cbn [mbind res_bind].
    rewrite rd_Ok by (rewrite length_insert; lia). cbn [mbind res_bind].
    rewrite !zth_insert by lia. rewrite decide_True, decide_False by lia.
    rewrite packing_buf_zth by lia.
    rewrite wr_Ok by (rewrite length_insert; lia). cbn [mbind res_bind].
    rewrite list_insert_insert_eq, u8_lor_u8, <- Hb, packing_buf_insert by lia.
    rewrite (u8_small (d + 1)), (u8_small (r + 1)) by lia.
    destruct (Z.eqb_spec (r + 1) 7) as [E|E]; [rewrite (u8_small (q + 1 + 1)) by lia|];
      apply IH; lia.
  - rewrite (zth_out s (q + 1)), Z.shiftl_0_l, Z.lor_0_r in Hb by lia.
    rewrite <- Hb, packing_buf_insert, (u8_small (d + 1)) by lia.
    rewrite <- (packed_len_unique (zlen s) (d + 1)) by lia.
    destruct fuel; cbn [packing_loop]; by destruct (Z.ltb_spec (q + 1) (zlen s)); [lia|].
Qed.

Lemma packing_correct s rest :
  septets s -> zlen s <= 255 ->
  string_conversion_7bit_sms_packing (Some (s ++ rest)) (zlen s) =
    Ok (pack s ++ drop (length (pack s)) (s ++ rest), packed_len (zlen s)).
Proof.
  intros Hs Hn. unfold string_conversion_7bit_sms_packing.
  rewrite <- packing_buf_start, (packing_loop_spec _ s rest 0 0 0).
  - pose proof (length_pack s). unfold packing_buf. do 3 f_equal.
    + apply take_ge. lia.
    + do 2 f_equal. lia.
  - done.
  - done.
  - done.
  - lia.
  - pose proof (packed_len_bounds (zlen s)). lia.
  - lia.
Qed.

(** ** Unpacking *)

Lemma unpack_char p n i k s :
  bytes p -> 7 * i = 8 * k - s -> 0 <= s < 8 -> 0 <= i < Z.of_nat n ->
  zth (unpack n p) i =
    Z.land (u8 (Z.lor (Z.shiftl (zth p k) s) (Z.shiftr (zth p (k - 1)) (8 - s))))
      STR_7BIT_CODE_MASK.
Proof.
  intros Hp Hi Hs Hn.
  assert (Hk : bits 8 (zth p (k - 1))) by (apply zth_Forall; done).
  unfold unpack, STR_7BIT_CODE_MASK. change 127 with (Z.ones 7).
  rewrite Z.land_ones by lia.
  apply (bits_inj_below 7); [lia| |apply bits_mod; lia|].
  { apply zth_Forall; [done|by apply digits_bits]. }
  intros b Hb. rewrite digits_testbit, Z.mod_pow2_bits_low by lia.
  unfold u8. rewrite Z.mod_pow2_bits_low, Z.lor_spec, Z.shiftl_spec, Z.shiftr_spec by lia.
  rewrite value_testbit by (done || lia).
  destruct (decide (b < s)).
  - rewrite (Z.testbit_neg_r _ (b - s)), orb_false_l by lia.
    f_equal; [f_equal|]; symmetry; [apply Z.div_unique with (b + (8 - s))
      |apply Z.mod_unique with (k - 1)]; lia.
  - rewrite (bits_testbit_high 8 _ (b + (8 - s))), orb_false_r by (done || lia).
    f_equal; [f_equal|]; symmetry; [apply Z.div_unique with (b - s)
      |apply Z.mod_unique with k]; lia.
Qed.

Lemma unpack_first p n : bytes p -> 0 < Z.of_nat n ->
  zth (unpack n p) 0 = Z.land (zth p 0) STR_7BIT_CODE_MASK.
Proof.
  intros Hp Hn. rewrite (unpack_char p n 0 0 0) by (done || lia).
  assert (bits 8 (zth p 0)) by (apply zth_Forall; done).
  replace (zth p (0 - 1)) with (zth p 0) by done.
  rewrite Z.shiftl_0_r, Z.shiftr_div_pow2, Z.div_small, Z.lor_0_r by (done || lia).
  by rewrite u8_small.
Qed.

(** The output buffer while the loop runs. *)
Definition unpacking_buf (n : nat) (p o : list Z) (i : Z) : list Z :=
  take (Z.to_nat i) (unpack n p) ++ drop (Z.to_nat i) o.

Lemma length_unpack n p : length (unpack n p) = n.
Proof. apply length_digits. Qed.

Lemma unpack_septets n p : septets (unpack n p).
Proof. by apply digits_bits. Qed.

Lemma unpacking_buf_insert n p o i :
  0 <= i < Z.of_nat n -> Z.of_nat n <= zlen o ->
  <[Z.to_nat i := zth (unpack n p) i]> (unpacking_buf n p o i) = unpacking_buf n p o (i + 1).
Proof. intros. apply prefix_insert; rewrite length_unpack; lia. Qed.

Lemma unpacking_loop_spec fuel n p o i k s :
  bytes p -> 7 * i = 8 * k - s -> 0 <= s < 8 -> 1 <= i <= Z.of_nat n ->
  Z.of_nat n <= zlen o -> Z.of_nat n <= 255 -> unpack_reads (Z.of_nat n) <= zlen p ->
  Z.of_nat n - i <= Z.of_nat fuel ->
  unpacking_loop fuel p (unpacking_buf n p o i) (Z.of_nat n) s k i =
    Ok (unpacking_buf n p o (Z.of_nat n), Z.of_nat n).
Proof.
  intros Hp. revert i k s. induction fuel as [|fuel IH];
    intros i k s Hi Hs Hin Hno Hn Hnp Hf;
    cbn [unpacking_loop]; destruct (Z.ltb_spec i (Z.of_nat n)) as [Hlt|Hge]; try lia.
  1, 3: by replace i with (Z.of_nat n) by lia.
  assert (Hk : 1 <= k < zlen p).
  { unfold unpack_reads in Hnp. destruct (Z.eqb_spec (Z.of_nat n) 0); [lia|].
    pose proof (Z.div_mod (Z.of_nat n - 1) 8). pose proof (Z.mod_pos_bound (Z.of_nat n - 1) 8).
    lia. }
  assert (Hlen : length (unpacking_buf n p o i) = length o).
  { unfold unpacking_buf. autorewrite with clen. rewrite length_unpack. lia. }
  cmem. rewrite zth_insert, decide_True by lia.
  rewrite list_insert_insert_eq, <- (unpack_char p n i k s) by (done || lia).
  rewrite unpacking_buf_insert by lia.
  rewrite (u8_small (s + 1)), (u8_small (i + 1)), (u8_small (k + 1)) by lia.
  destruct (Z.eqb_spec (s + 1) 8); apply IH; lia.
Qed.

Lemma unpacking_correct n p o :
  bytes p -> Z.of_nat n <= zlen o -> Z.of_nat n <= 255 ->
  unpack_reads (Z.of_nat n) <= zlen p ->
  string_conversion_7bit_sms_unpacking (Some p) (Some o) (Z.of_nat n) =
    Ok (unpack n p ++ drop n o, Z.of_nat n).
Proof.
  intros Hp Hno Hn Hr. unfold string_conversion_7bit_sms_unpacking.
  destruct (Z.eqb_spec (Z.of_nat n) 0) as [E|E].
  { replace n with 0%nat by lia. done. }
  assert (1 <= zlen p).
  { unfold unpack_reads in Hr. destruct (Z.eqb_spec (Z.of_nat n) 0); [lia|].
    pose proof (Z.div_le_upper_bound (Z.of_nat n - 1) 8 (Z.of_nat n - 1)). lia. }
  cmem. rewrite <- (unpack_first p n) by (done || lia).
  replace (<[_ := _]> o) with (unpacking_buf n p o 1).
  - rewrite (unpacking_loop_spec _ n p o 1 1 1) by (done || lia).
    unfold unpacking_buf. rewrite Nat2Z.id, take_ge by (rewrite length_unpack; lia). done.
  - symmetry. by apply (unpacking_buf_insert n p o 0); lia.
Qed.

(** ** Packing and unpacking are inverse *)

Lemma unpack_pack s : septets s -> unpack (length s) (pack s) = s.
Proof.
  intros Hs. unfold unpack, pack. apply digits_width; [lia..|done|].
  pose proof (packed_len_bounds (zlen s)). lia.
Qed.

(** Bytes that follow the packed ones do not change the septets. *)
Lemma unpack_app n p rest :
  bytes p -> 7 * Z.of_nat n <= 8 * zlen p -> unpack n (p ++ rest) = unpack n p.
Proof.
  intros Hp Hn. unfold unpack. rewrite value_app by lia.
  rewrite <- (digits_mod 7 n (_ + _)), <- (digits_mod 7 n (value 8 p)) by lia. f_equal.
  replace (8 * zlen p) with (7 * Z.of_nat n + (8 * zlen p - 7 * Z.of_nat n)) by lia.
  rewrite Z.pow_add_r, <- Z.mul_assoc, Z.mul_comm, Z.add_comm, Z.add_mod by lia.
  rewrite Z.mod_mul, Z.add_0_l, Z.mod_mod by lia. done.
Qed.

(** Octets in front of septets: they take up whole septets, the last one
    filled up with zeros. *)
Definition fill_septets (h : list Z) : nat := Z.to_nat ((8 * zlen h + 6) / 7).
Definition fill (h : list Z) : list Z := unpack (fill_septets h) h.

Lemma fill_septets_bounds h :
  8 * zlen h <= 7 * Z.of_nat (fill_septets h) <= 8 * zlen h + 6.
Proof.
  unfold fill_septets. pose proof (Z.div_mod (8 * zlen h + 6) 7).
  pose proof (Z.mod_pos_bound (8 * zlen h + 6) 7). lia.
Qed.

Lemma pack_fill h s : bytes h -> exists rest, pack (fill h ++ s) = h ++ rest.
Proof.
  intros Hh. pose proof (fill_septets_bounds h) as Hf. unfold pack.
  assert (Hl : zlen (fill h ++ s) = Z.of_nat (fill_septets h) + zlen s)
    by (unfold fill; rewrite length_app, length_unpack; lia).
  pose proof (packed_len_bounds (zlen (fill h ++ s))) as Hp.
  replace (Z.to_nat (packed_len (zlen (fill h ++ s))))
    with (length h + (Z.to_nat (packed_len (zlen (fill h ++ s))) - length h))%nat by lia.
  rewrite digits_app by lia. eexists. f_equal.
  rewrite value_app, (digits_low 8) by (unfold fill; rewrite ?length_unpack; lia).
  unfold fill, unpack. rewrite value_digits, Z.mod_small, digits_value by (lia || done ||
    (pose proof (value_bits 8 h) as [? Hv]; [lia|done|]; split; [done|];
     eapply Z.lt_le_trans; [exact Hv|]; apply Z.pow_le_mono_r; lia)).
  done.
Qed.

(** ** Text to septets *)

Lemma ascii_table_byte c : byte c -> byte (zth ascii_to_7bit_table c).
Proof.
  intros Hc. apply zth_Forall; [done|].
  apply Forall_forall. intros x Hx. revert x Hx.
  apply Forall_forall. vm_compute. repeat constructor; done.
Qed.

Lemma encode_char_septets c : byte c -> septets (encode_char c).
Proof.
  intros Hc. enough (bool_decide (septets (encode_char c)) = true) by (by eapply bool_decide_eq_true).
  revert c Hc. apply byte_check. vm_compute. done.
Qed.

Lemma encode_text_septets t : bytes t -> septets (encode_text t).
Proof.
  induction 1 as [|c t Hc Ht IH]; cbn; [constructor|].
  apply Forall_app. split; [by apply encode_char_septets|done].
Qed.

Lemma encode_text_app t u : encode_text (t ++ u) = encode_text t ++ encode_text u.
Proof. apply bind_app. Qed.

Lemma encode_text_cons c t : encode_text (c :: t) = encode_char c ++ encode_text t.
Proof. done. Qed.

(** What the test of bit 7 decides. *)
Lemma escape_test c :
  byte c ->
  let s := zth ascii_to_7bit_table c in
  encode_char c = if Z.land s STR_7BIT_ESCAPE_IND =? 0 then [s]
                  else [STR_7BIT_ESCAPE_CODE; Z.land s STR_7BIT_CODE_MASK].
Proof.
  intros Hc. cbn zeta.
  enough (bool_decide (encode_char c =
    let s := zth ascii_to_7bit_table c in
    if Z.land s STR_7BIT_ESCAPE_IND =? 0 then [s]
    else [STR_7BIT_ESCAPE_CODE; Z.land s STR_7BIT_CODE_MASK]) = true)
    by (by eapply bool_decide_eq_true).
  revert c Hc. apply byte_check. vm_compute. done.
Qed.

(** The longest prefix of a text whose septets fit in [room]. *)
Fixpoint fit (t : list Z) (room : Z) : list Z :=
  match t with
  | [] => []
  | c :: t =>
    if zlen (encode_char c) <=? room
    then c :: fit t (room - zlen (encode_char c)) else []
  end.

Lemma fit_prefix t room : exists u, t = fit t room ++ u.
Proof.
  revert room. induction t as [|c t IH]; intros room; cbn [fit]; [by exists []|].
  destruct (Z.leb_spec (zlen (encode_char c)) room); [|by exists (c :: t)].
  destruct (IH (room - zlen (encode_char c))) as [u Hu]. exists u. cbn. by rewrite <- Hu.
Qed.

Lemma fit_room t room : 0 <= room -> zlen (encode_text (fit t room)) <= room.
Proof.
  revert room. induction t as [|c t IH]; intros room Hr; cbn [fit]; [done|].
  destruct (Z.leb_spec (zlen (encode_char c)) room); [|done].
  rewrite encode_text_cons, length_app. specialize (IH (room - zlen (encode_char c))). lia.
Qed.

(** Nothing more fits: the next character would exceed the room. *)
Lemma fit_maximal t room c u :
  t = fit t room ++ c :: u -> room < zlen (encode_text (fit t room ++ [c])).
Proof.
  revert room. induction t as [|d t IH]; intros room; cbn [fit]; [done|].
  destruct (Z.leb_spec (zlen (encode_char d)) room); cbn [app].
  - intros [= E]. apply IH in E. rewrite encode_text_cons, length_app. lia.
  - intros [= -> ->]. rewrite encode_text_cons, app_nil_r. lia.
Qed.

Lemma fit_all t room : zlen (encode_text t) <= room -> fit t room = t.
Proof.
  revert room. induction t as [|c t IH]; intros room; cbn [fit]; [done|].
  rewrite encode_text_cons, length_app. intros.
  destruct (Z.leb_spec (zlen (encode_char c)) room); [|lia]. f_equal. apply IH. lia.
Qed.

Lemma length_encode_char c : 1 <= zlen (encode_char c) <= 2.
Proof. unfold encode_char. destruct (Z.testbit _ _); cbn; lia. Qed.

Lemma length_encode_text t : zlen t <= zlen (encode_text t) <= 2 * zlen t.
Proof.
  induction t as [|c t IH]; [done|]. rewrite encode_text_cons, length_app.
  pose proof (length_encode_char c). cbn [length]. lia.
Qed.

(** One iteration: the septets of the character are stored if they fit. *)
Lemma ascii_to_gsm7bit_step fuel pre c t n e rest :
  byte c -> zlen pre < n <= 255 -> zlen e <= 160 ->
  (zlen (encode_char c) <= 160 - zlen e -> zlen (encode_char c) <= zlen rest) ->
  ascii_to_gsm7bit_loop (S fuel) (pre ++ c :: t) n (e ++ rest) (zlen pre) (zlen e) =
    if zlen (encode_char c) <=? 160 - zlen e then
      ascii_to_gsm7bit_loop fuel (pre ++ c :: t) n
        ((e ++ encode_char c) ++ drop (length (encode_char c)) rest)
        (zlen pre + 1) (zlen e + zlen (encode_char c))
    else Ok (e ++ rest, zlen e, zlen pre).
Proof.
  intros Hc Hn He Hr. cbn [ascii_to_gsm7bit_loop].
  destruct (Z.ltb_spec (zlen pre) n); [|lia].
  rewrite rd_Ok by (rewrite length_app; cbn [length]; lia). rewrite zth_middle. cstep.
  rewrite rd_Ok by exact Hc. cstep.
  pose proof (escape_test c Hc) as Hesc. cbn zeta in Hesc.
  unfold STR_MAX_CHARACTERS.
  destruct (Z.land _ STR_7BIT_ESCAPE_IND =? 0); rewrite Hesc in *; cbn [length] in *.
  - destruct (Z.ltb_spec (zlen e) 160), (Z.leb_spec (Z.of_nat 1) (160 - zlen e)); try lia; [|done].
    rewrite wr_append by lia. cstep. by rewrite !u8_small by lia.
  - destruct (Z.ltb_spec (zlen e) (160 - 1)), (Z.leb_spec (Z.of_nat 2) (160 - zlen e));
      try lia; [|done].
    rewrite wr_append by lia. cstep. rewrite (u8_small (zlen e + 1)) by lia.
    rewrite wr_append by (autorewrite with clen; cbn [length]; lia). cstep.
    rewrite !u8_small, drop_drop, <- (app_assoc e) by lia. cbn [app].
    by replace (zlen e + 1 + 1) with (zlen e + Z.of_nat 2) by lia.
Qed.

Lemma ascii_to_gsm7bit_loop_spec fuel pre t tail e rest :
  let f := fit t (160 - zlen e) in
  bytes t -> zlen pre + zlen t <= 255 -> zlen e <= 160 ->
  zlen (encode_text f) <= zlen rest -> (length t <= fuel)%nat ->
  ascii_to_gsm7bit_loop fuel (pre ++ t ++ tail) (zlen pre + zlen t) (e ++ rest)
      (zlen pre) (zlen e) =
    Ok (e ++ encode_text f ++ drop (length (encode_text f)) rest,
        zlen e + zlen (encode_text f), zlen pre + zlen f).
Proof.
  cbn zeta. intros Ht. revert fuel pre e rest.
  induction Ht as [|c t Hc Ht IH]; intros fuel pre e rest Hl He Hr Hf; cbn [fit] in *.
  { cbn -[Z.add]. rewrite !Z.add_0_r.
    destruct fuel; cbn [ascii_to_gsm7bit_loop]; by rewrite Z.ltb_irrefl. }
  cbn [length app] in *. destruct fuel as [|fuel]; [lia|].
  rewrite ascii_to_gsm7bit_step; [|done|lia|done|].
  2: { destruct (Z.leb_spec (zlen (encode_char c)) (160 - zlen e)); [|lia].
       rewrite encode_text_cons, length_app in Hr. lia. }
  destruct (Z.leb_spec (zlen (encode_char c)) (160 - zlen e));
    [|cbn; by rewrite !Z.add_0_r].
  rewrite encode_text_cons, length_app in Hr.
  pose proof (length_app pre [c]) as Hpre. cbn [length] in Hpre.
  pose proof (length_app e (encode_char c)) as He'.
  replace (zlen e + zlen (encode_char c)) with (zlen (e ++ encode_char c)) by lia.
  replace (zlen pre + 1) with (zlen (pre ++ [c])) by lia.
  replace (zlen pre + Z.of_nat (S (length t))) with (zlen (pre ++ [c]) + zlen t) by lia.
  replace (pre ++ c :: t ++ tail) with ((pre ++ [c]) ++ t ++ tail) by (by rewrite <- app_assoc).
  replace (160 - zlen e - zlen (encode_char c)) with (160 - zlen (e ++ encode_char c)) in * by lia.
  rewrite IH by (rewrite ?length_drop; lia). set (f := fit t _) in *.
  rewrite encode_text_cons, drop_drop, <- !app_assoc, (length_app (encode_char c)).
  f_equal. f_equal; [f_equal|cbn [length]]; (done || lia).
Qed.

Lemma ascii_to_gsm7bit_correct t tail o packing :
  let s := encode_text (fit t 160) in
  bytes t -> zlen t <= 255 -> zlen s <= zlen o ->
  string_conversion_ascii_to_gsm7bit (Some (t ++ tail)) (zlen t) (Some o) packing =
    Ok {| g_data := if packing then pack s ++ drop (length (pack s)) (s ++ drop (length s) o)
                    else s ++ drop (length s) o;
          g_bytes := if packing then packed_len (zlen s) else zlen s;
          g_chars := zlen s; g_consumed := zlen (fit t 160) |}.
Proof.
  cbn zeta. intros Ht Hl Ho. unfold string_conversion_ascii_to_gsm7bit.
  pose proof (ascii_to_gsm7bit_loop_spec (Z.to_nat (zlen t)) [] t tail [] o) as H.
  cbn [app length] in H. change (Z.of_nat 0) with 0 in H.
  rewrite Z.sub_0_r, !Z.add_0_l in H.
  rewrite H by (done || lia). cstep. destruct packing; [|done].
  pose proof (fit_room t 160). destruct (fit_prefix t 160) as [u Hu].
  rewrite packing_correct; [done| |lia].
  apply encode_text_septets. rewrite Hu, Forall_app in Ht. apply Ht.
Qed.

(** ** Septets to text *)

(** From index [j] on, the buffer [m] holds the septets [s]. *)
Definition holds_from (m s : list Z) (j : Z) : Prop :=
  forall i, j <= i < zlen s -> i < zlen m /\ zth m i = zth s i.

Lemma holds_from_append src d rest c s j :
  holds_from (default (d ++ rest) src) s j -> zlen d < j -> 0 < zlen rest ->
  holds_from (default ((d ++ [c]) ++ drop 1 rest) src) s j.
Proof.
  destruct src as [m|]; [done|]. cbn. intros H Hd Hr i Hi. destruct (H i Hi) as [Hl Hz].
  destruct rest as [|x rest]; [cbn in Hr; lia|].
  change (drop 1 (x :: rest)) with rest.
  revert Hl Hz. rewrite <- app_assoc, !length_app. cbn [app length]. intros Hl <-.
  split; [lia|]. rewrite !zth_app_r by lia. unfold zth.
  by replace (Z.to_nat (i - zlen d)) with (S (Z.to_nat (i - zlen d - 1))) by lia.
Qed.

Lemma holds_from_mono m s j k : holds_from m s j -> j <= k -> holds_from m s k.
Proof. intros H ? i ?. apply H. lia. Qed.

Lemma decode_septets_length s : (length (decode_septets s) <= length s)%nat.
Proof.
  remember (length s) as n eqn:Hn. assert (Hle : (length s <= n)%nat) by lia. clear Hn.
  revert s Hle. induction n as [|n IH]; intros s Hs.
  { destruct s; cbn in *; lia. }
  destruct s as [|c [|e s]]; cbn [decode_septets] in *; [cbn; lia| |].
  - destruct (c =? _); cbn; lia.
  - destruct (c =? _); cbn [length] in *.
    + specialize (IH s). lia.
    + specialize (IH (e :: s)). cbn [length decode_septets] in *. lia.
Qed.

Lemma septet_table c : bits 7 c -> 0 <= c < zlen gsm7bit_to_ascii_table /\
  0 <= 128 + c < zlen gsm7bit_to_ascii_table.
Proof.
  intros [??]. change (zlen gsm7bit_to_ascii_table) with 256. change (2 ^ 7) with 128 in *. lia.
Qed.

(** One iteration on an ordinary septet, and on an escape sequence. *)
Lemma gsm7bit_to_ascii_plain fuel src d rest n j c :
  rd (default (d ++ rest) src) j = Ok c -> bits 7 c -> c <> STR_7BIT_ESCAPE_CODE ->
  0 <= j < n -> n <= 255 -> zlen d <= j -> 0 < zlen rest ->
  gsm7bit_to_ascii_loop (S fuel) src (d ++ rest) n j (zlen d) =
    gsm7bit_to_ascii_loop fuel src ((d ++ [zth gsm7bit_to_ascii_table c]) ++ drop 1 rest)
      n (j + 1) (zlen d + 1).
Proof.
  intros Hrd Hc Hne Hj Hn Hd Hr. cbn [gsm7bit_to_ascii_loop].
  destruct (Z.ltb_spec j n); [|lia]. rewrite Hrd. cstep.
  destruct (Z.eqb_spec c STR_7BIT_ESCAPE_CODE); [done|].
  rewrite rd_Ok by apply (septet_table c Hc). cstep. rewrite wr_append by lia. cstep.
  by rewrite !u8_small by lia.
Qed.

Lemma gsm7bit_to_ascii_escape fuel src d rest n j c :
  rd (default (d ++ rest) src) j = Ok STR_7BIT_ESCAPE_CODE ->
  rd (default (d ++ rest) src) (j + 1) = Ok c -> bits 7 c ->
  0 <= j -> j + 1 < n -> n <= 255 -> zlen d <= j -> 0 < zlen rest ->
  gsm7bit_to_ascii_loop (S fuel) src (d ++ rest) n j (zlen d) =
    gsm7bit_to_ascii_loop fuel src
      ((d ++ [zth gsm7bit_to_ascii_table (128 + c)]) ++ drop 1 rest) n (j + 2) (zlen d + 1).
Proof.
  intros Hrd Hrd' Hc Hj Hj' Hn Hd Hr. cbn [gsm7bit_to_ascii_loop].
  destruct (Z.ltb_spec j n); [|lia]. rewrite Hrd. cstep.
  rewrite Z.eqb_refl, (u8_small (j + 1)) by lia.
  destruct (Z.ltb_spec (j + 1) n); [|lia]. rewrite Hrd'. cstep.
  rewrite rd_Ok by apply (septet_table c Hc). cstep. rewrite wr_append by lia. cstep.
  rewrite !u8_small by lia. by replace (j + 1 + 1) with (j + 2) by lia.
Qed.

Lemma gsm7bit_to_ascii_lone_escape fuel src out n j k :
  rd (default out src) j = Ok STR_7BIT_ESCAPE_CODE -> 0 <= j -> n = j + 1 -> n <= 255 ->
  gsm7bit_to_ascii_loop (S fuel) src out n j k = Ok (out, k).
Proof.
  intros Hrd Hj -> Hn. cbn [gsm7bit_to_ascii_loop].
  destruct (Z.ltb_spec j (j + 1)); [|lia]. rewrite Hrd. cstep.
  by rewrite Z.eqb_refl, u8_small, Z.ltb_irrefl by lia.
Qed.

Lemma gsm7bit_to_ascii_end fuel src out n k :
  gsm7bit_to_ascii_loop fuel src out n n k = Ok (out, k).
Proof. destruct fuel; cbn; by rewrite Z.ltb_irrefl. Qed.

Lemma holds_from_rd m s pre c r :
  holds_from m s (zlen pre) -> s = pre ++ c :: r -> rd m (zlen pre) = Ok c.
Proof.
  intros H ->. destruct (H (zlen pre)) as [Hl Hz].
  { rewrite length_app. cbn. lia. }
  rewrite rd_Ok by lia. by rewrite Hz, zth_middle.
Qed.

Lemma gsm7bit_to_ascii_loop_spec fuel src s pre r d rest :
  s = pre ++ r -> septets s -> zlen s <= 255 -> zlen d <= zlen pre ->
  zlen s <= zlen d + zlen rest -> holds_from (default (d ++ rest) src) s (zlen pre) ->
  (length r <= fuel)%nat ->
  gsm7bit_to_ascii_loop fuel src (d ++ rest) (zlen s) (zlen pre) (zlen d) =
    Ok (d ++ decode_septets r ++ drop (length (decode_septets r)) rest,
        zlen d + zlen (decode_septets r)).
Proof.
  intros Hs Hsep Hn. revert pre r d rest Hs.
  induction fuel as [|fuel IH]; intros pre r d rest Hs Hd Hl Hh Hf;
    pose proof (length_app pre r) as Hlen; rewrite <- Hs in Hlen.
  1, 2: destruct r as [|c r]; [rewrite Nat.add_0_r in Hlen; rewrite Hlen,
    gsm7bit_to_ascii_end; cbn; by rewrite Z.add_0_r|]. { cbn in Hf. lia. }
  pose proof (holds_from_rd _ _ _ _ _ Hh Hs) as Hrd.
  assert (Hr' : septets (c :: r)) by (rewrite Hs, Forall_app in Hsep; apply Hsep).
  inversion_clear Hr' as [|?? Hc Hr]. cbn [length] in *. cbn [decode_septets].
  assert (Hstep : forall x k k', s = k ++ k' -> zlen pre < zlen k -> (length k' <= fuel)%nat ->
    gsm7bit_to_ascii_loop fuel src ((d ++ [x]) ++ drop 1 rest) (zlen s) (zlen k) (zlen d + 1) =
    Ok (d ++ (x :: decode_septets k') ++ drop (length (x :: decode_septets k')) rest,
        zlen d + zlen (x :: decode_septets k'))).
  { intros x k k' Hk Hpk Hf'. pose proof (length_app d [x]) as Hdx. cbn [length] in Hdx.
    replace (zlen d + 1) with (zlen (d ++ [x])) by lia. rewrite (IH k k'); [|done|lia| | |done].
    - rewrite drop_drop, <- app_assoc, Hdx. cbn [app length]. f_equal. f_equal. lia.
    - rewrite length_drop. lia.
    - apply holds_from_append; [eapply holds_from_mono; [done|]; lia|lia|lia]. }
  destruct (Z.eqb_spec c STR_7BIT_ESCAPE_CODE) as [->|Hne].
  - destruct r as [|c r].
    + rewrite gsm7bit_to_ascii_lone_escape by (done || cbn in *; lia).
      cbn. by rewrite Z.add_0_r.
    + inversion_clear Hr as [|?? Hc' _]. cbn [length] in *.
      pose proof (length_app pre [STR_7BIT_ESCAPE_CODE]) as Hp. cbn [length] in Hp.
      assert (Hrd' : rd (default (d ++ rest) src) (zlen pre + 1) = Ok c).
      { replace (zlen pre + 1) with (zlen (pre ++ [STR_7BIT_ESCAPE_CODE])) by lia.
        apply (holds_from_rd _ s _ c r); [eapply holds_from_mono; [done|lia]|].
        by rewrite <- app_assoc. }
      rewrite (gsm7bit_to_ascii_escape fuel src d rest _ _ c) by (done || lia).
      replace (zlen pre + 2) with (zlen (pre ++ [STR_7BIT_ESCAPE_CODE; c]))
        by (rewrite length_app; cbn; lia).
      apply Hstep; [by rewrite <- app_assoc|rewrite length_app; cbn; lia|lia].
  - rewrite (gsm7bit_to_ascii_plain fuel src d rest _ _ c) by (done || lia).
    replace (zlen pre + 1) with (zlen (pre ++ [c])) by (rewrite length_app; cbn; lia).
    apply Hstep; [by rewrite <- app_assoc|rewrite length_app; cbn; lia|lia].
Qed.

Lemma gsm7bit_to_ascii_packed n p o :
  let s := unpack n p in
  bytes p -> Z.of_nat n <= zlen o -> Z.of_nat n <= 255 ->
  unpack_reads (Z.of_nat n) <= zlen p ->
  string_conversion_gsm7bit_to_ascii (Some p) (Some o) (Z.of_nat n) true =
    Ok (decode_septets s ++ drop (length (decode_septets s)) (s ++ drop n o),
        zlen (decode_septets s)).
Proof.
  cbn zeta. intros Hp Ho Hn Hr. unfold string_conversion_gsm7bit_to_ascii.
  rewrite unpacking_correct by done. cstep. set (s := unpack n p).
  pose proof (length_unpack n p) as Hs. fold s in Hs.
  pose proof (gsm7bit_to_ascii_loop_spec n None s [] s [] (s ++ drop n o)) as H.
  cbn [app length] in H. change (Z.of_nat 0) with 0 in H. rewrite Hs, Z.add_0_l in H.
  rewrite Nat2Z.id. apply H; [done|apply unpack_septets|lia|lia| | |lia].
  - autorewrite with clen. lia.
  - intros i Hi. rewrite Hs in Hi. cbn [default]. split; [autorewrite with clen; lia|].
    by rewrite zth_app_l by lia.
Qed.

Lemma gsm7bit_to_ascii_unpacked s tail o :
  septets s -> zlen s <= 255 -> zlen s <= zlen o ->
  string_conversion_gsm7bit_to_ascii (Some (s ++ tail)) (Some o) (zlen s) false =
    Ok (decode_septets s ++ drop (length (decode_septets s)) o, zlen (decode_septets s)).
Proof.
  intros Hs Hn Ho. unfold string_conversion_gsm7bit_to_ascii. cstep. cbn [default].
  pose proof (gsm7bit_to_ascii_loop_spec (length s) (Some (s ++ tail)) s [] s [] o) as H.
  cbn [app length] in H. change (Z.of_nat 0) with 0 in H. rewrite Z.add_0_l in H.
  rewrite Nat2Z.id. apply H; [done..|lia|lia| |done].
  intros i Hi. cbn. split; [autorewrite with clen; lia|]. by rewrite zth_app_l by lia.
Qed.

(** ** Characters that survive the conversion to septets and back *)

Definition representable (c : Z) : bool :=
  bool_decide (decode_septets (encode_char c) = [c]).

(** Septets without an escape stand for one character each. *)
Lemma decode_septets_app s k :
  Forall (fun c => c <> STR_7BIT_ESCAPE_CODE) s ->
  decode_septets (s ++ k) = decode_septets s ++ decode_septets k /\
  length (decode_septets s) = length s.
Proof.
  induction 1 as [|c s Hc _ [IH IHl]]; [done|]. cbn [app decode_septets].
  destruct (Z.eqb_spec c STR_7BIT_ESCAPE_CODE); [done|]. rewrite IH. split; [done|].
  cbn [length]. by rewrite IHl.
Qed.

Lemma decode_encode_char c s :
  byte c -> decode_septets (encode_char c ++ s) = decode_septets (encode_char c) ++ decode_septets s.
Proof.
  intros Hc. assert (Hne : match encode_char c with
    | [x] => negb (x =? STR_7BIT_ESCAPE_CODE)
    | [x; _] => x =? STR_7BIT_ESCAPE_CODE
    | _ => false end = true).
  { revert c Hc. apply byte_check. vm_compute. done. }
  destruct (encode_char c) as [|x [|y [|z l]]]; try done; cbn [app decode_septets].
  - by destruct (x =? STR_7BIT_ESCAPE_CODE).
  - by rewrite Hne.
Qed.

Lemma decode_encode_text t :
  bytes t -> Forall (fun c => representable c = true) t -> decode_septets (encode_text t) = t.
Proof.
  induction 1 as [|c t Hc Ht IH]; [done|]. inversion_clear 1 as [|?? Hrep Hreps].
  rewrite encode_text_cons, decode_encode_char, IH by done.
  apply bool_decide_eq_true in Hrep. by rewrite Hrep.
Qed.

(** ** Properties *)

(** Packing in place stores the 8-bit digits of the integer whose 7-bit
    digits are the septets, leaves the rest of the buffer alone, and unpacking
    the buffer gives the septets back; neither loop faults or runs out of
    iterations. *)
Theorem packing_round_trip (s rest o : list Z)
    (Hs : septets s) (Hrest : bytes rest) (Hn : zlen s <= 255) (Ho : zlen s <= zlen o) :
  exists m,
    string_conversion_7bit_sms_packing (Some (s ++ rest)) (zlen s) =
      Ok (m, packed_len (zlen s)) /\
    value 8 (take (Z.to_nat (packed_len (zlen s))) m) = value 7 s /\
    drop (Z.to_nat (packed_len (zlen s))) m =
      drop (Z.to_nat (packed_len (zlen s))) (s ++ rest) /\
    string_conversion_7bit_sms_unpacking (Some m) (Some o) (zlen s) =
      Ok (s ++ drop (length s) o, zlen s).
Proof.
  pose proof (length_pack s) as Hl. pose proof (packed_len_bounds (zlen s)) as Hb.
  pose proof (value_bits 7 s) as Hv.
  eexists. split; [by apply packing_correct|].
  replace (Z.to_nat (packed_len (zlen s))) with (length (pack s)) by lia.
  split; [|split].
  - rewrite take_app_length. unfold pack. rewrite value_digits by lia.
    apply Z.mod_small. eapply bits_mono; [|by apply Hv]. lia.
  - by rewrite drop_app_length.
  - rewrite unpacking_correct; [|apply Forall_app; split; [apply pack_bytes|]|done|done|].
    + rewrite unpack_app, unpack_pack by (by apply pack_bytes || done || lia). done.
    + apply Forall_drop, Forall_app. split; [|done].
      eapply Forall_impl; [exact Hs|]. intros x. apply bits_mono. lia.
    + autorewrite with clen. unfold unpack_reads.
      pose proof (Z.div_pos (zlen s - 1) 8). destruct (zlen s =? 0) eqn:E; lia.
Qed.

Lemma packing_round_trip_witness :
  exists m, string_conversion_7bit_sms_packing (Some ([72; 101; 108; 108; 111] ++ [0; 0])) 5 =
    Ok (m, 5) /\
    string_conversion_7bit_sms_unpacking (Some m) (Some [9; 9; 9; 9; 9; 9]) 5 =
    Ok ([72; 101; 108; 108; 111; 9], 5).
Proof.
  destruct (packing_round_trip [72; 101; 108; 108; 111] [0; 0] [9; 9; 9; 9; 9; 9])
    as (m & Hp & _ & _ & Hu);
    [by_compute..|].
  exists m. split; [exact Hp|exact Hu].
Defined.

(** The conversion to septets stores the septets of the longest prefix of
    the text that fits in 160 septets, packed or not, and reports how many
    characters it consumed, how many septets and how many bytes it stored. *)
Theorem ascii_to_gsm7bit_longest_prefix (t tail o : list Z) (packing : bool)
    (Ht : bytes t) (Hl : zlen t <= 255) (Ho : 160 <= zlen o) :
  exists f u r,
    t = f ++ u /\
    zlen (encode_text f) <= 160 /\
    (forall c v, u = c :: v -> 160 < zlen (encode_text (f ++ [c]))) /\
    string_conversion_ascii_to_gsm7bit (Some (t ++ tail)) (zlen t) (Some o) packing = Ok r /\
    g_consumed r = zlen f /\ g_chars r = zlen (encode_text f) /\
    length (g_data r) = length o /\
    take (Z.to_nat (g_bytes r)) (g_data r) =
      if packing then pack (encode_text f) else encode_text f.
Proof.
  pose proof (fit_room t 160) as Hr. destruct (fit_prefix t 160) as [u Hu].
  pose proof (length_pack (encode_text (fit t 160))) as Hp.
  pose proof (packed_len_bounds (zlen (encode_text (fit t 160)))) as Hb.
  exists (fit t 160), u. eexists. split; [done|]. split; [lia|]. split.
  { intros c v ->. by eapply fit_maximal. }
  split; [apply ascii_to_gsm7bit_correct; (done || lia)|]. cbn [g_consumed g_chars g_data g_bytes].
  split; [done|]. split; [done|]. split; destruct packing; autorewrite with clen; try lia.
  - rewrite <- Hp, Nat2Z.id. apply take_app_length.
  - rewrite Nat2Z.id. apply take_app_length.
Qed.

Lemma ascii_to_gsm7bit_longest_prefix_witness :
  exists f u r, [65; 91] = f ++ u /\
    string_conversion_ascii_to_gsm7bit (Some [65; 91]) 2 (Some (replicate 160 0)) true = Ok r /\
    g_consumed r = zlen f.
Proof.
  destruct (ascii_to_gsm7bit_longest_prefix [65; 91] [] (replicate 160 0) true)
    as (f & u & r & H1 & _ & _ & H2 & H3 & _);
    [by_compute..|].
  exists f, u, r. split; [exact H1|]. split; [exact H2|exact H3].
Defined.

(** A text of representable characters that fits in 160 septets is the
    result of converting it to packed septets and back. *)
Theorem text_round_trip (t tail o o' : list Z)
    (Ht : bytes t) (Hrep : Forall (fun c => representable c = true) t)
    (Hfit : zlen (encode_text t) <= 160) (Ho : 160 <= zlen o) (Hob : bytes o)
    (Ho' : 160 <= zlen o') :
  exists r out,
    string_conversion_ascii_to_gsm7bit (Some (t ++ tail)) (zlen t) (Some o) true = Ok r /\
    g_consumed r = zlen t /\
    string_conversion_gsm7bit_to_ascii (Some (g_data r)) (Some o') (g_chars r) true =
      Ok (out, zlen t) /\
    take (length t) out = t.
Proof.
  pose proof (length_encode_text t) as Hlt.
  pose proof (length_pack (encode_text t)) as Hp. set (s := encode_text t) in *.
  pose proof (packed_len_bounds (zlen s)) as Hb.
  assert (Hsep : septets s) by (by apply encode_text_septets).
  eexists _, _. split; [apply ascii_to_gsm7bit_correct; rewrite ?fit_all by done; fold s; (done || lia)|].
  rewrite fit_all by done. fold s. cbn [g_consumed g_data g_chars]. split; [done|]. split.
  - rewrite gsm7bit_to_ascii_packed; [| |lia|lia|].
    + rewrite unpack_app, unpack_pack by (apply pack_bytes || done || lia).
      unfold s. by rewrite decode_encode_text by done.
    + apply Forall_app. split; [apply pack_bytes|]. apply Forall_drop, Forall_app.
      split; [|by apply Forall_drop].
      eapply Forall_impl; [exact Hsep|]. intros x. apply bits_mono. lia.
    + autorewrite with clen. unfold unpack_reads.
      pose proof (Z.div_pos (zlen s - 1) 8). destruct (zlen s =? 0) eqn:E; lia.
  - apply take_app_length.
Qed.

Lemma text_round_trip_witness :
  exists r out,
    string_conversion_ascii_to_gsm7bit (Some [72; 105; 91; 64]) 4 (Some (replicate 160 0)) true = Ok r /\
    string_conversion_gsm7bit_to_ascii (Some (g_data r)) (Some (replicate 160 0)) (g_chars r) true =
      Ok (out, 4) /\ take 4 out = [72; 105; 91; 64].
Proof.
  destruct (text_round_trip [72; 105; 91; 64] [] (replicate 160 0) (replicate 160 0))
    as (r & out & H1 & _ & H2 & H3);
    [by_compute..|].
  exists r, out. split; [exact H1|]. split; [exact H2|exact H3].
Defined.

(** Every printable ASCII character but the backquote, and the line feed
    and carriage return, are representable. *)
Theorem printable_representable (c : Z) (Hc : 0x20 <= c <= 0x7E \/ c = 10 \/ c = 13)
    (Hq : c <> 0x60) : representable c = true.
Proof.
  assert (H : (negb ((0x20 <=? c) && (c <=? 0x7E) || (c =? 10) || (c =? 13)) ||
    (c =? 0x60) || representable c) = true).
  { cut (byte c); [|change (0 <= c < 256); lia]. revert c Hc Hq.
    intros c _ _. revert c. apply byte_check. vm_compute. done. }
  destruct (representable c); [done|]. lia.
Qed.

Lemma printable_representable_witness : representable 91 = true.
Proof. apply printable_representable; lia. Defined.
