(* ===== verification/SmsParser.v ===== *)
(** * The parser framework of the SMS library (lib/sms/parser.c)

    A parser instance is a buffer of PDU bytes, a position in it and a data
    structure filled by a list of sub-parsers, each of which reads at the
    current position and says how far to advance. The list, the payload decoder
    and the header accessor come from a [parser_api]. *)

From stdpp Require Import prelude.
From Stdlib Require Import ZArith Lia.
From S2P Require Import Prelude.

Open Scope Z_scope.

Definition PARSER_BUF_SIZE : Z := 180.

(** The hexadecimal decoder of the operating system: it returns the converted
    array, which is empty (length zero) on an error. *)
Class Hex2Bin := {
  hex2bin : list Z -> Z -> list Z;
  hex2bin_spec hex buflen :
    Z.even (zlen hex) = true -> zlen hex / 2 <= buflen ->
    hex2bin hex buflen = default [] (unhex hex)
}.

(** A decoder with this behaviour, for evaluation. *)
#[export, refine] Instance hex2bin_reference : Hex2Bin := {|
  hex2bin hex buflen := if zlen hex / 2 <=? buflen then default [] (unhex hex) else []
|}.
Proof. intros hex buflen _ H. by rewrite (proj2 (Z.leb_le _ _) H). Defined.

Section Framework.
  (** [D] is the structure the sub-parsers fill, [G] the global state of the
      library that the payload decoder uses, [H] the header handed out. *)
  Context {G D H : Type} `{!Hex2Bin}.

Record parser := mk_parser {
  buf_pos : Z;
  buf : list Z;
  buf_size : Z;
  payload : list Z;
  payload_buf_size : Z;
  payload_pos : Z;
  pdata : D
}.

(** A sub-parser gets the instance and the position its buffer argument points
    to; it returns the new data and the number of bytes parsed. The payload
    decoder returns the global state, the payload buffer and its length. *)
Definition parser_module : Type := parser -> Z -> res (D * Z).
Definition payload_decoder : Type := G -> parser -> Z -> res (G * list Z * Z).

Record parser_api := {
  data_zero : D;                       (* what k_calloc of data_size() bytes holds *)
  get_parsers : list parser_module;
  get_decoder : payload_decoder;
  get_header : parser -> H
}.

Variable api : parser_api.

(** [calloc_ok] is the answer of the allocator. *)
Definition parser_create (calloc_ok : bool) : res parser :=
  if calloc_ok then
    Ok {| buf_pos := 0; buf := replicate (Z.to_nat PARSER_BUF_SIZE) 0; buf_size := 0;
          payload := []; payload_buf_size := 0; payload_pos := 0;
          pdata := data_zero api |}
  else Err ENOMEM.

Definition with_data (p : parser) (d : D) : parser :=
  {| buf_pos := buf_pos p; buf := buf p; buf_size := buf_size p; payload := payload p;
     payload_buf_size := payload_buf_size p; payload_pos := payload_pos p; pdata := d |}.
Definition with_buf_pos (p : parser) (n : Z) : parser :=
  {| buf_pos := n; buf := buf p; buf_size := buf_size p; payload := payload p;
     payload_buf_size := payload_buf_size p; payload_pos := payload_pos p; pdata := pdata p |}.
Definition with_payload_pos (p : parser) (n : Z) : parser :=
  {| buf_pos := buf_pos p; buf := buf p; buf_size := buf_size p; payload := payload p;
     payload_buf_size := payload_buf_size p; payload_pos := n; pdata := pdata p |}.
Definition with_input (p : parser) (b : list Z) (n : Z) : parser :=
  {| buf_pos := buf_pos p; buf := b; buf_size := n; payload := payload p;
     payload_buf_size := payload_buf_size p; payload_pos := payload_pos p; pdata := pdata p |}.
Definition with_payload (p : parser) (b : list Z) (n : Z) : parser :=
  {| buf_pos := buf_pos p; buf := buf p; buf_size := buf_size p; payload := b;
     payload_buf_size := n; payload_pos := payload_pos p; pdata := pdata p |}.

(** The loop over the sub-parsers. *)
Fixpoint process_modules (parsers : list parser_module) (p : parser) : res parser :=
  match parsers with
  | [] => Ok p
  | f :: parsers =>
    let* '(d, ofs_inc) := f p (buf_pos p) in
    let p := with_buf_pos (with_data p d) (u8 (buf_pos p + ofs_inc)) in
    if buf_size p <? buf_pos p then Err EMSGSIZE else process_modules parsers p
  end.

Definition parser_process (p : parser) : res parser :=
  let* p := process_modules (get_parsers api) (with_buf_pos p 0) in
  Ok (with_payload_pos p (buf_pos p)).

Definition parser_process_str (p : parser) (data : list Z) : res parser :=
  let length := u16 (zlen data) in
  let data_buf_size := length / 2 in
  if negb (length mod 2 =? 0) then Err EMSGSIZE
  else if PARSER_BUF_SIZE <? data_buf_size then Err EMSGSIZE
  else
    let bin := hex2bin (take (Z.to_nat length) data) PARSER_BUF_SIZE in
    if zlen bin =? 0 then Err EINVAL
    else
      let* b := wr_block (buf p) 0 bin in
      parser_process (with_input p b data_buf_size).

Definition parser_get_payload (g : G) (p : parser) (out : list Z) (out_size : Z)
    : res (G * parser * Z) :=
  let p := with_payload p out out_size in
  let* '(g, out, n) := get_decoder api g p (payload_pos p) in
  Ok (g, with_payload p out out_size, n).

Definition parser_get_header (p : parser) : H := get_header api p.

End Framework.

Arguments parser D : clear implicits.
Arguments parser_module D : clear implicits.
Arguments parser_api G D H : clear implicits.
