(* ===== verification/SmsDeliver.v ===== *)
(** * SMS-DELIVER decoding (lib/sms/sms_deliver.c)

    The sub-parsers of the SMS-DELIVER PDU, the decoding of the user data
    header and of the user data, and the entry point
    [sms_deliver_pdu_parse]. *)

From stdpp Require Import prelude.
From Stdlib Require Import ZArith Lia.
From S2P Require Import Prelude Digits SmsConv SmsParser.

Open Scope Z_scope.

Definition SMS_MAX_PAYLOAD_LEN_CHARS : Z := 160.
Definition SMS_MAX_ADDRESS_LEN_CHARS : Z := 20.
Definition SMS_MAX_ADDRESS_LEN_OCTETS : Z := 10.
Definition SCTS_FIELD_SIZE : Z := 7.
Definition SMS_UDH_IE_CONCATENATED_SHORT_MESSAGES_8BIT : Z := 0x00.
Definition SMS_UDH_IE_APPLICATION_PORT_ADDRESSING_SCHEME_8BIT : Z := 0x04.
Definition SMS_UDH_IE_APPLICATION_PORT_ADDRESSING_SCHEME_16BIT : Z := 0x05.
Definition SMS_UDH_IE_CONCATENATED_SHORT_MESSAGES_16BIT : Z := 0x08.

(** ** Data *)

Record sms_time := {
  year : Z; month : Z; day : Z; hour : Z; minute : Z; second : Z; timezone : Z
}.

Record sms_address := {
  address_str : list Z;      (* char[SMS_MAX_ADDRESS_LEN_CHARS + 1] *)
  addr_length : Z;
  addr_type : Z
}.

Record sms_udh_concat := {
  concat_present : bool; ref_number : Z; total_msgs : Z; seq_number : Z
}.

Record sms_udh_app_port := {
  port_present : bool; dest_port : Z; src_port : Z
}.

Record pdu_deliver_header := {
  mti : Z; mms : Z; lp : Z; sri : Z; udhi : Z; rp : Z
}.

Record pdu_dcs_field := {
  dcs_class : Z; alphabet : Z; presence_of_class : Z; compressed : Z
}.

Record pdu_deliver_data := {
  header : pdu_deliver_header;
  oa : sms_address;
  pid : Z;
  dcs : pdu_dcs_field;
  timestamp : sms_time;
  udl : Z;
  udhl : Z;
  udh_app_port : sms_udh_app_port;
  udh_concat : sms_udh_concat
}.

Record sms_deliver_header := {
  time : sms_time;
  originating_address : sms_address;
  app_port : sms_udh_app_port;
  concatenated : sms_udh_concat
}.

Inductive sms_type := SMS_TYPE_DELIVER | SMS_TYPE_STATUS_REPORT.

Record sms_data := {
  sms_data_type : sms_type;
  sms_header : sms_deliver_header;
  payload_len : Z;
  sms_payload : list Z       (* uint8_t[SMS_MAX_PAYLOAD_LEN_CHARS + 1] *)
}.

(** The global state of the library that the decoder uses: the temporary
    payload buffer, and the number of heap blocks in use. *)
Record lib := {
  sms_payload_tmp : list Z;  (* uint8_t[SMS_MAX_PAYLOAD_LEN_CHARS] *)
  live_blocks : Z
}.

(** Zeroed memory. *)
Definition time_zero : sms_time :=
  {| year := 0; month := 0; day := 0; hour := 0; minute := 0; second := 0; timezone := 0 |}.
Definition address_zero : sms_address :=
  {| address_str := replicate 21 0; addr_length := 0; addr_type := 0 |}.
Definition concat_zero : sms_udh_concat :=
  {| concat_present := false; ref_number := 0; total_msgs := 0; seq_number := 0 |}.
Definition app_port_zero : sms_udh_app_port :=
  {| port_present := false; dest_port := 0; src_port := 0 |}.
Definition pdu_deliver_data_zero : pdu_deliver_data :=
  {| header := {| mti := 0; mms := 0; lp := 0; sri := 0; udhi := 0; rp := 0 |};
     oa := address_zero; pid := 0;
     dcs := {| dcs_class := 0; alphabet := 0; presence_of_class := 0; compressed := 0 |};
     timestamp := time_zero; udl := 0; udhl := 0;
     udh_app_port := app_port_zero; udh_concat := concat_zero |}.
Definition deliver_header_zero : sms_deliver_header :=
  {| time := time_zero; originating_address := address_zero;
     app_port := app_port_zero; concatenated := concat_zero |}.

(** Field updates. *)
Definition set_header (d : pdu_deliver_data) x := {| header := x; oa := oa d; pid := pid d;
  dcs := dcs d; timestamp := timestamp d; udl := udl d; udhl := udhl d;
  udh_app_port := udh_app_port d; udh_concat := udh_concat d |}.
Definition set_oa (d : pdu_deliver_data) x := {| header := header d; oa := x; pid := pid d;
  dcs := dcs d; timestamp := timestamp d; udl := udl d; udhl := udhl d;
  udh_app_port := udh_app_port d; udh_concat := udh_concat d |}.
Definition set_pid (d : pdu_deliver_data) x := {| header := header d; oa := oa d; pid := x;
  dcs := dcs d; timestamp := timestamp d; udl := udl d; udhl := udhl d;
  udh_app_port := udh_app_port d; udh_concat := udh_concat d |}.
Definition set_dcs (d : pdu_deliver_data) x := {| header := header d; oa := oa d; pid := pid d;
  dcs := x; timestamp := timestamp d; udl := udl d; udhl := udhl d;
  udh_app_port := udh_app_port d; udh_concat := udh_concat d |}.
Definition set_timestamp (d : pdu_deliver_data) x := {| header := header d; oa := oa d;
  pid := pid d; dcs := dcs d; timestamp := x; udl := udl d; udhl := udhl d;
  udh_app_port := udh_app_port d; udh_concat := udh_concat d |}.
Definition set_udl (d : pdu_deliver_data) x := {| header := header d; oa := oa d; pid := pid d;
  dcs := dcs d; timestamp := timestamp d; udl := x; udhl := udhl d;
  udh_app_port := udh_app_port d; udh_concat := udh_concat d |}.
Definition set_udhl (d : pdu_deliver_data) x := {| header := header d; oa := oa d; pid := pid d;
  dcs := dcs d; timestamp := timestamp d; udl := udl d; udhl := x;
  udh_app_port := udh_app_port d; udh_concat := udh_concat d |}.
Definition set_app_port (d : pdu_deliver_data) x := {| header := header d; oa := oa d;
  pid := pid d; dcs := dcs d; timestamp := timestamp d; udl := udl d; udhl := udhl d;
  udh_app_port := x; udh_concat := udh_concat d |}.
Definition set_concat (d : pdu_deliver_data) x := {| header := header d; oa := oa d;
  pid := pid d; dcs := dcs d; timestamp := timestamp d; udl := udl d; udhl := udhl d;
  udh_app_port := udh_app_port d; udh_concat := x |}.

Abbreviation dparser := (parser pdu_deliver_data).

(** ** Sub-parsers *)

Definition swap_nibbles (value : Z) : Z :=
  u8 (Z.lor (Z.shiftl (Z.land value 0x0f) 4) (Z.shiftr (Z.land value 0xf0) 4)).

Definition semioctet_to_dec (value : Z) : Z :=
  u8 (Z.shiftr (Z.land value 0xf0) 4 + Z.land value 0x0f * 10).

(** [sprintf(str + idx, "%d", v)]: the digits and the terminating NUL. *)
Definition sprintf_d (str : list Z) (idx v : Z) : res (list Z) :=
  wr_block str idx (dec v ++ [0]).

(** The [for] loop over the [n] octets that are left, from octet [i]. *)
Fixpoint convert_number_loop (n : nat) (number : list Z) (length : Z) (fill_bits : bool)
    (i hex_str_index : Z) (str_number : list Z) : res (list Z * Z) :=
  match n with
  | O => Ok (str_number, hex_str_index)
  | S n =>
    let* b := rd number i in
    let number_value := Z.shiftr (Z.land b 0xF0) 4 in
    let* str_number := sprintf_d str_number hex_str_index number_value in
    let* str_number :=
      if (i <? length - 1) || negb fill_bits then
        sprintf_d str_number (hex_str_index + 1) (Z.land b 0x0F)
      else Ok str_number in
    convert_number_loop n number length fill_bits (i + 1) (u8 (hex_str_index + 2)) str_number
  end.

Definition convert_number_to_str (number : list Z) (number_length : Z) (str_number : list Z)
    : res (list Z) :=
  let fill_bits := number_length mod 2 =? 1 in
  let length := if fill_bits then u8 (number_length / 2 + 1) else number_length / 2 in
  let* '(str_number, hex_str_index) :=
    convert_number_loop (Z.to_nat length) number length fill_bits 0 0 str_number in
  wr str_number hex_str_index 0.

Definition decode_pdu_deliver_smsc (p : dparser) (pos : Z) : res (pdu_deliver_data * Z) :=
  let* smsc_size := rd (buf p) pos in
  Ok (pdata p, smsc_size + 1).

(** The bit fields of the first octet, the first one in the lowest bits. *)
Definition header_of_byte (b : Z) : pdu_deliver_header :=
  {| mti := Z.land b 3; mms := Z.land (Z.shiftr b 2) 1; lp := Z.land (Z.shiftr b 3) 1;
     sri := Z.land (Z.shiftr b 5) 1; udhi := Z.land (Z.shiftr b 6) 1;
     rp := Z.land (Z.shiftr b 7) 1 |}.

Definition decode_pdu_deliver_header (p : dparser) (pos : Z) : res (pdu_deliver_data * Z) :=
  let* b := rd (buf p) pos in
  Ok (set_header (pdata p) (header_of_byte b), 1).

Definition decode_pdu_oa_field (p : dparser) (pos : Z) : res (pdu_deliver_data * Z) :=
  let* len := rd (buf p) pos in
  let* type := rd (buf p) (pos + 1) in
  if SMS_MAX_ADDRESS_LEN_CHARS <? len then Err EINVAL
  else
    let length := if len mod 2 =? 1 then u8 (len / 2 + 1) else len / 2 in
    let* address := rd_block (buf p) (pos + 2) length in
    let address := swap_nibbles <$> address in
    let* str := convert_number_to_str address len (address_str (oa (pdata p))) in
    Ok (set_oa (pdata p) {| address_str := str; addr_length := len; addr_type := type |},
        2 + length).

Definition decode_pdu_pid_field (p : dparser) (pos : Z) : res (pdu_deliver_data * Z) :=
  let* b := rd (buf p) pos in
  Ok (set_pid (pdata p) b, 1).

Definition dcs_of_byte (b : Z) : pdu_dcs_field :=
  {| dcs_class := Z.land b 3; alphabet := Z.land (Z.shiftr b 2) 3;
     presence_of_class := Z.land (Z.shiftr b 4) 1; compressed := Z.land (Z.shiftr b 5) 1 |}.

Definition decode_pdu_dcs_field (p : dparser) (pos : Z) : res (pdu_deliver_data * Z) :=
  let* value := rd (buf p) pos in
  if Z.land value 0xC0 =? 0 then Ok (set_dcs (pdata p) (dcs_of_byte value), 1)
  else if Z.shiftr (Z.land value 0xF0) 4 =? 0xF then
    let d := dcs_of_byte (Z.land value 7) in
    Ok (set_dcs (pdata p)
          {| dcs_class := dcs_class d; alphabet := alphabet d;
             presence_of_class := 1; compressed := compressed d |}, 1)
  else Err EINVAL.

Definition decode_pdu_scts_field (p : dparser) (pos : Z) : res (pdu_deliver_data * Z) :=
  let* b0 := rd (buf p) pos in
  let* b1 := rd (buf p) (pos + 1) in
  let* b2 := rd (buf p) (pos + 2) in
  let* b3 := rd (buf p) (pos + 3) in
  let* b4 := rd (buf p) (pos + 4) in
  let* b5 := rd (buf p) (pos + 5) in
  let* b6 := rd (buf p) (pos + 6) in
  let tmp_tz := semioctet_to_dec (Z.land b6 0xf7) in
  let tmp_tz := if ctrue (Z.land b6 0x08) then - tmp_tz else tmp_tz in
  Ok (set_timestamp (pdata p)
        {| year := semioctet_to_dec b0; month := semioctet_to_dec b1;
           day := semioctet_to_dec b2; hour := semioctet_to_dec b3;
           minute := semioctet_to_dec b4; second := semioctet_to_dec b5;
           timezone := i8 tmp_tz |}, SCTS_FIELD_SIZE).

Definition decode_pdu_udl_field (p : dparser) (pos : Z) : res (pdu_deliver_data * Z) :=
  let* b := rd (buf p) pos in
  Ok (set_udl (pdata p) b, 1).

(** ** User data header *)

Definition udh_ie_concat_validity_check (d : pdu_deliver_data) : pdu_deliver_data :=
  let c := udh_concat d in
  if total_msgs c =? 0 then set_concat d concat_zero
  else if (seq_number c =? 0) || (total_msgs c <? seq_number c) then set_concat d concat_zero
  else d.

(** The [switch] on the identifier of an information element whose data are at
    [at] in the buffer. *)
Definition udh_ie_switch (b : list Z) (d : pdu_deliver_data) (ie_id ie_length at_ : Z)
    : res pdu_deliver_data :=
  if ie_id =? SMS_UDH_IE_CONCATENATED_SHORT_MESSAGES_8BIT then
    if negb (ie_length =? 3) then Ok d else
    let* b0 := rd b at_ in
    let* b1 := rd b (at_ + 1) in
    let* b2 := rd b (at_ + 2) in
    Ok (udh_ie_concat_validity_check (set_concat d
          {| concat_present := true; ref_number := b0; total_msgs := b1; seq_number := b2 |}))
  else if ie_id =? SMS_UDH_IE_APPLICATION_PORT_ADDRESSING_SCHEME_8BIT then
    if negb (ie_length =? 2) then Ok d else
    let* b0 := rd b at_ in
    let* b1 := rd b (at_ + 1) in
    Ok (set_app_port d {| port_present := true; dest_port := b0; src_port := b1 |})
  else if ie_id =? SMS_UDH_IE_APPLICATION_PORT_ADDRESSING_SCHEME_16BIT then
    if negb (ie_length =? 4) then Ok d else
    let* b0 := rd b at_ in
    let* b1 := rd b (at_ + 1) in
    let* b2 := rd b (at_ + 2) in
    let* b3 := rd b (at_ + 3) in
    Ok (set_app_port d {| port_present := true;
          dest_port := Z.lor (u16 (Z.shiftl b0 8)) b1;
          src_port := Z.lor (u16 (Z.shiftl b2 8)) b3 |})
  else if ie_id =? SMS_UDH_IE_CONCATENATED_SHORT_MESSAGES_16BIT then
    if negb (ie_length =? 4) then Ok d else
    let* b0 := rd b at_ in
    let* b1 := rd b (at_ + 1) in
    let* b2 := rd b (at_ + 2) in
    let* b3 := rd b (at_ + 3) in
    Ok (udh_ie_concat_validity_check (set_concat d
          {| concat_present := true; ref_number := Z.lor (u16 (Z.shiftl b0 8)) b1;
             total_msgs := b2; seq_number := b3 |}))
  else Ok d.

(** The [while] loop over the information elements. *)
Fixpoint udh_ie_loop (fuel : nat) (b : list Z) (pos : Z) (d : pdu_deliver_data) (ofs : Z)
    : res pdu_deliver_data :=
  if ofs <? udhl d then
    match fuel with
    | O => NoFuel
    | S fuel =>
      let* ie_id := rd b (pos + ofs) in
      let ofs := u8 (ofs + 1) in
      let* ie_length := rd b (pos + ofs) in
      let ofs := u8 (ofs + 1) in
      if udhl d - ofs <? ie_length then
        Ok (set_app_port (set_concat d concat_zero) app_port_zero)
      else
        let* d := udh_ie_switch b d ie_id ie_length (pos + ofs) in
        udh_ie_loop fuel b pos d (u8 (ofs + ie_length))
    end
  else Ok d.

(** Every iteration consumes at least two octets of a header of at most 255. *)
Definition decode_pdu_udh_ie (p : dparser) (d : pdu_deliver_data) (pos : Z)
    : res pdu_deliver_data :=
  udh_ie_loop 128 (buf p) pos d 1.

Definition decode_pdu_udh (p : dparser) (pos : Z) : res (pdu_deliver_data * Z) :=
  let d := pdata p in
  if negb (ctrue (udhi (header d))) then Ok (d, 0) else
  let* b0 := rd (buf p) pos in
  let d := set_udhl d (u8 (b0 + 1)) in
  if udl d <? udhl d then Err EMSGSIZE
  else if buf_size p - buf_pos p <? udhl d then Err EMSGSIZE
  else
    let* d := decode_pdu_udh_ie p d pos in
    Ok (d, if negb (alphabet (dcs d) =? 0) then udhl d else 0).

(** ** User data *)

(** [__ASSERT]: the code relies on the condition. *)
Definition c_assert {A} (b : bool) (k : res A) : res A := if b then k else Fault.

Definition set_payload_tmp (g : lib) (t : list Z) : lib :=
  {| sms_payload_tmp := t; live_blocks := live_blocks g |}.
Definition set_live_blocks (g : lib) (n : Z) : lib :=
  {| sms_payload_tmp := sms_payload_tmp g; live_blocks := n |}.

(** [parser_delete]: the block that holds the data is freed. *)
Definition parser_delete (g : lib) : lib := set_live_blocks g (live_blocks g - 1).

Definition decode_pdu_ud_7bit (g : lib) (p : dparser) (pos : Z) : res (lib * list Z * Z) :=
  let d := pdata p in
  if SMS_MAX_PAYLOAD_LEN_CHARS <? udl d then Err EMSGSIZE
  else
    let actual_data_length := u16 (Z.quot ((buf_size p - payload_pos p) * 8) 7) in
    let actual_data_length := Z.min actual_data_length (udl d) in
    let* '(tmp, length) := string_conversion_gsm7bit_to_ascii
      (Some (drop (Z.to_nat pos) (buf p))) (Some (sms_payload_tmp g))
      (u8 actual_data_length) true in
    let skip_bits := u8 (udhl d * 8) in
    let skip_septets := skip_bits / 7 in
    let skip_septets := if 0 <? skip_bits mod 7 then u8 (skip_septets + 1) else skip_septets in
    let length_udh_skipped := if skip_septets <=? length then length - skip_septets else 0 in
    c_assert (length_udh_skipped <=? payload_buf_size p) (
    let* text := rd_block tmp skip_septets length_udh_skipped in
    let* out := wr_block (payload p) 0 text in
    Ok (set_payload_tmp g tmp, out, length_udh_skipped)).

Definition decode_pdu_ud_8bit (g : lib) (p : dparser) (pos : Z) : res (lib * list Z * Z) :=
  let d := pdata p in
  let actual_data_length :=
    u32 (Z.min (buf_size p - payload_pos p) (udl d - udhl d)) in
  c_assert (payload_pos p <=? buf_size p) (
  c_assert (actual_data_length <=? payload_buf_size p) (
  let* data := rd_block (buf p) pos actual_data_length in
  let* out := wr_block (payload p) 0 data in
  Ok (g, out, actual_data_length))).

Definition decode_pdu_deliver_message (g : lib) (p : dparser) (pos : Z)
    : res (lib * list Z * Z) :=
  if alphabet (dcs (pdata p)) =? 0 then decode_pdu_ud_7bit g p pos
  else if alphabet (dcs (pdata p)) =? 1 then decode_pdu_ud_8bit g p pos
  else Err ENOTSUP.

(** ** The parser API and the entry point *)

Definition sms_pdu_deliver_parsers : list (parser_module pdu_deliver_data) := [
  decode_pdu_deliver_smsc;
  decode_pdu_deliver_header;
  decode_pdu_oa_field;
  decode_pdu_pid_field;
  decode_pdu_dcs_field;
  decode_pdu_scts_field;
  decode_pdu_udl_field;
  decode_pdu_udh
].

Definition sms_deliver_get_header (p : dparser) : sms_deliver_header :=
  {| time := timestamp (pdata p); originating_address := oa (pdata p);
     app_port := udh_app_port (pdata p); concatenated := udh_concat (pdata p) |}.

Definition sms_deliver_api : parser_api lib pdu_deliver_data sms_deliver_header :=
  {| data_zero := pdu_deliver_data_zero;
     get_parsers := sms_pdu_deliver_parsers;
     get_decoder := decode_pdu_deliver_message;
     get_header := sms_deliver_get_header |}.

Section Entry.
  Context {HX : Hex2Bin}.

(** Returns the global state, the message structure and the error, if any. A
    block is allocated by [parser_create] and freed by [parser_delete]. *)
Definition sms_deliver_pdu_parse (calloc_ok : bool) (g : lib) (pdu : list Z) (data : sms_data)
    : res (lib * sms_data * option errno) :=
  let with_header (h : sms_deliver_header) (n : Z) (out : list Z) : sms_data :=
    {| sms_data_type := sms_data_type data; sms_header := h; payload_len := n;
       sms_payload := out |} in
  let data0 := with_header deliver_header_zero (payload_len data) (sms_payload data) in
  match parser_create sms_deliver_api calloc_ok with
  | Ok p =>
    let g := set_live_blocks g (live_blocks g + 1) in
    match parser_process_str sms_deliver_api p pdu with
    | Ok p =>
      let h := parser_get_header sms_deliver_api p in
      match parser_get_payload sms_deliver_api g p (sms_payload data)
              SMS_MAX_PAYLOAD_LEN_CHARS with
      | Ok (g, p, n) =>
        Ok (parser_delete g, with_header h n (payload p), None)
      | Err e => Ok (g, with_header h (- errno_num e) (sms_payload data), Some e)
      | Fault => Fault
      | NoFuel => NoFuel
      end
    | Err e => Ok (g, data0, Some e)
    | Fault => Fault
    | NoFuel => NoFuel
    end
  | Err e => Ok (g, data0, Some e)
  | Fault => Fault
  | NoFuel => NoFuel
  end.

End Entry.

(** ** Addresses *)

(** Digits in semi-octet representation, low nibble first (3GPP TS 23.040
    section 9.1.2.3); a last single digit is filled up with ones. *)
Fixpoint semi_octets (ds : list Z) : list Z :=
  match ds with
  | [] => []
  | [d] => [0xF0 + d]
  | d1 :: d2 :: ds => 16 * d2 + d1 :: semi_octets ds
  end.

Definition digit (d : Z) : Prop := 0 <= d < 10.
Definition ascii_digits (ds : list Z) : list Z := (fun d => 48 + d) <$> ds.

#[export] Instance digit_dec d : Decision (digit d).
Proof. unfold digit. apply _. Defined.

Lemma swap_semi_octet d1 d2 :
  0 <= d1 < 16 -> 0 <= d2 < 16 ->
  let b := swap_nibbles (16 * d2 + d1) in
  Z.shiftr (Z.land b 0xF0) 4 = d1 /\ Z.land b 0x0F = d2.
Proof.
  intros H1 H2. set (b := 16 * d2 + d1). assert (Hb : byte b) by (split; change (2 ^ 8) with 256; lia).
  assert (Hd1 : d1 = b mod 16) by (apply Z.mod_unique with d2; lia).
  assert (Hd2 : d2 = b / 16) by (apply Z.div_unique with d1; lia).
  cbn zeta. rewrite Hd1, Hd2. clearbody b. clear Hd1 Hd2 H1 H2.
  assert (H : ((Z.shiftr (Z.land (swap_nibbles b) 0xF0) 4 =? b mod 16) &&
    (Z.land (swap_nibbles b) 0x0F =? b / 16)) = true).
  { revert b Hb. apply byte_check. vm_compute. done. }
  lia.
Qed.

Lemma dec_digit d : digit d -> dec d = [48 + d].
Proof. intros [? H]. unfold dec. cbn. by rewrite (proj2 (Z.ltb_lt d 10) H). Qed.

Lemma sprintf_digit e rest i d :
  i = zlen e -> digit d -> (2 <= length rest)%nat ->
  sprintf_d (e ++ rest) i d = Ok ((e ++ [48 + d]) ++ 0 :: drop 2 rest).
Proof.
  intros Hi Hd Hr. unfold sprintf_d. rewrite dec_digit by done.
  rewrite wr_block_append by done. cbn [length app]. by rewrite <- app_assoc.
Qed.

Lemma length_semi_octets ds : 2 * zlen (semi_octets ds) = zlen ds + zlen ds mod 2.
Proof.
  induction ds as [|d|d1 d2 ds IH] using list_ind2; [done..|].
  cbn [semi_octets length]. rewrite !Nat2Z.inj_succ.
  replace (Z.succ (Z.succ (zlen ds))) with (zlen ds + 1 * 2) by lia.
  rewrite Z.mod_add by lia. lia.
Qed.

(** One iteration on a pair of digits, and on a last single digit. *)
Lemma convert_number_pair n number len fill i e rest d1 d2 :
  rd number i = Ok (swap_nibbles (16 * d2 + d1)) -> digit d1 -> digit d2 ->
  (i <? len - 1) || negb fill = true -> zlen e <= 20 -> (3 <= length rest)%nat ->
  convert_number_loop (S n) number len fill i (zlen e) (e ++ rest) =
    convert_number_loop n number len fill (i + 1) (zlen e + 2)
      ((e ++ [48 + d1; 48 + d2]) ++ 0 :: drop 3 rest).
Proof.
  intros Hrd Hd1 Hd2 Hcond He Hr. cbn [convert_number_loop]. rewrite Hrd. cstep.
  destruct (swap_semi_octet d1 d2) as [Hhi Hlo]; [unfold digit in *; lia..|].
  rewrite Hhi, Hlo, sprintf_digit by (done || lia). cstep.
  rewrite Hcond, sprintf_digit; [|rewrite length_app; cbn; lia|done
    |cbn [length]; rewrite length_drop; lia].
  cstep. rewrite u8_small by lia. rewrite <- (app_assoc e).
  change (drop 2 (0 :: drop 2 rest)) with (drop 1 (drop 2 rest)). by rewrite drop_drop.
Qed.

Lemma convert_number_single number len i e rest d :
  rd number i = Ok (swap_nibbles (0xF0 + d)) -> digit d -> len = i + 1 ->
  zlen e <= 20 -> (2 <= length rest)%nat ->
  convert_number_loop 1 number len true i (zlen e) (e ++ rest) =
    Ok ((e ++ [48 + d]) ++ 0 :: drop 2 rest, zlen e + 2).
Proof.
  intros Hrd Hd -> He Hr. cbn [convert_number_loop]. rewrite Hrd. cstep.
  destruct (swap_semi_octet d 15) as [Hhi _]; [unfold digit in *; lia..|].
  change (16 * 15 + d) with (0xF0 + d) in Hhi.
  rewrite Hhi, sprintf_digit by (done || lia). cstep.
  destruct (Z.ltb_spec i (i + 1 - 1)); [lia|]. cbn [orb negb]. cstep.
  by rewrite u8_small by lia.
Qed.

Lemma convert_number_loop_spec ds number len i e rest :
  Forall digit ds -> seen number i (swap_nibbles <$> semi_octets ds) ->
  zlen e = 2 * i -> len = i + zlen (semi_octets ds) -> len <= 10 ->
  (length ds < length rest)%nat ->
  exists rest',
    convert_number_loop (length (semi_octets ds)) number len (zlen ds mod 2 =? 1) i (zlen e)
      (e ++ rest) = Ok ((e ++ ascii_digits ds) ++ rest', 2 * len) /\
    length rest' = (length rest - length ds)%nat /\
    (zlen ds mod 2 = 1 -> exists r, rest' = 0 :: r).
Proof.
  intros Hds. revert i e rest.
  induction ds as [|d|d1 d2 ds IH] using list_ind2; intros i e rest Hn He Hl Hl10 Hr.
  - exists rest. cbn in *. rewrite app_nil_r, Nat.sub_0_r.
    split; [by do 2 f_equal; lia|]. split; [done|]. intros [=].
  - inversion_clear Hds as [|?? Hd _]. apply rd_seen0 in Hn.
    cbn [semi_octets length] in *. eexists. split; [|split].
    + change (Z.of_nat 1 mod 2 =? 1) with true.
      rewrite (convert_number_single number len i e rest d) by (done || lia).
      do 2 f_equal. lia.
    + cbn [length]. rewrite length_drop. lia.
    + eauto.
  - inversion_clear Hds as [|?? Hd1 Hds']. inversion_clear Hds' as [|?? Hd2 Hds].
    cbn [semi_octets fmap list_fmap] in Hn. apply seen_cons in Hn as [Hn Hn'].
    apply rd_seen0 in Hn. cbn [semi_octets length] in *.
    replace (Z.of_nat (S (S (length ds))) mod 2) with (zlen ds mod 2) by
      (replace (Z.of_nat (S (S (length ds)))) with (zlen ds + 1 * 2) by lia;
       by rewrite Z.mod_add by lia).
    pose proof (length_semi_octets ds) as Hlen.
    assert (Hlx : zlen (e ++ [48 + d1; 48 + d2]) = zlen e + 2) by (rewrite length_app; cbn; lia).
    destruct (IH Hds (i + 1) (e ++ [48 + d1; 48 + d2]) (0 :: drop 3 rest))
      as (rest' & Hloop & Hlr & Hz); [done|lia|lia|lia|cbn [length]; rewrite length_drop; lia|].
    exists rest'. rewrite (convert_number_pair _ _ _ _ _ _ _ d1 d2); [|done..| |lia|lia].
    + rewrite <- Hlx, Hloop. split; [by rewrite <- !app_assoc|]. split; [|done].
      rewrite Hlr. cbn [length]. rewrite length_drop. lia.
    + destruct ds as [|]; [by rewrite orb_true_r|].
      destruct (Z.ltb_spec i (len - 1)); [done|]. exfalso. cbn [length] in Hlen.
      pose proof (Z.mod_pos_bound (Z.of_nat (S (length ds))) 2). lia.
Qed.

(** The address string decoded from semi-octets. *)
Lemma convert_number_correct ds str :
  Forall digit ds -> zlen ds <= 20 -> length str = 21%nat ->
  exists str',
    convert_number_to_str (swap_nibbles <$> semi_octets ds) (zlen ds) str = Ok str' /\
    length str' = 21%nat /\ cstr str' = ascii_digits ds.
Proof.
  intros Hds Hn Hs. pose proof (length_semi_octets ds) as Hlen.
  pose proof (Z.div_mod (zlen ds) 2) as Hdm. pose proof (Z.mod_pos_bound (zlen ds) 2) as Hmb.
  unfold convert_number_to_str.
  replace (if zlen ds mod 2 =? 1 then u8 (zlen ds / 2 + 1) else zlen ds / 2)
    with (zlen (semi_octets ds))
    by (destruct (Z.eqb_spec (zlen ds mod 2) 1); rewrite ?u8_small by lia; lia).
  rewrite Nat2Z.id.
  destruct (convert_number_loop_spec ds (swap_nibbles <$> semi_octets ds)
    (zlen (semi_octets ds)) 0 [] str) as (rest' & Hloop & Hlr & Hz); [done| |done|lia|lia|lia|].
  { apply seen_all. }
  cbn [app length] in Hloop. change (Z.of_nat 0) with 0 in Hloop. rewrite Hloop. cstep.
  assert (Hla : zlen (ascii_digits ds) = zlen ds) by (unfold ascii_digits; by rewrite length_fmap).
  assert (Hnz : Forall (fun c => c <> 0) (ascii_digits ds)).
  { apply Forall_fmap. eapply Forall_impl; [exact Hds|]. unfold digit. cbn. lia. }
  destruct (decide (zlen ds mod 2 = 1)) as [Hodd|Heven].
  - destruct (Hz Hodd) as [r ->]. cbn [length] in Hlr.
    exists (ascii_digits ds ++ 0 :: <[0%nat := 0]> r).
    rewrite wr_Ok by (rewrite length_app; cbn [length]; lia). split.
    + f_equal. rewrite insert_app_r_alt by lia.
      replace (Z.to_nat (2 * zlen (semi_octets ds)) - length (ascii_digits ds))%nat
        with 1%nat by lia. done.
    + split; [|by apply cstr_app]. rewrite length_app. cbn [length]. rewrite length_insert. lia.
  - destruct rest' as [|x r]; [cbn in Hlr; lia|]. cbn [length] in Hlr.
    exists (ascii_digits ds ++ 0 :: r). rewrite wr_Ok by (rewrite length_app; cbn [length]; lia).
    split.
    + f_equal. rewrite insert_app_r_alt by lia.
      replace (Z.to_nat (2 * zlen (semi_octets ds)) - length (ascii_digits ds))%nat
        with 0%nat by lia. done.
    + split; [|by apply cstr_app]. rewrite length_app. cbn [length]. lia.
Qed.

(** ** Time stamps *)

(** A two-digit number in semi-octet representation. *)
Definition semi_octet (v : Z) : Z := 16 * (v mod 10) + v / 10.
Definition tz_octet (tz : Z) : Z := semi_octet (Z.abs tz) + if tz <? 0 then 8 else 0.
Definition scts_octets (t : sms_time) : list Z :=
  [semi_octet (year t); semi_octet (month t); semi_octet (day t); semi_octet (hour t);
   semi_octet (minute t); semi_octet (second t); tz_octet (timezone t)].

(** Fields of two digits; the time zone is less than 80 quarters of an hour
    away from GMT, since its tens digit has three bits. *)
Definition time_ok (t : sms_time) : Prop :=
  Forall (fun v => 0 <= v < 100)
    [year t; month t; day t; hour t; minute t; second t] /\ -80 < timezone t < 80.

Lemma semioctet_round_trip v : 0 <= v < 100 -> semioctet_to_dec (semi_octet v) = v.
Proof.
  intros H. apply Z.eqb_eq. revert v H.
  apply (range_check (fun v => semioctet_to_dec (semi_octet v) =? v) 0 100).
  vm_compute. done.
Qed.

Lemma semi_octet_byte v : 0 <= v < 100 -> byte (semi_octet v).
Proof.
  intros H. enough (bool_decide (byte (semi_octet v)) = true) by (by eapply bool_decide_eq_true).
  revert v H. apply (range_check (fun v => bool_decide (byte (semi_octet v))) 0 100).
  vm_compute. done.
Qed.

Definition tz_decode (b : Z) : Z :=
  let v := semioctet_to_dec (Z.land b 0xf7) in
  i8 (if ctrue (Z.land b 0x08) then - v else v).

Lemma tz_round_trip tz : -80 < tz < 80 -> tz_decode (tz_octet tz) = tz /\ byte (tz_octet tz).
Proof.
  intros H.
  enough ((tz_decode (tz_octet tz) =? tz) && bool_decide (byte (tz_octet tz)) = true) as E.
  { apply andb_prop in E as [E1 E2]. apply bool_decide_eq_true in E2. split; [lia|done]. }
  assert (H' : -79 <= tz < -79 + 159) by lia. clear H. revert tz H'.
  apply range_check. vm_compute. done.
Qed.

Lemma decode_scts_spec (p : dparser) pos t :
  time_ok t -> seen (buf p) pos (scts_octets t) ->
  decode_pdu_scts_field p pos = Ok (set_timestamp (pdata p) t, 7).
Proof.
  intros [Ht Htz] Hs. destruct (tz_round_trip (timezone t) Htz) as [Hz _].
  unfold decode_pdu_scts_field.
  pose proof (rd_seen _ _ _ 0 Hs) as H0. rewrite Z.add_0_r in H0.
  rewrite H0, !(rd_seen _ _ _ _ Hs) by (cbn; lia). cstep.
  change (zth (scts_octets t) 0) with (semi_octet (year t)).
  change (zth (scts_octets t) 1) with (semi_octet (month t)).
  change (zth (scts_octets t) 2) with (semi_octet (day t)).
  change (zth (scts_octets t) 3) with (semi_octet (hour t)).
  change (zth (scts_octets t) 4) with (semi_octet (minute t)).
  change (zth (scts_octets t) 5) with (semi_octet (second t)).
  change (zth (scts_octets t) 6) with (tz_octet (timezone t)).
  fold (tz_decode (tz_octet (timezone t))). rewrite Hz.
  rewrite !Forall_cons in Ht. destruct_and! Ht.
  rewrite !semioctet_round_trip by lia. by destruct t.
Qed.

(** ** User data headers *)

(** An information element: its identifier and its data. *)
Abbreviation ie := (Z * list Z)%type.
Definition ie_octets (e : ie) : list Z := e.1 :: zlen e.2 :: e.2.
Definition ies_octets (es : list ie) : list Z := es ≫= ie_octets.

(** What an information element says about concatenation and ports. *)
Definition ie_concat (c : sms_udh_concat) (e : ie) : sms_udh_concat :=
  let valid r t s :=
    if (1 <=? t) && (1 <=? s) && (s <=? t)
    then {| concat_present := true; ref_number := r; total_msgs := t; seq_number := s |}
    else concat_zero in
  match e with
  | (0x00, [r; t; s]) => valid r t s
  | (0x08, [r1; r0; t; s]) => valid (256 * r1 + r0) t s
  | _ => c
  end.

Definition ie_app_port (a : sms_udh_app_port) (e : ie) : sms_udh_app_port :=
  match e with
  | (0x04, [x; y]) => {| port_present := true; dest_port := x; src_port := y |}
  | (0x05, [x1; x0; y1; y0]) =>
    {| port_present := true; dest_port := 256 * x1 + x0; src_port := 256 * y1 + y0 |}
  | _ => a
  end.

Definition apply_ie (d : pdu_deliver_data) (e : ie) : pdu_deliver_data :=
  set_app_port (set_concat d (ie_concat (udh_concat d) e)) (ie_app_port (udh_app_port d) e).

(** No information: what is left of a malformed header. *)
Definition clear_udh (d : pdu_deliver_data) : pdu_deliver_data :=
  set_app_port (set_concat d concat_zero) app_port_zero.

(** The validity check, as a condition on the three fields. *)
Lemma validity_check_spec d r t s :
  byte t -> byte s ->
  udh_ie_concat_validity_check (set_concat d
    {| concat_present := true; ref_number := r; total_msgs := t; seq_number := s |}) =
  set_concat d (if (1 <=? t) && (1 <=? s) && (s <=? t)
    then {| concat_present := true; ref_number := r; total_msgs := t; seq_number := s |}
    else concat_zero).
Proof.
  intros [Ht _] [Hs _]. unfold udh_ie_concat_validity_check. cbn [udh_concat set_concat total_msgs seq_number].
  destruct (Z.eqb_spec t 0), (Z.eqb_spec s 0), (Z.ltb_spec t s), (Z.leb_spec 1 t),
    (Z.leb_spec 1 s), (Z.leb_spec s t); try lia; done.
Qed.

Lemma apply_ie_other d id data :
  (forall c, ie_concat c (id, data) = c) -> (forall a, ie_app_port a (id, data) = a) ->
  d = apply_ie d (id, data).
Proof. intros Hc Ha. unfold apply_ie. rewrite Hc, Ha. by destruct d. Qed.

(** Rules out data that are longer than an element of length [n] allows. *)
Ltac wrong_ie_length n :=
  match goal with |- context [?len =? n] =>
    destruct (Z.eqb_spec len n) as [E|]; [cbn [length] in E; lia|f_equal; by apply apply_ie_other]
  end.

Lemma apply_ie_switch b d id data at_ :
  bytes data -> seen b at_ data ->
  udh_ie_switch b d id (zlen data) at_ = Ok (apply_ie d (id, data)).
Proof.
  intros Hb Hs. unfold udh_ie_switch.
  assert (Hrd : forall k, 0 <= k < zlen data -> rd b (at_ + k) = Ok (zth data k)).
  { intros. by apply (rd_seen b at_ data). }
  pose proof (Hrd 0) as Hrd0. rewrite Z.add_0_r in Hrd0.
  destruct (Z.eqb_spec id SMS_UDH_IE_CONCATENATED_SHORT_MESSAGES_8BIT) as [->|N0].
  { destruct data as [|x [|y [|z [|]]]]; try (f_equal; by apply apply_ie_other);
      [|wrong_ie_length 3].
    rewrite Hrd0, !Hrd by (cbn; lia). rewrite !Forall_cons in Hb. destruct_and! Hb.
    cbn [negb mbind res_bind Z.eqb]. by rewrite validity_check_spec. }
  destruct (Z.eqb_spec id SMS_UDH_IE_APPLICATION_PORT_ADDRESSING_SCHEME_8BIT) as [->|N4].
  { destruct data as [|x [|y [|]]]; try (f_equal; by apply apply_ie_other);
      [|wrong_ie_length 2].
    rewrite Hrd0, !Hrd by (cbn; lia). done. }
  destruct (Z.eqb_spec id SMS_UDH_IE_APPLICATION_PORT_ADDRESSING_SCHEME_16BIT) as [->|N5].
  { destruct data as [|x [|y [|z [|u [|]]]]]; try (f_equal; by apply apply_ie_other);
      [|wrong_ie_length 4].
    rewrite Hrd0, !Hrd by (cbn; lia). rewrite !Forall_cons in Hb. destruct_and! Hb.
    cbn -[Z.lor Z.shiftl Z.mul u16]. by rewrite !lor_be16. }
  destruct (Z.eqb_spec id SMS_UDH_IE_CONCATENATED_SHORT_MESSAGES_16BIT) as [->|N8].
  { destruct data as [|x [|y [|z [|u [|]]]]]; try (f_equal; by apply apply_ie_other);
      [|wrong_ie_length 4].
    rewrite Hrd0, !Hrd by (cbn; lia). rewrite !Forall_cons in Hb. destruct_and! Hb.
    cbn -[Z.lor Z.shiftl Z.mul u16 udh_ie_concat_validity_check]. rewrite lor_be16 by done.
    by rewrite validity_check_spec. }
  f_equal. apply apply_ie_other; intros ?; unfold ie_concat, ie_app_port;
    (destruct id as [|id|id]; [done| |done]); repeat (destruct id as [id|id|]; try done).
Qed.

Lemma apply_ie_udhl d e : udhl (apply_ie d e) = udhl d.
Proof. done. Qed.

Lemma clear_apply_ie d e : clear_udh (apply_ie d e) = clear_udh d.
Proof. done. Qed.

(** The elements of a header only change the two structures. *)
Lemma foldl_apply_ie es d :
  foldl apply_ie d es = set_app_port (set_concat d (foldl ie_concat (udh_concat d) es))
                          (foldl ie_app_port (udh_app_port d) es).
Proof.
  revert d. induction es as [|e es IH]; intros d; cbn [foldl]; [by destruct d|].
  by rewrite IH.
Qed.

Lemma ies_octets_cons e es : ies_octets (e :: es) = ie_octets e ++ ies_octets es.
Proof. done. Qed.

Lemma ies_octets_inv id n body es :
  id :: n :: body = ies_octets es ->
  exists data es', es = (id, data) :: es' /\ n = zlen data /\ body = data ++ ies_octets es'.
Proof.
  destruct es as [|[i data] es]; [done|]. rewrite ies_octets_cons.
  intros [= -> -> ->]. eauto.
Qed.

(** The octets determine the elements. *)
Lemma ies_octets_inj es es' : ies_octets es = ies_octets es' -> es = es'.
Proof.
  revert es'. induction es as [|[id data] es IH]; intros es' H.
  - destruct es' as [|[id' data'] es']; [done|]. by rewrite ies_octets_cons in H.
  - rewrite ies_octets_cons in H. cbn in H.
    apply ies_octets_inv in H as (data' & es'' & -> & Hn & H).
    apply app_inj_1 in H as [-> H]; [|lia]. by rewrite (IH es'').
Qed.

Lemma udh_ie_loop_end fuel b pos d ofs :
  udhl d <= ofs -> udh_ie_loop fuel b pos d ofs = Ok d.
Proof. intros. destruct fuel; cbn; by destruct (Z.ltb_spec ofs (udhl d)); [lia|]. Qed.

(** One iteration on a complete element. *)
Lemma udh_ie_loop_element fuel b pos d ofs id data :
  seen b (pos + ofs) (ie_octets (id, data)) -> bytes data -> 0 <= ofs ->
  ofs + 2 + zlen data <= udhl d -> udhl d <= 250 ->
  udh_ie_loop (S fuel) b pos d ofs =
    udh_ie_loop fuel b pos (apply_ie d (id, data)) (ofs + 2 + zlen data).
Proof.
  intros Hs Hb Hofs Hfit Hmax. cbn [udh_ie_loop].
  destruct (Z.ltb_spec ofs (udhl d)); [|lia].
  apply (seen_app _ _ [id; zlen data] data) in Hs as [Hs Hd]. cbn [length] in Hd.
  rewrite (rd_seen0 _ _ _ _ Hs). cstep. rewrite (u8_small (ofs + 1)) by lia.
  replace (pos + (ofs + 1)) with (pos + ofs + 1) by lia.
  rewrite (rd_seen _ _ _ 1 Hs) by (cbn; lia). cstep.
  change (zth [id; zlen data] 1) with (zlen data). rewrite u8_small by lia.
  destruct (Z.ltb_spec (udhl d - (ofs + 1 + 1)) (zlen data)); [lia|].
  rewrite apply_ie_switch; [|done|].
  - cstep. rewrite u8_small by lia. f_equal. lia.
  - by replace (pos + (ofs + 1 + 1)) with (pos + ofs + Z.of_nat 2) by lia.
Qed.

(** One iteration on an element that is cut off. *)
Lemma udh_ie_loop_cut fuel b pos d ofs id n (body : list Z) :
  seen b (pos + ofs) [id; n] -> 0 <= ofs -> udhl d = ofs + 1 + zlen body -> udhl d <= 250 ->
  zlen body - 1 < n ->
  udh_ie_loop (S fuel) b pos d ofs = Ok (clear_udh d).
Proof.
  intros Hs Hofs Hudhl Hmax Hn. cbn [udh_ie_loop].
  destruct (Z.ltb_spec ofs (udhl d)); [|lia].
  rewrite (rd_seen0 _ _ _ _ Hs). cstep. rewrite (u8_small (ofs + 1)) by lia.
  replace (pos + (ofs + 1)) with (pos + ofs + 1) by lia.
  rewrite (rd_seen _ _ _ 1 Hs) by (cbn; lia). cstep.
  change (zth [id; n] 1) with n. rewrite u8_small by lia.
  by destruct (Z.ltb_spec (udhl d - (ofs + 1 + 1)) n); [|lia].
Qed.

(** The loop applies the elements of a well-formed header, and clears the
    information of any other one. The octet behind the header has to be
    readable: the length of a truncated element is read from it. *)
Lemma udh_ie_loop_spec fuel b pos d ofs body :
  bytes b -> seen b (pos + ofs) body -> pos + ofs + zlen body < zlen b ->
  1 <= ofs -> 0 <= pos -> udhl d = ofs + zlen body -> udhl d <= 250 ->
  zlen body <= 2 * Z.of_nat fuel ->
  (exists es, body = ies_octets es /\
     udh_ie_loop fuel b pos d ofs = Ok (foldl apply_ie d es)) \/
  ((forall es, body <> ies_octets es) /\ udh_ie_loop fuel b pos d ofs = Ok (clear_udh d)).
Proof.
  intros Hb. revert d ofs body.
  induction fuel as [|fuel IH]; intros d ofs body Hs Hlb Hofs Hpos Hudhl Hmax Hfuel;
    (destruct body as [|id body]; [left; exists []; split; [done|
       cbn [foldl]; apply udh_ie_loop_end; cbn [length] in Hudhl; lia]|]);
    [cbn in Hfuel; lia|].
  pose proof (seen_Forall _ _ _ _ Hb Hs) as Hbody.
  destruct body as [|n body]; cbn [length] in *.
  { right. split; [intros [|[??] es]; by rewrite ?ies_octets_cons|].
    assert (byte (zth b (pos + ofs + 1))) as [? _] by (by apply zth_Forall).
    apply (udh_ie_loop_cut _ _ _ _ _ id (zth b (pos + ofs + 1)) []); try (cbn; lia).
    apply seen_cons. split; [done|]. apply seen_zth_one; lia. }
  rewrite !Forall_cons in Hbody. destruct Hbody as (_ & [Hn0 Hn] & Hbytes).
  destruct (decide (zlen body < n)) as [Hlong|Hfit].
  { right. split.
    - intros es Hes. apply ies_octets_inv in Hes as (data & es' & _ & -> & ->).
      rewrite length_app in *. lia.
    - apply (seen_app _ _ [id; n] body) in Hs as [Hs _].
      apply (udh_ie_loop_cut _ _ _ _ _ id n (n :: body)); cbn [length]; (done || lia). }
  assert (Hsplit : body = take (Z.to_nat n) body ++ drop (Z.to_nat n) body) by (by rewrite take_drop).
  assert (Hdl : zlen (take (Z.to_nat n) body) = n) by (rewrite length_take; lia).
  set (data := take (Z.to_nat n) body) in *. set (body' := drop (Z.to_nat n) body) in *.
  assert (Hbd : bytes data) by (by apply Forall_take). clearbody data body'. subst body n.
  rewrite length_app in *.
  apply (seen_app _ _ (ie_octets (id, data)) body') in Hs as [Hs Hs'].
  rewrite (udh_ie_loop_element _ _ _ _ _ id data) by (done || lia).
  destruct (IH (apply_ie d (id, data)) (ofs + 2 + zlen data) body')
    as [(es & Hes & Hrun)|[Hne Hrun]]; rewrite ?apply_ie_udhl; try (cbn [length] in *; lia).
  - replace (pos + (ofs + 2 + zlen data)) with (pos + ofs + zlen (ie_octets (id, data)));
      [done|cbn; lia].
  - left. exists ((id, data) :: es). by rewrite ies_octets_cons, <- Hes.
  - right. split; [|by rewrite Hrun, clear_apply_ie]. intros es Hes.
    apply ies_octets_inv in Hes as (data' & es' & _ & Hd' & Hb').
    apply app_inj_1 in Hb' as [_ Hb']; [by apply (Hne es')|lia].
Qed.
