(* ===== verification/SmsDeliverSpec.v ===== *)
(** * What an SMS-DELIVER message means, and that the decoder gets it right

    Messages as 3GPP TS 23.040 describes them, their octets, and the theorems
    that relate [sms_deliver_pdu_parse] to them. *)

From stdpp Require Import prelude strings.
From Stdlib Require Import ZArith Lia.
From S2P Require Import Prelude Digits SmsConv SmsParser SmsDeliver.

Open Scope Z_scope.

(** ** The sub-parsers on the octets of their field *)

#[export] Instance pdu_dcs_field_eq_dec : EqDecision pdu_dcs_field.
Proof. solve_decision. Defined.

(** Data coding schemes the decoder supports (3GPP TS 23.038 section 4): the
    general group, and the message class group. *)
Definition dcs_value (b : Z) : option pdu_dcs_field :=
  if b <? 0x40 then Some (dcs_of_byte b)
  else if 0xF0 <=? b then
    Some {| dcs_class := b mod 4; alphabet := (b / 4) mod 2; presence_of_class := 1;
            compressed := 0 |}
  else None.

Lemma decode_dcs_spec (p : dparser) pos b :
  byte b -> seen (buf p) pos [b] ->
  decode_pdu_dcs_field p pos =
    match dcs_value b with
    | Some v => Ok (set_dcs (pdata p) v, 1)
    | None => Err EINVAL
    end.
Proof.
  intros Hb Hs. unfold decode_pdu_dcs_field. rewrite (rd_seen0 _ _ _ _ Hs). cstep.
  assert (H : bool_decide (dcs_value b =
    if Z.land b 0xC0 =? 0 then Some (dcs_of_byte b)
    else if Z.shiftr (Z.land b 0xF0) 4 =? 0xF then
      let d := dcs_of_byte (Z.land b 7) in
      Some {| dcs_class := dcs_class d; alphabet := alphabet d;
              presence_of_class := 1; compressed := compressed d |}
    else None) = true).
  { clear Hs. revert b Hb. apply byte_check. vm_compute. done. }
  apply bool_decide_eq_true in H. rewrite H.
  destruct (Z.land b 0xC0 =? 0); [done|]. by destruct (Z.shiftr (Z.land b 0xF0) 4 =? 0xF).
Qed.

Lemma decode_dcs_Some (p : dparser) pos b v :
  byte b -> dcs_value b = Some v -> seen (buf p) pos [b] ->
  decode_pdu_dcs_field p pos = Ok (set_dcs (pdata p) v, 1).
Proof. intros Hb Hv Hs. by rewrite (decode_dcs_spec _ _ _ Hb Hs), Hv. Qed.

Lemma decode_smsc_spec (p : dparser) pos n :
  seen (buf p) pos [n] -> decode_pdu_deliver_smsc p pos = Ok (pdata p, n + 1).
Proof. intros Hs. unfold decode_pdu_deliver_smsc. by rewrite (rd_seen0 _ _ _ _ Hs). Qed.

Lemma decode_header_spec (p : dparser) pos b :
  seen (buf p) pos [b] ->
  decode_pdu_deliver_header p pos = Ok (set_header (pdata p) (header_of_byte b), 1).
Proof. intros Hs. unfold decode_pdu_deliver_header. by rewrite (rd_seen0 _ _ _ _ Hs). Qed.

Lemma decode_pid_spec (p : dparser) pos b :
  seen (buf p) pos [b] -> decode_pdu_pid_field p pos = Ok (set_pid (pdata p) b, 1).
Proof. intros Hs. unfold decode_pdu_pid_field. by rewrite (rd_seen0 _ _ _ _ Hs). Qed.

Lemma decode_udl_spec (p : dparser) pos b :
  seen (buf p) pos [b] -> decode_pdu_udl_field p pos = Ok (set_udl (pdata p) b, 1).
Proof. intros Hs. unfold decode_pdu_udl_field. by rewrite (rd_seen0 _ _ _ _ Hs). Qed.

(** An address field: number of digits, type of address, semi-octets. *)
Definition address_octets (ds : list Z) (toa : Z) : list Z := zlen ds :: toa :: semi_octets ds.

(** The structure decoded from it. *)
Definition address_is (ds : list Z) (toa : Z) (a : sms_address) : Prop :=
  cstr (address_str a) = ascii_digits ds /\ addr_length a = zlen ds /\ addr_type a = toa.

Lemma decode_oa_spec (p : dparser) pos ds toa :
  Forall digit ds -> zlen ds <= 20 -> length (address_str (oa (pdata p))) = 21%nat ->
  seen (buf p) pos (address_octets ds toa) ->
  exists a, address_is ds toa a /\
    decode_pdu_oa_field p pos = Ok (set_oa (pdata p) a, zlen (address_octets ds toa)).
Proof.
  intros Hds Hn Hlen Hs.
  destruct (convert_number_correct ds (address_str (oa (pdata p)))) as (str & Hstr & _ & Hc);
    [done..|].
  exists {| address_str := str; addr_length := zlen ds; addr_type := toa |}.
  split; [done|]. unfold decode_pdu_oa_field.
  pose proof (rd_seen0 _ _ _ _ Hs) as H0.
  pose proof (rd_seen _ _ _ 1 Hs) as H1. rewrite H0, H1 by (cbn; lia). cstep.
  change (zth (address_octets ds toa) 1) with toa.
  unfold SMS_MAX_ADDRESS_LEN_CHARS. destruct (Z.ltb_spec 20 (zlen ds)); [lia|].
  pose proof (length_semi_octets ds) as Hso.
  pose proof (Z.div_mod (zlen ds) 2) as Hdm. pose proof (Z.mod_pos_bound (zlen ds) 2) as Hmb.
  replace (if zlen ds mod 2 =? 1 then u8 (zlen ds / 2 + 1) else zlen ds / 2)
    with (zlen (semi_octets ds))
    by (destruct (Z.eqb_spec (zlen ds mod 2) 1); rewrite ?u8_small by lia; lia).
  pose proof (seen_length _ _ _ Hs) as [Hl|]; [|done].
  apply (seen_app _ _ [zlen ds; toa] (semi_octets ds)) in Hs as [_ Hs].
  cbn [length] in Hs. change (Z.of_nat 2) with 2 in Hs.
  rewrite (rd_block_seen _ _ _ Hs) by (cbn [length address_octets] in Hl; lia). cstep.
  rewrite Hstr. cstep. do 2 f_equal. unfold address_octets. cbn [length]. lia.
Qed.

(** The user data header: absent, or its length and its elements. *)
Definition udh_octets (h : option (list ie)) : list Z :=
  match h with None => [] | Some es => zlen (ies_octets es) :: ies_octets es end.

(** What the header says about concatenation and ports. *)
Definition udh_concat_of (h : option (list ie)) : sms_udh_concat :=
  foldl ie_concat concat_zero (default [] h).
Definition udh_app_port_of (h : option (list ie)) : sms_udh_app_port :=
  foldl ie_app_port app_port_zero (default [] h).

Lemma decode_udh_spec (p : dparser) h :
  let d := pdata p in
  udhl d = 0 -> udh_concat d = concat_zero -> udh_app_port d = app_port_zero ->
  ctrue (udhi (header d)) = bool_decide (is_Some h) ->
  bytes (buf p) -> seen (buf p) (buf_pos p) (udh_octets h) ->
  zlen (udh_octets h) <= udl d -> zlen (udh_octets h) <= 250 ->
  buf_pos p + zlen (udh_octets h) <= buf_size p ->
  buf_pos p + zlen (udh_octets h) < zlen (buf p) ->
  decode_pdu_udh p (buf_pos p) =
    Ok (set_app_port (set_concat (set_udhl d (zlen (udh_octets h))) (udh_concat_of h))
          (udh_app_port_of h),
        if alphabet (dcs d) =? 0 then 0 else zlen (udh_octets h)).
Proof.
  cbn zeta. intros H0 Hc Ha Hi Hb Hs Hudl Hmax Hsize Hbuf. unfold decode_pdu_udh.
  rewrite Hi. destruct h as [es|]; cbn [udh_octets bool_decide] in *.
  2: { cbn. unfold udh_concat_of, udh_app_port_of. cbn. rewrite <- Hc, <- Ha.
       destruct (pdata p). cbn in *. subst. by case_match. }
  rewrite bool_decide_true by done. cbn [negb].
  rewrite (rd_seen0 _ _ _ _ Hs). cstep. cbn [length] in *.
  replace (u8 (zlen (ies_octets es) + 1)) with (Z.of_nat (S (length (ies_octets es))))
    by (rewrite u8_small; lia).
  cbn [udl udhl set_udhl].
  destruct (Z.ltb_spec (udl (pdata p)) (Z.of_nat (S (length (ies_octets es))))); [lia|].
  destruct (Z.ltb_spec (buf_size p - buf_pos p) (Z.of_nat (S (length (ies_octets es))))); [lia|].
  apply seen_cons in Hs as [Hs0 Hs]. pose proof (proj1 Hs0).
  unfold decode_pdu_udh_ie.
  destruct (udh_ie_loop_spec 128 (buf p) (buf_pos p) (set_udhl (pdata p)
    (Z.of_nat (S (length (ies_octets es))))) 1 (ies_octets es))
    as [(es' & He & Hrun)|[Hne _]]; cbn [udhl set_udhl]; try (done || lia); [|by edestruct Hne].
  rewrite Hrun. cstep. rewrite foldl_apply_ie. cbn [udh_concat udh_app_port set_udhl].
  rewrite Hc, Ha.
  assert (es' = es) as -> by (symmetry; by apply ies_octets_inj).
  cbn [alphabet dcs udhl set_app_port set_concat set_udhl]. by destruct (alphabet _ =? 0).
Qed.

(** The user data header decoder, on any header octets. A sequence of
    information elements is applied, element by element; any other octets, with
    an element that runs over the end of the header, leave no concatenation or
    port information at all. It terminates, and the rest of the data is kept. *)
Theorem udh_all_or_nothing (p : dparser) (d : pdu_deliver_data) (pos : Z) (body : list Z)
    (Hb : bytes (buf p)) (Hpos : 0 <= pos) (Hs : seen (buf p) (pos + 1) body)
    (Hl : pos + 1 + zlen body < zlen (buf p)) (Hudhl : udhl d = 1 + zlen body)
    (Hmax : udhl d <= 250) :
  (exists es, body = ies_octets es /\
     decode_pdu_udh_ie p d pos =
       Ok (set_app_port (set_concat d (foldl ie_concat (udh_concat d) es))
             (foldl ie_app_port (udh_app_port d) es))) \/
  ((forall es, body <> ies_octets es) /\
     decode_pdu_udh_ie p d pos = Ok (set_app_port (set_concat d concat_zero) app_port_zero)).
Proof.
  unfold decode_pdu_udh_ie.
  destruct (udh_ie_loop_spec 128 (buf p) pos d 1 body) as [(es & He & Hrun)|[Hne Hrun]];
    try (done || lia).
  - left. exists es. by rewrite Hrun, foldl_apply_ie.
  - by right.
Qed.

Lemma udh_all_or_nothing_witness :
  let p := mk_parser 0 [7; 0; 3; 1; 2; 1; 9; 4; 0; 0] 10 [] 0 0 pdu_deliver_data_zero in
  let d := set_udhl pdu_deliver_data_zero 8 in
  (exists es, [0; 3; 1; 2; 1; 9; 4] = ies_octets es /\
     decode_pdu_udh_ie p d 0 =
       Ok (set_app_port (set_concat d (foldl ie_concat (udh_concat d) es))
             (foldl ie_app_port (udh_app_port d) es))) \/
  ((forall es, [0; 3; 1; 2; 1; 9; 4] <> ies_octets es) /\
     decode_pdu_udh_ie p d 0 = Ok (set_app_port (set_concat d concat_zero) app_port_zero)).
Proof.
  apply udh_all_or_nothing; [by_compute|lia|split; [lia|reflexivity]|cbn; lia|reflexivity|cbn; lia].
Defined.

(** ** Messages and their octets *)

Record deliver_msg := {
  m_smsc : list Z;            (* type of number and digits of the service centre *)
  m_flags : Z;                (* first octet of the PDU *)
  m_number : list Z;          (* originating address: digits, type *)
  m_toa : Z;
  m_pid : Z;
  m_dcs : Z;
  m_time : sms_time;
  m_udh : option (list ie);   (* user data header *)
  m_text : list Z             (* septets, or octets *)
}.

Definition seven_bit (m : deliver_msg) : bool :=
  match dcs_value (m_dcs m) with Some v => alphabet v =? 0 | None => false end.

(** User data (3GPP TS 23.040 section 9.2.3.24): in the 7 bit alphabet the
    text starts at the first septet boundary behind the header. *)
Definition ud_units (m : deliver_msg) : list Z :=
  (if seven_bit m then fill (udh_octets (m_udh m)) else udh_octets (m_udh m)) ++ m_text m.
Definition ud_octets (m : deliver_msg) : list Z :=
  if seven_bit m then pack (ud_units m) else ud_units m.

Definition deliver_octets (m : deliver_msg) : list Z :=
  (zlen (m_smsc m) :: m_smsc m) ++ [m_flags m] ++ address_octets (m_number m) (m_toa m) ++
  [m_pid m] ++ [m_dcs m] ++ scts_octets (m_time m) ++ [zlen (ud_units m)] ++ ud_octets m.

(** The text in the message. *)
Definition msg_text (m : deliver_msg) : list Z :=
  if seven_bit m then decode_septets (m_text m) else m_text m.

(** The text in a message structure. *)
Definition text_of (d : sms_data) : list Z := take (Z.to_nat (payload_len d)) (sms_payload d).

Definition ie_ok (e : ie) : Prop := byte e.1 /\ byte (zlen e.2) /\ bytes e.2.

#[export] Instance ie_ok_dec e : Decision (ie_ok e).
Proof. unfold ie_ok. apply _. Defined.
#[export] Instance time_ok_dec t : Decision (time_ok t).
Proof. unfold time_ok. apply _. Defined.

(** Messages the decoder is specified for. The three conditions on 7 bit
    messages with a header are those of the code: a header of at most 31
    octets, none of whose septets is an escape. *)
Definition deliver_ok (m : deliver_msg) : Prop :=
  bytes (m_smsc m) /\ byte (m_flags m) /\
  (Forall digit (m_number m) /\ zlen (m_number m) <= 20 /\ byte (m_toa m)) /\
  byte (m_pid m) /\ byte (m_dcs m) /\ time_ok (m_time m) /\
  (ctrue (udhi (header_of_byte (m_flags m))) = bool_decide (is_Some (m_udh m)) /\
   Forall ie_ok (default [] (m_udh m))) /\
  match dcs_value (m_dcs m) with
  | None => False
  | Some v =>
    if alphabet v =? 0 then
      septets (m_text m) /\ zlen (ud_units m) <= 160 /\
      zlen (udh_octets (m_udh m)) <= 31 /\
      Forall (fun s => s <> STR_7BIT_ESCAPE_CODE) (fill (udh_octets (m_udh m)))
    else
      alphabet v = 1 /\ bytes (m_text m) /\ zlen (ud_units m) <= 160
  end /\
  zlen (deliver_octets m) <= 179.

#[export] Instance deliver_ok_dec m : Decision (deliver_ok m).
Proof. unfold deliver_ok. repeat (apply and_dec; [apply _|]). apply and_dec; [|apply _].
  repeat case_match; apply _. Defined.

(** ** The sub-parsers in sequence *)

Lemma process_step f fs (p : dparser) d n :
  f p (buf_pos p) = Ok (d, n) -> 0 <= buf_pos p + n <= buf_size p -> buf_size p < 256 ->
  process_modules (f :: fs) p = process_modules fs (with_buf_pos (with_data p d) (buf_pos p + n)).
Proof.
  intros Hf Hn Hs. cbn [process_modules]. rewrite Hf. cstep.
  cbn [with_data with_buf_pos buf_pos buf_size]. rewrite u8_small by lia.
  destruct (Z.ltb_spec (buf_size p) (buf_pos p + n)); [lia|done].
Qed.

Lemma address_octets_bytes ds toa :
  Forall digit ds -> zlen ds <= 20 -> byte toa -> bytes (address_octets ds toa).
Proof.
  intros Hds Hn Ht. unfold address_octets.
  constructor; [split; change (2 ^ 8) with 256; lia|]. constructor; [done|].
  clear Hn. induction ds as [|d|d1 d2 ds IH] using list_ind2; [constructor|..].
  - inversion_clear Hds as [|?? Hd _]. unfold digit in Hd. constructor; [|done].
    split; change (2 ^ 8) with 256; lia.
  - inversion_clear Hds as [|?? Hd1 Hds']. inversion_clear Hds' as [|?? Hd2 Hds].
    unfold digit in *. cbn [semi_octets]. constructor; [|by apply IH].
    split; change (2 ^ 8) with 256; lia.
Qed.

Lemma scts_octets_bytes t : time_ok t -> bytes (scts_octets t).
Proof.
  intros [Ht Htz]. destruct (tz_round_trip _ Htz) as [_ Hz].
  rewrite !Forall_cons in Ht. destruct_and! Ht.
  repeat (constructor; [by first [apply semi_octet_byte|apply Hz]|]). constructor.
Qed.

Lemma ies_octets_bytes es : Forall ie_ok es -> bytes (ies_octets es).
Proof.
  induction 1 as [|e es (Hi & Hn & Hd) _ IH]; [constructor|]. rewrite ies_octets_cons.
  apply Forall_app. split; [|done]. repeat constructor; try apply Hi; try apply Hn. done.
Qed.

Lemma udh_octets_bytes h :
  Forall ie_ok (default [] h) -> zlen (udh_octets h) <= 250 -> bytes (udh_octets h).
Proof.
  intros Hh Hl. destruct h as [es|]; [|constructor]. cbn [udh_octets length default] in *.
  constructor; [|by apply ies_octets_bytes]. split; change (2 ^ 8) with 256; lia.
Qed.

(** The user data start with the header, which its length field covers. *)
Lemma ud_header m :
  deliver_ok m ->
  bytes (udh_octets (m_udh m)) /\ zlen (udh_octets (m_udh m)) <= zlen (ud_units m) <= 160 /\
  exists rest, ud_octets m = udh_octets (m_udh m) ++ rest.
Proof.
  intros (_ & _ & _ & _ & _ & _ & [_ Hies] & Hud & _). unfold ud_octets, ud_units, seven_bit in *.
  destruct (dcs_value (m_dcs m)) as [v|]; [|done]. destruct (alphabet v =? 0).
  - destruct Hud as (_ & Hl & Hh & _). rewrite length_app in *.
    assert (bytes (udh_octets (m_udh m))) by (apply udh_octets_bytes; [done|lia]).
    pose proof (fill_septets_bounds (udh_octets (m_udh m))) as Hf.
    assert (Hlf : length (fill (udh_octets (m_udh m))) = fill_septets (udh_octets (m_udh m)))
      by apply length_unpack.
    split; [done|]. split; [lia|]. by apply pack_fill.
  - destruct Hud as (_ & _ & Hl). rewrite length_app in *.
    split; [apply udh_octets_bytes; [done|lia]|]. split; [lia|]. eauto.
Qed.

(** The data of a message, once the sub-parsers have seen it. *)
Definition deliver_data (m : deliver_msg) (v : pdu_dcs_field) (a : sms_address)
    : pdu_deliver_data :=
  {| header := header_of_byte (m_flags m); oa := a; pid := m_pid m; dcs := v;
     timestamp := m_time m; udl := zlen (ud_units m); udhl := zlen (udh_octets (m_udh m));
     udh_app_port := udh_app_port_of (m_udh m); udh_concat := udh_concat_of (m_udh m) |}.

(** Position of the user data in the PDU. *)
Definition ud_pos (m : deliver_msg) : Z := zlen (deliver_octets m) - zlen (ud_octets m).

Ltac msg_step lem :=
  erewrite process_step;
    [|eapply lem; eassumption
     |cbn [buf_pos buf_size with_data with_buf_pos]; lia
     |cbn [buf_size with_data with_buf_pos]; lia];
  cbn [with_data with_buf_pos buf_pos buf pdata buf_size payload payload_buf_size payload_pos].

Lemma deliver_process m v b pl pls pp :
  deliver_ok m -> dcs_value (m_dcs m) = Some v -> bytes b -> length b = 180%nat ->
  seen b 0 (deliver_octets m) ->
  exists a, address_is (m_number m) (m_toa m) a /\
    process_modules sms_pdu_deliver_parsers
      (mk_parser 0 b (zlen (deliver_octets m)) pl pls pp pdu_deliver_data_zero) =
    Ok (mk_parser (ud_pos m + (if seven_bit m then 0 else zlen (udh_octets (m_udh m)))) b
          (zlen (deliver_octets m)) pl pls pp (deliver_data m v a)).
Proof.
  intros Hok Hv Hb Hlb Hs. destruct (ud_header m Hok) as (Hub & Hul & rest & Hrest).
  destruct Hok as (_ & _ & (Hds & Hn & _) & _ & Hdcs & Ht & [Hudhi _] & _ & Hlen).
  unfold deliver_octets in Hs. rewrite !seen_app in Hs.
  destruct Hs as (H1 & H2 & H3 & H4 & H5 & H6 & H7 & H8). apply seen_cons in H1 as [H1 _].
  rewrite Hrest in H8. apply seen_app in H8 as [H8 _].
  pose proof (f_equal length Hrest) as Hlr. rewrite length_app in Hlr.
  assert (Hl : zlen (deliver_octets m) = ud_pos m + zlen (ud_octets m)) by (unfold ud_pos; lia).
  assert (Hup : ud_pos m = zlen (m_smsc m) + 1 + 1 + zlen (address_octets (m_number m) (m_toa m))
    + 1 + 1 + 7 + 1).
  { unfold ud_pos, deliver_octets. rewrite !length_app. cbn [length scts_octets]. lia. }
  generalize dependent (zlen (deliver_octets m)). intros len Hlen Hl.
  cbn [length scts_octets] in *.
  replace (Z.of_nat (S (length (m_smsc m)))) with (zlen (m_smsc m) + 1) in * by lia.
  change (Z.of_nat 1) with 1 in *. change (Z.of_nat 7) with 7 in *.
  unfold sms_pdu_deliver_parsers.
  msg_step decode_smsc_spec. msg_step decode_header_spec.
  match goal with |- context [process_modules (decode_pdu_oa_field :: _) ?p] =>
    destruct (decode_oa_spec p _ _ _ Hds Hn eq_refl H3) as (a & Ha & Hoa) end.
  exists a. split; [done|].
  msg_step Hoa. msg_step decode_pid_spec. msg_step decode_dcs_Some.
  msg_step decode_scts_spec. msg_step decode_udl_spec.
  match goal with |- process_modules _ ?p = _ =>
    pose proof (decode_udh_spec p (m_udh m)) as Hudh; set (q := p) in * end.
  cbn zeta in Hudh. assert (Hbp : buf_pos q = ud_pos m)
    by (unfold q; cbn [with_buf_pos buf_pos]; lia).
  assert (Hbs : buf_size q = len) by done. change (buf q) with b in Hudh.
  specialize (Hudh eq_refl eq_refl eq_refl Hudhi Hb H8).
  rewrite (process_step _ _ q _ _ (Hudh (proj1 Hul) ltac:(lia) ltac:(lia) ltac:(lia)))
    by (rewrite ?Hbs; try case_match; lia).
  cbn [process_modules]. rewrite Hbp. unfold q, deliver_data, seven_bit. by rewrite Hv.
Qed.

(** ** User data *)

Lemma unpack_reads_le n : 0 <= n -> unpack_reads n <= packed_len n + 1.
Proof.
  intros Hn. unfold unpack_reads. pose proof (packed_len_bounds n Hn).
  destruct (Z.eqb_spec n 0); [lia|].
  pose proof (Z.div_mod (n - 1) 8). pose proof (Z.mod_pos_bound (n - 1) 8). lia.
Qed.

(** The septets to skip, as the code computes them. *)
Lemma skip_septets_spec h :
  zlen h <= 31 ->
  let skip_bits := u8 (zlen h * 8) in
  (if 0 <? skip_bits mod 7 then u8 (skip_bits / 7 + 1) else skip_bits / 7) =
    Z.of_nat (fill_septets h).
Proof.
  intros Hh. cbn zeta. rewrite (u8_small (zlen h * 8)) by lia.
  pose proof (fill_septets_bounds h). pose proof (Z.div_mod (zlen h * 8) 7).
  pose proof (Z.mod_pos_bound (zlen h * 8) 7).
  destruct (Z.ltb_spec 0 ((zlen h * 8) mod 7)); rewrite ?u8_small by lia; lia.
Qed.

(** All of the septets announced are in the buffer. *)
Lemma announced_septets n :
  0 <= n <= 160 -> u8 (Z.min (u16 (Z.quot (packed_len n * 8) 7)) n) = n.
Proof.
  intros Hn. pose proof (packed_len_bounds n). rewrite Z.quot_div_nonneg by lia.
  pose proof (Z.div_mod (packed_len n * 8) 7).
  pose proof (Z.mod_pos_bound (packed_len n * 8) 7).
  rewrite (u16_small (_ / _)), Z.min_r, u8_small by lia. done.
Qed.

Lemma decode_ud_7bit_spec g (p : dparser) pos h t :
  let s := fill h ++ t in let text := decode_septets t in
  septets t -> zlen s <= 160 -> zlen h <= 31 ->
  Forall (fun c => c <> STR_7BIT_ESCAPE_CODE) (fill h) ->
  bytes (buf p) -> seen (buf p) pos (pack s) -> pos + packed_len (zlen s) < zlen (buf p) ->
  buf_size p - payload_pos p = packed_len (zlen s) ->
  udl (pdata p) = zlen s -> udhl (pdata p) = zlen h ->
  length (sms_payload_tmp g) = 160%nat -> 160 <= payload_buf_size p <= zlen (payload p) ->
  exists tmp, length tmp = 160%nat /\
    decode_pdu_ud_7bit g p pos =
      Ok (set_payload_tmp g tmp, text ++ drop (length text) (payload p), zlen text).
Proof.
  cbn zeta. intros Ht Hl Hh Hesc Hb Hs Hlb Hsize Hudl Hudhl Htmp Hout.
  destruct (decode_septets_app _ t Hesc) as [Hds Hdl].
  assert (Hfl : length (fill h) = fill_septets h) by apply length_unpack.
  set (s := fill h ++ t) in *.
  assert (Hss : septets s) by (apply Forall_app; split; [apply unpack_septets|done]).
  assert (Hun : unpack (length s) (drop (Z.to_nat pos) (buf p)) = s).
  { rewrite (seen_drop _ _ _ Hs), unpack_app, unpack_pack; [done|done|by apply pack_bytes|].
    rewrite length_pack. apply packed_len_bounds. lia. }
  unfold decode_pdu_ud_7bit. rewrite Hudl, Hudhl, Hsize, announced_septets by lia.
  unfold SMS_MAX_PAYLOAD_LEN_CHARS. destruct (Z.ltb_spec 160 (zlen s)); [lia|].
  rewrite gsm7bit_to_ascii_packed; [|by apply Forall_drop|lia|lia|].
  2: { pose proof (unpack_reads_le (zlen s)). rewrite length_drop. destruct Hs as [? _]. lia. }
  cstep. rewrite Hun, Hds, (skip_septets_spec h Hh), length_app.
  pose proof (decode_septets_length s) as Hdls. rewrite Hds, length_app in Hdls.
  destruct (Z.leb_spec (Z.of_nat (fill_septets h))
    (Z.of_nat (length (decode_septets (fill h)) + length (decode_septets t)))); [|lia].
  replace (Z.of_nat (length (decode_septets (fill h)) + length (decode_septets t)) -
    Z.of_nat (fill_septets h)) with (zlen (decode_septets t)) by lia.
  destruct (Z.leb_spec (zlen (decode_septets t)) (payload_buf_size p)); [|lia]. cbn [c_assert].
  rewrite <- app_assoc. rewrite <- Hfl, <- Hdl.
  rewrite rd_block_middle. cstep. rewrite wr_block_Ok by lia. cstep.
  eexists. split; [|done]. rewrite !length_app, length_drop, length_app, length_drop. lia.
Qed.

Lemma decode_ud_8bit_spec g (p : dparser) pos t :
  seen (buf p) pos t -> pos <= zlen (buf p) -> buf_size p - payload_pos p = zlen t ->
  udl (pdata p) - udhl (pdata p) = zlen t ->
  zlen t <= payload_buf_size p <= zlen (payload p) -> payload_buf_size p < 2 ^ 32 ->
  decode_pdu_ud_8bit g p pos = Ok (g, t ++ drop (length t) (payload p), zlen t).
Proof.
  intros Hs Hlb Hsize Hudl Hout H32. unfold decode_pdu_ud_8bit.
  rewrite Hsize, Hudl, Z.min_id, u32_small by lia.
  destruct (Z.leb_spec (payload_pos p) (buf_size p)); [|lia]. cbn [c_assert].
  destruct (Z.leb_spec (zlen t) (payload_buf_size p)); [|lia]. cbn [c_assert].
  rewrite (rd_block_seen _ _ _ Hs) by lia. cstep. by rewrite wr_block_Ok by lia.
Qed.

(** ** Whole messages *)

Lemma pow2_byte z : 0 <= z < 256 -> byte z.
Proof. done. Qed.

Lemma deliver_octets_bytes m : deliver_ok m -> bytes (deliver_octets m).
Proof.
  intros Hok. destruct (ud_header m Hok) as (Hub & Hul & _).
  destruct Hok as (Hsm & Hfl & (Hds & Hn & Htoa) & Hpid & Hdcs & Ht & _ & Hud & Hlen).
  unfold deliver_octets in *. rewrite !length_app in Hlen. cbn [length] in Hlen.
  assert (bytes (ud_octets m)).
  { unfold ud_octets, ud_units, seven_bit in *. destruct (dcs_value _) as [v|]; [|done].
    destruct (alphabet v =? 0); [apply pack_bytes|].
    destruct Hud as (_ & Htext & _). by apply Forall_app. }
  assert (byte (zlen (m_smsc m)) /\ byte (zlen (ud_units m))) as [? ?]
    by (split; apply pow2_byte; lia).
  pose proof (address_octets_bytes _ _ Hds Hn Htoa). pose proof (scts_octets_bytes _ Ht).
  rewrite !Forall_app, !Forall_cons, !Forall_nil. done.
Qed.

Lemma msg_text_length m : deliver_ok m -> (length (msg_text m) <= 161)%nat.
Proof.
  intros (_ & _ & _ & _ & _ & _ & _ & Hud & _). unfold msg_text, ud_units, seven_bit in *.
  destruct (dcs_value (m_dcs m)) as [v|]; [|done].
  pose proof (decode_septets_length (m_text m)). destruct (alphabet v =? 0).
  - destruct Hud as (_ & Hl & _). rewrite length_app in Hl. lia.
  - destruct Hud as (_ & _ & Hl). rewrite length_app in Hl. lia.
Qed.

Section Entry.
  Context {HX : Hex2Bin}.

(** Hexadecimal input of an instance that was just created. *)
Lemma process_str_hex api (p : dparser) pdu octets :
  unhex pdu = Some octets -> 0 < zlen octets <= 180 -> buf p = replicate 180 0 ->
  parser_process_str (G := lib) (H := sms_deliver_header) api p pdu =
    parser_process api (with_input p (octets ++ replicate (180 - length octets) 0) (zlen octets)).
Proof.
  intros Hu Hl Hp. unfold parser_process_str. pose proof (unhex_length _ _ Hu) as Hlu.
  rewrite Hlu, u16_small, (Z.mul_comm 2), Z.mod_mul, Z.div_mul by lia. cbn [negb Z.eqb].
  unfold PARSER_BUF_SIZE. destruct (Z.ltb_spec 180 (zlen octets)); [lia|].
  rewrite take_ge by lia. rewrite hex2bin_spec, Hu.
  2: { by rewrite Hlu, Z.even_mul. }
  2: { rewrite Hlu, Z.mul_comm, Z.div_mul by lia. lia. }
  cbn [default from_option id]. destruct (Z.eqb_spec (zlen octets) 0); [lia|].
  rewrite Hp, wr_block_Ok by (rewrite ?length_replicate; lia).
  cstep. cbn [take app Z.to_nat Nat.add]. by rewrite drop_replicate.
Qed.

(** Anything else is refused. *)
Lemma process_str_not_hex api (p : dparser) pdu :
  unhex pdu = None \/ unhex pdu = Some [] -> zlen pdu <= 360 ->
  exists e, parser_process_str (G := lib) (H := sms_deliver_header) api p pdu = Err e.
Proof.
  intros Hu Hl. unfold parser_process_str. rewrite u16_small by lia.
  destruct (Z.eqb_spec (zlen pdu mod 2) 0) as [Heven|]; [|by eexists]. cbn [negb].
  pose proof (Z.div_mod (zlen pdu) 2). unfold PARSER_BUF_SIZE.
  destruct (Z.ltb_spec 180 (zlen pdu / 2)); [by eexists|]. rewrite Nat2Z.id, take_ge by lia.
  rewrite hex2bin_spec; [|by rewrite Zeven_mod, Heven|done].
  destruct Hu as [-> | ->]; by eexists.
Qed.

(** What the parser instance holds after a message was processed. *)
Definition deliver_buf (m : deliver_msg) : list Z :=
  deliver_octets m ++ replicate (180 - length (deliver_octets m)) 0.
Definition payload_at (m : deliver_msg) : Z :=
  ud_pos m + (if seven_bit m then 0 else zlen (udh_octets (m_udh m))).
Definition deliver_parsed (m : deliver_msg) (v : pdu_dcs_field) (a : sms_address) : dparser :=
  mk_parser (payload_at m) (deliver_buf m) (zlen (deliver_octets m)) [] 0 (payload_at m)
    (deliver_data m v a).

Lemma deliver_ok_dcs m : deliver_ok m -> exists v, dcs_value (m_dcs m) = Some v.
Proof.
  intros (_ & _ & _ & _ & _ & _ & _ & Hud & _). destruct (dcs_value _); [eauto|done].
Qed.

Lemma deliver_buf_facts m :
  deliver_ok m ->
  length (deliver_buf m) = 180%nat /\ bytes (deliver_buf m) /\ 0 < zlen (deliver_octets m) <= 179.
Proof.
  intros Hok. assert (Hl : zlen (deliver_octets m) <= 179) by apply Hok.
  unfold deliver_buf. rewrite length_app, length_replicate, Forall_app.
  split; [lia|]. split; [split; [by apply deliver_octets_bytes|by apply Forall_replicate]|].
  split; [|done]. unfold deliver_octets. cbn [app length]. lia.
Qed.

Lemma deliver_ud_seen m :
  seen (deliver_buf m) (ud_pos m) (ud_octets m) /\ 0 <= ud_pos m.
Proof.
  assert (exists pre, deliver_octets m = pre ++ ud_octets m) as [pre Hpre].
  { unfold deliver_octets. rewrite !app_assoc. eauto. }
  assert (Hpos : ud_pos m = zlen pre) by (unfold ud_pos; rewrite Hpre, length_app; lia).
  split; [|lia]. rewrite Hpos. unfold deliver_buf. rewrite Hpre, <- app_assoc.
  split; [lia|]. by rewrite Nat2Z.id, drop_app_length, take_app_length.
Qed.

Lemma deliver_process_str m v p :
  deliver_ok m -> dcs_value (m_dcs m) = Some v ->
  parser_create sms_deliver_api true = Ok p ->
  exists a, address_is (m_number m) (m_toa m) a /\
    parser_process_str sms_deliver_api p (hex_string (deliver_octets m)) =
      Ok (deliver_parsed m v a).
Proof.
  intros Hok Hv [= <-]. destruct (deliver_buf_facts m Hok) as (Hlb & Hb & Hl).
  destruct (deliver_process m v (deliver_buf m) [] 0 0 Hok Hv Hb Hlb (seen_here _ _))
    as (a & Ha & Hproc).
  exists a. split; [done|].
  rewrite (process_str_hex _ _ _ _ (unhex_hex_string _ (deliver_octets_bytes m Hok))) by (done || lia).
  unfold parser_process. match goal with |- context [with_buf_pos ?q 0] =>
    change (with_buf_pos q 0) with (mk_parser 0 (deliver_buf m) (zlen (deliver_octets m)) [] 0 0
      pdu_deliver_data_zero) end.
  cbn [sms_deliver_api get_parsers]. rewrite Hproc. done.
Qed.

Lemma deliver_payload m v a g out :
  deliver_ok m -> dcs_value (m_dcs m) = Some v ->
  length (sms_payload_tmp g) = 160%nat -> length out = 161%nat ->
  exists tmp p, length tmp = 160%nat /\
    parser_get_payload sms_deliver_api g (deliver_parsed m v a) out 160 =
      Ok (set_payload_tmp g tmp, p, zlen (msg_text m)) /\
    payload p = msg_text m ++ drop (length (msg_text m)) out.
Proof.
  intros Hok Hv Htmp Hout. destruct (deliver_buf_facts m Hok) as (Hlb & Hb & Hl).
  destruct (deliver_ud_seen m) as [Hs Hpos]. unfold parser_get_payload.
  cbn [sms_deliver_api get_decoder]. unfold decode_pdu_deliver_message.
  set (p := with_payload _ _ _). change (dcs (pdata p)) with v.
  assert (Hp : buf p = deliver_buf m /\ buf_size p = zlen (deliver_octets m) /\
    payload_pos p = payload_at m /\ payload p = out /\ payload_buf_size p = 160 /\
    udl (pdata p) = zlen (ud_units m) /\ udhl (pdata p) = zlen (udh_octets (m_udh m))) by done.
  destruct Hp as (Hpb & Hps & Hpp & Hpo & Hpz & Hpu & Hph). clearbody p.
  destruct Hok as (_ & _ & _ & _ & _ & _ & _ & Hud & _).
  assert (Hup : ud_pos m = zlen (deliver_octets m) - zlen (ud_octets m)) by done.
  unfold payload_at, msg_text, ud_octets, ud_units, seven_bit in *.
  rewrite Hv in *. rewrite Hpp. rewrite <- Hpb, <- Hpo in *. destruct (alphabet v =? 0).
  - destruct Hud as (Ht & Hul & Hhl & Hesc). rewrite Z.add_0_r in *. rewrite length_pack in Hup.
    destruct (decode_ud_7bit_spec g p (ud_pos m) (udh_octets (m_udh m)) (m_text m))
      as (tmp & Hlt & Hrun); try (done || lia).
    rewrite Hrun. cstep. eauto 6.
  - destruct Hud as (-> & Ht & Hul). change (1 =? 1) with true. cbn iota.
    rewrite length_app in *. apply seen_app in Hs as [_ Hs].
    rewrite (decode_ud_8bit_spec _ _ _ (m_text m)) by (done || lia).
    cstep. exists (sms_payload_tmp g). destruct g. eauto.
Qed.

(** Shared by the theorem below and by the round trip with the encoder. *)
Lemma deliver_parse_spec (m : deliver_msg) (g : lib) (data : sms_data)
    (Hok : deliver_ok m) (Htmp : length (sms_payload_tmp g) = 160%nat)
    (Hdata : length (sms_payload data) = 161%nat) :
  exists g' a,
    sms_deliver_pdu_parse true g (hex_string (deliver_octets m)) data =
      Ok (g',
          {| sms_data_type := sms_data_type data;
             sms_header := {| time := m_time m; originating_address := a;
                              app_port := udh_app_port_of (m_udh m);
                              concatenated := udh_concat_of (m_udh m) |};
             payload_len := zlen (msg_text m);
             sms_payload := msg_text m ++ drop (length (msg_text m)) (sms_payload data) |},
          None) /\
    address_is (m_number m) (m_toa m) a /\
    live_blocks g' = live_blocks g /\ length (sms_payload_tmp g') = 160%nat.
Proof.
  destruct (deliver_ok_dcs m Hok) as [v Hv]. unfold sms_deliver_pdu_parse.
  destruct (parser_create sms_deliver_api true) as [p| | |] eqn:Hp; try done.
  destruct (deliver_process_str m v p Hok Hv Hp) as (a & Ha & ->).
  change SMS_MAX_PAYLOAD_LEN_CHARS with 160.
  destruct (deliver_payload m v a (set_live_blocks g (live_blocks g + 1)) (sms_payload data))
    as (tmp & q & Hlt & -> & ->); [done..|].
  eexists _, a. split; [done|]. split; [done|]. split; [cbn; lia|done].
Qed.

(** C4: The decoder inverts the encoding of SMS-DELIVER messages. For every
    message within the limits of [deliver_ok], in the 7 bit or 8 bit alphabet and
    with or without a user data header, it reports the time stamp, the digits and
    type of the originating address, the concatenation and port information, and
    the text, and gives its heap block back. *)
Theorem deliver_round_trip (m : deliver_msg) (g : lib) (data : sms_data)
    (Hok : deliver_ok m) (Htmp : length (sms_payload_tmp g) = 160%nat)
    (Hdata : length (sms_payload data) = 161%nat) :
  exists g' a,
    sms_deliver_pdu_parse true g (hex_string (deliver_octets m)) data =
      Ok (g',
          {| sms_data_type := sms_data_type data;
             sms_header := {| time := m_time m; originating_address := a;
                              app_port := udh_app_port_of (m_udh m);
                              concatenated := udh_concat_of (m_udh m) |};
             payload_len := zlen (msg_text m);
             sms_payload := msg_text m ++ drop (length (msg_text m)) (sms_payload data) |},
          None) /\
    address_is (m_number m) (m_toa m) a /\
    live_blocks g' = live_blocks g /\ length (sms_payload_tmp g') = 160%nat.
Proof. by apply deliver_parse_spec. Qed.
End Entry.

(** ** Witnesses *)

Definition lib0 : lib := {| sms_payload_tmp := replicate 160 0; live_blocks := 0 |}.
Definition data0 : sms_data :=
  {| sms_data_type := SMS_TYPE_DELIVER; sms_header := deliver_header_zero; payload_len := 0;
     sms_payload := replicate 161 0 |}.

(** Part 2 of 3 of a message, with port numbers. *)
Definition msg_sample : deliver_msg :=
  {| m_smsc := [0x91; 0x53; 0x48; 0x74]; m_flags := 0x44; m_number := [1; 2; 3; 4; 5; 6; 7];
     m_toa := 0x91; m_pid := 0; m_dcs := 0xF0;
     m_time := {| year := 21; month := 3; day := 12; hour := 14; minute := 5; second := 59;
                  timezone := -8 |};
     m_udh := Some [(0x08, [1; 2; 3; 2]); (0x05, [0x0b; 0x84; 0; 80])];
     m_text := encode_text (chars "Hi [you] @ 3"%string) |}.

Lemma deliver_round_trip_witness :
  exists g' a,
    sms_deliver_pdu_parse true lib0 (hex_string (deliver_octets msg_sample)) data0 =
      Ok (g',
          {| sms_data_type := SMS_TYPE_DELIVER;
             sms_header :=
               {| time := m_time msg_sample; originating_address := a;
                  app_port := {| port_present := true; dest_port := 2948; src_port := 80 |};
                  concatenated := {| concat_present := true; ref_number := 258;
                                     total_msgs := 3; seq_number := 2 |} |};
             payload_len := 12;
             sms_payload := chars "Hi [you] @ 3"%string ++ replicate 149 0 |},
          None) /\
    address_is [1; 2; 3; 4; 5; 6; 7] 0x91 a /\ live_blocks g' = 0 /\
    length (sms_payload_tmp g') = 160%nat.
Proof.
  destruct (deliver_round_trip msg_sample lib0 data0) as (g' & a & H & Ha & Hb & Ht);
    [by_compute..|].
  exists g', a. split; [exact H|]. split; [exact Ha|]. split; [exact Hb|exact Ht].
Defined.
