(* ===== verification/SmsDeliverSafe.v ===== *)
(** * Memory safety of the SMS-DELIVER decoder

    The decoder reads a PDU that comes from the network. On PDUs of at most 168
    octets it stays inside its buffers and terminates, whatever their contents,
    with one exception: originating addresses of 20 digits. *)

From stdpp Require Import prelude strings.
From Stdlib Require Import ZArith Lia.
From S2P Require Import Prelude Digits SmsConv SmsParser SmsDeliver SmsDeliverSpec.

Open Scope Z_scope.

(** ** Addresses *)

Lemma dec_nibble_length v : 0 <= v < 16 -> 1 <= zlen (dec v) <= 2.
Proof.
  intros Hv. enough ((1 <=? zlen (dec v)) && (zlen (dec v) <=? 2) = true) by lia.
  revert v Hv. apply (range_check _ 0 16). vm_compute. done.
Qed.

Lemma post_sprintf_d str idx v (Q : list Z -> Prop) :
  0 <= v < 16 -> 0 <= idx -> idx + 3 <= zlen str ->
  (forall str', length str' = length str -> Q str') -> post (sprintf_d str idx v) Q.
Proof.
  intros Hv Hi Hl HQ. pose proof (dec_nibble_length v Hv).
  apply post_wr_block; [lia| |done]. rewrite length_app. cbn [length]. lia.
Qed.

Lemma nibbles_range b :
  byte b -> 0 <= Z.shiftr (Z.land b 0xF0) 4 < 16 /\ 0 <= Z.land b 0x0F < 16.
Proof.
  intros Hb.
  enough (bool_decide (0 <= Z.shiftr (Z.land b 0xF0) 4 < 16 /\ 0 <= Z.land b 0x0F < 16) = true)
    by (by eapply bool_decide_eq_true).
  revert b Hb. apply byte_check. vm_compute. done.
Qed.

Lemma convert_number_loop_safe n number len fill_bits i str :
  bytes number -> zlen number = len -> len <= (if fill_bits : bool then 10 else 9) ->
  0 <= i -> i + Z.of_nat n = len -> length str = 21%nat ->
  post (convert_number_loop n number len fill_bits i (2 * i) str)
    (fun '(str', k) => length str' = 21%nat /\ k = 2 * len).
Proof.
  intros Hb Hl Hlen. revert i str. induction n as [|n IH]; intros i str Hi Hn Hs.
  { cbn. split; [done|lia]. }
  assert (len <= 10) by (destruct fill_bits; lia).
  cbn [convert_number_loop]. apply post_bind, post_rd_byte; [done|lia|]. intros b Hbyte.
  destruct (nibbles_range b Hbyte). apply post_bind, post_sprintf_d; [done|lia..|].
  intros str' Hs'. rewrite (u8_small (2 * i + 2)) by lia.
  replace (2 * i + 2) with (2 * (i + 1)) by lia. apply post_bind.
  destruct (Z.ltb_spec i (len - 1)), fill_bits; cbn [orb negb];
    try (apply IH; lia); (apply post_sprintf_d; [done|lia..|]; intros; apply IH; lia).
Qed.

Lemma convert_number_safe number n str :
  bytes number -> 0 <= n < 20 -> zlen number = n / 2 + n mod 2 -> length str = 21%nat ->
  post (convert_number_to_str number n str) (fun str' => length str' = 21%nat).
Proof.
  intros Hb Hn Hl Hs. unfold convert_number_to_str.
  pose proof (Z.div_mod n 2). pose proof (Z.mod_pos_bound n 2).
  replace (if n mod 2 =? 1 then u8 (n / 2 + 1) else n / 2) with (zlen number)
    by (destruct (Z.eqb_spec (n mod 2) 1); rewrite ?u8_small by lia; lia).
  apply post_bind. eapply post_impl.
  - apply (convert_number_loop_safe _ _ _ _ 0); try (done || lia).
    destruct (Z.eqb_spec (n mod 2) 1); lia.
  - intros [str' k] [Hs' ->]. cbn beta iota.
    apply post_wr; [destruct (Z.eqb_spec (n mod 2) 1); lia|]. intros ? ->. done.
Qed.

(** ** Sub-parsers *)

(** An instance while its sub-parsers run, at least [k] octets into the PDU. *)
Definition running (k : Z) (p : dparser) : Prop :=
  bytes (buf p) /\ length (buf p) = 180%nat /\ k <= buf_pos p <= buf_size p /\
  buf_size p <= 168 /\ length (address_str (oa (pdata p))) = 21%nat /\
  byte (udl (pdata p)) /\ udhl (pdata p) = 0.

(** What a sub-parser guarantees: it returns, keeps the data in shape, and
    advances by at least [n] octets. *)
Definition keeps (n : Z) (f : parser_module pdu_deliver_data) (p : dparser) : Prop :=
  post (f p (buf_pos p)) (fun '(d, m) =>
    length (address_str (oa d)) = 21%nat /\ byte (udl d) /\ udhl d = 0 /\
    n <= m /\ buf_pos p + m < 256).

Lemma process_keeps f fs n k p Q :
  running k p -> keeps n f p -> 0 <= k + n ->
  (forall p', running (k + n) p' -> buf p' = buf p -> post (process_modules fs p') Q) ->
  post (process_modules (f :: fs) p) Q.
Proof.
  intros (Hb & Hlb & Hpos & Hsize & _) Hf Hk Hfs. cbn [process_modules]. apply post_bind.
  eapply post_impl; [exact Hf|]. intros [d m] (Ha & Hu & Hz & Hm & Hmax).
  cbn [buf_size buf_pos with_data with_buf_pos].
  destruct (Z.ltb_spec (buf_size p) (u8 (buf_pos p + m))); [done|].
  apply Hfs; [|done]. unfold running. cbn [buf buf_pos buf_size pdata with_data with_buf_pos].
  rewrite u8_small in * by lia. repeat (split; [done || lia|]). done.
Qed.

(** Sub-parsers that read the octet they are at. *)
Ltac one_octet := intros (Hb & Hlb & Hpos & Hsize & Ha & Hu & Hz); unfold keeps;
  apply post_bind, post_rd_byte; [done|lia|]; intros b Hbyte.

Lemma header_keeps k p : 0 <= k -> running k p -> keeps 1 decode_pdu_deliver_header p.
Proof. intros Hk. one_octet. cbn. repeat (split; [done || lia|]). lia. Qed.

Lemma pid_keeps k p : 0 <= k -> running k p -> keeps 1 decode_pdu_pid_field p.
Proof. intros Hk. one_octet. cbn. repeat (split; [done || lia|]). lia. Qed.

Lemma udl_keeps k p : 0 <= k -> running k p -> keeps 1 decode_pdu_udl_field p.
Proof. intros Hk. one_octet. cbn. repeat (split; [done || lia|]). lia. Qed.

Lemma dcs_keeps k p : 0 <= k -> running k p -> keeps 1 decode_pdu_dcs_field p.
Proof.
  intros Hk. one_octet.
  destruct (Z.land b 0xC0 =? 0); [|destruct (Z.shiftr (Z.land b 0xF0) 4 =? 0xF)]; cbn -[Z.land];
    repeat (split; [done || lia|]); lia || done.
Qed.

Lemma scts_keeps k p : 0 <= k -> running k p -> keeps 7 decode_pdu_scts_field p.
Proof.
  intros Hk. one_octet. do 6 (apply post_bind, post_rd; [lia|]).
  cbn [post set_timestamp oa udl udhl]. unfold SCTS_FIELD_SIZE.
  repeat (split; [done || lia|]). lia.
Qed.

Lemma oa_keeps k p :
  0 <= k -> running k p -> zth (buf p) (buf_pos p) <> 20 -> keeps 2 decode_pdu_oa_field p.
Proof.
  intros Hk (Hb & Hlb & Hpos & Hsize & Ha & Hu & Hz) H20. unfold keeps, decode_pdu_oa_field.
  pose proof (zth_Forall (bits 8) (buf p) (buf_pos p) ltac:(done) Hb) as [Hn _].
  apply post_bind, post_rd; [lia|]. apply post_bind, post_rd; [lia|].
  set (n := zth (buf p) (buf_pos p)) in *. unfold SMS_MAX_ADDRESS_LEN_CHARS.
  destruct (Z.ltb_spec 20 n); [done|].
  pose proof (Z.div_mod n 2). pose proof (Z.mod_pos_bound n 2).
  replace (if n mod 2 =? 1 then u8 (n / 2 + 1) else n / 2) with (n / 2 + n mod 2)
    by (destruct (Z.eqb_spec (n mod 2) 1); rewrite ?u8_small by lia; lia).
  apply post_bind, post_rd_block; [done|lia..|]. intros bs Hbs Hlbs. apply post_bind.
  eapply post_impl; [apply (convert_number_safe _ n)|].
  - apply Forall_fmap, Forall_true. intros. apply u8_range.
  - lia.
  - rewrite length_fmap. lia.
  - done.
  - intros str Hstr. cbn. repeat (split; [done || lia|]). lia.
Qed.

(** The last sub-parser. *)
Definition parsed (p : dparser) : Prop :=
  bytes (buf p) /\ length (buf p) = 180%nat /\ 13 <= buf_pos p <= buf_size p /\
  buf_size p <= 168 /\ byte (udl (pdata p)) /\ 0 <= udhl (pdata p) <= udl (pdata p).

Lemma foldl_apply_ie_lengths es d :
  udl (foldl apply_ie d es) = udl d /\ udhl (foldl apply_ie d es) = udhl d.
Proof. by rewrite foldl_apply_ie. Qed.

Lemma udh_safe p :
  running 13 p ->
  post (decode_pdu_udh p (buf_pos p)) (fun '(d, n) =>
    0 <= n <= buf_size p - buf_pos p /\ byte (udl d) /\ 0 <= udhl d <= udl d).
Proof.
  intros (Hb & Hlb & Hpos & Hsize & _ & Hu & Hz). unfold decode_pdu_udh.
  destruct (negb _). { cbn. rewrite Hz. destruct Hu. repeat split; lia || done. }
  apply post_bind, post_rd_byte; [done|lia|]. intros b _. cbn [udl udhl set_udhl].
  pose proof (u8_range (b + 1)). set (n := u8 (b + 1)) in *.
  destruct (Z.ltb_spec (udl (pdata p)) n); [done|].
  destruct (Z.ltb_spec (buf_size p - buf_pos p) n); [done|]. apply post_bind.
  apply (post_impl _ (fun d => udl d = udl (pdata p) /\ udhl d = n)).
  - unfold decode_pdu_udh_ie. destruct (Z.eq_dec n 0) as [E|].
    { rewrite udh_ie_loop_end by (cbn; lia). done. }
    pose proof (seen_take (buf p) (buf_pos p + 1) (n - 1)) as Hs.
    edestruct (udh_ie_loop_spec 128 (buf p) (buf_pos p) (set_udhl (pdata p) n) 1)
      as [(es & _ & ->)|[_ ->]]; [done|apply Hs; lia|..];
      rewrite ?length_take, ?length_drop; cbn [udhl set_udhl]; try lia; cbn; [|done].
    apply (foldl_apply_ie_lengths es (set_udhl (pdata p) n)).
  - intros d [Hdl Hdh]. cbn. rewrite Hdl, Hdh. case_match; (split; [lia|]); (split; [done|lia]).
Qed.

(** The first two, from a fresh instance. *)
Lemma smsc_header_safe fs (p : dparser) Q :
  running 0 p -> buf_pos p = 0 ->
  (forall p', running 1 p' -> buf p' = buf p -> buf_pos p' = u8 (zth (buf p) 0 + 1) + 1 ->
     post (process_modules fs p') Q) ->
  post (process_modules (decode_pdu_deliver_smsc :: decode_pdu_deliver_header :: fs) p) Q.
Proof.
  intros (Hb & Hlb & Hpos & Hsize & Hrest) H0 Hfs. cbn [process_modules].
  unfold decode_pdu_deliver_smsc, decode_pdu_deliver_header.
  rewrite H0, (rd_Ok (buf p)) by lia. cstep.
  cbn [buf buf_size buf_pos pdata with_data with_buf_pos]. rewrite Z.add_0_l.
  pose proof (u8_range (zth (buf p) 0 + 1)). set (n := u8 (zth (buf p) 0 + 1)) in *.
  destruct (Z.ltb_spec (buf_size p) n); [done|]. rewrite rd_Ok by lia. cstep.
  cbn [buf buf_size buf_pos pdata with_data with_buf_pos]. rewrite u8_small by lia.
  destruct (Z.ltb_spec (buf_size p) (n + 1)); [done|]. apply Hfs; [|done|done].
  unfold running. cbn [buf buf_size buf_pos pdata with_data with_buf_pos set_header].
  split; [done|]. split; [done|]. split; [lia|]. done.
Qed.

(** The octet that holds the number of digits of the address. *)
Definition address_digits (octets : list Z) : Z := zth octets (u8 (zth octets 0 + 1) + 1).

Lemma process_modules_safe p :
  running 0 p -> buf_pos p = 0 -> address_digits (buf p) <> 20 ->
  post (process_modules sms_pdu_deliver_parsers p) parsed.
Proof.
  intros Hrun H0 H20. unfold sms_pdu_deliver_parsers. apply smsc_header_safe; [done..|].
  intros p1 Hp1 Hb1 Hpos1. apply (process_keeps _ _ 2 1); [done| |lia|].
  { apply (oa_keeps 1); [lia|done|]. by rewrite Hb1, Hpos1. }
  intros p2 Hp2 _. apply (process_keeps _ _ 1 3); [done|by apply (pid_keeps 3)|lia|].
  intros p3 Hp3 _. apply (process_keeps _ _ 1 4); [done|by apply (dcs_keeps 4)|lia|].
  intros p4 Hp4 _. apply (process_keeps _ _ 7 5); [done|by apply (scts_keeps 5)|lia|].
  intros p5 Hp5 _. apply (process_keeps _ _ 1 12); [done|by apply (udl_keeps 12)|lia|].
  intros p6 Hp6 _. cbn [process_modules]. apply post_bind.
  eapply post_impl; [apply udh_safe, Hp6|]. intros [d n] (Hn & Hu & Hh).
  destruct Hp6 as (Hb & Hlb & Hpos & Hsize & _).
  cbn [buf_size buf_pos with_data with_buf_pos]. rewrite u8_small by lia.
  destruct (Z.ltb_spec (buf_size p6) (buf_pos p6 + n)); [done|].
  split; [done|]. split; [done|]. split; [cbn; lia|]. done.
Qed.

(** ** User data *)

Lemma packed_len_le n k : 0 <= n -> 7 * n <= 8 * k -> packed_len n <= k.
Proof.
  intros Hn Hk. unfold packed_len. enough ((7 * n + 7) / 8 < k + 1) by lia.
  apply Z.div_lt_upper_bound; lia.
Qed.

Lemma ud_7bit_safe g p :
  parsed p -> payload_pos p = buf_pos p -> payload_buf_size p = 160 ->
  length (payload p) = 161%nat -> length (sms_payload_tmp g) = 160%nat ->
  post (decode_pdu_ud_7bit g p (buf_pos p)) (fun '(g', out, _) =>
    length (sms_payload_tmp g') = 160%nat /\ length out = 161%nat).
Proof.
  intros (Hb & Hlb & Hpos & Hsize & [Hu0 Hu] & Hh) Hpp Hpz Hout Htmp. unfold decode_pdu_ud_7bit.
  unfold SMS_MAX_PAYLOAD_LEN_CHARS. destruct (Z.ltb_spec 160 (udl (pdata p))); [done|].
  rewrite Hpp. set (k := buf_size p - buf_pos p). rewrite Z.quot_div_nonneg by lia.
  pose proof (Z.div_mod (k * 8) 7). pose proof (Z.mod_pos_bound (k * 8) 7).
  rewrite (u16_small (k * 8 / 7)) by lia. set (n := Z.min (k * 8 / 7) (udl (pdata p))).
  rewrite (u8_small n) by lia. pose proof (unpack_reads_le n). pose proof (packed_len_le n k).
  replace n with (Z.of_nat (Z.to_nat n)) at 1 by lia.
  rewrite gsm7bit_to_ascii_packed; [|by apply Forall_drop|lia|lia|].
  2: { rewrite Z2Nat.id, length_drop by lia. lia. }
  cstep. set (s := unpack _ _). pose proof (decode_septets_length s) as Hds.
  assert (Hs : length s = Z.to_nat n) by apply length_unpack. clearbody s.
  set (tmp := decode_septets s ++ _). assert (Hlt : length tmp = 160%nat).
  { unfold tmp. rewrite length_app, length_drop, length_app, length_drop. lia. }
  set (bits := u8 (udhl (pdata p) * 8)). assert (0 <= bits < 256) by apply u8_range.
  set (skip := if 0 <? bits mod 7 then u8 (bits / 7 + 1) else bits / 7).
  assert (0 <= skip <= 37).
  { unfold skip. pose proof (Z.div_mod bits 7). pose proof (Z.mod_pos_bound bits 7).
    destruct (0 <? bits mod 7); rewrite ?u8_small by lia; lia. }
  set (len := if skip <=? zlen (decode_septets s) then zlen (decode_septets s) - skip else 0).
  assert (0 <= len <= 160 /\ skip + len <= 160) as [? ?]
    by (unfold len; destruct (Z.leb_spec skip (zlen (decode_septets s))); lia).
  rewrite Hpz. destruct (Z.leb_spec len 160); [|lia]. cbn [c_assert].
  apply post_bind. rewrite rd_block_Ok by lia. apply post_bind, post_wr_block; [lia| |].
  - rewrite length_take, length_drop. lia.
  - intros out' Hout'. cbn. split; [done|lia].
Qed.

Lemma ud_8bit_safe g p :
  parsed p -> payload_pos p = buf_pos p -> payload_buf_size p = 160 ->
  length (payload p) = 161%nat ->
  post (decode_pdu_ud_8bit g p (buf_pos p)) (fun '(g', out, _) =>
    g' = g /\ length out = 161%nat).
Proof.
  intros (Hb & Hlb & Hpos & Hsize & [Hu0 Hu] & Hh) Hpp Hpz Hout. unfold decode_pdu_ud_8bit.
  rewrite Hpp, Hpz. change (2 ^ 8) with 256 in Hu.
  rewrite u32_small by lia. destruct (Z.leb_spec (buf_pos p) (buf_size p)); [|lia].
  set (n := Z.min (buf_size p - buf_pos p) (udl (pdata p) - udhl (pdata p))).
  destruct (Z.leb_spec n 160); [|lia]. cbn [c_assert].
  apply post_bind, post_rd_block; [done|lia..|]. intros bs _ Hbs.
  apply post_bind, post_wr_block; [lia..|]. intros out' Hout'. cbn. split; [done|lia].
Qed.

Section Entry.
  Context {HX : Hex2Bin}.

Lemma process_str_safe p pdu :
  parser_create sms_deliver_api true = Ok p -> zlen pdu <= 336 ->
  address_digits (default [] (unhex pdu)) <> 20 ->
  post (parser_process_str sms_deliver_api p pdu)
    (fun q => parsed q /\ payload_pos q = buf_pos q).
Proof.
  intros Hp Hl H20.
  assert (Hf : buf p = replicate 180 0 /\ pdata p = pdu_deliver_data_zero)
    by (by injection Hp as <-).
  destruct Hf as [Hbuf Hdata]. clear Hp.
  destruct (unhex pdu) as [[|b0 bs]|] eqn:Hu;
    [by destruct (process_str_not_hex sms_deliver_api p pdu) as [e ->]; [auto|lia|]| |
     by destruct (process_str_not_hex sms_deliver_api p pdu) as [e ->]; [auto|lia|]].
  pose proof (unhex_length _ _ Hu) as Hlb. pose proof (unhex_bytes _ _ Hu) as Hbb.
  cbn [default from_option id] in H20.
  rewrite (process_str_hex _ _ _ _ Hu) by (done || cbn [length] in *; lia).
  set (octets := b0 :: bs) in *. apply post_bind.
  eapply post_impl; [apply process_modules_safe|].
  - unfold running. cbn [with_buf_pos with_input buf buf_pos buf_size pdata].
    rewrite Hdata, length_app, length_replicate.
    split; [by apply Forall_app_2, Forall_replicate|]. repeat (split; [lia || done|]). done.
  - done.
  - cbn [with_buf_pos with_input buf]. unfold address_digits in *.
    pose proof (u8_range (zth octets 0 + 1)). rewrite (zth_zeros _ _ 0) by lia.
    by rewrite zth_zeros by lia.
  - intros q Hq. split; [exact Hq|done].
Qed.

Lemma get_payload_safe g q out :
  parsed q -> payload_pos q = buf_pos q -> length out = 161%nat ->
  length (sms_payload_tmp g) = 160%nat ->
  post (parser_get_payload sms_deliver_api g q out 160) (fun '(g', q', _) =>
    length (sms_payload_tmp g') = 160%nat /\ length (payload q') = 161%nat).
Proof.
  intros Hq Hpp Hout Htmp. unfold parser_get_payload. apply post_bind.
  cbn [sms_deliver_api get_decoder]. unfold decode_pdu_deliver_message.
  set (p := with_payload q out 160). change (payload_pos p) with (payload_pos q). rewrite Hpp.
  destruct (alphabet _ =? 0); [|destruct (alphabet _ =? 1); [|done]].
  - eapply post_impl; [by apply (ud_7bit_safe g p)|]. by intros [[g' out'] n] [? ?].
  - eapply post_impl; [by apply (ud_8bit_safe g p)|]. by intros [[g' out'] n] [-> ?].
Qed.

Lemma deliver_parse_returns (calloc_ok : bool) (g : lib) (pdu : list Z) (data : sms_data)
    (Hl : zlen pdu <= 336) (H20 : address_digits (default [] (unhex pdu)) <> 20)
    (Htmp : length (sms_payload_tmp g) = 160%nat)
    (Hdata : length (sms_payload data) = 161%nat) :
  exists g' data' e,
    sms_deliver_pdu_parse calloc_ok g pdu data = Ok (g', data', e) /\
    length (sms_payload_tmp g') = 160%nat /\ length (sms_payload data') = 161%nat.
Proof.
  unfold sms_deliver_pdu_parse.
  destruct calloc_ok; [|by eexists _, _, _].
  destruct (parser_create sms_deliver_api true) as [p| | |] eqn:Hp; try done.
  pose proof (process_str_safe p pdu Hp Hl H20) as Hs.
  destruct (parser_process_str _ p pdu) as [q|e| |]; try done; [|by eexists _, _, _].
  destruct Hs as [Hq Hpp].
  set (g1 := set_live_blocks g (live_blocks g + 1)).
  pose proof (get_payload_safe g1 q (sms_payload data) Hq Hpp Hdata Htmp) as Hg.
  change SMS_MAX_PAYLOAD_LEN_CHARS with 160.
  destruct (parser_get_payload _ g1 q (sms_payload data) 160) as [[[g2 q2] n]|e| |];
    try done; by eexists _, _, _.
Qed.

(** C31: On every input of at most 168 octets, well-formed or not, the decoder
    returns to its caller without leaving any of its buffers, provided that the
    address does not claim exactly 20 digits: the message structure and the
    temporary buffer keep their sizes. *)
Theorem deliver_parse_safe (calloc_ok : bool) (g : lib) (pdu : list Z) (data : sms_data)
    (Hl : zlen pdu <= 336) (H20 : address_digits (default [] (unhex pdu)) <> 20)
    (Htmp : length (sms_payload_tmp g) = 160%nat)
    (Hdata : length (sms_payload data) = 161%nat) :
  exists g' data' e,
    sms_deliver_pdu_parse calloc_ok g pdu data = Ok (g', data', e) /\
    length (sms_payload_tmp g') = 160%nat /\ length (sms_payload data') = 161%nat.
Proof. by apply deliver_parse_returns. Qed.
Lemma message_keeps_blocks g p pos g' out n :
  decode_pdu_deliver_message g p pos = Ok (g', out, n) -> live_blocks g' = live_blocks g.
Proof.
  unfold decode_pdu_deliver_message, decode_pdu_ud_7bit, decode_pdu_ud_8bit, c_assert.
  intros E. repeat case_match; try discriminate;
    repeat (apply bind_Ok_inv in E as (? & _ & E); repeat case_match; try discriminate);
    by injection E as <- _ _.
Qed.

(** The parser instance is given back exactly when the call succeeds: every
    error after its allocation, of the sub-parsers or of the user data decoder,
    keeps the heap block. *)
Theorem deliver_parse_blocks (calloc_ok : bool) (g g' : lib) (pdu : list Z)
    (data data' : sms_data) (e : option errno)
    (Hrun : sms_deliver_pdu_parse calloc_ok g pdu data = Ok (g', data', e)) :
  live_blocks g' = live_blocks g + (if calloc_ok && bool_decide (is_Some e) then 1 else 0).
Proof.
  unfold sms_deliver_pdu_parse in Hrun. destruct calloc_ok; [|injection Hrun as <- _ <-; cbn; lia].
  destruct (parser_create sms_deliver_api true) as [p| | |] eqn:Hp; try discriminate.
  destruct (parser_process_str _ p pdu) as [q| | |]; try discriminate;
    [|by injection Hrun as <- _ <-].
  set (g1 := set_live_blocks g (live_blocks g + 1)) in *.
  destruct (parser_get_payload _ g1 q _ _) as [[[g2 q2] n]| | |] eqn:Hg; try discriminate;
    injection Hrun as <- _ <-; [|done].
  unfold parser_get_payload in Hg. apply bind_Ok_inv in Hg as ([[g3 out] n3] & Hg & [= <- _ _]).
  apply message_keeps_blocks in Hg. cbn in *. lia.
Qed.

End Entry.

(** ** Witnesses *)

(** A PDU with a user data header whose element is cut off. *)
Definition cut_pdu : list Z :=
  chars "0791534874894320440A912143658709000012302154658700050400036801"%string.

Lemma deliver_parse_safe_witness :
  exists g' data' e, sms_deliver_pdu_parse true lib0 cut_pdu data0 = Ok (g', data', e) /\
    length (sms_payload_tmp g') = 160%nat /\ length (sms_payload data') = 161%nat.
Proof. apply deliver_parse_safe; by_compute. Defined.

Lemma deliver_parse_blocks_witness :
  exists g' data', sms_deliver_pdu_parse true lib0 (chars "07"%string) data0 =
      Ok (g', data', Some EMSGSIZE) /\ live_blocks g' = 1.
Proof.
  eexists _, _. split; [vm_compute; reflexivity|].
  eapply (deliver_parse_blocks true lib0 _ (chars "07"%string) data0 _ (Some EMSGSIZE)).
  vm_compute. reflexivity.
Defined.

(** ** Inputs outside of the specification *)

(** An originating address of 20 digits, the last of which is a hexadecimal
    one, is printed past the end of the address string. *)
Theorem long_address_overflow :
  sms_deliver_pdu_parse true lib0
    (chars "00041491214365870921436587A900001230215465870005E8329BFD06"%string) data0 = Fault.
Proof. vm_compute. reflexivity. Qed.

(** Part 1 of 9 of a concatenated message in the 7 bit alphabet. *)
Definition part_1_of_9 (ref : Z) : deliver_msg :=
  {| m_smsc := []; m_flags := 0x44; m_number := [1; 2; 3; 4; 5]; m_toa := 0x91; m_pid := 0;
     m_dcs := 0; m_time := time_zero; m_udh := Some [(0x00, [ref; 9; 1])];
     m_text := encode_text (chars "Hello"%string) |}.

(** The header is decoded as text before it is skipped, where an escape
    character and its successor count as one: with a reference number whose
    septets contain an escape, the first character of the text is lost. *)
Theorem escape_in_header_loses_text :
  exists g' data',
    sms_deliver_pdu_parse true lib0 (hex_string (deliver_octets (part_1_of_9 0xB0))) data0 =
      Ok (g', data', None) /\
    take (Z.to_nat (payload_len data')) (sms_payload data') = chars "ello"%string.
Proof. eexists _, _. split; vm_compute; reflexivity. Qed.

(** The number of header bits to skip is kept in eight bits: behind a header of
    32 octets none of the header is skipped. *)
Definition long_header : deliver_msg :=
  {| m_smsc := []; m_flags := 0x44; m_number := [1; 2; 3; 4; 5]; m_toa := 0x91; m_pid := 0;
     m_dcs := 0; m_time := time_zero; m_udh := Some [(0x70, replicate 29 0)];
     m_text := encode_text (chars "Hello"%string) |}.

Theorem long_header_not_skipped :
  exists g' data',
    sms_deliver_pdu_parse true lib0 (hex_string (deliver_octets long_header)) data0 =
      Ok (g', data', None) /\
    payload_len data' = 42.
Proof. eexists _, _. split; vm_compute; reflexivity. Qed.

(** A PDU of 180 octets can announce more than 160 octets of 8 bit data, which
    do not fit into the payload buffer of 161 octets. *)
Definition long_binary : deliver_msg :=
  {| m_smsc := []; m_flags := 0x04; m_number := []; m_toa := 0x91; m_pid := 0;
     m_dcs := 4; m_time := time_zero; m_udh := None; m_text := replicate 165 0x55 |}.

Theorem long_binary_overflow :
  sms_deliver_pdu_parse true lib0 (hex_string (deliver_octets long_binary)) data0 = Fault.
Proof. vm_compute. reflexivity. Qed.

(** The sub-parsers do not look at the size of the input: an address field that
    starts close to the end of the buffer is read past it. *)
Theorem read_past_buffer :
  sms_deliver_pdu_parse true lib0
    (hex_string (172 :: replicate 172 0 ++ [0x04; 18; 0x91; 0; 0; 0; 0])) data0 = Fault.
Proof. vm_compute. reflexivity. Qed.
