(* ===== verification/SmsSubmit.v ===== *)
(** * Sending messages: sms_submit.c

    A text becomes one SMS-SUBMIT PDU, or several with a concatenation header
    when it does not fit; each one is sent with an AT command. *)

From stdpp Require Import prelude strings.
From Stdlib Require Import ZArith Lia.
From S2P Require Import Prelude Digits SmsConv SmsParser SmsDeliver SmsDeliverSpec.

Open Scope Z_scope.

Definition SMS_BUF_TMP_LEN : Z := 512.
Definition SMS_UDH_CONCAT_SIZE_OCTETS : Z := 6.
Definition SMS_UDH_CONCAT_SIZE_SEPTETS : Z := 7.
Definition SMS_MAX_CONCAT_PAYLOAD_LEN_CHARS : Z :=
  SMS_MAX_PAYLOAD_LEN_CHARS - SMS_UDH_CONCAT_SIZE_SEPTETS.
Definition CRSM_EFSMSP_STATIC_LEN : Z := 58.
Definition CRSM_EFSMSP_PARAMETER_INDICATORS_FROM_END_INDEX : Z := CRSM_EFSMSP_STATIC_LEN - 2.

(** The modem. Its answers depend on the commands it got before. [at_crsm] is
    what [nrf_modem_at_scanf] reads from the answer to a CRSM command, if the
    answer matches all of the format: two numbers, and a quoted string of at
    most 511 characters. *)
Class Modem := {
  at_printf : list (list Z) -> list Z -> Z;
  at_crsm : list (list Z) -> list Z -> option (Z * Z * list Z);
  at_crsm_string history cmd sw1 sw2 str :
    at_crsm history cmd = Some (sw1, sw2, str) ->
    1 <= zlen str <= 511 /\ Forall (fun c => c <> 0) str
}.

(** The state: the temporary buffers, the two static counters of
    [sms_submit_concat], and the commands sent so far. *)
Record sub := {
  s_lib : lib;
  sms_buf_tmp : list Z;      (* uint8_t[SMS_BUF_TMP_LEN] *)
  concat_msg_id : Z;
  message_ref : Z;
  at_trace : list (list Z)
}.

Definition set_lib (s : sub) (g : lib) : sub :=
  {| s_lib := g; sms_buf_tmp := sms_buf_tmp s; concat_msg_id := concat_msg_id s;
     message_ref := message_ref s; at_trace := at_trace s |}.
Definition set_tmp (s : sub) (t : list Z) : sub := set_lib s (set_payload_tmp (s_lib s) t).
Definition set_buf_tmp (s : sub) (b : list Z) : sub :=
  {| s_lib := s_lib s; sms_buf_tmp := b; concat_msg_id := concat_msg_id s;
     message_ref := message_ref s; at_trace := at_trace s |}.
Definition set_concat_msg_id (s : sub) (n : Z) : sub :=
  {| s_lib := s_lib s; sms_buf_tmp := sms_buf_tmp s; concat_msg_id := n;
     message_ref := message_ref s; at_trace := at_trace s |}.
Definition set_message_ref (s : sub) (n : Z) : sub :=
  {| s_lib := s_lib s; sms_buf_tmp := sms_buf_tmp s; concat_msg_id := concat_msg_id s;
     message_ref := n; at_trace := at_trace s |}.
Definition set_trace (s : sub) (t : list (list Z)) : sub :=
  {| s_lib := s_lib s; sms_buf_tmp := sms_buf_tmp s; concat_msg_id := concat_msg_id s;
     message_ref := message_ref s; at_trace := t |}.

Inductive sms_data_kind := SMS_DATA_TYPE_ASCII | SMS_DATA_TYPE_GSM7BIT.

(** ** Numbers *)

(** The [for] loop over the characters, from index [i]. *)
Fixpoint encode_number_loop (n : nat) (i number_size : Z) (encoded_number : list Z)
    (octets : Z) : res (list Z * Z) :=
  match n with
  | O => Ok (encoded_number, octets)
  | S n =>
    if i mod 2 =? 0 then
      let* encoded_number :=
        if i + 1 <? number_size then
          let* first := rd encoded_number i in
          let* second := rd encoded_number (i + 1) in
          let* encoded_number := wr encoded_number i second in
          wr encoded_number (i + 1) first
        else
          let* c := rd encoded_number i in
          let* encoded_number := wr encoded_number (i + 1) c in
          wr encoded_number i 70 in
      encode_number_loop n (i + 1) number_size encoded_number (u8 (octets + 1))
    else encode_number_loop n (i + 1) number_size encoded_number octets
  end.

(** Returns [number_size], the encoded number and its size in octets. *)
Definition sms_submit_encode_number (number : list Z) (number_size : Z)
    (encoded_number : list Z) : res (Z * list Z * Z) :=
  if number_size =? 0 then Err EINVAL else
  let* c := rd number 0 in
  let* '(number, number_size) :=
    if c =? 43 then
      let* n := strlen (drop 1 number) in Ok (drop 1 number, u8 n)
    else Ok (number, number_size) in
  if SMS_MAX_ADDRESS_LEN_CHARS <? number_size then Err EINVAL
  else
    let* encoded_number := wr_block encoded_number 0
      (replicate (Z.to_nat (SMS_MAX_ADDRESS_LEN_CHARS + 1)) 0) in
    let* digits := rd_block number 0 number_size in
    let* encoded_number := wr_block encoded_number 0 digits in
    let* '(encoded_number, octets) :=
      encode_number_loop (Z.to_nat number_size) 0 number_size encoded_number 0 in
    Ok (number_size, encoded_number, octets).

Section Submit.
  Context {HX : Hex2Bin} {HM : Modem}.
  (** CONFIG_SMS_STATUS_REPORT *)
  Variable status_report : bool.

(** [nrf_modem_at_printf] *)
Definition at_send (s : sub) (cmd : list Z) : sub * Z :=
  (set_trace s (at_trace s ++ [cmd]), at_printf (at_trace s) cmd).

(** [nrf_modem_at_scanf] of a CRSM command into [sms_buf_tmp]. *)
Definition at_scanf_crsm (s : sub) (cmd : list Z) : res (sub * option (Z * Z)) :=
  let s' := set_trace s (at_trace s ++ [cmd]) in
  match at_crsm (at_trace s) cmd with
  | Some (sw1, sw2, str) =>
    let* b := wr_block (sms_buf_tmp s') 0 (str ++ [0]) in
    Ok (set_buf_tmp s' b, Some (sw1, sw2))
  | None => Ok (s', None)
  end.

(** ** Service centre address *)

Definition sms_submit_encode_sca (s : sub) (sca_field : list Z) : res (sub * list Z) :=
  let empty_sca_set (s : sub) :=
    let* f := wr_block sca_field 0 (chars "00" ++ [0]) in Ok (s, f) in
  let ta_sim_no_sca (s : sub) :=
    let* f := wr_block sca_field 0 (chars "0291F7" ++ [0]) in Ok (s, f) in
  let* '(s, ret) := at_scanf_crsm s (chars "AT+CRSM=176,28589,0,0,0") in
  match ret with
  | None => empty_sca_set s
  | Some (sw1, sw2) =>
    let* n := strlen (sms_buf_tmp s) in
    if negb (sw1 =? 0x90) || negb (sw2 =? 0) || (n =? 0) then empty_sca_set s else
    let* c := rd (sms_buf_tmp s) 0 in
    if negb (c =? 56) then empty_sca_set s else
    let* b := wr (sms_buf_tmp s) 0 0 in
    let* '(s, ret) := at_scanf_crsm (set_buf_tmp s b) (chars "AT+CRSM=178,28482,1,4,0") in
    match ret with
    | None => ta_sim_no_sca s
    | Some (sw1, sw2) =>
      if negb (sw1 =? 0x90) || negb (sw2 =? 0) then ta_sim_no_sca s else
      let* crsm_resp_len := strlen (sms_buf_tmp s) in
      if crsm_resp_len <? CRSM_EFSMSP_STATIC_LEN then ta_sim_no_sca s else
      let* field := rd_block (sms_buf_tmp s)
        (crsm_resp_len - CRSM_EFSMSP_PARAMETER_INDICATORS_FROM_END_INDEX) 2 in
      match hex2bin field 1 with
      | [parameter_indicators] =>
        if negb (Z.land parameter_indicators 2 =? 0) then ta_sim_no_sca s
        else empty_sca_set s
      | _ => ta_sim_no_sca s
      end
    end
  end.

(** ** One message *)

(** The loop that appends the user data in hexadecimal. *)
Fixpoint submit_data_loop (n : nat) (i ud_start_index : Z) (encoded send_buf : list Z)
    : res (list Z) :=
  match n with
  | O => Ok send_buf
  | S n =>
    let* b := rd encoded i in
    let* send_buf := wr_block send_buf (ud_start_index + 2 * i) (hex2 b ++ [0]) in
    submit_data_loop n (i + 1) ud_start_index encoded send_buf
  end.

(** Every caller passes [sms_buf_tmp] as [send_buf]. Returns the state and the
    result of the AT command. *)
Definition sms_submit_encode (s : sub) (encoded_number : list Z)
    (encoded_number_size encoded_number_size_octets : Z) (encoded : list Z)
    (encoded_data_size_octets encoded_data_size_septets message_ref : Z)
    (udh_str : option (list Z)) (sca_field : list Z) : res (sub * Z) :=
  let* udh_size :=
    match udh_str with None => Ok 0 | Some u => let* n := strlen u in Ok (u8 (n / 2)) end in
  let msg_size := 2 + 1 + 1 + encoded_number_size_octets + 2 + 1 + udh_size +
                  encoded_data_size_octets in
  let header_byte := if status_report then Z.lor 1 0x20 else 1 in
  let header_byte :=
    match udh_str with Some _ => Z.lor header_byte 0x40 | None => header_byte end in
  let* send_buf := wr_block (sms_buf_tmp s) 0
    (chars "AT+CMGS=" ++ dec msg_size ++ [13] ++ cstr sca_field ++ hex2 header_byte ++
     hex2 message_ref ++ hex2 encoded_number_size ++ chars "91" ++ cstr encoded_number ++
     chars "0000" ++ hex2 encoded_data_size_septets ++ [0]) in
  let* ud_start_index := strlen send_buf in
  let ud_start_index := u8 ud_start_index in
  let* '(send_buf, ud_start_index) :=
    match udh_str with
    | None => Ok (send_buf, ud_start_index)
    | Some u =>
      let* send_buf := wr_block send_buf ud_start_index (cstr u ++ [0]) in
      let* n := strlen send_buf in
      Ok (send_buf, u8 n)
    end in
  let* send_buf := submit_data_loop (Z.to_nat encoded_data_size_octets) 0 ud_start_index
    encoded send_buf in
  let* send_buf := wr send_buf (ud_start_index + encoded_data_size_octets * 2) 26 in
  let* send_buf := wr send_buf (ud_start_index + encoded_data_size_octets * 2 + 1) 0 in
  Ok (at_send (set_buf_tmp s send_buf) (cstr send_buf)).

(** ** Several messages *)

(** The [while] loop. [idx] is [text_index - text]. Returns the state, the
    sequence number of the last message and the error. *)
Fixpoint sms_submit_concat_loop (fuel : nat) (s : sub) (text encoded_number : list Z)
    (encoded_number_size encoded_number_size_octets : Z) (sca_field : list Z)
    (send_at_cmds : bool) (concat_msg_count text_size : Z)
    (text_encoded_size idx concat_seq_number : Z) (user_data udh_str : list Z)
    : res (sub * Z * Z) :=
  if text_encoded_size <? text_size then
    match fuel with
    | O => NoFuel
    | S fuel =>
      let concat_seq_number := u8 (concat_seq_number + 1) in
      let* n := strlen (drop (Z.to_nat idx) text) in
      let text_part_size := u16 (Z.min n SMS_MAX_CONCAT_PAYLOAD_LEN_CHARS) in
      let* part := rd_block text idx text_part_size in
      let* user_data := wr_block user_data SMS_UDH_CONCAT_SIZE_SEPTETS part in
      let* r := string_conversion_ascii_to_gsm7bit (Some user_data)
        (u8 (SMS_UDH_CONCAT_SIZE_SEPTETS + text_part_size))
        (Some (sms_payload_tmp (s_lib s))) true in
      let s := set_tmp s (g_data r) in
      let size := g_consumed r in
      let text_encoded_size := u16 (text_encoded_size + (size - SMS_UDH_CONCAT_SIZE_SEPTETS)) in
      let idx := idx + (size - SMS_UDH_CONCAT_SIZE_SEPTETS) in
      if send_at_cmds then
        let* udh_str := wr_block udh_str 0
          (chars "050003" ++ hex2 (concat_msg_id s) ++ hex2 concat_msg_count ++
           hex2 concat_seq_number ++ [0]) in
        let '(s, _) := at_send s (if text_encoded_size <? text_size
                                  then chars "AT+CMMS=1" else chars "AT+CMMS=0") in
        let* '(s, err) := sms_submit_encode s encoded_number encoded_number_size
          encoded_number_size_octets
          (drop (Z.to_nat SMS_UDH_CONCAT_SIZE_OCTETS) (sms_payload_tmp (s_lib s)))
          (u8 (g_bytes r - SMS_UDH_CONCAT_SIZE_OCTETS)) (g_chars r) (message_ref s)
          (Some udh_str) sca_field in
        if negb (err =? 0) then Ok (s, concat_seq_number, err) else
        sms_submit_concat_loop fuel (set_message_ref s (u8 (message_ref s + 1))) text
          encoded_number encoded_number_size encoded_number_size_octets sca_field send_at_cmds
          concat_msg_count text_size text_encoded_size idx concat_seq_number user_data udh_str
      else
        sms_submit_concat_loop fuel s text
          encoded_number encoded_number_size encoded_number_size_octets sca_field send_at_cmds
          concat_msg_count text_size text_encoded_size idx concat_seq_number user_data udh_str
    end
  else Ok (s, concat_seq_number, 0).

(** Returns the state, [concat_msg_count] and the error. Every iteration
    consumes a character. The part of [user_data] that the code leaves
    uninitialised is never read; it is zero here. *)
Definition sms_submit_concat (s : sub) (text encoded_number : list Z)
    (encoded_number_size encoded_number_size_octets : Z) (sca_field : list Z)
    (send_at_cmds : bool) (concat_msg_count : Z) : res (sub * Z * Z) :=
  let* n := strlen text in
  let text_size := u16 n in
  let* '(s, concat_seq_number, err) := sms_submit_concat_loop (Z.to_nat text_size) s text
    encoded_number encoded_number_size encoded_number_size_octets sca_field send_at_cmds
    concat_msg_count text_size 0 0 0
    (replicate (Z.to_nat SMS_MAX_PAYLOAD_LEN_CHARS) 0) (replicate 13 0) in
  if send_at_cmds
  then Ok (set_concat_msg_id s (u8 (concat_msg_id s + 1)), concat_msg_count, err)
  else Ok (s, concat_seq_number, err).

(** [encoded_number] is uninitialised before it is written; it is zero here.
    Returns the state and the return value. *)
Definition sms_submit_send (s : sub) (number : option (list Z)) (data : list Z) (data_len : Z)
    (type : sms_data_kind) : res (sub * Z) :=
  match number with
  | None => Ok (s, - errno_num EINVAL)
  | Some number =>
    let* n := strlen number in
    match sms_submit_encode_number number (u8 n)
            (replicate (Z.to_nat (SMS_MAX_ADDRESS_LEN_CHARS + 1)) 0) with
    | Ok (encoded_number_size, encoded_number, encoded_number_size_octets) =>
      let tmp := sms_payload_tmp (s_lib s) in
      if (if type is SMS_DATA_TYPE_GSM7BIT then SMS_MAX_PAYLOAD_LEN_CHARS <? data_len else false)
      then Ok (s, - errno_num E2BIG) else
      let* '(tmp, size, octets, septets) :=
        match type with
        | SMS_DATA_TYPE_ASCII =>
          let* r := string_conversion_ascii_to_gsm7bit (Some data) (u8 data_len) (Some tmp) true in
          Ok (g_data r, g_consumed r, g_bytes r, g_chars r)
        | SMS_DATA_TYPE_GSM7BIT =>
          let* bs := rd_block data 0 data_len in
          let* tmp := wr_block tmp 0 bs in
          let* '(tmp, octets) := string_conversion_7bit_sms_packing (Some tmp) data_len in
          Ok (tmp, data_len, octets, data_len)
        end in
      let s := set_tmp s tmp in
      let* '(s, sca_field) := sms_submit_encode_sca s (replicate 7 0) in
      if size <? data_len then
        let* '(s, concat_msg_count, _) := sms_submit_concat s data encoded_number
          encoded_number_size encoded_number_size_octets sca_field false 0 in
        let* '(s, _, err) := sms_submit_concat s data encoded_number
          encoded_number_size encoded_number_size_octets sca_field true concat_msg_count in
        Ok (s, err)
      else
        sms_submit_encode s encoded_number encoded_number_size encoded_number_size_octets
          (sms_payload_tmp (s_lib s)) octets septets 0 None sca_field
    | Err e => Ok (s, - errno_num e)
    | Fault => Fault
    | NoFuel => NoFuel
    end
  end.

End Submit.
