(* ===== verification/SmsSubmitSpec.v ===== *)
(** * What sending a message means, and that the encoder does it

    SMS-SUBMIT PDUs as 3GPP TS 23.040 describes them, the commands that send
    them, the way a long text is split, and the theorems that relate the code of
    sms_submit.c to them. *)

From stdpp Require Import prelude strings.
From Stdlib Require Import ZArith Lia.
From S2P Require Import Prelude Digits SmsConv SmsParser SmsDeliver SmsDeliverSpec SmsSubmit.

Open Scope Z_scope.

(** ** Numbers *)

Lemma hex2_pair d1 d2 : digit d1 -> digit d2 -> hex2 (16 * d2 + d1) = [48 + d2; 48 + d1].
Proof.
  intros H1 H2. unfold digit, hex2, hex_digit in *.
  replace ((16 * d2 + d1) / 16) with d2 by (apply Z.div_unique with d1; lia).
  replace ((16 * d2 + d1) mod 16) with d1 by (apply Z.mod_unique with d2; lia).
  destruct (Z.ltb_spec d2 10), (Z.ltb_spec d1 10); (lia || done).
Qed.

Lemma hex2_single d : digit d -> hex2 (0xF0 + d) = [70; 48 + d].
Proof.
  intros Hd. unfold digit, hex2, hex_digit in *.
  replace ((0xF0 + d) / 16) with 15 by (apply Z.div_unique with d; lia).
  replace ((0xF0 + d) mod 16) with d by (apply Z.mod_unique with 15; lia).
  destruct (Z.ltb_spec d 10); (lia || done).
Qed.

(** Exchanging two neighbours in a buffer. *)
Lemma wr_pair e x y x' y' rest i :
  i = zlen e ->
  (let* b := wr (e ++ x :: y :: rest) i x' in wr b (i + 1) y') = Ok (e ++ x' :: y' :: rest) /\
  (let* b := wr (e ++ x :: y :: rest) (i + 1) y' in wr b i x') = Ok (e ++ x' :: y' :: rest).
Proof.
  intros ->. assert (H1 : Z.to_nat (zlen e + 1) = (length e + 1)%nat) by lia.
  split; (rewrite wr_Ok by (rewrite length_app; cbn [length]; lia); cstep;
    rewrite wr_Ok by (rewrite length_insert, length_app; cbn [length]; lia);
    rewrite H1, Nat2Z.id; f_equal;
    rewrite !insert_app_r_alt by lia; rewrite ?Nat.sub_diag;
    by replace (length e + 1 - length e)%nat with 1%nat by lia).
Qed.

Lemma encode_number_loop_spec ds e rest i size octets :
  Forall digit ds -> i = zlen e -> i mod 2 = 0 -> size = i + zlen ds ->
  (1 <= length rest)%nat -> 0 <= octets -> octets + zlen ds < 256 ->
  encode_number_loop (length ds) i size (e ++ ascii_digits ds ++ rest) octets =
    Ok (e ++ hex_string (semi_octets ds) ++ drop (Z.to_nat (zlen ds mod 2)) rest,
        octets + zlen (semi_octets ds)).
Proof.
  intros Hds. revert e i octets.
  induction ds as [|d|d1 d2 ds IH] using list_ind2; intros e i octets Hi Hev Hsize Hr Ho Hmax.
  - cbn. by rewrite Z.add_0_r.
  - inversion_clear Hds as [|?? Hd _]. destruct rest as [|r rest]; [cbn in Hr; lia|].
    cbn [length encode_number_loop semi_octets] in *.
    rewrite Hev. change (0 =? 0) with true. cbn iota.
    destruct (Z.ltb_spec (i + 1) size); [lia|].
    change (ascii_digits [d] ++ r :: rest) with (48 + d :: r :: rest).
    rewrite rd_Ok by (rewrite length_app; cbn [length]; lia). cstep.
    rewrite Hi, zth_middle.
    destruct (wr_pair e (48 + d) r 70 (48 + d) rest (zlen e) eq_refl) as [_ ->]. cstep.
    rewrite u8_small by lia. unfold hex_string. cbn [mbind list_bind].
    rewrite hex2_single by done. do 2 f_equal.
  - inversion_clear Hds as [|?? Hd1 Hds']. inversion_clear Hds' as [|?? Hd2 Hds].
    cbn [length encode_number_loop semi_octets] in *. rewrite Hev.
    assert (Hodd : (i + 1) mod 2 = 1) by (by rewrite Z.add_mod, Hev by lia). rewrite Hodd.
    change (0 =? 0) with true. change (1 =? 0) with false. cbn iota.
    destruct (Z.ltb_spec (i + 1) size); [|lia].
    change (ascii_digits (d1 :: d2 :: ds)) with (48 + d1 :: 48 + d2 :: ascii_digits ds).
    cbn [app]. set (tl := ascii_digits ds ++ rest).
    rewrite !rd_Ok by (rewrite length_app; cbn [length]; lia). cstep.
    rewrite Hi, zth_middle. rewrite (zth_app_r e _ (zlen e + 1)) by lia.
    replace (zlen e + 1 - zlen e) with 1 by lia.
    change (zth (48 + d1 :: 48 + d2 :: tl) 1) with (48 + d2).
    destruct (wr_pair e (48 + d1) (48 + d2) (48 + d2) (48 + d1) tl (zlen e) eq_refl) as [-> _].
    cstep. rewrite (u8_small (octets + 1)) by lia.
    pose proof (IH Hds (e ++ [48 + d2; 48 + d1]) (zlen e + 2) (octets + 1)) as Hrun.
    rewrite <- !app_assoc in Hrun. cbn [app] in Hrun. fold tl in Hrun.
    replace (zlen e + 1 + 1) with (zlen e + 2) by lia. rewrite Hrun;
      [|rewrite length_app; cbn; lia|by rewrite <- Hi, Z.add_mod, Hev by lia|lia..].
    unfold hex_string. cbn [mbind list_bind]. rewrite hex2_pair by done.
    replace (Z.of_nat (S (S (length ds))) mod 2) with (zlen ds mod 2) by
      (replace (Z.of_nat (S (S (length ds)))) with (zlen ds + 1 * 2) by lia;
       by rewrite Z.mod_add by lia).
    rewrite <- app_assoc. do 2 f_equal. cbn [length]. lia.
Qed.

(** Characters of a C string. *)
Abbreviation nonzero := (Forall (fun c => c <> 0)).

Lemma hex_string_nonzero bs : bytes bs -> nonzero (hex_string bs).
Proof.
  induction 1 as [|b bs Hb _ IH]; [constructor|].
  change (hex_string (b :: bs)) with (hex2 b ++ hex_string bs). apply Forall_app. split; [|done].
  enough (bool_decide (nonzero (hex2 b)) = true) by (by eapply bool_decide_eq_true).
  clear -Hb. revert b Hb. apply byte_check. vm_compute. done.
Qed.

Lemma ascii_digits_nonzero ds : Forall digit ds -> nonzero (ascii_digits ds).
Proof. intros H. apply Forall_fmap. eapply Forall_impl; [exact H|]. unfold digit. cbn. lia. Qed.

(** A telephone number: digits, with or without a leading plus. *)
Definition number_string (plus : bool) (ds : list Z) : list Z :=
  (if plus then [43] else []) ++ ascii_digits ds.

Lemma number_string_nonzero plus ds : Forall digit ds -> nonzero (number_string plus ds).
Proof.
  intros H. apply Forall_app. split; [|by apply ascii_digits_nonzero].
  destruct plus; [by repeat constructor|constructor].
Qed.

Lemma semi_octets_bytes ds : Forall digit ds -> bytes (semi_octets ds).
Proof.
  intros Hds. induction ds as [|d|d1 d2 ds IH] using list_ind2; [constructor|..].
  - inversion_clear Hds as [|?? Hd _]. unfold digit in Hd. constructor; [|done].
    split; change (2 ^ 8) with 256; lia.
  - inversion_clear Hds as [|?? Hd1 Hds']. inversion_clear Hds' as [|?? Hd2 Hds].
    unfold digit in *. cbn [semi_octets]. constructor; [|by apply IH].
    split; change (2 ^ 8) with 256; lia.
Qed.

Lemma encode_number_spec plus ds tail enc :
  Forall digit ds -> zlen ds <= 20 -> number_string plus ds <> [] -> length enc = 21%nat ->
  exists enc',
    sms_submit_encode_number (number_string plus ds ++ 0 :: tail)
      (u8 (zlen (number_string plus ds))) enc =
      Ok (zlen ds, enc', zlen (semi_octets ds)) /\
    cstr enc' = hex_string (semi_octets ds) /\ length enc' = 21%nat.
Proof.
  intros Hds Hn Hne Henc. unfold sms_submit_encode_number.
  assert (Hla : length (ascii_digits ds) = length ds) by apply length_fmap.
  assert (Hl : 1 <= zlen (number_string plus ds) <= 21).
  { unfold number_string in *. rewrite length_app, Hla in *. destruct plus; cbn [length] in *; try lia.
    destruct ds; [done|cbn [length] in *; lia]. }
  rewrite u8_small by lia. destruct (Z.eqb_spec (zlen (number_string plus ds)) 0); [lia|].
  rewrite rd_Ok by (rewrite length_app; cbn [length]; lia). cstep. rewrite zth_app_l by lia.
  assert (Hnum : (if zth (number_string plus ds) 0 =? 43
     then let* n := strlen (drop 1 (number_string plus ds ++ 0 :: tail)) in
          Ok (drop 1 (number_string plus ds ++ 0 :: tail), u8 n)
     else Ok (number_string plus ds ++ 0 :: tail, zlen (number_string plus ds))) =
     Ok (ascii_digits ds ++ 0 :: tail, zlen ds)).
  { unfold number_string in *. destruct plus; cbn [app] in *.
    - change (drop 1 (43 :: ascii_digits ds ++ 0 :: tail)) with (ascii_digits ds ++ 0 :: tail).
      change (zth (43 :: ascii_digits ds) 0 =? 43) with true. cbn iota.
      rewrite strlen_app by (by apply ascii_digits_nonzero). cstep. by rewrite Hla, u8_small by lia.
    - destruct ds as [|d ds]; [done|]. inversion_clear Hds as [|?? Hd _]. unfold digit in Hd.
      change (zth (ascii_digits (d :: ds)) 0) with (48 + d).
      destruct (Z.eqb_spec (48 + d) 43); [lia|]. by rewrite Hla. }
  rewrite Hnum. cstep. unfold SMS_MAX_ADDRESS_LEN_CHARS.
  destruct (Z.ltb_spec 20 (zlen ds)); [lia|]. change (Z.to_nat (20 + 1)) with 21%nat.
  rewrite wr_block_start by (rewrite ?length_replicate; lia). cstep.
  rewrite length_replicate, drop_ge, app_nil_r by lia.
  rewrite <- Hla, rd_block_start. cstep.
  rewrite wr_block_start by (rewrite ?length_replicate; lia). cstep.
  rewrite drop_replicate, Hla.
  rewrite Nat2Z.id.
  pose proof (encode_number_loop_spec ds [] (replicate (21 - length ds) 0) 0 (zlen ds) 0) as Hrun.
  cbn [app] in Hrun. rewrite Hrun; rewrite ?length_replicate; try (done || lia). cstep.
  eexists. split; [done|].
  pose proof (length_semi_octets ds) as Hso. pose proof (Z.mod_pos_bound (zlen ds) 2).
  pose proof (Z.div_mod (zlen ds) 2). pose proof (length_hex_string (semi_octets ds)).
  rewrite drop_replicate. split.
  - destruct (21 - length ds - Z.to_nat (zlen ds mod 2))%nat eqn:E; [lia|].
    cbn [replicate]. apply cstr_app. by apply hex_string_nonzero, semi_octets_bytes.
  - rewrite length_app, length_replicate. lia.
Qed.

(** ** One message *)

(** An SMS-SUBMIT TPDU (3GPP TS 23.040 section 9.2.2.2): first octet, message
    reference, destination address, protocol identifier and coding scheme 0,
    length and octets of the user data. *)
Definition submit_tpdu (flags ref : Z) (ds : list Z) (udl : Z) (ud : list Z) : list Z :=
  [flags; ref] ++ address_octets ds 0x91 ++ [0; 0] ++ [udl] ++ ud.

(** The command that sends it (3GPP TS 27.005 section 4.3). *)
Definition cmgs (sca tpdu : list Z) : list Z :=
  chars "AT+CMGS=" ++ dec (zlen tpdu) ++ [13] ++ sca ++ hex_string tpdu ++ [26].

Definition submit_flags (status_report udh : bool) : Z :=
  (if status_report then Z.lor 1 0x20 else 1) + (if udh then 0x40 else 0).

Lemma dec_digits_nonzero fuel z : 0 <= z -> nonzero (dec_digits fuel z).
Proof.
  revert z. induction fuel as [|fuel IH]; intros z Hz; cbn [dec_digits]; [constructor|].
  destruct (Z.ltb_spec z 10); [constructor; [lia|constructor]|].
  apply Forall_app. split; [apply IH, Z.div_pos; lia|].
  constructor; [|constructor]. pose proof (Z.mod_pos_bound z 10). lia.
Qed.

Lemma dec_nonzero z : 0 <= z -> nonzero (dec z).
Proof. apply dec_digits_nonzero. Qed.

Lemma dec_length z : 0 <= z < 1000 -> zlen (dec z) <= 3.
Proof.
  intros Hz. enough ((zlen (dec z) <=? 3) = true) by lia. revert z Hz.
  apply (range_check _ 0 1000). vm_compute. done.
Qed.

Lemma hex_string_app l k : hex_string (l ++ k) = hex_string l ++ hex_string k.
Proof. apply bind_app. Qed.

Lemma hex_string_cons b bs : hex_string (b :: bs) = hex2 b ++ hex_string bs.
Proof. done. Qed.

(** The loop stores the hexadecimal string and a NUL, if there is anything. *)
Lemma submit_data_loop_spec ud pre rest e tail i start :
  i = zlen pre -> start + 2 * i = zlen e -> 2 * zlen ud < zlen tail ->
  exists tail',
    submit_data_loop (length ud) i start (pre ++ ud ++ rest) (e ++ tail) =
      Ok (e ++ hex_string ud ++ tail') /\ zlen tail' = zlen tail - 2 * zlen ud.
Proof.
  revert pre e tail i. induction ud as [|b ud IH]; intros pre e tail i Hi He Htail.
  { exists tail. split; [done|cbn; lia]. }
  cbn [length submit_data_loop app] in *.
  rewrite rd_Ok by (rewrite length_app; cbn [length]; lia). cstep. rewrite Hi, zth_middle.
  rewrite (wr_block_append e) by (cbn; lia). cstep.
  destruct (IH (pre ++ [b]) (e ++ hex2 b) (0 :: drop 3 tail) (i + 1)) as (tail' & Hrun & Hl).
  - rewrite length_app. cbn. lia.
  - rewrite length_app. cbn. lia.
  - cbn [length]. rewrite length_drop. lia.
  - exists tail'. rewrite <- !app_assoc in Hrun. cbn [app] in Hrun. subst i.
    change (length (hex2 b ++ [0])) with 3%nat. rewrite <- app_assoc. cbn [app].
    rewrite Hrun. split.
    + by rewrite hex_string_cons, <- app_assoc.
    + revert Hl. cbn [length]. rewrite length_drop. lia.
Qed.

Section Submit.
  Context {HX : Hex2Bin} {HM : Modem}.
  Variable status_report : bool.

Lemma encode_nul e c tail :
  2 <= zlen tail -> nonzero e -> c <> 0 ->
  exists m b, wr (e ++ tail) (zlen e) c = Ok m /\ wr m (zlen e + 1) 0 = Ok b /\
    cstr b = e ++ [c] /\ length b = length (e ++ tail).
Proof.
  intros Ht He Hc. destruct tail as [|x [|y tail]]; cbn [length] in Ht; try lia.
  destruct (wr_pair e x y c 0 tail (zlen e) eq_refl) as [H _].
  apply bind_Ok_inv in H as (m & Hm & Hb). eexists m, _. split; [done|]. split; [done|]. split.
  - change (e ++ c :: 0 :: tail) with (e ++ [c] ++ 0 :: tail). rewrite app_assoc.
    apply cstr_app, Forall_app. split; [done|]. by constructor.
  - rewrite !length_app. done.
Qed.

(** The parts of the state that stay as they are. *)
Definition same_counters (s s' : sub) : Prop :=
  s_lib s' = s_lib s /\ concat_msg_id s' = concat_msg_id s /\ message_ref s' = message_ref s.

(** The user data header is appended to the header in the buffer. *)
Lemma submit_udh_spec hdr tail (h : option (list Z)) :
  nonzero hdr -> bytes (default [] h) -> zlen (default [] h) <= 20 -> zlen hdr <= 60 ->
  zlen hdr + zlen tail = 511 ->
  exists tail',
    match (h ≫= fun h => Some (hex_string h ++ [0])) with
    | None => Ok (hdr ++ 0 :: tail, zlen hdr)
    | Some u =>
      let* send_buf := wr_block (hdr ++ 0 :: tail) (zlen hdr) (cstr u ++ [0]) in
      let* n := strlen send_buf in
      Ok (send_buf, u8 n)
    end = Ok ((hdr ++ hex_string (default [] h)) ++ tail',
              zlen (hdr ++ hex_string (default [] h))) /\
    zlen (hdr ++ hex_string (default [] h)) + zlen tail' = 512.
Proof.
  intros Hhdr Hh Hhl Hl Ht. destruct h as [h|]; cbn [mbind option_bind default from_option id] in *.
  2: { exists (0 :: tail). change (hex_string []) with (@nil Z). rewrite app_nil_r.
       split; [done|cbn [length]; lia]. }
  pose proof (length_hex_string h) as Hlh. pose proof (hex_string_nonzero h Hh) as Hnz.
  rewrite cstr_app by done.
  rewrite (wr_block_append hdr) by (rewrite ?length_app; cbn [length]; lia). cstep.
  rewrite <- app_assoc, (app_assoc hdr). cbn [app].
  rewrite strlen_app by (by apply Forall_app). cstep. rewrite u8_small by (rewrite length_app; lia).
  eexists. split; [done|]. rewrite length_app. cbn [length]. rewrite length_drop, length_app.
  cbn [length]. lia.
Qed.

(** The size of a header from its hexadecimal string. *)
Lemma udh_str_size h :
  bytes (default [] h) -> zlen (default [] h) <= 20 ->
  match (h ≫= fun h => Some (hex_string h ++ [0])) with
  | None => Ok 0 | Some u => let* n := strlen u in Ok (u8 (n / 2))
  end = Ok (zlen (default [] h)).
Proof.
  intros Hh Hl. destruct h as [h|]; [|done]. cbn [mbind option_bind default from_option id] in *.
  rewrite strlen_app by (by apply hex_string_nonzero). cstep.
  rewrite length_hex_string, Nat2Z.inj_mul, Z.mul_comm, Z.div_mul, u8_small by lia. done.
Qed.

(** The header, up to the user data. *)
Definition submit_header (size : Z) (sca : list Z) (flags ref : Z) (ds : list Z) (udl : Z)
    : list Z :=
  chars "AT+CMGS=" ++ dec size ++ [13] ++ sca ++ hex2 flags ++ hex2 ref ++ hex2 (zlen ds) ++
  chars "91" ++ hex_string (semi_octets ds) ++ chars "0000" ++ hex2 udl.

Lemma submit_header_cmgs sca flags ref ds udl ud :
  let tpdu := submit_tpdu flags ref ds udl ud in
  submit_header (zlen tpdu) sca flags ref ds udl ++ hex_string ud ++ [26] = cmgs sca tpdu.
Proof.
  cbn zeta. unfold cmgs, submit_header. set (n := dec _). unfold submit_tpdu, address_octets.
  rewrite !hex_string_app, !hex_string_cons, <- !app_assoc. done.
Qed.

Lemma submit_header_facts size sca flags ref ds udl :
  0 <= size < 1000 -> nonzero sca -> zlen sca <= 6 -> byte flags -> byte ref -> byte udl ->
  Forall digit ds -> zlen ds <= 20 ->
  nonzero (submit_header size sca flags ref ds udl) /\
  zlen (submit_header size sca flags ref ds udl) <= 60.
Proof.
  intros Hsize Hsca Hscal Hf Href Hudl Hds Hn. pose proof (dec_length size Hsize) as Hd.
  pose proof (length_hex_string (semi_octets ds)) as Hlh. pose proof (length_semi_octets ds).
  pose proof (Z.mod_pos_bound (zlen ds) 2).
  assert (Hx : forall b, byte b -> nonzero (hex2 b)).
  { intros b Hb. rewrite <- (app_nil_r (hex2 b)). by apply (hex_string_nonzero [b]); constructor. }
  assert (byte (zlen ds)) by (split; change (2 ^ 8) with 256; lia).
  split.
  - unfold submit_header. repeat apply Forall_app_2; try (by apply Hx); try done.
    + by_compute.
    + apply dec_nonzero. lia.
    + by_compute.
    + by_compute.
    + by apply hex_string_nonzero, semi_octets_bytes.
    + by_compute.
  - unfold submit_header. rewrite !length_app. cbn [length hex2].
    change (length (chars "AT+CMGS=")) with 8%nat. change (length (chars "91")) with 2%nat.
    change (length (chars "0000")) with 4%nat. lia.
Qed.

Lemma submit_encode_spec s ds enc ud rest septets ref (h : option (list Z)) udh sca_field sca :
  length (sms_buf_tmp s) = 512%nat ->
  Forall digit ds -> zlen ds <= 20 -> cstr enc = hex_string (semi_octets ds) ->
  cstr sca_field = sca -> nonzero sca -> zlen sca <= 6 ->
  byte ref -> byte septets -> bytes ud -> zlen ud <= 140 ->
  bytes (default [] h) -> zlen (default [] h) <= 20 ->
  (udh = h ≫= fun h => Some (hex_string h ++ [0])) ->
  let tpdu := submit_tpdu (submit_flags status_report (bool_decide (is_Some h))) ref ds septets
                (default [] h ++ ud) in
  exists s',
    sms_submit_encode status_report s enc (zlen ds) (zlen (semi_octets ds)) (ud ++ rest)
      (zlen ud) septets ref udh sca_field =
      Ok (set_trace s' (at_trace s ++ [cmgs sca tpdu]), at_printf (at_trace s) (cmgs sca tpdu)) /\
    same_counters s s' /\ length (sms_buf_tmp s') = 512%nat.
Proof.
  intros Hbuf Hds Hn Henc Hsca Hscan Hscal Href Hsep Hud Hudl Hh Hhl -> tpdu.
  pose proof (length_semi_octets ds). pose proof (Z.mod_pos_bound (zlen ds) 2).
  pose proof (Z.div_mod (zlen ds) 2).
  unfold sms_submit_encode.
  rewrite udh_str_size by done. cstep. rewrite Hsca, Henc.
  set (size := 2 + 1 + 1 + _ + 2 + 1 + _ + _). set (flags := match _ with Some _ => _ | None => _ end).
  assert (Hflags : flags = submit_flags status_report (bool_decide (is_Some h)) /\ byte flags)
    by (unfold flags; destruct status_report, h; done).
  destruct Hflags as [Hfl Hflb].
  destruct (submit_header_facts size sca flags ref ds septets) as [Hnz Hhdrl]; [lia|done..|].
  assert (Htl : zlen tpdu = size).
  { unfold tpdu, submit_tpdu, address_octets. rewrite !length_app. cbn [length]. lia. }
  pose proof (submit_header_cmgs sca flags ref ds septets (default [] h ++ ud)) as Hcmgs.
  cbn zeta in Hcmgs. rewrite Hfl in Hcmgs. fold tpdu in Hcmgs. rewrite Htl, <- Hfl in Hcmgs.
  match goal with |- context [wr_block (sms_buf_tmp s) 0 ?l] =>
    replace l with (submit_header size sca flags ref ds septets ++ [0])
      by (unfold submit_header; by rewrite <- !app_assoc) end.
  set (hdr := submit_header size sca flags ref ds septets) in *. clearbody hdr.
  rewrite wr_block_start by (rewrite length_app; cbn [length]; lia). cstep.
  rewrite <- app_assoc. cbn [app]. rewrite strlen_app by done. cstep. rewrite u8_small by lia.
  edestruct (submit_udh_spec hdr) as (tail & -> & Htail); [done..| |].
  { rewrite length_drop, length_app. cbn [length]. lia. }
  cstep. rewrite hex_string_app, !app_assoc in Hcmgs. pose proof (hex_string_nonzero _ Hh).
  set (e := hdr ++ hex_string (default [] h)) in *.
  assert (He : nonzero e) by (by apply Forall_app).
  assert (Hle : zlen e <= 100).
  { unfold e. rewrite length_app, length_hex_string. lia. }
  clearbody e. rewrite Nat2Z.id.
  destruct (submit_data_loop_spec ud [] rest e tail 0 (zlen e)) as (tail' & Hrun & Ht');
    [done|lia..|]. cbn [app] in Hrun. rewrite Hrun. cstep.
  pose proof (length_hex_string ud). pose proof (hex_string_nonzero _ Hud).
  destruct (encode_nul (e ++ hex_string ud) 26 tail') as (m & b & Hm & Hb & Hcb & Hlb);
    [lia|by apply Forall_app|done|].
  rewrite <- app_assoc in Hm. rewrite length_app in Hm, Hb.
  replace (zlen e + zlen ud * 2) with (Z.of_nat (length e + length (hex_string ud))) by lia.
  rewrite Hm. cstep. rewrite Hb. cstep. rewrite Hcb.
  exists (set_buf_tmp s b). unfold at_send. rewrite <- Hcmgs. split; [done|].
  split; [done|]. cbn [sms_buf_tmp set_buf_tmp]. rewrite Hlb, !length_app. lia.
Qed.

(** ** Several messages *)

(** The first six octets of the packed user data of a part are replaced by the
    header: what is sent are the septets of the text behind the header. *)
Lemma concat_user_data h e :
  length h = 6%nat -> bytes h ->
  h ++ drop 6 (pack (replicate 7 32 ++ e)) = pack (fill h ++ e).
Proof.
  intros Hl Hh. assert (Hf : fill_septets h = 7%nat) by (unfold fill_septets; by rewrite Hl).
  assert (Hlf : length (fill h) = 7%nat) by (unfold fill; by rewrite length_unpack).
  destruct (value_bits 8 h) as [Hv0 Hv]; [lia|done|]. rewrite Hl in Hv.
  assert (Hvf : value 7 (fill h) = value 8 h).
  { unfold fill, unpack. rewrite Hf, value_digits, Z.mod_small by lia. done. }
  assert (Hv32 : value 7 (replicate 7 32) = 141845657554976) by reflexivity.
  assert (Hhigh : forall v w, 0 <= v < 2 ^ 48 -> (v + 2 ^ 49 * w) / 2 ^ 48 = 2 * w).
  { intros v w Hvw. replace (v + 2 ^ 49 * w) with (2 * w * 2 ^ 48 + v) by lia.
    rewrite Z.div_add_l, Z.div_small by lia. lia. }
  unfold pack. rewrite !length_app, length_replicate, Hlf.
  set (n := Z.to_nat (packed_len (Z.of_nat (7 + length e)))).
  assert (Hn : n = (6 + (n - 6))%nat).
  { pose proof (packed_len_bounds (Z.of_nat (7 + length e))). lia. }
  rewrite Hn, !digits_app, !value_app, length_replicate, Hlf, Hvf, Hv32 by lia.
  rewrite drop_app_length' by (by rewrite length_digits). f_equal.
  - rewrite (digits_low 8 6 (value 8 h)) by lia. rewrite <- Hl. symmetry. by apply digits_value.
  - change (8 * Z.of_nat 6) with 48. change (7 * Z.of_nat 7) with 49.
    rewrite !Hhigh by lia. done.
Qed.

(** The parts of a text: each is the longest prefix of what is left that fits
    behind the header. *)
Fixpoint split_text (fuel : nat) (t : list Z) : list (list Z) :=
  match fuel, t with
  | S fuel, _ :: _ =>
    let p := fit t 153 in p :: split_text fuel (drop (length p) t)
  | _, _ => []
  end.
Definition parts (t : list Z) : list (list Z) := split_text (length t) t.

Lemma fit_take t k room : room <= Z.of_nat k -> fit (take k t) room = fit t room.
Proof.
  revert k room. induction t as [|c t IH]; intros k room Hk; [by destruct k|].
  pose proof (length_encode_char c) as Hc.
  destruct k as [|k]; cbn [take fit].
  - destruct (Z.leb_spec (zlen (encode_char c)) room); [lia|done].
  - destruct (zlen (encode_char c) <=? room); [|done]. f_equal. apply IH. lia.
Qed.

Lemma fit_nonempty c t room : 2 <= room -> exists p, fit (c :: t) room = c :: p.
Proof.
  intros Hr. pose proof (length_encode_char c) as Hc. cbn [fit].
  destruct (Z.leb_spec (zlen (encode_char c)) room); [eauto|lia].
Qed.

Lemma fit_drop t room : fit t room ++ drop (length (fit t room)) t = t.
Proof.
  destruct (fit_prefix t room) as [u Hu]. set (f := fit t room) in *. clearbody f. subst t.
  by rewrite drop_app_length.
Qed.

(** Nothing is lost, and every part fits and is not empty. *)
Lemma split_text_spec fuel t :
  (length t <= fuel)%nat ->
  concat (split_text fuel t) = t /\
  Forall (fun p => p <> [] /\ zlen (encode_text p) <= 153) (split_text fuel t).
Proof.
  revert t. induction fuel as [|fuel IH]; intros [|c t] Hl; cbn [length] in Hl; try lia;
    [by split|by split|].
  cbn [split_text]. destruct (fit_nonempty c t 153) as [p Hp]; [lia|].
  pose proof (fit_drop (c :: t) 153) as Hd. pose proof (fit_room (c :: t) 153) as Hr.
  destruct (IH (drop (length (fit (c :: t) 153)) (c :: t))) as [Hj Hall].
  { rewrite Hp. cbn [length drop]. rewrite length_drop. lia. }
  split.
  - cbn [concat]. by rewrite Hj, Hd.
  - constructor; [|done]. split; [by rewrite Hp|lia].
Qed.

(** Any fuel that is large enough gives the same parts. *)
Lemma split_text_fuel fuel fuel' t :
  (length t <= fuel)%nat -> (length t <= fuel')%nat -> split_text fuel t = split_text fuel' t.
Proof.
  revert fuel' t. induction fuel as [|fuel IH]; intros fuel' [|c t] Hl Hl';
    destruct fuel' as [|fuel']; cbn [length] in *; try lia; try done.
  cbn [split_text]. f_equal. destruct (fit_nonempty c t 153) as [p Hp]; [lia|].
  apply IH; rewrite Hp; cbn [length drop]; rewrite length_drop; lia.
Qed.

(** The septets of a part behind seven place holders. *)
Definition part_septets (p : list Z) : list Z := replicate 7 32 ++ encode_text p.

Lemma fit_place_holders t :
  fit (replicate 7 0 ++ t) 160 = replicate 7 0 ++ fit t 153 /\
  encode_text (replicate 7 0 ++ fit t 153) = part_septets (fit t 153).
Proof. split; [|done]. by cbn [replicate app fit encode_char]. Qed.

Lemma part_septets_length p :
  zlen (encode_text p) <= 153 ->
  zlen (part_septets p) = 7 + zlen (encode_text p) /\
  zlen (pack (part_septets p)) = packed_len (zlen (part_septets p)) /\
  6 <= packed_len (zlen (part_septets p)) <= 140.
Proof.
  intros Hp. assert (Hl : zlen (part_septets p) = 7 + zlen (encode_text p))
    by (unfold part_septets; rewrite length_app, length_replicate; lia).
  split; [done|]. split; [apply length_pack|].
  pose proof (packed_len_bounds (zlen (part_septets p))). lia.
Qed.

(** The work of one iteration before anything is sent. *)
Lemma concat_convert text t done_ tail room tmp :
  text = done_ ++ t ++ 0 :: tail -> nonzero t -> bytes t -> length room = 153%nat ->
  length tmp = 160%nat ->
  let p := fit t 153 in
  exists part room' tmp',
    strlen (drop (Z.to_nat (zlen done_)) text) = Ok (zlen t) /\
    rd_block text (zlen done_) (u16 (Z.min (zlen t) 153)) = Ok part /\
    wr_block (replicate 7 0 ++ room) 7 part = Ok (replicate 7 0 ++ room') /\
    length room' = 153%nat /\
    string_conversion_ascii_to_gsm7bit (Some (replicate 7 0 ++ room'))
      (u8 (7 + u16 (Z.min (zlen t) 153))) (Some tmp) true =
      Ok {| g_data := pack (part_septets p) ++ tmp';
            g_bytes := zlen (pack (part_septets p)); g_chars := zlen (part_septets p);
            g_consumed := 7 + zlen p |} /\
    zlen (pack (part_septets p)) + zlen tmp' = 160.
Proof.
  intros -> Hnz Hb Hroom Htmp p. pose proof (fit_room t 153) as Hr.
  destruct (part_septets_length (fit t 153)) as (Hl7 & Hlp & Hpl); [lia|]. fold p in Hr, Hl7, Hlp, Hpl.
  set (part := take 153 t).
  assert (Hlpart : zlen part = Z.min (zlen t) 153) by (unfold part; rewrite length_take; lia).
  rewrite Nat2Z.id, drop_app_length, strlen_app by done.
  rewrite u16_small, <- Hlpart by lia.
  exists part, (part ++ drop (length part) room). eexists. split; [done|]. split.
  { unfold part. rewrite <- (take_drop 153 t) at 1. rewrite <- app_assoc. apply rd_block_middle. }
  split.
  { rewrite (wr_block_append (replicate 7 0)) by (rewrite ?length_replicate; done || lia). done. }
  split; [rewrite length_app, length_drop; lia|].
  rewrite u8_small by lia. rewrite app_assoc.
  destruct (fit_place_holders part) as [Hf Hs].
  assert (Hft : fit part 153 = p) by (apply fit_take; lia). rewrite Hft in Hf, Hs.
  replace (7 + zlen part) with (zlen (replicate 7 0 ++ part))
    by (rewrite length_app, length_replicate; lia).
  split.
  - rewrite ascii_to_gsm7bit_correct; rewrite ?Hf, ?Hs.
    + rewrite Hlp, length_app, length_replicate. do 2 f_equal. lia.
    + apply Forall_app. split; [by apply Forall_replicate|by apply Forall_take].
    + rewrite length_app, length_replicate. lia.
    + lia.
  - rewrite length_drop, length_app, length_drop. lia.
Qed.

(** One iteration, up to the point where the part is sent. *)
Lemma concat_loop_step fuel s text enc ds_len oct sca send cnt size t done_ tail seq room udh :
  text = done_ ++ t ++ 0 :: tail -> t <> [] -> nonzero t -> bytes t ->
  size = zlen done_ + zlen t -> size < 65536 -> 0 <= seq < 255 ->
  length room = 153%nat -> length (sms_payload_tmp (s_lib s)) = 160%nat ->
  let p := fit t 153 in
  let pos := zlen (done_ ++ p) in
  exists room' tmp',
    length room' = 153%nat /\ zlen (pack (part_septets p)) + zlen tmp' = 160 /\
    sms_submit_concat_loop status_report (S fuel) s text enc ds_len oct sca send cnt size
      (zlen done_) (zlen done_) seq (replicate 7 0 ++ room) udh =
    (let s := set_tmp s (pack (part_septets p) ++ tmp') in
     if send then
       let* udh := wr_block udh 0
         (chars "050003" ++ hex2 (concat_msg_id s) ++ hex2 cnt ++ hex2 (seq + 1) ++ [0]) in
       let '(s, _) := at_send s (if pos <? size then chars "AT+CMMS=1" else chars "AT+CMMS=0") in
       let* '(s, err) := sms_submit_encode status_report s enc ds_len oct
         (drop 6 (pack (part_septets p) ++ tmp')) (zlen (pack (part_septets p)) - 6)
         (zlen (part_septets p)) (message_ref s) (Some udh) sca in
       if negb (err =? 0) then Ok (s, seq + 1, err) else
       sms_submit_concat_loop status_report fuel (set_message_ref s (u8 (message_ref s + 1)))
         text enc ds_len oct sca send cnt size pos pos (seq + 1) (replicate 7 0 ++ room') udh
     else
       sms_submit_concat_loop status_report fuel s text enc ds_len oct sca send cnt size
         pos pos (seq + 1) (replicate 7 0 ++ room') udh).
Proof.
  intros Htext Hne Hnz Hb Hsize Hmax Hseq Hroom Htmp p pos.
  destruct (concat_convert text t done_ tail room (sms_payload_tmp (s_lib s)))
    as (part & room' & tmp' & Hstr & Hrd & Hwr & Hlr & Hconv & Htmp'); [done..|].
  fold p in Hconv, Htmp'. exists room', tmp'. split; [done|]. split; [done|].
  cbn [sms_submit_concat_loop].
  assert (1 <= zlen t) by (destruct t; [done|cbn [length]; lia]).
  destruct (Z.ltb_spec (zlen done_) size); [|lia]. rewrite Hstr. cstep.
  change SMS_MAX_CONCAT_PAYLOAD_LEN_CHARS with 153. change SMS_UDH_CONCAT_SIZE_SEPTETS with 7.
  change SMS_UDH_CONCAT_SIZE_OCTETS with 6. change (Z.to_nat 6) with 6%nat.
  rewrite Hrd. cstep. rewrite Hwr. cstep. rewrite Hconv. cstep.
  cbn [g_data g_bytes g_chars g_consumed].
  assert (Hpt : zlen p <= zlen t).
  { pose proof (fit_drop t 153) as Hd. apply (f_equal length) in Hd. rewrite length_app in Hd.
    fold p in Hd. lia. }
  destruct (part_septets_length p) as (Hl7 & Hlp & Hpl);
    [unfold p; pose proof (fit_room t 153); lia|].
  replace (zlen done_ + (7 + zlen p - 7)) with pos by (unfold pos; rewrite length_app; lia).
  assert (0 <= pos <= size) by (unfold pos; rewrite length_app; lia).
  rewrite (u16_small pos), (u8_small (seq + 1)), (u8_small (zlen (pack _) - 6)) by lia. done.
Qed.

(** The first pass only counts the parts. *)
Lemma concat_count_spec fuel s text enc ds_len oct sca cnt t done_ tail seq room udh :
  text = done_ ++ t ++ 0 :: tail -> nonzero t -> bytes t -> (length t <= fuel)%nat ->
  zlen done_ + zlen t < 65536 -> 0 <= seq -> seq + zlen (split_text fuel t) <= 255 ->
  length room = 153%nat -> length (sms_payload_tmp (s_lib s)) = 160%nat ->
  exists tmp', length tmp' = 160%nat /\
    sms_submit_concat_loop status_report fuel s text enc ds_len oct sca false cnt
      (zlen done_ + zlen t) (zlen done_) (zlen done_) seq (replicate 7 0 ++ room) udh =
    Ok (set_tmp s tmp', seq + zlen (split_text fuel t), 0).
Proof.
  revert s t done_ seq room.
  induction fuel as [|fuel IH]; intros s t done_ seq room Htext Hnz Hb Hf Hmax Hseq Hcnt Hroom Htmp;
    (destruct t as [|c t]; [exists (sms_payload_tmp (s_lib s)); split; [done|];
       cbn [sms_submit_concat_loop length split_text];
       destruct (Z.ltb_spec (zlen done_) (zlen done_ + Z.of_nat 0)); [lia|];
       rewrite Z.add_0_r; by destruct s as [[]]|]); [cbn in Hf; lia|].
  cbn [split_text] in *. set (t' := c :: t) in *. cbn [length] in Hcnt.
  edestruct (concat_loop_step fuel s text enc ds_len oct sca false cnt (zlen done_ + zlen t') t'
    done_ tail seq room udh) as (room' & tmp' & Hlr & Hlt & ->); try (done || lia).
  cbn zeta iota. set (p := fit t' 153) in *. set (s1 := set_tmp _ _).
  pose proof (fit_drop t' 153) as Hd. fold p in Hd.
  pose proof (f_equal length Hd) as Hlen. rewrite length_app in Hlen.
  destruct (fit_nonempty c t 153) as [q Hq]; [lia|]. fold t' p in Hq.
  assert (1 <= zlen p) by (rewrite Hq; cbn [length]; lia).
  destruct (IH s1 (drop (length p) t') (done_ ++ p) (seq + 1) room') as (tmp & Hltmp & Hrun).
  - by rewrite Htext, <- app_assoc, (app_assoc p), Hd.
  - by apply Forall_drop.
  - by apply Forall_drop.
  - lia.
  - rewrite length_app. lia.
  - lia.
  - lia.
  - done.
  - change (length (pack (part_septets p) ++ tmp') = 160%nat). rewrite length_app. lia.
  - exists tmp. split; [done|]. revert Hrun. rewrite length_app.
    replace (Z.of_nat (length done_ + length p) + zlen (drop (length p) t')) with
      (zlen done_ + zlen t') by lia.
    intros ->. cbn [length]. f_equal. f_equal. f_equal. lia.
Qed.

(** What is sent for a part: its header says that it is number [seq] of [n]
    parts of message [mid]. *)
Definition part_header (mid n seq : Z) : list Z := [5; 0; 3; mid; n; seq].
Definition part_units (mid n seq : Z) (p : list Z) : list Z :=
  fill (part_header mid n seq) ++ encode_text p.
Definition part_cmd (ds sca : list Z) (mid n ref seq : Z) (p : list Z) : list Z :=
  cmgs sca (submit_tpdu (submit_flags status_report true) ref ds
    (zlen (part_units mid n seq p)) (pack (part_units mid n seq p))).

(** Sending the parts one by one, each after the announcement whether more will
    follow, until the modem refuses one: the commands, the next message
    reference and the error. *)
Fixpoint send_parts (ds sca : list Z) (mid n : Z) (trace : list (list Z)) (ref seq : Z)
    (ps : list (list Z)) : list (list Z) * Z * Z :=
  match ps with
  | [] => (trace, ref, 0)
  | p :: ps =>
    let trace := trace ++ [match ps with [] => chars "AT+CMMS=0" | _ => chars "AT+CMMS=1" end] in
    let cmd := part_cmd ds sca mid n ref seq p in
    let err := at_printf trace cmd in
    if negb (err =? 0) then (trace ++ [cmd], ref, err)
    else send_parts ds sca mid n (trace ++ [cmd]) (u8 (ref + 1)) (seq + 1) ps
  end.

(** Sending one part. *)
Lemma concat_send_part s ds enc sca_field sca mid n seq p tmp' :
  zlen (encode_text p) <= 153 -> bytes p ->
  length (sms_buf_tmp s) = 512%nat -> byte (message_ref s) ->
  byte mid -> byte n -> byte seq ->
  Forall digit ds -> zlen ds <= 20 -> cstr enc = hex_string (semi_octets ds) ->
  cstr sca_field = sca -> nonzero sca -> zlen sca <= 6 ->
  let cmd := part_cmd ds sca mid n (message_ref s) seq p in
  exists s',
    sms_submit_encode status_report s enc (zlen ds) (zlen (semi_octets ds))
      (drop 6 (pack (part_septets p) ++ tmp')) (zlen (pack (part_septets p)) - 6)
      (zlen (part_septets p)) (message_ref s) (Some (hex_string (part_header mid n seq) ++ [0]))
      sca_field =
    Ok (set_trace s' (at_trace s ++ [cmd]), at_printf (at_trace s) cmd) /\
    same_counters s s' /\ length (sms_buf_tmp s') = 512%nat.
Proof.
  intros Hp Hb Hbuf Href Hid Hn Hseq Hds Hdl Henc Hsca Hscan Hscal cmd.
  destruct (part_septets_length p Hp) as (Hl7 & Hlp & Hpl).
  rewrite drop_app_le by lia.
  replace (zlen (pack (part_septets p)) - 6) with (zlen (drop 6 (pack (part_septets p))))
    by (rewrite length_drop; lia).
  assert (Hh : bytes (part_header mid n seq)) by (by repeat (constructor; [done|])).
  assert (Hlu : zlen (part_septets p) = zlen (part_units mid n seq p)).
  { unfold part_units, fill. rewrite length_app, length_unpack. rewrite Hl7.
    change (fill_septets (part_header mid n seq)) with 7%nat. lia. }
  destruct (submit_encode_spec s ds enc (drop 6 (pack (part_septets p))) tmp'
    (zlen (part_septets p)) (message_ref s) (Some (part_header mid n seq)) (Some (hex_string
    (part_header mid n seq) ++ [0])) sca_field sca) as (s' & Hrun & Hs'); try done.
  - split; change (2 ^ 8) with 256; lia.
  - apply Forall_drop, pack_bytes.
  - rewrite length_drop. lia.
  - exists s'. split; [|done]. rewrite Hrun. unfold cmd, part_cmd.
    cbn [default from_option id]. 
    pose proof (concat_user_data (part_header mid n seq) (encode_text p) eq_refl Hh) as Hu.
    fold (part_septets p) in Hu. by rewrite Hu, Hlu.
Qed.

(** More parts are announced when some text is left. *)
Lemma more_to_send {A} fuel t n m (x y : A) :
  (length t <= fuel)%nat -> m = n + zlen t ->
  (if n <? m then x else y) = match split_text fuel t with [] => y | _ => x end.
Proof.
  intros Hf ->. destruct t as [|c t]; cbn [length] in *.
  - destruct (Z.ltb_spec n (n + Z.of_nat 0)); [lia|]. by destruct fuel.
  - destruct (Z.ltb_spec n (n + Z.of_nat (S (length t)))); [|lia]. destruct fuel; [lia|done].
Qed.

(** The buffers have their sizes and the counters their width. *)
Definition sub_ok (s : sub) : Prop :=
  length (sms_payload_tmp (s_lib s)) = 160%nat /\ length (sms_buf_tmp s) = 512%nat /\
  byte (concat_msg_id s) /\ byte (message_ref s).

(** One round of the second pass sends the part at the front of the text. *)
Lemma concat_send_round fuel s ds enc sca_field sca text c t done_ tail cnt seq room udh :
  let t' := c :: t in
  let p := fit t' 153 in
  let trace := at_trace s ++ [match split_text fuel (drop (length p) t') with
                              | [] => chars "AT+CMMS=0" | _ => chars "AT+CMMS=1" end] in
  let cmd := part_cmd ds sca (concat_msg_id s) cnt (message_ref s) (seq + 1) p in
  text = done_ ++ t' ++ 0 :: tail -> nonzero t' -> bytes t' -> (length t <= fuel)%nat ->
  zlen done_ + zlen t' < 65536 -> 0 <= seq -> seq < 255 ->
  length room = 153%nat -> sub_ok s -> byte cnt -> length udh = 13%nat ->
  Forall digit ds -> zlen ds <= 20 -> cstr enc = hex_string (semi_octets ds) ->
  cstr sca_field = sca -> nonzero sca -> zlen sca <= 6 ->
  exists s' room', length room' = 153%nat /\ sub_ok s' /\ at_trace s' = trace ++ [cmd] /\
    concat_msg_id s' = concat_msg_id s /\ message_ref s' = message_ref s /\
    live_blocks (s_lib s') = live_blocks (s_lib s) /\
    sms_submit_concat_loop status_report (S fuel) s text enc (zlen ds) (zlen (semi_octets ds))
      sca_field true cnt (zlen done_ + zlen t') (zlen done_) (zlen done_) seq
      (replicate 7 0 ++ room) udh =
    if negb (at_printf trace cmd =? 0) then Ok (s', seq + 1, at_printf trace cmd)
    else sms_submit_concat_loop status_report fuel (set_message_ref s' (u8 (message_ref s' + 1)))
      text enc (zlen ds) (zlen (semi_octets ds)) sca_field true cnt (zlen done_ + zlen t')
      (zlen (done_ ++ p)) (zlen (done_ ++ p)) (seq + 1) (replicate 7 0 ++ room')
      (hex_string (part_header (concat_msg_id s) cnt (seq + 1)) ++ [0]).
Proof.
  intros t' p trace cmd Htext Hnz Hb Hf Hmax Hseq Hcnt Hroom (Htmp & Hbuf & Hid & Href) Hc Hudh
    Hds Hdl Henc Hsca Hscan Hscal.
  edestruct (concat_loop_step fuel s text enc (zlen ds) (zlen (semi_octets ds)) sca_field true cnt
    (zlen done_ + zlen t') t' done_ tail seq room udh) as (room' & tmp' & Hlr & Hlt & ->);
    try (done || lia).
  cbn zeta iota. fold p in Hlt |- *. cbn [concat_msg_id set_tmp set_lib].
  rewrite wr_block_start by (rewrite Hudh; cbn; lia). cstep.
  rewrite (drop_ge udh), app_nil_r by (rewrite Hudh; cbn; lia).
  pose proof (fit_drop t' 153) as Hd. fold p in Hd.
  pose proof (f_equal length Hd) as Hlen. rewrite length_app in Hlen.
  destruct (fit_nonempty c t 153) as [q Hq]; [lia|]. fold t' p in Hq.
  assert (1 <= zlen p) by (rewrite Hq; cbn [length]; lia).
  unfold at_send. rewrite (more_to_send fuel (drop (length p) t'))
    by (first [cbn [t' length] in Hlen; lia|rewrite length_app; lia]).
  set (s2 := set_trace (set_tmp s (pack (part_septets p) ++ tmp')) trace).
  destruct (concat_send_part s2 ds enc sca_field sca (concat_msg_id s) cnt (seq + 1) p tmp')
    as (s3 & Hrun & (Hs3l & Hs3c & Hs3m) & Hs3b); try done.
  { unfold p. pose proof (fit_room t' 153). lia. }
  { rewrite <- Hd in Hb. by apply Forall_app in Hb as [? _]. }
  { split; change (2 ^ 8) with 256; lia. }
  exists (set_trace s3 (trace ++ [cmd])), room'. split; [done|].
  split; [|do 4 (split; [first [done|exact Hs3c|exact Hs3m|exact (f_equal live_blocks Hs3l)]|])].
  - unfold sub_ok. cbn [set_trace concat_msg_id message_ref sms_buf_tmp s_lib].
    rewrite Hs3m, Hs3c, Hs3l. split; [|done].
    change (length (pack (part_septets p) ++ tmp') = 160%nat). rewrite length_app. lia.
  - replace (chars "050003" ++ _) with (hex_string (part_header (concat_msg_id s) cnt (seq + 1)) ++ [0])
      by done.
    fold trace. change (at_trace (set_tmp s _)) with (at_trace s). fold trace. fold s2.
    rewrite Hrun. cstep. change (at_trace s2) with trace. change (message_ref s2) with (message_ref s).
    fold cmd. reflexivity.
Qed.

(** The second pass sends the parts. *)
Lemma concat_send_spec fuel s ds enc sca_field sca text t done_ tail cnt seq room udh :
  text = done_ ++ t ++ 0 :: tail -> nonzero t -> bytes t -> (length t <= fuel)%nat ->
  zlen done_ + zlen t < 65536 -> 0 <= seq -> seq + zlen (split_text fuel t) <= 255 ->
  length room = 153%nat -> sub_ok s -> byte cnt -> length udh = 13%nat ->
  Forall digit ds -> zlen ds <= 20 -> cstr enc = hex_string (semi_octets ds) ->
  cstr sca_field = sca -> nonzero sca -> zlen sca <= 6 ->
  exists s' seq' err,
    sms_submit_concat_loop status_report fuel s text enc (zlen ds) (zlen (semi_octets ds))
      sca_field true cnt (zlen done_ + zlen t) (zlen done_) (zlen done_) seq
      (replicate 7 0 ++ room) udh = Ok (s', seq', err) /\
    send_parts ds sca (concat_msg_id s) cnt (at_trace s) (message_ref s) (seq + 1)
      (split_text fuel t) = (at_trace s', message_ref s', err) /\
    concat_msg_id s' = concat_msg_id s /\ live_blocks (s_lib s') = live_blocks (s_lib s) /\
    sub_ok s'.
Proof.
  intros Htext Hnz Hb Hf Hmax Hseq Hcnt Hroom Hok Hc Hudh Hds Hdl Henc Hsca Hscan Hscal.
  revert s t done_ seq room udh Htext Hnz Hb Hf Hmax Hseq Hcnt Hroom Hok Hudh.
  induction fuel as [|fuel IH];
    intros s t done_ seq room udh Htext Hnz Hb Hf Hmax Hseq Hcnt Hroom Hok Hudh;
    (destruct t as [|c t]; [exists s, seq, 0; cbn [sms_submit_concat_loop length split_text];
       destruct (Z.ltb_spec (zlen done_) (zlen done_ + Z.of_nat 0)); [lia|done]|]);
    [cbn in Hf; lia|].
  edestruct (concat_send_round fuel s ds enc sca_field sca text c t done_ tail cnt seq room udh)
    as (s4 & room' & Hlr & Hok4 & Htr & Hs4c & Hs4m & Hlb & ->); try done.
  { cbn in Hf. lia. }
  { cbn [split_text length] in Hcnt. lia. }
  cbn [split_text send_parts] in *. set (t' := c :: t) in *. set (p := fit t' 153) in *.
  cbn [length] in Hcnt. rewrite <- Htr.
  set (err := at_printf _ _). destruct (negb (err =? 0)).
  { exists s4, (seq + 1), err. by rewrite Hs4m. }
  pose proof (fit_drop t' 153) as Hd. fold p in Hd.
  pose proof (f_equal length Hd) as Hlen. rewrite length_app in Hlen.
  destruct (fit_nonempty c t 153) as [q Hq]; [lia|]. fold t' p in Hq.
  assert (1 <= zlen p) by (rewrite Hq; cbn [length]; lia).
  destruct (IH (set_message_ref s4 (u8 (message_ref s4 + 1))) (drop (length p) t') (done_ ++ p)
    (seq + 1) room' (hex_string (part_header (concat_msg_id s) cnt (seq + 1)) ++ [0]))
    as (s' & seq' & err' & Hloop & Hparts & Hc' & Hl' & Hok'); try (done || lia).
  { by rewrite Htext, <- app_assoc, (app_assoc p), Hd. }
  { by apply Forall_drop. }
  { by apply Forall_drop. }
  { rewrite length_app. lia. }
  { destruct Hok4 as (? & ? & ? & ?). repeat (split; [done|]). apply u8_range. }
  exists s', seq', err'. rewrite length_app in Hloop |- *.
  replace (Z.of_nat (length done_ + length p) + zlen (drop (length p) t'))
    with (zlen done_ + zlen t') in Hloop by lia.
  rewrite Hloop. split; [done|]. rewrite <- Hparts. cbn [set_message_ref at_trace message_ref
    concat_msg_id]. rewrite Hs4c, Hs4m. split; [done|]. rewrite Hc', Hl'. done.
Qed.

(** ** Service centre address *)

Definition read_ad : list Z := chars "AT+CRSM=176,28589,0,0,0".
Definition read_smsp : list Z := chars "AT+CRSM=178,28482,1,4,0".

(** A type approval SIM: the first digit of EF-AD is 8. *)
Definition type_approval (reply : option (Z * Z * list Z)) : bool :=
  match reply with
  | Some (sw1, sw2, str) => (sw1 =? 0x90) && (sw2 =? 0) && (zth str 0 =? 56)
  | None => false
  end.

(** EF-SMSP holds a service centre address: bit 2 of the parameter indicators,
    28 octets from its end, is clear. *)
Definition has_sca (reply : option (Z * Z * list Z)) : bool :=
  match reply with
  | Some (sw1, sw2, str) =>
    (sw1 =? 0x90) && (sw2 =? 0) && (58 <=? zlen str) &&
    match unhex (take 2 (drop (length str - 56) str)) with
    | Some [b] => negb (Z.testbit b 1)
    | _ => false
    end
  | None => false
  end.

(** The commands sent, and the address field. *)
Definition sca_spec (trace : list (list Z)) : list (list Z) * list Z :=
  if type_approval (at_crsm trace read_ad) then
    (trace ++ [read_ad; read_smsp],
     if has_sca (at_crsm (trace ++ [read_ad]) read_smsp) then chars "00" else chars "0291F7")
  else (trace ++ [read_ad], chars "00").

Lemma scanf_crsm_spec s cmd :
  length (sms_buf_tmp s) = 512%nat ->
  exists s',
    at_scanf_crsm s cmd = Ok (s', (fun '(sw1, sw2, _) => (sw1, sw2)) <$> at_crsm (at_trace s) cmd) /\
    same_counters s s' /\ at_trace s' = at_trace s ++ [cmd] /\
    length (sms_buf_tmp s') = 512%nat /\
    forall sw1 sw2 str, at_crsm (at_trace s) cmd = Some (sw1, sw2, str) ->
      exists rest, sms_buf_tmp s' = str ++ 0 :: rest.
Proof.
  intros Hbuf. unfold at_scanf_crsm. destruct (at_crsm (at_trace s) cmd) as [[[sw1 sw2] str]|] eqn:E.
  2: { by eexists. }
  apply at_crsm_string in E as [Hl _]. cbn [set_trace sms_buf_tmp].
  rewrite wr_block_start by (rewrite length_app; cbn [length]; lia). cstep.
  eexists. split; [done|]. split; [done|]. split; [done|]. cbn [set_buf_tmp sms_buf_tmp]. split.
  - rewrite !length_app, length_drop. cbn [length]. lia.
  - intros ??? [= <- <- <-]. rewrite <- app_assoc. cbn [app]. eauto.
Qed.

Lemma land_2_testbit b : negb (Z.land b 2 =? 0) = Z.testbit b 1.
Proof.
  replace (Z.testbit b 1) with (Z.testbit (Z.land b 2) 1)
    by (rewrite Z.land_spec; by rewrite andb_true_r).
  assert (H : Z.land b 2 = if Z.testbit b 1 then 2 else 0).
  { apply Z.bits_inj'. intros n Hn. rewrite Z.land_spec. destruct (Z.eq_dec n 1) as [->|Hne].
    - change (Z.testbit 2 1) with true. rewrite andb_true_r. by destruct (Z.testbit b 1).
    - change 2 with (2 ^ 1). rewrite Z.pow2_bits_false, andb_false_r by lia.
      destruct (Z.testbit b 1); [by rewrite Z.pow2_bits_false by lia|by rewrite Z.bits_0]. }
  rewrite H. by destruct (Z.testbit b 1).
Qed.

Lemma parameter_indicators_spec str rest :
  58 <= zlen str ->
  rd_block (str ++ 0 :: rest) (zlen str - 56) 2 = Ok (take 2 (drop (length str - 56) str)).
Proof.
  intros Hl. rewrite rd_block_Ok by (rewrite ?length_app; cbn [length]; lia).
  replace (Z.to_nat (zlen str - 56)) with (length str - 56)%nat by lia.
  change (Z.to_nat 2) with 2%nat. rewrite drop_app_le, take_app_le by (rewrite ?length_drop; lia).
  done.
Qed.

(** The decision on the answer to the second command. *)
Lemma smsp_decision_spec s (reply : option (Z * Z * list Z)) (f0 f7 : list Z) :
  (forall sw1 sw2 str, reply = Some (sw1, sw2, str) ->
     (1 <= zlen str <= 511 /\ nonzero str) /\ exists rest, sms_buf_tmp s = str ++ 0 :: rest) ->
  match (fun '(sw1, sw2, _) => (sw1, sw2)) <$> reply with
  | None => Ok (s, f7)
  | Some (sw1, sw2) =>
    if negb (sw1 =? 0x90) || negb (sw2 =? 0) then Ok (s, f7) else
    let* crsm_resp_len := strlen (sms_buf_tmp s) in
    if crsm_resp_len <? CRSM_EFSMSP_STATIC_LEN then Ok (s, f7) else
    let* field := rd_block (sms_buf_tmp s)
      (crsm_resp_len - CRSM_EFSMSP_PARAMETER_INDICATORS_FROM_END_INDEX) 2 in
    match hex2bin field 1 with
    | [b] => if negb (Z.land b 2 =? 0) then Ok (s, f7) else Ok (s, f0)
    | _ => Ok (s, f7)
    end
  end = Ok (s, if has_sca reply then f0 else f7).
Proof.
  destruct reply as [[[sw1 sw2] str]|]; [|done]. cbn [fmap option_fmap option_map has_sca].
  intros H. destruct (H _ _ _ eq_refl) as [[Hl Hn] [rest Hs]].
  destruct (sw1 =? 0x90); cbn [negb orb andb]; [|done].
  destruct (sw2 =? 0); cbn [negb orb andb]; [|done]. rewrite Hs, strlen_app by done. cstep.
  unfold CRSM_EFSMSP_STATIC_LEN. change CRSM_EFSMSP_PARAMETER_INDICATORS_FROM_END_INDEX with 56.
  destruct (Z.ltb_spec (zlen str) 58), (Z.leb_spec 58 (zlen str)); try lia; [done|].
  rewrite parameter_indicators_spec by done. cstep. cbn [andb].
  set (field := take 2 _). assert (Hf : length field = 2%nat)
    by (unfold field; rewrite length_take, length_drop; lia).
  rewrite hex2bin_spec by (by rewrite Hf).
  destruct (unhex field) as [[|b [|]]|]; cbn [default from_option id]; try done.
  rewrite land_2_testbit. by destruct (Z.testbit b 1).
Qed.

Lemma encode_sca_spec s :
  length (sms_buf_tmp s) = 512%nat ->
  exists s' f,
    sms_submit_encode_sca s (replicate 7 0) = Ok (s', f) /\ same_counters s s' /\
    length (sms_buf_tmp s') = 512%nat /\ sca_spec (at_trace s) = (at_trace s', cstr f).
Proof.
  intros Hbuf. unfold sms_submit_encode_sca, sca_spec. fold read_ad read_smsp.
  rewrite !wr_block_start by (vm_compute; done). cstep.
  destruct (scanf_crsm_spec s read_ad Hbuf) as (s1 & -> & Hc1 & Ht1 & Hb1 & Hr1). cstep.
  destruct (at_crsm (at_trace s) read_ad) as [[[sw1 sw2] str]|] eqn:E1; cbn [fmap option_fmap
    option_map type_approval]; [|by eexists s1, _; rewrite Ht1].
  destruct (Hr1 _ _ _ eq_refl) as [rest1 Hs1].
  destruct (at_crsm_string _ _ _ _ _ E1) as [Hl1 Hn1].
  rewrite Hs1, strlen_app by done. cstep. destruct (Z.eqb_spec (zlen str) 0); [lia|].
  rewrite rd_Ok by (rewrite length_app; lia). cstep. rewrite zth_app_l, orb_false_r by lia.
  destruct (sw1 =? 0x90); cbn [negb orb andb]; [|by eexists s1, _; rewrite Ht1].
  destruct (sw2 =? 0); cbn [negb orb andb]; [|by eexists s1, _; rewrite Ht1].
  destruct (zth str 0 =? 56); cbn [negb]; [|by eexists s1, _; rewrite Ht1].
  rewrite wr_Ok by (rewrite length_app; lia). cstep.
  set (s1' := set_buf_tmp s1 _).
  destruct (scanf_crsm_spec s1' read_smsp) as (s2 & -> & Hc2 & Ht2 & Hb2 & Hr2).
  { cbn. rewrite length_insert, <- Hs1. done. }
  change (at_trace s1') with (at_trace s1) in *. rewrite Ht1 in *. cstep.
  rewrite smsp_decision_spec.
  2: { intros sw1' sw2' str' E2. split; [by eapply at_crsm_string|by eapply Hr2]. }
  eexists s2, _. split; [done|]. split; [|split; [done|]].
  - destruct Hc1 as (? & ? & ?), Hc2 as (? & ? & ?). cbn in *. repeat split; congruence.
  - rewrite Ht2, <- app_assoc. by destruct (has_sca _).
Qed.

(** The service centre address field of the command. It is empty unless the
    SIM is a type approval SIM whose parameters hold no service centre address;
    then it is the address 7. The two files are read from the SIM only as far as
    they are needed. *)
Theorem encode_sca_decision (s : sub) (Hbuf : length (sms_buf_tmp s) = 512%nat) :
  exists s' f,
    sms_submit_encode_sca s (replicate 7 0) = Ok (s', f) /\
    (at_trace s', cstr f) = sca_spec (at_trace s) /\ s_lib s' = s_lib s.
Proof.
  destruct (encode_sca_spec s Hbuf) as (s' & f & Hrun & [Hl _] & _ & Hspec). by exists s', f.
Qed.

(** ** Sending a text *)

Definition number_ok (plus : bool) (ds : list Z) : Prop :=
  Forall digit ds /\ zlen ds <= 20 /\ number_string plus ds <> [].

Lemma sca_spec_facts trace :
  nonzero (sca_spec trace).2 /\ zlen (sca_spec trace).2 <= 6.
Proof.
  unfold sca_spec. destruct (type_approval _); [destruct (has_sca _)|]; split;
    (by_compute || (vm_compute; done)).
Qed.

(** The common part of sending: number, conversion, service centre address. *)
Lemma submit_send_text s plus ds tailn t tail :
  number_ok plus ds -> bytes t -> zlen t < 65536 -> sub_ok s ->
  let q := take (Z.to_nat (u8 (zlen t))) t in
  let f := fit q 160 in
  exists s' tmp' enc sca,
    sms_submit_send status_report s (Some (number_string plus ds ++ 0 :: tailn)) (t ++ 0 :: tail)
      (zlen t) SMS_DATA_TYPE_ASCII =
    (if zlen f <? zlen t then
       let* '(s, cnt, _) := sms_submit_concat status_report s' (t ++ 0 :: tail) enc (zlen ds)
         (zlen (semi_octets ds)) sca false 0 in
       let* '(s, _, err) := sms_submit_concat status_report s (t ++ 0 :: tail) enc (zlen ds)
         (zlen (semi_octets ds)) sca true cnt in
       Ok (s, err)
     else
       sms_submit_encode status_report s' enc (zlen ds) (zlen (semi_octets ds))
         (pack (encode_text f) ++ tmp') (zlen (pack (encode_text f))) (zlen (encode_text f)) 0
         None sca) /\
    sub_ok s' /\ cstr enc = hex_string (semi_octets ds) /\
    sca_spec (at_trace s) = (at_trace s', cstr sca) /\
    concat_msg_id s' = concat_msg_id s /\ message_ref s' = message_ref s /\
    live_blocks (s_lib s') = live_blocks (s_lib s).
Proof.
  intros (Hds & Hdl & Hne) Hb Hlt (Htmp & Hbuf & Hid & Href) q f. unfold sms_submit_send.
  rewrite strlen_app by (by apply number_string_nonzero). cstep.
  destruct (encode_number_spec plus ds tailn (replicate 21 0) Hds Hdl Hne eq_refl)
    as (enc & Hnum & Henc & _). change (Z.to_nat (SMS_MAX_ADDRESS_LEN_CHARS + 1)) with 21%nat.
  rewrite Hnum. pose proof (u8_range (zlen t)) as Hu8.
  assert (Hq : zlen q = u8 (zlen t)).
  { unfold q. rewrite length_take. pose proof (Z.mod_le (zlen t) (2 ^ 8)). unfold u8 in *. lia. }
  assert (Hsplit : t ++ 0 :: tail = q ++ drop (length q) (t ++ 0 :: tail)).
  { unfold q at 1. rewrite <- (take_drop (length q) (t ++ 0 :: tail)) at 1. f_equal.
    rewrite take_app_le by (unfold q; rewrite length_take; lia). f_equal. lia. }
  pose proof (fit_room q 160) as Hfr. fold f in Hfr.
  pose proof (ascii_to_gsm7bit_correct q (drop (length q) (t ++ 0 :: tail))
    (sms_payload_tmp (s_lib s)) true) as Hconv. cbn zeta in Hconv. fold f in Hconv.
  rewrite <- Hsplit, Hq in Hconv.
  rewrite Hconv by (by apply Forall_take || lia). cstep.
  cbn [g_data g_consumed g_bytes g_chars].
  rewrite <- (length_pack (encode_text f)).
  pose proof (packed_len_bounds (zlen (encode_text f))) as Hpl.
  pose proof (length_pack (encode_text f)) as Hlp.
  set (tmp' := drop (length (pack (encode_text f))) _).
  assert (Hlt' : zlen (pack (encode_text f)) + zlen tmp' = 160).
  { unfold tmp'. rewrite length_drop, length_app, length_drop. lia. }
  set (s1 := set_tmp s _).
  destruct (encode_sca_spec s1) as (s2 & sca & -> & (Hsl & Hsc & Hsm) & Hs2b & Hsca); [done|].
  cstep. exists s2, tmp', enc, sca. split; [by rewrite Hsl|].
  split; [|by rewrite Hsl, Hsc, Hsm]. unfold sub_ok. rewrite Hsl, Hsc, Hsm.
  split; [|done]. change (length (pack (encode_text f) ++ tmp') = 160%nat).
  rewrite length_app. lia.
Qed.

Lemma fit_u8_shorter t :
  160 < zlen (encode_text t) ->
  zlen (fit (take (Z.to_nat (u8 (zlen t))) t) 160) < zlen t.
Proof.
  intros Hl. set (q := take _ t). pose proof (fit_room q 160) as Hr.
  pose proof (length_encode_text (fit q 160)). pose proof (length_encode_text t).
  destruct (Z.lt_ge_cases 160 (zlen t)); [lia|].
  assert (Hq : q = t) by (unfold q; rewrite u8_small, Nat2Z.id by lia; by apply take_ge).
  rewrite Hq in *. destruct (fit_prefix t 160) as [u Hu].
  pose proof (f_equal length Hu) as Hlu. rewrite length_app in Hlu.
  destruct u; [|cbn in Hlu; lia]. rewrite app_nil_r in Hu. rewrite <- Hu in Hr. lia.
Qed.

Lemma submit_short_spec (s : sub) (plus : bool) (ds tailn t tail : list Z)
    (Hnum : number_ok plus ds) (Ht : bytes t) (Hfit : zlen (encode_text t) <= 160)
    (Hok : sub_ok s) :
  let '(trace, sca) := sca_spec (at_trace s) in
  let u := encode_text t in
  let cmd := cmgs sca (submit_tpdu (submit_flags status_report false) 0 ds (zlen u) (pack u)) in
  exists s',
    sms_submit_send status_report s (Some (number_string plus ds ++ 0 :: tailn)) (t ++ 0 :: tail)
      (zlen t) SMS_DATA_TYPE_ASCII = Ok (s', at_printf trace cmd) /\
    at_trace s' = trace ++ [cmd] /\ sub_ok s' /\
    concat_msg_id s' = concat_msg_id s /\ message_ref s' = message_ref s.
Proof.
  pose proof (length_encode_text t) as Hlt.
  destruct (submit_send_text s plus ds tailn t tail) as (s1 & tmp' & enc & sca & Hrun & Hs1 & Henc
    & Hsca & Hid & Href & _); [done..|lia|done|].
  pose proof (sca_spec_facts (at_trace s)) as [Hscan Hscal]. rewrite Hsca in *. cbn [snd] in *.
  cbn zeta in Hrun. rewrite (u8_small (zlen t)), Nat2Z.id, take_ge, fit_all in Hrun by lia.
  rewrite Z.ltb_irrefl in Hrun. rewrite Hrun.
  pose proof (packed_len_bounds (zlen (encode_text t))). pose proof (length_pack (encode_text t)).
  destruct Hnum as (Hds & Hdl & _). destruct Hs1 as (Htmp & Hbuf & Hids & Hrefs).
  destruct (submit_encode_spec s1 ds enc (pack (encode_text t)) tmp' (zlen (encode_text t)) 0
    None None sca (cstr sca)) as (s' & -> & (Hsl & Hsc & Hsm) & Hsb); try (done || cbn; lia).
  - split; change (2 ^ 8) with 256; lia.
  - apply pack_bytes.
  - eexists. split; [done|]. split; [done|]. unfold sub_ok.
    cbn [set_trace s_lib concat_msg_id message_ref sms_buf_tmp]. by rewrite Hsl, Hsc, Hsm.
Qed.

(** A text that fits into one message is sent with one command, after the
    service centre address was looked up. The command carries the SMS-SUBMIT
    PDU of the number and the packed septets of the text, and announces its
    exact length; the result is the answer of the modem. *)
Theorem submit_short_text (s : sub) (plus : bool) (ds tailn t tail : list Z)
    (Hnum : number_ok plus ds) (Ht : bytes t) (Hfit : zlen (encode_text t) <= 160)
    (Hok : sub_ok s) :
  let '(trace, sca) := sca_spec (at_trace s) in
  let u := encode_text t in
  let cmd := cmgs sca (submit_tpdu (submit_flags status_report false) 0 ds (zlen u) (pack u)) in
  exists s',
    sms_submit_send status_report s (Some (number_string plus ds ++ 0 :: tailn)) (t ++ 0 :: tail)
      (zlen t) SMS_DATA_TYPE_ASCII = Ok (s', at_printf trace cmd) /\
    at_trace s' = trace ++ [cmd] /\ sub_ok s' /\
    concat_msg_id s' = concat_msg_id s /\ message_ref s' = message_ref s.
Proof. by apply submit_short_spec. Qed.

Lemma submit_long_spec (s : sub) (plus : bool) (ds tailn t tail : list Z)
    (Hnum : number_ok plus ds) (Ht : bytes t) (Hnz : nonzero t)
    (Hlong : 160 < zlen (encode_text t)) (Hmax : zlen t < 65536)
    (Hparts : zlen (parts t) <= 255) (Hok : sub_ok s) :
  let '(trace, sca) := sca_spec (at_trace s) in
  exists s' err,
    sms_submit_send status_report s (Some (number_string plus ds ++ 0 :: tailn)) (t ++ 0 :: tail)
      (zlen t) SMS_DATA_TYPE_ASCII = Ok (s', err) /\
    send_parts ds sca (concat_msg_id s) (zlen (parts t)) trace (message_ref s) 1 (parts t) =
      (at_trace s', message_ref s', err) /\
    concat_msg_id s' = u8 (concat_msg_id s + 1) /\ sub_ok s'.
Proof.
  destruct (submit_send_text s plus ds tailn t tail) as (s1 & tmp' & enc & sca & Hrun & Hs1 & Henc
    & Hsca & Hid & Href & _); [done..|].
  pose proof (sca_spec_facts (at_trace s)) as [Hscan Hscal]. rewrite Hsca in *. cbn [snd] in *.
  cbn zeta in Hrun. rewrite (proj2 (Z.ltb_lt _ _)) in Hrun by (by apply fit_u8_shorter).
  rewrite Hrun. unfold sms_submit_concat. rewrite !strlen_app by done. cstep.
  rewrite !u16_small, !Nat2Z.id by lia.
  change (replicate (Z.to_nat SMS_MAX_PAYLOAD_LEN_CHARS) 0) with (replicate 7 0 ++ replicate 153 0).
  destruct (concat_count_spec (length t) s1 (t ++ 0 :: tail) enc (zlen ds) (zlen (semi_octets ds))
    sca 0 t [] tail 0 (replicate 153 0) (replicate 13 0)) as (tmp & Hltmp & Hcount);
    try (done || lia); [apply Hs1|].
  cbn [length] in Hcount. rewrite !Z.add_0_l in Hcount. change (Z.of_nat 0) with 0 in Hcount.
  rewrite Hcount. cstep. set (s2 := set_tmp s1 tmp). fold (parts t).
  destruct Hnum as (Hds & Hdl & _).
  destruct (concat_send_spec (length t) s2 ds enc sca (cstr sca) (t ++ 0 :: tail) t [] tail
    (zlen (parts t)) 0 (replicate 153 0) (replicate 13 0)) as (s3 & seq' & err & Hsend & Hparts' &
    Hc3 & _ & Hok3); try (done || lia).
  { destruct Hs1 as (_ & ? & ? & ?). done. }
  { split; change (2 ^ 8) with 256; lia. }
  cbn [length] in Hsend. rewrite !Z.add_0_l in Hsend. change (Z.of_nat 0) with 0 in Hsend.
  rewrite Hsend. cstep. change (concat_msg_id s2) with (concat_msg_id s1) in *.
  change (message_ref s2) with (message_ref s1) in *.
  change (at_trace s2) with (at_trace s1) in *. rewrite Hid, Href in *.
  eexists _, err. split; [done|]. split; [done|]. rewrite Hc3. split; [done|].
  destruct Hok3 as (? & ? & ? & ?). repeat (split; [done|]). split; [|done]. apply u8_range.
Qed.

(** C29: A text that does not fit is sent in parts. The parts are the longest
    prefixes that fit behind a concatenation header, in order; each one is
    announced and sent with its number and the total, until the modem refuses
    one; the loops terminate, and the counters move on. *)
Theorem submit_long_text (s : sub) (plus : bool) (ds tailn t tail : list Z)
    (Hnum : number_ok plus ds) (Ht : bytes t) (Hnz : nonzero t)
    (Hlong : 160 < zlen (encode_text t)) (Hmax : zlen t < 65536)
    (Hparts : zlen (parts t) <= 255) (Hok : sub_ok s) :
  let '(trace, sca) := sca_spec (at_trace s) in
  exists s' err,
    sms_submit_send status_report s (Some (number_string plus ds ++ 0 :: tailn)) (t ++ 0 :: tail)
      (zlen t) SMS_DATA_TYPE_ASCII = Ok (s', err) /\
    send_parts ds sca (concat_msg_id s) (zlen (parts t)) trace (message_ref s) 1 (parts t) =
      (at_trace s', message_ref s', err) /\
    concat_msg_id s' = u8 (concat_msg_id s + 1) /\ sub_ok s'.
Proof. by apply submit_long_spec. Qed.

End Submit.

(** ** Witnesses *)

(** A modem with an ordinary SIM that accepts every command. *)
#[export, refine] Instance modem_accepting : Modem := {|
  at_printf _ _ := 0;
  at_crsm _ cmd := Some (0x90, 0, chars "00000002")
|}.
Proof. intros _ _ sw1 sw2 str [= <- <- <-]. split; [by_compute|by_compute]. Defined.

Definition sub0 : sub :=
  {| s_lib := lib0; sms_buf_tmp := replicate 512 0; concat_msg_id := 1; message_ref := 1;
     at_trace := [] |}.

Lemma sub0_ok : sub_ok sub0.
Proof. split; [done|]. split; [done|]. split; by_compute. Qed.

Lemma submit_short_text_witness :
  exists s',
    sms_submit_send true sub0 (Some (number_string true [1; 2; 3; 4; 5; 6; 7; 8; 9; 0] ++ [0]))
      (chars "Moi" ++ [0]) 3 SMS_DATA_TYPE_ASCII = Ok (s', 0) /\
    at_trace s' = [chars "AT+CRSM=176,28589,0,0,0";
                   chars "AT+CMGS=15" ++ [13] ++ chars "0021000A912143658709000003CD771A" ++ [26]].
Proof.
  destruct (submit_short_text true sub0 true [1; 2; 3; 4; 5; 6; 7; 8; 9; 0] [] (chars "Moi") [])
    as (s' & Hrun & Htrace & _).
  - split; [by_compute|]. split; [by_compute|done].
  - by_compute.
  - by_compute.
  - apply sub0_ok.
  - exists s'. split; [exact Hrun|exact Htrace].
Defined.

(** A text of 200 characters, sent in two parts. *)
Definition long_text : list Z := concat (replicate 20 (chars "Hello [w] ")).

Lemma submit_long_text_witness :
  exists s',
    sms_submit_send true sub0 (Some (number_string false [1; 2; 3; 4; 5] ++ [0]))
      (long_text ++ [0]) 200 SMS_DATA_TYPE_ASCII = Ok (s', 0) /\
    zlen (at_trace s') = 5 /\ concat_msg_id s' = 2 /\ message_ref s' = 3.
Proof.
  destruct (submit_long_text true sub0 false [1; 2; 3; 4; 5] [] long_text [])
    as (s' & err & Hrun & Hparts & Hid & _).
  - split; [by_compute|]. split; [by_compute|done].
  - by_compute.
  - by_compute.
  - by_compute.
  - by_compute.
  - by_compute.
  - apply sub0_ok.
  - destruct (send_parts _ _ _ _ _ _ _ _ _) as [[trace ref] e] eqn:E.
    injection Hparts as Htrace Href Herr. vm_compute in E. injection E as <- <- <-.
    subst err. exists s'. split; [exact Hrun|]. rewrite <- Htrace, <- Href.
    split; [reflexivity|]. split; [exact Hid|reflexivity].
Defined.

(** A type approval SIM without a service centre address. *)
Definition smsp_no_sca : list Z := chars "FFFFFFFF" ++ chars "FF" ++ concat (replicate 27 (chars "FF")).

#[export, refine] Instance modem_type_approval : Modem | 10 := {|
  at_printf _ _ := 0;
  at_crsm _ cmd := if decide (cmd = read_ad) then Some (0x90, 0, chars "80000002")
                   else Some (0x90, 0, smsp_no_sca)
|}.
Proof.
  intros _ cmd sw1 sw2 str. destruct (decide (cmd = read_ad)); intros [= <- <- <-];
    (split; [by_compute|by_compute]).
Defined.

Lemma encode_sca_decision_witness :
  exists s' f,
    sms_submit_encode_sca (HM := modem_type_approval) sub0 (replicate 7 0) = Ok (s', f) /\
    at_trace s' = [read_ad; read_smsp] /\ cstr f = chars "0291F7".
Proof.
  destruct (encode_sca_decision (HM := modem_type_approval) sub0) as (s' & f & Hrun & Hspec & _);
    [reflexivity|].
  vm_compute (sca_spec _) in Hspec. injection Hspec as Htrace Hf.
  exists s', f. split; [exact Hrun|]. split; [exact Htrace|exact Hf].
Defined.

(** ** Inputs outside of the specification *)

(** A plus sign alone is accepted: the check for an empty number comes before
    the sign is skipped. *)
Theorem plus_alone_accepted :
  sms_submit_encode_number [43; 0] 1 (replicate 21 0) = Ok (0, replicate 21 0, 0).
Proof. vm_compute. reflexivity. Qed.

(** The length of the number is kept in eight bits: of 261 digits the first five
    are used. *)
Theorem long_number_truncated :
  exists enc, sms_submit_encode_number (replicate 261 49 ++ [0]) (u8 261) (replicate 21 0) =
    Ok (5, enc, 3).
Proof. eexists. vm_compute. reflexivity. Qed.
