(* ===== verification/SmsRelay.v ===== *)
(** * From the sender to the receiver

    A service centre reads the SMS-SUBMIT PDUs of the commands, and delivers their
    user data with an address and a time of its own. What the encoder of
    sms_submit.c sends, the decoder of sms_deliver.c understands. *)

From stdpp Require Import prelude strings.
From Stdlib Require Import ZArith Lia.
From S2P Require Import Prelude Digits SmsConv SmsParser SmsDeliver SmsDeliverSpec SmsSubmit SmsSubmitSpec.

Open Scope Z_scope.

(** ** The service centre *)

(** What it takes from a PDU: the first octet, and length and octets of the user
    data. *)
Record submitted := { su_flags : Z; su_udl : Z; su_ud : list Z }.

(** What follows the line end of a command. *)
Fixpoint after_cr (cmd : list Z) : option (list Z) :=
  match cmd with
  | [] => None
  | c :: cmd => if c =? 13 then Some cmd else after_cr cmd
  end.

(** The PDU of a command, in hexadecimal before the final control character:
    service centre address, first octet, message reference, destination address,
    protocol identifier, coding scheme (the default alphabet), user data. Other
    commands have none. *)
Definition read_submit (cmd : list Z) : option submitted :=
  pdu ← after_cr cmd;
  octets ← unhex (take (length pdu - 1) pdu);
  n ← head octets;
  match drop (Z.to_nat n + 1) octets with
  | flags :: _ :: digits :: _ :: rest =>
    match drop (Z.to_nat ((digits + 1) / 2)) rest with
    | _ :: dcs :: udl :: ud => if dcs =? 0 then Some {| su_flags := flags; su_udl := udl; su_ud := ud |} else None
    | _ => None
    end
  | _ => None
  end.

(** What it adds to a message it delivers. *)
Record envelope := {
  e_smsc : list Z;
  e_flags : Z;
  e_number : list Z;
  e_toa : Z;
  e_pid : Z;
  e_time : sms_time
}.

Definition envelope_ok (e : envelope) : Prop :=
  bytes (e_smsc e) /\ zlen (e_smsc e) <= 12 /\ byte (e_flags e) /\
  (Forall digit (e_number e) /\ zlen (e_number e) <= 20 /\ byte (e_toa e)) /\ byte (e_pid e) /\ time_ok (e_time e).

(** The SMS-DELIVER PDU: the user data as they were submitted, and whether they
    start with a header. *)
Definition relay_flags (e : envelope) (m : submitted) : Z := Z.lor (Z.land (e_flags e) 0xBF) (Z.land (su_flags m) 0x40).
Definition relay (e : envelope) (m : submitted) : list Z :=
  (zlen (e_smsc e) :: e_smsc e) ++ [relay_flags e m] ++ address_octets (e_number e) (e_toa e) ++ [e_pid e] ++ [0] ++
  scts_octets (e_time e) ++ [su_udl m] ++ su_ud m.

(** ** Reading a command *)

Lemma after_cr_app l rest : Forall (fun c => c <> 13) l -> after_cr (l ++ 13 :: rest) = Some rest.
Proof. induction 1 as [|c l Hc _ IH]; cbn; [done|]. by destruct (Z.eqb_spec c 13). Qed.

Lemma after_cr_none l : Forall (fun c => c <> 13) l -> after_cr l = None.
Proof. induction 1 as [|c l Hc _ IH]; cbn; [done|]. by destruct (Z.eqb_spec c 13). Qed.

Lemma dec_digits_no_cr fuel z : 0 <= z -> Forall (fun c => c <> 13) (dec_digits fuel z).
Proof.
  revert z. induction fuel as [|fuel IH]; intros z Hz; cbn [dec_digits]; [constructor|].
  destruct (Z.ltb_spec z 10); [constructor; [lia|constructor]|].
  apply Forall_app. split; [apply IH, Z.div_pos; lia|].
  constructor; [|constructor]. pose proof (Z.mod_pos_bound z 10). lia.
Qed.

Lemma semi_octets_length ds : zlen (semi_octets ds) = (zlen ds + 1) / 2.
Proof.
  induction ds as [|d|d1 d2 ds IH] using list_ind2; [done|done|]. cbn [semi_octets length].
  replace (Z.of_nat (S (S (length ds))) + 1) with (zlen ds + 1 + 1 * 2) by lia. rewrite Z.div_add by lia. lia.
Qed.

(** The command of the encoder. *)
Lemma read_cmgs sca flags ref ds udl ud :
  bytes sca -> zlen sca < 256 -> byte flags -> byte ref -> Forall digit ds -> zlen ds <= 20 -> byte udl -> bytes ud ->
  read_submit (cmgs (hex_string (zlen sca :: sca)) (submit_tpdu flags ref ds udl ud)) =
    Some {| su_flags := flags; su_udl := udl; su_ud := ud |}.
Proof.
  intros Hs Hsl Hf Hr Hds Hdl Hu Hud. unfold read_submit, cmgs. rewrite app_assoc.
  assert (Hhead : Forall (fun c => c <> 13) (chars "AT+CMGS=" ++ dec (zlen (submit_tpdu flags ref ds udl ud))))
    by (apply Forall_app; split; [by_compute|apply dec_digits_no_cr; lia]).
  change ([13] ++ ?l) with (13 :: l). rewrite (after_cr_app _ _ Hhead). cbn [mbind option_bind].
  rewrite (app_assoc (hex_string _)), <- hex_string_app, length_app, Nat.add_sub, take_app_length.
  assert (Ht : bytes (submit_tpdu flags ref ds udl ud)).
  { unfold submit_tpdu. pose proof (address_octets_bytes ds 0x91 Hds Hdl ltac:(by_compute)).
    repeat first [assumption|apply Forall_app; split|apply Forall_cons; split|apply Forall_nil_2|by_compute]. }
  rewrite unhex_hex_string by (apply Forall_app; split; [constructor; [split; change (2 ^ 8) with 256; lia|done]|done]).
  cbn [mbind option_bind app head]. rewrite Nat2Z.id. change (zlen sca :: sca ++ ?l) with ((zlen sca :: sca) ++ l).
  replace (length sca + 1)%nat with (length (zlen sca :: sca)) by (cbn [length]; lia). rewrite drop_app_length.
  unfold submit_tpdu, address_octets. cbn [app]. rewrite drop_app_length' by (pose proof (semi_octets_length ds); lia). done.
Qed.

(** ** The commands of a long text *)

Section Relay.
Context {HX : Hex2Bin} {HM : Modem} (status_report : bool).

(** What the service centre reads of the parts. *)
Definition part_submitted (mid n : Z) (e : Z * list Z) : submitted :=
  {| su_flags := submit_flags status_report true; su_udl := zlen (part_units mid n e.1 e.2);
     su_ud := pack (part_units mid n e.1 e.2) |}.

Definition numbered_from (k : Z) (ps : list (list Z)) : list (Z * list Z) := imap (fun i p => (k + Z.of_nat i, p)) ps.

Lemma numbered_from_cons k p ps : numbered_from k (p :: ps) = (k, p) :: numbered_from (k + 1) ps.
Proof.
  unfold numbered_from. rewrite imap_cons. f_equal; [by rewrite Z.add_0_r|]. apply imap_ext. intros i x _. cbn. f_equal. lia.
Qed.

Lemma numbered_from_spec k ps :
  (numbered_from k ps).*2 = ps /\ Forall (fun e => k <= e.1 < k + zlen ps /\ e.2 ∈ ps) (numbered_from k ps).
Proof.
  unfold numbered_from. split.
  - rewrite fmap_imap. apply list_eq. intros i. rewrite list_lookup_imap. by destruct (ps !! i).
  - apply Forall_lookup. intros i [j p]. rewrite list_lookup_imap.
    destruct (ps !! i) eqn:E; [|done]. intros [= <- <-]. split; [apply lookup_lt_Some in E; cbn; lia|by eapply list_elem_of_lookup_2].
Qed.

Lemma part_units_length mid n seq p :
  zlen (encode_text p) <= 153 -> zlen (part_units mid n seq p) <= 160.
Proof.
  intros Hp. unfold part_units, fill. rewrite length_app, length_unpack. change (fill_septets (part_header mid n seq)) with 7%nat. lia.
Qed.

(** The commands of the parts that were accepted. *)
Lemma send_parts_read ds sca mid n ps : forall trace ref seq trace' ref' err,
  bytes sca -> zlen sca < 256 -> Forall digit ds -> zlen ds <= 20 -> byte ref ->
  Forall (fun p => zlen (encode_text p) <= 153) ps ->
  send_parts status_report ds (hex_string (zlen sca :: sca)) mid n trace ref seq ps = (trace', ref', err) ->
  exists sent, trace' = trace ++ sent /\ (err = 0 -> omap read_submit sent = part_submitted mid n <$> numbered_from seq ps).
Proof.
  induction ps as [|p ps IH]; intros trace ref seq trace' ref' err Hs Hsl Hds Hdl Hr Hps; cbn [send_parts].
  { intros [= <- <- <-]. exists []. by rewrite app_nil_r. }
  inversion_clear Hps as [|?? Hp Hps']. set (mms := match ps with [] => _ | _ => _ end). set (cmd := part_cmd _ _ _ _ _ _ _ _).
  destruct (Z.eqb_spec (at_printf (trace ++ [mms]) cmd) 0) as [|Hne]; cbn [negb]; intros E.
  2: { injection E as <- <- <-. exists [mms; cmd]. by rewrite <- app_assoc. }
  destruct (IH _ _ _ _ _ _ Hs Hsl Hds Hdl (u8_range _) Hps' E) as (sent & -> & Hsent).
  exists (mms :: cmd :: sent). split; [by rewrite <- !app_assoc|].
  assert (Hm : read_submit mms = None) by (unfold mms; by destruct ps).
  pose proof (part_units_length mid n seq p Hp) as Hul.
  assert (Hc : read_submit cmd = Some (part_submitted mid n (seq, p))).
  { unfold cmd, part_cmd, part_submitted. cbn [fst snd]. apply read_cmgs; try done; [by destruct status_report| |apply pack_bytes].
    split; change (2 ^ 8) with 256; lia. }
  rewrite numbered_from_cons. cbn [omap list_omap]. intros ->. by rewrite Hm, Hc, Hsent.
Qed.

(** The service centre address is in hexadecimal. *)
Lemma sca_octets trace : exists sca, (sca_spec trace).2 = hex_string (zlen sca :: sca) /\ bytes sca /\ zlen sca < 256.
Proof.
  unfold sca_spec. destruct (type_approval _); [destruct (has_sca _)|]; cbn [snd].
  - exists []. by repeat split.
  - exists [0x91; 0xF7]. split; [by_compute|]. split; by_compute.
  - exists []. by repeat split.
Qed.

Lemma sca_trace trace : exists crsm, (sca_spec trace).1 = trace ++ crsm /\ omap read_submit crsm = [].
Proof.
  unfold sca_spec. destruct (type_approval _); cbn [fst]; eexists; (split; [reflexivity|by_compute]).
Qed.

(** ** Receiving *)

(** The message that carries a part in an envelope. *)
Definition part_msg (mid n : Z) (e : envelope) (p : Z * list Z) : deliver_msg :=
  {| m_smsc := e_smsc e; m_flags := relay_flags e (part_submitted mid n p); m_number := e_number e; m_toa := e_toa e; m_pid := e_pid e;
     m_dcs := 0; m_time := e_time e; m_udh := Some [(0x00, [mid; n; p.1])]; m_text := encode_text p.2 |}.

Lemma part_msg_octets mid n e p : deliver_octets (part_msg mid n e p) = relay e (part_submitted mid n p).
Proof. done. Qed.

Lemma relay_flags_header e mid n p : byte (e_flags e) ->
  byte (relay_flags e (part_submitted mid n p)) /\
  ctrue (udhi (header_of_byte (relay_flags e (part_submitted mid n p)))) = true.
Proof.
  intros He. unfold relay_flags. cbn [su_flags part_submitted].
  enough (bool_decide (byte (Z.lor (Z.land (e_flags e) 0xBF) (Z.land (submit_flags status_report true) 0x40)) /\
    ctrue (udhi (header_of_byte (Z.lor (Z.land (e_flags e) 0xBF) (Z.land (submit_flags status_report true) 0x40)))) = true) = true)
    by (by eapply bool_decide_eq_true).
  revert He. generalize (e_flags e). apply byte_check. by destruct status_report; vm_compute.
Qed.

Definition no_escape (mid n seq : Z) : Prop := Forall (fun s => s <> STR_7BIT_ESCAPE_CODE) (fill (part_header mid n seq)).

Lemma part_msg_ok mid n e seq p :
  envelope_ok e -> byte mid -> byte n -> byte seq -> bytes p -> zlen (encode_text p) <= 153 -> no_escape mid n seq ->
  deliver_ok (part_msg mid n e (seq, p)).
Proof.
  intros (Hs & Hsl & Hf & (Hds & Hdl & Hto) & Hpid & Htm) Hmid Hn Hseq Hp Hlen Hne.
  destruct (relay_flags_header e mid n (seq, p) Hf) as [Hfl Hud]. pose proof (part_units_length mid n seq p Hlen) as Hul.
  split; [done|]. split; [done|]. split; [done|]. split; [done|]. split; [by_compute|]. split; [done|].
  assert (Hie : Forall ie_ok [(0x00, [mid; n; seq])]).
  { apply Forall_cons. split; [|apply Forall_nil_2]. split; [by_compute|]. split; [by_compute|].
    repeat (apply Forall_cons; split; [done|]). apply Forall_nil_2. }
  split; [by split|]. split.
  - split; [by apply encode_text_septets|]. split; [exact Hul|]. split; [cbn; lia|exact Hne].
  - rewrite part_msg_octets. unfold relay, address_octets. cbn [su_udl su_ud part_submitted fst snd].
    rewrite !length_app. cbn [length scts_octets]. pose proof (semi_octets_length (e_number e)) as Hso.
    pose proof (length_pack (part_units mid n seq p)) as Hlp. pose proof (packed_len_bounds (zlen (part_units mid n seq p))) as Hpl.
    assert ((zlen (e_number e) + 1) / 2 < 11) by (apply Z.div_lt_upper_bound; lia).
    rewrite ?length_app. cbn [length]. lia.
Qed.

(** The part a header tells of. *)
Definition part_of (mid n seq : Z) : sms_udh_concat :=
  {| concat_present := true; ref_number := mid; total_msgs := n; seq_number := seq |}.

Lemma receive_part mid n seq p e g data :
  envelope_ok e -> byte mid -> byte n -> 1 <= seq <= n -> bytes p -> Forall (fun c => representable c = true) p ->
  zlen (encode_text p) <= 153 -> no_escape mid n seq ->
  length (sms_payload_tmp g) = 160%nat -> length (sms_payload data) = 161%nat ->
  exists g' d,
    sms_deliver_pdu_parse true g (hex_string (relay e (part_submitted mid n (seq, p)))) data = Ok (g', d, None) /\
    text_of d = p /\ concatenated (sms_header d) = part_of mid n seq.
Proof.
  intros He Hmid Hn Hseq Hb Hrep Hlen Hne Htmp Hdata.
  assert (Hsb : byte seq) by (unfold byte in *; lia).
  pose proof (part_msg_ok mid n e seq p He Hmid Hn Hsb Hb Hlen Hne) as Hok.
  destruct (deliver_parse_spec _ g data Hok Htmp Hdata) as (g' & a & Hrun & _). rewrite part_msg_octets in Hrun.
  eexists g', _. split; [exact Hrun|]. cbn [sms_header concatenated]. 
  assert (Htext : msg_text (part_msg mid n e (seq, p)) = p) by (by apply decode_encode_text). split.
  - unfold text_of. cbn [payload_len sms_payload]. rewrite Htext, Nat2Z.id. apply take_app_length.
  - unfold udh_concat_of, part_of. cbn [m_udh part_msg fst default from_option id foldl ie_concat].
    destruct (Z.leb_spec 1 n), (Z.leb_spec 1 seq), (Z.leb_spec seq n); (lia || done).
Qed.

(** Receiving all parts. *)
Lemma receive_parts mid n l es g data :
  Forall envelope_ok es -> length es = length l -> byte mid -> byte n ->
  Forall (fun e => 1 <= e.1 <= n /\ bytes e.2 /\ Forall (fun c => representable c = true) e.2 /\
                   zlen (encode_text e.2) <= 153 /\ no_escape mid n e.1) l ->
  length (sms_payload_tmp g) = 160%nat -> length (sms_payload data) = 161%nat ->
  exists received : list sms_data,
    Forall2 (fun o d => exists g', sms_deliver_pdu_parse true g (hex_string o) data = Ok (g', d, None))
      (zip_with relay es (part_submitted mid n <$> l)) received /\
    concat (text_of <$> received) = concat l.*2 /\
    (concatenated ∘ sms_header) <$> received = part_of mid n <$> l.*1.
Proof.
  intros Hes Hlen Hmid Hn Hl Htmp Hdata. revert l Hlen Hl. induction Hes as [|e es He _ IH]; intros [|[seq p] l] Hlen Hl; try done.
  { by exists []. }
  apply Forall_cons in Hl as [(Hseq & Hp & Hrp & Hpl & Hne) Hl']. cbn [fst snd] in *.
  destruct (receive_part mid n seq p e g data) as (g' & d & Hrun & Htext & Hc); [done..|].
  destruct (IH l) as (ds & Hds & Hcat & Hconc); [by injection Hlen|done|].
  exists (d :: ds). split; [constructor; [by exists g'|done]|]. split.
  - cbn [fmap list_fmap concat]. by rewrite Htext, Hcat.
  - cbn [fmap list_fmap compose] in *. by rewrite Hc, Hconc.
Qed.

(** Printable characters, which the alphabet of the messages has. *)
Definition printable (c : Z) : Prop := (0x20 <= c <= 0x7E \/ c = 10 \/ c = 13) /\ c <> 0x60.

Lemma printable_text t : Forall printable t -> bytes t /\ nonzero t /\ Forall (fun c => representable c = true) t.
Proof.
  intros Ht. split; [|split]; (eapply Forall_impl; [exact Ht|]); intros c [Hc Hq].
  - split; change (2 ^ 8) with 256; lia.
  - lia.
  - by apply printable_representable.
Qed.

(** The headers of a text of two to eight parts have no escape. *)
Lemma few_parts_no_escape mid n seq : byte mid -> 1 <= seq <= n -> 2 <= n <= 8 -> no_escape mid n seq.
Proof.
  intros Hmid Hseq Hn. unfold no_escape.
  enough (forallb (fun n => forallb (fun seq => bool_decide (Forall (fun s => s <> STR_7BIT_ESCAPE_CODE) (fill (part_header mid n seq))))
    (seqZ 1 8)) (seqZ 2 7) = true) as H.
  { apply (range_check _ 2 7) with (c := n) in H; [|lia]. apply (range_check _ 1 8) with (c := seq) in H; [|lia].
    by eapply bool_decide_eq_true. }
  revert mid Hmid. apply byte_check. by vm_compute.
Qed.

(** C3: From the text to the text. When a long text of printable characters is
    sent and the modem accepts the commands, a service centre that reads the
    commands and delivers the user data in envelopes of its own, in order, makes
    the receiver decode each of them: every message has its number and the total,
    and the decoded texts in order make up the text. The headers of the parts must
    not have the escape code among their septets, which the decoder would take for
    a part of the text; texts of at most eight parts have no such headers
    ([few_parts_no_escape]). *)
Theorem submit_deliver_round_trip (s : sub) (plus : bool) (ds tailn t tail : list Z)
    (Hnum : number_ok plus ds) (Ht : Forall printable t)
    (Hlong : 160 < zlen (encode_text t)) (Hmax : zlen t < 65536)
    (Hparts : zlen (parts t) <= 255) (Hok : sub_ok s)
    (Hesc : forall seq, 1 <= seq <= zlen (parts t) -> no_escape (concat_msg_id s) (zlen (parts t)) seq) :
  exists s' err sent,
    sms_submit_send status_report s (Some (number_string plus ds ++ 0 :: tailn)) (t ++ 0 :: tail)
      (zlen t) SMS_DATA_TYPE_ASCII = Ok (s', err) /\
    at_trace s' = at_trace s ++ sent /\
    (err = 0 -> forall es g data,
      length es = length (omap read_submit sent) -> Forall envelope_ok es ->
      length (sms_payload_tmp g) = 160%nat -> length (sms_payload data) = 161%nat ->
      exists received : list sms_data,
        Forall2 (fun o d => exists g', sms_deliver_pdu_parse true g (hex_string o) data = Ok (g', d, None))
          (zip_with relay es (omap read_submit sent)) received /\
        concat (text_of <$> received) = t /\
        (concatenated ∘ sms_header) <$> received =
          part_of (concat_msg_id s) (zlen (parts t)) <$> seqZ 1 (zlen (parts t))).
Proof.
  destruct (printable_text t Ht) as (Hb & Hnz & Hrep). pose proof Hok as (_ & _ & Hmid & Href).
  pose proof (submit_long_spec status_report s plus ds tailn t tail Hnum Hb Hnz Hlong Hmax Hparts Hok) as H.
  destruct (sca_trace (at_trace s)) as (crsm & Ec & Hcrsm), (sca_octets (at_trace s)) as (sca & Es & Hsb & Hsl).
  destruct (sca_spec (at_trace s)) as [trace f]. cbn [fst snd] in *. subst trace f.
  destruct H as (s' & err & Hrun & Hsend & _). destruct Hnum as (Hds & Hdl & _).
  destruct (split_text_spec (length t) t) as [Hjoin Hall]; [lia|]. fold (parts t) in *.
  destruct (send_parts_read _ _ _ _ _ _ _ _ _ _ _ Hsb Hsl Hds Hdl Href (Forall_impl _ _ _ Hall (fun p Hp => proj2 Hp)) Hsend)
    as (sent & Htrace & Hsent).
  exists s', err, (crsm ++ sent). split; [done|]. split; [by rewrite Htrace, <- app_assoc|].
  intros -> es g data Hle Hes Htmp Hdata. rewrite omap_app, Hcrsm, Hsent in * by done. cbn [app] in *. rewrite length_fmap in Hle.
  destruct (numbered_from_spec 1 (parts t)) as [Hsnd Hrange].
  destruct (receive_parts (concat_msg_id s) (zlen (parts t)) (numbered_from 1 (parts t)) es g data) as (rcv & H1 & H2 & H3);
    [done|done|done|split; change (2 ^ 8) with 256; lia| |done|done|].
  - eapply Forall_impl; [exact Hrange|]. intros [k p] [Hk Hp]. cbn [fst snd] in *. split; [lia|].
    assert (Hin : forall P, Forall P t -> Forall P p).
    { intros P HP. rewrite <- Hjoin in HP. apply Forall_concat in HP. rewrite Forall_forall in HP. by apply HP. }
    split; [by apply Hin|]. split; [by apply Hin|]. rewrite Forall_forall in Hall. split; [by apply Hall|]. apply Hesc. lia.
  - exists rcv. split; [done|]. split; [by rewrite H2, Hsnd|]. rewrite H3. f_equal. apply list_eq. intros i.
    rewrite list_lookup_fmap. unfold numbered_from. rewrite list_lookup_imap.
    destruct (decide (i < length (parts t))%nat) as [Hi|Hi].
    + rewrite lookup_seqZ_lt by lia. destruct (lookup_lt_is_Some_2 _ _ Hi) as [p ->]. cbn. done.
    + rewrite lookup_seqZ_ge by lia. rewrite (lookup_ge_None_2 (parts t)) by lia. done.
Qed.
End Relay.

(** ** An example *)

(** Two parts, delivered from different numbers of the same sender. *)
Definition envelopes : list envelope :=
  [{| e_smsc := []; e_flags := 0x04; e_number := [1; 2; 3; 4; 5]; e_toa := 0x91; e_pid := 0; e_time := time_zero |};
   {| e_smsc := [0x91; 0x21; 0x43]; e_flags := 0x00; e_number := [1; 2; 3; 4; 5; 6]; e_toa := 0x81; e_pid := 0; e_time := time_zero |}].

Lemma envelopes_ok : Forall envelope_ok envelopes.
Proof. repeat (apply Forall_cons; split; [repeat split; by_compute|]). apply Forall_nil_2. Qed.

Lemma submit_deliver_round_trip_witness :
  exists s' sent received,
    sms_submit_send true sub0 (Some (number_string false [1; 2; 3; 4; 5] ++ [0])) (long_text ++ [0]) 200 SMS_DATA_TYPE_ASCII = Ok (s', 0) /\
    at_trace s' = sent /\
    Forall2 (fun o d => exists g', sms_deliver_pdu_parse true lib0 (hex_string o) data0 = Ok (g', d, None))
      (zip_with relay envelopes (omap read_submit sent)) received /\
    concat (text_of <$> received) = long_text /\ (concatenated ∘ sms_header) <$> received = [part_of 1 2 1; part_of 1 2 2].
Proof.
  destruct (submit_deliver_round_trip true sub0 false [1; 2; 3; 4; 5] [] long_text []) as (s' & err & sent & Hrun & Htr & H).
  - split; [by_compute|]. split; [by_compute|done].
  - by_compute.
  - by_compute.
  - by_compute.
  - by_compute.
  - apply sub0_ok.
  - intros seq Hseq. apply few_parts_no_escape; [by_compute|exact Hseq|by_compute].
  - assert (Hs : exists x, sms_submit_send true sub0 (Some (number_string false [1; 2; 3; 4; 5] ++ [0])) (long_text ++ [0]) 200
      SMS_DATA_TYPE_ASCII = Ok (x, 0) /\ length (omap read_submit (at_trace x)) = 2%nat) by (eexists; split; vm_compute; reflexivity).
    destruct Hs as (x & Hx & Hl). change (zlen long_text) with 200 in Hrun. rewrite Hx in Hrun. injection Hrun as <- <-. cbn [app at_trace sub0] in Htr.
    destruct (H eq_refl envelopes lib0 data0) as (rcv & H1 & H2 & H3); [by rewrite <- Htr, Hl|exact envelopes_ok|done|done|].
    exists x, sent, rcv. split; [exact Hx|]. split; [exact Htr|]. split; [exact H1|]. split; [exact H2|exact H3].
Defined.
