(* ===== verification/SmsCore.v ===== *)
(** * The SMS client: sms.c

    Listeners register with the library, the library registers with the modem,
    notifications of the modem are parsed in interrupt context and handed to the
    listeners by work items. *)

From stdpp Require Import prelude strings.
From Stdlib Require Import ZArith Lia.
From S2P Require Import Prelude Digits SmsConv SmsParser SmsDeliver SmsDeliverSpec SmsDeliverSafe.
From S2P Require Import SmsSubmit SmsSubmitSpec.

Open Scope Z_scope.

Definition AT_SMS_SUBSCRIBER_READ : list Z := chars "AT+CNMI?".
Definition AT_SMS_SUBSCRIBER_UNREGISTER : list Z := chars "AT+CNMI=0,0,0,0".
Definition AT_SMS_PDU_ACK : list Z := chars "AT+CNMA=1".
Definition AT_SMS_UNREGISTERED_NTF : list Z := chars "+CMS ERROR: 524".
Definition MODEM_CFUN_NORMAL : Z := 1.
Definition MODEM_CFUN_ACTIVATE_LTE : Z := 21.
Definition NRF_EINPROGRESS : Z := 115.

(** ** The part of [sscanf] and [strstr] that is used *)

Definition is_space (c : Z) : bool := (c =? 32) || ((9 <=? c) && (c <=? 13)).
Definition is_digit (c : Z) : bool := (48 <=? c) && (c <=? 57).

Fixpoint skip_while (P : Z -> bool) (s : list Z) : list Z :=
  match s with c :: s' => if P c then skip_while P s' else s | [] => [] end.
Fixpoint take_while (P : Z -> bool) (s : list Z) : list Z :=
  match s with c :: s' => if P c then c :: take_while P s' else [] | [] => [] end.

(** Characters of the format that stand for themselves. *)
Fixpoint scan_literal (l s : list Z) : option (list Z) :=
  match l, s with
  | [], _ => Some s
  | c :: l, d :: s => if c =? d then scan_literal l s else None
  | _ :: _, [] => None
  end.

(** [%u]: whether the number is zero, and what is left. *)
Definition scan_u (s : list Z) : option (bool * list Z) :=
  let s := skip_while is_space s in
  let s := match s with c :: s' => if (c =? 43) || (c =? 45) then s' else s | [] => s end in
  match take_while is_digit s with
  | [] => None
  | ds => Some (forallb (fun c => c =? 48) ds, skip_while is_digit s)
  end.

(** ["+CNMI: %u,%u,%u,%u"]: the values that were read, as "is zero". *)
Definition scan_cnmi (s : list Z) : list bool :=
  match scan_literal (chars "+CNMI:") s with
  | None => []
  | Some s =>
    match scan_u s with
    | None => []
    | Some (z1, s) =>
      match scan_literal (chars ",") s ≫= scan_u with
      | None => [z1]
      | Some (z2, s) =>
        match scan_literal (chars ",") s ≫= scan_u with
        | None => [z1; z2]
        | Some (z3, s) =>
          match scan_literal (chars ",") s ≫= scan_u with
          | None => [z1; z2; z3]
          | Some (z4, _) => [z1; z2; z3; z4]
          end
        end
      end
    end
  end.

(** ["+CMT: %*[^,],%*u\r\n%512s\r\n"]: the string, if it is matched. *)
Definition scan_cmt (s : list Z) : option (list Z) :=
  s ← scan_literal (chars "+CMT:") s;
  let s := skip_while is_space s in
  s ← match take_while (fun c => negb (c =? 44)) s with
      | [] => None
      | _ => Some (skip_while (fun c => negb (c =? 44)) s)
      end;
  s ← scan_literal (chars ",") s;
  s ← snd <$> scan_u s;
  let s := skip_while is_space s in
  match take 512 (take_while (fun c => negb (is_space c)) s) with
  | [] => None
  | pdu => Some pdu
  end.

(** [strstr(s, l) != NULL] *)
Fixpoint strstr (s l : list Z) : bool :=
  match scan_literal l s with
  | Some _ => true
  | None => match s with [] => false | _ :: s => strstr s l end
  end.

(** ** State *)

(** Pointers are integers here, and 0 is [NULL]. *)
Record sms_subscriber := { ctx : Z; listener : Z }.

Record sms := {
  sms_sub : sub;                 (* buffers and counters shared with sms_submit.c *)
  sms_data_info : sms_data;
  sms_client_registered : bool;
  subscribers : list sms_subscriber;
  monitors : bool;               (* the AT monitors are not paused *)
  ack_pending : bool;            (* work items in a queue *)
  notify_pending : bool;
  reregister_pending : bool;
  notified : list (Z * Z * sms_data)   (* calls of listeners, with their context *)
}.

Definition set_sub (s : sms) (x : sub) : sms :=
  {| sms_sub := x; sms_data_info := sms_data_info s;
     sms_client_registered := sms_client_registered s; subscribers := subscribers s;
     monitors := monitors s; ack_pending := ack_pending s; notify_pending := notify_pending s;
     reregister_pending := reregister_pending s; notified := notified s |}.
Definition set_data_info (s : sms) (x : sms_data) : sms :=
  {| sms_sub := sms_sub s; sms_data_info := x;
     sms_client_registered := sms_client_registered s; subscribers := subscribers s;
     monitors := monitors s; ack_pending := ack_pending s; notify_pending := notify_pending s;
     reregister_pending := reregister_pending s; notified := notified s |}.
Definition set_registered (s : sms) (x : bool) : sms :=
  {| sms_sub := sms_sub s; sms_data_info := sms_data_info s;
     sms_client_registered := x; subscribers := subscribers s;
     monitors := monitors s; ack_pending := ack_pending s; notify_pending := notify_pending s;
     reregister_pending := reregister_pending s; notified := notified s |}.
Definition set_subscribers (s : sms) (x : list sms_subscriber) : sms :=
  {| sms_sub := sms_sub s; sms_data_info := sms_data_info s;
     sms_client_registered := sms_client_registered s; subscribers := x;
     monitors := monitors s; ack_pending := ack_pending s; notify_pending := notify_pending s;
     reregister_pending := reregister_pending s; notified := notified s |}.
Definition set_monitors (s : sms) (x : bool) : sms :=
  {| sms_sub := sms_sub s; sms_data_info := sms_data_info s;
     sms_client_registered := sms_client_registered s; subscribers := subscribers s;
     monitors := x; ack_pending := ack_pending s; notify_pending := notify_pending s;
     reregister_pending := reregister_pending s; notified := notified s |}.
Definition set_pending (s : sms) (a n r : bool) : sms :=
  {| sms_sub := sms_sub s; sms_data_info := sms_data_info s;
     sms_client_registered := sms_client_registered s; subscribers := subscribers s;
     monitors := monitors s; ack_pending := a; notify_pending := n;
     reregister_pending := r; notified := notified s |}.
Definition set_notified (s : sms) (x : list (Z * Z * sms_data)) : sms :=
  {| sms_sub := sms_sub s; sms_data_info := sms_data_info s;
     sms_client_registered := sms_client_registered s; subscribers := subscribers s;
     monitors := monitors s; ack_pending := ack_pending s; notify_pending := notify_pending s;
     reregister_pending := reregister_pending s; notified := x |}.

(** [memset(&sms_data_info, 0, sizeof(struct sms_data))], and the type. *)
Definition data_cleared (type : sms_type) : sms_data :=
  {| sms_data_type := type; sms_header := deliver_header_zero; payload_len := 0;
     sms_payload := replicate 161 0 |}.
Definition subscriber_zero : sms_subscriber := {| ctx := 0; listener := 0 |}.

(** What else the code calls: [nrf_modem_at_cmd], which answers with a result
    and a string that fits into the buffer; [nrf_modem_at_cmd_async]; and the
    allocator. *)
Class ModemCmd := {
  at_cmd : list (list Z) -> list Z -> Z * list Z;
  at_cmd_async : list (list Z) -> list Z -> Z;
  calloc_ok : list (list Z) -> bool;
  at_cmd_string history cmd :
    zlen (at_cmd history cmd).2 < 512 /\ Forall (fun c => c <> 0) (at_cmd history cmd).2
}.

Section Core.
  Context {HX : Hex2Bin} {HM : Modem} {HC : ModemCmd}.
  (** CONFIG_SMS_STATUS_REPORT *)
  Variable status_report : bool.

Definition AT_SMS_SUBSCRIBER_REGISTER : list Z :=
  if status_report then chars "AT+CNMI=3,2,0,1" else chars "AT+CNMI=3,2,0,0".

Definition at_printf_cmd (s : sms) (cmd : list Z) : sms * Z :=
  let '(x, ret) := at_send (sms_sub s) cmd in (set_sub s x, ret).

(** ** Work items *)

(** The work item leaves its queue when its handler starts. *)
Definition sms_ack (s : sms) : sms :=
  let trace := at_trace (sms_sub s) in
  let ret := at_cmd_async trace AT_SMS_PDU_ACK in
  let s := set_sub s (set_trace (sms_sub s) (trace ++ [AT_SMS_PDU_ACK])) in
  set_pending s (ret =? - NRF_EINPROGRESS) (notify_pending s) (reregister_pending s).

Definition sms_notify (s : sms) : sms :=
  let s := set_pending s (ack_pending s) false (reregister_pending s) in
  set_notified s (notified s ++
    ((fun x => (listener x, ctx x, sms_data_info s)) <$>
      filter (fun x => listener x <> 0) (subscribers s))).

Definition sms_reregister (s : sms) : sms :=
  let s := set_pending s (ack_pending s) (notify_pending s) false in
  let '(s, err) := at_printf_cmd s AT_SMS_SUBSCRIBER_REGISTER in
  if negb (err =? 0) then
    set_registered (set_subscribers (set_monitors s false)
      ((fun _ => subscriber_zero) <$> subscribers s)) false
  else s.

(** ** Notifications *)

Definition sms_at_cmd_handler_cmt (s : sms) (at_notif : list Z) : res sms :=
  let s := set_pending s true (notify_pending s) (reregister_pending s) in
  match scan_cmt at_notif with
  | None => Ok s
  | Some pdu =>
    let x := sms_sub s in
    let* b := wr_block (sms_buf_tmp x) 0 (pdu ++ [0]) in
    let x := set_buf_tmp x b in
    let* '(g, d, err) := sms_deliver_pdu_parse (calloc_ok (at_trace x)) (s_lib x) (cstr b)
      (data_cleared SMS_TYPE_DELIVER) in
    let s := set_data_info (set_sub s (set_lib x g)) d in
    match err with
    | Some _ => Ok s
    | None => Ok (set_pending s (ack_pending s) true (reregister_pending s))
    end
  end.

Definition sms_at_cmd_handler_cds (s : sms) : sms :=
  set_pending (set_data_info s (data_cleared SMS_TYPE_STATUS_REPORT)) true true
    (reregister_pending s).

Definition sms_at_cmd_handler_cms (s : sms) (at_notif : list Z) : sms :=
  if strstr at_notif AT_SMS_UNREGISTERED_NTF
  then set_pending s (ack_pending s) (notify_pending s) true else s.

(** ** Registration *)

(** [k_work_init] may only be called when the work item is idle. *)
Definition sms_init (s : sms) : res (sms * Z) :=
  if ack_pending s || notify_pending s || reregister_pending s then Fault else
  let x := sms_sub s in
  let '(ret, resp) := at_cmd (at_trace x) AT_SMS_SUBSCRIBER_READ in
  let x := set_trace x (at_trace x ++ [AT_SMS_SUBSCRIBER_READ]) in
  let* b := wr_block (sms_buf_tmp x) 0 (resp ++ [0]) in
  let s := set_sub s (set_buf_tmp x b) in
  if negb (ret =? 0) then Ok (s, ret) else
  match scan_cnmi (cstr b) with
  | [z1; z2; z3; z4] =>
    if negb (z1 && z2 && z3 && z4) then
      if sms_client_registered s then Ok (s, 0) else Ok (s, - errno_num EBUSY)
    else
      let s := set_monitors s true in
      let '(s, ret) := at_printf_cmd s AT_SMS_SUBSCRIBER_REGISTER in
      if negb (ret =? 0) then Ok (set_monitors s false, ret)
      else Ok (set_registered s true, 0)
  | _ => Ok (s, - errno_num EBADMSG)
  end.

Definition occupied (x : sms_subscriber) : bool := negb (ctx x =? 0) || negb (listener x =? 0).

Definition sms_subscriber_count (s : sms) : Z :=
  Z.of_nat (length (filter (fun x => occupied x = true) (subscribers s))).

(** The search for a free slot, from slot [i]. *)
Fixpoint find_slot (l : list sms_subscriber) (i : nat) : option nat :=
  match l with
  | [] => None
  | x :: l => if occupied x then find_slot l (S i) else Some i
  end.

Definition sms_register_listener (s : sms) (listener context : Z) : res (sms * Z) :=
  if listener =? 0 then Ok (s, - errno_num EINVAL) else
  let* '(s, err) := if sms_client_registered s then Ok (s, 0) else sms_init s in
  if negb (err =? 0) then Ok (s, err) else
  match find_slot (subscribers s) 0 with
  | Some i =>
    Ok (set_subscribers s (<[i := {| ctx := context; listener := listener |}]> (subscribers s)),
        Z.of_nat i)
  | None => Ok (s, - errno_num ENOSPC)
  end.

Definition sms_uninit (s : sms) : sms :=
  if negb (sms_client_registered s) then s
  else if 0 <? sms_subscriber_count s then s
  else
    let '(s, ret) := at_printf_cmd s AT_SMS_SUBSCRIBER_UNREGISTER in
    if ret <? 0 then s else set_registered (set_monitors s false) false.

Definition sms_unregister_listener (s : sms) (handle : Z) : sms :=
  if (handle <? 0) || (Z.of_nat (length (subscribers s)) <=? handle) then s
  else sms_uninit (set_subscribers s (<[Z.to_nat handle := subscriber_zero]> (subscribers s))).

(** ** Sending, and changes of the functional mode *)

Definition sms_send (s : sms) (number data : option (list Z)) (data_len : Z)
    (type : sms_data_kind) : res (sms * Z) :=
  match data with
  | None => Ok (s, - errno_num EINVAL)
  | Some data =>
    let* '(x, err) := sms_submit_send status_report (sms_sub s) number data data_len type in
    Ok (set_sub s x, err)
  end.

Definition sms_send_text (s : sms) (number text : option (list Z)) : res (sms * Z) :=
  match text with
  | None => Ok (s, - errno_num EINVAL)
  | Some t =>
    let* n := strlen t in
    sms_send s number text (u16 n) SMS_DATA_TYPE_ASCII
  end.

Definition sms_on_cfun (s : sms) (mode : Z) : res sms :=
  if sms_client_registered s &&
     ((mode =? MODEM_CFUN_NORMAL) || (mode =? MODEM_CFUN_ACTIVATE_LTE)) then
    let* '(s, err) := sms_init s in
    Ok (if negb (err =? 0) then set_registered s false else s)
  else Ok s.

End Core.
