(* ===== verification/SmsCoreSpec.v ===== *)
(** * Properties of the SMS client

    Parsing of notifications, delivery of messages to listeners, registration,
    and the invariant of the client under any sequence of events. *)

From stdpp Require Import prelude strings.
From Stdlib Require Import ZArith Lia.
From S2P Require Import Prelude Digits SmsConv SmsParser SmsDeliver SmsDeliverSpec SmsDeliverSafe.
From S2P Require Import SmsSubmit SmsSubmitSpec SmsCore.

Open Scope Z_scope.

(** ** Notifications *)

Lemma skip_while_app P l c s :
  Forall (fun x => P x = true) l -> P c = false -> skip_while P (l ++ c :: s) = c :: s.
Proof.
  intros Hl Hc. induction Hl as [|x l Hx _ IH]; cbn; [by rewrite Hc|by rewrite Hx].
Qed.

Lemma take_while_app P l c s :
  Forall (fun x => P x = true) l -> P c = false -> take_while P (l ++ c :: s) = l.
Proof.
  intros Hl Hc. induction Hl as [|x l Hx _ IH]; cbn; [by rewrite Hc|by rewrite Hx, IH].
Qed.

Lemma scan_literal_app l s : scan_literal l (l ++ s) = Some s.
Proof. induction l as [|c l IH]; [done|]. cbn. by rewrite Z.eqb_refl. Qed.

(** A notification as 3GPP TS 27.005 section 3.4.1 describes it: the name of the
    sender in quotes, the length, and the PDU on a line of its own. *)
Definition cmt_notification (alpha len pdu : list Z) : list Z :=
  chars "+CMT: " ++ (34 :: alpha ++ [34]) ++ chars "," ++ len ++ [13; 10] ++ pdu ++ [13; 10].

Definition no_comma (c : Z) : bool := negb (c =? 44).
Definition no_space (c : Z) : bool := negb (is_space c).

Lemma take_while_digits_cons d ds s :
  Forall (fun c => is_digit c = true) (d :: ds) ->
  take_while is_digit ((d :: ds) ++ 13 :: s) = d :: ds /\
  skip_while is_digit ((d :: ds) ++ 13 :: s) = 13 :: s.
Proof. intros H. by rewrite take_while_app, skip_while_app. Qed.

Lemma scan_u_digits ds s :
  ds <> [] -> Forall (fun c => is_digit c = true) ds ->
  snd <$> scan_u (ds ++ 13 :: s) = Some (13 :: s).
Proof.
  intros Hne Hds. destruct ds as [|d ds]; [done|]. unfold scan_u.
  assert (Hd : is_digit d = true) by (by inversion Hds). unfold is_digit in Hd.
  assert (Hs : is_space d = false) by (unfold is_space; lia).
  replace (skip_while is_space ((d :: ds) ++ 13 :: s)) with ((d :: ds) ++ 13 :: s)
    by (cbn; by rewrite Hs).
  replace (match (d :: ds) ++ 13 :: s with c :: s' => _ | [] => _ end) with ((d :: ds) ++ 13 :: s).
  2: { cbn. destruct (Z.eqb_spec d 43), (Z.eqb_spec d 45); (lia || done). }
  destruct (take_while_digits_cons d ds s Hds) as [-> ->]. done.
Qed.

Lemma scan_cmt_notification alpha len pdu :
  Forall (fun c => no_comma c = true) alpha ->
  len <> [] -> Forall (fun c => is_digit c = true) len ->
  pdu <> [] -> zlen pdu <= 512 -> Forall (fun c => no_space c = true) pdu ->
  scan_cmt (cmt_notification alpha len pdu) = Some pdu.
Proof.
  intros Ha Hlne Hl Hpne Hp512 Hp. unfold scan_cmt, cmt_notification.
  change (chars "+CMT: ") with (chars "+CMT:" ++ [32]). rewrite <- app_assoc, scan_literal_app.
  cbn [mbind option_bind].
  replace (skip_while is_space _) with ((34 :: alpha ++ [34]) ++ 44 :: len ++ [13; 10] ++ pdu ++ [13; 10])
    by done.
  assert (Hq : Forall (fun c => no_comma c = true) (34 :: alpha ++ [34]))
    by (constructor; [done|]; apply Forall_app; split; [done|by constructor]).
  fold no_comma. rewrite (take_while_app no_comma), (skip_while_app no_comma) by done.
  cbn [mbind option_bind app].
  replace (scan_literal (chars ",") (44 :: _)) with (Some (len ++ [13; 10] ++ pdu ++ [13; 10]))
    by done.
  cbn [mbind option_bind app]. rewrite scan_u_digits by done. cbn [mbind option_bind].
  destruct pdu as [|c pdu]; [done|]. assert (Hc : is_space c = false).
  { inversion Hp as [|?? H _]. unfold no_space in H. by destruct (is_space c). }
  replace (skip_while is_space _) with ((c :: pdu) ++ [13; 10]) by (cbn; by rewrite Hc).
  fold no_space. rewrite (take_while_app no_space), take_ge by (done || lia). done.
Qed.

(** The PDU in it is hexadecimal, without a space. *)
Lemma hex_string_no_space bs : bytes bs -> Forall (fun c => no_space c = true) (hex_string bs).
Proof.
  induction 1 as [|b bs Hb _ IH]; [constructor|].
  change (hex_string (b :: bs)) with (hex2 b ++ hex_string bs). apply Forall_app. split; [|done].
  enough (bool_decide (Forall (fun c => no_space c = true) (hex2 b)) = true)
    by (by eapply bool_decide_eq_true).
  clear -Hb. revert b Hb. apply byte_check. vm_compute. done.
Qed.

Lemma scan_cmt_pdu alpha len m :
  Forall (fun c => no_comma c = true) alpha ->
  len <> [] /\ Forall (fun c => is_digit c = true) len -> deliver_ok m ->
  scan_cmt (cmt_notification alpha len (hex_string (deliver_octets m))) =
    Some (hex_string (deliver_octets m)).
Proof.
  intros Ha [Hne Hl] Hm. pose proof (length_hex_string (deliver_octets m)) as Hlh.
  assert (Hlen : zlen (deliver_octets m) <= 179) by apply Hm.
  apply scan_cmt_notification; try done; [lia|by apply hex_string_no_space, deliver_octets_bytes].
Qed.

(** ** The client *)

(** A structure that holds a message. *)
Definition holds (m : deliver_msg) (d : sms_data) : Prop :=
  sms_data_type d = SMS_TYPE_DELIVER /\ text_of d = msg_text m /\
  time (sms_header d) = m_time m /\
  address_is (m_number m) (m_toa m) (originating_address (sms_header d)) /\
  app_port (sms_header d) = udh_app_port_of (m_udh m) /\
  concatenated (sms_header d) = udh_concat_of (m_udh m).

Section Core.
  Context {HX : Hex2Bin} {HM : Modem} {HC : ModemCmd}.
  Variable status_report : bool.

Definition idle (s : sms) : Prop :=
  ack_pending s || notify_pending s || reregister_pending s = false.

(** The invariant: buffers and counters have their sizes, and the notifications
    of the modem are not paused while the client is registered. *)
Definition sms_ok (s : sms) : Prop :=
  sub_ok (sms_sub s) /\ length (sms_payload (sms_data_info s)) = 161%nat /\
  (sms_client_registered s = true -> monitors s = true).

Lemma cmt_handler_spec s notif m :
  sms_ok s -> scan_cmt notif = Some (hex_string (deliver_octets m)) -> deliver_ok m ->
  calloc_ok (at_trace (sms_sub s)) = true ->
  exists x d,
    sms_at_cmd_handler_cmt s notif =
      Ok (set_pending (set_data_info (set_sub s x) d) true true (reregister_pending s)) /\
    holds m d /\ sub_ok x /\ at_trace x = at_trace (sms_sub s) /\
    live_blocks (s_lib x) = live_blocks (s_lib (sms_sub s)) /\
    length (sms_payload d) = 161%nat.
Proof.
  intros [(Htmp & Hbuf & Hid & Href) [_ _]] Hscan Hok Hc. unfold sms_at_cmd_handler_cmt.
  rewrite Hscan. cbn [sms_sub set_pending].
  pose proof (length_hex_string (deliver_octets m)) as Hl.
  assert (Hlen : zlen (deliver_octets m) <= 179) by apply Hok.
  pose proof (hex_string_nonzero _ (deliver_octets_bytes m Hok)) as Hnz.
  rewrite wr_block_start by (rewrite length_app; cbn [length]; lia). cstep.
  rewrite <- app_assoc. cbn [app]. rewrite cstr_app by done.
  cbn [set_buf_tmp at_trace s_lib]. rewrite Hc.
  destruct (deliver_parse_spec m (s_lib (sms_sub s)) (data_cleared SMS_TYPE_DELIVER) Hok Htmp)
    as (g' & a & -> & Ha & Hlive & Htmp'); [done|]. cstep.
  eexists _, _. split; [reflexivity|].
  assert (Hlt : (length (msg_text m) <= 161)%nat) by (by apply msg_text_length).
  split; [|split; [|split; [done|split; [done|]]]].
  - repeat (split; [done|]). split; [|done]. unfold text_of. cbn [payload_len sms_payload].
    rewrite Nat2Z.id. apply take_app_length.
  - split; [done|]. split; [|done]. cbn [sms_buf_tmp set_lib set_buf_tmp].
    rewrite length_app. cbn [length]. rewrite length_drop, length_app. cbn [length]. lia.
  - cbn [sms_payload data_cleared]. rewrite length_app, length_drop, length_replicate. lia.
Qed.

(** Messages that arrive faster than the work queue runs are lost: when two
    messages are reported before the work item has run, the listeners are called
    once, with the second one. *)
Theorem second_message_overwrites (s : sms) (alpha len : list Z) (m1 m2 : deliver_msg)
    (Hs : sms_ok s) (Hm1 : deliver_ok m1) (Hm2 : deliver_ok m2)
    (Ha : Forall (fun c => no_comma c = true) alpha)
    (Hl : len <> [] /\ Forall (fun c => is_digit c = true) len)
    (Hc : calloc_ok (at_trace (sms_sub s)) = true) :
  exists s1 s2 d,
    sms_at_cmd_handler_cmt s (cmt_notification alpha len (hex_string (deliver_octets m1))) = Ok s1 /\
    sms_at_cmd_handler_cmt s1 (cmt_notification alpha len (hex_string (deliver_octets m2))) = Ok s2 /\
    holds m2 d /\ notify_pending (sms_notify s2) = false /\
    notified (sms_notify s2) =
      notified s ++ ((fun x => (listener x, ctx x, d)) <$>
                       filter (fun x => listener x <> 0) (subscribers s)).
Proof.
  destruct (cmt_handler_spec s (cmt_notification alpha len (hex_string (deliver_octets m1))) m1)
    as (x1 & d1 & Hrun1 & Hd1 & Hx1 & Ht1 & _ & Hl1); try done; [by apply scan_cmt_pdu|].
  set (s1 := set_pending _ _ _ _) in Hrun1.
  destruct (cmt_handler_spec s1 (cmt_notification alpha len (hex_string (deliver_octets m2))) m2)
    as (x2 & d2 & Hrun2 & Hd2 & _); try done.
  - split; [done|]. split; [done|]. apply Hs.
  - by apply scan_cmt_pdu.
  - cbn. by rewrite Ht1.
  - rewrite Hrun1. exists s1. rewrite Hrun2. by eexists _, d2.
Qed.

(** ** Registration *)

Lemma find_slot_spec l i :
  match find_slot l i with
  | Some j => (i <= j)%nat /\ exists x, l !! (j - i)%nat = Some x /\ occupied x = false /\
                Forall (fun y => occupied y = true) (take (j - i) l)
  | None => Forall (fun y => occupied y = true) l
  end.
Proof.
  revert i. induction l as [|x l IH]; intros i; cbn [find_slot]; [constructor|].
  destruct (occupied x) eqn:Hx.
  - specialize (IH (S i)). destruct (find_slot l (S i)) as [j|].
    + destruct IH as (Hj & y & Hy & Hoy & Hall). split; [lia|]. exists y.
      replace (j - i)%nat with (S (j - S i)) by lia. cbn. split; [done|]. split; [done|].
      by constructor.
    + by constructor.
  - split; [lia|]. exists x. rewrite Nat.sub_diag. split; [done|]. split; [done|]. constructor.
Qed.

(** Registering a listener with a registered client gives it the first free
    slot and touches nothing else; when no slot is free the state is unchanged
    and the result is -ENOSPC; a null listener is refused. *)
Theorem register_first_free_slot (s : sms) (l c : Z) (Hreg : sms_client_registered s = true) :
  exists s' r, sms_register_listener status_report s l c = Ok (s', r) /\
    ((l = 0 /\ s' = s /\ r = - errno_num EINVAL) \/
     (l <> 0 /\ Forall (fun x => occupied x = true) (subscribers s) /\
      s' = s /\ r = - errno_num ENOSPC) \/
     (l <> 0 /\ exists i x, r = Z.of_nat i /\ subscribers s !! i = Some x /\ occupied x = false /\
        Forall (fun x => occupied x = true) (take i (subscribers s)) /\
        s' = set_subscribers s (<[i := {| ctx := c; listener := l |}]> (subscribers s)))).
Proof.
  unfold sms_register_listener. destruct (Z.eqb_spec l 0); [by eexists s, _; eauto|].
  rewrite Hreg. cstep. pose proof (find_slot_spec (subscribers s) 0) as Hf.
  destruct (find_slot (subscribers s) 0) as [i|]; eexists _, _; (split; [done|]).
  - right; right. destruct Hf as (_ & x & Hx & Ho & Hall). rewrite Nat.sub_0_r in *.
    split; [done|]. by exists i, x.
  - right; left. done.
Qed.

(** Removing the last listener unregisters the client from the modem and
    pauses the notifications, unless the command could not be sent; while other
    listeners are left nothing is sent. *)
Theorem unregister_last_listener (s : sms) (h : Z)
    (Hreg : sms_client_registered s = true) (Hh : 0 <= h < Z.of_nat (length (subscribers s))) :
  let subs := <[Z.to_nat h := subscriber_zero]> (subscribers s) in
  let s' := sms_unregister_listener s h in
  let trace := at_trace (sms_sub s) in
  subscribers s' = subs /\
  ((Forall (fun x => occupied x = false) subs /\
    at_trace (sms_sub s') = trace ++ [chars "AT+CNMI=0,0,0,0"] /\
    let sent := 0 <=? at_printf trace (chars "AT+CNMI=0,0,0,0") in
    sms_client_registered s' = negb sent /\ (sent = true -> monitors s' = false)) \/
   (Exists (fun x => occupied x = true) subs /\ s' = set_subscribers s subs)).
Proof.
  cbn zeta. unfold sms_unregister_listener.
  destruct (Z.ltb_spec h 0); [lia|]. destruct (Z.leb_spec (Z.of_nat (length (subscribers s))) h); [lia|].
  cbn [orb]. set (subs := <[_ := _]> _). unfold sms_uninit. cbn [sms_client_registered
    set_subscribers]. rewrite Hreg. cbn [negb]. unfold sms_subscriber_count.
  change (subscribers (set_subscribers s subs)) with subs.
  destruct (Z.ltb_spec 0 (Z.of_nat (length (filter (fun x => occupied x = true) subs)))) as [Hpos|Hz].
  - split; [done|]. right. split; [|done].
    destruct (filter (fun x => occupied x = true) subs) as [|x l] eqn:E; [cbn in Hpos; lia|].
    assert (Hx : x ∈ filter (fun x => occupied x = true) subs) by (rewrite E; left).
    apply list_elem_of_filter in Hx as [Ho Hx]. apply Exists_exists. eauto.
  - unfold at_printf_cmd, at_send, AT_SMS_SUBSCRIBER_UNREGISTER.
    change (sms_sub (set_subscribers s subs)) with (sms_sub s).
    assert (Hall : Forall (fun x => occupied x = false) subs).
    { apply Forall_forall. intros x Hx. destruct (occupied x) eqn:Ho; [|done].
      assert (Hf : x ∈ filter (fun x => occupied x = true) subs) by (by apply list_elem_of_filter).
      destruct (filter _ subs); [by apply elem_of_nil in Hf|cbn in Hz; lia]. }
    destruct (Z.ltb_spec (at_printf (at_trace (sms_sub s)) (chars "AT+CNMI=0,0,0,0")) 0),
      (Z.leb_spec 0 (at_printf (at_trace (sms_sub s)) (chars "AT+CNMI=0,0,0,0"))); try lia;
      (split; [done|]); left; (split; [done|]); (split; [done|]); (split; [done|]); done.
Qed.

(** ** The invariant under all events *)

Lemma init_spec s :
  sub_ok (sms_sub s) -> idle s ->
  exists s' r, sms_init status_report s = Ok (s', r) /\
    sub_ok (sms_sub s') /\ sms_data_info s' = sms_data_info s /\
    subscribers s' = subscribers s /\ notified s' = notified s /\
    ((sms_client_registered s = true -> monitors s = true) -> r = 0 ->
       sms_client_registered s' = true -> monitors s' = true) /\
    (r <> 0 -> sms_client_registered s' = sms_client_registered s).
Proof.
  intros (Htmp & Hbuf & Hid & Href) Hidle. unfold sms_init. rewrite Hidle.
  destruct (at_cmd_string (at_trace (sms_sub s)) AT_SMS_SUBSCRIBER_READ) as [Hl Hnz].
  destruct (at_cmd (at_trace (sms_sub s)) AT_SMS_SUBSCRIBER_READ) as [ret resp]. cbn [snd] in *.
  cbn [sms_buf_tmp set_trace]. rewrite wr_block_start by (rewrite length_app; cbn [length]; lia).
  cstep. set (b := (resp ++ [0]) ++ _). set (x := set_buf_tmp _ b).
  assert (Hx : sub_ok x).
  { split; [done|]. split; [|done]. cbn. unfold b. rewrite !length_app, length_drop. cbn [length]. lia. }
  clearbody x. destruct (negb (ret =? 0)); [by eexists _, _|].
  destruct (scan_cnmi (cstr b)) as [|z1 [|z2 [|z3 [|z4 [|]]]]]; try by eexists _, _.
  destruct (negb (z1 && z2 && z3 && z4)).
  { cbn [sms_client_registered set_sub].
    destruct (sms_client_registered s) eqn:Hr; eexists _, _; (split; [done|]); cbn; by rewrite ?Hr. }
  unfold at_printf_cmd, at_send. cbn [sms_sub set_monitors set_sub].
  destruct (Z.eqb_spec (at_printf (at_trace x) (AT_SMS_SUBSCRIBER_REGISTER status_report)) 0);
    cbn [negb]; by eexists _, _.
Qed.

(** What happens to the client. *)
Inductive event :=
  | Register (l c : Z) | Unregister (h : Z)
  | Cmt (notif : list Z) | Cds | Cms (notif : list Z)
  | RunAck | RunNotify | RunReregister
  | Send (plus : bool) (ds t : list Z)
  | Cfun (mode : Z).

Definition run (s : sms) (e : event) : res sms :=
  match e with
  | Register l c => let* '(s, _) := sms_register_listener status_report s l c in Ok s
  | Unregister h => Ok (sms_unregister_listener s h)
  | Cmt n => sms_at_cmd_handler_cmt s n
  | Cds => Ok (sms_at_cmd_handler_cds s)
  | Cms n => Ok (sms_at_cmd_handler_cms s n)
  | RunAck => Ok (sms_ack s)
  | RunNotify => Ok (sms_notify s)
  | RunReregister => Ok (sms_reregister status_report s)
  | Send plus ds t =>
    let* '(s, _) := sms_send_text status_report s (Some (number_string plus ds ++ [0]))
                      (Some (t ++ [0])) in Ok s
  | Cfun mode => sms_on_cfun status_report s mode
  end.

(** When an event can happen: notifications arrive while they are not paused,
    work items run when they are queued. [sms_init] relies on idle work items,
    the decoder on PDUs it can hold, and the encoder on a dialable number and a
    text of at most 255 parts. *)
Definition enabled (s : sms) (e : event) : Prop :=
  match e with
  | Register _ _ => sms_client_registered s = false -> idle s
  | Unregister _ => True
  | Cmt n => monitors s = true /\
             forall pdu, scan_cmt n = Some pdu ->
               zlen pdu <= 336 /\ nonzero pdu /\ address_digits (default [] (unhex pdu)) <> 20
  | Cds => status_report = true /\ monitors s = true
  | Cms _ => monitors s = true
  | RunAck => ack_pending s = true
  | RunNotify => notify_pending s = true
  | RunReregister => reregister_pending s = true
  | Send plus ds t => number_ok plus ds /\ bytes t /\ nonzero t /\ zlen t < 65536 /\
                      zlen (parts t) <= 255
  | Cfun _ => sms_client_registered s = true -> idle s
  end.

Inductive reachable (s0 : sms) : sms -> Prop :=
  | reach_start : reachable s0 s0
  | reach_step s e s' : reachable s0 s -> enabled s e -> run s e = Ok s' -> reachable s0 s'.

Lemma cmt_handler_safe s n :
  sms_ok s -> enabled s (Cmt n) ->
  exists s', sms_at_cmd_handler_cmt s n = Ok s' /\ sms_ok s' /\ subscribers s' = subscribers s.
Proof.
  intros [(Htmp & Hbuf & Hid & Href) [Hd Hreg]] [_ Hpdu]. unfold sms_at_cmd_handler_cmt.
  destruct (scan_cmt n) as [pdu|]; [|by eexists].
  destruct (Hpdu pdu eq_refl) as (Hl & Hnz & H20). cbn [sms_sub set_pending].
  rewrite wr_block_start by (rewrite length_app; cbn [length]; lia). cstep.
  rewrite <- app_assoc. cbn [app]. rewrite cstr_app by done.
  cbn [set_buf_tmp at_trace s_lib].
  destruct (deliver_parse_returns (calloc_ok (at_trace (sms_sub s))) (s_lib (sms_sub s)) pdu
    (data_cleared SMS_TYPE_DELIVER)) as (g' & d & e & -> & Htmp' & Hd'); [done..|]. cstep.
  assert (Hok : forall a b c, sms_ok (set_pending (set_data_info (set_sub s (set_lib (set_buf_tmp
    (sms_sub s) (pdu ++ 0 :: drop (length (pdu ++ [0])) (sms_buf_tmp (sms_sub s)))) g')) d) a b c)).
  { intros a b c. split; [|done]. split; [done|]. split; [|done]. cbn.
    rewrite length_app. cbn [length]. rewrite length_drop, length_app. cbn [length]. lia. }
  destruct e; eexists; (split; [done|]); (split; [apply Hok|done]).
Qed.

Lemma send_safe s plus ds t :
  sms_ok s -> enabled s (Send plus ds t) ->
  exists s', run s (Send plus ds t) = Ok s' /\ sms_ok s' /\ subscribers s' = subscribers s.
Proof.
  intros [Hsub [Hd Hreg]] (Hnum & Hb & Hnz & Hl & Hparts). cbn [run sms_send_text].
  rewrite strlen_app by done. cstep. rewrite u16_small by lia. cbn [sms_send].
  destruct (Z.le_gt_cases (zlen (encode_text t)) 160) as [Hfit|Hlong].
  - pose proof (submit_short_spec status_report (sms_sub s) plus ds [] t [] Hnum Hb Hfit Hsub) as H.
    destruct (sca_spec _) as [trace sca]. destruct H as (x & -> & _ & Hx & _). cstep.
    by eexists.
  - pose proof (submit_long_spec status_report (sms_sub s) plus ds [] t [] Hnum Hb Hnz) as H.
    destruct (sca_spec _) as [trace sca]. destruct H as (x & err & -> & _ & _ & Hx); [lia|done..|].
    cstep. by eexists.
Qed.

Lemma register_safe s l c :
  sms_ok s -> enabled s (Register l c) ->
  exists s', run s (Register l c) = Ok s' /\ sms_ok s' /\
    length (subscribers s') = length (subscribers s).
Proof.
  intros [Hsub [Hd Hreg]] He. cbn [run enabled] in *. unfold sms_register_listener.
  destruct (Z.eqb_spec l 0); [by eexists|].
  assert (H : exists s1 r, (if sms_client_registered s then Ok (s, 0) else sms_init status_report s) =
    Ok (s1, r) /\ sms_ok s1 /\ subscribers s1 = subscribers s).
  { destruct (sms_client_registered s) eqn:Hr; [by exists s, 0; split; [done|]; split; [split; [done|by rewrite Hr]|]|].
    destruct (init_spec s Hsub (He eq_refl)) as (s1 & r & Hrun & Hs1 & Hd1 & Hsubs & _ & H0 & Hn0).
    exists s1, r. split; [done|]. split; [|done]. split; [done|]. split; [by rewrite Hd1|].
    destruct (Z.eq_dec r 0); [by apply H0; [intros; congruence|]|].
    rewrite Hn0 by done. congruence. }
  destruct H as (s1 & r & -> & Hok & Hsubs). cstep.
  destruct (negb (r =? 0)); [exists s1; by rewrite Hsubs|].
  destruct (find_slot (subscribers s1) 0); [|exists s1; by rewrite Hsubs].
  eexists. split; [done|]. split; [done|]. cbn. by rewrite length_insert, Hsubs.
Qed.

Lemma cfun_safe s mode :
  sms_ok s -> enabled s (Cfun mode) ->
  exists s', run s (Cfun mode) = Ok s' /\ sms_ok s' /\ subscribers s' = subscribers s.
Proof.
  intros [Hsub [Hd Hreg]] He. cbn [run enabled] in *. unfold sms_on_cfun.
  destruct (sms_client_registered s) eqn:Hr; [|by exists s; split; [done|]; split; [split; [done|by rewrite Hr]|]].
  destruct ((mode =? MODEM_CFUN_NORMAL) || (mode =? MODEM_CFUN_ACTIVATE_LTE)); cbn [andb].
  2: { eexists. split; [done|]. split; [|done]. split; [done|]. split; [done|]. by rewrite Hr. }
  destruct (init_spec s Hsub (He eq_refl)) as (s1 & r & -> & Hs1 & Hd1 & Hsubs & _ & H0 & Hn0).
  cstep. eexists. split; [done|].
  destruct (Z.eqb_spec r 0); cbn [negb]; (split; [|done]); (split; [done|]);
    (split; [by cbn; rewrite Hd1|]); [|done]. apply H0; [|done]. rewrite Hr. by intros _; apply Hreg.
Qed.

Lemma unregister_safe s h :
  sms_ok s -> sms_ok (sms_unregister_listener s h) /\
    length (subscribers (sms_unregister_listener s h)) = length (subscribers s).
Proof.
  intros [Hsub [Hd Hreg]]. unfold sms_unregister_listener, sms_uninit, at_printf_cmd, at_send.
  repeat case_match; simplify_eq/=; rewrite ?length_insert; (split; [|done]);
    (split; [done|]); (split; [done|]); done.
Qed.

Lemma run_safe s e :
  sms_ok s -> enabled s e ->
  exists s', run s e = Ok s' /\ sms_ok s' /\ length (subscribers s') = length (subscribers s).
Proof.
  intros Hok He. destruct e as [l c|h|n| |n| | | |plus ds t|mode].
  - by apply register_safe.
  - destruct (unregister_safe s h Hok). by eexists.
  - destruct (cmt_handler_safe s n Hok He) as (s' & Hrun & Hok' & Hsubs).
    exists s'. by rewrite Hsubs.
  - eexists. split; [done|]. split; [|done]. destruct Hok as [? [? ?]]. done.
  - eexists. split; [done|]. unfold sms_at_cmd_handler_cms. by destruct (strstr _ _).
  - eexists. split; [done|]. done.
  - eexists. split; [done|]. done.
  - eexists. split; [done|]. destruct Hok as (Hsub & Hd & Hreg). unfold sms_reregister, at_printf_cmd, at_send.
    destruct (negb _); cbn; (split; [split; [done|split; done]|]); by rewrite ?length_fmap.
  - destruct (send_safe s plus ds t Hok He) as (s' & Hrun & Hok' & Hsubs).
    exists s'. by rewrite Hsubs.
  - destruct (cfun_safe s mode Hok He) as (s' & Hrun & Hok' & Hsubs).
    exists s'. by rewrite Hsubs.
Qed.

Lemma reachable_ok s0 s :
  sms_ok s0 -> reachable s0 s ->
  sms_ok s /\ length (subscribers s) = length (subscribers s0).
Proof.
  intros H0. induction 1 as [|s e s' Hr [IH IHl] He Hrun]; [done|].
  destruct (run_safe s e IH He) as (s'' & Hrun' & Hok & Hl). rewrite Hrun in Hrun'.
  injection Hrun' as <-. split; [done|]. by rewrite Hl.
Qed.







(** C32: In every state that is reached by any sequence of enabled events, the
    buffers have their sizes, the number of slots is the initial one, and the
    notifications are not paused while the client is registered; and every
    enabled event is handled without undefined behaviour and terminates. *)
Theorem client_invariant (s0 s : sms) (e : event)
    (H0 : sms_ok s0) (Hr : reachable s0 s) (He : enabled s e) :
  sms_ok s /\ length (subscribers s) = length (subscribers s0) /\
  exists s', run s e = Ok s' /\ sms_ok s'.
Proof.
  destruct (reachable_ok s0 s H0 Hr) as [Hok Hl]. split; [done|]. split; [done|].
  destruct (run_safe s e Hok He) as (s' & Hrun & Hok' & _). by exists s'.
Qed.

End Core.

(** ** Witnesses *)

(** A modem without a client, that accepts commands. *)
#[export, refine] Instance modem_cmd_free : ModemCmd := {|
  at_cmd _ _ := (0, chars "+CNMI: 0,0,0,0" ++ [13; 10]);
  at_cmd_async _ _ := 0;
  calloc_ok _ := true
|}.
Proof. intros _ _. split; by_compute. Defined.

Definition sms0 : sms :=
  {| sms_sub := sub0; sms_data_info := data0; sms_client_registered := false;
     subscribers := replicate 2 subscriber_zero; monitors := false; ack_pending := false;
     notify_pending := false; reregister_pending := false; notified := [] |}.

Lemma sms0_ok : sms_ok sms0.
Proof. split; [apply sub0_ok|]. done. Qed.

(** The client with one listener. *)
Definition sms1 : sms :=
  {| sms_sub := sub0; sms_data_info := data0; sms_client_registered := true;
     subscribers := [{| ctx := 7; listener := 100 |}; subscriber_zero]; monitors := true;
     ack_pending := false; notify_pending := false; reregister_pending := false; notified := [] |}.

Lemma sms1_ok : sms_ok sms1.
Proof. split; [apply sub0_ok|]. done. Qed.


(** A part of a text as the network delivers it. *)
Definition deliver_part (mid n : Z) (e : Z * list Z) : deliver_msg :=
  {| m_smsc := []; m_flags := 0x44; m_number := [1; 2; 3; 4; 5]; m_toa := 0x91; m_pid := 0;
     m_dcs := 0; m_time := time_zero; m_udh := Some [(0x00, [mid; n; e.1])];
     m_text := encode_text e.2 |}.

Lemma second_message_overwrites_witness :
  exists s1 s2 d,
    sms_at_cmd_handler_cmt sms1 (cmt_notification (chars "+358") (chars "24")
      (hex_string (deliver_octets (deliver_part 1 2 (1, chars "one"))))) = Ok s1 /\
    sms_at_cmd_handler_cmt s1 (cmt_notification (chars "+358") (chars "24")
      (hex_string (deliver_octets (deliver_part 1 2 (2, chars "two"))))) = Ok s2 /\
    text_of d = chars "two" /\ notified (sms_notify s2) = [(100, 7, d)].
Proof.
  destruct (second_message_overwrites sms1 (chars "+358") (chars "24")
    (deliver_part 1 2 (1, chars "one")) (deliver_part 1 2 (2, chars "two")))
    as (s1 & s2 & d & Hrun1 & Hrun2 & (_ & Ht & _) & _ & Hn).
  - apply sms1_ok.
  - by_compute.
  - by_compute.
  - by_compute.
  - split; [done|by_compute].
  - reflexivity.
  - exists s1, s2, d. split; [exact Hrun1|]. split; [exact Hrun2|]. split; [exact Ht|exact Hn].
Defined.

Lemma register_first_free_slot_witness :
  exists s', sms_register_listener true sms1 200 0 = Ok (s', 1).
Proof.
  destruct (register_first_free_slot true sms1 200 0) as (s' & r & Hrun & _); [reflexivity|].
  exists s'. rewrite Hrun. vm_compute in Hrun. injection Hrun as _ <-. reflexivity.
Defined.

Lemma unregister_last_listener_witness :
  at_trace (sms_sub (sms_unregister_listener sms1 0)) = [chars "AT+CNMI=0,0,0,0"].
Proof.
  destruct (unregister_last_listener sms1 0) as [_ [(_ & Ht & _)|[He _]]];
    [reflexivity|cbn; lia|exact Ht|].
  exfalso. apply Exists_cons in He as [He|He]; [discriminate|].
  apply Exists_cons in He as [He|He]; [discriminate|]. by apply Exists_nil in He.
Defined.

Lemma client_invariant_witness :
  exists s', run true sms0 (Register 100 7) = Ok s' /\ sms_ok s'.
Proof.
  apply (client_invariant true sms0 sms0 (Register 100 7)).
  - apply sms0_ok.
  - apply reach_start.
  - intros _. reflexivity.
Defined.

(** ** Inputs outside of the specification *)

(** The string of a notification is read with a width of 512 into a buffer of
    512 bytes, which leaves no room for the terminating NUL. *)
Theorem cmt_buffer_overflow :
  sms_at_cmd_handler_cmt sms1
    (cmt_notification (chars "+358") (chars "24") (replicate 512 48)) = Fault.
Proof. vm_compute. reflexivity. Qed.

(** A modem that does not answer. *)
Definition modem_cmd_dead : ModemCmd.
Proof.
  refine {| at_cmd _ _ := (-1, []); at_cmd_async _ _ := -1; calloc_ok _ := true |}.
  intros _ _. split; by_compute.
Defined.

(** When the client cannot be set up again after the modem was switched on, it is
    marked as not registered, but notifications are not paused and the listeners
    keep their slots. *)
Theorem cfun_failure_keeps_monitors :
  exists s, sms_on_cfun (HC := modem_cmd_dead) true sms1 MODEM_CFUN_NORMAL = Ok s /\
    sms_client_registered s = false /\ monitors s = true /\ sms_subscriber_count s = 1.
Proof. eexists. split; [vm_compute; reflexivity|]. done. Qed.

(** Setting up the client again initialises work items that may be in use. *)
Theorem cfun_with_pending_work :
  sms_on_cfun true (set_pending sms1 true true false) MODEM_CFUN_NORMAL = Fault.
Proof. reflexivity. Qed.
