(* ===== verification/NdefRecord.v ===== *)
(** * NDEF records: record.c and record_parser.c of subsys/nfc/ndef

    Encoding of a record from a descriptor, and parsing of a record into a
    descriptor. A pointer into a buffer is the list of the bytes from there on,
    so that [None] is [NULL] and reading too far is a [Fault]. *)

From stdpp Require Import prelude strings.
From Stdlib Require Import ZArith Lia.
From S2P Require Import Prelude.

Open Scope Z_scope.

Definition NDEF_RECORD_IL_MASK : Z := 0x08.
Definition NDEF_RECORD_TNF_MASK : Z := 0x07.
Definition NDEF_RECORD_SR_MASK : Z := 0x10.
Definition NDEF_RECORD_PAYLOAD_LEN_LONG_SIZE : Z := 4.
Definition NDEF_RECORD_PAYLOAD_LEN_SHORT_SIZE : Z := 1.
Definition NDEF_RECORD_ID_LEN_SIZE : Z := 1.
Definition NDEF_RECORD_BASE_LONG_SIZE : Z := 2 + NDEF_RECORD_PAYLOAD_LEN_LONG_SIZE.
Definition NDEF_RECORD_BASE_SHORT_LEN : Z := 2 + NDEF_RECORD_PAYLOAD_LEN_SHORT_SIZE.

Definition TNF_EMPTY : Z := 0.
Definition TNF_WELL_KNOWN : Z := 1.
Definition TNF_MEDIA_TYPE : Z := 2.
Definition TNF_ABSOLUTE_URI : Z := 3.
Definition TNF_EXTERNAL_TYPE : Z := 4.
Definition TNF_UNKNOWN_TYPE : Z := 5.
Definition TNF_UNCHANGED : Z := 6.
Definition TNF_RESERVED : Z := 7.

Definition NDEF_FIRST_RECORD : Z := 0x80.
Definition NDEF_MIDDLE_RECORD : Z := 0x00.
Definition NDEF_LAST_RECORD : Z := 0x40.
Definition NDEF_LONE_RECORD : Z := 0xC0.
Definition NDEF_RECORD_LOCATION_MASK : Z := NDEF_LONE_RECORD.

(** The byte order functions of the operating system: the bytes that
    [sys_cpu_to_be32] and [sys_put_be16] store, and the values the others
    read. *)
Class ByteOrder := {
  sys_cpu_to_be32 : Z -> list Z;
  sys_cpu_to_be16 : Z -> list Z;
  sys_get_be32 : list Z -> Z;
  sys_put_be16 : Z -> list Z;
  sys_get_be16 : list Z -> Z;
  sys_get_le16 : list Z -> Z;
  sys_cpu_to_be32_spec v :
    sys_cpu_to_be32 v = [v / 2 ^ 24 mod 256; v / 2 ^ 16 mod 256; v / 2 ^ 8 mod 256; v mod 256];
  sys_cpu_to_be16_spec v : sys_cpu_to_be16 v = [v / 2 ^ 8 mod 256; v mod 256];
  sys_get_be32_spec a b c d :
    sys_get_be32 [a; b; c; d] = a * 2 ^ 24 + b * 2 ^ 16 + c * 2 ^ 8 + d;
  sys_put_be16_spec v : sys_put_be16 v = [v / 2 ^ 8 mod 256; v mod 256];
  sys_get_be16_spec a b : sys_get_be16 [a; b] = a * 2 ^ 8 + b;
  sys_get_le16_spec a b : sys_get_le16 [a; b] = b * 2 ^ 8 + a
}.

#[export, refine] Instance byteorder_reference : ByteOrder := {|
  sys_cpu_to_be32 v := [v / 2 ^ 24 mod 256; v / 2 ^ 16 mod 256; v / 2 ^ 8 mod 256; v mod 256];
  sys_cpu_to_be16 v := [v / 2 ^ 8 mod 256; v mod 256];
  sys_get_be32 bs :=
    match bs with [a; b; c; d] => a * 2 ^ 24 + b * 2 ^ 16 + c * 2 ^ 8 + d | _ => 0 end;
  sys_put_be16 v := [v / 2 ^ 8 mod 256; v mod 256];
  sys_get_be16 bs := match bs with [a; b] => a * 2 ^ 8 + b | _ => 0 end;
  sys_get_le16 bs := match bs with [a; b] => b * 2 ^ 8 + a | _ => 0 end
|}.
Proof. all: done. Defined.

(** A payload constructor with the descriptor it gets: from the destination and
    the memory available there to the destination and the size of the
    payload. *)
Definition payload_constructor_t : Type := option (list Z) -> Z -> res (option (list Z) * Z).

Record nfc_ndef_bin_payload_desc := {
  bin_payload : option (list Z);
  payload_length : Z
}.

(** The pair of pointers [payload_constructor] and [payload_descriptor] of a
    record. The parsers of payloads compare the first one with
    [nfc_ndef_bin_payload_memcopy], so that this constructor is told apart. *)
Inductive payload :=
  | Memcopy (d : nfc_ndef_bin_payload_desc)
  | Constructor (f : payload_constructor_t).

Record nfc_ndef_record_desc := {
  tnf : Z;
  id_length : Z;
  rec_id : option (list Z);
  type_length : Z;
  rec_type : option (list Z);
  rec_payload : option payload
}.

(** [memcpy] from a pointer that is only valid if there is anything to copy. *)
Definition rd_ptr (p : option (list Z)) (n : Z) : res (list Z) :=
  if n =? 0 then Ok [] else
  match p with None => Fault | Some m => rd_block m 0 n end.

(** A call with a pointer into a buffer. *)
Definition at_offset {A} (m : list Z) (off : Z) (f : list Z -> res (list Z * A)) : res (list Z * A) :=
  if (off <? 0) || (zlen m <? off) then Fault else
  let* '(m', a) := f (drop (Z.to_nat off) m) in
  Ok (take (Z.to_nat off) m ++ m', a).

(** ** Encoding *)

Definition record_header_size_calc (d : nfc_ndef_record_desc) : Z :=
  let len := u32 (NDEF_RECORD_BASE_LONG_SIZE + id_length d + type_length d) in
  if 0 <? id_length d then u32 (len + 1) else len.

Section Encode.
  Context {BO : ByteOrder}.

(** The fields in front of the payload; the length of the payload is stored
    later. Returns the buffer and the offset of the payload. *)
Definition record_header_write (d : nfc_ndef_record_desc) (record_location : Z) (m : list Z)
    : res (list Z * Z) :=
  let flags := u8 (Z.lor record_location (tnf d)) in
  let* m := wr m 0 flags in
  let* m := wr m 1 (type_length d) in
  let off := 2 + NDEF_RECORD_PAYLOAD_LEN_LONG_SIZE in
  let* '(m, off) :=
    if 0 <? id_length d then
      let* m := wr m off (id_length d) in
      let* m := wr m 0 (Z.lor flags NDEF_RECORD_IL_MASK) in
      Ok (m, off + 1)
    else Ok (m, off) in
  let* t := rd_ptr (rec_type d) (type_length d) in
  let* m := wr_block m off t in
  let off := off + type_length d in
  if 0 <? id_length d then
    let* i := rd_ptr (rec_id d) (id_length d) in
    let* m := wr_block m off i in
    Ok (m, off + id_length d)
  else Ok (m, off).

Definition nfc_ndef_bin_payload_memcopy (d : nfc_ndef_bin_payload_desc) : payload_constructor_t :=
  fun buffer len =>
    match buffer with
    | Some m =>
      if len <? payload_length d then Err ENOSR
      else
        let* p := rd_ptr (bin_payload d) (payload_length d) in
        let* m := wr_block m 0 p in
        Ok (Some m, payload_length d)
    | None => Ok (None, payload_length d)
    end.

(** The call of the constructor. *)
Definition construct (p : payload) : payload_constructor_t :=
  match p with
  | Memcopy d => nfc_ndef_bin_payload_memcopy d
  | Constructor f => f
  end.

(** The payload, at a buffer or as a size only. *)
Definition record_payload (d : nfc_ndef_record_desc) (buffer : option (list Z)) (len : Z)
    : res (option (list Z) * Z) :=
  if tnf d =? TNF_EMPTY then Ok (buffer, 0)
  else
    match rec_payload d with
    | Some p => construct p buffer len
    | None => Err EINVAL
    end.

(** Returns the buffer and [*record_len]. Without a buffer, the length given to
    the constructor is uninitialised: it is [*record_len] here, and no result
    depends on it. *)
Definition nfc_ndef_record_encode (ndef_record_desc : option nfc_ndef_record_desc)
    (record_location : Z) (record_buffer : option (list Z)) (record_len : Z)
    : res (option (list Z) * Z) :=
  match ndef_record_desc with
  | None => Err EINVAL
  | Some d =>
    let record_header_len := record_header_size_calc d in
    match record_buffer with
    | Some m =>
      if negb (Z.land record_location (Z.lnot NDEF_RECORD_LOCATION_MASK) =? 0) then Err EINVAL
      else if record_len <? record_header_len then Err ENOSR
      else
        let* '(m, off) := record_header_write d record_location m in
        let record_payload_len := u32 (record_len - record_header_len) in
        let* '(m, record_payload_len) := at_offset m off (fun p =>
          let* '(p, n) := record_payload d (Some p) record_payload_len in
          Ok (default [] p, n)) in
        let* m := wr_block m 2 (sys_cpu_to_be32 record_payload_len) in
        Ok (Some m, u32 (record_header_len + record_payload_len))
    | None =>
      let* '(_, record_payload_len) := record_payload d None record_len in
      Ok (None, u32 (record_header_len + record_payload_len))
    end
  end.

(** ** Parsing *)

(** The payload length field of either form; returns the length, the position
    behind the field and the size the record has at least. *)
Definition parse_payload_length (nfc_data : list Z) (nfc_data_len flags pos expected_rec_size : Z)
    : res (Z * Z * Z) :=
  if ctrue (Z.land flags NDEF_RECORD_SR_MASK) then
    let* n := rd nfc_data pos in Ok (n, pos + 1, expected_rec_size)
  else
    let expected_rec_size := u32 (expected_rec_size +
      (NDEF_RECORD_PAYLOAD_LEN_LONG_SIZE - NDEF_RECORD_PAYLOAD_LEN_SHORT_SIZE)) in
    if nfc_data_len <? expected_rec_size then Err EINVAL else
    let* bs := rd_block nfc_data pos 4 in
    Ok (sys_get_be32 bs, pos + NDEF_RECORD_PAYLOAD_LEN_LONG_SIZE, expected_rec_size).

(** The optional length of the identifier, in the same way. *)
Definition parse_id_length (nfc_data : list Z) (nfc_data_len flags pos expected_rec_size : Z)
    : res (Z * Z * Z) :=
  if ctrue (Z.land flags NDEF_RECORD_IL_MASK) then
    let expected_rec_size := u32 (expected_rec_size + NDEF_RECORD_ID_LEN_SIZE) in
    if nfc_data_len <? expected_rec_size then Err EINVAL else
    let* n := rd nfc_data pos in Ok (n, pos + 1, expected_rec_size)
  else Ok (0, pos, expected_rec_size).

(** Returns the payload descriptor, the record descriptor, the location and the
    size of the record. *)
Definition nfc_ndef_record_parse (nfc_data : list Z) (nfc_data_len : Z)
    : res (nfc_ndef_bin_payload_desc * nfc_ndef_record_desc * Z * Z) :=
  let expected_rec_size := NDEF_RECORD_BASE_SHORT_LEN in
  if nfc_data_len <? expected_rec_size then Err EINVAL else
  let* flags := rd nfc_data 0 in
  let tnf := Z.land flags NDEF_RECORD_TNF_MASK in
  let tnf := if tnf =? TNF_RESERVED then TNF_UNKNOWN_TYPE else tnf in
  let record_location := Z.land flags NDEF_RECORD_LOCATION_MASK in
  let* type_length := rd nfc_data 1 in
  let* '(payload_length, pos, expected_rec_size) :=
    parse_payload_length nfc_data nfc_data_len flags 2 expected_rec_size in
  let* '(id_length, pos, expected_rec_size) :=
    parse_id_length nfc_data nfc_data_len flags pos expected_rec_size in
  let expected_rec_size := u32 (expected_rec_size + u32 (type_length + id_length + payload_length)) in
  if nfc_data_len <? expected_rec_size then Err EINVAL else
  let '(rec_type, pos) :=
    if 0 <? type_length then (Some (drop (Z.to_nat pos) nfc_data), pos + type_length)
    else (None, pos) in
  let '(rec_id, pos) :=
    if 0 <? id_length then (Some (drop (Z.to_nat pos) nfc_data), pos + id_length)
    else (None, pos) in
  let bin_pay_desc :=
    {| bin_payload := if payload_length =? 0 then None else Some (drop (Z.to_nat pos) nfc_data);
       payload_length := payload_length |} in
  Ok (bin_pay_desc,
      {| tnf := tnf; id_length := id_length; rec_id := rec_id; type_length := type_length;
         rec_type := rec_type;
         rec_payload := Some (Memcopy bin_pay_desc) |},
      record_location, expected_rec_size).

End Encode.

(** ** What a record is *)

(** A record of an NDEF message (NFC Forum NDEF 1.0, section 3.2). *)
Record ndef_record := {
  r_tnf : Z; r_type : list Z; r_id : list Z; r_payload : list Z
}.

Definition record_ok (r : ndef_record) : Prop :=
  0 <= r_tnf r < 8 /\ zlen (r_type r) < 256 /\ zlen (r_id r) < 256 /\
  (r_tnf r = TNF_EMPTY -> r_payload r = []) /\
  zlen (r_type r) + zlen (r_id r) + zlen (r_payload r) + 7 < 2 ^ 32.

Definition location (z : Z) : Prop :=
  z = NDEF_FIRST_RECORD \/ z = NDEF_MIDDLE_RECORD \/ z = NDEF_LAST_RECORD \/ z = NDEF_LONE_RECORD.

Definition be32 (v : Z) : list Z :=
  [v / 2 ^ 24 mod 256; v / 2 ^ 16 mod 256; v / 2 ^ 8 mod 256; v mod 256].

(** Its octets: the long form, with the identifier only if there is one. *)
Definition id_flag (r : ndef_record) : Z := if 0 <? zlen (r_id r) then NDEF_RECORD_IL_MASK else 0.
Definition record_head (r : ndef_record) : list Z :=
  (if 0 <? zlen (r_id r) then [zlen (r_id r)] else []) ++ r_type r ++ r_id r.
Definition record_octets (loc : Z) (r : ndef_record) : list Z :=
  (loc + r_tnf r + id_flag r) :: zlen (r_type r) :: be32 (zlen (r_payload r)) ++
  record_head r ++ r_payload r.

(** A constructor builds a payload: it stores it at the destination if there is
    room, refuses to if there is not, and tells its size without a destination.
    Some constructors cannot do the last one; [q] asks for it. *)
Definition builds (q : bool) (f : payload_constructor_t) (p : list Z) : Prop :=
  (forall m len, zlen p <= len <= zlen m -> len < 2 ^ 32 ->
     f (Some m) len = Ok (Some (p ++ drop (length p) m), zlen p)) /\
  (forall m len, 0 <= len < zlen p -> len <= zlen m -> exists e, f (Some m) len = Err e) /\
  (q = true -> forall len, f None len = Ok (None, zlen p)).

Lemma built_eq (m m' : list Z) (n n' : Z) : m = m' -> n = n' -> Ok (Some m, n) = Ok (Some m', n').
Proof. by intros -> ->. Qed.

(** Solves the equation at the end of a constructor: the parts stored make the
    payload. *)
Ltac built :=
  apply built_eq; [rewrite ?drop_drop; cbn [app length]; rewrite ?length_app; cbn [app length];
    rewrite <- ?app_assoc; cbn [app]; repeat f_equal; lia | zsize].

(** A descriptor describes a record. *)
Definition describes (q : bool) (d : nfc_ndef_record_desc) (r : ndef_record) : Prop :=
  tnf d = r_tnf r /\
  type_length d = zlen (r_type r) /\ rd_ptr (rec_type d) (type_length d) = Ok (r_type r) /\
  id_length d = zlen (r_id r) /\ rd_ptr (rec_id d) (id_length d) = Ok (r_id r) /\
  (r_tnf r <> TNF_EMPTY ->
     exists p, rec_payload d = Some p /\ builds q (construct p) (r_payload r)).

Lemma describes_weaken q d r : describes true d r -> describes q d r.
Proof.
  intros (? & ? & ? & ? & ? & Hp). repeat split; try done. intros Ht.
  destruct (Hp Ht) as (p & ? & ? & ? & ?). exists p. split; [done|]. split; [done|]. split; [done|]. auto.
Qed.

(** A descriptor as the parser leaves it: the payload is a pointer to bytes. *)
Definition received (d : nfc_ndef_record_desc) (r : ndef_record) : Prop :=
  describes true d r /\
  exists b, rec_payload d = Some (Memcopy b) /\ payload_length b = zlen (r_payload r) /\
    rd_ptr (bin_payload b) (zlen (r_payload r)) = Ok (r_payload r).

Lemma location_flags loc t :
  location loc -> 0 <= t < 8 ->
  Z.land loc (Z.lnot NDEF_RECORD_LOCATION_MASK) = 0 /\
  u8 (Z.lor loc t) = loc + t /\ Z.lor (loc + t) NDEF_RECORD_IL_MASK = loc + t + 8.
Proof.
  intros Hl Ht. unfold NDEF_RECORD_LOCATION_MASK, NDEF_RECORD_IL_MASK.
  assert (Hc : forall loc, (loc = NDEF_FIRST_RECORD \/ loc = NDEF_MIDDLE_RECORD \/
      loc = NDEF_LAST_RECORD \/ loc = NDEF_LONE_RECORD) ->
    (Z.land loc (Z.lnot NDEF_LONE_RECORD) =? 0) && (u8 (Z.lor loc t) =? loc + t) &&
    (Z.lor (loc + t) 8 =? loc + t + 8) = true).
  { clear Hl. intros l Hl. revert t Ht. apply (range_check _ 0 8).
    by destruct Hl as [-> | [-> | [-> | ->]]]. }
  specialize (Hc loc Hl). lia.
Qed.

Lemma length_record_octets loc r :
  zlen (record_octets loc r) =
    6 + (if 0 <? zlen (r_id r) then 1 else 0) + zlen (r_type r) + zlen (r_id r) +
    zlen (r_payload r).
Proof.
  unfold record_octets, record_head. cbn [length]. rewrite !length_app. cbn [length be32].
  destruct (0 <? zlen (r_id r)); cbn [length]; lia.
Qed.

Lemma length_record_head r :
  zlen (record_head r) = (if 0 <? zlen (r_id r) then 1 else 0) + zlen (r_type r) + zlen (r_id r).
Proof.
  unfold record_head. rewrite !length_app. destruct (0 <? zlen (r_id r)); cbn [length]; lia.
Qed.

Lemma header_size {q} d r :
  describes q d r -> record_ok r -> record_header_size_calc d = 6 + zlen (record_head r).
Proof.
  intros (_ & Htl & _ & Hil & _) (_ & Ht & Hi & _). unfold record_header_size_calc.
  rewrite Htl, Hil, length_record_head. unfold NDEF_RECORD_BASE_LONG_SIZE,
    NDEF_RECORD_PAYLOAD_LEN_LONG_SIZE.
  rewrite (u32_small (2 + 4 + _ + _)) by lia.
  destruct (Z.ltb_spec 0 (zlen (r_id r))); rewrite ?u32_small by lia; lia.
Qed.

Lemma rd_ptr_length p n l : rd_ptr p n = Ok l -> 0 <= n -> zlen l = n.
Proof.
  unfold rd_ptr. destruct (Z.eqb_spec n 0) as [->|]; [by intros [= <-]|].
  destruct p as [m|]; [|done]. unfold rd_block.
  destruct (Z.ltb_spec 0 0); [lia|]. destruct (Z.ltb_spec n 0); [lia|]. cbn [orb].
  destruct (Z.ltb_spec (zlen m) (0 + n)); [done|]. intros [= <-] _. rewrite length_take.
  rewrite drop_0. lia.
Qed.

Lemma rd_ptr_all (l : list Z) : rd_ptr (Some l) (zlen l) = Ok l.
Proof.
  unfold rd_ptr. destruct l as [|x l]; [done|].
  destruct (Z.eqb_spec (zlen (x :: l)) 0); [cbn [length] in *; lia|].
  rewrite <- (app_nil_r (x :: l)) at 1. apply rd_block_start.
Qed.

Lemma at_offset_app {A} e rest off (f : list Z -> res (list Z * A)) :
  off = zlen e ->
  at_offset (e ++ rest) off f = let* '(m, a) := f rest in Ok (e ++ m, a).
Proof.
  intros ->. unfold at_offset. rewrite length_app.
  destruct (Z.ltb_spec (zlen e) 0); [lia|]. destruct (Z.ltb_spec (Z.of_nat (length e + length rest)) (zlen e)); [lia|].
  cbn [orb]. by rewrite Nat2Z.id, drop_app_length, take_app_length.
Qed.

Section Encode.
  Context {BO : ByteOrder}.

(** Payload of the record at the end of its header. *)
Lemma record_payload_builds {q} d r :
  describes q d r -> record_ok r -> builds q (record_payload d) (r_payload r).
Proof.
  intros (Ht & _ & _ & _ & _ & Hp) (_ & _ & _ & Hempty & _). unfold record_payload. rewrite Ht.
  destruct (Z.eqb_spec (r_tnf r) TNF_EMPTY) as [E|E].
  - rewrite (Hempty E). split; [done|]. split; [|done]. intros m len Hlen. cbn in Hlen. lia.
  - destruct (Hp E) as (p & -> & Hf). exact Hf.
Qed.

Lemma record_header_written {q} loc d r m :
  location loc -> describes q d r -> record_ok r ->
  zlen (record_octets loc r) - zlen (r_payload r) <= zlen m ->
  exists a b c e,
    record_header_write d loc m =
      Ok ((loc + r_tnf r + id_flag r :: zlen (r_type r) :: [a; b; c; e] ++ record_head r) ++
            drop (6 + length (record_head r)) m,
          6 + zlen (record_head r)).
Proof.
  intros Hloc (Ht & Htl & Htp & Hil & Hip & _) (Htnf & Htb & Hib & _) Hlen.
  destruct (location_flags loc (r_tnf r) Hloc Htnf) as (_ & Hf & Hfi).
  rewrite length_record_octets in Hlen. unfold record_header_write.
  rewrite Ht, Hf, Htl, Hil, Hfi in *. unfold NDEF_RECORD_PAYLOAD_LEN_LONG_SIZE.
  do 6 (destruct m as [|? m]; [exfalso; cbn [length] in Hlen; destruct (0 <? zlen (r_id r)); lia|]).
  exists z1, z2, z3, z4.
  rewrite wr_Ok by (cbn [length]; lia). cstep. change (Z.to_nat 0) with 0%nat.
  cbn [insert list_insert]. rewrite wr_Ok by (cbn [length]; lia). cstep. change (Z.to_nat 1) with 1%nat.
  cbn [insert list_insert]. change (2 + 4) with 6. change (6 + 1) with 7.
  unfold id_flag, record_head, NDEF_RECORD_IL_MASK in *.
  destruct (Z.ltb_spec 0 (zlen (r_id r))) as [Hid|Hid].
  - destruct m as [|z5 m]; [exfalso; cbn [length] in Hlen; lia|].
    rewrite wr_Ok by (cbn [length]; lia). cstep. change (Z.to_nat 6) with 6%nat.
    cbn [insert list_insert]. rewrite wr_Ok by (cbn [length]; lia). cstep.
    change (Z.to_nat 0) with 0%nat. cbn [insert list_insert]. rewrite Htp. cstep.
    set (h := [loc + r_tnf r + 8; zlen (r_type r); z1; z2; z3; z4; zlen (r_id r)]).
    change (_ :: zlen (r_type r) :: z1 :: z2 :: z3 :: z4 :: zlen (r_id r) :: m) with (h ++ m).
    assert (Hlh : length h = 7%nat) by done.
    rewrite (wr_block_append h) by (cbn [length] in *; done || lia). cstep. rewrite Hip. cstep.
    rewrite app_assoc, (wr_block_append (h ++ r_type r))
      by (rewrite ?length_app, ?length_drop; cbn [length] in *; lia). cstep.
    rewrite drop_drop, <- app_assoc. f_equal. f_equal.
    + unfold h. cbn [app length Nat.add drop]. by rewrite <- !app_assoc, length_app.
    + cbn [app length]. rewrite length_app. lia.
  - cstep. rewrite Htp. cstep. destruct (r_id r); [|cbn [length] in Hid; lia].
    set (h := [loc + r_tnf r; zlen (r_type r); z1; z2; z3; z4]).
    change (_ :: zlen (r_type r) :: z1 :: z2 :: z3 :: z4 :: m) with (h ++ m).
    rewrite (wr_block_append h) by (cbn [length] in *; done || lia). cstep.
    rewrite Z.add_0_r. cbn [app]. rewrite app_nil_r. done.
Qed.

(** A record whose payload is built is built itself. *)
Lemma record_encode_spec {q} d r loc :
  location loc -> describes q d r -> record_ok r ->
  builds q (nfc_ndef_record_encode (Some d) loc) (record_octets loc r).
Proof.
  intros Hloc Hd Hr.
  pose proof (record_payload_builds d r Hd Hr) as (Hput & Hfail & Hsize).
  pose proof (header_size d r Hd Hr) as Hh.
  assert (Hl : zlen (record_octets loc r) = 6 + zlen (record_head r) + zlen (r_payload r))
    by (rewrite length_record_octets, length_record_head; lia).
  destruct (location_flags loc (r_tnf r)) as (Hland & _); [done|apply Hr|].
  assert (Hmax : zlen (record_octets loc r) < 2 ^ 32).
  { destruct Hr as (_ & _ & _ & _ & Hr). rewrite length_record_octets.
    destruct (0 <? zlen (r_id r)); lia. }
  unfold nfc_ndef_record_encode. rewrite Hland, Hh. cbn [negb Z.eqb]. split; [|split].
  - intros m len Hlen H32. destruct (Z.ltb_spec len (6 + zlen (record_head r))); [lia|].
    destruct (record_header_written (q := q) loc d r m) as (a & b & c & e & ->); [done..|lia|]. cstep.
    rewrite at_offset_app by (cbn [length app]; lia). rewrite u32_small, Hput
      by (rewrite ?length_drop; lia). cstep. cbn [default from_option id].
    rewrite wr_block_Ok, sys_cpu_to_be32_spec by (rewrite ?sys_cpu_to_be32_spec;
      cbn [length app]; lia). cstep.
    rewrite u32_small by lia. rewrite drop_drop. do 2 f_equal; [|lia].
    unfold record_octets. change (Z.to_nat 2) with 2%nat.
    cbn [app length Nat.add take drop be32]. by rewrite <- !app_assoc, length_app.
  - intros m len Hlen Hm. destruct (Z.ltb_spec len (6 + zlen (record_head r))); [by eexists|].
    destruct (record_header_written (q := q) loc d r m) as (a & b & c & e & ->); [done..|lia|]. cstep.
    rewrite at_offset_app by (cbn [length app]; lia). rewrite u32_small by lia.
    edestruct Hfail as [err ->]; [| |by eexists]; rewrite ?length_drop; lia.
  - intros Hq len. rewrite Hsize by done. cstep. by rewrite u32_small, Hl by lia.
Qed.

Lemma bin_payload_builds {q} b p :
  payload_length b = zlen p -> rd_ptr (bin_payload b) (zlen p) = Ok p -> 
  builds q (nfc_ndef_bin_payload_memcopy b) p.
Proof.
  intros Hl Hp. unfold nfc_ndef_bin_payload_memcopy. rewrite Hl. split; [|split].
  - intros m len Hlen _. destruct (Z.ltb_spec len (zlen p)); [lia|]. rewrite Hp. cstep.
    by rewrite wr_block_start by lia.
  - intros m len Hlen _. destruct (Z.ltb_spec len (zlen p)); [by eexists|lia].
  - done.
Qed.

(** ** Records that are received *)

(** The octets of a record in either form; the short one has a length field of
    one octet. *)
Definition record_form (short : bool) (loc : Z) (r : ndef_record) : list Z :=
  (loc + r_tnf r + id_flag r + if short then NDEF_RECORD_SR_MASK else 0) :: zlen (r_type r) ::
  (if short then [zlen (r_payload r)] else be32 (zlen (r_payload r))) ++
  record_head r ++ r_payload r.

Lemma flags_fields loc t i short :
  location loc -> 0 <= t < 8 -> (i = 0 \/ i = 8) ->
  let f := loc + t + i + if short : bool then 16 else 0 in
  Z.land f NDEF_RECORD_TNF_MASK = t /\ Z.land f NDEF_RECORD_LOCATION_MASK = loc /\
  ctrue (Z.land f NDEF_RECORD_SR_MASK) = short /\
  ctrue (Z.land f NDEF_RECORD_IL_MASK) = (0 <? i).
Proof.
  intros Hl Ht Hi. cbn zeta.
  assert (H : (Z.land (loc + t + i + if short then 16 else 0) 7 =? t) &&
    (Z.land (loc + t + i + if short then 16 else 0) 0xC0 =? loc) &&
    eqb (ctrue (Z.land (loc + t + i + if short then 16 else 0) 0x10)) short &&
    eqb (ctrue (Z.land (loc + t + i + if short then 16 else 0) 8)) (0 <? i) = true).
  { revert t Ht. apply (range_check _ 0 8).
    destruct Hl as [-> | [-> | [-> | ->]]], Hi as [-> | ->], short; done. }
  rewrite !andb_true_iff, !eqb_true_iff, !Z.eqb_eq in H. destruct_and! H. done.
Qed.

Lemma get_be32_be32 v : 0 <= v < 2 ^ 32 -> sys_get_be32 (be32 v) = v.
Proof.
  intros Hv. unfold be32. rewrite sys_get_be32_spec.
  pose proof (Z.div_mod v (2 ^ 8)). pose proof (Z.div_mod (v / 2 ^ 8) (2 ^ 8)).
  pose proof (Z.div_mod (v / 2 ^ 16) (2 ^ 8)).
  rewrite (Z.div_div v (2 ^ 8) (2 ^ 8)) in * by lia.
  rewrite (Z.div_div v (2 ^ 16) (2 ^ 8)) in * by lia. change (2 ^ 8 * 2 ^ 8) with (2 ^ 16) in *.
  change (2 ^ 16 * 2 ^ 8) with (2 ^ 24) in *.
  rewrite (Z.mod_small (v / 2 ^ 24)) by (split; [apply Z.div_pos; lia|apply Z.div_lt_upper_bound; lia]).
  change 256 with (2 ^ 8). lia.
Qed.

(** A descriptor that a received record leaves. *)
Lemma rd_ptr_seen b pos (l : list Z) :
  seen b pos l -> pos <= zlen b ->
  rd_ptr (if 0 <? zlen l then Some (drop (Z.to_nat pos) b) else None) (zlen l) = Ok l.
Proof.
  intros Hs Hp. unfold rd_ptr. destruct l as [|x l]; [done|]. cbn [length].
  destruct (Z.eqb_spec (Z.of_nat (S (length l))) 0); [lia|].
  destruct (Z.ltb_spec 0 (Z.of_nat (S (length l)))); [|lia].
  rewrite (seen_drop _ _ _ Hs). apply rd_block_start.
Qed.
Lemma length_record_form short loc r :
  zlen (record_form short loc r) =
    (if short then 3 else 6) + zlen (record_head r) + zlen (r_payload r).
Proof.
  unfold record_form. cbn [length]. rewrite !length_app. destruct short; cbn [length be32]; lia.
Qed.

(** A field of the record that may be empty. *)
Lemma field_ptr {A} (x : A) n pos :
  0 <= n ->
  (if 0 <? n then (Some x, pos + n) else (None, pos)) =
  (if 0 <? n then Some x else None, pos + n).
Proof. intros. destruct (Z.ltb_spec 0 n); [done|]. f_equal. lia. Qed.

Lemma parse_payload_length_spec (short : bool) data len flags n :
  ctrue (Z.land flags NDEF_RECORD_SR_MASK) = short ->
  seen data 2 (if short then [n] else be32 n) -> (if short then 3 else 6) <= len ->
  2 <= zlen data -> 0 <= n < 2 ^ 32 ->
  parse_payload_length data len flags 2 3 =
    Ok (n, if short then 3 else 6, if short then 3 else 6).
Proof.
  intros Hf Hs Hlen Hd Hn. unfold parse_payload_length. rewrite Hf.
  destruct short; [by rewrite (rd_seen0 _ _ _ _ Hs)|]. change (u32 _) with 6.
  destruct (Z.ltb_spec len 6); [lia|]. pose proof (rd_block_seen _ _ _ Hs) as Hr.
  cbn [length be32] in Hr. change (Z.of_nat 4) with 4 in Hr. rewrite Hr by lia. cstep.
  fold (be32 n). by rewrite get_be32_be32.
Qed.

Lemma parse_id_length_spec r data len flags pos :
  ctrue (Z.land flags NDEF_RECORD_IL_MASK) = (0 <? id_flag r) ->
  0 <= pos < 255 -> seen data pos (if 0 <? zlen (r_id r) then [zlen (r_id r)] else []) ->
  let k := if 0 <? zlen (r_id r) then 1 else 0 in
  pos + k <= len ->
  parse_id_length data len flags pos pos = Ok (zlen (r_id r), pos + k, pos + k).
Proof.
  intros Hf Hp Hs k Hlen. unfold parse_id_length, NDEF_RECORD_ID_LEN_SIZE, id_flag, k in *.
  rewrite Hf, u32_small by lia. destruct (Z.ltb_spec 0 (zlen (r_id r))).
  - change (0 <? NDEF_RECORD_IL_MASK) with true. cbn iota.
    destruct (Z.ltb_spec len (pos + 1)); [lia|]. by rewrite (rd_seen0 _ _ _ _ Hs).
  - change (0 <? 0) with false. cbn iota. f_equal. f_equal; [f_equal|]; lia.
Qed.

Lemma record_parse_spec short loc r data len :
  location loc -> record_ok r -> r_tnf r <> TNF_RESERVED ->
  (short = true -> zlen (r_payload r) < 256) ->
  seen data 0 (record_form short loc r) ->
  zlen (record_form short loc r) <= len <= zlen data -> len < 2 ^ 32 ->
  exists b d,
    nfc_ndef_record_parse data len = Ok (b, d, loc, zlen (record_form short loc r)) /\
    received d r.
Proof.
  intros Hloc (Htnf & Htb & Hib & Hempty & Hmax) Hres Hshort Hs Hlen H32.
  rewrite length_record_form in *. pose proof (length_record_head r) as Hlh.
  assert (Hif : id_flag r = 0 \/ id_flag r = 8) by (unfold id_flag; case_match; auto).
  destruct (flags_fields loc (r_tnf r) (id_flag r) short Hloc Htnf Hif) as (Ft & Fl & Fs & Fi).
  unfold record_form in Hs. apply seen_cons in Hs as [Hs0 Hs]. apply seen_cons in Hs as [Hs1 Hs].
  rewrite !seen_app in Hs. destruct Hs as (Hsn & Hsh & Hsp).
  unfold record_head in Hsh. rewrite !seen_app in Hsh. destruct Hsh as (Hsi & Hst & Hsd).
  change (0 + 1) with 1 in *. change (1 + 1) with 2 in *.
  unfold nfc_ndef_record_parse. change NDEF_RECORD_BASE_SHORT_LEN with 3.
  destruct (Z.ltb_spec len 3); [destruct short; lia|].
  rewrite (rd_seen0 _ _ _ _ Hs0). cstep. change NDEF_RECORD_SR_MASK with 16. rewrite Ft, Fl.
  rewrite (rd_seen0 _ _ _ _ Hs1). cstep.
  destruct (Z.eqb_spec (r_tnf r) TNF_RESERVED) as [|_]; [done|].
  rewrite (parse_payload_length_spec short _ _ _ _ Fs Hsn) by lia. cstep.
  set (n := if short then 3 else 6) in *.
  assert (Hn : 2 + zlen (if short then [zlen (r_payload r)] else be32 (zlen (r_payload r))) = n)
    by (by unfold n; destruct short).
  rewrite Hn in *. assert (3 <= n <= 6) by (unfold n; destruct short; lia). clearbody n.
  rewrite (parse_id_length_spec r _ _ _ _ Fi) by (done || lia). cstep.
  set (k := if 0 <? zlen (r_id r) then 1 else 0) in *.
  assert (Hk : zlen (if 0 <? zlen (r_id r) then [zlen (r_id r)] else []) = k)
    by (unfold k; by destruct (0 <? zlen (r_id r))).

  rewrite Hk in *. assert (0 <= k <= 1) by (unfold k; destruct (0 <? zlen (r_id r)); lia). clearbody k.
  rewrite (u32_small (zlen (r_type r) + _ + _)), u32_small by lia.
  destruct (Z.ltb_spec len (n + k + (zlen (r_type r) + zlen (r_id r) + zlen (r_payload r)))); [lia|].
  rewrite !field_ptr by lia. do 2 eexists. split; [f_equal; f_equal; lia|].
  cbn [payload_length bin_payload].
  replace (n + zlen (record_head r)) with (n + k + zlen (r_type r) + zlen (r_id r)) in Hsp by lia.
  assert (Hb : forall p, (if zlen (r_payload r) =? 0 then None else Some p) =
    (if 0 <? zlen (r_payload r) then Some p else None : option (list Z)))
    by (intros; destruct (Z.eqb_spec (zlen (r_payload r)) 0),
          (Z.ltb_spec 0 (zlen (r_payload r))); done || lia).
  rewrite Hb. pose proof (rd_ptr_seen _ _ _ Hsp ltac:(lia)) as Hbp.
  split; [|by eexists]. repeat split; cbn [tnf type_length id_length rec_type rec_id rec_payload].
  - by apply rd_ptr_seen; [|lia].
  - by apply rd_ptr_seen; [|lia].
  - intros _. eexists. split; [done|]. by apply bin_payload_builds.
Qed.

(** A field that lies in the data can be read. *)
Lemma rd_ptr_in data pos n :
  0 <= pos -> 0 <= n -> pos + n <= zlen data ->
  exists l, rd_ptr (if 0 <? n then Some (drop (Z.to_nat pos) data) else None) n = Ok l /\ zlen l = n.
Proof.
  intros Hp Hn Hl. exists (take (Z.to_nat n) (drop (Z.to_nat pos) data)).
  assert (Hlen : zlen (take (Z.to_nat n) (drop (Z.to_nat pos) data)) = n)
    by (rewrite length_take, length_drop; lia).
  split; [|done]. unfold rd_ptr. destruct (Z.eqb_spec n 0) as [->|]; [by change (Z.to_nat 0) with 0%nat|].
  destruct (Z.ltb_spec 0 n); [|lia]. rewrite rd_block_Ok by (rewrite ?length_drop; lia).
  change (Z.to_nat 0) with 0%nat. by rewrite drop_0.
Qed.

(** What a successful parse leaves: a size within the data and, unless the
    announced length of the payload is within 517 of [2 ^ 32], the description
    of a record that lies in the data. *)
Definition parsed_record (len : Z) (x : nfc_ndef_bin_payload_desc * nfc_ndef_record_desc * Z * Z) : Prop :=
  let '(b, d, loc, size) := x in
  location loc /\ 0 <= size <= len /\ rec_payload d = Some (Memcopy b) /\
  (payload_length b < 2 ^ 32 - 517 ->
   exists r, received d r /\
     3 + zlen (r_type r) + zlen (r_id r) + zlen (r_payload r) <= size).

Lemma location_land flags : byte flags -> location (Z.land flags NDEF_RECORD_LOCATION_MASK).
Proof.
  intros Hf. apply (bool_decide_unpack (location _)), Is_true_true.
  revert flags Hf. apply (byte_check (fun f =>
    bool_decide (location (Z.land f NDEF_RECORD_LOCATION_MASK)))). by vm_compute.
Qed.

Lemma parse_payload_length_post data len flags (Q : Z * Z * Z -> Prop) :
  bytes data -> 3 <= len <= zlen data ->
  (forall n pos, 0 <= n < 2 ^ 32 -> 3 <= pos <= 6 -> pos <= len -> Q (n, pos, pos)) ->
  post (parse_payload_length data len flags 2 NDEF_RECORD_BASE_SHORT_LEN) Q.
Proof.
  intros Hb Hl HQ. unfold parse_payload_length. change (u32 _) with 6.
  destruct (ctrue _); [|destruct (Z.ltb_spec len 6); [done|]]; apply post_bind.
  - apply post_rd_byte; [done|lia|]. intros v Hv. unfold bits in Hv. apply (HQ v 3); lia.
  - apply post_rd_block; [done|lia..|]. intros bs Hbs H4.
    destruct bs as [|a [|b [|c [|d []]]]]; try (cbn [length] in H4; lia).
    rewrite sys_get_be32_spec. decompose_Forall. unfold bits in *. apply (HQ _ 6); lia.
Qed.

Lemma parse_id_length_post data len flags pos (Q : Z * Z * Z -> Prop) :
  bytes data -> 3 <= pos <= 6 -> pos <= len <= zlen data ->
  (forall n pos', 0 <= n < 256 -> 3 <= pos' <= 7 -> pos' <= len -> Q (n, pos', pos')) ->
  post (parse_id_length data len flags pos pos) Q.
Proof.
  intros Hb Hp Hl HQ. unfold parse_id_length, NDEF_RECORD_ID_LEN_SIZE. rewrite u32_small by lia.
  destruct (ctrue _); [|by apply HQ; lia]. destruct (Z.ltb_spec len (pos + 1)); [done|].
  apply post_bind, post_rd_byte; [done|lia|]. intros v Hv. apply HQ; unfold bits in Hv; lia.
Qed.

Lemma record_parse_post data len :
  bytes data -> 0 <= len <= zlen data -> len < 2 ^ 32 ->
  post (nfc_ndef_record_parse data len) (parsed_record len).
Proof.
  intros Hb Hl H32. unfold nfc_ndef_record_parse. change NDEF_RECORD_BASE_SHORT_LEN with 3.
  destruct (Z.ltb_spec len 3); [done|].
  apply post_bind, post_rd_byte; [done|lia|]. intros flags Hf.
  apply post_bind, post_rd_byte; [done|lia|]. intros tl Htl. unfold bits in Htl.
  apply post_bind, parse_payload_length_post; [done|lia|]. intros n pos Hn Hpos Hpl.
  apply post_bind, parse_id_length_post; [done|lia..|]. intros il pos' Hil Hpos' Hpl'.
  pose proof (u32_range (pos' + u32 (tl + il + n))). destruct (Z.ltb_spec len (u32 (pos' + u32 (tl + il + n)))); [done|].
  rewrite !field_ptr by lia. cbn [post parsed_record payload_length bin_payload].
  split; [by apply location_land|]. split; [lia|]. split; [done|]. intros Hsmall.
  rewrite (u32_small (tl + il + n)), u32_small in * by lia.
  destruct (rd_ptr_in data pos' tl) as (t & Ht & Hlt); [lia..|].
  destruct (rd_ptr_in data (pos' + tl) il) as (i & Hi & Hli); [lia..|].
  destruct (rd_ptr_in data (pos' + tl + il) n) as (p & Hp & Hlp); [lia..|].
  replace (if 0 <? n then Some (drop (Z.to_nat (pos' + tl + il)) data) else None)
    with (if n =? 0 then None else Some (drop (Z.to_nat (pos' + tl + il)) data)) in Hp
    by (destruct (Z.eqb_spec n 0), (Z.ltb_spec 0 n); done || lia).
  eexists {| r_type := t; r_id := i; r_payload := p |}. 
  split; [|cbn [r_type r_id r_payload]; lia].
  split; [|eexists; cbn; by rewrite Hlp]. repeat split; cbn; try done. intros _. eexists. split; [done|].
  by apply bin_payload_builds; cbn; [|rewrite Hlp].
Qed.

(** Encoding a record. At a destination with enough room the octets of the
    record are stored and nothing behind them is touched; with less room an
    error is returned; without a destination the size is computed. The payload
    is whatever its constructor builds, so that records nest. *)
Theorem record_encode_builds (q : bool) (d : nfc_ndef_record_desc) (r : ndef_record) (loc : Z)
    (Hloc : location loc) (Hd : describes q d r) (Hr : record_ok r) :
  builds q (nfc_ndef_record_encode (Some d) loc) (record_octets loc r).
Proof. by apply record_encode_spec. Qed.

(** Parsing a record. The octets of a record in the long or the short form
    are accepted whatever follows them; the descriptor found describes the
    record, with its location and its size. *)
Theorem record_parse_forms (short : bool) (loc : Z) (r : ndef_record) (data : list Z) (len : Z)
    (Hloc : location loc) (Hr : record_ok r) (Hres : r_tnf r <> TNF_RESERVED)
    (Hshort : short = true -> zlen (r_payload r) < 256)
    (Hs : seen data 0 (record_form short loc r))
    (Hlen : zlen (record_form short loc r) <= len <= zlen data) (H32 : len < 2 ^ 32) :
  exists b d,
    nfc_ndef_record_parse data len = Ok (b, d, loc, zlen (record_form short loc r)) /\
    received d r.
Proof. by apply record_parse_spec. Qed.

(** Parsing any octets never reads outside of them, and what it accepts
    lies within them: the type, the identifier and the payload of the descriptor
    can be read, unless the announced length is within 517 of [2 ^ 32]. *)
Theorem record_parse_safe (data : list Z) (len : Z)
    (Hb : bytes data) (Hlen : 0 <= len <= zlen data) (H32 : len < 2 ^ 32) :
  post (nfc_ndef_record_parse data len) (parsed_record len).
Proof. by apply record_parse_post. Qed.

End Encode.

(** ** Instances *)

(** A text record with an identifier. *)
Definition record_sample : ndef_record :=
  {| r_tnf := TNF_WELL_KNOWN; r_type := chars "T"%string; r_id := chars "a1"%string; r_payload := 2 :: chars "enHello"%string |}.
Definition record_sample_desc : nfc_ndef_record_desc :=
  {| tnf := TNF_WELL_KNOWN; id_length := 2; rec_id := Some (chars "a1"%string);
     type_length := 1; rec_type := Some (chars "T"%string);
     rec_payload := Some (Memcopy
       {| bin_payload := Some (2 :: chars "enHello"%string); payload_length := 8 |}) |}.

Lemma record_sample_ok : record_ok record_sample.
Proof. by repeat split. Qed.
Lemma record_sample_described q : describes q record_sample_desc record_sample.
Proof.
  repeat split. intros _. eexists. split; [done|]. by apply bin_payload_builds.
Qed.

Lemma record_encode_builds_witness :
  builds true (nfc_ndef_record_encode (Some record_sample_desc) NDEF_LONE_RECORD)
    ([0xC9; 1; 0; 0; 0; 8; 2] ++ chars "Ta1"%string ++ 2 :: chars "enHello"%string).
Proof.
  apply (record_encode_builds true record_sample_desc record_sample NDEF_LONE_RECORD).
  - by repeat right.
  - apply record_sample_described.
  - apply record_sample_ok.
Defined.

Lemma record_parse_forms_witness :
  exists b d,
    nfc_ndef_record_parse (0xD9 :: 1 :: 8 :: 2 :: chars "Ta1"%string ++ 2 :: chars "enHello!!"%string) 17 =
      Ok (b, d, NDEF_LONE_RECORD, 15) /\ received d record_sample.
Proof.
  apply (record_parse_forms true NDEF_LONE_RECORD record_sample).
  - by repeat right.
  - apply record_sample_ok.
  - done.
  - done.
  - by split.
  - by split.
  - done.
Defined.

Lemma record_parse_safe_witness : post (nfc_ndef_record_parse [0x11; 200; 3; 84] 4) (parsed_record 4).
Proof. apply record_parse_safe; [|done|done]. by_compute. Defined.

(** The length of the payload is added to the sizes of the other fields in 32
    bits: a record of six octets that announces a payload of [2 ^ 32 - 6] octets
    is accepted, with a size of 0. *)
Lemma record_parse_length_wraps :
  (let* '(b, d, loc, size) := nfc_ndef_record_parse [0xC2; 0; 255; 255; 255; 250] 6 in
   Ok (payload_length b, size)) = Ok (2 ^ 32 - 6, 0).
Proof. reflexivity. Qed.
