(* ===== verification/NdefMsg.v ===== *)
(** * NDEF messages: msg.c, msg_parser.c and msg_parser_local.c of subsys/nfc/ndef

    A message is an array of pointers to record descriptors. Encoding it gives
    the records one after the other with their location flags, and is itself a
    payload constructor, for messages in records. Parsing it takes the memory of
    the descriptors from a buffer of the caller. *)

From stdpp Require Import prelude strings.
From Stdlib Require Import ZArith Lia.
From S2P Require Import Prelude NdefRecord.

Open Scope Z_scope.

(** The array of record pointers; a [None] in it is a null pointer. *)
Record nfc_ndef_msg_desc := {
  record : option (list (option nfc_ndef_record_desc));
  max_record_count : Z;
  record_count : Z
}.

(** Elements of an array that are not bytes. *)
Definition slot_get {A} (l : list A) (i : Z) : res A :=
  if i <? 0 then Fault else
  match l !! Z.to_nat i with Some x => Ok x | None => Fault end.
Definition slot_set {A} (l : list A) (i : Z) (x : A) : res (list A) :=
  if (0 <=? i) && (i <? zlen l) then Ok (<[Z.to_nat i := x]> l) else Fault.

Definition UINT32_MAX : Z := 2 ^ 32 - 1.

Definition record_location_get (index record_count : Z) : Z :=
  if index =? 0 then
    if record_count =? 1 then NDEF_LONE_RECORD else NDEF_FIRST_RECORD
  else if (index =? UINT32_MAX) || (record_count =? u32 (index + 1)) then NDEF_LAST_RECORD
  else NDEF_MIDDLE_RECORD.

Section Message.
  Context {BO : ByteOrder}.

(** The rounds of the loop from the [i]th record; [rounds] of them are left. *)
Fixpoint msg_encode_loop (rounds : nat) (records : list (option nfc_ndef_record_desc))
    (count i : Z) (msg_buffer : option (list Z)) (msg_len sum_of_len : Z)
    : res (option (list Z) * Z) :=
  match rounds with
  | O => Ok (msg_buffer, sum_of_len)
  | S rounds =>
    let* d := slot_get records i in
    let record_location := record_location_get i count in
    let temp_len := u32 (msg_len - sum_of_len) in
    let* '(msg_buffer, temp_len) :=
      match msg_buffer with
      | Some m =>
        let* '(m, n) := at_offset m sum_of_len (fun p =>
          let* '(p, n) := nfc_ndef_record_encode d record_location (Some p) temp_len in
          Ok (default [] p, n)) in
        Ok (Some m, n)
      | None => nfc_ndef_record_encode d record_location None temp_len
      end in
    msg_encode_loop rounds records count (u32 (i + 1)) msg_buffer msg_len (u32 (sum_of_len + temp_len))
  end.

Definition nfc_ndef_msg_encode (ndef_msg_desc : option nfc_ndef_msg_desc) : payload_constructor_t :=
  fun msg_buffer msg_len =>
    match ndef_msg_desc with
    | None => Err EINVAL
    | Some d =>
      match record d with
      | None => Err EINVAL
      | Some records =>
        msg_encode_loop (Z.to_nat (record_count d)) records (record_count d) 0 msg_buffer msg_len 0
      end
    end.

Definition nfc_ndef_msg_clear (msg : nfc_ndef_msg_desc) : nfc_ndef_msg_desc :=
  {| record := record msg; max_record_count := max_record_count msg; record_count := 0 |}.

Definition nfc_ndef_msg_record_add (msg : nfc_ndef_msg_desc) (rec : option nfc_ndef_record_desc)
    : res nfc_ndef_msg_desc :=
  if max_record_count msg <=? record_count msg then Err ENOSR
  else
    match record msg with
    | None => Fault
    | Some l =>
      let* l := slot_set l (record_count msg) rec in
      Ok {| record := Some l; max_record_count := max_record_count msg;
            record_count := u32 (record_count msg + 1) |}
    end.

(** The descriptor that a declaration with this macro leaves. *)
Definition NFC_NDEF_MSG_DEF (max_record_cnt : Z) : nfc_ndef_msg_desc :=
  {| record := Some (replicate (Z.to_nat max_record_cnt) None);
     max_record_count := max_record_cnt; record_count := 0 |}.

(** ** Parsing *)

(** The sizes of the structures, which the compiler chooses: a message
    descriptor, a pointer, a payload descriptor and a record descriptor. Each is
    a multiple of the alignment, so that the structures of a one-record and a
    two-record message have no padding. *)
Record layout := { sz_msg : Z; sz_ptr : Z; sz_bin : Z; sz_rec : Z }.

Definition nfc_ndef_msg_parser_msg_1 (ly : layout) : Z := sz_msg ly + sz_ptr ly + sz_bin ly + sz_rec ly.
Definition nfc_ndef_msg_parser_msg_2 (ly : layout) : Z :=
  sz_msg ly + 2 * sz_ptr ly + 2 * sz_bin ly + 2 * sz_rec ly.
Definition NFC_NDEF_MSG_PARSER_DELTA (ly : layout) : Z :=
  nfc_ndef_msg_parser_msg_2 ly - nfc_ndef_msg_parser_msg_1 ly.
Definition NFC_NDEF_PARSER_REQUIRED_MEM (ly : layout) (n : Z) : Z :=
  nfc_ndef_msg_parser_msg_1 ly + NFC_NDEF_MSG_PARSER_DELTA ly * u32 (n - 1).

(** The arrays carved out of the buffer. The message has pointers to the
    elements of [rec_descs], which are written once each; here it has the
    descriptors. *)
Record nfc_ndef_parser_memo_desc := {
  msg_desc : nfc_ndef_msg_desc;
  bin_pay_descs : list (option nfc_ndef_bin_payload_desc);
  rec_descs : list (option nfc_ndef_record_desc)
}.

(** Returns the arrays, empty, and the part of the buffer that is used. *)
Definition nfc_ndef_msg_parser_memo_resolve (ly : layout) (result_buf_len : Z)
    : res (nfc_ndef_parser_memo_desc * Z) :=
  if result_buf_len <? nfc_ndef_msg_parser_msg_1 ly then Err ENOMEM
  else
    let memory_last := result_buf_len - nfc_ndef_msg_parser_msg_1 ly in
    let max_rec_num := u32 (memory_last / NFC_NDEF_MSG_PARSER_DELTA ly + 1) in
    let record_desc_array := sz_msg ly in
    let bin_pay_desc := record_desc_array + max_rec_num * sz_ptr ly in
    let rec_desc := bin_pay_desc + max_rec_num * sz_bin ly in
    let end_ := rec_desc + max_rec_num * sz_rec ly in
    if result_buf_len <? end_ then Fault
    else
      Ok ({| msg_desc := {| record := Some (replicate (Z.to_nat max_rec_num) None);
                            max_record_count := max_rec_num; record_count := 0 |};
             bin_pay_descs := replicate (Z.to_nat max_rec_num) None;
             rec_descs := replicate (Z.to_nat max_rec_num) None |}, end_).

(** The loop; [k] is the element that [bin_pay_desc] and [rec_desc] point to.
    Returns the descriptors and the size of the message. *)
Fixpoint msg_parser_loop (fuel : nat) (memo : nfc_ndef_parser_memo_desc) (k : Z)
    (nfc_data : list Z) (nfc_data_len nfc_data_left : Z) : res (nfc_ndef_parser_memo_desc * Z) :=
  match fuel with
  | O => NoFuel
  | S fuel =>
    if 0 <? nfc_data_left then
      let* '(bin, rec, record_location, temp_nfc_data_len) :=
        nfc_ndef_record_parse nfc_data nfc_data_left in
      let* bins := slot_set (bin_pay_descs memo) k (Some bin) in
      let* recs := slot_set (rec_descs memo) k (Some rec) in
      let msg := msg_desc memo in
      if (if record_count msg =? 0 then
            negb (record_location =? NDEF_FIRST_RECORD) && negb (record_location =? NDEF_LONE_RECORD)
          else
            negb (record_location =? NDEF_MIDDLE_RECORD) && negb (record_location =? NDEF_LAST_RECORD))
      then Err EFAULT
      else
        let* msg := nfc_ndef_msg_record_add msg (Some rec) in
        let memo := {| msg_desc := msg; bin_pay_descs := bins; rec_descs := recs |} in
        let nfc_data_left := u32 (nfc_data_left - temp_nfc_data_len) in
        if (record_location =? NDEF_LAST_RECORD) || (record_location =? NDEF_LONE_RECORD) then
          Ok (memo, u32 (nfc_data_len - nfc_data_left))
        else if record_count msg =? max_record_count msg then Err ENOMEM
        else
          msg_parser_loop fuel memo (k + 1) (drop (Z.to_nat temp_nfc_data_len) nfc_data)
            nfc_data_len nfc_data_left
    else Err EFAULT
  end.

(** A round either ends the loop or adds a record, and the loop ends when the
    message is full. *)
Definition nfc_ndef_msg_parser_internal (memo : nfc_ndef_parser_memo_desc)
    (nfc_data : list Z) (nfc_data_len : Z) : res (nfc_ndef_parser_memo_desc * Z) :=
  msg_parser_loop (S (Z.to_nat (max_record_count (msg_desc memo)))) memo 0 nfc_data nfc_data_len nfc_data_len.

(** Returns the message, the used part of the buffer and the size of the
    message. *)
Definition nfc_ndef_msg_parse (ly : layout) (result_buf_len : Z) (raw_data : list Z) (raw_data_len : Z)
    : res (nfc_ndef_msg_desc * Z * Z) :=
  let* '(memo, result_buf_len) := nfc_ndef_msg_parser_memo_resolve ly result_buf_len in
  let* '(memo, raw_data_len) := nfc_ndef_msg_parser_internal memo raw_data raw_data_len in
  Ok (msg_desc memo, result_buf_len, raw_data_len).

(** ** What a message is *)

(** The octets of the records [rs] of a message from the [i]th of [n] on. *)
Fixpoint msg_octets_from (i n : Z) (rs : list ndef_record) : list Z :=
  match rs with
  | [] => []
  | r :: rs => record_octets (record_location_get i n) r ++ msg_octets_from (i + 1) n rs
  end.
Definition msg_octets (rs : list ndef_record) : list Z := msg_octets_from 0 (zlen rs) rs.

(** The descriptor of a message holds descriptors [ds]. *)
Definition holds_records (d : nfc_ndef_msg_desc) (ds : list nfc_ndef_record_desc) : Prop :=
  record_count d = zlen ds /\
  exists slots, record d = Some slots /\ take (length ds) slots = Some <$> ds.

(** A descriptor describes the message of the records [rs], or is one that the
    parser leaves for it. *)
Definition describes_msg (q : bool) (d : nfc_ndef_msg_desc) (rs : list ndef_record) : Prop :=
  exists ds, holds_records d ds /\ Forall2 (describes q) ds rs.
Definition received_msg (d : nfc_ndef_msg_desc) (rs : list ndef_record) : Prop :=
  exists ds, holds_records d ds /\ Forall2 received ds rs.

Lemma received_describes_msg {q} d rs : received_msg d rs -> describes_msg q d rs.
Proof.
  intros (ds & Hd & Hds). exists ds. split; [done|]. eapply Forall2_impl; [exact Hds|].
  intros ?? [? _]. by apply describes_weaken.
Qed.

Lemma record_location_get_location i n : location (record_location_get i n).
Proof. unfold record_location_get, location. repeat case_match; auto. Qed.

Lemma slot_get_Ok {A} (l : list A) i x : 0 <= i -> l !! Z.to_nat i = Some x -> slot_get l i = Ok x.
Proof. intros Hi Hx. unfold slot_get. rewrite Hx. by destruct (Z.ltb_spec i 0); [lia|]. Qed.

(** A message that is filled: its array has room for [cap] records. *)
Definition filled (d : nfc_ndef_msg_desc) (ds : list nfc_ndef_record_desc) (cap : Z) : Prop :=
  holds_records d ds /\ max_record_count d = cap /\ cap < 2 ^ 32 /\
  exists slots, record d = Some slots /\ zlen slots = cap.

Lemma filled_empty cap : 0 <= cap < 2 ^ 32 -> filled (NFC_NDEF_MSG_DEF cap) [] cap.
Proof.
  intros Hc. split; [split; [done|by eexists]|]. split; [done|]. split; [lia|].
  eexists. split; [done|]. rewrite length_replicate. lia.
Qed.

Lemma record_add_spec d ds cap rec :
  filled d ds cap ->
  if zlen ds <? cap
  then exists d', nfc_ndef_msg_record_add d (Some rec) = Ok d' /\ filled d' (ds ++ [rec]) cap
  else nfc_ndef_msg_record_add d (Some rec) = Err ENOSR.
Proof.
  intros ((Hc & slots & Hs & Ht) & Hmax & H32 & slots' & Hs' & Hl).
  rewrite Hs in Hs'. injection Hs' as <-. unfold nfc_ndef_msg_record_add. rewrite Hmax, Hc, Hs.
  destruct (Z.leb_spec cap (zlen ds)), (Z.ltb_spec (zlen ds) cap); try done; try lia.
  unfold slot_set. destruct (Z.leb_spec 0 (zlen ds)), (Z.ltb_spec (zlen ds) (zlen slots)); try lia.
  cbn [andb]. cstep. eexists. split; [done|]. rewrite Nat2Z.id, u32_small by lia.
  split; [split; cbn [record_count record]|].
  - rewrite length_app. cbn. lia.
  - eexists. split; [done|]. rewrite (insert_take_drop slots) by lia.
    rewrite fmap_app, Ht, length_app, cons_middle, app_assoc. apply take_app_length'.
    rewrite !length_app, length_fmap. done.
  - split; [done|]. split; [done|]. eexists. split; [done|]. by rewrite length_insert.
Qed.

(** The slots from the [i]th on that hold descriptors of records. *)
Definition slots_hold (q : bool) (slots : list (option nfc_ndef_record_desc)) (i : Z) (rs : list ndef_record) : Prop :=
  0 <= i /\ i + zlen rs < 2 ^ 32 /\
  exists ds, Forall2 (describes q) ds rs /\ take (length rs) (drop (Z.to_nat i) slots) = Some <$> ds.

Lemma slots_hold_cons {q} slots i r rs :
  slots_hold q slots i (r :: rs) ->
  (exists d, describes q d r /\ slot_get slots i = Ok (Some d)) /\
  u32 (i + 1) = i + 1 /\ slots_hold q slots (i + 1) rs.
Proof.
  intros (Hi & Hn & ds & Hds & Hsl). cbn [length] in *.
  apply Forall2_cons_inv_r in Hds as (d & ds' & Hd & Hds & ->).
  destruct (drop (Z.to_nat i) slots) as [|x sl] eqn:Edrop; [done|].
  cbn in Hsl. injection Hsl as -> Hsl. split; [|split].
  - exists d. split; [done|]. apply slot_get_Ok; [done|].
    by rewrite <- (Nat.add_0_r (Z.to_nat i)), <- lookup_drop, Edrop.
  - apply u32_small. lia.
  - split; [lia|]. split; [lia|]. exists ds'. split; [done|].
    rewrite Z2Nat.inj_add by lia. change (Z.to_nat 1) with 1%nat. by rewrite <- drop_drop, Edrop.
Qed.

(** The rest of the loop builds the octets of the records left: it appends them
    to what is already there, fails if they do not fit, or adds their sizes. *)
Lemma msg_encode_loop_put {q} rs : forall slots n i e m len,
  Forall record_ok rs -> slots_hold q slots i rs ->
  zlen e + zlen (msg_octets_from i n rs) <= len <= zlen (e ++ m) -> len < 2 ^ 32 ->
  msg_encode_loop (length rs) slots n i (Some (e ++ m)) len (zlen e) =
    Ok (Some (e ++ msg_octets_from i n rs ++ drop (length (msg_octets_from i n rs)) m),
        zlen (e ++ msg_octets_from i n rs)).
Proof.
  induction rs as [|r rs IH]; intros slots n i e m len Hok Hsl Hlen H32.
  { cbn. by rewrite drop_0, app_nil_r. }
  apply Forall_cons in Hok as [Hr Hok].
  apply slots_hold_cons in Hsl as ((d & Hd & Hget) & Hu & Hsl).
  cbn [length msg_octets_from msg_encode_loop] in *. rewrite !length_app in *.
  rewrite Hget, Hu. cstep. rewrite at_offset_app by done.
  destruct (record_encode_spec d r _ (record_location_get_location i n) Hd Hr) as (Hput & _ & _).
  rewrite (u32_small (len - zlen e)), Hput by lia. cstep. cbn [default from_option id].
  rewrite app_assoc, u32_small, <- Nat2Z.inj_add, <- length_app by lia.
  rewrite IH; try done; rewrite ?length_app, ?length_drop; try lia.
  by rewrite <- !app_assoc, drop_drop, Nat.add_assoc.
Qed.

Lemma msg_encode_loop_full {q} rs : forall slots n i e m len,
  Forall record_ok rs -> slots_hold q slots i rs ->
  zlen e <= len < zlen e + zlen (msg_octets_from i n rs) -> len <= zlen (e ++ m) -> len < 2 ^ 32 ->
  exists err, msg_encode_loop (length rs) slots n i (Some (e ++ m)) len (zlen e) = Err err.
Proof.
  induction rs as [|r rs IH]; intros slots n i e m len Hok Hsl Hlen Hm H32.
  { cbn in Hlen. lia. }
  apply Forall_cons in Hok as [Hr Hok].
  apply slots_hold_cons in Hsl as ((d & Hd & Hget) & Hu & Hsl).
  cbn [length msg_octets_from msg_encode_loop] in *. rewrite !length_app in *.
  rewrite Hget, Hu. cstep. rewrite at_offset_app by done.
  destruct (record_encode_spec d r _ (record_location_get_location i n) Hd Hr) as (Hput & Hfail & _).
  rewrite (u32_small (len - zlen e)) by lia.
  destruct (Z.lt_ge_cases (len - zlen e) (zlen (record_octets (record_location_get i n) r))) as [Hc|Hc].
  - edestruct Hfail as [err ->]; [| |by eexists]; lia.
  - rewrite Hput by lia. cstep. cbn [default from_option id].
    rewrite app_assoc, u32_small, <- Nat2Z.inj_add, <- length_app by lia.
    apply IH; try done; rewrite ?length_app, ?length_drop; lia.
Qed.

Lemma msg_encode_loop_size {q} rs : forall slots n i len sum,
  Forall record_ok rs -> slots_hold q slots i rs -> 0 <= sum ->
  sum + zlen (msg_octets_from i n rs) < 2 ^ 32 -> q = true ->
  msg_encode_loop (length rs) slots n i None len sum = Ok (None, sum + zlen (msg_octets_from i n rs)).
Proof.
  induction rs as [|r rs IH]; intros slots n i len sum Hok Hsl Hs Hm Hq.
  { cbn. by rewrite Z.add_0_r. }
  apply Forall_cons in Hok as [Hr Hok].
  apply slots_hold_cons in Hsl as ((d & Hd & Hget) & Hu & Hsl).
  cbn [length msg_octets_from msg_encode_loop] in *. rewrite !length_app in *.
  rewrite Hget, Hu. cstep.
  destruct (record_encode_spec d r _ (record_location_get_location i n) Hd Hr) as (_ & _ & Hsize).
  rewrite (Hsize Hq). cstep. rewrite u32_small, IH by (done || lia). do 2 f_equal. lia.
Qed.

Lemma msg_encode_spec {q} d rs :
  describes_msg q d rs -> Forall record_ok rs -> zlen rs < 2 ^ 32 -> zlen (msg_octets rs) < 2 ^ 32 ->
  builds q (nfc_ndef_msg_encode (Some d)) (msg_octets rs).
Proof.
  intros (ds & (Hc & slots & Hslots & Htake) & Hds) Hok Hn Hmax.
  rewrite (Forall2_length _ _ _ Hds) in *.
  unfold nfc_ndef_msg_encode. rewrite Hslots, Hc, Nat2Z.id.
  assert (Hsl : slots_hold q slots 0 rs)
    by (split; [lia|]; split; [lia|]; exists ds; by rewrite drop_0).
  split; [|split].
  - intros m len Hlen H32. apply (msg_encode_loop_put (q := q) _ _ _ _ []); done.
  - intros m len Hlen Hm. apply (msg_encode_loop_full (q := q) _ _ _ _ []); try done.
    unfold msg_octets in *. lia.
  - intros Hq len. by rewrite (msg_encode_loop_size (q := q)).
Qed.

(** ** Messages that are received *)

(** The octets of the records of a message, each in the form chosen for it. *)
Fixpoint msg_form_from (i n : Z) (frs : list (bool * ndef_record)) : list Z :=
  match frs with
  | [] => []
  | (short, r) :: frs => record_form short (record_location_get i n) r ++ msg_form_from (i + 1) n frs
  end.
Definition msg_form (frs : list (bool * ndef_record)) : list Z := msg_form_from 0 (zlen frs) frs.

(** A record that can be received in the chosen form. *)
Definition form_ok (fr : bool * ndef_record) : Prop :=
  record_ok (fr.2) /\ r_tnf (fr.2) <> TNF_RESERVED /\
  (fr.1 = true -> zlen (r_payload (fr.2)) < 256).

(** The arrays of the parser when [k] records have been added to the message. *)
Definition memo_at (memo : nfc_ndef_parser_memo_desc) (k : Z)
    (slots : list (option nfc_ndef_record_desc)) : Prop :=
  record (msg_desc memo) = Some slots /\ record_count (msg_desc memo) = k /\
  max_record_count (msg_desc memo) = zlen slots /\
  length (bin_pay_descs memo) = length slots /\ length (rec_descs memo) = length slots /\
  zlen slots < 2 ^ 32.

(** The check of the location flags. *)
Definition location_expected (k loc : Z) : bool :=
  if k =? 0 then (loc =? NDEF_FIRST_RECORD) || (loc =? NDEF_LONE_RECORD)
  else (loc =? NDEF_MIDDLE_RECORD) || (loc =? NDEF_LAST_RECORD).
Definition location_last (loc : Z) : bool :=
  (loc =? NDEF_LAST_RECORD) || (loc =? NDEF_LONE_RECORD).

Lemma slot_set_Ok {A} (l : list A) i x :
  0 <= i < zlen l -> slot_set l i x = Ok (<[Z.to_nat i := x]> l).
Proof.
  intros Hi. unfold slot_set. destruct (Z.leb_spec 0 i), (Z.ltb_spec i (zlen l)); done || lia.
Qed.

(** One round of the loop that finds a record. *)
Lemma msg_parser_round fuel memo k slots data len left b d loc size :
  memo_at memo k slots -> 0 <= k < zlen slots -> 0 < left ->
  nfc_ndef_record_parse data left = Ok (b, d, loc, size) ->
  exists memo', memo_at memo' (k + 1) (<[Z.to_nat k := Some d]> slots) /\
    msg_parser_loop (S fuel) memo k data len left =
      if negb (location_expected k loc) then Err EFAULT
      else if location_last loc then
        Ok (memo', u32 (len - u32 (left - size)))
      else if k + 1 =? zlen slots then Err ENOMEM
      else msg_parser_loop fuel memo' (k + 1) (drop (Z.to_nat size) data) len (u32 (left - size)).
Proof.
  intros (Hr & Hc & Hmax & Hlb & Hlr & H32) Hk Hleft Hparse. eexists.
  split; cycle 1.
  - cbn [msg_parser_loop]. destruct (Z.ltb_spec 0 left); [|lia]. rewrite Hparse. cstep.
    rewrite !slot_set_Ok by lia. cstep. unfold nfc_ndef_msg_record_add. rewrite Hc, Hmax, Hr.
    destruct (Z.leb_spec (zlen slots) k); [lia|]. rewrite slot_set_Ok by lia. cstep.
    cbn [record_count max_record_count]. rewrite (u32_small (k + 1)) by lia.
    unfold location_expected, location_last. destruct (k =? 0); by rewrite <- negb_orb.
  - unfold memo_at. cbn [msg_desc record record_count max_record_count bin_pay_descs rec_descs].
    rewrite !length_insert. done.
Qed.

Lemma location_get_expected k n : 0 <= k < n -> n < 2 ^ 32 ->
  location_expected k (record_location_get k n) = true /\
  location_last (record_location_get k n) = (k + 1 =? n).
Proof.
  intros Hk Hn. unfold location_expected, location_last, record_location_get, UINT32_MAX.
  rewrite u32_small by lia.
  destruct (Z.eqb_spec k 0) as [->|].
  - by destruct (Z.eqb_spec n 1), (Z.eqb_spec (0 + 1) n); try lia.
  - by destruct (Z.eqb_spec k (2 ^ 32 - 1)), (Z.eqb_spec n (k + 1)), (Z.eqb_spec (k + 1) n); try lia.
Qed.

(** Slots filled one after the other. *)
Lemma slots_insert_app {A} (slots : list A) k x ys :
  (k < length slots)%nat ->
  take (S k) (<[k := x]> slots) ++ ys ++ drop (S k + length ys) (<[k := x]> slots) =
  take k slots ++ (x :: ys) ++ drop (k + S (length ys)) slots.
Proof.
  intros Hk. assert (Hi : <[k := x]> slots = (take k slots ++ [x]) ++ drop (S k) slots)
    by (rewrite (insert_take_drop slots k x Hk); by rewrite <- app_assoc).
  rewrite <- drop_drop, Hi.
  assert (Hl : length (take k slots ++ [x]) = S k) by (rewrite length_app, length_take; cbn; lia).
  rewrite take_app_length', drop_app_length' by (by rewrite Hl). rewrite drop_drop.
  rewrite <- app_assoc. cbn. by rewrite Nat.add_succ_r.
Qed.

(** Reading the message: each record is added in turn, until the last one or
    until there is no place for the next. *)
Lemma msg_parser_loop_spec frs : forall fuel memo k slots data len left,
  Forall form_ok frs -> frs <> [] -> zlen slots - k < Z.of_nat fuel ->
  memo_at memo k slots -> 0 <= k < zlen slots -> k + zlen frs < 2 ^ 32 ->
  let f := msg_form_from k (k + zlen frs) frs in
  seen data 0 f -> zlen f <= left <= zlen data -> left < 2 ^ 32 ->
  if k + zlen frs <=? zlen slots then
    exists memo' ds, Forall2 received ds frs.*2 /\
      memo_at memo' (k + zlen frs)
        (take (Z.to_nat k) slots ++ (Some <$> ds) ++ drop (Z.to_nat k + length frs) slots) /\
      msg_parser_loop fuel memo k data len left = Ok (memo', u32 (len - (left - zlen f)))
  else msg_parser_loop fuel memo k data len left = Err ENOMEM.
Proof.
  induction frs as [|[short r] frs IH]; intros fuel memo k slots data len left Hok Hne Hfuel
    Hm Hk Hn f Hs Hleft H32; [done|].
  apply Forall_cons in Hok as [(Hr & Hres & Hsh) Hok]. cbn [fst snd length] in *.
  destruct fuel as [|fuel]; [lia|]. subst f. cbn [msg_form_from] in *.
  set (n := k + Z.of_nat (S (length frs))) in *. rewrite length_app in *.
  apply seen_app in Hs as [Hs Hs'].
  destruct (location_get_expected k n) as [He Hlast]; [unfold n in *; lia..|].
  pose proof (record_location_get_location k n) as Hloc.
  pose proof (length_record_form short (record_location_get k n) r) as Ho.
  set (o := record_form short (record_location_get k n) r) in *.
  destruct (record_parse_spec short _ r data left Hloc Hr Hres Hsh Hs) as (b & d & Hp & Hd);
    [fold o; lia|done|]. fold o in Hp.
  assert (0 < zlen o) by (rewrite Ho; destruct short; lia). clear Ho. clearbody o.
  destruct (msg_parser_round fuel memo k slots data len left _ _ _ _ Hm Hk ltac:(lia) Hp)
    as (memo' & Hm' & ->).
  rewrite He, Hlast, (u32_small (left - zlen o)) by lia. cbn [negb].
  assert (Hnk : k + 1 + zlen frs = n) by (unfold n; lia).
  assert (Hins : <[Z.to_nat k:=Some d]> slots =
    take (Z.to_nat k) slots ++ Some d :: drop (S (Z.to_nat k)) slots)
    by (apply insert_take_drop; lia).
  destruct (Z.eqb_spec (k + 1) n) as [E|E].
  { destruct frs; [|cbn [length] in *; lia]. rewrite (proj2 (Z.leb_le n (zlen slots))) by lia.
    exists memo', [d]. split; [by constructor|]. rewrite <- E. cbn [length msg_form_from].
    split; [|do 3 f_equal; lia]. cbn. rewrite Nat.add_1_r. by rewrite <- Hins. }
  destruct (Z.eqb_spec (k + 1) (zlen slots)) as [E'|E'].
  { destruct (Z.leb_spec n (zlen slots)); [lia|done]. }
  specialize (IH fuel memo' (k + 1) (<[Z.to_nat k:=Some d]> slots) (drop (Z.to_nat (zlen o)) data) len (left - zlen o) Hok).
  rewrite length_insert, Hnk in IH. rewrite Nat2Z.id in *.
  assert (Hdrop : seen (drop (length o) data) 0 (msg_form_from (k + 1) n frs)).
  { rewrite <- (Nat2Z.id (length o)). apply seen_shift; [lia..|]. by rewrite Z.add_0_r. }
  assert (Hne' : frs <> []) by (intros ->; cbn in *; lia).
  specialize (IH Hne' ltac:(lia) Hm' ltac:(lia) ltac:(lia) Hdrop
    ltac:(rewrite length_drop; lia) ltac:(lia)).
  destruct (Z.leb_spec n (zlen slots)); [|exact IH].
  destruct IH as (memo'' & ds & Hds & Hm'' & Heq). exists memo'', (d :: ds).
  split; [by constructor|]. split; [|rewrite Heq; do 3 f_equal; lia].
  replace (Z.to_nat (k + 1)) with (S (Z.to_nat k)) in Hm'' by lia.
  assert (Hlf : length frs = length (Some <$> ds))
    by (rewrite length_fmap, (Forall2_length _ _ _ Hds); by rewrite length_fmap).
  rewrite Hlf, slots_insert_app, <- Hlf in Hm'' by lia. exact Hm''.
Qed.


(** A descriptor of a record that can be read: its type, its identifier and its
    payload lie in the octets that were parsed. *)
Definition readable (o : option nfc_ndef_record_desc) : Prop :=
  exists d b, o = Some d /\ rec_payload d = Some (Memcopy b) /\ (payload_length b < 2 ^ 32 - 517 -> exists r, received d r).

Lemma readable_next (slots : list (option nfc_ndef_record_desc)) k o :
  0 <= k < zlen slots -> readable o -> Forall readable (take (Z.to_nat k) slots) ->
  Forall readable (take (Z.to_nat (k + 1)) (<[Z.to_nat k := o]> slots)).
Proof.
  intros Hk Ho Hf. replace (Z.to_nat (k + 1)) with (S (Z.to_nat k)) by lia.
  rewrite (take_S_r _ _ o), take_insert_ge by (rewrite ?list_lookup_insert_eq; lia || done).
  apply Forall_app. by split; [|constructor].
Qed.

Lemma msg_parser_loop_post fuel : forall memo k slots data len left,
  memo_at memo k slots -> 0 <= k < zlen slots -> zlen slots - k < Z.of_nat fuel ->
  bytes data -> 0 <= left <= zlen data -> left <= len < 2 ^ 32 ->
  post (msg_parser_loop fuel memo k data len left) (fun '(memo', n) =>
    exists k' slots', memo_at memo' k' slots' /\ k < k' <= zlen slots /\
      length slots' = length slots /\ 0 <= n <= len /\
      (Forall readable (take (Z.to_nat k) slots) -> Forall readable (take (Z.to_nat k') slots'))).
Proof.
  induction fuel as [|fuel IH]; intros memo k slots data len left Hm Hk Hfuel Hb Hleft Hlen; [lia|].
  destruct (Z.ltb_spec 0 left) as [Hl|Hl].
  2: { cbn [msg_parser_loop]. by rewrite (proj2 (Z.ltb_ge 0 left)). }
  pose proof (record_parse_post data left Hb Hleft ltac:(lia)) as Hp.
  destruct (nfc_ndef_record_parse data left) as [[[[b d] loc] size]|e| |] eqn:Ep; [|cbn [msg_parser_loop];
    by rewrite (proj2 (Z.ltb_lt 0 left)), Ep|done..].
  destruct Hp as (_ & Hsize & Hpay & Hrec).
  assert (Hd : readable (Some d)) by (exists d, b; split; [done|]; split; [done|]; intros Hb'; destruct (Hrec Hb') as (r & Hr & _); by exists r).
  destruct (msg_parser_round fuel memo k slots data len left b d loc size Hm Hk Hl Ep) as (memo' & Hm' & ->).
  rewrite (u32_small (left - size)) by lia.
  destruct (location_expected k loc); [cbn [negb]|done].
  destruct (location_last loc).
  { exists (k + 1), (<[Z.to_nat k:=Some d]> slots). rewrite length_insert, u32_small by lia.
    split; [done|]. split; [lia|]. split; [done|]. split; [lia|]. by apply readable_next. }
  destruct (Z.eqb_spec (k + 1) (zlen slots)); [done|].
  eapply post_impl; [apply (IH memo' (k + 1) _ _ _ _ Hm'); rewrite ?length_insert, ?length_drop; try lia;
    by apply Forall_drop|].
  intros [memo'' n'] (k' & slots' & Hm'' & Hk' & Hl' & Hn' & Hf'). rewrite length_insert in *.
  exists k', slots'. split; [done|]. split; [lia|]. split; [done|]. split; [done|]. intros Hf. apply Hf'. by apply readable_next.
Qed.

(** ** The memory of the descriptors *)

Definition layout_ok (ly : layout) : Prop :=
  0 < sz_msg ly /\ 0 < sz_ptr ly /\ 0 < sz_bin ly /\ 0 < sz_rec ly.

(** The number of records the buffer has room for. *)
Definition capacity (ly : layout) (buf_len : Z) : Z :=
  (buf_len - nfc_ndef_msg_parser_msg_1 ly) / NFC_NDEF_MSG_PARSER_DELTA ly + 1.

Lemma required_mem_pos ly n : layout_ok ly -> 0 < NFC_NDEF_PARSER_REQUIRED_MEM ly n.
Proof.
  intros (? & ? & ? & ?). unfold NFC_NDEF_PARSER_REQUIRED_MEM, NFC_NDEF_MSG_PARSER_DELTA,
    nfc_ndef_msg_parser_msg_1, nfc_ndef_msg_parser_msg_2. pose proof (u32_range (n - 1)). nia.
Qed.

Lemma capacity_required ly buf_len n :
  layout_ok ly -> 1 <= n < 2 ^ 32 ->
  NFC_NDEF_PARSER_REQUIRED_MEM ly n <= buf_len <-> n <= capacity ly buf_len.
Proof.
  intros Hly Hn. unfold NFC_NDEF_PARSER_REQUIRED_MEM, capacity. rewrite u32_small by lia.
  assert (0 < NFC_NDEF_MSG_PARSER_DELTA ly)
    by (destruct Hly; unfold NFC_NDEF_MSG_PARSER_DELTA, nfc_ndef_msg_parser_msg_1, nfc_ndef_msg_parser_msg_2; lia).
  set (D := NFC_NDEF_MSG_PARSER_DELTA ly) in *. set (s1 := nfc_ndef_msg_parser_msg_1 ly).
  split; intros Hc.
  - apply (Z.div_le_mono _ _ D) in Hc as Hc'; [|done].
    enough (n - 1 <= (buf_len - s1) / D) by lia. apply Z.div_le_lower_bound; lia.
  - pose proof (Z.mul_div_le (buf_len - s1) D). nia.
Qed.

Lemma memo_resolve_spec ly buf_len :
  layout_ok ly -> buf_len < 2 ^ 32 ->
  if buf_len <? nfc_ndef_msg_parser_msg_1 ly
  then nfc_ndef_msg_parser_memo_resolve ly buf_len = Err ENOMEM
  else exists memo, memo_at memo 0 (replicate (Z.to_nat (capacity ly buf_len)) None) /\
    1 <= capacity ly buf_len < 2 ^ 32 /\
    nfc_ndef_msg_parser_memo_resolve ly buf_len =
      Ok (memo, NFC_NDEF_PARSER_REQUIRED_MEM ly (capacity ly buf_len)) /\
    NFC_NDEF_PARSER_REQUIRED_MEM ly (capacity ly buf_len) <= buf_len.
Proof.
  intros Hly H32. unfold nfc_ndef_msg_parser_memo_resolve.
  destruct (Z.ltb_spec buf_len (nfc_ndef_msg_parser_msg_1 ly)); [done|].
  fold (capacity ly buf_len).
  assert (Hc : 1 <= capacity ly buf_len < 2 ^ 32).
  { unfold capacity. destruct Hly as (? & ? & ? & ?).
    assert (1 < NFC_NDEF_MSG_PARSER_DELTA ly) by (unfold NFC_NDEF_MSG_PARSER_DELTA,
      nfc_ndef_msg_parser_msg_1, nfc_ndef_msg_parser_msg_2; lia).
    unfold nfc_ndef_msg_parser_msg_1 in *.
    pose proof (Z.div_pos (buf_len - (sz_msg ly + sz_ptr ly + sz_bin ly + sz_rec ly)) (NFC_NDEF_MSG_PARSER_DELTA ly)).
    pose proof (Z.div_lt_upper_bound (buf_len - (sz_msg ly + sz_ptr ly + sz_bin ly + sz_rec ly)) (NFC_NDEF_MSG_PARSER_DELTA ly) (2 ^ 32 - 1)).
    nia. }
  assert (Hreq := proj2 (capacity_required ly buf_len (capacity ly buf_len) Hly ltac:(lia)) ltac:(lia)).
  rewrite (u32_small (capacity ly buf_len)) by lia.
  assert (He : sz_msg ly + capacity ly buf_len * sz_ptr ly + capacity ly buf_len * sz_bin ly +
    capacity ly buf_len * sz_rec ly = NFC_NDEF_PARSER_REQUIRED_MEM ly (capacity ly buf_len)).
  { unfold NFC_NDEF_PARSER_REQUIRED_MEM. rewrite u32_small by lia. unfold NFC_NDEF_MSG_PARSER_DELTA,
      nfc_ndef_msg_parser_msg_1, nfc_ndef_msg_parser_msg_2. lia. }
  rewrite He. destruct (Z.ltb_spec buf_len (NFC_NDEF_PARSER_REQUIRED_MEM ly (capacity ly buf_len))); [lia|].
  eexists. split; cycle 1. { split; [done|]. split; [reflexivity|done]. }
  unfold memo_at. cbn. rewrite !length_replicate. repeat split; lia.
Qed.

Lemma msg_form_from_length i n frs : zlen frs <= zlen (msg_form_from i n frs).
Proof.
  revert i. induction frs as [|[short r] frs IH]; intros i; [done|].
  cbn [msg_form_from length]. specialize (IH (i + 1)). rewrite length_app.
  pose proof (length_record_form short (record_location_get i n) r). destruct short; lia.
Qed.

Lemma msg_parse_spec ly buf_len frs data len :
  layout_ok ly -> buf_len < 2 ^ 32 -> frs <> [] -> Forall form_ok frs ->
  seen data 0 (msg_form frs) -> zlen (msg_form frs) <= len <= zlen data -> len < 2 ^ 32 ->
  if NFC_NDEF_PARSER_REQUIRED_MEM ly (zlen frs) <=? buf_len then
    exists msg used, nfc_ndef_msg_parse ly buf_len data len = Ok (msg, used, zlen (msg_form frs)) /\
      received_msg msg frs.*2 /\ used <= buf_len
  else nfc_ndef_msg_parse ly buf_len data len = Err ENOMEM.
Proof.
  intros Hly Hbuf Hne Hok Hs Hlen H32. unfold nfc_ndef_msg_parse.
  assert (Hn : 1 <= zlen frs < 2 ^ 32).
  { pose proof (msg_form_from_length 0 (zlen frs) frs). unfold msg_form in *.
    destruct frs; [done|cbn [length] in *; lia]. }
  pose proof (capacity_required ly buf_len (zlen frs) Hly Hn) as Hcap.
  pose proof (memo_resolve_spec ly buf_len Hly Hbuf) as Hres.
  destruct (Z.ltb_spec buf_len (nfc_ndef_msg_parser_msg_1 ly)) as [Hsmall|Hbig].
  { rewrite Hres. destruct (Z.leb_spec (NFC_NDEF_PARSER_REQUIRED_MEM ly (zlen frs)) buf_len); [|done].
    unfold NFC_NDEF_PARSER_REQUIRED_MEM in *. rewrite u32_small in * by lia.
    destruct Hly. unfold NFC_NDEF_MSG_PARSER_DELTA, nfc_ndef_msg_parser_msg_1, nfc_ndef_msg_parser_msg_2 in *. nia. }
  destruct Hres as (memo & Hm & Hc & -> & Hused). cstep. unfold nfc_ndef_msg_parser_internal.
  set (slots := replicate (Z.to_nat (capacity ly buf_len)) None) in *.
  assert (Hsl : zlen slots = capacity ly buf_len) by (unfold slots; rewrite length_replicate; lia).
  pose proof Hm as (_ & _ & Hmax & _). rewrite Hmax.
  pose proof (msg_parser_loop_spec frs (S (Z.to_nat (zlen slots))) memo 0 slots data len len Hok Hne
    ltac:(lia) Hm ltac:(lia) ltac:(lia) Hs Hlen H32) as Hloop. cbn zeta in Hloop.
  rewrite Hsl, Z.add_0_l in *. fold (msg_form frs) in Hloop.
  destruct (Z.leb_spec (NFC_NDEF_PARSER_REQUIRED_MEM ly (zlen frs)) buf_len) as [Hfit|Hfit],
    (Z.leb_spec (zlen frs) (capacity ly buf_len)) as [Hfit'|Hfit']; try lia.
  - destruct Hloop as (memo' & ds & Hds & (Hrec & Hcount & _) & ->). cstep.
    rewrite u32_small by lia. do 2 eexists. split; [do 3 f_equal; lia|]. split; [|done].
    exists ds. split; [|done]. pose proof (Forall2_length _ _ _ Hds) as Hl. rewrite length_fmap in Hl.
    split; [by rewrite Hcount, Hl|]. eexists. split; [exact Hrec|].
    change (Z.to_nat 0) with 0%nat. rewrite take_0. cbn [app].
    rewrite take_app_length'; [done|]. by rewrite length_fmap.
  - by rewrite Hloop.
Qed.

Lemma msg_octets_form rs : msg_octets rs = msg_form ((fun r => (false, r)) <$> rs).
Proof.
  unfold msg_octets, msg_form. rewrite length_fmap. generalize (zlen rs) as n. generalize 0 as i.
  induction rs as [|r rs IH]; intros i n; [done|]. cbn [msg_octets_from fmap list_fmap msg_form_from].
  rewrite <- IH. f_equal. unfold record_octets, record_form. by rewrite Z.add_0_r.
Qed.

Lemma msg_octets_count rs : zlen rs <= zlen (msg_octets rs).
Proof.
  rewrite msg_octets_form. etransitivity; [|apply msg_form_from_length]. by rewrite length_fmap.
Qed.

(** Encoding a message builds the octets of its records in order, the first
    and the last ones flagged: they are stored if there is room and nothing
    behind them is touched, an error is returned if there is not, and their size
    is computed without a destination. A message is thereby a payload, so that
    messages nest in records. *)
Theorem msg_encode_builds (q : bool) (d : nfc_ndef_msg_desc) (rs : list ndef_record)
    (Hd : describes_msg q d rs) (Hok : Forall record_ok rs) (Hn : zlen rs < 2 ^ 32)
    (Hmax : zlen (msg_octets rs) < 2 ^ 32) :
  builds q (nfc_ndef_msg_encode (Some d)) (msg_octets rs).
Proof. by apply msg_encode_spec. Qed.

(** Parsing a message whose records are in the long or the short form, and
    with anything behind it: if the buffer has the memory that the header file
    requires for that many records, the message found describes the records and
    has their size, otherwise the error is [ENOMEM]. *)
Theorem msg_parse_forms (ly : layout) (buf_len : Z) (frs : list (bool * ndef_record))
    (data : list Z) (len : Z)
    (Hly : layout_ok ly) (Hbuf : buf_len < 2 ^ 32) (Hne : frs <> []) (Hok : Forall form_ok frs)
    (Hs : seen data 0 (msg_form frs)) (Hlen : zlen (msg_form frs) <= len <= zlen data)
    (H32 : len < 2 ^ 32) :
  if NFC_NDEF_PARSER_REQUIRED_MEM ly (zlen frs) <=? buf_len then
    exists msg used, nfc_ndef_msg_parse ly buf_len data len = Ok (msg, used, zlen (msg_form frs)) /\
      received_msg msg frs.*2 /\ used <= buf_len
  else nfc_ndef_msg_parse ly buf_len data len = Err ENOMEM.
Proof. by apply msg_parse_spec. Qed.

Lemma msg_round_trip_spec {q} d rs m len ly buf_len :
  describes_msg q d rs -> rs <> [] -> Forall (fun r => record_ok r /\ r_tnf r <> TNF_RESERVED) rs ->
  zlen (msg_octets rs) <= len <= zlen m -> len < 2 ^ 32 ->
  layout_ok ly -> NFC_NDEF_PARSER_REQUIRED_MEM ly (zlen rs) <= buf_len < 2 ^ 32 ->
  exists m' msg used,
    nfc_ndef_msg_encode (Some d) (Some m) len = Ok (Some m', zlen (msg_octets rs)) /\
    nfc_ndef_msg_parse ly buf_len m' len = Ok (msg, used, zlen (msg_octets rs)) /\
    received_msg msg rs.
Proof.
  intros Hd Hne Hok Hlen H32 Hly Hbuf.
  set (frs := (fun r => (false, r)) <$> rs).
  assert (Hfst : frs.*2 = rs) by (unfold frs; rewrite <- list_fmap_compose; apply list_fmap_id).
  assert (Hl : zlen frs = zlen rs) by (unfold frs; by rewrite length_fmap).
  pose proof (msg_octets_count rs) as Hn.
  destruct (msg_encode_spec d rs Hd) as (Hput & _ & _);
    [eapply Forall_impl; [exact Hok|by intros ? []]|lia..|].
  pose proof (msg_parse_spec ly buf_len frs (msg_octets rs ++ drop (length (msg_octets rs)) m) len) as Hp.
  rewrite Hl, (proj2 (Z.leb_le _ _)), msg_octets_form in Hp by lia. fold frs in Hp.
  rewrite Hfst, length_app, length_drop in Hp. rewrite msg_octets_form in *. fold frs in Hlen, Hput |- *.
  destruct Hp as (msg & used & Hp & Hm & _); try done; try lia.
  - intros E. by rewrite <- Hfst, E in Hne.
  - unfold frs. apply Forall_fmap. eapply Forall_impl; [exact Hok|]. by intros r [Hr1 Hr2].
  - apply seen_here.
  - eexists. exists msg, used. by split; [apply Hput|].
Qed.

(** C28: A message that is encoded into a buffer and parsed from there gives a
    descriptor of the same records, if the parser has the required memory. *)
Theorem msg_round_trip (q : bool) (d : nfc_ndef_msg_desc) (rs : list ndef_record) (m : list Z) (len : Z)
    (ly : layout) (buf_len : Z)
    (Hd : describes_msg q d rs) (Hne : rs <> [])
    (Hok : Forall (fun r => record_ok r /\ r_tnf r <> TNF_RESERVED) rs)
    (Hlen : zlen (msg_octets rs) <= len <= zlen m) (H32 : len < 2 ^ 32)
    (Hly : layout_ok ly) (Hbuf : NFC_NDEF_PARSER_REQUIRED_MEM ly (zlen rs) <= buf_len < 2 ^ 32) :
  exists m' msg used,
    nfc_ndef_msg_encode (Some d) (Some m) len = Ok (Some m', zlen (msg_octets rs)) /\
    nfc_ndef_msg_parse ly buf_len m' len = Ok (msg, used, zlen (msg_octets rs)) /\
    received_msg msg rs.
Proof. by eapply msg_round_trip_spec. Qed.

(** The size of the message is within the octets, its descriptors are within the
    buffer, and its records can be read. *)
Definition parsed_msg (buf_len len : Z) (x : nfc_ndef_msg_desc * Z * Z) : Prop :=
  let '(msg, used, n) := x in
  0 <= n <= len /\ used <= buf_len /\
  exists slots, record msg = Some slots /\ max_record_count msg = zlen slots /\
    1 <= record_count msg <= zlen slots /\ Forall readable (take (Z.to_nat (record_count msg)) slots).

Lemma msg_parse_post ly buf_len data len :
  layout_ok ly -> buf_len < 2 ^ 32 -> bytes data -> 0 <= len <= zlen data -> len < 2 ^ 32 ->
  post (nfc_ndef_msg_parse ly buf_len data len) (parsed_msg buf_len len).
Proof.
  intros Hly Hbuf Hb Hlen H32.
  unfold nfc_ndef_msg_parse. pose proof (memo_resolve_spec ly buf_len Hly Hbuf) as Hres.
  destruct (buf_len <? nfc_ndef_msg_parser_msg_1 ly); [by rewrite Hres|].
  destruct Hres as (memo & Hm & Hc & -> & Hused). cstep. unfold nfc_ndef_msg_parser_internal.
  pose proof Hm as (_ & _ & Hmax & _). rewrite Hmax.
  apply post_bind. eapply post_impl.
  { apply (msg_parser_loop_post _ _ _ _ _ _ _ Hm); rewrite ?length_replicate; done || lia. }
  intros [memo' n] (k' & slots' & (Hr & Hk & Hmax' & _) & Hk' & Hl & Hn & Hf).
  split; [done|]. split; [done|]. exists slots'. rewrite Hk, <- Hl in *. split; [done|]. split; [done|]. split; [lia|].
  apply Hf. change (Z.to_nat 0) with 0%nat. rewrite take_0. apply Forall_nil_2.
Qed.

(** C33: Parsing any octets into any buffer ends without touching anything
    outside of the octets and the buffer. A message that is accepted has between
    one record and as many as its array holds, its size is not larger than the
    given length, and type, identifier and payload of each of its records lie
    within the octets, unless the record announces a payload within 517 of
    [2 ^ 32] octets: the sum of the lengths wraps around then, and such a record is
    accepted ([record_parse_length_wraps]). *)
Theorem msg_parse_safe (ly : layout) (buf_len : Z) (data : list Z) (len : Z)
    (Hly : layout_ok ly) (Hbuf : buf_len < 2 ^ 32) (Hb : bytes data)
    (Hlen : 0 <= len <= zlen data) (H32 : len < 2 ^ 32) :
  post (nfc_ndef_msg_parse ly buf_len data len) (parsed_msg buf_len len).
Proof. by apply msg_parse_post. Qed.

End Message.

(** ** Instances *)

(** The sizes on the 32-bit devices of the SDK. *)
Definition layout_arm : layout := {| sz_msg := 12; sz_ptr := 4; sz_bin := 8; sz_rec := 20 |}.

(** A message of two records. *)
Definition inner_desc : nfc_ndef_msg_desc :=
  {| record := Some [Some record_sample_desc; Some record_sample_desc]; max_record_count := 2;
     record_count := 2 |}.
Lemma inner_described q : describes_msg q inner_desc [record_sample; record_sample].
Proof.
  exists [record_sample_desc; record_sample_desc]. split.
  - split; [done|]. by exists [Some record_sample_desc; Some record_sample_desc].
  - repeat constructor; apply record_sample_described.
Qed.

Lemma msg_encode_builds_witness :
  builds true (nfc_ndef_msg_encode (Some inner_desc)) (msg_octets [record_sample; record_sample]).
Proof.
  apply msg_encode_builds.
  - apply inner_described.
  - repeat constructor; apply record_sample_ok.
  - done.
  - done.
Defined.

Lemma msg_parse_forms_witness :
  exists msg used,
    nfc_ndef_msg_parse layout_arm 80 (msg_form [(true, record_sample); (false, record_sample)] ++ [1; 2]) 35 =
      Ok (msg, used, 33) /\ received_msg msg [record_sample; record_sample] /\ used <= 80.
Proof.
  apply (msg_parse_forms layout_arm 80 [(true, record_sample); (false, record_sample)]).
  - done.
  - done.
  - done.
  - repeat constructor; done || apply record_sample_ok.
  - apply seen_here.
  - done.
  - done.
Defined.

Lemma msg_round_trip_witness :
  exists m' msg used,
    nfc_ndef_msg_encode (Some inner_desc) (Some (replicate 40 0)) 38 = Ok (Some m', 36) /\
    nfc_ndef_msg_parse layout_arm 76 m' 38 = Ok (msg, used, 36) /\
    received_msg msg [record_sample; record_sample].
Proof.
  apply (msg_round_trip true inner_desc [record_sample; record_sample]).
  - apply inner_described.
  - done.
  - repeat constructor; done || apply record_sample_ok.
  - done.
  - done.
  - done.
  - done.
Defined.

(** A message of two records, the second one of which has no payload, with an
    octet behind it. *)
Lemma msg_parse_safe_witness :
  exists msg used, nfc_ndef_msg_parse layout_arm 100 [0x92; 1; 2; 84; 7; 8; 0x50; 0; 0; 99] 10 = Ok (msg, used, 9) /\
    parsed_msg 100 10 (msg, used, 9).
Proof.
  pose proof (msg_parse_safe layout_arm 100 [0x92; 1; 2; 84; 7; 8; 0x50; 0; 0; 99] 10 ltac:(done) ltac:(done) ltac:(by_compute)
    ltac:(done) ltac:(done)) as H.
  assert (E : exists msg used, nfc_ndef_msg_parse layout_arm 100 [0x92; 1; 2; 84; 7; 8; 0x50; 0; 0; 99] 10 = Ok (msg, used, 9))
    by (eexists _, _; vm_compute; reflexivity).
  destruct E as (msg & used & E). rewrite E in H. by exists msg, used.
Defined.
