(* ===== verification/NdefPayload.v ===== *)
(** * Payloads of NDEF records: text_rec.c, uri_rec.c, tnep_rec.c, uri_msg.c and
      launchapp_msg.c of subsys/nfc/ndef

    The payload constructors of the text, URI and TNEP records, and the
    functions that encode a message with a URI or with the records that launch an
    application. Each constructor is shown to build the payload that the NFC Forum
    defines for it, which is what encoding a record asks of its constructor. *)

From stdpp Require Import prelude strings.
From Stdlib Require Import ZArith Lia.
From S2P Require Import Prelude NdefRecord NdefMsg.

Open Scope Z_scope.

(** ** Text records *)

Module Text.

Definition UTF_8 : Z := 0.
Definition UTF_16 : Z := 1.

Record nfc_ndef_text_rec_payload := {
  utf : Z;
  lang_code : option (list Z);
  lang_code_len : Z;
  data : option (list Z);
  data_len : Z
}.

Definition nfc_ndef_text_rec_type_field : list Z := chars "T".

Definition TEXT_REC_STATUS_SIZE : Z := 1.
Definition TEXT_REC_STATUS_UTF_POS : Z := 7.
Definition TEXT_REC_RESERVED_POS : Z := 6.

Definition nfc_text_rec_payload_size_get (d : nfc_ndef_text_rec_payload) : Z :=
  u32 (TEXT_REC_STATUS_SIZE + lang_code_len d + data_len d).

Definition nfc_ndef_text_rec_payload_encode (d : nfc_ndef_text_rec_payload) : payload_constructor_t :=
  fun buff len =>
    if (lang_code_len d =? 0) || ctrue (Z.land (lang_code_len d) (Z.shiftl 1 TEXT_REC_RESERVED_POS)) ||
       ctrue (Z.land (lang_code_len d) (Z.shiftl 1 TEXT_REC_STATUS_UTF_POS)) ||
       bool_decide (lang_code d = None) || (data_len d =? 0) || bool_decide (data d = None)
    then Err EINVAL
    else
      let payload_size := nfc_text_rec_payload_size_get d in
      match buff with
      | Some m =>
        if len <? payload_size then Err ENOSR
        else
          let* m := wr m 0 (u8 (lang_code_len d + Z.shiftl (utf d) TEXT_REC_STATUS_UTF_POS)) in
          let* l := rd_ptr (lang_code d) (lang_code_len d) in
          let* m := wr_block m TEXT_REC_STATUS_SIZE l in
          let* t := rd_ptr (data d) (data_len d) in
          let* m := wr_block m (TEXT_REC_STATUS_SIZE + lang_code_len d) t in
          Ok (Some m, payload_size)
      | None => Ok (None, payload_size)
      end.

Definition NFC_NDEF_TEXT_RECORD_DESC_DEF (d : nfc_ndef_text_rec_payload) : nfc_ndef_record_desc :=
  {| tnf := TNF_WELL_KNOWN; id_length := 0; rec_id := None;
     type_length := 1; rec_type := Some nfc_ndef_text_rec_type_field;
     rec_payload := Some (Constructor (nfc_ndef_text_rec_payload_encode d)) |}.

(** The record of a text in a language; the language code has one to 63
    characters. *)
Definition text_record (u : Z) (lang text : list Z) : ndef_record :=
  {| r_tnf := TNF_WELL_KNOWN; r_type := chars "T"; r_id := [];
     r_payload := (zlen lang + 128 * u) :: lang ++ text |}.

Definition text_given (d : nfc_ndef_text_rec_payload) (u : Z) (lang text : list Z) : Prop :=
  utf d = u /\ rd_ptr (lang_code d) (zlen lang) = Ok lang /\ lang_code_len d = zlen lang /\
  rd_ptr (data d) (zlen text) = Ok text /\ data_len d = zlen text.

Lemma lang_len_ok n : 0 <= n < 256 ->
  (n =? 0) || ctrue (Z.land n (Z.shiftl 1 TEXT_REC_RESERVED_POS)) ||
  ctrue (Z.land n (Z.shiftl 1 TEXT_REC_STATUS_UTF_POS)) = negb ((0 <? n) && (n <? 64)).
Proof.
  intros Hn. apply eqb_true_iff. revert n Hn. by apply (range_check (fun n => eqb
    ((n =? 0) || ctrue (Z.land n (Z.shiftl 1 TEXT_REC_RESERVED_POS)) ||
     ctrue (Z.land n (Z.shiftl 1 TEXT_REC_STATUS_UTF_POS))) (negb ((0 <? n) && (n <? 64)))) 0 256).
Qed.

Lemma rd_ptr_null p (l : list Z) : rd_ptr p (zlen l) = Ok l -> 0 < zlen l -> bool_decide (p = None) = false.
Proof.
  intros Hp Hl. apply bool_decide_eq_false. intros ->. unfold rd_ptr in Hp.
  destruct (Z.eqb_spec (zlen l) 0); [lia|done].
Qed.

Lemma text_builds {q} d u lang text :
  text_given d u lang text -> (u = UTF_8 \/ u = UTF_16) -> 0 < zlen lang < 64 -> 0 < zlen text ->
  1 + zlen lang + zlen text < 2 ^ 32 ->
  builds q (nfc_ndef_text_rec_payload_encode d) (r_payload (text_record u lang text)).
Proof.
  intros (Hu & Hl & Hll & Ht & Htl) Hutf Hlang Htext Hmax.
  unfold nfc_ndef_text_rec_payload_encode, nfc_text_rec_payload_size_get, TEXT_REC_STATUS_SIZE.
  rewrite Hll, Htl, lang_len_ok, (rd_ptr_null _ _ Hl), (rd_ptr_null _ _ Ht), Hu, Hl, Ht, u32_small by lia.
  destruct (Z.ltb_spec 0 (zlen lang)), (Z.ltb_spec (zlen lang) 64), (Z.eqb_spec (zlen text) 0); try lia.
  assert (Hst : u8 (zlen lang + Z.shiftl u TEXT_REC_STATUS_UTF_POS) = zlen lang + 128 * u)
    by (rewrite Z.shiftl_mul_pow2 by done; change (2 ^ TEXT_REC_STATUS_UTF_POS) with 128;
        destruct Hutf as [-> | ->]; unfold UTF_8, UTF_16; rewrite u8_small; lia).
  rewrite Hst. cbn [andb orb negb r_payload text_record]. split; [|split].
  - intros m len Hlen _. destruct (Z.ltb_spec len (1 + zlen lang + zlen text)); [zsize|].
    change m with ([] ++ m) at 1. do 3 store. built.
  - intros m len Hlen _. destruct (Z.ltb_spec len (1 + zlen lang + zlen text)); [by eexists|zsize].
  - intros _ _. f_equal. f_equal. zsize.
Qed.

End Text.

(** ** URI records *)

Module Uri.

Definition NFC_URI_NONE : Z := 0x00.

Record nfc_ndef_uri_rec_payload := {
  uri_id_code : Z;
  uri_data : option (list Z);
  uri_data_len : Z
}.

Definition nfc_ndef_uri_rec_type : list Z := chars "U".

Definition nfc_ndef_uri_rec_payload_encode (input : nfc_ndef_uri_rec_payload) : payload_constructor_t :=
  fun buff len =>
    match buff with
    | Some m =>
      if len <=? uri_data_len input then Err ENOMEM
      else
        let* m := wr m 0 (u8 (uri_id_code input)) in
        let* u := rd_ptr (uri_data input) (uri_data_len input) in
        let* m := wr_block m 1 u in
        Ok (Some m, u32 (uri_data_len input + 1))
    | None => Ok (None, u32 (uri_data_len input + 1))
    end.

(** The length is stored in 16 bits. *)
Definition NFC_NDEF_URI_RECORD_DESC_DEF (id_code : Z) (uri : option (list Z)) (len : Z)
    : nfc_ndef_record_desc :=
  {| tnf := TNF_WELL_KNOWN; id_length := 0; rec_id := None;
     type_length := 1; rec_type := Some nfc_ndef_uri_rec_type;
     rec_payload := Some (Constructor (nfc_ndef_uri_rec_payload_encode
       {| uri_id_code := id_code; uri_data := uri; uri_data_len := u16 len |})) |}.

(** A one-record message with a URI (uri_msg.c). *)
Definition nfc_ndef_uri_msg_encode `{ByteOrder} (id_code : Z) (uri : option (list Z)) (len : Z)
    : payload_constructor_t :=
  fun buf buf_len =>
    let nfc_uri_msg := NFC_NDEF_MSG_DEF 1 in
    let* nfc_uri_msg := nfc_ndef_msg_record_add nfc_uri_msg
      (Some (NFC_NDEF_URI_RECORD_DESC_DEF id_code uri len)) in
    match uri with
    | None => Err EINVAL
    | Some _ => nfc_ndef_msg_encode (Some nfc_uri_msg) buf buf_len
    end.

Definition uri_record (id_code : Z) (uri : list Z) : ndef_record :=
  {| r_tnf := TNF_WELL_KNOWN; r_type := chars "U"; r_id := []; r_payload := id_code :: uri |}.

Lemma uri_builds {q} id_code uri p :
  byte id_code -> zlen uri < 2 ^ 16 -> rd_ptr p (zlen uri) = Ok uri ->
  builds q (nfc_ndef_uri_rec_payload_encode
    {| uri_id_code := id_code; uri_data := p; uri_data_len := zlen uri |}) (id_code :: uri).
Proof.
  intros Hid Hlen Hp. unfold nfc_ndef_uri_rec_payload_encode. cbn [uri_id_code uri_data uri_data_len].
  rewrite Hp, u8_small, u32_small by (unfold bits in *; lia). split; [|split].
  - intros m len Hl _. destruct (Z.leb_spec len (zlen uri)); [zsize|].
    change m with ([] ++ m) at 1. do 2 store. built.
  - intros m len Hl _. destruct (Z.leb_spec len (zlen uri)); [by eexists|zsize].
  - intros _ _. do 2 f_equal. zsize.
Qed.

(** A record without identifier whose constructor builds the payload. *)
Lemma describes_plain {q} t (ty : list Z) p r :
  r_tnf r = t -> r_type r = ty -> r_id r = [] -> builds q (construct p) (r_payload r) ->
  describes q {| tnf := t; id_length := 0; rec_id := None; type_length := zlen ty; rec_type := Some ty;
               rec_payload := Some p |} r.
Proof.
  intros <- <- Hid Hp. unfold describes. cbn [tnf id_length rec_id type_length rec_type rec_payload].
  rewrite Hid. repeat split; [apply rd_ptr_all|by eexists].
Qed.

Lemma uri_record_describes {q} id_code uri p :
  byte id_code -> zlen uri < 2 ^ 16 -> rd_ptr p (zlen uri) = Ok uri ->
  describes q (NFC_NDEF_URI_RECORD_DESC_DEF id_code p (zlen uri)) (uri_record id_code uri).
Proof.
  intros Hid Hlen Hp. unfold NFC_NDEF_URI_RECORD_DESC_DEF. rewrite u16_small by lia.
  apply (describes_plain TNF_WELL_KNOWN (chars "U")); [done..|]. by apply uri_builds.
Qed.

Lemma uri_record_ok id_code uri : zlen uri < 2 ^ 16 -> record_ok (uri_record id_code uri).
Proof. intros. repeat split; cbn [uri_record r_tnf r_type r_id r_payload length]; try done; try lia. cbn. lia. Qed.

Lemma length_plain_octets loc r :
  r_id r = [] -> zlen (record_octets loc r) = 6 + zlen (r_type r) + zlen (r_payload r).
Proof. intros Hid. rewrite length_record_octets, Hid. change (0 <? zlen []) with false. cbn [length]. lia. Qed.

(** What builds the octets of a message of a few records with short payloads. *)
Lemma msg_built `{ByteOrder} {q} d ds rs cap :
  filled d ds cap -> Forall2 (describes q) ds rs -> Forall record_ok rs -> zlen (msg_octets rs) < 2 ^ 32 ->
  builds q (nfc_ndef_msg_encode (Some d)) (msg_octets rs).
Proof.
  intros (Hd & _ & Hcap & slots & Hs & Hl) Hds Hok Hmax. apply msg_encode_spec; [by exists ds|done| |done].
  rewrite <- (Forall2_length _ _ _ Hds). destruct Hd as (_ & slots' & Hs' & Ht).
  rewrite Hs in Hs'. injection Hs' as <-. apply (f_equal length) in Ht.
  rewrite length_take, length_fmap in Ht. lia.
Qed.

Lemma uri_msg_builds `{ByteOrder} {q} id_code uri p :
  byte id_code -> zlen uri < 2 ^ 16 -> rd_ptr (Some p) (zlen uri) = Ok uri ->
  builds q (nfc_ndef_uri_msg_encode id_code (Some p) (zlen uri)) (msg_octets [uri_record id_code uri]).
Proof.
  intros Hid Hlen Hp. pose proof (record_add_spec _ _ _ (NFC_NDEF_URI_RECORD_DESC_DEF id_code (Some p) (zlen uri))
    (filled_empty 1 ltac:(lia))) as Hadd. cbn [length Z.ltb Z.compare Z.of_nat] in Hadd.
  destruct Hadd as (d & Hadd & Hd). unfold nfc_ndef_uri_msg_encode. rewrite Hadd. cstep.
  apply (msg_built d _ _ 1 Hd).
  - constructor; [by apply uri_record_describes|constructor].
  - constructor; [by apply uri_record_ok|constructor].
  - unfold msg_octets. cbn [msg_octets_from]. rewrite app_nil_r, length_plain_octets by done.
    cbn [uri_record r_type r_payload]. change (zlen (chars "U")) with 1. zsize.
Qed.

End Uri.

(** ** Messages that launch an application *)

Module LaunchApp.
Import Uri.

Definition ndef_android_launchapp_rec_type : list Z := chars "android.com:pkg".

Definition NFC_NDEF_ANDROID_LAUNCHAPP_RECORD_DESC_DEF (name : option (list Z)) (len : Z)
    : nfc_ndef_record_desc :=
  {| tnf := TNF_EXTERNAL_TYPE; id_length := 0; rec_id := None;
     type_length := zlen ndef_android_launchapp_rec_type;
     rec_type := Some ndef_android_launchapp_rec_type;
     rec_payload := Some (Memcopy {| bin_payload := name; payload_length := len |}) |}.

Definition nfc_launchapp_msg_encode `{ByteOrder} (android_package_name : option (list Z))
    (android_package_name_len : Z) (universal_link : option (list Z)) (universal_link_len : Z)
    : payload_constructor_t :=
  fun buf len =>
    let msg := NFC_NDEF_MSG_DEF 2 in
    let* msg :=
      match universal_link with
      | Some _ => nfc_ndef_msg_record_add msg
          (Some (NFC_NDEF_URI_RECORD_DESC_DEF NFC_URI_NONE universal_link universal_link_len))
      | None => Ok msg
      end in
    let* msg :=
      match android_package_name with
      | Some _ => nfc_ndef_msg_record_add msg
          (Some (NFC_NDEF_ANDROID_LAUNCHAPP_RECORD_DESC_DEF android_package_name android_package_name_len))
      | None => Ok msg
      end in
    if record_count msg =? 0 then Err EINVAL
    else nfc_ndef_msg_encode (Some msg) buf len.

Definition android_record (name : list Z) : ndef_record :=
  {| r_tnf := TNF_EXTERNAL_TYPE; r_type := chars "android.com:pkg"; r_id := []; r_payload := name |}.

(** The records of the message: the link, then the application. *)
Definition launch_records (name link : option (list Z)) : list ndef_record :=
  (match link with Some u => [uri_record NFC_URI_NONE u] | None => [] end) ++
  (match name with Some n => [android_record n] | None => [] end).

Lemma android_describes {q} name : describes q
  (NFC_NDEF_ANDROID_LAUNCHAPP_RECORD_DESC_DEF (Some name) (zlen name)) (android_record name).
Proof.
  apply (describes_plain TNF_EXTERNAL_TYPE (chars "android.com:pkg")); [done..|].
  apply bin_payload_builds; [done|apply rd_ptr_all].
Qed.

Lemma android_ok name : zlen name < 2 ^ 31 -> record_ok (android_record name).
Proof. intros. repeat split; try done. cbn [android_record r_type r_id r_payload]. cbn. lia. Qed.

Lemma launch_octets_length name link :
  (forall n, name = Some n -> zlen n < 2 ^ 31) -> (forall u, link = Some u -> zlen u < 2 ^ 16) ->
  zlen (msg_octets (launch_records name link)) < 2 ^ 32.
Proof.
  intros Hn Hu. unfold msg_octets, launch_records.
  destruct name as [n|], link as [u|]; cbn [app msg_octets_from]; rewrite ?length_app, ?Nat2Z.inj_add,
    ?length_plain_octets by done; cbn [uri_record android_record r_type r_payload length];
    change (zlen (chars "U")) with 1; change (zlen (chars "android.com:pkg")) with 15;
    try specialize (Hn _ eq_refl); try specialize (Hu _ eq_refl); lia.
Qed.

(** A record that is added if there is data for it. *)
Lemma add_optional {A q} (o : option A) msg ds cap rs (rec : nfc_ndef_record_desc) (r : A -> ndef_record) :
  filled msg ds cap -> zlen ds < cap -> Forall2 (describes q) ds rs ->
  (forall x, o = Some x -> describes q rec (r x)) ->
  exists msg' ds',
    match o with Some _ => nfc_ndef_msg_record_add msg (Some rec) | None => Ok msg end = Ok msg' /\
    filled msg' ds' cap /\ Forall2 (describes q) ds' (rs ++ match o with Some x => [r x] | None => [] end).
Proof.
  intros Hm Hl Hds Hr. destruct o as [x|].
  - pose proof (record_add_spec msg ds cap rec Hm) as Hadd. destruct (Z.ltb_spec (zlen ds) cap); [|lia].
    destruct Hadd as (msg' & Hadd & Hm'). exists msg', (ds ++ [rec]). split; [done|]. split; [done|].
    apply Forall2_app; [done|]. constructor; [by apply Hr|constructor].
  - exists msg, ds. by rewrite app_nil_r.
Qed.

(** The message of the records that are given, in a buffer with enough room. *)
Lemma launchapp_spec `{ByteOrder} {q} name link :
  (forall n, name = Some n -> zlen n < 2 ^ 31) -> (forall u, link = Some u -> zlen u < 2 ^ 16) ->
  launch_records name link <> [] ->
  builds q (nfc_launchapp_msg_encode name (zlen (default [] name)) link (zlen (default [] link)))
    (msg_octets (launch_records name link)).
Proof.
  intros Hn Hu Hne. unfold nfc_launchapp_msg_encode.
  pose proof (launch_octets_length name link Hn Hu) as Hlen.
  edestruct (add_optional (q := q) link _ [] 2 [] (NFC_NDEF_URI_RECORD_DESC_DEF NFC_URI_NONE link (zlen (default [] link)))
    (uri_record NFC_URI_NONE) (filled_empty 2 ltac:(lia))) as (msg & ds & -> & Hm & Hds); [cbn; lia|constructor|..].
  { intros u ->. apply uri_record_describes; [done|by apply Hu|apply rd_ptr_all]. }
  assert (Hl : zlen ds < 2) by (rewrite (Forall2_length _ _ _ Hds); destruct link; cbn; lia).
  edestruct (add_optional name msg ds 2 _ (NFC_NDEF_ANDROID_LAUNCHAPP_RECORD_DESC_DEF name (zlen (default [] name)))
    android_record Hm Hl Hds) as (msg' & ds' & Hadd & Hm' & Hds').
  { intros n ->. apply android_describes. }
  assert (Hc : record_count msg' <> 0).
  { destruct Hm' as ((-> & _) & _). rewrite (Forall2_length _ _ _ Hds').
    fold (launch_records name link). destruct (launch_records name link) eqn:E; [done|].
    unfold launch_records in E. cbn [app] in *. rewrite E. cbn [length]. lia. }
  cstep. rewrite Hadd. cstep. rewrite (proj2 (Z.eqb_neq _ _) Hc).
  apply (msg_built msg' ds' _ 2 Hm'); [done| |done].
  unfold launch_records. apply Forall_app. split.
  - destruct link; [|constructor]. by apply Forall_singleton, uri_record_ok, Hu.
  - destruct name; [|constructor]. by apply Forall_singleton, android_ok, Hn.
Qed.

End LaunchApp.

(** ** TNEP records *)

Module Tnep.

Definition NFC_NDEF_TNEP_STATUS_SIZE : Z := 1.
Definition NFC_NDEF_TNEP_SELECT_NO_URI_SIZE : Z := 1.
Definition NFC_NDEF_TNEP_PARAMS_NO_URI_SIZE : Z := 7.

Definition nfc_ndef_tnep_rec_type_status : list Z := chars "Te".
Definition nfc_ndef_tnep_rec_type_svc_select : list Z := chars "Ts".
Definition nfc_ndef_tnep_rec_type_svc_param : list Z := chars "Tp".

Record nfc_ndef_tnep_rec_svc_select := { uri_len : Z; uri : option (list Z) }.

Record nfc_ndef_tnep_rec_svc_param := {
  version : Z;
  uri_length : Z;
  svc_uri : option (list Z);
  communication_mode : Z;
  min_time : Z;
  max_time_ext : Z;
  max_size : Z
}.

Definition nfc_tnep_calc_size_service_select (d : nfc_ndef_tnep_rec_svc_select) : Z :=
  if ctrue (uri_len d) then uri_len d + NFC_NDEF_TNEP_SELECT_NO_URI_SIZE else 0.

Definition nfc_tnep_calc_size_service_param (d : nfc_ndef_tnep_rec_svc_param) : Z :=
  if ctrue (uri_length d) then uri_length d + NFC_NDEF_TNEP_PARAMS_NO_URI_SIZE else 0.

(** The descriptor of a status has the status only. *)
Definition nfc_ndef_tnep_rec_status_payload (payload_desc : option Z) : payload_constructor_t :=
  fun buffer len =>
    match payload_desc with
    | None => Err EINVAL
    | Some status =>
      match buffer with
      | Some m =>
        if len <? NFC_NDEF_TNEP_STATUS_SIZE then Err ENOSR
        else let* m := wr m 0 status in Ok (Some m, NFC_NDEF_TNEP_STATUS_SIZE)
      | None => Ok (None, NFC_NDEF_TNEP_STATUS_SIZE)
      end
    end.

Definition nfc_ndef_tnep_rec_svc_select_payload (payload_desc : option nfc_ndef_tnep_rec_svc_select)
    : payload_constructor_t :=
  fun buffer len =>
    match payload_desc with
    | None => Err EINVAL
    | Some d =>
      let payload_size := nfc_tnep_calc_size_service_select d in
      match buffer with
      | Some m =>
        if len <? payload_size then Err ENOSR
        else
          let* m := wr m 0 (uri_len d) in
          let* u := rd_ptr (uri d) (uri_len d) in
          let* m := wr_block m 1 u in
          Ok (Some m, payload_size)
      | None => Ok (None, payload_size)
      end
    end.

Definition nfc_ndef_tnep_rec_svc_param_payload `{ByteOrder} (d : nfc_ndef_tnep_rec_svc_param)
    : payload_constructor_t :=
  fun buffer len =>
    if (version d =? 0) || (uri_length d =? 0) || bool_decide (svc_uri d = None) then Err EINVAL
    else
      let payload_size := nfc_tnep_calc_size_service_param d in
      match buffer with
      | Some m =>
        if len <? payload_size then Err ENOSR
        else
          let* m := wr m 0 (version d) in
          let* m := wr m 1 (uri_length d) in
          let* u := rd_ptr (svc_uri d) (uri_length d) in
          let* m := wr_block m 2 u in
          let* m := wr m (2 + uri_length d) (communication_mode d) in
          let* m := wr m (2 + uri_length d + 1) (min_time d) in
          let* m := wr m (2 + uri_length d + 2) (max_time_ext d) in
          let* m := wr_block m (2 + uri_length d + 3) (sys_put_be16 (max_size d)) in
          Ok (Some m, payload_size)
      | None => Ok (None, payload_size)
      end.

(** The octets of the service parameter record (NFC Forum TNEP 1.0). *)
Definition svc_param_octets (d : nfc_ndef_tnep_rec_svc_param) (u : list Z) : list Z :=
  version d :: zlen u :: u ++
  [communication_mode d; min_time d; max_time_ext d; max_size d / 256; max_size d mod 256].

Lemma status_builds {q} status : builds q (nfc_ndef_tnep_rec_status_payload (Some status)) [status].
Proof.
  unfold nfc_ndef_tnep_rec_status_payload, NFC_NDEF_TNEP_STATUS_SIZE. split; [|split].
  - intros m len Hl _. destruct (Z.ltb_spec len 1); [zsize|]. change m with ([] ++ m) at 1. store. built.
  - intros m len Hl _. destruct (Z.ltb_spec len 1); [by eexists|zsize].
  - done.
Qed.

Lemma svc_select_builds {q} d u :
  uri_len d = zlen u -> rd_ptr (uri d) (zlen u) = Ok u -> 0 < zlen u ->
  builds q (nfc_ndef_tnep_rec_svc_select_payload (Some d)) (zlen u :: u).
Proof.
  intros Hl Hu Hpos. unfold nfc_ndef_tnep_rec_svc_select_payload, nfc_tnep_calc_size_service_select, ctrue,
    NFC_NDEF_TNEP_SELECT_NO_URI_SIZE. rewrite Hl, Hu. destruct (Z.eqb_spec (zlen u) 0); [lia|]. cbn [negb].
  split; [|split].
  - intros m len Hlen _. destruct (Z.ltb_spec len (zlen u + 1)); [zsize|].
    change m with ([] ++ m) at 1. do 2 store. built.
  - intros m len Hlen _. destruct (Z.ltb_spec len (zlen u + 1)); [by eexists|zsize].
  - intros _ _. do 2 f_equal. zsize.
Qed.

Lemma svc_param_builds `{ByteOrder} {q} d u :
  uri_length d = zlen u -> rd_ptr (svc_uri d) (zlen u) = Ok u -> 0 < zlen u -> version d <> 0 ->
  0 <= max_size d < 2 ^ 16 ->
  builds q (nfc_ndef_tnep_rec_svc_param_payload d) (svc_param_octets d u).
Proof.
  intros Hl Hu Hpos Hv Hms. unfold nfc_ndef_tnep_rec_svc_param_payload, nfc_tnep_calc_size_service_param, ctrue,
    NFC_NDEF_TNEP_PARAMS_NO_URI_SIZE, svc_param_octets.
  rewrite Hl, Hu, (Text.rd_ptr_null _ _ Hu), sys_put_be16_spec by done.
  destruct (Z.eqb_spec (version d) 0), (Z.eqb_spec (zlen u) 0); try lia. cbn [orb negb].
  rewrite (Z.mod_small (max_size d / 2 ^ 8))
    by (split; [apply Z.div_pos; lia|apply Z.div_lt_upper_bound; lia]).
  split; [|split].
  - intros m len Hlen _. destruct (Z.ltb_spec len (zlen u + 7)); [zsize|].
    change m with ([] ++ m) at 1. do 7 store. built.
  - intros m len Hlen _. destruct (Z.ltb_spec len (zlen u + 7)); [by eexists|zsize].
  - intros _ _. do 2 f_equal. zsize.
Qed.

(** With an empty name the size is 0, but the length of the name is still
    stored: behind a destination of no bytes. *)
Lemma svc_select_empty_overflow :
  let d := {| uri_len := 0; uri := None |} in
  nfc_ndef_tnep_rec_svc_select_payload (Some d) (Some []) 0 = Fault /\
  nfc_ndef_tnep_rec_svc_select_payload (Some d) (Some [7]) 0 = Ok (Some [0], 0).
Proof. done. Qed.

End Tnep.

(** ** Correctness of the payloads *)

(** The text record. A language code of one to 63 characters and a text
    that is not empty are built into the status octet with the encoding bit, the
    code and the text; any other lengths and null pointers are refused with
    [EINVAL], whatever the destination. *)
Theorem text_payload (d : Text.nfc_ndef_text_rec_payload) (u : Z) (lang text : list Z)
    (Hd : Text.text_given d u lang text) (Hu : u = Text.UTF_8 \/ u = Text.UTF_16) (Hl8 : zlen lang < 256)
    (Hmax : 1 + zlen lang + zlen text < 2 ^ 32) :
  if (0 <? zlen lang) && (zlen lang <? 64) && (0 <? zlen text)
  then builds true (Text.nfc_ndef_text_rec_payload_encode d) (r_payload (Text.text_record u lang text))
  else forall buff len, Text.nfc_ndef_text_rec_payload_encode d buff len = Err EINVAL.
Proof.
  destruct (((0 <? zlen lang) && (zlen lang <? 64)) && (0 <? zlen text)) eqn:E.
  - apply andb_prop in E as [E ?]. apply andb_prop in E as [??]. apply Text.text_builds; try done; lia.
  - intros buff len. destruct Hd as (_ & _ & Hl & _ & Ht). unfold Text.nfc_ndef_text_rec_payload_encode.
    rewrite Hl, Ht, Text.lang_len_ok by lia.
    destruct ((0 <? zlen lang) && (zlen lang <? 64)); cbn [negb andb orb] in *; [|done].
    destruct (Z.eqb_spec (zlen text) 0); [by rewrite orb_true_r|lia].
Qed.

Lemma text_payload_witness :
  builds true (Text.nfc_ndef_text_rec_payload_encode
    {| Text.utf := 0; Text.lang_code := Some (chars "en"); Text.lang_code_len := 2;
       Text.data := Some (chars "Hello"); Text.data_len := 5 |}) (2 :: chars "enHello").
Proof.
  apply (text_payload _ 0 (chars "en") (chars "Hello")); [|by left|done|done].
  repeat split.
Defined.

(** The message that launches an application has the URI record of the
    link and the Android record of the package, in this order, each if it is
    given; the octets of the message are built. *)
Theorem launchapp_message `{ByteOrder} (name link : option (list Z))
    (Hn : forall n, name = Some n -> zlen n < 2 ^ 31) (Hu : forall u, link = Some u -> zlen u < 2 ^ 16)
    (Hne : LaunchApp.launch_records name link <> []) :
  builds true (LaunchApp.nfc_launchapp_msg_encode name (zlen (default [] name)) link (zlen (default [] link)))
    (msg_octets (LaunchApp.launch_records name link)).
Proof. by apply LaunchApp.launchapp_spec. Qed.

Lemma launchapp_message_witness :
  builds true (LaunchApp.nfc_launchapp_msg_encode (Some (chars "no.nordicsemi.app")) 17
    (Some (chars "https://x.no")) 12)
    (msg_octets (LaunchApp.launch_records (Some (chars "no.nordicsemi.app")) (Some (chars "https://x.no")))).
Proof.
  apply (launchapp_message (Some (chars "no.nordicsemi.app")) (Some (chars "https://x.no"))).
  - intros n [= <-]. done.
  - intros u [= <-]. done.
  - done.
Defined.

(** The message with a URI has the record of the URI: the code of its prefix
    and the rest of it; without a URI the error is [EINVAL]. *)
Theorem uri_message `{ByteOrder} (id_code : Z) (uri p : list Z)
    (Hid : byte id_code) (Hlen : zlen uri < 2 ^ 16) (Hp : rd_ptr (Some p) (zlen uri) = Ok uri) :
  builds true (Uri.nfc_ndef_uri_msg_encode id_code (Some p) (zlen uri)) (msg_octets [Uri.uri_record id_code uri]) /\
  forall len buf buf_len, Uri.nfc_ndef_uri_msg_encode id_code None len buf buf_len = Err EINVAL.
Proof. split; [by apply Uri.uri_msg_builds|done]. Qed.

Lemma uri_message_witness :
  builds true (Uri.nfc_ndef_uri_msg_encode 1 (Some (chars "nordicsemi.com/x")) 14)
    (msg_octets [Uri.uri_record 1 (chars "nordicsemi.com")]) /\
  forall len buf buf_len, Uri.nfc_ndef_uri_msg_encode 1 None len buf buf_len = Err EINVAL.
Proof. apply (uri_message 1 (chars "nordicsemi.com")); done. Defined.

(** The service parameter record of TNEP: a version other than 0 and a name
    that is not empty are built into the octets the specification gives, the
    maximal size most significant octet first. *)
Theorem svc_param_payload `{ByteOrder} (d : Tnep.nfc_ndef_tnep_rec_svc_param) (u : list Z)
    (Hl : Tnep.uri_length d = zlen u) (Hu : rd_ptr (Tnep.svc_uri d) (zlen u) = Ok u) (Hpos : 0 < zlen u)
    (Hv : Tnep.version d <> 0) (Hms : 0 <= Tnep.max_size d < 2 ^ 16) :
  builds true (Tnep.nfc_ndef_tnep_rec_svc_param_payload d) (Tnep.svc_param_octets d u).
Proof. by apply Tnep.svc_param_builds. Qed.

Definition svc_param_sample : Tnep.nfc_ndef_tnep_rec_svc_param :=
  {| Tnep.version := 0x10; Tnep.uri_length := 13; Tnep.svc_uri := Some (chars "urn:nfc:sn:ha");
     Tnep.communication_mode := 0; Tnep.min_time := 20; Tnep.max_time_ext := 4; Tnep.max_size := 0x0203 |}.

Lemma svc_param_payload_witness :
  builds true (Tnep.nfc_ndef_tnep_rec_svc_param_payload svc_param_sample)
    (0x10 :: 13 :: chars "urn:nfc:sn:ha" ++ [0; 20; 4; 2; 3]).
Proof. apply (svc_param_payload svc_param_sample (chars "urn:nfc:sn:ha")); done. Defined.

(** The length of the link is stored in 16 bits: of a link of [2 ^ 16 + 1]
    characters one is encoded. *)
Lemma launchapp_link_truncated :
  LaunchApp.nfc_launchapp_msg_encode None 0 (Some (replicate (Z.to_nat 65537) 0x61)) 65537 None 0 =
    Ok (None, 9).
Proof. vm_compute. reflexivity. Qed.
