(* ===== verification/NdefCh.v ===== *)
(** * Connection handover records: ch.c and ch_msg.c of subsys/nfc/ndef

    The payload constructors of the handover, handover carrier, alternative
    carrier and collision resolution records, and the functions that put a
    handover message together: a handover record whose payload is a message of
    local records, followed by the carrier records. *)

From stdpp Require Import prelude strings.
From Stdlib Require Import ZArith Lia.
From S2P Require Import Prelude NdefRecord NdefMsg NdefPayload.

Open Scope Z_scope.

Definition HS_REC_VERSION_SIZE : Z := 1.
Definition AC_REC_CPS_BYTE_SIZE : Z := 1.
Definition AC_REC_DATA_REF_LEN_SIZE : Z := 1.
Definition AC_REC_AUX_DATA_REF_COUNT_SIZE : Z := 1.
Definition HC_REC_CTF_BYTE_SIZE : Z := 1.
Definition HC_REC_CARRIER_TYPE_LEN_SIZE : Z := 1.
Definition NFC_NDEF_CH_AC_CPS_MASK : Z := 0x03.

Definition nfc_ndef_ch_hs_rec_type_field : list Z := chars "Hs".
Definition nfc_ndef_ch_hr_rec_type_field : list Z := chars "Hr".
Definition nfc_ndef_ch_hm_rec_type_field : list Z := chars "Hm".
Definition nfc_ndef_ch_hi_rec_type_field : list Z := chars "Hi".
Definition nfc_ndef_ch_hc_rec_type_field : list Z := chars "Hc".
Definition nfc_ndef_ch_ac_rec_type_field : list Z := chars "ac".
Definition nfc_ndef_ch_cr_rec_type_field : list Z := chars "cr".

Record nfc_ndef_ch_hc_rec := {
  ctf : Z;
  carrier_type_len : Z;
  carrier_type : option (list Z);
  carrier_data_len : Z;
  carrier_data : option (list Z)
}.

Record nfc_ndef_ch_ac_rec_ref := { ref_length : Z; ref_data : option (list Z) }.

Record nfc_ndef_ch_ac_rec := {
  cps : Z;
  carrier_data_ref : nfc_ndef_ch_ac_rec_ref;
  max_aux_data_ref_cnt : Z;
  aux_data_ref_cnt : Z;
  aux_data_ref : list nfc_ndef_ch_ac_rec_ref
}.

Record nfc_ndef_ch_rec := {
  major_version : Z;
  minor_version : Z;
  local_records : option nfc_ndef_msg_desc
}.

(** ** Payload constructors *)

Fixpoint ac_size_loop (rounds : nat) (refs : list nfc_ndef_ch_ac_rec_ref) (i payload_size : Z) : res Z :=
  match rounds with
  | O => Ok payload_size
  | S rounds =>
    let* r := slot_get refs i in
    ac_size_loop rounds refs (i + 1) (u32 (payload_size + (ref_length r + AC_REC_DATA_REF_LEN_SIZE)))
  end.

Definition nfc_ac_rec_payload_size_get (ac_rec : nfc_ndef_ch_ac_rec) : res Z :=
  let payload_size := AC_REC_CPS_BYTE_SIZE in
  let payload_size := u32 (payload_size + (ref_length (carrier_data_ref ac_rec) + AC_REC_DATA_REF_LEN_SIZE)) in
  let payload_size := u32 (payload_size + AC_REC_AUX_DATA_REF_COUNT_SIZE) in
  ac_size_loop (Z.to_nat (aux_data_ref_cnt ac_rec)) (aux_data_ref ac_rec) 0 payload_size.

Definition nfc_hc_payload_size_get (hc_rec : nfc_ndef_ch_hc_rec) : Z :=
  let payload_size := HC_REC_CTF_BYTE_SIZE in
  let payload_size := u32 (payload_size + (carrier_type_len hc_rec + HC_REC_CARRIER_TYPE_LEN_SIZE)) in
  u32 (payload_size + carrier_data_len hc_rec).

Definition nfc_ndef_ch_rec_payload_encode `{ByteOrder} (ch_rec : nfc_ndef_ch_rec) : payload_constructor_t :=
  fun buf len =>
    match buf with
    | Some m =>
      if len <? HS_REC_VERSION_SIZE then Err ENOMEM
      else
        let* m := wr m 0 (Z.lor (Z.land (Z.shiftl (major_version ch_rec) 4) 0xF0)
                                (Z.land (minor_version ch_rec) 0x0F)) in
        let len := u32 (len - HS_REC_VERSION_SIZE) in
        let* '(m, len) := at_offset m HS_REC_VERSION_SIZE (fun p =>
          let* '(p, n) := nfc_ndef_msg_encode (local_records ch_rec) (Some p) len in
          Ok (default [] p, n)) in
        Ok (Some m, u32 (len + HS_REC_VERSION_SIZE))
    | None =>
      let* '(_, len) := nfc_ndef_msg_encode (local_records ch_rec) None len in
      Ok (None, u32 (len + HS_REC_VERSION_SIZE))
    end.

Definition nfc_ndef_ch_hc_rec_payload_encode (hc_rec : nfc_ndef_ch_hc_rec) : payload_constructor_t :=
  fun buf len =>
    let payload_size := nfc_hc_payload_size_get hc_rec in
    match buf with
    | None => Ok (None, payload_size)
    | Some m =>
      if len <? payload_size then Err ENOMEM
      else if (ctf hc_rec <? TNF_WELL_KNOWN) || (TNF_EXTERNAL_TYPE <? ctf hc_rec) then Err EFAULT
      else
        let* m := wr m 0 (ctf hc_rec) in
        let* m := wr m HC_REC_CTF_BYTE_SIZE (carrier_type_len hc_rec) in
        let off := HC_REC_CTF_BYTE_SIZE + HC_REC_CARRIER_TYPE_LEN_SIZE in
        let* t := rd_ptr (carrier_type hc_rec) (carrier_type_len hc_rec) in
        let* m := wr_block m off t in
        let* d := rd_ptr (carrier_data hc_rec) (carrier_data_len hc_rec) in
        let* m := wr_block m (off + carrier_type_len hc_rec) d in
        Ok (Some m, payload_size)
    end.

(** The auxiliary references from the [i]th on, stored from [off] on. *)
Fixpoint ac_refs_write (rounds : nat) (refs : list nfc_ndef_ch_ac_rec_ref) (i : Z) (m : list Z) (off : Z)
    : res (list Z) :=
  match rounds with
  | O => Ok m
  | S rounds =>
    let* r := slot_get refs i in
    let* m := wr m off (ref_length r) in
    let off := off + AC_REC_DATA_REF_LEN_SIZE in
    let* d := rd_ptr (ref_data r) (ref_length r) in
    let* m := wr_block m off d in
    ac_refs_write rounds refs (i + 1) m (off + ref_length r)
  end.

Definition nfc_ndef_ch_ac_rec_payload_encode (nfc_rec_ac : nfc_ndef_ch_ac_rec) : payload_constructor_t :=
  fun buf len =>
    let* payload_size := nfc_ac_rec_payload_size_get nfc_rec_ac in
    match buf with
    | None => Ok (None, payload_size)
    | Some m =>
      if len <? payload_size then Err ENOMEM
      else if ctrue (Z.land (cps nfc_rec_ac) (Z.lnot NFC_NDEF_CH_AC_CPS_MASK)) then Err EFAULT
      else
        let* m := wr m 0 (cps nfc_rec_ac) in
        let r := carrier_data_ref nfc_rec_ac in
        let off := AC_REC_CPS_BYTE_SIZE in
        let* m := wr m off (ref_length r) in
        let off := off + AC_REC_DATA_REF_LEN_SIZE in
        let* d := rd_ptr (ref_data r) (ref_length r) in
        let* m := wr_block m off d in
        let off := off + ref_length r in
        let* m := wr m off (aux_data_ref_cnt nfc_rec_ac) in
        let off := off + AC_REC_AUX_DATA_REF_COUNT_SIZE in
        let* m := ac_refs_write (Z.to_nat (aux_data_ref_cnt nfc_rec_ac)) (aux_data_ref nfc_rec_ac) 0 m off in
        Ok (Some m, payload_size)
    end.

Definition nfc_ndef_ch_cr_rec_payload_encode `{ByteOrder} (random : Z) : payload_constructor_t :=
  fun buf len =>
    let payload_size := 0 in
    match buf with
    | Some m =>
      if len <? 2 then Err ENOMEM
      else
        let* m := wr_block m 0 (sys_put_be16 random) in
        let payload_size := payload_size + 2 in
        Ok (Some m, payload_size)
    | None => Ok (None, payload_size)
    end.

(** ** Local records and auxiliary references *)

Definition nfc_ndef_ch_rec_local_record_clear (ch_rec : nfc_ndef_ch_rec) : res nfc_ndef_ch_rec :=
  match local_records ch_rec with
  | None => Fault
  | Some msg =>
    Ok {| major_version := major_version ch_rec; minor_version := minor_version ch_rec;
          local_records := Some (nfc_ndef_msg_clear msg) |}
  end.

Definition nfc_ndef_ch_rec_local_record_add (ch_rec : nfc_ndef_ch_rec) (local_rec : nfc_ndef_record_desc)
    : res nfc_ndef_ch_rec :=
  match local_records ch_rec with
  | None => Fault
  | Some msg =>
    let* msg := nfc_ndef_msg_record_add msg (Some local_rec) in
    Ok {| major_version := major_version ch_rec; minor_version := minor_version ch_rec;
          local_records := Some msg |}
  end.

Definition nfc_ndef_ch_ac_rec_auxiliary_data_ref_clear (ac : nfc_ndef_ch_ac_rec) : nfc_ndef_ch_ac_rec :=
  {| cps := cps ac; carrier_data_ref := carrier_data_ref ac; max_aux_data_ref_cnt := max_aux_data_ref_cnt ac;
     aux_data_ref_cnt := 0; aux_data_ref := aux_data_ref ac |}.

Definition nfc_ndef_ch_ac_rec_auxiliary_data_ref_add (ac : nfc_ndef_ch_ac_rec) (aux_data : option (list Z))
    (aux_length : Z) : res nfc_ndef_ch_ac_rec :=
  if max_aux_data_ref_cnt ac <=? aux_data_ref_cnt ac then Err ENOMEM
  else
    let* refs := slot_set (aux_data_ref ac) (aux_data_ref_cnt ac)
      {| ref_length := aux_length; ref_data := aux_data |} in
    Ok {| cps := cps ac; carrier_data_ref := carrier_data_ref ac;
          max_aux_data_ref_cnt := max_aux_data_ref_cnt ac;
          aux_data_ref_cnt := u8 (aux_data_ref_cnt ac + 1); aux_data_ref := refs |}.

(** ** Record descriptors *)

Definition NFC_NDEF_CH_RECORD_DESC_DEF `{ByteOrder} (type_field : list Z) (ch_rec : nfc_ndef_ch_rec)
    : nfc_ndef_record_desc :=
  {| tnf := TNF_WELL_KNOWN; id_length := 0; rec_id := None; type_length := 2; rec_type := Some type_field;
     rec_payload := Some (Constructor (nfc_ndef_ch_rec_payload_encode ch_rec)) |}.

Definition NFC_NDEF_CH_HC_RECORD_DESC_DEF (id : option (list Z)) (id_len : Z) (hc_rec : nfc_ndef_ch_hc_rec)
    : nfc_ndef_record_desc :=
  {| tnf := TNF_WELL_KNOWN; id_length := id_len; rec_id := id; type_length := 2;
     rec_type := Some nfc_ndef_ch_hc_rec_type_field;
     rec_payload := Some (Constructor (nfc_ndef_ch_hc_rec_payload_encode hc_rec)) |}.

Definition NFC_NDEF_CH_AC_RECORD_DESC_DEF (ac_rec : nfc_ndef_ch_ac_rec) : nfc_ndef_record_desc :=
  {| tnf := TNF_WELL_KNOWN; id_length := 0; rec_id := None; type_length := 2;
     rec_type := Some nfc_ndef_ch_ac_rec_type_field;
     rec_payload := Some (Constructor (nfc_ndef_ch_ac_rec_payload_encode ac_rec)) |}.

Definition NFC_NDEF_CH_CR_RECORD_DESC_DEF `{ByteOrder} (random : Z) : nfc_ndef_record_desc :=
  {| tnf := TNF_WELL_KNOWN; id_length := 0; rec_id := None; type_length := 2;
     rec_type := Some nfc_ndef_ch_cr_rec_type_field;
     rec_payload := Some (Constructor (nfc_ndef_ch_cr_rec_payload_encode random)) |}.

(** ** Handover messages (ch_msg.c) *)

Record nfc_ndef_ch_msg_records := {
  ac : option (list nfc_ndef_record_desc);
  carrier : option (list nfc_ndef_record_desc);
  cnt : Z
}.

(** A handover record: its type and its payload descriptor. The message gets a
    pointer to it when its local records are in place. *)
Record ch_record := { ch_type : list Z; ch_payload : nfc_ndef_ch_rec }.

Fixpoint alternate_rec_loop (rounds : nat) (ch : nfc_ndef_ch_rec) (acs : list nfc_ndef_record_desc) (i : Z)
    : res nfc_ndef_ch_rec :=
  match rounds with
  | O => Ok ch
  | S rounds =>
    let* a := slot_get acs i in
    let* ch := nfc_ndef_ch_rec_local_record_add ch a in
    alternate_rec_loop rounds ch acs (i + 1)
  end.
Definition alternate_rec_encode (ch : nfc_ndef_ch_rec) (acs : list nfc_ndef_record_desc) (cnt : Z) :=
  alternate_rec_loop (Z.to_nat cnt) ch acs 0.

Fixpoint carrier_loop (rounds : nat) (msg : nfc_ndef_msg_desc) (carriers : list nfc_ndef_record_desc) (i : Z)
    : res nfc_ndef_msg_desc :=
  match rounds with
  | O => Ok msg
  | S rounds =>
    let* c := slot_get carriers i in
    let* msg := nfc_ndef_msg_record_add msg (Some c) in
    carrier_loop rounds msg carriers (i + 1)
  end.
Definition ch_rec_create (msg : nfc_ndef_msg_desc) (ch : nfc_ndef_record_desc)
    (carriers : list nfc_ndef_record_desc) (cnt : Z) : res nfc_ndef_msg_desc :=
  let* msg := nfc_ndef_msg_record_add msg (Some ch) in
  carrier_loop (Z.to_nat cnt) msg carriers 0.

Section Create.
  Context `{ByteOrder}.

Definition ch_msg_create (msg : nfc_ndef_msg_desc) (ch_rec : ch_record)
    (acs carriers : list nfc_ndef_record_desc) (cnt : Z) : res (nfc_ndef_msg_desc * ch_record) :=
  let* ch := alternate_rec_encode (ch_payload ch_rec) acs cnt in
  let ch_rec := {| ch_type := ch_type ch_rec; ch_payload := ch |} in
  let* msg := ch_rec_create msg (NFC_NDEF_CH_RECORD_DESC_DEF (ch_type ch_rec) ch) carriers cnt in
  Ok (msg, ch_rec).

(** The three functions for select, mediation and initiate records differ in
    their names only. *)
Definition nfc_ndef_ch_msg_hs_create (msg : option nfc_ndef_msg_desc) (hs_rec : option ch_record)
    (records : option nfc_ndef_ch_msg_records) : res (nfc_ndef_msg_desc * ch_record) :=
  match msg, hs_rec, records with
  | Some msg, Some hs_rec, Some records =>
    match ac records, carrier records with
    | Some acs, Some carriers =>
      if cnt records <? 1 then Err EINVAL else ch_msg_create msg hs_rec acs carriers (cnt records)
    | _, _ => Err EINVAL
    end
  | _, _, _ => Err EINVAL
  end.
Definition nfc_ndef_ch_msg_hm_create := nfc_ndef_ch_msg_hs_create.
Definition nfc_ndef_ch_msg_hi_create := nfc_ndef_ch_msg_hs_create.

Definition nfc_ndef_ch_msg_hr_create (msg : option nfc_ndef_msg_desc) (hr_rec : option ch_record)
    (cr_rec : option nfc_ndef_record_desc) (records : option nfc_ndef_ch_msg_records)
    : res (nfc_ndef_msg_desc * ch_record) :=
  match msg, hr_rec, records, cr_rec with
  | Some msg, Some hr_rec, Some records, Some cr_rec =>
    match ac records, carrier records with
    | Some acs, Some carriers =>
      if cnt records <? 1 then Err EINVAL
      else
        let* ch := nfc_ndef_ch_rec_local_record_add (ch_payload hr_rec) cr_rec in
        ch_msg_create msg {| ch_type := ch_type hr_rec; ch_payload := ch |} acs carriers (cnt records)
    | _, _ => Err EINVAL
    end
  | _, _, _, _ => Err EINVAL
  end.

End Create.

(** ** What the payloads are *)

Definition ch_octets (ch : nfc_ndef_ch_rec) (local : list Z) : list Z :=
  (16 * major_version ch + minor_version ch) :: local.

Lemma version_octet a b :
  0 <= a < 16 -> 0 <= b < 16 ->
  Z.lor (Z.land (Z.shiftl a 4) 0xF0) (Z.land b 0x0F) = 16 * a + b.
Proof.
  intros Ha Hb. apply Z.eqb_eq. revert b Hb. apply (range_check (fun b =>
    Z.lor (Z.land (Z.shiftl a 4) 0xF0) (Z.land b 0x0F) =? 16 * a + b) 0 16).
  revert a Ha. apply (range_check (fun a => forallb (fun b =>
    Z.lor (Z.land (Z.shiftl a 4) 0xF0) (Z.land b 0x0F) =? 16 * a + b) (seqZ 0 16)) 0 16).
  by vm_compute.
Qed.

Lemma ch_rec_builds `{ByteOrder} q ch local :
  0 <= major_version ch < 16 -> 0 <= minor_version ch < 16 -> 1 + zlen local < 2 ^ 32 ->
  builds q (nfc_ndef_msg_encode (local_records ch)) local ->
  builds q (nfc_ndef_ch_rec_payload_encode ch) (ch_octets ch local).
Proof.
  intros Hma Hmi Hmax (Hput & Hfail & Hsize). unfold nfc_ndef_ch_rec_payload_encode, HS_REC_VERSION_SIZE, ch_octets.
  rewrite version_octet by done. split; [|split].
  - intros m len Hlen H32. destruct (Z.ltb_spec len 1); [zsize|].
    change m with ([] ++ m) at 1. store. rewrite at_offset_app, u32_small by (cbn [length] in *; done || lia).
    rewrite Hput by zsize. cstep. rewrite u32_small by lia. built.
  - intros m len Hlen Hm. destruct (Z.ltb_spec len 1); [by eexists|].
    change m with ([] ++ m). store. rewrite at_offset_app, u32_small by (cbn [length] in *; done || lia).
    edestruct Hfail as [e ->]; [| |by eexists]; zsize.
  - intros Hq len. rewrite (Hsize Hq). cstep. rewrite u32_small by lia. do 2 f_equal. zsize.
Qed.

(** A handover carrier record. *)
Definition hc_octets (hc : nfc_ndef_ch_hc_rec) (ty data : list Z) : list Z := ctf hc :: zlen ty :: ty ++ data.

Lemma hc_rec_builds q hc ty data :
  1 <= ctf hc <= 4 -> carrier_type_len hc = zlen ty -> rd_ptr (carrier_type hc) (zlen ty) = Ok ty ->
  carrier_data_len hc = zlen data -> rd_ptr (carrier_data hc) (zlen data) = Ok data ->
  zlen ty < 256 -> zlen data < 256 ->
  builds q (nfc_ndef_ch_hc_rec_payload_encode hc) (hc_octets hc ty data).
Proof.
  intros Hctf Htl Ht Hdl Hd Hlt Hld. unfold nfc_ndef_ch_hc_rec_payload_encode, nfc_hc_payload_size_get,
    HC_REC_CTF_BYTE_SIZE, HC_REC_CARRIER_TYPE_LEN_SIZE, TNF_WELL_KNOWN, TNF_EXTERNAL_TYPE, hc_octets.
  rewrite Htl, Hdl, Ht, Hd, (u32_small (1 + _)), u32_small by lia.
  destruct (Z.ltb_spec (ctf hc) 1), (Z.ltb_spec 4 (ctf hc)); try lia. cbn [orb]. split; [|split].
  - intros m len Hlen _. destruct (Z.ltb_spec len (1 + (zlen ty + 1) + zlen data)); [zsize|].
    change m with ([] ++ m) at 1. do 4 store. built.
  - intros m len Hlen _. destruct (Z.ltb_spec len (1 + (zlen ty + 1) + zlen data)); [by eexists|zsize].
  - intros _ _. do 2 f_equal. zsize.
Qed.

(** An alternative carrier record: the power state, the reference to the carrier
    and references to auxiliary data. *)
Definition ref_octets (l : list Z) : list Z := zlen l :: l.
Definition ac_octets (state : Z) (ref : list Z) (aux : list (list Z)) : list Z :=
  state :: ref_octets ref ++ zlen aux :: (aux ≫= ref_octets).

Definition ref_of (r : nfc_ndef_ch_ac_rec_ref) (l : list Z) : Prop :=
  ref_length r = zlen l /\ rd_ptr (ref_data r) (zlen l) = Ok l /\ zlen l < 256.
Definition ac_of (a : nfc_ndef_ch_ac_rec) (state : Z) (ref : list Z) (aux : list (list Z)) : Prop :=
  cps a = state /\ 0 <= state < 4 /\ ref_of (carrier_data_ref a) ref /\
  aux_data_ref_cnt a = zlen aux /\ zlen aux < 256 /\
  exists refs rest, aux_data_ref a = refs ++ rest /\ Forall2 ref_of refs aux.

Lemma slot_get_middle {A} (l k : list A) x : slot_get (l ++ x :: k) (zlen l) = Ok x.
Proof. apply slot_get_Ok; [lia|]. rewrite Nat2Z.id. by apply list_lookup_middle. Qed.

Lemma ac_size_loop_spec refs aux : forall before rest n,
  Forall2 ref_of refs aux -> 0 <= n -> n + zlen (aux ≫= ref_octets) < 2 ^ 32 ->
  ac_size_loop (length aux) (before ++ refs ++ rest) (zlen before) n = Ok (n + zlen (aux ≫= ref_octets)).
Proof.
  intros before rest n Href. revert before n.
  induction Href as [|r l refs aux (Hl & _) _ IH]; intros before n Hn Hmax; [by rewrite Z.add_0_r|].
  cbn [length ac_size_loop mbind list_bind app] in *. rewrite slot_get_middle. cstep. rewrite Hl.
  unfold AC_REC_DATA_REF_LEN_SIZE, ref_octets in *. cbn [length app] in *. rewrite length_app in *.
  rewrite u32_small by lia. specialize (IH (before ++ [r])).
  rewrite <- app_assoc, length_app in IH. cbn [app length] in IH.
  rewrite Nat2Z.inj_add in IH. rewrite IH by lia. f_equal. lia.
Qed.

Lemma ac_refs_write_spec refs aux : forall before rest e m,
  Forall2 ref_of refs aux -> zlen (aux ≫= ref_octets) <= zlen m ->
  ac_refs_write (length aux) (before ++ refs ++ rest) (zlen before) (e ++ m) (zlen e) =
    Ok (e ++ (aux ≫= ref_octets) ++ drop (length (aux ≫= ref_octets)) m).
Proof.
  intros before rest e m Href. revert before e m.
  induction Href as [|r l refs aux (Hl & Hd & _) _ IH]; intros before e m Hmax; [done|].
  cbn [length ac_refs_write mbind list_bind app] in *. rewrite slot_get_middle. cstep. rewrite Hl, Hd.
  unfold AC_REC_DATA_REF_LEN_SIZE, ref_octets in *. cbn [length app] in *. rewrite length_app in *.
  do 2 store. specialize (IH (before ++ [r]) ((e ++ [zlen l]) ++ l)).
  rewrite <- app_assoc, length_app in IH. cbn [app length] in IH. rewrite Nat2Z.inj_add in IH.
  replace (zlen e + 1 + zlen l) with (zlen ((e ++ [zlen l]) ++ l)) by zsize.
  rewrite IH by zsize. f_equal. rewrite !drop_drop, <- !app_assoc. cbn [app]. done.
Qed.

Lemma ac_rec_builds q a state ref aux :
  ac_of a state ref aux -> builds q (nfc_ndef_ch_ac_rec_payload_encode a) (ac_octets state ref aux).
Proof.
  intros (Hs & Hs4 & (Hl & Hr & Hl8) & Hc & Hc8 & refs & rest & Href & Hrefs).
  assert (Hbound : zlen (aux ≫= ref_octets) <= 256 * zlen aux).
  { clear -Hrefs. induction Hrefs as [|r l refs aux (_ & _ & ?) _ IH]; [done|].
    cbn [mbind list_bind]. rewrite length_app. unfold ref_octets at 1. cbn [length] in *. lia. }
  assert (Hsize : nfc_ac_rec_payload_size_get a = Ok (zlen (ac_octets state ref aux))).
  { unfold nfc_ac_rec_payload_size_get. rewrite Hc, Hl, Href, Nat2Z.id.
    unfold AC_REC_CPS_BYTE_SIZE, AC_REC_DATA_REF_LEN_SIZE, AC_REC_AUX_DATA_REF_COUNT_SIZE.
    rewrite (u32_small (1 + _)), u32_small by lia.
    rewrite (ac_size_loop_spec refs aux [] rest) by (done || lia). unfold ac_octets, ref_octets at 2.
    cbn [length app]. rewrite length_app. cbn [length]. f_equal. lia. }
  unfold nfc_ndef_ch_ac_rec_payload_encode. rewrite Hsize, Hs. cstep.
  assert (Hcps : ctrue (Z.land state (Z.lnot NFC_NDEF_CH_AC_CPS_MASK)) = false).
  { apply negb_true_iff. revert state Hs4 Hs Hsize. intros s Hs4 _ _. revert s Hs4.
    by apply (range_check (fun s => negb (ctrue (Z.land s (Z.lnot NFC_NDEF_CH_AC_CPS_MASK)))) 0 4). }
  rewrite Hcps, Hl, Hr, Hc, Href, Nat2Z.id.
  unfold AC_REC_CPS_BYTE_SIZE, AC_REC_DATA_REF_LEN_SIZE, AC_REC_AUX_DATA_REF_COUNT_SIZE.
  set (p := ac_octets state ref aux) in *.
  assert (Hp : p = (([state] ++ [zlen ref]) ++ ref) ++ zlen aux :: (aux ≫= ref_octets))
    by (unfold p, ac_octets, ref_octets at 1; by rewrite <- !app_assoc).
  split; [|split].
  - intros m len Hlen _. destruct (Z.ltb_spec len (zlen p)); [lia|]. clearbody p. subst p.
    change m with ([] ++ m) at 1. do 4 store. rewrite !drop_drop.
    replace (1 + 1 + zlen ref + 1) with (zlen (((([] ++ [state]) ++ [zlen ref]) ++ ref) ++ [zlen aux])) by zsize.
    rewrite (ac_refs_write_spec refs aux [] rest) by (done || zsize). cstep.
    apply built_eq; [|done]. rewrite drop_drop, !length_app. cbn [length app].
    rewrite <- !app_assoc. cbn [app]. do 6 f_equal. lia.
  - intros m len Hlen _. destruct (Z.ltb_spec len (zlen p)); [by eexists|lia].
  - done.
Qed.

(** The collision resolution record stores its number, but tells a size of 0. *)
Lemma cr_rec_builds `{ByteOrder} random :
  0 <= random < 2 ^ 16 ->
  builds false (nfc_ndef_ch_cr_rec_payload_encode random) [random / 256; random mod 256].
Proof.
  intros Hr. unfold nfc_ndef_ch_cr_rec_payload_encode. rewrite sys_put_be16_spec.
  rewrite (Z.mod_small (random / 2 ^ 8)) by (split; [apply Z.div_pos; lia|apply Z.div_lt_upper_bound; lia]).
  split; [|split].
  - intros m len Hlen _. destruct (Z.ltb_spec len 2); [zsize|]. change m with ([] ++ m) at 1. store. built.
  - intros m len Hlen _. destruct (Z.ltb_spec len 2); [by eexists|zsize].
  - done.
Qed.

(** ** What the messages are *)

(** Adding records to a message one after the other. *)
Lemma carrier_loop_spec cs : forall before rest msg ds cap,
  filled msg ds cap ->
  if zlen (ds ++ cs) <=? cap
  then exists msg', carrier_loop (length cs) msg (before ++ cs ++ rest) (zlen before) = Ok msg' /\
         filled msg' (ds ++ cs) cap
  else carrier_loop (length cs) msg (before ++ cs ++ rest) (zlen before) = Err ENOSR \/ cap < zlen ds.
Proof.
  induction cs as [|c cs IH]; intros before rest msg ds cap Hm.
  { cbn [carrier_loop length]. rewrite app_nil_r. destruct (Z.leb_spec (zlen ds) cap); [by exists msg|by right]. }
  cbn [length carrier_loop app]. rewrite slot_get_middle. cstep.
  pose proof (record_add_spec msg ds cap c Hm) as Hadd.
  specialize (IH (before ++ [c]) rest).
  rewrite <- app_assoc, length_app in IH. cbn [app length] in IH. rewrite Nat2Z.inj_add in IH.
  destruct (Z.ltb_spec (zlen ds) cap).
  - destruct Hadd as (msg' & -> & Hm'). cstep. specialize (IH msg' (ds ++ [c]) cap Hm').
    rewrite <- app_assoc in IH. cbn [app] in IH. destruct (Z.leb_spec (zlen (ds ++ c :: cs)) cap); [done|].
    destruct IH as [IH|IH]; [by left|]. rewrite length_app in IH. cbn [length] in IH. lia.
  - rewrite Hadd. cstep. destruct (Z.leb_spec (zlen (ds ++ c :: cs)) cap); [zsize|by left].
Qed.

(** The local records of a handover record. *)
Definition ch_filled (ch : nfc_ndef_ch_rec) (ds : list nfc_ndef_record_desc) (cap : Z) : Prop :=
  exists msg, local_records ch = Some msg /\ filled msg ds cap.
Definition same_version (ch ch' : nfc_ndef_ch_rec) : Prop :=
  major_version ch' = major_version ch /\ minor_version ch' = minor_version ch.

Lemma local_record_add_spec ch ds cap rec :
  ch_filled ch ds cap ->
  if zlen ds <? cap
  then exists ch', nfc_ndef_ch_rec_local_record_add ch rec = Ok ch' /\ ch_filled ch' (ds ++ [rec]) cap /\
         same_version ch ch'
  else nfc_ndef_ch_rec_local_record_add ch rec = Err ENOSR.
Proof.
  intros (msg & Hl & Hm). unfold nfc_ndef_ch_rec_local_record_add. rewrite Hl.
  pose proof (record_add_spec msg ds cap rec Hm) as Hadd. destruct (zlen ds <? cap); [|by rewrite Hadd].
  destruct Hadd as (msg' & -> & Hm'). cstep. eexists. split; [done|]. split; [by exists msg'|done].
Qed.

Lemma alternate_loop_spec acs : forall before rest ch ds cap,
  ch_filled ch ds cap -> zlen (ds ++ acs) <= cap ->
  exists ch', alternate_rec_loop (length acs) ch (before ++ acs ++ rest) (zlen before) = Ok ch' /\
    ch_filled ch' (ds ++ acs) cap /\ same_version ch ch'.
Proof.
  induction acs as [|a acs IH]; intros before rest ch ds cap Hch Hcap.
  { exists ch. by rewrite app_nil_r. }
  cbn [length alternate_rec_loop app]. rewrite slot_get_middle. cstep.
  pose proof (local_record_add_spec ch ds cap a Hch) as Hadd.
  destruct (Z.ltb_spec (zlen ds) cap); [|zsize]. destruct Hadd as (ch' & -> & Hch' & Hv). cstep.
  specialize (IH (before ++ [a]) rest ch' (ds ++ [a]) cap Hch').
  rewrite <- !app_assoc, (length_app before) in IH. cbn [app length] in IH.
  rewrite (Nat2Z.inj_add (length before)) in IH.
  destruct (IH Hcap) as (ch'' & Heq & Hch'' & Hv'). exists ch''. split; [done|]. split; [done|].
  destruct Hv, Hv'. split; congruence.
Qed.

(** The handover record with its local records. *)
Definition handover_record (ty : list Z) (ch : nfc_ndef_ch_rec) (local : list ndef_record) : ndef_record :=
  {| r_tnf := TNF_WELL_KNOWN; r_type := ty; r_id := []; r_payload := ch_octets ch (msg_octets local) |}.

Lemma handover_version ty ch ch' local :
  same_version ch ch' -> handover_record ty ch local = handover_record ty ch' local.
Proof. intros [Hv1 Hv2]. unfold handover_record, ch_octets. by rewrite Hv1, Hv2. Qed.

Lemma handover_describes `{ByteOrder} q ty ch local ds cap :
  length ty = 2%nat -> ch_filled ch ds cap -> Forall2 (describes q) ds local -> Forall record_ok local ->
  0 <= major_version ch < 16 -> 0 <= minor_version ch < 16 -> 1 + zlen (msg_octets local) < 2 ^ 32 ->
  describes q (NFC_NDEF_CH_RECORD_DESC_DEF ty ch) (handover_record ty ch local).
Proof.
  intros Hty (msg & Hl & Hm) Hds Hok Hma Hmi Hmax.
  pose proof (Uri.describes_plain TNF_WELL_KNOWN ty (Constructor (nfc_ndef_ch_rec_payload_encode ch))
    (handover_record ty ch local) (q := q)) as Hp. rewrite Hty in Hp. apply Hp; [done..|].
  apply ch_rec_builds; [done|done|done|]. rewrite Hl. eapply Uri.msg_built; [done|done|done|lia].
Qed.

(** Putting the message together: the local records are added to the handover
    record, and the handover record and the carriers to the message. *)
Lemma ch_msg_create_spec `{ByteOrder} q ty ch msg local0 acds cds local acs carriers capl capm :
  let n := zlen acds in
  length ty = 2%nat -> ch_filled ch local0 capl -> filled msg [] capm ->
  zlen local0 + n <= capl -> n < capm -> length cds = length acds ->
  Forall2 (describes q) local0 local -> Forall2 (describes q) acds acs -> Forall2 (describes q) cds carriers ->
  Forall record_ok (local ++ acs) ->
  0 <= major_version ch < 16 -> 0 <= minor_version ch < 16 -> 1 + zlen (msg_octets (local ++ acs)) < 2 ^ 32 ->
  exists msg' ch', ch_msg_create msg {| ch_type := ty; ch_payload := ch |} acds cds n = Ok (msg', ch') /\
    describes_msg q msg' (handover_record ty ch (local ++ acs) :: carriers).
Proof.
  intros n Hty Hch Hm Hcl Hcm Hlen Hl0 Hacs Hcs Hok Hma Hmi Hmax. unfold ch_msg_create, alternate_rec_encode.
  cbn [ch_payload ch_type]. unfold n. rewrite Nat2Z.id.
  destruct (alternate_loop_spec acds [] [] ch local0 capl Hch) as (ch' & Halt & Hch' & Hv1 & Hv2); [zsize|].
  cbn [app] in Halt. rewrite app_nil_r in Halt. change (zlen []) with 0 in Halt. rewrite Halt. cstep.
  unfold ch_rec_create. pose proof (record_add_spec msg [] capm (NFC_NDEF_CH_RECORD_DESC_DEF ty ch') Hm) as Hadd.
  rewrite (proj2 (Z.ltb_lt _ _)) in Hadd by (cbn [length]; lia). destruct Hadd as (msg' & -> & Hm'). cstep.
  pose proof (carrier_loop_spec cds [] [] msg' _ capm Hm') as Hloop. cbn [app] in Hloop.
  rewrite app_nil_r, Hlen in Hloop. change (zlen []) with 0 in Hloop. rewrite Nat2Z.id.
  destruct (Z.leb_spec (zlen (NFC_NDEF_CH_RECORD_DESC_DEF ty ch' :: cds)) capm); [|zsize].
  destruct Hloop as (msg'' & -> & Hm''). cstep. do 2 eexists. split; [done|].
  destruct Hm'' as (Hm'' & _). eexists. split; [exact Hm''|]. constructor; [|done].
  rewrite (handover_version ty ch ch') by done.
  apply (handover_describes q ty ch' (local ++ acs) (local0 ++ acds) capl); rewrite ?Hv1, ?Hv2; try done.
  by apply Forall2_app.
Qed.

Lemma handover_record_ok ty ch local carriers :
  length ty = 2%nat -> carriers <> [] ->
  zlen (msg_octets (handover_record ty ch local :: carriers)) < 2 ^ 32 ->
  record_ok (handover_record ty ch local) /\ 1 + zlen (msg_octets local) < 2 ^ 32.
Proof.
  intros Hty Hne Hmax. destruct carriers as [|c cs]; [done|].
  unfold msg_octets in Hmax at 1. cbn [msg_octets_from] in Hmax.
  rewrite !length_app, !Nat2Z.inj_add, Uri.length_plain_octets, length_record_octets in Hmax by done.
  cbn [handover_record r_payload r_type] in Hmax. unfold ch_octets in Hmax. cbn [length] in Hmax.
  assert (7 < 6 + (if 0 <? zlen (r_id c) then 1 else 0) + 2) by (destruct (0 <? zlen (r_id c)); lia).
  repeat split; cbn [handover_record r_tnf r_type r_id r_payload]; unfold ch_octets; cbn [length];
    rewrite ?Hty; try (done || lia).
Qed.

Definition cr_record (random : Z) : ndef_record :=
  {| r_tnf := TNF_WELL_KNOWN; r_type := chars "cr"; r_id := []; r_payload := [random / 256; random mod 256] |}.

Lemma cr_record_ok random : record_ok (cr_record random).
Proof. by repeat split. Qed.
Lemma cr_describes `{ByteOrder} random :
  0 <= random < 2 ^ 16 -> describes false (NFC_NDEF_CH_CR_RECORD_DESC_DEF random) (cr_record random).
Proof.
  intros Hr. apply (Uri.describes_plain TNF_WELL_KNOWN (chars "cr")); [done..|]. by apply cr_rec_builds.
Qed.

Lemma handover_select_spec `{ByteOrder} q ty ch msg acds cds acs carriers capl capm :
  length ty = 2%nat -> ch_filled ch [] capl -> filled msg [] capm ->
  1 <= zlen acds <= capl -> zlen acds < capm -> length cds = length acds ->
  Forall2 (describes q) acds acs -> Forall2 (describes q) cds carriers ->
  Forall record_ok acs -> Forall record_ok carriers ->
  0 <= major_version ch < 16 -> 0 <= minor_version ch < 16 ->
  zlen (msg_octets (handover_record ty ch acs :: carriers)) < 2 ^ 32 ->
  exists msg' ch',
    nfc_ndef_ch_msg_hs_create (Some msg) (Some {| ch_type := ty; ch_payload := ch |})
      (Some {| ac := Some acds; carrier := Some cds; cnt := zlen acds |}) = Ok (msg', ch') /\
    describes_msg q msg' (handover_record ty ch acs :: carriers) /\
    Forall record_ok (handover_record ty ch acs :: carriers).
Proof.
  intros Hty Hch Hm Hn Hcap Hcds Hacs Hcs Hok Hokc Hma Hmi Hmax.
  assert (Hne : carriers <> []).
  { intros ->. apply Forall2_length in Hcs. cbn [length] in Hcs. lia. }
  destruct (handover_record_ok ty ch acs carriers Hty Hne Hmax) as [Hhr Hmax'].
  destruct (ch_msg_create_spec q ty ch msg [] acds cds [] acs carriers capl capm)
    as (msg' & ch' & Hcreate & Hd); try done; cbn [length app] in *; try (constructor || lia).
  exists msg', ch'. split; [|split; [done|by constructor]].
  unfold nfc_ndef_ch_msg_hs_create. cbn [ac carrier cnt]. by destruct (Z.ltb_spec (zlen acds) 1); [lia|].
Qed.

(** A handover select message. From a handover record without local records,
    as many alternative carrier records as carrier records, at least one, and
    room for them, a message is created whose encoding is the handover record,
    with the version and the alternative carriers as payload, followed by the
    carriers. *)
Theorem handover_select_message `{ByteOrder} (q : bool) (ty : list Z) (ch : nfc_ndef_ch_rec)
    (msg : nfc_ndef_msg_desc) (acds cds : list nfc_ndef_record_desc) (acs carriers : list ndef_record)
    (capl capm : Z)
    (Hty : length ty = 2%nat) (Hch : ch_filled ch [] capl) (Hm : filled msg [] capm)
    (Hn : 1 <= zlen acds <= capl) (Hcap : zlen acds < capm) (Hcds : length cds = length acds)
    (Hacs : Forall2 (describes q) acds acs) (Hcs : Forall2 (describes q) cds carriers)
    (Hok : Forall record_ok acs) (Hokc : Forall record_ok carriers)
    (Hma : 0 <= major_version ch < 16) (Hmi : 0 <= minor_version ch < 16)
    (Hmax : zlen (msg_octets (handover_record ty ch acs :: carriers)) < 2 ^ 32) :
  exists msg' ch',
    nfc_ndef_ch_msg_hs_create (Some msg) (Some {| ch_type := ty; ch_payload := ch |})
      (Some {| ac := Some acds; carrier := Some cds; cnt := zlen acds |}) = Ok (msg', ch') /\
    builds q (nfc_ndef_msg_encode (Some msg')) (msg_octets (handover_record ty ch acs :: carriers)).
Proof.
  destruct (handover_select_spec q ty ch msg acds cds acs carriers capl capm)
    as (msg' & ch' & Hcreate & Hd & Hall); try done.
  exists msg', ch'. split; [done|]. pose proof (msg_octets_count (handover_record ty ch acs :: carriers)).
  apply msg_encode_spec; [done|done|lia|done].
Qed.

(** A handover request message: as the select message, with the collision
    resolution record as first local record. Its size cannot be asked for, since
    the collision resolution record does not tell its own. *)
Theorem handover_request_message `{ByteOrder} (ty : list Z) (ch : nfc_ndef_ch_rec) (random : Z)
    (msg : nfc_ndef_msg_desc) (acds cds : list nfc_ndef_record_desc) (acs carriers : list ndef_record)
    (capl capm : Z)
    (Hty : length ty = 2%nat) (Hch : ch_filled ch [] capl) (Hm : filled msg [] capm)
    (Hr : 0 <= random < 2 ^ 16)
    (Hn : 1 <= zlen acds < capl) (Hcap : zlen acds < capm) (Hcds : length cds = length acds)
    (Hacs : Forall2 (describes false) acds acs) (Hcs : Forall2 (describes false) cds carriers)
    (Hok : Forall record_ok acs) (Hokc : Forall record_ok carriers)
    (Hma : 0 <= major_version ch < 16) (Hmi : 0 <= minor_version ch < 16) :
  let rs := handover_record ty ch (cr_record random :: acs) :: carriers in
  zlen (msg_octets rs) < 2 ^ 32 ->
  exists msg' ch',
    nfc_ndef_ch_msg_hr_create (Some msg) (Some {| ch_type := ty; ch_payload := ch |})
      (Some (NFC_NDEF_CH_CR_RECORD_DESC_DEF random))
      (Some {| ac := Some acds; carrier := Some cds; cnt := zlen acds |}) = Ok (msg', ch') /\
    builds false (nfc_ndef_msg_encode (Some msg')) (msg_octets rs).
Proof.
  intros rs Hmax. assert (Hne : carriers <> []).
  { intros ->. apply Forall2_length in Hcs. cbn [length] in Hcs. lia. }
  destruct (handover_record_ok ty ch (cr_record random :: acs) carriers Hty Hne Hmax) as [Hhr Hmax'].
  unfold nfc_ndef_ch_msg_hr_create. cbn [ac carrier cnt].
  destruct (Z.ltb_spec (zlen acds) 1); [lia|]. cbn [ch_payload ch_type].
  pose proof (local_record_add_spec ch [] capl (NFC_NDEF_CH_CR_RECORD_DESC_DEF random) Hch) as Hadd.
  rewrite (proj2 (Z.ltb_lt _ _)) in Hadd by (cbn [length]; lia). destruct Hadd as (ch1 & -> & Hch1 & Hv1 & Hv2).
  cstep. destruct (ch_msg_create_spec false ty ch1 msg [NFC_NDEF_CH_CR_RECORD_DESC_DEF random] acds cds
    [cr_record random] acs carriers capl capm) as (msg' & ch' & Hcreate & Hd);
    rewrite ?Hv1, ?Hv2; try done; cbn [length app]; try lia.
  { constructor; [by apply cr_describes|constructor]. }
  { constructor; [by apply cr_record_ok|done]. }
  exists msg', ch'. split; [done|]. rewrite <- (handover_version ty ch ch1) in Hd by done.
  pose proof (msg_octets_count rs). apply msg_encode_spec; [done|by constructor|lia|done].
Qed.

(** ** Instances *)

Definition ac_sample : nfc_ndef_ch_ac_rec :=
  {| cps := 1; carrier_data_ref := {| ref_length := 1; ref_data := Some (chars "0") |};
     max_aux_data_ref_cnt := 2; aux_data_ref_cnt := 1;
     aux_data_ref := [{| ref_length := 2; ref_data := Some (chars "x1") |}; {| ref_length := 0; ref_data := None |}] |}.
Definition ac_sample_record : ndef_record :=
  {| r_tnf := TNF_WELL_KNOWN; r_type := chars "ac"; r_id := []; r_payload := ac_octets 1 (chars "0") [chars "x1"] |}.
Definition ch_sample : nfc_ndef_ch_rec :=
  {| major_version := 1; minor_version := 2; local_records := Some (NFC_NDEF_MSG_DEF 2) |}.

Lemma ac_sample_of : ac_of ac_sample 1 (chars "0") [chars "x1"].
Proof.
  do 4 (split; [by repeat split|]). split; [done|].
  exists [{| ref_length := 2; ref_data := Some (chars "x1") |}], [{| ref_length := 0; ref_data := None |}].
  split; [done|]. repeat constructor.
Qed.
Lemma ac_sample_describes q : describes q (NFC_NDEF_CH_AC_RECORD_DESC_DEF ac_sample) ac_sample_record.
Proof.
  apply (Uri.describes_plain TNF_WELL_KNOWN (chars "ac")); [done..|]. apply ac_rec_builds, ac_sample_of.
Qed.
Lemma ac_sample_ok : record_ok ac_sample_record.
Proof. by repeat split. Qed.
Lemma ch_sample_filled : ch_filled ch_sample [] 2.
Proof. eexists. split; [done|]. by apply filled_empty. Qed.

Lemma handover_select_message_witness :
  exists msg' ch',
    nfc_ndef_ch_msg_hs_create (Some (NFC_NDEF_MSG_DEF 2)) (Some {| ch_type := chars "Hs"; ch_payload := ch_sample |})
      (Some {| ac := Some [NFC_NDEF_CH_AC_RECORD_DESC_DEF ac_sample];
               carrier := Some [record_sample_desc]; cnt := 1 |}) = Ok (msg', ch') /\
    builds true (nfc_ndef_msg_encode (Some msg'))
      (msg_octets [handover_record (chars "Hs") ch_sample [ac_sample_record]; record_sample]).
Proof.
  apply (handover_select_message true (chars "Hs") ch_sample (NFC_NDEF_MSG_DEF 2)
    [NFC_NDEF_CH_AC_RECORD_DESC_DEF ac_sample] [record_sample_desc] [ac_sample_record] [record_sample] 2 2).
  - done.
  - apply ch_sample_filled.
  - by apply filled_empty.
  - done.
  - done.
  - done.
  - constructor; [apply ac_sample_describes|constructor].
  - constructor; [apply record_sample_described|constructor].
  - constructor; [apply ac_sample_ok|constructor].
  - constructor; [apply record_sample_ok|constructor].
  - done.
  - done.
  - done.
Defined.

Lemma handover_request_message_witness :
  exists msg' ch',
    nfc_ndef_ch_msg_hr_create (Some (NFC_NDEF_MSG_DEF 2)) (Some {| ch_type := chars "Hr"; ch_payload := ch_sample |})
      (Some (NFC_NDEF_CH_CR_RECORD_DESC_DEF 0x1234))
      (Some {| ac := Some [NFC_NDEF_CH_AC_RECORD_DESC_DEF ac_sample];
               carrier := Some [record_sample_desc]; cnt := 1 |}) = Ok (msg', ch') /\
    builds false (nfc_ndef_msg_encode (Some msg'))
      (msg_octets [handover_record (chars "Hr") ch_sample [cr_record 0x1234; ac_sample_record]; record_sample]).
Proof.
  apply (handover_request_message (chars "Hr") ch_sample 0x1234 (NFC_NDEF_MSG_DEF 2)
    [NFC_NDEF_CH_AC_RECORD_DESC_DEF ac_sample] [record_sample_desc] [ac_sample_record] [record_sample] 2 2).
  - done.
  - apply ch_sample_filled.
  - by apply filled_empty.
  - done.
  - done.
  - done.
  - done.
  - constructor; [apply ac_sample_describes|constructor].
  - constructor; [apply record_sample_described|constructor].
  - constructor; [apply ac_sample_ok|constructor].
  - constructor; [apply record_sample_ok|constructor].
  - done.
  - done.
  - done.
Defined.

(** The size of a request message that is computed without a destination is two
    octets short of the message: a buffer of that size is refused. *)
Lemma request_size_short :
  let create := nfc_ndef_ch_msg_hr_create (Some (NFC_NDEF_MSG_DEF 2))
    (Some {| ch_type := chars "Hr"; ch_payload := ch_sample |})
    (Some (NFC_NDEF_CH_CR_RECORD_DESC_DEF 0x1234))
    (Some {| ac := Some [NFC_NDEF_CH_AC_RECORD_DESC_DEF ac_sample];
             carrier := Some [record_sample_desc]; cnt := 1 |}) in
  (let* '(msg, _) := create in nfc_ndef_msg_encode (Some msg) None 0) = Ok (None, 50) /\
  (let* '(msg, _) := create in nfc_ndef_msg_encode (Some msg) (Some (replicate 50 0)) 50) = Err ENOSR /\
  (let* '(msg, _) := create in let* '(_, n) := nfc_ndef_msg_encode (Some msg) (Some (replicate 52 0)) 52 in Ok n) =
    Ok 52.
Proof. vm_compute. done. Qed.
