(* ===== verification/NdefChParse.v ===== *)
(** * Parsers of connection handover records: ch_rec_parser.c of subsys/nfc/ndef

    A record found by the message parser is checked for its type, and its payload
    is parsed into structures that are allocated in a buffer of the caller. The
    pointers of the structures lead to copies there; here they are the bytes. *)

From stdpp Require Import prelude strings.
From Stdlib Require Import ZArith Lia.
From S2P Require Import Prelude NdefRecord NdefMsg NdefPayload NdefCh.

Open Scope Z_scope.

(** The simple network buffers of the operating system, used as an allocator:
    a buffer of a size with nothing in it, the space at its end, and taking some
    of it. A buffer holds less than [2 ^ 16] bytes. *)
Class NetBuf := {
  net_buf_simple : Type;
  net_buf_simple_init_with_data : Z -> net_buf_simple;
  net_buf_simple_tailroom : net_buf_simple -> Z;
  net_buf_simple_add : net_buf_simple -> Z -> net_buf_simple;
  tailroom_init n : 0 <= n < 2 ^ 16 -> net_buf_simple_tailroom (net_buf_simple_init_with_data n) = n;
  tailroom_add b n : 0 <= n <= net_buf_simple_tailroom b ->
    net_buf_simple_tailroom (net_buf_simple_add b n) = net_buf_simple_tailroom b - n
}.

#[export, refine] Instance netbuf_reference : NetBuf := {|
  net_buf_simple := Z;
  net_buf_simple_init_with_data n := n;
  net_buf_simple_tailroom b := b;
  net_buf_simple_add b n := b - n
|}.
Proof. all: done. Defined.

Definition memory_allocate `{NetBuf} (buf : net_buf_simple) (alloc_size : Z) : option net_buf_simple :=
  if net_buf_simple_tailroom buf <? alloc_size then None else Some (net_buf_simple_add buf alloc_size).

(** Reading behind a pointer that may be null. *)
Definition rd_at (p : option (list Z)) (i : Z) : res Z :=
  match p with None => Fault | Some m => rd m i end.
Definition blk_at (p : option (list Z)) (off n : Z) : res (list Z) :=
  match p with None => Fault | Some m => rd_block m off n end.

(** The sizes of the structures that are allocated and of the enumeration of
    type name formats. *)
Record ch_layout := { sz_hc : Z; sz_ac : Z; sz_ref : Z; sz_ch : Z; sz_tnf : Z }.

(** ** Checks of the record type *)

Definition rec_type_check (rec_desc : option nfc_ndef_record_desc) (type : list Z) : res bool :=
  match rec_desc with
  | None => Ok false
  | Some d =>
    if tnf d =? 0 then Ok false
    else if negb (tnf d =? TNF_WELL_KNOWN) then Ok false
    else if negb (type_length d =? zlen type) then Ok false
    else let* t := rd_ptr (rec_type d) (zlen type) in Ok (bool_decide (t = type))
  end.

Definition ch_rec_check (rec_desc : option nfc_ndef_record_desc) : res bool :=
  match rec_desc with
  | None => Ok false
  | Some d =>
    if tnf d =? 0 then Ok false
    else if negb (tnf d =? TNF_WELL_KNOWN) then Ok false
    else if negb (type_length d =? 2) then Ok false
    else
      let* t := rd_ptr (rec_type d) 2 in
      Ok (bool_decide (t = nfc_ndef_ch_hs_rec_type_field) || bool_decide (t = nfc_ndef_ch_hr_rec_type_field) ||
          bool_decide (t = nfc_ndef_ch_hm_rec_type_field) || bool_decide (t = nfc_ndef_ch_hi_rec_type_field))
  end.

Definition nfc_ndef_ch_hc_rec_check rec_desc := rec_type_check rec_desc nfc_ndef_ch_hc_rec_type_field.
Definition nfc_ndef_ch_cr_rec_check rec_desc := rec_type_check rec_desc nfc_ndef_ch_cr_rec_type_field.
Definition nfc_ndef_ch_ac_rec_check rec_desc := rec_type_check rec_desc nfc_ndef_ch_ac_rec_type_field.

Inductive nfc_ndef_ch_rec_type :=
  | NFC_NDEF_CH_REC_TYPE_HANDOVER_SELECT
  | NFC_NDEF_CH_REC_TYPE_HANDOVER_REQUEST
  | NFC_NDEF_CH_REC_TYPE_HANDOVER_INITIATE
  | NFC_NDEF_CH_REC_TYPE_HANDOVER_MEDIATION.

Definition nfc_ndef_ch_rec_check (rec_desc : option nfc_ndef_record_desc) (rec_type : nfc_ndef_ch_rec_type)
    : res bool :=
  match rec_type with
  | NFC_NDEF_CH_REC_TYPE_HANDOVER_SELECT => rec_type_check rec_desc nfc_ndef_ch_hs_rec_type_field
  | NFC_NDEF_CH_REC_TYPE_HANDOVER_REQUEST => rec_type_check rec_desc nfc_ndef_ch_hr_rec_type_field
  | NFC_NDEF_CH_REC_TYPE_HANDOVER_INITIATE => rec_type_check rec_desc nfc_ndef_ch_hi_rec_type_field
  | NFC_NDEF_CH_REC_TYPE_HANDOVER_MEDIATION => rec_type_check rec_desc nfc_ndef_ch_hm_rec_type_field
  end.

Section Parse.
  Context `{NetBuf} `{ByteOrder} (ly : layout) (cl : ch_layout).

(** ** Payloads *)

(** The carrier type format is the address of the payload, cut to the size of
    the enumeration; [payload_addr] is that address. Returns the structure and
    the part of the buffer that is used. *)
Definition hc_rec_payload_parse (payload_addr : Z) (payload_desc : nfc_ndef_bin_payload_desc) (buf_size : Z)
    : res (nfc_ndef_ch_hc_rec * Z) :=
  let payload := bin_payload payload_desc in
  let payload_len := payload_length payload_desc in
  let buf := net_buf_simple_init_with_data buf_size in
  match memory_allocate buf (sz_hc cl) with
  | None => Err ENOMEM
  | Some buf =>
    if payload_len <? 1 then Err EINVAL else
    let ctf := payload_addr mod 2 ^ (8 * sz_tnf cl) in
    let payload_len := payload_len - 1 in
    if payload_len <? 1 then Err EINVAL else
    let* type_len := rd_at payload 1 in
    let payload_len := payload_len - 1 in
    if payload_len <? type_len then Err EINVAL else
    match memory_allocate buf type_len with
    | None => Err ENOMEM
    | Some buf =>
      let* ty := blk_at payload 2 type_len in
      let payload_len := payload_len - type_len in
      if payload_len <? 1 then
        Ok ({| ctf := ctf; carrier_type_len := type_len; carrier_type := Some ty;
               carrier_data_len := 0; carrier_data := None |},
            buf_size - net_buf_simple_tailroom buf)
      else
        let data_len := u8 payload_len in
        match memory_allocate buf data_len with
        | None => Err ENOMEM
        | Some buf =>
          let* data := blk_at payload (2 + type_len) data_len in
          Ok ({| ctf := ctf; carrier_type_len := type_len; carrier_type := Some ty;
                 carrier_data_len := data_len; carrier_data := Some data |},
              buf_size - net_buf_simple_tailroom buf)
        end
    end
  end.

(** A reference at [pos]; [payload_len] bytes are left. *)
Definition ac_reference_parse (payload : option (list Z)) (buf : net_buf_simple) (pos payload_len : Z)
    : res (nfc_ndef_ch_ac_rec_ref * net_buf_simple * Z * Z) :=
  if payload_len <? 1 then Err EINVAL else
  let* length := rd_at payload pos in
  let pos := pos + 1 in
  let payload_len := payload_len - 1 in
  if payload_len <? length then Err EINVAL else
  match memory_allocate buf length with
  | None => Err ENOMEM
  | Some buf =>
    let* data := blk_at payload pos length in
    Ok ({| ref_length := length; ref_data := Some data |}, buf, pos + length, payload_len - length)
  end.

Fixpoint ac_refs_parse (rounds : nat) (payload : option (list Z)) (buf : net_buf_simple) (pos payload_len : Z)
    : res (list nfc_ndef_ch_ac_rec_ref * net_buf_simple) :=
  match rounds with
  | O => Ok ([], buf)
  | S rounds =>
    let* '(r, buf, pos, payload_len) := ac_reference_parse payload buf pos payload_len in
    let* '(rs, buf) := ac_refs_parse rounds payload buf pos payload_len in
    Ok (r :: rs, buf)
  end.

Definition ac_rec_payload_parse (payload_desc : nfc_ndef_bin_payload_desc) (buf_size : Z)
    : res (nfc_ndef_ch_ac_rec * Z) :=
  let payload := bin_payload payload_desc in
  let payload_len := payload_length payload_desc in
  let buf := net_buf_simple_init_with_data buf_size in
  match memory_allocate buf (sz_ac cl) with
  | None => Err ENOMEM
  | Some buf =>
    if payload_len <? AC_REC_CPS_BYTE_SIZE then Err EINVAL else
    let* cps := rd_at payload 0 in
    let payload_len := payload_len - AC_REC_CPS_BYTE_SIZE in
    let* '(ref, buf, pos, payload_len) := ac_reference_parse payload buf AC_REC_CPS_BYTE_SIZE payload_len in
    if payload_len <? 1 then Err EINVAL else
    let* cnt := rd_at payload pos in
    let pos := pos + 1 in
    let payload_len := payload_len - 1 in
    if cnt =? 0 then
      Ok ({| cps := cps; carrier_data_ref := ref; max_aux_data_ref_cnt := 0; aux_data_ref_cnt := 0;
             aux_data_ref := [] |}, buf_size - net_buf_simple_tailroom buf)
    else
      match memory_allocate buf (cnt * sz_ref cl) with
      | None => Err ENOMEM
      | Some buf =>
        let* '(refs, buf) := ac_refs_parse (Z.to_nat cnt) payload buf pos payload_len in
        Ok ({| cps := cps; carrier_data_ref := ref; max_aux_data_ref_cnt := 0; aux_data_ref_cnt := cnt;
               aux_data_ref := refs |}, buf_size - net_buf_simple_tailroom buf)
      end
  end.

Definition ch_rec_payload_parse (payload_desc : nfc_ndef_bin_payload_desc) (buf_size : Z)
    : res (nfc_ndef_ch_rec * Z) :=
  let payload := bin_payload payload_desc in
  let payload_len := payload_length payload_desc in
  let buf := net_buf_simple_init_with_data buf_size in
  match memory_allocate buf (sz_ch cl) with
  | None => Err ENOMEM
  | Some buf =>
    if payload_len <? 1 then Err EINVAL else
    let* v := rd_at payload 0 in
    let payload_len := payload_len - 1 in
    let local_msg_size := net_buf_simple_tailroom buf in
    match memory_allocate buf local_msg_size with
    | None => Err ENOMEM
    | Some buf =>
      let* '(msg, _, _) := nfc_ndef_msg_parse ly local_msg_size (drop 1 (default [] payload)) payload_len in
      Ok ({| major_version := Z.land (Z.shiftr v 4) 0x0F; minor_version := Z.land v 0x0F;
             local_records := Some msg |}, buf_size - net_buf_simple_tailroom buf)
    end
  end.

(** ** Records *)

(** The pointer to the result buffer with the size behind the pointer to its
    length; [None] if one of them is null. *)
Definition rec_parse {A} (check : option nfc_ndef_record_desc -> res bool)
    (payload_parse : nfc_ndef_bin_payload_desc -> Z -> res A)
    (rec_desc : option nfc_ndef_record_desc) (result_buf : option Z) : res A :=
  match rec_desc, result_buf with
  | Some d, Some result_buf_len =>
    let* ok := check rec_desc in
    if (ok : bool) then
      match rec_payload d with
      | Some (Memcopy b) => payload_parse b result_buf_len
      | _ => Err ENOTSUP
      end
    else Err EINVAL
  | _, _ => Err EINVAL
  end.

Definition nfc_ndef_ch_hc_rec_parse (payload_addr : Z) :=
  rec_parse nfc_ndef_ch_hc_rec_check (hc_rec_payload_parse payload_addr).
Definition nfc_ndef_ch_ac_rec_parse := rec_parse nfc_ndef_ch_ac_rec_check ac_rec_payload_parse.
Definition nfc_ndef_ch_rec_parse := rec_parse ch_rec_check ch_rec_payload_parse.

(** Returns the random number. *)
Definition nfc_ndef_ch_cr_rec_parse (rec_desc : option nfc_ndef_record_desc) : res Z :=
  match rec_desc with
  | None => Err EINVAL
  | Some d =>
    let* ok := nfc_ndef_ch_cr_rec_check rec_desc in
    if (ok : bool) then
      match rec_payload d with
      | Some (Memcopy b) =>
        if payload_length b <? 2 then Err EINVAL
        else let* bs := blk_at (bin_payload b) 0 2 in Ok (sys_get_be16 bs)
      | _ => Err ENOTSUP
      end
    else Err EINVAL
  end.

(** ** What is parsed *)

Lemma alloc_spec buf n :
  0 <= n ->
  if net_buf_simple_tailroom buf <? n then memory_allocate buf n = None
  else exists buf', memory_allocate buf n = Some buf' /\
    net_buf_simple_tailroom buf' = net_buf_simple_tailroom buf - n.
Proof.
  intros Hn. unfold memory_allocate. destruct (Z.ltb_spec (net_buf_simple_tailroom buf) n); [done|].
  eexists. split; [done|]. apply tailroom_add. lia.
Qed.

Lemma rec_type_check_spec q d r ty :
  describes q d r ->
  rec_type_check (Some d) ty = Ok (bool_decide (r_tnf r = TNF_WELL_KNOWN /\ r_type r = ty)).
Proof.
  intros (Ht & Htl & Htp & _). unfold rec_type_check. rewrite Ht, Htl in *.
  destruct (Z.eqb_spec (r_tnf r) 0) as [E|E].
  { rewrite bool_decide_eq_false_2; [done|]. intros [? _]. unfold TNF_WELL_KNOWN in *. lia. }
  destruct (Z.eqb_spec (r_tnf r) TNF_WELL_KNOWN) as [E1|E1]; cbn [negb].
  2: { rewrite bool_decide_eq_false_2; [done|]. by intros [? _]. }
  destruct (Z.eqb_spec (zlen (r_type r)) (zlen ty)) as [El|El]; cbn [negb].
  2: { rewrite bool_decide_eq_false_2; [done|]. intros [_ Hty]. by rewrite Hty in El. }
  rewrite <- El, Htp. cstep. f_equal. apply bool_decide_ext. by intuition.
Qed.

Lemma ch_rec_check_spec q d r :
  describes q d r ->
  ch_rec_check (Some d) = Ok (bool_decide (r_tnf r = TNF_WELL_KNOWN /\
    r_type r ∈ [chars "Hs"; chars "Hr"; chars "Hm"; chars "Hi"])).
Proof.
  intros (Ht & Htl & Htp & _). unfold ch_rec_check. rewrite Ht, Htl in *.
  destruct (Z.eqb_spec (r_tnf r) 0) as [E|E].
  { rewrite bool_decide_eq_false_2; [done|]. intros [? _]. unfold TNF_WELL_KNOWN in *. lia. }
  destruct (Z.eqb_spec (r_tnf r) TNF_WELL_KNOWN) as [E1|E1]; cbn [negb].
  2: { rewrite bool_decide_eq_false_2; [done|]. by intros [? _]. }
  destruct (Z.eqb_spec (zlen (r_type r)) 2) as [El|El]; cbn [negb].
  2: { rewrite bool_decide_eq_false_2; [done|]. intros [_ Hty]. revert El.
       rewrite !elem_of_cons in Hty. destruct Hty as [-> | [-> | [-> | [-> | Hty]]]]; try done. by apply not_elem_of_nil in Hty. }
  rewrite <- El, Htp. cstep. f_equal. rewrite <- !bool_decide_or. apply bool_decide_ext.
  rewrite !elem_of_cons, elem_of_nil. unfold nfc_ndef_ch_hs_rec_type_field, nfc_ndef_ch_hr_rec_type_field,
    nfc_ndef_ch_hm_rec_type_field, nfc_ndef_ch_hi_rec_type_field. by intuition.
Qed.

(** A pointer to a payload that is not empty. *)
Lemma rd_ptr_some ptr (p : list Z) :
  rd_ptr ptr (zlen p) = Ok p -> p <> [] -> exists m, ptr = Some m /\ seen m 0 p.
Proof.
  intros Hp Hne. unfold rd_ptr in Hp. destruct (Z.eqb_spec (zlen p) 0) as [E|E].
  { destruct p; [done|cbn [length] in E; lia]. }
  destruct ptr as [m|]; [|done]. exists m. split; [done|]. split; [done|]. revert Hp. unfold rd_block.
  destruct ((0 <? 0) || (zlen p <? 0) || (zlen m <? 0 + zlen p)); [done|]. rewrite Nat2Z.id.
  by intros [= ->].
Qed.

(** Parsing a record that was received. *)
Lemma rec_parse_spec {A} (check : option nfc_ndef_record_desc -> res bool)
    (f : nfc_ndef_bin_payload_desc -> Z -> res A) d r n :
  received d r -> check (Some d) = Ok true ->
  exists b, rec_parse check f (Some d) (Some n) = f b n /\ payload_length b = zlen (r_payload r) /\
    (r_payload r <> [] -> exists m, bin_payload b = Some m /\ seen m 0 (r_payload r) /\ zlen (r_payload r) <= zlen m).
Proof.
  intros (_ & b & Hb & Hl & Hp) Hc. exists b. unfold rec_parse. rewrite Hc. cstep. rewrite Hb.
  split; [done|]. split; [done|]. intros Hne. destruct (rd_ptr_some _ _ Hp Hne) as (m & Hm & Hs).
  exists m. split; [done|]. split; [done|]. destruct (seen_length _ _ _ Hs); [lia|done].
Qed.

(** A handover carrier record. The carrier type format of the result is not the
    one of the record. *)
Lemma hc_rec_parse_spec addr d r c ty data n :
  received d r -> r_tnf r = TNF_WELL_KNOWN -> r_type r = chars "Hc" ->
  r_payload r = c :: zlen ty :: ty ++ data -> zlen ty < 256 -> zlen data < 256 ->
  0 <= sz_hc cl -> 0 <= n < 2 ^ 16 ->
  nfc_ndef_ch_hc_rec_parse addr (Some d) (Some n) =
    let used := sz_hc cl + zlen ty + zlen data in
    if used <=? n then
      Ok ({| ctf := addr mod 2 ^ (8 * sz_tnf cl); carrier_type_len := zlen ty; carrier_type := Some ty;
             carrier_data_len := zlen data; carrier_data := if zlen data =? 0 then None else Some data |}, used)
    else Err ENOMEM.
Proof.
  intros Hd Ht Hty Hp Hlt Hld Hsz Hn. cbn zeta.
  destruct (rec_parse_spec nfc_ndef_ch_hc_rec_check (hc_rec_payload_parse addr) d r n Hd) as (b & Heq & Hl & Hm).
  { unfold nfc_ndef_ch_hc_rec_check. rewrite (rec_type_check_spec true d r) by apply Hd.
    by rewrite bool_decide_eq_true_2. }
  unfold nfc_ndef_ch_hc_rec_parse. rewrite Heq. clear Heq.
  rewrite Hp in *. destruct Hm as (m & Hm & Hs & Hlm); [done|]. cbn [length] in *. rewrite length_app in *.
  apply seen_cons in Hs as [_ Hs]. apply seen_cons in Hs as [Hs1 Hs]. apply seen_app in Hs as [Hs2 Hs3].
  change (0 + 1) with 1 in *. change (1 + 1) with 2 in *.
  unfold hc_rec_payload_parse. rewrite Hl, Hm. cbn [rd_at blk_at].
  pose proof (alloc_spec (net_buf_simple_init_with_data n) (sz_hc cl) Hsz) as Ha. rewrite tailroom_init in Ha by done.
  destruct (Z.ltb_spec n (sz_hc cl)).
  { rewrite Ha. destruct (Z.leb_spec (sz_hc cl + zlen ty + zlen data) n); [lia|done]. }
  destruct Ha as (buf1 & -> & Ht1). rewrite (rd_seen0 _ _ _ _ Hs1). cstep. rewrite (rd_block_seen _ _ _ Hs2) by lia. cstep.
  destruct (Z.ltb_spec (Z.of_nat (S (S (length ty + length data)))) 1); [lia|].
  destruct (Z.ltb_spec (Z.of_nat (S (S (length ty + length data))) - 1) 1); [lia|].
  destruct (Z.ltb_spec (Z.of_nat (S (S (length ty + length data))) - 1 - 1) (zlen ty)); [lia|].
  replace (Z.of_nat (S (S (length ty + length data))) - 1 - 1 - zlen ty) with (zlen data) by lia.
  pose proof (alloc_spec buf1 (zlen ty) ltac:(lia)) as Ha. rewrite Ht1 in Ha.
  destruct (Z.ltb_spec (n - sz_hc cl) (zlen ty)).
  { rewrite Ha. destruct (Z.leb_spec (sz_hc cl + zlen ty + zlen data) n); [lia|done]. }
  destruct Ha as (buf2 & -> & Ht2). rewrite u8_small by lia.
  pose proof (alloc_spec buf2 (zlen data) ltac:(lia)) as Ha. rewrite Ht2 in Ha.
  destruct (Z.ltb_spec (zlen data) 1), (Z.eqb_spec (zlen data) 0); try lia.
  { rewrite Ht2. destruct (Z.leb_spec (sz_hc cl + zlen ty + zlen data) n); [|lia].
    do 2 f_equal; [by f_equal|lia]. }
  destruct (Z.ltb_spec (n - sz_hc cl - zlen ty) (zlen data)), (Z.leb_spec (sz_hc cl + zlen ty + zlen data) n);
    try lia; [by rewrite Ha|].
  destruct Ha as (buf3 & -> & Ht3). rewrite (rd_block_seen _ _ _ Hs3) by lia. cstep.
  rewrite Ht3. do 2 f_equal. lia.
Qed.

(** A reference that is parsed. *)
Definition ref_found (l : list Z) : nfc_ndef_ch_ac_rec_ref := {| ref_length := zlen l; ref_data := Some l |}.

Lemma ac_reference_parse_spec m buf pos len l :
  seen m pos (ref_octets l) -> zlen l + 1 <= len -> pos + 1 <= zlen m ->
  if net_buf_simple_tailroom buf <? zlen l then ac_reference_parse (Some m) buf pos len = Err ENOMEM
  else exists buf',
    ac_reference_parse (Some m) buf pos len = Ok (ref_found l, buf', pos + 1 + zlen l, len - 1 - zlen l) /\
    net_buf_simple_tailroom buf' = net_buf_simple_tailroom buf - zlen l.
Proof.
  intros Hs Hlen Hm. unfold ref_octets in Hs. apply seen_cons in Hs as [Hs1 Hs2].
  unfold ac_reference_parse. cbn [rd_at blk_at]. rewrite (rd_seen0 _ _ _ _ Hs1). cstep.
  destruct (Z.ltb_spec len 1); [lia|]. destruct (Z.ltb_spec (len - 1) (zlen l)); [lia|].
  pose proof (alloc_spec buf (zlen l) ltac:(lia)) as Ha.
  destruct (net_buf_simple_tailroom buf <? zlen l); [by rewrite Ha|].
  destruct Ha as (buf' & -> & Ht). rewrite (rd_block_seen _ _ _ Hs2) by lia. cstep. by exists buf'.
Qed.

Definition sum_len (aux : list (list Z)) : Z := zlen (mjoin aux).

Lemma ac_refs_parse_spec aux : forall m buf pos len,
  seen m pos (aux ≫= ref_octets) -> zlen (aux ≫= ref_octets) <= len ->
  pos + zlen (aux ≫= ref_octets) <= zlen m -> 0 <= net_buf_simple_tailroom buf ->
  if net_buf_simple_tailroom buf <? sum_len aux then
    ac_refs_parse (length aux) (Some m) buf pos len = Err ENOMEM
  else exists buf',
    ac_refs_parse (length aux) (Some m) buf pos len = Ok (ref_found <$> aux, buf') /\
    net_buf_simple_tailroom buf' = net_buf_simple_tailroom buf - sum_len aux.
Proof.
  induction aux as [|l aux IH]; intros m buf pos len Hs Hlen Hm Ht.
  { change (sum_len []) with 0. destruct (Z.ltb_spec (net_buf_simple_tailroom buf) 0); [lia|].
    exists buf. split; [done|lia]. }
  assert (Hsum : sum_len (l :: aux) = zlen l + sum_len aux)
    by (unfold sum_len; change (mjoin (l :: aux)) with (l ++ mjoin aux); rewrite length_app; lia).
  cbn [mbind list_bind] in *. rewrite length_app in *. apply seen_app in Hs as [Hs1 Hs2].
  assert (Hr : zlen (ref_octets l) = 1 + zlen l) by (unfold ref_octets; cbn [length]; lia).
  pose proof (ac_reference_parse_spec m buf pos len l Hs1 ltac:(lia) ltac:(lia)) as Hp.
  cbn [length ac_refs_parse]. rewrite Hsum.
  destruct (Z.ltb_spec (net_buf_simple_tailroom buf) (zlen l)).
  { rewrite Hp. destruct (Z.ltb_spec (net_buf_simple_tailroom buf) (zlen l + sum_len aux)); [done|].
    unfold sum_len in *. lia. }
  destruct Hp as (buf1 & -> & Ht1). cstep. rewrite Hr in Hs2. rewrite Z.add_assoc in Hs2.
  specialize (IH m buf1 (pos + 1 + zlen l) (len - 1 - zlen l) Hs2 ltac:(lia) ltac:(lia) ltac:(lia)).
  rewrite Ht1 in IH. destruct (Z.ltb_spec (net_buf_simple_tailroom buf - zlen l) (sum_len aux)),
    (Z.ltb_spec (net_buf_simple_tailroom buf) (zlen l + sum_len aux)); try lia; [by rewrite IH|].
  destruct IH as (buf' & -> & Ht'). cstep. exists buf'. split; [done|lia].
Qed.

(** An alternative carrier record. *)
Definition ac_found (state : Z) (ref : list Z) (aux : list (list Z)) : nfc_ndef_ch_ac_rec :=
  {| cps := state; carrier_data_ref := ref_found ref; max_aux_data_ref_cnt := 0;
     aux_data_ref_cnt := zlen aux; aux_data_ref := ref_found <$> aux |}.

Lemma ac_rec_parse_spec d r state ref aux n :
  received d r -> r_tnf r = TNF_WELL_KNOWN -> r_type r = chars "ac" ->
  r_payload r = ac_octets state ref aux -> 0 <= sz_ac cl -> 0 <= sz_ref cl -> 0 <= n < 2 ^ 16 ->
  nfc_ndef_ch_ac_rec_parse (Some d) (Some n) =
    let used := sz_ac cl + zlen ref + zlen aux * sz_ref cl + sum_len aux in
    if used <=? n then Ok (ac_found state ref aux, used) else Err ENOMEM.
Proof.
  intros Hd Ht Hty Hp Hsz Hszr Hn. cbn zeta.
  destruct (rec_parse_spec nfc_ndef_ch_ac_rec_check ac_rec_payload_parse d r n Hd) as (b & Heq & Hl & Hm).
  { unfold nfc_ndef_ch_ac_rec_check. rewrite (rec_type_check_spec true d r) by apply Hd.
    by rewrite bool_decide_eq_true_2. }
  unfold nfc_ndef_ch_ac_rec_parse. rewrite Heq. clear Heq.
  assert (Hlen : zlen (r_payload r) = 3 + zlen ref + zlen (aux ≫= ref_octets))
    by (rewrite Hp; unfold ac_octets, ref_octets at 1; cbn [length app]; rewrite length_app; cbn [length]; lia).
  destruct Hm as (m & Hm & Hs & Hlm); [by rewrite Hp|]. rewrite Hlen in *. rewrite Hp in Hs. unfold ac_octets in Hs.
  apply seen_cons in Hs as [Hs1 Hs]. apply seen_app in Hs as [Hs2 Hs]. apply seen_cons in Hs as [Hs3 Hs4].
  assert (Hr : zlen (ref_octets ref) = 1 + zlen ref) by (unfold ref_octets; cbn [length]; lia).
  rewrite Hr, Z.add_assoc in Hs3, Hs4. change (0 + 1) with 1 in *.
  unfold ac_rec_payload_parse, AC_REC_CPS_BYTE_SIZE. rewrite Hl, Hm. cbn [rd_at].
  pose proof (alloc_spec (net_buf_simple_init_with_data n) (sz_ac cl) Hsz) as Ha. rewrite tailroom_init in Ha by done.
  assert (0 <= zlen aux * sz_ref cl) by nia. assert (0 <= sum_len aux) by (unfold sum_len; lia).
  set (used := sz_ac cl + zlen ref + zlen aux * sz_ref cl + sum_len aux) in *.
  destruct (Z.ltb_spec n (sz_ac cl)).
  { rewrite Ha. destruct (Z.leb_spec used n); [lia|done]. }
  destruct Ha as (buf1 & -> & Ht1). rewrite (rd_seen0 _ _ _ _ Hs1). cstep.
  destruct (Z.ltb_spec (3 + zlen ref + zlen (aux ≫= ref_octets)) 1); [lia|].
  pose proof (ac_reference_parse_spec m buf1 1 (3 + zlen ref + zlen (aux ≫= ref_octets) - 1) ref Hs2 ltac:(lia) ltac:(lia)) as Hpr.
  rewrite Ht1 in Hpr. destruct (Z.ltb_spec (n - sz_ac cl) (zlen ref)).
  { rewrite Hpr. destruct (Z.leb_spec used n); [lia|done]. }
  destruct Hpr as (buf2 & -> & Ht2). cstep. rewrite (rd_seen0 _ _ _ _ Hs3). cstep.
  replace (3 + zlen ref + zlen (aux ≫= ref_octets) - 1 - 1 - zlen ref - 1) with (zlen (aux ≫= ref_octets)) by lia.
  destruct (Z.ltb_spec (3 + zlen ref + zlen (aux ≫= ref_octets) - 1 - 1 - zlen ref) 1); [lia|].
  rewrite Nat2Z.id. unfold ac_found. destruct (Z.eqb_spec (zlen aux) 0) as [E|E].
  { destruct aux; [|cbn [length] in E; lia]. cbn [length Z.of_nat fmap list_fmap]. rewrite Ht2.
    assert (Hu : used = sz_ac cl + zlen ref) by (unfold used; change (sum_len []) with 0; cbn [length]; lia).
    destruct (Z.leb_spec used n); [|lia]. do 2 f_equal. lia. }
  pose proof (alloc_spec buf2 (zlen aux * sz_ref cl) ltac:(lia)) as Ha. rewrite Ht2 in Ha.
  destruct (Z.ltb_spec (n - sz_ac cl - zlen ref) (zlen aux * sz_ref cl)).
  { rewrite Ha. destruct (Z.leb_spec used n); [lia|done]. }
  destruct Ha as (buf3 & -> & Ht3).
  assert (Hps := ac_refs_parse_spec aux m buf3 (1 + 1 + zlen ref + 1) (zlen (aux ≫= ref_octets)) Hs4).
  rewrite Ht3 in Hps. specialize (Hps ltac:(lia) ltac:(lia) ltac:(lia)). destruct (Z.ltb_spec (n - sz_ac cl - zlen ref - zlen aux * sz_ref cl) (sum_len aux)),
    (Z.leb_spec used n); try lia; [by rewrite Hps|].
  destruct Hps as (buf4 & -> & Ht4). cstep. rewrite Ht4. do 2 f_equal. lia.
Qed.

(** A handover record: its version, and the local records in either form. *)
Lemma version_decode v : byte v -> Z.land (Z.shiftr v 4) 0x0F = v / 16 /\ Z.land v 0x0F = v mod 16.
Proof.
  intros Hv. assert (Hc : (Z.land (Z.shiftr v 4) 0x0F =? v / 16) && (Z.land v 0x0F =? v mod 16) = true).
  { revert v Hv. by apply (byte_check (fun v => (Z.land (Z.shiftr v 4) 0x0F =? v / 16) && (Z.land v 0x0F =? v mod 16))). }
  lia.
Qed.

Lemma ch_rec_parse_spec d r v frs n :
  received d r -> r_tnf r = TNF_WELL_KNOWN -> r_type r ∈ [chars "Hs"; chars "Hr"; chars "Hm"; chars "Hi"] ->
  r_payload r = v :: msg_form frs -> byte v -> frs <> [] -> Forall form_ok frs -> zlen (msg_form frs) < 2 ^ 32 ->
  layout_ok ly -> 0 <= sz_ch cl -> 0 <= n < 2 ^ 16 ->
  if sz_ch cl + NFC_NDEF_PARSER_REQUIRED_MEM ly (zlen frs) <=? n then
    exists msg, nfc_ndef_ch_rec_parse (Some d) (Some n) =
        Ok ({| major_version := v / 16; minor_version := v mod 16; local_records := Some msg |}, n) /\
      received_msg msg frs.*2
  else nfc_ndef_ch_rec_parse (Some d) (Some n) = Err ENOMEM.
Proof.
  intros Hd Ht Hty Hp Hv Hne Hok H32 Hly Hsz Hn.
  destruct (rec_parse_spec ch_rec_check ch_rec_payload_parse d r n Hd) as (b & Heq & Hl & Hm).
  { rewrite (ch_rec_check_spec true d r) by apply Hd. by rewrite bool_decide_eq_true_2. }
  unfold nfc_ndef_ch_rec_parse. rewrite Heq. clear Heq. rewrite Hp in *.
  destruct Hm as (m & Hm & Hs & Hlm); [done|]. cbn [length] in *. apply seen_cons in Hs as [Hs1 Hs2].
  apply (seen_shift m 1 0) in Hs2; [|lia..]. change (Z.to_nat 1) with 1%nat in Hs2.
  unfold ch_rec_payload_parse. rewrite Hl, Hm. cbn [rd_at default from_option id].
  pose proof (required_mem_pos ly (zlen frs) Hly) as Hreq.
  pose proof (alloc_spec (net_buf_simple_init_with_data n) (sz_ch cl) Hsz) as Ha. rewrite tailroom_init in Ha by done.
  destruct (Z.ltb_spec n (sz_ch cl)).
  { rewrite Ha. by destruct (Z.leb_spec (sz_ch cl + NFC_NDEF_PARSER_REQUIRED_MEM ly (zlen frs)) n); [lia|]. }
  destruct Ha as (buf1 & -> & Ht1). rewrite (rd_seen0 _ _ _ _ Hs1). cstep. rewrite Ht1.
  destruct (Z.ltb_spec (Z.of_nat (S (length (msg_form frs)))) 1); [lia|].
  pose proof (alloc_spec buf1 (n - sz_ch cl) ltac:(lia)) as Ha. rewrite Ht1, Z.ltb_irrefl in Ha.
  destruct Ha as (buf2 & -> & Ht2). destruct (version_decode v Hv) as [-> ->].
  replace (Z.of_nat (S (length (msg_form frs))) - 1) with (zlen (msg_form frs)) by lia.
  pose proof (msg_parse_spec ly (n - sz_ch cl) frs (drop 1 m) (zlen (msg_form frs)) Hly ltac:(lia) Hne Hok Hs2
    ltac:(rewrite length_drop; lia) H32) as Hmsg.
  destruct (Z.leb_spec (NFC_NDEF_PARSER_REQUIRED_MEM ly (zlen frs)) (n - sz_ch cl)),
    (Z.leb_spec (sz_ch cl + NFC_NDEF_PARSER_REQUIRED_MEM ly (zlen frs)) n); try lia; [|by rewrite Hmsg].
  destruct Hmsg as (msg & used & -> & Hmsg & _). cstep. exists msg. split; [|done]. do 2 f_equal. lia.
Qed.

Lemma cr_rec_parse_spec d r random rest :
  received d r -> r_tnf r = TNF_WELL_KNOWN -> r_type r = chars "cr" ->
  r_payload r = random / 256 :: random mod 256 :: rest -> 
  nfc_ndef_ch_cr_rec_parse (Some d) = Ok random.
Proof.
  intros (Hd & b & Hb & Hl & Hptr) Ht Hty Hp. unfold nfc_ndef_ch_cr_rec_parse, nfc_ndef_ch_cr_rec_check.
  rewrite (rec_type_check_spec true d r _ Hd), bool_decide_eq_true_2 by done. cstep. rewrite Hb, Hl.
  destruct (rd_ptr_some _ _ Hptr) as (m & Hm & Hs); [by rewrite Hp|]. rewrite Hp in *.
  destruct (Z.ltb_spec (zlen (random / 256 :: random mod 256 :: rest)) 2); [cbn [length] in *; lia|].
  change (random / 256 :: random mod 256 :: rest) with ([random / 256; random mod 256] ++ rest) in Hs.
  apply seen_app in Hs as [Hs _]. rewrite Hm. cbn [blk_at].
  pose proof (rd_block_seen _ _ _ Hs ltac:(lia)) as Hrd. 
  change (zlen [random / 256; random mod 256]) with 2 in Hrd. rewrite Hrd. cstep. rewrite sys_get_be16_spec. f_equal. pose proof (Z.div_mod random 256). lia.
Qed.

(** ** Safety *)

(** A payload descriptor whose payload lies in bytes that can be read. *)
Definition payload_ok (b : nfc_ndef_bin_payload_desc) : Prop :=
  0 <= payload_length b < 2 ^ 32 /\
  (0 < payload_length b -> exists m, bin_payload b = Some m /\ bytes m /\ payload_length b <= zlen m).

Lemma post_rd_at p len i (Q : Z -> Prop) :
  (0 < len -> exists m, p = Some m /\ bytes m /\ len <= zlen m) -> 0 <= i < len ->
  (forall v, 0 <= v < 256 -> Q v) -> post (rd_at p i) Q.
Proof.
  intros Hp Hi HQ. destruct Hp as (m & -> & Hb & Hl); [lia|]. apply post_rd_byte; [done|lia|].
  intros v Hv. apply HQ. exact Hv.
Qed.

Lemma post_blk_at p len off n (Q : list Z -> Prop) :
  (0 < len -> exists m, p = Some m /\ bytes m /\ len <= zlen m) -> 0 <= off -> 0 <= n -> off + n <= len -> 0 < len ->
  (forall bs, zlen bs = n -> Q bs) -> post (blk_at p off n) Q.
Proof.
  intros Hp Ho Hn Hon Hlen HQ. destruct Hp as (m & -> & Hb & Hl); [lia|].
  apply post_rd_block; [done|lia..|]. auto.
Qed.

(** Goes on if the memory is there. *)
Lemma post_alloc {A} buf n (f : net_buf_simple -> res A) Q :
  0 <= n ->
  (forall buf', 0 <= net_buf_simple_tailroom buf' <= net_buf_simple_tailroom buf -> post (f buf') Q) ->
  post (match memory_allocate buf n with None => Err ENOMEM | Some buf' => f buf' end) Q.
Proof.
  intros Hn Hf. pose proof (alloc_spec buf n Hn) as Ha.
  destruct (Z.ltb_spec (net_buf_simple_tailroom buf) n); [by rewrite Ha|].
  destruct Ha as (buf' & -> & Ht). apply Hf. lia.
Qed.

Definition within {A} (n : Z) (x : A * Z) : Prop := 0 <= x.2 <= n.

Lemma hc_payload_post addr b n :
  payload_ok b -> 0 <= sz_hc cl -> 0 <= n < 2 ^ 16 -> post (hc_rec_payload_parse addr b n) (within n).
Proof.
  intros [Hl Hp] Hsz Hn. unfold hc_rec_payload_parse. apply post_alloc; [done|]. rewrite tailroom_init by done.
  intros buf1 Hb1. destruct (Z.ltb_spec (payload_length b) 1); [done|].
  destruct (Z.ltb_spec (payload_length b - 1) 1); [done|].
  apply post_bind. eapply post_rd_at; [exact Hp|lia|]. intros tl Htl.
  destruct (Z.ltb_spec (payload_length b - 1 - 1) tl); [done|]. apply post_alloc; [lia|]. intros buf2 Hb2.
  apply post_bind. eapply post_blk_at; [exact Hp|lia..|]. intros ty Hty.
  destruct (Z.ltb_spec (payload_length b - 1 - 1 - tl) 1); [unfold within; cbn; lia|].
  pose proof (u8_range (payload_length b - 1 - 1 - tl)).
  apply post_alloc; [lia|]. intros buf3 Hb3. apply post_bind. eapply post_blk_at; [exact Hp|lia|lia| |lia|].
  - unfold u8. pose proof (Z.mod_le (payload_length b - 1 - 1 - tl) (2 ^ 8)). lia.
  - intros data _. unfold within; cbn; lia.
Qed.

Lemma ac_reference_post p len buf pos l (Q : nfc_ndef_ch_ac_rec_ref * net_buf_simple * Z * Z -> Prop) :
  (0 < len -> exists m, p = Some m /\ bytes m /\ len <= zlen m) -> 0 <= pos -> pos + l = len ->
  (forall r buf' pos' l', 0 <= net_buf_simple_tailroom buf' <= net_buf_simple_tailroom buf -> 0 <= pos' ->
     pos' + l' = len -> 0 <= l' -> Q (r, buf', pos', l')) ->
  post (ac_reference_parse p buf pos l) Q.
Proof.
  intros Hp Hpos Hl HQ. unfold ac_reference_parse. destruct (Z.ltb_spec l 1); [done|].
  apply post_bind. eapply post_rd_at; [exact Hp|lia|]. intros n Hn.
  destruct (Z.ltb_spec (l - 1) n); [done|]. apply post_alloc; [lia|]. intros buf' Hb.
  apply post_bind. eapply post_blk_at; [exact Hp|lia..|]. intros bs _. apply HQ; lia.
Qed.

Lemma ac_refs_post rounds : forall p len buf pos l,
  (0 < len -> exists m, p = Some m /\ bytes m /\ len <= zlen m) -> 0 <= pos -> pos + l = len ->
  0 <= net_buf_simple_tailroom buf ->
  post (ac_refs_parse rounds p buf pos l) (fun '(_, buf') =>
    0 <= net_buf_simple_tailroom buf' <= net_buf_simple_tailroom buf).
Proof.
  induction rounds as [|rounds IH]; intros p len buf pos l Hp Hpos Hl Hb; [cbn; lia|]. cbn [ac_refs_parse].
  apply post_bind. eapply ac_reference_post; [exact Hp|done|done|]. intros r buf' pos' l' Hb' Hpos' Hl' _.
  apply post_bind. eapply post_impl; [apply (IH p len buf' pos' l'); done || lia|].
  intros [rs buf''] Hb''. cbn. lia.
Qed.

Lemma ac_payload_post b n :
  payload_ok b -> 0 <= sz_ac cl -> 0 <= sz_ref cl -> 0 <= n < 2 ^ 16 -> post (ac_rec_payload_parse b n) (within n).
Proof.
  intros [Hl Hp] Hsz Hszr Hn. unfold ac_rec_payload_parse, AC_REC_CPS_BYTE_SIZE. apply post_alloc; [done|].
  rewrite tailroom_init by done. intros buf1 Hb1. destruct (Z.ltb_spec (payload_length b) 1); [done|].
  apply post_bind. eapply post_rd_at; [exact Hp|lia|]. intros v _.
  apply post_bind. eapply ac_reference_post; [exact Hp|lia..|]. intros r buf2 pos l Hb2 Hpos Hpl Hl0.
  destruct (Z.ltb_spec l 1); [done|]. apply post_bind. eapply post_rd_at; [exact Hp|lia|]. intros c Hc.
  destruct (Z.eqb_spec c 0); [unfold within; cbn; lia|]. apply post_alloc; [nia|]. intros buf3 Hb3.
  apply post_bind. eapply post_impl; [apply (ac_refs_post _ _ (payload_length b)); done || lia|].
  intros [rs buf4] Hb4. unfold within; cbn; lia.
Qed.

Lemma ch_payload_post b n :
  payload_ok b -> layout_ok ly -> 0 <= sz_ch cl -> 0 <= n < 2 ^ 16 -> post (ch_rec_payload_parse b n) (within n).
Proof.
  intros [Hl Hp] Hly Hsz Hn. unfold ch_rec_payload_parse. apply post_alloc; [done|].
  rewrite tailroom_init by done. intros buf1 Hb1. destruct (Z.ltb_spec (payload_length b) 1); [done|].
  apply post_bind. eapply post_rd_at; [exact Hp|lia|]. intros v _. apply post_alloc; [lia|]. intros buf2 Hb2.
  destruct Hp as (m & -> & Hbm & Hlm); [lia|]. cbn [default from_option id]. apply post_bind.
  eapply post_impl; [apply msg_parse_post; [done|lia|by apply Forall_drop|rewrite length_drop; lia|lia]|].
  intros [[msg used] k] _. unfold within; cbn; lia.
Qed.

(** ** Messages from end to end *)

Lemma handover_types ty : ty ∈ [chars "Hs"; chars "Hr"; chars "Hm"; chars "Hi"] -> length ty = 2%nat.
Proof.
  rewrite !elem_of_cons. intros [-> | [-> | [-> | [-> | Hty]]]]; try done. by apply not_elem_of_nil in Hty.
Qed.

Lemma handover_octets_length ty ch acs carriers :
  zlen (msg_octets acs) <= zlen (msg_octets (handover_record ty ch acs :: carriers)).
Proof.
  unfold msg_octets at 2. cbn [msg_octets_from]. rewrite length_app, Nat2Z.inj_add, Uri.length_plain_octets by done.
  cbn [handover_record r_payload]. unfold ch_octets. cbn [length]. lia.
Qed.

Lemma received_handover d ty ch acs n :
  received d (handover_record ty ch acs) -> ty ∈ [chars "Hs"; chars "Hr"; chars "Hm"; chars "Hi"] ->
  0 <= major_version ch < 16 -> 0 <= minor_version ch < 16 ->
  acs <> [] -> Forall (fun r => record_ok r /\ r_tnf r <> TNF_RESERVED) acs -> zlen (msg_octets acs) < 2 ^ 32 ->
  layout_ok ly -> 0 <= sz_ch cl -> sz_ch cl + NFC_NDEF_PARSER_REQUIRED_MEM ly (zlen acs) <= n -> n < 2 ^ 16 ->
  exists local,
    nfc_ndef_ch_rec_parse (Some d) (Some n) =
      Ok ({| major_version := major_version ch; minor_version := minor_version ch;
             local_records := Some local |}, n) /\
    received_msg local acs.
Proof.
  intros Hd Hty Hma Hmi Hne Hok H32 Hly Hsz Hbuf Hn. set (frs := (fun r => (false, r)) <$> acs).
  assert (Hfrs : frs.*2 = acs) by (unfold frs; rewrite <- list_fmap_compose; apply list_fmap_id).
  assert (Hlf : zlen frs = zlen acs) by (unfold frs; by rewrite length_fmap).
  pose proof (ch_rec_parse_spec d _ (16 * major_version ch + minor_version ch) frs n Hd) as Hp.
  rewrite Hlf, Hfrs, (proj2 (Z.leb_le _ _) Hbuf) in Hp.
  rewrite <- (Z.div_unique _ 16 (major_version ch) (minor_version ch)) in Hp by lia.
  rewrite <- (Z.mod_unique _ 16 (major_version ch) (minor_version ch)) in Hp by lia.
  pose proof (required_mem_pos ly (zlen acs) Hly). apply Hp; try done; try lia.
  - unfold handover_record, ch_octets. cbn [r_payload]. by rewrite msg_octets_form.
  - split; change (2 ^ 8) with 256; lia.
  - intros E. by rewrite <- Hfrs, E in Hne.
  - unfold frs. apply Forall_fmap. eapply Forall_impl; [exact Hok|]. by intros r [Hr1 Hr2].
  - unfold frs. by rewrite <- msg_octets_form.
Qed.

(** ** Correctness of the parsers *)

(** The parser of alternative carrier records returns the power state, the
    reference and the auxiliary references of the octets that the constructor
    builds, if the structures and the copies fit into the buffer, and [ENOMEM] if
    they do not; the part of the buffer in use is exactly their size. *)
Theorem ac_parse_exact (d : nfc_ndef_record_desc) (r : ndef_record) (state : Z) (ref : list Z)
    (aux : list (list Z)) (n : Z)
    (Hd : received d r) (Ht : r_tnf r = TNF_WELL_KNOWN) (Hty : r_type r = chars "ac")
    (Hp : r_payload r = ac_octets state ref aux)
    (Hsz : 0 <= sz_ac cl) (Hszr : 0 <= sz_ref cl) (Hn : 0 <= n < 2 ^ 16) :
  nfc_ndef_ch_ac_rec_parse (Some d) (Some n) =
    let used := sz_ac cl + zlen ref + zlen aux * sz_ref cl + sum_len aux in
    if used <=? n then Ok (ac_found state ref aux, used) else Err ENOMEM.
Proof. by eapply ac_rec_parse_spec. Qed.

(** The parser of handover carrier records returns the carrier type and the
    carrier data of the record, and the address of the payload, cut to the size
    of the enumeration, as carrier type format: the format octet is not used. *)
Theorem hc_parse_exact (addr : Z) (d : nfc_ndef_record_desc) (r : ndef_record) (c : Z) (ty data : list Z) (n : Z)
    (Hd : received d r) (Ht : r_tnf r = TNF_WELL_KNOWN) (Hty : r_type r = chars "Hc")
    (Hp : r_payload r = c :: zlen ty :: ty ++ data) (Hlt : zlen ty < 256) (Hld : zlen data < 256)
    (Hsz : 0 <= sz_hc cl) (Hn : 0 <= n < 2 ^ 16) :
  nfc_ndef_ch_hc_rec_parse addr (Some d) (Some n) =
    let used := sz_hc cl + zlen ty + zlen data in
    if used <=? n then
      Ok ({| ctf := addr mod 2 ^ (8 * sz_tnf cl); carrier_type_len := zlen ty; carrier_type := Some ty;
             carrier_data_len := zlen data; carrier_data := if zlen data =? 0 then None else Some data |}, used)
    else Err ENOMEM.
Proof. by eapply hc_rec_parse_spec. Qed.

(** The payload parsers are safe on any payload: they do not read outside
    of it, and they use no more than the buffer. *)
Theorem ch_payloads_safe (addr : Z) (b : nfc_ndef_bin_payload_desc) (n : Z)
    (Hb : payload_ok b) (Hly : layout_ok ly)
    (Hcl : 0 <= sz_hc cl /\ 0 <= sz_ac cl /\ 0 <= sz_ref cl /\ 0 <= sz_ch cl) (Hn : 0 <= n < 2 ^ 16) :
  post (hc_rec_payload_parse addr b n) (within n) /\ post (ac_rec_payload_parse b n) (within n) /\
  post (ch_rec_payload_parse b n) (within n).
Proof.
  destruct Hcl as (? & ? & ? & ?).
  split; [by apply hc_payload_post|]. split; [by apply ac_payload_post|by apply ch_payload_post].
Qed.

(** C30: A handover message from end to end. A message that is created from a
    handover record, alternative carriers and carriers, encoded into a buffer and
    parsed there gives descriptors of its records; the parser of handover records,
    given the first of them, returns the version and a message with the alternative
    carriers. *)
Theorem handover_round_trip (q : bool) (ty : list Z) (ch : nfc_ndef_ch_rec)
    (msg : nfc_ndef_msg_desc) (acds cds : list nfc_ndef_record_desc) (acs carriers : list ndef_record)
    (capl capm : Z) (m : list Z) (len buf_len n : Z)
    (Hty : ty ∈ [chars "Hs"; chars "Hr"; chars "Hm"; chars "Hi"])
    (Hch : ch_filled ch [] capl) (Hm : filled msg [] capm)
    (Hn : 1 <= zlen acds <= capl) (Hcap : zlen acds < capm) (Hcds : length cds = length acds)
    (Hacs : Forall2 (describes q) acds acs) (Hcs : Forall2 (describes q) cds carriers)
    (Hok : Forall (fun r => record_ok r /\ r_tnf r <> TNF_RESERVED) (acs ++ carriers))
    (Hma : 0 <= major_version ch < 16) (Hmi : 0 <= minor_version ch < 16)
    (Hlen : zlen (msg_octets (handover_record ty ch acs :: carriers)) <= len <= zlen m) (H32 : len < 2 ^ 32)
    (Hly : layout_ok ly) (Hbuf : NFC_NDEF_PARSER_REQUIRED_MEM ly (1 + zlen carriers) <= buf_len < 2 ^ 32)
    (Hsz : 0 <= sz_ch cl) (Hbuf' : sz_ch cl + NFC_NDEF_PARSER_REQUIRED_MEM ly (zlen acs) <= n < 2 ^ 16) :
  exists msg' ch' m' got used d ds local,
    nfc_ndef_ch_msg_hs_create (Some msg) (Some {| ch_type := ty; ch_payload := ch |})
      (Some {| ac := Some acds; carrier := Some cds; cnt := zlen acds |}) = Ok (msg', ch') /\
    nfc_ndef_msg_encode (Some msg') (Some m) len =
      Ok (Some m', zlen (msg_octets (handover_record ty ch acs :: carriers))) /\
    nfc_ndef_msg_parse ly buf_len m' len =
      Ok (got, used, zlen (msg_octets (handover_record ty ch acs :: carriers))) /\
    holds_records got (d :: ds) /\ Forall2 received ds carriers /\
    nfc_ndef_ch_rec_parse (Some d) (Some n) =
      Ok ({| major_version := major_version ch; minor_version := minor_version ch;
             local_records := Some local |}, n) /\
    received_msg local acs.
Proof.
  apply Forall_app in Hok as [Hoka Hokc].
  assert (Hweak : forall l, Forall (fun r => record_ok r /\ r_tnf r <> TNF_RESERVED) l -> Forall record_ok l)
    by (intros l Hl; eapply Forall_impl; [exact Hl|by intros ? []]).
  destruct (handover_select_spec q ty ch msg acds cds acs carriers capl capm)
    as (msg' & ch' & Hcreate & Hd & Hall); try done; auto; try lia; [by apply handover_types|].
  assert (Hb : NFC_NDEF_PARSER_REQUIRED_MEM ly (zlen (handover_record ty ch acs :: carriers)) <= buf_len < 2 ^ 32)
    by (by replace (zlen (handover_record ty ch acs :: carriers)) with (1 + zlen carriers) by (cbn [length]; lia)).
  destruct (msg_round_trip_spec msg' _ m len ly buf_len Hd) as (m' & got & used & Henc & Hparse & Hgot); try done.
  { constructor; [|done]. split; [by inversion Hall|done]. }
  destruct Hgot as (ds0 & Hhold & Hds0). apply Forall2_cons_inv_r in Hds0 as (d & ds & Hd0 & Hds & ->).
  destruct (received_handover d ty ch acs n Hd0) as (local & Hcp & Hlocal); try done; try lia.
  { intros ->. apply Forall2_length in Hacs. cbn [length] in Hacs. lia. }
  { pose proof (handover_octets_length ty ch acs carriers). lia. }
  exists msg', ch', m', got, used, d, ds, local. done.
Qed.

End Parse.

(** ** Instances *)

Definition ch_layout_arm : ch_layout := {| sz_hc := 16; sz_ac := 16; sz_ref := 8; sz_ch := 8; sz_tnf := 1 |}.

(** A descriptor that the parser leaves for a record without identifier. *)
Definition found (r : ndef_record) : nfc_ndef_record_desc :=
  {| tnf := r_tnf r; id_length := 0; rec_id := None; type_length := zlen (r_type r); rec_type := Some (r_type r);
     rec_payload := Some (Memcopy {| bin_payload := Some (r_payload r); payload_length := zlen (r_payload r) |}) |}.

Lemma found_received r : r_id r = [] -> received (found r) r.
Proof.
  intros Hid. split.
  - apply (Uri.describes_plain (r_tnf r) (r_type r)); [done..|]. apply bin_payload_builds; [done|apply rd_ptr_all].
  - eexists. split; [done|]. split; [done|apply rd_ptr_all].
Qed.

Lemma ac_parse_exact_witness :
  nfc_ndef_ch_ac_rec_parse ch_layout_arm (Some (found ac_sample_record)) (Some 27) =
    Ok (ac_found 1 (chars "0") [chars "x1"], 27) /\
  nfc_ndef_ch_ac_rec_parse ch_layout_arm (Some (found ac_sample_record)) (Some 26) = Err ENOMEM.
Proof.
  split; apply (ac_parse_exact ch_layout_arm (found ac_sample_record) ac_sample_record 1 (chars "0") [chars "x1"]);
    done || by apply found_received.
Defined.

Definition hc_sample_record : ndef_record :=
  {| r_tnf := TNF_WELL_KNOWN; r_type := chars "Hc"; r_id := [];
     r_payload := TNF_EXTERNAL_TYPE :: 3 :: chars "a:b" ++ [7; 9] |}.

Lemma hc_parse_exact_witness :
  nfc_ndef_ch_hc_rec_parse ch_layout_arm 0x20001234 (Some (found hc_sample_record)) (Some 64) =
    Ok ({| ctf := 0x34; carrier_type_len := 3; carrier_type := Some (chars "a:b");
           carrier_data_len := 2; carrier_data := Some [7; 9] |}, 21).
Proof.
  apply (hc_parse_exact ch_layout_arm 0x20001234 (found hc_sample_record) hc_sample_record TNF_EXTERNAL_TYPE
    (chars "a:b") [7; 9] 64); done || by apply found_received.
Defined.

Lemma ch_payloads_safe_witness :
  let b := {| bin_payload := Some [1; 200; 3]; payload_length := 3 |} in
  post (hc_rec_payload_parse ch_layout_arm 0 b 64) (within 64) /\
  post (ac_rec_payload_parse ch_layout_arm b 64) (within 64) /\
  post (ch_rec_payload_parse layout_arm ch_layout_arm b 64) (within 64).
Proof.
  apply ch_payloads_safe; [|done|done|done]. split; [done|]. intros _. exists [1; 200; 3].
  split; [done|]. split; [by_compute|done].
Defined.

Lemma handover_round_trip_witness :
  exists msg' ch' m' got used d ds local,
    nfc_ndef_ch_msg_hs_create (Some (NFC_NDEF_MSG_DEF 2)) (Some {| ch_type := chars "Hs"; ch_payload := ch_sample |})
      (Some {| ac := Some [NFC_NDEF_CH_AC_RECORD_DESC_DEF ac_sample];
               carrier := Some [record_sample_desc]; cnt := 1 |}) = Ok (msg', ch') /\
    nfc_ndef_msg_encode (Some msg') (Some (replicate 100 0)) 100 = Ok (Some m', 42) /\
    nfc_ndef_msg_parse layout_arm 100 m' 100 = Ok (got, used, 42) /\
    holds_records got (d :: ds) /\ Forall2 received ds [record_sample] /\
    nfc_ndef_ch_rec_parse layout_arm ch_layout_arm (Some d) (Some 64) =
      Ok ({| major_version := 1; minor_version := 2; local_records := Some local |}, 64) /\
    received_msg local [ac_sample_record].
Proof.
  apply (handover_round_trip layout_arm ch_layout_arm true (chars "Hs") ch_sample (NFC_NDEF_MSG_DEF 2)
    [NFC_NDEF_CH_AC_RECORD_DESC_DEF ac_sample] [record_sample_desc] [ac_sample_record] [record_sample] 2 2
    (replicate 100 0) 100 100 64).
  - by_compute.
  - apply ch_sample_filled.
  - by apply filled_empty.
  - done.
  - done.
  - done.
  - constructor; [apply ac_sample_describes|constructor].
  - constructor; [apply record_sample_described|constructor].
  - constructor; [split; [apply ac_sample_ok|done]|]. constructor; [split; [apply record_sample_ok|done]|constructor].
  - done.
  - done.
  - done.
  - done.
  - done.
  - done.
  - done.
  - done.
Defined.

(** The format octet of a carrier is lost: records with different formats at the
    same address parse to the same structure. *)
Lemma carrier_format_lost :
  forall c, nfc_ndef_ch_hc_rec_parse ch_layout_arm 0x20001234
    (Some (found {| r_tnf := TNF_WELL_KNOWN; r_type := chars "Hc"; r_id := []; r_payload := [c; 1; 65] |})) (Some 64) =
    Ok ({| ctf := 0x34; carrier_type_len := 1; carrier_type := Some [65];
           carrier_data_len := 0; carrier_data := None |}, 17).
Proof. intros c. reflexivity. Qed.

(** The length of the carrier data is kept in eight bits: of 256 octets none are
    returned. *)
Lemma carrier_data_truncated :
  (let* '(hc, _) := nfc_ndef_ch_hc_rec_parse ch_layout_arm 0 (Some (found
     {| r_tnf := TNF_WELL_KNOWN; r_type := chars "Hc"; r_id := []; r_payload := [2; 1; 65] ++ replicate 256 7 |}))
     (Some 1000) in Ok (carrier_data_len hc, carrier_data hc)) = Ok (0, Some []).
Proof. vm_compute. reflexivity. Qed.
