(* ===== verification/NdefLeOob.v ===== *)
(** * Bluetooth LE out-of-band records: le_oob_rec.c and le_oob_rec_parser.c of
      subsys/nfc/ndef

    The payload is a sequence of advertising structures: a length, a type and
    data. The constructor stores those that the descriptor has; the parser goes
    through them and allocates the fields it finds in a buffer of the caller. *)

From stdpp Require Import prelude strings.
From Stdlib Require Import ZArith Lia.
From S2P Require Import Prelude NdefRecord NdefMsg NdefPayload NdefCh NdefChParse.

Open Scope Z_scope.

(** The types of advertising data and the flag for devices without BR/EDR, which
    the Bluetooth host takes from the assigned numbers. *)
Class BtData := {
  BT_DATA_FLAGS : Z;
  BT_DATA_NAME_SHORTENED : Z;
  BT_DATA_NAME_COMPLETE : Z;
  BT_DATA_SM_TK_VALUE : Z;
  BT_DATA_GAP_APPEARANCE : Z;
  BT_DATA_LE_BT_DEVICE_ADDRESS : Z;
  BT_DATA_LE_ROLE : Z;
  BT_DATA_LE_SC_CONFIRM_VALUE : Z;
  BT_DATA_LE_SC_RANDOM_VALUE : Z;
  BT_LE_AD_NO_BREDR : Z;
  bt_assigned : [BT_DATA_FLAGS; BT_DATA_NAME_SHORTENED; BT_DATA_NAME_COMPLETE; BT_DATA_SM_TK_VALUE;
    BT_DATA_GAP_APPEARANCE; BT_DATA_LE_BT_DEVICE_ADDRESS; BT_DATA_LE_ROLE; BT_DATA_LE_SC_CONFIRM_VALUE;
    BT_DATA_LE_SC_RANDOM_VALUE; BT_LE_AD_NO_BREDR] =
    [0x01; 0x08; 0x09; 0x10; 0x19; 0x1b; 0x1c; 0x22; 0x23; 0x04]
}.

#[export, refine] Instance btdata_reference : BtData := {|
  BT_DATA_FLAGS := 0x01; BT_DATA_NAME_SHORTENED := 0x08; BT_DATA_NAME_COMPLETE := 0x09;
  BT_DATA_SM_TK_VALUE := 0x10; BT_DATA_GAP_APPEARANCE := 0x19; BT_DATA_LE_BT_DEVICE_ADDRESS := 0x1b;
  BT_DATA_LE_ROLE := 0x1c; BT_DATA_LE_SC_CONFIRM_VALUE := 0x22; BT_DATA_LE_SC_RANDOM_VALUE := 0x23;
  BT_LE_AD_NO_BREDR := 0x04
|}.
Proof. done. Defined.

Definition AD_TYPE_FIELD_SIZE : Z := 1.
Definition AD_LEN_FIELD_SIZE : Z := 1.
Definition AD_LEN_INC_VAL : Z := 1.
Definition NULL_TERMINATOR_SIZE : Z := 1.
Definition NFC_NDEF_LE_OOB_REC_TK_LEN : Z := 16.
Definition NFC_NDEF_LE_OOB_REC_LE_ROLE_OPTIONS_NUM : Z := 4.

Definition nfc_ndef_le_oob_rec_type_field : list Z := chars "application/vnd.bluetooth.le.oob".

(** A device address has six bytes and a type; the two 16-byte values of the
    secure connections data are [None] while they are not initialised. *)
Record bt_addr_le_t := { addr_type : Z; addr_a : list Z }.
Record bt_le_oob_sc_data := { sc_r : option (list Z); sc_c : option (list Z) }.

(** The name is the memory from its first character on. *)
Record nfc_ndef_le_oob_rec_payload_desc := {
  addr : option bt_addr_le_t;
  le_role : option Z;
  le_sc_data : option bt_le_oob_sc_data;
  tk_value : option (list Z);
  appearance : option Z;
  flags : option Z;
  local_name : option (list Z)
}.

(** ** Encoding *)

(** [struct bt_data]; the length has eight bits. *)
Record bt_data := { ad_type : Z; ad_data_len : Z; ad_data : list Z }.

(** The destination, the position in it and the size left. *)
Definition ad_state : Type := option (list Z) * Z * Z.

Definition bt_data_encode (ad : bt_data) (st : ad_state) : res ad_state :=
  let '(buff, pos, size) := st in
  let ad_len := ad_data_len ad + AD_LEN_FIELD_SIZE + AD_TYPE_FIELD_SIZE in
  if size <? ad_len then Err ENOMEM
  else
    match buff with
    | None => Fault
    | Some m =>
      let* m := wr m pos (u8 (ad_data_len ad + AD_TYPE_FIELD_SIZE)) in
      let pos := pos + AD_LEN_FIELD_SIZE in
      let* m := wr m pos (ad_type ad) in
      let pos := pos + AD_TYPE_FIELD_SIZE in
      let* d := rd_block (ad_data ad) 0 (ad_data_len ad) in
      let* m := wr_block m pos d in
      Ok (Some m, pos + ad_data_len ad, size - ad_len)
    end.

Section LeOob.
  Context `{BtData}.

Definition ble_device_addr_encode (dev_addr : option bt_addr_le_t) (st : ad_state) : res ad_state :=
  match dev_addr with
  | None => Err EINVAL
  | Some a =>
    let* bs := rd_block (addr_a a) 0 6 in
    bt_data_encode {| ad_type := BT_DATA_LE_BT_DEVICE_ADDRESS; ad_data_len := 7;
                      ad_data := bs ++ [addr_type a] |} st
  end.

Definition le_role_encode (role : Z) (st : ad_state) : res ad_state :=
  if NFC_NDEF_LE_OOB_REC_LE_ROLE_OPTIONS_NUM <=? role then Err EINVAL
  else bt_data_encode {| ad_type := BT_DATA_LE_ROLE; ad_data_len := 1; ad_data := [role] |} st.

(** A field that is encoded if it is there. *)
Definition optionally {A} (o : option A) (f : A -> ad_state -> res ad_state) (st : ad_state) : res ad_state :=
  match o with None => Ok st | Some x => f x st end.

(** Reading a value that may not be initialised. *)
Definition initialised (o : option (list Z)) : res (list Z) :=
  match o with None => Fault | Some l => Ok l end.

Definition nfc_ndef_le_oob_rec_payload_constructor (payload_desc : option nfc_ndef_le_oob_rec_payload_desc)
    : payload_constructor_t :=
  fun buff len =>
    match payload_desc with
    | None => Err EINVAL
    | Some d =>
      match addr d, le_role d with
      | Some a, Some role =>
        let st := (buff, 0, len) in
        let* st := ble_device_addr_encode (Some a) st in
        let* st := le_role_encode role st in
        let* st := optionally (tk_value d) (fun tk =>
          bt_data_encode {| ad_type := BT_DATA_SM_TK_VALUE; ad_data_len := NFC_NDEF_LE_OOB_REC_TK_LEN;
                            ad_data := tk |}) st in
        let* st := optionally (le_sc_data d) (fun sc st =>
          let* c := initialised (sc_c sc) in
          let* st := bt_data_encode {| ad_type := BT_DATA_LE_SC_CONFIRM_VALUE; ad_data_len := 16; ad_data := c |} st in
          let* r := initialised (sc_r sc) in
          bt_data_encode {| ad_type := BT_DATA_LE_SC_RANDOM_VALUE; ad_data_len := 16; ad_data := r |} st) st in
        let* st := optionally (appearance d) (fun v =>
          bt_data_encode {| ad_type := BT_DATA_GAP_APPEARANCE; ad_data_len := 2;
                            ad_data := [v mod 256; v / 256 mod 256] |}) st in
        let* st := optionally (flags d) (fun v st =>
          if Z.land v BT_LE_AD_NO_BREDR =? 0 then Err EINVAL
          else bt_data_encode {| ad_type := BT_DATA_FLAGS; ad_data_len := 1; ad_data := [v] |} st) st in
        let* st := optionally (local_name d) (fun name st =>
          let* n := strlen name in
          bt_data_encode {| ad_type := BT_DATA_NAME_COMPLETE; ad_data_len := u8 n; ad_data := name |} st) st in
        let '(buff, _, rem_size) := st in
        Ok (buff, u32 (len - rem_size))
      | _, _ => Err EINVAL
      end
    end.

(** The identifier has one octet if it is not 0. *)
Definition NFC_NDEF_LE_OOB_RECORD_DESC_DEF (payload_id : Z) (d : option nfc_ndef_le_oob_rec_payload_desc)
    : nfc_ndef_record_desc :=
  {| tnf := TNF_MEDIA_TYPE; id_length := if payload_id =? 0 then 0 else 1; rec_id := Some [payload_id];
     type_length := 32; rec_type := Some nfc_ndef_le_oob_rec_type_field;
     rec_payload := Some (Constructor (nfc_ndef_le_oob_rec_payload_constructor d)) |}.

(** A message with this record only (ch_msg.c). *)
Definition nfc_ndef_ch_msg_le_oob_encode `{ByteOrder} (oob : option nfc_ndef_le_oob_rec_payload_desc)
    : payload_constructor_t :=
  fun buf len =>
    let* msg := nfc_ndef_msg_record_add (NFC_NDEF_MSG_DEF 1) (Some (NFC_NDEF_LE_OOB_RECORD_DESC_DEF 0 oob)) in
    nfc_ndef_msg_encode (Some msg) buf len.

(** ** Parsing *)

Section Parse.
  Context `{NetBuf} `{ByteOrder}.

(** Sizes of the descriptor and of the enumeration of roles. *)
Record oob_layout := { sz_desc : Z; sz_role : Z }.
Context (ol : oob_layout).

(** The decoders: the pointer to the field is the allocated memory, if there is
    any; [p] is the data and [payload_len] its length. *)
Definition ble_device_address_decode (p : list Z) (pos payload_len : Z) (mem : option net_buf_simple)
    : res (bt_addr_le_t * net_buf_simple) :=
  match mem with
  | None => Err ENOMEM
  | Some buf =>
    if negb (payload_len =? 7) then Err EINVAL
    else
      let* a := rd_block p pos 6 in
      let* t := rd p (pos + 6) in
      Ok ({| addr_type := t; addr_a := a |}, buf)
  end.

Definition le_role_decode (p : list Z) (pos payload_len : Z) (mem : option net_buf_simple)
    : res (Z * net_buf_simple) :=
  match mem with
  | None => Err ENOMEM
  | Some buf =>
    if negb (payload_len =? sz_role ol) then Err EINVAL else let* v := rd p pos in Ok (v, buf)
  end.

Definition tk_value_decode (p : list Z) (pos payload_len : Z) (mem : option net_buf_simple)
    : res (list Z * net_buf_simple) :=
  match mem with
  | None => Err ENOMEM
  | Some buf =>
    if negb (payload_len =? NFC_NDEF_LE_OOB_REC_TK_LEN) then Err EINVAL
    else let* v := rd_block p pos NFC_NDEF_LE_OOB_REC_TK_LEN in Ok (v, buf)
  end.

(** The structure is there, or has just been allocated. *)
Definition le_sc_confirm_value_decode (p : list Z) (pos payload_len : Z)
    (mem : option (bt_le_oob_sc_data * net_buf_simple)) : res (bt_le_oob_sc_data * net_buf_simple) :=
  match mem with
  | None => Err ENOMEM
  | Some (sc, buf) =>
    if negb (payload_len =? 16) then Err EINVAL
    else let* c := rd_block p pos 16 in Ok ({| sc_r := sc_r sc; sc_c := Some c |}, buf)
  end.

Definition le_sc_random_value_decode (p : list Z) (pos payload_len : Z)
    (mem : option (bt_le_oob_sc_data * net_buf_simple)) : res (bt_le_oob_sc_data * net_buf_simple) :=
  match mem with
  | None => Err ENOMEM
  | Some (sc, buf) =>
    if negb (payload_len =? 16) then Err EINVAL
    else let* r := rd_block p pos 16 in Ok ({| sc_r := Some r; sc_c := sc_c sc |}, buf)
  end.

Definition appearance_decode (p : list Z) (pos payload_len : Z) (mem : option net_buf_simple)
    : res (Z * net_buf_simple) :=
  match mem with
  | None => Err ENOMEM
  | Some buf =>
    if negb (payload_len =? 2) then Err EINVAL
    else let* bs := rd_block p pos 2 in Ok (sys_get_le16 bs, buf)
  end.

Definition flags_decode (p : list Z) (pos payload_len : Z) (mem : option net_buf_simple)
    : res (Z * net_buf_simple) :=
  match mem with
  | None => Err ENOMEM
  | Some buf =>
    if negb (payload_len =? 1) then Err EINVAL else let* v := rd p pos in Ok (v, buf)
  end.

(** Updates of the descriptor. *)
Definition set_addr d v := {| addr := Some v; le_role := le_role d; le_sc_data := le_sc_data d; tk_value := tk_value d;
  appearance := appearance d; flags := flags d; local_name := local_name d |}.
Definition set_le_role d v := {| addr := addr d; le_role := Some v; le_sc_data := le_sc_data d; tk_value := tk_value d;
  appearance := appearance d; flags := flags d; local_name := local_name d |}.
Definition set_le_sc_data d v := {| addr := addr d; le_role := le_role d; le_sc_data := Some v; tk_value := tk_value d;
  appearance := appearance d; flags := flags d; local_name := local_name d |}.
Definition set_tk_value d v := {| addr := addr d; le_role := le_role d; le_sc_data := le_sc_data d; tk_value := Some v;
  appearance := appearance d; flags := flags d; local_name := local_name d |}.
Definition set_appearance d v := {| addr := addr d; le_role := le_role d; le_sc_data := le_sc_data d;
  tk_value := tk_value d; appearance := Some v; flags := flags d; local_name := local_name d |}.
Definition set_flags d v := {| addr := addr d; le_role := le_role d; le_sc_data := le_sc_data d; tk_value := tk_value d;
  appearance := appearance d; flags := Some v; local_name := local_name d |}.
Definition set_local_name d v := {| addr := addr d; le_role := le_role d; le_sc_data := le_sc_data d;
  tk_value := tk_value d; appearance := appearance d; flags := flags d; local_name := Some v |}.

(** The memory for the secure connections data. *)
Definition sc_memory (d : nfc_ndef_le_oob_rec_payload_desc) (buf : net_buf_simple)
    : option (bt_le_oob_sc_data * net_buf_simple) :=
  match le_sc_data d with
  | Some sc => Some (sc, buf)
  | None =>
    match memory_allocate buf 32 with
    | Some buf => Some ({| sc_r := None; sc_c := None |}, buf)
    | None => None
    end
  end.

(** The decoding of one advertising structure. *)
Definition le_oob_ad (d : nfc_ndef_le_oob_rec_payload_desc) (buf : net_buf_simple) (type : Z)
    (p : list Z) (pos data_len : Z) : res (nfc_ndef_le_oob_rec_payload_desc * net_buf_simple) :=
  if type =? BT_DATA_LE_BT_DEVICE_ADDRESS then
    let* '(v, buf) := ble_device_address_decode p pos data_len (memory_allocate buf 7) in Ok (set_addr d v, buf)
  else if type =? BT_DATA_LE_ROLE then
    let* '(v, buf) := le_role_decode p pos data_len (memory_allocate buf (sz_role ol)) in Ok (set_le_role d v, buf)
  else if type =? BT_DATA_SM_TK_VALUE then
    let* '(v, buf) := tk_value_decode p pos data_len (memory_allocate buf NFC_NDEF_LE_OOB_REC_TK_LEN) in
    Ok (set_tk_value d v, buf)
  else if (type =? BT_DATA_LE_SC_CONFIRM_VALUE) || (type =? BT_DATA_LE_SC_RANDOM_VALUE) then
    let* '(v, buf) :=
      if type =? BT_DATA_LE_SC_CONFIRM_VALUE
      then le_sc_confirm_value_decode p pos data_len (sc_memory d buf)
      else le_sc_random_value_decode p pos data_len (sc_memory d buf) in
    Ok (set_le_sc_data d v, buf)
  else if type =? BT_DATA_GAP_APPEARANCE then
    let* '(v, buf) := appearance_decode p pos data_len (memory_allocate buf 2) in Ok (set_appearance d v, buf)
  else if type =? BT_DATA_FLAGS then
    let* '(v, buf) := flags_decode p pos data_len (memory_allocate buf 1) in Ok (set_flags d v, buf)
  else if (type =? BT_DATA_NAME_SHORTENED) || (type =? BT_DATA_NAME_COMPLETE) then
    match memory_allocate buf (data_len + NULL_TERMINATOR_SIZE) with
    | Some buf => let* name := rd_block p pos data_len in Ok (set_local_name d (name ++ [0]), buf)
    | None => Err ENOMEM
    end
  else Ok (d, buf).

Fixpoint le_oob_loop (fuel : nat) (d : nfc_ndef_le_oob_rec_payload_desc) (buf : net_buf_simple)
    (p : list Z) (payload_len index : Z) : res (nfc_ndef_le_oob_rec_payload_desc * net_buf_simple) :=
  match fuel with
  | O => NoFuel
  | S fuel =>
    if index <? payload_len then
      let* ad_len := rd p index in
      let index := u32 (index + AD_LEN_FIELD_SIZE) in
      if (ad_len =? AD_LEN_INC_VAL) || (payload_len <? u32 (index + ad_len)) then Err EINVAL
      else
        let* type := rd p index in
        let data_len := u8 (ad_len - AD_TYPE_FIELD_SIZE) in
        let* '(d, buf) := le_oob_ad d buf type p (index + AD_TYPE_FIELD_SIZE) data_len in
        le_oob_loop fuel d buf p payload_len (u32 (index + ad_len))
    else Ok (d, buf)
  end.

Definition oob_empty : nfc_ndef_le_oob_rec_payload_desc :=
  {| addr := None; le_role := None; le_sc_data := None; tk_value := None; appearance := None; flags := None;
     local_name := None |}.

(** Every round goes at least one byte further. *)
Definition nfc_ndef_le_oob_rec_payload_parse (payload_desc : nfc_ndef_bin_payload_desc) (total_buf_size : Z)
    : res (nfc_ndef_le_oob_rec_payload_desc * Z) :=
  match bin_payload payload_desc with
  | None => Err EINVAL
  | Some p =>
    let mem_alloc := net_buf_simple_init_with_data total_buf_size in
    match memory_allocate mem_alloc (sz_desc ol) with
    | None => Err ENOMEM
    | Some mem_alloc =>
      let* '(d, mem_alloc) := le_oob_loop (S (Z.to_nat (payload_length payload_desc))) oob_empty mem_alloc p
        (payload_length payload_desc) 0 in
      Ok (d, total_buf_size - net_buf_simple_tailroom mem_alloc)
    end
  end.

Definition nfc_ndef_le_oob_rec_check (rec_desc : option nfc_ndef_record_desc) : res bool :=
  match rec_desc with
  | None => Ok false
  | Some d =>
    if bool_decide (rec_type d = None) then Ok false
    else if negb (tnf d =? TNF_MEDIA_TYPE) then Ok false
    else if negb (type_length d =? 32) then Ok false
    else let* t := rd_ptr (rec_type d) 32 in Ok (bool_decide (t = nfc_ndef_le_oob_rec_type_field))
  end.

Definition nfc_ndef_le_oob_rec_parse := rec_parse nfc_ndef_le_oob_rec_check nfc_ndef_le_oob_rec_payload_parse.

End Parse.

(** ** What the payload is *)

(** The data of a device; the values for secure connections are the confirm and
    the random value. *)
Record oob := {
  o_addr : list Z; o_addr_type : Z; o_role : Z; o_tk : option (list Z); o_sc : option (list Z * list Z);
  o_appearance : option Z; o_flags : option Z; o_name : option (list Z)
}.

Definition on {A} (o : option A) (P : A -> Prop) : Prop := match o with None => True | Some x => P x end.

Definition oob_ok (o : oob) : Prop :=
  zlen (o_addr o) = 6 /\ 0 <= o_role o < 4 /\ on (o_tk o) (fun tk => zlen tk = 16) /\
  on (o_sc o) (fun '(c, r) => zlen c = 16 /\ zlen r = 16) /\ on (o_appearance o) (fun v => 0 <= v < 2 ^ 16) /\
  on (o_flags o) (fun v => Z.testbit v 2 = true) /\
  on (o_name o) (fun n => zlen n < 255 /\ Forall (fun c => c <> 0) n).

Definition oob_desc (o : oob) : nfc_ndef_le_oob_rec_payload_desc :=
  {| addr := Some {| addr_type := o_addr_type o; addr_a := o_addr o |}; le_role := Some (o_role o);
     le_sc_data := (fun '(c, r) => {| sc_r := Some r; sc_c := Some c |}) <$> o_sc o;
     tk_value := o_tk o; appearance := o_appearance o; flags := o_flags o;
     local_name := (fun n => n ++ [0]) <$> o_name o |}.

Definition ad_octets (ad : Z * list Z) : list Z := (zlen ad.2 + 1) :: ad.1 :: ad.2.
Definition field {A} (o : option A) (f : A -> list (Z * list Z)) : list (Z * list Z) :=
  match o with None => [] | Some x => f x end.

(** The advertising structures in the order in which they are stored. *)
Definition oob_ads (o : oob) : list (Z * list Z) :=
  [(0x1b, o_addr o ++ [o_addr_type o]); (0x1c, [o_role o])] ++
  field (o_tk o) (fun tk => [(0x10, tk)]) ++
  field (o_sc o) (fun '(c, r) => [(0x22, c); (0x23, r)]) ++
  field (o_appearance o) (fun v => [(0x19, [v mod 256; v / 256])]) ++
  field (o_flags o) (fun v => [(0x01, [v])]) ++
  field (o_name o) (fun n => [(0x09, n)]).
Definition oob_octets (o : oob) : list Z := oob_ads o ≫= ad_octets.

Lemma bt_values :
  BT_DATA_FLAGS = 0x01 /\ BT_DATA_NAME_SHORTENED = 0x08 /\ BT_DATA_NAME_COMPLETE = 0x09 /\
  BT_DATA_SM_TK_VALUE = 0x10 /\ BT_DATA_GAP_APPEARANCE = 0x19 /\ BT_DATA_LE_BT_DEVICE_ADDRESS = 0x1b /\
  BT_DATA_LE_ROLE = 0x1c /\ BT_DATA_LE_SC_CONFIRM_VALUE = 0x22 /\ BT_DATA_LE_SC_RANDOM_VALUE = 0x23 /\
  BT_LE_AD_NO_BREDR = 0x04.
Proof. pose proof bt_assigned as Hb. by simplify_eq. Qed.

(** The state after storing [e] from the start of [m], or the error if it does
    not fit. *)
Definition stored (m : list Z) (len : Z) (e : list Z) : res ad_state :=
  if zlen e <=? len then Ok (Some (e ++ drop (length e) m), zlen e, len - zlen e) else Err ENOMEM.

Lemma bt_data_stored m len e t data more :
  len <= zlen m -> zlen data < 255 ->
  (let* st := stored m len e in
   bt_data_encode {| ad_type := t; ad_data_len := zlen data; ad_data := data ++ more |} st) =
  stored m len (e ++ ad_octets (t, data)).
Proof.
  intros Hm Hd. unfold stored. assert (Hl : zlen (e ++ ad_octets (t, data)) = zlen e + zlen data + 2)
    by (unfold ad_octets; cbn [fst snd]; zsize). rewrite Hl.
  destruct (Z.leb_spec (zlen e) len); cstep.
  2: { by destruct (Z.leb_spec (zlen e + zlen data + 2) len); [lia|]. }
  unfold bt_data_encode, AD_LEN_FIELD_SIZE, AD_TYPE_FIELD_SIZE. cbn [ad_type ad_data_len ad_data].
  destruct (Z.ltb_spec (len - zlen e) (zlen data + 1 + 1)), (Z.leb_spec (zlen e + zlen data + 2) len); try lia; [done|].
  rewrite u8_small, rd_block_start by lia. do 3 store. unfold ad_octets. cbn [fst snd].
  rewrite !drop_drop, !length_app. cbn [length]. rewrite <- !app_assoc. cbn [app].
  f_equal. f_equal; [f_equal|]; lia.
Qed.

(** A field that may not be there. *)
Lemma optionally_stored {A} (o : option A) f g m len e :
  (forall x e, o = Some x -> (let* st := stored m len e in f x st) = stored m len (e ++ (g x ≫= ad_octets))) ->
  (let* st := stored m len e in optionally o f st) = stored m len (e ++ (field o g ≫= ad_octets)).
Proof.
  intros Hf. destruct o as [x|]; cbn [optionally field]; [by apply Hf|].
  cbn. rewrite app_nil_r. by destruct (stored m len e).
Qed.

(** The octets of one advertising structure behind others. *)
Lemma bt_data_stored1 m len e t data more n :
  len <= zlen m -> n = zlen data -> zlen data < 255 ->
  (let* st := stored m len e in
   bt_data_encode {| ad_type := t; ad_data_len := n; ad_data := data ++ more |} st) =
  stored m len (e ++ ([(t, data)] ≫= ad_octets)).
Proof. intros Hm -> Hd. rewrite bt_data_stored by done. cbn [mbind list_bind]. by rewrite app_nil_r. Qed.

Lemma bt_data_stored0 m len e t data n :
  len <= zlen m -> n = zlen data -> zlen data < 255 ->
  (let* st := stored m len e in bt_data_encode {| ad_type := t; ad_data_len := n; ad_data := data |} st) =
  stored m len (e ++ ([(t, data)] ≫= ad_octets)).
Proof. intros Hm Hn Hd. rewrite <- (bt_data_stored1 m len e t data [] n), app_nil_r by done. done. Qed.

(** One step of the constructor, with the rest of it. *)
Lemma stored_bind {A} m len e f e' (K : ad_state -> res A) :
  (let* st := stored m len e in f st) = stored m len e' ->
  (let* st := stored m len e in let* st' := f st in K st') = (let* st' := stored m len e' in K st').
Proof. intros <-. by destruct (stored m len e). Qed.

Lemma stored_start {A} m len (K : ad_state -> res A) :
  0 <= len -> K (Some m, 0, len) = let* st := stored m len [] in K st.
Proof.
  intros Hl. unfold stored. cbn [length]. destruct (Z.leb_spec (Z.of_nat 0) len); [|lia]. cstep. f_equal. f_equal. lia.
Qed.

(** The two values for secure connections. *)
Lemma sc_stored m len e c r :
  len <= zlen m -> zlen c = 16 -> zlen r = 16 ->
  (let* st := stored m len e in
   let* st := bt_data_encode {| ad_type := 0x22; ad_data_len := 16; ad_data := c |} st in
   bt_data_encode {| ad_type := 0x23; ad_data_len := 16; ad_data := r |} st) =
  stored m len (e ++ ([(0x22, c); (0x23, r)] ≫= ad_octets)).
Proof.
  intros Hm Hc Hr. erewrite stored_bind; [|apply bt_data_stored0; lia].
  rewrite bt_data_stored0 by lia. f_equal. cbn [mbind list_bind]. by rewrite !app_nil_r, <- app_assoc.
Qed.

Lemma flags_bit v : Z.testbit v 2 = true -> (Z.land v 4 =? 0) = false.
Proof.
  intros Hv. apply Z.eqb_neq. intros E. apply (f_equal (fun z => Z.testbit z 2)) in E.
  rewrite Z.land_spec, Hv in E. done.
Qed.

(** The structures of the descriptor. *)
Lemma desc_octets o :
  oob_ok o ->
  ((((((([] ++ ([(0x1b, o_addr o ++ [o_addr_type o])] ≫= ad_octets)) ++ ([(0x1c, [o_role o])] ≫= ad_octets)) ++
    (field (tk_value (oob_desc o)) (fun tk => [(0x10, tk)]) ≫= ad_octets)) ++
    (field (le_sc_data (oob_desc o)) (fun '{| sc_r := r; sc_c := c |} =>
      [(0x22, default [] c); (0x23, default [] r)]) ≫= ad_octets)) ++
    (field (appearance (oob_desc o)) (fun v => [(0x19, [v mod 256; v / 256])]) ≫= ad_octets)) ++
    (field (flags (oob_desc o)) (fun v => [(0x01, [v])]) ≫= ad_octets)) ++
    (field (local_name (oob_desc o)) (fun n => [(0x09, cstr n)]) ≫= ad_octets)) = oob_octets o.
Proof.
  intros (_ & _ & _ & _ & _ & _ & Hname).
  cbn [oob_desc le_sc_data tk_value appearance flags local_name]. unfold oob_octets, oob_ads.
  change [(0x1b, o_addr o ++ [o_addr_type o]); (0x1c, [o_role o])]
    with ([(0x1b, o_addr o ++ [o_addr_type o])] ++ [(0x1c, [o_role o])]).
  replace (field (o_name o) (fun n => [(0x09, n)]))
    with (field ((fun n => n ++ [0]) <$> o_name o) (fun n => [(0x09, cstr n)]))
    by (destruct (o_name o); [cbn; rewrite (cstr_app _ []) by apply Hname|]; done).
  replace (field (o_sc o) (fun '(c, r) => [(0x22, c); (0x23, r)]))
    with (field ((fun '(c, r) => {| sc_r := Some r; sc_c := Some c |}) <$> o_sc o)
      (fun '{| sc_r := r; sc_c := c |} => [(0x22, default [] c); (0x23, default [] r)]))
    by (by destruct (o_sc o) as [[]|]).
  by rewrite !bind_app, <- !app_assoc.
Qed.

Lemma constructor_stored o m len :
  oob_ok o -> 0 <= len <= zlen m ->
  nfc_ndef_le_oob_rec_payload_constructor (Some (oob_desc o)) (Some m) len =
    let* '(buff, _, rem_size) := stored m len (oob_octets o) in Ok (buff, u32 (len - rem_size)).
Proof.
  intros (Ha & Hrole & Htk & Hsc & Happ & Hfl & Hname) Hlen.
  destruct bt_values as (V1 & V2 & V3 & V4 & V5 & V6 & V7 & V8 & V9 & V10).
  unfold nfc_ndef_le_oob_rec_payload_constructor.
  cbn [oob_desc addr le_role le_sc_data tk_value appearance flags local_name].
  rewrite (stored_start m len (fun st => let* st := ble_device_addr_encode _ st in _)) by lia.
  rewrite V1, V3, V4, V5, V8, V9, V10.
  erewrite stored_bind.
  2: { unfold ble_device_addr_encode. cbn [addr_a addr_type].
       pose proof (rd_block_start (o_addr o) []) as Hrd. rewrite app_nil_r, Ha in Hrd. rewrite Hrd. cstep.
       rewrite V6. apply bt_data_stored0; [lia|zsize|zsize]. }
  erewrite stored_bind.
  2: { unfold le_role_encode, NFC_NDEF_LE_OOB_REC_LE_ROLE_OPTIONS_NUM. destruct (Z.leb_spec 4 (o_role o)); [lia|].
       rewrite V7. apply bt_data_stored0; [lia|done|done]. }
  erewrite stored_bind; [|apply optionally_stored with (g := fun tk => [(0x10, tk)])].
  2: { intros tk e Etk. rewrite Etk in Htk. cbn in Htk. apply bt_data_stored0; unfold NFC_NDEF_LE_OOB_REC_TK_LEN; lia. }
  erewrite stored_bind; [|apply optionally_stored with (g := fun '{| sc_r := r; sc_c := c |} =>
    [(0x22, default [] c); (0x23, default [] r)])].
  2: { intros sc e Esc. destruct (o_sc o) as [[c r]|]; [|done]. injection Esc as <-. destruct Hsc.
       cbn [initialised sc_c sc_r default from_option id]. cstep. by apply sc_stored; [lia|..]. }
  erewrite stored_bind; [|apply optionally_stored with (g := fun v => [(0x19, [v mod 256; v / 256])])].
  2: { intros v e Ev. rewrite Ev in Happ. cbn in Happ.
       rewrite (Z.mod_small (v / 256)) by (split; [apply Z.div_pos; lia|apply Z.div_lt_upper_bound; lia]).
       by apply bt_data_stored0; [lia|..]. }
  erewrite stored_bind; [|apply optionally_stored with (g := fun v => [(0x01, [v])])].
  2: { intros v e Ev. rewrite Ev in Hfl. rewrite (flags_bit v Hfl). by apply bt_data_stored0; [lia|..]. }
  erewrite stored_bind; [|apply optionally_stored with (g := fun n => [(0x09, cstr n)])].
  2: { intros n e En. destruct (o_name o) as [n0|]; [|done]. injection En as <-. destruct Hname as [Hn1 Hn2].
       rewrite (strlen_app n0 []), (cstr_app n0 []) by done. cstep. rewrite u8_small by lia.
       by apply bt_data_stored1; [lia|..]. }
  do 2 f_equal. by apply desc_octets.
Qed.

Lemma le_oob_length o : oob_ok o -> zlen (oob_octets o) < 2 ^ 10.
Proof.
  intros (Ha & _ & Htk & Hsc & _ & _ & Hname). unfold oob_octets, oob_ads. rewrite !bind_app, !length_app.
  destruct (o_tk o), (o_sc o) as [[]|], (o_appearance o), (o_flags o), (o_name o);
    cbn [on field mbind list_bind app length] in *; unfold ad_octets; cbn [fst snd];
    rewrite ?length_app; cbn [length]; rewrite ?length_app; cbn [length]; lia.
Qed.

(** The constructor cannot tell a size: it needs a destination. *)
Lemma le_oob_builds o :
  oob_ok o -> builds false (nfc_ndef_le_oob_rec_payload_constructor (Some (oob_desc o))) (oob_octets o).
Proof.
  intros Ho. pose proof (le_oob_length o Ho). split; [|split; [|done]].
  - intros m len Hlen H32. rewrite constructor_stored by (done || lia). unfold stored.
    destruct (Z.leb_spec (zlen (oob_octets o)) len); [|lia]. cstep. rewrite u32_small by lia. do 2 f_equal. lia.
  - intros m len Hlen Hm. rewrite constructor_stored by (done || lia). unfold stored.
    destruct (Z.leb_spec (zlen (oob_octets o)) len); [lia|]. by eexists.
Qed.

(** The record of a device and the message with this record. *)
Definition oob_record (o : oob) : ndef_record :=
  {| r_tnf := TNF_MEDIA_TYPE; r_type := nfc_ndef_le_oob_rec_type_field; r_id := []; r_payload := oob_octets o |}.

Lemma oob_record_describes o :
  oob_ok o -> describes false (NFC_NDEF_LE_OOB_RECORD_DESC_DEF 0 (Some (oob_desc o))) (oob_record o).
Proof.
  intros Ho. repeat split. intros _. eexists. split; [done|]. by apply le_oob_builds.
Qed.

Lemma oob_record_ok o : oob_ok o -> record_ok (oob_record o).
Proof.
  intros Ho. pose proof (le_oob_length o Ho). repeat split; try done.
  cbn [oob_record r_type r_id r_payload]. change (zlen nfc_ndef_le_oob_rec_type_field) with 32. cbn [length]. lia.
Qed.

Lemma le_oob_msg_builds `{ByteOrder} o :
  oob_ok o -> builds false (nfc_ndef_ch_msg_le_oob_encode (Some (oob_desc o))) (msg_octets [oob_record o]).
Proof.
  intros Ho. pose proof (record_add_spec _ _ _ (NFC_NDEF_LE_OOB_RECORD_DESC_DEF 0 (Some (oob_desc o)))
    (filled_empty 1 ltac:(lia))) as Hadd. cbn [length Z.ltb Z.compare Z.of_nat] in Hadd.
  destruct Hadd as (d & Hadd & Hd). unfold nfc_ndef_ch_msg_le_oob_encode. rewrite Hadd. cstep.
  apply (Uri.msg_built d _ _ 1 Hd).
  - constructor; [by apply oob_record_describes|constructor].
  - constructor; [by apply oob_record_ok|constructor].
  - unfold msg_octets. cbn [msg_octets_from]. rewrite app_nil_r, Uri.length_plain_octets by done.
    pose proof (le_oob_length o Ho). cbn [oob_record r_type r_payload].
    change (zlen nfc_ndef_le_oob_rec_type_field) with 32. lia.
Qed.

(** ** What is parsed *)

Section Found.
  Context `{NetBuf} `{ByteOrder} (ol : oob_layout).

Definition oob_mem : Type := nfc_ndef_le_oob_rec_payload_desc * net_buf_simple.

(** The advertising structures decoded one after the other, each from its own
    data. *)
Fixpoint ads_fold (ads : list (Z * list Z)) (x : oob_mem) : res oob_mem :=
  match ads with
  | [] => Ok x
  | (t, data) :: ads =>
    let* y := le_oob_ad ol (x.1) (x.2) t data 0 (zlen data) in ads_fold ads y
  end.

Lemma ads_fold_app a b x : ads_fold (a ++ b) x = let* y := ads_fold a x in ads_fold b y.
Proof.
  revert x. induction a as [|[t data] a IH]; intros x; [done|]. cbn [app ads_fold].
  destruct (le_oob_ad ol (x.1) (x.2) t data 0 (zlen data)); [|done..]. apply IH.
Qed.

(** Decoding reads the data only. *)
Lemma seen_rd m pos data k : seen m pos data -> 0 <= k < zlen data -> rd m (pos + k) = rd data k.
Proof. intros Hs Hk. by rewrite (rd_seen _ _ _ _ Hs Hk), rd_Ok. Qed.

Lemma seen_rd_block m pos data k n :
  seen m pos data -> 0 <= k -> 0 <= n -> k + n <= zlen data -> data <> [] -> rd_block m (pos + k) n = rd_block data k n.
Proof.
  intros Hs Hk Hn Hkn Hne. assert (Hl := seen_length _ _ _ Hs). destruct Hl as [Hl|]; [|done].
  pose proof (seen_drop _ _ _ Hs) as Hd. destruct Hs as [Hp _].
  rewrite !rd_block_Ok by lia. f_equal. rewrite Z2Nat.inj_add, <- drop_drop, Hd by lia.
  rewrite drop_app_le by lia. rewrite take_app_le; [done|]. rewrite length_drop. lia.
Qed.

Lemma le_oob_ad_local d buf t m pos data :
  seen m pos data -> data <> [] ->
  le_oob_ad ol d buf t m pos (zlen data) = le_oob_ad ol d buf t data 0 (zlen data).
Proof.
  intros Hs Hne. assert (0 < zlen data) by (destruct data; [done|cbn [length]; lia]).
  assert (Hr : forall k, 0 <= k < zlen data -> rd m (pos + k) = rd data k) by (intros; by apply seen_rd).
  assert (Hb : forall n, 0 <= n <= zlen data -> rd_block m pos n = rd_block data 0 n)
    by (intros; rewrite <- (seen_rd_block m pos data 0 n), Z.add_0_r by (done || lia); done).
  assert (Hr0 : rd m pos = rd data 0) by (rewrite <- (Hr 0), Z.add_0_r by lia; done).
  unfold le_oob_ad, ble_device_address_decode, le_role_decode, tk_value_decode, le_sc_confirm_value_decode,
    le_sc_random_value_decode, appearance_decode, flags_decode, NFC_NDEF_LE_OOB_REC_TK_LEN.
  rewrite Hr0, (Hb (zlen data)) by lia.
  destruct (Z.eqb_spec (zlen data) 7); [rewrite (Hb 6), (Hr 6) by lia; rewrite Z.add_0_l|];
  (destruct (Z.eqb_spec (zlen data) 16); [rewrite (Hb 16) by lia|]);
  (destruct (Z.eqb_spec (zlen data) 2); [rewrite (Hb 2) by lia|]); done.
Qed.

(** The loop decodes the structures in order. *)
Lemma le_oob_loop_spec ads : forall fuel d buf m len index,
  Forall (fun ad => 1 <= zlen ad.2 <= 254) ads -> 0 <= index -> seen m index (ads ≫= ad_octets) ->
  index + zlen (ads ≫= ad_octets) = len -> len < 2 ^ 32 -> len - index < Z.of_nat fuel ->
  le_oob_loop ol fuel d buf m len index = ads_fold ads (d, buf).
Proof.
  induction ads as [|[t data] ads IH]; intros fuel d buf m len index Hok Hi Hs Hlen H32 Hfuel;
    (destruct fuel as [|fuel]; [cbn [mbind list_bind length] in *; lia|]).
  { cbn [mbind list_bind length] in *. cbn [le_oob_loop]. destruct (Z.ltb_spec index len); [lia|done]. }
  apply Forall_cons in Hok as [Hd Hok]. cbn [snd] in Hd. cbn [mbind list_bind] in *. rewrite length_app in *.
  apply seen_app in Hs as [Hs Hs']. assert (Hl : zlen (ad_octets (t, data)) = zlen data + 2)
    by (unfold ad_octets; cbn [fst snd length]; lia).
  unfold ad_octets at 1 in Hs. cbn [fst snd] in Hs. apply seen_cons in Hs as [Hs0 Hs]. apply seen_cons in Hs as [Hs1 Hs2].
  cbn [le_oob_loop ads_fold fst snd]. unfold AD_LEN_FIELD_SIZE, AD_LEN_INC_VAL, AD_TYPE_FIELD_SIZE.
  destruct (Z.ltb_spec index len); [|lia]. rewrite (rd_seen0 _ _ _ _ Hs0). cstep.
  rewrite (u32_small (index + 1)), (u32_small (index + 1 + (zlen data + 1))), u8_small by lia.
  destruct (Z.eqb_spec (zlen data + 1) 1), (Z.ltb_spec len (index + 1 + (zlen data + 1))); try lia. cbn [orb].
  rewrite (rd_seen0 _ _ _ _ Hs1). cstep. replace (zlen data + 1 - 1) with (zlen data) by lia.
  rewrite le_oob_ad_local by (done || by (intros ->; cbn in Hd; lia)).
  destruct (le_oob_ad ol d buf t data 0 (zlen data)) as [[d' buf']|e| |]; [|done..]. cstep.
  apply IH; try done; try lia. by replace (index + 1 + (zlen data + 1)) with (index + zlen (ad_octets (t, data))) by lia.
Qed.

(** The descriptor and the memory used so far, of a buffer of [n] bytes. *)
Definition filled_to (n used : Z) (d : nfc_ndef_le_oob_rec_payload_desc) (r : res oob_mem) : Prop :=
  if used <=? n then exists buf, r = Ok (d, buf) /\ net_buf_simple_tailroom buf = n - used else r = Err ENOMEM.

(** A structure that takes [k] bytes and sets a field. *)
Lemma filled_alloc n used d r t data k d' :
  (forall buf, le_oob_ad ol d buf t data 0 (zlen data) =
     match memory_allocate buf k with None => Err ENOMEM | Some buf => Ok (d', buf) end) ->
  0 <= k -> filled_to n used d r -> filled_to n (used + k) d' (let* x := r in ads_fold [(t, data)] x).
Proof.
  intros Had Hk. unfold filled_to. destruct (Z.leb_spec used n).
  - intros (buf & -> & Ht). cstep. cbn [ads_fold fst snd]. rewrite Had. pose proof (alloc_spec buf k Hk) as Ha.
    rewrite Ht in Ha. destruct (Z.ltb_spec (n - used) k), (Z.leb_spec (used + k) n); try lia; [by rewrite Ha|].
    destruct Ha as (buf' & -> & Ht'). cstep. exists buf'. split; [done|lia].
  - intros ->. by destruct (Z.leb_spec (used + k) n); [lia|].
Qed.

(** A structure that sets a field of memory that is already there. *)
Lemma filled_noalloc n used d r t data d' :
  (forall buf, le_oob_ad ol d buf t data 0 (zlen data) = Ok (d', buf)) ->
  filled_to n used d r -> filled_to n used d' (let* x := r in ads_fold [(t, data)] x).
Proof.
  intros Had. unfold filled_to. destruct (used <=? n); [|by intros ->].
  intros (buf & -> & Ht). cstep. cbn [ads_fold fst snd]. rewrite Had. by exists buf.
Qed.

Lemma filled_field {A} (o : option A) g (upd : A -> nfc_ndef_le_oob_rec_payload_desc) cost n used d r :
  (forall x, o = Some x -> filled_to n used d r ->
     filled_to n (used + cost x) (upd x) (let* y := r in ads_fold (g x) y)) ->
  filled_to n used d r ->
  filled_to n (used + match o with Some x => cost x | None => 0 end) (match o with Some x => upd x | None => d end)
    (let* y := r in ads_fold (field o g) y).
Proof.
  intros Hf Hr. destruct o as [x|]; [by apply Hf|]. cbn [field]. rewrite Z.add_0_r.
  replace (let* y := r in ads_fold [] y) with r; [done|]. by destruct r.
Qed.

(** The decoding of each structure. *)
Lemma read_all (l : list Z) : rd_block l 0 (zlen l) = Ok l.
Proof. rewrite <- (app_nil_r l) at 1. apply rd_block_start. Qed.

Ltac bt_switch :=
  destruct bt_values as (V1 & V2 & V3 & V4 & V5 & V6 & V7 & V8 & V9 & V10); intros buf; unfold le_oob_ad;
  rewrite ?V1, ?V2, ?V3, ?V4, ?V5, ?V6, ?V7, ?V8, ?V9; cbn [Z.eqb Pos.eqb orb].

Lemma ad_addr d a t :
  zlen a = 6 -> forall buf, le_oob_ad ol d buf 0x1b (a ++ [t]) 0 (zlen (a ++ [t])) =
    match memory_allocate buf 7 with
    | None => Err ENOMEM | Some buf => Ok (set_addr d {| addr_type := t; addr_a := a |}, buf)
    end.
Proof.
  intros Ha. assert (Hl : zlen (a ++ [t]) = 7) by zsize. bt_switch. rewrite Hl.
  destruct (memory_allocate buf 7); [|done]. unfold ble_device_address_decode. cbn [negb Z.eqb Pos.eqb].
  rewrite <- Ha, rd_block_start. cstep. rewrite Z.add_0_l, rd_Ok by zsize. cstep. by rewrite zth_middle.
Qed.

Lemma ad_role d v :
  sz_role ol = 1 -> forall buf, le_oob_ad ol d buf 0x1c [v] 0 (zlen [v]) =
    match memory_allocate buf 1 with None => Err ENOMEM | Some buf => Ok (set_le_role d v, buf) end.
Proof.
  intros Hsz. bt_switch. rewrite Hsz. destruct (memory_allocate buf 1); [|done].
  unfold le_role_decode. by rewrite Hsz.
Qed.

Lemma ad_tk d v :
  zlen v = 16 -> forall buf, le_oob_ad ol d buf 0x10 v 0 (zlen v) =
    match memory_allocate buf 16 with None => Err ENOMEM | Some buf => Ok (set_tk_value d v, buf) end.
Proof.
  intros Hl. bt_switch. unfold NFC_NDEF_LE_OOB_REC_TK_LEN. destruct (memory_allocate buf 16); [|done].
  unfold tk_value_decode, NFC_NDEF_LE_OOB_REC_TK_LEN. pose proof (read_all v) as Hr. rewrite Hl in *.
  cbn [negb Z.eqb Pos.eqb]. by rewrite Hr.
Qed.

Lemma ad_confirm d c :
  le_sc_data d = None -> zlen c = 16 -> forall buf, le_oob_ad ol d buf 0x22 c 0 (zlen c) =
    match memory_allocate buf 32 with
    | None => Err ENOMEM | Some buf => Ok (set_le_sc_data d {| sc_r := None; sc_c := Some c |}, buf)
    end.
Proof.
  intros Hd Hl. bt_switch. unfold sc_memory. rewrite Hd. destruct (memory_allocate buf 32); [|done].
  unfold le_sc_confirm_value_decode. pose proof (read_all c) as Hr. rewrite Hl in *.
  cbn [negb Z.eqb Pos.eqb]. by rewrite Hr.
Qed.

Lemma ad_random d c r :
  zlen r = 16 -> forall buf,
  le_oob_ad ol (set_le_sc_data d {| sc_r := None; sc_c := Some c |}) buf 0x23 r 0 (zlen r) =
    Ok (set_le_sc_data d {| sc_r := Some r; sc_c := Some c |}, buf).
Proof.
  intros Hl. bt_switch. unfold sc_memory. cbn [le_sc_data set_le_sc_data]. unfold le_sc_random_value_decode.
  pose proof (read_all r) as Hr. rewrite Hl in *. cbn [negb Z.eqb Pos.eqb]. by rewrite Hr.
Qed.

Lemma ad_appearance d v :
  0 <= v < 2 ^ 16 -> forall buf, le_oob_ad ol d buf 0x19 [v mod 256; v / 256] 0 2 =
    match memory_allocate buf 2 with None => Err ENOMEM | Some buf => Ok (set_appearance d v, buf) end.
Proof.
  intros Hv. bt_switch. destruct (memory_allocate buf 2); [|done]. unfold appearance_decode.
  pose proof (read_all [v mod 256; v / 256]) as Hr. change (zlen [v mod 256; v / 256]) with 2 in Hr.
  cbn [negb Z.eqb Pos.eqb]. rewrite Hr. cstep. rewrite sys_get_le16_spec. do 4 f_equal.
  pose proof (Z.div_mod v 256). lia.
Qed.

Lemma ad_flags d v :
  forall buf, le_oob_ad ol d buf 0x01 [v] 0 1 =
    match memory_allocate buf 1 with None => Err ENOMEM | Some buf => Ok (set_flags d v, buf) end.
Proof. bt_switch. by destruct (memory_allocate buf 1). Qed.

Lemma ad_name d n :
  forall buf, le_oob_ad ol d buf 0x09 n 0 (zlen n) =
    match memory_allocate buf (zlen n + 1) with
    | None => Err ENOMEM | Some buf => Ok (set_local_name d (n ++ [0]), buf)
    end.
Proof. bt_switch. unfold NULL_TERMINATOR_SIZE. destruct (memory_allocate buf (zlen n + 1)); [|done]. by rewrite read_all. Qed.

(** The memory that the fields take. *)
Definition cost {A} (o : option A) (f : A -> Z) : Z := match o with Some x => f x | None => 0 end.
Definition oob_cost (o : oob) : Z :=
  7 + 1 + cost (o_tk o) (fun _ => 16) + cost (o_sc o) (fun _ => 32) + cost (o_appearance o) (fun _ => 2) +
  cost (o_flags o) (fun _ => 1) + cost (o_name o) (fun n => zlen n + 1).

Definition oob_named (o : oob) : Prop := on (o_name o) (fun n => n <> []).

Lemma ads_fold_bind (r : res oob_mem) a b :
  (let* y := (let* x := r in ads_fold a x) in ads_fold b y) = let* x := r in ads_fold (a ++ b) x.
Proof. destruct r; [cbn; by rewrite ads_fold_app|done..]. Qed.

(** The two values for secure connections share their memory. *)
Lemma filled_sc n used d r c v :
  le_sc_data d = None -> zlen c = 16 -> zlen v = 16 -> filled_to n used d r ->
  filled_to n (used + 32) (set_le_sc_data d {| sc_r := Some v; sc_c := Some c |})
    (let* x := r in ads_fold [(0x22, c); (0x23, v)] x).
Proof.
  intros Hd Hc Hv Hr. change [(0x22, c); (0x23, v)] with ([(0x22, c)] ++ [(0x23, v)]). rewrite <- ads_fold_bind.
  eapply filled_noalloc; [by apply ad_random|]. eapply filled_alloc; [by apply ad_confirm|lia|done].
Qed.

Lemma oob_ads_found o n used r :
  oob_ok o -> sz_role ol = 1 -> filled_to n used oob_empty r ->
  filled_to n (used + oob_cost o) (oob_desc o) (let* x := r in ads_fold (oob_ads o) x).
Proof.
  intros (Ha & _ & Htk & Hsc & Happ & _ & _) Hsz Hr.
  set (d1 := set_addr oob_empty {| addr_type := o_addr_type o; addr_a := o_addr o |}).
  set (d2 := set_le_role d1 (o_role o)).
  set (d3 := match o_tk o with Some tk => set_tk_value d2 tk | None => d2 end).
  set (d4 := match o_sc o with Some (c, r) => set_le_sc_data d3 {| sc_r := Some r; sc_c := Some c |} | None => d3 end).
  set (d5 := match o_appearance o with Some v => set_appearance d4 v | None => d4 end).
  set (d6 := match o_flags o with Some v => set_flags d5 v | None => d5 end).
  assert (Hd : oob_desc o = match o_name o with Some v => set_local_name d6 (v ++ [0]) | None => d6 end)
    by (unfold oob_desc, d6, d5, d4, d3; by destruct (o_tk o), (o_sc o) as [[]|], (o_appearance o), (o_flags o), (o_name o)).
  rewrite Hd. unfold oob_cost, cost. rewrite !Z.add_assoc. unfold oob_ads.
  change [(0x1b, o_addr o ++ [o_addr_type o]); (0x1c, [o_role o])]
    with ([(0x1b, o_addr o ++ [o_addr_type o])] ++ [(0x1c, [o_role o])]).
  rewrite !app_assoc, <- !ads_fold_bind.
  apply filled_field. { intros v _. apply filled_alloc; [apply ad_name|lia]. }
  apply filled_field. { intros v _. apply filled_alloc; [apply ad_flags|lia]. }
  apply filled_field. { intros v E. rewrite E in Happ. apply filled_alloc; [by apply ad_appearance|lia]. }
  replace d4 with (match o_sc o with
    | Some x => (fun '(c, r) => set_le_sc_data d3 {| sc_r := Some r; sc_c := Some c |}) x | None => d3 end)
    by (unfold d4; by destruct (o_sc o) as [[]|]).
  apply filled_field.
  { intros [c v] E Hf. rewrite E in Hsc. destruct Hsc. apply filled_sc; [|done..].
    unfold d3. by destruct (o_tk o). }
  apply filled_field. { intros v E. rewrite E in Htk. apply filled_alloc; [by apply ad_tk|lia]. }
  eapply filled_alloc; [by apply ad_role|lia|]. by eapply filled_alloc; [apply ad_addr|lia|].
Qed.

Lemma le_oob_rec_check_spec q d r :
  describes q d r ->
  nfc_ndef_le_oob_rec_check (Some d) =
    Ok (bool_decide (r_tnf r = TNF_MEDIA_TYPE /\ r_type r = nfc_ndef_le_oob_rec_type_field)).
Proof.
  intros (Ht & Htl & Htp & _). unfold nfc_ndef_le_oob_rec_check. rewrite Ht, Htl in *.
  destruct (Z.eqb_spec (r_tnf r) TNF_MEDIA_TYPE) as [E1|E1].
  2: { rewrite (bool_decide_eq_false_2 (_ /\ _)); [by destruct (bool_decide _)|]. by intros [? _]. }
  destruct (Z.eqb_spec (zlen (r_type r)) 32) as [El|El].
  2: { rewrite (bool_decide_eq_false_2 (_ /\ _)); [by destruct (bool_decide _)|]. intros [_ Hty]. by rewrite Hty in El. }
  rewrite El in Htp. rewrite Htp. destruct (rec_type d); [|done]. rewrite bool_decide_eq_false_2 by done.
  cbn [negb]. cstep. f_equal. apply bool_decide_ext. by intuition.
Qed.

Lemma oob_ads_sizes o : oob_ok o -> oob_named o -> Forall (fun ad => 1 <= zlen ad.2 <= 254) (oob_ads o).
Proof.
  intros (Ha & _ & Htk & Hsc & _ & _ & Hname) Hne. unfold oob_ads, oob_named in *.
  destruct (o_tk o), (o_sc o) as [[]|], (o_appearance o), (o_flags o), (o_name o) as [[|]|];
    cbn [on field app] in *; repeat (apply Forall_cons; split); try (apply Forall_nil; done); try done;
    cbn [snd]; rewrite ?length_app; cbn [length] in *; lia.
Qed.

Lemma le_oob_parse_spec d r o n :
  received d r -> r_tnf r = TNF_MEDIA_TYPE -> r_type r = nfc_ndef_le_oob_rec_type_field ->
  r_payload r = oob_octets o -> oob_ok o -> oob_named o ->
  0 <= sz_desc ol -> sz_role ol = 1 -> 0 <= n < 2 ^ 16 ->
  nfc_ndef_le_oob_rec_parse ol (Some d) (Some n) =
    let used := sz_desc ol + oob_cost o in
    if used <=? n then Ok (oob_desc o, used) else Err ENOMEM.
Proof.
  intros Hd Ht Hty Hp Hok Hne Hsz Hrole Hn. cbn zeta.
  destruct (rec_parse_spec nfc_ndef_le_oob_rec_check (nfc_ndef_le_oob_rec_payload_parse ol) d r n Hd) as (b & Heq & Hl & Hm).
  { rewrite (le_oob_rec_check_spec true d r) by apply Hd. by rewrite bool_decide_eq_true_2. }
  unfold nfc_ndef_le_oob_rec_parse. rewrite Heq. clear Heq. rewrite Hp in *.
  destruct Hm as (m & Hm & Hs & Hlm); [done|]. pose proof (le_oob_length o Hok).
  unfold nfc_ndef_le_oob_rec_payload_parse. rewrite Hm, Hl.
  assert (Hc : 0 <= oob_cost o) by (unfold oob_cost, cost; destruct (o_tk o), (o_sc o), (o_appearance o),
    (o_flags o), (o_name o); lia).
  pose proof (alloc_spec (net_buf_simple_init_with_data n) (sz_desc ol) Hsz) as Ha. rewrite tailroom_init in Ha by done.
  destruct (Z.ltb_spec n (sz_desc ol)).
  { rewrite Ha. by destruct (Z.leb_spec (sz_desc ol + oob_cost o) n); [lia|]. }
  destruct Ha as (buf & -> & Htail).
  rewrite (le_oob_loop_spec (oob_ads o)) by (done || lia || by apply oob_ads_sizes).
  pose proof (oob_ads_found o n (sz_desc ol) (Ok (oob_empty, buf)) Hok Hrole) as Hf. unfold filled_to in Hf.
  rewrite (proj2 (Z.leb_le (sz_desc ol) n)) in Hf by done. specialize (Hf (ex_intro _ buf (conj eq_refl Htail))).
  cbn [mbind res_bind] in Hf. destruct (Z.leb_spec (sz_desc ol + oob_cost o) n); [|by rewrite Hf].
  destruct Hf as (buf' & -> & Ht'). cstep. do 2 f_equal. lia.
Qed.


(** ** Safety *)

(** No structure on the way through the payload has length 0. *)
Fixpoint no_empty_ad (fuel : nat) (p : list Z) (len index : Z) : bool :=
  match fuel with
  | O => true
  | S fuel =>
    if index <? len then
      let l := zth p index in
      negb (l =? 0) && (if (l =? 1) || (len <? index + 1 + l) then true else no_empty_ad fuel p len (index + 1 + l))
    else true
  end.

(** What is left of the memory after a step. *)
Definition shrunk (buf : net_buf_simple) (buf' : net_buf_simple) : Prop :=
  0 <= net_buf_simple_tailroom buf' <= net_buf_simple_tailroom buf.

(** A field decoded into new memory. *)
Lemma decode_post {A} buf k (f : net_buf_simple -> res (A * net_buf_simple)) (upd : A -> nfc_ndef_le_oob_rec_payload_desc) :
  0 <= k -> (forall buf', post (f buf') (fun '(_, buf'') => buf'' = buf')) ->
  post (let* '(v, buf) := match memory_allocate buf k with None => Err ENOMEM | Some buf => f buf end in Ok (upd v, buf))
    (fun '(_, buf') => shrunk buf buf').
Proof.
  intros Hk Hf. apply post_bind. apply post_alloc; [done|]. intros buf' Hb.
  eapply post_impl; [apply Hf|]. by intros [v buf''] ->.
Qed.

(** The values for secure connections. *)
Lemma decode_sc_post d buf (f : bt_le_oob_sc_data -> net_buf_simple -> res (bt_le_oob_sc_data * net_buf_simple)) :
  0 <= net_buf_simple_tailroom buf -> (forall sc buf', post (f sc buf') (fun '(_, buf'') => buf'' = buf')) ->
  post (let* '(v, buf) := match sc_memory d buf with None => Err ENOMEM | Some (sc, buf) => f sc buf end in
        Ok (set_le_sc_data d v, buf)) (fun '(_, buf') => shrunk buf buf').
Proof.
  intros Ht Hf. apply post_bind. unfold sc_memory. destruct (le_sc_data d) as [sc|].
  - eapply post_impl; [apply Hf|]. intros [v buf''] ->. cbn. unfold shrunk. lia.
  - pose proof (alloc_spec buf 32 ltac:(lia)) as Ha.
    destruct (Z.ltb_spec (net_buf_simple_tailroom buf) 32); [by rewrite Ha|]. destruct Ha as (buf' & -> & Ht').
    eapply post_impl; [apply Hf|]. intros [v buf''] ->. cbn. unfold shrunk. lia.
Qed.

Lemma le_oob_ad_post d buf t p pos n :
  bytes p -> 0 <= pos -> 1 <= n -> pos + n <= zlen p -> 1 <= sz_role ol -> 0 <= net_buf_simple_tailroom buf ->
  post (le_oob_ad ol d buf t p pos n) (fun '(_, buf') => shrunk buf buf').
Proof.
  intros Hb Hpos Hn Hlen Hrole Ht.
  assert (Hrd : forall (Q : Z -> Prop) i, pos <= i < pos + n -> (forall v, Q v) -> post (rd p i) Q)
    by (intros; apply post_rd_byte; [done|lia|auto]).
  assert (Hblk : forall (Q : list Z -> Prop) k, 0 <= k <= n -> (forall v, Q v) -> post (rd_block p pos k) Q)
    by (intros; apply post_rd_block; [done|lia..|auto]).
  unfold le_oob_ad. destruct (t =? BT_DATA_LE_BT_DEVICE_ADDRESS).
  { apply decode_post; [lia|]. intros buf'. destruct (Z.eqb_spec n 7); [|done]. cbn [negb].
    apply post_bind, Hblk; [lia|]. intros a. apply post_bind, Hrd; [lia|]. done. }
  destruct (t =? BT_DATA_LE_ROLE).
  { apply decode_post; [lia|]. intros buf'. destruct (n =? sz_role ol); [|done]. by apply post_bind, Hrd; [lia|]. }
  destruct (t =? BT_DATA_SM_TK_VALUE).
  { apply decode_post; [done|]. intros buf'. destruct (Z.eqb_spec n NFC_NDEF_LE_OOB_REC_TK_LEN); [|done].
    by apply post_bind, Hblk; [unfold NFC_NDEF_LE_OOB_REC_TK_LEN in *; lia|]. }
  destruct ((t =? BT_DATA_LE_SC_CONFIRM_VALUE) || (t =? BT_DATA_LE_SC_RANDOM_VALUE)).
  { destruct (t =? BT_DATA_LE_SC_CONFIRM_VALUE); apply decode_sc_post; [done| |done|]; intros sc buf';
      (destruct (Z.eqb_spec n 16); [|done]); by apply post_bind, Hblk; [lia|]. }
  destruct (t =? BT_DATA_GAP_APPEARANCE).
  { apply decode_post; [lia|]. intros buf'. destruct (Z.eqb_spec n 2); [|done]. by apply post_bind, Hblk; [lia|]. }
  destruct (t =? BT_DATA_FLAGS).
  { apply decode_post; [lia|]. intros buf'. destruct (Z.eqb_spec n 1); [|done]. by apply post_bind, Hrd; [lia|]. }
  destruct ((t =? BT_DATA_NAME_SHORTENED) || (t =? BT_DATA_NAME_COMPLETE)); [|cbn; unfold shrunk; lia].
  apply post_alloc; [unfold NULL_TERMINATOR_SIZE; lia|]. intros buf' Hb'. by apply post_bind, Hblk; [lia|].
Qed.

Lemma le_oob_loop_post fuel : forall d buf p len index,
  bytes p -> 0 <= index <= len -> len <= zlen p -> len < 2 ^ 32 - 256 -> 1 <= sz_role ol -> 0 <= net_buf_simple_tailroom buf ->
  len - index < Z.of_nat fuel -> no_empty_ad fuel p len index = true ->
  post (le_oob_loop ol fuel d buf p len index) (fun '(_, buf') => shrunk buf buf').
Proof.
  induction fuel as [|fuel IH]; intros d buf p len index Hb Hi Hlen H32 Hrole Ht Hfuel Hne; [lia|].
  cbn [le_oob_loop no_empty_ad] in *. unfold AD_LEN_FIELD_SIZE, AD_LEN_INC_VAL, AD_TYPE_FIELD_SIZE.
  destruct (Z.ltb_spec index len); [|cbn; unfold shrunk; lia]. rewrite (rd_Ok p index) by lia. cstep.
  assert (Hl : byte (zth p index)) by (apply zth_Forall; done). unfold bits in Hl. change (2 ^ 8) with 256 in Hl.
  rewrite (u32_small (index + 1)), u32_small by lia.
  apply andb_prop in Hne as [Hz Hne]. apply negb_true_iff, Z.eqb_neq in Hz.
  destruct (Z.eqb_spec (zth p index) 1), (Z.ltb_spec len (index + 1 + zth p index)); cbn [orb] in *; try done.
  apply post_bind, post_rd_byte; [done|lia|]. intros t _. rewrite u8_small by lia.
  apply post_bind. eapply post_impl; [apply le_oob_ad_post; done || lia|]. intros [d' buf'] Hs. cbn beta iota.
  eapply post_impl; [apply IH; try done; unfold shrunk in *; lia|]. intros [d'' buf'']. unfold shrunk in *. lia.
Qed.

(** ** Correctness *)

(** The constructor stores the advertising structures of the device: the
    address, the role and the fields that are given, each with its length and
    type; it fails if there is not enough room. The message with the record alone
    is built likewise. *)
Theorem le_oob_message (o : oob) (Ho : oob_ok o) :
  builds false (nfc_ndef_le_oob_rec_payload_constructor (Some (oob_desc o))) (oob_octets o) /\
  builds false (nfc_ndef_ch_msg_le_oob_encode (Some (oob_desc o))) (msg_octets [oob_record o]).
Proof. split; [by apply le_oob_builds|by apply le_oob_msg_builds]. Qed.

(** The parser returns the descriptor that the octets were built from, if
    the buffer has room for the fields, and [ENOMEM] if it has not. A role takes
    one byte; a name, if there is one, has a character. *)
Theorem le_oob_parse_exact (d : nfc_ndef_record_desc) (r : ndef_record) (o : oob) (n : Z)
    (Hd : received d r) (Ht : r_tnf r = TNF_MEDIA_TYPE) (Hty : r_type r = nfc_ndef_le_oob_rec_type_field)
    (Hp : r_payload r = oob_octets o) (Ho : oob_ok o) (Hne : oob_named o)
    (Hsz : 0 <= sz_desc ol) (Hrole : sz_role ol = 1) (Hn : 0 <= n < 2 ^ 16) :
  nfc_ndef_le_oob_rec_parse ol (Some d) (Some n) =
    let used := sz_desc ol + oob_cost o in
    if used <=? n then Ok (oob_desc o, used) else Err ENOMEM.
Proof. by eapply le_oob_parse_spec. Qed.

(** The parser ends on any payload without structures of length 0, without
    reading outside of the payload or using more than the buffer. *)
Theorem le_oob_parse_safe (b : nfc_ndef_bin_payload_desc) (n : Z)
    (Hb : payload_ok b) (H32 : payload_length b < 2 ^ 32 - 256) (Hsz : 0 <= sz_desc ol) (Hrole : 1 <= sz_role ol)
    (Hn : 0 <= n < 2 ^ 16)
    (Hne : no_empty_ad (S (Z.to_nat (payload_length b))) (default [] (bin_payload b)) (payload_length b) 0 = true) :
  post (nfc_ndef_le_oob_rec_payload_parse ol b n) (within n).
Proof.
  destruct Hb as [Hl Hp]. unfold nfc_ndef_le_oob_rec_payload_parse.
  destruct (bin_payload b) as [p|]; [|done]. apply post_alloc; [done|]. rewrite tailroom_init by done.
  intros buf Hbuf. apply post_bind. destruct (Z.eq_dec (payload_length b) 0) as [E|E].
  { rewrite E. unfold within. cbn. lia. }
  destruct Hp as (m & [= <-] & Hbm & Hlm); [lia|].
  eapply post_impl; [apply le_oob_loop_post; done || lia|]. intros [d buf'] Hs. unfold shrunk, within in *. cbn. lia.
Qed.

End Found.

End LeOob.

(** ** Instances *)

Definition oob_layout_arm : oob_layout := {| sz_desc := 28; sz_role := 1 |}.

Definition oob_sample : oob :=
  {| o_addr := [1; 2; 3; 4; 5; 6]; o_addr_type := 1; o_role := 2; o_tk := None;
     o_sc := Some (seqZ 0 16, seqZ 100 16); o_appearance := Some 0x0341; o_flags := Some 0x06;
     o_name := Some (chars "Nordic") |}.

Lemma oob_sample_ok : oob_ok oob_sample.
Proof.
  do 6 (split; [done|]). cbn. split; [done|]. by_compute.
Qed.

Lemma le_oob_message_witness :
  builds false (nfc_ndef_le_oob_rec_payload_constructor (Some (oob_desc oob_sample))) (oob_octets oob_sample) /\
  builds false (nfc_ndef_ch_msg_le_oob_encode (Some (oob_desc oob_sample))) (msg_octets [oob_record oob_sample]).
Proof. apply le_oob_message, oob_sample_ok. Defined.

Lemma le_oob_parse_exact_witness :
  nfc_ndef_le_oob_rec_parse oob_layout_arm (Some (found (oob_record oob_sample))) (Some 78) = Ok (oob_desc oob_sample, 78) /\
  nfc_ndef_le_oob_rec_parse oob_layout_arm (Some (found (oob_record oob_sample))) (Some 77) = Err ENOMEM.
Proof.
  split; apply (le_oob_parse_exact oob_layout_arm (found (oob_record oob_sample)) (oob_record oob_sample) oob_sample);
    done || (by apply found_received) || apply oob_sample_ok.
Defined.

Lemma le_oob_parse_safe_witness :
  post (nfc_ndef_le_oob_rec_payload_parse oob_layout_arm
    {| bin_payload := Some [2; 0x1c; 7; 9; 0x09; 65]; payload_length := 6 |} 64) (within 64).
Proof.
  apply le_oob_parse_safe; try done. split; [done|]. intros _. eexists. split; [done|]. split; [by_compute|done].
Defined.

(** A structure of length 0 at the end of the payload: its type is read behind
    the payload. *)
Lemma empty_structure_reads_past :
  nfc_ndef_le_oob_rec_payload_parse oob_layout_arm {| bin_payload := Some [0]; payload_length := 1 |} 64 = Fault.
Proof. reflexivity. Qed.

(** A structure of length 0 in front of what reads as a name: 255 bytes are
    copied, most of them from behind the payload, and handed out as the name. *)
Lemma empty_structure_leaks (behind : list Z) :
  length behind = 246%nat ->
  (let* '(d, _) := nfc_ndef_le_oob_rec_payload_parse oob_layout_arm
     {| bin_payload := Some ([0; 0x09; 0xff; 1; 2; 3; 4; 5; 6; 7; 8] ++ behind); payload_length := 11 |} 1000 in
   Ok (local_name d)) = Ok (Some ([0xff; 1; 2; 3; 4; 5; 6; 7; 8] ++ behind ++ [0])).
Proof.
  intros Hb. do 246 (destruct behind as [|? behind]; [done|]). destruct behind; [|done]. reflexivity.
Qed.

(** Without a destination the constructor stores at the null pointer, where its
    documentation says that it computes the size. *)
Lemma le_oob_size_null :
  nfc_ndef_le_oob_rec_payload_constructor (Some (oob_desc oob_sample)) None 100 = Fault.
Proof. reflexivity. Qed.

(** An empty name is encoded, but the structure it makes is refused by the
    parser. *)
Lemma empty_name_refused :
  nfc_ndef_le_oob_rec_payload_parse oob_layout_arm
    {| bin_payload := Some (oob_octets {| o_addr := [1; 2; 3; 4; 5; 6]; o_addr_type := 1; o_role := 2; o_tk := None;
         o_sc := None; o_appearance := None; o_flags := None; o_name := Some [] |}); payload_length := 14 |} 100 =
  Err EINVAL.
Proof. reflexivity. Qed.
