(* ===== verification/EmdsFlash.v ===== *)
(** * Emergency data storage in flash: emds_flash.c of subsys/emds

    Entries are stored in a region of flash: their data from the start of the
    region upwards, and an allocation table from its end downwards, one entry of
    eight octets for each. The model has the build for flash behind the NVMC
    peripheral, which is written in words of four octets. *)

From stdpp Require Import prelude list.
From Stdlib Require Import ZArith Lia.
From S2P Require Import Prelude.

Open Scope Z_scope.

(** ** The device

    What the code calls of the operating system and of the hardware layer. The
    state of the flash is the list of its octets. *)

(** The octets [w] stored at address [a]. *)
Definition splice (m : list Z) (a : Z) (w : list Z) : list Z :=
  take (Z.to_nat a) m ++ w ++ drop (Z.to_nat a + length w) m.

(** The [n] octets at [a] are in the erased state. *)
Definition erased (m : list Z) (a n : Z) : Prop := seen m a (replicate (Z.to_nat n) 255).

Class FlashDev := {
  write_block_size : Z;
  erase_value : Z;
  page_size : Z;
  flash_size : Z;                                        (* nrfx_nvmc_flash_size_get *)
  nvmc_word_write : list Z -> Z -> list Z -> list Z;     (* nrfx_nvmc_word_write *)
  flash_read : list Z -> Z -> Z -> res (list Z);
  flash_write : list Z -> Z -> list Z -> res (list Z);
  flash_erase : list Z -> Z -> Z -> res (list Z);
  crc8_ccitt : Z -> list Z -> Z;
  nrf52_errata_242 : bool;
  flash_get_parameters : bool;                           (* whether they are found *)
  flash_get_page_info_by_offs : Z -> option Z;           (* size of the page *)
  write_block_size_spec : exists k, 2 <= k < 8 /\ write_block_size = 2 ^ k;
  erase_value_spec : erase_value = 255;
  page_size_spec : 0 < page_size /\ (write_block_size | page_size);
  nvmc_word_write_spec m a w :
    0 <= a -> (4 | a) -> bytes w -> length w = 4%nat -> erased m a 4 ->
    nvmc_word_write m a w = splice m a w;
  flash_read_spec m a n :
    0 <= a -> 0 <= n -> a + n <= zlen m ->
    flash_read m a n = Ok (take (Z.to_nat n) (drop (Z.to_nat a) m));
  flash_read_outside m a n :
    0 <= a -> 0 < n -> zlen m < a + n -> exists e, flash_read m a n = Err e;
  flash_write_zeros m a n :
    0 <= a -> 0 <= n -> (write_block_size | a) -> (write_block_size | n) -> a + n <= zlen m ->
    flash_write m a (replicate (Z.to_nat n) 0) = Ok (splice m a (replicate (Z.to_nat n) 0));
  flash_erase_spec m a n :
    0 <= a -> 0 <= n -> (page_size | a) -> (page_size | n) -> a + n <= zlen m ->
    flash_erase m a n = Ok (splice m a (replicate (Z.to_nat n) 255));
  flash_get_parameters_spec : flash_get_parameters = true;
  flash_get_page_info_spec o :
    0 <= o < flash_size -> flash_get_page_info_by_offs o = Some page_size;
  crc8_ccitt_byte init l : byte (crc8_ccitt init l);
  crc8_ccitt_erased : crc8_ccitt 255 (replicate 7 255) <> 255;
  crc8_ccitt_zeros : crc8_ccitt 255 (replicate 7 0) <> 0
}.

(** CRC-8 with the polynomial x^8 + x^2 + x + 1, most significant bit first. *)
Fixpoint crc8_shift (n : nat) (v : Z) : Z :=
  match n with
  | O => v
  | S n => crc8_shift n (if Z.testbit v 7 then u8 (Z.lxor (Z.shiftl v 1) 7) else u8 (Z.shiftl v 1))
  end.
Definition crc8_reference (init : Z) (l : list Z) : Z :=
  foldl (fun v b => crc8_shift 8 (u8 (Z.lxor v b))) (u8 init) l.

Lemma crc8_shift_byte n v : byte v -> byte (crc8_shift n v).
Proof.
  revert v. induction n as [|n IH]; intros v Hv; [done|]. cbn. apply IH.
  case_match; apply u8_range.
Qed.

Lemma crc8_reference_byte init l : byte (crc8_reference init l).
Proof.
  unfold crc8_reference. generalize (u8_range init). generalize (u8 init).
  induction l as [|b l IH]; intros v Hv; [done|]. cbn [foldl]. apply IH.
  apply crc8_shift_byte, u8_range.
Qed.

(** A flash of 256 octets in pages of 64, whose words can only lose bits. *)
Definition flash_and (m : list Z) (a : Z) (w : list Z) : list Z :=
  splice m a (zip_with Z.land (take (length w) (drop (Z.to_nat a) m)) w).

Lemma land_erased w : bytes w -> zip_with Z.land (replicate (length w) 255) w = w.
Proof.
  induction 1 as [|b w Hb _ IH]; [done|]. cbn [length replicate zip_with]. f_equal; [|done].
  apply Z.eqb_eq. revert b Hb. apply byte_check. vm_compute. reflexivity.
Qed.

Lemma land_zeros l n : length l = n -> zip_with Z.land l (replicate n 0) = replicate n 0.
Proof.
  intros <-. induction l as [|b l IH]; [done|]. cbn [length replicate zip_with].
  by rewrite IH, Z.land_0_r.
Qed.

#[refine] Definition flash_reference : FlashDev := {|
  write_block_size := 4;
  erase_value := 255;
  page_size := 64;
  flash_size := 256;
  nvmc_word_write := flash_and;
  flash_read m a n := if (a <? 0) || (zlen m <? a + n) then Err EINVAL
                      else Ok (take (Z.to_nat n) (drop (Z.to_nat a) m));
  flash_write m a w := if (a <? 0) || (zlen m <? a + zlen w) then Err EINVAL
                       else Ok (flash_and m a w);
  flash_erase m a n := if (a <? 0) || (zlen m <? a + n) then Err EINVAL
                       else Ok (splice m a (replicate (Z.to_nat n) 255));
  crc8_ccitt := crc8_reference;
  nrf52_errata_242 := true;
  flash_get_parameters := true;
  flash_get_page_info_by_offs o := if (0 <=? o) && (o <? 256) then Some 64 else None
|}.
Proof.
  - by exists 2.
  - done.
  - split; [done|]. by exists 16.
  - intros m a w Ha _ Hb Hw [_ He]. unfold flash_and. f_equal.
    rewrite length_replicate in He. change (Z.to_nat 4) with 4%nat in He.
    rewrite Hw, He, <- Hw. by apply land_erased.
  - intros m a n Ha Hn Hl. destruct (Z.ltb_spec a 0); [lia|].
    by destruct (Z.ltb_spec (zlen m) (a + n)); [lia|].
  - intros m a n Ha Hn Hl. destruct (Z.ltb_spec a 0); [lia|].
    destruct (Z.ltb_spec (zlen m) (a + n)); [by eexists|lia].
  - intros m a n Ha Hn _ _ Hl. rewrite length_replicate. destruct (Z.ltb_spec a 0); [lia|].
    destruct (Z.ltb_spec (zlen m) (a + Z.of_nat (Z.to_nat n))); [lia|].
    unfold flash_and. rewrite length_replicate, land_zeros; [done|].
    rewrite length_take, length_drop. lia.
  - intros m a n Ha Hn _ _ Hl. destruct (Z.ltb_spec a 0); [lia|].
    by destruct (Z.ltb_spec (zlen m) (a + n)); [lia|].
  - done.
  - intros o Ho. destruct (Z.leb_spec 0 o), (Z.ltb_spec o 256); (done || lia).
  - apply crc8_reference_byte.
  - by vm_compute.
  - by vm_compute.
Defined.

(** The flash with the state of the power failure comparator. [power] is the
    number of words that can still be written before the supply fails, if it
    fails: from then on nothing is stored. *)
Record nvm := {
  cells : list Z;
  power : option nat;
  pof : bool;                (* POFCON: the comparator is enabled *)
  pofwarn : bool;            (* EVENTS_POFWARN *)
  pofcon_enabled : bool
}.
Definition set_cells (d : nvm) (m : list Z) : nvm :=
  {| cells := m; power := power d; pof := pof d; pofwarn := pofwarn d; pofcon_enabled := pofcon_enabled d |}.
Definition set_pof (d : nvm) (b saved : bool) : nvm :=
  {| cells := cells d; power := power d; pof := b; pofwarn := pofwarn d; pofcon_enabled := saved |}.

(** ** The file system *)

Record emds_fs := {
  offset : Z;
  ate_wra : Z;
  ate_size : Z;
  data_wra_offset : Z;
  sector_size : Z;
  sector_cnt : Z;
  is_initialized : bool;
  is_prepeared : bool;
  flash_dev : bool;          (* whether there is a device *)
  flash_params : bool;       (* whether the pointer to its parameters is set *)
  force_erase : bool
}.
Definition set_ate_wra (f : emds_fs) (a : Z) : emds_fs :=
  {| offset := offset f; ate_wra := a; ate_size := ate_size f; data_wra_offset := data_wra_offset f;
     sector_size := sector_size f; sector_cnt := sector_cnt f; is_initialized := is_initialized f;
     is_prepeared := is_prepeared f; flash_dev := flash_dev f; flash_params := flash_params f; force_erase := force_erase f |}.
Definition set_data_wra (f : emds_fs) (a : Z) : emds_fs :=
  {| offset := offset f; ate_wra := ate_wra f; ate_size := ate_size f; data_wra_offset := a;
     sector_size := sector_size f; sector_cnt := sector_cnt f; is_initialized := is_initialized f;
     is_prepeared := is_prepeared f; flash_dev := flash_dev f; flash_params := flash_params f; force_erase := force_erase f |}.
Definition set_force (f : emds_fs) (b : bool) : emds_fs :=
  {| offset := offset f; ate_wra := ate_wra f; ate_size := ate_size f; data_wra_offset := data_wra_offset f;
     sector_size := sector_size f; sector_cnt := sector_cnt f; is_initialized := is_initialized f;
     is_prepeared := is_prepeared f; flash_dev := flash_dev f; flash_params := flash_params f; force_erase := b |}.
Definition set_flags (f : emds_fs) (size : Z) (init prep : bool) : emds_fs :=
  {| offset := offset f; ate_wra := ate_wra f; ate_size := size; data_wra_offset := data_wra_offset f;
     sector_size := sector_size f; sector_cnt := sector_cnt f; is_initialized := init;
     is_prepeared := prep; flash_dev := flash_dev f; flash_params := flash_params f; force_erase := force_erase f |}.
Definition set_params (f : emds_fs) (b : bool) : emds_fs :=
  {| offset := offset f; ate_wra := ate_wra f; ate_size := ate_size f; data_wra_offset := data_wra_offset f;
     sector_size := sector_size f; sector_cnt := sector_cnt f; is_initialized := is_initialized f;
     is_prepeared := is_prepeared f; flash_dev := flash_dev f; flash_params := b; force_erase := force_erase f |}.

(** The end of the region. *)
Definition region_end (f : emds_fs) : Z := offset f + sector_cnt f * sector_size f.

(** An allocation table entry, and its octets in memory. *)
Record emds_ate := {
  ate_id : Z;
  ate_offset : Z;
  ate_len : Z;
  ate_crc8_data : Z;
  ate_crc8 : Z
}.
Definition le16 (v : Z) : list Z := [v mod 256; v / 256 mod 256].
Definition ate_octets (e : emds_ate) : list Z :=
  le16 (ate_id e) ++ le16 (ate_offset e) ++ le16 (ate_len e) ++ [ate_crc8_data e; ate_crc8 e].
Definition ate_of (o : list Z) : emds_ate :=
  {| ate_id := zth o 0 + 256 * zth o 1; ate_offset := zth o 2 + 256 * zth o 3;
     ate_len := zth o 4 + 256 * zth o 5; ate_crc8_data := zth o 6; ate_crc8 := zth o 7 |}.

Inductive ate_type := ATE_TYPE_VALID | ATE_TYPE_INVALIDATED | ATE_TYPE_ERASED | ATE_TYPE_UNKNOWN.
Definition ate_type_bit (t : ate_type) : Z :=
  match t with
  | ATE_TYPE_VALID => 1 | ATE_TYPE_INVALIDATED => 2 | ATE_TYPE_ERASED => 4 | ATE_TYPE_UNKNOWN => 8
  end.

Definition ADDR_OFFS_MASK : Z := 0xFFFF.
Definition EMDS_ATE_SIZE : Z := 8.      (* sizeof(struct emds_ate) *)

Section Flash.
Context `{FlashDev}.

(** The size of the buffers on the stack is the block size of the device tree. *)
Definition EMDS_FLASH_BLOCK_SIZE : Z := write_block_size.

(** [-ECANCELED] if a warning is pending. *)
Definition suspend_pofwarn (d : nvm) : nvm * bool :=
  if negb nrf52_errata_242 then (d, false)
  else if pof d then
    let d := set_pof d false (pofcon_enabled d) in
    if pofwarn d then (set_pof d true (pofcon_enabled d), true) else (d, false)
  else (d, false).

Definition restore_pofwarn (d : nvm) : nvm :=
  if pofcon_enabled d then set_pof d true false else d.

Definition is_aligned_32 (data : Z) : bool := Z.land data 3 =? 0.

Definition is_within_bounds (addr len boundary_start boundary_size : Z) : bool :=
  (boundary_start <=? addr) && (addr <? boundary_start + boundary_size) &&
  (len <=? boundary_start + boundary_size - addr).

Definition is_regular_addr_valid (addr len : Z) : bool := is_within_bounds addr len 0 flash_size.

(** One word, if there is still power. *)
Definition word_write (d : nvm) (a : Z) (w : list Z) : nvm :=
  match power d with
  | Some O => d
  | Some (S k) => {| cells := nvmc_word_write (cells d) a w; power := Some k; pof := pof d;
                     pofwarn := pofwarn d; pofcon_enabled := pofcon_enabled d |}
  | None => set_cells d (nvmc_word_write (cells d) a w)
  end.

Fixpoint word_loop (fuel : nat) (d : nvm) (flash_addr : Z) (data : list Z) (pos len : Z) : res nvm :=
  if 4 <=? len then
    match fuel with
    | O => NoFuel
    | S fuel =>
      let* w := rd_block data pos 4 in
      word_loop fuel (word_write d flash_addr w) (u32 (flash_addr + 4)) data (pos + 4) (len - 4)
    end
  else Ok d.

(** The result is the device and the value returned. *)
Definition flash_direct_write (d : nvm) (offset : Z) (data : list Z) (len : Z) : res (nvm * Z) :=
  let flash_addr := u32 offset in
  if negb (is_regular_addr_valid flash_addr len) then Ok (d, - errno_num EINVAL)
  else if negb (is_aligned_32 flash_addr) then Ok (d, - errno_num EINVAL)
  else if negb (len mod 4 =? 0) then Ok (d, - errno_num EINVAL)
  else
    let '(d, suspended) := suspend_pofwarn d in
    if suspended then Ok (d, - errno_num ECANCELED) else
    let* d := word_loop (Z.to_nat len) d flash_addr data 0 len in
    Ok (restore_pofwarn d, 0).

Definition align_size (len : Z) : Z :=
  let wbs := u8 write_block_size in
  if wbs <=? 1 then len
  else Z.land (u32 (len + (wbs - 1))) (Z.lnot (wbs - 1)).

Definition ate_wrt (f : emds_fs) (d : nvm) (entry : emds_ate) : res (emds_fs * nvm * Z) :=
  let ate_size := align_size EMDS_ATE_SIZE in
  if negb (ate_size mod write_block_size =? 0) then Ok (f, d, - errno_num EINVAL)
  else
    let* '(d, rc) := flash_direct_write d (ate_wra f) (ate_octets entry) EMDS_ATE_SIZE in
    if negb (rc =? 0) then Ok (f, d, rc)
    else Ok (set_ate_wra f (u32 (ate_wra f - ate_size)), d, 0).

Definition data_wrt (f : emds_fs) (d : nvm) (data : list Z) (len : Z) : res (emds_fs * nvm * Z) :=
  if len =? 0 then Ok (f, d, 0) else
  let offset := offset f + Z.land (data_wra_offset f) ADDR_OFFS_MASK in
  let blen := Z.land len (Z.lnot (write_block_size - 1)) in
  let* '(d, rc) := if 0 <? blen then flash_direct_write d offset data blen else Ok (d, 0) in
  if negb (rc =? 0) then Ok (f, d, rc) else
  let temp_len := len - blen in
  let* '(d, rc) :=
    if 0 <? temp_len then
      let* tail := rd_block data blen temp_len in
      let* buf := wr_block (replicate (Z.to_nat EMDS_FLASH_BLOCK_SIZE) 0) 0 tail in
      let* buf := wr_block buf temp_len (replicate (Z.to_nat (write_block_size - temp_len)) erase_value) in
      flash_direct_write d (offset + blen) buf write_block_size
    else Ok (d, 0) in
  if negb (rc =? 0) then Ok (f, d, rc)
  else Ok (set_data_wra f (u32 (data_wra_offset f + align_size len)), d, 0).

Fixpoint check_erased_loop (fuel : nat) (m : list Z) (addr len : Z) : res Z :=
  if len =? 0 then Ok 0 else
  match fuel with
  | O => NoFuel
  | S fuel =>
    let bytes_to_cmp := Z.min EMDS_FLASH_BLOCK_SIZE len in
    match flash_read m addr bytes_to_cmp with
    | Ok buf =>
      if bool_decide (buf = replicate (Z.to_nat bytes_to_cmp) 0xff)
      then check_erased_loop fuel m (u32 (addr + bytes_to_cmp)) (len - bytes_to_cmp)
      else Ok (- errno_num EINVAL)
    | Err _ => Ok (- errno_num EIO)
    | Fault => Fault
    | NoFuel => NoFuel
    end
  end.

(** A run that leaves the device ends with a failed read. *)
Definition check_erased (m : list Z) (addr len : Z) : res Z :=
  check_erased_loop (S (Z.to_nat flash_size)) m addr len.

Definition is_ate_valid (e : emds_ate) : bool :=
  ate_crc8 e =? crc8_ccitt 0xff (take 7 (ate_octets e)).

Definition new_ate (id offset : Z) (data : list Z) (len : Z) : emds_ate :=
  let e := {| ate_id := id; ate_offset := u16 offset; ate_len := u16 len;
              ate_crc8_data := crc8_ccitt 0xff data; ate_crc8 := 0 |} in
  {| ate_id := ate_id e; ate_offset := ate_offset e; ate_len := ate_len e;
     ate_crc8_data := ate_crc8_data e; ate_crc8 := crc8_ccitt 0xff (take 7 (ate_octets e)) |}.

Definition entry_wrt (f : emds_fs) (d : nvm) (id : Z) (data : list Z) (len : Z)
    : res (emds_fs * nvm * Z) :=
  let* bytes := rd_block data 0 len in
  let entry := new_ate id (data_wra_offset f) bytes len in
  let* '(f, d, rc) := data_wrt f d data len in
  if negb (rc =? 0) then Ok (f, d, rc) else
  let* '(f, d, rc) := ate_wrt f d entry in
  if negb (rc =? 0) then Ok (f, d, rc) else Ok (f, d, 0).

Definition ate_check (f : emds_fs) (m : list Z) (addr : Z) : res (ate_type * emds_ate) :=
  match flash_read m addr (ate_size f) with
  | Ok read_buf =>
    let o := take 8 read_buf in
    if bool_decide (o = replicate 8 0) then Ok (ATE_TYPE_INVALIDATED, ate_of o)
    else if bool_decide (o = replicate 8 erase_value) then Ok (ATE_TYPE_ERASED, ate_of o)
    else if is_ate_valid (ate_of o) then Ok (ATE_TYPE_VALID, ate_of o)
    else Ok (ATE_TYPE_UNKNOWN, ate_of o)
  | Err _ => Ok (ATE_TYPE_UNKNOWN, ate_of [])
  | Fault => Fault
  | NoFuel => NoFuel
  end.

Fixpoint ate_recover_loop (fuel : nat) (f : emds_fs) (m : list Z) (expect_field : Z)
    : res (emds_fs * bool) :=
  match fuel with
  | O => NoFuel
  | S fuel =>
    if ate_wra f <? offset f then
      Ok (set_data_wra (set_ate_wra (set_force f true) (offset f)) 0, true)
    else
      let* '(type, end_ate) := ate_check f m (ate_wra f) in
      let f := if Z.land (ate_type_bit type) expect_field =? 0 then set_force f true else f in
      match type with
      | ATE_TYPE_VALID =>
        let f := set_data_wra f (align_size (ate_offset end_ate + ate_len end_ate)) in
        ate_recover_loop fuel (set_ate_wra f (u32 (ate_wra f - ate_size f))) m 5
      | ATE_TYPE_INVALIDATED =>
        ate_recover_loop fuel (set_ate_wra f (u32 (ate_wra f - ate_size f))) m 7
      | ATE_TYPE_UNKNOWN =>
        ate_recover_loop fuel (set_ate_wra (set_force f true) (u32 (ate_wra f - ate_size f))) m expect_field
      | ATE_TYPE_ERASED => Ok (f, false)
      end
  end.

(** The boolean of the loop says that it reached the start of the region. *)
Definition ate_last_recover (f : emds_fs) (m : list Z) : res emds_fs :=
  let f := set_data_wra (set_ate_wra f (u32 (region_end f - ate_size f))) 0 in
  let* '(f, full) := ate_recover_loop (S (Z.to_nat (sector_cnt f * sector_size f))) f m 0xff in
  if (full : bool) then Ok f else
  let start := offset f + data_wra_offset f in
  let* rc := check_erased m start (u32 (ate_wra f - start + ate_size f)) in
  Ok (if negb (rc =? 0) then set_force f true else f).

Fixpoint invalidate_loop (fuel : nat) (f : emds_fs) (m : list Z) (addr : Z) : res (list Z * Z) :=
  if addr <=? region_end f - ate_size f then
    match fuel with
    | O => NoFuel
    | S fuel =>
      match flash_write m addr (replicate (Z.to_nat (ate_size f)) 0) with
      | Ok m => invalidate_loop fuel f m (u32 (addr + ate_size f))
      | Err e => Ok (m, - errno_num e)
      | Fault => Fault
      | NoFuel => NoFuel
      end
    end
  else Ok (m, 0).

Definition old_entries_invalidate (f : emds_fs) (m : list Z) : res (list Z * Z) :=
  invalidate_loop (S (Z.to_nat (sector_cnt f * sector_size f))) f m (u32 (ate_wra f + ate_size f)).

Definition emds_flash_init (f : emds_fs) (d : nvm) : res (emds_fs * Z) :=
  if is_initialized f then Ok (f, - errno_num EACCES)
  else if negb (flash_dev f) then Ok (f, - errno_num ENXIO)
  else
  let f := set_params f flash_get_parameters in
  if negb (flash_params f) then Ok (f, - errno_num EINVAL)
  else if (EMDS_FLASH_BLOCK_SIZE <? write_block_size) || (write_block_size =? 0)
  then Ok (f, - errno_num EINVAL)
  else
    match flash_get_page_info_by_offs (offset f) with
    | None => Ok (f, - errno_num EINVAL)
    | Some info_size =>
      if (sector_size f =? 0) || negb (sector_size f mod info_size =? 0)
      then Ok (f, - errno_num EINVAL)
      else if sector_cnt f <? 1 then Ok (f, - errno_num EINVAL)
      else
        let f := set_flags f (align_size EMDS_ATE_SIZE) (is_initialized f) (is_prepeared f) in
        let* f := ate_last_recover f (cells d) in
        Ok (set_flags f (ate_size f) true (is_prepeared f), 0)
    end.

Definition emds_flash_clear (f : emds_fs) (d : nvm) : res (emds_fs * nvm * Z) :=
  match flash_erase (cells d) (offset f) (sector_size f * sector_cnt f) with
  | Ok m =>
    let d := set_cells d m in
    let* rc := check_erased m (offset f) (sector_size f * sector_cnt f) in
    if negb (rc =? 0) then Ok (f, d, - errno_num ENXIO) else
    let* f := ate_last_recover f m in
    Ok (f, d, 0)
  | Err e => Ok (f, d, - errno_num e)
  | Fault => Fault
  | NoFuel => NoFuel
  end.

(** The comparison with the size of an entry is one of unsigned integers. *)
Definition emds_flash_free_space_get (f : emds_fs) : Z :=
  let space := sint 32 (ate_wra f - (data_wra_offset f + offset f)) in
  if ate_size f <? u32 space then space else 0.

(** Here the free space is converted to an unsigned integer. *)
Definition emds_flash_write (f : emds_fs) (d : nvm) (id : Z) (data : list Z) (len : Z)
    : res (emds_fs * nvm * Z) :=
  if negb (is_initialized f) || negb (is_prepeared f) then Ok (f, d, - errno_num EACCES)
  else if u32 (emds_flash_free_space_get f) <? u32 (ate_size f + align_size len)
  then Ok (f, d, - errno_num ENOMEM)
  else if len =? 0 then Ok (f, d, 0)
  else
    let* '(f, d, rc) := entry_wrt f d id data len in
    if negb (rc =? 0) then Ok (f, d, rc) else Ok (f, d, len).

Fixpoint read_walk (fuel : nat) (f : emds_fs) (m : list Z) (id wlk_addr : Z) : res (emds_ate + Z) :=
  match fuel with
  | O => NoFuel
  | S fuel =>
    match flash_read m wlk_addr EMDS_ATE_SIZE with
    | Ok o =>
      if (ate_id (ate_of o) =? id) && is_ate_valid (ate_of o) then Ok (inl (ate_of o))
      else
        let wlk_addr := u32 (wlk_addr + ate_size f) in
        if region_end f <=? wlk_addr then Ok (inr (- errno_num ENXIO))
        else read_walk fuel f m id wlk_addr
    | Err e => Ok (inr (- errno_num e))
    | Fault => Fault
    | NoFuel => NoFuel
    end
  end.

(** The result is the buffer of the caller and the value returned. *)
Definition emds_flash_read (f : emds_fs) (m : list Z) (id : Z) (data : list Z) (len : Z)
    : res (list Z * Z) :=
  if negb (is_initialized f) then Ok (data, - errno_num EACCES) else
  let* found := read_walk (S (Z.to_nat (sector_cnt f * sector_size f))) f m id (ate_wra f) in
  match found with
  | inr rc => Ok (data, rc)
  | inl wlk_ate =>
    if len <? ate_len wlk_ate then Ok (data, - errno_num ENOMEM) else
    match flash_read m (offset f + ate_offset wlk_ate) (ate_len wlk_ate) with
    | Ok bs =>
      let* data := wr_block data 0 bs in
      if negb (ate_crc8_data wlk_ate =? crc8_ccitt 0xff bs) then Ok (data, - errno_num EFAULT)
      else Ok (data, ate_len wlk_ate)
    | Err e => Ok (data, - errno_num e)
    | Fault => Fault
    | NoFuel => NoFuel
    end
  end.

Definition emds_flash_prepare (f : emds_fs) (d : nvm) (byte_size : Z) : res (emds_fs * nvm * Z) :=
  if negb (is_initialized f) then Ok (f, d, - errno_num EACCES)
  else if u32 (sector_cnt f * sector_size f - ate_size f) <? u32 byte_size
  then Ok (f, d, - errno_num ENOMEM)
  else
    let* '(m, rc) := old_entries_invalidate f (cells d) in
    let d := set_cells d m in
    if negb (rc =? 0) then Ok (f, d, rc) else
    let* '(f, d) :=
      if force_erase f || (emds_flash_free_space_get f <? byte_size) then
        let* '(f, d, _) := emds_flash_clear f d in
        Ok (set_force f false, d)
      else Ok (f, d) in
    Ok (set_flags f (ate_size f) (is_initialized f) true, d, 0).

End Flash.
