(* ===== verification/EmdsFlashSpec.v ===== *)
(** * What the emergency data storage keeps

    The contents of the region as a list of allocation table entries, and the
    theorems that relate emds_flash.c to it: entries are read as they were
    written, over a restart and over a loss of power, and the storage gets ready
    whatever the flash holds. *)

From stdpp Require Import prelude list.
From Stdlib Require Import ZArith Lia.
From S2P Require Import Prelude EmdsFlash.

Open Scope Z_scope.

(** ** Octets stored in place *)

Lemma length_splice m a w : 0 <= a -> a + zlen w <= zlen m -> length (splice m a w) = length m.
Proof. intros. unfold splice. autorewrite with clen. lia. Qed.

Lemma zth_splice m a w i :
  0 <= a -> a + zlen w <= zlen m -> 0 <= i ->
  zth (splice m a w) i = if (a <=? i) && (i <? a + zlen w) then zth w (i - a) else zth m i.
Proof.
  intros Ha Hl Hi. unfold splice.
  assert (Ht : length (take (Z.to_nat a) m) = Z.to_nat a) by (autorewrite with clen; lia).
  destruct (Z.leb_spec a i); cbn [andb].
  - rewrite zth_app_r, Ht, Z2Nat.id by lia. destruct (Z.ltb_spec i (a + zlen w)).
    + by rewrite zth_app_l by lia.
    + rewrite zth_app_r by lia.
      replace (Z.to_nat a + length w)%nat with (Z.to_nat (a + zlen w)) by lia.
      rewrite zth_drop by lia. f_equal. lia.
  - rewrite zth_app_l, zth_take by lia. done.
Qed.

(** What is seen in a buffer, element by element. *)
Lemma seen_iff m a l :
  0 <= a -> a + zlen l <= zlen m ->
  seen m a l <-> forall k, 0 <= k < zlen l -> zth m (a + k) = zth l k.
Proof.
  intros Ha Hl. split; [intros Hs k Hk; by apply seen_zth|]. intros Hk. split; [done|].
  apply zth_ext; [autorewrite with clen; lia|]. intros i Hi. revert Hi. autorewrite with clen. intros Hi.
  rewrite <- (Nat2Z.id (length l)), zth_take, zth_drop by lia. apply Hk. lia.
Qed.

Lemma seen_bounds m a l : seen m a l -> 0 < zlen l -> 0 <= a /\ a + zlen l <= zlen m.
Proof.
  intros Hs Hl. destruct (seen_length _ _ _ Hs) as [?| ->]; [|cbn in Hl; lia].
  by destruct Hs.
Qed.

Lemma seen_splice_here m a w : 0 <= a -> a + zlen w <= zlen m -> seen (splice m a w) a w.
Proof.
  intros Ha Hl. apply seen_iff; [done|by rewrite length_splice|]. intros k Hk.
  rewrite zth_splice by lia. destruct (Z.leb_spec a (a + k)); [|lia].
  destruct (Z.ltb_spec (a + k) (a + zlen w)); [|lia]. cbn [andb]. f_equal. lia.
Qed.

(** What does not overlap stays. *)
Lemma seen_splice_other m a w b l :
  0 <= a -> a + zlen w <= zlen m -> b + zlen l <= a \/ a + zlen w <= b ->
  seen m b l -> seen (splice m a w) b l.
Proof.
  intros Ha Hl Hd Hs. destruct (decide (zlen l = 0)) as [E|E].
  { destruct l; [|done]. destruct Hs as [? _]. by split. }
  destruct (seen_bounds _ _ _ Hs) as [Hb Hbl]; [lia|].
  apply seen_iff; [done|by rewrite length_splice|]. intros k Hk.
  rewrite zth_splice by lia. rewrite (seen_zth m b l k) by done.
  destruct (Z.leb_spec a (b + k)), (Z.ltb_spec (b + k) (a + zlen w)); cbn [andb]; (done || lia).
Qed.

Lemma splice_splice m a w v :
  0 <= a -> a + zlen w + zlen v <= zlen m -> splice (splice m a w) (a + zlen w) v = splice m a (w ++ v).
Proof.
  intros Ha Hl.
  assert (Hw : zlen (splice m a w) = zlen m) by (rewrite length_splice; lia).
  apply zth_ext.
  - rewrite !length_splice by (rewrite ?length_app; lia). done.
  - intros i Hi. rewrite length_splice in Hi by lia.
    rewrite !zth_splice by (rewrite ?length_app; lia). rewrite length_app.
    destruct (Z.leb_spec (a + zlen w) i), (Z.ltb_spec i (a + zlen w + zlen v)), (Z.leb_spec a i),
      (Z.ltb_spec i (a + zlen w)), (Z.ltb_spec i (a + Z.of_nat (length w + length v)));
      cbn [andb]; try (done || lia).
    + rewrite zth_app_r by lia. f_equal. lia.
    + by rewrite zth_app_l by lia.
Qed.

Lemma splice_nil m a : splice m a [] = m.
Proof. unfold splice. cbn [app length]. by rewrite Nat.add_0_r, take_drop. Qed.

Lemma bytes_splice m a w : bytes m -> bytes w -> bytes (splice m a w).
Proof. intros. unfold splice. repeat apply Forall_app_2; by try apply Forall_take; try apply Forall_drop. Qed.

(** ** Erased octets *)

Lemma erased_zth m a n : erased m a n -> forall k, 0 <= k < n -> zth m (a + k) = 255.
Proof.
  intros He k Hk. rewrite (seen_zth _ _ _ k He) by (autorewrite with clen; lia).
  unfold zth. rewrite lookup_replicate_2 by lia. done.
Qed.

Lemma erased_iff m a n :
  0 <= a -> 0 <= n -> a + n <= zlen m ->
  erased m a n <-> forall k, 0 <= k < n -> zth m (a + k) = 255.
Proof.
  intros Ha Hn Hl. split; [by apply erased_zth|]. intros Hk.
  apply seen_iff; [done|autorewrite with clen; lia|]. intros k. autorewrite with clen. intros Hk'.
  rewrite Hk by lia. unfold zth. rewrite lookup_replicate_2 by lia. done.
Qed.

Lemma erased_bounds m a n : erased m a n -> 0 < n -> 0 <= a /\ a + n <= zlen m.
Proof.
  intros He Hn. destruct (seen_bounds _ _ _ He) as [? Hl]; autorewrite with clen; [lia|].
  revert Hl. autorewrite with clen. lia.
Qed.

Lemma erased_sub m a n b k :
  erased m a n -> a <= b -> 0 <= k -> b + k <= a + n -> 0 <= a -> erased m b k.
Proof.
  intros He Hb Hk Hn Ha. destruct (decide (k = 0)) as [->|]; [by split; [lia|]|].
  destruct (erased_bounds _ _ _ He) as [_ ?]; [lia|].
  apply erased_iff; [lia..|]. intros j Hj.
  replace (b + j) with (a + (b - a + j)) by lia. apply (erased_zth _ _ _ He). lia.
Qed.

Lemma erased_splice m a w b n :
  0 <= a -> a + zlen w <= zlen m -> b + n <= a \/ a + zlen w <= b -> 0 <= n ->
  erased m b n -> erased (splice m a w) b n.
Proof. intros Ha Hl Hd Hn. apply seen_splice_other; autorewrite with clen; lia. Qed.

(** ** Sizes *)

(** There is one multiple of [w] in a window of [w] integers. *)
Lemma window_unique w a b l : l <= a * w < l + w -> l <= b * w < l + w -> a = b.
Proof. intros. destruct (Z.lt_trichotomy a b) as [?|[?|?]]; nia. Qed.

Section Sizes.
Context `{FlashDev}.

Lemma block_pos : 4 <= write_block_size <= 128 /\ (4 | write_block_size).
Proof.
  destruct write_block_size_spec as (k & Hk & ->). split.
  - split; [change 4 with (2 ^ 2)|change 128 with (2 ^ 7)]; apply Z.pow_le_mono_r; lia.
  - exists (2 ^ (k - 2)). change 4 with (2 ^ 2). rewrite <- Z.pow_add_r by lia. f_equal. lia.
Qed.

(** Rounding down and up to blocks. *)
Lemma land_block x : 0 <= x -> Z.land x (Z.lnot (write_block_size - 1)) = x - x mod write_block_size.
Proof.
  intros Hx. destruct write_block_size_spec as (k & Hk & ->).
  replace (2 ^ k - 1) with (Z.ones k) by (rewrite Z.ones_equiv; lia).
  rewrite <- Z.ldiff_land, Z.ldiff_ones_r, Z.shiftl_mul_pow2, Z.shiftr_div_pow2 by lia.
  pose proof (Z.div_mod x (2 ^ k)). lia.
Qed.

Lemma align_size_spec x :
  0 <= x < 2 ^ 31 ->
  (write_block_size | align_size x) /\ x <= align_size x < x + write_block_size.
Proof.
  intros Hx. destruct block_pos as [Hb _]. unfold align_size. rewrite (u8_small write_block_size) by lia.
  destruct (Z.leb_spec write_block_size 1); [lia|].
  rewrite u32_small, land_block by lia. set (y := x + (write_block_size - 1)).
  pose proof (Z.div_mod y write_block_size). pose proof (Z.mod_pos_bound y write_block_size).
  split; [|lia]. exists (y / write_block_size). lia.
Qed.

Lemma align_size_multiple x y :
  0 <= x -> 0 <= y -> x + y < 2 ^ 31 -> (write_block_size | x) -> align_size (x + y) = x + align_size y.
Proof.
  intros Hx Hy Hs [q Hq]. destruct block_pos as [Hb _].
  destruct (align_size_spec (x + y)) as [[a Ha] ?]; [lia|].
  destruct (align_size_spec y) as [[b Hb'] ?]; [lia|].
  rewrite (window_unique write_block_size a (q + b) (x + y)) in Ha by lia. lia.
Qed.

Lemma align_size_id x : 0 <= x < 2 ^ 31 -> (write_block_size | x) -> align_size x = x.
Proof.
  intros Hx Hd. rewrite <- (Z.add_0_r x) at 1. rewrite align_size_multiple by (done || lia).
  destruct (align_size_spec 0) as [[q Hq] ?]; [lia|].
  rewrite (window_unique write_block_size q 0 0) in Hq by lia. lia.
Qed.

Lemma ate_size_spec :
  8 <= align_size EMDS_ATE_SIZE <= 128 /\ (write_block_size | align_size EMDS_ATE_SIZE) /\
  (4 | align_size EMDS_ATE_SIZE).
Proof.
  destruct block_pos as [Hb H4]. destruct (align_size_spec EMDS_ATE_SIZE) as [Hd Hl]; [done|].
  change EMDS_ATE_SIZE with 8 in *. split; [split; [lia|]|split; [done|by eapply Z.divide_trans]].
  destruct write_block_size_spec as (k & Hk & Hw).
  assert (k = 2 \/ 3 <= k) as [->|Hk3] by lia; [change (2 ^ 2) with 4 in Hw; lia|].
  assert (Hd8 : (8 | write_block_size)).
  { exists (2 ^ (k - 3)). change 8 with (2 ^ 3). rewrite <- Z.pow_add_r, Hw by lia. f_equal. lia. }
  destruct Hd as [q Hq], Hd8 as [r Hr]. assert (q = 1) by nia. nia.
Qed.
End Sizes.

(** ** Writing words *)

(** How many of [n] words are written, and the power that is left. *)
Definition limit (p : option nat) (n : nat) : nat :=
  match p with None => n | Some k => Nat.min k n end.
Definition drain (p : option nat) (n : nat) : option nat :=
  match p with None => None | Some k => Some (k - n)%nat end.

(** No power failure warning is pending, and the words of [w] were written at
    [a], as far as there was power. *)
Definition wrote (d d' : nvm) (a : Z) (w : list Z) : Prop :=
  pofwarn d' = false /\
  cells d' = splice (cells d) a (take (4 * limit (power d) (length w / 4)) w) /\
  power d' = drain (power d) (length w / 4).

Lemma limit_le p n : (limit p n <= n)%nat.
Proof. destruct p; cbn; lia. Qed.

Lemma limit_add p n k : limit p (n + k) = (limit p n + limit (drain p n) k)%nat.
Proof. destruct p; cbn; lia. Qed.

Lemma drain_add p n k : drain p (n + k) = drain (drain p n) k.
Proof. destruct p; cbn; [f_equal; lia|done]. Qed.

(** A part that was cut short is not continued. *)
Lemma limit_short p n k : (limit p n < n)%nat -> limit (drain p n) k = 0%nat.
Proof. destruct p; cbn; lia. Qed.

Lemma wrote_length d d' a w :
  0 <= a -> a + zlen w <= zlen (cells d) -> wrote d d' a w -> length (cells d') = length (cells d).
Proof.
  intros Ha Hl (_ & -> & _). apply length_splice; [done|]. rewrite length_take. lia.
Qed.

Lemma take_limit_app p (w v : list Z) n :
  length w = (4 * n)%nat ->
  take (4 * limit p (n + length v / 4)) (w ++ v) =
    take (4 * limit p n) w ++ take (4 * limit (drain p n) (length v / 4)) v.
Proof.
  intros Hw. rewrite limit_add, Nat.mul_add_distr_l. pose proof (limit_le p n).
  destruct (decide (limit p n = n)) as [E|E].
  - rewrite E, <- Hw at 1. rewrite take_app_add. f_equal. rewrite take_ge; [done|lia].
  - rewrite (limit_short p n) by lia. rewrite Nat.mul_0_r, Nat.add_0_r, take_0, app_nil_r.
    apply take_app_le. lia.
Qed.

Lemma wrote_app d d1 d2 a w v n :
  length w = (4 * n)%nat -> 0 <= a -> a + zlen w + zlen v <= zlen (cells d) ->
  wrote d d1 a w -> wrote d1 d2 (a + zlen w) v -> wrote d d2 a (w ++ v).
Proof.
  intros Hw Ha Hl (H1 & H2 & H3) (H4 & H5 & H6).
  assert (E : (length w / 4 = n)%nat) by (rewrite Hw, Nat.mul_comm; by apply Nat.div_mul).
  assert (E' : (length (w ++ v) / 4 = n + length v / 4)%nat).
  { rewrite length_app, Hw, (Nat.mul_comm 4), Nat.add_comm, Nat.div_add by done. lia. }
  rewrite E in H2, H3. split; [done|]. rewrite E', drain_add. split; [|by rewrite H6, H3].
  rewrite take_limit_app by done. rewrite H5, H3, H2. pose proof (limit_le (power d) n).
  destruct (decide (limit (power d) n = n)) as [En|En].
  - rewrite En, !(take_ge w) by lia. rewrite splice_splice; [done|done|].
    rewrite length_take. lia.
  - rewrite (limit_short _ n) by lia. by rewrite take_0, splice_nil, app_nil_r.
Qed.

Section Words.
Context `{FlashDev}.

Lemma word_write_wrote d a w :
  0 <= a -> (4 | a) -> bytes w -> length w = 4%nat -> erased (cells d) a 4 -> pofwarn d = false ->
  wrote d (word_write d a w) a w.
Proof.
  intros Ha Hd Hb Hw He Hq. unfold wrote, word_write. rewrite Hw. change (4 / 4)%nat with 1%nat.
  destruct (power d) as [[|k]|] eqn:Hp; cbn [cells power pofwarn set_cells limit drain].
  - by rewrite take_0, splice_nil.
  - rewrite nvmc_word_write_spec by done. split_and!; [done| |f_equal; lia].
    rewrite (Nat.min_r (S k) 1) by lia. rewrite take_ge; [done|lia].
  - rewrite nvmc_word_write_spec by done. rewrite take_ge by lia. done.
Qed.

Lemma word_loop_spec n fuel d a data pos w :
  length w = (4 * n)%nat -> (n <= fuel)%nat -> 0 <= a -> (4 | a) -> a + zlen w < 2 ^ 32 ->
  bytes w -> seen data pos w -> erased (cells d) a (zlen w) -> pofwarn d = false ->
  exists d', word_loop fuel d a data pos (zlen w) = Ok d' /\ wrote d d' a w.
Proof.
  revert fuel d a pos w. induction n as [|n IH]; intros fuel d a pos w Hw Hf Ha Hd Hl Hb Hs He Hq.
  { destruct w; [|done]. exists d. split; [by destruct fuel|]. unfold wrote. cbn [length].
    rewrite take_nil, splice_nil. split_and!; [done..|]. destruct (power d); cbn; [f_equal; lia|done]. }
  destruct fuel as [|fuel]; [lia|]. cbn [word_loop]. destruct (Z.leb_spec 4 (zlen w)); [|lia].
  rewrite <- (take_drop 4 w) in Hs, Hb, He |- *. set (w1 := take 4 w) in *. set (w2 := drop 4 w) in *.
  assert (Hw1 : length w1 = 4%nat) by (unfold w1; rewrite length_take; lia).
  assert (Hw2 : length w2 = (4 * n)%nat) by (unfold w2; rewrite length_drop; lia).
  apply seen_app in Hs as [Hs1 Hs2]. apply Forall_app in Hb as [Hb1 Hb2].
  rewrite length_app in He. assert (Hlc : a + zlen w <= zlen (cells d)).
  { apply erased_bounds in He; lia. }
  destruct (seen_bounds _ _ _ Hs1) as [Hpos Hlen]; [lia|].
  pose proof (rd_block_seen data pos w1 Hs1 ltac:(lia)) as Hrd.
  rewrite Hw1 in Hrd. change (Z.of_nat 4) with 4 in Hrd. rewrite Hrd. cstep.
  assert (He1 : erased (cells d) a 4) by (eapply erased_sub; [done|lia..]).
  pose proof (word_write_wrote d a w1 Ha Hd Hb1 Hw1 He1 Hq) as Hwr.
  rewrite u32_small by lia.
  destruct (IH fuel (word_write d a w1) (a + 4) (pos + 4) w2) as (d' & Hrun & Hd'); try done; try lia.
  - apply Z.divide_add_r; [done|by exists 1].
  - by rewrite Hw1 in Hs2.
  - destruct Hwr as (_ & -> & _). apply erased_splice; rewrite ?length_take; try lia.
    apply (erased_sub _ _ _ _ _ He); lia.
  - by destruct Hwr.
  - exists d'. rewrite length_app. replace (Z.of_nat (length w1 + length w2) - 4) with (zlen w2) by lia.
    split; [done|]. apply (wrote_app d (word_write d a w1) d' a w1 w2 1); try done; [lia|].
    by rewrite Hw1.
Qed.

(** A write to erased flash. *)
Lemma flash_direct_write_spec d a data w n :
  length w = (4 * n)%nat -> (0 < n)%nat -> 0 <= a -> (4 | a) -> zlen (cells d) = flash_size ->
  flash_size < 2 ^ 31 -> bytes w -> seen data 0 w -> erased (cells d) a (zlen w) -> pofwarn d = false ->
  exists d', flash_direct_write d a data (zlen w) = Ok (d', 0) /\ wrote d d' a w.
Proof.
  intros Hw Hn Ha Hd Hc Hsz Hb Hs He Hq. destruct (erased_bounds _ _ _ He) as [_ Hl]; [lia|].
  unfold flash_direct_write. rewrite u32_small by lia.
  unfold is_regular_addr_valid, is_within_bounds, is_aligned_32.
  destruct (Z.leb_spec 0 a); [|lia]. destruct (Z.ltb_spec a (0 + flash_size)); [|lia].
  destruct (Z.leb_spec (zlen w) (0 + flash_size - a)); [|lia]. cbn [andb negb].
  change 3 with (Z.ones 2). rewrite Z.land_ones by lia. change (2 ^ 2) with 4.
  rewrite (proj2 (Z.mod_divide a 4 ltac:(lia)) Hd). cbn [Z.eqb negb].
  replace (zlen w mod 4) with 0 by (rewrite Hw, Nat2Z.inj_mul, Z.mul_comm; by rewrite Z.mod_mul).
  cbn [Z.eqb negb].
  assert (Hsus : exists d1, suspend_pofwarn d = (d1, false) /\ cells d1 = cells d /\ power d1 = power d /\
    pofwarn d1 = false).
  { unfold suspend_pofwarn. destruct nrf52_errata_242, (pof d) eqn:?; cbn [negb];
      rewrite ?Hq; cbn [set_pof pofwarn]; rewrite ?Hq; eexists; done. }
  destruct Hsus as (d1 & -> & Hc1 & Hp1 & Hq1).
  destruct (word_loop_spec n (Z.to_nat (zlen w)) d1 a data 0 w) as (d' & -> & Hd'); try done; try lia.
  { by rewrite Hc1. }
  cstep. eexists. split; [done|]. destruct Hd' as (Hq2 & Hc2 & Hp2). unfold wrote, restore_pofwarn.
  rewrite Hc1, Hp1 in *. destruct (pofcon_enabled d'); done.
Qed.
End Words.

(** ** The region *)

Section Region.
Context `{FlashDev}.

(** A region of at most [2 ^ 16] octets, in pages of the device. *)
Definition geometry (f : emds_fs) : Prop :=
  ate_size f = align_size EMDS_ATE_SIZE /\ ate_size f <= offset f /\
  0 < sector_size f /\ 1 <= sector_cnt f /\ ate_size f <= sector_cnt f * sector_size f <= 65536 /\
  (page_size | sector_size f) /\ (page_size | offset f) /\
  region_end f <= flash_size /\ flash_size < 2 ^ 31.

(** The sizes as arithmetic needs them. *)
Lemma geometry_facts f :
  geometry f ->
  8 <= ate_size f <= 128 /\ (write_block_size | ate_size f) /\ (write_block_size | offset f) /\
  (write_block_size | region_end f) /\ region_end f = offset f + sector_cnt f * sector_size f.
Proof.
  intros (Ha & Ho & Hs & Hc & Ht & Hps & Hpo & He & Hf). destruct ate_size_spec as (H8 & Hw & _).
  destruct page_size_spec as [_ Hp]. rewrite Ha.
  assert (Hwo : (write_block_size | offset f)) by (by apply Z.divide_trans with page_size).
  split_and!; try done; try lia. unfold region_end. apply Z.divide_add_r; [done|].
  apply Z.divide_mul_r. by apply Z.divide_trans with page_size.
Qed.

Lemma block_divides_4 x : (write_block_size | x) -> (4 | x).
Proof. intros Hx. destruct block_pos as [_ H4]. by apply Z.divide_trans with write_block_size. Qed.

(** The data of an entry with the octets that fill its last block. *)
Definition padded (data : list Z) : list Z :=
  data ++ replicate (Z.to_nat (align_size (zlen data) - zlen data)) 255.

Lemma length_padded data : zlen data < 2 ^ 31 -> zlen (padded data) = align_size (zlen data).
Proof.
  intros Hl. destruct (align_size_spec (zlen data)) as [_ ?]; [lia|].
  unfold padded. autorewrite with clen. lia.
Qed.

Lemma bytes_padded data : bytes data -> bytes (padded data).
Proof. intros Hb. apply Forall_app. split; [done|]. by apply Forall_replicate. Qed.

Lemma flash_direct_write_opt d a data w n :
  length w = (4 * n)%nat -> 0 <= a -> (4 | a) -> zlen (cells d) = flash_size ->
  flash_size < 2 ^ 31 -> bytes w -> seen data 0 w -> erased (cells d) a (zlen w) -> pofwarn d = false ->
  exists d', (if 0 <? zlen w then flash_direct_write d a data (zlen w) else Ok (d, 0)) = Ok (d', 0) /\
    wrote d d' a w.
Proof.
  intros Hw Ha Hd Hc Hsz Hb Hs He Hq. destruct (Z.ltb_spec 0 (zlen w)).
  - apply flash_direct_write_spec with n; (done || lia).
  - destruct w; [|cbn in *; lia]. exists d. split; [done|]. unfold wrote. cbn [length].
    rewrite take_nil, splice_nil. split_and!; [done..|]. destruct (power d); cbn; [f_equal; lia|done].
Qed.

Lemma divide_words (w : list Z) : (4 | zlen w) -> exists n, length w = (4 * n)%nat.
Proof. intros [q Hq]. exists (Z.to_nat q). lia. Qed.

(** The block of the data that is filled up. *)
Lemma tail_buffer tail :
  0 < zlen tail < write_block_size ->
  (let* buf := wr_block (replicate (Z.to_nat EMDS_FLASH_BLOCK_SIZE) 0) 0 tail in
   wr_block buf (zlen tail) (replicate (Z.to_nat (write_block_size - zlen tail)) erase_value)) =
  Ok (tail ++ replicate (Z.to_nat (write_block_size - zlen tail)) 255).
Proof.
  intros Ht. unfold EMDS_FLASH_BLOCK_SIZE. rewrite erase_value_spec.
  rewrite wr_block_start by (autorewrite with clen; lia). cstep.
  rewrite wr_block_append by (autorewrite with clen; lia). do 2 f_equal.
  rewrite drop_ge by (autorewrite with clen; lia). by rewrite app_nil_r.
Qed.

(** The octets of the last block, if the data does not fill it. *)
Definition last_block (t : list Z) : list Z :=
  if 0 <? zlen t then t ++ replicate (Z.to_nat (write_block_size - zlen t)) 255 else [].

Lemma tail_wrt_spec d a buf pos t :
  0 <= a -> (4 | a) -> zlen (cells d) = flash_size -> flash_size < 2 ^ 31 -> pofwarn d = false ->
  bytes t -> zlen t < write_block_size -> seen buf pos t ->
  erased (cells d) a (zlen (last_block t)) ->
  exists d',
    (if 0 <? zlen t then
       let* tail := rd_block buf pos (zlen t) in
       let* b := wr_block (replicate (Z.to_nat EMDS_FLASH_BLOCK_SIZE) 0) 0 tail in
       let* b := wr_block b (zlen t) (replicate (Z.to_nat (write_block_size - zlen t)) erase_value) in
       flash_direct_write d a b write_block_size
     else Ok (d, 0)) = Ok (d', 0) /\ wrote d d' a (last_block t).
Proof.
  intros Ha Hd Hc Hsz Hq Hb Ht Hs He. unfold last_block in *. destruct (Z.ltb_spec 0 (zlen t)) as [Hp|Hp].
  - destruct (seen_bounds _ _ _ Hs) as [? ?]; [done|]. rewrite rd_block_seen by (done || lia). cstep.
    pose proof (tail_buffer t ltac:(lia)) as Hbuf. apply bind_Ok_inv in Hbuf as (b & -> & Hbuf).
    cstep. rewrite Hbuf. cstep. set (w := t ++ _) in *.
    assert (Hw : zlen w = write_block_size) by (unfold w; autorewrite with clen; lia).
    destruct block_pos as [Hwb H4]. destruct (divide_words w) as [n Hn]; [by rewrite Hw|].
    rewrite <- Hw. apply (flash_direct_write_spec d a w w n); try (done || lia).
    + apply Forall_app. split; [done|]. by apply Forall_replicate.
    + apply seen_all.
  - exists d. split; [done|]. unfold wrote. cbn [length]. rewrite take_nil, splice_nil.
    split_and!; [done..|]. destruct (power d); cbn; [f_equal; lia|done].
Qed.

(** Data in whole blocks and the rest. *)
Lemma padded_split data :
  zlen data < 2 ^ 31 ->
  let r := zlen data mod write_block_size in
  let w := take (Z.to_nat (zlen data - r)) data in
  let t := drop (Z.to_nat (zlen data - r)) data in
  padded data = w ++ last_block t /\ data = w ++ t /\ zlen w = zlen data - r /\ zlen t = r /\
  (write_block_size | zlen w) /\ 0 <= r < write_block_size.
Proof.
  intros Hl r w t. destruct block_pos as [Hwb _].
  assert (Hwp : 0 < write_block_size) by lia. assert (Hnz : write_block_size <> 0) by lia.
  pose proof (Z.mod_pos_bound (zlen data) write_block_size Hwp) as Hr. fold r in Hr.
  pose proof (Z.mod_le (zlen data) write_block_size (Nat2Z.is_nonneg _) Hwp) as Hrl. fold r in Hrl.
  pose proof (Z.div_mod (zlen data) write_block_size Hnz) as Hdm. fold r in Hdm.
  assert (Hw : zlen w = zlen data - r) by (unfold w; rewrite length_take; lia).
  assert (Ht : zlen t = r) by (unfold t; rewrite length_drop; lia).
  assert (Hd : data = w ++ t) by (symmetry; apply take_drop).
  assert (Hwd : (write_block_size | zlen w)).
  { rewrite Hw. exists (zlen data / write_block_size). lia. }
  split_and!; try done; try lia. unfold padded, last_block. rewrite Hd at 1. rewrite <- app_assoc. f_equal.
  clearbody w t. clear Hd. replace (zlen data) with (zlen w + zlen t) by lia.
  rewrite align_size_multiple by (done || lia). destruct (Z.ltb_spec 0 (zlen t)).
  - do 2 f_equal. destruct (align_size_spec (zlen t)) as [[q Hq] ?]; [lia|].
    rewrite (window_unique write_block_size q 1 (zlen t)) in Hq by lia. lia.
  - rewrite align_size_id by (try lia; exists 0; lia). destruct t; [|cbn in *; lia].
    cbn [length app]. by replace (Z.to_nat _) with 0%nat by lia.
Qed.

Lemma data_wrt_spec f d data buf :
  geometry f -> zlen (cells d) = flash_size -> pofwarn d = false ->
  0 <= data_wra_offset f < 65536 -> (write_block_size | data_wra_offset f) ->
  bytes data -> 0 < zlen data < 65536 -> seen buf 0 data ->
  erased (cells d) (offset f + data_wra_offset f) (align_size (zlen data)) ->
  exists d', data_wrt f d buf (zlen data) =
      Ok (set_data_wra f (data_wra_offset f + align_size (zlen data)), d', 0) /\
    wrote d d' (offset f + data_wra_offset f) (padded data).
Proof.
  intros Hg Hc Hq Hdw Hdiv Hb Hl Hs He. destruct (geometry_facts f Hg) as (Ha8 & _ & Hwo & _ & _).
  destruct Hg as (_ & Hao & _ & _ & _ & _ & _ & _ & Hf31).
  destruct (padded_split data) as (Hpad & Hd & Hw & Ht & Hwd & Hr); [lia|].
  destruct (align_size_spec (zlen data)) as [_ Hal]; [lia|].
  unfold data_wrt. destruct (Z.eqb_spec (zlen data) 0) as [?|_]; [lia|].
  unfold ADDR_OFFS_MASK. change 0xFFFF with (Z.ones 16). rewrite Z.land_ones, Z.mod_small by lia.
  rewrite <- (length_padded data) in He by lia.
  rewrite land_block by lia. set (w := take _ data) in *. set (t := drop _ data) in *.
  set (a := offset f + data_wra_offset f) in *. rewrite <- Hw. rewrite Hpad, length_app in He.
  destruct (erased_bounds _ _ _ He) as [Ha Hle]; [rewrite Hd, length_app in Hl; unfold last_block;
    destruct (Z.ltb_spec 0 (zlen t)); rewrite ?length_app; lia|].
  rewrite Hd in Hs, Hb. apply seen_app in Hs as [Hs1 Hs2]. apply Forall_app in Hb as [Hb1 Hb2].
  destruct (divide_words w) as [n Hn]; [by apply block_divides_4|].
  assert (Hd4 : (4 | a)) by (apply block_divides_4, Z.divide_add_r; done).
  destruct (flash_direct_write_opt d a buf w n) as (d1 & -> & Hw1); try done.
  { apply (erased_sub _ _ _ _ _ He); lia. }
  cstep. cbn [Z.eqb negb].
  replace (zlen data - zlen w) with (zlen t) by lia.
  assert (Hc1 : zlen (cells d1) = zlen (cells d)) by (rewrite (wrote_length d d1 a w); (done || lia)).
  destruct (tail_wrt_spec d1 (a + zlen w) buf (zlen w) t) as (d2 & -> & Hw2); try done; try lia.
  { apply Z.divide_add_r; [done|by apply block_divides_4]. }
  { by destruct Hw1. }
  { destruct Hw1 as (_ & -> & _). apply erased_splice; rewrite ?length_take; try lia.
    apply (erased_sub _ _ _ _ _ He); lia. }
  cstep. cbn [Z.eqb negb]. exists d2. destruct block_pos as [Hwb _]. rewrite u32_small by lia. split; [done|].
  rewrite Hpad. apply wrote_app with d1 n; (done || lia).
Qed.
End Region.

(** ** The allocation table *)

Section Table.
Context `{FlashDev}.

(** The address of entry [i] of the table, which grows downwards. *)
Definition slot_addr (f : emds_fs) (i : Z) : Z := region_end f - (i + 1) * ate_size f.

(** The table has the entries [ss], and the next one is erased. *)
Record table (f : emds_fs) (m : list Z) (ss : list (list Z)) : Prop := {
  table_geometry : geometry f;
  table_size : zlen m = flash_size;
  table_wra : ate_wra f = slot_addr f (zlen ss);
  table_low : offset f <= ate_wra f;
  table_slots i s : ss !! i = Some s ->
    length s = 8%nat /\ s <> replicate 8 255 /\ seen m (slot_addr f (Z.of_nat i)) s;
  table_next : seen m (ate_wra f) (replicate 8 255)
}.

(** The space between the data and the table is erased. *)
Record writable (f : emds_fs) (m : list Z) : Prop := {
  writable_low : 0 <= data_wra_offset f;
  writable_block : (write_block_size | data_wra_offset f);
  writable_space : offset f + data_wra_offset f <= ate_wra f;
  writable_erased : erased m (offset f + data_wra_offset f)
    (ate_wra f + ate_size f - (offset f + data_wra_offset f))
}.

(** *** Entries *)

Lemma le16_value v : 0 <= v < 65536 -> v mod 256 + 256 * (v / 256 mod 256) = v.
Proof.
  intros Hv. pose proof (Z.div_mod v 256). rewrite (Z.mod_small (v / 256) 256); [lia|].
  split; [apply Z.div_pos; lia|apply Z.div_lt_upper_bound; lia].
Qed.

Definition ate_ok (e : emds_ate) : Prop :=
  bits 16 (ate_id e) /\ bits 16 (ate_offset e) /\ bits 16 (ate_len e) /\
  byte (ate_crc8_data e) /\ byte (ate_crc8 e).

Lemma ate_of_octets e : ate_ok e -> ate_of (ate_octets e) = e.
Proof.
  intros (Hi & Ho & Hl & _ & _). destruct e as [i o l cd c].
  transitivity {| ate_id := i mod 256 + 256 * (i / 256 mod 256);
    ate_offset := o mod 256 + 256 * (o / 256 mod 256);
    ate_len := l mod 256 + 256 * (l / 256 mod 256); ate_crc8_data := cd; ate_crc8 := c |}; [done|].
  by rewrite !le16_value.
Qed.

Lemma length_ate_octets e : length (ate_octets e) = 8%nat.
Proof. done. Qed.

Lemma ate_octets_bytes e : ate_ok e -> bytes (ate_octets e).
Proof.
  intros (_ & _ & _ & Hd & Hc). unfold ate_octets, le16. cbn [app].
  repeat (apply Forall_cons; split; [first [done|apply Z.mod_pos_bound; done]|]). by apply Forall_nil.
Qed.

(** The table entry of some data. *)
Definition entry_slot (id off : Z) (data : list Z) : list Z :=
  ate_octets (new_ate id off data (zlen data)).

Lemma length_entry_slot id off data : zlen (entry_slot id off data) = 8.
Proof. done. Qed.

Lemma new_ate_ok id off data n : bits 16 id -> ate_ok (new_ate id off data n).
Proof.
  intros Hi. unfold new_ate. cbn [ate_id ate_offset ate_len ate_crc8_data ate_crc8].
  repeat split; try apply Hi; try apply u16_range; apply crc8_ccitt_byte.
Qed.

Lemma new_ate_valid id off data n : is_ate_valid (new_ate id off data n) = true.
Proof. unfold is_ate_valid, new_ate, ate_octets, le16. cbn. by apply Z.eqb_refl. Qed.

(** Erased and zeroed entries are not valid. *)
Lemma erased_invalid : is_ate_valid (ate_of (replicate 8 255)) = false.
Proof.
  unfold is_ate_valid. change (take 7 (ate_octets (ate_of (replicate 8 255)))) with (replicate 7 255).
  change (ate_crc8 _) with 255. apply Z.eqb_neq. pose proof crc8_ccitt_erased. congruence.
Qed.

Lemma zeros_invalid : is_ate_valid (ate_of (replicate 8 0)) = false.
Proof.
  unfold is_ate_valid. change (take 7 (ate_octets (ate_of (replicate 8 0)))) with (replicate 7 0).
  change (ate_crc8 _) with 0. apply Z.eqb_neq. pose proof crc8_ccitt_zeros. congruence.
Qed.

Lemma entry_slot_facts id off data :
  bits 16 id -> ate_of (entry_slot id off data) = new_ate id off data (zlen data) /\
  is_ate_valid (ate_of (entry_slot id off data)) = true /\
  entry_slot id off data <> replicate 8 255 /\ entry_slot id off data <> replicate 8 0.
Proof.
  intros Hi. pose proof (new_ate_ok id off data (zlen data) Hi) as Hok.
  pose proof (ate_of_octets _ Hok) as E. unfold entry_slot. rewrite E.
  pose proof (new_ate_valid id off data (zlen data)) as Hv. split_and!; [done|done|..]; intros Hs;
    rewrite Hs in E; rewrite <- E in Hv; [rewrite erased_invalid in Hv|rewrite zeros_invalid in Hv]; done.
Qed.

(** *** Reading *)

Definition hits (id : Z) (s : list Z) : bool :=
  (ate_id (ate_of s) =? id) && is_ate_valid (ate_of s).

(** The newest valid entry for [id]. *)
Definition newest (id : Z) (ss : list (list Z)) : option emds_ate :=
  ate_of <$> last (filter (fun s => hits id s = true) ss).

Lemma slot_addr_bounds f m ss i :
  table f m ss -> 0 <= i <= zlen ss ->
  offset f <= slot_addr f i /\ slot_addr f i + ate_size f <= region_end f /\ region_end f <= zlen m /\
  zlen m < 2 ^ 31 /\ 8 <= ate_size f <= offset f.
Proof.
  intros [Hg Hm Hw Hl _ _] Hi. destruct (geometry_facts f Hg) as (H8 & _ & _ & _ & He).
  destruct Hg as (_ & Hao & _ & _ & _ & _ & _ & Hf & Hf31). unfold slot_addr in *.
  rewrite Hm. split_and!; try lia; nia.
Qed.

Lemma flash_read_seen m a l : seen m a l -> a + zlen l <= zlen m -> flash_read m a (zlen l) = Ok l.
Proof.
  intros [Ha Hs] Hl. rewrite flash_read_spec by lia. by rewrite Nat2Z.id, Hs.
Qed.

Lemma read_walk_step f m ss id n fuel s :
  table f m ss -> ss !! n = Some s ->
  read_walk (S fuel) f m id (slot_addr f (Z.of_nat n)) =
    if hits id s then Ok (inl (ate_of s))
    else match n with
         | O => Ok (inr (- errno_num ENXIO))
         | S n => read_walk fuel f m id (slot_addr f (Z.of_nat n))
         end.
Proof.
  intros Ht Hs. destruct (table_slots f m ss Ht _ s Hs) as (Hl & _ & Hseen).
  pose proof (lookup_lt_Some _ _ _ Hs) as Hn.
  destruct (slot_addr_bounds f m ss (Z.of_nat n) Ht ltac:(lia)) as (Hlo & Hhi & Hre & H31 & H8).
  pose proof (flash_read_seen m _ s Hseen ltac:(rewrite Hl; lia)) as Hrd.
  rewrite Hl in Hrd. change (Z.of_nat 8) with EMDS_ATE_SIZE in Hrd. cbn [read_walk]. rewrite Hrd.
  fold (hits id s). destruct (hits id s); [done|]. rewrite u32_small by lia.
  unfold slot_addr in *. set (next := _ + ate_size f).
  assert (Hnx : next = region_end f - Z.of_nat n * ate_size f) by (unfold next; lia). clearbody next.
  destruct n as [|n], (Z.leb_spec (region_end f) next); [done|lia|nia|]. f_equal. lia.
Qed.

Lemma newest_snoc id ss s :
  newest id (ss ++ [s]) = if hits id s then Some (ate_of s) else newest id ss.
Proof.
  unfold newest. rewrite filter_app, (filter_cons _ s []), filter_nil. destruct (hits id s).
  - rewrite decide_True by done. by rewrite last_snoc.
  - rewrite decide_False by done. by rewrite app_nil_r.
Qed.

Lemma read_walk_spec f m ss id n fuel :
  table f m ss -> (n < length ss)%nat -> (n < fuel)%nat ->
  read_walk fuel f m id (slot_addr f (Z.of_nat n)) =
    Ok (match newest id (take (S n) ss) with Some e => inl e | None => inr (- errno_num ENXIO) end).
Proof.
  intros Ht. revert fuel. induction n as [|n IH]; intros fuel Hn Hf;
    (destruct fuel as [|fuel]; [lia|]); destruct (lookup_lt_is_Some_2 ss _ Hn) as [s Hs];
    rewrite (read_walk_step f m ss id _ fuel s Ht Hs), (take_S_r _ _ s Hs), newest_snoc;
    destruct (hits id s); try done.
  by rewrite IH by lia.
Qed.

(** What is read for a table entry. *)
Definition read_ate (f : emds_fs) (m : list Z) (buf : list Z) (len : Z) (o : option emds_ate)
    : res (list Z * Z) :=
  match o with
  | None => Ok (buf, - errno_num ENXIO)
  | Some e =>
    if len <? ate_len e then Ok (buf, - errno_num ENOMEM) else
    match flash_read m (offset f + ate_offset e) (ate_len e) with
    | Ok bs =>
      let* buf := wr_block buf 0 bs in
      if negb (ate_crc8_data e =? crc8_ccitt 0xff bs) then Ok (buf, - errno_num EFAULT)
      else Ok (buf, ate_len e)
    | Err e => Ok (buf, - errno_num e)
    | Fault => Fault
    | NoFuel => NoFuel
    end
  end.

(** Reading gives the data of the newest entry. *)
Lemma emds_flash_read_spec f m ss id buf len :
  table f m ss -> is_initialized f = true ->
  emds_flash_read f m id buf len = read_ate f m buf len (newest id ss).
Proof.
  intros Ht Hi. unfold emds_flash_read. rewrite Hi. cbn [negb].
  destruct (slot_addr_bounds f m ss (zlen ss) Ht ltac:(lia)) as (Hlo & Hhi & Hre & H31 & H8).
  pose proof (table_wra f m ss Ht) as Hw. cbn [read_walk].
  pose proof (flash_read_seen m _ _ (table_next f m ss Ht)) as Hrd. rewrite length_replicate in Hrd.
  change (Z.of_nat 8) with EMDS_ATE_SIZE in Hrd. rewrite Hrd by (rewrite Hw; unfold EMDS_ATE_SIZE; lia).
  rewrite erased_invalid, andb_false_r. rewrite u32_small by lia. rewrite Hw.
  replace (slot_addr f (zlen ss) + ate_size f) with (slot_addr f (zlen ss - 1)) by (unfold slot_addr; lia).
  destruct ss as [|s0 ss0] using rev_ind.
  { change (slot_addr f (zlen [] - 1)) with (region_end f - (0 - 1 + 1) * ate_size f).
    destruct (Z.leb_spec (region_end f) (region_end f - (0 - 1 + 1) * ate_size f)); [done|lia]. }
  clear IHss0. set (ss := ss0 ++ [s0]) in *.
  assert (Hls : length ss = S (length ss0)) by (unfold ss; rewrite length_app; cbn; lia).
  destruct (Z.leb_spec (region_end f) (slot_addr f (zlen ss - 1))); [unfold slot_addr in *; nia|].
  replace (zlen ss - 1) with (Z.of_nat (length ss0)) by lia.
  assert (Hcap : (length ss0 < Z.to_nat (sector_cnt f * sector_size f))%nat).
  { unfold slot_addr, region_end in *. nia. }
  rewrite (read_walk_spec f m ss) by (done || lia). rewrite <- Hls, take_ge by done.
  cstep. by destruct (newest id ss).
Qed.
End Table.

(** ** Recovery *)

Section Recover.
Context `{FlashDev}.

(** The part of the state that recovery computes. *)
Definition recovered (f : emds_fs) (a data : Z) (force : bool) : emds_fs :=
  set_force (set_data_wra (set_ate_wra f a) data) force.

(** The loop over one entry: the types that are expected next, the end of the
    data, and whether something is not as expected. *)
Definition scan_slot (st : Z * Z * bool) (s : list Z) : Z * Z * bool :=
  let '(expect, data, force) := st in
  if bool_decide (s = replicate 8 0) then (7, data, force || (Z.land 2 expect =? 0))
  else if is_ate_valid (ate_of s) then
    (5, align_size (ate_offset (ate_of s) + ate_len (ate_of s)), force || (Z.land 1 expect =? 0))
  else (expect, data, true).
Definition scan (ss : list (list Z)) (st : Z * Z * bool) : Z * Z * bool := foldl scan_slot st ss.

(** The entries [ss] are in the table from position [k] on. *)
Definition run_at (f : emds_fs) (m : list Z) (k : Z) (ss : list (list Z)) : Prop :=
  forall i s, ss !! i = Some s ->
    length s = 8%nat /\ s <> replicate 8 255 /\ seen m (slot_addr f (k + Z.of_nat i)) s /\
    offset f <= slot_addr f (k + Z.of_nat i).

Lemma run_at_cons f m k s ss : run_at f m k (s :: ss) -> run_at f m (k + 1) ss.
Proof.
  intros Hr i x Hx. replace (k + 1 + Z.of_nat i) with (k + Z.of_nat (S i)) by lia. by apply Hr.
Qed.

(** The octets of an entry that is read whole. *)
Lemma ate_check_seen f m a s :
  geometry f -> zlen m = flash_size -> 0 <= a -> a + ate_size f <= region_end f ->
  length s = 8%nat -> seen m a s ->
  ate_check f m a =
    Ok (if bool_decide (s = replicate 8 0) then ATE_TYPE_INVALIDATED
        else if bool_decide (s = replicate 8 255) then ATE_TYPE_ERASED
        else if is_ate_valid (ate_of s) then ATE_TYPE_VALID else ATE_TYPE_UNKNOWN, ate_of s).
Proof.
  intros Hg Hm Ha He Hl [_ Hs]. destruct (geometry_facts f Hg) as (H8 & _).
  destruct Hg as (_ & _ & _ & _ & _ & _ & _ & Hf & _). unfold ate_check.
  rewrite flash_read_spec by lia. rewrite take_take, Nat.min_l by lia. rewrite Hl in Hs. rewrite Hs.
  rewrite erase_value_spec. by repeat case_bool_decide; try destruct (is_ate_valid _).
Qed.

Lemma recover_scan f m ss k fuel expect data force :
  geometry f -> zlen m = flash_size -> 0 <= k -> run_at f m k ss ->
  ate_recover_loop (length ss + fuel) (recovered f (slot_addr f k) data force) m expect =
    let '(expect', data', force') := scan ss (expect, data, force) in
    ate_recover_loop fuel (recovered f (slot_addr f (k + zlen ss)) data' force') m expect'.
Proof.
  intros Hg Hm. revert k expect data force. induction ss as [|s ss IH]; intros k expect data force Hk Hr.
  { cbn. by rewrite Z.add_0_r. }
  destruct (Hr 0%nat s eq_refl) as (Hl & Hne & Hseen & Hlow). rewrite Z.add_0_r in Hseen, Hlow.
  destruct (geometry_facts f Hg) as (H8 & _ & _ & _ & He). pose proof Hg as Hg'.
  destruct Hg' as (_ & Hao & _ & _ & _ & _ & _ & Hf & H31).
  assert (Hhi : slot_addr f k + ate_size f <= region_end f) by (unfold slot_addr; nia).
  cbn [length Nat.add ate_recover_loop]. cbn [recovered set_force set_data_wra set_ate_wra ate_wra offset].
  destruct (Z.ltb_spec (slot_addr f k) (offset f)); [lia|].
  rewrite (ate_check_seen (recovered f (slot_addr f k) data force) m (slot_addr f k) s) by (done || lia).
  cstep. assert (Hnext : u32 (slot_addr f k - ate_size f) = slot_addr f (k + 1)).
  { rewrite u32_small by lia. unfold slot_addr. lia. }
  specialize (IH (k + 1)). replace (k + 1 + zlen ss) with (k + Z.of_nat (S (length ss))) in IH by lia.
  rewrite (bool_decide_eq_false_2 (s = replicate 8 255)) by done.
  change (scan (s :: ss) (expect, data, force)) with (scan ss (scan_slot (expect, data, force) s)). cbn [scan_slot]. case_bool_decide as Hz; [|destruct (is_ate_valid (ate_of s)) eqn:Hv].
  - cbn [ate_type_bit]. rewrite <- (IH 7 data) by (lia || by eapply run_at_cons). rewrite <- Hnext.
    by destruct (Z.land 2 expect =? 0), force.
  - cbn [ate_type_bit]. rewrite <- (IH 5) by (lia || by eapply run_at_cons). rewrite <- Hnext.
    by destruct (Z.land 1 expect =? 0), force.
  - cbn [ate_type_bit]. rewrite <- (IH expect data true) by (lia || by eapply run_at_cons). rewrite <- Hnext.
    by destruct (Z.land 8 expect =? 0).
Qed.

(** The types that can be expected. *)
Definition expectation (e : Z) : Prop := e = 255 \/ e = 5 \/ e = 7.

Lemma scan_expect ss st : expectation st.1.1 -> expectation (scan ss st).1.1.
Proof.
  revert st. induction ss as [|s ss IH]; intros [[e d] b] Hst; [done|]. apply IH. cbn [scan_slot].
  unfold expectation. case_bool_decide; [by auto|]. case_match; [by auto|done].
Qed.

#[export] Instance erased_dec m a n : Decision (erased m a n).
Proof. unfold erased, seen. apply _. Defined.

Lemma erased_app m a n k :
  0 <= n -> 0 <= k -> erased m a (n + k) <-> erased m a n /\ erased m (a + n) k.
Proof.
  intros Hn Hk. unfold erased. rewrite Z2Nat.inj_add, replicate_add, seen_app by done.
  by rewrite length_replicate, Z2Nat.id.
Qed.

Lemma check_erased_loop_spec fuel m addr len :
  zlen m = flash_size -> flash_size < 2 ^ 31 -> 0 <= addr -> 0 <= len ->
  (Z.to_nat (flash_size - addr) < fuel)%nat ->
  exists rc, check_erased_loop fuel m addr len = Ok rc /\ (rc = 0 <-> erased m addr len).
Proof.
  intros Hm H31. destruct block_pos as [Hwb _].
  revert addr len. induction fuel as [|fuel IH]; intros addr len Ha Hl Hf; [lia|].
  cbn [check_erased_loop]. destruct (Z.eqb_spec len 0) as [->|Hne].
  { exists 0. split; [done|]. split; [|done]. by intros _. }
  unfold EMDS_FLASH_BLOCK_SIZE. set (b := Z.min write_block_size len).
  assert (Hb : 0 < b <= len) by lia. destruct (decide (zlen m < addr + b)) as [Hout|Hin].
  { destruct (flash_read_outside m addr b) as [e ->]; [lia..|]. eexists. split; [done|].
    split; [done|]. intros He. apply erased_bounds in He; lia. }
  rewrite flash_read_spec by lia. pose proof (erased_app m addr b (len - b)) as Happ.
  replace (b + (len - b)) with len in Happ by lia. specialize (Happ ltac:(lia) ltac:(lia)). assert (Heq : erased m addr b <->
    take (Z.to_nat b) (drop (Z.to_nat addr) m) = replicate (Z.to_nat b) 0xff).
  { unfold erased, seen. rewrite length_replicate. split; [by intros [_ ?]|by split]. }
  case_bool_decide as E.
  - rewrite u32_small by lia. destruct (IH (addr + b) (len - b)) as (rc & -> & Hrc); [lia..|].
    exists rc. split; [done|]. tauto.
  - eexists. split; [done|]. split; [done|]. tauto.
Qed.

Lemma check_erased_spec m addr len :
  zlen m = flash_size -> flash_size < 2 ^ 31 -> 0 <= addr -> 0 <= len ->
  exists rc, check_erased m addr len = Ok rc /\ (rc = 0 <-> erased m addr len).
Proof. intros. apply check_erased_loop_spec; (done || lia). Qed.

(** The entries up to the first erased one. *)
Lemma run_exists f m k :
  geometry f -> zlen m = flash_size -> 0 <= k ->
  exists ss, run_at f m k ss /\
    (slot_addr f (k + zlen ss) < offset f \/
     (offset f <= slot_addr f (k + zlen ss) /\ seen m (slot_addr f (k + zlen ss)) (replicate 8 255))).
Proof.
  intros Hg Hm. destruct (geometry_facts f Hg) as (H8 & _ & _ & _ & He). pose proof Hg as Hg'.
  destruct Hg' as (_ & Hao & _ & _ & _ & _ & _ & Hf & H31).
  assert (Hind : forall c k, 0 <= k -> slot_addr f k < offset f + Z.of_nat c -> exists ss, run_at f m k ss /\
    (slot_addr f (k + zlen ss) < offset f \/
     (offset f <= slot_addr f (k + zlen ss) /\ seen m (slot_addr f (k + zlen ss)) (replicate 8 255)))).
  { induction c as [|c IH]; intros j Hj Hc.
    { exists []. cbn [length Z.of_nat]. rewrite Z.add_0_r. split; [done|]. lia. }
    destruct (decide (slot_addr f j < offset f)).
    { exists []. cbn [length Z.of_nat]. rewrite Z.add_0_r. by split; [|left]. }
    set (s := take 8 (drop (Z.to_nat (slot_addr f j)) m)).
    assert (Hin : slot_addr f j + 8 <= zlen m) by (unfold slot_addr; nia).
    assert (Hl : length s = 8%nat) by (unfold s; autorewrite with clen; lia).
    assert (Hs : seen m (slot_addr f j) s) by (split; [lia|by rewrite Hl]).
    destruct (decide (s = replicate 8 255)) as [E|E].
    { exists []. cbn [length Z.of_nat]. rewrite Z.add_0_r. split; [done|]. right. split; [lia|]. by rewrite <- E. }
    destruct (IH (j + 1)) as (ss & Hr & Hend); [lia|unfold slot_addr in *; lia|].
    exists (s :: ss). cbn [length]. replace (j + Z.of_nat (S (length ss))) with (j + 1 + zlen ss) by lia.
    split; [|done]. intros [|i] x Hx.
    - injection Hx as <-. rewrite Z.add_0_r. split_and!; (done || lia).
    - replace (j + Z.of_nat (S i)) with (j + 1 + Z.of_nat i) by lia. by apply Hr. }
  intros Hk. apply (Hind (Z.to_nat (slot_addr f k - offset f + 1))); lia.
Qed.
Lemma scan_data ss st :
  Forall bytes ss -> 0 <= st.1.2 < 140000 -> (write_block_size | st.1.2) ->
  0 <= (scan ss st).1.2 < 140000 /\ (write_block_size | (scan ss st).1.2).
Proof.
  intros Hss. revert st. induction Hss as [|s ss Hs _ IH]; intros [[e d] b] Hst Hd; [done|].
  apply IH; cbn [scan_slot]; case_bool_decide; try done; case_match; try done; cbn [fst snd];
    pose proof (zth_Forall byte s 2 ltac:(done) Hs) as [? ?]; pose proof (zth_Forall byte s 3 ltac:(done) Hs) as [? ?];
    pose proof (zth_Forall byte s 4 ltac:(done) Hs) as [? ?]; pose proof (zth_Forall byte s 5 ltac:(done) Hs) as [? ?];
    change (2 ^ 8) with 256 in *; destruct (align_size_spec (ate_offset (ate_of s) + ate_len (ate_of s)))
      as [? ?]; try done; cbn [ate_of ate_offset ate_len] in *; destruct block_pos; lia.
Qed.

Lemma run_capacity f m ss :
  geometry f -> run_at f m 0 ss -> zlen ss * ate_size f <= sector_cnt f * sector_size f.
Proof.
  intros Hg Hr. destruct (geometry_facts f Hg) as (H8 & _ & _ & _ & He).
  destruct Hg as (_ & _ & _ & _ & Ht & _). destruct ss as [|s0 ss0] using rev_ind; [cbn; lia|].
  destruct (Hr (length ss0) s0) as (_ & _ & _ & Hlow); [by rewrite lookup_app_r, Nat.sub_diag|].
  unfold slot_addr in Hlow. rewrite length_app. cbn [length]. lia.
Qed.

(** Recovery of a table that ends with an erased entry, or fills the region. *)
Lemma recover_run f m ss :
  geometry f -> zlen m = flash_size -> bytes m -> run_at f m 0 ss ->
  let data := (scan ss (255, 0, force_erase f)).1.2 in
  let force := (scan ss (255, 0, force_erase f)).2 in
  let a := slot_addr f (zlen ss) in
  (a < offset f -> ate_last_recover f m = Ok (recovered f (offset f) 0 true)) /\
  (offset f <= a -> seen m a (replicate 8 255) ->
   ate_last_recover f m = Ok (recovered f a data (force || negb (bool_decide (erased m (offset f + data)
     (u32 (a - (offset f + data) + ate_size f))))))).
Proof.
  intros Hg Hm Hb Hr. destruct (geometry_facts f Hg) as (H8 & _ & _ & _ & He). pose proof Hg as Hg'.
  destruct Hg' as (_ & Hao & _ & _ & Ht & _ & _ & Hf & H31). pose proof (run_capacity f m ss Hg Hr) as Hcap.
  unfold ate_last_recover.
  cbn [set_data_wra set_ate_wra sector_cnt sector_size region_end offset ate_size].
  rewrite u32_small by lia. replace (region_end f - ate_size f) with (slot_addr f 0) by (unfold slot_addr; lia).
  set (g := recovered f (slot_addr f 0) 0 (force_erase f)).
  change (set_data_wra (set_ate_wra f (slot_addr f 0)) 0) with g.
  replace (S (Z.to_nat (sector_cnt f * sector_size f)))
    with (length ss + S (Z.to_nat (sector_cnt f * sector_size f) - length ss))%nat by nia.
  unfold g. rewrite (recover_scan f m ss 0) by done. rewrite Z.add_0_l.
  pose proof (scan_expect ss (255, 0, force_erase f) ltac:(by left)) as Hexp.
  assert (Hss : Forall bytes ss).
  { apply Forall_lookup. intros i s Hs. destruct (Hr i s Hs) as (_ & _ & Hseen & _). by eapply seen_Forall. }
  destruct (scan_data ss (255, 0, force_erase f) Hss) as [Hd _]; [done|by exists 0|].
  destruct (scan ss (255, 0, force_erase f)) as [[expect data] force]. cbn [fst snd] in *.
  cbn [ate_recover_loop]. cbn [recovered set_force set_data_wra set_ate_wra ate_wra offset].
  split.
  - intros Hlow. destruct (Z.ltb_spec (slot_addr f (zlen ss)) (offset f)); [done|lia].
  - intros Hlow Hseen. destruct (Z.ltb_spec (slot_addr f (zlen ss)) (offset f)); [lia|].
    rewrite (ate_check_seen (recovered f (slot_addr f (zlen ss)) data force) m _ (replicate 8 255))
      by (first [done|unfold slot_addr, region_end in *; cbn; nia]).
    cstep. cbn [bool_decide decide ate_type_bit].
    rewrite bool_decide_eq_false_2 by done. rewrite bool_decide_eq_true_2 by done.
    replace (Z.land (ate_type_bit ATE_TYPE_ERASED) expect =? 0) with false
      by (destruct Hexp as [->|[->| ->]]; done). cstep. cbn iota.
    cbn [recovered set_force set_data_wra set_ate_wra ate_wra offset data_wra_offset ate_size].
    destruct (check_erased_spec m (offset f + data) (u32 (slot_addr f (zlen ss) - (offset f + data) + ate_size f)))
      as (rc & -> & Hrc); [done..|lia|apply u32_range|]. cstep.
    case_bool_decide as Hgap.
    + rewrite (proj2 Hrc Hgap). cbn [Z.eqb negb]. by rewrite orb_false_r.
    + destruct (Z.eqb_spec rc 0); [by exfalso; apply Hgap, Hrc|]. cbn [negb]. by rewrite orb_true_r.
Qed.
End Recover.

(** ** Writing entries *)

Section Write.
Context `{FlashDev}.

(** The state after an entry with [len] octets of data. *)
Definition advanced (f : emds_fs) (len : Z) : emds_fs :=
  set_ate_wra (set_data_wra f (data_wra_offset f + align_size len)) (ate_wra f - ate_size f).

(** A device without warning, and pointers within the region. *)
Record ready (f : emds_fs) (d : nvm) : Prop := {
  ready_geometry : geometry f;
  ready_size : zlen (cells d) = flash_size;
  ready_quiet : pofwarn d = false;
  ready_top : ate_wra f + ate_size f <= region_end f;
  ready_block : (write_block_size | ate_wra f);
  ready_writable : writable f (cells d)
}.

(** An entry fits if there is room for its data and two entries of the table. *)
Definition fits (f : emds_fs) (len : Z) : Prop :=
  offset f + data_wra_offset f + align_size len + ate_size f <= ate_wra f.

Lemma entry_wrt_spec f d id data buf :
  ready f d -> bits 16 id -> bytes data -> 0 < zlen data < 65536 -> seen buf 0 data -> fits f (zlen data) ->
  exists d1 d2, entry_wrt f d id buf (zlen data) = Ok (advanced f (zlen data), d2, 0) /\
    wrote d d1 (offset f + data_wra_offset f) (padded data) /\
    wrote d1 d2 (ate_wra f) (entry_slot id (data_wra_offset f) data).
Proof.
  intros [Hg Hc Hq Htop Hblk [Hlow Hdb Hsp Her]] Hid Hb Hl Hs Hfit.
  destruct (geometry_facts f Hg) as (H8 & Hw8 & Hwo & Hwe & He). pose proof Hg as Hg'.
  destruct Hg' as (Hate & Hao & _ & _ & Ht & _ & _ & Hf & H31).
  destruct (align_size_spec (zlen data)) as [Hda Hal]; [lia|]. unfold fits in Hfit.
  destruct (data_wrt_spec f d data buf) as (d1 & Hrun & Hw1); try done; [lia| |].
  { apply (erased_sub _ _ _ _ _ Her); lia. }
  pose proof (length_padded data ltac:(lia)) as Hlp.
  assert (Hc1 : zlen (cells d1) = flash_size).
  { rewrite <- Hc. f_equal. apply (wrote_length d d1 (offset f + data_wra_offset f) (padded data)); (done || lia). }
  set (e := new_ate id (data_wra_offset f) data (zlen data)).
  destruct (flash_direct_write_spec d1 (ate_wra f) (ate_octets e) (ate_octets e) 2) as (d2 & Hrun2 & Hw2);
    try done; try lia.
  { by apply block_divides_4. }
  { by apply ate_octets_bytes, new_ate_ok. }
  { destruct Hw1 as (_ & -> & _). apply erased_splice; rewrite ?length_take, ?Hlp; try lia.
    apply (erased_sub _ _ _ _ _ Her); rewrite ?length_ate_octets; lia. }
  { by destruct Hw1. }
  exists d1, d2. split; [|done]. unfold entry_wrt.
  destruct (seen_bounds _ _ _ Hs) as [_ Hbl]; [lia|].
  rewrite (rd_block_seen buf 0 data) by (done || lia). cstep. rewrite Hrun. cstep. cbn [Z.eqb negb].
  unfold ate_wrt. rewrite <- Hate. destruct block_pos as [Hwb _].
  assert (Hmod : ate_size f mod write_block_size = 0) by (apply Z.mod_divide; [lia|done]).
  rewrite Hmod. cbn [Z.eqb negb]. change EMDS_ATE_SIZE with (zlen (ate_octets e)). fold e.
  cbn [set_data_wra ate_wra]. rewrite Hrun2. cstep. cbn [Z.eqb negb].
  rewrite u32_small by lia. done.
Qed.

(** The rest of the region stays writable, with or without power. *)
Lemma ready_advanced f d d1 d2 data slot :
  ready f d -> 0 < zlen data < 65536 -> fits f (zlen data) -> length slot = 8%nat ->
  wrote d d1 (offset f + data_wra_offset f) (padded data) -> wrote d1 d2 (ate_wra f) slot ->
  ready (advanced f (zlen data)) d2.
Proof.
  intros [Hg Hc Hq Htop Hblk [Hlow Hdb Hsp Her]] Hl Hfit Hsl Hw1 Hw2. unfold fits in Hfit.
  destruct (geometry_facts f Hg) as (H8 & Hw8 & Hwo & Hwe & He). pose proof Hg as Hg'.
  destruct Hg' as (Hate & Hao & _ & _ & Ht & _ & _ & Hf & H31).
  destruct (align_size_spec (zlen data)) as [Hda Hal]; [lia|].
  pose proof (length_padded data ltac:(lia)) as Hlp.
  assert (Hc1 : length (cells d1) = length (cells d)) by (eapply wrote_length; [| |done]; lia).
  assert (Hc2 : length (cells d2) = length (cells d1)) by (eapply wrote_length; [| |done]; lia).
  split; [done|lia|by destruct Hw2|..]; cbn [advanced set_ate_wra set_data_wra ate_wra ate_size region_end
    offset sector_cnt sector_size data_wra_offset].
  - unfold region_end in *. cbn. lia.
  - by apply Z.divide_sub_r.
  - split; cbn [advanced set_ate_wra set_data_wra ate_wra ate_size offset data_wra_offset]; try lia.
    + by apply Z.divide_add_r.
    + destruct Hw2 as (_ & -> & _), Hw1 as (_ & -> & _).
      apply erased_splice; rewrite ?length_take, ?Hlp; try lia.
      { rewrite length_splice by (rewrite ?length_take; lia). lia. }
      apply erased_splice; rewrite ?length_take, ?Hlp; try lia.
      apply (erased_sub _ _ _ _ _ Her); lia.
Qed.

Lemma free_space_spec f d :
  ready f d ->
  let space := ate_wra f - (offset f + data_wra_offset f) in
  emds_flash_free_space_get f = if ate_size f <? space then space else 0.
Proof.
  intros [Hg Hc Hq Htop Hblk [Hlow Hdb Hsp Her]] space.
  destruct (geometry_facts f Hg) as (H8 & _). destruct Hg as (_ & Hao & _ & _ & Ht & _ & _ & Hf & H31).
  unfold emds_flash_free_space_get, sint. replace (ate_wra f - (data_wra_offset f + offset f)) with space by lia.
  change (32 - 1) with 31. rewrite (Z.mod_small space) by lia.
  destruct (Z.ltb_spec space (2 ^ 31)); [|lia]. by rewrite u32_small by lia.
Qed.

(** [emds_flash_write] writes the entry if it fits, and nothing otherwise. *)
Lemma emds_flash_write_spec f d id data buf :
  ready f d -> is_initialized f = true -> is_prepeared f = true ->
  bits 16 id -> bytes data -> 0 < zlen data < 65536 -> seen buf 0 data ->
  (~ fits f (zlen data) /\ emds_flash_write f d id buf (zlen data) = Ok (f, d, - errno_num ENOMEM)) \/
  (fits f (zlen data) /\ exists d1 d2,
     emds_flash_write f d id buf (zlen data) = Ok (advanced f (zlen data), d2, zlen data) /\
     wrote d d1 (offset f + data_wra_offset f) (padded data) /\
     wrote d1 d2 (ate_wra f) (entry_slot id (data_wra_offset f) data)).
Proof.
  intros Hr Hi Hp Hid Hb Hl Hs. unfold emds_flash_write. rewrite Hi, Hp. cbn [negb orb].
  rewrite (free_space_spec f d Hr). destruct Hr as [Hg Hc Hq Htop Hblk [Hlow Hdb Hsp Her]] eqn:E. clear E.
  destruct (geometry_facts f Hg) as (H8 & _). pose proof Hg as Hg'.
  destruct Hg' as (_ & Hao & _ & _ & Ht & _ & _ & Hf & H31).
  destruct (align_size_spec (zlen data)) as [_ Hal]; [lia|]. destruct block_pos as [Hwb _].
  set (space := ate_wra f - (offset f + data_wra_offset f)).
  set (free := if ate_size f <? space then space else 0).
  assert (Hfree : 0 <= free < 2 ^ 31) by (unfold free; case_match; lia).
  rewrite (u32_small free), (u32_small (ate_size f + _)) by lia. unfold free.
  destruct (Z.ltb_spec (if ate_size f <? space then space else 0) (ate_size f + align_size (zlen data))) as [Hlt|Hge].
  - left. split; [|done]. unfold fits. destruct (Z.ltb_spec (ate_size f) space); lia.
  - right. assert (Hfit : fits f (zlen data)).
    { unfold fits. destruct (Z.ltb_spec (ate_size f) space); lia. }
    split; [done|]. destruct (Z.eqb_spec (zlen data) 0); [lia|].
    destruct (entry_wrt_spec f d id data buf) as (d1 & d2 & -> & Hw1 & Hw2); try done.
    exists d1, d2. split; [done|]. done.
Qed.
End Write.

(** ** Getting ready *)

Section Prepare.
Context `{FlashDev}.

Lemma invalidate_loop_spec k fuel f m a :
  geometry f -> zlen m = flash_size -> 0 <= a -> (write_block_size | a) ->
  a + Z.of_nat k * ate_size f <= region_end f < a + (Z.of_nat k + 1) * ate_size f -> (k < fuel)%nat ->
  invalidate_loop fuel f m a =
    Ok (splice m a (replicate (Z.to_nat (Z.of_nat k * ate_size f)) 0), 0).
Proof.
  intros Hg. destruct (geometry_facts f Hg) as (H8 & Hw8 & _ & _ & He). pose proof Hg as Hg'.
  destruct Hg' as (_ & _ & _ & _ & _ & _ & _ & Hf & H31).
  revert fuel m a. induction k as [|k IH]; intros fuel m a Hm Ha Hd Hk Hfu; (destruct fuel as [|fuel]; [lia|]);
    cbn [invalidate_loop]; destruct (Z.leb_spec a (region_end f - ate_size f)); try lia.
  { cbn. by rewrite splice_nil. }
  rewrite flash_write_zeros by (done || lia). set (z := replicate (Z.to_nat (ate_size f)) 0).
  assert (Hz : zlen z = ate_size f) by (unfold z; autorewrite with clen; lia).
  rewrite u32_small by lia. rewrite IH.
  - do 2 f_equal. rewrite <- Hz at 1. rewrite splice_splice by (autorewrite with clen; lia).
    unfold z. rewrite <- replicate_add. do 2 f_equal. lia.
  - rewrite length_splice; lia.
  - lia.
  - by apply Z.divide_add_r.
  - lia.
  - lia.
Qed.

(** The zeroed entries above the write address. *)
Lemma old_entries_invalidate_spec f m :
  geometry f -> zlen m = flash_size -> offset f <= ate_wra f -> ate_wra f + ate_size f <= region_end f ->
  (write_block_size | ate_wra f) ->
  exists k, old_entries_invalidate f m =
      Ok (splice m (ate_wra f + ate_size f) (replicate (Z.to_nat (Z.of_nat k * ate_size f)) 0), 0) /\
    Z.of_nat k = (region_end f - ate_wra f) / ate_size f - 1.
Proof.
  intros Hg Hm Hlo Hhi Hd. destruct (geometry_facts f Hg) as (H8 & Hw8 & _ & _ & He). pose proof Hg as Hg'.
  destruct Hg' as (_ & Hao & _ & _ & Ht & _ & _ & Hf & H31).
  set (q := (region_end f - ate_wra f) / ate_size f).
  pose proof (Z.div_mod (region_end f - ate_wra f) (ate_size f)) as Hdm. fold q in Hdm.
  pose proof (Z.mod_pos_bound (region_end f - ate_wra f) (ate_size f)) as Hmb.
  assert (Hq : 1 <= q) by (apply Z.div_le_lower_bound; lia).
  exists (Z.to_nat (q - 1)). split; [|lia]. unfold old_entries_invalidate. rewrite u32_small by lia.
  apply invalidate_loop_spec; try done; try lia; try nia. by apply Z.divide_add_r.
Qed.

Lemma emds_flash_clear_spec f d :
  geometry f -> zlen (cells d) = flash_size -> bytes (cells d) ->
  let m := splice (cells d) (offset f) (replicate (Z.to_nat (sector_cnt f * sector_size f)) 255) in
  let f' := recovered f (slot_addr f 0) 0 (force_erase f) in
  emds_flash_clear f d = Ok (f', set_cells d m, 0) /\ table f' m [] /\ writable f' m.
Proof.
  intros Hg Hc Hby m f'. destruct (geometry_facts f Hg) as (H8 & Hw8 & Hwo & Hwe & He). pose proof Hg as Hg'.
  destruct Hg' as (Hate & Hao & Hs & Hcn & Ht & Hps & Hpo & Hf & H31).
  set (n := sector_cnt f * sector_size f) in *.
  assert (Hm : zlen m = flash_size).
  { unfold m. rewrite length_splice; [done|lia|]. autorewrite with clen. lia. }
  assert (Her : erased m (offset f) n).
  { apply seen_splice_here; autorewrite with clen; lia. }
  assert (Hslot : slot_addr f 0 = region_end f - ate_size f) by (unfold slot_addr; lia).
  assert (Hnext : seen m (slot_addr f 0) (replicate 8 255)).
  { apply (erased_sub _ _ _ (slot_addr f 0) 8 Her); lia. }
  assert (Hgap : erased m (offset f + 0) (slot_addr f 0 + ate_size f - (offset f + 0))).
  { apply (erased_sub _ _ _ _ _ Her); lia. }
  split_and!.
  - unfold emds_flash_clear. replace (sector_size f * sector_cnt f) with n by lia.
    rewrite flash_erase_spec; [|lia|lia|done|by apply Z.divide_mul_r|lia]. fold m. cbn [set_cells cells].
    destruct (check_erased_spec m (offset f) n) as (rc & -> & Hrc); [done|lia..|]. cstep.
    rewrite (proj2 Hrc Her). cbn [Z.eqb negb].
    destruct (recover_run f m []) as [_ Hrec]; [done|done|by apply bytes_splice; [|apply Forall_replicate]|done|].
    cbn [scan foldl fst snd length] in Hrec. change (Z.of_nat 0) with 0 in Hrec.
    rewrite Hrec by (done || lia). cstep. rewrite u32_small, bool_decide_eq_true_2; [by rewrite orb_false_r| |lia].
    eapply eq_ind; [exact Hgap|f_equal; lia].
  - split; [done|done|done|cbn; lia|done|done].
  - split; [done|by exists 0|cbn; lia|done].
Qed.
(** A storage that was just recovered, whatever the flash holds. *)
Definition booted (f : emds_fs) (m : list Z) : Prop :=
  geometry f /\ is_initialized f = true /\ flash_params f = true /\ zlen m = flash_size /\ bytes m /\
  ((exists ss, run_at f m 0 ss /\ ate_wra f = slot_addr f (zlen ss) /\ offset f <= ate_wra f /\
      seen m (ate_wra f) (replicate 8 255) /\
      0 <= data_wra_offset f < 140000 /\ (write_block_size | data_wra_offset f) /\
      (force_erase f = false -> erased m (offset f + data_wra_offset f)
         (u32 (ate_wra f - (offset f + data_wra_offset f) + ate_size f)))) \/
   (ate_wra f = offset f /\ force_erase f = true)).

(** A region that is not initialised yet. *)
Definition bootable (f : emds_fs) : Prop :=
  is_initialized f = false /\ flash_dev f = true /\
  geometry (set_flags f (align_size EMDS_ATE_SIZE) true (is_prepeared f)).

(** Initialisation is recovery. *)
Lemma emds_flash_init_eq f d :
  bootable f ->
  emds_flash_init f d =
    let* g := ate_last_recover (set_flags (set_params f true) (align_size EMDS_ATE_SIZE) false (is_prepeared f)) (cells d) in
    Ok (set_flags g (ate_size g) true (is_prepeared g), 0).
Proof.
  intros (Hi & Hdev & Hg). destruct Hg as (Hate & Hao & Hs & Hcn & Ht & Hps & Hpo & Hf & H31).
  unfold region_end in Hf.
  cbn [set_flags offset ate_size sector_size sector_cnt] in *. destruct ate_size_spec as (H8 & _).
  unfold emds_flash_init. rewrite Hi, Hdev, flash_get_parameters_spec. unfold EMDS_FLASH_BLOCK_SIZE.
  cbn [set_params flash_params offset sector_size sector_cnt].
  destruct block_pos as [Hwb _]. destruct page_size_spec as [Hpp _]. cbn [negb].
  rewrite Z.ltb_irrefl. destruct (Z.eqb_spec write_block_size 0); [lia|]. cbn [orb].
  rewrite flash_get_page_info_spec by lia.
  destruct (Z.eqb_spec (sector_size f) 0); [lia|].
  assert (Hmod : sector_size f mod page_size = 0) by (apply Z.mod_divide; [lia|done]).
  rewrite Hmod. cbn [Z.eqb negb orb]. destruct (Z.ltb_spec (sector_cnt f) 1); [lia|].
  cbn [set_params is_initialized is_prepeared]. by rewrite Hi.
Qed.

Lemma emds_flash_init_spec f d :
  bootable f -> zlen (cells d) = flash_size -> bytes (cells d) ->
  exists f', emds_flash_init f d = Ok (f', 0) /\ booted f' (cells d) /\
    offset f' = offset f /\ sector_cnt f' = sector_cnt f /\ sector_size f' = sector_size f.
Proof.
  intros Hbt Hm Hb. rewrite (emds_flash_init_eq f d Hbt). destruct Hbt as (Hi & Hdev & Hg).
  set (g := set_flags (set_params f true) (align_size EMDS_ATE_SIZE) false (is_prepeared f)).
  assert (Hgg : geometry g) by exact Hg.
  destruct (run_exists g (cells d) 0 Hgg Hm) as (ss & Hr & Hend); [lia|]. rewrite Z.add_0_l in Hend.
  destruct (recover_run g (cells d) ss Hgg Hm Hb Hr) as [Hfull Hrec].
  assert (Hss : Forall bytes ss).
  { apply Forall_lookup. intros i s Hs. destruct (Hr i s Hs) as (_ & _ & Hseen & _). by eapply seen_Forall. }
  destruct (scan_data ss (255, 0, force_erase g) Hss) as [Hd Hdw]; [done|by exists 0|].
  destruct Hend as [Hlow|[Hlow Hseen]].
  - rewrite Hfull by done. cstep. eexists. split; [done|]. split; [|done].
    split_and!; [exact Hgg|done..|]. by right.
  - rewrite Hrec by done. cstep. eexists. split; [done|]. split; [|done].
    split_and!; [exact Hgg|done..|]. left. exists ss.
    split_and!; [exact Hr|done|exact Hlow|exact Hseen|apply Hd..|exact Hdw|].
    cbn [set_flags recovered set_force force_erase]. intros Hfo. apply orb_false_iff in Hfo as [_ Hfo].
    apply negb_false_iff, bool_decide_eq_true in Hfo. exact Hfo.
Qed.

(** The room that is left for entries. *)
Definition room (f : emds_fs) : Z := ate_wra f - (offset f + data_wra_offset f).

(** After a preparation the storage is ready for the size asked for: the table
    has zeroed entries only. *)
Definition prepared (f : emds_fs) (d : nvm) (size : Z) : Prop :=
  ready f d /\ bytes (cells d) /\ is_initialized f = true /\ is_prepeared f = true /\ size <= room f /\
  exists n, table f (cells d) (replicate n (replicate 8 0)).

Lemma prepare_erase f d size :
  geometry f -> zlen (cells d) = flash_size -> bytes (cells d) -> pofwarn d = false ->
  is_initialized f = true -> size <= sector_cnt f * sector_size f - ate_size f ->
  exists f' d', (let* '(f, d, _) := emds_flash_clear f d in Ok (set_force f false, d)) = Ok (f', d') /\
    prepared (set_flags f' (ate_size f') (is_initialized f') true) d' size /\
    offset f' = offset f /\ sector_cnt f' = sector_cnt f /\ sector_size f' = sector_size f /\ power d' = power d.
Proof.
  intros Hg Hm Hb Hq Hi Hsz. destruct (emds_flash_clear_spec f d Hg Hm Hb) as (-> & Ht & Hw). cstep.
  destruct (geometry_facts f Hg) as (H8 & Hw8 & Hwo & Hwe & He).
  eexists _, _. split; [done|]. split; [|done].
  split_and!; [|apply bytes_splice; [done|by apply Forall_replicate]|done|done|..].
  - split; [exact Hg|exact (table_size _ _ _ Ht)|done|..].
    + cbn. unfold slot_addr, region_end in *. cbn. lia.
    + cbn. unfold slot_addr. apply Z.divide_sub_r; [done|]. by apply Z.divide_mul_r.
    + by destruct Hw.
  - unfold room, slot_addr. cbn. unfold slot_addr. lia.
  - exists 0%nat. by destruct Ht.
Qed.
Lemma slot_block f i : geometry f -> (write_block_size | slot_addr f i).
Proof.
  intros Hg. destruct (geometry_facts f Hg) as (_ & Hw8 & _ & Hwe & _).
  apply Z.divide_sub_r; [done|]. by apply Z.divide_mul_r.
Qed.

(** Zeroing the entries leaves what is below the table. *)
Lemma invalidated_table f m ss :
  geometry f -> zlen m = flash_size -> run_at f m 0 ss -> ate_wra f = slot_addr f (zlen ss) ->
  offset f <= ate_wra f -> seen m (ate_wra f) (replicate 8 255) ->
  exists m', old_entries_invalidate f m = Ok (m', 0) /\ zlen m' = zlen m /\ (bytes m -> bytes m') /\
    table f m' (replicate (length ss) (replicate 8 0)) /\
    forall a n, 0 <= n -> a + n <= ate_wra f + ate_size f -> erased m a n -> erased m' a n.
Proof.
  intros Hg Hm Hr Hw Hlow Hseen. destruct (geometry_facts f Hg) as (H8 & Hw8 & Hwo & Hwe & He). pose proof Hg as Hg'.
  destruct Hg' as (_ & Hao & _ & _ & Ht & _ & _ & Hf & H31).
  assert (Htop : region_end f - ate_wra f = (zlen ss + 1) * ate_size f) by (rewrite Hw; unfold slot_addr; lia).
  destruct (old_entries_invalidate_spec f m Hg Hm Hlow) as (k & -> & Hk);
    [nia|rewrite Hw; by apply slot_block|].
  rewrite Htop, Z.div_mul in Hk by lia. assert (k = length ss) as -> by lia. clear Hk.
  set (z := replicate _ 0). assert (Hz : zlen z = zlen ss * ate_size f) by (unfold z; autorewrite with clen; nia).
  assert (Hl : ate_wra f + ate_size f + zlen z <= zlen m) by lia.
  eexists. split; [done|]. split_and!; [rewrite length_splice; lia| | |].
  - intros Hb. apply bytes_splice; [done|]. by apply Forall_replicate.
  - split; [done|rewrite length_splice; lia|by rewrite length_replicate|done| |].
    + intros i s Hs. apply lookup_replicate in Hs as [-> Hi]. split_and!; [done|done|].
      apply seen_iff; [unfold slot_addr in *; nia|rewrite length_splice, length_replicate by lia; unfold slot_addr in *; nia|].
      intros j. rewrite length_replicate. intros Hj.
      rewrite zth_splice by (unfold slot_addr in *; nia).
      destruct (Z.leb_spec (ate_wra f + ate_size f) (slot_addr f (Z.of_nat i) + j)); [|unfold slot_addr in *; nia].
      destruct (Z.ltb_spec (slot_addr f (Z.of_nat i) + j) (ate_wra f + ate_size f + zlen z)); [|unfold slot_addr in *; nia].
      cbn [andb]. unfold zth, z. rewrite !lookup_replicate_2; [done|lia|unfold slot_addr in *; nia].
    + apply seen_splice_other; try done; [lia|]. left. rewrite length_replicate. lia.
  - intros a n Hn Ha. apply erased_splice; (done || lia).
Qed.

(** The free space is negative if the data runs into the table: this is less
    than any size. *)
Lemma free_space_enough f size :
  - 2 ^ 31 <= room f < 2 ^ 31 -> 0 < ate_size f < 2 ^ 31 -> 0 <= size ->
  size <= emds_flash_free_space_get f -> 0 <= room f /\ size <= room f.
Proof.
  intros Hr Ha Hs. unfold emds_flash_free_space_get, sint. change (32 - 1) with 31.
  replace (ate_wra f - (data_wra_offset f + offset f)) with (room f) by (unfold room; lia).
  generalize (room f) Hr. intros space Hsp. destruct (decide (0 <= space)) as [Hp|Hn].
  - rewrite (Z.mod_small space) by lia. destruct (Z.ltb_spec space (2 ^ 31)); [|lia].
    rewrite u32_small by lia. destruct (Z.ltb_spec (ate_size f) space); lia.
  - assert (E : space mod 2 ^ 32 = space + 2 ^ 32) by (symmetry; apply Z.mod_unique with (-1); lia).
    rewrite E. destruct (Z.ltb_spec (space + 2 ^ 32) (2 ^ 31)); [lia|].
    replace (space + 2 ^ 32 - 2 ^ 32) with space by lia. unfold u32. rewrite E.
    destruct (Z.ltb_spec (ate_size f) (space + 2 ^ 32)); lia.
Qed.

Lemma emds_flash_prepare_spec f d size :
  booted f (cells d) -> pofwarn d = false -> 0 <= size < 2 ^ 31 ->
  if sector_cnt f * sector_size f - ate_size f <? size
  then emds_flash_prepare f d size = Ok (f, d, - errno_num ENOMEM)
  else exists f' d', emds_flash_prepare f d size = Ok (f', d', 0) /\ prepared f' d' size /\
    offset f' = offset f /\ sector_cnt f' = sector_cnt f /\ sector_size f' = sector_size f /\ power d' = power d.
Proof.
  intros (Hg & Hi & _ & Hm & Hb & Hst) Hq Hsz. destruct (geometry_facts f Hg) as (H8 & Hw8 & Hwo & Hwe & He).
  pose proof Hg as Hg'. destruct Hg' as (_ & Hao & _ & _ & Ht & _ & _ & Hf & H31).
  unfold emds_flash_prepare. rewrite Hi. cbn [negb]. rewrite !u32_small by lia.
  destruct (Z.ltb_spec (sector_cnt f * sector_size f - ate_size f) size) as [_|Hfit]; [done|].
  destruct Hst as [(ss & Hr & Hw & Hlow & Hseen & Hd & Hdw & Hgap)|[Hw Hfo]].
  - destruct (invalidated_table f (cells d) ss) as (m' & -> & Hm' & Hb' & Htab & Hkeep); try done.
    cstep. cbn [Z.eqb negb]. destruct (force_erase f || (emds_flash_free_space_get f <? size)) eqn:E.
    { destruct (prepare_erase f (set_cells d m') size) as (f' & d' & -> & Hp & Hrest);
        try done; [cbn; lia|by apply Hb'|]. cstep. eexists _, _. split; [done|]. split; [exact Hp|exact Hrest]. }
    apply orb_false_iff in E as [Hfo Hfree]. cstep. eexists _, _. split; [done|]. split; [|done].
    assert (Hup : ate_wra f <= region_end f) by (rewrite Hw; unfold slot_addr; nia).
    apply Z.ltb_ge, free_space_enough in Hfree; [|unfold room; lia|lia..].
    unfold room in *.
    split_and!; [|by apply Hb'|exact Hi|done|unfold room; cbn; lia|exists (length ss); by destruct Htab].
    split; [exact Hg|cbn; lia|done|..].
    + cbn. rewrite Hw. unfold slot_addr. unfold region_end. cbn. unfold region_end. nia.
    + cbn. rewrite Hw. by apply slot_block.
    + specialize (Hgap Hfo). rewrite u32_small in Hgap by lia.
      split; [cbn; lia|done|cbn; lia|]. cbn. apply Hkeep; [lia..|].
      eapply eq_ind; [exact Hgap|f_equal; lia].
  - destruct (old_entries_invalidate_spec f (cells d) Hg Hm) as (k & -> & Hk); [lia|lia|by rewrite Hw|].
    cstep. cbn [Z.eqb negb]. rewrite Hfo. cbn [orb]. rewrite Hw in *.
    assert (Hl : offset f + ate_size f + Z.of_nat k * ate_size f <= zlen (cells d)).
    { pose proof (Z.mul_div_le (region_end f - offset f) (ate_size f)). nia. }
    destruct (prepare_erase f (set_cells d (splice (cells d) (offset f + ate_size f)
      (replicate (Z.to_nat (Z.of_nat k * ate_size f)) 0))) size) as (f' & d' & -> & Hp & Hrest); try done.
    + cbn. rewrite length_splice; [done|lia|]. autorewrite with clen. lia.
    + cbn. apply bytes_splice; [done|]. by apply Forall_replicate.
    + cstep. eexists _, _. split; [done|]. split; [exact Hp|exact Hrest].
Qed.
End Prepare.

(** ** Stored entries *)

Record entry := { e_id : Z; e_off : Z; e_data : list Z }.

Section Stored.
Context `{FlashDev}.

Definition slot_of (e : entry) : list Z := entry_slot (e_id e) (e_off e) (e_data e).
Definition entry_end (e : entry) : Z := e_off e + align_size (zlen (e_data e)).

(** The data of an entry is in the flash. *)
Definition kept (f : emds_fs) (m : list Z) (e : entry) : Prop :=
  bits 16 (e_id e) /\ bytes (e_data e) /\ 0 < zlen (e_data e) < 65536 /\ 0 <= e_off e < 65536 /\
  (write_block_size | e_off e) /\ seen m (offset f + e_off e) (e_data e).

(** The table has [n] zeroed entries and those of [es] behind them. *)
Record stored (f : emds_fs) (m : list Z) (n : nat) (es : list entry) : Prop := {
  stored_table : table f m (replicate n (replicate 8 0) ++ (slot_of <$> es));
  stored_kept : Forall (kept f m) es;
  stored_below : Forall (fun e => entry_end e <= data_wra_offset f) es;
  stored_last e : last es = Some e -> data_wra_offset f = entry_end e
}.

(** Writes below the table do not change it. *)
Lemma table_below f m ss a w :
  table f m ss -> 0 <= a -> a + zlen w <= ate_wra f -> table f (splice m a w) ss.
Proof.
  intros Ht Ha Hl. destruct (slot_addr_bounds f m ss (zlen ss) Ht ltac:(lia)) as (Hlo & Hhi & Hre & H31 & H8).
  pose proof (table_wra f m ss Ht) as Hw.
  destruct Ht as [Hg Hm _ Hlow Hslots Hnext].
  split; [done|rewrite length_splice; [done|lia..]|done|done| |].
  - intros i s Hs. destruct (Hslots i s Hs) as (Hl8 & Hne & Hseen). split_and!; [done..|].
    apply seen_splice_other; [lia..| |done]. right. apply lookup_lt_Some in Hs.
    unfold slot_addr in *. nia.
  - apply seen_splice_other; [lia..| |done]. by right.
Qed.

(** A new entry at the write address. *)
Lemma table_snoc f m ss s :
  table f m ss -> length s = 8%nat -> s <> replicate 8 255 ->
  offset f <= ate_wra f - ate_size f -> seen m (ate_wra f - ate_size f) (replicate 8 255) ->
  table (set_ate_wra f (ate_wra f - ate_size f)) (splice m (ate_wra f) s) (ss ++ [s]).
Proof.
  intros Ht Hl Hne Hlow Hnext.
  destruct (slot_addr_bounds f m ss (zlen ss) Ht ltac:(lia)) as (Hlo & Hhi & Hre & H31 & H8).
  pose proof (table_wra f m ss Ht) as Hw.
  destruct Ht as [Hg Hm _ Hlow0 Hslots _].
  split; cbn [set_ate_wra ate_wra offset ate_size]; [exact Hg|rewrite length_splice; [done|lia..]| |done| |].
  - rewrite Hw, length_app. unfold slot_addr. unfold region_end.
    cbn [set_ate_wra offset sector_cnt sector_size ate_size length]. lia.
  - intros i x Hx. change (slot_addr (set_ate_wra f (ate_wra f - ate_size f)) (Z.of_nat i))
      with (slot_addr f (Z.of_nat i)).
    destruct (decide (i < length ss)%nat) as [Hi|Hi].
    + rewrite lookup_app_l in Hx by done. destruct (Hslots i x Hx) as (Hl8 & Hnx & Hseen).
      split_and!; [done..|]. apply seen_splice_other; [lia..| |done]. right. unfold slot_addr in *. nia.
    + rewrite lookup_app_r in Hx by lia. destruct (i - length ss)%nat eqn:E; [|done]. injection Hx as <-.
      assert (i = length ss) as -> by lia. split_and!; [done..|]. rewrite <- Hw.
      apply seen_splice_here; lia.
  - apply seen_splice_other; [lia..| |done]. left. rewrite length_replicate. lia.
Qed.

(** Octets that are erased anyway. *)
Lemma splice_erased m a w n :
  0 <= a -> 0 <= n -> a + zlen w + n <= zlen m -> erased m (a + zlen w) n ->
  splice m a w = splice m a (w ++ replicate (Z.to_nat n) 255).
Proof.
  intros Ha Hn Hl He.
  assert (Hlr : zlen (w ++ replicate (Z.to_nat n) 255) = zlen w + n) by (autorewrite with clen; lia).
  apply zth_ext; [rewrite !length_splice; lia|].
  rewrite length_splice by lia. intros i Hi. rewrite !zth_splice, Hlr by lia.
  destruct (Z.leb_spec a i), (Z.ltb_spec i (a + zlen w)), (Z.ltb_spec i (a + (zlen w + n)));
    cbn [andb]; try (done || lia).
  - by rewrite zth_app_l by lia.
  - rewrite zth_app_r by lia. replace i with (a + zlen w + (i - a - zlen w)) at 1 by lia.
    rewrite (erased_zth _ _ _ He) by lia. unfold zth. by rewrite lookup_replicate_2 by lia.
Qed.

Lemma kept_splice f m e a w :
  kept f m e -> 0 <= a -> a + zlen w <= zlen m -> offset f + entry_end e <= a ->
  kept f (splice m a w) e.
Proof.
  intros (Hi & Hb & Hl & Ho & Hd & Hs) Ha Hw Hend. split_and!; try done; [lia..|].
  apply seen_splice_other; [lia..| |done]. left. unfold entry_end in Hend.
  destruct (align_size_spec (zlen (e_data e))) as [_ ?]; lia.
Qed.

(** The words of an entry: its data and two for the table. *)
Definition data_words (data : list Z) : nat := length (padded data) / 4.

Lemma padded_words data :
  zlen data < 2 ^ 31 -> length (padded data) = (4 * data_words data)%nat.
Proof.
  intros Hl. destruct (align_size_spec (zlen data)) as [Hd _]; [lia|].
  apply block_divides_4 in Hd as [q Hq]. pose proof (length_padded data Hl) as Hp. unfold data_words.
  replace (length (padded data)) with (4 * Z.to_nat q)%nat by lia.
  rewrite (Nat.mul_comm 4 (Z.to_nat q)), Nat.div_mul by done. lia.
Qed.
(** An entry whose words were all written. *)
Lemma stored_written f d d1 d2 n es id data :
  ready f d -> stored f (cells d) n es -> bits 16 id -> bytes data -> 0 < zlen data < 65536 -> fits f (zlen data) ->
  wrote d d1 (offset f + data_wra_offset f) (padded data) ->
  wrote d1 d2 (ate_wra f) (entry_slot id (data_wra_offset f) data) ->
  limit (power d) (data_words data + 2) = (data_words data + 2)%nat ->
  stored (advanced f (zlen data)) (cells d2) n
    (es ++ [{| e_id := id; e_off := data_wra_offset f; e_data := data |}]) /\
  power d2 = drain (power d) (data_words data + 2).
Proof.
  intros [Hg Hc Hq Htop Hblk [Hlow Hdb Hsp Her]] [Ht Hk Hbl _] Hid Hb Hl Hfit (_ & Hc1 & Hp1) (_ & Hc2 & Hp2) Hpow.
  destruct (geometry_facts f Hg) as (H8 & _ & _ & _ & He). pose proof Hg as Hg'.
  destruct Hg' as (_ & Hao & _ & _ & Htt & _ & _ & Hf & H31). unfold fits in Hfit.
  pose proof (padded_words data ltac:(lia)) as Hpw. pose proof (length_padded data ltac:(lia)) as Hlp.
  destruct (align_size_spec (zlen data)) as [Hda Hal]; [lia|].
  fold (data_words data) in Hc1, Hp1. rewrite limit_add in Hpow.
  pose proof (limit_le (power d) (data_words data)). pose proof (limit_le (drain (power d) (data_words data)) 2).
  rewrite take_ge in Hc1 by lia. change (length (entry_slot _ _ _) / 4)%nat with 2%nat in Hc2, Hp2.
  rewrite Hp1 in Hc2. rewrite take_ge in Hc2 by (change (length (entry_slot _ _ _)) with 8%nat; lia).
  set (e := {| e_id := id; e_off := data_wra_offset f; e_data := data |}).
  assert (Hke : kept f (cells d2) e).
  { split_and!; try done; try (cbn; lia). unfold e. cbn [e_off e_data]. rewrite Hc2, Hc1.
    apply seen_splice_other; [lia|rewrite length_splice, length_entry_slot by lia; lia|left; lia|].
    assert (Hsp' : seen (splice (cells d) (offset f + data_wra_offset f) (padded data))
      (offset f + data_wra_offset f) (padded data)) by (apply seen_splice_here; lia).
    unfold padded in Hsp' at 2. by apply seen_app in Hsp' as [? _]. }
  split; [|by rewrite Hp2, Hp1, drain_add]. split.
  - rewrite fmap_app, app_assoc. cbn [fmap list_fmap]. rewrite Hc2, Hc1.
    assert (Hnext : erased (cells d) (ate_wra f - ate_size f) 8) by (apply (erased_sub _ _ _ _ _ Her); lia).
    apply (table_below _ _ _ (offset f + data_wra_offset f) (padded data)) in Ht as Ht'; [|lia..].
    pose proof (table_snoc f _ _ (slot_of e) Ht') as Hsn.
    destruct Hsn as [s1 s2 s3 s4 s5 s6]; try done; try lia.
    + by apply entry_slot_facts.
    + apply seen_splice_other; [lia..|right; lia|exact Hnext].
  - apply Forall_app. split; [|by apply Forall_singleton]. rewrite Hc2, Hc1.
    apply Forall_lookup. intros i x Hx. rewrite Forall_lookup in Hk, Hbl.
    specialize (Hk i x Hx). specialize (Hbl i x Hx).
    apply (kept_splice f); [apply (kept_splice f); [done|lia..]|lia|rewrite length_splice, length_entry_slot by lia; lia|lia].
  - apply Forall_app. split; [|apply Forall_singleton; cbn; unfold entry_end; cbn; lia].
    eapply Forall_impl; [exact Hbl|]. intros x Hx. cbn in *. lia.
  - intros x. rewrite last_snoc. by intros [= <-].
Qed.
(** A table entry of which only the first word was written. *)
Definition torn_slot (id off : Z) (data : list Z) : list Z :=
  take 4 (entry_slot id off data) ++ replicate 4 255.

Lemma torn_slot_facts id off data :
  0 <= off < 65535 -> length (torn_slot id off data) = 8%nat /\ torn_slot id off data <> replicate 8 255 /\
  ate_len (ate_of (torn_slot id off data)) = 65535.
Proof.
  intros Ho. split_and!; [done| |done]. unfold torn_slot, entry_slot, ate_octets, le16. cbn.
  rewrite u16_small by lia. intros [= _ _ H1 H2]. pose proof (le16_value off ltac:(lia)). lia.
Qed.

(** An entry whose words were not all written: there is no power left, and the
    flash holds what it held before, perhaps with a torn table entry. *)
Lemma stored_cut f d d1 d2 n es id data :
  ready f d -> stored f (cells d) n es -> 0 < zlen data < 65536 -> fits f (zlen data) ->
  wrote d d1 (offset f + data_wra_offset f) (padded data) ->
  wrote d1 d2 (ate_wra f) (entry_slot id (data_wra_offset f) data) ->
  (limit (power d) (data_words data + 2) < data_words data + 2)%nat ->
  power d2 = Some 0%nat /\ Forall (kept f (cells d2)) es /\
  exists a torn, table (set_ate_wra f a) (cells d2) (replicate n (replicate 8 0) ++ (slot_of <$> es) ++ torn) /\
    (torn = [] \/ torn = [torn_slot id (data_wra_offset f) data]).
Proof.
  intros [Hg Hc Hq Htop Hblk [Hlow Hdb Hsp Her]] [Ht Hk Hbl _] Hl Hfit (_ & Hc1 & Hp1) (_ & Hc2 & Hp2) Hpow.
  destruct (geometry_facts f Hg) as (H8 & _ & _ & _ & He). pose proof Hg as Hg'.
  destruct Hg' as (_ & Hao & _ & _ & Htt & _ & _ & Hf & H31). unfold fits in Hfit.
  pose proof (padded_words data ltac:(lia)) as Hpw. pose proof (length_padded data ltac:(lia)) as Hlp.
  destruct (align_size_spec (zlen data)) as [Hda Hal]; [lia|].
  fold (data_words data) in Hc1, Hp1. change (length (entry_slot _ _ _) / 4)%nat with 2%nat in Hc2, Hp2.
  rewrite Hp1 in Hc2, Hp2. set (w := take _ (padded data)) in Hc1.
  assert (Hw : zlen w <= zlen (padded data)) by (unfold w; rewrite length_take; lia).
  assert (Hk1 : Forall (kept f (cells d1)) es).
  { rewrite Hc1. apply Forall_lookup. intros i x Hx. rewrite Forall_lookup in Hk, Hbl.
    specialize (Hk i x Hx). specialize (Hbl i x Hx). by apply kept_splice; [|lia..]. }
  apply (table_below _ _ _ (offset f + data_wra_offset f) w) in Ht as Ht1; [|lia..]. rewrite <- Hc1 in Ht1.
  assert (Hcl1 : zlen (cells d1) = zlen (cells d)) by (rewrite Hc1, length_splice; lia).
  assert (Hend : power d2 = Some 0%nat).
  { rewrite Hp2, <- drain_add. destruct (power d) as [k|]; cbn in *; [f_equal; lia|lia]. }
  split; [done|].
  assert (limit (drain (power d) (data_words data)) 2 = 0%nat \/
          limit (drain (power d) (data_words data)) 2 = 1%nat) as [E|E].
  { pose proof (limit_le (power d) (data_words data)) as Hle. rewrite limit_add in Hpow.
    destruct (decide (limit (power d) (data_words data) = data_words data)); [lia|].
    left. apply limit_short. lia. }
  - rewrite E in Hc2. change (4 * 0)%nat with 0%nat in Hc2. rewrite take_0, splice_nil in Hc2.
    rewrite Hc2. split; [done|]. exists (ate_wra f), []. rewrite app_nil_r. split; [|by left]. by destruct Ht1.
  - rewrite E in Hc2. change (4 * 1)%nat with 4%nat in Hc2. set (t := take 4 (entry_slot _ _ _)) in Hc2.
    assert (Htl : zlen t = 4) by done.
    assert (Her1 : erased (cells d1) (ate_wra f - ate_size f) (2 * ate_size f)).
    { rewrite Hc1. apply erased_splice; [lia..|]. apply (erased_sub _ _ _ _ _ Her); lia. }
    rewrite (splice_erased _ _ t 4) in Hc2 by (try lia; apply (erased_sub _ _ _ _ _ Her1); lia).
    change (t ++ replicate (Z.to_nat 4) 255) with (torn_slot id (data_wra_offset f) data) in Hc2. rewrite Hc2.
    destruct (torn_slot_facts id (data_wra_offset f) data) as (Htl8 & Htne & _); [lia|]. split.
    + apply Forall_lookup. intros i x Hx. rewrite Forall_lookup in Hk1, Hbl.
      specialize (Hk1 i x Hx). specialize (Hbl i x Hx). apply kept_splice; [done|lia..].
    + exists (ate_wra f - ate_size f), [torn_slot id (data_wra_offset f) data]. split; [|by right].
      rewrite app_assoc. apply table_snoc; [done..|lia|]. apply (erased_sub _ _ _ _ 8 Her1); lia.
Qed.
(** ** Restart *)

(** The same region of the flash. *)
Definition same_region (f g : emds_fs) : Prop :=
  offset g = offset f /\ sector_cnt g = sector_cnt f /\ sector_size g = sector_size f.

Lemma table_boot g f d ss :
  bootable g -> same_region f g -> table f (cells d) ss -> bytes (cells d) ->
  exists f', emds_flash_init g d = Ok (f', 0) /\ table f' (cells d) ss /\ is_initialized f' = true /\
    offset f' = offset f /\ is_prepeared f' = is_prepeared g /\ booted f' (cells d).
Proof.
  intros Hbt (Ho & Hcn & Hs) Ht Hb. pose proof Hbt as (Hi & _ & Hg).
  destruct (emds_flash_init_spec g d) as (f' & Hrun & Hbo & _); [done|by destruct Ht|done|].
  exists f'. rewrite Hrun. split; [done|]. rewrite (emds_flash_init_eq g d Hbt) in Hrun.
  set (h := set_flags (set_params g true) (align_size EMDS_ATE_SIZE) false (is_prepeared g)) in Hrun.
  assert (Hate : ate_size f = align_size EMDS_ATE_SIZE) by (by destruct (table_geometry _ _ _ Ht)).
  assert (Haddr : forall k, slot_addr h k = slot_addr f k).
  { intros k. unfold slot_addr, region_end, h. cbn. by rewrite Ho, Hcn, Hs, Hate. }
  assert (Hr : run_at h (cells d) 0 ss).
  { intros k s Hks. rewrite Haddr, Z.add_0_l. destruct (table_slots _ _ _ Ht k s Hks) as (H1 & H2 & H3).
    split_and!; [done..|]. apply lookup_lt_Some in Hks.
    destruct (slot_addr_bounds f (cells d) ss (Z.of_nat k) Ht ltac:(lia)) as [? _]. cbn. lia. }
  assert (Hgh : geometry h) by exact Hg.
  destruct (recover_run h (cells d) ss Hgh) as [_ Hrec]; [by destruct Ht|done|done|].
  rewrite Haddr, <- (table_wra _ _ _ Ht) in Hrec.
  rewrite Hrec in Hrun; [|change (offset h) with (offset g); rewrite Ho; by destruct Ht|by destruct Ht].
  cbn [mbind res_bind] in Hrun. injection Hrun as <-. split_and!; [|done|exact Ho|done|done].
  split; [exact Hg|by destruct Ht|..].
  - exact (eq_trans (table_wra _ _ _ Ht) (eq_sym (Haddr _))).
  - cbn. rewrite Ho. by destruct Ht.
  - intros k s Hks. destruct (Hr k s Hks) as (H1 & H2 & H3 & _). by rewrite Z.add_0_l in H3.
  - by destruct Ht.
Qed.

(** ** Reading back *)

Definition lookup_entry (id : Z) (es : list entry) : option entry :=
  last (filter (fun e => e_id e = id) es).

Lemma lookup_entry_snoc id es e :
  lookup_entry id (es ++ [e]) = if e_id e =? id then Some e else lookup_entry id es.
Proof.
  unfold lookup_entry. rewrite filter_app, (filter_cons _ e []), filter_nil.
  destruct (Z.eqb_spec (e_id e) id).
  - rewrite decide_True by done. by rewrite last_snoc.
  - rewrite decide_False by done. by rewrite app_nil_r.
Qed.

Lemma newest_zeros id n : newest id (replicate n (replicate 8 0)) = None.
Proof.
  induction n as [|n IH]; [done|]. rewrite <- Nat.add_1_r, replicate_add.
  change (replicate 1 (replicate 8 0)) with [replicate 8 0]. rewrite newest_snoc.
  unfold hits. by rewrite zeros_invalid, andb_false_r.
Qed.

Lemma newest_entries f m id n es :
  Forall (kept f m) es ->
  newest id (replicate n (replicate 8 0) ++ (slot_of <$> es)) =
    (fun e => new_ate (e_id e) (e_off e) (e_data e) (zlen (e_data e))) <$> lookup_entry id es.
Proof.
  induction es as [|e es IH] using rev_ind; intros Hk; [by rewrite app_nil_r, newest_zeros|].
  apply Forall_app in Hk as [Hk He]. apply Forall_singleton in He as (Hid & _).
  rewrite fmap_app, app_assoc. cbn [fmap list_fmap]. rewrite newest_snoc, lookup_entry_snoc.
  destruct (entry_slot_facts (e_id e) (e_off e) (e_data e) Hid) as (Hat & Hv & _).
  fold (slot_of e) in Hat, Hv. unfold hits. rewrite Hv, Hat, andb_true_r.
  change (ate_id (new_ate _ _ _ _)) with (e_id e). destruct (e_id e =? id); [done|]. by apply IH.
Qed.

(** What a read of [id] gives if the storage has the entries [es]. *)
Definition read_result (id : Z) (es : list entry) (buf : list Z) (len : Z) : res (list Z * Z) :=
  match lookup_entry id es with
  | None => Ok (buf, - errno_num ENXIO)
  | Some e =>
    if len <? zlen (e_data e) then Ok (buf, - errno_num ENOMEM)
    else let* buf := wr_block buf 0 (e_data e) in Ok (buf, zlen (e_data e))
  end.

Lemma lookup_entry_elem id es e : lookup_entry id es = Some e -> e ∈ es.
Proof. intros H'. apply last_Some_elem_of, list_elem_of_filter in H'. by destruct H'. Qed.

Lemma read_ate_kept f m n es id buf len :
  Forall (kept f m) es ->
  read_ate f m buf len (newest id (replicate n (replicate 8 0) ++ (slot_of <$> es))) =
    read_result id es buf len.
Proof.
  intros Hk. rewrite (newest_entries f m) by done. unfold read_result.
  destruct (lookup_entry id es) as [e|] eqn:E; [|done]. cbn [fmap option_fmap option_map read_ate].
  apply lookup_entry_elem in E. rewrite Forall_forall in Hk.
  destruct (Hk e E) as (_ & _ & Hl & Ho & _ & Hs). cbn [new_ate ate_len ate_offset ate_crc8_data].
  rewrite (u16_small (zlen (e_data e))), (u16_small (e_off e)) by lia.
  destruct (len <? zlen (e_data e)); [done|].
  rewrite flash_read_seen by (try done; apply seen_bounds in Hs; lia). cstep.
  by destruct (wr_block buf 0 (e_data e)); cstep; rewrite ?Z.eqb_refl.
Qed.

Lemma read_kept f m n es id buf len :
  table f m (replicate n (replicate 8 0) ++ (slot_of <$> es)) -> Forall (kept f m) es ->
  is_initialized f = true -> emds_flash_read f m id buf len = read_result id es buf len.
Proof.
  intros Ht Hk Hi. rewrite (emds_flash_read_spec f m _ id buf len Ht Hi). by apply read_ate_kept.
Qed.

(** With a torn entry behind them, the read gives this or an error. *)
Lemma read_torn f m n es id' off data id buf len :
  table f m (replicate n (replicate 8 0) ++ (slot_of <$> es) ++ [torn_slot id' off data]) ->
  Forall (kept f m) es -> is_initialized f = true -> 0 <= off < 65535 -> len < 65535 ->
  emds_flash_read f m id buf len = read_result id es buf len \/
  emds_flash_read f m id buf len = Ok (buf, - errno_num ENOMEM).
Proof.
  intros Ht Hk Hi Ho Hlen. rewrite (emds_flash_read_spec f m _ id buf len Ht Hi).
  rewrite app_assoc, newest_snoc. destruct (torn_slot_facts id' off data Ho) as (_ & _ & Htl).
  destruct (hits id (torn_slot id' off data)); [right|left; by apply read_ate_kept].
  cbn [read_ate]. rewrite Htl. by destruct (Z.ltb_spec len 65535); [|lia].
Qed.
End Stored.
