(* ===== verification/Emds.v ===== *)
(** * Emergency data storage: emds.c of subsys/emds

    Entries of the application, given at build time or added at run time, are
    written to flash when a loss of power is noticed, and read back after the
    restart. *)

From stdpp Require Import prelude list.
From Stdlib Require Import ZArith Lia.
From S2P Require Import Prelude EmdsFlash EmdsFlashSpec.

Open Scope Z_scope.

(** The partition of the storage and the settings of the build. *)
Class Partition := {
  flash_area_open : Z;
  flash_area_get_sectors : Z * Z;       (* return value, size of the first sector *)
  fa_size : Z;
  fa_off : Z;
  fa_dev : bool;
  CONFIG_EMDS_SECTOR_COUNT : Z;
  CONFIG_EMDS_FLASH_TIME_BASE_OVERHEAD_US : Z;
  CONFIG_EMDS_FLASH_TIME_WRITE_ONE_WORD_US : Z;
  CONFIG_EMDS_FLASH_TIME_ENTRY_OVERHEAD_US : Z
}.

(** The data of an entry is the memory its pointer leads to. *)
Record emds_entry := { entry_id : Z; entry_data : list Z; entry_len : Z }.
Definition set_data (e : emds_entry) (data : list Z) : emds_entry :=
  {| entry_id := entry_id e; entry_data := data; entry_len := entry_len e |}.

(** The static variables, the entries of the linker section, the flash, and how
    often the callback of the application was called. *)
Record emds := {
  emds_ready : bool;
  emds_initialized : bool;
  emds_dynamic_entries : list emds_entry;
  emds_static_entries : list emds_entry;
  emds_flash : emds_fs;
  emds_dev : nvm;
  app_store_cb : bool;
  store_cb_calls : nat
}.
Definition set_storage (s : emds) (f : emds_fs) (d : nvm) : emds :=
  {| emds_ready := emds_ready s; emds_initialized := emds_initialized s;
     emds_dynamic_entries := emds_dynamic_entries s; emds_static_entries := emds_static_entries s;
     emds_flash := f; emds_dev := d; app_store_cb := app_store_cb s; store_cb_calls := store_cb_calls s |}.
Definition set_ready (s : emds) (b : bool) : emds :=
  {| emds_ready := b; emds_initialized := emds_initialized s;
     emds_dynamic_entries := emds_dynamic_entries s; emds_static_entries := emds_static_entries s;
     emds_flash := emds_flash s; emds_dev := emds_dev s; app_store_cb := app_store_cb s;
     store_cb_calls := store_cb_calls s |}.
Definition set_entries (s : emds) (dyn stat : list emds_entry) : emds :=
  {| emds_ready := emds_ready s; emds_initialized := emds_initialized s;
     emds_dynamic_entries := dyn; emds_static_entries := stat;
     emds_flash := emds_flash s; emds_dev := emds_dev s; app_store_cb := app_store_cb s;
     store_cb_calls := store_cb_calls s |}.
Definition set_initialized (s : emds) (cb : bool) : emds :=
  {| emds_ready := emds_ready s; emds_initialized := true;
     emds_dynamic_entries := []; emds_static_entries := emds_static_entries s;
     emds_flash := emds_flash s; emds_dev := emds_dev s; app_store_cb := cb;
     store_cb_calls := store_cb_calls s |}.
Definition call_store_cb (s : emds) : emds :=
  if app_store_cb s then
    {| emds_ready := emds_ready s; emds_initialized := emds_initialized s;
       emds_dynamic_entries := emds_dynamic_entries s; emds_static_entries := emds_static_entries s;
       emds_flash := emds_flash s; emds_dev := emds_dev s; app_store_cb := app_store_cb s;
       store_cb_calls := S (store_cb_calls s) |}
  else s.

(** On unsigned integers of 32 bits. *)
Definition DIV_ROUND_UP (n d : Z) : Z := u32 (n + d - 1) / d.
Definition UINT16_MAX : Z := 65535.

Section Emds.
Context `{FlashDev, Partition}.

Fixpoint sector_loop (fuel : nat) (emds_sector_size emds_storage_size cnt : Z) : res Z :=
  if cnt <? CONFIG_EMDS_SECTOR_COUNT then
    match fuel with
    | O => NoFuel
    | S fuel =>
      let emds_storage_size := u32 (emds_storage_size + emds_sector_size) in
      if fa_size <? emds_storage_size then Ok cnt
      else sector_loop fuel emds_sector_size emds_storage_size (u16 (cnt + 1))
    end
  else Ok cnt.

(** The file system of the partition; [k_panic] does not return. *)
Definition emds_fs_init (f : emds_fs) (d : nvm) : res (emds_fs * Z) :=
  let rc := flash_area_open in
  if negb (rc =? 0) then Ok (f, rc) else
  let '(rc, fs_size) := flash_area_get_sectors in
  if rc =? - errno_num ENODEV then Ok (f, rc)
  else if negb (rc =? 0) && negb (rc =? - errno_num ENOMEM) then Fault
  else
    let emds_sector_size := fs_size in
    if UINT16_MAX <? emds_sector_size then Ok (f, - errno_num EDOM) else
    let* cnt := sector_loop (Z.to_nat CONFIG_EMDS_SECTOR_COUNT) emds_sector_size 0 0 in
    emds_flash_init {| offset := fa_off; ate_wra := ate_wra f; ate_size := ate_size f;
      data_wra_offset := data_wra_offset f; sector_size := emds_sector_size; sector_cnt := cnt;
      is_initialized := is_initialized f; is_prepeared := is_prepeared f; flash_dev := fa_dev;
      flash_params := flash_params f; force_erase := force_erase f |} d.

(** One round of the loop over the entries: the size, and the entries counted. *)
Definition entries_size_step (f : emds_fs) (st : Z * Z) (ch : emds_entry) : Z * Z :=
  let size := u32 (st.1 + DIV_ROUND_UP (entry_len ch) write_block_size * write_block_size) in
  let size := u32 (size + DIV_ROUND_UP (ate_size f) write_block_size * write_block_size) in
  (size, st.2 + 1).

(** The size and the value returned. The parameters of the flash are read
    through a pointer. *)
Definition emds_entries_size (s : emds) : res (Z * Z) :=
  if negb (flash_params (emds_flash s)) then Fault else
  let st := foldl (entries_size_step (emds_flash s)) (0, 0) (emds_static_entries s) in
  Ok (foldl (entries_size_step (emds_flash s)) st (emds_dynamic_entries s)).

Definition emds_init (s : emds) (cb : bool) : res (emds * Z) :=
  if emds_initialized s then Ok (s, - errno_num EALREADY) else
  let* '(f, rc) := emds_fs_init (emds_flash s) (emds_dev s) in
  let s := set_storage s f (emds_dev s) in
  if negb (rc =? 0) then Ok (s, rc) else Ok (set_initialized s cb, 0).

Definition emds_entry_add (s : emds) (entry : emds_entry) : emds * Z :=
  if negb (emds_initialized s) then (s, - errno_num ECANCELED)
  else if existsb (fun ch => entry_id ch =? entry_id entry) (emds_dynamic_entries s)
  then (s, - errno_num EINVAL)
  else (set_ready (set_entries s (emds_dynamic_entries s ++ [entry]) (emds_static_entries s)) false, 0).

Fixpoint store_entries (f : emds_fs) (d : nvm) (es : list emds_entry) : res (emds_fs * nvm) :=
  match es with
  | [] => Ok (f, d)
  | ch :: es =>
    let* '(f, d, _) := emds_flash_write f d (entry_id ch) (entry_data ch) (entry_len ch) in
    store_entries f d es
  end.

Definition emds_store (s : emds) : res (emds * Z) :=
  if negb (emds_ready s) then Ok (s, - errno_num ECANCELED) else
  let* '(f, d) := store_entries (emds_flash s) (emds_dev s) (emds_static_entries s) in
  let* '(f, d) := store_entries f d (emds_dynamic_entries s) in
  Ok (call_store_cb (set_ready (set_storage s f d) false), 0).

Fixpoint load_entries (f : emds_fs) (m : list Z) (es : list emds_entry) : res (list emds_entry) :=
  match es with
  | [] => Ok []
  | ch :: es =>
    let* '(data, _) := emds_flash_read f m (entry_id ch) (entry_data ch) (entry_len ch) in
    let* es := load_entries f m es in
    Ok (set_data ch data :: es)
  end.

Definition emds_load (s : emds) : res (emds * Z) :=
  if negb (emds_initialized s) then Ok (s, - errno_num ECANCELED) else
  let* dyn := load_entries (emds_flash s) (cells (emds_dev s)) (emds_dynamic_entries s) in
  let* stat := load_entries (emds_flash s) (cells (emds_dev s)) (emds_static_entries s) in
  Ok (set_entries s dyn stat, 0).

Definition emds_clear (s : emds) : res (emds * Z) :=
  if negb (emds_initialized s) then Ok (s, - errno_num ECANCELED) else
  let* '(f, d, rc) := emds_flash_clear (emds_flash s) (emds_dev s) in
  Ok (set_storage s f d, rc).

(** The size is converted to a signed integer. *)
Definition emds_prepare (s : emds) : res (emds * Z) :=
  if negb (emds_initialized s) then Ok (s, - errno_num ECANCELED) else
  let* '(size, _) := emds_entries_size s in
  let* '(f, d, rc) := emds_flash_prepare (emds_flash s) (emds_dev s) (sint 32 size) in
  let s := set_storage s f d in
  if negb (rc =? 0) then Ok (s, rc) else Ok (set_ready s true, 0).

Definition store_time_step (f : emds_fs) (store_time_us : Z) (ch : emds_entry) : Z :=
  u32 (store_time_us +
    (DIV_ROUND_UP (entry_len ch) write_block_size * CONFIG_EMDS_FLASH_TIME_WRITE_ONE_WORD_US +
     DIV_ROUND_UP (ate_size f) write_block_size * CONFIG_EMDS_FLASH_TIME_WRITE_ONE_WORD_US +
     CONFIG_EMDS_FLASH_TIME_ENTRY_OVERHEAD_US)).

Definition emds_store_time_get (s : emds) : res Z :=
  if negb (flash_params (emds_flash s)) then Fault else
  let time := foldl (store_time_step (emds_flash s)) CONFIG_EMDS_FLASH_TIME_BASE_OVERHEAD_US
    (emds_static_entries s) in
  Ok (foldl (store_time_step (emds_flash s)) time (emds_dynamic_entries s)).

Definition emds_store_size_get (s : emds) : res Z :=
  let* '(store_size, _) := emds_entries_size s in Ok store_size.

Definition emds_is_ready (s : emds) : bool := emds_ready s.

End Emds.
