(* ===== verification/EmdsSpec.v ===== *)
(** * Emergency data storage: stores, restarts and loss of power

    Theorems on emds.c and emds_flash.c together: a storage that was prepared
    takes all the entries it was prepared for; they are found again after a
    restart; and if the supply fails in the middle, each entry is found complete
    or not at all. *)

From stdpp Require Import prelude list gmap.
From Stdlib Require Import ZArith Lia.
From S2P Require Import Prelude EmdsFlash EmdsFlashSpec Emds.

Open Scope Z_scope.

(** ** Sequences of entries *)

Section Store.
Context `{FlashDev}.

(** The octets that an entry stores. *)
Definition payload (e : emds_entry) : list Z := take (Z.to_nat (entry_len e)) (entry_data e).

Definition entry_ok (e : emds_entry) : Prop :=
  bits 16 (entry_id e) /\ 0 < entry_len e < 65536 /\ entry_len e <= zlen (entry_data e) /\ bytes (payload e).

(** The octets and the words of the flash that it takes. *)
Definition cost (f : emds_fs) (e : emds_entry) : Z := align_size (entry_len e) + ate_size f.
Definition costs (f : emds_fs) (es : list emds_entry) : Z := foldr (fun e n => cost f e + n) 0 es.
Definition words (es : list emds_entry) : nat :=
  foldr (fun e n => data_words (payload e) + 2 + n)%nat 0%nat es.

(** The entries of the table, from the offset of the data on. *)
Fixpoint place (off : Z) (es : list emds_entry) : list entry :=
  match es with
  | [] => []
  | e :: es =>
    {| e_id := entry_id e; e_off := off; e_data := payload e |} :: place (off + align_size (entry_len e)) es
  end.

Lemma length_payload e : entry_ok e -> zlen (payload e) = entry_len e.
Proof. intros (_ & Hl & Hd & _). unfold payload. rewrite length_take. lia. Qed.

Lemma payload_seen e : seen (entry_data e) 0 (payload e).
Proof.
  unfold payload. rewrite <- (take_drop (Z.to_nat (entry_len e)) (entry_data e)) at 1. apply seen_here.
Qed.

(** Both pointers of the storage may have moved. *)
Definition moved (f f' : emds_fs) : Prop :=
  exists a b, f' = set_ate_wra (set_data_wra f b) a.

Lemma moved_refl f : moved f f.
Proof. exists (ate_wra f), (data_wra_offset f). by destruct f. Qed.

Lemma moved_advanced f f' len : moved (advanced f len) f' -> moved f f'.
Proof. intros (a & b & ->). by exists a, b. Qed.

Lemma store_entries_app f d es es' :
  store_entries f d (es ++ es') = let* '(f, d) := store_entries f d es in store_entries f d es'.
Proof.
  revert f d. induction es as [|e es IH]; intros f d; [done|]. cbn [app store_entries].
  destruct (emds_flash_write f d _ _ _) as [[[f' d'] rc]| | |]; [|done..]. cstep. apply IH.
Qed.

(** A storage that takes entries. *)
Definition open (f : emds_fs) (d : nvm) : Prop :=
  ready f d /\ bytes (cells d) /\ is_initialized f = true /\ is_prepeared f = true.

Lemma bytes_wrote d d' a w : bytes (cells d) -> bytes w -> wrote d d' a w -> bytes (cells d').
Proof. intros Hb Hw (_ & -> & _). apply bytes_splice; [done|]. by apply Forall_take. Qed.

(** One entry, for which there is room. *)
Lemma write_entry f d e :
  open f d -> entry_ok e -> cost f e <= room f ->
  exists d1 d2, emds_flash_write f d (entry_id e) (entry_data e) (entry_len e) =
      Ok (advanced f (entry_len e), d2, entry_len e) /\
    wrote d d1 (offset f + data_wra_offset f) (padded (payload e)) /\
    wrote d1 d2 (ate_wra f) (entry_slot (entry_id e) (data_wra_offset f) (payload e)) /\
    open (advanced f (entry_len e)) d2 /\ room (advanced f (entry_len e)) = room f - cost f e.
Proof.
  intros (Hr & Hb & Hi & Hp) He Hc. pose proof (length_payload e He) as Hl. destruct He as (Hid & Hlen & _ & Hpb).
  assert (Hfit : fits f (zlen (payload e))) by (unfold fits, cost, room in *; rewrite Hl; lia).
  destruct (emds_flash_write_spec f d (entry_id e) (payload e) (entry_data e)) as
    [[Hn _]|(_ & d1 & d2 & Hrun & Hw1 & Hw2)]; try done; [lia|apply payload_seen|].
  exists d1, d2. rewrite Hl in Hrun. split; [done|]. split; [done|]. split; [done|].
  split; [split_and!; [| |done..]|].
  - assert (Hr2 : ready (advanced f (zlen (payload e))) d2).
    { apply (ready_advanced f d d1 d2 _ (entry_slot (entry_id e) (data_wra_offset f) (payload e))); (done || lia). }
    by rewrite Hl in Hr2.
  - apply (bytes_wrote d1 d2 (ate_wra f) (entry_slot (entry_id e) (data_wra_offset f) (payload e))); [|by apply ate_octets_bytes, new_ate_ok|done].
    apply (bytes_wrote d d1 (offset f + data_wra_offset f) (padded (payload e))); [done|by apply bytes_padded|done].
  - unfold room, cost. cbn. lia.
Qed.

Lemma costs_nonneg f es : 0 <= ate_size f -> Forall entry_ok es -> 0 <= costs f es.
Proof.
  intros H8. induction 1 as [|x xs (_ & Hx & _) _ IHx]; [done|]. cbn. fold (costs f xs). unfold cost.
  destruct (align_size_spec (entry_len x)) as [_ ?]; lia.
Qed.

Lemma open_ate_size f d : open f d -> 0 <= ate_size f.
Proof. intros ([Hg _ _ _ _ _] & _). destruct (geometry_facts f Hg) as [H8 _]. lia. Qed.

(** Without power nothing changes. *)
Lemma wrote_dark d d' a w : power d = Some 0%nat -> wrote d d' a w -> cells d' = cells d /\ power d' = Some 0%nat.
Proof. intros Hp (_ & -> & ->). rewrite Hp. split; [apply splice_nil|done]. Qed.

Lemma store_entries_dark f d es :
  open f d -> Forall entry_ok es -> costs f es <= room f -> power d = Some 0%nat ->
  exists f' d', store_entries f d es = Ok (f', d') /\ open f' d' /\ moved f f' /\
    cells d' = cells d /\ power d' = Some 0%nat.
Proof.
  revert f d. induction es as [|e es IH]; intros f d Ho Hes Hc Hp.
  { exists f, d. split_and!; try done; try apply Ho. apply moved_refl. }
  apply Forall_cons in Hes as [He Hes]. cbn [costs foldr] in Hc. fold (costs f es) in Hc.
  pose proof (costs_nonneg f es (open_ate_size f d Ho) Hes) as Hpos.
  destruct (write_entry f d e Ho He ltac:(lia)) as (d1 & d2 & Hrun & Hw1 & Hw2 & Ho2 & Hroom).
  destruct (wrote_dark _ _ _ _ Hp Hw1) as [Hc1 Hp1]. destruct (wrote_dark _ _ _ _ Hp1 Hw2) as [Hc2 Hp2].
  destruct (IH (advanced f (entry_len e)) d2) as (f' & d' & Hrun' & Ho' & Hm & Hc' & Hp'); try done.
  { change (costs (advanced f (entry_len e)) es) with (costs f es). lia. }
  exists f', d'. cbn [store_entries]. rewrite Hrun. cstep. split; [done|]. split; [done|].
  split; [by apply moved_advanced in Hm|]. split; [congruence|done].
Qed.

(** The flash has the entries [es], perhaps with a torn one behind them. *)
Definition surviving (f : emds_fs) (m : list Z) (n : nat) (es : list entry) (cut : option Z) : Prop :=
  Forall (kept f m) es /\ exists a torn,
    table (set_ate_wra f a) m (replicate n (replicate 8 0) ++ (slot_of <$> es) ++ torn) /\
    (torn = [] \/ exists id off data, cut = Some id /\ torn = [torn_slot id off data] /\ 0 <= off < 65535).

Lemma stored_surviving f m n es cut : stored f m n es -> surviving f m n es cut.
Proof.
  intros [Ht Hk _ _]. split; [done|]. exists (ate_wra f), []. rewrite app_nil_r. split; [|by left].
  by destruct Ht.
Qed.

(** The pointers do not matter for what survives. *)
Lemma surviving_moved f f' m n es cut : moved f f' -> surviving f' m n es cut -> surviving f m n es cut.
Proof.
  intros (a & b & ->) (Hk & c & torn & Ht & Htorn). split; [exact Hk|]. exists c, torn.
  split; [|done]. by destruct Ht.
Qed.

(** How many entries are written completely with the power [p], and the
    identifier of the one that is not. *)
Fixpoint complete (p : option nat) (es : list emds_entry) : nat :=
  match es with
  | [] => 0
  | e :: es =>
    let w := (data_words (payload e) + 2)%nat in
    if (limit p w =? w)%nat then S (complete (drain p w) es) else 0
  end.
Definition cut_id (p : option nat) (es : list emds_entry) : option Z :=
  entry_id <$> es !! complete p es.

Lemma complete_all p es : limit p (words es) = words es -> complete p es = length es.
Proof.
  revert p. induction es as [|e es IH]; intros p; [done|]. cbn [words foldr complete length]. fold (words es).
  rewrite limit_add. set (w := (data_words (payload e) + 2)%nat). pose proof (limit_le p w).
  pose proof (limit_le (drain p w) (words es)). intros Hl.
  destruct (Nat.eqb_spec (limit p w) w); [|lia]. f_equal. apply IH. lia.
Qed.

Lemma complete_le p es : (complete p es <= length es)%nat.
Proof.
  revert p. induction es as [|e es IH]; intros p; [done|]. cbn [complete length].
  case_match; [|lia]. specialize (IH (drain p (data_words (payload e) + 2))). lia.
Qed.

(** A storage that was prepared for the entries takes them all while there is
    power; when it fails, the entries before that one are kept. *)
Lemma store_entries_spec f d n old es :
  open f d -> stored f (cells d) n old -> Forall entry_ok es -> costs f es <= room f ->
  exists f' d', store_entries f d es = Ok (f', d') /\ open f' d' /\ moved f f' /\
    surviving f (cells d') n (old ++ take (complete (power d) es) (place (data_wra_offset f) es))
      (cut_id (power d) es) /\
    (complete (power d) es = length es ->
      stored f' (cells d') n (old ++ place (data_wra_offset f) es) /\ power d' = drain (power d) (words es)).
Proof.
  revert f d old. induction es as [|e es IH]; intros f d old Ho Hst Hes Hc.
  { exists f, d. split; [done|]. split; [done|]. split; [apply moved_refl|]. cbn. rewrite app_nil_r.
    split; [by apply stored_surviving|]. split; [done|]. by destruct (power d); cbn; rewrite ?Nat.sub_0_r. }
  apply Forall_cons in Hes as [He Hes]. cbn [costs foldr] in Hc. fold (costs f es) in Hc.
  pose proof (costs_nonneg f es (open_ate_size f d Ho) Hes) as Hpos.
  pose proof (length_payload e He) as Hl. pose proof He as (Hid & Hlen & _ & Hpb).
  destruct (write_entry f d e Ho He ltac:(lia)) as (d1 & d2 & Hrun & Hw1 & Hw2 & Ho2 & Hroom).
  assert (Hfit : fits f (zlen (payload e))) by (unfold fits, cost, room in *; rewrite Hl; lia).
  assert (Hroom2 : costs (advanced f (entry_len e)) es <= room (advanced f (entry_len e))).
  { change (costs (advanced f (entry_len e)) es) with (costs f es). lia. }
  cbn [store_entries words foldr place length]. fold (words es). rewrite Hrun. cstep.
  unfold cut_id. cbn [complete]. set (w := (data_words (payload e) + 2)%nat).
  destruct (Nat.eqb_spec (limit (power d) w) w) as [Hpow|Hpow].
  - destruct (stored_written f d d1 d2 n old (entry_id e) (payload e)) as [Hst2 Hp2]; try done; [apply Ho|lia|].
    rewrite Hl in Hst2. destruct (IH _ d2 _ Ho2 Hst2 Hes Hroom2) as (f' & d' & -> & Ho' & Hm & Hsur & Hall).
    rewrite <- !app_assoc, Hp2 in Hall, Hsur. fold w in Hall, Hsur.
    exists f', d'. split; [done|]. split; [done|]. split; [by apply moved_advanced in Hm|]. split.
    + apply (surviving_moved f (advanced f (entry_len e))); [by eexists _, _|exact Hsur].
    + intros [= Hk]. rewrite drain_add. by apply Hall.
  - assert (Hcut : (limit (power d) w < w)%nat) by (pose proof (limit_le (power d) w); lia).
    destruct (stored_cut f d d1 d2 n old (entry_id e) (payload e)) as (Hp2 & Hk & a & torn & Ht & Htorn);
      try done; [apply Ho|lia|].
    destruct (store_entries_dark _ d2 es Ho2 Hes Hroom2 Hp2) as (f' & d' & -> & Ho' & Hm & Hc' & _).
    exists f', d'. split; [done|]. split; [done|]. split; [by apply moved_advanced in Hm|]. split; [|done].
    rewrite app_nil_r, Hc'. split; [done|]. exists a, torn. split; [done|].
    destruct Htorn as [->| ->]; [by left|right]. eexists _, _, _. split; [done|]. split; [done|].
    destruct Ho as ([Hg _ _ _ _ [Hlow _ _ _]] & _). destruct (geometry_facts f Hg) as (H8 & _ & _ & _ & Hre).
    destruct Hg as (_ & _ & _ & _ & Ht65 & _). destruct Ho2 as ([_ _ _ Htop _ _] & _).
    unfold fits, region_end in *. cbn in Htop. destruct (align_size_spec (zlen (payload e))) as [_ ?]; lia.
Qed.
End Store.

(** ** Restart *)

Section Restart.
Context `{FlashDev}.

Lemma torn_slot_id id off data : bits 16 id -> ate_id (ate_of (torn_slot id off data)) = id.
Proof.
  intros Hid. apply le16_value. unfold bits in Hid. lia.
Qed.

(** The table is found again; a read gives what the entries say, and for the
    identifier of a torn entry perhaps an error. *)
Lemma surviving_boot g f d n es cut :
  bootable g -> same_region f g -> surviving f (cells d) n es cut ->
  (forall id, cut = Some id -> bits 16 id) -> bytes (cells d) ->
  exists f', emds_flash_init g d = Ok (f', 0) /\ booted f' (cells d) /\
    forall id buf len, len < 65535 ->
      emds_flash_read f' (cells d) id buf len = read_result id es buf len \/
      (cut = Some id /\ emds_flash_read f' (cells d) id buf len = Ok (buf, - errno_num ENOMEM)).
Proof.
  intros Hg Hs (Hk & a & torn & Ht & Htorn) Hid Hb.
  destruct (table_boot g (set_ate_wra f a) d _ Hg Hs Ht Hb) as (f' & Hrun & Ht' & Hi & Ho & _ & Hbo).
  exists f'. split; [done|]. split; [done|]. intros id buf len Hlen.
  assert (Hk' : Forall (kept f' (cells d)) es).
  { eapply Forall_impl; [exact Hk|]. intros e. unfold kept. by rewrite Ho. }
  destruct Htorn as [->|(id' & off & data & Hcut & -> & Hoff)].
  { left. rewrite app_nil_r in Ht'. by apply read_kept with n. }
  destruct (decide (id = id')) as [->|Hne].
  { destruct (read_torn f' (cells d) n es id' off data id' buf len); auto. }
  left. rewrite (emds_flash_read_spec f' (cells d) _ id buf len Ht' Hi), app_assoc, newest_snoc.
  unfold hits. rewrite torn_slot_id by auto. destruct (Z.eqb_spec id' id); [by subst|]. by apply read_ate_kept.
Qed.

(** What the entries placed in the flash say of an identifier. *)
Lemma take_place k off es : take k (place off es) = place off (take k es).
Proof.
  revert off es. induction k as [|k IH]; intros off es; [done|]. destruct es as [|e es]; [done|].
  cbn. f_equal. apply IH.
Qed.

Lemma place_absent off es id : id ∉ (entry_id <$> es) -> filter (fun e => e_id e = id) (place off es) = [].
Proof.
  revert off. induction es as [|e es IH]; intros off Hn; [done|]. cbn [fmap list_fmap] in Hn.
  apply not_elem_of_cons in Hn as [Hne Hn]. cbn [place]. rewrite filter_cons, decide_False by (cbn; congruence).
  by apply IH.
Qed.

Lemma lookup_place_absent off es id : id ∉ (entry_id <$> es) -> lookup_entry id (place off es) = None.
Proof. intros Hn. unfold lookup_entry. by rewrite place_absent. Qed.

Lemma lookup_place off es e :
  NoDup (entry_id <$> es) -> e ∈ es ->
  e_data <$> lookup_entry (entry_id e) (place off es) = Some (payload e).
Proof.
  revert off. induction es as [|x es IH]; intros off Hnd He; [by apply elem_of_nil in He|].
  cbn [fmap list_fmap] in Hnd. apply NoDup_cons in Hnd as [Hx Hnd]. unfold lookup_entry. cbn [place].
  rewrite filter_cons. apply elem_of_cons in He as [->|He].
  - rewrite decide_True by done. by rewrite place_absent.
  - rewrite decide_False; [by apply IH|]. cbn. intros Heq. apply Hx. rewrite Heq.
    by apply list_elem_of_fmap_2.
Qed.

(** ** Loading *)

(** The buffer of an entry with the data that was stored. *)
Definition restore (e ch : emds_entry) : emds_entry :=
  set_data ch (payload e ++ drop (Z.to_nat (entry_len e)) (entry_data ch)).

(** The same entry in the next run of the program, with another content. *)
Definition again (e ch : emds_entry) : Prop :=
  entry_id ch = entry_id e /\ entry_len ch = entry_len e /\ entry_len ch <= zlen (entry_data ch).

Lemma set_data_same ch : set_data ch (entry_data ch) = ch.
Proof. by destruct ch. Qed.

Lemma load_restored f m e ch :
  entry_ok e -> again e ch ->
  (exists es, e_data <$> lookup_entry (entry_id e) es = Some (payload e) /\
    emds_flash_read f m (entry_id ch) (entry_data ch) (entry_len ch) =
      read_result (entry_id ch) es (entry_data ch) (entry_len ch)) ->
  exists rc, emds_flash_read f m (entry_id ch) (entry_data ch) (entry_len ch) =
    Ok (entry_data (restore e ch), rc).
Proof.
  intros He (Hid & Hl & Hb) (es & Hlook & ->). pose proof (length_payload e He) as Hlp. destruct He as (_ & Hlen & _).
  unfold read_result. rewrite Hid. destruct (lookup_entry (entry_id e) es) as [x|]; [|done].
  injection Hlook as Hx. rewrite Hx, Hlp, Hl, Z.ltb_irrefl. exists (entry_len e).
  rewrite wr_block_start by lia. cstep. cbn [restore set_data entry_data]. do 4 f_equal. lia.
Qed.

(** What a load makes of an entry of which [es] were stored. *)
Definition outcome (es : list emds_entry) (e ch : emds_entry) : emds_entry :=
  if decide (entry_id e ∈ entry_id <$> es) then restore e ch else ch.

Lemma load_entries_spec f m off kept cut es chs :
  (forall id buf len, len < 65535 ->
    emds_flash_read f m id buf len = read_result id (place off kept) buf len \/
    (cut = Some id /\ emds_flash_read f m id buf len = Ok (buf, - errno_num ENOMEM))) ->
  NoDup (entry_id <$> kept) -> (forall id, cut = Some id -> id ∉ (entry_id <$> kept)) ->
  (forall e, e ∈ es -> entry_id e ∈ entry_id <$> kept -> e ∈ kept) ->
  Forall entry_ok es -> Forall (fun e => entry_len e < 65535) es -> Forall2 again es chs ->
  load_entries f m chs = Ok (zip_with (outcome kept) es chs).
Proof.
  intros Hread Hnd Hcut Hin Hok Hlen Hag. induction Hag as [|e ch es chs He Hag IH]; [done|].
  apply Forall_cons in Hok as [Hoe Hok]. apply Forall_cons in Hlen as [Hle Hlen]. cbn [load_entries zip_with].
  rewrite IH; [|intros x Hx; apply Hin; by right|done..]. unfold outcome. destruct (decide _) as [Hk|Hk].
  - destruct (load_restored f m e ch Hoe He) as [rc ->]; [|done]. destruct He as (Hid & Hl & _).
    exists (place off kept). split; [apply lookup_place; [done|]; apply Hin; [by left|done]|].
    destruct (Hread (entry_id ch) (entry_data ch) (entry_len ch)) as [->|[Hc _]]; [lia|done|].
    apply Hcut in Hc. by rewrite Hid in Hc.
  - destruct He as (Hid & Hl & _).
    destruct (Hread (entry_id ch) (entry_data ch) (entry_len ch)) as [->|[_ ->]]; [lia| |].
    + unfold read_result. rewrite lookup_place_absent by (by rewrite Hid). cstep. by rewrite set_data_same.
    + cstep. by rewrite set_data_same.
Qed.
End Restart.

(** ** The storage as a map *)

Section Map.
Context `{FlashDev}.

(** The abstract storage: the data of each identifier, the room that is left,
    and whether entries are taken. *)
Record kv := { kv_map : gmap Z (list Z); kv_room : Z; kv_open : bool }.

Inductive op :=
  | Put (id : Z) (data : list Z)
  | Get (id : Z) (buf : list Z)
  | Reset.

Definition op_ok (o : op) : Prop :=
  match o with
  | Put id data => bits 16 id /\ bytes data /\ 0 < zlen data < 65536
  | _ => True
  end.

Definition kv_step (s : kv) (o : op) : kv * (list Z * Z) :=
  match o with
  | Put id data =>
    let size := align_size (zlen data) + align_size EMDS_ATE_SIZE in
    if negb (kv_open s) then (s, ([], - errno_num EACCES))
    else if kv_room s <? size then (s, ([], - errno_num ENOMEM))
    else ({| kv_map := <[id := data]> (kv_map s); kv_room := kv_room s - size; kv_open := true |},
          ([], zlen data))
  | Get id buf =>
    (s, match kv_map s !! id with
        | None => (buf, - errno_num ENXIO)
        | Some data => if zlen buf <? zlen data then (buf, - errno_num ENOMEM)
                       else (data ++ drop (length data) buf, zlen data)
        end)
  | Reset => ({| kv_map := kv_map s; kv_room := kv_room s; kv_open := false |}, ([], 0))
  end.

(** The variables after a reset, with the region set. *)
Definition rebooted (f : emds_fs) : emds_fs :=
  {| offset := offset f; ate_wra := 0; ate_size := 0; data_wra_offset := 0; sector_size := sector_size f;
     sector_cnt := sector_cnt f; is_initialized := false; is_prepeared := false; flash_dev := true;
     flash_params := false; force_erase := false |}.

Definition flash_step (st : emds_fs * nvm) (o : op) : res ((emds_fs * nvm) * (list Z * Z)) :=
  let '(f, d) := st in
  match o with
  | Put id data => let* '(f, d, rc) := emds_flash_write f d id data (zlen data) in Ok (f, d, ([], rc))
  | Get id buf => let* out := emds_flash_read f (cells d) id buf (zlen buf) in Ok (f, d, out)
  | Reset => let* '(f, rc) := emds_flash_init (rebooted f) d in Ok (f, d, ([], rc))
  end.

Fixpoint run_kv (s : kv) (os : list op) : list (list Z * Z) :=
  match os with
  | [] => []
  | o :: os => let '(s, out) := kv_step s o in out :: run_kv s os
  end.
Fixpoint run_flash (st : emds_fs * nvm) (os : list op) : res (list (list Z * Z)) :=
  match os with
  | [] => Ok []
  | o :: os =>
    let* '(st, out) := flash_step st o in
    let* outs := run_flash st os in
    Ok (out :: outs)
  end.

Definition contents (es : list entry) : gmap Z (list Z) :=
  foldl (fun m e => <[e_id e := e_data e]> m) ∅ es.

Lemma contents_lookup es id : contents es !! id = e_data <$> lookup_entry id es.
Proof.
  induction es as [|e es IH] using rev_ind; [apply lookup_empty|].
  unfold contents in *. rewrite foldl_snoc, lookup_entry_snoc. destruct (Z.eqb_spec (e_id e) id) as [->|Hne].
  - by rewrite lookup_insert_eq.
  - by rewrite lookup_insert_ne.
Qed.

(** The simulation relation. *)
Definition sim (st : emds_fs * nvm) (s : kv) : Prop :=
  let '(f, d) := st in
  bytes (cells d) /\ is_initialized f = true /\ power d = None /\ is_prepeared f = kv_open s /\
  exists n es, kv_map s = contents es /\
    table f (cells d) (replicate n (replicate 8 0) ++ (slot_of <$> es)) /\ Forall (kept f (cells d)) es /\
    (kv_open s = true -> ready f d /\ stored f (cells d) n es /\ room f = kv_room s).

Lemma sim_get f d s id buf :
  sim (f, d) s -> emds_flash_read f (cells d) id buf (zlen buf) = Ok (kv_step s (Get id buf)).2.
Proof.
  intros (_ & Hi & _ & _ & n & es & Hm & Ht & Hk & _). rewrite (read_kept f (cells d) n es) by done.
  cbn. rewrite Hm, contents_lookup. unfold read_result. destruct (lookup_entry id es) as [e|]; [|done].
  cbn [fmap option_fmap option_map]. destruct (Z.ltb_spec (zlen buf) (zlen (e_data e))); [done|].
  by rewrite wr_block_start by lia.
Qed.

Lemma sim_reset f d s :
  sim (f, d) s -> exists f', emds_flash_init (rebooted f) d = Ok (f', 0) /\ sim (f', d) (kv_step s Reset).1.
Proof.
  intros (Hb & _ & Hp & _ & n & es & Hm & Ht & Hk & _).
  assert (Hg : bootable (rebooted f)).
  { split; [done|]. split; [done|]. destruct (table_geometry _ _ _ Ht) as (Hate & Hrest).
    rewrite Hate in Hrest. split; [done|exact Hrest]. }
  destruct (table_boot (rebooted f) f d _ Hg (conj eq_refl (conj eq_refl eq_refl)) Ht Hb)
    as (f' & Hrun & Ht' & Hi & Ho & Hpr & _).
  exists f'. split; [done|]. split_and!; try done. exists n, es. split_and!; try done.
  eapply Forall_impl; [exact Hk|]. intros e. unfold kept. by rewrite Ho.
Qed.

Lemma sim_put f d s id data :
  sim (f, d) s -> op_ok (Put id data) ->
  exists f' d', emds_flash_write f d id data (zlen data) = Ok (f', d', (kv_step s (Put id data)).2.2) /\
    sim (f', d') (kv_step s (Put id data)).1.
Proof.
  intros Hsim (Hid & Hb & Hl). pose proof Hsim as (Hbs & Hi & Hp & Hpr & n & es & Hm & Ht & Hk & Hopen).
  cbn [kv_step]. destruct (kv_open s); cbn [negb].
  2:{ exists f, d. split; [|done]. unfold emds_flash_write. by rewrite Hi, Hpr. }
  destruct (Hopen eq_refl) as (Hr & Hst & Hroom).
  assert (Hate : ate_size f = align_size EMDS_ATE_SIZE) by (by destruct (table_geometry _ _ _ Ht)).
  rewrite <- Hate, <- Hroom.
  set (e := {| entry_id := id; entry_data := data; entry_len := zlen data |}).
  assert (Hpay : payload e = data) by (unfold payload; cbn; by rewrite Nat2Z.id, take_ge by lia).
  assert (He : entry_ok e) by (by rewrite <- Hpay in Hb).
  destruct (Z.ltb_spec (room f) (align_size (zlen data) + ate_size f)) as [Hlt|Hge].
  - exists f, d. split; [|done].
    destruct (emds_flash_write_spec f d id data data) as [[_ ->]|[Hfit _]]; try done; [apply seen_all|].
    unfold fits, room in *. lia.
  - destruct (write_entry f d e) as (d1 & d2 & Hrun & Hw1 & Hw2 & Ho & Hroom2); [done|done|exact Hge|].
    exists (advanced f (zlen data)), d2. split; [exact Hrun|]. rewrite Hpay in Hw1, Hw2.
    destruct (stored_written f d d1 d2 n es id data) as [Hst2 Hp2]; try done.
    { unfold fits, room in *. lia. } { by rewrite Hp. }
    destruct Ho as (Hr2 & Hb2 & Hi2 & Hpr2). split_and!; [done|done|by rewrite Hp2, Hp|done|].
    eexists n, _. split_and!; [|apply Hst2|apply Hst2|].
    + cbn. rewrite Hm. unfold contents. by rewrite foldl_snoc.
    + intros _. split; [done|]. split; [done|]. exact Hroom2.
Qed.

Lemma run_sim os st s : sim st s -> Forall op_ok os -> run_flash st os = Ok (run_kv s os).
Proof.
  revert st s. induction os as [|o os IH]; intros [f d] s Hs Hos; [done|]. apply Forall_cons in Hos as [Ho Hos].
  cbn [run_flash run_kv flash_step]. destruct o as [id data|id buf|].
  - destruct (sim_put f d s id data Hs Ho) as (f' & d' & -> & Hs'). cstep.
    rewrite (IH _ _ Hs' Hos). cbn [kv_step]. cstep. by repeat case_match.
  - rewrite (sim_get f d s id buf Hs). cstep. by rewrite (IH _ _ Hs Hos).
  - destruct (sim_reset f d s Hs) as (f' & -> & Hs'). cstep. by rewrite (IH _ _ Hs' Hos).
Qed.
End Map.

(** ** The application interface *)

Section App.
Context `{FlashDev, Partition}.

(** The number of sectors that are used. *)
Definition sectors : Z := Z.min CONFIG_EMDS_SECTOR_COUNT (fa_size / flash_area_get_sectors.2).

(** The file system with the region of the partition. *)
Definition with_region (f : emds_fs) : emds_fs :=
  {| offset := fa_off; ate_wra := ate_wra f; ate_size := ate_size f; data_wra_offset := data_wra_offset f;
     sector_size := flash_area_get_sectors.2; sector_cnt := sectors; is_initialized := is_initialized f;
     is_prepeared := is_prepeared f; flash_dev := fa_dev; flash_params := flash_params f;
     force_erase := force_erase f |}.

(** A partition that the flash map knows, of at most [2 ^ 16] octets. *)
Record partition_ok : Prop := {
  partition_open : flash_area_open = 0;
  partition_sectors : flash_area_get_sectors.1 = 0 \/ flash_area_get_sectors.1 = - errno_num ENOMEM;
  partition_sector_size : flash_area_get_sectors.2 <= UINT16_MAX;
  partition_size : 0 <= fa_size < 2 ^ 31;
  partition_count : 1 <= CONFIG_EMDS_SECTOR_COUNT <= 65535;
  partition_dev : fa_dev = true;
  partition_geometry f : geometry (set_flags (with_region f) (align_size EMDS_ATE_SIZE) true (is_prepeared f))
}.

(** The loop counts the sectors that fit in the partition. *)
Lemma sector_loop_spec fuel size cnt :
  0 < size <= UINT16_MAX -> 0 <= fa_size < 2 ^ 31 -> CONFIG_EMDS_SECTOR_COUNT <= 65535 ->
  0 <= cnt <= CONFIG_EMDS_SECTOR_COUNT -> cnt * size <= fa_size ->
  CONFIG_EMDS_SECTOR_COUNT - cnt <= Z.of_nat fuel ->
  sector_loop fuel size (cnt * size) cnt = Ok (Z.min CONFIG_EMDS_SECTOR_COUNT (fa_size / size)).
Proof.
  intros Hs Hf Hc. unfold UINT16_MAX in Hs. revert cnt. induction fuel as [|fuel IH]; intros cnt Hcnt Hle Hfu.
  - cbn. destruct (Z.ltb_spec cnt CONFIG_EMDS_SECTOR_COUNT); [lia|].
    pose proof (Z.div_le_lower_bound fa_size size cnt). rewrite Z.min_l by lia. f_equal. lia.
  - cbn [sector_loop]. pose proof (Z.div_le_lower_bound fa_size size cnt).
    destruct (Z.ltb_spec cnt CONFIG_EMDS_SECTOR_COUNT); [|rewrite Z.min_l by lia; f_equal; lia].
    rewrite u32_small by nia. replace (cnt * size + size) with ((cnt + 1) * size) by lia.
    destruct (Z.ltb_spec fa_size ((cnt + 1) * size)) as [Hlt|Hge].
    + pose proof (Z.div_lt_upper_bound fa_size size (cnt + 1)). rewrite Z.min_r by lia. f_equal. lia.
    + rewrite u16_small by lia. apply IH; lia.
Qed.

Lemma emds_fs_init_eq f d : partition_ok -> emds_fs_init f d = emds_flash_init (with_region f) d.
Proof.
  intros [Ho Hs Hss Hf Hc Hd Hg]. destruct (Hg f) as (_ & _ & Hpos & _). cbn in Hpos.
  unfold emds_fs_init. rewrite Ho. cbn [Z.eqb negb]. unfold with_region, sectors.
  destruct flash_area_get_sectors as [rc size]. cbn [fst snd] in *.
  assert (Hrc : (rc =? - errno_num ENODEV) = false /\ negb (rc =? 0) && negb (rc =? - errno_num ENOMEM) = false)
    by (by destruct Hs as [->| ->]). destruct Hrc as [-> ->].
  destruct (Z.ltb_spec UINT16_MAX size); [lia|].
  pose proof (sector_loop_spec (Z.to_nat CONFIG_EMDS_SECTOR_COUNT) size 0) as Hloop.
  rewrite Z.mul_0_l in Hloop. rewrite Hloop by lia. done.
Qed.

(** A program that has initialised the storage. *)
Definition running (s : emds) : Prop :=
  emds_initialized s = true /\ booted (emds_flash s) (cells (emds_dev s)) /\
  same_region (emds_flash s) (with_region (emds_flash s)) /\ pofwarn (emds_dev s) = false.

Lemma with_region_bootable f : partition_ok -> is_initialized f = false -> bootable (with_region f).
Proof. intros Hp Hi. split; [done|]. split; [apply (partition_dev Hp)|exact (partition_geometry Hp f)]. Qed.

(** The size of the entries as the code computes it. *)
Lemma div_round_up x : 0 <= x < 2 ^ 31 -> DIV_ROUND_UP x write_block_size * write_block_size = align_size x.
Proof.
  intros Hx. destruct block_pos as [Hb _]. destruct (align_size_spec x Hx) as [[q Hq] Ha].
  unfold DIV_ROUND_UP. rewrite u32_small by lia. rewrite Hq. f_equal.
  symmetry. apply Z.div_unique with (x + write_block_size - 1 - q * write_block_size); lia.
Qed.

Lemma entries_size_spec f es size n :
  ate_size f = align_size EMDS_ATE_SIZE -> Forall entry_ok es -> 0 <= size -> size + costs f es < 2 ^ 32 ->
  foldl (entries_size_step f) (size, n) es = (size + costs f es, n + zlen es).
Proof.
  intros Hate Hes. destruct ate_size_spec as (H8 & Hw8 & _). revert size n.
  induction Hes as [|e es He Hes IH]; intros size n Hs Hc; [cbn; f_equal; lia|].
  cbn [costs foldr foldl length] in *. fold (costs f es) in *. unfold cost in *. destruct He as (_ & Hl & _).
  destruct (align_size_spec (entry_len e)) as [_ Hal]; [lia|].
  assert (0 <= costs f es) by (apply costs_nonneg; [lia|done]).
  unfold entries_size_step at 2. cbn [fst snd]. rewrite !div_round_up by lia.
  rewrite (align_size_id (ate_size f)) by (rewrite Hate; (lia || done)).
  rewrite (u32_small (size + _)), u32_small by lia. rewrite IH by lia. f_equal; lia.
Qed.

(** *** Initialisation *)

(** Whatever the flash holds, the storage starts. *)
Lemma emds_init_spec s cb :
  partition_ok -> emds_initialized s = false -> is_initialized (emds_flash s) = false ->
  zlen (cells (emds_dev s)) = flash_size -> bytes (cells (emds_dev s)) -> pofwarn (emds_dev s) = false ->
  exists f', emds_flash_init (with_region (emds_flash s)) (emds_dev s) = Ok (f', 0) /\
    emds_init s cb = Ok (set_initialized (set_storage s f' (emds_dev s)) cb, 0) /\
    running (set_initialized (set_storage s f' (emds_dev s)) cb).
Proof.
  intros Hp Hi Hfi Hm Hb Hq.
  destruct (emds_flash_init_spec (with_region (emds_flash s)) (emds_dev s)) as (f' & Hrun & Hbo & Ho & Hc & Hs);
    [by apply with_region_bootable|done..|].
  exists f'. split; [done|]. split.
  - unfold emds_init. rewrite Hi, emds_fs_init_eq, Hrun by done. done.
  - split; [done|]. split; [done|]. split; [|done].
    by split_and!; cbn; rewrite ?Ho, ?Hc, ?Hs.
Qed.

(** *** Preparation *)

Definition entries (s : emds) : list emds_entry := emds_static_entries s ++ emds_dynamic_entries s.
Definition capacity (f : emds_fs) : Z := sector_cnt f * sector_size f - ate_size f.

Lemma costs_app f es es' : costs f (es ++ es') = costs f es + costs f es'.
Proof. induction es as [|e es IH]; [done|]. cbn. fold (costs f (es ++ es')) (costs f es). lia. Qed.

Lemma emds_entries_size_spec s :
  flash_params (emds_flash s) = true -> geometry (emds_flash s) -> Forall entry_ok (entries s) ->
  costs (emds_flash s) (entries s) < 2 ^ 32 ->
  emds_entries_size s = Ok (costs (emds_flash s) (entries s), zlen (entries s)).
Proof.
  intros Hf Hg Hok Hc. unfold emds_entries_size, entries in *. rewrite Hf. cbn [negb].
  destruct (geometry_facts _ Hg) as [H8 _]. apply Forall_app in Hok as [Hs Hd]. rewrite costs_app in *.
  pose proof (costs_nonneg (emds_flash s) _ ltac:(lia) Hs). pose proof (costs_nonneg (emds_flash s) _ ltac:(lia) Hd).
  destruct Hg as [Hate _]. rewrite !entries_size_spec by (done || lia). rewrite length_app. do 2 f_equal. lia.
Qed.

(** The storage is ready exactly if the entries fit in the region. *)
Lemma emds_prepare_spec s :
  running s -> Forall entry_ok (entries s) -> costs (emds_flash s) (entries s) < 2 ^ 31 ->
  if capacity (emds_flash s) <? costs (emds_flash s) (entries s)
  then emds_prepare s = Ok (s, - errno_num ENOMEM)
  else exists f' d', emds_prepare s = Ok (set_ready (set_storage s f' d') true, 0) /\
    prepared f' d' (costs (emds_flash s) (entries s)) /\ same_region (emds_flash s) f' /\
    power d' = power (emds_dev s).
Proof.
  intros (Hi & Hb & _ & Hq) Hok Hc. pose proof Hb as (Hg & _ & Hfp & _).
  destruct (geometry_facts _ Hg) as [H8 _]. pose proof (costs_nonneg (emds_flash s) _ ltac:(lia) Hok) as Hpos.
  unfold emds_prepare. rewrite Hi. cbn [negb]. rewrite emds_entries_size_spec by (done || lia). cstep.
  set (size := costs _ _) in *.
  assert (E : sint 32 size = size).
  { unfold sint. rewrite Z.mod_small by lia. change (32 - 1) with 31. by destruct (Z.ltb_spec size (2 ^ 31)); [|lia]. }
  rewrite E. pose proof (emds_flash_prepare_spec (emds_flash s) (emds_dev s) size Hb Hq ltac:(lia)) as Hp.
  unfold capacity. destruct (_ <? size).
  - rewrite Hp. cstep. by destruct s.
  - destruct Hp as (f' & d' & -> & Hp & Ho & Hcn & Hs & Hpow). exists f', d'. cstep. done.
Qed.

(** *** Store and load *)

(** The state after a reset: the variables are zero again, [stat] is the content
    of the static entries, and the supply is back. *)
Definition zero_fs : emds_fs :=
  {| offset := 0; ate_wra := 0; ate_size := 0; data_wra_offset := 0; sector_size := 0; sector_cnt := 0;
     is_initialized := false; is_prepeared := false; flash_dev := false; flash_params := false;
     force_erase := false |}.
Definition restart (s : emds) (stat : list emds_entry) : emds :=
  {| emds_ready := false; emds_initialized := false; emds_dynamic_entries := []; emds_static_entries := stat;
     emds_flash := zero_fs;
     emds_dev := {| cells := cells (emds_dev s); power := None; pof := false; pofwarn := false;
                    pofcon_enabled := false |};
     app_store_cb := false; store_cb_calls := store_cb_calls s |}.

(** The dynamic entries are added one by one. *)
Definition add_all (s : emds) (es : list emds_entry) : emds := foldl (fun s e => (emds_entry_add s e).1) s es.

Lemma add_all_spec s es :
  emds_initialized s = true -> NoDup (entry_id <$> (emds_dynamic_entries s ++ es)) ->
  emds_dynamic_entries (add_all s es) = emds_dynamic_entries s ++ es /\
  emds_static_entries (add_all s es) = emds_static_entries s /\ emds_flash (add_all s es) = emds_flash s /\
  emds_dev (add_all s es) = emds_dev s /\ emds_initialized (add_all s es) = true.
Proof.
  revert s. induction es as [|e es IH]; intros s Hi Hnd; [by rewrite app_nil_r|].
  cbn [add_all foldl]. fold (add_all (emds_entry_add s e).1 es).
  assert (E : existsb (fun ch => entry_id ch =? entry_id e) (emds_dynamic_entries s) = false).
  { apply not_true_iff_false. intros (x & Hx & Heq)%existsb_exists. apply Z.eqb_eq in Heq.
    rewrite fmap_app in Hnd. apply NoDup_app in Hnd as (_ & Hdis & _).
    apply (Hdis (entry_id x)); [by apply list_elem_of_fmap_2, list_elem_of_In|]. rewrite Heq. by left. }
  unfold emds_entry_add. rewrite Hi, E. cbn [negb fst].
  set (s' := set_ready _ _). destruct (IH s') as (Hd & Hrest); [done| |].
  - cbn. by rewrite <- app_assoc.
  - rewrite Hd. cbn. by rewrite <- app_assoc.
Qed.

Lemma running_add_all s es :
  NoDup (entry_id <$> (emds_dynamic_entries s ++ es)) -> running s -> running (add_all s es).
Proof.
  intros Hnd (Hi & Hrest). destruct (add_all_spec s es Hi Hnd) as (_ & _ & Hf & Hd & Hi').
  split; [done|]. by rewrite Hf, Hd.
Qed.

(** The store after a preparation. *)
Lemma emds_store_spec s f d :
  prepared f d (costs f (entries s)) -> Forall entry_ok (entries s) ->
  exists f' d' n, emds_store (set_ready (set_storage s f d) true) =
      Ok (call_store_cb (set_ready (set_storage s f' d') false), 0) /\
    bytes (cells d') /\ open f' d' /\
    surviving f (cells d') n (place (data_wra_offset f) (take (complete (power d) (entries s)) (entries s)))
      (cut_id (power d) (entries s)) /\
    (complete (power d) (entries s) = length (entries s) ->
      stored f' (cells d') n (place (data_wra_offset f) (entries s)) /\
      power d' = drain (power d) (words (entries s))).
Proof.
  intros (Hr & Hb & Hi & Hp & Hroom & n & Ht) Hok.
  destruct (store_entries_spec f d n [] (entries s)) as (f' & d' & Hrun & Ho & Hm & Hsur & Hall); try done.
  { split; [by rewrite app_nil_r|by constructor..|done]. }
  exists f', d', n. rewrite app_nil_l, take_place in Hsur. split_and!; try done; [|apply Ho].
  unfold emds_store. cbn [set_ready set_storage emds_ready negb emds_flash emds_dev emds_static_entries
    emds_dynamic_entries]. unfold entries in Hrun. rewrite store_entries_app in Hrun.
  destruct (store_entries f d (emds_static_entries s)) as [[f1 d1]| | |]; try done.
  cbn [mbind res_bind] in *. by rewrite Hrun.
Qed.

(** The identifiers of the entries are different. *)
Lemma cut_absent p es id :
  NoDup (entry_id <$> es) -> cut_id p es = Some id -> id ∉ (entry_id <$> take (complete p es) es).
Proof.
  unfold cut_id. intros Hnd Hid. apply fmap_Some in Hid as (e & He & ->).
  rewrite <- (take_drop_middle es (complete p es) e He), fmap_app in Hnd.
  apply NoDup_app in Hnd as (_ & Hdis & _). intros Hin. apply (Hdis _ Hin). by left.
Qed.

Lemma same_id (es : list emds_entry) e x :
  NoDup (entry_id <$> es) -> e ∈ es -> x ∈ es -> entry_id e = entry_id x -> e = x.
Proof.
  intros Hnd (i & Hi)%list_elem_of_lookup (j & Hj)%list_elem_of_lookup Heq.
  assert (i = j) as ->; [|congruence].
  apply (NoDup_lookup (entry_id <$> es) i j (entry_id e) Hnd); rewrite list_lookup_fmap;
    [by rewrite Hi|by rewrite Hj, Heq].
Qed.

(** Prepare and store. *)
Lemma prepare_store s :
  running s -> Forall entry_ok (entries s) -> costs (emds_flash s) (entries s) <= capacity (emds_flash s) ->
  exists s1 s2 f n, emds_prepare s = Ok (s1, 0) /\ emds_store s1 = Ok (s2, 0) /\
    zlen (cells (emds_dev s2)) = flash_size /\ bytes (cells (emds_dev s2)) /\ same_region (emds_flash s) f /\
    surviving f (cells (emds_dev s2)) n
      (place (data_wra_offset f) (take (complete (power (emds_dev s)) (entries s)) (entries s)))
      (cut_id (power (emds_dev s)) (entries s)) /\
    (complete (power (emds_dev s)) (entries s) = length (entries s) ->
      power (emds_dev s2) = drain (power (emds_dev s)) (words (entries s))).
Proof.
  intros Hrun Hok Hcap. pose proof Hrun as (_ & (Hg & _) & _).
  destruct (geometry_facts _ Hg) as [H8 _]. pose proof Hg as (Hate & _ & _ & _ & H65 & _).
  pose proof (emds_prepare_spec s Hrun Hok) as Hprep. unfold capacity in *.
  destruct (Z.ltb_spec (sector_cnt (emds_flash s) * sector_size (emds_flash s) - ate_size (emds_flash s))
    (costs (emds_flash s) (entries s))); [lia|].
  destruct Hprep as (f1 & d1 & Hprep & Hp1 & Hs1 & Hpow); [lia|].
  assert (Hcosts : costs f1 (entries s) = costs (emds_flash s) (entries s)).
  { assert (Ha : ate_size f1 = ate_size (emds_flash s)).
    { destruct Hp1 as ([Hg1 _ _ _ _ _] & _). destruct Hg1 as [-> _]. by rewrite Hate. }
    unfold costs, cost. by rewrite Ha. }
  rewrite <- Hcosts in Hp1.
  destruct (emds_store_spec s f1 d1 Hp1 Hok) as (f2 & d2 & n & Hst & Hb2 & Ho2 & Hsur & Hall).
  rewrite Hpow in Hsur, Hall. set (s2 := call_store_cb _) in Hst.
  assert (Hc2 : emds_dev s2 = d2) by (unfold s2, call_store_cb; by case_match).
  destruct Ho2 as ([_ Hsize2 _ _ _ _] & _).
  eexists _, s2, f1, n. rewrite Hc2. split; [exact Hprep|]. split; [exact Hst|].
  split; [done|]. split; [done|]. split; [done|]. split; [done|]. intros Hk. by apply Hall.
Qed.

(** Reset, initialise, add the entries, load. *)
Lemma reload s stat dyn sl dl f n off p cb :
  partition_ok -> zlen (cells (emds_dev s)) = flash_size -> bytes (cells (emds_dev s)) ->
  same_region f (with_region zero_fs) -> Forall entry_ok (sl ++ dl) -> NoDup (entry_id <$> sl ++ dl) ->
  Forall (fun e => entry_len e < 65535) (sl ++ dl) ->
  let kept := take (complete p (sl ++ dl)) (sl ++ dl) in
  surviving f (cells (emds_dev s)) n (place off kept) (cut_id p (sl ++ dl)) ->
  Forall2 again sl stat -> Forall2 again dl dyn ->
  exists s3 s4, emds_init (restart s stat) cb = Ok (s3, 0) /\ emds_load (add_all s3 dyn) = Ok (s4, 0) /\
    emds_static_entries s4 = zip_with (outcome kept) sl stat /\
    emds_dynamic_entries s4 = zip_with (outcome kept) dl dyn.
Proof.
  intros Hpart Hm Hb Hreg Hok Hnd Hlen kept Hsur Hstat Hdyn.
  destruct (emds_init_spec (restart s stat) cb Hpart) as (f3 & Hfi & Hinit & Hrun3); try done.
  set (s3 := set_initialized _ _) in Hinit, Hrun3.
  destruct (surviving_boot (with_region zero_fs) f (emds_dev (restart s stat)) n _ _
    (with_region_bootable zero_fs Hpart eq_refl) Hreg Hsur) as (f3' & Hfi' & _ & Hread); [|done|].
  { intros id (e & He & ->)%fmap_Some. apply list_elem_of_lookup_2 in He. rewrite Forall_forall in Hok. by apply Hok. }
  change (emds_flash (restart s stat)) with zero_fs in Hfi. rewrite Hfi in Hfi'. injection Hfi' as <-.
  assert (Hnd' : NoDup (entry_id <$> dyn)).
  { rewrite fmap_app in Hnd. apply NoDup_app in Hnd as (_ & _ & Hnd).
    replace (entry_id <$> dyn) with (entry_id <$> dl); [done|]. clear -Hdyn.
    induction Hdyn as [|? ? ? ? (Hid & _) _ IH]; [done|]. cbn. by rewrite Hid, IH. }
  destruct (add_all_spec s3 dyn eq_refl Hnd') as (Hd4 & Hs4 & Hf4 & Hdev4 & Hi4).
  assert (Hload : forall es chs, (forall e, e ∈ es -> e ∈ sl ++ dl) -> Forall2 again es chs ->
    load_entries f3 (cells (emds_dev s)) chs = Ok (zip_with (outcome kept) es chs)).
  { intros es chs Hsub Hag. rewrite Forall_forall in Hok, Hlen. eapply load_entries_spec; [exact Hread|..|exact Hag].
    - unfold kept. rewrite fmap_take. by apply (sublist_NoDup _ (entry_id <$> sl ++ dl)); [|apply sublist_take].
    - intros id. by apply cut_absent.
    - intros e He (x & Hx & Hin)%list_elem_of_fmap. rewrite (same_id (sl ++ dl) e x); auto.
      rewrite <- (take_drop (complete p (sl ++ dl)) (sl ++ dl)). apply elem_of_app. by left.
    - apply Forall_forall. auto.
    - apply Forall_forall. auto. }
  exists s3, (set_entries (add_all s3 dyn) (zip_with (outcome kept) dl dyn) (zip_with (outcome kept) sl stat)).
  split; [exact Hinit|]. split; [|done].
  unfold emds_load. rewrite Hi4, Hf4, Hdev4, Hd4, Hs4. cbn [negb].
  change (emds_flash s3) with f3. change (cells (emds_dev s3)) with (cells (emds_dev s)).
  change (emds_static_entries s3) with stat. change (emds_dynamic_entries s3 ++ dyn) with dyn.
  rewrite (Hload dl dyn), (Hload sl stat); [cstep; done| | | |]; try done; intros e He; apply elem_of_app; auto.
Qed.

(** *** What is restored *)

Lemma outcome_all es chs (kept : list emds_entry) :
  (forall e, e ∈ es -> e ∈ kept) -> zip_with (outcome kept) es chs = zip_with restore es chs.
Proof.
  revert chs. induction es as [|e es IH]; intros [|ch chs] Hin; [done..|]. cbn.
  rewrite IH by (intros x Hx; apply Hin; by right). f_equal. unfold outcome.
  rewrite decide_True; [done|]. apply list_elem_of_fmap_2, Hin. by left.
Qed.

Lemma outcome_none es chs (kept : list emds_entry) :
  length es = length chs -> (forall e, e ∈ es -> entry_id e ∉ (entry_id <$> kept)) ->
  zip_with (outcome kept) es chs = chs.
Proof.
  revert chs. induction es as [|e es IH]; intros [|ch chs] Hl Hn; try done. cbn in *.
  rewrite IH by (try lia; intros x Hx; apply Hn; by right). f_equal. unfold outcome.
  rewrite decide_False; [done|]. apply Hn. by left.
Qed.

(** The first entries are restored, and the others as they were. *)
Lemma outcome_prefix k es chs :
  NoDup (entry_id <$> es) -> length es = length chs ->
  zip_with (outcome (take k es)) es chs = zip_with restore (take k es) (take k chs) ++ drop k chs.
Proof.
  intros Hnd Hl. rewrite <- (take_drop k es) at 2. rewrite <- (take_drop k chs) at 1.
  rewrite zip_with_app by (rewrite !length_take; lia). rewrite outcome_all by done.
  rewrite outcome_none; [done|rewrite !length_drop; lia|].
  intros e He Hin. rewrite <- (take_drop k es), fmap_app in Hnd. apply NoDup_app in Hnd as (_ & Hdis & _).
  apply (Hdis _ Hin). by apply list_elem_of_fmap_2.
Qed.

Lemma complete_words p es :
  (words (take (complete (Some p) es) es) <= p)%nat /\
  ((complete (Some p) es < length es)%nat -> (p < words (take (S (complete (Some p) es)) es))%nat).
Proof.
  revert p. induction es as [|e es IH]; intros p; [cbn; lia|]. cbn [complete limit drain].
  set (w := (data_words (payload e) + 2)%nat). destruct (Nat.eqb_spec (Nat.min p w) w).
  - specialize (IH (p - w)%nat). cbn [take words foldr length]. fold w.
    fold (words (take (complete (Some (p - w)%nat) es) es)).
    destruct IH as [IH1 IH2]. split; [lia|]. intros Hk.
    assert (Hk' : (complete (Some (p - w)%nat) es < length es)%nat) by lia. specialize (IH2 Hk').
    change (foldr _ 0%nat ?l) with (words l). lia.
  - cbn [take words foldr length]. rewrite take_0. cbn [foldr]. fold w. lia.
Qed.

(** *** The time of a store *)

Lemma word_count x : write_block_size = 4 -> 0 <= x < 2 ^ 31 -> DIV_ROUND_UP x write_block_size * 4 = align_size x.
Proof. intros Hw Hx. rewrite <- div_round_up by done. by rewrite Hw. Qed.

Lemma store_time_spec f es t :
  write_block_size = 4 -> ate_size f = align_size EMDS_ATE_SIZE -> Forall entry_ok es ->
  0 <= CONFIG_EMDS_FLASH_TIME_WRITE_ONE_WORD_US -> 0 <= CONFIG_EMDS_FLASH_TIME_ENTRY_OVERHEAD_US -> 0 <= t ->
  t + Z.of_nat (words es) * CONFIG_EMDS_FLASH_TIME_WRITE_ONE_WORD_US +
    zlen es * CONFIG_EMDS_FLASH_TIME_ENTRY_OVERHEAD_US < 2 ^ 32 ->
  foldl (store_time_step f) t es =
    t + Z.of_nat (words es) * CONFIG_EMDS_FLASH_TIME_WRITE_ONE_WORD_US +
    zlen es * CONFIG_EMDS_FLASH_TIME_ENTRY_OVERHEAD_US.
Proof.
  intros Hw Hate Hes HW HE. assert (H8 : ate_size f = 8).
  { rewrite Hate. apply align_size_id; [done|]. rewrite Hw. by exists 2. }
  revert t. induction Hes as [|e es He Hes IH]; intros t Ht Hc; [cbn; lia|].
  cbn [foldl words foldr length] in *. fold (words es) in *. pose proof (length_payload e He) as Hlp.
  destruct He as (_ & Hl & _). pose proof (padded_words (payload e) ltac:(lia)) as Hpw.
  pose proof (length_padded (payload e) ltac:(lia)) as Hpl. rewrite Hlp in Hpl.
  pose proof (word_count (entry_len e) Hw ltac:(lia)) as Hwc.
  assert (E : DIV_ROUND_UP (ate_size f) write_block_size = 2) by (by rewrite H8, Hw).
  unfold store_time_step at 2. rewrite E.
  assert (E2 : DIV_ROUND_UP (entry_len e) write_block_size = Z.of_nat (data_words (payload e))) by lia.
  rewrite E2. rewrite u32_small by nia. rewrite IH by nia. nia.
Qed.

(** *** Deviations *)

(** A write disables the power failure comparator for good. *)
Lemma comparator_stays_disabled d :
  nrf52_errata_242 = true -> pofwarn d = false -> pofcon_enabled d = false ->
  pof (restore_pofwarn (suspend_pofwarn d).1) = false.
Proof.
  intros He Hw Hp. unfold suspend_pofwarn. rewrite He. cbn [negb]. destruct (pof d) eqn:E.
  - cbn [set_pof pofwarn]. rewrite Hw. cbn [fst]. unfold restore_pofwarn. cbn. by rewrite Hp.
  - cbn [fst]. unfold restore_pofwarn. by rewrite Hp.
Qed.

(** The size of the entries cannot be asked for before the initialisation. *)
Lemma store_size_before_init s : flash_params (emds_flash s) = false -> emds_store_size_get s = Fault.
Proof. intros Hf. unfold emds_store_size_get, emds_entries_size. by rewrite Hf. Qed.

(** An erase that fails is not reported: the storage counts as prepared. *)
Lemma prepare_hides_erase_error f d size m e :
  is_initialized f = true -> force_erase f = true ->
  (u32 (sector_cnt f * sector_size f - ate_size f) <? u32 size) = false ->
  old_entries_invalidate f (cells d) = Ok (m, 0) ->
  flash_erase m (offset f) (sector_size f * sector_cnt f) = Err e ->
  exists f', emds_flash_prepare f d size = Ok (f', set_cells d m, 0) /\ is_prepeared f' = true.
Proof.
  intros Hi Hfo Hs Hinv Her. unfold emds_flash_prepare. rewrite Hi, Hs, Hinv. cstep. cbn [Z.eqb negb].
  rewrite Hfo. cbn [orb]. unfold emds_flash_clear. cbn [set_cells cells]. rewrite Her. cstep. by eexists.
Qed.

(** ** Properties *)

(** C5: when the supply fails at any word of a store, the entries that were
    written before are restored after the restart and all others keep the content
    they had: no entry is restored in part. The number of entries restored is the
    number whose words the power was enough for. *)
Theorem emds_power_loss s stat dyn cb p :
  partition_ok -> running s -> power (emds_dev s) = Some p ->
  Forall entry_ok (entries s) -> Forall (fun e => entry_len e < 65535) (entries s) ->
  NoDup (entry_id <$> entries s) -> costs (emds_flash s) (entries s) <= capacity (emds_flash s) ->
  Forall2 again (emds_static_entries s) stat -> Forall2 again (emds_dynamic_entries s) dyn ->
  exists s1 s2 s3 s4 k, emds_prepare s = Ok (s1, 0) /\ emds_store s1 = Ok (s2, 0) /\
    emds_init (restart s2 stat) cb = Ok (s3, 0) /\ emds_load (add_all s3 dyn) = Ok (s4, 0) /\
    entries s4 = zip_with restore (take k (entries s)) (take k (stat ++ dyn)) ++ drop k (stat ++ dyn) /\
    (words (take k (entries s)) <= p)%nat /\
    ((k < length (entries s))%nat -> (p < words (take (S k) (entries s)))%nat).
Proof.
  intros Hpart Hrun Hpow Hok Hlen Hnd Hcap Hstat Hdyn. pose proof Hrun as (_ & _ & (Ho & Hc & Hs) & _).
  destruct (prepare_store s Hrun Hok Hcap) as (s1 & s2 & f & n & Hp & Hst & Hm & Hb & (Ho' & Hc' & Hs') & Hsur & _).
  rewrite Hpow in Hsur. destruct (reload s2 stat dyn (emds_static_entries s) (emds_dynamic_entries s) f n
    (data_wra_offset f) (Some p) cb) as (s3 & s4 & Hi & Hl & Hes & Hed); try done.
  { split_and!; cbn in *; congruence. }
  exists s1, s2, s3, s4, (complete (Some p) (entries s)). split_and!; try done; [|apply complete_words..].
  rewrite <- outcome_prefix; [|done|unfold entries; rewrite !length_app; by rewrite (Forall2_length _ _ _ Hstat), (Forall2_length _ _ _ Hdyn)].
  change (entries s4) with (emds_static_entries s4 ++ emds_dynamic_entries s4). rewrite Hes, Hed.
  symmetry. apply zip_with_app. by eapply Forall2_length.
Qed.

(** C7: with enough power, everything that was stored is restored after the
    restart. *)
Theorem emds_round_trip s stat dyn cb :
  partition_ok -> running s -> limit (power (emds_dev s)) (words (entries s)) = words (entries s) ->
  Forall entry_ok (entries s) -> Forall (fun e => entry_len e < 65535) (entries s) ->
  NoDup (entry_id <$> entries s) -> costs (emds_flash s) (entries s) <= capacity (emds_flash s) ->
  Forall2 again (emds_static_entries s) stat -> Forall2 again (emds_dynamic_entries s) dyn ->
  exists s1 s2 s3 s4, emds_prepare s = Ok (s1, 0) /\ emds_store s1 = Ok (s2, 0) /\
    emds_init (restart s2 stat) cb = Ok (s3, 0) /\ emds_load (add_all s3 dyn) = Ok (s4, 0) /\
    emds_static_entries s4 = zip_with restore (emds_static_entries s) stat /\
    emds_dynamic_entries s4 = zip_with restore (emds_dynamic_entries s) dyn.
Proof.
  intros Hpart Hrun Hpow Hok Hlen Hnd Hcap Hstat Hdyn. pose proof Hrun as (_ & _ & (Ho & Hc & Hs) & _).
  destruct (prepare_store s Hrun Hok Hcap) as (s1 & s2 & f & n & Hp & Hst & Hm & Hb & (Ho' & Hc' & Hs') & Hsur & _).
  destruct (reload s2 stat dyn (emds_static_entries s) (emds_dynamic_entries s) f n
    (data_wra_offset f) (power (emds_dev s)) cb) as (s3 & s4 & Hi & Hl & Hes & Hed); try done.
  { split_and!; cbn in *; congruence. }
  fold (entries s) in Hes, Hed. rewrite complete_all, take_ge in Hes, Hed by done.
  exists s1, s2, s3, s4. rewrite Hes, Hed. split_and!; try done; apply outcome_all; intros e He;
    apply elem_of_app; auto.
Qed.

(** C35: whatever the flash holds, the storage can be initialised, and then
    prepared exactly if the entries fit in the region. *)
Theorem emds_init_prepare s cb :
  partition_ok -> emds_initialized s = false -> is_initialized (emds_flash s) = false ->
  zlen (cells (emds_dev s)) = flash_size -> bytes (cells (emds_dev s)) -> pofwarn (emds_dev s) = false ->
  Forall entry_ok (emds_static_entries s) ->
  exists s', emds_init s cb = Ok (s', 0) /\ running s' /\
    (costs (emds_flash s') (emds_static_entries s) < 2 ^ 31 ->
     if costs (emds_flash s') (emds_static_entries s) <=? capacity (emds_flash s')
     then exists s'', emds_prepare s' = Ok (s'', 0) /\ emds_is_ready s'' = true
     else emds_prepare s' = Ok (s', - errno_num ENOMEM)).
Proof.
  intros Hpart Hi Hfi Hm Hb Hq Hok.
  destruct (emds_init_spec s cb Hpart Hi Hfi Hm Hb Hq) as (f' & _ & Hinit & Hrun).
  set (s' := set_initialized _ _) in *. exists s'. split; [done|]. split; [done|]. intros Hc.
  assert (He : entries s' = emds_static_entries s) by (unfold entries; by rewrite app_nil_r).
  pose proof (emds_prepare_spec s' Hrun) as Hp. rewrite He in Hp. specialize (Hp Hok Hc).
  destruct (Z.ltb_spec (capacity (emds_flash s')) (costs (emds_flash s') (emds_static_entries s))),
    (Z.leb_spec (costs (emds_flash s') (emds_static_entries s)) (capacity (emds_flash s'))); try lia; [done|].
  destruct Hp as (f1 & d1 & -> & _). by eexists.
Qed.

(** C36: the time that is estimated for a store counts the words that the store
    writes, for a flash written in blocks of one word. *)
Theorem store_time_counts_words s p :
  running s -> write_block_size = 4 -> power (emds_dev s) = Some p -> (words (entries s) <= p)%nat ->
  Forall entry_ok (entries s) -> costs (emds_flash s) (entries s) <= capacity (emds_flash s) ->
  0 <= CONFIG_EMDS_FLASH_TIME_WRITE_ONE_WORD_US -> 0 <= CONFIG_EMDS_FLASH_TIME_ENTRY_OVERHEAD_US ->
  0 <= CONFIG_EMDS_FLASH_TIME_BASE_OVERHEAD_US ->
  let time := CONFIG_EMDS_FLASH_TIME_BASE_OVERHEAD_US +
    Z.of_nat (words (entries s)) * CONFIG_EMDS_FLASH_TIME_WRITE_ONE_WORD_US +
    zlen (entries s) * CONFIG_EMDS_FLASH_TIME_ENTRY_OVERHEAD_US in
  time < 2 ^ 32 ->
  emds_store_time_get s = Ok time /\
  exists s1 s2, emds_prepare s = Ok (s1, 0) /\ emds_store s1 = Ok (s2, 0) /\
    power (emds_dev s2) = Some (p - words (entries s))%nat.
Proof.
  intros Hrun Hw Hpow Hpw Hok Hcap HW HE HB time Ht. split.
  - destruct Hrun as (_ & (Hg & _ & Hf & _) & _). unfold emds_store_time_get. rewrite Hf. cbn [negb].
    destruct Hg as [Hate _]. rewrite <- foldl_app. fold (entries s). by rewrite store_time_spec.
  - destruct (prepare_store s Hrun Hok Hcap) as (s1 & s2 & f & n & Hp & Hst & _ & _ & _ & _ & Hall).
    exists s1, s2. split; [done|]. split; [done|]. rewrite Hpow in Hall. apply Hall, complete_all. cbn. lia.
Qed.
End App.

(** C6: until the next preparation, the storage is a map from identifiers to
    data of limited size: every sequence of writes, reads and resets of the device
    gives the results of the map. *)
Theorem flash_refines_map `{FlashDev} f d size os :
  prepared f d size -> power d = None -> Forall op_ok os ->
  run_flash (f, d) os = Ok (run_kv {| kv_map := ∅; kv_room := room f; kv_open := true |} os).
Proof.
  intros (Hr & Hb & Hi & Hp & _ & n & Ht) Hpow Hos. apply run_sim; [|done].
  split_and!; try done. exists n, []. rewrite app_nil_r. split_and!; try done.
  intros _. split; [done|]. split; [|done]. split; [by rewrite app_nil_r|by constructor..|done].
Qed.

(** ** Witnesses

    A partition of three pages of the flash of 256 octets. *)

Module Demo.
#[local] Existing Instance flash_reference.

#[local] Instance partition_reference : Partition := {|
  flash_area_open := 0;
  flash_area_get_sectors := (- errno_num ENOMEM, 64);
  fa_size := 200;
  fa_off := 64;
  fa_dev := true;
  CONFIG_EMDS_SECTOR_COUNT := 4;
  CONFIG_EMDS_FLASH_TIME_BASE_OVERHEAD_US := 9000;
  CONFIG_EMDS_FLASH_TIME_WRITE_ONE_WORD_US := 43;
  CONFIG_EMDS_FLASH_TIME_ENTRY_OVERHEAD_US := 300
|}.

Lemma partition_reference_ok : partition_ok.
Proof.
  split; [done|by right|done|done|done|done|]. intros f. split_and!; try done; [by exists 1..].
Qed.

(** The state of a device that was switched on, with a flash of arbitrary
    content. *)
Definition device (m : list Z) (p : option nat) : nvm :=
  {| cells := m; power := p; pof := false; pofwarn := false; pofcon_enabled := false |}.
Definition noise : list Z := (fun i => Z.of_nat i * 37 mod 256) <$> seq 0 256.
Definition entry_of (id : Z) (data : list Z) : emds_entry :=
  {| entry_id := id; entry_data := data; entry_len := zlen data |}.
Definition off (m : list Z) (p : option nat) : emds :=
  {| emds_ready := false; emds_initialized := false; emds_dynamic_entries := [];
     emds_static_entries := [entry_of 1 [1; 2; 3; 4; 5]]; emds_flash := zero_fs; emds_dev := device m p;
     app_store_cb := false; store_cb_calls := 0 |}.
Definition boot_fs (p : option nat) : emds_fs :=
  match emds_flash_init (with_region zero_fs) (device noise p) with Ok (f, _) => f | _ => zero_fs end.
Definition on (p : option nat) : emds :=
  add_all (set_initialized (set_storage (off noise p) (boot_fs p) (device noise p)) true) [entry_of 2 [8; 9]].

Lemma on_running p : running (on p).
Proof.
  apply running_add_all; [by apply NoDup_singleton|].
  destruct (emds_init_spec (off noise p) true partition_reference_ok) as (f' & Hfi & _ & Hrun);
    [done|done|by vm_compute|by_compute|done|].
  change (emds_flash_init (with_region zero_fs) (device noise p) = Ok (f', 0)) in Hfi.
  unfold boot_fs. rewrite Hfi. exact Hrun.
Qed.

Lemma on_entries_eq p : entries (on p) = [entry_of 1 [1; 2; 3; 4; 5]; entry_of 2 [8; 9]].
Proof. by vm_compute. Qed.

Definition stat_again : list emds_entry := [entry_of 1 [0; 0; 0; 0; 0]].
Definition dyn_again : list emds_entry := [entry_of 2 [7; 7]].

Lemma on_entries p : Forall entry_ok (entries (on p)) /\ Forall (fun e => entry_len e < 65535) (entries (on p)) /\
  NoDup (entry_id <$> entries (on p)) /\ costs (emds_flash (on p)) (entries (on p)) <= capacity (emds_flash (on p)).
Proof.
  split_and!; [rewrite on_entries_eq..|by vm_compute].
  - by repeat constructor.
  - by repeat constructor.
  - by_compute.
Qed.

Lemma emds_power_loss_witness : exists s1 s2 s3 s4 k,
  emds_prepare (on (Some 5%nat)) = Ok (s1, 0) /\ emds_store s1 = Ok (s2, 0) /\
  emds_init (restart s2 stat_again) false = Ok (s3, 0) /\ emds_load (add_all s3 dyn_again) = Ok (s4, 0) /\
  entries s4 = zip_with restore (take k (entries (on (Some 5%nat)))) (take k (stat_again ++ dyn_again)) ++
    drop k (stat_again ++ dyn_again) /\
  (words (take k (entries (on (Some 5%nat)))) <= 5)%nat /\
  ((k < length (entries (on (Some 5%nat))))%nat -> (5 < words (take (S k) (entries (on (Some 5%nat)))))%nat).
Proof.
  apply (emds_power_loss (on (Some 5%nat)) stat_again dyn_again false 5);
    [apply partition_reference_ok|apply on_running|done|apply on_entries..| |].
  - by repeat constructor.
  - by repeat constructor.
Defined.

Lemma emds_round_trip_witness : exists s1 s2 s3 s4,
  emds_prepare (on (Some 9%nat)) = Ok (s1, 0) /\ emds_store s1 = Ok (s2, 0) /\
  emds_init (restart s2 stat_again) false = Ok (s3, 0) /\ emds_load (add_all s3 dyn_again) = Ok (s4, 0) /\
  emds_static_entries s4 = zip_with restore (emds_static_entries (on (Some 9%nat))) stat_again /\
  emds_dynamic_entries s4 = zip_with restore (emds_dynamic_entries (on (Some 9%nat))) dyn_again.
Proof.
  apply (emds_round_trip (on (Some 9%nat)) stat_again dyn_again false);
    [apply partition_reference_ok|apply on_running|by vm_compute|apply on_entries..| |].
  - by repeat constructor.
  - by repeat constructor.
Defined.

Lemma emds_init_prepare_witness : exists s', emds_init (off noise None) true = Ok (s', 0) /\ running s' /\
  (costs (emds_flash s') (emds_static_entries (off noise None)) < 2 ^ 31 ->
   if costs (emds_flash s') (emds_static_entries (off noise None)) <=? capacity (emds_flash s')
   then exists s'', emds_prepare s' = Ok (s'', 0) /\ emds_is_ready s'' = true
   else emds_prepare s' = Ok (s', - errno_num ENOMEM)).
Proof.
  apply (emds_init_prepare (off noise None) true);
    [apply partition_reference_ok|done|done|by vm_compute|by_compute|done|by repeat constructor].
Defined.

Lemma store_time_counts_words_witness :
  emds_store_time_get (on (Some 9%nat)) = Ok (9000 + 7 * 43 + 2 * 300) /\
  exists s1 s2, emds_prepare (on (Some 9%nat)) = Ok (s1, 0) /\ emds_store s1 = Ok (s2, 0) /\
    power (emds_dev s2) = Some 2%nat.
Proof.
  assert (Ew : words (entries (on (Some 9%nat))) = 7%nat) by by_compute.
  destruct (store_time_counts_words (on (Some 9%nat)) 9) as [Ht Hs];
    [apply on_running|done|done|rewrite Ew; by_compute|apply on_entries|apply on_entries|done..|
     rewrite Ew, on_entries_eq; done|].
  rewrite Ew in Ht, Hs. rewrite on_entries_eq in Ht. split; [exact Ht|exact Hs].
Defined.

(** The same partition with nothing in it, prepared. *)
Definition clean : emds_fs :=
  {| offset := 64; ate_wra := 248; ate_size := 8; data_wra_offset := 0; sector_size := 64; sector_cnt := 3;
     is_initialized := true; is_prepeared := true; flash_dev := true; flash_params := true;
     force_erase := false |}.

Lemma clean_prepared : prepared clean (device (replicate 256 255) None) 184.
Proof.
  assert (Hg : geometry clean) by (split_and!; try done; by exists 1).
  split; [|split; [by_compute|split; [done|split; [done|split; [done|exists 0%nat]]]]].
  - split; [done|done|done|done|by exists 62|]. split; [done|by exists 0|done|]. split; [done|by vm_compute].
  - split; [done|done|done|done| |split; [done|by vm_compute]]. intros i s Hs. by destruct i.
Qed.

Definition script : list op :=
  [Put 7 [1; 2; 3]; Get 7 [0; 0; 0; 0]; Put 7 [4]; Reset; Get 7 [0; 0; 0; 0]; Get 8 [0]; Put 8 [1]].

Lemma flash_refines_map_witness :
  run_flash (clean, device (replicate 256 255) None) script =
    Ok (run_kv {| kv_map := ∅; kv_room := 184; kv_open := true |} script) /\
  run_kv {| kv_map := ∅; kv_room := 184; kv_open := true |} script =
    [([], 3); ([1; 2; 3; 0], 3); ([], 1); ([], 0); ([4; 0; 0; 0], 1); ([0], -6); ([], -13)].
Proof.
  split; [|by vm_compute].
  apply (flash_refines_map clean (device (replicate 256 255) None) 184);
    [apply clean_prepared|done|by repeat constructor].
Defined.
End Demo.
