(* ===== verification/Pcm.v ===== *)
(** * Audio samples: contin_array, pcm_mix and pcm_stream_channel_modifier

    Three libraries on buffers of samples: the endless repetition of a finite
    buffer, the mixing of two streams with clipping, and the conversion between
    one stereo and two mono streams. Buffers are lists of octets. *)

From stdpp Require Import prelude list.
From Stdlib Require Import ZArith Lia.
From S2P Require Import Prelude.

Open Scope Z_scope.

(** ** contin_array *)

Module Contin.

Fixpoint create_loop (n : nat) (pcm_cont pcm_finite : list Z) (pcm_finite_size i finite_pos : Z)
    : res (list Z * Z) :=
  match n with
  | O => Ok (pcm_cont, finite_pos)
  | S n =>
    let finite_pos := if u32 (pcm_finite_size - 1) <? finite_pos then 0 else finite_pos in
    let* c := rd pcm_finite finite_pos in
    let* pcm_cont := wr pcm_cont i c in
    create_loop n pcm_cont pcm_finite pcm_finite_size (i + 1) (u32 (finite_pos + 1))
  end.

(** The buffer, the position and the value returned; a pointer that is [None] is
    null. *)
Definition contin_array_create (pcm_cont : option (list Z)) (pcm_cont_size : Z)
    (pcm_finite : option (list Z)) (pcm_finite_size finite_pos : Z) : res (option (list Z) * Z * Z) :=
  match pcm_cont, pcm_finite with
  | Some cont, Some finite =>
    if (pcm_cont_size =? 0) || (pcm_finite_size =? 0)
    then Ok (pcm_cont, finite_pos, - errno_num EPERM)
    else
      let* '(cont, finite_pos) :=
        create_loop (Z.to_nat pcm_cont_size) cont finite pcm_finite_size 0 finite_pos in
      Ok (Some cont, finite_pos, 0)
  | _, _ => Ok (pcm_cont, finite_pos, - errno_num ENXIO)
  end.

(** The octets [k] to [k + n] of the endless repetition. *)
Definition repetition (finite : list Z) (k : Z) (n : nat) : list Z :=
  (fun i => zth finite (i mod zlen finite)) <$> seqZ k (Z.of_nat n).

Lemma repetition_S finite k n :
  repetition finite k (S n) = zth finite (k mod zlen finite) :: repetition finite (k + 1) n.
Proof.
  unfold repetition. rewrite Nat2Z.inj_succ, seqZ_cons by lia. cbn [fmap list_fmap].
  by rewrite Z.pred_succ, Z.add_1_r.
Qed.

Lemma length_repetition finite k n : length (repetition finite k n) = n.
Proof. unfold repetition. by rewrite length_fmap, length_seqZ, Nat2Z.id. Qed.

(** A position that stands for the octet [k] of the repetition. *)
Definition at_octet (finite : list Z) (pos k : Z) : Prop :=
  0 <= pos <= zlen finite /\ pos mod zlen finite = k mod zlen finite.

Lemma create_loop_spec n e rest finite i pos k :
  0 < zlen finite < 2 ^ 32 -> i = zlen e -> at_octet finite pos k -> (n <= length rest)%nat ->
  exists pos', create_loop n (e ++ rest) finite (zlen finite) i pos =
    Ok (e ++ repetition finite k n ++ drop n rest, pos') /\ at_octet finite pos' (k + Z.of_nat n).
Proof.
  intros Hf. revert e rest i pos k. induction n as [|n IH]; intros e rest i pos k -> [Hp Hk] Hn.
  { exists pos. cbn. rewrite Z.add_0_r. split; [done|]. by split. }
  cbn [create_loop]. rewrite (u32_small (zlen finite - 1)) by lia.
  set (q := if _ <? pos then 0 else pos).
  assert (Hq : q = k mod zlen finite /\ 0 <= q < zlen finite).
  { unfold q. destruct (Z.ltb_spec (zlen finite - 1) pos).
    - replace pos with (zlen finite) in Hk by lia. rewrite Z.mod_same in Hk by lia. lia.
    - rewrite Z.mod_small in Hk by lia. lia. }
  destruct Hq as [Hq Hq']. rewrite rd_Ok by done. cstep. rewrite wr_append by lia. cstep.
  rewrite u32_small by lia.
  destruct (IH (e ++ [zth finite q]) (drop 1 rest) (zlen e + 1) (q + 1) (k + 1)) as (pos' & -> & Hp').
  - rewrite length_app. cbn. lia.
  - split; [lia|]. by rewrite Hq, Z.add_mod_idemp_l by lia.
  - rewrite length_drop. lia.
  - exists pos'. rewrite repetition_S, drop_drop, <- app_assoc, <- Hq. cbn [app]. split; [done|].
    by replace (k + Z.of_nat (S n)) with (k + 1 + Z.of_nat n) by lia.
Qed.

(** A sequence of calls, each with a buffer of its own. *)
Fixpoint play (finite : list Z) (bufs : list (list Z)) (pos : Z) : res (list (list Z)) :=
  match bufs with
  | [] => Ok []
  | b :: bufs =>
    let* '(b, pos, _) := contin_array_create (Some b) (zlen b) (Some finite) (zlen finite) pos in
    let* bs := play finite bufs pos in
    Ok (default [] b :: bs)
  end.

Lemma repetition_app finite k n m :
  repetition finite k (n + m) = repetition finite k n ++ repetition finite (k + Z.of_nat n) m.
Proof. unfold repetition. by rewrite Nat2Z.inj_add, seqZ_app, fmap_app by lia. Qed.

Lemma play_spec finite bufs pos k :
  0 < zlen finite < 2 ^ 32 -> Forall (fun b => 0 < zlen b) bufs -> at_octet finite pos k ->
  exists bs, play finite bufs pos = Ok bs /\ concat bs = repetition finite k (length (concat bufs)) /\
    length <$> bs = length <$> bufs.
Proof.
  intros Hf Hb. revert pos k. induction Hb as [|b bufs Hb _ IH]; intros pos k Hp; [by exists []|].
  cbn [play contin_array_create].
  destruct (Z.eqb_spec (zlen b) 0); [lia|]. destruct (Z.eqb_spec (zlen finite) 0); [lia|]. cbn [orb].
  destruct (create_loop_spec (Z.to_nat (zlen b)) [] b finite 0 pos k) as (pos' & Hrun & Hp'); [done..|lia|].
  cbn [app] in Hrun. rewrite Hrun. cstep. destruct (IH _ _ Hp') as (bs & -> & Hc & Hl). cstep. eexists. split; [done|].
  rewrite Nat2Z.id, drop_all, app_nil_r in *. cbn [default id concat fmap list_fmap]. split.
  - by rewrite Hc, length_app, repetition_app.
  - by rewrite Hl, length_repetition.
Qed.

(** Fetching a finite buffer in pieces of any sizes yields the endless
    repetition of it: the pieces put together are its first octets. *)
Theorem play_is_repetition finite bufs :
  0 < zlen finite < 2 ^ 32 -> Forall (fun b => 0 < zlen b) bufs ->
  exists bs, play finite bufs 0 = Ok bs /\ concat bs = repetition finite 0 (length (concat bufs)) /\
    length <$> bs = length <$> bufs.
Proof. intros Hf Hb. apply play_spec; [done..|]. split; [lia|done]. Qed.

Lemma play_is_repetition_witness :
  exists bs, play [1; 2; 3] [[0; 0]; [0; 0; 0; 0]] 0 = Ok bs /\
    concat bs = [1; 2; 3; 1; 2; 3] /\ length <$> bs = [2; 4]%nat.
Proof. apply (play_is_repetition [1; 2; 3] [[0; 0]; [0; 0; 0; 0]]); [done|by repeat constructor]. Defined.

End Contin.

(** ** pcm_mix *)

Module Mix.

Definition INT16_MIN : Z := -32768.
Definition INT16_MAX : Z := 32767.
Inductive pcm_mix_mode :=
  | B_STEREO_INTO_A_STEREO | B_MONO_INTO_A_MONO | B_MONO_INTO_A_STEREO_LR
  | B_MONO_INTO_A_STEREO_L | B_MONO_INTO_A_STEREO_R | mode_other.

(** Element [i] of a buffer that is used as an array of [int16_t]. *)
Definition ld16 (m : list Z) (i : Z) : res Z :=
  let* lo := rd m (2 * i) in
  let* hi := rd m (2 * i + 1) in
  Ok (sint 16 (lo + 256 * hi)).
Definition st16 (m : list Z) (i v : Z) : res (list Z) :=
  let* m := wr m (2 * i) (v mod 256) in
  wr m (2 * i + 1) (v / 256 mod 256).

Definition hard_limiter (pcm : Z) : Z :=
  if pcm <? INT16_MIN then INT16_MIN else if INT16_MAX <? pcm then INT16_MAX else pcm.

(** The loop of the four functions, which differ in the elements of the buffers
    that round [i] uses. *)
Fixpoint mix_loop (n : nat) (ia ib : Z -> Z) (pcm_a pcm_b : list Z) (i : Z) : res (list Z) :=
  match n with
  | O => Ok pcm_a
  | S n =>
    let* x := ld16 pcm_a (ia i) in
    let* y := ld16 pcm_b (ib i) in
    let* pcm_a := st16 pcm_a (ia i) (hard_limiter (x + y)) in
    mix_loop n ia ib pcm_a pcm_b (i + 1)
  end.

Definition pcm_mix_identical (pcm_a pcm_b : list Z) (size_b : Z) : res (list Z) :=
  mix_loop (Z.to_nat (size_b / 2)) (fun i => i) (fun i => i) pcm_a pcm_b 0.

Definition pcm_mix_b_mono_into_a_stereo_lr (pcm_a pcm_b : list Z) (size_b : Z) : res (list Z) :=
  mix_loop (Z.to_nat size_b) (fun i => i) (fun i => i / 2) pcm_a pcm_b 0.

Definition pcm_mix_b_mono_into_a_stereo_l (pcm_a pcm_b : list Z) (size_b : Z) : res (list Z) :=
  mix_loop (Z.to_nat (size_b / 2)) (fun i => i * 2) (fun i => i) pcm_a pcm_b 0.

Definition pcm_mix_b_mono_into_a_stereo_r (pcm_a pcm_b : list Z) (size_b : Z) : res (list Z) :=
  mix_loop (Z.to_nat (size_b / 2)) (fun i => i * 2 + 1) (fun i => i) pcm_a pcm_b 0.

Definition pcm_mix (pcm_a : option (list Z)) (size_a : Z) (pcm_b : option (list Z)) (size_b : Z)
    (mix_mode : pcm_mix_mode) : res (option (list Z) * Z) :=
  match pcm_a with
  | None => Ok (pcm_a, - errno_num EINVAL)
  | Some a =>
    if size_a =? 0 then Ok (pcm_a, - errno_num EINVAL) else
    match pcm_b with
    | None => Ok (pcm_a, 0)
    | Some b =>
      if size_b =? 0 then Ok (pcm_a, 0) else
      match mix_mode with
      | B_STEREO_INTO_A_STEREO | B_MONO_INTO_A_MONO =>
        if size_a <? size_b then Ok (pcm_a, - errno_num EPERM) else
        let* a := pcm_mix_identical a b size_b in Ok (Some a, 0)
      | B_MONO_INTO_A_STEREO_LR =>
        if size_a / 2 <? size_b then Ok (pcm_a, - errno_num EPERM) else
        let* a := pcm_mix_b_mono_into_a_stereo_lr a b size_b in Ok (Some a, 0)
      | B_MONO_INTO_A_STEREO_L =>
        let* a := pcm_mix_b_mono_into_a_stereo_l a b size_b in
        if size_a / 2 <? size_b then Ok (Some a, - errno_num EPERM) else Ok (Some a, 0)
      | B_MONO_INTO_A_STEREO_R =>
        let* a := pcm_mix_b_mono_into_a_stereo_r a b size_b in
        if size_a / 2 <? size_b then Ok (Some a, - errno_num EPERM) else Ok (Some a, 0)
      | mode_other => Ok (pcm_a, - errno_num ESRCH)
      end
    end
  end.

(** *** Samples *)

Definition sample (m : list Z) (i : Z) : Z := sint 16 (zth m (2 * i) + 256 * zth m (2 * i + 1)).

Lemma ld16_Ok m i : 0 <= i -> 2 * i + 1 < zlen m -> ld16 m i = Ok (sample m i).
Proof. intros. unfold ld16. by rewrite !rd_Ok by lia. Qed.

Lemma hard_limiter_range v : INT16_MIN <= hard_limiter v <= INT16_MAX.
Proof. unfold hard_limiter, INT16_MIN, INT16_MAX. repeat case_match; lia. Qed.

Lemma sint16_split v : INT16_MIN <= v <= INT16_MAX -> sint 16 (v mod 256 + 256 * (v / 256 mod 256)) = v.
Proof.
  unfold INT16_MIN, INT16_MAX. intros Hv. unfold sint. change (16 - 1) with 15.
  assert (E : v mod 256 + 256 * (v / 256 mod 256) = v mod 65536).
  { change 65536 with (256 * 256). rewrite Z.rem_mul_r by lia. lia. }
  rewrite E, Z.mod_mod by lia. change (2 ^ 16) with 65536. change (2 ^ 15) with 32768.
  destruct (decide (0 <= v)).
  - rewrite Z.mod_small by lia. destruct (Z.ltb_spec v 32768); lia.
  - rewrite <- (Z.mod_unique v 65536 (-1) (v + 65536)) by lia. destruct (Z.ltb_spec (v + 65536) 32768); lia.
Qed.

Lemma st16_Ok m i v :
  0 <= i -> 2 * i + 1 < zlen m -> INT16_MIN <= v <= INT16_MAX ->
  exists m', st16 m i v = Ok m' /\ length m' = length m /\
    forall j, 0 <= j -> sample m' j = if decide (j = i) then v else sample m j.
Proof.
  intros Hi Hl Hv. unfold st16. rewrite wr_Ok by lia. cstep. rewrite wr_Ok by (autorewrite with clen; lia).
  eexists. split; [done|]. split; [by autorewrite with clen|]. intros j Hj. unfold sample.
  rewrite !zth_insert by (autorewrite with clen; lia). destruct (decide (j = i)) as [->|E].
  - repeat (case_decide; try lia). by apply sint16_split.
  - by repeat (case_decide; try lia).
Qed.

(** Every element that a round uses has the limited sum, and no other changes. *)
Lemma mix_loop_spec n ia ib a b i :
  (forall x y, i <= x < y -> ia x < ia y) ->
  (forall x, i <= x < i + Z.of_nat n -> 0 <= ia x /\ 2 * ia x + 1 < zlen a /\ 0 <= ib x /\ 2 * ib x + 1 < zlen b) ->
  exists a', mix_loop n ia ib a b i = Ok a' /\ length a' = length a /\
    (forall x, i <= x < i + Z.of_nat n -> sample a' (ia x) = hard_limiter (sample a (ia x) + sample b (ib x))) /\
    (forall j, 0 <= j -> (forall x, i <= x < i + Z.of_nat n -> j <> ia x) -> sample a' j = sample a j).
Proof.
  revert a i. induction n as [|n IH]; intros a i Hmono Hin.
  { exists a. split_and!; [done..|lia|done]. }
  destruct (Hin i) as (H1 & H2 & H3 & H4); [lia|]. cbn [mix_loop]. rewrite !ld16_Ok by lia. cstep.
  destruct (st16_Ok a (ia i) (hard_limiter (sample a (ia i) + sample b (ib i)))) as (m & -> & Hm & Hs);
    [lia..|apply hard_limiter_range|]. cstep.
  destruct (IH m (i + 1)) as (a' & Hrun & Hl & Hyes & Hno).
  - intros x y Hxy. apply Hmono. lia.
  - intros x Hx. rewrite Hm. apply Hin. lia.
  - exists a'. split; [done|]. split; [lia|]. split.
    + intros x Hx. destruct (decide (x = i)) as [->|Hne].
      * rewrite Hno; [by rewrite Hs, decide_True by lia|lia|].
        intros y Hy. pose proof (Hmono i y). lia.
      * rewrite Hyes by lia. pose proof (Hmono i x). by rewrite Hs, decide_False by (apply Hin || idtac; lia).
    + intros j Hj Hx. rewrite Hno; [|done|intros x Hx'; apply Hx; lia].
      rewrite Hs, decide_False; [done|apply Hx; lia|done].
Qed.

(** *** What the modes compute *)

(** The sample of [b] that goes into sample [j] of [a], if there is one. *)
Definition source (mode : pcm_mix_mode) (nb j : Z) : option Z :=
  match mode with
  | B_STEREO_INTO_A_STEREO | B_MONO_INTO_A_MONO => if j <? nb then Some j else None
  | B_MONO_INTO_A_STEREO_LR => if j / 2 <? nb then Some (j / 2) else None
  | B_MONO_INTO_A_STEREO_L => if (j mod 2 =? 0) && (j / 2 <? nb) then Some (j / 2) else None
  | B_MONO_INTO_A_STEREO_R => if (j mod 2 =? 1) && (j / 2 <? nb) then Some (j / 2) else None
  | mode_other => None
  end.
Definition mixed (mode : pcm_mix_mode) (a b : list Z) (j : Z) : Z :=
  match source mode (zlen b / 2) j with
  | Some i => hard_limiter (sample a j + sample b i)
  | None => sample a j
  end.
Definition mix_fits (mode : pcm_mix_mode) (a b : list Z) : Prop :=
  match mode with
  | B_STEREO_INTO_A_STEREO | B_MONO_INTO_A_MONO => zlen b <= zlen a
  | _ => zlen b <= zlen a / 2
  end.

(** The loop computes [mixed] if its elements are the ones of the mode. *)
Lemma mix_loop_mixed n ia ib a b mode :
  (forall x y, 0 <= x < y -> ia x < ia y) ->
  (forall x, 0 <= x < Z.of_nat n -> 0 <= ia x /\ 2 * ia x + 1 < zlen a /\ 0 <= ib x /\ 2 * ib x + 1 < zlen b) ->
  (forall x, 0 <= x < Z.of_nat n -> source mode (zlen b / 2) (ia x) = Some (ib x)) ->
  (forall j i, 0 <= j -> source mode (zlen b / 2) j = Some i -> exists x, 0 <= x < Z.of_nat n /\ j = ia x) ->
  exists a', mix_loop n ia ib a b 0 = Ok a' /\ length a' = length a /\
    forall j, 0 <= j -> sample a' j = mixed mode a b j.
Proof.
  intros Hm Hin Hs Hs'. destruct (mix_loop_spec n ia ib a b 0 Hm Hin) as (a' & -> & Hl & Hyes & Hno).
  exists a'. split; [done|]. split; [done|]. intros j Hj. unfold mixed.
  destruct (source mode (zlen b / 2) j) as [i|] eqn:E.
  - destruct (Hs' j i Hj E) as (x & Hx & ->). rewrite Hyes by lia. rewrite Hs in E by done. by injection E as ->.
  - apply Hno; [done|]. intros x Hx ->. by rewrite Hs in E.
Qed.

(** The conditions on the elements that a mode uses. *)
Ltac divs := Z.to_euclidean_division_equations; lia.
Ltac bools := repeat match goal with
  | |- context [?x <? ?y] => destruct (Z.ltb_spec x y)
  | |- context [?x =? ?y] => destruct (Z.eqb_spec x y)
  end; cbn [andb].
Ltac modes := cbn [source]; intros; first
  [ lia | split_and!; divs
  | bools; first [f_equal; divs | exfalso; divs]
  | match goal with
    | H : _ = Some _ |- exists x, _ /\ ?j = _ =>
      revert H; bools; intros [=]; first [exists j; divs | exists (j / 2); divs]
    end ].

(** Mixing adds the samples of the second buffer to those of the first one
    that the mode names, limited to 16 bits, leaves all others, and stays inside
    of both buffers. *)
Theorem pcm_mix_mixes mode a b :
  0 < zlen a -> 0 < zlen b -> (2 | zlen b) -> mode <> mode_other -> mix_fits mode a b ->
  exists a', pcm_mix (Some a) (zlen a) (Some b) (zlen b) mode = Ok (Some a', 0) /\ length a' = length a /\
    forall j, 0 <= j -> sample a' j = mixed mode a b j.
Proof.
  intros Ha Hb [nb Hnb] Hmode Hfit. unfold pcm_mix.
  destruct (Z.eqb_spec (zlen a) 0); [lia|]. destruct (Z.eqb_spec (zlen b) 0); [lia|].
  assert (Hd : zlen b / 2 = nb) by (rewrite Hnb; apply Z.div_mul; lia).
  unfold pcm_mix_identical, pcm_mix_b_mono_into_a_stereo_lr, pcm_mix_b_mono_into_a_stereo_l,
    pcm_mix_b_mono_into_a_stereo_r. rewrite Hd.
  destruct mode; try done; cbn [mix_fits] in Hfit.
  - destruct (Z.ltb_spec (zlen a) (zlen b)); [lia|].
    destruct (mix_loop_mixed (Z.to_nat nb) (fun i => i) (fun i => i) a b B_STEREO_INTO_A_STEREO)
      as (a' & -> & Hrest); rewrite ?Hd; [modes..|by eexists].
  - destruct (Z.ltb_spec (zlen a) (zlen b)); [lia|].
    destruct (mix_loop_mixed (Z.to_nat nb) (fun i => i) (fun i => i) a b B_MONO_INTO_A_MONO)
      as (a' & -> & Hrest); rewrite ?Hd; [modes..|by eexists].
  - destruct (Z.ltb_spec (zlen a / 2) (zlen b)); [lia|].
    destruct (mix_loop_mixed (Z.to_nat (zlen b)) (fun i => i) (fun i => i / 2) a b B_MONO_INTO_A_STEREO_LR)
      as (a' & -> & Hrest); rewrite ?Hd; [modes..|by eexists].
  - destruct (Z.ltb_spec (zlen a / 2) (zlen b)); [lia|].
    destruct (mix_loop_mixed (Z.to_nat nb) (fun i => i * 2) (fun i => i) a b B_MONO_INTO_A_STEREO_L)
      as (a' & -> & Hrest); rewrite ?Hd; [modes..|by eexists].
  - destruct (Z.ltb_spec (zlen a / 2) (zlen b)); [lia|].
    destruct (mix_loop_mixed (Z.to_nat nb) (fun i => i * 2 + 1) (fun i => i) a b B_MONO_INTO_A_STEREO_R)
      as (a' & -> & Hrest); rewrite ?Hd; [modes..|by eexists].
Qed.

Lemma pcm_mix_mixes_witness :
  exists a', pcm_mix (Some [255; 127; 1; 0]) 4 (Some [2; 0]) 2 B_MONO_INTO_A_STEREO_L = Ok (Some a', 0) /\
    length a' = 4%nat /\ forall j, 0 <= j -> sample a' j = mixed B_MONO_INTO_A_STEREO_L [255; 127; 1; 0] [2; 0] j.
Proof. apply (pcm_mix_mixes B_MONO_INTO_A_STEREO_L [255; 127; 1; 0] [2; 0]); [done|done|by exists 1|done|done]. Defined.

(** The sizes are checked after the samples were written. *)
Lemma oversized_mono_overruns :
  pcm_mix (Some [0; 0]) 2 (Some [1; 0; 1; 0]) 4 B_MONO_INTO_A_STEREO_L = Fault /\
  pcm_mix (Some [0; 0]) 2 (Some [1; 0; 1; 0]) 4 B_MONO_INTO_A_STEREO_R = Fault.
Proof. by vm_compute. Qed.

(** With equal channels, a buffer that is longer than the first one is refused. *)
Lemma oversized_refused a b :
  0 < zlen a -> zlen a < zlen b ->
  pcm_mix (Some a) (zlen a) (Some b) (zlen b) B_MONO_INTO_A_MONO = Ok (Some a, - errno_num EPERM).
Proof.
  intros Ha Hb. unfold pcm_mix. destruct (Z.eqb_spec (zlen a) 0); [lia|]. destruct (Z.eqb_spec (zlen b) 0); [lia|].
  by destruct (Z.ltb_spec (zlen a) (zlen b)); [|lia].
Qed.

End Mix.

(** ** pcm_stream_channel_modifier *)

Module Channels.

Inductive audio_channel := AUDIO_CH_L | AUDIO_CH_R | AUDIO_CH_NUM.

Definition is_valid_bit_depth (pcm_bit_depth : Z) : bool :=
  negb (negb (pcm_bit_depth =? 16) && negb (pcm_bit_depth =? 24) && negb (pcm_bit_depth =? 32)).

Definition is_valid_size (size bytes_per_sample no_channels : Z) : bool :=
  size mod (bytes_per_sample * no_channels) =? 0.

(** [for (j = 0; j < n; j++) *output++ = *input++]: a pointer is an index. *)
Fixpoint copy_loop (n : nat) (input output : list Z) (pi po : Z) : res (list Z) :=
  match n with
  | O => Ok output
  | S n =>
    let* c := rd input pi in
    let* output := wr output po c in
    copy_loop n input output (pi + 1) (po + 1)
  end.

(** [for (j = 0; j < n; j++) *output++ = 0]. *)
Fixpoint zero_loop (n : nat) (output : list Z) (po : Z) : res (list Z) :=
  match n with
  | O => Ok output
  | S n => let* output := wr output po 0 in zero_loop n output (po + 1)
  end.

(** The outer loops have [k] rounds left; [w] octets make a sample. *)
Fixpoint zero_pad_loop (k : nat) (channel : audio_channel) (w : Z) (input output : list Z) (pi po : Z)
    : res (list Z * Z) :=
  match k with
  | O => Ok (output, 0)
  | S k =>
    match channel with
    | AUDIO_CH_L =>
      let* output := copy_loop (Z.to_nat w) input output pi po in
      let* output := zero_loop (Z.to_nat w) output (po + w) in
      zero_pad_loop k channel w input output (pi + w) (po + 2 * w)
    | AUDIO_CH_R =>
      let* output := zero_loop (Z.to_nat w) output po in
      let* output := copy_loop (Z.to_nat w) input output pi (po + w) in
      zero_pad_loop k channel w input output (pi + w) (po + 2 * w)
    | AUDIO_CH_NUM => Ok (output, - errno_num EINVAL)
    end
  end.

(** The output, its size if it is set, and the value returned. *)
Definition pscm_zero_pad (input : list Z) (input_size : Z) (channel : audio_channel) (pcm_bit_depth : Z)
    (output : list Z) (output_size : Z) : res (list Z * Z * Z) :=
  let bytes_per_sample := pcm_bit_depth / 8 in
  if negb (is_valid_bit_depth pcm_bit_depth) || negb (is_valid_size input_size bytes_per_sample 1)
  then Ok (output, output_size, - errno_num EINVAL)
  else
    let* '(output, rc) :=
      zero_pad_loop (Z.to_nat (input_size / bytes_per_sample)) channel bytes_per_sample input output 0 0 in
    if negb (rc =? 0) then Ok (output, output_size, rc) else Ok (output, u32 (input_size * 2), 0).

Fixpoint copy_pad_loop (k : nat) (w : Z) (input output : list Z) (pi po : Z) : res (list Z) :=
  match k with
  | O => Ok output
  | S k =>
    let* output := copy_loop (Z.to_nat w) input output pi po in
    let* output := copy_loop (Z.to_nat w) input output pi (po + w) in
    copy_pad_loop k w input output (pi + w) (po + 2 * w)
  end.

Definition pscm_copy_pad (input : list Z) (input_size pcm_bit_depth : Z) (output : list Z) (output_size : Z)
    : res (list Z * Z * Z) :=
  let bytes_per_sample := pcm_bit_depth / 8 in
  if negb (is_valid_bit_depth pcm_bit_depth) || negb (is_valid_size input_size bytes_per_sample 1)
  then Ok (output, output_size, - errno_num EINVAL)
  else
    let* output :=
      copy_pad_loop (Z.to_nat (input_size / bytes_per_sample)) bytes_per_sample input output 0 0 in
    Ok (output, u32 (input_size * 2), 0).

Fixpoint combine_loop (k : nat) (w : Z) (in_l in_r output : list Z) (pi po : Z) : res (list Z) :=
  match k with
  | O => Ok output
  | S k =>
    let* output := copy_loop (Z.to_nat w) in_l output pi po in
    let* output := copy_loop (Z.to_nat w) in_r output pi (po + w) in
    combine_loop k w in_l in_r output (pi + w) (po + 2 * w)
  end.

Definition pscm_combine (input_left input_right : list Z) (input_size pcm_bit_depth : Z) (output : list Z)
    (output_size : Z) : res (list Z * Z * Z) :=
  let bytes_per_sample := pcm_bit_depth / 8 in
  if negb (is_valid_bit_depth pcm_bit_depth) || negb (is_valid_size input_size bytes_per_sample 1)
  then Ok (output, output_size, - errno_num EINVAL)
  else
    let* output :=
      combine_loop (Z.to_nat (input_size / bytes_per_sample)) bytes_per_sample input_left input_right output 0 0 in
    Ok (output, u32 (input_size * 2), 0).

(** The outer loops of the splits advance by two samples: [i] is their counter. *)
Fixpoint one_split_loop (k : nat) (channel : audio_channel) (w : Z) (input output : list Z) (pi po : Z)
    : res (list Z * Z) :=
  match k with
  | O => Ok (output, 0)
  | S k =>
    match channel with
    | AUDIO_CH_L =>
      let* output := copy_loop (Z.to_nat w) input output pi po in
      one_split_loop k channel w input output (pi + 2 * w) (po + w)
    | AUDIO_CH_R =>
      let* output := copy_loop (Z.to_nat w) input output (pi + w) po in
      one_split_loop k channel w input output (pi + 2 * w) (po + w)
    | AUDIO_CH_NUM => Ok (output, - errno_num EINVAL)
    end
  end.

(** The rounds of [for (i = 0; i < n; i += 2)]. *)
Definition rounds (n : Z) : nat := Z.to_nat ((n + 1) / 2).

Definition pscm_one_channel_split (input : list Z) (input_size : Z) (channel : audio_channel)
    (pcm_bit_depth : Z) (output : list Z) (output_size : Z) : res (list Z * Z * Z) :=
  let bytes_per_sample := pcm_bit_depth / 8 in
  if negb (is_valid_bit_depth pcm_bit_depth) || negb (is_valid_size input_size bytes_per_sample 2)
  then Ok (output, output_size, - errno_num EINVAL)
  else
    let* '(output, rc) :=
      one_split_loop (rounds (input_size / bytes_per_sample)) channel bytes_per_sample input output 0 0 in
    if negb (rc =? 0) then Ok (output, output_size, rc) else Ok (output, input_size / 2, 0).

Fixpoint two_split_loop (k : nat) (w : Z) (input out_l out_r : list Z) (pi po : Z) : res (list Z * list Z) :=
  match k with
  | O => Ok (out_l, out_r)
  | S k =>
    let* out_l := copy_loop (Z.to_nat w) input out_l pi po in
    let* out_r := copy_loop (Z.to_nat w) input out_r (pi + w) po in
    two_split_loop k w input out_l out_r (pi + 2 * w) (po + w)
  end.

Definition pscm_two_channel_split (input : list Z) (input_size pcm_bit_depth : Z)
    (output_left output_right : list Z) (output_size : Z) : res (list Z * list Z * Z * Z) :=
  let bytes_per_sample := pcm_bit_depth / 8 in
  if negb (is_valid_bit_depth pcm_bit_depth) || negb (is_valid_size input_size bytes_per_sample 2)
  then Ok (output_left, output_right, output_size, - errno_num EINVAL)
  else
    let* '(output_left, output_right) :=
      two_split_loop (rounds (input_size / bytes_per_sample)) bytes_per_sample input output_left output_right 0 0 in
    Ok (output_left, output_right, input_size / 2, 0).

(** *** Streams as sequences of samples *)

(** The samples of two streams in turn: [k] of each, of [w] octets. *)
Fixpoint interleave (w k : nat) (l r : list Z) : list Z :=
  match k with
  | O => []
  | S k => take w l ++ take w r ++ interleave w k (drop w l) (drop w r)
  end.
Fixpoint lefts (w k : nat) (s : list Z) : list Z :=
  match k with
  | O => []
  | S k => take w s ++ lefts w k (drop (2 * w) s)
  end.
Definition rights (w k : nat) (s : list Z) : list Z := lefts w k (drop w s).

Lemma length_interleave w k l r :
  (k * w <= length l)%nat -> (k * w <= length r)%nat -> length (interleave w k l r) = (2 * (k * w))%nat.
Proof.
  revert l r. induction k as [|k IH]; intros l r Hl Hr; [done|]. cbn [interleave].
  rewrite !length_app, !length_take, IH; rewrite ?length_drop; lia.
Qed.

Lemma lefts_interleave w k l r :
  length l = (k * w)%nat -> length r = (k * w)%nat -> lefts w k (interleave w k l r) = l.
Proof.
  revert l r. induction k as [|k IH]; intros l r Hl Hr; [by apply nil_length_inv in Hl as ->|].
  cbn [lefts interleave]. rewrite take_app_length' by (rewrite length_take; lia).
  replace (2 * w)%nat with (w + w)%nat by lia. rewrite <- drop_drop.
  rewrite !drop_app_length' by (rewrite length_take; lia). rewrite IH by (rewrite length_drop; lia).
  apply take_drop.
Qed.

Lemma rights_S w k s : rights w (S k) s = take w (drop w s) ++ rights w k (drop (2 * w) s).
Proof. unfold rights. cbn [lefts]. rewrite !drop_drop. do 3 f_equal. lia. Qed.

Lemma rights_interleave w k l r :
  length l = (k * w)%nat -> length r = (k * w)%nat -> rights w k (interleave w k l r) = r.
Proof.
  revert l r. induction k as [|k IH]; intros l r Hl Hr; [by apply nil_length_inv in Hr as ->|].
  rewrite rights_S. cbn [interleave]. replace (2 * w)%nat with (w + w)%nat by lia. rewrite <- drop_drop.
  rewrite !drop_app_length' by (rewrite length_take; lia). rewrite take_app_length' by (rewrite length_take; lia).
  rewrite IH by (rewrite length_drop; lia). apply take_drop.
Qed.

(** *** The loops *)

Lemma copy_loop_spec n input e rest pi po :
  po = zlen e -> 0 <= pi -> pi + Z.of_nat n <= zlen input -> (n <= length rest)%nat ->
  copy_loop n input (e ++ rest) pi po = Ok ((e ++ take n (drop (Z.to_nat pi) input)) ++ drop n rest).
Proof.
  revert e rest pi po. induction n as [|n IH]; intros e rest pi po -> Hpi Hin Hr.
  { cbn. by rewrite take_0, app_nil_r. }
  cbn [copy_loop]. rewrite rd_Ok by lia. cstep. rewrite wr_append by lia. cstep.
  rewrite IH by (rewrite ?length_app, ?length_drop; cbn; lia). rewrite drop_drop.
  destruct (drop (Z.to_nat pi) input) as [|c cs] eqn:E.
  { apply (f_equal length) in E. rewrite length_drop in E. cbn in E. lia. }
  assert (Hc : zth input pi = c /\ drop (Z.to_nat (pi + 1)) input = cs).
  { split.
    - rewrite <- (Z.add_0_r pi), <- zth_drop by lia. by rewrite E.
    - rewrite Z2Nat.inj_add, <- drop_drop, E by lia. done. }
  destruct Hc as [-> ->]. cbn [take]. by rewrite <- (app_assoc e [c]).
Qed.

Lemma zero_loop_spec n e rest po :
  po = zlen e -> (n <= length rest)%nat -> zero_loop n (e ++ rest) po = Ok ((e ++ replicate n 0) ++ drop n rest).
Proof.
  revert e rest po. induction n as [|n IH]; intros e rest po -> Hr; [cbn; by rewrite app_nil_r|].
  cbn [zero_loop]. rewrite wr_append by lia. cstep.
  rewrite IH by (rewrite ?length_app, ?length_drop; cbn; lia). rewrite drop_drop. cbn [replicate].
  by rewrite <- (app_assoc e [0]).
Qed.

(** The next samples of a round; the sizes are linear in the rounds left. *)
Ltac sizes k w :=
  assert (0 <= Z.of_nat k * w) by nia; rewrite ?Nat2Z.inj_succ, ?Z.mul_succ_l in *.
Ltac round := rewrite ?copy_loop_spec, ?zero_loop_spec
  by (autorewrite with clen; lia); cstep.

Lemma combine_loop_spec k w l r e rest pi po :
  0 < w -> po = zlen e -> 0 <= pi -> pi + Z.of_nat k * w <= zlen l -> pi + Z.of_nat k * w <= zlen r ->
  2 * (Z.of_nat k * w) <= zlen rest ->
  combine_loop k w l r (e ++ rest) pi po =
    Ok (e ++ interleave (Z.to_nat w) k (drop (Z.to_nat pi) l) (drop (Z.to_nat pi) r) ++
        drop (2 * (k * Z.to_nat w)) rest).
Proof.
  intros Hw. revert e rest pi po. induction k as [|k IH]; intros e rest pi po -> Hpi Hl Hr Hrest; [done|].
  sizes k w. cbn [combine_loop]. round. round.
  rewrite IH by (autorewrite with clen; lia).
  cbn [interleave]. rewrite !drop_drop, !Z2Nat.inj_add, <- !app_assoc by lia. repeat f_equal; lia.
Qed.

Lemma copy_pad_loop_combine k w input output pi po :
  copy_pad_loop k w input output pi po = combine_loop k w input input output pi po.
Proof.
  revert output pi po. induction k as [|k IH]; intros output pi po; [done|]. cbn.
  destruct (copy_loop _ input output pi po) as [o| | |]; [|done..]. cbn.
  destruct (copy_loop _ input o pi (po + w)) as [o'| | |]; [|done..]. cbn. apply IH.
Qed.

Lemma interleave_zeros w k n m l :
  (k * w <= n)%nat -> (k * w <= m)%nat ->
  interleave w k l (replicate n 0) = interleave w k l (replicate m 0) /\
  interleave w k (replicate n 0) l = interleave w k (replicate m 0) l.
Proof.
  revert n m l. induction k as [|k IH]; intros n m l Hn Hm; [done|]. cbn [interleave].
  rewrite !drop_replicate, !take_replicate, !Nat.min_l by lia.
  destruct (IH (n - w) (m - w) (drop w l))%nat as [-> ->]; [lia..|done].
Qed.

Lemma zero_pad_loop_spec k ch w l e rest pi po n :
  0 < w -> po = zlen e -> 0 <= pi -> pi + Z.of_nat k * w <= zlen l -> 2 * (Z.of_nat k * w) <= zlen rest ->
  (k * Z.to_nat w <= n)%nat -> ch <> AUDIO_CH_NUM ->
  zero_pad_loop k ch w l (e ++ rest) pi po =
    Ok (e ++ match ch with
             | AUDIO_CH_L => interleave (Z.to_nat w) k (drop (Z.to_nat pi) l) (replicate n 0)
             | _ => interleave (Z.to_nat w) k (replicate n 0) (drop (Z.to_nat pi) l)
             end ++ drop (2 * (k * Z.to_nat w)) rest, 0).
Proof.
  intros Hw. revert e rest pi po n. induction k as [|k IH]; intros e rest pi po n -> Hpi Hl Hrest Hn Hch;
    [by destruct ch|].
  sizes k w. cbn [zero_pad_loop]. destruct ch; [| |done].
  - round. round. rewrite (IH _ _ _ _ (n - Z.to_nat w)%nat)
      by (try done; autorewrite with clen; lia).
    cbn [interleave]. rewrite drop_replicate, take_replicate, Nat.min_l by lia.
    rewrite !drop_drop, !Z2Nat.inj_add, <- !app_assoc by lia. repeat f_equal; lia.
  - round. round. rewrite (IH _ _ _ _ (n - Z.to_nat w)%nat)
      by (try done; autorewrite with clen; lia).
    cbn [interleave]. rewrite drop_replicate, take_replicate, Nat.min_l by lia.
    rewrite !drop_drop, !Z2Nat.inj_add, <- !app_assoc by lia. repeat f_equal; lia.
Qed.

Lemma two_split_loop_spec k w s e f rest rest' pi po :
  0 < w -> po = zlen e -> po = zlen f -> 0 <= pi -> pi + 2 * (Z.of_nat k * w) <= zlen s ->
  Z.of_nat k * w <= zlen rest -> Z.of_nat k * w <= zlen rest' ->
  two_split_loop k w s (e ++ rest) (f ++ rest') pi po =
    Ok (e ++ lefts (Z.to_nat w) k (drop (Z.to_nat pi) s) ++ drop (k * Z.to_nat w) rest,
        f ++ rights (Z.to_nat w) k (drop (Z.to_nat pi) s) ++ drop (k * Z.to_nat w) rest').
Proof.
  intros Hw. revert e f rest rest' pi po.
  induction k as [|k IH]; intros e f rest rest' pi po -> Hf Hpi Hs Hr Hr'; [done|].
  sizes k w. cbn [two_split_loop]. round. rewrite Hf. round. rewrite <- Hf.
  rewrite IH by (autorewrite with clen; lia).
  rewrite rights_S. cbn [lefts]. rewrite !drop_drop, !Z2Nat.inj_add, <- !app_assoc by lia.
  repeat f_equal; lia.
Qed.

(** Each channel alone. *)
Lemma one_split_loop_spec k ch w s e rest pi po :
  0 < w -> po = zlen e -> 0 <= pi -> pi + 2 * (Z.of_nat k * w) <= zlen s -> Z.of_nat k * w <= zlen rest ->
  ch <> AUDIO_CH_NUM ->
  one_split_loop k ch w s (e ++ rest) pi po =
    Ok (e ++ match ch with
             | AUDIO_CH_L => lefts (Z.to_nat w) k (drop (Z.to_nat pi) s)
             | _ => rights (Z.to_nat w) k (drop (Z.to_nat pi) s)
             end ++ drop (k * Z.to_nat w) rest, 0).
Proof.
  intros Hw. revert e rest pi po. induction k as [|k IH]; intros e rest pi po -> Hpi Hs Hr Hch; [by destruct ch|].
  sizes k w. cbn [one_split_loop]. destruct ch; [| |done].
  - round. rewrite IH by (try done; autorewrite with clen; lia).
    cbn [lefts]. rewrite !drop_drop, !Z2Nat.inj_add, <- !app_assoc by lia.
    repeat f_equal; lia.
  - round. rewrite IH by (try done; autorewrite with clen; lia).
    rewrite rights_S, !drop_drop, !Z2Nat.inj_add, <- !app_assoc by lia.
    repeat f_equal; lia.
Qed.

(** *** Properties *)

(** A buffer that holds whole samples of a depth that is supported. *)
Definition whole (depth size channels : Z) : Prop :=
  (depth = 16 \/ depth = 24 \/ depth = 32) /\ (depth / 8 * channels | size).

Lemma whole_valid depth size channels :
  whole depth size channels -> 0 < channels -> 0 <= size ->
  0 < depth / 8 /\ is_valid_bit_depth depth = true /\ is_valid_size size (depth / 8) channels = true /\
  exists k, size = Z.of_nat k * (depth / 8) * channels.
Proof.
  intros [Hd [q Hq]] Hc Hs. assert (Hw : 0 < depth / 8) by (by destruct Hd as [->|[->| ->]]).
  split; [done|]. split; [by destruct Hd as [->|[->| ->]]|]. split.
  - unfold is_valid_size. apply Z.eqb_eq. rewrite Hq. apply Z.mod_mul. nia.
  - exists (Z.to_nat q). rewrite Hq, Z2Nat.id by nia. lia.
Qed.

Lemma count_nat n k w : 0 < w -> Z.of_nat n = Z.of_nat k * w -> n = (k * Z.to_nat w)%nat.
Proof. intros Hw Hn. apply Nat2Z.inj. rewrite Nat2Z.inj_mul, Z2Nat.id by lia. done. Qed.

Lemma pscm_combine_spec depth l r out n :
  whole depth (zlen l) 1 -> length r = length l -> 2 * zlen l <= zlen out -> zlen l < 2 ^ 31 ->
  exists k, zlen l = Z.of_nat k * (depth / 8) /\
    pscm_combine l r (zlen l) depth out n =
      Ok (interleave (Z.to_nat (depth / 8)) k l r ++ drop (2 * length l) out, 2 * zlen l, 0).
Proof.
  intros Hwh Hr Ho Hl. destruct (whole_valid _ _ _ Hwh) as (Hw & H1 & H2 & k & Hk); [lia..|].
  exists k. split; [lia|]. unfold pscm_combine. rewrite H1, H2. cbn [negb orb].
  assert (E : zlen l / (depth / 8) = Z.of_nat k) by (rewrite Hk, Z.mul_1_r; apply Z.div_mul; lia).
  rewrite E, Nat2Z.id.
  pose proof (combine_loop_spec k (depth / 8) l r [] out 0 0 Hw eq_refl ltac:(lia) ltac:(lia) ltac:(lia) ltac:(lia)) as Hc.
  cbn [app] in Hc. rewrite Hc. cstep. change (Z.to_nat 0) with 0%nat. rewrite !drop_0, u32_small by lia.
  rewrite <- (count_nat (length l) k (depth / 8)) by lia. by rewrite Z.mul_comm.
Qed.

Lemma rounds_even k : rounds (2 * Z.of_nat k) = k.
Proof.
  unfold rounds. rewrite <- (Z.div_unique (2 * Z.of_nat k + 1) 2 (Z.of_nat k) 1) by lia. lia.
Qed.

Lemma pscm_split_spec depth s ol orr n :
  whole depth (zlen s) 2 -> zlen s <= 2 * zlen ol -> zlen s <= 2 * zlen orr ->
  exists k, zlen s = 2 * (Z.of_nat k * (depth / 8)) /\
    pscm_two_channel_split s (zlen s) depth ol orr n =
      Ok (lefts (Z.to_nat (depth / 8)) k s ++ drop (k * Z.to_nat (depth / 8)) ol,
          rights (Z.to_nat (depth / 8)) k s ++ drop (k * Z.to_nat (depth / 8)) orr, zlen s / 2, 0) /\
    pscm_one_channel_split s (zlen s) AUDIO_CH_L depth ol n =
      Ok (lefts (Z.to_nat (depth / 8)) k s ++ drop (k * Z.to_nat (depth / 8)) ol, zlen s / 2, 0) /\
    pscm_one_channel_split s (zlen s) AUDIO_CH_R depth orr n =
      Ok (rights (Z.to_nat (depth / 8)) k s ++ drop (k * Z.to_nat (depth / 8)) orr, zlen s / 2, 0).
Proof.
  intros Hwh Hl Hr. destruct (whole_valid _ _ _ Hwh) as (Hw & H1 & H2 & k & Hk); [lia..|].
  exists k. assert (E : zlen s / (depth / 8) = 2 * Z.of_nat k).
  { rewrite Hk. replace (Z.of_nat k * (depth / 8) * 2) with (2 * Z.of_nat k * (depth / 8)) by lia.
    apply Z.div_mul. lia. }
  split; [lia|]. unfold pscm_two_channel_split, pscm_one_channel_split. rewrite H1, H2, E, rounds_even. cbn [negb orb].
  pose proof (two_split_loop_spec k (depth / 8) s [] [] ol orr 0 0 Hw eq_refl eq_refl) as H3.
  pose proof (one_split_loop_spec k AUDIO_CH_L (depth / 8) s [] ol 0 0 Hw eq_refl) as H4.
  pose proof (one_split_loop_spec k AUDIO_CH_R (depth / 8) s [] orr 0 0 Hw eq_refl) as H5.
  cbn [app] in H3, H4, H5. change (Z.to_nat 0) with 0%nat in *. rewrite drop_0 in H3, H4, H5.
  rewrite H3, H4, H5 by (done || lia). done.
Qed.

(** Splitting the stereo stream that was combined from two mono streams
    gives both streams back. *)
Theorem split_combine depth l r out ol orr n :
  whole depth (zlen l) 1 -> length r = length l -> zlen out = 2 * zlen l -> zlen l < 2 ^ 31 ->
  length ol = length l -> length orr = length l ->
  exists s, pscm_combine l r (zlen l) depth out n = Ok (s, 2 * zlen l, 0) /\
    pscm_two_channel_split s (2 * zlen l) depth ol orr n = Ok (l, r, zlen l, 0).
Proof.
  intros Hwh Hr Ho Hl Hol Hor. destruct (pscm_combine_spec depth l r out n Hwh Hr) as (k & Hk & ->); [lia..|].
  eexists. split; [done|]. rewrite drop_ge, app_nil_r by lia. set (s := interleave _ k l r).
  destruct (whole_valid _ _ _ Hwh) as (Hw & _); [lia..|].
  pose proof (count_nat (length l) k (depth / 8) Hw Hk) as Hn.
  assert (Hs : zlen s = 2 * zlen l) by (unfold s; rewrite length_interleave; lia).
  destruct (pscm_split_spec depth s ol orr n) as (k' & Hk' & Hsp & _); [|lia..|].
  { split; [by destruct Hwh|]. exists (Z.of_nat k). lia. }
  assert (k' = k) as -> by nia. rewrite Hs in Hsp. rewrite Hsp, !drop_ge, !app_nil_r by lia.
  unfold s. rewrite lefts_interleave, rights_interleave by lia. do 2 f_equal.
  f_equal. symmetry. apply Z.div_unique with 0; lia.
Qed.

Lemma split_combine_witness :
  exists s, pscm_combine [1; 2; 3; 4] [5; 6; 7; 8] 4 16 (replicate 8 0) 0 = Ok (s, 8, 0) /\
    pscm_two_channel_split s 8 16 [0; 0; 0; 0] [0; 0; 0; 0] 0 = Ok ([1; 2; 3; 4], [5; 6; 7; 8], 4, 0).
Proof.
  apply (split_combine 16 [1; 2; 3; 4] [5; 6; 7; 8] (replicate 8 0) [0; 0; 0; 0] [0; 0; 0; 0] 0); try done.
  split; [by left|]. by exists 2.
Defined.

(** A mono stream with silence or a copy of itself in the other channel is
    the combination of two mono streams, and one channel of a split is what the
    split into both gives. *)
Theorem channel_modifiers_agree depth input out n stereo ol orr :
  whole depth (zlen input) 1 -> 2 * zlen input <= zlen out -> zlen input < 2 ^ 31 ->
  whole depth (zlen stereo) 2 -> zlen stereo <= 2 * zlen ol -> zlen stereo <= 2 * zlen orr ->
  let silence := replicate (length input) 0 in
  pscm_zero_pad input (zlen input) AUDIO_CH_L depth out n = pscm_combine input silence (zlen input) depth out n /\
  pscm_zero_pad input (zlen input) AUDIO_CH_R depth out n = pscm_combine silence input (zlen input) depth out n /\
  pscm_copy_pad input (zlen input) depth out n = pscm_combine input input (zlen input) depth out n /\
  exists l r size, pscm_two_channel_split stereo (zlen stereo) depth ol orr n = Ok (l, r, size, 0) /\
    pscm_one_channel_split stereo (zlen stereo) AUDIO_CH_L depth ol n = Ok (l, size, 0) /\
    pscm_one_channel_split stereo (zlen stereo) AUDIO_CH_R depth orr n = Ok (r, size, 0).
Proof.
  intros Hwh Ho Hl Hst Hol Hor silence. destruct (whole_valid _ _ _ Hwh) as (Hw & H1 & H2 & k & Hk); [lia..|].
  assert (E : zlen input / (depth / 8) = Z.of_nat k) by (rewrite Hk, Z.mul_1_r; apply Z.div_mul; lia).
  assert (Hsil : length silence = length input) by apply length_replicate.
  assert (Hz : forall ch, ch <> AUDIO_CH_NUM ->
    zero_pad_loop k ch (depth / 8) input out 0 0 =
      Ok (match ch with
          | AUDIO_CH_L => interleave (Z.to_nat (depth / 8)) k input silence
          | _ => interleave (Z.to_nat (depth / 8)) k silence input
          end ++ drop (2 * (k * Z.to_nat (depth / 8))) out, 0)).
  { intros ch Hch. pose proof (zero_pad_loop_spec k ch (depth / 8) input [] out 0 0 (length input) Hw eq_refl) as Hz.
    cbn [app] in Hz. change (Z.to_nat 0) with 0%nat in Hz. rewrite drop_0 in Hz. apply Hz; (done || lia). }
  pose proof (combine_loop_spec k (depth / 8) input silence [] out 0 0 Hw eq_refl) as C1.
  pose proof (combine_loop_spec k (depth / 8) silence input [] out 0 0 Hw eq_refl) as C2.
  cbn [app] in C1, C2. change (Z.to_nat 0) with 0%nat in C1, C2. rewrite !drop_0 in C1, C2.
  split; [|split; [|split]].
  - unfold pscm_zero_pad, pscm_combine. rewrite H1, H2, E, Nat2Z.id, Hz, C1 by (done || lia). done.
  - unfold pscm_zero_pad, pscm_combine. rewrite H1, H2, E, Nat2Z.id, Hz, C2 by (done || lia). done.
  - unfold pscm_copy_pad, pscm_combine. by rewrite copy_pad_loop_combine.
  - destruct (pscm_split_spec depth stereo ol orr n Hst Hol Hor) as (k' & _ & H3 & H4 & H5). by eexists _, _, _.
Qed.

Lemma channel_modifiers_agree_witness :
  pscm_zero_pad [1; 2; 3; 4] 4 AUDIO_CH_R 16 (replicate 8 7) 0 =
    pscm_combine [0; 0; 0; 0] [1; 2; 3; 4] 4 16 (replicate 8 7) 0 /\
  exists l r size, pscm_two_channel_split [1; 2; 3; 4] 4 16 [0; 0] [0; 0] 0 = Ok (l, r, size, 0) /\
    pscm_one_channel_split [1; 2; 3; 4] 4 AUDIO_CH_L 16 [0; 0] 0 = Ok (l, size, 0) /\
    pscm_one_channel_split [1; 2; 3; 4] 4 AUDIO_CH_R 16 [0; 0] 0 = Ok (r, size, 0).
Proof.
  destruct (channel_modifiers_agree 16 [1; 2; 3; 4] (replicate 8 7) 0 [1; 2; 3; 4] [0; 0] [0; 0])
    as (_ & Hr & _ & Hs); try done.
  - split; [by left|]. by exists 2.
  - split; [by left|]. by exists 1.
Defined.

(** Nothing is written for a depth or a size that is not supported. *)
Lemma combine_refuses l r size depth out n :
  is_valid_bit_depth depth = false \/ is_valid_size size (depth / 8) 1 = false ->
  pscm_combine l r size depth out n = Ok (out, n, - errno_num EINVAL).
Proof. unfold pscm_combine. intros [->| ->]; [done|]. by rewrite orb_true_r. Qed.

End Channels.
