(* ===== verification/DataFifo.v ===== *)
(** * Data FIFO: lib/data_fifo

    Blocks of a memory slab are passed from a producer to a consumer through a
    message queue. Slab and queue are those of the operating system: parameters
    with the documented behaviour as laws. *)

From stdpp Require Import prelude list gmap.
From Stdlib Require Import ZArith Lia.
From S2P Require Import Prelude.

Open Scope Z_scope.

Module Fifo.

(** ** The kernel objects *)

(** A queue element: the address of the block and the number of octets. *)
Record data_fifo_msgq := { block_ptr : Z; msg_size : Z }.

#[export] Instance data_fifo_msgq_eq_dec : EqDecision data_fifo_msgq.
Proof. solve_decision. Defined.

Class Kernel := {
  slab : Type;
  slab_used : slab -> gset Z;                       (* the blocks allocated *)
  slab_blocks : slab -> gset Z;                     (* all blocks *)
  k_mem_slab_init : Z -> Z -> Z -> res slab;        (* buffer, block size, number *)
  k_mem_slab_alloc : slab -> Z -> slab * option Z * Z;
  k_mem_slab_free : slab -> Z -> slab;
  queue : Type;
  queue_items : queue -> list data_fifo_msgq;
  queue_max : queue -> nat;
  k_msgq_init : Z -> queue;
  k_msgq_put : queue -> data_fifo_msgq -> queue * Z;
  k_msgq_get : queue -> Z -> queue * option data_fifo_msgq * Z;
  WB_UP : Z -> Z;                                   (* rounds up to words *)
  k_mem_slab_init_spec buffer bs n :
    0 < n -> 0 < bs -> bs mod WB_UP 1 = 0 ->
    exists s, k_mem_slab_init buffer bs n = Ok s /\ slab_used s = ∅ /\ size (slab_blocks s) = Z.to_nat n;
  k_mem_slab_alloc_some s t :
    slab_used s ⊂ slab_blocks s ->
    exists s' b, k_mem_slab_alloc s t = (s', Some b, 0) /\ b ∈ slab_blocks s /\ (b ∉ slab_used s) /\
      slab_used s' = ({[b]} ∪ slab_used s) /\ slab_blocks s' = slab_blocks s;
  k_mem_slab_alloc_none s t :
    slab_used s = slab_blocks s ->
    exists rc, k_mem_slab_alloc s t = (s, None, rc) /\ rc < 0;
  k_mem_slab_free_spec s b :
    b ∈ slab_used s ->
    slab_used (k_mem_slab_free s b) = (slab_used s ∖ {[b]}) /\ slab_blocks (k_mem_slab_free s b) = slab_blocks s;
  k_msgq_init_spec n : queue_items (k_msgq_init n) = [] /\ queue_max (k_msgq_init n) = Z.to_nat n;
  k_msgq_put_spec q x :
    let '(q', rc) := k_msgq_put q x in
    queue_max q' = queue_max q /\
    if (length (queue_items q) <? queue_max q)%nat then rc = 0 /\ queue_items q' = queue_items q ++ [x]
    else rc < 0 /\ queue_items q' = queue_items q;
  k_msgq_get_spec q t :
    let '(q', o, rc) := k_msgq_get q t in
    queue_max q' = queue_max q /\
    match queue_items q with
    | [] => o = None /\ rc < 0 /\ (t = 0 -> rc = - errno_num ENOMSG) /\ queue_items q' = []
    | x :: l => o = Some x /\ rc = 0 /\ queue_items q' = l
    end
}.

Definition K_NO_WAIT : Z := 0.

(** ** The operations *)

Section Ops.
Context `{Kernel}.

Record data_fifo := {
  slab_buffer : Z;
  mem_slab : slab;
  msgq : queue;
  elements_max : Z;
  block_size_max : Z;
  initialized : bool
}.
Definition set_slab (f : data_fifo) (s : slab) : data_fifo :=
  {| slab_buffer := slab_buffer f; mem_slab := s; msgq := msgq f; elements_max := elements_max f;
     block_size_max := block_size_max f; initialized := initialized f |}.
Definition set_msgq (f : data_fifo) (q : queue) : data_fifo :=
  {| slab_buffer := slab_buffer f; mem_slab := mem_slab f; msgq := q; elements_max := elements_max f;
     block_size_max := block_size_max f; initialized := initialized f |}.
Definition set_initialized (f : data_fifo) (b : bool) : data_fifo :=
  {| slab_buffer := slab_buffer f; mem_slab := mem_slab f; msgq := msgq f; elements_max := elements_max f;
     block_size_max := block_size_max f; initialized := b |}.

(** An assertion of the code. *)
Definition c_assert (b : bool) : res unit := if b then Ok tt else Fault.

(** The value returned, and the numbers of queue elements and blocks. *)
Definition msgq_slab_legal_used_elements (f : data_fifo) : Z * (Z * Z) :=
  let msgq_num_used := zlen (queue_items (msgq f)) in
  let slab_blocks_num_used := Z.of_nat (size (slab_used (mem_slab f))) in
  if slab_blocks_num_used <? msgq_num_used then (- errno_num EACCES, (0, 0))
  else (0, (msgq_num_used, slab_blocks_num_used)).

Definition data_fifo_pointer_first_vacant_get (f : data_fifo) (timeout : Z)
    : res (data_fifo * option Z * Z) :=
  let* _ := c_assert (initialized f) in
  let '(s, data, ret) := k_mem_slab_alloc (mem_slab f) timeout in
  Ok (set_slab f s, data, ret).

Definition data_fifo_block_lock (f : data_fifo) (data size : Z) : res (data_fifo * Z) :=
  let* _ := c_assert (initialized f) in
  if block_size_max f <? size then Ok (f, - errno_num ENOMEM)
  else if size =? 0 then Ok (f, - errno_num EINVAL)
  else
    let '(q, ret) := k_msgq_put (msgq f) {| block_ptr := data; msg_size := size |} in
    let f := set_msgq f q in
    if negb (ret =? 0) then Ok (f, - errno_num ESPIPE) else Ok (f, 0).

(** The block and its size are set only on success. *)
Definition data_fifo_pointer_last_filled_get (f : data_fifo) (timeout : Z)
    : res (data_fifo * option (Z * Z) * Z) :=
  let* _ := c_assert (initialized f) in
  let '(q, msgq_tmp, ret) := k_msgq_get (msgq f) timeout in
  let f := set_msgq f q in
  if negb (ret =? 0) then Ok (f, None, ret)
  else Ok (f, (fun m => (block_ptr m, msg_size m)) <$> msgq_tmp, 0).

Definition data_fifo_block_free (f : data_fifo) (data : Z) : res data_fifo :=
  let* _ := c_assert (initialized f) in
  Ok (set_slab f (k_mem_slab_free (mem_slab f) data)).

(** The value returned; the numbers of allocated and locked blocks are set only
    on success. *)
Definition data_fifo_num_used_get (f : data_fifo) : res (Z * option (Z * Z)) :=
  let* _ := c_assert (initialized f) in
  let '(ret, (msgq_num_used, slab_blocks_num_used)) := msgq_slab_legal_used_elements f in
  if negb (ret =? 0) then Ok (ret, None) else Ok (ret, Some (slab_blocks_num_used, msgq_num_used)).

Fixpoint empty_loop (n : nat) (f : data_fifo) : res (data_fifo * Z) :=
  match n with
  | O => Ok (f, 0)
  | S n =>
    let* '(f, old, ret) := data_fifo_pointer_last_filled_get f K_NO_WAIT in
    if ret =? - errno_num ENOMSG then Ok (f, 0)
    else if negb (ret =? 0) then Ok (f, ret)
    else
      match old with
      | Some (old_data, _) =>
        let* f := data_fifo_block_free f old_data in
        empty_loop n f
      | None => Fault
      end
  end.

Definition data_fifo_empty (f : data_fifo) : res (data_fifo * Z) :=
  let* '(ret, nums) := data_fifo_num_used_get f in
  if negb (ret =? 0) then Ok (f, ret) else
  let fifo_locked_num := default 0 (snd <$> nums) in
  let* '(f, ret) := empty_loop (Z.to_nat fifo_locked_num) f in
  if negb (ret =? 0) then Ok (f, ret) else
  match k_mem_slab_init (slab_buffer f) (block_size_max f) (elements_max f) with
  | Ok s => Ok (set_slab f s, 0)
  | Err e => Ok (f, - errno_num e)
  | Fault => Fault
  | NoFuel => NoFuel
  end.

Definition data_fifo_uninit (f : data_fifo) : res (data_fifo * Z) :=
  let* _ := c_assert (initialized f) in
  let* '(f, ret) := data_fifo_empty f in
  if negb (ret =? 0) then Ok (f, ret) else Ok (set_initialized f false, 0).

Definition data_fifo_init (f : data_fifo) : res (data_fifo * Z) :=
  let* _ := c_assert (negb (initialized f)) in
  let* _ := c_assert (negb (elements_max f =? 0)) in
  let* _ := c_assert (negb (block_size_max f =? 0)) in
  let* _ := c_assert (block_size_max f mod WB_UP 1 =? 0) in
  let f := set_msgq f (k_msgq_init (elements_max f)) in
  match k_mem_slab_init (slab_buffer f) (block_size_max f) (elements_max f) with
  | Ok s => Ok (set_initialized (set_slab f s) true, 0)
  | Err e => Ok (f, - errno_num e)
  | Fault => Fault
  | NoFuel => NoFuel
  end.

Definition data_fifo_state (f : data_fifo) : res bool :=
  let* _ := c_assert (negb (elements_max f =? 0)) in
  let* _ := c_assert (negb (block_size_max f =? 0)) in
  let* _ := c_assert (block_size_max f mod WB_UP 1 =? 0) in
  Ok (initialized f).

(** ** Producer and consumer *)

(** The state of the system: the blocks that the producer writes and the
    consumer reads, and all that was locked and fetched so far. *)
Record world := {
  fifo : data_fifo;
  writing : gset Z;
  reading : gset Z;
  locked : list (Z * Z);
  fetched : list (Z * Z)
}.

Inductive event :=
  | Vacant (timeout : Z)
  | Lock (data size : Z)
  | Filled (timeout : Z)
  | Free (data : Z).

(** Each side uses only blocks that it holds. *)
Definition enabled (w : world) (e : event) : Prop :=
  match e with
  | Lock data size => data ∈ writing w /\ 0 <= size
  | Free data => data ∈ reading w
  | _ => True
  end.

Definition step (w : world) (e : event) : res (world * Z) :=
  match e with
  | Vacant timeout =>
    let* '(f, data, ret) := data_fifo_pointer_first_vacant_get (fifo w) timeout in
    Ok ({| fifo := f; writing := match data with Some b => {[b]} ∪ writing w | None => writing w end;
           reading := reading w; locked := locked w; fetched := fetched w |}, ret)
  | Lock data size =>
    let* '(f, ret) := data_fifo_block_lock (fifo w) data size in
    Ok (if ret =? 0
        then {| fifo := f; writing := writing w ∖ {[data]}; reading := reading w;
                locked := locked w ++ [(data, size)]; fetched := fetched w |}
        else {| fifo := f; writing := writing w; reading := reading w; locked := locked w;
                fetched := fetched w |}, ret)
  | Filled timeout =>
    let* '(f, o, ret) := data_fifo_pointer_last_filled_get (fifo w) timeout in
    Ok (match o with
        | Some (b, n) => {| fifo := f; writing := writing w; reading := {[b]} ∪ reading w;
                            locked := locked w; fetched := fetched w ++ [(b, n)] |}
        | None => {| fifo := f; writing := writing w; reading := reading w; locked := locked w;
                     fetched := fetched w |}
        end, ret)
  | Free data =>
    let* f := data_fifo_block_free (fifo w) data in
    Ok ({| fifo := f; writing := writing w; reading := reading w ∖ {[data]}; locked := locked w;
           fetched := fetched w |}, 0)
  end.
End Ops.

(** ** The invariant *)

Section Invariant.
Context `{Kernel}.

Definition items (f : data_fifo) : list data_fifo_msgq := queue_items (msgq f).
Definition queued (f : data_fifo) : gset Z := list_to_set (block_ptr <$> items f).
Definition pair_of (m : data_fifo_msgq) : Z * Z := (block_ptr m, msg_size m).

(** A FIFO that is in use: every block that is allocated is written, queued or
    read, and only one of them. *)
Record inv (w : world) : Prop := {
  inv_initialized : initialized (fifo w) = true;
  inv_used : slab_used (mem_slab (fifo w)) = (writing w ∪ reading w ∪ queued (fifo w));
  inv_disjoint : writing w ## reading w /\ writing w ∪ reading w ## queued (fifo w);
  inv_nodup : NoDup (block_ptr <$> items (fifo w));
  inv_blocks : slab_used (mem_slab (fifo w)) ⊆ slab_blocks (mem_slab (fifo w));
  inv_size : size (slab_blocks (mem_slab (fifo w))) = Z.to_nat (elements_max (fifo w));
  inv_max : queue_max (msgq (fifo w)) = Z.to_nat (elements_max (fifo w));
  inv_config : 0 < elements_max (fifo w) /\ 0 < block_size_max (fifo w) /\
    block_size_max (fifo w) mod WB_UP 1 = 0;
  inv_sizes : Forall (fun m => 0 < msg_size m <= block_size_max (fifo w)) (items (fifo w));
  inv_log : locked w = fetched w ++ (pair_of <$> items (fifo w))
}.

Lemma size_queued f : NoDup (block_ptr <$> items f) -> size (queued f) = length (items f).
Proof. intros Hnd. unfold queued. by rewrite size_list_to_set, length_fmap. Qed.

(** The blocks in use are counted by where they are. *)
Lemma used_count w :
  inv w -> size (slab_used (mem_slab (fifo w))) = (size (writing w) + size (reading w) + length (items (fifo w)))%nat.
Proof.
  intros [_ -> [Hd1 Hd2] Hnd _ _ _ _ _ _]. by rewrite !size_union, size_queued.
Qed.

Lemma used_limit w :
  inv w -> (size (writing w) + size (reading w) + length (items (fifo w)) <= Z.to_nat (elements_max (fifo w)))%nat.
Proof.
  intros Hi. rewrite <- (used_count w Hi), <- (inv_size w Hi). apply subseteq_size, (inv_blocks w Hi).
Qed.

(** A producer that holds a block finds room in the queue. *)
Lemma lock_room w b : inv w -> b ∈ writing w -> (length (items (fifo w)) < queue_max (msgq (fifo w)))%nat.
Proof.
  intros Hi Hb. pose proof (used_limit w Hi). rewrite (inv_max w Hi).
  assert (size (writing w) <> 0%nat); [|lia]. intros E. apply size_empty_inv in E. set_solver.
Qed.

Lemma vacant_inv w t :
  inv w -> exists w' ret, step w (Vacant t) = Ok (w', ret) /\ inv w' /\
    (slab_used (mem_slab (fifo w)) ⊂ slab_blocks (mem_slab (fifo w)) -> ret = 0 /\ writing w ⊂ writing w') /\
    locked w' = locked w /\ fetched w' = fetched w /\ items (fifo w') = items (fifo w).
Proof.
  intros [Hin Hu [Hd1 Hd2] Hnd Hb Hs Hm Hc Hz Hl].
  cbn [step]. unfold data_fifo_pointer_first_vacant_get. rewrite Hin. cbn [c_assert]. cstep.
  destruct (decide (slab_used (mem_slab (fifo w)) = slab_blocks (mem_slab (fifo w)))) as [E|E].
  - destruct (k_mem_slab_alloc_none _ t E) as (rc & -> & Hrc). cstep. eexists _, rc. split; [done|].
    split; [by split|]. split; [|done]. intros [_ Hne]. exfalso. apply Hne. by rewrite E.
  - destruct (k_mem_slab_alloc_some (mem_slab (fifo w)) t) as (s' & b & -> & Hbl & Hnu & Hu' & Hb').
    { apply leibniz_equiv_iff in Hu. split; [done|]. intros Hsub. apply E. by apply (anti_symm (⊆)). }
    cstep. eexists _, 0. split; [done|]. rewrite Hu in Hnu.
    split; [|split; [|done]; intros _; split; [done|]; cbn; set_solver].
    split; cbn; rewrite ?Hb', ?Hu', ?Hu; try done.
    + change (queued (set_slab (fifo w) s')) with (queued (fifo w)). set_solver.
    + change (queued (set_slab (fifo w) s')) with (queued (fifo w)). set_solver.
    + set_solver.
Qed.

Lemma lock_inv w b n :
  inv w -> enabled w (Lock b n) -> exists w', 
    step w (Lock b n) = Ok (w', if block_size_max (fifo w) <? n then - errno_num ENOMEM
                                else if n =? 0 then - errno_num EINVAL else 0) /\ inv w' /\
    fetched w' = fetched w /\
    items (fifo w') = items (fifo w) ++
      (if (block_size_max (fifo w) <? n) || (n =? 0) then [] else [{| block_ptr := b; msg_size := n |}]).
Proof.
  intros Hi [Hb Hn]. pose proof (lock_room w b Hi Hb) as Hroom.
  destruct Hi as [Hin Hu [Hd1 Hd2] Hnd Hbl Hs Hm Hc Hz Hl].
  cbn [step]. unfold data_fifo_block_lock. rewrite Hin. cbn [c_assert]. cstep.
  destruct (Z.ltb_spec (block_size_max (fifo w)) n).
  { cbn [orb]. rewrite app_nil_r. eexists. split; [done|]. split; [by split|done]. }
  destruct (Z.eqb_spec n 0); cbn [orb].
  { rewrite app_nil_r. eexists. split; [done|]. split; [by split|done]. }
  pose proof (k_msgq_put_spec (msgq (fifo w)) {| block_ptr := b; msg_size := n |}) as Hput.
  destruct (k_msgq_put _ _) as [q ret]. destruct Hput as [Hmax Hput]. unfold items in Hroom.
  destruct (Nat.ltb_spec (length (queue_items (msgq (fifo w)))) (queue_max (msgq (fifo w)))); [|lia].
  destruct Hput as [-> Hq]. cbn [Z.eqb negb]. cstep. cbn [Z.eqb].
  eexists. split; [done|]. split; [|done].
  assert (Hit : items (set_msgq (fifo w) q) = items (fifo w) ++ [{| block_ptr := b; msg_size := n |}]) by done.
  assert (Hqd : queued (set_msgq (fifo w) q) = ({[b]} ∪ queued (fifo w))).
  { unfold queued. rewrite Hit, fmap_app, list_to_set_app_L. cbn. set_solver. }
  split; cbn [fifo writing reading locked fetched]; rewrite ?Hqd, ?Hit; cbn [set_msgq mem_slab initialized msgq elements_max block_size_max];
    try done.
  - rewrite Hu. apply set_eq. intros x. destruct (decide (x = b)); set_solver.
  - set_solver.
  - rewrite fmap_app. apply NoDup_app. split; [done|]. split; [|by apply NoDup_singleton].
    cbn. intros x Hx ->%list_elem_of_singleton. apply (Hd2 b); [set_solver|]. unfold queued. by apply elem_of_list_to_set.
  - lia.
  - apply Forall_app. split; [done|]. apply Forall_singleton. cbn. lia.
  - by rewrite Hl, fmap_app, app_assoc.
Qed.

Lemma filled_inv w t :
  inv w -> exists w' ret, step w (Filled t) = Ok (w', ret) /\ inv w' /\ locked w' = locked w /\
    match items (fifo w) with
    | [] => ret < 0 /\ fetched w' = fetched w /\ items (fifo w') = []
    | m :: l => ret = 0 /\ fetched w' = fetched w ++ [pair_of m] /\ items (fifo w') = l
    end.
Proof.
  intros [Hin Hu [Hd1 Hd2] Hnd Hbl Hs Hm Hc Hz Hl].
  cbn [step]. unfold data_fifo_pointer_last_filled_get. rewrite Hin. cbn [c_assert]. cstep.
  pose proof (k_msgq_get_spec (msgq (fifo w)) t) as Hget.
  destruct (k_msgq_get (msgq (fifo w)) t) as [[q o] rc]. destruct Hget as [Hmax Hget].
  unfold items in *. destruct (queue_items (msgq (fifo w))) as [|m l] eqn:E.
  - destruct Hget as (-> & Hrc & _ & Hq). destruct (Z.eqb_spec rc 0); [lia|]. cbn [negb]. cstep.
    eexists _, rc. split; [done|]. split; [|done].
    assert (Hqd : queued (set_msgq (fifo w) q) = queued (fifo w)).
    { unfold queued, items. cbn [set_msgq msgq]. by rewrite Hq, E. }
    split; cbn [fifo writing reading locked fetched]; unfold items; rewrite ?Hqd; cbn; rewrite ?Hq; try done. lia.
  - destruct Hget as (-> & -> & Hq). cbn [Z.eqb negb fmap option_fmap option_map]. cstep.
    eexists _, 0. split; [done|]. split; [|done].
    assert (Hqd : queued (fifo w) = ({[block_ptr m]} ∪ queued (set_msgq (fifo w) q))).
    { unfold queued, items. cbn [set_msgq msgq]. by rewrite Hq, E. }
    cbn [fmap list_fmap] in Hnd. apply NoDup_cons in Hnd as [Hm' Hnd].
    assert (Hnq : block_ptr m ∉ queued (set_msgq (fifo w) q)).
    { unfold queued, items. cbn [set_msgq msgq]. rewrite Hq. by rewrite elem_of_list_to_set. }
    apply Forall_cons in Hz as [_ Hz]. rewrite Hqd in Hu, Hd2.
    split; cbn [fifo writing reading locked fetched]; unfold items;
      cbn [set_msgq mem_slab initialized msgq elements_max block_size_max]; rewrite ?Hq; try done.
    + rewrite Hu. set_solver.
    + set_solver.
    + lia.
    + rewrite Hl. cbn. by rewrite <- app_assoc.
Qed.

Lemma free_inv w b :
  inv w -> enabled w (Free b) -> exists w', step w (Free b) = Ok (w', 0) /\ inv w' /\
    locked w' = locked w /\ fetched w' = fetched w /\ items (fifo w') = items (fifo w).
Proof.
  intros [Hin Hu [Hd1 Hd2] Hnd Hbl Hs Hm Hc Hz Hl] Hb. cbn in Hb.
  cbn [step]. unfold data_fifo_block_free. rewrite Hin. cbn [c_assert]. cstep. eexists. split; [done|]. split; [|done].
  destruct (k_mem_slab_free_spec (mem_slab (fifo w)) b) as [Hu' Hb']; [rewrite Hu; set_solver|].
  set (f := set_slab _ _). assert (Hqd : queued f = queued (fifo w)) by done.
  split; cbn [fifo writing reading locked fetched]; rewrite ?Hqd; cbn [f set_slab mem_slab]; rewrite ?Hu', ?Hb'; try done.
  - rewrite Hu. apply set_eq. intros x. destruct (decide (x = b)); set_solver.
  - set_solver.
  - set_solver.
Qed.

(** *** Start and end *)

Definition start (f : data_fifo) : world :=
  {| fifo := f; writing := ∅; reading := ∅; locked := []; fetched := [] |}.

Definition configured (f : data_fifo) : Prop :=
  0 < elements_max f /\ 0 < block_size_max f /\ block_size_max f mod WB_UP 1 = 0.

(** A slab and a queue without elements. *)
Lemma start_inv f s :
  configured f -> initialized f = true -> items f = [] -> queue_max (msgq f) = Z.to_nat (elements_max f) ->
  slab_used s = ∅ -> size (slab_blocks s) = Z.to_nat (elements_max f) -> inv (start (set_slab f s)).
Proof.
  intros Hc Hi Hq Hm Hu Hb. assert (Hqd : queued f = ∅) by (unfold queued; by rewrite Hq).
  split; cbn [start fifo writing reading locked fetched]; change (queued (set_slab f s)) with (queued f);
    change (items (set_slab f s)) with (items f); rewrite ?Hqd, ?Hq; cbn [set_slab mem_slab]; rewrite ?Hu; try done.
  - apply NoDup_nil_2.
Qed.

Lemma data_fifo_init_spec f :
  configured f -> initialized f = false -> exists f', data_fifo_init f = Ok (f', 0) /\ inv (start f').
Proof.
  intros Hc Hi. pose proof Hc as (He & Hb & Hw). unfold data_fifo_init. rewrite Hi. cbn [negb c_assert]. cstep.
  destruct (Z.eqb_spec (elements_max f) 0); [lia|]. destruct (Z.eqb_spec (block_size_max f) 0); [lia|].
  rewrite Hw. cbn [negb c_assert Z.eqb]. cstep.
  destruct (k_mem_slab_init_spec (slab_buffer f) (block_size_max f) (elements_max f)) as (s & Hs & Hu & Hn); [done..|].
  cbn [set_msgq slab_buffer block_size_max elements_max]. rewrite Hs.
  destruct (k_msgq_init_spec (elements_max f)) as [Hq Hm]. eexists. split; [done|].
  exact (start_inv (set_initialized (set_msgq f (k_msgq_init (elements_max f))) true) s Hc eq_refl Hq Hm Hu Hn).
Qed.

Lemma num_used_spec w :
  inv w -> data_fifo_num_used_get (fifo w) =
    Ok (0, Some (Z.of_nat (size (slab_used (mem_slab (fifo w)))), zlen (items (fifo w)))).
Proof.
  intros Hi. unfold data_fifo_num_used_get. rewrite (inv_initialized w Hi). cbn [c_assert]. cstep.
  unfold msgq_slab_legal_used_elements. fold (items (fifo w)). rewrite (used_count w Hi).
  by destruct (Z.ltb_spec (Z.of_nat (size (writing w) + size (reading w) + length (items (fifo w))))
    (zlen (items (fifo w)))); [lia|].
Qed.

(** The elements of the queue are fetched and freed. *)
Lemma empty_loop_spec n w :
  inv w -> n = length (items (fifo w)) -> exists w', empty_loop n (fifo w) = Ok (fifo w', 0) /\ inv w' /\
    items (fifo w') = [] /\ slab_buffer (fifo w') = slab_buffer (fifo w) /\
    elements_max (fifo w') = elements_max (fifo w) /\ block_size_max (fifo w') = block_size_max (fifo w).
Proof.
  revert w. induction n as [|n IH]; intros w Hi Hn.
  { exists w. split; [done|]. split; [done|]. split; [by apply nil_length_inv|done]. }
  destruct (filled_inv w K_NO_WAIT Hi) as (w1 & ret & Hstep & Hi1 & _ & Hcase).
  destruct (items (fifo w)) as [|m l] eqn:E; [done|]. destruct Hcase as (-> & Hf1 & Hit1).
  cbn [step] in Hstep. cbn [empty_loop].
  destruct (data_fifo_pointer_last_filled_get (fifo w) K_NO_WAIT) as [[[f1 o] ret]| | |] eqn:Hg; try done.
  cbn [mbind res_bind] in Hstep. injection Hstep as Hw1 ->. cstep.
  assert (Hsame : slab_buffer f1 = slab_buffer (fifo w) /\ elements_max f1 = elements_max (fifo w) /\
    block_size_max f1 = block_size_max (fifo w)).
  { unfold data_fifo_pointer_last_filled_get in Hg. rewrite (inv_initialized w Hi) in Hg. cbn [c_assert mbind res_bind] in Hg.
    destruct (k_msgq_get _ _) as [[q ?] rc]. destruct (negb _); by simplify_eq. }
  destruct o as [[b k]|].
  2:{ subst w1. cbn [fetched] in Hf1. apply (f_equal length) in Hf1. rewrite length_app in Hf1. cbn in Hf1. lia. }
  subst w1. cbn [fifo] in Hi1, Hit1. cbn [Z.eqb negb].
  destruct (free_inv _ b Hi1) as (w2 & Hstep2 & Hi2 & _ & _ & Hit2); [cbn; set_solver|].
  cbn [step fifo] in Hstep2. destruct (data_fifo_block_free f1 b) as [f2| | |] eqn:Hfr; try done.
  cbn [mbind res_bind] in Hstep2. injection Hstep2 as Hw2. cstep.
  assert (Hf2 : fifo w2 = f2) by (by subst w2).
  destruct (IH w2 Hi2) as (w' & Hrun & Hi' & Hit' & Hs' & He' & Hb').
  { rewrite Hit2. cbn [fifo]. rewrite Hit1. cbn in Hn. lia. }
  exists w'. rewrite Hf2 in Hrun. split; [exact Hrun|]. split; [done|]. split; [done|].
  rewrite Hs', He', Hb', Hf2. unfold data_fifo_block_free in Hfr.
  destruct (c_assert _); try done. cbn in Hfr. by injection Hfr as <-.
Qed.

Lemma data_fifo_empty_spec w :
  inv w -> exists f', data_fifo_empty (fifo w) = Ok (f', 0) /\ inv (start f').
Proof.
  intros Hi. unfold data_fifo_empty. rewrite num_used_spec by done. cstep. cbn [Z.eqb negb fmap option_fmap option_map default id snd].
  rewrite Nat2Z.id. destruct (empty_loop_spec _ w Hi eq_refl) as (w' & -> & Hi' & Hit & Hs & He & Hb). cstep.
  cbn [Z.eqb negb]. rewrite Hs, He, Hb. pose proof (inv_config w Hi) as (H1 & H2 & H3).
  destruct (k_mem_slab_init_spec (slab_buffer (fifo w)) (block_size_max (fifo w)) (elements_max (fifo w)))
    as (s & -> & Hu & Hn); [done..|]. eexists. split; [done|].
  apply start_inv; try done; try apply Hi'. by rewrite He.
Qed.

(** *** Runs *)

Inductive steps : world -> list event -> world -> Prop :=
  | steps_nil w : steps w [] w
  | steps_cons w e w1 ret es w2 :
      enabled w e -> step w e = Ok (w1, ret) -> steps w1 es w2 -> steps w (e :: es) w2.

(** The worlds that a FIFO reaches after its initialisation. *)
Definition reachable (w : world) : Prop :=
  exists f f' es, configured f /\ initialized f = false /\ data_fifo_init f = Ok (f', 0) /\
    steps (start f') es w.

Definition is_filled (e : event) : bool := match e with Filled _ => true | _ => false end.
Definition fills (es : list event) : nat := length (filter is_filled es).

(** What one event does to the queue. *)
Lemma step_inv w e w' ret :
  inv w -> enabled w e -> step w e = Ok (w', ret) ->
  inv w' /\ exists l k, items (fifo w) ++ l = k ++ items (fifo w') /\ fetched w' = fetched w ++ (pair_of <$> k) /\
    (is_filled e = true -> items (fifo w) <> [] -> k <> []).
Proof.
  intros Hi He Hs. destruct e as [t|b n|t|b].
  - destruct (vacant_inv w t Hi) as (w1 & r1 & Hs1 & Hi1 & _ & _ & Hf & Hit). rewrite Hs1 in Hs. injection Hs as -> ->.
    split; [done|]. exists [], []. by rewrite Hit, Hf, !app_nil_r.
  - destruct (lock_inv w b n Hi He) as (w1 & Hs1 & Hi1 & Hf & Hit). rewrite Hs1 in Hs. injection Hs as -> _.
    split; [done|]. eexists _, []. split; [cbn [app]; rewrite Hit; reflexivity|]. by rewrite Hf, app_nil_r.
  - destruct (filled_inv w t Hi) as (w1 & r1 & Hs1 & Hi1 & _ & Hc). rewrite Hs1 in Hs. injection Hs as -> ->.
    split; [done|]. destruct (items (fifo w)) as [|m l].
    + destruct Hc as (_ & Hf & Hit). exists [], []. by rewrite Hit, Hf, !app_nil_r.
    + destruct Hc as (_ & Hf & Hit). exists [], [m]. rewrite Hit, Hf, app_nil_r. done.
  - destruct (free_inv w b Hi He) as (w1 & Hs1 & Hi1 & _ & Hf & Hit). rewrite Hs1 in Hs. injection Hs as -> _.
    split; [done|]. exists [], []. by rewrite Hit, Hf, !app_nil_r.
Qed.

Lemma steps_inv w es w' :
  inv w -> steps w es w' ->
  inv w' /\ exists l k, items (fifo w) ++ l = k ++ items (fifo w') /\ fetched w' = fetched w ++ (pair_of <$> k) /\
    (Nat.min (fills es) (length (items (fifo w))) <= length k)%nat.
Proof.
  intros Hi Hs. induction Hs as [w|w e w1 ret es w2 He Hst Hs IH].
  { split; [done|]. exists [], []. rewrite !app_nil_r. split; [done|]. split; [done|cbn; lia]. }
  destruct (step_inv w e w1 ret Hi He Hst) as (Hi1 & l1 & k1 & Hq1 & Hf1 & Hk1).
  destruct (IH Hi1) as (Hi2 & l2 & k2 & Hq2 & Hf2 & Hk2). split; [done|]. exists (l1 ++ l2), (k1 ++ k2).
  split; [by rewrite app_assoc, Hq1, <- app_assoc, Hq2, app_assoc|].
  split; [by rewrite Hf2, Hf1, fmap_app, app_assoc|].
  unfold fills in *. rewrite filter_cons. apply (f_equal length) in Hq1. rewrite !length_app in *.
  case_decide as Hfi; [|lia]. cbn [length].
  destruct (items (fifo w)) as [|m q]; [cbn; lia|].
  destruct k1 as [|x k1]; [by destruct (Hk1 ltac:(by destruct (is_filled e)))|]. cbn [length] in *. lia.
Qed.

Lemma reachable_inv w : reachable w -> inv w.
Proof.
  intros (f & f' & es & Hc & Hi & Hrun & Hs). destruct (data_fifo_init_spec f Hc Hi) as (f1 & Hrun1 & Hi1).
  rewrite Hrun in Hrun1. injection Hrun1 as ->. by destruct (steps_inv _ _ _ Hi1 Hs).
Qed.

(** ** Properties *)

(** C37: in every state that producer and consumer reach, every allocated block
    is held by exactly one side or queued once; a block that is locked with a
    legal size always finds room in the queue, the numbers of blocks in use are
    consistent, and no call violates an assertion. *)
Theorem fifo_invariant w :
  reachable w ->
  slab_used (mem_slab (fifo w)) = (writing w ∪ reading w ∪ queued (fifo w)) /\
  writing w ## reading w /\ writing w ∪ reading w ## queued (fifo w) /\
  NoDup (block_ptr <$> items (fifo w)) /\
  data_fifo_num_used_get (fifo w) =
    Ok (0, Some (Z.of_nat (size (writing w) + size (reading w) + length (items (fifo w))), zlen (items (fifo w)))) /\
  forall e, enabled w e -> exists w' ret, step w e = Ok (w', ret) /\ reachable w' /\
    match e with Lock _ n => 0 < n <= block_size_max (fifo w) -> ret = 0 | Free _ => ret = 0 | _ => True end.
Proof.
  intros Hr. pose proof (reachable_inv w Hr) as Hi. split; [apply Hi|]. split; [apply Hi|]. split; [apply Hi|].
  split; [apply Hi|]. split; [rewrite num_used_spec by done; by rewrite (used_count w Hi)|]. intros e He.
  assert (Hnext : exists w' ret, step w e = Ok (w', ret) /\
    match e with Lock _ n => 0 < n <= block_size_max (fifo w) -> ret = 0 | Free _ => ret = 0 | _ => True end).
  { destruct e as [t|b n|t|b].
    - destruct (vacant_inv w t Hi) as (w' & ret & Hs & _). by exists w', ret.
    - destruct (lock_inv w b n Hi He) as (w' & Hs & _). eexists _, _. split; [exact Hs|]. intros Hn.
      destruct (Z.ltb_spec (block_size_max (fifo w)) n); [lia|]. by destruct (Z.eqb_spec n 0); [lia|].
    - destruct (filled_inv w t Hi) as (w' & ret & Hs & _). by exists w', ret.
    - destruct (free_inv w b Hi He) as (w' & Hs & _). by exists w', 0. }
  destruct Hnext as (w' & ret & Hs & Hret). exists w', ret. split; [done|]. split; [|done].
  destruct Hr as (f & f' & es & Hc & Hin & Hrun & Hst). exists f, f', (es ++ [e]).
  split; [done|]. split; [done|]. split; [done|]. clear -Hst He Hs.
  induction Hst as [|? ? ? ? ? ? ? ? ? IH]; [by eapply steps_cons; [..|constructor]|].
  cbn [app]. eapply steps_cons; [done..|]. by apply IH.
Qed.

(** C38: every block that is queued is delivered: whatever else happens, the
    fetch after those in front of it hands it out with its size, in the order of
    the locks. *)
Theorem queued_block_is_fetched w es w' i m :
  reachable w -> steps w es w' -> items (fifo w) !! i = Some m -> (i < fills es)%nat ->
  fetched w' !! (length (fetched w) + i)%nat = Some (block_ptr m, msg_size m).
Proof.
  intros Hr Hs Hm Hi. destruct (steps_inv w es w' (reachable_inv w Hr) Hs) as (_ & l & k & Hq & Hf & Hk).
  pose proof (lookup_lt_Some _ _ _ Hm) as Hlt.
  assert (Hki : k !! i = Some m).
  { rewrite <- (lookup_app_l k (items (fifo w'))) by lia. rewrite <- Hq. by rewrite lookup_app_l. }
  rewrite Hf, lookup_app_r by lia. replace (length (fetched w) + i - length (fetched w))%nat with i by lia.
  by rewrite list_lookup_fmap, Hki.
Qed.

(** With nothing in their hands, one side can always go on. *)
Lemma no_deadlock w t :
  reachable w -> writing w = ∅ -> reading w = ∅ ->
  exists w' e, (e = Vacant t \/ e = Filled t) /\ step w e = Ok (w', 0).
Proof.
  intros Hr Hw Hrd. pose proof (reachable_inv w Hr) as Hi. destruct (items (fifo w)) as [|m l] eqn:E.
  - destruct (vacant_inv w t Hi) as (w' & ret & Hs & _ & Hret & _). exists w', (Vacant t). split; [by left|].
    destruct Hret as [-> _]; [|done]. pose proof (used_count w Hi) as Hn. rewrite E, Hw, Hrd in Hn.
    rewrite !size_empty in Hn. apply size_empty_inv, leibniz_equiv in Hn. rewrite Hn.
    split; [set_solver|]. intros Hsub. pose proof (subseteq_size _ _ Hsub) as Hsz.
    rewrite (inv_size w Hi), size_empty in Hsz. pose proof (inv_config w Hi). lia.
  - destruct (filled_inv w t Hi) as (w' & ret & Hs & _ & _ & Hc). rewrite E in Hc. destruct Hc as (-> & _).
    exists w', (Filled t). split; [by right|done].
Qed.

(** The FIFO can be emptied in any state; what was held is forgotten. *)
Lemma empty_restarts w :
  reachable w -> exists f, data_fifo_empty (fifo w) = Ok (f, 0) /\ inv (start f) /\
    exists f', data_fifo_uninit f = Ok (f', 0) /\ data_fifo_state f' = Ok false.
Proof.
  intros Hr. destruct (data_fifo_empty_spec w (reachable_inv w Hr)) as (f & Hrun & Hi). exists f.
  split; [done|]. split; [done|]. destruct (data_fifo_empty_spec (start f) Hi) as (f' & Hrun' & Hi').
  exists (set_initialized f' false). unfold data_fifo_uninit. pose proof (inv_initialized _ Hi) as Hin.
  cbn [start fifo] in Hin, Hrun'. rewrite Hin. cbn [c_assert]. cstep. rewrite Hrun'. cstep. split; [done|].
  unfold data_fifo_state. pose proof (inv_config _ Hi') as (H1 & H2 & H3). cbn [start fifo] in *.
  cbn [set_initialized elements_max block_size_max]. destruct (Z.eqb_spec (elements_max f') 0); [lia|].
  destruct (Z.eqb_spec (block_size_max f') 0); [lia|]. by rewrite H3.
Qed.
End Invariant.

(** ** Witnesses *)

(** A slab that hands out the free block with the lowest number, and a queue that
    is a list. *)
Record ref_slab := { ref_count : Z; ref_used : gset Z }.
Definition ref_blocks (n : Z) : gset Z := list_to_set (seqZ 0 n).
Definition ref_free (s : ref_slab) : list Z := filter (fun b => b ∉ ref_used s) (seqZ 0 (ref_count s)).

#[refine] Definition kernel_reference : Kernel := {|
  slab := ref_slab;
  slab_used := ref_used;
  slab_blocks s := ref_blocks (ref_count s);
  k_mem_slab_init _ bs n := if (0 <? n) && (0 <? bs) then Ok {| ref_count := n; ref_used := ∅ |} else Err EINVAL;
  k_mem_slab_alloc s _ := match ref_free s with
    | [] => (s, None, - errno_num ENOMEM)
    | b :: _ => ({| ref_count := ref_count s; ref_used := {[b]} ∪ ref_used s |}, Some b, 0)
    end;
  k_mem_slab_free s b := {| ref_count := ref_count s; ref_used := ref_used s ∖ {[b]} |};
  queue := nat * list data_fifo_msgq;
  queue_items := snd;
  queue_max := fst;
  k_msgq_init n := (Z.to_nat n, []);
  k_msgq_put q x := if (length q.2 <? q.1)%nat then ((q.1, q.2 ++ [x]), 0) else (q, - errno_num ENOMSG);
  k_msgq_get q _ := match q.2 with
    | [] => (q, None, - errno_num ENOMSG)
    | x :: l => ((q.1, l), Some x, 0)
    end;
  WB_UP n := (n + 3) / 4 * 4
|}.
Proof.
  - intros buffer bs n Hn Hb _. destruct (Z.ltb_spec 0 n), (Z.ltb_spec 0 bs); try lia. eexists. split; [done|].
    split; [done|]. cbn. unfold ref_blocks. rewrite size_list_to_set by apply NoDup_seqZ. by rewrite length_seqZ.
  - intros s t [Hsub Hne]. destruct (ref_free s) as [|b l] eqn:E.
    + exfalso. apply Hne. intros b Hb. apply elem_of_list_to_set in Hb. apply dec_stable. intros Hn.
      assert (b ∈ ref_free s) as Hin by (by apply list_elem_of_filter). rewrite E in Hin. by apply elem_of_nil in Hin.
    + assert (b ∈ ref_free s) as Hin by (rewrite E; by left). apply list_elem_of_filter in Hin as [Hu Hb].
      eexists _, b. split; [done|]. split; [by apply elem_of_list_to_set|done].
  - intros s t Heq. destruct (ref_free s) as [|b l] eqn:E; [by exists (- errno_num ENOMEM)|].
    assert (b ∈ ref_free s) as Hin by (rewrite E; by left). apply list_elem_of_filter in Hin as [Hu Hb].
    exfalso. apply Hu. rewrite Heq. by apply elem_of_list_to_set.
  - done.
  - done.
  - intros [n l] x. cbn [fst snd]. by destruct (length l <? n)%nat.
  - intros q t. cbn. by destruct q as [n [|x l]].
Defined.

Section Demo.
#[local] Existing Instance kernel_reference.

Definition demo : data_fifo :=
  {| slab_buffer := 0; mem_slab := {| ref_count := 0; ref_used := ∅ |}; msgq := (0%nat, []); elements_max := 2;
     block_size_max := 8; initialized := false |}.
Definition ready : data_fifo := match data_fifo_init demo with Ok (f, _) => f | _ => demo end.
Definition after (w : world) (e : event) : world := match step w e with Ok (w, _) => w | _ => w end.
Definition busy : world := foldl after (start ready) [Vacant 0; Vacant 0; Lock 1 8; Lock 0 4].

Lemma demo_steps : steps (start ready) [Vacant 0; Vacant 0; Lock 1 8; Lock 0 4] busy.
Proof.
  repeat (eapply steps_cons; [|reflexivity|]); [done|done| | |apply steps_nil]; split; try done; by_compute.
Qed.

Lemma busy_reachable : reachable busy.
Proof.
  exists demo, ready, [Vacant 0; Vacant 0; Lock 1 8; Lock 0 4].
  split; [done|]. split; [done|]. split; [done|]. apply demo_steps.
Qed.

Lemma fifo_invariant_witness :
  data_fifo_num_used_get (fifo busy) = Ok (0, Some (2, 2)) /\ NoDup (block_ptr <$> items (fifo busy)).
Proof.
  destruct (fifo_invariant busy busy_reachable) as (_ & _ & _ & Hnd & Hn & _). split; [exact Hn|exact Hnd].
Defined.

Lemma queued_block_is_fetched_witness :
  fetched (foldl after busy [Filled 0; Vacant 0; Filled 0]) !! 1%nat = Some (0, 4).
Proof.
  apply (queued_block_is_fetched busy [Filled 0; Vacant 0; Filled 0] _ 1 {| block_ptr := 0; msg_size := 4 |});
    [apply busy_reachable| |done|by_compute].
  repeat (eapply steps_cons; [done|reflexivity|]). apply steps_nil.
Defined.
End Demo.

End Fifo.
