(* ===== verification/T4t.v ===== *)
(** * Type 4 Tag files and commands: tlv_block.c, cc_file.c, apdu.c and
    ndef_file.c of subsys/nfc/t4t

    The parser of the capability container with its file control blocks, the
    encoder of commands, the decoder of responses, and the NDEF file header. A
    function that changes its arguments before it fails returns them with the
    value it returns. *)

From stdpp Require Import prelude list.
From Stdlib Require Import ZArith Lia.
From S2P Require Import Prelude NdefRecord.

Open Scope Z_scope.

(** ** File control blocks *)

Definition TLV_TYPE_FIELD_LEN : Z := 1.
Definition TLV_LEN_SHORT_FIELD_LEN : Z := 1.
Definition TLV_LEN_LONG_FIELD_LEN : Z := 3.
Definition TLV_LEN_LONG_FORMAT_TOKEN : Z := 0xFF.
Definition TLV_LEN_LONG_FORMAT_TOKEN_SIZE : Z := 1.
Definition TLV_LEN_LONG_FORMAT_MIN_VALUE : Z := 0xFF.
Definition TLV_MIN_TL_FIELD_LEN : Z := TLV_TYPE_FIELD_LEN + TLV_LEN_SHORT_FIELD_LEN.
Definition TLV_MIN_LONG_FORMAT_TL_FIELD_LEN : Z := TLV_TYPE_FIELD_LEN + TLV_LEN_LONG_FIELD_LEN.

Definition FILE_CONTROL_FILE_ID_FIELD_SIZE : Z := 2.
Definition FILE_CONTROL_READ_ACCESS_FIELD_SIZE : Z := 1.
Definition FILE_CONTROL_WRITE_ACCESS_FIELD_SIZE : Z := 1.
Definition FILE_CONTROL_COMMON_FIELDS_SIZE : Z :=
  FILE_CONTROL_FILE_ID_FIELD_SIZE + FILE_CONTROL_READ_ACCESS_FIELD_SIZE + FILE_CONTROL_WRITE_ACCESS_FIELD_SIZE.

(** [FILE_ID_INVALID_VALUE_0] to [FILE_ID_INVALID_VALUE_5]. *)
Definition file_id_invalid : list Z := [0x0000; 0xE102; 0xE103; 0x3F00; 0x3FFF; 0xFFFF].

Definition NDEF_FILE_MAX_SIZE_FIELD_SIZE : Z := 2.
Definition NDEF_FILE_MAX_SIZE_MIN_VAL : Z := 0x0005.
Definition NDEF_FILE_MAX_SIZE_MAX_VAL : Z := 0xFFFE.
Definition NDEF_FILE_CONTROL_TLV_LEN : Z := FILE_CONTROL_COMMON_FIELDS_SIZE + NDEF_FILE_MAX_SIZE_FIELD_SIZE.
Definition PROPRIETARY_FILE_MAX_SIZE_FIELD_SIZE : Z := 2.
Definition PROPRIETARY_FILE_MAX_SIZE_MIN_VAL : Z := 0x0003.
Definition PROPRIETARY_FILE_MAX_SIZE_MAX_VAL : Z := 0xFFFE.
Definition PROPRIETARY_FILE_CONTROL_TLV_LEN : Z :=
  FILE_CONTROL_COMMON_FIELDS_SIZE + PROPRIETARY_FILE_MAX_SIZE_FIELD_SIZE.
Definition EXTENDED_NDEF_FILE_MAX_SIZE_FIELD_SIZE : Z := 4.
Definition EXTENDED_NDEF_FILE_MAX_SIZE_MIN_VAL : Z := 0x0000FFFF.
Definition EXTENDED_NDEF_FILE_MAX_SIZE_MAX_VAL : Z := 0xFFFFFFFE.
Definition EXTENDED_NDEF_FILE_CONTROL_TLV_LEN : Z :=
  FILE_CONTROL_COMMON_FIELDS_SIZE + EXTENDED_NDEF_FILE_MAX_SIZE_FIELD_SIZE.

Definition NFC_T4T_TLV_BLOCK_TYPE_NDEF_FILE_CONTROL_TLV : Z := 0x04.
Definition NFC_T4T_TLV_BLOCK_TYPE_PROPRIETARY_FILE_CONTROL_TLV : Z := 0x05.
Definition NFC_T4T_TLV_BLOCK_TYPE_EXTENDED_NDEF_FILE_CONTROL_TLV : Z := 0x06.

(** The content is an address, [0] for the null pointer. *)
Record nfc_t4t_tlv_block_file := { content : Z; file_len : Z }.
Record nfc_t4t_tlv_block_file_control_val := {
  file : nfc_t4t_tlv_block_file;
  max_file_size : Z;
  file_id : Z;
  read_access : Z;
  write_access : Z
}.
Record nfc_t4t_tlv_block := { value : nfc_t4t_tlv_block_file_control_val; tlv_length : Z; tlv_type : Z }.

#[export] Instance nfc_t4t_tlv_block_file_eq_dec : EqDecision nfc_t4t_tlv_block_file.
Proof. solve_decision. Defined.
#[export] Instance nfc_t4t_tlv_block_file_control_val_eq_dec : EqDecision nfc_t4t_tlv_block_file_control_val.
Proof. solve_decision. Defined.
#[export] Instance nfc_t4t_tlv_block_eq_dec : EqDecision nfc_t4t_tlv_block.
Proof. solve_decision. Defined.

Definition tlv_block_zero : nfc_t4t_tlv_block :=
  {| value := {| file := {| content := 0; file_len := 0 |}; max_file_size := 0; file_id := 0;
                 read_access := 0; write_access := 0 |}; tlv_length := 0; tlv_type := 0 |}.
Definition set_tl (b : nfc_t4t_tlv_block) (len type : Z) : nfc_t4t_tlv_block :=
  {| value := value b; tlv_length := len; tlv_type := type |}.
Definition set_value (b : nfc_t4t_tlv_block) (f : nfc_t4t_tlv_block_file) (id max rd wr : Z) : nfc_t4t_tlv_block :=
  {| value := {| file := f; max_file_size := max; file_id := id; read_access := rd; write_access := wr |};
     tlv_length := tlv_length b; tlv_type := tlv_type b |}.

Definition max_field_range_verify (v min max : Z) : bool := negb ((v <? min) || (max <? v)).

Definition nfc_t4t_file_control_tl_validate (b : nfc_t4t_tlv_block) : Z :=
  if tlv_type b =? NFC_T4T_TLV_BLOCK_TYPE_NDEF_FILE_CONTROL_TLV then
    if negb (tlv_length b =? NDEF_FILE_CONTROL_TLV_LEN) then - errno_num EINVAL else 0
  else if tlv_type b =? NFC_T4T_TLV_BLOCK_TYPE_PROPRIETARY_FILE_CONTROL_TLV then
    if negb (tlv_length b =? PROPRIETARY_FILE_CONTROL_TLV_LEN) then - errno_num EINVAL else 0
  else if tlv_type b =? NFC_T4T_TLV_BLOCK_TYPE_EXTENDED_NDEF_FILE_CONTROL_TLV then
    if negb (tlv_length b =? EXTENDED_NDEF_FILE_CONTROL_TLV_LEN) then - errno_num EINVAL else 0
  else - errno_num EINVAL.

Section Parse.
Context `{ByteOrder}.

(** The field of the maximum size, by the type of the block: its value, the
    position behind it and whether the value is in the range of the type. *)
Definition max_file_size_parse (b : nfc_t4t_tlv_block) (data : list Z) (pos : Z) : res (Z * Z * bool) :=
  if tlv_type b =? NFC_T4T_TLV_BLOCK_TYPE_NDEF_FILE_CONTROL_TLV then
    let* bs := rd_block data pos 2 in
    Ok (sys_get_be16 bs, pos + NDEF_FILE_MAX_SIZE_FIELD_SIZE,
        max_field_range_verify (sys_get_be16 bs) NDEF_FILE_MAX_SIZE_MIN_VAL NDEF_FILE_MAX_SIZE_MAX_VAL)
  else if tlv_type b =? NFC_T4T_TLV_BLOCK_TYPE_PROPRIETARY_FILE_CONTROL_TLV then
    let* bs := rd_block data pos 2 in
    Ok (sys_get_be16 bs, pos + PROPRIETARY_FILE_MAX_SIZE_FIELD_SIZE,
        max_field_range_verify (sys_get_be16 bs) PROPRIETARY_FILE_MAX_SIZE_MIN_VAL
          PROPRIETARY_FILE_MAX_SIZE_MAX_VAL)
  else if tlv_type b =? NFC_T4T_TLV_BLOCK_TYPE_EXTENDED_NDEF_FILE_CONTROL_TLV then
    let* bs := rd_block data pos 4 in
    Ok (sys_get_be32 bs, pos + EXTENDED_NDEF_FILE_MAX_SIZE_FIELD_SIZE,
        max_field_range_verify (sys_get_be32 bs) EXTENDED_NDEF_FILE_MAX_SIZE_MIN_VAL
          EXTENDED_NDEF_FILE_MAX_SIZE_MAX_VAL)
  else Ok (max_file_size (value b), pos, true).

(** [value_buff] is the position [pos] of the data. *)
Definition nfc_t4t_file_control_value_parse (b : nfc_t4t_tlv_block) (data : list Z) (pos : Z)
    : res (nfc_t4t_tlv_block * Z) :=
  let v := value b in
  let* bs := rd_block data pos 2 in
  let id := sys_get_be16 bs in
  let pos := pos + FILE_CONTROL_FILE_ID_FIELD_SIZE in
  if bool_decide (id ∈ file_id_invalid) then
    Ok (set_value b (file v) id (max_file_size v) (read_access v) (write_access v), - errno_num EINVAL)
  else
  let* '(max, pos, ok) := max_file_size_parse b data pos in
  if negb ok then Ok (set_value b (file v) id max (read_access v) (write_access v), - errno_num EINVAL) else
  let* r := rd data pos in
  let pos := pos + FILE_CONTROL_READ_ACCESS_FIELD_SIZE in
  let* w := rd data pos in
  Ok (set_value b (file v) id max r w, 0).

(** The block, the length it has, and the value returned. *)
Definition nfc_t4t_tlv_block_parse (b : nfc_t4t_tlv_block) (data : list Z) (pos len : Z)
    : res (nfc_t4t_tlv_block * Z * Z) :=
  let raw_data := pos in
  if len <? TLV_MIN_TL_FIELD_LEN then Ok (b, len, - errno_num ENOMEM) else
  let* type := rd data pos in
  let b := set_tl tlv_block_zero 0 type in
  let pos := pos + TLV_TYPE_FIELD_LEN in
  let* l := rd data pos in
  let* '(b, pos, rc) :=
    if l =? TLV_LEN_LONG_FORMAT_TOKEN then
      if len <? TLV_MIN_LONG_FORMAT_TL_FIELD_LEN then Ok (b, pos, - errno_num ENOMEM) else
      let* bs := rd_block data (pos + TLV_LEN_LONG_FORMAT_TOKEN_SIZE) 2 in
      let b := set_tl b (sys_get_be16 bs) type in
      let pos := pos + TLV_LEN_LONG_FIELD_LEN in
      if tlv_length b <? TLV_LEN_LONG_FORMAT_MIN_VALUE then Ok (b, pos, - errno_num EINVAL) else Ok (b, pos, 0)
    else Ok (set_tl b l type, pos + TLV_LEN_SHORT_FIELD_LEN, 0) in
  if negb (rc =? 0) then Ok (b, len, rc) else
  let tlv_block_len := u16 ((pos - raw_data) + tlv_length b) in
  if len <? tlv_block_len then Ok (b, len, - errno_num ENOMEM) else
  let len := tlv_block_len in
  let err := nfc_t4t_file_control_tl_validate b in
  if negb (err =? 0) then Ok (b, len, err) else
  let* '(b, rc) := nfc_t4t_file_control_value_parse b data pos in
  Ok (b, len, rc).
End Parse.

(** ** The capability container *)

Definition CC_LEN_MIN_VALUE : Z := 0x000F.
Definition CC_LEN_MAX_VALUE : Z := 0xFFFE.
Definition NFC_T4T_EXTENDED_MAJOR_VER : Z := 0x03.
Definition NFC_T4T_REGULAR_MAJOR_VER : Z := 0x02.
Definition CC_LEN_FIELD_SIZE : Z := 2.
Definition MAP_VER_FIELD_SIZE : Z := 1.
Definition MLE_FIELD_SIZE : Z := 2.
Definition MLC_FIELD_SIZE : Z := 2.
Definition LSN_GET (v : Z) : Z := Z.land v 0x0F.
Definition MSN_GET (v : Z) : Z := Z.land (Z.shiftr v 4) 0x0F.

Record nfc_t4t_cc_file := {
  tlv_block_array : option (list nfc_t4t_tlv_block);
  tlv_count : Z;
  max_tlv_blocks : Z;
  cc_len : Z;
  max_rapdu_size : Z;
  max_capdu_size : Z;
  major_version : Z;
  minor_version : Z
}.
Definition set_blocks (cc : nfc_t4t_cc_file) (a : list nfc_t4t_tlv_block) (n : Z) : nfc_t4t_cc_file :=
  {| tlv_block_array := Some a; tlv_count := n; max_tlv_blocks := max_tlv_blocks cc; cc_len := cc_len cc;
     max_rapdu_size := max_rapdu_size cc; max_capdu_size := max_capdu_size cc;
     major_version := major_version cc; minor_version := minor_version cc |}.
Definition set_header (cc : nfc_t4t_cc_file) (len major minor mle mlc : Z) : nfc_t4t_cc_file :=
  {| tlv_block_array := tlv_block_array cc; tlv_count := tlv_count cc; max_tlv_blocks := max_tlv_blocks cc;
     cc_len := len; max_rapdu_size := mle; max_capdu_size := mlc; major_version := major;
     minor_version := minor |}.

(** The array of the descriptor; the null pointer has no elements. *)
Definition blocks (cc : nfc_t4t_cc_file) : list nfc_t4t_tlv_block := default [] (tlv_block_array cc).

Definition nfc_t4t_cc_args_validate (cc : option nfc_t4t_cc_file) (raw_data : option (list Z)) (len : Z) : Z :=
  match cc, raw_data with
  | Some cc, Some _ =>
    if bool_decide (tlv_block_array cc = None) then - errno_num EFAULT
    else if (len <? CC_LEN_MIN_VALUE) || (CC_LEN_MAX_VALUE <? len) then - errno_num EINVAL
    else if max_tlv_blocks cc =? 0 then - errno_num ENOMEM
    else 0
  | _, _ => - errno_num EFAULT
  end.

Definition nfc_t4t_cc_file_validate (cc : nfc_t4t_cc_file) : res Z :=
  match blocks cc with
  | [] => Fault
  | b :: _ =>
    Ok (if ((major_version cc =? NFC_T4T_EXTENDED_MAJOR_VER) &&
            (tlv_type b =? NFC_T4T_TLV_BLOCK_TYPE_EXTENDED_NDEF_FILE_CONTROL_TLV)) ||
           ((major_version cc =? NFC_T4T_REGULAR_MAJOR_VER) &&
            (tlv_type b =? NFC_T4T_TLV_BLOCK_TYPE_NDEF_FILE_CONTROL_TLV))
        then 0 else - errno_num EINVAL)
  end.

Definition nfc_t4t_cc_file_clear (cc : nfc_t4t_cc_file) : nfc_t4t_cc_file := set_blocks cc (blocks cc) 0.

Definition nfc_t4t_tlv_block_insert (cc : nfc_t4t_cc_file) (b : nfc_t4t_tlv_block) : res (nfc_t4t_cc_file * Z) :=
  if tlv_count cc =? max_tlv_blocks cc then Ok (cc, - errno_num ENOMEM)
  else if (Z.of_nat (length (blocks cc)) <=? tlv_count cc) then Fault
  else Ok (set_blocks cc (<[Z.to_nat (tlv_count cc) := b]> (blocks cc)) (u16 (tlv_count cc + 1)), 0).

Section CcFile.
Context `{ByteOrder}.

Fixpoint cc_loop (fuel : nat) (cc : nfc_t4t_cc_file) (new_block : nfc_t4t_tlv_block) (data : list Z)
    (pos len : Z) : res (nfc_t4t_cc_file * Z) :=
  if 0 <? len then
    match fuel with
    | O => NoFuel
    | S fuel =>
      let* '(new_block, tlv_len, err) := nfc_t4t_tlv_block_parse new_block data pos len in
      if negb (err =? 0) then Ok (cc, err) else
      let pos := pos + tlv_len in
      let len := u16 (len - tlv_len) in
      let* '(cc, err) := nfc_t4t_tlv_block_insert cc new_block in
      if negb (err =? 0) then Ok (cc, err) else cc_loop fuel cc new_block data pos len
    end
  else
    let* err := nfc_t4t_cc_file_validate cc in
    Ok (cc, err).

Definition nfc_t4t_cc_file_parse (cc : option nfc_t4t_cc_file) (raw_data : option (list Z)) (len : Z)
    : res (option nfc_t4t_cc_file * Z) :=
  let err := nfc_t4t_cc_args_validate cc raw_data len in
  if negb (err =? 0) then Ok (cc, err) else
  match cc, raw_data with
  | Some cc, Some data =>
    let cc := nfc_t4t_cc_file_clear cc in
    let* l := rd_block data 0 2 in
    let pos := CC_LEN_FIELD_SIZE in
    let* v := rd data pos in
    let pos := pos + MAP_VER_FIELD_SIZE in
    let* mle := rd_block data pos 2 in
    let pos := pos + MLE_FIELD_SIZE in
    let* mlc := rd_block data pos 2 in
    let pos := pos + MLC_FIELD_SIZE in
    let cc := set_header cc (sys_get_be16 l) (MSN_GET v) (LSN_GET v) (sys_get_be16 mle) (sys_get_be16 mlc) in
    let len := u16 (len - pos) in
    let* '(cc, err) := cc_loop (Z.to_nat len) cc tlv_block_zero data pos len in
    Ok (Some cc, err)
  | _, _ => Fault
  end.
End CcFile.

(** The index of the block that is found. *)
Fixpoint content_find (bs : list nfc_t4t_tlv_block) (n : nat) (id i : Z) : res (option Z) :=
  match n, bs with
  | O, _ => Ok None
  | S _, [] => Fault
  | S n, b :: bs => if file_id (value b) =? id then Ok (Some i) else content_find bs n id (i + 1)
  end.
Definition nfc_t4t_cc_file_content_get (cc : nfc_t4t_cc_file) (id : Z) : res (option Z) :=
  content_find (blocks cc) (Z.to_nat (tlv_count cc)) id 0.

Definition set_file (b : nfc_t4t_tlv_block) (f : nfc_t4t_tlv_block_file) : nfc_t4t_tlv_block :=
  set_value b f (file_id (value b)) (max_file_size (value b)) (read_access (value b)) (write_access (value b)).

Definition nfc_t4t_cc_file_content_set (cc : nfc_t4t_cc_file) (f : nfc_t4t_tlv_block_file) (id : Z)
    : res (nfc_t4t_cc_file * Z) :=
  let* tlv_block := nfc_t4t_cc_file_content_get cc id in
  match tlv_block with
  | Some i => Ok (set_blocks cc (alter (fun b => set_file b f) (Z.to_nat i) (blocks cc)) (tlv_count cc), 0)
  | None => Ok (cc, - errno_num EACCES)
  end.

(** ** Commands and responses *)

Definition CLASS_TYPE_SIZE : Z := 1.
Definition INSTRUCTION_TYPE_SIZE : Z := 1.
Definition PARAMETER_SIZE : Z := 2.
Definition LC_SHORT_FORMAT_SIZE : Z := 1.
Definition LC_LONG_FORMAT_SIZE : Z := 3.
Definition LE_SHORT_FORMAT_SIZE : Z := 1.
Definition LE_LONG_FORMAT_SIZE : Z := 2.
Definition LC_LONG_FORMAT_TOKEN : Z := 0x00.
Definition LC_LONG_FORMAT_THR : Z := 0xFF.
Definition LE_FIELD_ABSENT : Z := 0.
Definition LE_LONG_FORMAT_THR : Z := 0x0100.
Definition LE_ENCODED_VAL_256 : Z := 0x00.
Definition STATUS_SIZE : Z := 2.

Definition NFC_T4T_APDU_COMM_INS_SELECT : Z := 0xA4.
Definition NFC_T4T_APDU_COMM_INS_READ : Z := 0xB0.
Definition NFC_T4T_APDU_COMM_INS_UPDATE : Z := 0xD6.
Definition NFC_T4T_APDU_CLASS_BYTE_NO_SECURE_MSG : Z := 0x00.
Definition NFC_T4T_APDU_SELECT_BY_FILE_ID : Z := 0x000C.
Definition NFC_T4T_APDU_SELECT_BY_NAME : Z := 0x0400.
Definition NFC_T4T_APDU_RAPDU_STATUS_CMD_COMPLETED : Z := 0x9000.
Definition NFC_T4T_APDU_RAPDU_STATUS_SEL_ITEM_NOT_FOUND : Z := 0x6A82.

Record nfc_t4t_apdu_data := { buff : option (list Z); data_len : Z }.
Record nfc_t4t_apdu_comm := {
  class_byte : Z;
  instruction : Z;
  parameter : Z;
  comm_data : nfc_t4t_apdu_data;
  resp_len : Z
}.
Record nfc_t4t_apdu_resp := { status : Z; resp_data : nfc_t4t_apdu_data }.

Definition nfc_t4t_apdu_comm_clear : nfc_t4t_apdu_comm :=
  {| class_byte := 0; instruction := 0; parameter := 0; comm_data := {| buff := None; data_len := 0 |};
     resp_len := 0 |}.
Definition nfc_t4t_apdu_resp_clear : nfc_t4t_apdu_resp :=
  {| status := 0; resp_data := {| buff := None; data_len := 0 |} |}.

Definition nfc_t4t_apdu_comm_size_calc (cmd : nfc_t4t_apdu_comm) : Z :=
  let res := u16 (CLASS_TYPE_SIZE + INSTRUCTION_TYPE_SIZE + PARAMETER_SIZE) in
  let res :=
    match buff (comm_data cmd) with
    | Some _ =>
      if LC_LONG_FORMAT_THR <? data_len (comm_data cmd) then u16 (res + LC_LONG_FORMAT_SIZE)
      else u16 (res + LC_SHORT_FORMAT_SIZE)
    | None => res
    end in
  let res := u16 (res + data_len (comm_data cmd)) in
  if negb (resp_len cmd =? LE_FIELD_ABSENT) then
    if LE_LONG_FORMAT_THR <? resp_len cmd then u16 (res + LE_LONG_FORMAT_SIZE)
    else u16 (res + LE_SHORT_FORMAT_SIZE)
  else res.

Definition nfc_t4t_apdu_comm_args_validate (cmd : option nfc_t4t_apdu_comm) (raw_data : option (list Z))
    (len : option Z) : Z :=
  match cmd, raw_data, len with
  | Some cmd, Some _, Some _ =>
    if bool_decide (buff (comm_data cmd) <> None) && (data_len (comm_data cmd) =? 0) then - errno_num EFAULT else 0
  | _, _, _ => - errno_num EINVAL
  end.

Section Apdu.
Context `{ByteOrder}.

(** The optional data field at [pos], with its length in front of it, and the
    position behind it. *)
Definition comm_data_write (cmd : nfc_t4t_apdu_comm) (m : list Z) (pos : Z) : res (list Z * Z) :=
  match buff (comm_data cmd) with
  | Some b =>
    let* '(m, pos) :=
      if LC_LONG_FORMAT_THR <? data_len (comm_data cmd) then
        let* m := wr m pos LC_LONG_FORMAT_TOKEN in
        let* m := wr_block m (pos + 1) (sys_put_be16 (data_len (comm_data cmd))) in
        Ok (m, pos + 3)
      else
        let* m := wr m pos (u8 (data_len (comm_data cmd))) in
        Ok (m, pos + 1) in
    let* d := rd_block b 0 (data_len (comm_data cmd)) in
    let* m := wr_block m pos d in
    Ok (m, pos + data_len (comm_data cmd))
  | None => Ok (m, pos)
  end.

(** The optional length of the response. *)
Definition comm_resp_len_write (cmd : nfc_t4t_apdu_comm) (m : list Z) (pos : Z) : res (list Z) :=
  if negb (resp_len cmd =? LE_FIELD_ABSENT) then
    if LE_LONG_FORMAT_THR <? resp_len cmd then wr_block m pos (sys_put_be16 (resp_len cmd))
    else if resp_len cmd =? LE_LONG_FORMAT_THR then wr m pos LE_ENCODED_VAL_256
    else wr m pos (u8 (resp_len cmd))
  else Ok m.

(** The buffer, the length and the value returned. *)
Definition nfc_t4t_apdu_comm_encode (cmd : option nfc_t4t_apdu_comm) (raw_data : option (list Z))
    (len : option Z) : res (option (list Z) * option Z * Z) :=
  let err := nfc_t4t_apdu_comm_args_validate cmd raw_data len in
  if negb (err =? 0) then Ok (raw_data, len, err) else
  match cmd, raw_data, len with
  | Some cmd, Some m, Some l =>
    let comm_apdu_len := nfc_t4t_apdu_comm_size_calc cmd in
    if l <? comm_apdu_len then Ok (Some m, Some l, - errno_num ENOMEM) else
    let* m := wr m 0 (u8 (class_byte cmd)) in
    let* m := wr m 1 (u8 (instruction cmd)) in
    let* m := wr_block m 2 (sys_put_be16 (parameter cmd)) in
    let* '(m, pos) := comm_data_write cmd m 4 in
    let* m := comm_resp_len_write cmd m pos in
    Ok (Some m, Some comm_apdu_len, 0)
  | _, _, _ => Fault
  end.

Definition nfc_t4t_apdu_resp_args_validate (resp : option nfc_t4t_apdu_resp) (raw_data : option (list Z))
    (len : Z) : Z :=
  match resp, raw_data with
  | Some _, Some _ => if len <? STATUS_SIZE then - errno_num EPERM else 0
  | _, _ => - errno_num EINVAL
  end.

Definition nfc_t4t_apdu_resp_decode (resp : option nfc_t4t_apdu_resp) (raw_data : option (list Z)) (len : Z)
    : res (option nfc_t4t_apdu_resp * Z) :=
  let err := nfc_t4t_apdu_resp_args_validate resp raw_data len in
  if negb (err =? 0) then Ok (resp, err) else
  match raw_data with
  | Some m =>
    let d :=
      if STATUS_SIZE <? len then {| buff := Some m; data_len := u16 (len - STATUS_SIZE) |}
      else resp_data nfc_t4t_apdu_resp_clear in
    let* st := rd_block m (data_len d) 2 in
    Ok (Some {| status := sys_get_be16 st; resp_data := d |}, 0)
  | None => Fault
  end.

(** ** The NDEF file *)

Definition NFC_NDEF_FILE_NLEN_FIELD_SIZE : Z := 2.

Definition nfc_t4t_ndef_file_msg_size_get (file_buf_size : Z) : Z := file_buf_size - NFC_NDEF_FILE_NLEN_FIELD_SIZE.
(** The offset of the message in the file. *)
Definition nfc_t4t_ndef_file_msg_get : Z := NFC_NDEF_FILE_NLEN_FIELD_SIZE.

Definition nfc_t4t_ndef_file_encode (file_buf : option (list Z)) (size : option Z)
    : res (option (list Z) * option Z * Z) :=
  match file_buf, size with
  | Some m, Some n =>
    if n <? 1 then Ok (file_buf, size, - errno_num EINVAL)
    else if 65535 <? n then Ok (file_buf, size, - errno_num ENOTSUP)
    else
      let* m := wr_block m 0 (sys_cpu_to_be16 (u16 n)) in
      Ok (Some m, Some (u32 (n + NFC_NDEF_FILE_NLEN_FIELD_SIZE)), 0)
  | _, _ => Ok (file_buf, size, - errno_num EINVAL)
  end.
End Apdu.
