(* ===== verification/T4tSpec.v ===== *)
(** * The octets of capability containers, commands and responses

    What the parsers and encoders of T4t do, stated with the octets of the
    specification of Type 4 Tags: the parser of the capability container
    returns on every input and accepts exactly the encodings of well-formed
    containers, and the encoder of commands writes the octets of a command. *)

From stdpp Require Import prelude list.
From Stdlib Require Import ZArith Lia.
From S2P Require Import Prelude NdefRecord T4t.

Open Scope Z_scope.

Definition be16 (v : Z) : list Z := [v / 2 ^ 8 mod 256; v mod 256].
Definition be32 (v : Z) : list Z := [v / 2 ^ 24 mod 256; v / 2 ^ 16 mod 256; v / 2 ^ 8 mod 256; v mod 256].

(** The octets of a file control block. *)
Definition size_octets (type max : Z) : list Z :=
  if type =? NFC_T4T_TLV_BLOCK_TYPE_EXTENDED_NDEF_FILE_CONTROL_TLV then be32 max else be16 max.
Definition value_octets (b : nfc_t4t_tlv_block) : list Z :=
  be16 (file_id (value b)) ++ size_octets (tlv_type b) (max_file_size (value b)) ++
  [read_access (value b); write_access (value b)].
Definition block_octets (b : nfc_t4t_tlv_block) : list Z := [tlv_type b; tlv_length b] ++ value_octets b.

(** The sizes a file may have, by the type of its block. *)
Definition size_range (type : Z) : Z * Z :=
  if type =? NFC_T4T_TLV_BLOCK_TYPE_NDEF_FILE_CONTROL_TLV then
    (NDEF_FILE_MAX_SIZE_MIN_VAL, NDEF_FILE_MAX_SIZE_MAX_VAL)
  else if type =? NFC_T4T_TLV_BLOCK_TYPE_PROPRIETARY_FILE_CONTROL_TLV then
    (PROPRIETARY_FILE_MAX_SIZE_MIN_VAL, PROPRIETARY_FILE_MAX_SIZE_MAX_VAL)
  else (EXTENDED_NDEF_FILE_MAX_SIZE_MIN_VAL, EXTENDED_NDEF_FILE_MAX_SIZE_MAX_VAL).

Definition block_types : list (Z * Z) := [(4, 6); (5, 6); (6, 8)].

(** A block that was parsed and has no content bound to it yet. *)
Definition block_ok (b : nfc_t4t_tlv_block) : Prop :=
  (tlv_type b, tlv_length b) ∈ block_types /\
  bits 16 (file_id (value b)) /\ (file_id (value b) ∉ file_id_invalid) /\
  (size_range (tlv_type b)).1 <= max_file_size (value b) <= (size_range (tlv_type b)).2 /\
  byte (read_access (value b)) /\ byte (write_access (value b)) /\
  file (value b) = {| content := 0; file_len := 0 |}.
#[export] Instance block_ok_dec b : Decision (block_ok b).
Proof. unfold block_ok, byte, bits. apply _. Defined.

(** The container's descriptor: the array has the length it is declared with. *)
Definition cc_shape (cc : nfc_t4t_cc_file) : Prop :=
  (exists a, tlv_block_array cc = Some a /\ zlen a = max_tlv_blocks cc) /\ 1 <= max_tlv_blocks cc < 65536.

Definition cc_blocks (cc : nfc_t4t_cc_file) : list nfc_t4t_tlv_block := take (Z.to_nat (tlv_count cc)) (blocks cc).
Definition cc_ok (cc : nfc_t4t_cc_file) : Prop :=
  cc_shape cc /\ 0 <= tlv_count cc <= max_tlv_blocks cc /\ Forall block_ok (cc_blocks cc).

(** The octets of a container. *)
Definition header_octets (cc : nfc_t4t_cc_file) : list Z :=
  be16 (cc_len cc) ++ [16 * major_version cc + minor_version cc] ++ be16 (max_rapdu_size cc) ++
  be16 (max_capdu_size cc).
Definition cc_octets (cc : nfc_t4t_cc_file) : list Z := header_octets cc ++ (cc_blocks cc ≫= block_octets).

(** The first block fits the version. *)
Definition version_fits (cc : nfc_t4t_cc_file) : bool :=
  match cc_blocks cc with
  | b :: _ => ((major_version cc =? 3) && (tlv_type b =? 6)) || ((major_version cc =? 2) && (tlv_type b =? 4))
  | [] => false
  end.

(** ** Fields *)

Section Fields.
Context {BO : ByteOrder}.

Lemma be16_of a b : byte a -> byte b -> be16 (a * 2 ^ 8 + b) = [a; b].
Proof. unfold byte, bits, be16. intros. repeat f_equal; Z.div_mod_to_equations; lia. Qed.

Lemma be32_of a b c d : byte a -> byte b -> byte c -> byte d ->
  be32 (a * 2 ^ 24 + b * 2 ^ 16 + c * 2 ^ 8 + d) = [a; b; c; d].
Proof. unfold byte, bits, be32. intros. repeat f_equal; Z.div_mod_to_equations; lia. Qed.

Lemma get_be16_of v : bits 16 v -> sys_get_be16 (be16 v) = v.
Proof. unfold bits, be16. rewrite sys_get_be16_spec. intros. Z.div_mod_to_equations. lia. Qed.

Lemma get_be32_of v : bits 32 v -> sys_get_be32 (be32 v) = v.
Proof. unfold bits, be32. rewrite sys_get_be32_spec. intros. Z.div_mod_to_equations. lia. Qed.

Lemma seen_rd2 data pos : 0 <= pos -> pos + 2 <= zlen data ->
  seen data pos [zth data pos; zth data (pos + 1)].
Proof.
  intros. rewrite seen_cons. split; apply seen_zth_one; lia.
Qed.

Lemma seen_rd4 data pos : 0 <= pos -> pos + 4 <= zlen data ->
  seen data pos [zth data pos; zth data (pos + 1); zth data (pos + 2); zth data (pos + 3)].
Proof.
  intros. replace (pos + 2) with (pos + 1 + 1) by lia. replace (pos + 3) with (pos + 1 + 1 + 1) by lia.
  do 3 (rewrite seen_cons; split; [apply seen_zth_one; lia|]). apply seen_zth_one; lia.
Qed.

(** Reading a field of two or four octets: its value is one of its width and
    its octets are in the data. *)
Lemma field16 data pos : bytes data -> 0 <= pos -> pos + 2 <= zlen data ->
  exists v, bits 16 v /\ rd_block data pos 2 = Ok (be16 v) /\ sys_get_be16 (be16 v) = v /\ seen data pos (be16 v).
Proof.
  intros Hb H0 H1. pose proof (seen_rd2 data pos H0 H1) as Hs.
  assert (Ha : byte (zth data pos)) by (apply zth_Forall; [done|exact Hb]).
  assert (Hc : byte (zth data (pos + 1))) by (apply zth_Forall; [done|exact Hb]).
  exists (zth data pos * 2 ^ 8 + zth data (pos + 1)).
  assert (bits 16 (zth data pos * 2 ^ 8 + zth data (pos + 1))) by (unfold byte, bits in *; lia).
  rewrite get_be16_of, be16_of by done. split; [done|]. split; [|done].
  apply (rd_block_seen _ _ _ Hs). lia.
Qed.

Lemma field32 data pos : bytes data -> 0 <= pos -> pos + 4 <= zlen data ->
  exists v, bits 32 v /\ rd_block data pos 4 = Ok (be32 v) /\ sys_get_be32 (be32 v) = v /\ seen data pos (be32 v).
Proof.
  intros Hb H0 H1. pose proof (seen_rd4 data pos H0 H1) as Hs.
  assert (Hz : forall k, byte (zth data k)) by (intros; apply zth_Forall; [done|exact Hb]).
  pose proof (Hz pos). pose proof (Hz (pos + 1)). pose proof (Hz (pos + 2)). pose proof (Hz (pos + 3)).
  set (v := zth data pos * 2 ^ 24 + zth data (pos + 1) * 2 ^ 16 + zth data (pos + 2) * 2 ^ 8 + zth data (pos + 3)).
  assert (bits 32 v) by (unfold v, byte, bits in *; lia).
  assert (E : be32 v = [zth data pos; zth data (pos + 1); zth data (pos + 2); zth data (pos + 3)])
    by (apply be32_of; done).
  exists v. rewrite get_be32_of, E by done.
  split; [done|]. split; [|done]. apply (rd_block_seen _ _ _ Hs). lia.
Qed.

Lemma field8 data pos : bytes data -> 0 <= pos < zlen data ->
  exists v, byte v /\ rd data pos = Ok v /\ seen data pos [v].
Proof.
  intros Hb H0. exists (zth data pos). split; [apply zth_Forall; [done|exact Hb]|].
  split; [by apply rd_Ok|by apply seen_zth_one].
Qed.
End Fields.

(** ** Blocks *)

Lemma block_types_cases type len :
  (type, len) ∈ block_types <-> type = 4 /\ len = 6 \/ type = 5 /\ len = 6 \/ type = 6 /\ len = 8.
Proof. unfold block_types. rewrite !elem_of_cons, elem_of_nil. naive_solver. Qed.

(** The three types of blocks, with the type and the length replaced. *)
Ltac block_cases Ht :=
  rewrite block_types_cases in Ht; destruct Ht as [[Ht Hlen]|[[Ht Hlen]|[Ht Hlen]]]; rewrite ?Ht, ?Hlen in *.

Lemma value_octets_length b : (tlv_type b, tlv_length b) ∈ block_types -> zlen (value_octets b) = tlv_length b.
Proof. unfold value_octets, size_octets. intros Ht. by block_cases Ht. Qed.

Lemma block_octets_length b : block_ok b -> zlen (block_octets b) = 2 + tlv_length b.
Proof.
  intros [Ht _]. unfold block_octets. pose proof (value_octets_length b Ht). autorewrite with clen. cbn [length]. lia.
Qed.

Section Blocks.
Context {BO : ByteOrder}.

Lemma tl_validate_types b :
  nfc_t4t_file_control_tl_validate b =
    if bool_decide ((tlv_type b, tlv_length b) ∈ block_types) then 0 else -22.
Proof.
  unfold nfc_t4t_file_control_tl_validate.
  change NFC_T4T_TLV_BLOCK_TYPE_NDEF_FILE_CONTROL_TLV with 4.
  change NFC_T4T_TLV_BLOCK_TYPE_PROPRIETARY_FILE_CONTROL_TLV with 5.
  change NFC_T4T_TLV_BLOCK_TYPE_EXTENDED_NDEF_FILE_CONTROL_TLV with 6.
  change NDEF_FILE_CONTROL_TLV_LEN with 6. change PROPRIETARY_FILE_CONTROL_TLV_LEN with 6.
  change EXTENDED_NDEF_FILE_CONTROL_TLV_LEN with 8. change (- errno_num EINVAL) with (-22).
  case_bool_decide as Ht; [by block_cases Ht|]. rewrite block_types_cases in Ht.
  destruct (Z.eqb_spec (tlv_type b) 4), (Z.eqb_spec (tlv_type b) 5), (Z.eqb_spec (tlv_type b) 6),
    (Z.eqb_spec (tlv_length b) 6), (Z.eqb_spec (tlv_length b) 8); cbn; try done; lia.
Qed.

(** The part of [block_ok] that concerns the value. *)
Definition value_ok (b : nfc_t4t_tlv_block) : Prop :=
  bits 16 (file_id (value b)) /\ (file_id (value b) ∉ file_id_invalid) /\
  (size_range (tlv_type b)).1 <= max_file_size (value b) <= (size_range (tlv_type b)).2 /\
  byte (read_access (value b)) /\ byte (write_access (value b)).

Ltac size_lia :=
  unfold bits, NDEF_FILE_MAX_SIZE_FIELD_SIZE, PROPRIETARY_FILE_MAX_SIZE_FIELD_SIZE,
    EXTENDED_NDEF_FILE_MAX_SIZE_FIELD_SIZE, NDEF_FILE_MAX_SIZE_MIN_VAL, NDEF_FILE_MAX_SIZE_MAX_VAL,
    PROPRIETARY_FILE_MAX_SIZE_MIN_VAL, PROPRIETARY_FILE_MAX_SIZE_MAX_VAL,
    EXTENDED_NDEF_FILE_MAX_SIZE_MIN_VAL, EXTENDED_NDEF_FILE_MAX_SIZE_MAX_VAL in *; lia.

Lemma range_verify v lo hi : max_field_range_verify v lo hi = true <-> lo <= v <= hi.
Proof. unfold max_field_range_verify. destruct (Z.ltb_spec v lo), (Z.ltb_spec hi v); cbn; lia. Qed.

Lemma max_size_sound b data pos :
  bytes data -> (tlv_type b, tlv_length b) ∈ block_types -> 0 <= pos -> pos + tlv_length b - 4 <= zlen data ->
  exists max ok, max_file_size_parse b data pos = Ok (max, pos + tlv_length b - 4, ok) /\
    seen data pos (size_octets (tlv_type b) max) /\ zlen (size_octets (tlv_type b) max) = tlv_length b - 4 /\
    (ok = true -> (size_range (tlv_type b)).1 <= max <= (size_range (tlv_type b)).2).
Proof.
  intros Hb Ht H0 H1. unfold max_file_size_parse. block_cases Ht; cbn -[rd_block sys_get_be16 sys_get_be32].
  1, 2: destruct (field16 data pos) as (v & Hv & -> & Ev & Sv); [done|lia|lia|].
  3: destruct (field32 data pos) as (v & Hv & -> & Ev & Sv); [done|lia|lia|].
  all: cstep; rewrite Ev; eexists v, _; rewrite <- range_verify;
    split; [|by split; [done|split; [done|apply id]]]; repeat f_equal; size_lia.
Qed.

Lemma max_size_complete b data pos max :
  (tlv_type b, tlv_length b) ∈ block_types -> 0 <= pos <= zlen data ->
  (size_range (tlv_type b)).1 <= max <= (size_range (tlv_type b)).2 ->
  seen data pos (size_octets (tlv_type b) max) ->
  max_file_size_parse b data pos = Ok (max, pos + tlv_length b - 4, true).
Proof.
  intros Ht H0 Hm Hs. unfold max_file_size_parse.
  assert (E : forall l, seen data pos l -> rd_block data pos (zlen l) = Ok l)
    by (intros; apply rd_block_seen; [done|lia]).
  apply E in Hs. revert Hm Hs. block_cases Ht; cbn -[rd_block sys_get_be16 sys_get_be32]; intros Hm Hs;
    change (Z.of_nat 2) with 2 in Hs; change (Z.of_nat 4) with 4 in Hs; rewrite Hs; cstep.
  1, 2: rewrite get_be16_of by size_lia.
  3: rewrite get_be32_of by size_lia.
  all: apply range_verify in Hm; rewrite Hm; repeat f_equal; size_lia.
Qed.

Lemma value_parse_sound b data pos :
  bytes data -> (tlv_type b, tlv_length b) ∈ block_types -> 0 <= pos -> pos + tlv_length b <= zlen data ->
  exists b' rc, nfc_t4t_file_control_value_parse b data pos = Ok (b', rc) /\
    tlv_type b' = tlv_type b /\ tlv_length b' = tlv_length b /\ file (value b') = file (value b) /\
    (rc = 0 -> value_ok b' /\ seen data pos (value_octets b')).
Proof.
  intros Hb Ht H0 H1. unfold nfc_t4t_file_control_value_parse.
  change FILE_CONTROL_FILE_ID_FIELD_SIZE with 2. change FILE_CONTROL_READ_ACCESS_FIELD_SIZE with 1.
  assert (Hl : 6 <= tlv_length b) by (rewrite block_types_cases in Ht; lia).
  destruct (field16 data pos) as (i & Hi & -> & Ei & Si); [done|lia|lia|]. cstep. rewrite Ei.
  case_bool_decide as Hin; [by eexists _, _|].
  destruct (max_size_sound b data (pos + 2)) as (mx & ok & -> & Sm & Lm & Hm); [done|done|lia|lia|]. cstep.
  destruct ok; cbn [negb]; [|by eexists _, _].
  destruct (field8 data (pos + 2 + tlv_length b - 4)) as (r & Hr & -> & Sr); [done|lia|]. cstep.
  destruct (field8 data (pos + 2 + tlv_length b - 4 + 1)) as (w & Hw & -> & Sw); [done|lia|]. cstep.
  eexists _, _. split; [reflexivity|]. do 3 (split; [reflexivity|]). intros _.
  split; [split; [done|]; split; [done|]; split; [by apply Hm|done]|].
  unfold value_octets. cbn [value set_value file_id max_file_size read_access write_access tlv_type].
  rewrite !seen_app, (seen_cons _ _ r). rewrite Lm.
  replace (pos + zlen (be16 i)) with (pos + 2) by done.
  replace (pos + 2 + (tlv_length b - 4)) with (pos + 2 + tlv_length b - 4) by lia. done.
Qed.

(** Every input of at least [len] octets: a block that is accepted has its
    octets in front of the data. *)
Lemma block_parse_sound b data pos len :
  bytes data -> 0 <= pos -> 0 <= len < 65536 -> pos + len <= zlen data ->
  exists b' len' rc, nfc_t4t_tlv_block_parse b data pos len = Ok (b', len', rc) /\
    (rc = 0 -> block_ok b' /\ len' = zlen (block_octets b') /\ len' <= len /\ seen data pos (block_octets b')).
Proof.
  intros Hb H0 Hl H1. unfold nfc_t4t_tlv_block_parse.
  change TLV_MIN_TL_FIELD_LEN with 2. change TLV_TYPE_FIELD_LEN with 1.
  change TLV_MIN_LONG_FORMAT_TL_FIELD_LEN with 4. change TLV_LEN_LONG_FIELD_LEN with 3.
  change TLV_LEN_SHORT_FIELD_LEN with 1. change TLV_LEN_LONG_FORMAT_TOKEN_SIZE with 1.
  destruct (Z.ltb_spec len 2); [by eexists _, _, _|].
  destruct (field8 data pos) as (t & Ht & -> & St); [done|lia|]. cstep.
  destruct (field8 data (pos + 1)) as (l & Hlb & -> & Sl); [done|lia|]. cstep.
  destruct (Z.eqb_spec l TLV_LEN_LONG_FORMAT_TOKEN).
  - destruct (Z.ltb_spec len 4); cstep; [by eexists _, _, _|].
    destruct (field16 data (pos + 1 + 1)) as (v & Hv & -> & Ev & Sv); [done|lia|lia|]. cstep. rewrite Ev.
    cbn [tlv_length set_tl]. destruct (Z.ltb_spec v TLV_LEN_LONG_FORMAT_MIN_VALUE); cstep; [by eexists _, _, _|].
    cbn [negb Z.eqb tlv_length set_tl]. destruct (_ <? _); [by eexists _, _, _|].
    rewrite tl_validate_types. cbn [tlv_length set_tl tlv_type]. case_bool_decide as Hty; [|by eexists _, _, _].
    unfold TLV_LEN_LONG_FORMAT_MIN_VALUE in *. rewrite block_types_cases in Hty. lia.
  - cstep. cbn [negb Z.eqb tlv_length set_tl]. unfold byte, bits in *.
    rewrite u16_small by lia. destruct (Z.ltb_spec len (pos + 1 + 1 - pos + l)); [by eexists _, _, _|].
    rewrite tl_validate_types. cbn [tlv_length set_tl tlv_type]. case_bool_decide as Hty; [|by eexists _, _, _].
    cbn [negb Z.eqb].
    destruct (value_parse_sound (set_tl (set_tl tlv_block_zero 0 t) l t) data (pos + 1 + 1))
      as (b' & rc & -> & Et & El & Ef & Hok); [done|done|lia|cbn; lia|]. cbn in Et, El, Ef. cstep.
    eexists _, _, _. split; [reflexivity|]. intros Hrc. destruct (Hok Hrc) as ((Hi & Hin & Hm & Hr & Hw) & Sv).
    assert (block_ok b') 
      by (split; [by rewrite Et, El|exact (conj Hi (conj Hin (conj Hm (conj Hr (conj Hw Ef)))))]).
    split; [done|]. rewrite block_octets_length by done. split; [lia|]. split; [lia|].
    unfold block_octets. rewrite Et, El, seen_app, seen_cons. by rewrite <- Z.add_assoc in Sv.
Qed.

Lemma value_parse_complete b0 b data pos :
  block_ok b -> tlv_type b0 = tlv_type b -> tlv_length b0 = tlv_length b ->
  file (value b0) = {| content := 0; file_len := 0 |} -> 0 <= pos -> seen data pos (value_octets b) ->
  nfc_t4t_file_control_value_parse b0 data pos = Ok (b, 0).
Proof.
  intros (Ht & Hi & Hin & Hm & Hr & Hw & Hf) Et El Ef H0 Hs. unfold nfc_t4t_file_control_value_parse.
  change FILE_CONTROL_FILE_ID_FIELD_SIZE with 2. change FILE_CONTROL_READ_ACCESS_FIELD_SIZE with 1.
  pose proof (value_octets_length b Ht) as Lv. pose proof (seen_length _ _ _ Hs) as [Ls|Ls]; [|by rewrite Ls in Lv].
  assert (6 <= tlv_length b) by (rewrite block_types_cases in Ht; lia).
  unfold value_octets in Hs. rewrite !seen_app, seen_cons in Hs. destruct Hs as (Si & Sm & Sr & Sw).
  change (zlen (be16 (file_id (value b)))) with 2 in *.
  assert (Lm : zlen (size_octets (tlv_type b) (max_file_size (value b))) = tlv_length b - 4).
  { unfold value_octets in Lv. autorewrite with clen in Lv. cbn [length be16] in Lv. lia. }
  rewrite Lm in Sr, Sw. replace (pos + 2 + (tlv_length b - 4)) with (pos + 2 + tlv_length b - 4) in Sr, Sw by lia.
  assert (Ri : rd_block data pos 2 = Ok (be16 (file_id (value b)))) by (apply (rd_block_seen _ _ _ Si); lia).
  rewrite Ri. cstep. rewrite get_be16_of by done.
  rewrite bool_decide_eq_false_2 by done.
  rewrite <- Et in Sm, Hm. rewrite <- Et, <- El in Ht.
  assert (Hp : 0 <= pos + 2 <= zlen data) by lia.
  rewrite (max_size_complete _ _ _ _ Ht Hp Hm Sm). cstep. cbn [negb]. rewrite El.
  rewrite (rd_seen0 _ _ _ _ Sr). cstep. rewrite (rd_seen0 _ _ _ _ Sw). cstep.
  rewrite Ef, <- Hf. unfold set_value. rewrite Et, El. by destruct b as [[]].
Qed.

Lemma block_parse_complete b0 b data pos len :
  block_ok b -> 0 <= pos -> 0 <= len < 65536 -> zlen (block_octets b) <= len ->
  seen data pos (block_octets b) ->
  nfc_t4t_tlv_block_parse b0 data pos len = Ok (b, zlen (block_octets b), 0).
Proof.
  intros Hok H0 Hl Hlen Hs. pose proof Hok as (Ht & _). unfold nfc_t4t_tlv_block_parse.
  rewrite block_octets_length in * by done.
  assert (6 <= tlv_length b <= 8) by (rewrite block_types_cases in Ht; lia).
  unfold block_octets in Hs. rewrite seen_app, seen_cons in Hs. destruct Hs as ((St & Sl) & Sv).
  change TLV_MIN_TL_FIELD_LEN with 2. change TLV_TYPE_FIELD_LEN with 1. change TLV_LEN_SHORT_FIELD_LEN with 1.
  rewrite (proj2 (Z.ltb_ge len 2)) by lia.
  rewrite (rd_seen0 _ _ _ _ St). cstep. rewrite (rd_seen0 _ _ _ _ Sl). cstep.
  rewrite (proj2 (Z.eqb_neq _ TLV_LEN_LONG_FORMAT_TOKEN)) by (unfold TLV_LEN_LONG_FORMAT_TOKEN; lia). cstep.
  cbn [negb Z.eqb tlv_length set_tl]. rewrite u16_small by lia.
  replace (pos + 1 + 1 - pos + tlv_length b) with (2 + tlv_length b) by lia.
  rewrite (proj2 (Z.ltb_ge len _)) by lia.
  rewrite tl_validate_types, bool_decide_eq_true_2 by done. cbn [negb Z.eqb].
  rewrite (value_parse_complete _ b) by (done || lia || (by rewrite <- Z.add_assoc)). done.
Qed.
End Blocks.

(** ** Containers *)

Section Containers.
Context {BO : ByteOrder}.

(** Inserting behind the blocks that are there. *)
Lemma block_insert_ok cc b :
  cc_ok cc -> block_ok b -> tlv_count cc < max_tlv_blocks cc ->
  exists a, nfc_t4t_tlv_block_insert cc b = Ok (set_blocks cc a (tlv_count cc + 1), 0) /\
    cc_ok (set_blocks cc a (tlv_count cc + 1)) /\
    cc_blocks (set_blocks cc a (tlv_count cc + 1)) = cc_blocks cc ++ [b].
Proof.
  intros (((a & E & Hl) & Hm) & Hc & Hall) Hb Hlt. unfold nfc_t4t_tlv_block_insert.
  assert (Eb : blocks cc = a) by (unfold blocks; by rewrite E). rewrite Eb.
  rewrite (proj2 (Z.eqb_neq _ _)), (proj2 (Z.leb_gt _ _)), u16_small by lia.
  assert (Hn : cc_blocks (set_blocks cc (<[Z.to_nat (tlv_count cc):=b]> a) (tlv_count cc + 1)) = cc_blocks cc ++ [b]).
  { unfold cc_blocks. cbn [blocks set_blocks tlv_block_array default tlv_count id].
    replace (Z.to_nat (tlv_count cc + 1)) with (S (Z.to_nat (tlv_count cc))) by lia.
    rewrite (take_S_r _ _ b) by (apply list_lookup_insert_eq; lia). rewrite take_insert_ge by lia. by rewrite Eb. }
  eexists. split; [reflexivity|]. split; [|done]. split; [|split; [cbn; lia|]].
  - split; [|done]. eexists. split; [reflexivity|]. autorewrite with clen. done.
  - rewrite Hn. apply Forall_app. auto.
Qed.

Lemma block_insert_full cc b :
  cc_ok cc -> tlv_count cc = max_tlv_blocks cc -> nfc_t4t_tlv_block_insert cc b = Ok (cc, -12).
Proof. intros _ E. unfold nfc_t4t_tlv_block_insert. by rewrite E, Z.eqb_refl. Qed.

Lemma validate_fits cc : cc_ok cc -> cc_blocks cc <> [] ->
  nfc_t4t_cc_file_validate cc = Ok (if version_fits cc then 0 else -22).
Proof.
  intros _. unfold nfc_t4t_cc_file_validate, version_fits, cc_blocks.
  destruct (blocks cc) as [|b bs]; [by rewrite take_nil|]. by destruct (Z.to_nat (tlv_count cc)).
Qed.

Lemma set_blocks_same cc : cc_ok cc -> exists a n, cc = set_blocks cc a n.
Proof.
  intros (((a & E & _) & _) & _). exists a, (tlv_count cc). unfold set_blocks. rewrite <- E. by destruct cc.
Qed.

Lemma cc_loop_sound fuel : forall cc nb data pos len,
  bytes data -> 0 <= pos -> 0 <= len < 65536 -> pos + len <= zlen data -> (Z.to_nat len <= fuel)%nat ->
  cc_ok cc -> (0 < len \/ cc_blocks cc <> []) ->
  seen data 7 (cc_blocks cc ≫= block_octets) -> pos = 7 + zlen (cc_blocks cc ≫= block_octets) ->
  exists cc' rc, cc_loop fuel cc nb data pos len = Ok (cc', rc) /\ cc_ok cc' /\
    (exists a n, cc' = set_blocks cc a n) /\
    (rc = 0 -> version_fits cc' = true /\ seen data 7 (cc_blocks cc' ≫= block_octets) /\
      7 + zlen (cc_blocks cc' ≫= block_octets) = pos + len).
Proof.
  induction fuel as [|fuel IH]; intros cc nb data pos len Hb H0 Hl H1 Hf Hok Hne Hs Hp;
    cbn [cc_loop]; destruct (Z.ltb_spec 0 len) as [Hpos|Hend]; [lia| | |].
  1, 3: rewrite validate_fits by (done || lia || naive_solver lia); cstep; eexists _, _; split; [reflexivity|];
    split; [done|]; split; [by apply set_blocks_same|]; destruct (version_fits cc); [|done]; intros _; split; [done|]; split; [done|lia].
  destruct (block_parse_sound nb data pos len) as (b & l & rc & -> & Hrc); [done..|]. cstep.
  destruct (Z.eqb_spec rc 0) as [E|E]; cbn [negb].
  2: { eexists _, _. split; [reflexivity|]. split; [done|]. split; [by apply set_blocks_same|done]. }
  destruct (Hrc E) as (Hb' & -> & Hle & Sb). pose proof (block_octets_length b Hb') as Lb.
  assert (Ht : 6 <= tlv_length b) by (destruct Hb' as [Ht _]; rewrite block_types_cases in Ht; lia).
  rewrite u16_small by lia.
  destruct (Z.eq_dec (tlv_count cc) (max_tlv_blocks cc)) as [Hfull|Hroom].
  { rewrite block_insert_full by done. cstep. eexists _, _. split; [reflexivity|]. split; [done|].
    split; [by apply set_blocks_same|done]. }
  destruct (block_insert_ok cc b) as (a & -> & Hok' & Eb); [done|done|destruct Hok as (_ & Hc & _); lia|]. cstep.
  cbn [negb Z.eqb].
  assert (Eo : cc_blocks (set_blocks cc a (tlv_count cc + 1)) ≫= block_octets =
    (cc_blocks cc ≫= block_octets) ++ block_octets b) by (rewrite Eb, bind_app; cbn; by rewrite app_nil_r).
  destruct (IH (set_blocks cc a (tlv_count cc + 1)) b data (pos + zlen (block_octets b)) (len - zlen (block_octets b)))
    as (cc' & rc' & -> & Hcc & (a' & n' & Hset) & Hfin); [done|lia|lia|lia|lia|done| | | |].
  - right. rewrite Eb. by destruct (cc_blocks cc).
  - rewrite Eo, seen_app, <- Hp. done.
  - rewrite Eo. autorewrite with clen. lia.
  - eexists _, _. split; [reflexivity|]. split; [done|]. split; [by exists a', n'|]. intros Hz.
    destruct (Hfin Hz) as (? & ? & ?). split; [done|]. split; [done|lia].
Qed.

(** What the parser leaves of the header. *)
Definition header_ok (cc : nfc_t4t_cc_file) : Prop :=
  bits 16 (cc_len cc) /\ bits 4 (major_version cc) /\ bits 4 (minor_version cc) /\
  bits 16 (max_rapdu_size cc) /\ bits 16 (max_capdu_size cc).

Lemma nibbles v : byte v -> MSN_GET v = v / 16 /\ LSN_GET v = v mod 16.
Proof.
  intros Hv. enough ((MSN_GET v =? v / 16) && (LSN_GET v =? v mod 16) = true) by lia.
  revert v Hv. by apply (byte_check (fun v => (MSN_GET v =? v / 16) && (LSN_GET v =? v mod 16))).
Qed.

Lemma args_ok cc data len :
  cc_shape cc -> nfc_t4t_cc_args_validate (Some cc) (Some data) len = if bool_decide (15 <= len <= 0xFFFE) then 0 else -22.
Proof.
  intros ((a & E & _) & Hm). unfold nfc_t4t_cc_args_validate, CC_LEN_MIN_VALUE, CC_LEN_MAX_VALUE.
  rewrite bool_decide_eq_false_2 by (by rewrite E). rewrite (proj2 (Z.eqb_neq _ 0)) by lia.
  destruct (Z.ltb_spec len 0x000F), (Z.ltb_spec 0xFFFE len); cbn [orb]; case_bool_decide; (done || lia).
Qed.

Lemma header_parse cc data len l v mle mlc :
  cc_shape cc -> 15 <= len <= 0xFFFE -> byte v -> bits 16 l -> bits 16 mle -> bits 16 mlc ->
  seen data 0 (be16 l ++ [v] ++ be16 mle ++ be16 mlc) ->
  nfc_t4t_cc_file_parse (Some cc) (Some data) len =
    (let* '(cc, err) :=
       cc_loop (Z.to_nat (len - 7)) (set_header (nfc_t4t_cc_file_clear cc) l (v / 16) (v mod 16) mle mlc)
         tlv_block_zero data 7 (len - 7) in
     Ok (Some cc, err)).
Proof.
  intros Hcc Hlen Hv Hl Hme Hmc Hs. unfold nfc_t4t_cc_file_parse.
  rewrite args_ok, bool_decide_eq_true_2 by done. cbn [negb Z.eqb].
  pose proof (seen_length _ _ _ Hs) as [Ls|?]; [|done]. autorewrite with clen in Ls. cbn [length be16] in Ls.
  rewrite !seen_app in Hs. destruct Hs as (S1 & S2 & S3 & S4).
  change CC_LEN_FIELD_SIZE with 2. change MAP_VER_FIELD_SIZE with 1. change MLE_FIELD_SIZE with 2.
  change MLC_FIELD_SIZE with 2. change (2 + 1) with 3. change (3 + 2) with 5. change (5 + 2) with 7.
  apply rd_block_seen in S1, S3, S4; [|cbn; lia..].
  change (rd_block data 0 2 = Ok (be16 l)) in S1. change (rd_block data 3 2 = Ok (be16 mle)) in S3.
  change (rd_block data 5 2 = Ok (be16 mlc)) in S4. rewrite S1. cstep.
  rewrite (rd_seen0 data 2 v []) by done. cstep. rewrite S3. cstep. rewrite S4. cstep.
  rewrite !get_be16_of by done. destruct (nibbles v Hv) as [-> ->]. by rewrite u16_small by lia.
Qed.

Lemma clear_ok cc l ma mi mle mlc :
  cc_shape cc -> cc_ok (set_header (nfc_t4t_cc_file_clear cc) l ma mi mle mlc).
Proof.
  intros ((a & E & Hl) & Hm). split; [split; [|done]|split; [cbn; lia|constructor]].
  exists a. split; [|done]. cbn. unfold blocks. by rewrite E.
Qed.

(** The parser on any data. *)
Lemma cc_parse_returns cc data len :
  cc_shape cc -> bytes data -> 0 <= len <= zlen data -> len < 65536 ->
  exists cc' rc, nfc_t4t_cc_file_parse (Some cc) (Some data) len = Ok (Some cc', rc) /\
    (if bool_decide (15 <= len <= 0xFFFE) then cc_ok cc' /\ header_ok cc' else cc' = cc /\ rc = -22) /\
    (rc = 0 -> version_fits cc' = true /\ take (Z.to_nat len) data = cc_octets cc').
Proof.
  intros Hcc Hb Hl Hw. case_bool_decide as Hr.
  2: { exists cc, (-22). unfold nfc_t4t_cc_file_parse. rewrite args_ok, bool_decide_eq_false_2 by done. done. }
  destruct (field16 data 0) as (l & ? & _ & _ & S1); [done|lia|lia|].
  destruct (field8 data 2) as (v & Hv & _ & S2); [done|lia|].
  destruct (field16 data 3) as (mle & ? & _ & _ & S3); [done|lia|lia|].
  destruct (field16 data 5) as (mlc & ? & _ & _ & S4); [done|lia|lia|].
  assert (Sh : seen data 0 (be16 l ++ [v] ++ be16 mle ++ be16 mlc)) by (rewrite !seen_app; done).
  rewrite (header_parse cc data len l v mle mlc) by done.
  destruct (cc_loop_sound (Z.to_nat (len - 7)) (set_header (nfc_t4t_cc_file_clear cc) l (v / 16) (v mod 16) mle mlc)
    tlv_block_zero data 7 (len - 7)) as (cc' & rc & -> & Hok & (a & n & ->) & Hfin);
    [done|lia|lia|lia|lia|by apply clear_ok|lia|by split|done|]. cstep.
  eexists _, _. split; [reflexivity|]. unfold byte, bits in Hv. split.
  { split; [done|]. unfold header_ok. cbn. split_and!; try apply H || done; unfold bits in *; Z.div_mod_to_equations; lia. }
  intros Hz. destruct (Hfin Hz) as (Hv' & Ss & Le). split; [done|].
  unfold cc_octets, header_octets. cbn [cc_len major_version minor_version max_rapdu_size max_capdu_size set_blocks set_header].
  replace (16 * (v / 16) + v mod 16) with v by (Z.div_mod_to_equations; lia).
  set (bs := cc_blocks _ ≫= block_octets) in *.
  assert (Sa : seen data 0 ((be16 l ++ [v] ++ be16 mle ++ be16 mlc) ++ bs)) by (rewrite seen_app; done).
  destruct Sa as [_ Sa]. rewrite drop_0 in Sa. rewrite <- Sa. f_equal.
  rewrite length_app. cbn [length app be16]. lia.
Qed.

(** The parser of the capability container returns on every input of at
    least the announced length, with no access outside the data or the array of
    blocks. Unless the length is refused, the descriptor it leaves is
    well-formed, also after an error in some block. When it returns zero, the
    octets are those of the descriptor and the first block fits the version. *)
Theorem cc_parse_total cc data len :
  cc_shape cc -> bytes data -> 0 <= len <= zlen data -> len < 65536 ->
  exists cc' rc, nfc_t4t_cc_file_parse (Some cc) (Some data) len = Ok (Some cc', rc) /\
    (if bool_decide (15 <= len <= 0xFFFE) then cc_ok cc' /\ header_ok cc' else cc' = cc /\ rc = -22) /\
    (rc = 0 -> version_fits cc' = true /\ take (Z.to_nat len) data = cc_octets cc').
Proof. apply cc_parse_returns. Qed.

Lemma cc_blocks_length cc : cc_ok cc -> zlen (cc_blocks cc) = tlv_count cc.
Proof.
  intros (((a & E & Hl) & Hm) & Hc & _). unfold cc_blocks, blocks. rewrite E. cbn [default id].
  rewrite length_take. lia.
Qed.

Lemma cc_loop_complete bs : forall fuel cc nb data pos,
  Forall block_ok bs -> cc_ok cc -> cc_blocks cc ++ bs <> [] -> 0 <= pos ->
  zlen (bs ≫= block_octets) < 65536 -> (length (bs ≫= block_octets) <= fuel)%nat ->
  seen data pos (bs ≫= block_octets) ->
  exists a n, cc_loop fuel cc nb data pos (zlen (bs ≫= block_octets)) =
      Ok (set_blocks cc a n,
          if tlv_count cc + zlen bs <=? max_tlv_blocks cc then
            if version_fits (set_blocks cc a n) then 0 else -22
          else -12) /\
    cc_blocks (set_blocks cc a n) = take (Z.to_nat (max_tlv_blocks cc)) (cc_blocks cc ++ bs).
Proof.
  induction bs as [|b bs IH]; intros fuel cc nb data pos Hall Hok Hne Hp Hw Hf Hs.
  - pose proof (cc_blocks_length cc Hok) as Hn. rewrite app_nil_r in *.
    destruct (set_blocks_same cc Hok) as (a & n & E). exists a, n. rewrite <- E.
    destruct Hok as (Hsh & Hc & Hb). rewrite (proj2 (Z.leb_le _ _)) by (cbn; lia).
    rewrite take_ge by lia. split; [|done]. destruct fuel; cbn; by rewrite validate_fits.
  - inversion_clear Hall as [|?? Hb Hall']. cbn [mbind list_bind] in *.
    change (list_bind _ _ block_octets bs) with (bs ≫= block_octets) in *.
    pose proof (block_octets_length b Hb) as Lb.
    assert (Ht : 6 <= tlv_length b) by (destruct Hb as [Ht _]; rewrite block_types_cases in Ht; lia).
    rewrite length_app in *. rewrite seen_app in Hs. destruct Hs as [S1 S2].
    destruct fuel as [|fuel]; [lia|]. cbn [cc_loop]. rewrite (proj2 (Z.ltb_lt 0 _)) by lia.
    rewrite (block_parse_complete _ b) by (done || lia). cstep. cbn [negb Z.eqb].
    rewrite u16_small by lia.
    replace (Z.of_nat (length (block_octets b) + length (bs ≫= block_octets)) - zlen (block_octets b))
      with (zlen (bs ≫= block_octets)) by lia.
    destruct (Z.eq_dec (tlv_count cc) (max_tlv_blocks cc)) as [Hfull|Hroom].
    { rewrite block_insert_full by done. cstep. cbn [negb Z.eqb].
      destruct (set_blocks_same cc Hok) as (a & n & E). exists a, n. rewrite <- E.
      pose proof (cc_blocks_length cc Hok) as Hn. rewrite (proj2 (Z.leb_gt _ _)) by (cbn [length]; lia).
      split; [done|]. rewrite take_app_le, take_ge by lia. done. }
    destruct (block_insert_ok cc b) as (a & -> & Hok' & Eb); [done|done|destruct Hok as (_ & Hc & _); lia|]. cstep.
    cbn [negb Z.eqb].
    destruct (IH fuel (set_blocks cc a (tlv_count cc + 1)) b data (pos + zlen (block_octets b)))
      as (a' & n' & -> & Hend); [done|done|by rewrite Eb; destruct (cc_blocks cc)|lia|lia|lia|done|].
    exists a', n'. rewrite Eb, <- app_assoc in Hend. split; [|exact Hend].
    cbn [tlv_count set_blocks max_tlv_blocks length].
    replace (tlv_count cc + 1 + zlen bs) with (tlv_count cc + Z.of_nat (S (length bs))) by lia. done.
Qed.

(** The values of a header. *)
Definition header_of (cc : nfc_t4t_cc_file) : Z * Z * Z * Z * Z :=
  (cc_len cc, major_version cc, minor_version cc, max_rapdu_size cc, max_capdu_size cc).

(** The parser on the octets of a container. *)
Lemma cc_parse_of_octets cc src rest :
  cc_shape cc -> header_ok src -> Forall block_ok (cc_blocks src) ->
  15 <= zlen (cc_octets src) <= 0xFFFE ->
  exists cc', nfc_t4t_cc_file_parse (Some cc) (Some (cc_octets src ++ rest)) (zlen (cc_octets src)) =
      Ok (Some cc', if zlen (cc_blocks src) <=? max_tlv_blocks cc then
                      if version_fits src then 0 else -22
                    else -12) /\
    header_of cc' = header_of src /\
    cc_blocks cc' = take (Z.to_nat (max_tlv_blocks cc)) (cc_blocks src).
Proof.
  intros Hcc (Hl & Hma & Hmi & Hme & Hmc) Hall Hlen. unfold bits in Hma, Hmi.
  set (v := 16 * major_version src + minor_version src).
  assert (Hv : v / 16 = major_version src /\ v mod 16 = minor_version src)
    by (unfold v; split; Z.div_mod_to_equations; lia).
  pose proof (seen_here (cc_octets src) rest) as Hs. unfold cc_octets in Hs at 2. rewrite seen_app in Hs.
  destruct Hs as [Sh Sb].
  rewrite (header_parse cc _ _ (cc_len src) v (max_rapdu_size src) (max_capdu_size src))
    by (done || (unfold v, byte, bits; lia)). destruct Hv as [-> ->].
  set (cc0 := set_header _ _ _ _ _ _). assert (Hok : cc_ok cc0) by (by apply clear_ok).
  assert (Lo : zlen (cc_octets src) - 7 = zlen (cc_blocks src ≫= block_octets)).
  { unfold cc_octets. rewrite length_app. change (length (header_octets src)) with 7%nat. lia. }
  rewrite Lo. destruct (cc_loop_complete (cc_blocks src) (Z.to_nat (zlen (cc_blocks src ≫= block_octets))) cc0
    tlv_block_zero (cc_octets src ++ rest) 7) as (a & n & -> & Hend); [done|done| |lia|lia|lia|done|].
  { intros E. assert (E' : cc_blocks src = []) by apply E. rewrite E' in Lo. cbn [mbind list_bind length] in Lo. lia. }
  cstep. exists (set_blocks cc0 a n). split; [|split; [reflexivity|exact Hend]].
  change (tlv_count cc0) with 0. change (max_tlv_blocks cc0) with (max_tlv_blocks cc). rewrite Z.add_0_l.
  destruct (Z.leb_spec (zlen (cc_blocks src)) (max_tlv_blocks cc)); [|done].
  change (cc_blocks cc0) with (@nil nfc_t4t_tlv_block) in Hend. cbn [app] in Hend.
  change (max_tlv_blocks cc0) with (max_tlv_blocks cc) in Hend. rewrite take_ge in Hend by lia.
  unfold version_fits at 1. rewrite Hend. done.
Qed.

(** The octets of a well-formed container are parsed back: the descriptor
    gets its header and its blocks, as many as the array has room for. The
    value returned is zero when all of them fit and the first one fits the
    version; too many blocks are refused with ENOMEM. *)
Theorem cc_octets_parse cc src rest :
  cc_shape cc -> header_ok src -> Forall block_ok (cc_blocks src) ->
  15 <= zlen (cc_octets src) <= 0xFFFE ->
  exists cc', nfc_t4t_cc_file_parse (Some cc) (Some (cc_octets src ++ rest)) (zlen (cc_octets src)) =
      Ok (Some cc', if zlen (cc_blocks src) <=? max_tlv_blocks cc then
                      if version_fits src then 0 else -22
                    else -12) /\
    header_of cc' = header_of src /\
    cc_blocks cc' = take (Z.to_nat (max_tlv_blocks cc)) (cc_blocks src).
Proof. apply cc_parse_of_octets. Qed.
End Containers.

(** ** Commands *)

(** The octets of a command: Lc in front of the data, on three octets when
    the data is longer than 255 octets, and Le. *)
Definition lc_octets (n : Z) : list Z := if n <=? 255 then [n] else 0 :: be16 n.
Definition le_octets (n : Z) : list Z :=
  if n =? 0 then [] else if n <=? 255 then [n] else if n =? 256 then [0] else be16 n.
Definition data_octets (d : nfc_t4t_apdu_data) : list Z :=
  match buff d with
  | Some b => lc_octets (data_len d) ++ take (Z.to_nat (data_len d)) b
  | None => []
  end.
Definition comm_octets (cmd : nfc_t4t_apdu_comm) : list Z :=
  [class_byte cmd; instruction cmd] ++ be16 (parameter cmd) ++ data_octets (comm_data cmd) ++ le_octets (resp_len cmd).

Definition data_ok (d : nfc_t4t_apdu_data) : Prop :=
  match buff d with Some b => 0 < data_len d <= zlen b /\ data_len d < 65536 | None => data_len d = 0 end.
Definition comm_ok (cmd : nfc_t4t_apdu_comm) : Prop :=
  byte (class_byte cmd) /\ byte (instruction cmd) /\ bits 16 (parameter cmd) /\ data_ok (comm_data cmd) /\
  bits 16 (resp_len cmd).

Section Commands.
Context {BO : ByteOrder}.

Lemma comm_size cmd : comm_ok cmd -> nfc_t4t_apdu_comm_size_calc cmd = u16 (zlen (comm_octets cmd)).
Proof.
  intros (_ & _ & _ & Hd & Hr). unfold nfc_t4t_apdu_comm_size_calc, comm_octets, data_octets, le_octets, lc_octets.
  unfold data_ok, bits in *.
  change CLASS_TYPE_SIZE with 1. change INSTRUCTION_TYPE_SIZE with 1. change PARAMETER_SIZE with 2.
  change LC_LONG_FORMAT_THR with 255. change LE_LONG_FORMAT_THR with 256. change LE_FIELD_ABSENT with 0.
  change LC_LONG_FORMAT_SIZE with 3. change LC_SHORT_FORMAT_SIZE with 1.
  change LE_LONG_FORMAT_SIZE with 2. change LE_SHORT_FORMAT_SIZE with 1. change (u16 (1 + 1 + 2)) with 4.
  destruct (Z.eqb_spec (resp_len cmd) 0) as [E0|E0]; cbn [negb];
    [|destruct (Z.ltb_spec 256 (resp_len cmd)), (Z.leb_spec (resp_len cmd) 255), (Z.eqb_spec (resp_len cmd) 256); try lia].
  all: destruct (buff (comm_data cmd)) as [d|];
    [destruct (Z.ltb_spec 255 (data_len (comm_data cmd))), (Z.leb_spec (data_len (comm_data cmd)) 255); try lia|
     rewrite ?Hd].
  all: rewrite !length_app; cbn [length be16]; rewrite ?length_app, ?length_take; cbn [length be16 app].
  all: change (u16 (4 + 3)) with 7; change (u16 (4 + 1)) with 5;
    unfold u16; rewrite ?Zplus_mod_idemp_l, ?Zplus_mod_idemp_r; apply (f_equal (fun z => z mod 2 ^ 16)); lia.
Qed.

Lemma args_comm cmd m l : comm_ok cmd -> nfc_t4t_apdu_comm_args_validate (Some cmd) (Some m) (Some l) = 0.
Proof.
  intros (_ & _ & _ & Hd & _). unfold nfc_t4t_apdu_comm_args_validate, data_ok in *.
  destruct (buff (comm_data cmd)); [|by rewrite bool_decide_eq_false_2 by (intros []; done)].
  rewrite (proj2 (Z.eqb_neq _ 0)) by lia. by rewrite andb_false_r.
Qed.

(** The fields are written behind the part [e] of the buffer. *)
Lemma data_write cmd e rest pos :
  comm_ok cmd -> pos = zlen e -> zlen (data_octets (comm_data cmd)) <= zlen rest ->
  comm_data_write cmd (e ++ rest) pos =
    Ok ((e ++ data_octets (comm_data cmd)) ++ drop (length (data_octets (comm_data cmd))) rest,
        pos + zlen (data_octets (comm_data cmd))).
Proof.
  intros (_ & _ & _ & Hd & _) -> Hl. unfold comm_data_write, data_octets, data_ok, lc_octets in *.
  change LC_LONG_FORMAT_THR with 255. change LC_LONG_FORMAT_TOKEN with 0.
  destruct (buff (comm_data cmd)) as [b|]; [|by rewrite app_nil_r, Z.add_0_r].
  assert (Lt : length (take (Z.to_nat (data_len (comm_data cmd))) b) = Z.to_nat (data_len (comm_data cmd)))
    by (rewrite length_take; lia).
  assert (Rb : rd_block b 0 (data_len (comm_data cmd)) = Ok (take (Z.to_nat (data_len (comm_data cmd))) b))
    by (by rewrite rd_block_Ok by lia).
  destruct (Z.leb_spec (data_len (comm_data cmd)) 255);
    [rewrite (proj2 (Z.ltb_ge 255 _)) by lia|rewrite (proj2 (Z.ltb_lt 255 _)) by lia];
    rewrite length_app, Lt in Hl; cbn [length be16] in Hl.
  - rewrite u8_small by lia. store. rewrite Rb. cstep. store. rewrite drop_drop.
    rewrite <- !app_assoc, !length_app, Lt. cbn [length app]. do 2 f_equal. lia.
  - rewrite sys_put_be16_spec. store. store. rewrite Rb. cstep. store.
    rewrite !drop_drop, <- !app_assoc, !length_app, Lt. cbn [length app be16]. do 2 f_equal. lia.
Qed.

Lemma resp_len_write cmd e rest pos :
  comm_ok cmd -> pos = zlen e -> zlen (le_octets (resp_len cmd)) <= zlen rest ->
  comm_resp_len_write cmd (e ++ rest) pos =
    Ok ((e ++ le_octets (resp_len cmd)) ++ drop (length (le_octets (resp_len cmd))) rest).
Proof.
  intros (_ & _ & _ & _ & Hr) -> Hl. unfold comm_resp_len_write, le_octets, bits in *.
  change LE_LONG_FORMAT_THR with 256. change LE_FIELD_ABSENT with 0. change LE_ENCODED_VAL_256 with 0.
  destruct (Z.eqb_spec (resp_len cmd) 0); cbn [negb]; [by rewrite app_nil_r|].
  destruct (Z.ltb_spec 256 (resp_len cmd)), (Z.leb_spec (resp_len cmd) 255), (Z.eqb_spec (resp_len cmd) 256);
    try lia; rewrite ?sys_put_be16_spec, ?u8_small by lia; unfold be16 in *;
    first [by rewrite wr_append by zsize|by rewrite wr_block_next by zsize].
Qed.

(** Encoding a command into a buffer. *)
Lemma comm_encode cmd m l :
  comm_ok cmd -> zlen (comm_octets cmd) < 65536 -> l <= zlen m ->
  nfc_t4t_apdu_comm_encode (Some cmd) (Some m) (Some l) =
    if zlen (comm_octets cmd) <=? l then
      Ok (Some (comm_octets cmd ++ drop (length (comm_octets cmd)) m), Some (zlen (comm_octets cmd)), 0)
    else Ok (Some m, Some l, -12).
Proof.
  intros Hok Hw Hl. unfold nfc_t4t_apdu_comm_encode. rewrite args_comm, comm_size by done. cbn [negb Z.eqb].
  rewrite u16_small by lia. destruct (Z.leb_spec (zlen (comm_octets cmd)) l);
    [rewrite (proj2 (Z.ltb_ge _ _)) by lia|by rewrite (proj2 (Z.ltb_lt _ _)) by lia].
  pose proof Hok as (Hc & Hi & Hp & _). unfold byte, bits in *. rewrite !u8_small, sys_put_be16_spec by lia.
  assert (Lo : length (comm_octets cmd) =
    (4 + length (data_octets (comm_data cmd)) + length (le_octets (resp_len cmd)))%nat)
    by (unfold comm_octets; rewrite !length_app; cbn [length be16]; lia).
  change m with ([] ++ m) at 1. do 3 store.
  rewrite data_write by (done || zsize). cstep.
  rewrite resp_len_write by (done || zsize). cstep.
  rewrite !drop_drop, Lo. unfold comm_octets. cbn [app be16]. rewrite <- !app_assoc. cbn [app length Nat.add].
  done.
Qed.

(** A command is encoded as its octets, in front of the buffer and with
    the rest of the buffer left as it was; when they do not fit into the
    announced length the buffer is not touched and the result is ENOMEM. *)
Theorem comm_encode_octets cmd m l :
  comm_ok cmd -> zlen (comm_octets cmd) < 65536 -> l <= zlen m ->
  nfc_t4t_apdu_comm_encode (Some cmd) (Some m) (Some l) =
    if zlen (comm_octets cmd) <=? l then
      Ok (Some (comm_octets cmd ++ drop (length (comm_octets cmd)) m), Some (zlen (comm_octets cmd)), 0)
    else Ok (Some m, Some l, -12).
Proof. apply comm_encode. Qed.

(** A response: the data in front of the status. *)
Lemma resp_decode_octets r d st rest :
  bits 16 st -> zlen d + 2 < 65536 ->
  nfc_t4t_apdu_resp_decode (Some r) (Some (d ++ be16 st ++ rest)) (zlen d + 2) =
    Ok (Some {| status := st;
                resp_data := if decide (d = []) then {| buff := None; data_len := 0 |}
                             else {| buff := Some (d ++ be16 st ++ rest); data_len := zlen d |} |}, 0).
Proof.
  intros Hst Hl. unfold nfc_t4t_apdu_resp_decode, nfc_t4t_apdu_resp_args_validate, STATUS_SIZE.
  rewrite (proj2 (Z.ltb_ge _ _)) by lia. cbn [negb Z.eqb].
  assert (E : data_len (if 2 <? zlen d + 2 then {| buff := Some (d ++ be16 st ++ rest); data_len := u16 (zlen d + 2 - 2) |}
    else resp_data nfc_t4t_apdu_resp_clear) = zlen d).
  { destruct (Z.ltb_spec 2 (zlen d + 2)); cbn; [rewrite u16_small; lia|lia]. }
  rewrite E. assert (R : rd_block (d ++ be16 st ++ rest) (zlen d) 2 = Ok (be16 st)) by apply (rd_block_middle d (be16 st) rest).
  rewrite R. cstep. rewrite get_be16_of by done. do 4 f_equal.
  destruct d; [by rewrite decide_True|]. rewrite (proj2 (Z.ltb_lt _ _)), decide_False, u16_small by (done || cbn [length] in *; lia).
  f_equal. lia.
Qed.

Lemma resp_decode_short r m len : len < 2 -> nfc_t4t_apdu_resp_decode (Some r) (Some m) len = Ok (Some r, -1).
Proof.
  intros. unfold nfc_t4t_apdu_resp_decode, nfc_t4t_apdu_resp_args_validate, STATUS_SIZE.
  by rewrite (proj2 (Z.ltb_lt len 2)).
Qed.

(** The file of a message that stands behind the room for its length. *)
Lemma ndef_file_octets x y msg rest :
  1 <= zlen msg <= 65535 ->
  nfc_t4t_ndef_file_encode (Some (x :: y :: msg ++ rest)) (Some (zlen msg)) =
    Ok (Some (be16 (zlen msg) ++ msg ++ rest), Some (zlen msg + 2), 0).
Proof.
  intros Hl. unfold nfc_t4t_ndef_file_encode, NFC_NDEF_FILE_NLEN_FIELD_SIZE.
  rewrite (proj2 (Z.ltb_ge _ 1)), (proj2 (Z.ltb_ge 65535 _)), u16_small, u32_small, sys_cpu_to_be16_spec by lia.
  by rewrite wr_block_start by (cbn [length]; lia).
Qed.
End Commands.

(** The size of a command is a number of 16 bits: with 65,529 octets of data
    or more it wraps around, and the command is written past a small buffer. *)
Lemma comm_size_wraps :
  let cmd := {| class_byte := 0; instruction := NFC_T4T_APDU_COMM_INS_UPDATE; parameter := 0;
                comm_data := {| buff := Some (replicate (Z.to_nat 65530) 7); data_len := 65530 |}; resp_len := 0 |} in
  comm_ok cmd /\ nfc_t4t_apdu_comm_size_calc cmd = 1 /\
  nfc_t4t_apdu_comm_encode (Some cmd) (Some (replicate 32 0)) (Some 32) = Fault.
Proof.
  split; [|split; vm_compute; reflexivity]. unfold comm_ok, data_ok. cbn [buff comm_data data_len]. by_compute.
Qed.

(** ** Witnesses *)

Definition demo_block : nfc_t4t_tlv_block :=
  {| value := {| file := {| content := 0; file_len := 0 |}; max_file_size := 255; file_id := 0xE104;
                 read_access := 0; write_access := 0 |}; tlv_length := 6; tlv_type := 4 |}.
Definition demo_cc : nfc_t4t_cc_file :=
  {| tlv_block_array := Some (replicate 4 tlv_block_zero); tlv_count := 0; max_tlv_blocks := 4; cc_len := 0;
     max_rapdu_size := 0; max_capdu_size := 0; major_version := 0; minor_version := 0 |}.
Definition demo_src : nfc_t4t_cc_file :=
  {| tlv_block_array := Some [demo_block]; tlv_count := 1; max_tlv_blocks := 1; cc_len := 15;
     max_rapdu_size := 255; max_capdu_size := 255; major_version := 2; minor_version := 0 |}.
Definition demo_select : nfc_t4t_apdu_comm :=
  {| class_byte := 0; instruction := NFC_T4T_APDU_COMM_INS_SELECT; parameter := NFC_T4T_APDU_SELECT_BY_FILE_ID;
     comm_data := {| buff := Some [0xE1; 0x03]; data_len := 2 |}; resp_len := 0 |}.

Lemma demo_shape : cc_shape demo_cc.
Proof. split; [|done]. by exists (replicate 4 tlv_block_zero). Qed.

Lemma cc_parse_total_witness :
  exists cc' rc, nfc_t4t_cc_file_parse (Some demo_cc) (Some (cc_octets demo_src)) 15 = Ok (Some cc', rc) /\
    (if bool_decide (15 <= 15 <= 0xFFFE) then cc_ok cc' /\ header_ok cc' else cc' = demo_cc /\ rc = -22) /\
    (rc = 0 -> version_fits cc' = true /\ take (Z.to_nat 15) (cc_octets demo_src) = cc_octets cc').
Proof.
  apply (cc_parse_total demo_cc (cc_octets demo_src) 15);
    [apply demo_shape|by_compute|split; vm_compute; discriminate|reflexivity].
Defined.

Lemma cc_octets_parse_witness :
  exists cc', nfc_t4t_cc_file_parse (Some demo_cc) (Some (cc_octets demo_src ++ [])) (zlen (cc_octets demo_src)) =
      Ok (Some cc', if zlen (cc_blocks demo_src) <=? max_tlv_blocks demo_cc then
                      if version_fits demo_src then 0 else -22
                    else -12) /\
    header_of cc' = header_of demo_src /\
    cc_blocks cc' = take (Z.to_nat (max_tlv_blocks demo_cc)) (cc_blocks demo_src).
Proof.
  apply (cc_octets_parse demo_cc demo_src []);
    [apply demo_shape|unfold header_ok; by_compute|by_compute|split; vm_compute; discriminate].
Defined.

Lemma comm_encode_octets_witness :
  nfc_t4t_apdu_comm_encode (Some demo_select) (Some (replicate 16 0)) (Some 16) =
    if zlen (comm_octets demo_select) <=? 16 then
      Ok (Some (comm_octets demo_select ++ drop (length (comm_octets demo_select)) (replicate 16 0)),
          Some (zlen (comm_octets demo_select)), 0)
    else Ok (Some (replicate 16 0), Some 16, -12).
Proof.
  apply (comm_encode_octets demo_select (replicate 16 0) 16);
    [unfold comm_ok, data_ok; cbn [buff comm_data demo_select]; by_compute|reflexivity|vm_compute; discriminate].
Defined.
