(* ===== verification/T4tHl.v ===== *)
(** * Procedures of Type 4 Tags: subsys/nfc/t4t/hl_procedure.c

    Selecting the application and its files, reading the capability container,
    and reading and updating the NDEF file, one command at a time. The state of
    the module and the objects its pointers lead to are one record; the link
    that carries the commands is what the module needs of isodep.c. *)

From stdpp Require Import prelude list gmap.
From Stdlib Require Import ZArith Lia.
From S2P Require Import Prelude NdefRecord T4t.

Open Scope Z_scope.

(** What the procedures use of the transport of commands: transmitting
    returns, with the value that the procedure returns. *)
Class Isodep := {
  link : Type;
  nfc_t4t_isodep_transmit : link -> list Z -> link * Z
}.

(** CONFIG_NFC_T4T_HL_PROCEDURE_CC_BUFFER_SIZE and
    CONFIG_NFC_T4T_HL_PROCEDURE_APDU_BUF_SIZE; the range of the second one is
    that of its option. *)
Class HlConfig := {
  CC_BUFFER_SIZE : Z;
  APDU_BUF_SIZE : Z;
  cc_buffer_size_range : 0 <= CC_BUFFER_SIZE < 65536;
  apdu_buf_size_range : 0 <= APDU_BUF_SIZE <= 255
}.

Definition FILE_ID_SIZE : Z := 2.
Definition RAPDU_MIN_LEN : Z := 2.
Definition NDEF_FILE_NLEN_SIZE : Z := 2.
Definition CC_FILE_ID : Z := 0xE103.
Definition CC_MIN_RAPDU_SIZE : Z := 0x0F.
Definition NFC_T4T_APDU_SELECT_DATA : list Z := [0xD2; 0x76; 0x00; 0x00; 0x85; 0x01; 0x01].
Definition APDU_LE_MAP_2_MAX_VALUE : Z := 0xFF.
Definition NFC_T4T_APDU_RSP_ALL : Z := 256.

Inductive nfc_t4t_hl_transaction_type :=
  | NFC_T4T_HL_SELECT
  | NFC_T4T_HL_CC_READ
  | NFC_T4T_HL_NDEF_NLEN_READ
  | NFC_T4T_HL_NDEF_READ
  | NFC_T4T_HL_NDEF_NLEN_CLEAR
  | NFC_T4T_HL_NDEF_UPDATE
  | NFC_T4T_HL_NDEF_NLEN_UPDATE.
#[export] Instance nfc_t4t_hl_transaction_type_eq_dec : EqDecision nfc_t4t_hl_transaction_type.
Proof. solve_decision. Defined.

Inductive nfc_t4t_hl_procedure_select :=
  | NFC_T4T_HL_PROCEDURE_NDEF_APP_SELECT
  | NFC_T4T_HL_PROCEDURE_CC_SELECT
  | NFC_T4T_HL_PROCEDURE_NDEF_FILE_SELECT.

(** Pointers to descriptors and to buffers are addresses of the objects below,
    [0] for the null pointer. *)
Record t4t_hl_ndef := {
  ndef_cc : Z;
  ndef_buff : Z;
  buff_size : Z;
  nlen : Z;
  ndef_file_id : list Z
}.
Record t4t_hl_cc := { cc_cc : Z; hl_cc_len : Z; cc_data : list Z }.
Record t4t_hl_procedure := {
  cc_file : t4t_hl_cc;
  ndef : t4t_hl_ndef;
  transaction_type : nfc_t4t_hl_transaction_type;
  select_type : nfc_t4t_hl_procedure_select;
  file_offset : Z;
  apdu_buff : list Z
}.

(** The callbacks that are set, and the calls of them. A callback is the last
    action of a procedure, so that what it does follows the procedure. *)
Record nfc_t4t_hl_procedure_cb := {
  selected : bool;
  cc_read : bool;
  ndef_read : bool;
  ndef_updated : bool
}.
Inductive hl_event :=
  | Selected (type : nfc_t4t_hl_procedure_select)
  | CcRead (cc : Z)
  | NdefRead (id : Z) (data : list Z) (len : Z)
  | NdefUpdated (id : Z).

Section Hl.
Context {BO : ByteOrder} {ID : Isodep} {CF : HlConfig}.

Record world := {
  t4t_hl : t4t_hl_procedure;
  hl_cb : option nfc_t4t_hl_procedure_cb;
  ccs : gmap Z nfc_t4t_cc_file;
  bufs : gmap Z (list Z);
  isodep : link;
  events : list hl_event
}.

Definition set_hl (w : world) (h : t4t_hl_procedure) : world :=
  {| t4t_hl := h; hl_cb := hl_cb w; ccs := ccs w; bufs := bufs w; isodep := isodep w; events := events w |}.
Definition set_ccs (w : world) (c : gmap Z nfc_t4t_cc_file) : world :=
  {| t4t_hl := t4t_hl w; hl_cb := hl_cb w; ccs := c; bufs := bufs w; isodep := isodep w; events := events w |}.
Definition set_bufs (w : world) (b : gmap Z (list Z)) : world :=
  {| t4t_hl := t4t_hl w; hl_cb := hl_cb w; ccs := ccs w; bufs := b; isodep := isodep w; events := events w |}.
Definition set_isodep (w : world) (l : link) : world :=
  {| t4t_hl := t4t_hl w; hl_cb := hl_cb w; ccs := ccs w; bufs := bufs w; isodep := l; events := events w |}.
Definition emit (w : world) (e : hl_event) : world :=
  {| t4t_hl := t4t_hl w; hl_cb := hl_cb w; ccs := ccs w; bufs := bufs w; isodep := isodep w;
     events := events w ++ [e] |}.

Definition set_cc_file (h : t4t_hl_procedure) (c : t4t_hl_cc) : t4t_hl_procedure :=
  {| cc_file := c; ndef := ndef h; transaction_type := transaction_type h; select_type := select_type h;
     file_offset := file_offset h; apdu_buff := apdu_buff h |}.
Definition set_ndef (h : t4t_hl_procedure) (n : t4t_hl_ndef) : t4t_hl_procedure :=
  {| cc_file := cc_file h; ndef := n; transaction_type := transaction_type h; select_type := select_type h;
     file_offset := file_offset h; apdu_buff := apdu_buff h |}.
Definition set_type (h : t4t_hl_procedure) (t : nfc_t4t_hl_transaction_type) : t4t_hl_procedure :=
  {| cc_file := cc_file h; ndef := ndef h; transaction_type := t; select_type := select_type h;
     file_offset := file_offset h; apdu_buff := apdu_buff h |}.
Definition set_select (h : t4t_hl_procedure) (s : nfc_t4t_hl_procedure_select) : t4t_hl_procedure :=
  {| cc_file := cc_file h; ndef := ndef h; transaction_type := transaction_type h; select_type := s;
     file_offset := file_offset h; apdu_buff := apdu_buff h |}.
Definition set_offset (h : t4t_hl_procedure) (o : Z) : t4t_hl_procedure :=
  {| cc_file := cc_file h; ndef := ndef h; transaction_type := transaction_type h; select_type := select_type h;
     file_offset := o; apdu_buff := apdu_buff h |}.
Definition set_apdu (h : t4t_hl_procedure) (b : list Z) : t4t_hl_procedure :=
  {| cc_file := cc_file h; ndef := ndef h; transaction_type := transaction_type h; select_type := select_type h;
     file_offset := file_offset h; apdu_buff := b |}.

Definition deref {A} (m : gmap Z A) (p : Z) : res A := match m !! p with Some x => Ok x | None => Fault end.

Definition t4t_hl_data_exchange (w : world) (comm : nfc_t4t_apdu_comm) : res (world * Z) :=
  let* '(b, apdu_len, err) :=
    nfc_t4t_apdu_comm_encode (Some comm) (Some (apdu_buff (t4t_hl w))) (Some APDU_BUF_SIZE) in
  match b, apdu_len with
  | Some b, Some apdu_len =>
    let w := set_hl w (set_apdu (t4t_hl w) b) in
    if negb (err =? 0) then Ok (w, err) else
    let* frame := rd_block b 0 apdu_len in
    let '(l, rc) := nfc_t4t_isodep_transmit (isodep w) frame in
    Ok (set_isodep w l, rc)
  | _, _ => Fault
  end.

(** The commands: cleared descriptors with the fields the procedures set. *)
Definition read_comm (parameter resp_len : Z) : nfc_t4t_apdu_comm :=
  {| class_byte := 0; instruction := NFC_T4T_APDU_COMM_INS_READ; parameter := parameter;
     comm_data := {| buff := None; data_len := 0 |}; resp_len := resp_len |}.
Definition update_comm (parameter : Z) (data : list Z) (len : Z) : nfc_t4t_apdu_comm :=
  {| class_byte := 0; instruction := NFC_T4T_APDU_COMM_INS_UPDATE; parameter := parameter;
     comm_data := {| buff := Some data; data_len := len |}; resp_len := 0 |}.
Definition select_comm (parameter : Z) (data : list Z) (resp_len : Z) : nfc_t4t_apdu_comm :=
  {| class_byte := 0; instruction := NFC_T4T_APDU_COMM_INS_SELECT; parameter := parameter;
     comm_data := {| buff := Some data; data_len := zlen data |}; resp_len := resp_len |}.

(** The octets of the data of a response: [memcpy] from it. *)
Definition resp_octets (resp : nfc_t4t_apdu_resp) (n : Z) : res (list Z) :=
  match buff (resp_data resp) with
  | Some b => rd_block b 0 n
  | None => if n =? 0 then Ok [] else Fault
  end.

Definition on_cc_read (w : world) (resp : nfc_t4t_apdu_resp) : res (world * Z) :=
  let h := t4t_hl w in
  let len := data_len (resp_data resp) in
  let c := cc_file h in
  let* c :=
    if negb (len =? 0) && (hl_cc_len c =? 0) then
      let* bs := resp_octets resp 2 in
      Ok {| cc_cc := cc_cc c; hl_cc_len := sys_get_be16 bs; cc_data := cc_data c |}
    else Ok c in
  let w := set_hl w (set_cc_file h c) in
  if CC_BUFFER_SIZE <? file_offset h + len then Ok (w, - errno_num ENOMEM) else
  let* bs := resp_octets resp len in
  let* d := wr_block (cc_data c) (file_offset h) bs in
  let c := {| cc_cc := cc_cc c; hl_cc_len := hl_cc_len c; cc_data := d |} in
  let h := set_offset (set_cc_file h c) (u16 (file_offset h + len)) in
  let w := set_hl w h in
  if file_offset h <? hl_cc_len c then
    t4t_hl_data_exchange w
      (read_comm (file_offset h) (u16 (Z.min CC_MIN_RAPDU_SIZE (hl_cc_len c - file_offset h))))
  else
    match hl_cb w with
    | None => Fault
    | Some cb =>
      if cc_read cb then
        let* cc := deref (ccs w) (cc_cc c) in
        let* '(cc, err) := nfc_t4t_cc_file_parse (Some cc) (Some (cc_data c)) (hl_cc_len c) in
        let w := set_ccs w (match cc with Some cc => <[cc_cc c := cc]> (ccs w) | None => ccs w end) in
        if negb (err =? 0) then Ok (w, err) else Ok (emit w (CcRead (cc_cc c)), 0)
      else Ok (w, 0)
    end.

Definition on_ndef_nlen_read (w : world) (resp : nfc_t4t_apdu_resp) : res (world * Z) :=
  if negb (data_len (resp_data resp) =? NDEF_FILE_NLEN_SIZE) then Ok (w, - errno_num EINVAL) else
  let* bs := resp_octets resp 2 in
  let n := ndef (t4t_hl w) in
  Ok (set_hl w (set_ndef (t4t_hl w)
    {| ndef_cc := ndef_cc n; ndef_buff := ndef_buff n; buff_size := buff_size n; nlen := sys_get_be16 bs;
       ndef_file_id := ndef_file_id n |}), 0).

Definition t4t_file_assign (w : world) (id : Z) : res (world * Z) :=
  let n := ndef (t4t_hl w) in
  let* cc := deref (ccs w) (ndef_cc n) in
  let* '(cc, rc) :=
    nfc_t4t_cc_file_content_set cc {| content := ndef_buff n; file_len := file_offset (t4t_hl w) |} id in
  Ok (set_ccs w (<[ndef_cc n := cc]> (ccs w)), rc).

Definition ndef_file_chunk_read (w : world) (resp : nfc_t4t_apdu_resp) : res (world * Z) :=
  let n := ndef (t4t_hl w) in
  let len := data_len (resp_data resp) in
  if buff_size n <? file_offset (t4t_hl w) + len then Ok (w, - errno_num ENOMEM) else
  let* bs := resp_octets resp len in
  let* b := deref (bufs w) (ndef_buff n) in
  let* b := wr_block b (file_offset (t4t_hl w)) bs in
  let w := set_bufs w (<[ndef_buff n := b]> (bufs w)) in
  let h := set_offset (t4t_hl w) (u16 (file_offset (t4t_hl w) + len)) in
  let w := set_hl w h in
  if file_offset h <? nlen n + NDEF_FILE_NLEN_SIZE then
    let* cc := deref (ccs w) (ndef_cc n) in
    let w := set_hl w (set_type h NFC_T4T_HL_NDEF_READ) in
    t4t_hl_data_exchange w
      (read_comm (file_offset h)
        (u16 (Z.min (nlen n - (file_offset h - NDEF_FILE_NLEN_SIZE))
               (Z.min APDU_LE_MAP_2_MAX_VALUE (max_rapdu_size cc)))))
  else
    let file_id := sys_get_be16 (ndef_file_id n) in
    let* '(w, err) := t4t_file_assign w file_id in
    if negb (err =? 0) then Ok (w, err) else
    match hl_cb w with
    | None => Fault
    | Some cb =>
      if ndef_read cb then Ok (emit w (NdefRead file_id b (nlen n + NDEF_FILE_NLEN_SIZE)), 0) else Ok (w, 0)
    end.

Definition ndef_file_chunk_update (w : world) : res (world * Z) :=
  let h := t4t_hl w in
  let n := ndef h in
  if file_offset h <? buff_size n then
    let* b := deref (bufs w) (ndef_buff n) in
    let* cc := deref (ccs w) (ndef_cc n) in
    let len := u16 (Z.min (buff_size n - file_offset h) (Z.min APDU_LE_MAP_2_MAX_VALUE (max_capdu_size cc))) in
    let comm := update_comm (file_offset h) (drop (Z.to_nat (file_offset h)) b) len in
    let h := set_type (set_offset h (u16 (file_offset h + len))) NFC_T4T_HL_NDEF_UPDATE in
    t4t_hl_data_exchange (set_hl w h) comm
  else
    let w := set_hl w (set_type h NFC_T4T_HL_NDEF_NLEN_UPDATE) in
    t4t_hl_data_exchange w (update_comm 0 (sys_put_be16 (nlen n)) NDEF_FILE_NLEN_SIZE).

Definition on_ndef_nlen_update (w : world) : res world :=
  match hl_cb w with
  | None => Fault
  | Some cb =>
    if ndef_updated cb then Ok (emit w (NdefUpdated (sys_get_be16 (ndef_file_id (ndef (t4t_hl w)))))) else Ok w
  end.

Definition on_rapdu_succes (w : world) (resp : nfc_t4t_apdu_resp) : res (world * Z) :=
  match transaction_type (t4t_hl w) with
  | NFC_T4T_HL_SELECT =>
    match hl_cb w with
    | None => Fault
    | Some cb => if selected cb then Ok (emit w (Selected (select_type (t4t_hl w))), 0) else Ok (w, 0)
    end
  | NFC_T4T_HL_CC_READ => on_cc_read w resp
  | NFC_T4T_HL_NDEF_NLEN_READ =>
    let* '(w, err) := on_ndef_nlen_read w resp in
    if negb (err =? 0) then Ok (w, err) else ndef_file_chunk_read w resp
  | NFC_T4T_HL_NDEF_READ => ndef_file_chunk_read w resp
  | NFC_T4T_HL_NDEF_NLEN_CLEAR | NFC_T4T_HL_NDEF_UPDATE => ndef_file_chunk_update w
  | NFC_T4T_HL_NDEF_NLEN_UPDATE =>
    let* w := on_ndef_nlen_update w in
    Ok (w, 0)
  end.

Definition nfc_t4t_hl_procedure_cb_register (w : world) (cb : option nfc_t4t_hl_procedure_cb) : world * Z :=
  match cb with
  | None => (w, - errno_num EINVAL)
  | Some _ =>
    ({| t4t_hl := t4t_hl w; hl_cb := cb; ccs := ccs w; bufs := bufs w; isodep := isodep w; events := events w |}, 0)
  end.

Definition nfc_t4t_hl_procedure_on_data_received (w : world) (data : option (list Z)) (len : Z) : res (world * Z) :=
  match data with
  | None => Ok (w, - errno_num EINVAL)
  | Some _ =>
    if len <? RAPDU_MIN_LEN then Ok (w, - errno_num EINVAL) else
    let* '(apdu_resp, err) := nfc_t4t_apdu_resp_decode (Some nfc_t4t_apdu_resp_clear) data (u16 len) in
    if negb (err =? 0) then Ok (w, err) else
    match apdu_resp with
    | Some r =>
      if status r =? NFC_T4T_APDU_RAPDU_STATUS_CMD_COMPLETED then on_rapdu_succes w r
      else Ok (w, - errno_num EPERM)
    | None => Fault
    end
  end.

Definition nfc_t4t_hl_procedure_ndef_tag_app_select (w : world) : res (world * Z) :=
  let w := set_hl w (set_select (set_type (t4t_hl w) NFC_T4T_HL_SELECT) NFC_T4T_HL_PROCEDURE_NDEF_APP_SELECT) in
  t4t_hl_data_exchange w (select_comm NFC_T4T_APDU_SELECT_BY_NAME NFC_T4T_APDU_SELECT_DATA NFC_T4T_APDU_RSP_ALL).

Definition nfc_t4t_hl_procedure_ndef_file_select (w : world) (id : Z) : res (world * Z) :=
  let n := ndef (t4t_hl w) in
  let n := {| ndef_cc := ndef_cc n; ndef_buff := ndef_buff n; buff_size := buff_size n; nlen := nlen n;
              ndef_file_id := sys_put_be16 id |} in
  let h := set_type (set_ndef (t4t_hl w) n) NFC_T4T_HL_SELECT in
  let h := set_select h (if id =? CC_FILE_ID then NFC_T4T_HL_PROCEDURE_CC_SELECT
                         else NFC_T4T_HL_PROCEDURE_NDEF_FILE_SELECT) in
  t4t_hl_data_exchange (set_hl w h) (select_comm NFC_T4T_APDU_SELECT_BY_FILE_ID (ndef_file_id n) 0).

Definition nfc_t4t_hl_procedure_cc_select (w : world) : res (world * Z) :=
  nfc_t4t_hl_procedure_ndef_file_select w CC_FILE_ID.

Definition nfc_t4t_hl_procedure_cc_read (w : world) (cc : Z) : res (world * Z) :=
  if cc =? 0 then Ok (w, - errno_num EINVAL) else
  let c := {| cc_cc := cc; hl_cc_len := 0; cc_data := replicate (Z.to_nat CC_BUFFER_SIZE) 0 |} in
  let h := set_type (set_offset (set_cc_file (t4t_hl w) c) 0) NFC_T4T_HL_CC_READ in
  t4t_hl_data_exchange (set_hl w h) (read_comm 0 CC_MIN_RAPDU_SIZE).

Definition nfc_t4t_hl_procedure_ndef_read (w : world) (cc buff len : Z) : res (world * Z) :=
  let h := set_offset (t4t_hl w) 0 in
  let w := set_hl w h in
  if (cc =? 0) || (buff =? 0) || (len =? 0) then Ok (w, - errno_num EINVAL) else
  let n := ndef h in
  let n := {| ndef_cc := cc; ndef_buff := buff; buff_size := len; nlen := nlen n;
              ndef_file_id := ndef_file_id n |} in
  let h := set_type (set_ndef h n) NFC_T4T_HL_NDEF_NLEN_READ in
  t4t_hl_data_exchange (set_hl w h) (read_comm 0 NDEF_FILE_NLEN_SIZE).

Definition nfc_t4t_hl_procedure_ndef_update (w : world) (cc data len : Z) : res (world * Z) :=
  if (cc =? 0) || (data =? 0) || (len <? NDEF_FILE_NLEN_SIZE) then Ok (w, - errno_num EINVAL) else
  let n := ndef (t4t_hl w) in
  let file_id := sys_get_be16 (ndef_file_id n) in
  let* d := deref (ccs w) cc in
  let* tlv_block := nfc_t4t_cc_file_content_get d file_id in
  match tlv_block with
  | None => Ok (w, - errno_num EACCES)
  | Some i =>
    let* b := deref (bufs w) data in
    let* bs := rd_block b 0 2 in
    let nl := sys_get_be16 bs in
    match blocks d !! Z.to_nat i with
    | None => Fault
    | Some t =>
      if negb (nl + NDEF_FILE_NLEN_SIZE =? len) || (max_file_size (value t) <? len)
      then Ok (w, - errno_num ENOMEM)
      else
        let n := {| ndef_cc := cc; ndef_buff := data; buff_size := len; nlen := nl;
                    ndef_file_id := ndef_file_id n |} in
        let h := set_type (set_offset (set_ndef (t4t_hl w) n) NDEF_FILE_NLEN_SIZE) NFC_T4T_HL_NDEF_NLEN_CLEAR in
        t4t_hl_data_exchange (set_hl w h) (update_comm 0 [0; 0] 2)
    end
  end.
End Hl.
