(* ===== verification/T4tHlSpec.v ===== *)
(** * The procedures of Type 4 Tags against a tag

    The procedures of T4tHl keep their invariant for every sequence of calls
    and responses. Against a tag that follows the specification they read the
    container and the NDEF file, and an update never leaves the tag with a
    message that is neither the old one, nor empty, nor the new one. *)

From stdpp Require Import prelude list gmap.
From Stdlib Require Import ZArith Lia.
From S2P Require Import Prelude NdefRecord T4t T4tSpec T4tHl.

Open Scope Z_scope.

(** ** The invariant *)

Section Invariant.
Context {BO : ByteOrder} {ID : Isodep} {CF : HlConfig}.

(** A descriptor of a container that the procedures can use. *)
Definition cc_usable (cc : nfc_t4t_cc_file) : Prop :=
  cc_shape cc /\ 0 <= tlv_count cc <= max_tlv_blocks cc /\
  bits 16 (max_rapdu_size cc) /\ bits 16 (max_capdu_size cc).

(** The objects: every descriptor is usable, every buffer holds octets. *)
Definition objects_ok (w : world) : Prop :=
  map_Forall (fun _ cc => cc_usable cc) (ccs w) /\ map_Forall (fun _ b => bytes b) (bufs w).

Definition cc_pointer (w : world) (p : Z) : Prop := is_Some (ccs w !! p).
Definition buf_pointer (w : world) (p len : Z) : Prop :=
  bits 16 len /\ exists b, bufs w !! p = Some b /\ len <= zlen b.

(** What a transaction that is not finished needs. *)
Definition transaction_ok (w : world) : Prop :=
  match transaction_type (t4t_hl w) with
  | NFC_T4T_HL_SELECT | NFC_T4T_HL_NDEF_NLEN_UPDATE => True
  | NFC_T4T_HL_CC_READ => cc_pointer w (cc_cc (cc_file (t4t_hl w)))
  | _ => cc_pointer w (ndef_cc (ndef (t4t_hl w))) /\
         buf_pointer w (ndef_buff (ndef (t4t_hl w))) (buff_size (ndef (t4t_hl w)))
  end.

Definition hl_state_ok (h : t4t_hl_procedure) : Prop :=
  zlen (cc_data (cc_file h)) = CC_BUFFER_SIZE /\ bytes (cc_data (cc_file h)) /\ bits 16 (hl_cc_len (cc_file h)) /\
  bits 16 (nlen (ndef h)) /\ (exists id, bits 16 id /\ ndef_file_id (ndef h) = be16 id) /\
  bits 16 (file_offset h) /\ zlen (apdu_buff h) = APDU_BUF_SIZE.

Definition hl_ok (w : world) : Prop :=
  hl_state_ok (t4t_hl w) /\ hl_cb w <> None /\ objects_ok w /\ transaction_ok w.

(** The objects stay where they are and keep their sizes. *)
Definition same_objects (w w' : world) : Prop :=
  (forall p, is_Some (ccs w !! p) <-> is_Some (ccs w' !! p)) /\
  (forall p, length <$> bufs w !! p = length <$> bufs w' !! p).
#[export] Instance same_objects_preorder : PreOrder same_objects.
Proof.
  split; [split; done|]. intros x y z [H1 H2] [H3 H4]. split; intros p; [by rewrite H1|by rewrite H2].
Qed.

(** A step of the module: it returns, and the invariant holds again. *)
Definition keeps (w : world) (r : res (world * Z)) : Prop :=
  exists w' rc, r = Ok (w', rc) /\ hl_ok w' /\ same_objects w w'.

(** A command with valid fields; its data may be empty. *)
Definition comm_fields_ok (cmd : nfc_t4t_apdu_comm) : Prop :=
  byte (class_byte cmd) /\ byte (instruction cmd) /\ bits 16 (parameter cmd) /\ bits 16 (resp_len cmd) /\
  match buff (comm_data cmd) with
  | Some b => 0 <= data_len (comm_data cmd) <= zlen b /\ data_len (comm_data cmd) <= 255
  | None => data_len (comm_data cmd) = 0
  end.

Lemma comm_octets_bound cmd : comm_fields_ok cmd -> zlen (comm_octets cmd) <= 264.
Proof.
  intros (_ & _ & _ & _ & Hd). unfold comm_octets, data_octets, lc_octets, le_octets.
  rewrite !length_app. assert (length (le_octets (resp_len cmd)) <= 2)%nat
    by (unfold le_octets; repeat case_match; cbn; lia). unfold le_octets in *.
  destruct (buff (comm_data cmd)) as [b|]; [|cbn [length be16]; lia].
  rewrite length_app, length_take. repeat case_match; cbn [length be16] in *; lia.
Qed.

(** What handing over a command does. *)
Lemma exchange w cmd :
  comm_ok cmd -> zlen (comm_octets cmd) < 65536 -> zlen (apdu_buff (t4t_hl w)) = APDU_BUF_SIZE ->
  t4t_hl_data_exchange w cmd =
    if zlen (comm_octets cmd) <=? APDU_BUF_SIZE then
      let w' := set_hl w (set_apdu (t4t_hl w)
        (comm_octets cmd ++ drop (length (comm_octets cmd)) (apdu_buff (t4t_hl w)))) in
      Ok (set_isodep w' (nfc_t4t_isodep_transmit (isodep w) (comm_octets cmd)).1,
          (nfc_t4t_isodep_transmit (isodep w) (comm_octets cmd)).2)
    else Ok (set_hl w (set_apdu (t4t_hl w) (apdu_buff (t4t_hl w))), -12).
Proof.
  intros Hok Hw Hl. unfold t4t_hl_data_exchange. rewrite comm_encode by (done || lia).
  destruct (zlen (comm_octets cmd) <=? APDU_BUF_SIZE); [|done]. cstep. cbn [negb Z.eqb].
  rewrite rd_block_start. cstep. cbn [isodep set_hl]. by destruct (nfc_t4t_isodep_transmit _ _).
Qed.

(** A change of the command buffer and of the link. *)
Lemma hl_ok_sent w b l :
  hl_ok w -> zlen b = APDU_BUF_SIZE -> hl_ok (set_isodep (set_hl w (set_apdu (t4t_hl w) b)) l).
Proof. intros ((H1 & H2 & H3 & H4 & H5 & H6 & H7) & Hc & Ho & Ht) Hb. by split. Qed.

Lemma exchange_keeps w cmd : hl_ok w -> comm_fields_ok cmd -> keeps w (t4t_hl_data_exchange w cmd).
Proof.
  intros Hw Hcmd. pose proof (comm_octets_bound cmd Hcmd) as Hlen. pose proof Hcmd as (Hc & Hi & Hp & Hr & Hd).
  assert (Ha : zlen (apdu_buff (t4t_hl w)) = APDU_BUF_SIZE) by apply Hw.
  destruct (decide (buff (comm_data cmd) <> None /\ data_len (comm_data cmd) = 0)) as [[Hb Hz]|Hn].
  - unfold keeps, t4t_hl_data_exchange, nfc_t4t_apdu_comm_encode, nfc_t4t_apdu_comm_args_validate.
    rewrite bool_decide_eq_true_2, Hz by done. cbn.
    eexists _, _. split; [reflexivity|]. split; [|done]. apply (hl_ok_sent w (apdu_buff (t4t_hl w)) (isodep w)); done.
  - assert (Hok : comm_ok cmd).
    { split; [done|]. split; [done|]. split; [done|]. split; [|done]. unfold data_ok.
      destruct (buff (comm_data cmd)) as [b|]; [|done]. destruct (decide (data_len (comm_data cmd) = 0)); [|lia].
      exfalso. by apply Hn. }
    unfold keeps. rewrite exchange by (done || lia).
    destruct (Z.leb_spec (zlen (comm_octets cmd)) APDU_BUF_SIZE); eexists _, _; (split; [reflexivity|]); (split; [|done]).
    + apply hl_ok_sent; [done|]. rewrite length_app, length_drop. lia.
    + by apply (hl_ok_sent w (apdu_buff (t4t_hl w)) (isodep w)).
Qed.

(** A decoded response: its data is in front of the octets received, with
    the status behind it. *)
Definition resp_ok (r : nfc_t4t_apdu_resp) : Prop :=
  bits 16 (data_len (resp_data r)) /\
  match buff (resp_data r) with
  | Some b => bytes b /\ data_len (resp_data r) + 2 <= zlen b
  | None => data_len (resp_data r) = 0
  end.

Lemma resp_octets_ok r n :
  resp_ok r -> 0 <= n -> (n <= data_len (resp_data r) \/ (0 < data_len (resp_data r) /\ n <= 2)) ->
  exists bs, resp_octets r n = Ok bs /\ bytes bs /\ zlen bs = n.
Proof.
  intros [_ Hr] Hn Hle. unfold resp_octets. destruct (buff (resp_data r)) as [b|].
  - destruct Hr as [Hb Hl]. eexists. rewrite rd_block_Ok by lia. split; [done|].
    split; [by apply Forall_take|]. autorewrite with clen. lia.
  - rewrite (proj2 (Z.eqb_eq n 0)) by lia. exists []. split; [done|]. split; [constructor|cbn; lia].
Qed.

Lemma decode_any m len :
  bytes m -> len <= zlen m -> 2 <= len < 65536 ->
  exists r, nfc_t4t_apdu_resp_decode (Some nfc_t4t_apdu_resp_clear) (Some m) len = Ok (Some r, 0) /\ resp_ok r.
Proof.
  intros Hb Hl Hn. unfold nfc_t4t_apdu_resp_decode, nfc_t4t_apdu_resp_args_validate, STATUS_SIZE.
  rewrite (proj2 (Z.ltb_ge len 2)) by lia. cbn [negb Z.eqb].
  destruct (Z.ltb_spec 2 len); cbn [data_len resp_data nfc_t4t_apdu_resp_clear].
  - rewrite u16_small by lia. rewrite rd_block_Ok by lia. cstep. eexists. split; [reflexivity|].
    split; cbn; [unfold bits; lia|]. split; [done|lia].
  - rewrite rd_block_Ok by lia. cstep. eexists. split; [reflexivity|]. split; done.
Qed.

Lemma be16_value bs : bytes bs -> zlen bs = 2 -> exists v, bits 16 v /\ bs = be16 v /\ sys_get_be16 bs = v.
Proof.
  intros Hb Hl. destruct (field16 bs 0) as (v & Hv & R & E & _); [done|lia|lia|].
  rewrite rd_block_Ok in R by lia. injection R as R. rewrite drop_0, take_ge in R by lia. subst bs. by exists v.
Qed.

Lemma wr_block_bytes m off bs :
  bytes m -> bytes bs -> 0 <= off -> off + zlen bs <= zlen m ->
  exists m', wr_block m off bs = Ok m' /\ bytes m' /\ zlen m' = zlen m.
Proof.
  intros Hm Hb H0 H1. eexists. rewrite wr_block_Ok by lia. split; [reflexivity|]. split.
  - repeat apply Forall_app_2; [by apply Forall_take|done|by apply Forall_drop].
  - autorewrite with clen. lia.
Qed.

Lemma deref_Some {A} (m : gmap Z A) p x : m !! p = Some x -> deref m p = Ok x.
Proof. unfold deref. by intros ->. Qed.

Lemma keeps_same w w1 r : same_objects w w1 -> keeps w1 r -> keeps w r.
Proof. intros H (w' & rc & E & Hok & Hs). exists w', rc. split; [done|]. split; [done|]. by transitivity w1. Qed.

Lemma keeps_ret w w' rc : hl_ok w' -> same_objects w w' -> keeps w (Ok (w', rc)).
Proof. intros. by exists w', rc. Qed.

Lemma hl_ok_set_hl w h :
  hl_ok w -> hl_state_ok h -> transaction_ok (set_hl w h) -> hl_ok (set_hl w h).
Proof. intros (_ & Hc & Ho & _) Hs Ht. by split. Qed.

Lemma hl_ok_emit w e : hl_ok w -> hl_ok (emit w e).
Proof. intros (Hs & Hc & Ho & Ht). by split. Qed.

Lemma read_fields off len : bits 16 off -> bits 16 len -> comm_fields_ok (read_comm off len).
Proof. intros. by split. Qed.

Lemma update_fields off b n : bits 16 off -> 0 <= n <= zlen b -> n <= 255 -> comm_fields_ok (update_comm off b n).
Proof. intros. by split; [done|split; [done|split; [done|split; [done|split]]]]. Qed.

Lemma u16_bits z : bits 16 (u16 z).
Proof. apply u16_range. Qed.

(** Parsing into a descriptor leaves it usable. *)
Lemma parse_keeps cc data len :
  cc_usable cc -> bytes data -> 0 <= len <= zlen data -> len < 65536 ->
  exists cc' rc, nfc_t4t_cc_file_parse (Some cc) (Some data) len = Ok (Some cc', rc) /\ cc_usable cc'.
Proof.
  intros Hu Hb Hl Hw. pose proof Hu as (Hs & _ & _ & _).
  destruct (cc_parse_returns cc data len Hs Hb Hl Hw) as (cc' & rc & E & Hcase & _). exists cc', rc. split; [done|].
  case_bool_decide; [|destruct Hcase as [-> _]; done]. destruct Hcase as ((Hs' & Hc' & _) & (_ & _ & _ & ? & ?)). by split.
Qed.

Lemma objects_insert_cc w p cc cc' :
  hl_ok w -> ccs w !! p = Some cc -> cc_usable cc' ->
  hl_ok (set_ccs w (<[p := cc']> (ccs w))) /\ same_objects w (set_ccs w (<[p := cc']> (ccs w))).
Proof.
  intros (Hs & Hc & (Ho1 & Ho2) & Ht) Hp Hu.
  assert (Hsame : forall q, is_Some (ccs w !! q) <-> is_Some (<[p := cc']> (ccs w) !! q)).
  { intros q. rewrite lookup_insert_is_Some. destruct (decide (p = q)) as [->|]; [|naive_solver].
    rewrite Hp. naive_solver. }
  split; [|by split]. split; [done|]. split; [done|]. split.
  - split; [|done]. by apply map_Forall_insert_2.
  - unfold transaction_ok, cc_pointer in *. cbn [t4t_hl set_ccs ccs].
    destruct (transaction_type (t4t_hl w)); rewrite <- ?Hsame; done.
Qed.

(** The length of the container is taken from the first response with data. *)
Lemma cc_length_read c r :
  resp_ok r -> bits 16 (hl_cc_len c) ->
  exists l, bits 16 l /\
    (if negb (data_len (resp_data r) =? 0) && (hl_cc_len c =? 0) then
       let* bs := resp_octets r 2 in
       Ok {| cc_cc := cc_cc c; hl_cc_len := sys_get_be16 bs; cc_data := cc_data c |}
     else Ok c) = Ok {| cc_cc := cc_cc c; hl_cc_len := l; cc_data := cc_data c |}.
Proof.
  intros Hr Hl. assert (Hlen : bits 16 (data_len (resp_data r))) by apply Hr. unfold bits in Hlen.
  destruct (Z.eqb_spec (data_len (resp_data r)) 0), (Z.eqb_spec (hl_cc_len c) 0); cbn [negb andb];
    try (exists (hl_cc_len c); split; [done|by destruct c]).
  destruct (resp_octets_ok r 2 Hr) as (bs & -> & Hb & Lb); [lia|lia|]. cstep.
  destruct (be16_value bs Hb Lb) as (v & Hv & _ & ->). by exists v.
Qed.

Lemma on_cc_read_keeps w r :
  hl_ok w -> transaction_type (t4t_hl w) = NFC_T4T_HL_CC_READ -> resp_ok r -> keeps w (on_cc_read w r).
Proof.
  intros Hw Ety Hr. pose proof Hw as (Hst & Hcb & (Hcc & _) & Ht).
  unfold transaction_ok in Ht. rewrite Ety in Ht. pose proof Hst as (Hd & Hdb & Hcl & Hn & Hid & Ho & Ha).
  unfold on_cc_read. set (len := data_len (resp_data r)) in *.
  assert (Hlen : bits 16 len) by apply Hr. unfold bits in Hlen, Ho.
  destruct (cc_length_read (cc_file (t4t_hl w)) r Hr Hcl) as (l & Hl & E). fold len in E. rewrite E. clear E.
  cstep. cbn [cc_data cc_cc hl_cc_len].
  pose proof cc_buffer_size_range as Hsz.
  destruct (Z.ltb_spec CC_BUFFER_SIZE (file_offset (t4t_hl w) + len)).
  { apply keeps_ret; [|done]. apply hl_ok_set_hl; [done|by split|]. unfold transaction_ok. cbn. by rewrite Ety. }
  destruct (resp_octets_ok r len Hr) as (bs & -> & Hb & Lb); [lia|unfold len; lia|]. cstep.
  destruct (wr_block_bytes (cc_data (cc_file (t4t_hl w))) (file_offset (t4t_hl w)) bs) as (d & -> & Hdb' & Ld);
    [done|done|lia|lia|]. cstep.
  set (h' := set_offset _ _). cbn [file_offset h' set_offset set_cc_file].
  assert (Hh : hl_ok (set_hl w h')).
  { apply hl_ok_set_hl; [done| |unfold transaction_ok; cbn; by rewrite Ety].
    split; cbn; [lia|]. split; [done|]. split; [done|]. split; [done|]. split; [done|]. split; [apply u16_bits|done]. }
  rewrite u16_small by lia. destruct (Z.ltb_spec (file_offset (t4t_hl w) + len) l).
  { apply (keeps_same _ (set_hl w h')); [done|]. apply exchange_keeps; [done|].
    apply read_fields; [unfold bits; lia|apply u16_bits]. }
  change (hl_cb (set_hl _ _)) with (hl_cb w). destruct (hl_cb w) as [cb|]; [|done].
  destruct (cc_read cb); [|by apply keeps_ret]. unfold deref.
  change (ccs (set_hl _ _)) with (ccs w). destruct Ht as [cc Ecc]. rewrite Ecc. cstep.
  destruct (parse_keeps cc d l) as (cc' & rc & -> & Hu); [by apply (map_Forall_lookup_1 _ _ _ _ Hcc Ecc)|done| |unfold bits in *; lia|].
  { unfold bits in *. lia. }
  cstep. destruct (objects_insert_cc (set_hl w h') (cc_cc (cc_file (t4t_hl w))) cc cc') as [Hok Hso]; [done|done|done|].
  destruct (rc =? 0); cbn [negb]; apply keeps_ret; auto using hl_ok_emit.
Qed.

(** The transactions on the NDEF file need the same objects. *)
Definition ndef_transaction (t : nfc_t4t_hl_transaction_type) : Prop :=
  t <> NFC_T4T_HL_SELECT /\ t <> NFC_T4T_HL_CC_READ /\ t <> NFC_T4T_HL_NDEF_NLEN_UPDATE.

Lemma ndef_pointers w :
  hl_ok w -> ndef_transaction (transaction_type (t4t_hl w)) ->
  exists cc b, ccs w !! ndef_cc (ndef (t4t_hl w)) = Some cc /\ cc_usable cc /\
    bufs w !! ndef_buff (ndef (t4t_hl w)) = Some b /\ bytes b /\
    buff_size (ndef (t4t_hl w)) <= zlen b /\ bits 16 (buff_size (ndef (t4t_hl w))).
Proof.
  intros (_ & _ & (Hcc & Hbb) & Ht) (H1 & H2 & H3). unfold transaction_ok in Ht.
  assert (Hp : cc_pointer w (ndef_cc (ndef (t4t_hl w))) /\
    buf_pointer w (ndef_buff (ndef (t4t_hl w))) (buff_size (ndef (t4t_hl w))))
    by (destruct (transaction_type (t4t_hl w)); done).
  destruct Hp as ([cc Ecc] & Hbits & b & Eb & Hl). exists cc, b.
  split; [done|]. split; [by apply (map_Forall_lookup_1 _ _ _ _ Hcc Ecc)|]. split; [done|].
  split; [by apply (map_Forall_lookup_1 _ _ _ _ Hbb Eb)|]. done.
Qed.

(** A transaction on the NDEF file goes on with another step. *)
Lemma transaction_ok_ndef w h :
  hl_ok w -> ndef_transaction (transaction_type (t4t_hl w)) ->
  ndef_cc (ndef h) = ndef_cc (ndef (t4t_hl w)) -> ndef_buff (ndef h) = ndef_buff (ndef (t4t_hl w)) ->
  buff_size (ndef h) = buff_size (ndef (t4t_hl w)) -> transaction_type h <> NFC_T4T_HL_CC_READ ->
  transaction_ok (set_hl w h).
Proof.
  intros Hw Hn E1 E2 E3 Hcc. destruct (ndef_pointers w Hw Hn) as (cc & b & Ecc & _ & Eb & _ & Hl & Hbits).
  unfold transaction_ok. cbn [t4t_hl set_hl]. unfold cc_pointer, buf_pointer. cbn [ccs bufs set_hl]. rewrite E1, E2, E3.
  destruct (transaction_type h); try done; (split; [by rewrite Ecc|split; [done|by exists b]]).
Qed.

Lemma objects_insert_buf w p b b' :
  hl_ok w -> bufs w !! p = Some b -> bytes b' -> length b' = length b ->
  hl_ok (set_bufs w (<[p := b']> (bufs w))) /\ same_objects w (set_bufs w (<[p := b']> (bufs w))).
Proof.
  intros (Hs & Hc & (Ho1 & Ho2) & Ht) Hp Hb Hl.
  assert (Hsame : forall q, length <$> bufs w !! q = length <$> <[p := b']> (bufs w) !! q).
  { intros q. destruct (decide (p = q)) as [->|]; [|by rewrite lookup_insert_ne].
    rewrite lookup_insert_eq, Hp. cbn. by rewrite Hl. }
  split; [|by split]. split; [done|]. split; [done|]. split.
  - split; [done|]. by apply map_Forall_insert_2.
  - assert (Hptr : forall q n, buf_pointer w q n -> buf_pointer (set_bufs w (<[p := b']> (bufs w))) q n).
    { intros q n (Hn & c & Ec & Hle). split; [done|]. specialize (Hsame q). rewrite Ec in Hsame. cbn.
      destruct (<[p:=b']> (bufs w) !! q) as [c'|]; [|done]. exists c'. split; [done|]. injection Hsame. lia. }
    unfold transaction_ok in *. cbn [t4t_hl set_bufs].
    destruct (transaction_type (t4t_hl w)); try done; (split; [apply Ht|apply Hptr, Ht]).
Qed.

Lemma content_find_ok bs n id i :
  (n <= length bs)%nat ->
  content_find bs n id i = Ok None \/
  exists k, (k < n)%nat /\ content_find bs n id i = Ok (Some (i + Z.of_nat k)).
Proof.
  revert n i. induction bs as [|b bs IH]; intros [|n] i Hn; cbn [length] in *; [by left|lia|by left|]. cbn.
  destruct (_ =? _); [right; exists 0%nat; split; [lia|]; by rewrite Z.add_0_r|].
  destruct (IH n (i + 1)) as [E|(k & Hk & E)]; [lia|by left|]. right. exists (S k). split; [lia|].
  rewrite E. do 2 f_equal. lia.
Qed.

Lemma content_get_ok cc fid :
  cc_usable cc ->
  nfc_t4t_cc_file_content_get cc fid = Ok None \/
  exists i b, nfc_t4t_cc_file_content_get cc fid = Ok (Some i) /\ 0 <= i /\ blocks cc !! Z.to_nat i = Some b.
Proof.
  intros (((a & E & Hl) & Hm) & Hc & _). unfold nfc_t4t_cc_file_content_get, blocks. rewrite E. cbn [default id].
  destruct (content_find_ok a (Z.to_nat (tlv_count cc)) fid 0) as [?|(k & Hk & ->)]; [lia|by left|right].
  destruct (lookup_lt_is_Some_2 a k) as [b Hb]; [lia|]. exists (Z.of_nat k), b. rewrite Nat2Z.id, Z.add_0_l.
  split; [done|]. split; [lia|done].
Qed.

Lemma content_set_ok cc f fid :
  cc_usable cc -> exists cc' rc, nfc_t4t_cc_file_content_set cc f fid = Ok (cc', rc) /\ cc_usable cc'.
Proof.
  intros Hu. unfold nfc_t4t_cc_file_content_set.
  destruct (content_get_ok cc fid Hu) as [->|(i & b & -> & _)]; cstep; eexists _, _; (split; [reflexivity|]); [done|].
  destruct Hu as (((a & E & Hl) & Hm) & Hc & Hs). split; [|done]. split; [|done]. eexists. split; [reflexivity|].
  unfold blocks. rewrite E. cbn [default id]. by rewrite length_alter.
Qed.

Lemma file_assign_keeps w id :
  hl_ok w -> cc_pointer w (ndef_cc (ndef (t4t_hl w))) ->
  exists w' rc, t4t_file_assign w id = Ok (w', rc) /\ hl_ok w' /\ same_objects w w' /\ hl_cb w' = hl_cb w.
Proof.
  intros Hw [cc Ecc]. unfold t4t_file_assign, deref. rewrite Ecc. cstep.
  assert (Hu : cc_usable cc) by (destruct Hw as (_ & _ & (Hcc & _) & _); by apply (map_Forall_lookup_1 _ _ _ _ Hcc Ecc)).
  destruct (content_set_ok cc {| content := ndef_buff (ndef (t4t_hl w)); file_len := file_offset (t4t_hl w) |} id Hu)
    as (cc' & rc & -> & Hu'). cstep.
  destruct (objects_insert_cc w _ _ cc' Hw Ecc Hu') as [Hok Hs]. eexists _, _. split; [reflexivity|]. done.
Qed.

Lemma chunk_read_keeps w r :
  hl_ok w -> ndef_transaction (transaction_type (t4t_hl w)) -> resp_ok r -> keeps w (ndef_file_chunk_read w r).
Proof.
  intros Hw Hty Hr. pose proof Hw as ((Hd & Hdb & Hcl & Hn & Hid & Ho & Ha) & Hcb & _ & _).
  destruct (ndef_pointers w Hw Hty) as (cc & b & Ecc & Hu & Eb & Hbb & Hbl & Hbs). unfold ndef_file_chunk_read.
  set (len := data_len (resp_data r)) in *. assert (Hlen : bits 16 len) by apply Hr. unfold bits in Hlen, Ho, Hbs.
  destruct (Z.ltb_spec (buff_size (ndef (t4t_hl w))) (file_offset (t4t_hl w) + len)); [by apply keeps_ret|].
  destruct (resp_octets_ok r len Hr) as (bs & -> & Hb & Lb); [lia|unfold len; lia|]. cstep.
  rewrite (deref_Some _ _ _ Eb). cstep.
  destruct (wr_block_bytes b (file_offset (t4t_hl w)) bs) as (b' & -> & Hb' & Lb'); [done|done|lia|lia|]. cstep.
  set (w1 := set_bufs w _). destruct (objects_insert_buf w (ndef_buff (ndef (t4t_hl w))) b b') as [Hw1 Hs1];
    [done|done|done|lia|]. fold w1 in Hw1, Hs1. change (t4t_hl w1) with (t4t_hl w). rewrite u16_small by lia.
  set (o := file_offset (t4t_hl w) + len) in *.
  assert (Hst : forall t, hl_state_ok (set_type (set_offset (t4t_hl w) o) t)).
  { intros t. split; [done|]. split; [done|]. split; [done|]. split; [done|]. split; [done|].
    split; [unfold bits; cbn; lia|done]. }
  apply (keeps_same _ w1 _ Hs1). cbn [file_offset set_offset].
  destruct (Z.ltb_spec o (nlen (ndef (t4t_hl w)) + NDEF_FILE_NLEN_SIZE)).
  - unfold deref. change (ccs (set_hl w1 _)) with (ccs w). rewrite Ecc. cstep.
    eapply keeps_same; [|apply exchange_keeps]; [done| |apply read_fields; [unfold bits; lia|apply u16_bits]].
    apply (hl_ok_set_hl w1); [done|apply Hst|]. by apply transaction_ok_ndef.
  - assert (Hw2 : hl_ok (set_hl w1 (set_offset (t4t_hl w) o))).
    { apply (hl_ok_set_hl w1); [done|apply (Hst (transaction_type (t4t_hl w)))|].
      apply transaction_ok_ndef; try done. apply Hty. }
    destruct (file_assign_keeps _ (sys_get_be16 (ndef_file_id (ndef (t4t_hl w)))) Hw2) as (w3 & rc & -> & Hw3 & Hs3 & Ecb);
      [by exists cc|]. cstep.
    destruct (rc =? 0); cbn [negb]; [|by apply keeps_ret]. rewrite Ecb. change (hl_cb (set_hl w1 _)) with (hl_cb w).
    destruct (hl_cb w) as [cb|]; [|done]. destruct (ndef_read cb); apply keeps_ret; auto using hl_ok_emit.
Qed.

Lemma chunk_update_keeps w :
  hl_ok w -> ndef_transaction (transaction_type (t4t_hl w)) -> keeps w (ndef_file_chunk_update w).
Proof.
  intros Hw Hty. pose proof Hw as ((Hd & Hdb & Hcl & Hn & Hid & Ho & Ha) & Hcb & _ & _).
  destruct (ndef_pointers w Hw Hty) as (cc & b & Ecc & Hu & Eb & Hbb & Hbl & Hbs). unfold ndef_file_chunk_update.
  unfold bits in Ho, Hbs. destruct Hu as (_ & _ & _ & Hmc). unfold bits in Hmc.
  destruct (Z.ltb_spec (file_offset (t4t_hl w)) (buff_size (ndef (t4t_hl w)))).
  - unfold deref. rewrite Eb. cstep. rewrite Ecc. cstep. unfold APDU_LE_MAP_2_MAX_VALUE.
    set (n := Z.min _ _). assert (0 <= n <= 255 /\ n <= buff_size (ndef (t4t_hl w)) - file_offset (t4t_hl w)) by lia.
    rewrite (u16_small n), u16_small by lia. eapply keeps_same; [|apply exchange_keeps]; [done| |].
    + apply hl_ok_set_hl; [done| |by apply transaction_ok_ndef].
      split; [done|]. split; [done|]. split; [done|]. split; [done|]. split; [done|]. split; [unfold bits; cbn; lia|done].
    + apply update_fields; [unfold bits; lia| |lia]. rewrite length_drop. lia.
  - eapply keeps_same; [|apply exchange_keeps]; [done| |].
    + by apply hl_ok_set_hl.
    + rewrite sys_put_be16_spec. by apply update_fields.
Qed.

Lemma rapdu_succes_keeps w r : hl_ok w -> resp_ok r -> keeps w (on_rapdu_succes w r).
Proof.
  intros Hw Hr. pose proof Hw as ((Hd & Hdb & Hcl & Hn & Hid & Ho & Ha) & Hcb & _ & _).
  unfold on_rapdu_succes. destruct (transaction_type (t4t_hl w)) eqn:Ety.
  - destruct (hl_cb w) as [cb|]; [|done]. destruct (selected cb); apply keeps_ret; auto using hl_ok_emit; done.
  - by apply on_cc_read_keeps.
  - unfold on_ndef_nlen_read, NDEF_FILE_NLEN_SIZE.
    destruct (Z.eqb_spec (data_len (resp_data r)) 2) as [E|E]; cbn [negb]; cstep; [|by apply keeps_ret].
    destruct (resp_octets_ok r 2 Hr) as (bs & -> & Hb & Lb); [lia|lia|]. cstep.
    destruct (be16_value bs Hb Lb) as (v & Hv & _ & ->). cbn [negb Z.eqb].
    eapply keeps_same; [|apply chunk_read_keeps]; [done| |by cbn; rewrite Ety|done].
    apply hl_ok_set_hl; [done|by split|]. apply transaction_ok_ndef; cbn; rewrite ?Ety; done.
  - apply chunk_read_keeps; [done|by rewrite Ety|done].
  - apply chunk_update_keeps; [done|by rewrite Ety].
  - apply chunk_update_keeps; [done|by rewrite Ety].
  - unfold on_ndef_nlen_update. destruct (hl_cb w) as [cb|]; [|done].
    destruct (ndef_updated cb); cstep; apply keeps_ret; auto using hl_ok_emit; done.
Qed.

(** The calls of the module. *)
Inductive hl_call :=
  | CallCbRegister (cb : option nfc_t4t_hl_procedure_cb)
  | CallAppSelect
  | CallCcSelect
  | CallFileSelect (id : Z)
  | CallCcRead (cc : Z)
  | CallNdefRead (cc buff len : Z)
  | CallNdefUpdate (cc data len : Z)
  | CallReceived (data : list Z).

Definition run_call (w : world) (c : hl_call) : res (world * Z) :=
  match c with
  | CallCbRegister cb => Ok (nfc_t4t_hl_procedure_cb_register w cb)
  | CallAppSelect => nfc_t4t_hl_procedure_ndef_tag_app_select w
  | CallCcSelect => nfc_t4t_hl_procedure_cc_select w
  | CallFileSelect id => nfc_t4t_hl_procedure_ndef_file_select w id
  | CallCcRead cc => nfc_t4t_hl_procedure_cc_read w cc
  | CallNdefRead cc buff len => nfc_t4t_hl_procedure_ndef_read w cc buff len
  | CallNdefUpdate cc data len => nfc_t4t_hl_procedure_ndef_update w cc data len
  | CallReceived data => nfc_t4t_hl_procedure_on_data_received w (Some data) (zlen data)
  end.

(** Pointers that are not null lead to objects; a response is of any length
    and has any content. *)
Definition call_ok (w : world) (c : hl_call) : Prop :=
  match c with
  | CallCbRegister _ | CallAppSelect | CallCcSelect => True
  | CallFileSelect id => bits 16 id
  | CallCcRead cc => cc = 0 \/ cc_pointer w cc
  | CallNdefRead cc p len | CallNdefUpdate cc p len =>
      (cc = 0 \/ cc_pointer w cc) /\ (p = 0 \/ buf_pointer w p len)
  | CallReceived data => bytes data /\ zlen data < 65536
  end.

Lemma select_keeps w p d n :
  hl_ok w -> bits 16 p -> bits 16 n -> 0 < zlen d <= 255 -> keeps w (t4t_hl_data_exchange w (select_comm p d n)).
Proof. intros Hw Hp Hn Hd. apply exchange_keeps; [done|]. split; [done|]. split; [done|]. cbn. split_and!; try done; lia. Qed.

Lemma file_select_keeps w id : hl_ok w -> bits 16 id -> keeps w (nfc_t4t_hl_procedure_ndef_file_select w id).
Proof.
  intros Hw Hid. pose proof Hw as ((Hd & Hdb & Hcl & Hn & _ & Ho & Ha) & _).
  unfold nfc_t4t_hl_procedure_ndef_file_select. rewrite sys_put_be16_spec.
  eapply keeps_same; [|apply select_keeps]; try done. apply hl_ok_set_hl; [done| |done].
  split; [done|]. split; [done|]. split; [done|]. split; [done|]. split; [by exists id|done].
Qed.

Lemma ndef_read_keeps w cc p len :
  hl_ok w -> call_ok w (CallNdefRead cc p len) -> keeps w (nfc_t4t_hl_procedure_ndef_read w cc p len).
Proof.
  intros Hw [Hc Hp]. pose proof Hw as ((Hd & Hdb & Hcl & Hn & Hid & Ho & Ha) & _ & _ & Ht).
  unfold nfc_t4t_hl_procedure_ndef_read. destruct ((_ || _) || _) eqn:E.
  - apply keeps_ret; [|done]. by apply hl_ok_set_hl.
  - rewrite !orb_false_iff, !Z.eqb_neq in E. destruct E as [[Ec Ep] El], Hc as [?|Hc], Hp as [?|Hp]; try done.
    eapply keeps_same; [|apply exchange_keeps]; [done| |by apply read_fields].
    apply (hl_ok_set_hl w); [done|by split|by split].
Qed.

Lemma ndef_update_keeps w cc p len :
  hl_ok w -> call_ok w (CallNdefUpdate cc p len) -> keeps w (nfc_t4t_hl_procedure_ndef_update w cc p len).
Proof.
  intros Hw [Hc Hp]. pose proof Hw as ((Hd & Hdb & Hcl & Hn & Hid & Ho & Ha) & _ & (Hcc & Hbb) & Ht).
  unfold nfc_t4t_hl_procedure_ndef_update, NDEF_FILE_NLEN_SIZE. destruct ((_ || _) || _) eqn:E; [by apply keeps_ret|].
  rewrite !orb_false_iff, !Z.eqb_neq, Z.ltb_ge in E. destruct E as [[Ec Ep] El], Hc as [?|[d Ed]], Hp as [?|Hp]; try done.
  rewrite (deref_Some _ _ _ Ed). cstep. pose proof (map_Forall_lookup_1 _ _ _ _ Hcc Ed) as Hu. cbn in Hu.
  destruct (content_get_ok d (sys_get_be16 (ndef_file_id (ndef (t4t_hl w)))) Hu) as [->|(i & t & -> & Hi & Et)]; cstep;
    [by apply keeps_ret|].
  pose proof Hp as (Hlen & b & Eb & Lb). rewrite (deref_Some _ _ _ Eb). cstep.
  destruct (field16 b 0) as (v & Hv & -> & Ev & _); [by apply (map_Forall_lookup_1 _ _ _ _ Hbb Eb)|lia|lia|]. cstep.
  rewrite Ev, Et. destruct (_ || _); [by apply keeps_ret|].
  eapply keeps_same; [|apply exchange_keeps]; [done| |by apply update_fields].
  apply hl_ok_set_hl; [done|by split|]. split; [by exists d|done].
Qed.

Lemma call_keeps w c : hl_ok w -> call_ok w c -> keeps w (run_call w c).
Proof.
  intros Hw Hc. pose proof Hw as ((Hd & Hdb & Hcl & Hn & Hid & Ho & Ha) & Hcb & Hobj & Ht).
  destruct c; cbn [run_call].
  - destruct cb; cbn; apply keeps_ret; try done.
  - unfold nfc_t4t_hl_procedure_ndef_tag_app_select. eapply keeps_same; [|apply select_keeps]; try done.
  - by apply file_select_keeps.
  - by apply file_select_keeps.
  - unfold nfc_t4t_hl_procedure_cc_read. cbn in Hc. destruct (Z.eqb_spec cc 0); [by apply keeps_ret|].
    destruct Hc as [?|Hc]; [done|]. pose proof cc_buffer_size_range.
    eapply keeps_same; [|apply exchange_keeps]; [done| |by apply read_fields].
    apply hl_ok_set_hl; [done| |done]. split; [cbn; rewrite length_replicate; lia|].
    split; [by apply Forall_replicate|]. by split.
  - by apply ndef_read_keeps.
  - by apply ndef_update_keeps.
  - destruct Hc as [Hb Hl]. unfold nfc_t4t_hl_procedure_on_data_received, RAPDU_MIN_LEN.
    destruct (Z.ltb_spec (zlen data) 2); [by apply keeps_ret|]. rewrite u16_small by lia.
    destruct (decode_any data (zlen data)) as (r & -> & Hr); [done|lia|lia|]. cstep. cbn [negb Z.eqb].
    destruct (_ =? _); [by apply rapdu_succes_keeps|by apply keeps_ret].
Qed.

Fixpoint run_calls (w : world) (cs : list hl_call) : res (world * list Z) :=
  match cs with
  | [] => Ok (w, [])
  | c :: cs =>
    let* '(w, rc) := run_call w c in
    let* '(w, rcs) := run_calls w cs in
    Ok (w, rc :: rcs)
  end.

Lemma call_ok_same w w' c : same_objects w w' -> call_ok w c -> call_ok w' c.
Proof.
  intros [H1 H2]. assert (Hb : forall p n, buf_pointer w p n -> buf_pointer w' p n).
  { intros p n (Hn & b & Eb & Hl). split; [done|]. specialize (H2 p). rewrite Eb in H2. cbn in H2.
    destruct (bufs w' !! p) as [b'|]; [|done]. exists b'. split; [done|]. injection H2. lia. }
  destruct c; cbn; unfold cc_pointer; rewrite <- ?H1; naive_solver.
Qed.

(** C39: Every sequence of calls of the module returns, whatever the tag
    answers: calls with valid pointers and responses of any content keep the
    state well-formed, never read or write outside a buffer and leave the
    objects of the application in place. *)
Theorem hl_calls_safe cs : forall w,
  hl_ok w -> Forall (call_ok w) cs ->
  exists w' rcs, run_calls w cs = Ok (w', rcs) /\ hl_ok w' /\ same_objects w w' /\ length rcs = length cs.
Proof.
  induction cs as [|c cs IH]; intros w Hw Hcs; [by exists w, []|]. inversion_clear Hcs as [|?? Hc Hcs'].
  cbn. destruct (call_keeps w c Hw Hc) as (w1 & rc & -> & Hw1 & Hs1). cstep.
  destruct (IH w1 Hw1) as (w2 & rcs & -> & Hw2 & Hs2 & Hl).
  { eapply Forall_impl; [exact Hcs'|]. intros c'. by apply call_ok_same. }
  cstep. exists w2, (rc :: rcs). split; [done|]. split; [done|]. split; [by transitivity w1|]. cbn. by rewrite Hl.
Qed.
End Invariant.

(** ** A tag *)

(** The files of a tag and the one that is selected. *)
Record tag := { t_files : gmap Z (list Z); t_sel : option Z }.
Definition t_file (t : tag) : option (list Z) := f ← t_sel t; t_files t !! f.
Definition set_t_file (t : tag) (f : list Z) : tag :=
  {| t_files := match t_sel t with Some i => <[i := f]> (t_files t) | None => t_files t end; t_sel := t_sel t |}.

Definition SW_OK : list Z := be16 0x9000.
Definition SW_NOT_FOUND : list Z := be16 0x6A82.
Definition SW_WRONG_LENGTH : list Z := be16 0x6700.
Definition SW_WRONG_INS : list Z := be16 0x6D00.

Definition write_at (f : list Z) (off : Z) (d : list Z) : list Z :=
  take (Z.to_nat off) f ++ d ++ drop (Z.to_nat off + length d) f.

(** The answer of a tag to a command: selecting by name and by identifier,
    READ BINARY and UPDATE BINARY with short length fields. *)
Definition tag_step (t : tag) (m : list Z) : tag * list Z :=
  match m with
  | cla :: ins :: p1 :: p2 :: body =>
    let p := p1 * 2 ^ 8 + p2 in
    if ins =? 0xB0 then
      match body, t_file t with
      | [le], Some f => (t, take (Z.to_nat (if le =? 0 then 256 else le)) (drop (Z.to_nat p) f) ++ SW_OK)
      | [_], None => (t, SW_NOT_FOUND)
      | _, _ => (t, SW_WRONG_LENGTH)
      end
    else if ins =? 0xD6 then
      match body, t_file t with
      | lc :: d, Some f =>
        if (zlen d =? lc) && (p + zlen d <=? zlen f) then (set_t_file t (write_at f p d), SW_OK)
        else (t, SW_WRONG_LENGTH)
      | _, _ => (t, SW_NOT_FOUND)
      end
    else if ins =? 0xA4 then
      match body with
      | lc :: hi :: lo :: rest =>
        if p =? 0x0400 then ({| t_files := t_files t; t_sel := None |}, SW_OK)
        else
          match t_files t !! (hi * 2 ^ 8 + lo) with
          | Some _ => ({| t_files := t_files t; t_sel := Some (hi * 2 ^ 8 + lo) |}, SW_OK)
          | None => (t, SW_NOT_FOUND)
          end
      | _ => (t, SW_WRONG_LENGTH)
      end
    else (t, SW_WRONG_INS)
  | _ => (t, SW_WRONG_LENGTH)
  end.

(** What the link promises: a command that is handed over while no other one
    is on its way is accepted and on its way, until it is answered. *)
Class IsodepLaws (ID : Isodep) := {
  pending : link -> option (list Z);
  answered : link -> link;
  transmit_pending l m :
    pending l = None ->
    (nfc_t4t_isodep_transmit l m).2 = 0 /\ pending (nfc_t4t_isodep_transmit l m).1 = Some m;
  answered_pending l : pending (answered l) = None
}.

(** A link that accepts one command at a time. *)
#[export] Instance isodep_reference : Isodep := {|
  link := option (list Z);
  nfc_t4t_isodep_transmit l m :=
    match l with None => (Some m, 0) | Some _ => (l, - errno_num EBUSY) end
|}.
#[export, refine] Instance isodep_reference_laws : IsodepLaws isodep_reference := {|
  pending l := l;
  answered _ := None
|}.
Proof. all: cbn; intros; by simplify_eq. Defined.

Section Session.
Context {BO : ByteOrder} {ID : Isodep} {IL : IsodepLaws ID} {CF : HlConfig}.

(** The tag answers the command on its way, and the answer is received. *)
Definition round (w : world) (t : tag) : res (world * tag * Z) :=
  match pending (isodep w) with
  | None => Ok (w, t, 0)
  | Some m =>
    let '(t, r) := tag_step t m in
    let* '(w, rc) :=
      nfc_t4t_hl_procedure_on_data_received (set_isodep w (answered (isodep w))) (Some r) (zlen r) in
    Ok (w, t, rc)
  end.
Fixpoint rounds (k : nat) (w : world) (t : tag) : res (world * tag * Z) :=
  match k with
  | O => Ok (w, t, 0)
  | S k =>
    let* '(w, t, rc) := round w t in
    if rc =? 0 then rounds k w t else Ok (w, t, rc)
  end.

(** The state apart from the command buffer and the link. *)
Definition view (w : world) :=
  (cc_file (t4t_hl w), ndef (t4t_hl w), transaction_type (t4t_hl w), select_type (t4t_hl w), file_offset (t4t_hl w),
   (hl_cb w, ccs w, bufs w, events w)).

(** A command is on its way. *)
Definition sends (w : world) (cmd : nfc_t4t_apdu_comm) (r : res (world * Z)) : Prop :=
  exists w', r = Ok (w', 0) /\ view w' = view w /\ zlen (apdu_buff (t4t_hl w')) = APDU_BUF_SIZE /\
    pending (isodep w') = Some (comm_octets cmd).

Lemma exchange_sends w cmd :
  comm_ok cmd -> zlen (comm_octets cmd) <= APDU_BUF_SIZE -> zlen (apdu_buff (t4t_hl w)) = APDU_BUF_SIZE ->
  pending (isodep w) = None -> sends w cmd (t4t_hl_data_exchange w cmd).
Proof.
  intros Hok Hl Ha Hp. pose proof apdu_buf_size_range. unfold sends. rewrite exchange by (done || lia).
  rewrite (proj2 (Z.leb_le _ _)) by done. destruct (transmit_pending (isodep w) (comm_octets cmd) Hp) as [-> E].
  eexists. split; [reflexivity|]. split; [done|]. split; [|done]. cbn [t4t_hl set_isodep set_hl apdu_buff set_apdu]. rewrite length_app, length_drop. lia.
Qed.

(** The response with the data [d]. *)
Definition resp_of (d : list Z) : nfc_t4t_apdu_resp :=
  {| status := 0x9000;
     resp_data := if decide (d = []) then {| buff := None; data_len := 0 |}
                  else {| buff := Some (d ++ SW_OK); data_len := zlen d |} |}.

Lemma received_ok w d :
  zlen d + 2 < 65536 ->
  nfc_t4t_hl_procedure_on_data_received w (Some (d ++ SW_OK)) (zlen (d ++ SW_OK)) = on_rapdu_succes w (resp_of d).
Proof.
  intros Hl. unfold nfc_t4t_hl_procedure_on_data_received, RAPDU_MIN_LEN.
  assert (E : zlen (d ++ SW_OK) = zlen d + 2) by (rewrite length_app; change (length SW_OK) with 2%nat; lia).
  rewrite E, (proj2 (Z.ltb_ge _ 2)), u16_small by lia.
  pose proof (resp_decode_octets nfc_t4t_apdu_resp_clear d 0x9000 [] ltac:(done) Hl) as Hd.
  rewrite app_nil_r in Hd. unfold SW_OK. rewrite Hd. done.
Qed.

Lemma resp_of_len d : data_len (resp_data (resp_of d)) = zlen d.
Proof. unfold resp_of. cbn. by case_decide; subst. Qed.

Lemma resp_of_octets d n : 0 <= n <= zlen d -> resp_octets (resp_of d) n = Ok (take (Z.to_nat n) d).
Proof.
  intros Hn. unfold resp_octets, resp_of. cbn [resp_data]. case_decide; cbn [buff].
  - subst d. cbn [length] in Hn. by rewrite (proj2 (Z.eqb_eq n 0)), take_nil by lia.
  - rewrite rd_block_Ok by (rewrite ?length_app; lia). rewrite drop_0, take_app_le by lia. done.
Qed.

(** ** The commands of the procedures *)

Lemma read_comm_octets off n : 1 <= n <= 255 -> comm_octets (read_comm off n) = [0; 0xB0] ++ be16 off ++ [n].
Proof.
  intros Hn. unfold comm_octets, read_comm, data_octets, le_octets.
  cbn [class_byte instruction parameter comm_data resp_len buff].
  rewrite (proj2 (Z.eqb_neq n 0)), (proj2 (Z.leb_le n 255)) by lia. done.
Qed.

Lemma read_comm_ok off n : bits 16 off -> 1 <= n <= 255 -> comm_ok (read_comm off n).
Proof. intros Ho Hn. split; [done|]. split; [done|]. split; [done|]. split; [done|]. unfold bits. cbn. lia. Qed.

Lemma update_comm_octets off b n :
  1 <= n <= 255 ->
  comm_octets (update_comm off b n) = [0; 0xD6] ++ be16 off ++ n :: take (Z.to_nat n) b.
Proof.
  intros Hn. unfold comm_octets, update_comm, data_octets, lc_octets.
  cbn [class_byte instruction parameter comm_data resp_len buff data_len].
  rewrite (proj2 (Z.leb_le n 255)) by lia. unfold le_octets. cbn [Z.eqb]. by rewrite app_nil_r.
Qed.

Lemma update_comm_ok off b n : bits 16 off -> 1 <= n <= 255 -> n <= zlen b -> comm_ok (update_comm off b n).
Proof. intros Ho Hn Hb. split; [done|]. split; [done|]. split; [done|]. split; [|done]. cbn. lia. Qed.

Lemma be16_join v : bits 16 v -> v / 2 ^ 8 mod 256 * 2 ^ 8 + v mod 256 = v.
Proof. unfold bits. intros. Z.div_mod_to_equations. lia. Qed.

Lemma tag_read t f off n :
  t_file t = Some f -> bits 16 off -> 1 <= n <= 255 ->
  tag_step t (comm_octets (read_comm off n)) = (t, take (Z.to_nat n) (drop (Z.to_nat off) f) ++ SW_OK).
Proof.
  intros Hf Ho Hn. rewrite read_comm_octets by done. unfold be16. cbn [app tag_step]. rewrite be16_join by done.
  cbn [Z.eqb Pos.eqb]. rewrite Hf. by rewrite (proj2 (Z.eqb_neq n 0)) by lia.
Qed.

Lemma tag_update t f off b n :
  t_file t = Some f -> bits 16 off -> 1 <= n <= 255 -> n <= zlen b -> off + n <= zlen f ->
  tag_step t (comm_octets (update_comm off b n)) = (set_t_file t (write_at f off (take (Z.to_nat n) b)), SW_OK).
Proof.
  intros Hf Ho Hn Hb Hl. rewrite update_comm_octets by done. unfold be16. cbn [app tag_step]. rewrite be16_join by done.
  cbn [Z.eqb Pos.eqb]. rewrite Hf. rewrite length_take.
  by rewrite (proj2 (Z.eqb_eq _ n)), (proj2 (Z.leb_le _ _)) by lia.
Qed.

(** One round, from the command on its way and the answer to it. *)
Lemma round_ok w t cmd t' d :
  pending (isodep w) = Some (comm_octets cmd) -> tag_step t (comm_octets cmd) = (t', d ++ SW_OK) ->
  zlen d + 2 < 65536 ->
  round w t = (let* '(w, rc) := on_rapdu_succes (set_isodep w (answered (isodep w))) (resp_of d) in Ok (w, t', rc)).
Proof. intros Hp Ht Hl. unfold round. rewrite Hp, Ht. by rewrite received_ok. Qed.

Lemma rounds_idle k w t : pending (isodep w) = None -> rounds k w t = Ok (w, t, 0).
Proof. intros Hp. induction k; [done|]. cbn. unfold round. rewrite Hp. cstep. exact IHk. Qed.
End Session.

(** Copying the next [n] octets of [f] behind those that were copied. *)
Lemma wr_block_prefix (f b : list Z) off n :
  0 <= off -> 0 <= n -> off + n <= zlen f -> off + n <= zlen b ->
  wr_block (take (Z.to_nat off) f ++ drop (Z.to_nat off) b) off (take (Z.to_nat n) (drop (Z.to_nat off) f)) =
    Ok (take (Z.to_nat (off + n)) f ++ drop (Z.to_nat (off + n)) b).
Proof.
  intros. rewrite wr_block_append by (rewrite ?length_take, ?length_drop; lia).
  rewrite drop_drop, length_take, length_drop, app_assoc, take_take_drop. rewrite Z2Nat.inj_add by lia.
  do 3 f_equal. lia.
Qed.

(** ** Reading the NDEF file *)

Section Read.
Context {BO : ByteOrder} {ID : Isodep} {IL : IsodepLaws ID} {CF : HlConfig}.

(** A descriptor [d] of the container at [cc], in which the file [fid] is the
    block [i]; a buffer [b] of which [len] octets may be used, at [p]; a file
    of the tag that starts with [nl], the length of the message. *)
Context (w0 : world) (cc p len fid i nl : Z) (d : nfc_t4t_cc_file) (b f : list Z) (cb : nfc_t4t_hl_procedure_cb).
Context (Hcb : hl_cb w0 = Some cb) (Hread : ndef_read cb = true).
Context (Hcc : ccs w0 !! cc = Some d) (Hi : nfc_t4t_cc_file_content_get d fid = Ok (Some i)).
Context (Hmle : 1 <= max_rapdu_size d).
Context (Hb : bufs w0 !! p = Some b) (Hlen : nl + 2 <= len) (Hlb : len <= zlen b) (Hl16 : len < 65536).
Context (Hf : take 2 f = be16 nl) (Hnl : 0 <= nl) (Hnf : nl + 2 <= zlen f) (Hbytes : bytes f).
Context (Hfid : bits 16 fid) (Hapdu : 5 <= APDU_BUF_SIZE).

Definition rstate (off : Z) (w : world) : Prop :=
  ndef (t4t_hl w) = {| ndef_cc := cc; ndef_buff := p; buff_size := len; nlen := nl; ndef_file_id := be16 fid |} /\
  file_offset (t4t_hl w) = off /\ hl_cb w = hl_cb w0 /\ ccs w = ccs w0 /\ events w = events w0 /\
  bufs w = <[p := take (Z.to_nat off) f ++ drop (Z.to_nat off) b]> (bufs w0) /\
  zlen (apdu_buff (t4t_hl w)) = APDU_BUF_SIZE.

(** The number of octets of the next command. *)
Definition rchunk (off : Z) : Z := Z.min (nl + 2 - off) (Z.min 255 (max_rapdu_size d)).

Definition reading (off : Z) (w : world) : Prop :=
  rstate off w /\ 2 <= off < nl + 2 /\ transaction_type (t4t_hl w) = NFC_T4T_HL_NDEF_READ /\
  pending (isodep w) = Some (comm_octets (read_comm off (rchunk off))).

Definition read_done (w : world) : Prop :=
  pending (isodep w) = None /\
  bufs w = <[p := take (Z.to_nat (nl + 2)) f ++ drop (Z.to_nat (nl + 2)) b]> (bufs w0) /\
  events w = events w0 ++ [NdefRead fid (take (Z.to_nat (nl + 2)) f ++ drop (Z.to_nat (nl + 2)) b) (nl + 2)] /\
  ccs w = <[cc := set_blocks d (alter (fun t => set_file t {| content := p; file_len := nl + 2 |}) (Z.to_nat i) (blocks d))
                    (tlv_count d)]> (ccs w0).

Lemma chunk_read_next off n w :
  rstate off w -> pending (isodep w) = None -> 0 <= off -> 0 < n -> 2 <= off + n <= nl + 2 ->
  exists w', ndef_file_chunk_read w (resp_of (take (Z.to_nat n) (drop (Z.to_nat off) f))) = Ok (w', 0) /\
    (if off + n <? nl + 2 then reading (off + n) w' else read_done w').
Proof.
  intros (En & Eo & Ecb & Ecc & Ee & Eb & Ea) Hp H0 Hn Ho. unfold ndef_file_chunk_read.
  set (c := take (Z.to_nat n) (drop (Z.to_nat off) f)).
  assert (Lc : zlen c = n) by (unfold c; rewrite length_take, length_drop; lia).
  rewrite resp_of_len, Lc, En, Eo. cbn [buff_size ndef_buff ndef_cc nlen ndef_file_id].
  rewrite (proj2 (Z.ltb_ge _ _)), resp_of_octets, take_ge by lia. cstep.
  rewrite (deref_Some _ _ (take (Z.to_nat off) f ++ drop (Z.to_nat off) b)) by (by rewrite Eb, lookup_insert_eq). cstep.
  unfold c. rewrite wr_block_prefix by lia. fold c. cstep. set (b' := take _ f ++ _).
  cbn [t4t_hl set_bufs set_hl file_offset set_offset ccs]. rewrite Eo, u16_small, Ecc by lia.
  change NDEF_FILE_NLEN_SIZE with 2. destruct (Z.ltb_spec (off + n) (nl + 2)).
  - rewrite (deref_Some _ _ _ Hcc). cstep.
    replace (nl - (off + n - 2)) with (nl + 2 - (off + n)) by lia. change APDU_LE_MAP_2_MAX_VALUE with 255.
    fold (rchunk (off + n)). assert (Hr : 1 <= rchunk (off + n) <= 255) by (unfold rchunk; lia).
    rewrite u16_small by lia.
    set (w1 := set_hl _ _). destruct (exchange_sends w1 (read_comm (off + n) (rchunk (off + n)))) as (w' & -> & Hv & Ha' & Hp');
      [apply read_comm_ok; [unfold bits|]; lia|rewrite read_comm_octets by done; cbn; lia|done|done|].
    exists w'. split; [done|]. unfold view in Hv. cbn in Hv. simplify_eq.
    split; [|split; [lia|split; [congruence|done]]].
    split; [congruence|]. split; [congruence|]. split; [congruence|]. split; [congruence|]. split; [congruence|].
    split; [|done]. replace (bufs w') with (<[p:=b']> (bufs w)) by congruence. by rewrite Eb, insert_insert_eq.
  - unfold t4t_file_assign. cbn [t4t_hl set_hl ndef set_bufs set_offset ccs file_offset].
    rewrite En, Ecc. cbn [ndef_cc ndef_buff]. rewrite (deref_Some _ _ _ Hcc). cstep. rewrite get_be16_of by done.
    unfold nfc_t4t_cc_file_content_set. rewrite Hi. cstep. cbn [negb Z.eqb hl_cb set_ccs set_hl set_bufs].
    rewrite Ecb, Hcb, Hread. eexists. split; [reflexivity|].
    subst b'. replace (off + n) with (nl + 2) in * by lia. split; [done|]. cbn. by rewrite Eb, Ee, insert_insert_eq.
Qed.

Lemma rstate_isodep off w l : rstate off w -> rstate off (set_isodep w l).
Proof. done. Qed.

(** The rest of the file is read, in as many rounds as there are octets. *)
Lemma reading_done t : t_file t = Some f -> forall k off w,
  reading off w -> nl + 2 - off <= Z.of_nat k ->
  exists w', rounds k w t = Ok (w', t, 0) /\ read_done w'.
Proof.
  intros Ht. induction k as [|k IH]; intros off w (Hs & Ho & Ety & Hp) Hk; [lia|].
  assert (Hr : 1 <= rchunk off <= 255) by (unfold rchunk; lia).
  assert (Hrl : off + rchunk off <= nl + 2) by (unfold rchunk; lia). cbn [rounds].
  rewrite (round_ok _ _ _ _ _ Hp (tag_read t f off (rchunk off) Ht ltac:(unfold bits; lia) Hr))
    by (rewrite length_take; lia).
  unfold on_rapdu_succes. cbn [t4t_hl set_isodep]. rewrite Ety.
  destruct (chunk_read_next off (rchunk off) (set_isodep w (answered (isodep w)))) as (w' & -> & Hw');
    [done|apply answered_pending|lia|lia|lia|]. cstep. cbn [Z.eqb].
  destruct (Z.ltb_spec (off + rchunk off) (nl + 2)).
  - apply (IH _ w' Hw'). lia.
  - rewrite rounds_idle by apply Hw'. by exists w'.
Qed.
End Read.

Section Sessions.
Context {BO : ByteOrder} {ID : Isodep} {IL : IsodepLaws ID} {CF : HlConfig}.

(** Reading the NDEF file of a tag: from any well-formed state the
    procedure comes to an end after at most one round for each octet of the
    message and one more. The buffer then holds the length and the message as
    they are in the file, the rest of the buffer is as it was, the callback is
    called once with them, and the content is bound to the block of the file. *)
Lemma ndef_read_session w cc p len fid i d b cb t f nl k :
  hl_ok w -> pending (isodep w) = None -> hl_cb w = Some cb -> ndef_read cb = true ->
  ndef_file_id (ndef (t4t_hl w)) = be16 fid -> bits 16 fid ->
  ccs w !! cc = Some d -> cc <> 0 -> nfc_t4t_cc_file_content_get d fid = Ok (Some i) -> 1 <= max_rapdu_size d ->
  bufs w !! p = Some b -> p <> 0 -> nl + 2 <= len <= zlen b -> len < 65536 ->
  t_file t = Some f -> take 2 f = be16 nl -> 0 <= nl -> nl + 2 <= zlen f ->
  5 <= APDU_BUF_SIZE -> nl + 1 <= Z.of_nat k ->
  exists w1 w2, nfc_t4t_hl_procedure_ndef_read w cc p len = Ok (w1, 0) /\
    rounds k w1 t = Ok (w2, t, 0) /\ read_done w cc p fid i nl d b f w2.
Proof.
  intros Hw Hp Hcb Hread Hid Hfid Hcc Hc0 Hi Hmle Hb Hp0 Hlen Hl16 Ht Hf Hnl Hnf Ha Hk.
  unfold nfc_t4t_hl_procedure_ndef_read.
  rewrite (proj2 (Z.eqb_neq cc 0)), (proj2 (Z.eqb_neq p 0)), (proj2 (Z.eqb_neq len 0)) by lia. cbn [orb].
  set (w1 := set_hl _ _). change NDEF_FILE_NLEN_SIZE with 2.
  destruct (exchange_sends w1 (read_comm 0 2)) as (w' & -> & Hv & Ha' & Hp');
    [by apply read_comm_ok|by rewrite read_comm_octets|apply Hw|done|].
  exists w'. unfold view in Hv. cbn in Hv. injection Hv as ? En Ety ? Eo Ecb Ecc Eb Ee.
  destruct k as [|k]; [lia|]. cbn [rounds].
  rewrite (round_ok _ _ _ _ _ Hp' (tag_read t f 0 2 Ht ltac:(done) ltac:(lia))) by (rewrite length_take; lia).
  unfold on_rapdu_succes. cbn [t4t_hl set_isodep]. rewrite Ety. unfold on_ndef_nlen_read.
  assert (L2 : zlen (take (Z.to_nat 2) (drop (Z.to_nat 0) f)) = 2) by (rewrite length_take, drop_0; lia).
  rewrite resp_of_len, L2. cbn [Z.eqb Pos.eqb negb NDEF_FILE_NLEN_SIZE]. rewrite resp_of_octets by lia. cstep.
  cbn [negb Z.eqb]. set (w3 := set_hl _ _).
  assert (Hs : rstate w cc p len fid nl b f 0 w3).
  { unfold rstate. cbn [w3 t4t_hl set_hl ndef set_ndef set_isodep file_offset hl_cb ccs events bufs apdu_buff].
    rewrite take_take. cbn [Nat.min]. rewrite drop_0. change (Z.to_nat 2) with 2%nat. cbn [Nat.min].
    rewrite Hf, get_be16_of by (unfold bits; lia). rewrite En, Eb. cbn [ndef_cc ndef_buff buff_size ndef_file_id].
    rewrite Hid. split; [done|]. split; [done|]. split; [done|]. split; [done|]. split; [done|]. split; [|done].
    by rewrite insert_id. }
  destruct (chunk_read_next w cc p len fid i nl d b f cb Hcb Hread Hcc Hi Hmle) with (off := 0) (n := 2) (w := w3)
    as (w4 & -> & Hw4); try done; try lia; [apply answered_pending|]. cstep. cbn [Z.eqb].
  destruct (Z.ltb_spec (0 + 2) (nl + 2)).
  - destruct (reading_done w cc p len fid i nl d b f cb Hcb Hread Hcc Hi Hmle) with (t := t) (k := k) (off := 0 + 2) (w := w4)
      as (w5 & -> & Hd); try done; try lia. by exists w5.
  - rewrite rounds_idle by apply Hw4. by exists w4.
Qed.
End Sessions.

(** ** Updating the NDEF file *)

Lemma t_file_set t f g : t_file t = Some f -> t_file (set_t_file t g) = Some g.
Proof.
  unfold t_file, set_t_file. cbn. destruct (t_sel t) as [i|]; [|done]. cbn. by rewrite lookup_insert_eq.
Qed.

Lemma set_t_file_set t f g : set_t_file (set_t_file t f) g = set_t_file t g.
Proof. unfold set_t_file. cbn. destruct (t_sel t); [|done]. by rewrite insert_insert_eq. Qed.

Section Update.
Context {BO : ByteOrder} {ID : Isodep} {IL : IsodepLaws ID} {CF : HlConfig}.

(** The file with the message is the first [len] octets of the buffer [b] at
    [p]; the tag [t0] has the file [f]. *)
Context (w0 : world) (cc p len fid nl : Z) (d : nfc_t4t_cc_file) (b f : list Z) (cb : nfc_t4t_hl_procedure_cb) (t0 : tag).
Context (Hcb : hl_cb w0 = Some cb) (Hupd : ndef_updated cb = true).
Context (Hcc : ccs w0 !! cc = Some d) (Hmlc : 1 <= max_capdu_size d) (Hroom : max_capdu_size d + 5 <= APDU_BUF_SIZE).
Context (Hapdu : 7 <= APDU_BUF_SIZE).
Context (Hb : bufs w0 !! p = Some b) (Hlen : len = nl + 2) (Hlb : len <= zlen b) (Hl16 : len < 65536).
Context (Hnl : 0 <= nl) (Hb2 : take 2 b = be16 nl).
Context (Ht0 : t_file t0 = Some f) (Hfl : len <= zlen f) (Hfid : bits 16 fid).

Definition ustate (off : Z) (w : world) : Prop :=
  ndef (t4t_hl w) = {| ndef_cc := cc; ndef_buff := p; buff_size := len; nlen := nl; ndef_file_id := be16 fid |} /\
  file_offset (t4t_hl w) = off /\ hl_cb w = hl_cb w0 /\ ccs w = ccs w0 /\ events w = events w0 /\ bufs w = bufs w0 /\
  zlen (apdu_buff (t4t_hl w)) = APDU_BUF_SIZE.

Definition uchunk (off : Z) : Z := Z.min (len - off) (Z.min 255 (max_capdu_size d)).

(** The file while the message is being written, up to [off]. *)
Definition partial (off : Z) : list Z := [0; 0] ++ drop 2 (take (Z.to_nat off) b) ++ drop (Z.to_nat off) f.
Definition new_file : list Z := take (Z.to_nat len) b ++ drop (Z.to_nat len) f.

(** The phases of an update, with a bound of the rounds that are left. *)
Inductive phase : Z -> world -> tag -> Prop :=
  | Starting m w :
      ustate 2 w -> transaction_type (t4t_hl w) = NFC_T4T_HL_NDEF_NLEN_CLEAR ->
      pending (isodep w) = Some (comm_octets (update_comm 0 [0; 0] 2)) -> nl + 2 <= m ->
      phase m w (set_t_file t0 f)
  | Updating m w off :
      ustate (off + uchunk off) w -> transaction_type (t4t_hl w) = NFC_T4T_HL_NDEF_UPDATE -> 2 <= off < len ->
      pending (isodep w) = Some (comm_octets (update_comm off (drop (Z.to_nat off) b) (uchunk off))) ->
      len - off + 1 <= m -> phase m w (set_t_file t0 (partial off))
  | Finishing m w :
      ustate len w -> transaction_type (t4t_hl w) = NFC_T4T_HL_NDEF_NLEN_UPDATE ->
      pending (isodep w) = Some (comm_octets (update_comm 0 (be16 nl) 2)) -> 1 <= m ->
      phase m w (set_t_file t0 (partial len))
  | Ending m w :
      pending (isodep w) = None -> events w = events w0 ++ [NdefUpdated fid] -> ccs w = ccs w0 -> bufs w = bufs w0 ->
      0 <= m -> phase m w (set_t_file t0 new_file).

Lemma phase_weaken m m' w t : phase m w t -> m <= m' -> phase m' w t.
Proof. intros H Hm. inversion H; subst; econstructor; eauto; lia. Qed.

(** The next command of an update. *)
Lemma chunk_update_next off w :
  ustate off w -> pending (isodep w) = None -> 2 <= off <= len ->
  exists w', ndef_file_chunk_update w = Ok (w', 0) /\ phase (len - off + 1) w' (set_t_file t0 (partial off)).
Proof.
  intros (En & Eo & Ecb & Ecc & Ee & Eb & Ea) Hp Ho. unfold ndef_file_chunk_update.
  rewrite En, Eo, Eb, Ecc. cbn [buff_size ndef_buff ndef_cc nlen].
  pose proof apdu_buf_size_range as Har.
  destruct (Z.ltb_spec off len).
  - rewrite (deref_Some _ _ _ Hb). cstep. rewrite (deref_Some _ _ _ Hcc). cstep.
    change APDU_LE_MAP_2_MAX_VALUE with 255. fold (uchunk off).
    assert (Hu : 1 <= uchunk off <= 255 /\ off + uchunk off <= len /\ uchunk off <= max_capdu_size d) by (unfold uchunk; lia).
    rewrite (u16_small (uchunk off)), u16_small by lia.
    set (w1 := set_hl _ _).
    destruct (exchange_sends w1 (update_comm off (drop (Z.to_nat off) b) (uchunk off))) as (w' & -> & Hv & Ha' & Hp');
      [apply update_comm_ok; rewrite ?length_drop; unfold bits; lia| |done|done|].
    { rewrite update_comm_octets by lia. rewrite !length_app. cbn [length be16]. rewrite length_take, length_drop. lia. }
    exists w'. split; [done|]. unfold view in Hv. cbn in Hv. injection Hv as ? En' Ety ? Eo' Ecb' Ecc' Eb' Ee'.
    apply Updating; [|done|lia|done|lia]. split; [congruence|]. split_and!; congruence.
  - assert (off = len) as -> by lia. rewrite sys_put_be16_spec. fold (be16 nl). set (w1 := set_hl _ _).
    change NDEF_FILE_NLEN_SIZE with 2.
    destruct (exchange_sends w1 (update_comm 0 (be16 nl) 2)) as (w' & -> & Hv & Ha' & Hp');
      [by apply update_comm_ok| |done|done|].
    { rewrite update_comm_octets by lia. change (7 <= APDU_BUF_SIZE). lia. }
    exists w'. split; [done|]. unfold view in Hv. cbn in Hv. injection Hv as ? En' Ety ? Eo' Ecb' Ecc' Eb' Ee'.
    apply Finishing; [|done|done|lia]. split; [congruence|]. split_and!; congruence.
Qed.

Lemma partial_length off : 2 <= off <= len -> zlen (partial off) = zlen f.
Proof. intros. unfold partial. rewrite !length_app, !length_drop, length_take. cbn [length]. lia. Qed.

(** Writing a part of the message behind the others. *)
Lemma write_partial off n :
  2 <= off -> 0 <= n -> off + n <= len ->
  write_at (partial off) off (take (Z.to_nat n) (drop (Z.to_nat off) b)) = partial (off + n).
Proof.
  intros. unfold write_at, partial. set (m := drop 2 (take (Z.to_nat off) b)).
  assert (Lm : length m = (Z.to_nat off - 2)%nat) by (unfold m; rewrite length_drop, length_take; lia).
  assert (Ln : length (take (Z.to_nat n) (drop (Z.to_nat off) b)) = Z.to_nat n) by (rewrite length_take, length_drop; lia).
  rewrite Ln, !(app_assoc [0; 0] m). rewrite take_app_length' by (rewrite length_app; cbn [length]; lia).
  rewrite (drop_app_ge ([0; 0] ++ m)) by (rewrite length_app; cbn [length]; lia).
  rewrite drop_drop, length_app, Lm, <- app_assoc. cbn [length].
  rewrite Z2Nat.inj_add by lia. rewrite <- take_take_drop. rewrite drop_app_le by (rewrite length_take; lia).
  fold m. rewrite <- !app_assoc. do 4 f_equal. lia.
Qed.

Lemma write_zero : write_at f 0 [0; 0] = partial 2.
Proof.
  unfold write_at, partial. cbn [length].
  change (Z.to_nat 0) with 0%nat. change (Z.to_nat 2) with 2%nat. rewrite take_0.
  rewrite drop_ge with (n := 2%nat) (l := take 2 b) by (rewrite length_take; lia). done.
Qed.

Lemma write_length : write_at (partial len) 0 (be16 nl) = new_file.
Proof.
  unfold write_at, partial, new_file. change (Z.to_nat 0) with 0%nat. rewrite take_0.
  change (be16 nl ++ drop 2 (take (Z.to_nat len) b) ++ drop (Z.to_nat len) f =
    take (Z.to_nat len) b ++ drop (Z.to_nat len) f).
  rewrite app_assoc. f_equal. rewrite <- Hb2.
  replace (take 2 b) with (take 2 (take (Z.to_nat len) b)) by (rewrite take_take, Nat.min_l by lia; done).
  apply take_drop.
Qed.

(** What a round of an update leaves: the message is the old one, there is
    none, or it is the new one. *)
Definition atomic (g : list Z) : Prop := g = f \/ take 2 g = [0; 0] \/ g = new_file.

Lemma phase_atomic m w t : phase m w t -> exists g, t = set_t_file t0 g /\ atomic g.
Proof.
  intros H. inversion H; subst; eexists; (split; [reflexivity|]); unfold atomic, partial; auto.
Qed.

Lemma phase_round m w t :
  phase (m + 1) w t -> 0 <= m -> exists w' t', round w t = Ok (w', t', 0) /\ phase m w' t'.
Proof.
  intros H Hm. inversion H as [? ? Hs Ety Hp Hk|? ? off Hs Ety Ho Hp Hk|? ? Hs Ety Hp Hk|? ? Hp He Hc Hbf Hk]; subst.
  - rewrite (round_ok _ _ _ (set_t_file t0 (partial 2)) [] Hp); [| |done].
    2: { rewrite (tag_update _ f) by (done || lia || by apply (t_file_set _ f)).
         rewrite set_t_file_set, <- write_zero. done. }
    unfold on_rapdu_succes. cbn [t4t_hl set_isodep]. rewrite Ety.
    destruct (chunk_update_next 2 (set_isodep w (answered (isodep w)))) as (w' & -> & Hw');
      [done|apply answered_pending|lia|]. cstep. eexists _, _. split; [reflexivity|]. eapply phase_weaken; [done|lia].
  - assert (Hu : 1 <= uchunk off <= 255 /\ off + uchunk off <= nl + 2) by (unfold uchunk; lia).
    rewrite (round_ok _ _ _ (set_t_file t0 (partial (off + uchunk off))) [] Hp); [| |done].
    2: { rewrite (tag_update _ (partial off)); [|by apply (t_file_set _ f)|unfold bits; lia|lia|rewrite length_drop; lia|
           rewrite partial_length; lia].
         rewrite set_t_file_set, write_partial by lia. done. }
    unfold on_rapdu_succes. cbn [t4t_hl set_isodep]. rewrite Ety.
    destruct (chunk_update_next (off + uchunk off) (set_isodep w (answered (isodep w)))) as (w' & -> & Hw');
      [done|apply answered_pending|lia|]. cstep. eexists _, _. split; [reflexivity|]. eapply phase_weaken; [done|lia].
  - rewrite (round_ok _ _ _ (set_t_file t0 new_file) [] Hp); [| |done].
    2: { rewrite (tag_update _ (partial len)); [|by apply (t_file_set _ f)|done|lia|done|rewrite partial_length; lia].
         rewrite set_t_file_set. change (take (Z.to_nat 2) (be16 nl)) with (be16 nl). by rewrite write_length. }
    unfold on_rapdu_succes. cbn [t4t_hl set_isodep]. rewrite Ety. destruct Hs as (En & Eo & Ecb & Ecc & Ee & Eb & Ea).
    unfold on_ndef_nlen_update. cbn [hl_cb set_isodep t4t_hl]. rewrite Ecb, Hcb, Hupd, En. cstep.
    eexists _, _. split; [reflexivity|]. cbn [ndef_file_id]. rewrite get_be16_of by done.
    apply Ending; cbn; [apply answered_pending|by rewrite Ee|done|done|lia].
  - unfold round. rewrite Hp. eexists _, _. split; [reflexivity|]. by apply Ending.
Qed.

Lemma phase_end m w t :
  phase m w t -> m <= 0 ->
  t = set_t_file t0 new_file /\ pending (isodep w) = None /\ events w = events w0 ++ [NdefUpdated fid] /\
  ccs w = ccs w0 /\ bufs w = bufs w0.
Proof. destruct 1; intros Hm; [lia..|done]. Qed.

Lemma phase_rounds k : forall m w t,
  phase m w t -> 0 <= m ->
  exists w' t', rounds k w t = Ok (w', t', 0) /\ phase (Z.max 0 (m - Z.of_nat k)) w' t'.
Proof.
  induction k as [|k IH]; intros m w t H Hm; cbn [rounds].
  - eexists _, _. split; [reflexivity|]. eapply phase_weaken; [done|lia].
  - destruct (phase_round (Z.max 0 (m - 1)) w t) as (w1 & t1 & -> & H1); [eapply phase_weaken; [done|lia]|lia|]. cstep. cbn [Z.eqb].
    destruct (IH (Z.max 0 (m - 1)) w1 t1) as (w2 & t2 & -> & H2); [done|lia|]. eexists _, _. split; [reflexivity|].
    eapply phase_weaken; [done|lia].
Qed.
End Update.

Lemma set_t_file_same t f : t_file t = Some f -> set_t_file t f = t.
Proof.
  unfold t_file, set_t_file. destruct t as [fs [i|]]; cbn; [|done]. intros H. by rewrite insert_id.
Qed.

Section UpdateSession.
Context {BO : ByteOrder} {ID : Isodep} {IL : IsodepLaws ID} {CF : HlConfig}.

(** The first command of an update: the length in the file is to be zero. *)
Lemma ndef_update_starts w cc p len fid i d blk b :
  hl_ok w -> pending (isodep w) = None ->
  ndef_file_id (ndef (t4t_hl w)) = be16 fid -> bits 16 fid ->
  ccs w !! cc = Some d -> cc <> 0 -> nfc_t4t_cc_file_content_get d fid = Ok (Some i) ->
  blocks d !! Z.to_nat i = Some blk -> len <= max_file_size (value blk) ->
  bufs w !! p = Some b -> p <> 0 -> 2 <= len <= zlen b -> len < 65536 -> take 2 b = be16 (len - 2) ->
  7 <= APDU_BUF_SIZE ->
  exists w1, nfc_t4t_hl_procedure_ndef_update w cc p len = Ok (w1, 0) /\ ustate w cc p len fid (len - 2) 2 w1 /\
    transaction_type (t4t_hl w1) = NFC_T4T_HL_NDEF_NLEN_CLEAR /\
    pending (isodep w1) = Some (comm_octets (update_comm 0 [0; 0] 2)).
Proof.
  intros Hw Hp Hid Hfid Hcc Hc0 Hi Hblk Hmax Hb Hp0 Hlen Hl16 Hb2 Ha.
  unfold nfc_t4t_hl_procedure_ndef_update, NDEF_FILE_NLEN_SIZE.
  rewrite (proj2 (Z.eqb_neq cc 0)), (proj2 (Z.eqb_neq p 0)), (proj2 (Z.ltb_ge len 2)) by lia. cbn [orb].
  rewrite (deref_Some _ _ _ Hcc). cstep. rewrite Hid, get_be16_of by done. rewrite Hi. cstep.
  rewrite (deref_Some _ _ _ Hb). cstep. rewrite rd_block_Ok by lia. cstep.
  change (take (Z.to_nat 2) (drop (Z.to_nat 0) b)) with (take 2 b).
  rewrite Hb2, get_be16_of by (unfold bits; lia). rewrite Hblk.
  rewrite (proj2 (Z.eqb_eq (len - 2 + 2) len)), (proj2 (Z.ltb_ge _ _)) by lia. cbn [negb orb].
  set (w1 := set_hl _ _).
  destruct (exchange_sends w1 (update_comm 0 [0; 0] 2)) as (w' & -> & Hv & Ha' & Hp');
    [by apply update_comm_ok|rewrite update_comm_octets by lia; change (7 <= APDU_BUF_SIZE); lia|apply Hw|done|].
  exists w'. split; [done|]. unfold view in Hv. cbn in Hv. injection Hv as ? En Ety ? Eo Ecb Ecc Eb Ee.
  split; [|done]. split; [exact En|done].
Qed.

(** C9: Updating the NDEF file of a tag: wherever the exchange breaks off, the
    file of the tag has the old message, has no message (its length is zero),
    or has the new message completely. After at most one round for each octet
    and two more the new message is there, the rest of the file is as it was,
    and the application is told once. *)
Theorem ndef_update_session w cc p len fid i d blk b cb t f k :
  hl_ok w -> pending (isodep w) = None -> hl_cb w = Some cb -> ndef_updated cb = true ->
  ndef_file_id (ndef (t4t_hl w)) = be16 fid -> bits 16 fid ->
  ccs w !! cc = Some d -> cc <> 0 -> nfc_t4t_cc_file_content_get d fid = Ok (Some i) ->
  blocks d !! Z.to_nat i = Some blk -> len <= max_file_size (value blk) ->
  1 <= max_capdu_size d -> max_capdu_size d + 5 <= APDU_BUF_SIZE -> 7 <= APDU_BUF_SIZE ->
  bufs w !! p = Some b -> p <> 0 -> 2 <= len <= zlen b -> len < 65536 -> take 2 b = be16 (len - 2) ->
  t_file t = Some f -> len <= zlen f ->
  exists w1 w2 g, nfc_t4t_hl_procedure_ndef_update w cc p len = Ok (w1, 0) /\
    rounds k w1 t = Ok (w2, set_t_file t g, 0) /\ atomic len b f g /\
    (len <= Z.of_nat k ->
     g = new_file len b f /\ pending (isodep w2) = None /\ events w2 = events w ++ [NdefUpdated fid] /\
     ccs w2 = ccs w /\ bufs w2 = bufs w).
Proof.
  intros Hw Hp Hcb Hupd Hid Hfid Hcc Hc0 Hi Hblk Hmax Hmlc Hroom Ha Hb Hp0 Hlen Hl16 Hb2 Ht Hfl.
  destruct (ndef_update_starts w cc p len fid i d blk b) as (w1 & Hcall & Hs & Ety & Hp1); try done.
  exists w1. rewrite Hcall. assert (Hnl2 : 0 <= len - 2) by lia.
  assert (Hph : phase w cc p len fid (len - 2) d b f t (len - 2 + 2) w1 t).
  { rewrite <- (set_t_file_same t f Ht) at 2. by apply Starting. }
  destruct (phase_rounds w cc p len fid (len - 2) d b f cb t Hcb Hupd Hcc Hmlc Hroom Ha Hb) with (k := k) (m := len - 2 + 2)
    (w := w1) (t := t) as (w2 & t2 & Hr & H2); try done; try lia.
  destruct (phase_atomic _ _ _ _ _ _ _ _ _ _ _ _ _ H2) as (g & -> & Hg).
  exists w2, g. split; [done|]. split; [exact Hr|]. split; [exact Hg|]. intros Hk.
  replace (Z.max 0 (len - 2 + 2 - Z.of_nat k)) with 0 in H2 by lia.
  destruct (phase_end _ _ _ _ _ _ _ _ _ _ Hnl2 _ _ _ H2) as (E & He); [lia|]. split; [|exact He].
  apply (f_equal t_file) in E. rewrite !(t_file_set _ _ _ Ht) in E. by simplify_eq.
Qed.

(** C40: When the capability container allows commands that do not fit into
    the command buffer, which has at most 255 octets, an update with a longer
    message fails with ENOMEM, after the length in the file was set to zero:
    the old message of the tag is lost and the new one is not written. *)
Theorem update_oversized_erases w cc p len fid i d blk b t f :
  hl_ok w -> pending (isodep w) = None ->
  ndef_file_id (ndef (t4t_hl w)) = be16 fid -> bits 16 fid ->
  ccs w !! cc = Some d -> cc <> 0 -> nfc_t4t_cc_file_content_get d fid = Ok (Some i) ->
  blocks d !! Z.to_nat i = Some blk -> len <= max_file_size (value blk) -> 255 <= max_capdu_size d < 65536 ->
  bufs w !! p = Some b -> p <> 0 -> 257 <= len <= zlen b -> len < 65536 -> take 2 b = be16 (len - 2) ->
  t_file t = Some f -> len <= zlen f -> 7 <= APDU_BUF_SIZE ->
  exists w1 w2, nfc_t4t_hl_procedure_ndef_update w cc p len = Ok (w1, 0) /\
    rounds 1 w1 t = Ok (w2, set_t_file t ([0; 0] ++ drop 2 f), - errno_num ENOMEM).
Proof.
  intros Hw Hp Hid Hfid Hcc Hc0 Hi Hblk Hmax Hmlc Hb Hp0 Hlen Hl16 Hb2 Ht Hfl Ha.
  destruct (ndef_update_starts w cc p len fid i d blk b) as (w1 & Hcall & Hs & Ety & Hp1); try done; [lia|].
  exists w1. rewrite Hcall. pose proof apdu_buf_size_range as Hr.
  destruct Hs as (En & Eo & Ecb & Ecc & Ee & Eb & Ea). cbn [rounds].
  rewrite (round_ok _ _ _ (set_t_file t ([0; 0] ++ drop 2 f)) [] Hp1); [|by rewrite (tag_update t f) by (done || lia)|done].
  unfold on_rapdu_succes. cbn [t4t_hl set_isodep]. rewrite Ety. unfold ndef_file_chunk_update.
  cbn [t4t_hl set_isodep bufs ccs]. rewrite En, Eo, Eb, Ecc. cbn [buff_size ndef_buff ndef_cc].
  rewrite (proj2 (Z.ltb_lt _ _)) by lia. rewrite (deref_Some _ _ _ Hb). cstep. rewrite (deref_Some _ _ _ Hcc). cstep.
  rewrite Z.min_r, Z.min_l by (unfold APDU_LE_MAP_2_MAX_VALUE; lia). change (u16 APDU_LE_MAP_2_MAX_VALUE) with 255.
  rewrite exchange; [|by apply update_comm_ok; rewrite ?length_drop; try lia|..].
  - rewrite update_comm_octets by lia. rewrite (proj2 (Z.leb_gt _ _)); [cstep; eexists; by split|].
    rewrite !length_app. cbn [length be16]. rewrite length_take, length_drop. lia.
  - rewrite update_comm_octets by lia. rewrite !length_app. cbn [length be16]. rewrite length_take. lia.
  - exact Ea.
Qed.
End UpdateSession.
