(* ===== verification/T4tReader.v ===== *)
(** * Reading a Type 4 Tag from the selection of the application to the message

    The session that reads the capability container, and the whole sequence of
    procedures an application performs to get the message of a tag. *)

From stdpp Require Import prelude list gmap.
From Stdlib Require Import ZArith Lia.
From S2P Require Import Prelude NdefRecord T4t T4tSpec T4tHl T4tHlSpec.

Open Scope Z_scope.

(** ** Reading the capability container *)

Section CcSession.
Context {BO : ByteOrder} {ID : Isodep} {IL : IsodepLaws ID} {CF : HlConfig}.

(** The descriptor [d0] at [p]; the tag has the container [src], of [n] octets,
    in front of its file [f]. *)
Context (w0 : world) (p n : Z) (d0 src : nfc_t4t_cc_file) (f rest : list Z) (cb : nfc_t4t_hl_procedure_cb).
Context (Hw0 : hl_ok w0) (Hcb : hl_cb w0 = Some cb) (Hread : cc_read cb = true) (Hp : ccs w0 !! p = Some d0).
Context (Hf : f = cc_octets src ++ rest) (Hn : n = zlen (cc_octets src)) (Hlen : cc_len src = n).
Context (Hrange : 15 <= n <= 0xFFFE) (Hsize : n <= CC_BUFFER_SIZE) (Hapdu : 5 <= APDU_BUF_SIZE).
Context (Hh : header_ok src) (Hall : Forall block_ok (cc_blocks src)) (Hbf : bytes f).
Context (Hroom : zlen (cc_blocks src) <= max_tlv_blocks d0) (Hfits : version_fits src = true).

Definition zeros : list Z := replicate (Z.to_nat CC_BUFFER_SIZE) 0.

Definition cstate (off : Z) (w : world) : Prop :=
  cc_file (t4t_hl w) = {| cc_cc := p; hl_cc_len := if off =? 0 then 0 else n;
                          cc_data := take (Z.to_nat off) f ++ drop (Z.to_nat off) zeros |} /\
  transaction_type (t4t_hl w) = NFC_T4T_HL_CC_READ /\ file_offset (t4t_hl w) = off /\
  ndef (t4t_hl w) = ndef (t4t_hl w0) /\ hl_cb w = hl_cb w0 /\ ccs w = ccs w0 /\ bufs w = bufs w0 /\ events w = events w0 /\
  zlen (apdu_buff (t4t_hl w)) = APDU_BUF_SIZE.

Definition creading (off : Z) (w : world) : Prop :=
  cstate off w /\ 0 <= off < n /\ (off = 0 \/ 15 <= off) /\
  pending (isodep w) = Some (comm_octets (read_comm off (Z.min 15 (n - off)))).

Definition cc_done (w : world) : Prop :=
  pending (isodep w) = None /\ hl_ok w /\ hl_cb w = hl_cb w0 /\ bufs w = bufs w0 /\ events w = events w0 ++ [CcRead p] /\
  exists cc', ccs w = <[p := cc']> (ccs w0) /\ cc_usable cc' /\ header_of cc' = header_of src /\
    cc_blocks cc' = cc_blocks src.

(** What is parsed when all of the container is there. *)
Lemma container_parsed :
  exists cc', nfc_t4t_cc_file_parse (Some d0) (Some (take (Z.to_nat n) f ++ drop (Z.to_nat n) zeros)) n = Ok (Some cc', 0) /\
    cc_usable cc' /\ header_of cc' = header_of src /\ cc_blocks cc' = cc_blocks src.
Proof.
  pose proof Hw0 as (_ & _ & (Hcc & _) & _). pose proof (map_Forall_lookup_1 _ _ _ _ Hcc Hp) as Hu. cbn in Hu.
  pose proof Hu as (Hsh & _).
  rewrite Hf, take_app_le, take_ge by lia.
  destruct (cc_parse_of_octets d0 src (drop (Z.to_nat n) zeros) Hsh Hh Hall) as (cc' & E & Hhd & Hbl); [lia|].
  rewrite <- Hn in E. exists cc'. rewrite E, (proj2 (Z.leb_le _ _)), Hfits by lia. split; [done|].
  rewrite take_ge in Hbl by lia. split; [|done].
  destruct (parse_keeps d0 (cc_octets src ++ drop (Z.to_nat n) zeros) n) as (cc2 & rc & E2 & Hu2); [done| |rewrite length_app; lia|lia|].
  - apply Forall_app_2; [|apply Forall_drop; by apply Forall_replicate]. rewrite Hf in Hbf. by apply Forall_app in Hbf as [? _].
  - rewrite E in E2. by simplify_eq.
Qed.

Lemma zeros_length : zlen zeros = CC_BUFFER_SIZE.
Proof. pose proof cc_buffer_size_range. unfold zeros. rewrite length_replicate. lia. Qed.

Lemma file_length : n <= zlen f.
Proof. rewrite Hf, length_app. lia. Qed.

Lemma cstate_ok off w : cstate off w -> 0 <= off <= n -> hl_ok w.
Proof.
  intros (Ec & Ety & Eo & En & Ecb & Ecc & Eb & Ee & Ea) Ho.
  pose proof Hw0 as ((_ & _ & _ & Hnl & Hid & _) & Hc0 & Hobj & _). pose proof zeros_length. pose proof file_length.
  split; [|split; [by rewrite Ecb|split]].
  - unfold hl_state_ok. rewrite Ec, En, Eo. cbn [cc_data hl_cc_len].
    split; [rewrite length_app, length_take, length_drop; lia|].
    split; [apply Forall_app_2; [by apply Forall_take|apply Forall_drop; by apply Forall_replicate]|].
    split; [unfold bits; destruct (off =? 0); lia|]. split; [done|]. split; [done|]. split; [unfold bits; lia|done].
  - unfold objects_ok. by rewrite Ecc, Eb.
  - unfold transaction_ok. rewrite Ety, Ec. unfold cc_pointer. rewrite Ecc. by exists d0.
Qed.

Lemma cc_read_next off m w :
  cstate off w -> pending (isodep w) = None -> 0 <= off -> (off = 0 \/ 15 <= off) -> m = Z.min 15 (n - off) -> off < n ->
  exists w', on_cc_read w (resp_of (take (Z.to_nat m) (drop (Z.to_nat off) f))) = Ok (w', 0) /\
    (if off + m <? n then creading (off + m) w' else cc_done w').
Proof.
  intros (Ec & Ety & Eo & En & Ecb & Ecc & Eb & Ee & Ea) Hpd H0 Hoff Hm Hlt. unfold on_cc_read.
  set (c := take (Z.to_nat m) (drop (Z.to_nat off) f)).
  assert (Lf : n <= zlen f) by (rewrite Hf, length_app; lia).
  assert (Lc : zlen c = m) by (unfold c; rewrite length_take, length_drop; lia).
  rewrite resp_of_len, Lc, Ec, Eo. cbn [hl_cc_len cc_cc cc_data].
  assert (El : (if negb (m =? 0) && ((if off =? 0 then 0 else n) =? 0) then
      let* bs := resp_octets (resp_of c) 2 in
      Ok {| cc_cc := p; hl_cc_len := sys_get_be16 bs; cc_data := take (Z.to_nat off) f ++ drop (Z.to_nat off) zeros |}
    else Ok {| cc_cc := p; hl_cc_len := if off =? 0 then 0 else n;
               cc_data := take (Z.to_nat off) f ++ drop (Z.to_nat off) zeros |}) =
    Ok {| cc_cc := p; hl_cc_len := n; cc_data := take (Z.to_nat off) f ++ drop (Z.to_nat off) zeros |}).
  { rewrite (proj2 (Z.eqb_neq m 0)) by lia. destruct (Z.eqb_spec off 0) as [->|].
    - cbn [negb andb Z.eqb]. rewrite resp_of_octets by lia. cstep. do 2 f_equal.
      unfold c. rewrite drop_0, take_take, Nat.min_l by lia. rewrite Hf, <- Hlen. apply get_be16_of, Hh.
    - by rewrite (proj2 (Z.eqb_neq n 0)) by lia. }
  rewrite El. cstep. clear El. cbn [hl_cc_len cc_cc cc_data].
  rewrite (proj2 (Z.ltb_ge _ _)), resp_of_octets, (take_ge c) by lia. cstep. unfold c.
  assert (Lz : zlen zeros = CC_BUFFER_SIZE) by (unfold zeros; rewrite length_replicate; lia).
  rewrite wr_block_prefix by lia. cstep. pose proof cc_buffer_size_range.
  rewrite u16_small by lia. cbn [file_offset set_offset]. set (h := set_offset _ _).
  assert (Hst : cstate (off + m) (set_hl w h)).
  { unfold cstate, h. cbn. rewrite (proj2 (Z.eqb_neq (off + m) 0)) by lia. done. }
  destruct (Z.ltb_spec (off + m) n).
  - rewrite u16_small by (unfold CC_MIN_RAPDU_SIZE; lia). change CC_MIN_RAPDU_SIZE with 15.
    destruct (exchange_sends (set_hl w h) (read_comm (off + m) (Z.min 15 (n - (off + m))))) as (w' & E & Hv & Ha' & Hp');
      [apply read_comm_ok; unfold bits; lia|rewrite read_comm_octets by lia; cbn; lia|done|done|].
    exists w'. split; [exact E|]. split; [|split; [lia|split; [lia|done]]].
    unfold view in Hv. cbn in Hv. injection Hv as Ec' En' Ety' ? Eo' Ecb' Ecc' Eb' Ee'.
    unfold cstate. rewrite (proj2 (Z.eqb_neq (off + m) 0)) by lia. split_and!; congruence.
  - replace (off + m) with n in * by lia.
    assert (Hok : hl_ok (set_hl w h)) by (by apply (cstate_ok n); [|lia]).
    change (set_hl (set_hl w ?x) h) with (set_hl w h). change (hl_cb (set_hl w h)) with (hl_cb w).
    change (ccs (set_hl w h)) with (ccs w). rewrite Ecb, Hcb, Hread, Ecc, (deref_Some _ _ _ Hp). cstep.
    destruct container_parsed as (cc' & -> & Hu & Hhd & Hbl). cstep. cbn [negb Z.eqb].
    eexists. split; [reflexivity|]. split; [done|]. split.
    { apply hl_ok_emit. destruct (objects_insert_cc (set_hl w h) p d0 cc' Hok) as [Hok' _]; [by cbn; rewrite Ecc|done|].
      cbn in Hok'. by rewrite Ecc in Hok'. }
    cbn. rewrite Ee, Eb. split; [done|]. split; [done|]. split; [done|]. by exists cc'.
Qed.

(** The container is read, in as many rounds as there are octets. *)
Lemma creading_done t : t_file t = Some f -> forall k off w,
  creading off w -> n - off <= Z.of_nat k ->
  exists w', rounds k w t = Ok (w', t, 0) /\ cc_done w'.
Proof.
  intros Ht. induction k as [|k IH]; intros off w (Hs & Ho & Hoff & Hpd) Hk; [lia|].
  set (m := Z.min 15 (n - off)) in *. assert (Hm : 1 <= m <= 15) by lia. cbn [rounds].
  assert (Hm' : 1 <= m <= 255) by lia. assert (Hob : bits 16 off) by (unfold bits; lia).
  rewrite (round_ok _ _ _ _ _ Hpd (tag_read t f off m Ht Hob Hm')) by (rewrite length_take; lia).
  unfold on_rapdu_succes. cbn [t4t_hl set_isodep].
  assert (Ety : transaction_type (t4t_hl w) = NFC_T4T_HL_CC_READ) by apply Hs. rewrite Ety.
  destruct (cc_read_next off m (set_isodep w (answered (isodep w)))) as (w' & -> & Hw');
    [done|apply answered_pending|lia|lia|lia|lia|]. cstep. cbn [Z.eqb].
  destruct (Z.ltb_spec (off + m) n).
  - apply (IH _ w' Hw'). lia.
  - rewrite rounds_idle by apply Hw'. by exists w'.
Qed.

Lemma cc_read_runs t k :
  pending (isodep w0) = None -> p <> 0 -> t_file t = Some f -> n <= Z.of_nat k ->
  exists w1 w2, nfc_t4t_hl_procedure_cc_read w0 p = Ok (w1, 0) /\ rounds k w1 t = Ok (w2, t, 0) /\ cc_done w2.
Proof.
  intros Hpd Hp0 Ht Hk. unfold nfc_t4t_hl_procedure_cc_read. rewrite (proj2 (Z.eqb_neq p 0)) by done.
  set (w' := set_hl _ _). change CC_MIN_RAPDU_SIZE with 15.
  destruct (exchange_sends w' (read_comm 0 15)) as (w1 & -> & Hv & Ha' & Hp');
    [by apply read_comm_ok|by rewrite read_comm_octets|apply Hw0|done|].
  exists w1. destruct (creading_done t Ht k 0 w1) as (w2 & -> & Hd); [|lia|by exists w2].
  unfold view in Hv. cbn in Hv. injection Hv as Ec' En' Ety' ? Eo' Ecb' Ecc' Eb' Ee'.
  split; [split_and!; done|]. split; [lia|]. split; [by left|]. by rewrite Z.min_l by lia.
Qed.
End CcSession.

(** ** Selecting *)

Section Select.
Context {BO : ByteOrder} {ID : Isodep} {IL : IsodepLaws ID} {CF : HlConfig}.

(** A selection is over after one round: the state is well-formed, the
    objects are as they were and the application is told. *)
Definition selected_state (w0 : world) (type : nfc_t4t_hl_procedure_select) (w : world) : Prop :=
  pending (isodep w) = None /\ hl_ok w /\ hl_cb w = hl_cb w0 /\ bufs w = bufs w0 /\ ccs w = ccs w0 /\
  events w = events w0 ++ [Selected type].

Lemma select_round w0 w1 cb t t' m k type :
  hl_ok w1 -> hl_cb w0 = Some cb -> selected cb = true -> view w1 =
    (cc_file (t4t_hl w1), ndef (t4t_hl w1), NFC_T4T_HL_SELECT, type, file_offset (t4t_hl w1),
     (hl_cb w0, ccs w0, bufs w0, events w0)) ->
  pending (isodep w1) = Some (comm_octets m) -> tag_step t (comm_octets m) = (t', SW_OK) -> (1 <= k)%nat ->
  exists w2, rounds k w1 t = Ok (w2, t', 0) /\ selected_state w0 type w2 /\ ndef (t4t_hl w2) = ndef (t4t_hl w1).
Proof.
  intros Hw Hcb Hsel Hv Hp Ht Hk. unfold view in Hv. injection Hv as Ety Es Ecb Ecc Eb Ee.
  destruct k as [|k]; [lia|]. cbn [rounds]. rewrite (round_ok w1 t m t' [] Hp Ht) by done.
  unfold on_rapdu_succes. cbn [t4t_hl set_isodep hl_cb]. rewrite Ety, Ecb, Hcb, Hsel. cstep. cbn [Z.eqb].
  rewrite rounds_idle by apply answered_pending. eexists. split; [reflexivity|]. split; [|done].
  split; [apply answered_pending|]. split; [by apply hl_ok_emit|]. cbn. by rewrite Ecc, Eb, Ee, Es, Ecb.
Qed.

Lemma app_select_runs w cb t k :
  hl_ok w -> pending (isodep w) = None -> hl_cb w = Some cb -> selected cb = true -> 13 <= APDU_BUF_SIZE -> (1 <= k)%nat ->
  exists w1 w2, nfc_t4t_hl_procedure_ndef_tag_app_select w = Ok (w1, 0) /\
    rounds k w1 t = Ok (w2, {| t_files := t_files t; t_sel := None |}, 0) /\
    selected_state w NFC_T4T_HL_PROCEDURE_NDEF_APP_SELECT w2.
Proof.
  intros Hw Hp Hcb Hsel Ha Hk. destruct (call_keeps w CallAppSelect Hw I) as (w1 & rc & E & Hw1 & _). cbn in E.
  unfold nfc_t4t_hl_procedure_ndef_tag_app_select in *. set (w' := set_hl _ _) in *. set (cmd := select_comm _ _ _) in *.
  destruct (exchange_sends w' cmd) as (w1' & E1 & Hv & Ha' & Hp');
    [unfold comm_ok, data_ok; cbn [buff comm_data cmd select_comm]; by_compute|done|apply Hw|done|].
  rewrite E1 in E. injection E as <- <-. exists w1'. unfold view in Hv. cbn in Hv. injection Hv as Ec En Ety Es Eo Ecb Ecc Eb Ee.
  destruct (select_round w w1' cb t {| t_files := t_files t; t_sel := None |} cmd k NFC_T4T_HL_PROCEDURE_NDEF_APP_SELECT)
    as (w2 & Hr & Hs & _); try done; [unfold view; congruence|]. by exists w2.
Qed.

Lemma select_octets fid : comm_octets (select_comm NFC_T4T_APDU_SELECT_BY_FILE_ID (be16 fid) 0) =
  [0; 0xA4; 0x00; 0x0C; 2] ++ be16 fid.
Proof. done. Qed.

Lemma file_select_runs w cb t k fid g :
  hl_ok w -> pending (isodep w) = None -> hl_cb w = Some cb -> selected cb = true -> 7 <= APDU_BUF_SIZE -> (1 <= k)%nat ->
  bits 16 fid -> t_files t !! fid = Some g ->
  exists w1 w2, nfc_t4t_hl_procedure_ndef_file_select w fid = Ok (w1, 0) /\
    rounds k w1 t = Ok (w2, {| t_files := t_files t; t_sel := Some fid |}, 0) /\
    selected_state w (if fid =? CC_FILE_ID then NFC_T4T_HL_PROCEDURE_CC_SELECT
                      else NFC_T4T_HL_PROCEDURE_NDEF_FILE_SELECT) w2 /\
    ndef_file_id (ndef (t4t_hl w2)) = be16 fid.
Proof.
  intros Hw Hp Hcb Hsel Ha Hk Hfid Hg. destruct (file_select_keeps w fid Hw Hfid) as (w1 & rc & E & Hw1 & _).
  unfold nfc_t4t_hl_procedure_ndef_file_select in *. rewrite sys_put_be16_spec in *. fold (be16 fid) in *.
  cbn [ndef_file_id] in *. set (w' := set_hl _ _) in *. set (cmd := select_comm _ _ _) in *.
  destruct (exchange_sends w' cmd) as (w1' & E1 & Hv & Ha' & Hp');
    [by split; [done|split; [done|split; [done|split]]]|unfold cmd; rewrite select_octets; change (7 <= APDU_BUF_SIZE); done|
     apply Hw|done|].
  rewrite E1 in E. injection E as <- <-. exists w1'. unfold view in Hv. cbn in Hv. injection Hv as Ec En Ety Es Eo Ecb Ecc Eb Ee.
  destruct (select_round w w1' cb t {| t_files := t_files t; t_sel := Some fid |} cmd k
    (if fid =? CC_FILE_ID then NFC_T4T_HL_PROCEDURE_CC_SELECT else NFC_T4T_HL_PROCEDURE_NDEF_FILE_SELECT))
    as (w2 & Hr & Hs & En2); try done; [unfold view; congruence| |].
  - unfold cmd. rewrite select_octets. unfold be16. cbn [app tag_step]. cbn [Z.eqb Pos.eqb Z.mul Z.add].
    rewrite be16_join by done. by rewrite Hg.
  - exists w2. split; [done|]. split; [done|]. split; [done|]. by rewrite En2, En.
Qed.
End Select.

(** ** The whole sequence *)

Lemma content_find_found bs fid : forall m j,
  (m <= length bs)%nat -> (exists b, b ∈ take m bs /\ file_id (value b) = fid) ->
  exists i, content_find bs m fid j = Ok (Some i).
Proof.
  induction bs as [|b bs IH]; intros m j Hm (x & Hx & Ex); destruct m as [|m]; cbn [take length] in *;
    try lia; try (by apply not_elem_of_nil in Hx). cbn [content_find].
  destruct (Z.eqb_spec (file_id (value b)) fid) as [E|E]; [by eexists|]. apply IH; [lia|]. exists x. split; [|done].
  apply elem_of_cons in Hx as [->|Hx]; [done|exact Hx].
Qed.

Lemma content_get_found cc fid :
  cc_usable cc -> (exists b, b ∈ cc_blocks cc /\ file_id (value b) = fid) ->
  exists i, nfc_t4t_cc_file_content_get cc fid = Ok (Some i).
Proof.
  intros (((a & E & Hl) & Hm) & Hc & _) Hb. apply content_find_found; [|exact Hb].
  unfold blocks. rewrite E. cbn [default id]. lia.
Qed.

Section Reader.
Context {BO : ByteOrder} {ID : Isodep} {IL : IsodepLaws ID} {CF : HlConfig}.

(** A call, and the rounds that follow when it succeeds; then the next one. *)
Definition perform (k : nat) (c : hl_call) (w : world) (t : tag) : res (world * tag * Z) :=
  let* '(w, rc) := run_call w c in
  if rc =? 0 then rounds k w t else Ok (w, t, rc).
Fixpoint script (k : nat) (cs : list hl_call) (w : world) (t : tag) : res (world * tag * Z) :=
  match cs with
  | [] => Ok (w, t, 0)
  | c :: cs =>
    let* '(w, t, rc) := perform k c w t in
    if rc =? 0 then script k cs w t else Ok (w, t, rc)
  end.

Lemma script_cons k c cs w t w1 w2 t2 :
  run_call w c = Ok (w1, 0) -> rounds k w1 t = Ok (w2, t2, 0) -> script k (c :: cs) w t = script k cs w2 t2.
Proof. intros E R. cbn. unfold perform. rewrite E. cstep. rewrite Z.eqb_refl, R. done. Qed.

Definition reader_calls (cc fid p len : Z) : list hl_call :=
  [CallAppSelect; CallCcSelect; CallCcRead cc; CallFileSelect fid; CallNdefRead cc p len].

(** C8: An application that selects the NDEF application of a tag, reads its
    capability container, selects one of the files the container lists and
    reads it, gets the message of the tag: every step comes to an end, the
    callbacks are called in this order, once each, the last one with the
    octets of the file, and the buffer holds them. *)
Theorem reader_gets_message w cc p len fid cb d0 src rest b f nl t k :
  hl_ok w -> pending (isodep w) = None ->
  hl_cb w = Some cb -> selected cb = true -> cc_read cb = true -> ndef_read cb = true ->
  ccs w !! cc = Some d0 -> cc <> 0 -> bufs w !! p = Some b -> p <> 0 ->
  t_files t !! CC_FILE_ID = Some (cc_octets src ++ rest) -> bytes (cc_octets src ++ rest) ->
  cc_len src = zlen (cc_octets src) -> 15 <= cc_len src <= 0xFFFE -> cc_len src <= CC_BUFFER_SIZE ->
  header_ok src -> Forall block_ok (cc_blocks src) -> zlen (cc_blocks src) <= max_tlv_blocks d0 ->
  version_fits src = true -> 1 <= max_rapdu_size src ->
  (exists x, x ∈ cc_blocks src /\ file_id (value x) = fid) ->
  t_files t !! fid = Some f -> take 2 f = be16 nl -> 0 <= nl -> nl + 2 <= zlen f ->
  nl + 2 <= len <= zlen b -> len < 65536 -> 13 <= APDU_BUF_SIZE ->
  cc_len src <= Z.of_nat k -> nl + 1 <= Z.of_nat k ->
  let buf := take (Z.to_nat (nl + 2)) f ++ drop (Z.to_nat (nl + 2)) b in
  exists w', script k (reader_calls cc fid p len) w t =
      Ok (w', {| t_files := t_files t; t_sel := Some fid |}, 0) /\
    bufs w' = <[p := buf]> (bufs w) /\
    events w' = events w ++
      [Selected NFC_T4T_HL_PROCEDURE_NDEF_APP_SELECT; Selected NFC_T4T_HL_PROCEDURE_CC_SELECT; CcRead cc;
       Selected NFC_T4T_HL_PROCEDURE_NDEF_FILE_SELECT; NdefRead fid buf (nl + 2)].
Proof.
  intros Hw Hp Hcb Hsel Hcr Hnr Hcc Hc0 Hb Hp0 Hcf Hcfb Hlen Hrange Hsize Hh Hall Hroom Hfits Hmle Hin Hf Hnl Hnl0 Hnf Hbl
    Hl16 Ha Hk1 Hk2 buf.
  assert (Hk : (1 <= k)%nat) by lia.
  assert (Hfid : bits 16 fid /\ fid <> CC_FILE_ID).
  { destruct Hin as (x & Hx & <-). rewrite Forall_forall in Hall. destruct (Hall x Hx) as (_ & ? & Hni & _).
    split; [done|]. intros E. apply Hni. rewrite E. unfold file_id_invalid, CC_FILE_ID. set_solver. }
  destruct Hfid as [Hfid Hfcc].
  destruct (app_select_runs w cb t k) as (v1 & w1 & E1 & R1 & Hp1 & Hw1 & Hcb1 & Hbf1 & Hcc1 & He1); try done.
  unfold reader_calls. rewrite (script_cons k CallAppSelect _ _ _ _ _ _ E1 R1).
  destruct (file_select_runs w1 cb {| t_files := t_files t; t_sel := None |} k CC_FILE_ID (cc_octets src ++ rest))
    as (v2 & w2 & E2 & R2 & (Hp2 & Hw2 & Hcb2 & Hbf2 & Hcc2 & He2) & _); [done|done|congruence|done|lia|done|done|done|].
  rewrite (script_cons k CallCcSelect _ _ _ _ _ _ E2 R2). cbn [t_files].
  destruct (cc_read_runs w2 cc (cc_len src) d0 src (cc_octets src ++ rest) rest cb)
    with (t := {| t_files := t_files t; t_sel := Some CC_FILE_ID |}) (k := k)
    as (v3 & w3 & E3 & R3 & (Hp3 & Hw3 & Hcb3 & Hbf3 & He3 & cc' & Hcc3 & Hu & Hhd & Hbk)); try done; try congruence; try lia.
  rewrite (script_cons k (CallCcRead cc) _ _ _ _ _ _ E3 R3).
  destruct (file_select_runs w3 cb {| t_files := t_files t; t_sel := Some CC_FILE_ID |} k fid f)
    as (v4 & w4 & E4 & R4 & (Hp4 & Hw4 & Hcb4 & Hbf4 & Hcc4 & He4) & Hid4); [done|done|congruence|done|lia|done|done|done|].
  rewrite (script_cons k (CallFileSelect fid) _ _ _ _ _ _ E4 R4). cbn [t_files].
  destruct (content_get_found cc' fid Hu) as (i & Hi); [by rewrite Hbk|].
  destruct (ndef_read_session w4 cc p len fid i cc' b cb {| t_files := t_files t; t_sel := Some fid |} f nl k)
    as (v5 & w5 & E5 & R5 & Hp5 & Hbf5 & He5 & _); try done; try lia.
  - congruence.
  - by rewrite Hcc4, Hcc3, lookup_insert_eq.
  - unfold header_of in Hhd. injection Hhd as _ _ _ ? _. lia.
  - congruence.
  - rewrite (script_cons k (CallNdefRead cc p len) _ _ _ _ _ _ E5 R5). exists w5. split; [done|].
    rewrite Hbf5, Hbf4, Hbf3, Hbf2, Hbf1. split; [done|].
    rewrite He5, He4, He3, He2, He1, (proj2 (Z.eqb_neq fid CC_FILE_ID)) by done. by rewrite <- !app_assoc.
Qed.
End Reader.

(** ** Witnesses *)

Module Demo.
#[local, refine] Instance config : HlConfig := {| CC_BUFFER_SIZE := 64; APDU_BUF_SIZE := 255 |}.
Proof. all: lia. Defined.

(** A container with one file of 300 octets, and commands of up to [mlc]
    octets of data. *)
Definition block : nfc_t4t_tlv_block :=
  {| value := {| file := {| content := 0; file_len := 0 |}; max_file_size := 300; file_id := 0xE104;
                 read_access := 0; write_access := 0 |}; tlv_length := 6; tlv_type := 4 |}.
Definition src (mlc : Z) : nfc_t4t_cc_file :=
  {| tlv_block_array := Some [block]; tlv_count := 1; max_tlv_blocks := 1; cc_len := 15;
     max_rapdu_size := 4; max_capdu_size := mlc; major_version := 2; minor_version := 0 |}.
Definition file : list Z := be16 10 ++ replicate 298 7.
Definition demo_tag (sel : option Z) : tag :=
  {| t_files := <[CC_FILE_ID := cc_octets (src 3) ++ []]> {[ 0xE104 := file ]}; t_sel := sel |}.

(** The descriptor [d] at 1 and the buffer [b] at 2; the file 0xE104 is
    selected. *)
Definition state (d : nfc_t4t_cc_file) (b : list Z) : world :=
  {| t4t_hl := {| cc_file := {| cc_cc := 0; hl_cc_len := 0; cc_data := replicate 64 0 |};
                  ndef := {| ndef_cc := 0; ndef_buff := 0; buff_size := 0; nlen := 0; ndef_file_id := be16 0xE104 |};
                  transaction_type := NFC_T4T_HL_SELECT; select_type := NFC_T4T_HL_PROCEDURE_NDEF_APP_SELECT;
                  file_offset := 0; apdu_buff := replicate 255 0 |};
     hl_cb := Some {| selected := true; cc_read := true; ndef_read := true; ndef_updated := true |};
     ccs := {[ 1 := d ]}; bufs := {[ 2 := b ]}; isodep := (None : link); events := [] |}.

Lemma state_ok d b : cc_usable d -> bytes b -> hl_ok (state d b).
Proof.
  intros Hd Hb. split; [|split; [done|split; [split|done]]].
  - split; [done|]. split; [by apply Forall_replicate|]. split; [done|]. split; [done|]. split; [by exists 0xE104|done].
  - by apply map_Forall_singleton.
  - by apply map_Forall_singleton.
Qed.

Lemma usable_src mlc : bits 16 mlc -> cc_usable (src mlc).
Proof. intros H. split; [split; [by exists [block]|done]|]. split; [done|]. split; [done|exact H]. Qed.

Lemma usable_demo_cc : cc_usable demo_cc.
Proof. split; [apply demo_shape|]. split; done. Qed.

(** A response to reading the container that announces 64 octets, and one that
    is too long for the buffer. *)
Definition calls : list hl_call :=
  [CallCcRead 1; CallReceived ([0; 64] ++ replicate 13 0 ++ SW_OK); CallReceived (replicate 60 0 ++ SW_OK);
   CallNdefRead 1 2 300; CallReceived ([0; 200] ++ SW_OK)].

Lemma hl_calls_safe_witness :
  exists w' rcs, run_calls (state (src 3) file) calls = Ok (w', rcs) /\ hl_ok w' /\
    same_objects (state (src 3) file) w' /\ length rcs = length calls.
Proof.
  apply (hl_calls_safe calls (state (src 3) file)); [apply state_ok; [by apply usable_src|by_compute]|].
  assert (cc_pointer (state (src 3) file) 1) by (by exists (src 3)).
  repeat (apply Forall_cons_2; [cbn [call_ok]|]);
    [by right|by_compute|by_compute|split; [by right|right]|by_compute|by constructor].
  split; [done|]. exists file. split; [done|]. by_compute.
Defined.

Definition message : list Z := be16 40 ++ replicate 40 9.

Lemma ndef_update_session_witness :
  exists w1 w2 g, nfc_t4t_hl_procedure_ndef_update (state (src 3) message) 1 2 42 = Ok (w1, 0) /\
    rounds 50 w1 (demo_tag (Some 0xE104)) = Ok (w2, set_t_file (demo_tag (Some 0xE104)) g, 0) /\
    atomic 42 message file g /\
    (42 <= Z.of_nat 50 ->
     g = new_file 42 message file /\ pending (isodep w2) = None /\
     events w2 = events (state (src 3) message) ++ [NdefUpdated 0xE104] /\
     ccs w2 = ccs (state (src 3) message) /\ bufs w2 = bufs (state (src 3) message)).
Proof.
  apply (ndef_update_session (state (src 3) message) 1 2 42 0xE104 0 (src 3) block message
    {| selected := true; cc_read := true; ndef_read := true; ndef_updated := true |} (demo_tag (Some 0xE104)) file 50);
    [apply state_ok; [by apply usable_src|by_compute]|..]; try reflexivity; try done; by_compute.
Defined.

Definition long_message : list Z := be16 290 ++ replicate 290 9.

Lemma update_oversized_erases_witness :
  exists w1 w2, nfc_t4t_hl_procedure_ndef_update (state (src 255) long_message) 1 2 292 = Ok (w1, 0) /\
    rounds 1 w1 (demo_tag (Some 0xE104)) =
      Ok (w2, set_t_file (demo_tag (Some 0xE104)) ([0; 0] ++ drop 2 file), - errno_num ENOMEM).
Proof.
  apply (update_oversized_erases (state (src 255) long_message) 1 2 292 0xE104 0 (src 255) block long_message
    (demo_tag (Some 0xE104)) file);
    [apply state_ok; [by apply usable_src|by_compute]|..]; try reflexivity; try done; by_compute.
Defined.

Lemma reader_gets_message_witness :
  let buf := take (Z.to_nat (10 + 2)) file ++ drop (Z.to_nat (10 + 2)) (replicate 20 0) in
  exists w', script 20 (reader_calls 1 0xE104 2 20) (state demo_cc (replicate 20 0)) (demo_tag None) =
      Ok (w', {| t_files := t_files (demo_tag None); t_sel := Some 0xE104 |}, 0) /\
    bufs w' = <[2 := buf]> (bufs (state demo_cc (replicate 20 0))) /\
    events w' = events (state demo_cc (replicate 20 0)) ++
      [Selected NFC_T4T_HL_PROCEDURE_NDEF_APP_SELECT; Selected NFC_T4T_HL_PROCEDURE_CC_SELECT; CcRead 1;
       Selected NFC_T4T_HL_PROCEDURE_NDEF_FILE_SELECT; NdefRead 0xE104 buf (10 + 2)].
Proof.
  apply (reader_gets_message (state demo_cc (replicate 20 0)) 1 2 20 0xE104
    {| selected := true; cc_read := true; ndef_read := true; ndef_updated := true |} demo_cc (src 3) [] (replicate 20 0) file 10
    (demo_tag None) 20); [apply state_ok; [apply usable_demo_cc|by_compute]|..]; try reflexivity; try done;
    try by_compute.
  exists block. split; [by left|done].
Defined.
End Demo.
