(* ===== verification/IsoDep.v ===== *)
(** * ISO-DEP: subsys/nfc/t4t/isodep.c

    The block protocol between a reader and a Type 4 Tag: the answer to select,
    sending and receiving in chained blocks, waiting time extensions, and the
    recovery from lost and corrupted frames. What the module hands to its
    callbacks is a list of events. A callback is the last action of the
    function that calls it, but for the counter of retransmissions; the
    application is taken not to call the module before it returns. *)

From stdpp Require Import prelude list.
From Stdlib Require Import ZArith Lia.
From S2P Require Import Prelude.

Open Scope Z_scope.

(** CONFIG_NFC_T4T_ISODEP_* with the ranges of the options. *)
Class IsodepConfig := {
  RATS_RETRY : Z;
  ACK_RETRY : Z;
  NAK_RETRY : Z;
  WTX_RETRY : Z;
  DESELECT_RETRY : Z;
  rats_retry_range : 0 <= RATS_RETRY <= 1;
  ack_retry_range : 2 <= ACK_RETRY <= 5;
  nak_retry_range : 2 <= NAK_RETRY <= 5;
  wtx_retry_range : 2 <= WTX_RETRY <= 5;
  deselect_retry_range : 0 <= DESELECT_RETRY <= 5
}.

(** The delayed work of the kernel: scheduling it for the first time gives 1. *)
Class Work := {
  k_work_reschedule : option Z -> Z -> Z;
  k_work_reschedule_idle delay : k_work_reschedule None delay = 1
}.

Definition BIT (n : Z) : Z := Z.shiftl 1 n.

Definition ISODEP_BLOCK_FIXED_BIT : Z := BIT 1.
Definition ISODEP_CRC_LENGTH : Z := 2.
Definition ISODEP_I_BLOCK : Z := 0x02.
Definition ISODEP_R_BLOCK : Z := 0xA2.
Definition ISODEP_S_BLOCK : Z := 0xC2.
Definition ISODEP_S_BLOCK_INDICATOR : Z := 0x40.
Definition ISODEP_R_BLOCK_INDICATOR : Z := 0x80.
Definition ISODEP_BLOCK_NUM_MASK : Z := 0x01.
Definition ISODEP_MAX_RETRANSMIT_CNT : Z := 2.
Definition ISODEP_FWT_DEACTIVATION : Z := 71680.
Definition ISODEP_WTXM_MASK : Z := 0x3F.
Definition ISODEP_WTXM_MIN : Z := 1.
Definition ISODEP_WTXM_MAX : Z := 59.
Definition I_BLOCK_DID_BIT : Z := BIT 3.
Definition I_BLOCK_NAD_BIT : Z := BIT 2.
Definition I_BLOCK_CHAINING_BIT : Z := BIT 4.
Definition R_BLOCK_NAK : Z := BIT 4.
Definition S_BLOCK_WTX_MASK : Z := 0x30.
Definition T4T_FSD_MIN : Z := 16.
Definition T4T_RATS_CMD : Z := 0xE0.
Definition T4T_RATS_DID_MASK : Z := 0x0F.
Definition T4T_RATS_FSDI_MASK : Z := 0xF0.
Definition T4T_RATS_FSDI_OFFSET : Z := 4.
Definition T4T_RATS_CMD_LEN : Z := 0x02.
Definition T4T_FWT_ACTIVATION : Z := 71680.
Definition T4T_FWT_DELTA : Z := 49152.
Definition NFCA_T4T_FWT_T_FC : Z := 164 * 1356.
Definition T4T_FC_IN_MS : Z := 13560.
Definition T4T_FWT_TO_MS (fwt : Z) : Z := (fwt + (T4T_FC_IN_MS - 1)) / T4T_FC_IN_MS.
Definition T4T_RATS_FDT : Z := T4T_FWT_ACTIVATION + T4T_FWT_DELTA + NFCA_T4T_FWT_T_FC.
Definition T4T_DID_MAX : Z := 14.
Definition T4T_ATS_MAX_LEN : Z := 20.
Definition T4T_ATS_MIN_LEN : Z := 2.
Definition T4T_ATS_T0_TA_PRESENT : Z := BIT 4.
Definition T4T_ATS_T0_TB_PRESENT : Z := BIT 5.
Definition T4T_ATS_T0_TC_PRESENT : Z := BIT 6.
Definition T4T_ATS_TA_EQUAL_DIVISOR : Z := BIT 7.
Definition T4T_ATS_T0_FSCI_MASK : Z := 0x0F.
Definition T4T_ATS_TA_DIVISOR_PL : Z := 0x07.
Definition T4T_ATS_TA_DIVISOR_PL_OFFSET : Z := 1.
Definition T4T_ATS_TA_DIVISOR_LP_OFFSET : Z := 3.
Definition T4T_ATS_TA_DIVISOR_LP : Z := 0x70.
Definition T4T_ATS_TB_FWI_DEFAULT : Z := 0x04.
Definition T4T_ATS_TB_FWI_MASK : Z := 0xF0.
Definition T4T_ATS_TB_FWI_OFFSET : Z := 4.
Definition T4T_ATS_TB_SFGI_MASK : Z := 0x0F.
Definition T4T_ATS_TC_DID : Z := BIT 1.
Definition T4T_ATS_TC_NAD : Z := BIT 0.
Definition T4T_ATS_SFGT_DEFAULT : Z := 6780.
Definition NFC_T4T_ISODEP_SYNTAX_ERROR : Z := 1.
Definition NFC_T4T_ISODEP_SEMANTIC_ERROR : Z := 2.
Definition NFC_T4T_ISODEP_TRANSMISSION_ERROR : Z := 3.
Definition NFC_T4T_ISODEP_TIMEOUT_ERROR : Z := 4.
Definition NFC_T4T_ISODEP_HIST_MAX_LEN : Z := 15.
Definition T4T_FWI_TO_FWT (fwi : Z) : Z := u32 (256 * 16 * Z.shiftl 1 fwi).
Definition T4T_SFGT_DELTA (sfgi : Z) : Z := 384 * Z.shiftl 1 sfgi.
Definition ISODEP_BLOC_NUM_TOOGLE (block : Z) : Z := Z.lxor block 0x01.

Inductive isodep_frame :=
  | ISODEP_FRAME_NONE
  | ISODEP_FRAME_RATS
  | ISODEP_FRAME_DESELECT
  | ISODEP_FRAME_WTX_RESPONSE
  | ISODEP_FRAME_I
  | ISODEP_FRAME_I_CHAINING.
#[export] Instance isodep_frame_eq_dec : EqDecision isodep_frame.
Proof. solve_decision. Defined.

Inductive isodep_state :=
  | ISODEP_STATE_UNINITIALIZED
  | ISODEP_STATE_INITIALIZED
  | ISODEP_STATE_SELECTED
  | ISODEP_STATE_TRANSFER.
#[export] Instance isodep_state_eq_dec : EqDecision isodep_state.
Proof. solve_decision. Defined.

(** A null buffer is [None]. *)
Record nfc_t4t_buf := { buf_data : option (list Z); buf_len : Z; buf_size : Z }.
Record nfc_t4t_err := { last_frame : isodep_frame; frame_retry_cnt : Z; wtx : Z }.
Record nfc_t4t_isodep_tag := {
  fwt : Z;
  sfgt : Z;
  fsc : Z;
  did : Z;
  lp_divisor : Z;
  pl_divisor : Z;
  historical : list Z;
  historical_len : Z;
  did_supported : bool;
  nad_supported : bool
}.

(** [transmit_data] is the buffer of the caller, which is kept until the
    transfer is over. *)
Record nfc_t4t_isodep := {
  state : isodep_state;
  tag : nfc_t4t_isodep_tag;
  tx_data : nfc_t4t_buf;
  rx_data : nfc_t4t_buf;
  err_status : nfc_t4t_err;
  fsd : Z;
  block_num : Z;
  retransmit_cnt : Z;
  transmit_data : option (list Z);
  transmit_len : Z;
  transmitted_len : Z;
  chaining : bool;
  equal_divisor : bool;
  ats_expected : bool;
  first_transfer : bool
}.

(** The callbacks that are set, and what they are called with. *)
Record nfc_t4t_isodep_cb := {
  cb_data_received : bool;
  cb_selected : bool;
  cb_deselected : bool;
  cb_ready_to_send : bool;
  cb_error : bool
}.
Inductive iso_event :=
  | DataReceived (data : list Z)
  | Selected (tag : nfc_t4t_isodep_tag)
  | Deselected
  | ReadyToSend (data : list Z) (fdt : Z)
  | Error (err : Z).

(** The variables of the module, and the calls of the callbacks. *)
Record iso := {
  t4t_isodep : nfc_t4t_isodep;
  t4t_isodep_cb : option nfc_t4t_isodep_cb;
  isodep_work : option Z;
  ats_received_time : Z;
  out : list iso_event
}.

(** Before the initialisation all variables are zero. *)
Definition boot : iso :=
  {| t4t_isodep :=
       {| state := ISODEP_STATE_UNINITIALIZED;
          tag := {| fwt := 0; sfgt := 0; fsc := 0; did := 0; lp_divisor := 0; pl_divisor := 0;
                    historical := replicate 15 0; historical_len := 0; did_supported := false; nad_supported := false |};
          tx_data := {| buf_data := None; buf_len := 0; buf_size := 0 |};
          rx_data := {| buf_data := None; buf_len := 0; buf_size := 0 |};
          err_status := {| last_frame := ISODEP_FRAME_NONE; frame_retry_cnt := 0; wtx := 0 |}; fsd := 0; block_num := 0;
          retransmit_cnt := 0; transmit_data := None; transmit_len := 0; transmitted_len := 0; chaining := false;
          equal_divisor := false; ats_expected := false; first_transfer := false |};
     t4t_isodep_cb := None; isodep_work := None; ats_received_time := 0; out := [] |}.

Definition fsd_value_map : list Z := [16; 24; 32; 40; 48; 64; 96; 128; 256].

(** Updates of a field. *)
Definition with_state (s : nfc_t4t_isodep) (v : _) : nfc_t4t_isodep :=
  {| state := v; tag := tag s; tx_data := tx_data s; rx_data := rx_data s; err_status := err_status s;
     fsd := fsd s; block_num := block_num s; retransmit_cnt := retransmit_cnt s;
     transmit_data := transmit_data s; transmit_len := transmit_len s; transmitted_len := transmitted_len s;
     chaining := chaining s; equal_divisor := equal_divisor s; ats_expected := ats_expected s;
     first_transfer := first_transfer s |}.
Definition with_tag (s : nfc_t4t_isodep) (v : _) : nfc_t4t_isodep :=
  {| state := state s; tag := v; tx_data := tx_data s; rx_data := rx_data s; err_status := err_status s;
     fsd := fsd s; block_num := block_num s; retransmit_cnt := retransmit_cnt s;
     transmit_data := transmit_data s; transmit_len := transmit_len s; transmitted_len := transmitted_len s;
     chaining := chaining s; equal_divisor := equal_divisor s; ats_expected := ats_expected s;
     first_transfer := first_transfer s |}.
Definition with_tx_data (s : nfc_t4t_isodep) (v : _) : nfc_t4t_isodep :=
  {| state := state s; tag := tag s; tx_data := v; rx_data := rx_data s; err_status := err_status s;
     fsd := fsd s; block_num := block_num s; retransmit_cnt := retransmit_cnt s;
     transmit_data := transmit_data s; transmit_len := transmit_len s; transmitted_len := transmitted_len s;
     chaining := chaining s; equal_divisor := equal_divisor s; ats_expected := ats_expected s;
     first_transfer := first_transfer s |}.
Definition with_rx_data (s : nfc_t4t_isodep) (v : _) : nfc_t4t_isodep :=
  {| state := state s; tag := tag s; tx_data := tx_data s; rx_data := v; err_status := err_status s;
     fsd := fsd s; block_num := block_num s; retransmit_cnt := retransmit_cnt s;
     transmit_data := transmit_data s; transmit_len := transmit_len s; transmitted_len := transmitted_len s;
     chaining := chaining s; equal_divisor := equal_divisor s; ats_expected := ats_expected s;
     first_transfer := first_transfer s |}.
Definition with_err_status (s : nfc_t4t_isodep) (v : _) : nfc_t4t_isodep :=
  {| state := state s; tag := tag s; tx_data := tx_data s; rx_data := rx_data s; err_status := v; fsd := fsd s;
     block_num := block_num s; retransmit_cnt := retransmit_cnt s; transmit_data := transmit_data s;
     transmit_len := transmit_len s; transmitted_len := transmitted_len s; chaining := chaining s;
     equal_divisor := equal_divisor s; ats_expected := ats_expected s; first_transfer := first_transfer s |}.
Definition with_fsd (s : nfc_t4t_isodep) (v : _) : nfc_t4t_isodep :=
  {| state := state s; tag := tag s; tx_data := tx_data s; rx_data := rx_data s; err_status := err_status s;
     fsd := v; block_num := block_num s; retransmit_cnt := retransmit_cnt s; transmit_data := transmit_data s;
     transmit_len := transmit_len s; transmitted_len := transmitted_len s; chaining := chaining s;
     equal_divisor := equal_divisor s; ats_expected := ats_expected s; first_transfer := first_transfer s |}.
Definition with_block_num (s : nfc_t4t_isodep) (v : _) : nfc_t4t_isodep :=
  {| state := state s; tag := tag s; tx_data := tx_data s; rx_data := rx_data s; err_status := err_status s;
     fsd := fsd s; block_num := v; retransmit_cnt := retransmit_cnt s; transmit_data := transmit_data s;
     transmit_len := transmit_len s; transmitted_len := transmitted_len s; chaining := chaining s;
     equal_divisor := equal_divisor s; ats_expected := ats_expected s; first_transfer := first_transfer s |}.
Definition with_retransmit_cnt (s : nfc_t4t_isodep) (v : _) : nfc_t4t_isodep :=
  {| state := state s; tag := tag s; tx_data := tx_data s; rx_data := rx_data s; err_status := err_status s;
     fsd := fsd s; block_num := block_num s; retransmit_cnt := v; transmit_data := transmit_data s;
     transmit_len := transmit_len s; transmitted_len := transmitted_len s; chaining := chaining s;
     equal_divisor := equal_divisor s; ats_expected := ats_expected s; first_transfer := first_transfer s |}.
Definition with_transmit_data (s : nfc_t4t_isodep) (v : _) : nfc_t4t_isodep :=
  {| state := state s; tag := tag s; tx_data := tx_data s; rx_data := rx_data s; err_status := err_status s;
     fsd := fsd s; block_num := block_num s; retransmit_cnt := retransmit_cnt s; transmit_data := v;
     transmit_len := transmit_len s; transmitted_len := transmitted_len s; chaining := chaining s;
     equal_divisor := equal_divisor s; ats_expected := ats_expected s; first_transfer := first_transfer s |}.
Definition with_transmit_len (s : nfc_t4t_isodep) (v : _) : nfc_t4t_isodep :=
  {| state := state s; tag := tag s; tx_data := tx_data s; rx_data := rx_data s; err_status := err_status s;
     fsd := fsd s; block_num := block_num s; retransmit_cnt := retransmit_cnt s;
     transmit_data := transmit_data s; transmit_len := v; transmitted_len := transmitted_len s;
     chaining := chaining s; equal_divisor := equal_divisor s; ats_expected := ats_expected s;
     first_transfer := first_transfer s |}.
Definition with_transmitted_len (s : nfc_t4t_isodep) (v : _) : nfc_t4t_isodep :=
  {| state := state s; tag := tag s; tx_data := tx_data s; rx_data := rx_data s; err_status := err_status s;
     fsd := fsd s; block_num := block_num s; retransmit_cnt := retransmit_cnt s;
     transmit_data := transmit_data s; transmit_len := transmit_len s; transmitted_len := v;
     chaining := chaining s; equal_divisor := equal_divisor s; ats_expected := ats_expected s;
     first_transfer := first_transfer s |}.
Definition with_chaining (s : nfc_t4t_isodep) (v : _) : nfc_t4t_isodep :=
  {| state := state s; tag := tag s; tx_data := tx_data s; rx_data := rx_data s; err_status := err_status s;
     fsd := fsd s; block_num := block_num s; retransmit_cnt := retransmit_cnt s;
     transmit_data := transmit_data s; transmit_len := transmit_len s; transmitted_len := transmitted_len s;
     chaining := v; equal_divisor := equal_divisor s; ats_expected := ats_expected s;
     first_transfer := first_transfer s |}.
Definition with_equal_divisor (s : nfc_t4t_isodep) (v : _) : nfc_t4t_isodep :=
  {| state := state s; tag := tag s; tx_data := tx_data s; rx_data := rx_data s; err_status := err_status s;
     fsd := fsd s; block_num := block_num s; retransmit_cnt := retransmit_cnt s;
     transmit_data := transmit_data s; transmit_len := transmit_len s; transmitted_len := transmitted_len s;
     chaining := chaining s; equal_divisor := v; ats_expected := ats_expected s;
     first_transfer := first_transfer s |}.
Definition with_ats_expected (s : nfc_t4t_isodep) (v : _) : nfc_t4t_isodep :=
  {| state := state s; tag := tag s; tx_data := tx_data s; rx_data := rx_data s; err_status := err_status s;
     fsd := fsd s; block_num := block_num s; retransmit_cnt := retransmit_cnt s;
     transmit_data := transmit_data s; transmit_len := transmit_len s; transmitted_len := transmitted_len s;
     chaining := chaining s; equal_divisor := equal_divisor s; ats_expected := v;
     first_transfer := first_transfer s |}.
Definition with_first_transfer (s : nfc_t4t_isodep) (v : _) : nfc_t4t_isodep :=
  {| state := state s; tag := tag s; tx_data := tx_data s; rx_data := rx_data s; err_status := err_status s;
     fsd := fsd s; block_num := block_num s; retransmit_cnt := retransmit_cnt s;
     transmit_data := transmit_data s; transmit_len := transmit_len s; transmitted_len := transmitted_len s;
     chaining := chaining s; equal_divisor := equal_divisor s; ats_expected := ats_expected s;
     first_transfer := v |}.
Definition with_t4t_isodep (s : iso) (v : _) : iso :=
  {| t4t_isodep := v; t4t_isodep_cb := t4t_isodep_cb s; isodep_work := isodep_work s;
     ats_received_time := ats_received_time s; out := out s |}.
Definition with_t4t_isodep_cb (s : iso) (v : _) : iso :=
  {| t4t_isodep := t4t_isodep s; t4t_isodep_cb := v; isodep_work := isodep_work s;
     ats_received_time := ats_received_time s; out := out s |}.
Definition with_isodep_work (s : iso) (v : _) : iso :=
  {| t4t_isodep := t4t_isodep s; t4t_isodep_cb := t4t_isodep_cb s; isodep_work := v;
     ats_received_time := ats_received_time s; out := out s |}.
Definition with_ats_received_time (s : iso) (v : _) : iso :=
  {| t4t_isodep := t4t_isodep s; t4t_isodep_cb := t4t_isodep_cb s; isodep_work := isodep_work s;
     ats_received_time := v; out := out s |}.
Definition with_out (s : iso) (v : _) : iso :=
  {| t4t_isodep := t4t_isodep s; t4t_isodep_cb := t4t_isodep_cb s; isodep_work := isodep_work s;
     ats_received_time := ats_received_time s; out := v |}.
Definition with_fwt (s : nfc_t4t_isodep_tag) (v : _) : nfc_t4t_isodep_tag :=
  {| fwt := v; sfgt := sfgt s; fsc := fsc s; did := did s; lp_divisor := lp_divisor s;
     pl_divisor := pl_divisor s; historical := historical s; historical_len := historical_len s;
     did_supported := did_supported s; nad_supported := nad_supported s |}.
Definition with_sfgt (s : nfc_t4t_isodep_tag) (v : _) : nfc_t4t_isodep_tag :=
  {| fwt := fwt s; sfgt := v; fsc := fsc s; did := did s; lp_divisor := lp_divisor s;
     pl_divisor := pl_divisor s; historical := historical s; historical_len := historical_len s;
     did_supported := did_supported s; nad_supported := nad_supported s |}.
Definition with_fsc (s : nfc_t4t_isodep_tag) (v : _) : nfc_t4t_isodep_tag :=
  {| fwt := fwt s; sfgt := sfgt s; fsc := v; did := did s; lp_divisor := lp_divisor s;
     pl_divisor := pl_divisor s; historical := historical s; historical_len := historical_len s;
     did_supported := did_supported s; nad_supported := nad_supported s |}.
Definition with_did (s : nfc_t4t_isodep_tag) (v : _) : nfc_t4t_isodep_tag :=
  {| fwt := fwt s; sfgt := sfgt s; fsc := fsc s; did := v; lp_divisor := lp_divisor s;
     pl_divisor := pl_divisor s; historical := historical s; historical_len := historical_len s;
     did_supported := did_supported s; nad_supported := nad_supported s |}.
Definition with_lp_divisor (s : nfc_t4t_isodep_tag) (v : _) : nfc_t4t_isodep_tag :=
  {| fwt := fwt s; sfgt := sfgt s; fsc := fsc s; did := did s; lp_divisor := v; pl_divisor := pl_divisor s;
     historical := historical s; historical_len := historical_len s; did_supported := did_supported s;
     nad_supported := nad_supported s |}.
Definition with_pl_divisor (s : nfc_t4t_isodep_tag) (v : _) : nfc_t4t_isodep_tag :=
  {| fwt := fwt s; sfgt := sfgt s; fsc := fsc s; did := did s; lp_divisor := lp_divisor s; pl_divisor := v;
     historical := historical s; historical_len := historical_len s; did_supported := did_supported s;
     nad_supported := nad_supported s |}.
Definition with_historical (s : nfc_t4t_isodep_tag) (v : _) : nfc_t4t_isodep_tag :=
  {| fwt := fwt s; sfgt := sfgt s; fsc := fsc s; did := did s; lp_divisor := lp_divisor s;
     pl_divisor := pl_divisor s; historical := v; historical_len := historical_len s;
     did_supported := did_supported s; nad_supported := nad_supported s |}.
Definition with_historical_len (s : nfc_t4t_isodep_tag) (v : _) : nfc_t4t_isodep_tag :=
  {| fwt := fwt s; sfgt := sfgt s; fsc := fsc s; did := did s; lp_divisor := lp_divisor s;
     pl_divisor := pl_divisor s; historical := historical s; historical_len := v;
     did_supported := did_supported s; nad_supported := nad_supported s |}.
Definition with_did_supported (s : nfc_t4t_isodep_tag) (v : _) : nfc_t4t_isodep_tag :=
  {| fwt := fwt s; sfgt := sfgt s; fsc := fsc s; did := did s; lp_divisor := lp_divisor s;
     pl_divisor := pl_divisor s; historical := historical s; historical_len := historical_len s;
     did_supported := v; nad_supported := nad_supported s |}.
Definition with_nad_supported (s : nfc_t4t_isodep_tag) (v : _) : nfc_t4t_isodep_tag :=
  {| fwt := fwt s; sfgt := sfgt s; fsc := fsc s; did := did s; lp_divisor := lp_divisor s;
     pl_divisor := pl_divisor s; historical := historical s; historical_len := historical_len s;
     did_supported := did_supported s; nad_supported := v |}.
Definition with_buf_data (s : nfc_t4t_buf) (v : _) : nfc_t4t_buf :=
  {| buf_data := v; buf_len := buf_len s; buf_size := buf_size s |}.
Definition with_buf_len (s : nfc_t4t_buf) (v : _) : nfc_t4t_buf :=
  {| buf_data := buf_data s; buf_len := v; buf_size := buf_size s |}.
Definition with_buf_size (s : nfc_t4t_buf) (v : _) : nfc_t4t_buf :=
  {| buf_data := buf_data s; buf_len := buf_len s; buf_size := v |}.
Definition with_last_frame (s : nfc_t4t_err) (v : _) : nfc_t4t_err :=
  {| last_frame := v; frame_retry_cnt := frame_retry_cnt s; wtx := wtx s |}.
Definition with_frame_retry_cnt (s : nfc_t4t_err) (v : _) : nfc_t4t_err :=
  {| last_frame := last_frame s; frame_retry_cnt := v; wtx := wtx s |}.
Definition with_wtx (s : nfc_t4t_err) (v : _) : nfc_t4t_err :=
  {| last_frame := last_frame s; frame_retry_cnt := frame_retry_cnt s; wtx := v |}.

Definition upd (f : nfc_t4t_isodep -> nfc_t4t_isodep) (w : iso) : iso := with_t4t_isodep w (f (t4t_isodep w)).
Definition set_tx_data (m : list Z) (s : nfc_t4t_isodep) : nfc_t4t_isodep :=
  with_tx_data s (with_buf_data (tx_data s) (Some m)).
Definition set_tx_len (n : Z) (s : nfc_t4t_isodep) : nfc_t4t_isodep := with_tx_data s (with_buf_len (tx_data s) n).
Definition set_last_frame (f : isodep_frame) (s : nfc_t4t_isodep) : nfc_t4t_isodep :=
  with_err_status s (with_last_frame (err_status s) f).
Definition set_retry (n : Z) (s : nfc_t4t_isodep) : nfc_t4t_isodep :=
  with_err_status s (with_frame_retry_cnt (err_status s) n).

(** The pointers to the buffers. *)
Definition ptr (b : nfc_t4t_buf) : res (list Z) := match buf_data b with Some m => Ok m | None => Fault end.

(** A callback, if it is set. *)
Definition notify (sel : nfc_t4t_isodep_cb -> bool) (e : iso_event) (w : iso) : res iso :=
  match t4t_isodep_cb w with
  | None => Fault
  | Some cb => Ok (if sel cb then with_out w (out w ++ [e]) else w)
  end.

(** [ready_to_send] with the first [n] octets of the transmission buffer. *)
Definition ready_to_send (n fdt : Z) (w : iso) : res iso :=
  let* m := ptr (tx_data (t4t_isodep w)) in
  let* d := rd_block m 0 n in
  notify cb_ready_to_send (ReadyToSend d (u32 fdt)) w.

Definition isodep_transmission_clear (w : iso) : iso :=
  upd (fun s =>
    let s := with_rx_data s (with_buf_len (rx_data s) 0) in
    let s := with_transmitted_len s 0 in
    let s := with_transmit_len s 0 in
    let s := with_chaining s false in
    let s := with_retransmit_cnt s 0 in
    let s := set_retry 0 s in
    set_last_frame ISODEP_FRAME_NONE s) w.

Definition did_include (t : nfc_t4t_isodep_tag) (data : list Z) (pos : Z) : res (list Z * Z) :=
  if did_supported t && negb (did t =? 0) then
    let* x := rd data pos in
    let* data := wr data pos (Z.lor x I_BLOCK_DID_BIT) in
    let pos := pos + 1 in
    let* data := wr data pos (did t) in
    Ok (data, pos + 1)
  else Ok (data, pos + 1).

Definition err_notify (err : Z) (w : iso) : res iso :=
  notify cb_error (Error err) (isodep_transmission_clear w).

(** The interface octets TA, TB and TC, each if T0 announces it: the tag with
    their values, whether the divisors are equal, and the position behind. *)
Definition ats_ta (t : nfc_t4t_isodep_tag) (eq : bool) (data : list Z) (t0 index : Z)
    : res (nfc_t4t_isodep_tag * bool * Z) :=
  if ctrue (Z.land t0 T4T_ATS_T0_TA_PRESENT) then
    let* ta := rd data index in
    let eq := if ctrue (Z.land ta T4T_ATS_TA_EQUAL_DIVISOR) then true else eq in
    let t := with_pl_divisor t (u8 (Z.shiftl (Z.land ta T4T_ATS_TA_DIVISOR_PL) T4T_ATS_TA_DIVISOR_PL_OFFSET)) in
    let t := with_lp_divisor t (u8 (Z.shiftr (Z.land ta T4T_ATS_TA_DIVISOR_LP) T4T_ATS_TA_DIVISOR_LP_OFFSET)) in
    Ok (t, eq, index + 1)
  else Ok (with_lp_divisor (with_pl_divisor t 0) 0, eq, index).

Definition ats_tb (t : nfc_t4t_isodep_tag) (data : list Z) (t0 index : Z) : res (nfc_t4t_isodep_tag * Z) :=
  let* '(fwi, sfgi, index) :=
    if ctrue (Z.land t0 T4T_ATS_T0_TB_PRESENT) then
      let* tb := rd data index in
      Ok (Z.shiftr (Z.land tb T4T_ATS_TB_FWI_MASK) T4T_ATS_TB_FWI_OFFSET, Z.land tb T4T_ATS_TB_SFGI_MASK, index + 1)
    else Ok (T4T_ATS_TB_FWI_DEFAULT, 0, index) in
  let t := with_fwt t (T4T_FWI_TO_FWT fwi) in
  let t :=
    if negb (sfgi =? 0) then with_sfgt t (u32 (T4T_FWI_TO_FWT sfgi + T4T_SFGT_DELTA sfgi))
    else with_sfgt t T4T_ATS_SFGT_DEFAULT in
  Ok (t, index).

Definition ats_tc (t : nfc_t4t_isodep_tag) (data : list Z) (t0 index : Z) : res (nfc_t4t_isodep_tag * Z) :=
  if ctrue (Z.land t0 T4T_ATS_T0_TC_PRESENT) then
    let* tc := rd data index in
    let t := with_did_supported t (ctrue (Z.land tc T4T_ATS_TC_DID)) in
    let t := with_nad_supported t (ctrue (Z.land tc T4T_ATS_TC_NAD)) in
    Ok (t, index + 1)
  else Ok (with_nad_supported (with_did_supported t true) false, index).

(** The historical octets behind the interface octets. *)
Definition ats_historical (t : nfc_t4t_isodep_tag) (data : list Z) (len index : Z) : res nfc_t4t_isodep_tag :=
  if index <? len then
    let n := u8 (len - index) in
    let n := if NFC_T4T_ISODEP_HIST_MAX_LEN <? n then NFC_T4T_ISODEP_HIST_MAX_LEN else n in
    let* bs := rd_block data index n in
    let* h := wr_block (historical t) 0 bs in
    Ok (with_historical (with_historical_len t n) h)
  else Ok t.

(** [now] is the uptime in milliseconds. *)
Definition ats_parse (w : iso) (data : list Z) (len now : Z) : res (iso * Z) :=
  let w := with_ats_received_time w now in
  if len <? T4T_ATS_MIN_LEN then Ok (w, - NFC_T4T_ISODEP_SYNTAX_ERROR) else
  let* tl := rd data 0 in
  if negb (tl =? len) || (T4T_ATS_MAX_LEN <? len) then Ok (w, - NFC_T4T_ISODEP_SYNTAX_ERROR) else
  let* t0 := rd data 1 in
  let fsci := Z.land t0 T4T_ATS_T0_FSCI_MASK in
  let* f := rd fsd_value_map fsci in
  let t := with_fsc (tag (t4t_isodep w)) (u16 (f - ISODEP_CRC_LENGTH)) in
  let* '(t, eq, index) := ats_ta t (equal_divisor (t4t_isodep w)) data t0 2 in
  let* '(t, index) := ats_tb t data t0 index in
  let* '(t, index) := ats_tc t data t0 index in
  let* t := ats_historical t data len index in
  let w := upd (fun s =>
    let s := with_tag s t in
    let s := with_equal_divisor s eq in
    let s := with_block_num s 0 in
    let s := with_first_transfer s true in
    with_state s ISODEP_STATE_SELECTED) w in
  let* w := notify cb_selected (Selected t) w in
  Ok (w, 0).

(** The time the tag may take for the answer. *)
Definition frame_delay_time (t : nfc_t4t_isodep_tag) : Z := u32 (fwt t + T4T_FWT_DELTA + NFCA_T4T_FWT_T_FC).

Definition isodep_chunk_send (w : iso) : res iso :=
  let s := t4t_isodep w in
  match transmit_data s with
  | None => Fault
  | Some data =>
    let* m := ptr (tx_data s) in
    let s := set_last_frame ISODEP_FRAME_I (set_retry 0 (with_retransmit_cnt s 0)) in
    let* m := wr m 0 (Z.lor ISODEP_I_BLOCK (Z.land (block_num s) 1)) in
    let* '(m, index) := did_include (tag s) m 0 in
    let left := transmit_len s - transmitted_len s in
    let room := u32 (fsc (tag s) - index) in
    let* '(m, data_len, chain) :=
      if room <? left then
        let* x := rd m 0 in
        let* m := wr m 0 (Z.lor x I_BLOCK_CHAINING_BIT) in
        Ok (m, room, true)
      else Ok (m, left, false) in
    let* bs := rd_block data (transmitted_len s) data_len in
    let* m := wr_block m index bs in
    let s := with_chaining s chain in
    let s := set_tx_len (index + data_len) (set_tx_data m s) in
    let s := with_transmitted_len s (transmitted_len s + data_len) in
    ready_to_send (index + data_len) (frame_delay_time (tag s)) (with_t4t_isodep w s)
  end.

Definition block_num_toggle (w : iso) : iso :=
  upd (fun s => with_block_num s (ISODEP_BLOC_NUM_TOOGLE (block_num s))) w.

Definition isodep_r_frame_send (ack : bool) (w : iso) : res iso :=
  let s := t4t_isodep w in
  let* m := ptr (tx_data s) in
  let x := Z.lor ISODEP_R_BLOCK (Z.land (block_num s) 1) in
  let* m := wr m 0 (if ack then x else Z.lor x R_BLOCK_NAK) in
  let* '(m, index) := did_include (tag s) m 0 in
  ready_to_send index (frame_delay_time (tag s)) (upd (set_tx_data m) w).

(** The answer to a request for more time. *)
Definition wtx_response (wtxm : Z) (w : iso) : res iso :=
  let s := t4t_isodep w in
  let* m := ptr (tx_data s) in
  let* m := wr m 0 (Z.lor ISODEP_S_BLOCK S_BLOCK_WTX_MASK) in
  let* '(m, index) := did_include (tag s) m 0 in
  let* m := wr m index wtxm in
  let index := index + 1 in
  let s := set_last_frame ISODEP_FRAME_WTX_RESPONSE (set_tx_len index (set_tx_data m s)) in
  let fdt := u32 (fwt (tag s) * wtxm + T4T_FWT_DELTA + NFCA_T4T_FWT_T_FC) in
  ready_to_send index fdt (with_t4t_isodep w s).

Definition isodep_s_frame_handle (w : iso) (data : list Z) (len : Z) : res (iso * Z) :=
  let* s_block := rd data 0 in
  let index := if ctrue (Z.land s_block I_BLOCK_DID_BIT) then 2 else 1 in
  if negb (Z.land s_block S_BLOCK_WTX_MASK =? S_BLOCK_WTX_MASK) then
    if Z.land s_block S_BLOCK_WTX_MASK =? 0 then
      if index <? len then Ok (w, - NFC_T4T_ISODEP_SYNTAX_ERROR) else
      let w := upd (fun s => with_state s ISODEP_STATE_INITIALIZED) w in
      let* w := notify cb_deselected Deselected w in
      Ok (w, 0)
    else Ok (w, - NFC_T4T_ISODEP_SYNTAX_ERROR)
  else if index + 1 <? len then Ok (w, - errno_num EINVAL) else
  let* wtxm := rd data index in
  let wtxm := Z.land wtxm ISODEP_WTXM_MASK in
  if (wtxm <? ISODEP_WTXM_MIN) || (ISODEP_WTXM_MAX <? wtxm) then Ok (w, - NFC_T4T_ISODEP_SYNTAX_ERROR) else
  let* w := wtx_response wtxm w in
  Ok (w, 0).

Definition last_i_block_retransmit (w : iso) : res (iso * Z) :=
  let s := t4t_isodep w in
  if ISODEP_MAX_RETRANSMIT_CNT <? retransmit_cnt s then Ok (w, - NFC_T4T_ISODEP_SEMANTIC_ERROR) else
  let* m := ptr (tx_data s) in
  let x := Z.lor ISODEP_I_BLOCK (Z.land (block_num s) 1) in
  let* m := wr m 0 (if chaining s then Z.lor x I_BLOCK_CHAINING_BIT else x) in
  let w := upd (set_tx_data m) w in
  match t4t_isodep_cb w with
  | None => Fault
  | Some cb =>
    if cb_ready_to_send cb then
      let* w := ready_to_send (buf_len (tx_data s)) (frame_delay_time (tag s)) w in
      Ok (upd (fun s => with_retransmit_cnt s (u8 (retransmit_cnt s + 1))) w, 0)
    else Ok (w, 0)
  end.

Definition r_frame_ack_handle (w : iso) (r_block : Z) : res (iso * Z) :=
  let s := t4t_isodep w in
  let same := Z.land r_block ISODEP_BLOCK_NUM_MASK =? block_num s in
  if bool_decide (last_frame (err_status s) = ISODEP_FRAME_I) && negb same then last_i_block_retransmit w
  else if negb (chaining s) then Ok (w, - NFC_T4T_ISODEP_SEMANTIC_ERROR)
  else if same then
    let* w := isodep_chunk_send (block_num_toggle w) in
    Ok (w, 0)
  else last_i_block_retransmit w.

Definition isodep_r_frame_handle (w : iso) (data : list Z) (len : Z) : res (iso * Z) :=
  let* r_block := rd data 0 in
  let index := if ctrue (Z.land r_block I_BLOCK_DID_BIT) then 2 else 1 in
  if index <? len then Ok (w, - NFC_T4T_ISODEP_SYNTAX_ERROR)
  else if ctrue (Z.land r_block R_BLOCK_NAK) then Ok (w, - NFC_T4T_ISODEP_SEMANTIC_ERROR)
  else r_frame_ack_handle w r_block.

Definition isodep_i_frame_handle (w : iso) (data : list Z) (len : Z) : res (iso * Z) :=
  let* i_block := rd data 0 in
  let index := 1 in
  let index := if ctrue (Z.land i_block I_BLOCK_DID_BIT) then index + 1 else index in
  let index := if ctrue (Z.land i_block I_BLOCK_NAD_BIT) then index + 1 else index in
  if len <? index then Ok (w, - errno_num EINVAL) else
  let rx := rx_data (t4t_isodep w) in
  if buf_size rx <? buf_len rx + (len - index) then Ok (w, - errno_num ENOMEM) else
  let w := if Z.land i_block ISODEP_BLOCK_NUM_MASK =? block_num (t4t_isodep w) then block_num_toggle w else w in
  let len := len - index in
  let* m := ptr rx in
  let* bs := rd_block data index len in
  let* m := wr_block m (buf_len rx) bs in
  let rx := with_buf_len (with_buf_data rx (Some m)) (buf_len rx + len) in
  let w := upd (fun s => with_rx_data s rx) w in
  if ctrue (Z.land i_block I_BLOCK_CHAINING_BIT) then
    let* w := isodep_r_frame_send true (upd (set_last_frame ISODEP_FRAME_I_CHAINING) w) in
    Ok (w, 0)
  else
    let w := upd (fun s => set_last_frame ISODEP_FRAME_I (with_state s ISODEP_STATE_SELECTED)) w in
    let* d := rd_block m 0 (buf_len rx) in
    let* w := notify cb_data_received (DataReceived d) w in
    Ok (w, 0).

Section Recovery.
Context {CF : IsodepConfig}.

(** Sending the frame in the transmission buffer again. *)
Definition resend (fdt : Z) (w : iso) : res iso :=
  match t4t_isodep_cb w with
  | None => Fault
  | Some cb =>
    if cb_ready_to_send cb then ready_to_send (buf_len (tx_data (t4t_isodep w))) fdt w else Ok w
  end.

Definition isodep_error_handle (timeout : bool) (w : iso) : res iso :=
  let w := upd (fun s => set_retry (u8 (frame_retry_cnt (err_status s) + 1)) s) w in
  let s := t4t_isodep w in
  let cnt := frame_retry_cnt (err_status s) in
  let stop w :=
    let err := if timeout then - NFC_T4T_ISODEP_TIMEOUT_ERROR else - NFC_T4T_ISODEP_TRANSMISSION_ERROR in
    err_notify err (upd (fun s => with_state s ISODEP_STATE_INITIALIZED) w) in
  match last_frame (err_status s) with
  | ISODEP_FRAME_RATS => if RATS_RETRY <? cnt then stop w else resend T4T_RATS_FDT w
  | ISODEP_FRAME_I => if NAK_RETRY <? cnt then stop w else isodep_r_frame_send false w
  | ISODEP_FRAME_I_CHAINING => if ACK_RETRY <? cnt then stop w else isodep_r_frame_send true w
  | ISODEP_FRAME_WTX_RESPONSE =>
    if WTX_RETRY <? cnt then stop w
    else resend (wtx (err_status s) * fwt (tag s) + T4T_FWT_DELTA + NFCA_T4T_FWT_T_FC) w
  | ISODEP_FRAME_DESELECT => if DESELECT_RETRY <? cnt then stop w else resend ISODEP_FWT_DEACTIVATION w
  | ISODEP_FRAME_NONE => stop w
  end.

(** The delayed work runs. *)
Definition isodep_delay_handler (w : iso) : res iso := isodep_chunk_send (with_isodep_work w None).

Definition nfc_t4t_isodep_init (w : iso) (tx_buf : option (list Z)) (size_tx : Z) (rx_buf : option (list Z))
    (size_rx : Z) (cb : option nfc_t4t_isodep_cb) : iso * Z :=
  if bool_decide (tx_buf = None) || bool_decide (rx_buf = None) then (w, - errno_num EINVAL)
  else if size_tx <? T4T_FSD_MIN then (w, - errno_num EINVAL)
  else if size_rx <? T4T_FSD_MIN then (w, - errno_num EINVAL)
  else if negb (bool_decide (state (t4t_isodep w) = ISODEP_STATE_UNINITIALIZED)) then (w, - errno_num EACCES)
  else
    let w := upd (fun s =>
      let s := with_tx_data s {| buf_data := tx_buf; buf_len := buf_len (tx_data s); buf_size := size_tx |} in
      let s := with_rx_data s {| buf_data := rx_buf; buf_len := buf_len (rx_data s); buf_size := size_rx |} in
      with_state s ISODEP_STATE_INITIALIZED) w in
    (with_isodep_work (with_t4t_isodep_cb w cb) None, 0).

Definition nfc_t4t_isodep_on_timeout (w : iso) : res iso := isodep_error_handle true w.

(** The value of the enumeration [fsd] is an index of the table. *)
Definition nfc_t4t_isodep_rats_send (w : iso) (fsd did : Z) : res (iso * Z) :=
  let st := state (t4t_isodep w) in
  if negb (bool_decide (st = ISODEP_STATE_INITIALIZED) || bool_decide (st = ISODEP_STATE_SELECTED))
  then Ok (w, - errno_num EACCES)
  else
  let w := upd (fun s => with_state s ISODEP_STATE_TRANSFER) w in
  if T4T_DID_MAX <? did then Ok (w, - errno_num EINVAL) else
  let* f := rd fsd_value_map fsd in
  if buf_size (tx_data (t4t_isodep w)) <? f then Ok (w, - errno_num ENOMEM) else
  let param := Z.land did T4T_RATS_DID_MASK in
  let param := Z.lor param (Z.land (Z.shiftl fsd T4T_RATS_FSDI_OFFSET) T4T_RATS_FSDI_MASK) in
  let* m := ptr (tx_data (t4t_isodep w)) in
  let* m := wr m 0 T4T_RATS_CMD in
  let* m := wr m 1 (u8 param) in
  let w := upd (fun s =>
    let s := set_tx_len T4T_RATS_CMD_LEN (set_tx_data m s) in
    let s := with_tag s (with_did (tag s) did) in
    let s := with_fsd s f in
    let s := with_ats_expected s true in
    set_last_frame ISODEP_FRAME_RATS s) w in
  let* w := ready_to_send T4T_RATS_CMD_LEN T4T_RATS_FDT w in
  Ok (w, 0).

Definition nfc_t4t_isodep_tag_deselect (w : iso) : res (iso * Z) :=
  if negb (bool_decide (state (t4t_isodep w) = ISODEP_STATE_SELECTED)) then Ok (w, - errno_num EACCES) else
  let w := upd (fun s => with_state s ISODEP_STATE_TRANSFER) w in
  let s := t4t_isodep w in
  let* m := ptr (tx_data s) in
  let* m := wr m 0 ISODEP_S_BLOCK in
  let* '(m, index) := did_include (tag s) m 0 in
  let w := upd (fun s => set_last_frame ISODEP_FRAME_DESELECT (set_tx_len index (set_tx_data m s))) w in
  let* w := ready_to_send index ISODEP_FWT_DEACTIVATION w in
  Ok (w, 0).

(** The frame that is received, without a transmission error. *)
Definition frame_handle (w : iso) (data : list Z) (data_len : Z) : res (iso * Z) :=
  let* block_data := rd data 0 in
  if ctrue (Z.land block_data ISODEP_BLOCK_FIXED_BIT) then
    if ctrue (Z.land block_data ISODEP_S_BLOCK_INDICATOR) then isodep_s_frame_handle w data data_len
    else if ctrue (Z.land block_data ISODEP_R_BLOCK_INDICATOR) then isodep_r_frame_handle w data data_len
    else isodep_i_frame_handle w data data_len
  else Ok (w, - NFC_T4T_ISODEP_SEMANTIC_ERROR).

Definition nfc_t4t_isodep_data_received (w : iso) (data : option (list Z)) (data_len err now : Z) : res (iso * Z) :=
  match data with
  | None => Ok (w, - errno_num EINVAL)
  | Some data =>
    if data_len <? 1 then Ok (w, - errno_num ENOMEM)
    else if negb (err =? 0) then
      let* w := isodep_error_handle false w in
      Ok (w, 0)
    else
      let* '(w, err) :=
        if ats_expected (t4t_isodep w) then ats_parse (upd (fun s => with_ats_expected s false) w) data data_len now
        else frame_handle w data data_len in
      let* w := if negb (err =? 0) then err_notify err w else Ok w in
      Ok (w, 0)
  end.

Definition nfc_t4t_isodep_transmit `{Work} (w : iso) (data : option (list Z)) (data_len now : Z) : res (iso * Z) :=
  if bool_decide (data = None) then Ok (w, - errno_num EINVAL)
  else if data_len <? 1 then Ok (w, - errno_num ENOMEM)
  else if negb (bool_decide (state (t4t_isodep w) = ISODEP_STATE_SELECTED)) then Ok (w, - errno_num EACCES)
  else
  let w := isodep_transmission_clear (upd (fun s => with_state s ISODEP_STATE_TRANSFER) w) in
  let w := upd (fun s => with_transmit_len (with_transmit_data s data) data_len) w in
  if first_transfer (t4t_isodep w) then
    let w := upd (fun s => with_first_transfer s false) w in
    let spent_time := now - ats_received_time w in
    let w := with_ats_received_time w now in
    let wait := T4T_FWT_TO_MS (fwt (tag (t4t_isodep w))) in
    if spent_time <? wait then
      let delay := u32 (wait - spent_time) in
      let ret := k_work_reschedule (isodep_work w) delay in
      if ret <? 0 then Ok (w, ret) else Ok (with_isodep_work w (Some delay), 0)
    else
      let* w := isodep_chunk_send w in
      Ok (w, 0)
  else
    let* w := isodep_chunk_send w in
    Ok (w, 0).
End Recovery.
