(* ===== verification/IsoDepSpec.v ===== *)
(** * ISO-DEP against a tag, with lost and corrupted frames

    The tag follows the block protocol of ISO/IEC 14443-4. A command that is
    transmitted arrives there once and its answer is delivered once, whatever
    frames are lost or corrupted, as long as there are no more of them than the
    configured number of retries. *)

From stdpp Require Import prelude list.
From Stdlib Require Import ZArith Lia.
From S2P Require Import Prelude IsoDep.

Open Scope Z_scope.

(** ** The tag *)

(** The first octets of blocks. *)
Definition i_pcb (b : Z) (chain : bool) : Z := 0x02 + b + (if chain then 0x10 else 0).
Definition r_ack (b : Z) : Z := 0xA2 + b.
Definition r_nak (b : Z) : Z := 0xB2 + b.

(** The block number of the tag, the part of a command that has arrived, the
    commands, what is left of the answer, and the last block it sent. *)
Record picc := {
  p_num : Z;
  p_got : list Z;
  p_cmds : list (list Z);
  p_rest : list Z;
  p_last : list Z
}.

Section Picc.
(** The answer of the tag to the last of the commands it got, and the number of
    octets that it puts into a block. *)
Context (respond : list (list Z) -> list Z) (pn : nat).

(** The block with the next part of the answer, and the state with it as the
    last block. *)
Definition p_send (p : picc) (num : Z) (cmds : list (list Z)) (rest : list Z) : picc * list Z :=
  let blk := i_pcb num (bool_decide (pn < length rest)%nat) :: take pn rest in
  ({| p_num := num; p_got := []; p_cmds := cmds; p_rest := drop pn rest; p_last := blk |}, blk).

(** Rules D and E for the block number, and the rules for chaining and for the
    repetition of blocks. *)
Definition picc_step (p : picc) (frame : list Z) : picc * list Z :=
  match frame with
  | [] => (p, [])
  | pcb :: inf =>
    if Z.land pcb 0xE2 =? 0x02 then
      let num := 1 - p_num p in
      if Z.testbit pcb 4 then
        ({| p_num := num; p_got := p_got p ++ inf; p_cmds := p_cmds p; p_rest := p_rest p; p_last := [r_ack num] |},
         [r_ack num])
      else
        let cmds := p_cmds p ++ [p_got p ++ inf] in
        p_send p num cmds (respond cmds)
    else if Z.land pcb 1 =? p_num p then (p, p_last p)
    else if Z.testbit pcb 4 then
      ({| p_num := p_num p; p_got := p_got p; p_cmds := p_cmds p; p_rest := p_rest p; p_last := [r_ack (p_num p)] |},
       [r_ack (p_num p)])
    else p_send p (1 - p_num p) (p_cmds p) (p_rest p)
  end.
End Picc.

(** ** The link *)

(** What happens to a frame and its answer. *)
Inductive fate :=
  | Arrives
  | FrameLost
  | AnswerLost
  | AnswerCorrupt.
#[export] Instance fate_eq_dec : EqDecision fate.
Proof. solve_decision. Defined.

Section Link.
Context {CF : IsodepConfig} (respond : list (list Z) -> list Z) (pn : nat).

(** The frame on its way is the last one that was handed out, unless the
    module is done. *)
Definition link_step (f : fate) (w : iso) (p : picc) : res (iso * picc) :=
  match last (out w) with
  | Some (ReadyToSend m _) =>
    let '(p', r) := picc_step respond pn p m in
    match f with
    | Arrives =>
      let* '(w, _) := nfc_t4t_isodep_data_received w (Some r) (zlen r) 0 0 in
      Ok (w, p')
    | FrameLost =>
      let* w := nfc_t4t_isodep_on_timeout w in
      Ok (w, p)
    | AnswerLost =>
      let* w := nfc_t4t_isodep_on_timeout w in
      Ok (w, p')
    | AnswerCorrupt =>
      let* '(w, _) := nfc_t4t_isodep_data_received w (Some r) (zlen r) 1 0 in
      Ok (w, p')
    end
  | _ => Ok (w, p)
  end.
Fixpoint link_run (fs : list fate) (w : iso) (p : picc) : res (iso * picc) :=
  match fs with
  | [] => Ok (w, p)
  | f :: fs =>
    let* '(w, p) := link_step f w p in
    link_run fs w p
  end.
End Link.

(** ** The states of a transfer *)

Definition all_cb : nfc_t4t_isodep_cb :=
  {| cb_data_received := true; cb_selected := true; cb_deselected := true; cb_ready_to_send := true; cb_error := true |}.

(** The state of the module during a transfer: first what stays the same. *)
Definition transfer_state (cmd : list Z) (tg : nfc_t4t_isodep_tag) (tl rl fs ws tm : Z) (wk : option Z) (eq ff : bool)
    (stt : isodep_state) (lf : isodep_frame) (tx : list Z) (txl : Z) (rx : list Z) (rxl rc rt b off : Z)
    (ch : bool) (o : list iso_event) : iso :=
  {| t4t_isodep :=
       {| state := stt; tag := tg; tx_data := {| buf_data := Some tx; buf_len := txl; buf_size := tl |};
          rx_data := {| buf_data := Some rx; buf_len := rxl; buf_size := rl |};
          err_status := {| last_frame := lf; frame_retry_cnt := rc; wtx := ws |}; fsd := fs; block_num := b;
          retransmit_cnt := rt; transmit_data := Some cmd; transmit_len := zlen cmd; transmitted_len := off;
          chaining := ch; equal_divisor := eq; ats_expected := false; first_transfer := ff |};
     t4t_isodep_cb := Some all_cb; isodep_work := wk; ats_received_time := tm; out := o |}.

(** The fields of a state that is given explicitly. *)
Ltac iso_red :=
  cbn [state tag tx_data rx_data err_status fsd block_num retransmit_cnt transmit_data transmit_len
    transmitted_len chaining equal_divisor ats_expected first_transfer t4t_isodep t4t_isodep_cb isodep_work
    ats_received_time out buf_data buf_len buf_size last_frame frame_retry_cnt wtx with_state with_tag
    with_tx_data with_rx_data with_err_status with_fsd with_block_num with_retransmit_cnt with_transmit_data
    with_transmit_len with_transmitted_len with_chaining with_equal_divisor with_ats_expected
    with_first_transfer with_t4t_isodep with_t4t_isodep_cb with_isodep_work with_ats_received_time with_out
    with_buf_data with_buf_len with_buf_size with_last_frame with_frame_retry_cnt with_wtx upd set_tx_data
    set_tx_len set_last_frame set_retry ptr notify mbind res_bind all_cb cb_data_received cb_selected
    cb_deselected cb_ready_to_send cb_error block_num_toggle transfer_state].

Section Transfer.
Context {CF : IsodepConfig} (respond : list (list Z) -> list Z) (pn : nat).
Context (cmd : list Z) (tg : nfc_t4t_isodep_tag) (tl rl fs ws tm : Z) (wk : option Z) (eq ff : bool).
Context (o0 : list iso_event) (c0 : list (list Z)).
Context (Hpn : (1 <= pn)%nat) (Hcmd : cmd <> []).
Context (Hdid : did_supported tg && negb (did tg =? 0) = false) (Hfsc : 2 <= fsc tg <= Z.min tl 65535).

Local Notation wst := (transfer_state cmd tg tl rl fs ws tm wk eq ff).

(** A part of the command: its size, whether another one follows, its octets. *)
Definition csize (off : Z) : Z := Z.min (fsc tg - 1) (zlen cmd - off).
Definition cmore (off : Z) : bool := fsc tg - 1 <? zlen cmd - off.
Definition cpart (off : Z) : list Z := take (Z.to_nat (csize off)) (drop (Z.to_nat off) cmd).
Definition fdt : Z := u32 (frame_delay_time tg).

Lemma did_include_off m pos : did_include tg m pos = Ok (m, pos + 1).
Proof. unfold did_include. by rewrite Hdid. Qed.

Lemma cpart_length off : 0 <= off <= zlen cmd -> zlen (cpart off) = csize off.
Proof. intros. unfold cpart, csize. rewrite length_take, length_drop. lia. Qed.

Definition block (b : Z) : Prop := b = 0 \/ b = 1.

Lemma i_pcb_lor b : block b -> Z.lor ISODEP_I_BLOCK (Z.land b 1) = i_pcb b false.
Proof. by intros [->| ->]. Qed.
Lemma i_pcb_chain b : block b -> Z.lor (i_pcb b false) I_BLOCK_CHAINING_BIT = i_pcb b true.
Proof. by intros [->| ->]. Qed.
Lemma r_ack_lor b : block b -> Z.lor ISODEP_R_BLOCK (Z.land b 1) = r_ack b.
Proof. by intros [->| ->]. Qed.
Lemma r_nak_lor b : block b -> Z.lor (r_ack b) R_BLOCK_NAK = r_nak b.
Proof. by intros [->| ->]. Qed.

Lemma ready_send stt lf tx txl rx rxl rc rt b off ch o n f :
  0 <= n <= zlen tx ->
  ready_to_send n f (wst stt lf tx txl rx rxl rc rt b off ch o) =
    Ok (wst stt lf tx txl rx rxl rc rt b off ch (o ++ [ReadyToSend (take (Z.to_nat n) tx) (u32 f)])).
Proof. intros Hn. unfold ready_to_send. cbn [ptr tx_data t4t_isodep wst buf_data mbind res_bind]. by rewrite rd_block_Ok by lia. Qed.

(** Sending a part of the command. *)
Lemma chunk_send stt lf x tx txl rx rxl rc rt b off ch o :
  block b -> zlen (x :: tx) = tl -> 0 <= off <= zlen cmd ->
  isodep_chunk_send (wst stt lf (x :: tx) txl rx rxl rc rt b off ch o) =
    Ok (wst stt ISODEP_FRAME_I (i_pcb b (cmore off) :: cpart off ++ drop (length (cpart off)) tx) (1 + csize off)
          rx rxl 0 0 b (off + csize off) (cmore off)
          (o ++ [ReadyToSend (i_pcb b (cmore off) :: cpart off) fdt])).
Proof.
  intros Hb Htx Hoff. unfold isodep_chunk_send. iso_red. pose proof (cpart_length off Hoff) as Lc.
  rewrite wr_Ok by (cbn [length] in *; lia). iso_red. rewrite i_pcb_lor, did_include_off by done. iso_red.
  change (Z.to_nat 0) with 0%nat. cbn [insert list_insert].
  rewrite u32_small by lia.
  assert (E : (if fsc tg - (0 + 1) <? zlen cmd - off then
        let* y := rd (i_pcb b false :: tx) 0 in
        let* m := wr (i_pcb b false :: tx) 0 (Z.lor y I_BLOCK_CHAINING_BIT) in
        Ok (m, fsc tg - (0 + 1), true)
      else Ok (i_pcb b false :: tx, zlen cmd - off, false)) = Ok (i_pcb b (cmore off) :: tx, csize off, cmore off)).
  { unfold cmore, csize. rewrite Z.add_0_l. destruct (Z.ltb_spec (fsc tg - 1) (zlen cmd - off)).
    - rewrite rd_Ok by (cbn [length]; lia). iso_red. rewrite wr_Ok by (cbn [length]; lia). iso_red.
      change (zth (i_pcb b false :: tx) 0) with (i_pcb b false). rewrite i_pcb_chain, Z.min_l by (done || lia). done.
    - by rewrite Z.min_r by lia. }
  rewrite E. iso_red. clear E.
  assert (Hc : csize off <= fsc tg - 1 /\ 0 <= csize off <= zlen cmd - off) by (unfold csize; lia).
  rewrite rd_block_Ok by lia. fold (cpart off). iso_red.
  rewrite (wr_block_append [i_pcb b (cmore off)] tx) by (cbn [length] in *; lia). iso_red. cbn [app].
  etransitivity; [apply (ready_send stt ISODEP_FRAME_I); rewrite ?length_app, ?length_drop; cbn [length] in *;
    rewrite ?length_app, ?length_drop; lia|].
  rewrite !Z.add_0_l. do 4 f_equal. f_equal. rewrite Z2Nat.inj_add by lia.
  change (Z.to_nat 1) with 1%nat. cbn [Nat.add take]. by rewrite take_app_length' by lia.
Qed.

Lemma r_send ack stt lf x tx txl rx rxl rc rt b off ch o :
  block b ->
  isodep_r_frame_send ack (wst stt lf (x :: tx) txl rx rxl rc rt b off ch o) =
    Ok (wst stt lf ((if ack then r_ack b else r_nak b) :: tx) txl rx rxl rc rt b off ch
          (o ++ [ReadyToSend [if ack then r_ack b else r_nak b] fdt])).
Proof.
  intros Hb. unfold isodep_r_frame_send. iso_red. rewrite wr_Ok by (cbn [length]; lia). iso_red.
  rewrite r_ack_lor, r_nak_lor, did_include_off by done. iso_red. change (Z.to_nat 0) with 0%nat. cbn [insert list_insert].
  apply (ready_send stt lf (_ :: tx) txl rx rxl rc rt b off ch o 1). cbn [length]. lia.
Qed.

Lemma retransmit stt lf x tx txl rx rxl rc rt b off ch o :
  block b -> 0 <= rt <= 2 -> 1 <= txl <= zlen (x :: tx) ->
  last_i_block_retransmit (wst stt lf (x :: tx) txl rx rxl rc rt b off ch o) =
    Ok (wst stt lf (i_pcb b ch :: tx) txl rx rxl rc (rt + 1) b off ch
          (o ++ [ReadyToSend (take (Z.to_nat txl) (i_pcb b ch :: tx)) fdt]), 0).
Proof.
  intros Hb Hrt Hl. unfold last_i_block_retransmit, ISODEP_MAX_RETRANSMIT_CNT. iso_red.
  rewrite (proj2 (Z.ltb_ge 2 rt)) by lia. rewrite wr_Ok by (cbn [length]; lia). iso_red.
  rewrite i_pcb_lor, i_pcb_chain by done. change (Z.to_nat 0) with 0%nat. cbn [insert list_insert].
  replace (if ch then i_pcb b true else i_pcb b false) with (i_pcb b ch) by (by destruct ch).
  assert (E : ready_to_send txl (frame_delay_time tg) (wst stt lf (i_pcb b ch :: tx) txl rx rxl rc rt b off ch o) =
    Ok (wst stt lf (i_pcb b ch :: tx) txl rx rxl rc rt b off ch
          (o ++ [ReadyToSend (take (Z.to_nat txl) (i_pcb b ch :: tx)) fdt]))) by (apply ready_send; cbn [length] in *; lia).
  match goal with |- context [ready_to_send _ _ ?w] =>
    change w with (wst stt lf (i_pcb b ch :: tx) txl rx rxl rc rt b off ch o) end.
  rewrite E. iso_red. rewrite <- (u8_small (rt + 1)) by lia. done.
Qed.

(** A frame or its answer does not arrive: the module asks again. *)
Lemma error_i t stt x tx txl rx rxl rc rt b off ch o :
  block b -> 0 <= rc -> rc + 1 <= NAK_RETRY ->
  isodep_error_handle t (wst stt ISODEP_FRAME_I (x :: tx) txl rx rxl rc rt b off ch o) =
    Ok (wst stt ISODEP_FRAME_I (r_nak b :: tx) txl rx rxl (rc + 1) rt b off ch (o ++ [ReadyToSend [r_nak b] fdt])).
Proof.
  intros Hb H0 Hrc. pose proof nak_retry_range. rewrite <- (u8_small (rc + 1)) in * by lia. unfold isodep_error_handle.
  iso_red. rewrite (proj2 (Z.ltb_ge _ _)) by lia. apply (r_send false stt ISODEP_FRAME_I). done.
Qed.

Lemma error_chaining t stt x tx txl rx rxl rc rt b off ch o :
  block b -> 0 <= rc -> rc + 1 <= ACK_RETRY ->
  isodep_error_handle t (wst stt ISODEP_FRAME_I_CHAINING (x :: tx) txl rx rxl rc rt b off ch o) =
    Ok (wst stt ISODEP_FRAME_I_CHAINING (r_ack b :: tx) txl rx rxl (rc + 1) rt b off ch
          (o ++ [ReadyToSend [r_ack b] fdt])).
Proof.
  intros Hb H0 Hrc. pose proof ack_retry_range. rewrite <- (u8_small (rc + 1)) in * by lia. unfold isodep_error_handle.
  iso_red. rewrite (proj2 (Z.ltb_ge _ _)) by lia. apply (r_send true stt ISODEP_FRAME_I_CHAINING). done.
Qed.

(** After the last retry the module gives up. *)
Lemma error_limit t stt lf tx txl rx rxl rc rt b off ch o :
  lf = ISODEP_FRAME_I /\ NAK_RETRY < rc + 1 /\ rc < 255 \/ lf = ISODEP_FRAME_I_CHAINING /\ ACK_RETRY < rc + 1 /\ rc < 255 ->
  exists w e, isodep_error_handle t (wst stt lf tx txl rx rxl rc rt b off ch o) = Ok w /\ out w = o ++ [Error e].
Proof.
  pose proof nak_retry_range. pose proof ack_retry_range.
  intros [(-> & ? & ?)|(-> & ? & ?)]; unfold isodep_error_handle; iso_red; rewrite (u8_small (rc + 1)) by lia;
    rewrite (proj2 (Z.ltb_lt _ _)) by lia; unfold err_notify; iso_red; eexists _, _; (split; [reflexivity|done]).
Qed.

(** A block that is received without an error. *)
Lemma received_frame w w' d n :
  ats_expected (t4t_isodep w) = false -> n = zlen d -> 1 <= n -> frame_handle w d n = Ok (w', 0) ->
  nfc_t4t_isodep_data_received w (Some d) n 0 0 = Ok (w', 0).
Proof.
  intros Ha -> Hl E. unfold nfc_t4t_isodep_data_received. rewrite (proj2 (Z.ltb_ge _ 1)) by lia. cbn [negb Z.eqb].
  rewrite Ha, E. done.
Qed.

Lemma frame_r w a : block a -> frame_handle w [r_ack a] 1 = r_frame_ack_handle w (r_ack a).
Proof. by intros [-> | ->]. Qed.

Lemma r_ack_num a b : block a -> (Z.land (r_ack a) ISODEP_BLOCK_NUM_MASK =? b) = (a =? b).
Proof. by intros [-> | ->]. Qed.

Lemma toggle b : block b -> ISODEP_BLOC_NUM_TOOGLE b = 1 - b.
Proof. by intros [-> | ->]. Qed.

(** The tag has the part of the command, and another one follows. *)
Lemma receive_ack x tx txl rx rxl rc rt b off o :
  block b -> zlen (x :: tx) = tl -> 0 <= off <= zlen cmd ->
  nfc_t4t_isodep_data_received (wst ISODEP_STATE_TRANSFER ISODEP_FRAME_I (x :: tx) txl rx rxl rc rt b off true o)
    (Some [r_ack b]) 1 0 0 =
  Ok (wst ISODEP_STATE_TRANSFER ISODEP_FRAME_I (i_pcb (1 - b) (cmore off) :: cpart off ++ drop (length (cpart off)) tx)
        (1 + csize off) rx rxl 0 0 (1 - b) (off + csize off) (cmore off)
        (o ++ [ReadyToSend (i_pcb (1 - b) (cmore off) :: cpart off) fdt]), 0).
Proof.
  intros Hb Htx Hoff. apply received_frame; [done..|]. rewrite frame_r by done. unfold r_frame_ack_handle.
  rewrite r_ack_num by done. iso_red. rewrite Z.eqb_refl. cbn [negb]. rewrite andb_false_r.
  assert (Hb' : block (1 - b)) by (unfold block in *; lia).
  pose proof (chunk_send ISODEP_STATE_TRANSFER ISODEP_FRAME_I x tx txl rx rxl rc rt (1 - b) off true o Hb' Htx Hoff) as E.
  rewrite <- (toggle b) in E at 1 by done. unfold block_num_toggle.
  match goal with |- context [isodep_chunk_send ?w] =>
    change w with (wst ISODEP_STATE_TRANSFER ISODEP_FRAME_I (x :: tx) txl rx rxl rc rt (ISODEP_BLOC_NUM_TOOGLE b) off true o)
  end. rewrite E. done.
Qed.

(** The tag does not have it: it is sent again. *)
Lemma receive_other_ack x tx txl rx rxl rc rt b off ch o :
  block b -> 0 <= rt <= 2 -> 1 <= txl <= zlen (x :: tx) ->
  nfc_t4t_isodep_data_received (wst ISODEP_STATE_TRANSFER ISODEP_FRAME_I (x :: tx) txl rx rxl rc rt b off ch o)
    (Some [r_ack (1 - b)]) 1 0 0 =
  Ok (wst ISODEP_STATE_TRANSFER ISODEP_FRAME_I (i_pcb b ch :: tx) txl rx rxl rc (rt + 1) b off ch
        (o ++ [ReadyToSend (take (Z.to_nat txl) (i_pcb b ch :: tx)) fdt]), 0).
Proof.
  intros Hb Hrt Hl. assert (Hb' : block (1 - b)) by (unfold block in *; lia).
  apply received_frame; [done..|]. rewrite frame_r by done. unfold r_frame_ack_handle. rewrite r_ack_num by done. iso_red.
  rewrite (proj2 (Z.eqb_neq _ _)) by (unfold block in *; lia).
  rewrite bool_decide_eq_true_2 by done. cbn [negb andb]. by apply retransmit.
Qed.

(** It was sent again too often. *)
Lemma receive_limit tx txl rx rxl rc rt b off ch o :
  block b -> 2 < rt ->
  exists w e,
    nfc_t4t_isodep_data_received (wst ISODEP_STATE_TRANSFER ISODEP_FRAME_I tx txl rx rxl rc rt b off ch o)
      (Some [r_ack (1 - b)]) 1 0 0 = Ok (w, 0) /\ out w = o ++ [Error e].
Proof.
  intros Hb Hrt. assert (Hb' : block (1 - b)) by (unfold block in *; lia).
  unfold nfc_t4t_isodep_data_received. cbn [Z.ltb Z.compare Pos.compare Z.eqb negb]. iso_red. rewrite frame_r by done.
  unfold r_frame_ack_handle. rewrite r_ack_num by done. iso_red.
  rewrite (proj2 (Z.eqb_neq _ _)) by (unfold block in *; lia). rewrite bool_decide_eq_true_2 by done. cbn [negb andb].
  unfold last_i_block_retransmit, ISODEP_MAX_RETRANSMIT_CNT. iso_red. rewrite (proj2 (Z.ltb_lt 2 rt)) by lia. iso_red.
  eexists _, _. split; [reflexivity|done].
Qed.

(** A block of the answer. *)
Lemma frame_i w b more inf :
  block b ->
  frame_handle w (i_pcb b more :: inf) (zlen (i_pcb b more :: inf)) =
    isodep_i_frame_handle w (i_pcb b more :: inf) (zlen (i_pcb b more :: inf)).
Proof.
  intros Hb. unfold frame_handle. rewrite rd_Ok by (cbn [length]; lia). change (zth (i_pcb b more :: inf) 0) with (i_pcb b more).
  destruct Hb as [-> | ->], more; done.
Qed.

Lemma i_handle stt lf tx txl rx rxl rc rt b off ch o more inf :
  block b -> zlen rx = rl -> 0 <= rxl -> rxl + zlen inf <= rl ->
  isodep_i_frame_handle (wst stt lf tx txl rx rxl rc rt b off ch o) (i_pcb b more :: inf) (zlen (i_pcb b more :: inf)) =
    let rx' := take (Z.to_nat rxl) rx ++ inf ++ drop (Z.to_nat rxl + length inf) rx in
    if more then
      let* w := isodep_r_frame_send true
        (wst stt ISODEP_FRAME_I_CHAINING tx txl rx' (rxl + zlen inf) rc rt (1 - b) off ch o) in
      Ok (w, 0)
    else
      Ok (wst ISODEP_STATE_SELECTED ISODEP_FRAME_I tx txl rx' (rxl + zlen inf) rc rt (1 - b) off ch
            (o ++ [DataReceived (take (Z.to_nat (rxl + zlen inf)) rx')]), 0).
Proof.
  intros Hb Hrx H0 Hl. unfold isodep_i_frame_handle. rewrite rd_Ok by (cbn [length]; lia).
  change (zth (i_pcb b more :: inf) 0) with (i_pcb b more). iso_red.
  replace (ctrue (Z.land (i_pcb b more) I_BLOCK_DID_BIT)) with false by (destruct Hb as [-> | ->], more; done).
  replace (ctrue (Z.land (i_pcb b more) I_BLOCK_NAD_BIT)) with false by (destruct Hb as [-> | ->], more; done).
  replace (ctrue (Z.land (i_pcb b more) I_BLOCK_CHAINING_BIT)) with more by (destruct Hb as [-> | ->], more; done).
  replace (Z.land (i_pcb b more) ISODEP_BLOCK_NUM_MASK) with b by (destruct Hb as [-> | ->], more; done).
  assert (Ei : zlen (i_pcb b more :: inf) - 1 = zlen inf) by (cbn [length]; lia). rewrite Ei.
  rewrite (proj2 (Z.ltb_ge _ 1)) by (cbn [length]; lia). rewrite (proj2 (Z.ltb_ge _ _)), Z.eqb_refl by lia.
  rewrite rd_block_Ok by (cbn [length] in *; lia). iso_red. change (Z.to_nat 1) with 1%nat. cbn [drop].
  rewrite (take_ge inf) by lia. rewrite wr_block_Ok by lia. iso_red. rewrite <- (toggle b) by done.
  destruct more; [done|]. rewrite rd_block_Ok by (rewrite ?length_app, ?length_take, ?length_drop; lia). done.
Qed.

(** ** The phases of a transfer *)

(** The octets of the answer, and what the tag has after a part. *)
Definition answer : list Z := respond (c0 ++ [cmd]).
Context (Hrl : zlen answer <= rl).

Definition is_frame (e : iso_event) : Prop := match e with ReadyToSend _ _ => True | _ => False end.
(** [m] is on its way; only frames were handed out before. *)
Definition flight (m : list Z) (o : list iso_event) : Prop :=
  exists evs, o = o0 ++ evs ++ [ReadyToSend m fdt] /\ Forall is_frame evs.

Lemma flight_next m m' o : flight m o -> flight m' (o ++ [ReadyToSend m' fdt]).
Proof.
  intros (evs & -> & He). exists (evs ++ [ReadyToSend m fdt]). rewrite <- !app_assoc. split; [done|].
  apply Forall_app. split; [done|]. by repeat constructor.
Qed.

Lemma flight_last m o : flight m o -> last o = Some (ReadyToSend m fdt).
Proof. intros (evs & -> & _). by rewrite app_assoc, last_snoc. Qed.

(** The block with the part of the answer from [r] on. *)
Definition rblock (b r : Z) : list Z :=
  i_pcb b (bool_decide (pn < length (drop (Z.to_nat r) answer))%nat) :: take pn (drop (Z.to_nat r) answer).

(** The tag before and after the part of the command from [off] on, and before
    and after the part of the answer from [r] on; [b] is the block number of
    the reader. *)
Definition tag_before (off b : Z) (p : picc) : Prop :=
  p_num p = 1 - b /\ p_got p = take (Z.to_nat off) cmd /\ p_cmds p = c0.
Definition tag_after (off b : Z) (p : picc) : Prop :=
  p_num p = b /\
  if cmore off then p_got p = take (Z.to_nat (off + csize off)) cmd /\ p_cmds p = c0 /\ p_last p = [r_ack b]
  else p_got p = [] /\ p_cmds p = c0 ++ [cmd] /\ p_rest p = drop pn answer /\ p_last p = rblock b 0.
Definition tag_asked (r b : Z) (p : picc) : Prop :=
  p_num p = 1 - b /\ p_got p = [] /\ p_cmds p = c0 ++ [cmd] /\ p_rest p = drop (Z.to_nat r) answer.
Definition tag_sent (r b : Z) (p : picc) : Prop :=
  p_num p = b /\ p_got p = [] /\ p_cmds p = c0 ++ [cmd] /\ p_rest p = drop pn (drop (Z.to_nat r) answer) /\ p_last p = rblock b r.

(** The reader waits for the answer to the part from [off] on, after at most
    [l] failures, and at most [lt] of them before the last repetition; fewer than
    [f] failures are left before it gives up, whatever frames arrive in between. *)
Definition sending (off b l lt f : Z) (o : list iso_event) (w : iso) : Prop :=
  exists x tx rx rc rt,
    w = wst ISODEP_STATE_TRANSFER ISODEP_FRAME_I (x :: tx) (1 + csize off) rx 0 rc rt b (off + csize off) (cmore off) o /\
    zlen (x :: tx) = tl /\ take (Z.to_nat (csize off)) tx = cpart off /\ zlen rx = rl /\
    block b /\ 0 <= off < zlen cmd /\ 0 <= rc <= Z.min 5 l /\ 0 <= rt <= lt /\ 6 * (zlen cmd - off) - rc <= f.

(** The reader has the answer up to [r]. *)
Definition receiving (r b l f : Z) (o : list iso_event) (w : iso) : Prop :=
  exists x tx txl rx rc rt off ch,
    w = wst ISODEP_STATE_TRANSFER ISODEP_FRAME_I_CHAINING (x :: tx) txl rx r rc rt b off ch o /\
    zlen (x :: tx) = tl /\ take (Z.to_nat r) rx = take (Z.to_nat r) answer /\ zlen rx = rl /\ block b /\ 0 < r < zlen answer /\ 0 <= rc <= Z.min 5 l /\ 6 - rc <= f.

(** The answer was delivered, and the reader and the tag are ready for the next
    command. *)
Definition finished (evs : list iso_event) (w : iso) (p : picc) : Prop :=
  exists x tx txl rx rxl rc rt b off ch,
    w = wst ISODEP_STATE_SELECTED ISODEP_FRAME_I (x :: tx) txl rx rxl rc rt b off ch (o0 ++ evs ++ [DataReceived answer]) /\
    zlen (x :: tx) = tl /\ zlen rx = rl /\ block b /\ Forall is_frame evs /\
    p_cmds p = c0 ++ [cmd] /\ p_num p = 1 - b /\ p_got p = [].

(** The phases, with a bound of the frames that have to arrive, the number of
    failures so far and a bound of the failures to come. *)
Inductive phase : Z -> Z -> Z -> iso -> picc -> Prop :=
  | PartSent m l f w p off b o :
      sending off b l l f o w -> flight (i_pcb b (cmore off) :: cpart off) o -> tag_before off b p ->
      zlen cmd - off + zlen answer <= m -> phase m l f w p
  | PartAsked m l f w p off b o :
      sending off b l (l - 1) f o w -> flight [r_nak b] o -> tag_before off b p ->
      zlen cmd - off + zlen answer + 1 <= m -> phase m l f w p
  | PartThere m l f w p off b o :
      sending off b l (l - 1) f o w -> flight [r_nak b] o -> tag_after off b p ->
      zlen cmd - off + zlen answer <= m -> phase m l f w p
  | MoreAsked m l f w p r b o :
      receiving r b l f o w -> flight [r_ack b] o -> tag_asked r b p -> zlen answer - r <= m -> phase m l f w p
  | MoreThere m l f w p r b o :
      receiving r b l f o w -> flight [r_ack b] o -> tag_sent r b p -> zlen answer - r <= m -> phase m l f w p
  | Finished m l f w p evs :
      finished evs w p -> 0 <= m -> phase m l f w p.

Lemma phase_mono m m' l l' f f' w p : phase m l f w p -> m <= m' -> l <= l' -> f <= f' -> phase m' l' f' w p.
Proof.
  intros H Hm Hl Hff. destruct H as [???????? (x & tx & rx & rc & rt & Hs)|???????? (x & tx & rx & rc & rt & Hs)|
    ???????? (x & tx & rx & rc & rt & Hs)|???????? (x & tx & txl & rx & rc & rt & off & ch & Hs)|
    ???????? (x & tx & txl & rx & rc & rt & off & ch & Hs)|???????].
  - eapply PartSent; [|done..|lia]. exists x, tx, rx, rc, rt. naive_solver lia.
  - eapply PartAsked; [|done..|lia]. exists x, tx, rx, rc, rt. naive_solver lia.
  - eapply PartThere; [|done..|lia]. exists x, tx, rx, rc, rt. naive_solver lia.
  - eapply MoreAsked; [|done..|lia]. exists x, tx, txl, rx, rc, rt, off, ch. naive_solver lia.
  - eapply MoreThere; [|done..|lia]. exists x, tx, txl, rx, rc, rt, off, ch. naive_solver lia.
  - eapply Finished; [done|lia].
Qed.

(** *** The tag *)

Lemma picc_same p x : block (p_num p) -> x = r_nak (p_num p) \/ x = r_ack (p_num p) ->
  picc_step respond pn p [x] = (p, p_last p).
Proof. intros [E|E] Hx; rewrite E in Hx; destruct Hx as [-> | ->]; cbn; rewrite E; done. Qed.

Lemma picc_other b p off :
  block b -> tag_before off b p ->
  exists p', picc_step respond pn p [r_nak b] = (p', [r_ack (1 - b)]) /\ tag_before off b p'.
Proof.
  intros Hb (En & Eg & Ec). eexists. split.
  - destruct Hb as [-> | ->]; cbn; rewrite En; reflexivity.
  - split; [|split]; cbn; done.
Qed.

Lemma take_csize off : 0 <= off < zlen cmd ->
  take (Z.to_nat off) cmd ++ cpart off = take (Z.to_nat (off + csize off)) cmd.
Proof. intros. unfold cpart. rewrite take_take_drop, <- Z2Nat.inj_add by (unfold csize; lia). done. Qed.

Lemma csize_last off : 0 <= off < zlen cmd -> cmore off = false -> off + csize off = zlen cmd.
Proof. unfold cmore, csize. intros. lia. Qed.
Lemma csize_more off : 0 <= off < zlen cmd -> cmore off = true -> 1 <= csize off /\ off + csize off < zlen cmd.
Proof. unfold cmore, csize. intros. lia. Qed.

(** The part of a command arrives. *)
Lemma picc_part off b p :
  block b -> 0 <= off < zlen cmd -> tag_before off b p ->
  exists p', picc_step respond pn p (i_pcb b (cmore off) :: cpart off) = (p', p_last p') /\ tag_after off b p'.
Proof.
  intros Hb Hoff (En & Eg & Ec). cbn [picc_step].
  replace (Z.land (i_pcb b (cmore off)) 0xE2) with 2 by (destruct Hb as [-> | ->], (cmore off); done).
  replace (Z.testbit (i_pcb b (cmore off)) 4) with (cmore off) by (destruct Hb as [-> | ->], (cmore off); done).
  cbn [Z.eqb Pos.eqb]. rewrite En, Eg, Ec, take_csize by done. replace (1 - (1 - b)) with b by lia.
  unfold tag_after. destruct (cmore off) eqn:E.
  - match goal with |- exists p', (?q, _) = _ /\ _ => exists q end. done.
  - rewrite csize_last, take_ge by (done || lia). unfold p_send. fold answer.
    match goal with |- exists p', (?q, _) = _ /\ _ => exists q end. done.
Qed.

(** The reader asks for more of the answer. *)
Lemma picc_more r b p :
  block b -> tag_asked r b p ->
  exists p', picc_step respond pn p [r_ack b] = (p', rblock b r) /\ tag_sent r b p'.
Proof.
  intros Hb (En & Eg & Ec & Er). eexists. split.
  - destruct Hb as [-> | ->]; cbn [picc_step]; rewrite En; unfold p_send; rewrite Ec, Er; reflexivity.
  - split; [cbn; destruct Hb; lia|]. split; [done|]. split; [done|]. split; [done|]. unfold rblock.
    destruct Hb as [-> | ->]; done.
Qed.

(** *** The reader *)

Lemma rblock_receive w p r b l f x tx txl rx rc rt off ch lf o m :
  w = wst ISODEP_STATE_TRANSFER lf (x :: tx) txl rx r rc rt b off ch o -> zlen (x :: tx) = tl -> flight m o ->
  take (Z.to_nat r) rx = take (Z.to_nat r) answer -> zlen rx = rl -> block b -> 0 <= r <= zlen answer -> 0 <= rc <= Z.min 5 l -> 6 - rc <= f ->
  p_num p = b -> p_got p = [] -> p_cmds p = c0 ++ [cmd] -> p_rest p = drop pn (drop (Z.to_nat r) answer) ->
  exists w', nfc_t4t_isodep_data_received w (Some (rblock b r)) (zlen (rblock b r)) 0 0 = Ok (w', 0) /\
    phase (Z.max 0 (zlen answer - r - 1)) l f w' p.
Proof.
  intros -> Htx Hf Hrx Hrl' Hb Hr Hrc Hff Hn Hg Hc Hrest. unfold rblock. set (inf := take pn (drop (Z.to_nat r) answer)).
  set (more := bool_decide _).
  assert (Li : zlen inf = Z.min (Z.of_nat pn) (zlen answer - r)) by (unfold inf; rewrite length_take, length_drop; lia).
  assert (Hmore : more = true <-> r + zlen inf < zlen answer).
  { unfold more. rewrite bool_decide_eq_true, length_drop. lia. }
  pose proof (i_handle ISODEP_STATE_TRANSFER lf (x :: tx) txl rx r rc rt b off ch o more inf Hb Hrl' ltac:(lia) ltac:(lia)) as E.
  cbn zeta in E. set (rx' := take (Z.to_nat r) rx ++ inf ++ drop (Z.to_nat r + length inf) rx) in *.
  assert (Lr : zlen rx' = rl) by (unfold rx'; rewrite !length_app, length_take, length_drop; lia).
  assert (Er : take (Z.to_nat (r + zlen inf)) rx' = take (Z.to_nat r + pn) answer).
  { unfold rx'. rewrite app_assoc, take_app_length' by (rewrite length_app, length_take; lia).
    rewrite Hrx. unfold inf. by rewrite take_take_drop. }
  assert (Hb' : block (1 - b)) by (unfold block in *; lia).
  destruct more eqn:Em.
  - rewrite (r_send true) in E by done. iso_red. cbn [mbind res_bind] in E.
    eexists. split; [apply received_frame; [done|done|cbn [length]; lia|]; rewrite frame_i by done; exact E|].
    assert (r + zlen inf < zlen answer) by (by apply Hmore).
    eapply phase_mono; [eapply (MoreAsked (zlen answer - (r + zlen inf)) l f _ p (r + zlen inf) (1 - b))|lia|lia|lia].
    + eexists _, _, _, _, _, _, _, _. split; [reflexivity|]. split; [done|]. rewrite Er. split; [f_equal; lia|].
      split; [done|]. split; [done|]. split; [lia|]. done.
    + by eapply flight_next.
    + split; [lia|]. split; [done|]. split; [done|]. rewrite Hrest, drop_drop. f_equal. lia.
    + lia.
  - assert (~ (r + zlen inf < zlen answer)) by (rewrite <- Hmore; done).
    eexists. split; [apply received_frame; [done|done|cbn [length]; lia|]; rewrite frame_i by done; exact E|].
    destruct Hf as (evs & -> & Hevs).
    eapply phase_mono; [eapply (Finished 0 l f _ p (evs ++ [ReadyToSend m fdt])); [|lia]|lia|lia|lia].
    eexists _, _, _, _, _, _, _, _, _, _. rewrite Er, take_ge by lia. rewrite <- !app_assoc. split; [reflexivity|].
    split; [done|]. split; [done|]. split; [done|]. split; [apply Forall_app; split; [done|by repeat constructor]|].
    split; [done|]. split; [lia|done].
Qed.

(** The tag has the part of the command. *)
Lemma part_done off b l lt f o m w p :
  sending off b l lt f o w -> flight m o -> tag_after off b p ->
  exists w', nfc_t4t_isodep_data_received w (Some (p_last p)) (zlen (p_last p)) 0 0 = Ok (w', 0) /\
    phase (zlen cmd - off + zlen answer - 1) l f w' p.
Proof.
  intros (x & tx & rx & rc & rt & -> & Htx & Hpart & Hrx & Hb & Hoff & Hrc & Hrt & Hff) Hf (En & Ht).
  assert (Hb' : block (1 - b)) by (unfold block in *; lia).
  destruct (cmore off) eqn:Em.
  - destruct Ht as (Eg & Ec & ->). destruct (csize_more off Hoff Em) as [H1 H2].
    assert (Hoff' : 0 <= off + csize off < zlen cmd) by lia.
    change (zlen [r_ack b]) with 1. rewrite receive_ack by (done || lia). eexists. split; [reflexivity|].
    eapply phase_mono; [eapply (PartSent (zlen cmd - (off + csize off) + zlen answer) l f _ p (off + csize off) (1 - b))|lia|lia|lia].
    + eexists _, _, _, _, _. split; [reflexivity|]. pose proof (cpart_length (off + csize off) ltac:(lia)) as Lc.
      assert (csize (off + csize off) <= fsc tg - 1) by (unfold csize; lia).
      split; [cbn [length] in *; rewrite length_app, length_drop; lia|].
      split; [by rewrite take_app_length' by lia|]. split; [done|]. split; [done|]. split; [done|]. split; [lia|]. split; lia.
    + by eapply flight_next.
    + split; [lia|done].
    + lia.
  - destruct Ht as (Eg & Ec & Er & ->).
    destruct (rblock_receive (wst ISODEP_STATE_TRANSFER ISODEP_FRAME_I (x :: tx) (1 + csize off) rx 0 rc rt b (off + csize off)
      false o) p 0 b l f x tx (1 + csize off) rx rc rt (off + csize off) false ISODEP_FRAME_I o m)
      as (w' & E & Hp); try done; try lia.
    exists w'. split; [exact E|]. eapply phase_mono; [exact Hp|lia|lia|lia].
Qed.

(** The part of the answer from [r] on arrives. *)
Lemma more_done r b l f o m w p :
  receiving r b l f o w -> flight m o -> tag_sent r b p ->
  exists w', nfc_t4t_isodep_data_received w (Some (rblock b r)) (zlen (rblock b r)) 0 0 = Ok (w', 0) /\
    phase (zlen answer - r - 1) l f w' p.
Proof.
  intros (x & tx & txl & rx & rc & rt & off & ch & -> & Htx & Hpre & Hrx & Hb & Hr & Hrc & Hff) Hf (En & Eg & Ec & Er & El).
  destruct (rblock_receive (wst ISODEP_STATE_TRANSFER ISODEP_FRAME_I_CHAINING (x :: tx) txl rx r rc rt b off ch o) p r b l f
    x tx txl rx rc rt off ch ISODEP_FRAME_I_CHAINING o m) as (w' & E & Hp); try done; try lia.
  exists w'. split; [exact E|]. eapply phase_mono; [exact Hp|lia|lia|lia].
Qed.

(** *** Steps *)

(** The most failures that the recovery copes with. *)
Definition max_failures : Z := Z.min 3 (Z.min NAK_RETRY ACK_RETRY).

(** The module gives up: the last event is an error. *)
Definition broken (w : iso) (p : picc) : Prop :=
  exists evs e, out w = o0 ++ evs ++ [Error e] /\ Forall is_frame evs /\ (p_cmds p = c0 \/ p_cmds p = c0 ++ [cmd]).

Lemma broken_intro m o e w p :
  flight m o -> out w = o ++ [Error e] -> p_cmds p = c0 \/ p_cmds p = c0 ++ [cmd] -> broken w p.
Proof.
  intros (evs & -> & He) Ho Hp. exists (evs ++ [ReadyToSend m fdt]), e. split; [by rewrite Ho, <- !app_assoc|].
  split; [|done]. apply Forall_app. split; [done|]. by repeat constructor.
Qed.

Lemma received_error w r :
  1 <= zlen r -> nfc_t4t_isodep_data_received w (Some r) (zlen r) 1 0 =
    (let* w := isodep_error_handle false w in Ok (w, 0)).
Proof. intros. unfold nfc_t4t_isodep_data_received. by rewrite (proj2 (Z.ltb_ge _ 1)) by lia. Qed.

Lemma sending_error t off b l lt f o m w :
  sending off b l lt f o w -> flight m o -> lt <= l ->
  exists w', isodep_error_handle t w = Ok w' /\
    ((exists o', out w' = o' /\ sending off b (l + 1) l (f - 1) o' w' /\ flight [r_nak b] o') \/
     max_failures < l + 1 /\ exists e, out w' = o ++ [Error e]).
Proof.
  intros (x & tx & rx & rc & rt & -> & Htx & Hpart & Hrx & Hb & Hoff & Hrc & Hrt & Hff) Hf Hlt.
  destruct (decide (rc + 1 <= NAK_RETRY)) as [Hl|Hl]; pose proof nak_retry_range.
  - rewrite error_i by (done || lia). eexists. split; [reflexivity|]. left. eexists. split; [reflexivity|].
    split; [|by eapply flight_next]. eexists _, _, _, _, _. split; [reflexivity|]. split; [done|]. split; [done|].
    split; [done|]. split; [done|]. split; [done|]. split; [lia|]. split; lia.
  - destruct (error_limit t ISODEP_STATE_TRANSFER ISODEP_FRAME_I (x :: tx) (1 + csize off) rx 0 rc rt b
      (off + csize off) (cmore off) o) as (w' & e & -> & Ho); [left; split; [done|lia]|]. eexists. split; [reflexivity|].
    right. split; [unfold max_failures; lia|eauto].
Qed.

Lemma receiving_error t r b l f o m w :
  receiving r b l f o w -> flight m o ->
  exists w', isodep_error_handle t w = Ok w' /\
    ((exists o', out w' = o' /\ receiving r b (l + 1) (f - 1) o' w' /\ flight [r_ack b] o') \/
     max_failures < l + 1 /\ exists e, out w' = o ++ [Error e]).
Proof.
  intros (x & tx & txl & rx & rc & rt & off & ch & -> & Htx & Hpre & Hrx & Hb & Hr & Hrc & Hff) Hf.
  destruct (decide (rc + 1 <= ACK_RETRY)) as [Hl|Hl]; pose proof ack_retry_range.
  - rewrite error_chaining by (done || lia). eexists. split; [reflexivity|]. left. eexists. split; [reflexivity|].
    split; [|by eapply flight_next]. eexists _, _, _, _, _, _, _, _. split; [reflexivity|]. split; [done|]. split; [done|].
    split; [done|]. split; [done|]. split; [done|]. split; lia.
  - destruct (error_limit t ISODEP_STATE_TRANSFER ISODEP_FRAME_I_CHAINING (x :: tx) txl rx r rc rt b off ch o)
      as (w' & e & -> & Ho); [right; split; [done|lia]|]. eexists. split; [reflexivity|].
    right. split; [unfold max_failures; lia|eauto].
Qed.

(** A frame and its answer arrive. *)
Lemma phase_arrives m l f w p :
  phase (m + 1) l f w p -> 0 <= m ->
  exists w' p', link_step respond pn Arrives w p = Ok (w', p') /\
    (phase m l f w' p' \/ max_failures < l /\ broken w' p').
Proof.
  intros H Hm. unfold link_step.
  inversion H as [? ? ? ? ? off b o Hs Hf Ht Hk|? ? ? ? ? off b o Hs Hf Ht Hk|? ? ? ? ? off b o Hs Hf Ht Hk|
    ? ? ? ? ? r b o Hs Hf Ht Hk|? ? ? ? ? r b o Hs Hf Ht Hk|? ? ? ? ? evs Hd Hk]; subst.
  - assert (Eo : out w = o) by (by destruct Hs as (? & ? & ? & ? & ? & -> & _)).
    rewrite Eo, (flight_last _ _ Hf). pose proof Hs as (? & ? & ? & ? & ? & _ & _ & _ & _ & Hb & Hoff & _).
    destruct (picc_part off b p Hb Hoff Ht) as (p' & -> & Ht').
    destruct (part_done _ _ _ _ _ _ _ _ _ Hs Hf Ht') as (w' & -> & Hw'). cstep. eexists _, _. split; [reflexivity|]. left.
    eapply phase_mono; [done|lia|lia|lia].
  - pose proof Hs as (x & tx & rx & rc & rt & -> & Htx & Hpart & Hrx & Hb & Hoff & Hrc & Hrt & Hff). iso_red.
    rewrite (flight_last _ _ Hf). destruct (picc_other b p off Hb Ht) as (p' & -> & Ht'). change (zlen [r_ack (1 - b)]) with 1.
    pose proof (cpart_length off ltac:(lia)) as Lc. assert (1 <= csize off <= fsc tg - 1) by (unfold csize; lia).
    destruct (decide (rt <= 2)) as [H2|H2].
    2: { edestruct receive_limit as (w' & e & -> & Ho); [done|lia|]. cstep. eexists _, _. split; [reflexivity|]. right.
      split; [unfold max_failures; lia|]. eapply broken_intro; [done|done|left; apply Ht']. }
    rewrite receive_other_ack by (done || lia). cstep. eexists _, _. split; [reflexivity|]. left.
    eapply (PartSent m l f _ p' off b); [| |done|lia].
    + eexists _, _, _, _, _. split; [reflexivity|]. split; [done|]. split; [done|]. split; [done|]. split; [done|].
      split; [done|]. split; [lia|]. split; lia.
    + replace (take (Z.to_nat (1 + csize off)) (i_pcb b (cmore off) :: tx)) with (i_pcb b (cmore off) :: cpart off);
        [by eapply flight_next|]. rewrite Z2Nat.inj_add by lia. change (Z.to_nat 1) with 1%nat. cbn [Nat.add take].
      by rewrite Hpart.
  - assert (Eo : out w = o) by (by destruct Hs as (? & ? & ? & ? & ? & -> & _)).
    rewrite Eo, (flight_last _ _ Hf). pose proof Hs as (? & ? & ? & ? & ? & _ & _ & _ & _ & Hb & Hoff & _).
    assert (En : p_num p = b) by apply Ht. rewrite picc_same by (rewrite En; auto).
    destruct (part_done _ _ _ _ _ _ _ _ _ Hs Hf Ht) as (w' & -> & Hw'). cstep. eexists _, _. split; [reflexivity|]. left.
    eapply phase_mono; [done|lia|lia|lia].
  - assert (Eo : out w = o) by (by destruct Hs as (? & ? & ? & ? & ? & ? & ? & ? & -> & _)).
    rewrite Eo, (flight_last _ _ Hf). pose proof Hs as (? & ? & ? & ? & ? & ? & ? & ? & _ & _ & _ & _ & Hb & Hr & _).
    destruct (picc_more r b p Hb Ht) as (p' & -> & Ht').
    destruct (more_done _ _ _ _ _ _ _ _ Hs Hf Ht') as (w' & -> & Hw'). cstep. eexists _, _. split; [reflexivity|]. left.
    eapply phase_mono; [done|lia|lia|lia].
  - assert (Eo : out w = o) by (by destruct Hs as (? & ? & ? & ? & ? & ? & ? & ? & -> & _)).
    rewrite Eo, (flight_last _ _ Hf). pose proof Hs as (? & ? & ? & ? & ? & ? & ? & ? & _ & _ & _ & _ & Hb & Hr & _).
    assert (En : p_num p = b) by apply Ht. rewrite picc_same by (rewrite En; auto).
    assert (El : p_last p = rblock b r) by apply Ht. rewrite El.
    destruct (more_done _ _ _ _ _ _ _ _ Hs Hf Ht) as (w' & -> & Hw'). cstep. eexists _, _. split; [reflexivity|]. left.
    eapply phase_mono; [done|lia|lia|lia].
  - assert (Eo : out w = o0 ++ evs ++ [DataReceived answer])
      by (by destruct Hd as (? & ? & ? & ? & ? & ? & ? & ? & ? & ? & -> & _)).
    rewrite Eo, app_assoc, last_snoc. eexists _, _. split; [reflexivity|]. left. by eapply Finished.
Qed.

(** What the tag sends last has at least its first octet. *)
Lemma last_nonempty off b p : tag_after off b p -> 1 <= zlen (p_last p).
Proof.
  intros [_ Ht]. destruct (cmore off); [destruct Ht as (_ & _ & ->)|destruct Ht as (_ & _ & _ & ->)]; unfold rblock; cbn [length]; lia.
Qed.

Lemma tag_after_cmds off b p : tag_after off b p -> p_cmds p = c0 \/ p_cmds p = c0 ++ [cmd].
Proof. intros (_ & Ht). destruct (cmore off); [left|right]; apply Ht. Qed.

Lemma link_fails f w p m p' r o :
  f <> Arrives -> out w = o -> flight m o -> picc_step respond pn p m = (p', r) -> 1 <= zlen r ->
  exists t, link_step respond pn f w p =
    (let* w := isodep_error_handle t w in Ok (w, if decide (f = FrameLost) then p else p')).
Proof.
  intros Hf Eo Hfl Hp Hr. unfold link_step. rewrite Eo, (flight_last _ _ Hfl), Hp.
  destruct f; [done|exists true|exists true|exists false]; cbn [decide]; try done.
  rewrite received_error by done. by destruct (isodep_error_handle false w).
Qed.

(** A frame or its answer does not arrive. *)
Lemma phase_fails f m l fl w p :
  f <> Arrives -> phase m l fl w p ->
  exists w' p', link_step respond pn f w p = Ok (w', p') /\
    (phase (m + 1) (l + 1) (fl - 1) w' p' \/ max_failures < l + 1 /\ broken w' p').
Proof.
  intros Hne H.
  inversion H as [? ? ? ? ? off b o Hs Hf Ht Hk|? ? ? ? ? off b o Hs Hf Ht Hk|? ? ? ? ? off b o Hs Hf Ht Hk|
    ? ? ? ? ? r b o Hs Hf Ht Hk|? ? ? ? ? r b o Hs Hf Ht Hk|? ? ? ? ? evs Hd Hk]; subst.
  - assert (Eo : out w = o) by (by destruct Hs as (? & ? & ? & ? & ? & -> & _)).
    pose proof Hs as (? & ? & ? & ? & ? & _ & _ & _ & _ & Hb & Hoff & _).
    destruct (picc_part off b p Hb Hoff Ht) as (p' & Hp & Ht').
    destruct (link_fails f w p _ _ _ o Hne Eo Hf Hp) as (t & ->); [by apply (last_nonempty off b)|].
    destruct (sending_error t _ _ _ _ _ _ _ _ Hs Hf) as (w' & -> & [(o' & Eo' & Hs' & Hf')|(Hl & e & Ho)]); [lia|..]; cstep;
      (eexists _, _; split; [reflexivity|]); [left|right; split; [done|]; eapply broken_intro; [done|done|case_decide; [left; apply Ht|by eapply tag_after_cmds]]]. case_decide.
    + eapply PartAsked; [|done..|lia]. by replace (l + 1 - 1) with l by lia.
    + eapply PartThere; [|done..|lia]. by replace (l + 1 - 1) with l by lia.
  - assert (Eo : out w = o) by (by destruct Hs as (? & ? & ? & ? & ? & -> & _)).
    pose proof Hs as (? & ? & ? & ? & ? & _ & _ & _ & _ & Hb & Hoff & _).
    destruct (picc_other b p off Hb Ht) as (p' & Hp & Ht').
    destruct (link_fails f w p _ _ _ o Hne Eo Hf Hp) as (t & ->); [cbn; lia|].
    destruct (sending_error t _ _ _ _ _ _ _ _ Hs Hf) as (w' & -> & [(o' & Eo' & Hs' & Hf')|(Hl & e & Ho)]); [lia|..]; cstep;
      (eexists _, _; split; [reflexivity|]); [left|right; split; [done|]; eapply broken_intro; [done|done|left; case_decide; [apply Ht|apply Ht']]].
    eapply PartAsked; [|done|by case_decide|lia]. by replace (l + 1 - 1) with l by lia.
  - assert (Eo : out w = o) by (by destruct Hs as (? & ? & ? & ? & ? & -> & _)).
    pose proof Hs as (? & ? & ? & ? & ? & _ & _ & _ & _ & Hb & Hoff & _).
    assert (En : p_num p = b) by apply Ht.
    assert (Hp : picc_step respond pn p [r_nak b] = (p, p_last p)) by (apply picc_same; rewrite En; auto).
    destruct (link_fails f w p _ _ _ o Hne Eo Hf Hp) as (t & ->); [by apply (last_nonempty off b)|].
    destruct (sending_error t _ _ _ _ _ _ _ _ Hs Hf) as (w' & -> & [(o' & Eo' & Hs' & Hf')|(Hl & e & Ho)]); [lia|..]; cstep;
      (eexists _, _; split; [reflexivity|]); [left|right; split; [done|]; eapply broken_intro; [done|done|case_decide; by eapply tag_after_cmds]].
    eapply PartThere; [|done|by case_decide|lia]. by replace (l + 1 - 1) with l by lia.
  - assert (Eo : out w = o) by (by destruct Hs as (? & ? & ? & ? & ? & ? & ? & ? & -> & _)).
    pose proof Hs as (? & ? & ? & ? & ? & ? & ? & ? & _ & _ & _ & _ & Hb & Hr & _).
    destruct (picc_more r b p Hb Ht) as (p' & Hp & Ht').
    destruct (link_fails f w p _ _ _ o Hne Eo Hf Hp) as (t & ->); [unfold rblock; cbn [length]; lia|].
    destruct (receiving_error t _ _ _ _ _ _ _ Hs Hf) as (w' & -> & [(o' & Eo' & Hs' & Hf')|(Hl & e & Ho)]); cstep;
      (eexists _, _; split; [reflexivity|]); [left|right; split; [done|]; eapply broken_intro; [done|done|right; case_decide; [apply Ht|apply Ht']]]. case_decide; [eapply MoreAsked; [done|done|done|lia]|eapply MoreThere; [done|done|done|lia]].
  - assert (Eo : out w = o) by (by destruct Hs as (? & ? & ? & ? & ? & ? & ? & ? & -> & _)).
    pose proof Hs as (? & ? & ? & ? & ? & ? & ? & ? & _ & _ & _ & _ & Hb & Hr & _).
    assert (En : p_num p = b) by apply Ht. assert (El : p_last p = rblock b r) by apply Ht.
    assert (Hp : picc_step respond pn p [r_ack b] = (p, p_last p)) by (apply picc_same; rewrite En; auto).
    destruct (link_fails f w p _ _ _ o Hne Eo Hf Hp) as (t & ->); [rewrite El; unfold rblock; cbn [length]; lia|].
    destruct (receiving_error t _ _ _ _ _ _ _ Hs Hf) as (w' & -> & [(o' & Eo' & Hs' & Hf')|(Hl & e & Ho)]); cstep;
      (eexists _, _; split; [reflexivity|]); [left|right; split; [done|]; eapply broken_intro; [done|done|right; case_decide; apply Ht]]. case_decide; (eapply MoreThere; [done|done|done|lia]).
  - assert (Eo : out w = o0 ++ evs ++ [DataReceived answer])
      by (by destruct Hd as (? & ? & ? & ? & ? & ? & ? & ? & ? & ? & -> & _)).
    unfold link_step. rewrite Eo, app_assoc, last_snoc. eexists _, _. split; [reflexivity|]. left. eapply Finished; [done|lia].
Qed.

(** The number of failures in a list of fates. *)
Definition failures (fts : list fate) : Z := zlen (filter (fun f => f <> Arrives) fts).

Lemma finished_stays evs w p fts : finished evs w p -> link_run respond pn fts w p = Ok (w, p).
Proof.
  intros H. assert (Eo : out w = o0 ++ evs ++ [DataReceived answer])
    by (by destruct H as (? & ? & ? & ? & ? & ? & ? & ? & ? & ? & -> & _)).
  induction fts as [|f fts IH]; [done|]. cbn [link_run]. unfold link_step. by rewrite Eo, app_assoc, last_snoc.
Qed.

Lemma phase_done m l f w p : phase m l f w p -> m <= 0 -> exists evs, finished evs w p.
Proof.
  destruct 1 as [???????? (x & tx & rx & rc & rt & Hs)|???????? (x & tx & rx & rc & rt & Hs)|
    ???????? (x & tx & rx & rc & rt & Hs)|???????? (x & tx & txl & rx & rc & rt & off & ch & Hs)|
    ???????? (x & tx & txl & rx & rc & rt & off & ch & Hs)|???????]; [lia..|eauto].
Qed.

Lemma broken_stays w p fts : broken w p -> link_run respond pn fts w p = Ok (w, p).
Proof.
  intros (evs & e & Eo & _). induction fts as [|f fts IH]; [done|].
  cbn [link_run]. unfold link_step. by rewrite Eo, app_assoc, last_snoc.
Qed.

(** A run returns, whatever the fates; within the limit it does not break off
    and gets nearer to the end. *)
Lemma phase_run fts : forall m l f w p,
  phase m l f w p -> 0 <= m -> 0 <= l ->
  exists w' p', link_run respond pn fts w p = Ok (w', p') /\
    (phase (Z.max 0 (m + 2 * failures fts - zlen fts)) (l + failures fts) (f - failures fts) w' p' \/
     max_failures < l + failures fts /\ broken w' p').
Proof.
  induction fts as [|ft fts IH]; intros m l f w p H Hm Hl.
  - eexists _, _. split; [reflexivity|]. left. change (failures []) with 0. change (zlen (@nil fate)) with 0.
    eapply phase_mono; [done|lia|lia|lia].
  - destruct (decide (m <= 0)) as [Hm0|Hm0].
    { destruct (phase_done _ _ _ _ _ H Hm0) as (evs & Hd). exists w, p. split; [by eapply finished_stays|].
      left. eapply Finished; [done|lia]. }
    cbn [link_run]. unfold failures. rewrite filter_cons. case_decide as Hf; fold (failures fts); cbn [length].
    + destruct (phase_fails ft m l f w p Hf H) as (w1 & p1 & -> & [H1|(? & H1)]); cstep.
      * destruct (IH (m + 1) (l + 1) (f - 1) w1 p1 H1) as (w2 & p2 & -> & H2); [lia..|]. eexists _, _. split; [reflexivity|].
        destruct H2 as [H2|(? & H2)]; [left; eapply phase_mono; [done|unfold failures in *; lia..]|right].
        split; [unfold failures in *; lia|done].
      * rewrite broken_stays by done. eexists _, _. split; [reflexivity|]. right. split; [unfold failures in *; lia|done].
    + assert (ft = Arrives) as -> by (by destruct (decide (ft = Arrives))).
      destruct (phase_arrives (m - 1) l f w p) as (w1 & p1 & -> & [H1|(? & H1)]); [by replace (m - 1 + 1) with m by lia|lia|..]; cstep.
      * destruct (IH (m - 1) l f w1 p1 H1) as (w2 & p2 & -> & H2); [lia..|]. eexists _, _. split; [reflexivity|].
        destruct H2 as [H2|(? & H2)]; [left; eapply phase_mono; [done|unfold failures in *; lia..]|right].
        split; [unfold failures in *; lia|done].
      * rewrite broken_stays by done. eexists _, _. split; [reflexivity|]. right. split; [unfold failures in *; lia|done].
Qed.

(** A transfer starts with the first part. *)
Lemma phase_start tx rx b p :
  zlen tx + 1 = tl -> zlen rx = rl -> block b -> p_num p = 1 - b -> p_got p = [] -> p_cmds p = c0 ->
  phase (zlen cmd + zlen answer) 0 (6 * zlen cmd)
    (wst ISODEP_STATE_TRANSFER ISODEP_FRAME_I (i_pcb b (cmore 0) :: cpart 0 ++ drop (length (cpart 0)) tx)
       (1 + csize 0) rx 0 0 0 b (csize 0) (cmore 0) (o0 ++ [ReadyToSend (i_pcb b (cmore 0) :: cpart 0) fdt])) p.
Proof.
  intros Htx Hrx Hb Hn Hg Hc. assert (1 <= zlen cmd) by (destruct cmd; cbn [length]; [done|lia]).
  pose proof (cpart_length 0 ltac:(lia)) as Lc. assert (0 <= csize 0 <= fsc tg - 1) by (unfold csize; lia).
  eapply (PartSent _ _ _ _ _ 0 b); [|exists []; split; [done|constructor]|split; [done|split; [exact Hg|done]]|lia].
  eexists _, _, _, _, _. split; [reflexivity|].
  split; [cbn [length]; rewrite length_app, length_drop; lia|]. split; [by rewrite take_app_length' by lia|].
  split; [done|]. split; [done|]. lia.
Qed.

(** What has left the module. *)
Lemma phase_out m l f w p :
  phase m l f w p ->
  exists evs, Forall is_frame evs /\
    (out w = o0 ++ evs /\ (p_cmds p = c0 \/ p_cmds p = c0 ++ [cmd]) /\ 0 < m /\ 0 < f \/ finished evs w p).
Proof.
  assert (Hfl : forall x o, flight x o -> exists evs, o = o0 ++ evs /\ Forall is_frame evs).
  { intros x o (evs & -> & He). exists (evs ++ [ReadyToSend x fdt]). split; [done|].
    apply Forall_app. split; [done|]. by repeat constructor. }
  intros H. destruct (decide (m <= 0)) as [Hm|Hm].
  { destruct (phase_done m l f w p H Hm) as (evs & Hd). pose proof Hd as (?&?&?&?&?&?&?&?&?&?&_&_&_&_&?&_). eauto. }
  destruct H as [m l f w p off b o Hs Hf Ht _|m l f w p off b o Hs Hf Ht _|m l f w p off b o Hs Hf Ht _|
    m l f w p r b o Hs Hf Ht _|m l f w p r b o Hs Hf Ht _|m l f w p evs Hd _];
    [..|pose proof Hd as (?&?&?&?&?&?&?&?&?&?&_&_&_&_&?&_); by eauto];
    destruct (Hfl _ _ Hf) as (evs & -> & He); exists evs; (split; [done|]); left.
  - pose proof Hs as (?&?&?&?&?&->&?). split; [done|]. split; [left; apply Ht|lia].
  - pose proof Hs as (?&?&?&?&?&->&?). split; [done|]. split; [left; apply Ht|lia].
  - pose proof Hs as (?&?&?&?&?&->&?). split; [done|]. split; [|lia].
    destruct Ht as (_ & Ht). destruct (cmore off); [left|right]; apply Ht.
  - pose proof Hs as (?&?&?&?&?&?&?&?&->&?). split; [done|]. split; [right; apply Ht|lia].
  - pose proof Hs as (?&?&?&?&?&?&?&?&->&?). split; [done|]. split; [right; apply Ht|lia].
Qed.
End Transfer.
