(* ===== verification/IsoDepSafe.v ===== *)
(** * The state of ISO-DEP keeps its type

    Every call keeps the fields in their ranges and the lengths within the
    buffers, and touches nothing outside of them, for all frames but those that
    [frame_ok] names; each of these leads outside of a buffer. *)

From stdpp Require Import prelude list.
From Stdlib Require Import ZArith Lia.
From S2P Require Import Prelude IsoDep IsoDepSpec.

Open Scope Z_scope.

(** ** The type of the state *)

Definition buf_ok (b : nfc_t4t_buf) : Prop :=
  exists m, buf_data b = Some m /\ zlen m = buf_size b /\ T4T_FSD_MIN <= buf_size b /\ 0 <= buf_len b <= buf_size b.

(** A frame of the size that the tag takes fits in the transmission buffer. *)
Definition fsc_ok (t : nfc_t4t_isodep_tag) (tx : nfc_t4t_buf) : Prop := 14 <= fsc t <= Z.min (buf_size tx) 65535.

(** There is data to transmit. *)
Definition data_ok (data : option (list Z)) (len transmitted : Z) : Prop :=
  exists d, data = Some d /\ 0 <= transmitted <= len /\ len <= zlen d.

Record iso_ok (w : iso) : Prop := {
  ok_cb : t4t_isodep_cb w <> None;
  ok_tx : buf_ok (tx_data (t4t_isodep w));
  ok_rx : buf_ok (rx_data (t4t_isodep w));
  ok_block : block (block_num (t4t_isodep w));
  ok_retry : 0 <= frame_retry_cnt (err_status (t4t_isodep w)) < 256;
  ok_retransmit : 0 <= retransmit_cnt (t4t_isodep w) < 256;
  ok_historical : zlen (historical (tag (t4t_isodep w))) = NFC_T4T_ISODEP_HIST_MAX_LEN;
  ok_selected : state (t4t_isodep w) = ISODEP_STATE_SELECTED -> fsc_ok (tag (t4t_isodep w)) (tx_data (t4t_isodep w));
  ok_pending : chaining (t4t_isodep w) = true \/ isodep_work w <> None ->
    fsc_ok (tag (t4t_isodep w)) (tx_data (t4t_isodep w)) /\
    data_ok (transmit_data (t4t_isodep w)) (transmit_len (t4t_isodep w)) (transmitted_len (t4t_isodep w))
}.

(** ** Frames *)

Definition announced (t0 : Z) : Z :=
  (if ctrue (Z.land t0 T4T_ATS_T0_TA_PRESENT) then 1 else 0) + (if ctrue (Z.land t0 T4T_ATS_T0_TB_PRESENT) then 1 else 0) +
  (if ctrue (Z.land t0 T4T_ATS_T0_TC_PRESENT) then 1 else 0).

(** An ATS whose length is right has the octets that its second one announces
    and a frame size that is in the table and fits in the buffer. *)
Definition ats_ok (size : Z) (d : list Z) : Prop :=
  2 <= zlen d <= 20 -> zth d 0 = zlen d ->
  2 + announced (zth d 1) <= zlen d /\ Z.land (zth d 1) 0x0F <= 8 /\
  zth fsd_value_map (Z.land (zth d 1) 0x0F) - 2 <= size.

(** A request for more time has its octet, and the end of an answer is not
    received before a tag was selected. *)
Definition wtx_ok (d : list Z) : Prop :=
  Z.land (zth d 0) 0x72 = 0x72 -> (if ctrue (Z.land (zth d 0) I_BLOCK_DID_BIT) then 3 else 2) <= zlen d.

Definition frame_ok (w : iso) (d : list Z) : Prop :=
  bytes d /\
  if ats_expected (t4t_isodep w) then ats_ok (buf_size (tx_data (t4t_isodep w))) d
  else wtx_ok d /\ (Z.land (zth d 0) 0xD2 = 0x02 -> fsc_ok (tag (t4t_isodep w)) (tx_data (t4t_isodep w))).

(** ** Every operation keeps the type *)

Lemma gives_did_include t m (Q : list Z * Z -> Prop) :
  2 <= zlen m -> (forall m' i, length m' = length m -> 1 <= i <= 2 -> Q (m', i)) -> gives (did_include t m 0) Q.
Proof.
  intros Hm HQ. unfold did_include. case_match; [|by apply gives_Ok, HQ].
  apply gives_bind, gives_rd; [lia|]. apply gives_bind, gives_wr; [lia|]. intros m1 H1.
  apply gives_bind, gives_wr; [lia|]. intros m2 H2. apply gives_Ok, HQ; [congruence|lia].
Qed.

(** The pointer to a buffer, and new content. *)
Lemma gives_ptr b (Q : list Z -> Prop) :
  buf_ok b -> (forall m, zlen m = buf_size b -> buf_size b >= 16 -> Q m) -> gives (ptr b) Q.
Proof. intros (m & E & Hm & Hs & _) HQ. unfold ptr. rewrite E. apply gives_Ok, HQ; [done|]. unfold T4T_FSD_MIN in Hs. lia. Qed.

Lemma buf_ok_set b m n : buf_ok b -> zlen m = buf_size b -> 0 <= n <= buf_size b ->
  buf_ok (with_buf_len (with_buf_data b (Some m)) n).
Proof. intros (m0 & _ & _ & Hs & _) Hm Hn. exists m. done. Qed.
Lemma buf_ok_data b m : buf_ok b -> zlen m = buf_size b -> buf_ok (with_buf_data b (Some m)).
Proof. intros (m0 & _ & _ & Hs & Hn) Hm. exists m. done. Qed.
Lemma buf_ok_len b n : buf_ok b -> 0 <= n <= buf_size b -> buf_ok (with_buf_len b n).
Proof. intros (m0 & ? & ? & Hs & _) Hn. exists m0. done. Qed.

Create HintDb iso_ok.
#[export] Hint Resolve ok_cb ok_tx ok_rx ok_block ok_retry ok_retransmit ok_historical ok_selected ok_pending
  buf_ok_set buf_ok_data buf_ok_len : iso_ok.

(** The callbacks leave the state alone. *)
Lemma iso_ok_out w o : iso_ok w -> iso_ok (with_out w o).
Proof. by destruct 1; constructor. Qed.

Lemma gives_notify sel e w (Q : iso -> Prop) : iso_ok w -> (forall w', iso_ok w' -> Q w') -> gives (notify sel e w) Q.
Proof.
  intros H HQ. unfold notify. destruct (t4t_isodep_cb w) eqn:E; [|by destruct (ok_cb w H)].
  apply gives_Ok, HQ. case_match; [by apply iso_ok_out|done].
Qed.

Lemma gives_ready n f w (Q : iso -> Prop) :
  iso_ok w -> 0 <= n <= buf_size (tx_data (t4t_isodep w)) -> (forall w', iso_ok w' -> Q w') -> gives (ready_to_send n f w) Q.
Proof.
  intros H Hn HQ. unfold ready_to_send. apply gives_bind, gives_ptr; [by apply ok_tx|]. intros m Hm Hs.
  apply gives_bind, gives_rd_block; [lia..|]. intros bs _. by apply gives_notify.
Qed.

Lemma iso_ok_clear w : iso_ok w -> iso_ok (isodep_transmission_clear w).
Proof.
  intros H. pose proof (ok_rx w H) as (m & ? & ? & ? & ?). unfold T4T_FSD_MIN in *.
  constructor; unfold isodep_transmission_clear; iso_red; try (by eauto 2 with iso_ok).
  - apply buf_ok_len; [apply H|lia].
  - intros [?|Hw]; [done|]. destruct (ok_pending w H (or_intror Hw)) as (Hf & d & Hd & _).
    split; [done|]. exists d. split; [done|]. lia.
Qed.

Lemma gives_err_notify e w (Q : iso -> Prop) : iso_ok w -> (forall w', iso_ok w' -> Q w') -> gives (err_notify e w) Q.
Proof. intros H HQ. apply gives_notify; [by apply iso_ok_clear|done]. Qed.

(** The fields of an updated state. *)
Ltac iso_fields := constructor; iso_red; try (by eauto 2 with iso_ok); try lia.

Section Operations.
Context (Q : iso -> Prop) (HQ : forall w, iso_ok w -> Q w).

Lemma gives_chunk_send w :
  iso_ok w -> fsc_ok (tag (t4t_isodep w)) (tx_data (t4t_isodep w)) ->
  data_ok (transmit_data (t4t_isodep w)) (transmit_len (t4t_isodep w)) (transmitted_len (t4t_isodep w)) ->
  gives (isodep_chunk_send w) Q.
Proof.
  intros H Hf (d & Hd & Ht & Hl). unfold isodep_chunk_send. rewrite Hd. unfold fsc_ok in Hf.
  apply gives_bind, gives_ptr; [by apply ok_tx|]. intros m Hm Hs. iso_red.
  apply gives_bind, gives_wr; [lia|]. intros m1 H1. apply gives_bind, gives_did_include; [lia|]. intros m2 i H2 Hi.
  apply gives_bind. set (s := t4t_isodep w) in *.
  apply gives_impl with (P := fun '(m3, n, c) => length m3 = length m /\ 0 <= n <= transmit_len s - transmitted_len s /\
    n <= fsc (tag s) - i); [rewrite u32_small by lia; case_match eqn:E|].
  - apply gives_bind, gives_rd; [lia|]. apply gives_bind, gives_wr; [lia|]. intros m3 H3. apply gives_Ok.
    split; [congruence|lia].
  - apply gives_Ok. split; [congruence|lia].
  - intros [[m3 n] c] (H3 & Hn & Hn'). apply gives_bind, gives_rd_block; [lia..|]. intros bs Hbs.
    apply gives_bind, gives_wr_block; [lia..|]. intros m4 H4. iso_red.
    apply gives_ready; [|iso_red; lia|done]. iso_fields.
    + apply buf_ok_set; [apply H|lia|]. fold s. lia.
    + intros _. split; [done|]. exists d. split; [done|]. fold s. lia.
Qed.

Lemma gives_r_send ack w : iso_ok w -> gives (isodep_r_frame_send ack w) Q.
Proof.
  intros H. unfold isodep_r_frame_send. apply gives_bind, gives_ptr; [by apply ok_tx|]. intros m Hm Hs.
  apply gives_bind, gives_wr; [lia|]. intros m1 H1. apply gives_bind, gives_did_include; [lia|]. intros m2 i H2 Hi.
  apply gives_ready; [|iso_red; lia|done]. iso_fields. apply buf_ok_data; [apply H|lia].
Qed.

Lemma gives_wtx_response n w : iso_ok w -> gives (wtx_response n w) Q.
Proof.
  intros H. unfold wtx_response. apply gives_bind, gives_ptr; [by apply ok_tx|]. intros m Hm Hs.
  apply gives_bind, gives_wr; [lia|]. intros m1 H1. apply gives_bind, gives_did_include; [lia|]. intros m2 i H2 Hi.
  apply gives_bind, gives_wr; [lia|]. intros m3 H3.
  apply gives_ready; [|iso_red; lia|done]. iso_fields. apply buf_ok_set; [apply H|lia..].
Qed.

Lemma gives_resend f w : iso_ok w -> gives (resend f w) Q.
Proof.
  intros H. unfold resend. destruct (t4t_isodep_cb w) eqn:E; [|by destruct (ok_cb w H)].
  case_match; [|by apply gives_Ok, HQ]. apply gives_ready; [done| |done].
  destruct (ok_tx w H) as (m & _ & _ & _ & ?). lia.
Qed.

Lemma iso_ok_state w s : iso_ok w -> s <> ISODEP_STATE_SELECTED -> iso_ok (upd (fun x => with_state x s) w).
Proof. intros H Hs. iso_fields. Qed.

Lemma gives_error_handle `{IsodepConfig} t w : iso_ok w -> gives (isodep_error_handle t w) Q.
Proof.
  intros Hw. unfold isodep_error_handle.
  assert (H1 : iso_ok (upd (fun s => set_retry (u8 (frame_retry_cnt (err_status s) + 1)) s) w)).
  { iso_fields. apply u8_range. }
  revert H1. generalize (upd (fun s => set_retry (u8 (frame_retry_cnt (err_status s) + 1)) s) w). clear w Hw. intros w Hw.
  assert (Hstop : forall e, gives (err_notify e (upd (fun s => with_state s ISODEP_STATE_INITIALIZED) w)) Q).
  { intros e. apply gives_err_notify; [by apply iso_ok_state|done]. }
  cbv zeta. destruct (last_frame _); try case_match; auto using gives_resend, gives_r_send.
Qed.
End Operations.

Section Handlers.
Context {CF : IsodepConfig} (Q : iso * Z -> Prop) (HQ : forall w e, iso_ok w -> Q (w, e)).
#[local] Hint Resolve gives_Ok : iso_ok.

(** A state, with the result 0. *)
Lemma gives_zero r : gives r iso_ok -> gives (let* w := r in Ok (w, 0)) Q.
Proof. intros H. apply gives_bind. eapply gives_impl; [exact H|]. intros w Hw. by apply gives_Ok, HQ. Qed.

Lemma gives_retransmit w : iso_ok w -> gives (last_i_block_retransmit w) Q.
Proof.
  intros H. unfold last_i_block_retransmit. case_match; [by apply gives_Ok, HQ|].
  apply gives_bind, gives_ptr; [by apply ok_tx|]. intros m Hm Hs. apply gives_bind, gives_wr; [lia|]. intros m1 H1.
  assert (Hw : iso_ok (upd (set_tx_data m1) w)). { iso_fields. apply buf_ok_data; [apply H|lia]. }
  destruct (t4t_isodep_cb _) eqn:E; [|by destruct (ok_cb _ Hw)]. case_match; [|by apply gives_Ok, HQ].
  apply gives_bind, gives_ready; [done|destruct (ok_tx w H) as (? & _ & _ & _ & ?); iso_red; lia|]. intros w' H'.
  apply gives_Ok, HQ. iso_fields. apply u8_range.
Qed.

Lemma iso_ok_toggle w : iso_ok w -> iso_ok (block_num_toggle w).
Proof. intros H. iso_fields. rewrite toggle by apply H. pose proof (ok_block w H). unfold block in *. lia. Qed.

Lemma gives_ack_handle w x : iso_ok w -> gives (r_frame_ack_handle w x) Q.
Proof.
  intros H. unfold r_frame_ack_handle. case_match; [by apply gives_retransmit|].
  destruct (chaining (t4t_isodep w)) eqn:Ec; cbn [negb]; [|by apply gives_Ok, HQ].
  destruct (ok_pending w H (or_introl Ec)) as (Hf & Hd).
  case_match; [|by apply gives_retransmit]. apply gives_zero, gives_chunk_send; [done|by apply iso_ok_toggle|done|done].
Qed.

Lemma gives_r_handle w d : 1 <= zlen d -> iso_ok w -> gives (isodep_r_frame_handle w d (zlen d)) Q.
Proof.
  intros Hd H. unfold isodep_r_frame_handle. apply gives_bind, gives_rd; [lia|].
  repeat case_match; auto with iso_ok; by apply gives_ack_handle.
Qed.

Lemma gives_s_handle w d :
  1 <= zlen d -> iso_ok w ->
  (Z.land (zth d 0) S_BLOCK_WTX_MASK = S_BLOCK_WTX_MASK -> (if ctrue (Z.land (zth d 0) I_BLOCK_DID_BIT) then 3 else 2) <= zlen d) ->
  gives (isodep_s_frame_handle w d (zlen d)) Q.
Proof.
  intros Hd H Hwtx. unfold isodep_s_frame_handle. apply gives_bind, gives_rd; [lia|]. cbv zeta.
  set (index := if ctrue (Z.land (zth d 0) I_BLOCK_DID_BIT) then 2 else 1).
  assert (Hi : (index = 1 \/ index = 2) /\
    (Z.land (zth d 0) S_BLOCK_WTX_MASK = S_BLOCK_WTX_MASK -> index + 1 <= zlen d))
    by (unfold index; case_match; split; auto).
  clearbody index. clear Hwtx. destruct Hi as (Hi & Hlen). destruct (_ =? _) eqn:E; cbn [negb].
  - apply Z.eqb_eq in E. specialize (Hlen E).
    case_match; [by apply gives_Ok, HQ|]. apply gives_bind, gives_rd; [lia|].
    case_match; [by apply gives_Ok, HQ|]. by apply gives_zero, gives_wtx_response.
  - repeat case_match; try (by apply gives_Ok, HQ). apply gives_zero, gives_notify; [by apply iso_ok_state|done].
Qed.

Lemma gives_i_handle w d :
  1 <= zlen d -> iso_ok w ->
  (ctrue (Z.land (zth d 0) I_BLOCK_CHAINING_BIT) = false -> fsc_ok (tag (t4t_isodep w)) (tx_data (t4t_isodep w))) ->
  gives (isodep_i_frame_handle w d (zlen d)) Q.
Proof.
  intros Hd H Hsel. unfold isodep_i_frame_handle. apply gives_bind, gives_rd; [lia|]. cbv zeta.
  set (index := if ctrue (Z.land (zth d 0) I_BLOCK_NAD_BIT) then _ else _).
  assert (Hi : 1 <= index <= 3) by (unfold index; repeat case_match; lia).
  case_match eqn:E1; [by apply gives_Ok, HQ|]. case_match eqn:E2; [by apply gives_Ok, HQ|].
  set (w1 := if _ =? _ then _ else _).
  assert (H1 : iso_ok w1 /\ tag (t4t_isodep w1) = tag (t4t_isodep w) /\ tx_data (t4t_isodep w1) = tx_data (t4t_isodep w)).
  { unfold w1. case_match; [split; [by apply iso_ok_toggle|done]|done]. }
  clearbody w1 index. destruct H1 as (H1 & Etag & Etx).
  destruct (ok_rx w H) as (m0 & Em & Hm0 & Hs0 & Hl0).
  apply gives_bind. unfold ptr. rewrite Em. apply gives_Ok. apply gives_bind, gives_rd_block; [lia..|]. intros bs Hbs.
  apply gives_bind, gives_wr_block; [lia..|]. intros m Hm.
  set (w2 := upd _ w1).
  assert (H2 : iso_ok w2 /\ tag (t4t_isodep w2) = tag (t4t_isodep w) /\ tx_data (t4t_isodep w2) = tx_data (t4t_isodep w)).
  { unfold w2. split; [|done]. iso_fields. apply buf_ok_set; [apply H|lia..]. }
  clearbody w2. destruct H2 as (H2 & Etag2 & Etx2). destruct (ctrue _) eqn:Ec.
  - apply gives_zero, gives_r_send; [done|]. iso_fields.
  - iso_red. apply gives_bind, gives_rd_block; [lia..|]. intros bs' _. apply gives_zero, gives_notify; [|done].
    iso_fields. intros _. rewrite Etag2, Etx2. by apply Hsel.
Qed.

Lemma wtx_bits x : byte x ->
  ctrue (Z.land x ISODEP_BLOCK_FIXED_BIT) = true -> ctrue (Z.land x ISODEP_S_BLOCK_INDICATOR) = true ->
  Z.land x S_BLOCK_WTX_MASK = S_BLOCK_WTX_MASK -> Z.land x 0x72 = 0x72.
Proof.
  intros Hx. pose proof (byte_check (fun x => implb (ctrue (Z.land x ISODEP_BLOCK_FIXED_BIT) &&
    ctrue (Z.land x ISODEP_S_BLOCK_INDICATOR) && (Z.land x S_BLOCK_WTX_MASK =? S_BLOCK_WTX_MASK)) (Z.land x 0x72 =? 0x72))
    ltac:(vm_compute; reflexivity) x Hx) as H. cbv beta in H.
  intros E1 E2 E3. rewrite E1, E2, (proj2 (Z.eqb_eq _ _) E3) in H. by apply Z.eqb_eq.
Qed.

Lemma i_bits x : byte x ->
  ctrue (Z.land x ISODEP_BLOCK_FIXED_BIT) = true -> ctrue (Z.land x ISODEP_S_BLOCK_INDICATOR) = false ->
  ctrue (Z.land x ISODEP_R_BLOCK_INDICATOR) = false -> ctrue (Z.land x I_BLOCK_CHAINING_BIT) = false ->
  Z.land x 0xD2 = 0x02.
Proof.
  intros Hx. pose proof (byte_check (fun x => implb (ctrue (Z.land x ISODEP_BLOCK_FIXED_BIT) &&
    negb (ctrue (Z.land x ISODEP_S_BLOCK_INDICATOR)) && negb (ctrue (Z.land x ISODEP_R_BLOCK_INDICATOR)) &&
    negb (ctrue (Z.land x I_BLOCK_CHAINING_BIT))) (Z.land x 0xD2 =? 0x02))
    ltac:(vm_compute; reflexivity) x Hx) as H. cbv beta in H.
  intros E1 E2 E3 E4. rewrite E1, E2, E3, E4 in H. by apply Z.eqb_eq.
Qed.

Lemma gives_frame_handle w d :
  1 <= zlen d -> iso_ok w -> bytes d -> wtx_ok d ->
  (Z.land (zth d 0) 0xD2 = 0x02 -> fsc_ok (tag (t4t_isodep w)) (tx_data (t4t_isodep w))) ->
  gives (frame_handle w d (zlen d)) Q.
Proof.
  intros Hd H Hb Hwtx Hi. unfold frame_handle. apply gives_bind, gives_rd; [lia|].
  assert (Hx : byte (zth d 0)) by (apply zth_Forall; [done|exact Hb]).
  destruct (ctrue (Z.land (zth d 0) ISODEP_BLOCK_FIXED_BIT)) eqn:E1; [|by apply gives_Ok, HQ].
  destruct (ctrue (Z.land (zth d 0) ISODEP_S_BLOCK_INDICATOR)) eqn:E2.
  - apply gives_s_handle; [done|done|]. intros E3. by apply Hwtx, wtx_bits.
  - destruct (ctrue (Z.land (zth d 0) ISODEP_R_BLOCK_INDICATOR)) eqn:E3; [by apply gives_r_handle|].
    apply gives_i_handle; [done|done|]. intros E4. by apply Hi, i_bits.
Qed.
End Handlers.

(** *** The answer to select *)

(** The interface octets change neither frame size nor historical octets. *)
Definition same_frame (t t' : nfc_t4t_isodep_tag) : Prop := fsc t' = fsc t /\ historical t' = historical t.

Definition bit_count (t0 mask : Z) : Z := if ctrue (Z.land t0 mask) then 1 else 0.

Lemma gives_ats_ta t eq d t0 i (Q : nfc_t4t_isodep_tag * bool * Z -> Prop) :
  0 <= i -> i + bit_count t0 T4T_ATS_T0_TA_PRESENT <= zlen d ->
  (forall t' e, same_frame t t' -> Q (t', e, i + bit_count t0 T4T_ATS_T0_TA_PRESENT)) -> gives (ats_ta t eq d t0 i) Q.
Proof.
  intros Hi Hl HQ. unfold ats_ta, bit_count in *. case_match; [apply gives_bind, gives_rd; [lia|]|]; apply gives_Ok;
    [|replace i with (i + 0) at 1 by lia]; apply HQ; done.
Qed.

Lemma gives_ats_tb t d t0 i (Q : nfc_t4t_isodep_tag * Z -> Prop) :
  0 <= i -> i + bit_count t0 T4T_ATS_T0_TB_PRESENT <= zlen d ->
  (forall t', same_frame t t' -> Q (t', i + bit_count t0 T4T_ATS_T0_TB_PRESENT)) -> gives (ats_tb t d t0 i) Q.
Proof.
  intros Hi Hl HQ. unfold ats_tb, bit_count in *. apply gives_bind. case_match.
  - apply gives_bind, gives_rd; [lia|]. apply gives_Ok, gives_Ok, HQ. by case_match.
  - apply gives_Ok, gives_Ok. replace i with (i + 0) at 1 by lia. apply HQ. by case_match.
Qed.

Lemma gives_ats_tc t d t0 i (Q : nfc_t4t_isodep_tag * Z -> Prop) :
  0 <= i -> i + bit_count t0 T4T_ATS_T0_TC_PRESENT <= zlen d ->
  (forall t', same_frame t t' -> Q (t', i + bit_count t0 T4T_ATS_T0_TC_PRESENT)) -> gives (ats_tc t d t0 i) Q.
Proof.
  intros Hi Hl HQ. unfold ats_tc, bit_count in *. case_match; [apply gives_bind, gives_rd; [lia|]|]; apply gives_Ok;
    [|replace i with (i + 0) at 1 by lia]; apply HQ; done.
Qed.

Lemma gives_ats_historical t d i (Q : nfc_t4t_isodep_tag -> Prop) :
  0 <= i -> zlen d <= 20 -> zlen (historical t) = NFC_T4T_ISODEP_HIST_MAX_LEN ->
  (forall t', fsc t' = fsc t -> zlen (historical t') = NFC_T4T_ISODEP_HIST_MAX_LEN -> Q t') ->
  gives (ats_historical t d (zlen d) i) Q.
Proof.
  intros Hi Hd Hh HQ. unfold ats_historical. case_match eqn:E; [|by apply gives_Ok, HQ]. rewrite u8_small by lia.
  unfold NFC_T4T_ISODEP_HIST_MAX_LEN in *. set (n := if 15 <? zlen d - i then 15 else zlen d - i).
  assert (0 <= n <= 15 /\ n <= zlen d - i) by (unfold n; case_match eqn:E'; lia). clearbody n.
  apply gives_bind, gives_rd_block; [lia..|]. intros bs Hbs. apply gives_bind, gives_wr_block; [lia..|]. intros h Hh'.
  apply gives_Ok, HQ; [done|]. change (zlen h = 15). lia.
Qed.

Lemma gives_ats_parse w d now (Q : iso * Z -> Prop) :
  1 <= zlen d -> bytes d -> iso_ok w -> ats_ok (buf_size (tx_data (t4t_isodep w))) d ->
  (forall w e, iso_ok w -> Q (w, e)) -> gives (ats_parse w d (zlen d) now) Q.
Proof.
  intros Hd Hb H Hats HQ. unfold ats_parse.
  assert (H1 : iso_ok (with_ats_received_time w now)) by iso_fields.
  unfold T4T_ATS_MIN_LEN, T4T_ATS_MAX_LEN. case_match eqn:E1; [by apply gives_Ok, HQ|].
  apply gives_bind, gives_rd; [lia|]. case_match eqn:E2; [by apply gives_Ok, HQ|].
  apply orb_false_iff in E2 as [E2 E3]. apply negb_false_iff, Z.eqb_eq in E2.
  destruct (Hats ltac:(lia) E2) as (Hann & Hfsci & Hsize). unfold announced in Hann.
  fold (bit_count (zth d 1) T4T_ATS_T0_TA_PRESENT) (bit_count (zth d 1) T4T_ATS_T0_TB_PRESENT)
    (bit_count (zth d 1) T4T_ATS_T0_TC_PRESENT) in Hann.
  assert (Hbc : forall m, 0 <= bit_count (zth d 1) m <= 1) by (intros; unfold bit_count; case_match; lia).
  pose proof (Hbc T4T_ATS_T0_TA_PRESENT). pose proof (Hbc T4T_ATS_T0_TB_PRESENT). pose proof (Hbc T4T_ATS_T0_TC_PRESENT).
  apply gives_bind, gives_rd; [lia|]. unfold T4T_ATS_T0_FSCI_MASK.
  assert (Hf : 0 <= Z.land (zth d 1) 15) by (apply Z.land_nonneg; lia).
  set (fsci := Z.land (zth d 1) 15) in *. clearbody fsci.
  assert (Hv : 16 <= zth fsd_value_map fsci <= 256).
  { pose proof (range_check (fun i => (16 <=? zth fsd_value_map i) && (zth fsd_value_map i <=? 256)) 0 9
      ltac:(vm_compute; reflexivity) fsci ltac:(lia)) as Hr. cbv beta in Hr. lia. }
  apply gives_bind, gives_rd; [change (zlen fsd_value_map) with 9; lia|]. unfold ISODEP_CRC_LENGTH.
  rewrite u16_small by lia. iso_red.
  apply gives_bind, gives_ats_ta; [lia..|]. intros t1 e1 [Hf1 Hh1]. apply gives_bind, gives_ats_tb; [lia..|]. intros t2 [Hf2 Hh2].
  apply gives_bind, gives_ats_tc; [lia..|]. intros t3 [Hf3 Hh3].
  apply gives_bind, gives_ats_historical; [lia|lia|rewrite Hh3, Hh2, Hh1; apply H|]. intros t4 Hf4 Hh4.
  apply gives_zero; [done|]. apply gives_notify; [|done].
  assert (Hfsc : fsc_ok t4 (tx_data (t4t_isodep w))).
  { unfold fsc_ok. rewrite Hf4, Hf3, Hf2, Hf1. cbn [fsc with_fsc]. lia. }
  iso_fields.
  - by left.
  - intros Hp. split; [done|]. by apply ok_pending.
Qed.

(** *** The calls *)

Section Calls.
Context {CF : IsodepConfig} {WK : Work}.

Lemma gives_received w d err now (Q : iso * Z -> Prop) :
  1 <= zlen d -> iso_ok w -> frame_ok w d -> (forall w e, iso_ok w -> Q (w, e)) ->
  gives (nfc_t4t_isodep_data_received w (Some d) (zlen d) err now) Q.
Proof.
  intros Hd H (Hb & Hf) HQ. unfold nfc_t4t_isodep_data_received. rewrite (proj2 (Z.ltb_ge _ 1)) by lia.
  destruct (negb (err =? 0)); [by apply gives_zero, gives_error_handle|]. apply gives_bind.
  apply gives_impl with (P := fun x => iso_ok x.1); [destruct (ats_expected (t4t_isodep w))|].
  - apply gives_ats_parse; [done|done|iso_fields|done|done].
  - destruct Hf as (Hw & Hi). by apply gives_frame_handle.
  - intros [w1 e] H1. apply gives_zero; [done|]. destruct (negb (e =? 0)); [by apply gives_err_notify|by apply gives_Ok].
Qed.

Definition can_send (w : iso) : Prop :=
  iso_ok w /\ fsc_ok (tag (t4t_isodep w)) (tx_data (t4t_isodep w)) /\
  data_ok (transmit_data (t4t_isodep w)) (transmit_len (t4t_isodep w)) (transmitted_len (t4t_isodep w)).

Lemma clear_tag w : tag (t4t_isodep (isodep_transmission_clear w)) = tag (t4t_isodep w).
Proof. reflexivity. Qed.
Lemma clear_tx w : tx_data (t4t_isodep (isodep_transmission_clear w)) = tx_data (t4t_isodep w).
Proof. reflexivity. Qed.
Lemma clear_transmitted w : transmitted_len (t4t_isodep (isodep_transmission_clear w)) = 0.
Proof. reflexivity. Qed.

Lemma data_set w d :
  iso_ok w -> fsc_ok (tag (t4t_isodep w)) (tx_data (t4t_isodep w)) -> transmitted_len (t4t_isodep w) = 0 ->
  can_send (upd (fun s => with_transmit_len (with_transmit_data s (Some d)) (zlen d)) w).
Proof.
  intros H Hf H0. assert (Hd : data_ok (Some d) (zlen d) 0) by (exists d; split; [done|lia]).
  unfold can_send. iso_red. rewrite H0. split; [|done]. iso_fields. by rewrite H0.
Qed.

Lemma gives_transmit w d now (Q : iso * Z -> Prop) :
  iso_ok w -> (forall w e, iso_ok w -> Q (w, e)) -> gives (nfc_t4t_isodep_transmit w (Some d) (zlen d) now) Q.
Proof.
  intros H HQ. unfold nfc_t4t_isodep_transmit. rewrite bool_decide_eq_false_2 by done.
  case_match eqn:E; [by apply gives_Ok, HQ|]. case_bool_decide as Es; cbn [negb]; [|by apply gives_Ok, HQ].
  assert (H1 : can_send (upd (fun s => with_transmit_len (with_transmit_data s (Some d)) (zlen d))
    (isodep_transmission_clear (upd (fun s => with_state s ISODEP_STATE_TRANSFER) w)))).
  { apply data_set; [by apply iso_ok_clear, iso_ok_state| |apply clear_transmitted]. rewrite clear_tag, clear_tx.
    apply (ok_selected w H Es). }
  revert H1. generalize (upd (fun s => with_transmit_len (with_transmit_data s (Some d)) (zlen d))
    (isodep_transmission_clear (upd (fun s => with_state s ISODEP_STATE_TRANSFER) w))).
  clear E Es H w. intros w (H & Hf & Hd). cbv zeta.
  destruct (first_transfer _); [|by apply gives_zero, gives_chunk_send].
  assert (H2 : iso_ok (with_ats_received_time (upd (fun s => with_first_transfer s false) w) now)) by iso_fields.
  destruct (_ <? _); [|by apply gives_zero, gives_chunk_send]. destruct (_ <? 0); apply gives_Ok, HQ; [done|]. iso_fields.
Qed.

Lemma gives_rats w f id (Q : iso * Z -> Prop) :
  iso_ok w -> 0 <= f <= 8 -> (forall w e, iso_ok w -> Q (w, e)) -> gives (nfc_t4t_isodep_rats_send w f id) Q.
Proof.
  intros H Hf HQ. unfold nfc_t4t_isodep_rats_send. case_match; [by apply gives_Ok, HQ|].
  assert (H1 : iso_ok (upd (fun s => with_state s ISODEP_STATE_TRANSFER) w)) by (by apply iso_ok_state).
  case_match; [by apply gives_Ok, HQ|]. apply gives_bind, gives_rd; [change (zlen fsd_value_map) with 9; lia|].
  case_match; [by apply gives_Ok, HQ|]. apply gives_bind, gives_ptr; [by apply H1|]. intros m Hm Hs.
  apply gives_bind, gives_wr; [lia|]. intros m1 Hm1. apply gives_bind, gives_wr; [lia|]. intros m2 Hm2.
  revert Hm Hs. iso_red. intros Hm Hs. apply gives_zero; [done|]. apply gives_ready; [|iso_red; unfold T4T_RATS_CMD_LEN; lia|done].
  iso_fields; [apply buf_ok_set; [apply H|lia|unfold T4T_RATS_CMD_LEN; lia]|exact (ok_historical w H)|exact (ok_pending w H)].
Qed.

Lemma gives_deselect w (Q : iso * Z -> Prop) :
  iso_ok w -> (forall w e, iso_ok w -> Q (w, e)) -> gives (nfc_t4t_isodep_tag_deselect w) Q.
Proof.
  intros H HQ. unfold nfc_t4t_isodep_tag_deselect. case_match; [by apply gives_Ok, HQ|].
  apply gives_bind, gives_ptr; [by apply H|]. iso_red. intros m Hm Hs.
  apply gives_bind, gives_wr; [lia|]. intros m1 Hm1. apply gives_bind, gives_did_include; [lia|]. intros m2 i Hm2 Hi.
  apply gives_zero; [done|]. apply gives_ready; [|iso_red; lia|done]. iso_fields. apply buf_ok_set; [apply H|lia..].
Qed.

Lemma gives_work w (Q : iso -> Prop) :
  iso_ok w -> isodep_work w <> None -> (forall w, iso_ok w -> Q w) -> gives (isodep_delay_handler w) Q.
Proof.
  intros H Hw HQ. destruct (ok_pending w H (or_intror Hw)) as (Hf & Hd).
  apply gives_chunk_send; [done| |done|done]. iso_fields.
Qed.

(** The calls of the interface, and the run of the delayed work. *)
Inductive call :=
  | RatsSend (fsd did : Z)
  | Received (d : list Z) (err now : Z)
  | Timeout
  | Transmit (d : list Z) (now : Z)
  | TagDeselect
  | WorkRuns.

Definition perform (c : call) (w : iso) : res (iso * Z) :=
  match c with
  | RatsSend fsd did => nfc_t4t_isodep_rats_send w fsd did
  | Received d err now => nfc_t4t_isodep_data_received w (Some d) (zlen d) err now
  | Timeout => let* w := nfc_t4t_isodep_on_timeout w in Ok (w, 0)
  | Transmit d now => nfc_t4t_isodep_transmit w (Some d) (zlen d) now
  | TagDeselect => nfc_t4t_isodep_tag_deselect w
  | WorkRuns => if isodep_work w is Some _ then let* w := isodep_delay_handler w in Ok (w, 0) else Ok (w, 0)
  end.

(** The value of an enumeration, and a frame as above. *)
Definition call_ok (w : iso) (c : call) : Prop :=
  match c with
  | RatsSend fsd _ => 0 <= fsd <= 8
  | Received d _ _ => frame_ok w d
  | _ => True
  end.

Lemma gives_perform c w : iso_ok w -> call_ok w c -> gives (perform c w) (fun x => iso_ok x.1).
Proof.
  intros H Hc. destruct c as [f id|d err now| |d now| |]; cbn [perform call_ok] in *.
  - by apply gives_rats.
  - destruct (decide (1 <= zlen d)); [by apply gives_received|].
    unfold nfc_t4t_isodep_data_received. rewrite (proj2 (Z.ltb_lt _ 1)) by lia. by apply gives_Ok.
  - by apply gives_zero, gives_error_handle.
  - by apply gives_transmit.
  - by apply gives_deselect.
  - destruct (isodep_work w) eqn:E; [|by apply gives_Ok]. apply gives_zero; [done|]. by apply gives_work; [|rewrite E|].
Qed.

(** Sequences of calls, each of which may depend on what happened before. *)
Fixpoint perform_all (env : nat -> iso -> call) (n : nat) (w : iso) : res iso :=
  match n with
  | O => Ok w
  | S n =>
    let* '(w, _) := perform (env n w) w in
    perform_all env n w
  end.

Lemma perform_all_ok env n : forall w,
  iso_ok w -> (forall n w, iso_ok w -> call_ok w (env n w)) -> gives (perform_all env n w) iso_ok.
Proof.
  induction n as [|n IH]; intros w H Hc; [by apply gives_Ok|]. cbn [perform_all]. apply gives_bind.
  eapply gives_impl; [apply gives_perform; [done|by apply Hc]|]. intros [w' e] H'. by apply IH.
Qed.

Lemma init_ok tx rx cb :
  T4T_FSD_MIN <= zlen tx -> T4T_FSD_MIN <= zlen rx ->
  exists w, nfc_t4t_isodep_init boot (Some tx) (zlen tx) (Some rx) (zlen rx) (Some cb) = (w, 0) /\ iso_ok w.
Proof.
  intros Ht Hr. unfold nfc_t4t_isodep_init. rewrite (proj2 (Z.ltb_ge _ _)), (proj2 (Z.ltb_ge _ _)) by lia. cbn [bool_decide].
  eexists. split; [reflexivity|]. unfold T4T_FSD_MIN in *. constructor; iso_red; try done.
  - exists tx. unfold T4T_FSD_MIN. cbn [buf_data buf_size buf_len boot t4t_isodep tx_data]. split; [done|lia].
  - exists rx. unfold T4T_FSD_MIN. cbn [buf_data buf_size buf_len boot t4t_isodep rx_data]. split; [done|lia].
  - by left.
  - by intros [?|?].
Qed.

(** C17: After the initialisation with two buffers and callbacks the state of
    the module is well-typed, and it stays so: whatever calls are made and
    whatever frames arrive, apart from the frames that [frame_ok] excludes,
    every call returns, no octet outside of a buffer is touched, and the
    counters, the block number, the lengths and the frame size stay in their
    ranges. *)
Theorem isodep_state_typed env n tx rx cb :
  T4T_FSD_MIN <= zlen tx -> T4T_FSD_MIN <= zlen rx ->
  (forall n w, iso_ok w -> call_ok w (env n w)) ->
  exists w w', nfc_t4t_isodep_init boot (Some tx) (zlen tx) (Some rx) (zlen rx) (Some cb) = (w, 0) /\
    perform_all env n w = Ok w' /\ iso_ok w'.
Proof.
  intros Ht Hr Hc. destruct (init_ok tx rx cb Ht Hr) as (w & E & H).
  destruct (perform_all_ok env n w H Hc) as (w' & E' & H'). eauto.
Qed.
End Calls.

(** ** Frames that lead astray *)

Module IsoDemo.
#[export] Instance config : IsodepConfig.
Proof. refine {| RATS_RETRY := 1; ACK_RETRY := 2; NAK_RETRY := 2; WTX_RETRY := 2; DESELECT_RETRY := 2 |}; lia. Defined.
#[export] Instance work : Work := {| k_work_reschedule := fun _ _ => 1; k_work_reschedule_idle := fun _ => eq_refl |}.

(** A module with buffers of the given size. *)
Definition started (n : nat) : iso :=
  (nfc_t4t_isodep_init boot (Some (replicate n 0)) (Z.of_nat n) (Some (replicate n 0)) (Z.of_nat n) (Some all_cb)).1.
Fixpoint perform_list (l : list call) (w : iso) : res (iso * Z) :=
  match l with
  | [] => Ok (w, 0)
  | [c] => perform c w
  | c :: l =>
    let* '(w, _) := perform c w in
    perform_list l w
  end.

(** The size index of an answer to select is not checked: the table is read
    behind its end. *)
Lemma size_index_unchecked : perform_list [RatsSend 0 0; Received [2; 0x0F] 0 0] (started 16) = Fault.
Proof. vm_compute. reflexivity. Qed.

(** An answer to select that announces more than it has is read behind its
    end. *)
Lemma ats_read_past_end : perform_list [RatsSend 0 0; Received [2; 0x15] 0 0] (started 256) = Fault.
Proof. vm_compute. reflexivity. Qed.

(** A request for more time without its octet is read behind its end. *)
Lemma wtx_read_past_end : perform_list [RatsSend 0 0; Received [2; 0x05] 0 0; Received [0xF2] 0 0] (started 256) = Fault.
Proof. vm_compute. reflexivity. Qed.

(** The frame size of the tag is not compared with the transmission buffer. *)
Lemma frame_size_unchecked :
  perform_list [RatsSend 0 0; Received [2; 0x08] 0 0; Transmit (replicate 100 7) 1000] (started 16) = Fault.
Proof. vm_compute. reflexivity. Qed.

(** A block that arrives before a tag was selected selects one, with a frame
    size of zero, and data of any length is copied into the buffer. *)
Lemma early_block_selects :
  (exists w, perform_list [Received [0x02] 0 0] (started 16) = Ok (w, 0) /\ state (t4t_isodep w) = ISODEP_STATE_SELECTED /\
     fsc (tag (t4t_isodep w)) = 0) /\
  perform_list [Received [0x02] 0 0; Transmit (replicate 100 7) 1000] (started 16) = Fault.
Proof. split; [eexists; split; [vm_compute; reflexivity|done]|vm_compute; reflexivity]. Qed.

(** The repetition of a block has lost the bit for the device identifier, which
    the tag then takes as data. *)
Lemma repetition_without_did :
  exists w, perform_list [RatsSend 0 1; Received [2; 0x05] 0 0; Transmit [7; 8] 1000; Timeout; Received [0xAB; 1] 0 0]
      (started 64) = Ok (w, 0) /\
    (out w) !! 2%nat = Some (ReadyToSend [0x0A; 1; 7; 8] (u32 (frame_delay_time (tag (t4t_isodep w))))) /\
    (out w) !! 4%nat = Some (ReadyToSend [0x02; 1; 7; 8] (u32 (frame_delay_time (tag (t4t_isodep w))))).
Proof. eexists. split; [vm_compute; reflexivity|]. split; vm_compute; reflexivity. Qed.

(** After a frame that is refused the error is reported, but the module stays in
    the transfer and refuses the next calls. *)
Lemma refused_frame_blocks :
  exists w w', perform_list [RatsSend 0 0; Received [2; 0x05] 0 0; Transmit [7; 8] 1000; Received [0x00] 0 0] (started 64) = Ok (w, 0) /\
    last (out w) = Some (Error (- NFC_T4T_ISODEP_SEMANTIC_ERROR)) /\
    perform (Transmit [7] 2000) w = Ok (w, - errno_num EACCES) /\ perform (RatsSend 0 0) w = Ok (w', - errno_num EACCES).
Proof. eexists _, _. split; [vm_compute; reflexivity|]. split; [|split]; vm_compute; reflexivity. Qed.

(** A request that is refused for its identifier also blocks the module. *)
Lemma refused_request_blocks :
  exists w, perform (RatsSend 0 15) (started 64) = Ok (w, - errno_num EINVAL) /\
    perform (RatsSend 0 0) w = Ok (w, - errno_num EACCES).
Proof. eexists. split; vm_compute; reflexivity. Qed.
End IsoDemo.

(** A tag is selected, gets a command that is lost, and acknowledges. *)
Definition demo_env (n : nat) (w : iso) : call :=
  match n with
  | 5%nat => RatsSend 0 0
  | 4%nat | 0%nat => Received (if ats_expected (t4t_isodep w) then [5; 0x70; 0; 0x80; 2] else [0xA2]) 0 0
  | 3%nat => Transmit [1; 2; 3] 5
  | 2%nat => WorkRuns
  | 1%nat => Timeout
  | _ => TagDeselect
  end.

Lemma demo_env_ok n w : iso_ok w -> call_ok w (demo_env n w).
Proof.
  intros Hw. assert (Hr : call_ok w (Received (if ats_expected (t4t_isodep w) then [5; 0x70; 0; 0x80; 2] else [0xA2]) 0 0)).
  { cbn [call_ok]. unfold frame_ok. destruct (ats_expected (t4t_isodep w)); (split; [repeat constructor; by_compute|]).
    - intros _ _. destruct (ok_tx w Hw) as (? & _ & _ & Hs & _). unfold T4T_FSD_MIN in Hs.
      change (5 <= 5 /\ 0 <= 8 /\ 14 <= buf_size (tx_data (t4t_isodep w))). lia.
    - split; intros E; vm_compute in E; discriminate E. }
  destruct n as [|[|[|[|[|[|n]]]]]]; [exact Hr|exact I|exact I|exact I|exact Hr| |exact I].
  change (0 <= 0 <= 8). lia.
Qed.

Lemma isodep_state_typed_witness :
  exists w w', nfc_t4t_isodep_init boot (Some (replicate 16 0)) 16 (Some (replicate 16 0)) 16 (Some all_cb) = (w, 0) /\
    @perform_all IsoDemo.config IsoDemo.work demo_env 6 w = Ok w' /\ iso_ok w'.
Proof.
  apply (@isodep_state_typed IsoDemo.config IsoDemo.work demo_env 6 (replicate 16 0) (replicate 16 0) all_cb).
  - vm_compute. discriminate.
  - vm_compute. discriminate.
  - exact demo_env_ok.
Defined.
