(* ===== verification/IsoDepSession.v ===== *)
(** * Sessions over ISO-DEP

    Commands that are transmitted one after the other to a selected tag, with
    lost and corrupted frames, and what goes wrong outside of these limits. *)

From stdpp Require Import prelude list.
From Stdlib Require Import ZArith Lia.
From S2P Require Import Prelude IsoDep IsoDepSpec IsoDepSafe.

Open Scope Z_scope.

(** ** Exchanges *)

Section Exchange.
Context {CF : IsodepConfig} {WK : Work} (respond : list (list Z) -> list Z) (pn : nat).

(** A tag is selected and takes the next block. *)
Definition ready (w : iso) (p : picc) : Prop :=
  let s := t4t_isodep w in
  state s = ISODEP_STATE_SELECTED /\ ats_expected s = false /\
  t4t_isodep_cb w = Some all_cb /\ isodep_work w = None /\
  did_supported (tag s) && negb (did (tag s) =? 0) = false /\
  (exists tx, buf_data (tx_data s) = Some tx /\ zlen tx = buf_size (tx_data s)) /\
  (exists rx, buf_data (rx_data s) = Some rx /\ zlen rx = buf_size (rx_data s)) /\
  2 <= fsc (tag s) <= Z.min (buf_size (tx_data s)) 65535 /\
  block (block_num s) /\ p_num p = 1 - block_num s /\ p_got p = [].

(** A command is transmitted, at once or from the delayed work, and then the
    frames have their fates. *)
Definition exchange (cmd : list Z) (fts : list fate) (now : Z) (w : iso) (p : picc) : res (iso * picc) :=
  let* '(w, _) := nfc_t4t_isodep_transmit w (Some cmd) (zlen cmd) now in
  let* w := (if isodep_work w is Some _ then isodep_delay_handler w else Ok w) in
  link_run respond pn fts w p.

(** A ready state, with its fields. *)
Lemma ready_state w p :
  ready w p ->
  exists tg x tx tn rx rn lf rc ws fs b rt tdat tlen off ch eq ff tm o,
    w = {| t4t_isodep :=
             {| state := ISODEP_STATE_SELECTED; tag := tg;
                tx_data := {| buf_data := Some (x :: tx); buf_len := tn; buf_size := zlen (x :: tx) |};
                rx_data := {| buf_data := Some rx; buf_len := rn; buf_size := zlen rx |};
                err_status := {| last_frame := lf; frame_retry_cnt := rc; wtx := ws |}; fsd := fs; block_num := b;
                retransmit_cnt := rt; transmit_data := tdat; transmit_len := tlen; transmitted_len := off;
                chaining := ch; equal_divisor := eq; ats_expected := false; first_transfer := ff |};
           t4t_isodep_cb := Some all_cb; isodep_work := None; ats_received_time := tm; out := o |} /\
    did_supported tg && negb (did tg =? 0) = false /\ 2 <= fsc tg <= Z.min (zlen (x :: tx)) 65535 /\
    block b /\ p_num p = 1 - b /\ p_got p = [].
Proof.
  intros H. destruct w as [[st tg [td tn ts] [rd rn rs] [lf rc ws] fs b rt tdat tlen toff ch eq ats ff] cb wk tm o].
  unfold ready in H. revert H. iso_red. intros H.
  destruct H as (-> & -> & -> & -> & Hd & (tx & -> & <-) & (rx & -> & <-) & Hf & Hb & Hn & Hg).
  destruct tx as [|x tx]; [cbn [length] in Hf; lia|]. naive_solver.
Qed.

(** Rewrites with an equation for [isodep_chunk_send] in a state that is equal
    by computation. *)
Ltac rewrite_sent E :=
  match type of E with isodep_chunk_send ?u = _ =>
    match goal with |- context [isodep_chunk_send ?v] =>
      replace (isodep_chunk_send v) with (isodep_chunk_send u) by (f_equal; vm_compute; reflexivity)
    end
  end; rewrite E.

(** The first frame of a transfer. *)
Lemma exchange_start cmd fts now w p :
  ready w p -> cmd <> [] ->
  exists tm x tx rx,
    let s := t4t_isodep w in
    zlen (x :: tx) = buf_size (tx_data s) /\ zlen rx = buf_size (rx_data s) /\
    exchange cmd fts now w p =
      link_run respond pn fts
        (transfer_state cmd (tag s) (buf_size (tx_data s)) (buf_size (rx_data s)) (fsd s) (wtx (err_status s)) tm None
          (equal_divisor s) false ISODEP_STATE_TRANSFER ISODEP_FRAME_I
          (i_pcb (block_num s) (cmore cmd (tag s) 0) :: cpart cmd (tag s) 0 ++ drop (length (cpart cmd (tag s) 0)) tx)
          (1 + csize cmd (tag s) 0) rx 0 0 0 (block_num s) (csize cmd (tag s) 0) (cmore cmd (tag s) 0)
          (out w ++ [ReadyToSend (i_pcb (block_num s) (cmore cmd (tag s) 0) :: cpart cmd (tag s) 0) (fdt (tag s))])) p.
Proof.
  intros H Hc. assert (Hl : 1 <= zlen cmd) by (destruct cmd; cbn [length]; [done|lia]).
  destruct (ready_state w p H) as (tg & x & tx & tn & rx & rn & lf & rc & ws & fs & b & rt & tdat & tlen & off & ch & eq &
    ff & tm & o & -> & Hd & Hf & Hb & Hn & Hg).
  assert (E : forall tm, isodep_chunk_send (transfer_state cmd tg (zlen (x :: tx)) (zlen rx) fs ws tm None eq false
      ISODEP_STATE_TRANSFER ISODEP_FRAME_NONE (x :: tx) tn rx 0 0 0 b 0 false o) = Ok
      (transfer_state cmd tg (zlen (x :: tx)) (zlen rx) fs ws tm None eq false ISODEP_STATE_TRANSFER ISODEP_FRAME_I
        (i_pcb b (cmore cmd tg 0) :: cpart cmd tg 0 ++ drop (length (cpart cmd tg 0)) tx) (1 + csize cmd tg 0) rx 0 0 0 b
        (0 + csize cmd tg 0) (cmore cmd tg 0) (o ++ [ReadyToSend (i_pcb b (cmore cmd tg 0) :: cpart cmd tg 0) (fdt tg)])))
    by (intros; apply (chunk_send 1); [lia|done|done|done|done|lia]).
  exists (if ff then now else tm), x, tx, rx. iso_red. split; [done|]. split; [done|].
  unfold exchange, nfc_t4t_isodep_transmit. rewrite bool_decide_eq_false_2 by done. rewrite (proj2 (Z.ltb_ge _ 1)) by lia.
  rewrite bool_decide_eq_true_2 by done. cbn [negb].
  assert (Ec : forall ff, upd (fun s => with_transmit_len (with_transmit_data s (Some cmd)) (zlen cmd))
      (isodep_transmission_clear (upd (fun s => with_state s ISODEP_STATE_TRANSFER)
        {| t4t_isodep :=
             {| state := ISODEP_STATE_SELECTED; tag := tg;
                tx_data := {| buf_data := Some (x :: tx); buf_len := tn; buf_size := zlen (x :: tx) |};
                rx_data := {| buf_data := Some rx; buf_len := rn; buf_size := zlen rx |};
                err_status := {| last_frame := lf; frame_retry_cnt := rc; wtx := ws |}; fsd := fs; block_num := b;
                retransmit_cnt := rt; transmit_data := tdat; transmit_len := tlen; transmitted_len := off;
                chaining := ch; equal_divisor := eq; ats_expected := false; first_transfer := ff |};
           t4t_isodep_cb := Some all_cb; isodep_work := None; ats_received_time := tm; out := o |})) =
      transfer_state cmd tg (zlen (x :: tx)) (zlen rx) fs ws tm None eq ff ISODEP_STATE_TRANSFER ISODEP_FRAME_NONE
        (x :: tx) tn rx 0 0 0 b 0 false o) by (intros; vm_compute; reflexivity).
  rewrite Ec. iso_red. destruct ff.
  - destruct (_ <? _).
    + rewrite k_work_reschedule_idle. iso_red. cbn [Z.ltb Z.compare]. unfold isodep_delay_handler. iso_red.
      by rewrite_sent (E now).
    + by rewrite_sent (E now).
  - rewrite E. done.
Qed.

(** What an exchange ends with: it is under way, with more frames to come; the
    answer was delivered and the next command can follow; or the module gave
    up, after more failures than the limit. *)
Definition under_way (cmd : list Z) (fts : list fate) (w : iso) (p : picc) (evs : list iso_event) (w' : iso) (p' : picc) : Prop :=
  out w' = out w ++ evs /\ (p_cmds p' = p_cmds p \/ p_cmds p' = p_cmds p ++ [cmd]) /\
  zlen fts < zlen cmd + zlen (respond (p_cmds p ++ [cmd])) + 2 * failures fts /\ failures fts < 6 * zlen cmd.
Definition answered (cmd : list Z) (w : iso) (p : picc) (evs : list iso_event) (w' : iso) (p' : picc) : Prop :=
  out w' = out w ++ evs ++ [DataReceived (respond (p_cmds p ++ [cmd]))] /\ p_cmds p' = p_cmds p ++ [cmd] /\
  ready w' p' /\ buf_size (rx_data (t4t_isodep w')) = buf_size (rx_data (t4t_isodep w)).
Definition given_up (cmd : list Z) (fts : list fate) (w : iso) (p : picc) (evs : list iso_event) (w' : iso) (p' : picc) : Prop :=
  (exists e, out w' = out w ++ evs ++ [Error e]) /\ (p_cmds p' = p_cmds p \/ p_cmds p' = p_cmds p ++ [cmd]) /\
  max_failures < failures fts.

Lemma exchange_run cmd fts now w p :
  (1 <= pn)%nat -> ready w p -> cmd <> [] ->
  zlen (respond (p_cmds p ++ [cmd])) <= buf_size (rx_data (t4t_isodep w)) ->
  exists w' p' evs, exchange cmd fts now w p = Ok (w', p') /\ Forall is_frame evs /\
    (under_way cmd fts w p evs w' p' \/ answered cmd w p evs w' p' \/ given_up cmd fts w p evs w' p').
Proof.
  intros Hpn Hr Hc Ha. destruct (exchange_start cmd fts now w p Hr Hc) as (tm & x & tx & rx & Htx & Hrx & ->).
  destruct Hr as (_ & _ & _ & _ & Hd & _ & _ & Hs & Hb & Hn & Hg). unfold under_way, answered, given_up.
  set (s := t4t_isodep w) in *.
  pose proof (phase_start respond pn cmd (tag s) (buf_size (tx_data s)) (buf_size (rx_data s)) (fsd s) (wtx (err_status s))
    tm None (equal_divisor s) false (out w) (p_cmds p) Hpn Hc Hs tx rx (block_num s) p) as H.
  edestruct (phase_run respond pn cmd) as (w' & p' & -> & [H'|(Hl & evs & e & Ho & He & Hp)]);
    [exact Hpn|exact Hd|exact Hs|exact Ha|apply H; cbn [length] in *; done || lia|lia|lia|..].
  2: { exists w', p', evs. split; [done|]. split; [done|]. right. right. split; [eauto|]. split; [done|lia]. }
  destruct (phase_out _ _ _ _ _ _ _ _ _ _ _ _ _ _ Hpn _ _ _ _ _ H') as (evs & He & [(Ho & Hp & Hm & Hff)|Hd']);
    exists w', p', evs; (split; [done|]); (split; [done|]).
  - left. split; [done|]. split; [done|]. unfold answer in Hm. split; lia.
  - right. left. destruct Hd' as (x' & tx' & txl & rx' & rxl & rc & rt & b & off & ch & -> & ? & ? & ? & _ & ? & ? & ?).
    split; [done|]. split; [done|]. split; [|done]. unfold ready. iso_red. naive_solver.
Qed.

(** ** Sessions *)

(** Commands with the fates of their frames and their times. *)
Fixpoint session (l : list (list Z * list fate * Z)) (w : iso) (p : picc) : res (iso * picc) :=
  match l with
  | [] => Ok (w, p)
  | (cmd, fts, now) :: l =>
    let* '(w, p) := exchange cmd fts now w p in
    session l w p
  end.
Definition commands (l : list (list Z * list fate * Z)) : list (list Z) := (fun x => x.1.1) <$> l.

(** The answers of the tag, and the answers that were delivered. *)
Fixpoint answers (c : list (list Z)) (cmds : list (list Z)) : list (list Z) :=
  match cmds with
  | [] => []
  | cmd :: cmds => respond (c ++ [cmd]) :: answers (c ++ [cmd]) cmds
  end.
Definition delivered (o : list iso_event) : list (list Z) :=
  omap (fun e => match e with DataReceived d => Some d | _ => None end) o.

(** The limits of the recovery, and enough fates for every command. *)
Fixpoint fair (size : Z) (c : list (list Z)) (l : list (list Z * list fate * Z)) : Prop :=
  match l with
  | [] => True
  | (cmd, fts, _) :: l =>
    cmd <> [] /\ failures fts <= max_failures /\ zlen (respond (c ++ [cmd])) <= size /\
    zlen cmd + zlen (respond (c ++ [cmd])) + 2 * failures fts <= zlen fts /\ fair size (c ++ [cmd]) l
  end.

Lemma delivered_frames evs : Forall is_frame evs -> delivered evs = [].
Proof. induction 1 as [|[] evs He _ IH]; done. Qed.
Lemma delivered_app o o' : delivered (o ++ o') = delivered o ++ delivered o'.
Proof. apply omap_app. Qed.

(** C10: A session over ISO-DEP with a tag that follows the block protocol, uses
    no device identifier and asks for no waiting time extension, and whose
    answers fit into the reception buffer: whatever frames are lost or corrupted
    in either direction, at most [max_failures] of them for a command (the
    smallest of the three repetitions of a block and the configured numbers of
    negative and positive acknowledgements), and if enough frames are exchanged
    for every command, every command reaches the tag exactly once and in order,
    every answer is delivered exactly once and in order, no error is reported,
    and the module is ready for more. *)
Theorem isodep_session l w p :
  (1 <= pn)%nat -> ready w p -> fair (buf_size (rx_data (t4t_isodep w))) (p_cmds p) l ->
  exists w' p' evs, session l w p = Ok (w', p') /\ ready w' p' /\ out w' = out w ++ evs /\
    delivered evs = answers (p_cmds p) (commands l) /\
    Forall (fun e => is_frame e \/ exists d, e = DataReceived d) evs /\
    p_cmds p' = p_cmds p ++ commands l.
Proof.
  intros Hpn. revert w p. induction l as [|[[cmd fts] now] l IH]; intros w p Hr Hf.
  - exists w, p, []. cbn. rewrite !app_nil_r. naive_solver.
  - cbn [fair] in Hf. destruct Hf as (Hc & Hn & Ha & Hlen & Hf).
    destruct (exchange_run cmd fts now w p Hpn Hr Hc Ha) as (w1 & p1 & ev1 & E1 & H1 &
      [(_ & _ & ?)|[(Ho & Hp & Hr1 & Hs)|(_ & _ & ?)]]); [lia| |lia].
    destruct (IH w1 p1 Hr1) as (w' & p' & evs & E2 & Hr' & Ho' & Hd & Hev & Hp'); [by rewrite Hs, Hp|].
    exists w', p', (ev1 ++ [DataReceived (respond (p_cmds p ++ [cmd]))] ++ evs). cbn [session]. rewrite E1. cstep.
    split; [done|]. split; [done|]. split; [by rewrite Ho', Ho, <- !app_assoc|]. split; [|split].
    + rewrite !delivered_app, (delivered_frames ev1), Hd, Hp by done. done.
    + apply Forall_app. split; [eapply Forall_impl; [done|tauto]|]. apply Forall_cons. split; [eauto|done].
    + rewrite Hp', Hp, <- app_assoc. done.
Qed.

(** C11: Whatever happens on the link, also beyond the limits of the recovery, a
    transmission to a tag that follows the block protocol (without device
    identifier and waiting time extensions, and with an answer that fits the
    reception buffer) returns at every step, hands out frames until it delivers
    the answer of the tag or an error, and neither happens twice; it does end
    that way: after thirteen exchanges for every octet of the command and one for
    every octet of the answer, whatever became of them, the answer or an error has
    been reported. The tag gets the command at most once, and exactly once if the
    answer is delivered; an error comes only after more failures than the limit. *)
Theorem isodep_at_most_once cmd fts now w p :
  (1 <= pn)%nat -> ready w p -> cmd <> [] ->
  zlen (respond (p_cmds p ++ [cmd])) <= buf_size (rx_data (t4t_isodep w)) ->
  exists w' p' evs fin, exchange cmd fts now w p = Ok (w', p') /\ out w' = out w ++ evs ++ fin /\ Forall is_frame evs /\
    (fin = [] /\ (p_cmds p' = p_cmds p \/ p_cmds p' = p_cmds p ++ [cmd]) \/
     fin = [DataReceived (respond (p_cmds p ++ [cmd]))] /\ p_cmds p' = p_cmds p ++ [cmd] \/
     (exists e, fin = [Error e]) /\ (p_cmds p' = p_cmds p \/ p_cmds p' = p_cmds p ++ [cmd]) /\ max_failures < failures fts) /\
    (13 * zlen cmd + zlen (respond (p_cmds p ++ [cmd])) <= zlen fts -> fin <> []).
Proof.
  intros Hpn Hr Hc Ha.
  destruct (exchange_run cmd fts now w p Hpn Hr Hc Ha) as (w' & p' & evs & E & He &
    [(Ho & Hp & Hn & Hf)|[(Ho & Hp & _)|((e & Ho) & Hp & Hl)]]).
  - exists w', p', evs, []. rewrite app_nil_r. split; [done|]. split; [done|]. split; [done|]. split; [by left|lia].
  - exists w', p', evs, [DataReceived (respond (p_cmds p ++ [cmd]))]. naive_solver.
  - exists w', p', evs, [Error e]. naive_solver.
Qed.
End Exchange.

(** ** An example *)

Module SessionDemo.
Import IsoDemo.

(** A tag that answers with the octets of the command in reverse order, two of
    them in a block, after its selection. *)
Definition respond (cmds : list (list Z)) : list Z := default [] (reverse <$> last cmds).
Definition tag0 : picc := {| p_num := 1; p_got := []; p_cmds := []; p_rest := []; p_last := [] |}.
Definition selected : iso :=
  match perform_list [RatsSend 0 0; Received [2; 0x00] 0 0] (started 64) with Ok (w, _) => w | _ => boot end.

Lemma selected_ready : ready selected tag0.
Proof.
  repeat split; try (by vm_compute); try (vm_compute; discriminate).
  - eexists. split; vm_compute; reflexivity.
  - eexists. split; vm_compute; reflexivity.
  - by left.
Qed.

Definition demo_session : list (list Z * list fate * Z) :=
  [(seqZ 0 20, [FrameLost; Arrives; AnswerCorrupt] ++ replicate 45 Arrives, 0); ([9], [AnswerLost; Arrives; Arrives; Arrives], 100)].

Lemma isodep_session_witness :
  exists w' p' evs, session respond 2 demo_session selected tag0 = Ok (w', p') /\ ready w' p' /\ out w' = out selected ++ evs /\
    delivered evs = [reverse (seqZ 0 20); [9]] /\ Forall (fun e => is_frame e \/ exists d, e = DataReceived d) evs /\
    p_cmds p' = [seqZ 0 20; [9]].
Proof.
  apply (isodep_session respond 2 demo_session selected tag0); [lia|exact selected_ready|].
  repeat split; vm_compute; discriminate.
Defined.

Lemma isodep_at_most_once_witness :
  exists w' p' evs fin, exchange respond 2 [7; 8] (replicate 28 AnswerLost) 0 selected tag0 = Ok (w', p') /\
    out w' = out selected ++ evs ++ fin /\ Forall is_frame evs /\
    (fin = [] /\ (p_cmds p' = [] \/ p_cmds p' = [[7; 8]]) \/
     fin = [DataReceived [8; 7]] /\ p_cmds p' = [[7; 8]] \/
     (exists e, fin = [Error e]) /\ (p_cmds p' = [] \/ p_cmds p' = [[7; 8]]) /\
       max_failures < failures (replicate 28 AnswerLost)) /\
    (28 <= 28 -> fin <> []).
Proof.
  apply (isodep_at_most_once respond 2 [7; 8] (replicate 28 AnswerLost) 0 selected tag0); [lia|exact selected_ready|done|].
  vm_compute. discriminate.
Defined.
End SessionDemo.
