(* ===== verification/DfuMultiImage.v ===== *)
(** * Update packages with several images

    The parser of the packages (subsys/dfu/dfu_multi_image), which hands the data
    of the images to registered writers, whatever the sizes of the pieces in
    which the package arrives. *)

From stdpp Require Import prelude list.
From Stdlib Require Import ZArith Lia.
From S2P Require Import Prelude NdefRecord.

Open Scope Z_scope.

(** ** What the parser uses *)

Record image_info := { im_id : Z; im_size : Z }.

(** The CBOR decoder: its functions return whether they succeed and change the
    state of the decoder. [zcbor_multi_decode] decodes into an array, at most as
    many elements as it is allowed to. *)
Class Zcbor := {
  zst : Type;
  zcbor_new_state : list Z -> zst;
  zcbor_map_start_decode : zst -> bool * zst;
  zcbor_map_end_decode : zst -> bool * zst;
  zcbor_list_start_decode : zst -> bool * zst;
  zcbor_list_end_decode : zst -> bool * zst;
  zcbor_tstr_expect_lit : list Z -> zst -> bool * zst;
  zcbor_int32_decode : zst -> Z -> bool * zst * Z;
  zcbor_uint32_decode : zst -> Z -> bool * zst * Z;
  zcbor_multi_decode : Z -> Z -> (zst -> image_info -> bool * zst * image_info) -> zst -> list image_info ->
    bool * zst * Z * list image_info;
  zcbor_pop_error : zst -> Z
}.

Class MultiImageConfig := {
  MAX_IMAGE_COUNT : nat;
  max_image_count_positive : (1 <= MAX_IMAGE_COUNT)%nat
}.

(** Calls of the functions of a writer, which is named by its place, and their
    results, which may depend on all calls so far. *)
Inductive wcall :=
  | Open (w : nat) (id size : Z)
  | Write (w : nat) (data : list Z)
  | Close (w : nat) (success : bool).
#[export] Instance wcall_eq_dec : EqDecision wcall.
Proof. solve_decision. Defined.

(** ** The parser *)

Definition FIXED_HEADER_SIZE : Z := 2.
Definition IMAGE_NO_FIXED_HEADER : Z := -2.
Definition IMAGE_NO_CBOR_HEADER : Z := -1.

(** The writers are given by the identifiers of their images. *)
Record dfu_multi_image_ctx := {
  buffer : option (list Z);
  buffer_size : Z;
  writers : list Z;
  images : list image_info;
  image_count : Z;
  cur_image_no : Z;
  cur_offset : Z;
  cur_item_offset : Z;
  cur_item_size : Z;
  calls : list wcall
}.

(** Updates of a field. *)
Definition set_buffer (v : option (list Z)) (c : dfu_multi_image_ctx) : dfu_multi_image_ctx :=
  {| buffer := v; buffer_size := buffer_size c; writers := writers c; images := images c; image_count :=
     image_count c; cur_image_no := cur_image_no c; cur_offset := cur_offset c; cur_item_offset :=
     cur_item_offset c; cur_item_size := cur_item_size c; calls := calls c |}.
Definition set_writers (v : list Z) (c : dfu_multi_image_ctx) : dfu_multi_image_ctx :=
  {| buffer := buffer c; buffer_size := buffer_size c; writers := v; images := images c; image_count :=
     image_count c; cur_image_no := cur_image_no c; cur_offset := cur_offset c; cur_item_offset :=
     cur_item_offset c; cur_item_size := cur_item_size c; calls := calls c |}.
Definition set_images (v : list image_info) (c : dfu_multi_image_ctx) : dfu_multi_image_ctx :=
  {| buffer := buffer c; buffer_size := buffer_size c; writers := writers c; images := v; image_count :=
     image_count c; cur_image_no := cur_image_no c; cur_offset := cur_offset c; cur_item_offset :=
     cur_item_offset c; cur_item_size := cur_item_size c; calls := calls c |}.
Definition set_image_count (v : Z) (c : dfu_multi_image_ctx) : dfu_multi_image_ctx :=
  {| buffer := buffer c; buffer_size := buffer_size c; writers := writers c; images := images c; image_count
     := v; cur_image_no := cur_image_no c; cur_offset := cur_offset c; cur_item_offset := cur_item_offset c;
     cur_item_size := cur_item_size c; calls := calls c |}.
Definition set_cur_image_no (v : Z) (c : dfu_multi_image_ctx) : dfu_multi_image_ctx :=
  {| buffer := buffer c; buffer_size := buffer_size c; writers := writers c; images := images c; image_count
     := image_count c; cur_image_no := v; cur_offset := cur_offset c; cur_item_offset := cur_item_offset c;
     cur_item_size := cur_item_size c; calls := calls c |}.
Definition set_cur_offset (v : Z) (c : dfu_multi_image_ctx) : dfu_multi_image_ctx :=
  {| buffer := buffer c; buffer_size := buffer_size c; writers := writers c; images := images c; image_count
     := image_count c; cur_image_no := cur_image_no c; cur_offset := v; cur_item_offset := cur_item_offset
     c; cur_item_size := cur_item_size c; calls := calls c |}.
Definition set_cur_item_offset (v : Z) (c : dfu_multi_image_ctx) : dfu_multi_image_ctx :=
  {| buffer := buffer c; buffer_size := buffer_size c; writers := writers c; images := images c; image_count
     := image_count c; cur_image_no := cur_image_no c; cur_offset := cur_offset c; cur_item_offset := v;
     cur_item_size := cur_item_size c; calls := calls c |}.
Definition set_cur_item_size (v : Z) (c : dfu_multi_image_ctx) : dfu_multi_image_ctx :=
  {| buffer := buffer c; buffer_size := buffer_size c; writers := writers c; images := images c; image_count
     := image_count c; cur_image_no := cur_image_no c; cur_offset := cur_offset c; cur_item_offset :=
     cur_item_offset c; cur_item_size := v; calls := calls c |}.
Definition set_calls (v : list wcall) (c : dfu_multi_image_ctx) : dfu_multi_image_ctx :=
  {| buffer := buffer c; buffer_size := buffer_size c; writers := writers c; images := images c; image_count
     := image_count c; cur_image_no := cur_image_no c; cur_offset := cur_offset c; cur_item_offset :=
     cur_item_offset c; cur_item_size := cur_item_size c; calls := v |}.

Section MultiImage.
Context {BO : ByteOrder} {ZC : Zcbor} {MC : MultiImageConfig} (result : list wcall -> Z).

Definition parse_fixed_header (c : dfu_multi_image_ctx) : res (dfu_multi_image_ctx * Z) :=
  match buffer c with
  | None => Fault
  | Some b =>
    let* bs := rd_block b 0 2 in
    let c := set_cur_item_size (u32 (cur_item_size c + sys_get_le16 bs)) c in
    let c := set_cur_image_no IMAGE_NO_CBOR_HEADER c in
    Ok (c, if cur_item_size c <=? buffer_size c then 0 else - errno_num ENOMEM)
  end.

(** The next function, if the previous ones succeeded. *)
Definition and_then (r : bool * zst) (f : zst -> bool * zst) : bool * zst := if r.1 then f r.2 else r.

Definition str_id : list Z := [105; 100].
Definition str_size : list Z := [115; 105; 122; 101].
Definition str_img : list Z := [105; 109; 103].

Definition parse_image_info (states : zst) (image : image_info) : bool * zst * image_info :=
  let r := zcbor_map_start_decode states in
  let r := and_then r (zcbor_tstr_expect_lit str_id) in
  let '(r, image) :=
    if r.1 then
      let '(b, s, v) := zcbor_int32_decode r.2 (im_id image) in ((b, s), {| im_id := v; im_size := im_size image |})
    else (r, image) in
  let r := and_then r (zcbor_tstr_expect_lit str_size) in
  let '(r, image) :=
    if r.1 then
      let '(b, s, v) := zcbor_uint32_decode r.2 (im_size image) in ((b, s), {| im_id := im_id image; im_size := v |})
    else (r, image) in
  let r := and_then r zcbor_map_end_decode in
  (r.1, r.2, image).

(** The array of images and their number, or the error of the decoder. *)
Definition cbor_images (payload : list Z) (arr : list image_info) : list image_info * (Z + Z) :=
  let r := zcbor_map_start_decode (zcbor_new_state payload) in
  let r := and_then r (zcbor_tstr_expect_lit str_img) in
  let r := and_then r zcbor_list_start_decode in
  let '(r, n, arr) :=
    if r.1 then
      let '(b, s, n, arr) := zcbor_multi_decode 1 (Z.of_nat MAX_IMAGE_COUNT) parse_image_info r.2 arr in ((b, s), n, arr)
    else (r, 0, arr) in
  let r := and_then r zcbor_list_end_decode in
  let r := and_then r zcbor_map_end_decode in
  (arr, if r.1 then inl n else inr (zcbor_pop_error r.2)).

Definition parse_cbor_header (c : dfu_multi_image_ctx) : res (dfu_multi_image_ctx * Z) :=
  match buffer c with
  | None => Fault
  | Some b =>
    let* payload := rd_block b FIXED_HEADER_SIZE (u32 (cur_item_size c - FIXED_HEADER_SIZE)) in
    let '(arr, r) := cbor_images payload (images c) in
    let c := set_images arr c in
    match r with
    | inl n => Ok (set_image_count n c, 0)
    | inr e => Ok (c, e)
    end
  end.

(** The place of the first writer for an image. *)
Fixpoint writer_find (ws : list Z) (id : Z) (i : nat) : option nat :=
  match ws with
  | [] => None
  | w :: ws => if w =? id then Some i else writer_find ws id (S i)
  end.

Definition image_at (c : dfu_multi_image_ctx) (no : Z) : res image_info :=
  if no <? 0 then Fault else match images c !! Z.to_nat no with Some im => Ok im | None => Fault end.

Definition current_image_writer (c : dfu_multi_image_ctx) : res (option nat) :=
  if (0 <=? cur_image_no c) && (cur_image_no c <? image_count c) then
    let* im := image_at c (cur_image_no c) in
    Ok (writer_find (writers c) (im_id im) 0)
  else Ok None.

(** The comparison of the image number is one of unsigned integers. *)
Fixpoint select_loop (fuel : nat) (c : dfu_multi_image_ctx) : res dfu_multi_image_ctx :=
  match fuel with
  | O => NoFuel
  | S fuel =>
    let c := set_cur_image_no (cur_image_no c + 1) c in
    if u32 (cur_image_no c) <? image_count c then
      let* w := current_image_writer c in
      match w with
      | Some _ => Ok c
      | None =>
        let* im := image_at c (cur_image_no c) in
        select_loop fuel (set_cur_offset (u32 (cur_offset c + im_size im)) c)
      end
    else Ok c
  end.

Definition select_next_image (c : dfu_multi_image_ctx) : res dfu_multi_image_ctx :=
  let c := set_cur_item_size 0 (set_cur_item_offset 0 c) in
  let* c := select_loop (S (S (Z.to_nat (image_count c)))) c in
  if u32 (cur_image_no c) <? image_count c then
    let* im := image_at c (cur_image_no c) in
    Ok (set_cur_item_size (im_size im) c)
  else Ok c.

(** A function of a writer is called. *)
Definition wcall_do (w : wcall) (c : dfu_multi_image_ctx) : dfu_multi_image_ctx * Z :=
  let c := set_calls (calls c ++ [w]) c in
  (c, result (calls c)).

(** A part of the headers. *)
Definition process_header (chunk : list Z) (c : dfu_multi_image_ctx) : res (dfu_multi_image_ctx * Z) :=
  match buffer c with
  | None => Fault
  | Some b =>
    let* b := wr_block b (cur_item_offset c) chunk in
    let c := set_buffer (Some b) c in
    if u32 (cur_item_offset c + zlen chunk) =? cur_item_size c then
      if cur_image_no c =? IMAGE_NO_FIXED_HEADER then parse_fixed_header c else parse_cbor_header c
    else Ok (c, 0)
  end.

(** A part of an image. *)
Definition process_image (chunk : list Z) (c : dfu_multi_image_ctx) : res (dfu_multi_image_ctx * Z) :=
  let* w := current_image_writer c in
  match w with
  | None => Ok (c, - errno_num ESPIPE)
  | Some w =>
    let* im := image_at c (cur_image_no c) in
    let '(c, err) := if cur_item_offset c =? 0 then wcall_do (Open w (im_id im) (im_size im)) c else (c, 0) in
    let '(c, err) := if err =? 0 then wcall_do (Write w chunk) c else (c, err) in
    Ok (if (err =? 0) && (u32 (cur_item_offset c + zlen chunk) =? cur_item_size c) then wcall_do (Close w true) c
        else (c, err))
  end.

Definition process_current_item (chunk : list Z) (c : dfu_multi_image_ctx) : res (dfu_multi_image_ctx * Z) :=
  let n := Z.min (zlen chunk) (u32 (cur_item_size c - cur_item_offset c)) in
  let* chunk := rd_block chunk 0 n in
  let* '(c, err) := if cur_image_no c <? 0 then process_header chunk c else process_image chunk c in
  if negb (err =? 0) then Ok (c, err) else
  let c := set_cur_offset (u32 (cur_offset c + n)) c in
  let c := set_cur_item_offset (u32 (cur_item_offset c + n)) c in
  let* c := if cur_item_offset c =? cur_item_size c then select_next_image c else Ok c in
  Ok (c, sint 32 n).

Definition dfu_multi_image_init (buf : option (list Z)) (size : Z) (c : dfu_multi_image_ctx) : dfu_multi_image_ctx * Z :=
  if bool_decide (buf = None) || (size <? FIXED_HEADER_SIZE) then (c, - errno_num EINVAL)
  else
    ({| buffer := buf; buffer_size := size; writers := []; images := replicate MAX_IMAGE_COUNT {| im_id := 0; im_size := 0 |};
        image_count := 0; cur_image_no := IMAGE_NO_FIXED_HEADER; cur_offset := 0; cur_item_offset := 0;
        cur_item_size := FIXED_HEADER_SIZE; calls := calls c |}, 0).

Definition dfu_multi_image_register_writer (id : Z) (c : dfu_multi_image_ctx) : dfu_multi_image_ctx * Z :=
  if bool_decide (length (writers c) = MAX_IMAGE_COUNT) then (c, - errno_num ENOMEM)
  else (set_writers (writers c ++ [id]) c, 0).

Fixpoint write_loop (fuel : nat) (offset : Z) (chunk : list Z) (chunk_offset : Z) (c : dfu_multi_image_ctx)
    : res (dfu_multi_image_ctx * Z) :=
  match fuel with
  | O => NoFuel
  | S fuel =>
    let chunk_offset := u32 (chunk_offset + u32 (cur_offset c - offset)) in
    if zlen chunk <=? chunk_offset then Ok (c, 0) else
    let* '(c, r) := process_current_item (drop (Z.to_nat chunk_offset) chunk) c in
    if r <=? 0 then Ok (c, r)
    else write_loop fuel (u32 (offset + r)) chunk (u32 (chunk_offset + r)) c
  end.

(** Every round takes at least one octet of the chunk. *)
Definition dfu_multi_image_write (offset : Z) (chunk : list Z) (c : dfu_multi_image_ctx) : res (dfu_multi_image_ctx * Z) :=
  if cur_offset c <? offset then Ok (c, - errno_num ESPIPE)
  else write_loop (S (length chunk)) offset chunk 0 c.

Definition dfu_multi_image_offset (c : dfu_multi_image_ctx) : Z := cur_offset c.

Definition dfu_multi_image_done (success : bool) (c : dfu_multi_image_ctx) : res (dfu_multi_image_ctx * Z) :=
  let* w := current_image_writer c in
  let '(c, err) := match w with Some w => wcall_do (Close w success) c | None => (c, 0) end in
  if (err =? 0) && success && negb (u32 (cur_image_no c) =? image_count c) then Ok (c, - errno_num ESPIPE)
  else Ok (c, err).
End MultiImage.

(** ** Packages *)

(** What a writer gets: the image, its data so far, whether it was closed. *)
Record delivery := { dl_writer : nat; dl_id : Z; dl_size : Z; dl_data : list Z; dl_closed : bool }.

(** A call in the right place extends the last delivery or starts one; [None]
    stands for a call out of place. *)
Definition deliver (acc : option (list delivery)) (w : wcall) : option (list delivery) :=
  match acc with
  | None => None
  | Some l =>
    match w with
    | Open i id size => Some (l ++ [{| dl_writer := i; dl_id := id; dl_size := size; dl_data := []; dl_closed := false |}])
    | Write i bs =>
      match last l with
      | Some d =>
        if bool_decide (dl_writer d = i) && negb (dl_closed d) then
          Some (removelast l ++ [{| dl_writer := i; dl_id := dl_id d; dl_size := dl_size d; dl_data := dl_data d ++ bs;
                                    dl_closed := false |}])
        else None
      | None => None
      end
    | Close i ok =>
      match last l with
      | Some d =>
        if bool_decide (dl_writer d = i) && negb (dl_closed d) && ok then
          Some (removelast l ++ [{| dl_writer := i; dl_id := dl_id d; dl_size := dl_size d; dl_data := dl_data d;
                                    dl_closed := true |}])
        else None
      | None => None
      end
    end
  end.
Definition deliveries (ws : list wcall) : option (list delivery) := fold_left deliver ws (Some []).

Lemma deliveries_snoc ws w : deliveries (ws ++ [w]) = deliver (deliveries ws) w.
Proof. apply fold_left_app. Qed.

Section Package.
Context {BO : ByteOrder} {ZC : Zcbor} {MC : MultiImageConfig} (result : list wcall -> Z).
Context (ws : list Z) (imgs : list image_info) (datas : list (list Z)) (cbor : list Z).

Definition fixed_header : list Z := [zlen cbor mod 256; zlen cbor / 256].
Definition package : list Z := fixed_header ++ cbor ++ concat datas.

(** The sizes in the header are those of the data, images that are written have
    some, and the decoder finds the images in the header. *)
Record package_ok : Prop := {
  pk_result h : result h = 0;
  pk_sizes : Forall2 (fun im d => im_size im = zlen d) imgs datas;
  pk_written im d k : imgs !! k = Some im -> datas !! k = Some d -> writer_find ws (im_id im) 0 <> None -> d <> [];
  pk_cbor : 1 <= zlen cbor < 65536;
  pk_images arr : length arr = MAX_IMAGE_COUNT ->
    exists arr', cbor_images cbor arr = (arr', inl (zlen imgs)) /\ take (length imgs) arr' = imgs;
  pk_count : zlen imgs < 2 ^ 31;
  pk_length : zlen package < 2 ^ 31
}.
Context (PK : package_ok).

(** What the writers are to get, of the first [k] images. *)
Definition expect1 (x : image_info * list Z) : option delivery :=
  match writer_find ws (im_id x.1) 0 with
  | Some w => Some {| dl_writer := w; dl_id := im_id x.1; dl_size := im_size x.1; dl_data := x.2; dl_closed := true |}
  | None => None
  end.
Definition expected (k : nat) : list delivery := omap expect1 (take k (zip imgs datas)).

(** The place of an image in the package. *)
Definition place (k : nat) : Z := 2 + zlen cbor + zlen (concat (take k datas)).

(** ** The states of the parser *)

Definition parsed (c : dfu_multi_image_ctx) : Prop :=
  writers c = ws /\ take (length imgs) (images c) = imgs /\ image_count c = zlen imgs.

Inductive stage : Z -> dfu_multi_image_ctx -> Prop :=
  | InHeader pos c b :
      writers c = ws -> length (images c) = MAX_IMAGE_COUNT -> image_count c = 0 -> calls c = [] ->
      buffer c = Some b -> zlen b = buffer_size c -> 2 + zlen cbor <= buffer_size c ->
      0 <= pos < 2 + zlen cbor -> cur_offset c = pos -> cur_item_offset c = pos ->
      cur_image_no c = (if pos <? 2 then -2 else -1) -> cur_item_size c = (if pos <? 2 then 2 else 2 + zlen cbor) ->
      take (Z.to_nat pos) b = take (Z.to_nat pos) (fixed_header ++ cbor) -> stage pos c
  | InImage pos c k im d w o :
      parsed c -> imgs !! k = Some im -> datas !! k = Some d -> writer_find ws (im_id im) 0 = Some w ->
      0 <= o < zlen d -> pos = place k + o -> cur_offset c = pos -> cur_item_offset c = o -> cur_item_size c = zlen d ->
      cur_image_no c = Z.of_nat k ->
      deliveries (calls c) = Some (expected k ++
        if o =? 0 then [] else [{| dl_writer := w; dl_id := im_id im; dl_size := im_size im;
                                   dl_data := take (Z.to_nat o) d; dl_closed := false |}]) -> stage pos c
  | AllDone pos c :
      parsed c -> pos = place (length imgs) -> cur_offset c = pos -> cur_item_offset c = 0 -> cur_item_size c = 0 ->
      cur_image_no c = zlen imgs -> deliveries (calls c) = Some (expected (length imgs)) -> stage pos c.

(** No octet of the current item was processed yet, and the headers were. *)
Definition fresh (c : dfu_multi_image_ctx) : Prop := cur_item_offset c = 0 /\ 0 <= cur_image_no c.

Lemma datas_length : length datas = length imgs.
Proof. symmetry. apply (Forall2_length _ _ _ (pk_sizes PK)). Qed.

Lemma package_split k :
  package = fixed_header ++ cbor ++ concat (take k datas) ++ concat (drop k datas).
Proof. unfold package. by rewrite <- concat_app, take_drop. Qed.

Lemma place_next k d : datas !! k = Some d -> place (S k) = place k + zlen d.
Proof. intros H. unfold place. rewrite (take_S_r _ _ _ H), concat_app, length_app. cbn [concat]. rewrite app_nil_r. lia. Qed.

Lemma place_0 : place 0 = 2 + zlen cbor.
Proof. unfold place. change (zlen (concat (take 0 datas))) with 0. lia. Qed.

Lemma place_le k : place k <= zlen package.
Proof. unfold place. rewrite (package_split k), !length_app. cbn [length fixed_header]. lia. Qed.

Lemma place_all : place (length imgs) = zlen package.
Proof.
  unfold place, package. rewrite take_ge by (rewrite datas_length; lia). rewrite !length_app. cbn [length fixed_header]. lia.
Qed.

Lemma package_image k d : datas !! k = Some d -> exists rest, drop (Z.to_nat (place k)) package = d ++ rest.
Proof.
  intros H. exists (concat (drop (S k) datas)). rewrite (package_split k), (drop_S _ _ _ H). cbn [concat].
  replace (fixed_header ++ cbor ++ concat (take k datas) ++ d ++ concat (drop (S k) datas)) with
    ((fixed_header ++ cbor ++ concat (take k datas)) ++ d ++ concat (drop (S k) datas)) by (by rewrite <- !app_assoc).
  apply drop_app_length'. unfold place. rewrite !length_app. cbn [length fixed_header]. lia.
Qed.

Lemma expected_S k im d : imgs !! k = Some im -> datas !! k = Some d ->
  expected (S k) = expected k ++ option_list (expect1 (im, d)).
Proof.
  intros Hi Hd. unfold expected. rewrite (take_S_r _ _ (im, d)).
  - rewrite omap_app. cbn. by destruct (expect1 (im, d)).
  - rewrite lookup_zip_with, Hi. cbn. by rewrite Hd.
Qed.

(** *** The next image *)

Definition all_written : Prop := forall im, im ∈ imgs -> writer_find ws (im_id im) 0 <> None.

Lemma parsed_image c k im : parsed c -> imgs !! k = Some im -> image_at c (Z.of_nat k) = Ok im.
Proof.
  intros (_ & Hi & _) H. unfold image_at. rewrite (proj2 (Z.ltb_ge _ 0)) by lia. rewrite Nat2Z.id.
  rewrite <- Hi in H. apply lookup_take_Some in H as [-> _]. done.
Qed.

Lemma parsed_writer c k im :
  parsed c -> imgs !! k = Some im -> cur_image_no c = Z.of_nat k ->
  current_image_writer c = Ok (writer_find ws (im_id im) 0).
Proof.
  intros Hp H Hk. pose proof (lookup_lt_Some _ _ _ H). unfold current_image_writer. rewrite Hk.
  destruct Hp as (Hw & Hi & Hc). rewrite Hc, (proj2 (Z.leb_le _ _)), (proj2 (Z.ltb_lt _ _)) by lia. cbn [andb].
  rewrite (parsed_image c k im) by done. cstep. by rewrite Hw.
Qed.

Lemma select_loop_spec n : forall k c fuel,
  (k + n = length imgs)%nat -> (n < fuel)%nat -> parsed c ->
  cur_image_no c = Z.of_nat k - 1 -> cur_offset c = place k ->
  exists k', (k <= k' <= length imgs)%nat /\ expected k' = expected k /\ (all_written -> k' = k) /\
    (forall im, imgs !! k' = Some im -> writer_find ws (im_id im) 0 <> None) /\
    select_loop fuel c = Ok (set_cur_offset (place k') (set_cur_image_no (Z.of_nat k') c)).
Proof.
  induction n as [|n IH]; intros k c fuel Hk Hf Hp Hno Hoff; pose proof (pk_count PK); (destruct fuel as [|fuel]; [lia|]);
    cbn [select_loop]; cbn [cur_image_no set_cur_image_no]; rewrite Hno, u32_small by lia;
    (replace (Z.of_nat k - 1 + 1) with (Z.of_nat k) by lia);
    cbn [image_count set_cur_image_no]; pose proof Hp as (_ & _ & Hc); rewrite Hc.
  - rewrite (proj2 (Z.ltb_ge _ _)) by lia. exists k. split; [lia|]. split; [done|]. split; [done|].
    split; [intros im Him; apply lookup_lt_Some in Him; lia|]. rewrite <- Hoff. by destruct c.
  - rewrite (proj2 (Z.ltb_lt _ _)) by lia. destruct (lookup_lt_is_Some_2 imgs k) as [im Him]; [lia|].
    destruct (lookup_lt_is_Some_2 datas k) as [d Hd]; [rewrite datas_length; lia|].
    rewrite (parsed_writer _ k im) by done. cstep. destruct (writer_find ws (im_id im) 0) as [w|] eqn:Ew.
    + exists k. split; [lia|]. split; [done|]. split; [done|]. split; [|rewrite <- Hoff; by destruct c].
      intros im' H'. rewrite Him in H'. injection H' as <-. by rewrite Ew.
    + rewrite (parsed_image _ k im) by done. cstep. cbn [cur_offset set_cur_image_no].
      assert (Hsz : im_size im = zlen d) by (by apply (Forall2_lookup_lr _ _ _ _ _ _ (pk_sizes PK) Him Hd)).
      pose proof (place_next k d Hd) as Hn. pose proof (place_le (S k)). pose proof (pk_length PK).
      assert (0 <= place k) by (unfold place; lia).
      rewrite Hoff, Hsz, u32_small, <- Hn by lia.
      destruct (IH (S k) (set_cur_offset (place (S k)) (set_cur_image_no (Z.of_nat k) c)) fuel) as (k' & Hk' & He & Ha & Hw & E);
        [lia|lia|done|cbn; lia|done|].
      exists k'. split; [lia|]. split; [rewrite He, (expected_S k im d) by done; unfold expect1; cbn; rewrite Ew; apply app_nil_r|].
      split; [|split; [done|rewrite E; by destruct c]].
      intros Hall. exfalso. by apply (Hall im (list_elem_of_lookup_2 _ _ _ Him)).
Qed.

(** After an item. *)
Lemma select_next_spec k c :
  (k <= length imgs)%nat -> parsed c -> cur_image_no c = Z.of_nat k - 1 -> cur_offset c = place k ->
  deliveries (calls c) = Some (expected k) ->
  exists c', select_next_image c = Ok c' /\ stage (cur_offset c') c' /\ fresh c' /\ place k <= cur_offset c' /\
    (all_written -> cur_offset c' = place k).
Proof.
  intros Hk Hp Hno Hoff Hd. unfold select_next_image. set (c1 := set_cur_item_size 0 (set_cur_item_offset 0 c)).
  pose proof (pk_count PK).
  destruct (select_loop_spec (length imgs - k) k c1 (S (S (Z.to_nat (image_count c1))))) as (k' & Hk' & He & Ha & Hw & E);
    [lia|destruct Hp as (_ & _ & Hc); cbn; rewrite Hc; lia|done|done|done|].
  rewrite E. cstep. unfold c1. cbn [cur_image_no set_cur_offset set_cur_image_no set_cur_item_size set_cur_item_offset image_count].
  pose proof Hp as (_ & _ & Hc). rewrite Hc, u32_small by lia.
  assert (Hle : place k <= place k').
  { unfold place. assert (concat (take k datas) `prefix_of` concat (take k' datas)) as Hpre.
    { replace (take k' datas) with (take k datas ++ take (k' - k) (drop k datas)); [rewrite concat_app; by eexists|].
      by rewrite take_take_drop, Nat.add_comm, Nat.sub_add by lia. }
    apply prefix_length in Hpre. lia. }
  destruct (decide (k' < length imgs)%nat) as [Hlt|Hge].
  - rewrite (proj2 (Z.ltb_lt _ _)) by lia. destruct (lookup_lt_is_Some_2 imgs k' Hlt) as [im Him].
    destruct (lookup_lt_is_Some_2 datas k') as [d Hdd]; [by rewrite datas_length|].
    rewrite (parsed_image _ k' im) by done. cstep. eexists. split; [reflexivity|]. cbn [cur_offset set_cur_item_size set_cur_offset].
    assert (Hsz : im_size im = zlen d) by (by apply (Forall2_lookup_lr _ _ _ _ _ _ (pk_sizes PK) Him Hdd)).
    specialize (Hw im Him). destruct (writer_find ws (im_id im) 0) as [w|] eqn:Ew; [|done].
    assert (d <> []) by (apply (pk_written PK im d k' Him Hdd); by rewrite Ew).
    assert (0 < zlen d) by (destruct d; cbn [length]; [done|lia]).
    split; [|split; [split; cbn; lia|split; [done|intros; by rewrite Ha]]].
    eapply (InImage _ _ k' im d w 0); try done; [lia|]. cbn [Z.eqb]. by rewrite app_nil_r, He.
  - rewrite (proj2 (Z.ltb_ge _ _)) by lia. assert (k' = length imgs) as -> by lia. eexists. split; [reflexivity|].
    cbn [cur_offset set_cur_offset]. split; [|split; [split; cbn; lia|split; [done|intros; by rewrite Ha]]].
    eapply AllDone; try done. cbn. by rewrite He.
Qed.

(** *** The headers *)

Lemma header_part pos n :
  0 <= pos -> 0 <= n -> pos + n <= 2 + zlen cbor ->
  take (Z.to_nat n) (drop (Z.to_nat pos) package) = take (Z.to_nat n) (drop (Z.to_nat pos) (fixed_header ++ cbor)).
Proof.
  intros Hp Hn Hl. unfold package. rewrite (app_assoc fixed_header), drop_app_le.
  - rewrite take_app_le; [done|]. rewrite length_drop, length_app. cbn [length fixed_header]. lia.
  - rewrite length_app. cbn [length fixed_header]. lia.
Qed.

(** The part of the headers that is in the buffer. *)
Lemma header_stored b pos n :
  0 <= pos -> 0 <= n -> pos + n <= 2 + zlen cbor -> 2 + zlen cbor <= zlen b ->
  take (Z.to_nat pos) b = take (Z.to_nat pos) (fixed_header ++ cbor) ->
  exists b', wr_block b pos (take (Z.to_nat n) (drop (Z.to_nat pos) package)) = Ok b' /\ zlen b' = zlen b /\
    take (Z.to_nat (pos + n)) b' = take (Z.to_nat (pos + n)) (fixed_header ++ cbor).
Proof.
  intros Hp Hn Hl Hb Hpre. rewrite header_part by done. set (x := take (Z.to_nat n) _).
  assert (Hx : zlen x = n).
  { unfold x. rewrite length_take, length_drop, length_app. cbn [length fixed_header]. lia. }
  rewrite wr_block_Ok by lia. eexists. split; [reflexivity|]. split.
  - rewrite !length_app, length_take, length_drop. lia.
  - rewrite Hpre, app_assoc. rewrite take_app_length'.
    + unfold x. rewrite take_take_drop. f_equal. lia.
    + rewrite length_app, length_take, length_app. cbn [length fixed_header]. lia.
Qed.

Lemma sint32_small z : 0 <= z < 2 ^ 31 -> sint 32 z = z.
Proof. intros H. unfold sint. rewrite Z.mod_small by lia. by rewrite (proj2 (Z.ltb_lt _ _)) by lia. Qed.

(** The next position, with how it is reached: images may have been left out. *)
Definition step_to (pos n : Z) (c' : dfu_multi_image_ctx) : Prop :=
  stage (cur_offset c') c' /\ pos + n <= cur_offset c' /\ (cur_offset c' = pos + n \/ fresh c' /\ ~ all_written).

(** The end of an item, or more of it to come. *)
Definition advance (n : Z) (c : dfu_multi_image_ctx) : dfu_multi_image_ctx :=
  set_cur_item_offset (u32 (cur_item_offset c + n)) (set_cur_offset (u32 (cur_offset c + n)) c).

Lemma process_part rest c n c1 :
  n = Z.min (zlen rest) (u32 (cur_item_size c - cur_item_offset c)) -> 0 <= n < 2 ^ 31 ->
  (if cur_image_no c <? 0 then process_header (take (Z.to_nat n) rest) c else process_image result (take (Z.to_nat n) rest) c) =
    Ok (c1, 0) ->
  process_current_item result rest c =
    (let* c := if u32 (cur_item_offset c1 + n) =? cur_item_size c1 then select_next_image (advance n c1) else Ok (advance n c1) in
     Ok (c, n)).
Proof.
  intros Hn Hr E. unfold process_current_item. rewrite <- Hn, rd_block_Ok by lia. change (Z.to_nat 0) with 0%nat.
  rewrite drop_0. cstep. rewrite E. cstep. cbn [Z.eqb negb]. rewrite sint32_small by lia. done.
Qed.

Lemma process_fixed pos c rest :
  stage pos c -> pos < 2 -> rest <> [] -> rest = take (length rest) (drop (Z.to_nat pos) package) -> zlen rest < 2 ^ 31 ->
  exists c' n, process_current_item result rest c = Ok (c', n) /\ 0 < n <= zlen rest /\ step_to pos n c'.
Proof.
  intros H Hpos Hne Hrest Hrl'. pose proof (pk_cbor PK). assert (Hrl : 0 < zlen rest) by (destruct rest; cbn [length]; [done|lia]).
  inversion H as [? ? b Hw Him Hic Hcs Hb Hbs Hbl Hp Ho Hio Hno His Hpre|? ? ? ? ? ? ? ? _ _ _ ? ->|? ? _ ->]; subst;
    [|unfold place in *; lia..].
  rewrite (proj2 (Z.ltb_lt _ 2)) in Hno, His by lia. set (n := Z.min (zlen rest) (2 - cur_offset c)).
  assert (Er : take (Z.to_nat n) rest = take (Z.to_nat n) (drop (Z.to_nat (cur_offset c)) package)).
  { rewrite Hrest, take_take. f_equal. lia. }
  destruct (header_stored b (cur_offset c) n) as (b' & Eb & Lb & Hpre'); [lia|lia|lia|lia|done|]. rewrite <- Er in Eb.
  assert (Ln : zlen (take (Z.to_nat n) rest) = n) by (rewrite length_take; lia).
  assert (E : process_header (take (Z.to_nat n) rest) c = Ok (
    if cur_offset c + n =? 2 then set_cur_image_no (-1) (set_cur_item_size (2 + zlen cbor) (set_buffer (Some b') c))
    else set_buffer (Some b') c, 0)).
  { unfold process_header. rewrite Hb, Hio, Eb. cstep. rewrite Ln.
    cbn [cur_item_offset cur_item_size cur_image_no set_buffer]. rewrite Hio, His, Hno, u32_small by lia.
    destruct (Z.eqb_spec (cur_offset c + n) 2) as [E2|E2]; [|done]. cbn [Z.eqb Pos.eqb IMAGE_NO_FIXED_HEADER].
    unfold parse_fixed_header. cbn [buffer set_buffer]. rewrite rd_block_Ok by lia. cstep.
    rewrite E2 in Hpre'. change (Z.to_nat 0) with 0%nat. rewrite drop_0, Hpre'. cbn [Z.to_nat Pos.to_nat].
    change (take (Z.to_nat 2) (fixed_header ++ cbor)) with fixed_header. unfold fixed_header. rewrite sys_get_le16_spec.
    cbn [cur_item_size set_buffer]. rewrite His. change (2 ^ 8) with 256.
    replace (zlen cbor / 256 * 256 + zlen cbor mod 256) with (zlen cbor) by (pose proof (Z.div_mod (zlen cbor) 256); lia).
    rewrite u32_small by lia. cbn [cur_item_size set_cur_item_size set_cur_image_no buffer_size set_buffer].
    by rewrite (proj2 (Z.leb_le _ _)) by lia. }
  rewrite (process_part rest c n _ ltac:(rewrite His, Hio, u32_small by lia; done) ltac:(lia)
    ltac:(rewrite Hno; exact E)).
  destruct (Z.eqb_spec (cur_offset c + n) 2) as [E2|E2].
  - cbn [cur_item_offset cur_item_size set_cur_image_no set_cur_item_size set_buffer]. rewrite Hio, u32_small by lia.
    rewrite (proj2 (Z.eqb_neq _ _)) by lia. cstep. eexists _, n. split; [reflexivity|]. split; [lia|].
    unfold step_to, advance. cbn. rewrite !u32_small by lia. split; [|split; [lia|by left]].
    eapply (InHeader _ _ b'); cbn; rewrite ?u32_small by lia; try done; [lia|lia|lia| |].
    + by rewrite (proj2 (Z.ltb_ge _ 2)) by lia.
    + by rewrite (proj2 (Z.ltb_ge _ 2)) by lia.
  - cbn [cur_item_offset cur_item_size set_buffer]. rewrite Hio, His, u32_small by lia.
    rewrite (proj2 (Z.eqb_neq _ _)) by lia. cstep. eexists _, n. split; [reflexivity|]. split; [lia|].
    unfold step_to, advance. cbn. rewrite !u32_small by lia. split; [|split; [lia|by left]].
    eapply (InHeader _ _ b'); cbn; rewrite ?u32_small by lia; try done; [lia|lia|lia| |].
    + by rewrite (proj2 (Z.ltb_lt _ 2)) by lia.
    + by rewrite (proj2 (Z.ltb_lt _ 2)) by lia.
Qed.

Lemma process_cbor pos c rest :
  stage pos c -> 2 <= pos < 2 + zlen cbor -> rest <> [] -> rest = take (length rest) (drop (Z.to_nat pos) package) ->
  zlen rest < 2 ^ 31 ->
  exists c' n, process_current_item result rest c = Ok (c', n) /\ 0 < n <= zlen rest /\ step_to pos n c'.
Proof.
  intros H Hpos Hne Hrest Hrl'. pose proof (pk_cbor PK). assert (Hrl : 0 < zlen rest) by (destruct rest; cbn [length]; [done|lia]).
  inversion H as [? ? b Hw Him Hic Hcs Hb Hbs Hbl Hp Ho Hio Hno His Hpre|? ? ? ? ? ? ? ? _ _ _ ? ->|? ? _ ->]; subst;
    [|unfold place in *; lia..].
  rewrite (proj2 (Z.ltb_ge _ 2)) in Hno, His by lia. set (n := Z.min (zlen rest) (2 + zlen cbor - cur_offset c)).
  assert (Er : take (Z.to_nat n) rest = take (Z.to_nat n) (drop (Z.to_nat (cur_offset c)) package)).
  { rewrite Hrest, take_take. f_equal. lia. }
  destruct (header_stored b (cur_offset c) n) as (b' & Eb & Lb & Hpre'); [lia|lia|lia|lia|done|]. rewrite <- Er in Eb.
  assert (Ln : zlen (take (Z.to_nat n) rest) = n) by (rewrite length_take; lia).
  destruct (pk_images PK (images c) Him) as (arr & Earr & Harr).
  assert (E : process_header (take (Z.to_nat n) rest) c = Ok (
    if cur_offset c + n =? 2 + zlen cbor then set_image_count (zlen imgs) (set_images arr (set_buffer (Some b') c))
    else set_buffer (Some b') c, 0)).
  { unfold process_header. rewrite Hb, Hio, Eb. cstep. rewrite Ln.
    cbn [cur_item_offset cur_item_size cur_image_no set_buffer]. rewrite Hio, His, Hno, u32_small by lia.
    destruct (Z.eqb_spec (cur_offset c + n) (2 + zlen cbor)) as [E2|E2]; [|done]. cbn [Z.eqb Pos.eqb IMAGE_NO_FIXED_HEADER].
    unfold parse_cbor_header, FIXED_HEADER_SIZE. cbn [buffer set_buffer cur_item_size]. rewrite His.
    replace (2 + zlen cbor - 2) with (zlen cbor) by lia. rewrite u32_small by lia.
    replace (rd_block b' 2 (zlen cbor)) with (Ok cbor); [cstep; cbn [images set_buffer]; by rewrite Earr|].
    rewrite rd_block_Ok by lia. f_equal. rewrite E2, (take_ge (fixed_header ++ cbor)) in Hpre' by (rewrite length_app; cbn [length fixed_header]; lia).
    rewrite <- (take_drop (Z.to_nat (2 + zlen cbor)) b'), Hpre', <- app_assoc. change (Z.to_nat 2) with 2%nat.
    by rewrite (drop_app_length' fixed_header), Nat2Z.id, take_app_length by done. }
  rewrite (process_part rest c n _ ltac:(rewrite His, Hio, u32_small by lia; done) ltac:(lia)
    ltac:(rewrite Hno; exact E)).
  destruct (Z.eqb_spec (cur_offset c + n) (2 + zlen cbor)) as [E2|E2].
  - cbn [cur_item_offset cur_item_size set_image_count set_images set_buffer]. rewrite Hio, His, u32_small by lia.
    rewrite E2, Z.eqb_refl.
    destruct (select_next_spec 0 (advance n (set_image_count (zlen imgs) (set_images arr (set_buffer (Some b') c)))))
      as (c' & -> & Hst & Hfr & Hle & Hall); [lia|done|cbn; lia| |by cbn; rewrite Hcs|].
    { unfold advance. cbn [cur_offset set_cur_item_offset set_cur_offset set_image_count set_images set_buffer].
      rewrite u32_small, place_0 by lia. done. }
    cstep. eexists _, n. split; [reflexivity|]. split; [lia|]. rewrite place_0 in Hle, Hall.
    split; [done|]. split; [lia|]. destruct (decide (cur_offset c' = cur_offset c + n)); [by left|right]. split; [done|].
    intros Ha. specialize (Hall Ha). lia.
  - cbn [cur_item_offset cur_item_size set_buffer]. rewrite Hio, His, u32_small by lia.
    rewrite (proj2 (Z.eqb_neq _ _)) by lia. cstep. eexists _, n. split; [reflexivity|]. split; [lia|].
    unfold step_to, advance. cbn. rewrite !u32_small by lia. split; [|split; [lia|by left]].
    eapply (InHeader _ _ b'); cbn; rewrite ?u32_small by lia; try done; [lia|lia|lia| |].
    + by rewrite (proj2 (Z.ltb_ge _ 2)) by lia.
    + by rewrite (proj2 (Z.ltb_ge _ 2)) by lia.
Qed.

(** *** An image *)

(** The calls for a part of an image of [n] octets from [o] on. *)
Definition image_calls (w : nat) (im : image_info) (o : Z) (part : list Z) (last : bool) : list wcall :=
  (if o =? 0 then [Open w (im_id im) (im_size im)] else []) ++ [Write w part] ++ (if last then [Close w true] else []).

Lemma process_image_part c k im (d : list Z) w o (part : list Z) :
  parsed c -> imgs !! k = Some im -> writer_find ws (im_id im) 0 = Some w -> cur_image_no c = Z.of_nat k ->
  cur_item_offset c = o -> cur_item_size c = zlen d -> 0 <= o -> o + zlen part < 2 ^ 31 ->
  process_image result part c =
    Ok (set_calls (calls c ++ image_calls w im o part (o + zlen part =? zlen d)) c, 0).
Proof.
  intros Hp Him Hw Hno Hio His Ho Hl. unfold process_image. rewrite (parsed_writer c k im) by done. cstep.
  rewrite Hw, Hno, (parsed_image c k im) by done. cstep. rewrite Hio. unfold wcall_do, image_calls.
  destruct (o =? 0) eqn:Eo; rewrite ?(pk_result PK); cbn [Z.eqb andb];
    rewrite ?(pk_result PK); cbn [Z.eqb andb]; cbn [cur_item_offset cur_item_size set_calls calls];
    rewrite Hio, His, u32_small by lia; destruct (o + zlen part =? zlen d);
    rewrite ?(pk_result PK); rewrite <- ?app_assoc; done.
Qed.

(** What the writer has then. *)
Lemma image_delivered cs k im (d : list Z) w o n :
  writer_find ws (im_id im) 0 = Some w -> imgs !! k = Some im -> datas !! k = Some d -> 0 <= o -> 0 <= n -> o + n <= zlen d ->
  deliveries cs = Some (expected k ++
    if o =? 0 then [] else [{| dl_writer := w; dl_id := im_id im; dl_size := im_size im;
                               dl_data := take (Z.to_nat o) d; dl_closed := false |}]) ->
  deliveries (cs ++ image_calls w im o (take (Z.to_nat n) (drop (Z.to_nat o) d)) (o + n =? zlen d)) =
    Some (if o + n =? zlen d then expected (S k)
          else expected k ++ [{| dl_writer := w; dl_id := im_id im; dl_size := im_size im;
                                 dl_data := take (Z.to_nat (o + n)) d; dl_closed := false |}]).
Proof.
  intros Hw Him Hd Ho Hn Hl Hcs. set (part := take (Z.to_nat n) (drop (Z.to_nat o) d)).
  assert (Hpart : take (Z.to_nat o) d ++ part = take (Z.to_nat (o + n)) d)
    by (unfold part; rewrite take_take_drop, Z2Nat.inj_add by lia; done).
  assert (Hdw : deliveries ((cs ++ if o =? 0 then [Open w (im_id im) (im_size im)] else []) ++ [Write w part]) =
    Some (expected k ++ [{| dl_writer := w; dl_id := im_id im; dl_size := im_size im;
                            dl_data := take (Z.to_nat (o + n)) d; dl_closed := false |}])).
  { rewrite deliveries_snoc. destruct (Z.eqb_spec o 0) as [Eo|Eo].
    - rewrite deliveries_snoc, Hcs, app_nil_r. cbn [deliver]. rewrite last_snoc. cbn [dl_writer dl_closed].
      rewrite bool_decide_eq_true_2 by done. cbn [andb negb]. rewrite removelast_last. cbn [dl_id dl_size dl_data].
      rewrite <- Hpart, Eo. done.
    - rewrite app_nil_r, Hcs. cbn [deliver]. rewrite last_snoc. cbn [dl_writer dl_closed].
      rewrite bool_decide_eq_true_2 by done. cbn [andb negb]. rewrite removelast_last. cbn [dl_id dl_size dl_data].
      by rewrite Hpart. }
  unfold image_calls. rewrite !app_assoc. destruct (Z.eqb_spec (o + n) (zlen d)) as [Ed|Ed]; [|by rewrite app_nil_r].
  rewrite deliveries_snoc, Hdw. cbn [deliver]. rewrite last_snoc. cbn [dl_writer dl_closed].
  rewrite bool_decide_eq_true_2 by done. cbn [andb negb]. rewrite removelast_last. cbn [dl_id dl_size dl_data].
  rewrite Ed, take_ge by lia. rewrite (expected_S k im d) by done. unfold expect1. cbn [fst snd]. by rewrite Hw.
Qed.

Lemma process_data pos c rest :
  stage pos c -> 2 + zlen cbor <= pos -> pos < zlen package -> rest <> [] ->
  rest = take (length rest) (drop (Z.to_nat pos) package) -> zlen rest < 2 ^ 31 ->
  exists c' n, process_current_item result rest c = Ok (c', n) /\ 0 < n <= zlen rest /\ step_to pos n c' /\
    (fresh c -> exists im, im ∈ imgs /\ writer_find ws (im_id im) 0 <> None /\ n = Z.min (zlen rest) (im_size im)).
Proof.
  intros H Hpos Hlt Hne Hrest Hrl'. assert (Hrl : 0 < zlen rest) by (destruct rest; cbn [length]; [done|lia]).
  destruct H as [|pos c k im d w o Hp Him Hd Hw Hoz Epos Hoff Hio His Hno Hdl|pos c _ Epos];
    [lia| |rewrite Epos, place_all in Hlt; lia].
  assert (Hsz : im_size im = zlen d) by (by apply (Forall2_lookup_lr _ _ _ _ _ _ (pk_sizes PK) Him Hd)).
  pose proof (place_next k d Hd) as Hnext. pose proof (place_le (S k)). pose proof (pk_length PK).
  assert (0 <= place k) by (unfold place; lia). set (n := Z.min (zlen rest) (zlen d - o)).
  assert (Er : take (Z.to_nat n) rest = take (Z.to_nat n) (drop (Z.to_nat o) d)).
  { rewrite Hrest, take_take, Epos, Z2Nat.inj_add, <- drop_drop by lia.
    destruct (package_image k d Hd) as (tl & ->). rewrite drop_app_le, take_app_le by (rewrite ?length_drop; lia).
    f_equal. lia. }
  assert (Ln : zlen (take (Z.to_nat n) rest) = n) by (rewrite length_take; lia).
  pose proof (process_image_part c k im d w o (take (Z.to_nat n) rest) Hp Him Hw Hno Hio His ltac:(lia) ltac:(lia)) as E.
  rewrite Ln, Er in E. set (cs := calls c ++ image_calls w im o (take (Z.to_nat n) (drop (Z.to_nat o) d)) (o + n =? zlen d)) in *.
  pose proof (image_delivered (calls c) k im d w o n Hw Him Hd ltac:(lia) ltac:(lia) ltac:(lia) Hdl) as Hcs. fold cs in Hcs.
  clearbody cs. rewrite <- Er in E.
  rewrite (process_part rest c n _ ltac:(rewrite His, Hio, u32_small by lia; done) ltac:(lia)
    ltac:(rewrite Hno, (proj2 (Z.ltb_ge _ 0)) by lia; exact E)).
  assert (Hfr : fresh c -> exists im, im ∈ imgs /\ writer_find ws (im_id im) 0 <> None /\ n = Z.min (zlen rest) (im_size im)).
  { intros [Hz _]. exists im. split; [by eapply list_elem_of_lookup_2|]. split; [by rewrite Hw|]. lia. }
  cbn [cur_item_offset cur_item_size set_calls]. rewrite Hio, His, u32_small by lia.
  destruct (Z.eqb_spec (o + n) (zlen d)) as [Ed|Ed].
  - destruct (select_next_spec (S k) (advance n (set_calls cs c))) as (c' & -> & Hst & Hfr' & Hle & Hall);
      [by apply lookup_lt_Some in Him|done|cbn; lia|unfold advance; cbn; rewrite u32_small; lia|done|].
    cstep. eexists _, n. split; [reflexivity|]. split; [lia|]. split; [|done].
    split; [done|]. split; [lia|]. destruct (decide (cur_offset c' = pos + n)); [by left|right]. split; [done|].
    intros Ha. specialize (Hall Ha). lia.
  - cstep. eexists _, n. split; [reflexivity|]. split; [lia|]. split; [|done]. unfold step_to, advance. cbn.
    rewrite Hoff, !u32_small by lia. split; [|split; [lia|by left]].
    eapply (InImage _ _ k im d w (o + n)); try done; cbn; rewrite ?u32_small by lia; [lia|lia|lia|].
    by rewrite (proj2 (Z.eqb_neq _ 0)) by lia.
Qed.

(** *** A chunk *)

(** No image is left out, or the chunk is not longer than any image that is
    written. *)
Definition chunk_fits (chunk : list Z) : Prop :=
  all_written \/ forall im, im ∈ imgs -> writer_find ws (im_id im) 0 <> None -> zlen chunk <= im_size im.

Lemma stage_offset pos c : stage pos c -> cur_offset c = pos /\ 0 <= pos <= zlen package.
Proof.
  destruct 1 as [pos c|pos c k im d w o Hp Him Hd Hw Hoz Epos|pos c Hp Epos].
  - split; [done|]. pose proof (place_le 0). rewrite place_0 in *. lia.
  - split; [done|]. pose proof (place_next k d Hd). pose proof (place_le (S k)). unfold place in *. lia.
  - split; [done|]. rewrite place_all in Epos. lia.
Qed.

Lemma process_item pos c rest :
  stage pos c -> pos < zlen package -> rest <> [] -> rest = take (length rest) (drop (Z.to_nat pos) package) ->
  exists c' n, process_current_item result rest c = Ok (c', n) /\ 0 < n <= zlen rest /\ step_to pos n c' /\
    (fresh c -> exists im, im ∈ imgs /\ writer_find ws (im_id im) 0 <> None /\ n = Z.min (zlen rest) (im_size im)).
Proof.
  intros H Hlt Hne Hrest. assert (Hl : zlen rest < 2 ^ 31).
  { rewrite Hrest, length_take, length_drop. pose proof (pk_length PK). lia. }
  destruct (decide (pos < 2 + zlen cbor)) as [Hh|Hh]; [|by apply process_data; [| lia|..]].
  assert (Hnf : ~ fresh c).
  { intros [_ Hno]. destruct H as [pos c b ? ? ? ? ? ? ? ? ? ? Hn|? ? k im d w o _ _ _ _ ? ->|? ? _ ->]; [|unfold place in *; lia..].
    rewrite Hn in Hno. destruct (_ <? _) in Hno; lia. }
  pose proof (stage_offset pos c H) as [_ Hpos].
  destruct (decide (pos < 2)) as [H2|H2]; [destruct (process_fixed pos c rest) as (c' & n & E & Hn & Hst)|
    destruct (process_cbor pos c rest) as (c' & n & E & Hn & Hst)]; try done; try lia;
    (exists c', n; split; [done|]; split; [done|]; split; [done|]; by intros).
Qed.

Lemma write_loop_spec g chunk : forall fuel co offset c pos,
  chunk = take (length chunk) (drop (Z.to_nat g) package) -> 0 <= g -> g + zlen chunk <= zlen package -> chunk_fits chunk ->
  stage pos c -> offset = g + co -> 0 <= co <= zlen chunk -> offset <= pos -> pos = offset \/ fresh c /\ ~ all_written ->
  zlen chunk - co < Z.of_nat fuel ->
  exists c', write_loop result fuel offset chunk co c = Ok (c', 0) /\ stage (cur_offset c') c' /\
    g + zlen chunk <= cur_offset c' /\ (cur_offset c' = g + zlen chunk \/ fresh c' /\ ~ all_written).
Proof.
  induction fuel as [|fuel IH]; intros co offset c pos Hch Hg Hend Hfit Hst Eo Hco Hpos Hlag Hfuel; [lia|].
  cbn [write_loop]. destruct (stage_offset pos c Hst) as [Eoff Hr]. pose proof (pk_length PK).
  rewrite Eoff, Eo, (u32_small (pos - (g + co))), u32_small by lia. replace (co + (pos - (g + co))) with (pos - g) by lia.
  destruct (Z.leb_spec (zlen chunk) (pos - g)) as [Hdone|Hmore].
  { exists c. rewrite Eoff. split; [done|]. split; [done|]. split; [lia|]. destruct Hlag as [->|?]; [left; lia|by right]. }
  set (rest := drop (Z.to_nat (pos - g)) chunk). assert (Lr : zlen rest = zlen chunk - (pos - g)) by (unfold rest; rewrite length_drop; lia).
  destruct (process_item pos c rest Hst) as (c' & n & -> & Hn & (Hst' & Hle & Hnext) & Hfresh); [lia| | |].
  { intros E. rewrite E in Lr. cbn in Lr. lia. }
  { unfold rest. rewrite Hch at 1. rewrite skipn_firstn_comm, drop_drop. f_equal; [rewrite length_drop; lia|f_equal; lia]. }
  cstep. rewrite (proj2 (Z.leb_gt _ _)) by lia. rewrite !u32_small by lia.
  destruct Hlag as [->|(Hf & Hna)].
  - apply (IH _ _ c' (cur_offset c')); try done; [lia|lia|lia| |lia]. destruct Hnext as [Hnx|Hnx]; [left; lia|by right].
  - destruct Hfit as [?|Hfit]; [done|]. destruct (Hfresh Hf) as (im & Him & Hw & En). specialize (Hfit im Him Hw).
    destruct fuel as [|fuel]; [lia|]. cbn [write_loop]. destruct (stage_offset _ _ Hst') as [_ Hr'].
    rewrite (u32_small (cur_offset c' - _)), u32_small by lia. rewrite (proj2 (Z.leb_le _ _)) by lia. exists c'. split; [done|]. split; [done|].
    split; [lia|]. destruct Hnext as [Hnx|Hnx]; [left; lia|by right].
Qed.

(** *** The whole package *)

(** Pieces that are given in order. *)
Fixpoint write_all (offset : Z) (chunks : list (list Z)) (c : dfu_multi_image_ctx) : res (dfu_multi_image_ctx * list Z) :=
  match chunks with
  | [] => Ok (c, [])
  | chunk :: chunks =>
    let* '(c, r) := dfu_multi_image_write result offset chunk c in
    let* '(c, rs) := write_all (offset + zlen chunk) chunks c in
    Ok (c, r :: rs)
  end.

Lemma write_all_spec chunks : forall g c pos,
  concat chunks = drop (Z.to_nat g) package -> 0 <= g <= zlen package -> Forall chunk_fits chunks ->
  stage pos c -> g <= pos -> pos = g \/ fresh c /\ ~ all_written ->
  exists c', write_all g chunks c = Ok (c', replicate (length chunks) 0) /\ stage (zlen package) c'.
Proof.
  induction chunks as [|chunk chunks IH]; intros g c pos Hcat Hg Hfit Hst Hpos Hlag.
  - exists c. split; [done|]. cbn [concat] in Hcat. assert (Hg' : g = zlen package).
    { apply (f_equal length) in Hcat. rewrite length_drop in Hcat. cbn [length] in Hcat. lia. }
    destruct (stage_offset pos c Hst). by replace (zlen package) with pos by lia.
  - cbn [write_all]. apply Forall_cons in Hfit as [Hf Hfit]. cbn [concat] in Hcat.
    assert (Hlen : g + zlen chunk + zlen (concat chunks) = zlen package).
    { apply (f_equal length) in Hcat. rewrite length_app, length_drop in Hcat. lia. }
    destruct (stage_offset pos c Hst) as [Eoff _]. unfold dfu_multi_image_write. rewrite Eoff, (proj2 (Z.ltb_ge _ _)) by lia.
    destruct (write_loop_spec g chunk (S (length chunk)) 0 g c pos) as (c1 & -> & Hst1 & Hle1 & Hlag1);
      try done; try lia. { by rewrite <- Hcat, take_app_length. }
    cstep. destruct (IH (g + zlen chunk) c1 (cur_offset c1)) as (c' & -> & Hst'); try done; try lia.
    { rewrite Z2Nat.inj_add, <- drop_drop, <- Hcat by lia. by rewrite Nat2Z.id, drop_app_length. }
    cstep. by exists c'.
Qed.

Lemma init_stage b :
  2 + zlen cbor <= zlen b ->
  forall c, calls c = [] -> exists c0, dfu_multi_image_init (Some b) (zlen b) c = (c0, 0) /\
    writers c0 = [] /\ stage 0 (set_writers ws c0).
Proof.
  intros Hb c Hc. unfold dfu_multi_image_init. cbn [bool_decide]. unfold FIXED_HEADER_SIZE. rewrite (proj2 (Z.ltb_ge _ 2)) by lia.
  eexists. split; [reflexivity|]. split; [done|]. pose proof (pk_cbor PK).
  eapply (InHeader _ _ b); cbn; try done; [|lia..]. apply length_replicate.
Qed.

Lemma stage_end c : stage (zlen package) c ->
  deliveries (calls c) = Some (omap expect1 (zip imgs datas)) /\ dfu_multi_image_done result true c = Ok (c, 0).
Proof.
  intros H. remember (zlen package) as pos eqn:E. pose proof (place_le 0) as H0. rewrite place_0 in H0.
  destruct H as [|pos c k im d w o Hp Him Hd Hw Hoz Epos|pos c Hp Epos Hoff Hio His Hno Hdl]; [lia| |].
  - pose proof (place_next k d Hd). pose proof (place_le (S k)). lia.
  - split.
    + rewrite Hdl. unfold expected. rewrite take_ge; [done|]. rewrite length_zip_with, datas_length. lia.
    + unfold dfu_multi_image_done, current_image_writer. destruct Hp as (_ & _ & Hc). pose proof (pk_count PK).
      rewrite Hno, Hc, Z.ltb_irrefl, andb_false_r. cstep. rewrite Hno, Hc, u32_small, (Z.eqb_refl (zlen imgs)) by lia. done.
Qed.
End Package.

Section Register.
Context {MC : MultiImageConfig}.

Fixpoint register_all (ids : list Z) (c : dfu_multi_image_ctx) : dfu_multi_image_ctx * Z :=
  match ids with
  | [] => (c, 0)
  | id :: ids =>
    let '(c, r) := dfu_multi_image_register_writer id c in
    if r =? 0 then register_all ids c else (c, r)
  end.

Lemma register_all_spec ids : forall c,
  (length (writers c) + length ids <= MAX_IMAGE_COUNT)%nat -> register_all ids c = (set_writers (writers c ++ ids) c, 0).
Proof.
  induction ids as [|id ids IH]; intros c Hl; cbn [register_all length] in *.
  - rewrite app_nil_r. by destruct c.
  - unfold dfu_multi_image_register_writer. rewrite bool_decide_eq_false_2 by lia. cbn [Z.eqb].
    rewrite IH by (cbn; rewrite length_app; cbn; lia). cbn. by rewrite <- app_assoc.
Qed.
End Register.

(** C21: A package whose header fits the buffer and whose images with a writer are
    not empty is given in pieces, in order; there are at most as many writers as
    images can be, and they report no errors. If no image is without a writer, the
    pieces may have any sizes, otherwise none of them is longer than an image that
    is written. Then the package is delivered: all calls return 0, every image that
    has a writer is opened with its size, its writer gets exactly the octets of the
    image and is closed, in the order of the package, and the end is accepted. (A
    longer piece that reaches behind an image without a writer loses octets, and an
    empty image the rest of its piece: [DfuDemo.skipped_image_shifts],
    [DfuDemo.empty_image_drops_rest].) *)
Theorem multi_image_delivers `{ByteOrder, Zcbor, MultiImageConfig} result ws imgs datas cbor b chunks c :
  package_ok result ws imgs datas cbor -> (length ws <= MAX_IMAGE_COUNT)%nat -> 2 + zlen cbor <= zlen b -> calls c = [] ->
  concat chunks = package datas cbor -> Forall (chunk_fits ws imgs) chunks ->
  exists c0 c1, dfu_multi_image_init (Some b) (zlen b) c = (c0, 0) /\ register_all ws c0 = (c1, 0) /\
  exists c2, write_all result 0 chunks c1 = Ok (c2, replicate (length chunks) 0) /\
    deliveries (calls c2) = Some (omap (expect1 ws) (zip imgs datas)) /\
    dfu_multi_image_done result true c2 = Ok (c2, 0).
Proof.
  intros PK Hws Hb Hc Hcat Hfit. destruct (init_stage result ws imgs datas cbor PK b Hb c Hc) as (c0 & E0 & Hw0 & Hst).
  exists c0, (set_writers ws c0). split; [done|]. split; [rewrite register_all_spec, Hw0 by (rewrite Hw0; exact Hws); done|].
  destruct (write_all_spec result ws imgs datas cbor PK chunks 0 (set_writers ws c0) 0) as (c2 & E & Hend);
    [by rewrite drop_0|lia|done|done|lia|by left|].
  exists c2. split; [done|]. by apply (stage_end result ws imgs datas cbor PK).
Qed.

(** ** An example, and packages outside of these limits *)

Module DfuDemo.

(** A decoder of definite lengths: what is left of the data is its state. *)
Definition be (bs : list Z) : Z := fold_left (fun a b => a * 256 + b) bs 0.
Definition head (l : list Z) : option (Z * Z * list Z) :=
  match l with
  | [] => None
  | b :: l =>
    let a := b mod 32 in
    let n := if a <? 24 then 0%nat else if a =? 24 then 1%nat else if a =? 25 then 2%nat else 4%nat in
    if (length l <? n)%nat || (26 <? a) then None
    else Some (b / 32, if a <? 24 then a else be (take n l), drop n l)
  end.
Definition expect (major : Z) (l : list Z) : bool * list Z :=
  match head l with Some (m, _, rest) => if m =? major then (true, rest) else (false, l) | None => (false, l) end.
Definition literal (lit l : list Z) : bool * list Z :=
  match head l with
  | Some (3, n, rest) =>
    if (n =? zlen lit) && bool_decide (take (length lit) rest = lit) then (true, drop (length lit) rest) else (false, l)
  | _ => (false, l)
  end.
Definition integer (signed : bool) (l : list Z) (old : Z) : bool * list Z * Z :=
  match head l with
  | Some (0, n, rest) => (true, rest, n)
  | Some (1, n, rest) => if signed then (true, rest, -1 - n) else (false, l, old)
  | _ => (false, l, old)
  end.
Fixpoint multi (fuel : nat) (dec : list Z -> image_info -> bool * list Z * image_info) (l : list Z) (arr : list image_info)
    : list Z * list image_info * nat :=
  match fuel, arr with
  | S fuel, x :: arr =>
    match dec l x with
    | (true, rest, v) => let '(l, arr, n) := multi fuel dec rest arr in (l, v :: arr, S n)
    | (false, _, v) => (l, v :: arr, 0%nat)
    end
  | _, _ => (l, arr, 0%nat)
  end.

#[export] Instance zcbor_reference : Zcbor := {|
  zst := list Z;
  zcbor_new_state l := l;
  zcbor_map_start_decode := expect 5;
  zcbor_map_end_decode l := (true, l);
  zcbor_list_start_decode := expect 4;
  zcbor_list_end_decode l := (true, l);
  zcbor_tstr_expect_lit := literal;
  zcbor_int32_decode := integer true;
  zcbor_uint32_decode := integer false;
  zcbor_multi_decode min max dec l arr :=
    let '(l, arr, n) := multi (Z.to_nat max) dec l arr in (min <=? Z.of_nat n, l, Z.of_nat n, arr);
  zcbor_pop_error _ := 5
|}.
#[export] Instance config : MultiImageConfig := {| MAX_IMAGE_COUNT := 4; max_image_count_positive := le_S _ _ (le_S _ _ (le_S _ _ (le_n 1))) |}.

(** The header of images with small sizes, which are numbered from 0. *)
Fixpoint infos (id : Z) (sizes : list Z) : list image_info :=
  match sizes with [] => [] | s :: sizes => {| im_id := id; im_size := s |} :: infos (id + 1) sizes end.
Definition info_octets (im : image_info) : list Z :=
  [0xA2; 0x62; 105; 100; im_id im; 0x64; 115; 105; 122; 101; im_size im].
Definition header_octets (sizes : list Z) : list Z :=
  [0xA1; 0x63; 105; 109; 103; 0x80 + zlen sizes] ++ concat (info_octets <$> infos 0 sizes).

Definition blank : dfu_multi_image_ctx :=
  {| buffer := None; buffer_size := 0; writers := []; images := []; image_count := 0; cur_image_no := 0; cur_offset := 0;
     cur_item_offset := 0; cur_item_size := 0; calls := [] |}.
Definition begin (ws : list Z) : dfu_multi_image_ctx :=
  (register_all ws (dfu_multi_image_init (Some (replicate 200 0)) 200 blank).1).1.
Definition fine (_ : list wcall) : Z := 0.

Definition demo_datas : list (list Z) := [[1; 2; 3]; [4; 5]; [6; 7; 8; 9]].
Definition demo_cbor : list Z := header_octets [3; 2; 4].

Lemma demo_package_ok : package_ok fine [2; 0] (infos 0 [3; 2; 4]) demo_datas demo_cbor.
Proof.
  split.
  - done.
  - repeat constructor.
  - intros im d k Hi Hd _. destruct k as [|[|[|k]]]; cbn in Hd; by simplify_eq.
  - vm_compute. split; [discriminate|reflexivity].
  - intros arr Harr. destruct arr as [|a1 [|a2 [|a3 [|a4 [|]]]]]; try discriminate Harr.
    eexists. split; [vm_compute; reflexivity|reflexivity].
  - reflexivity.
  - reflexivity.
Qed.

Definition demo_chunks : list (list Z) := (fun x => [x]) <$> package demo_datas demo_cbor.

Lemma demo_fits : Forall (chunk_fits [2; 0] (infos 0 [3; 2; 4])) demo_chunks.
Proof.
  apply Forall_fmap, Forall_true. intros x. right. intros im Him _. cbn [infos] in Him. change (zlen [x]) with 1.
  repeat (apply elem_of_cons in Him as [->|Him]; [cbn; lia|]). by apply elem_of_nil in Him.
Qed.

Lemma multi_image_delivers_witness :
  exists c0 c1, dfu_multi_image_init (Some (replicate 200 0)) (zlen (replicate 200 0)) blank = (c0, 0) /\
    register_all [2; 0] c0 = (c1, 0) /\
  exists c2, write_all fine 0 demo_chunks c1 = Ok (c2, replicate (length demo_chunks) 0) /\
    deliveries (calls c2) = Some [{| dl_writer := 1; dl_id := 0; dl_size := 3; dl_data := [1; 2; 3]; dl_closed := true |};
                                  {| dl_writer := 0; dl_id := 2; dl_size := 4; dl_data := [6; 7; 8; 9]; dl_closed := true |}] /\
    dfu_multi_image_done fine true c2 = Ok (c2, 0).
Proof.
  destruct (multi_image_delivers fine [2; 0] (infos 0 [3; 2; 4]) demo_datas demo_cbor (replicate 200 0) demo_chunks blank
    demo_package_ok ltac:(cbn; lia) ltac:(vm_compute; discriminate) eq_refl ltac:(vm_compute; reflexivity) demo_fits)
    as (c0 & c1 & H0 & H1 & c2 & H2 & H3 & H4).
  exists c0, c1. split; [exact H0|]. split; [exact H1|]. exists c2. split; [exact H2|]. split; [|exact H4].
  etransitivity; [exact H3|]. vm_compute. reflexivity.
Defined.

(** An image that is left out and followed by two images in the same chunk: the
    size of the first is skipped twice, and the last image gets octets that are
    not its own. *)
Lemma skipped_image_shifts :
  exists c r, dfu_multi_image_write fine 0 (package [[1]; [2; 3]; [4]; [5; 6; 7; 8]] (header_octets [1; 2; 1; 4])) (begin [0; 2; 3]) = Ok (c, r) /\
    last (calls c) = Some (Write 2 [7; 8]).
Proof. eexists _, _. split; [vm_compute; reflexivity|]. vm_compute. reflexivity. Qed.

(** At an empty image the rest of the chunk is dropped, and the next chunk is
    refused. *)
Lemma empty_image_drops_rest :
  exists c, dfu_multi_image_write fine 0 (package [[1]; []; [4]] (header_octets [1; 0; 1])) (begin [0; 1; 2]) = Ok (c, 0) /\
    deliveries (calls c) = Some [{| dl_writer := 0; dl_id := 0; dl_size := 1; dl_data := [1]; dl_closed := true |};
                                 {| dl_writer := 1; dl_id := 1; dl_size := 0; dl_data := []; dl_closed := true |}] /\
    dfu_multi_image_write fine (zlen (package [[1]; []; [4]] (header_octets [1; 0; 1]))) [9] c = Ok (c, - errno_num ESPIPE).
Proof. eexists. split; [vm_compute; reflexivity|]. split; vm_compute; reflexivity. Qed.

(** A header of length 0 is never decoded, and the package counts as complete. *)
Lemma empty_header_accepted :
  exists c, dfu_multi_image_write fine 0 [0; 0] (begin []) = Ok (c, 0) /\ dfu_multi_image_done fine true c = Ok (c, 0).
Proof. eexists. split; [vm_compute; reflexivity|]. vm_compute. reflexivity. Qed.

(** Between two images, the end of the update closes the writer of the next one,
    which was not opened. *)
Lemma closed_without_open :
  exists c c' r, dfu_multi_image_write fine 0 (package [[1]] (header_octets [1; 2])) (begin [0; 1]) = Ok (c, 0) /\
    dfu_multi_image_done fine false c = Ok (c', r) /\ calls c' = [Open 0 0 1; Write 0 [1]; Close 0 true; Close 1 false].
Proof. eexists _, _, _. split; [vm_compute; reflexivity|]. split; [vm_compute; reflexivity|]. vm_compute. reflexivity. Qed.

(** The errors of the decoder are positive and are taken as numbers of octets: a
    header that it refuses is not reported. *)
Lemma refused_header_hidden :
  exists c, dfu_multi_image_write fine 0 [1; 0; 0] (begin []) = Ok (c, 0) /\ cbor_images [0] [] = ([], inr 5).
Proof. eexists. split; [vm_compute; reflexivity|]. vm_compute. reflexivity. Qed.
End DfuDemo.
