(* ===== verification/BlStorage.v ===== *)
(** The storage of the immutable bootloader: subsys/bootloader/bl_storage and
    include/bl_storage.h, in the build for devices with an NVMC, whose counters
    and life cycle entries are half words. The storage lies in memory of which
    bits can only be cleared: public keys, monotonic counters and the life
    cycle state. The supply may fail during any write. *)
From stdpp Require Import prelude list.
From Stdlib Require Import ZArith Lia.
From S2P Require Import Prelude.

Open Scope Z_scope.

(** ** The memory and its controller *)

Module BlMem.

(** The memory as the processor sees it: the octet at an address. *)
Definition memory := Z -> Z.

Definition half (m : memory) (a : Z) : Z := m a + 256 * m (a + 1).
Definition word (m : memory) (a : Z) : Z := half m a + 65536 * half m (a + 2).

(** Octet [i] of a value in the order of the processor. *)
Definition octet (v i : Z) : Z := u8 (Z.shiftr v (8 * i)).

(** The driver of the memory controller (nrfx). Reads give what the memory
    has; a write clears bits in the octets at its address and changes no
    others. *)
Class Nvmc := {
  nrfx_nvmc_otp_halfword_read : memory -> Z -> Z;
  nrfx_nvmc_uicr_word_read : memory -> Z -> Z;
  nrfx_nvmc_halfword_write : memory -> Z -> Z -> memory;
  nrfx_nvmc_word_write : memory -> Z -> Z -> memory;
  halfword_read_law m a : a mod 2 = 0 -> nrfx_nvmc_otp_halfword_read m a = half m a;
  word_read_law m a : a mod 4 = 0 -> nrfx_nvmc_uicr_word_read m a = word m a;
  halfword_write_law m a v x : a mod 2 = 0 ->
    nrfx_nvmc_halfword_write m a v x = if bool_decide (a <= x < a + 2) then Z.land (m x) (octet v (x - a)) else m x;
  word_write_law m a v x : a mod 4 = 0 ->
    nrfx_nvmc_word_write m a v x = if bool_decide (a <= x < a + 4) then Z.land (m x) (octet v (x - a)) else m x;
}.

(** The device while the bootloader runs: its memory, how many writes the
    supply still lasts for, and what the write during which it fails leaves
    behind, given the memory, the address, the size and the value. *)
Record device := Device { mem : memory; lasts : nat; torn : memory -> Z -> Z -> Z -> memory }.

(** Why the program ends: a call of [k_panic], the supply, an access that C
    does not define, or the jump to the reset handler of a firmware. *)
Inductive halt := Panic | PowerLoss | Undefined | Jump (vector_table msp reset : Z).

Inductive run (A : Type) := Go (a : A) (s : device) | Stop (why : halt) (m : memory).
Arguments Go {A} _ _.
Arguments Stop {A} _ _.

Definition M (A : Type) : Type := device -> run A.
#[export] Instance boot_ret : MRet M := fun A a s => Go a s.
#[export] Instance boot_bind : MBind M := fun A B f c s =>
  match c s with Go a s' => f a s' | Stop w m => Stop w m end.

(** A computation that only reads; [None] is a panic. *)
Definition reads {A} (f : memory -> A) : M A := fun s => Go (f (mem s)) s.
Definition panics {A} (f : memory -> option A) : M A := fun s =>
  match f (mem s) with Some a => Go a s | None => Stop Panic (mem s) end.

(** The end of the program. *)
Definition stops {A} (f : memory -> halt) : M A := fun s => Stop (f (mem s)) (mem s).

Definition nvm_write (write : memory -> Z -> Z -> memory) (size a v : Z) : M unit := fun s =>
  match lasts s with
  | O => Stop PowerLoss (torn s (mem s) a size v)
  | S k => Go tt {| mem := write (mem s) a v; lasts := k; torn := torn s |}
  end.

End BlMem.
Export BlMem.

(** ** Operations *)

Module BlStorage.

Class ProvisionConfig := { PM_PROVISION_ADDRESS : Z }.

Definition EHASHFF := 113.
Definition EREADLCS := 114.
Definition EINVALIDLCS := 115.
Definition SB_PUBLIC_KEY_HASH_LEN := 16.
Definition BL_STORAGE_IMPLEMENTATION_ID_SIZE := 32.
Definition BL_MONOTONIC_COUNTERS_DESC_NSIB := 1.
Definition BL_MONOTONIC_COUNTERS_DESC_MCUBOOT_ID0 := 2.
Definition TYPE_COUNTERS := 1.
Definition INVALID_VAL := 0x50FA0000.
Definition INVALID_WRITE_VAL := 0xFFFF0000.
Definition VALID_VAL := 0x50FAFFFF.
Definition MAX_NUM_PUBLIC_KEYS := 16.
Definition TOKEN_IDX_OFFSET := 24.
Definition STATE_ENTERED := 0.
Definition STATE_NOT_ENTERED := 0xFFFF.

Inductive lcs :=
  | BL_STORAGE_LCS_UNKNOWN | BL_STORAGE_LCS_ASSEMBLY | BL_STORAGE_LCS_PROVISIONING
  | BL_STORAGE_LCS_SECURED | BL_STORAGE_LCS_DECOMMISSIONED.
#[export] Instance lcs_eq_dec : EqDecision lcs.
Proof. solve_decision. Defined.

Definition lcs_num (l : lcs) : Z :=
  match l with
  | BL_STORAGE_LCS_UNKNOWN => 0
  | BL_STORAGE_LCS_ASSEMBLY => 1
  | BL_STORAGE_LCS_PROVISIONING => 2
  | BL_STORAGE_LCS_SECURED => 3
  | BL_STORAGE_LCS_DECOMMISSIONED => 4
  end.

Section Ops.
Context `{Nvmc} `{ProvisionConfig}.

(** The accesses of bl_storage.h. *)
Definition bl_storage_word_read (m : memory) (address : Z) : Z := u32 (nrfx_nvmc_uicr_word_read m address).
Definition bl_storage_word_write (address value : Z) : M unit := nvm_write nrfx_nvmc_word_write 4 address value.
Definition bl_storage_otp_halfword_read (m : memory) (address : Z) : Z := u16 (nrfx_nvmc_otp_halfword_read m address).
Definition bl_storage_counter_get (m : memory) (address : Z) : Z := u16 (Z.lnot (nrfx_nvmc_otp_halfword_read m address)).
Definition bl_storage_counter_set (address value : Z) : M unit :=
  nvm_write nrfx_nvmc_halfword_write 2 address (u16 (Z.lnot value)).
Definition bl_storage_lcs_get (m : memory) (address : Z) : Z := u16 (nrfx_nvmc_otp_halfword_read m address).
Definition bl_storage_lcs_set (address state : Z) : M Z :=
  nvm_write nrfx_nvmc_halfword_write 2 address state ≫= fun _ => mret 0.

(** The places of the members of [struct bl_storage_data]. *)
Definition lcs_provisioning_at : Z := PM_PROVISION_ADDRESS.
Definition lcs_secure_at : Z := PM_PROVISION_ADDRESS + 2.
Definition lcs_decommissioned_at : Z := PM_PROVISION_ADDRESS + 6.
Definition implementation_id_at : Z := PM_PROVISION_ADDRESS + 8.
Definition s0_address_at : Z := PM_PROVISION_ADDRESS + 40.
Definition s1_address_at : Z := PM_PROVISION_ADDRESS + 44.
Definition num_public_keys_at : Z := PM_PROVISION_ADDRESS + 48.
Definition key_data_at (i : Z) : Z := u32 (PM_PROVISION_ADDRESS + 52 + (4 + SB_PUBLIC_KEY_HASH_LEN) * i).
Definition key_hash_at (i : Z) : Z := u32 (key_data_at i + 4).

Definition s0_address_read (m : memory) : Z := bl_storage_word_read m s0_address_at.
Definition s1_address_read (m : memory) : Z := bl_storage_word_read m s1_address_at.
Definition num_public_keys_read (m : memory) : Z := bl_storage_word_read m num_public_keys_at.

(** [None] is the panic on a token that is neither of the two. *)
Definition key_is_valid (m : memory) (key_idx : Z) : option bool :=
  if num_public_keys_read m <=? key_idx then Some false
  else
    let token := bl_storage_word_read m (key_data_at key_idx) in
    let invalid_val := Z.lor INVALID_VAL (u32 (Z.shiftl key_idx TOKEN_IDX_OFFSET)) in
    let valid_val := Z.lor VALID_VAL (u32 (Z.shiftl key_idx TOKEN_IDX_OFFSET)) in
    if token =? invalid_val then Some false
    else if token =? valid_val then Some true
    else None.

Definition hash_has_ff (m : memory) (n : Z) : bool :=
  existsb (fun i => bl_storage_otp_halfword_read m (u32 (key_hash_at n + 2 * i)) =? 0xFFFF)
    (seqZ 0 (SB_PUBLIC_KEY_HASH_LEN / 2)).

Fixpoint verify_keys_loop (m : memory) (k : nat) (n : Z) : option Z :=
  match k with
  | O => Some 0
  | S k =>
      match key_is_valid m n with
      | None => None
      | Some true => if hash_has_ff m n then Some (- EHASHFF) else verify_keys_loop m k (n + 1)
      | Some false => verify_keys_loop m k (n + 1)
      end
  end.

Definition verify_public_keys (m : memory) : option Z :=
  if MAX_NUM_PUBLIC_KEYS <? num_public_keys_read m then Some (- errno_num EINVAL)
  else verify_keys_loop m (Z.to_nat (num_public_keys_read m)) 0.

(** The octets that are stored at the destination. *)
Definition otp_copy32 (m : memory) (src size : Z) : list Z :=
  seqZ 0 (size / 4) ≫= fun i =>
    let val := bl_storage_word_read m (u32 (src + 4 * i)) in
    (fun j => Z.land (Z.shiftr val (8 * j)) 0xFF) <$> [0; 1; 2; 3].

(** [None] for a buffer that is NULL. *)
Definition read_implementation_id_from_otp (m : memory) (buf : bool) : option (list Z) :=
  if negb buf then None
  else Some (otp_copy32 m implementation_id_at BL_STORAGE_IMPLEMENTATION_ID_SIZE).

(** The value returned and what is stored in [p_buf]. *)
Definition public_key_data_read (m : memory) (key_idx : Z) : option (Z * list Z) :=
  match key_is_valid m key_idx with
  | None => None
  | Some false => Some (- errno_num EINVAL, [])
  | Some true =>
      if num_public_keys_read m <=? key_idx then Some (- errno_num EFAULT, [])
      else Some (SB_PUBLIC_KEY_HASH_LEN, otp_copy32 m (key_hash_at key_idx) SB_PUBLIC_KEY_HASH_LEN)
  end.

Definition invalidate_public_key (key_idx : Z) : M unit :=
  panics (fun m => key_is_valid m key_idx) ≫= fun valid =>
  if (valid : bool) then bl_storage_word_write (key_data_at key_idx) INVALID_WRITE_VAL else mret tt.

(** Pointers to the counters are their addresses; [None] is NULL. *)
Definition get_counter_collection (m : memory) : option Z :=
  let collection := key_data_at (num_public_keys_read m) in
  if bl_storage_otp_halfword_read m collection =? TYPE_COUNTERS then Some collection else None.

Fixpoint counter_walk (m : memory) (k : nat) (current description : Z) : option Z :=
  match k with
  | O => None
  | S k =>
      let num_slots := bl_storage_otp_halfword_read m (u32 (current + 2)) in
      if bl_storage_otp_halfword_read m current =? description then Some current
      else counter_walk m k (u32 (current + 4 + 2 * num_slots)) description
  end.

Definition get_counter_struct (m : memory) (description : Z) : option Z :=
  match get_counter_collection m with
  | None => None
  | Some counters =>
      counter_walk m (Z.to_nat (bl_storage_otp_halfword_read m (u32 (counters + 2)))) (u32 (counters + 4)) description
  end.

(** The value returned and what is stored through [counter_slots]. *)
Definition num_monotonic_counter_slots (m : memory) (counter_desc : Z) (counter_slots : bool) : Z * option Z :=
  match get_counter_struct m counter_desc with
  | None => (- errno_num EINVAL, None)
  | Some counter =>
      if negb counter_slots then (- errno_num EINVAL, None)
      else
        let num_slots := bl_storage_otp_halfword_read m (u32 (counter + 2)) in
        if num_slots =? 0xFFFF then (- errno_num EINVAL, Some 0) else (0, Some num_slots)
  end.

(** The highest value and the address of the first free slot. *)
Fixpoint slot_scan (m : memory) (k : nat) (addr highest_counter : Z) : Z * option Z :=
  match k with
  | O => (highest_counter, None)
  | S k =>
      let counter := bl_storage_counter_get m addr in
      if counter =? 0 then (highest_counter, Some addr)
      else slot_scan m k (u32 (addr + 2)) (if highest_counter <? counter then counter else highest_counter)
  end.

(** The value returned and, if it is 0, the counter and the free slot. *)
Definition get_counter (m : memory) (counter_desc : Z) (counter_value : bool) : Z * option (Z * option Z) :=
  match get_counter_struct m counter_desc with
  | None => (- errno_num EINVAL, None)
  | Some counter_obj =>
      if negb counter_value then (- errno_num EINVAL, None)
      else
        let num_counter_slots := bl_storage_otp_halfword_read m (u32 (counter_obj + 2)) in
        (0, Some (slot_scan m (Z.to_nat num_counter_slots) (u32 (counter_obj + 4)) 0))
  end.

Definition get_monotonic_counter (m : memory) (counter_desc : Z) (counter_value : bool) : Z * option Z :=
  let '(err, out) := get_counter m counter_desc counter_value in (err, fst <$> out).

Definition set_monotonic_counter (counter_desc new_counter : Z) : M Z :=
  reads (fun m => get_counter m counter_desc true) ≫= fun '(err, out) =>
  match out with
  | None => mret err
  | Some (current_cnt_value, next_counter_addr) =>
      if new_counter <=? current_cnt_value then mret (- errno_num EINVAL)
      else
        match next_counter_addr with
        | None => mret (- errno_num ENOMEM)
        | Some addr => bl_storage_counter_set addr new_counter ≫= fun _ => mret 0
        end
  end.

(** The value returned and what is stored through the pointer. *)
Definition read_life_cycle_state (m : memory) (out : bool) : Z * option lcs :=
  if negb out then (- errno_num EINVAL, None)
  else
    let provisioning := bl_storage_lcs_get m lcs_provisioning_at in
    let secure := bl_storage_lcs_get m lcs_secure_at in
    let decommissioned := bl_storage_lcs_get m lcs_decommissioned_at in
    if (provisioning =? STATE_NOT_ENTERED) && (secure =? STATE_NOT_ENTERED) && (decommissioned =? STATE_NOT_ENTERED)
    then (0, Some BL_STORAGE_LCS_ASSEMBLY)
    else if (provisioning =? STATE_ENTERED) && (secure =? STATE_NOT_ENTERED) && (decommissioned =? STATE_NOT_ENTERED)
    then (0, Some BL_STORAGE_LCS_PROVISIONING)
    else if (provisioning =? STATE_ENTERED) && (secure =? STATE_ENTERED) && (decommissioned =? STATE_NOT_ENTERED)
    then (0, Some BL_STORAGE_LCS_SECURED)
    else if (provisioning =? STATE_ENTERED) && (secure =? STATE_ENTERED) && (decommissioned =? STATE_ENTERED)
    then (0, Some BL_STORAGE_LCS_DECOMMISSIONED)
    else (- EREADLCS, None).

Definition update_life_cycle_state (next_lcs : lcs) : M Z :=
  if bool_decide (next_lcs = BL_STORAGE_LCS_UNKNOWN) then mret (- EINVALIDLCS)
  else
    reads (fun m => read_life_cycle_state m true) ≫= fun '(err, out) =>
    match out with
    | None => mret err
    | Some current_lcs =>
        if lcs_num next_lcs <? lcs_num current_lcs then mret (- EINVALIDLCS)
        else if bool_decide (next_lcs = current_lcs) then mret 0
        else
          match current_lcs, next_lcs with
          | BL_STORAGE_LCS_ASSEMBLY, BL_STORAGE_LCS_PROVISIONING => bl_storage_lcs_set lcs_provisioning_at STATE_ENTERED
          | BL_STORAGE_LCS_PROVISIONING, BL_STORAGE_LCS_SECURED => bl_storage_lcs_set lcs_secure_at STATE_ENTERED
          | BL_STORAGE_LCS_SECURED, BL_STORAGE_LCS_DECOMMISSIONED => bl_storage_lcs_set lcs_decommissioned_at STATE_ENTERED
          | _, _ => mret (- EINVALIDLCS)
          end
    end.

End Ops.

(** The adapter for the security counter of MCUboot, nrf_nv_counters.c. The
    hardened integers are those of MCUboot. *)
Class Fih := {
  fih_int : Type;
  FIH_SUCCESS : fih_int;
  FIH_FAILURE : fih_int;
  fih_not_eq : fih_int -> fih_int -> bool;
  fih_int_encode : Z -> fih_int;
  fih_int_decode : fih_int -> Z;
  BOOT_EBADARGS : Z;
  BOOT_EBADSTATUS : Z;
  fih_success_law : fih_not_eq FIH_SUCCESS FIH_SUCCESS = false;
  fih_failure_law : fih_not_eq FIH_FAILURE FIH_SUCCESS = true;
  fih_decode_law v : 0 <= v < 2 ^ 16 -> fih_int_decode (fih_int_encode v) = v;
}.

Section NvCounters.
Context `{Nvmc} `{ProvisionConfig} `{Fih}.

Definition boot_nv_security_counter_init : fih_int := FIH_SUCCESS.

Definition boot_nv_security_counter_get (m : memory) (image_id : Z) (security_cnt : bool) : fih_int * option fih_int :=
  if negb security_cnt then (FIH_FAILURE, None)
  else if 0 <? image_id then (FIH_FAILURE, None)
  else
    match get_monotonic_counter m BL_MONOTONIC_COUNTERS_DESC_MCUBOOT_ID0 true with
    | (_, Some cur_sec_cnt) => (FIH_SUCCESS, Some (fih_int_encode cur_sec_cnt))
    | (_, None) => (FIH_FAILURE, None)
    end.

Definition boot_nv_security_counter_update (image_id img_security_cnt : Z) : M Z :=
  if 0 <? Z.land img_security_cnt 0xFFFF0000 then mret (- BOOT_EBADARGS)
  else
    reads (fun m => boot_nv_security_counter_get m image_id true) ≫= fun '(fih_err, security_cnt) =>
    if fih_not_eq fih_err FIH_SUCCESS then mret (- BOOT_EBADSTATUS)
    else if bool_decide (fih_int_decode <$> security_cnt = Some img_security_cnt) then mret 0
    else
      set_monotonic_counter BL_MONOTONIC_COUNTERS_DESC_MCUBOOT_ID0 (u16 img_security_cnt) ≫= fun err =>
      mret (if err =? 0 then 0 else - BOOT_EBADSTATUS).

End NvCounters.

End BlStorage.
Export BlStorage.
