(* ===== verification/BlStorageSpec.v ===== *)
(** What the bootloader storage promises. On a provisioned device the storage
    only wears down: whatever operations are run, and wherever the supply fails
    during them, no counter decreases, no invalidated key comes back and the
    life cycle does not go back. With the supply on, the storage refines a
    simple abstract state. *)
From stdpp Require Import prelude list.
From Stdlib Require Import ZArith Lia.
From S2P Require Import Prelude BlStorage.

Open Scope Z_scope.

(** ** Computations that may end the program *)

Definition runs {A} (c : M A) (s : device) (Q : A -> device -> Prop) (E : halt -> memory -> Prop) : Prop :=
  match c s with Go a s' => Q a s' | Stop w m => E w m end.

Lemma runs_bind {A B} (c : M A) (f : A -> M B) s Q E :
  runs c s (fun a s' => runs (f a) s' Q E) E -> runs (c ≫= f) s Q E.
Proof. unfold runs, mbind, boot_bind. by destruct (c s). Qed.

Lemma runs_mono {A} (c : M A) s (Q Q' : A -> device -> Prop) (E E' : halt -> memory -> Prop) :
  runs c s Q E -> (forall a s', Q a s' -> Q' a s') -> (forall w m, E w m -> E' w m) -> runs c s Q' E'.
Proof. unfold runs. destruct (c s); auto. Qed.

Lemma runs_reads {A B} (g : memory -> A) (f : A -> M B) s Q E :
  runs (f (g (mem s))) s Q E -> runs (reads g ≫= f) s Q E.
Proof. done. Qed.

Lemma runs_panics {A B} (g : memory -> option A) (f : A -> M B) s (Q : B -> device -> Prop) (E : halt -> memory -> Prop) :
  (forall a, g (mem s) = Some a -> runs (f a) s Q E) -> (g (mem s) = None -> E Panic (mem s)) ->
  runs (panics g ≫= f) s Q E.
Proof. intros HS HN. unfold runs, mbind, boot_bind, panics. destruct (g (mem s)); [by apply HS|by apply HN]. Qed.

(** The memory at the end. *)
Definition ends {A} (r : run A) (m : memory) : Prop :=
  match r with Go _ s => mem s = m | Stop _ m' => m' = m end.

(** ** Writes *)

Definition octets_ok (m : memory) : Prop := forall x, 0 <= m x < 256.

(** A write that was made in full or in part: between the octets before and
    those with the bits cleared. *)
Definition written (m : memory) (a n v : Z) (m' : memory) : Prop :=
  forall x, if bool_decide (a <= x < a + n) then Z.land (m x) (octet v (x - a)) <= m' x <= m x else m' x = m x.

(** The hardware leaves such a memory behind. *)
Definition torn_ok (s : device) : Prop :=
  forall m a n v, octets_ok m -> written m a n v (torn s m a n v).

Lemma octet_range v i : 0 <= octet v i < 256.
Proof. apply u8_range. Qed.

Lemma land_range x y : 0 <= x -> 0 <= Z.land x y <= x.
Proof.
  intros Hx. split; [apply Z.land_nonneg; lia|].
  assert (E : Z.ldiff (Z.land x y) x = 0)
    by (apply Z.bits_inj_0; intros k; rewrite Z.ldiff_spec, Z.land_spec; by destruct (Z.testbit x k), (Z.testbit y k)).
  apply Z.sub_nocarry_ldiff in E. pose proof (proj2 (Z.ldiff_nonneg x (Z.land x y)) (or_introl Hx)). lia.
Qed.

(** The outcomes of a write to the memory: made in full while the supply
    lasts, or broken off. *)
Lemma runs_write `{Nvmc} write n a v s (Q : unit -> device -> Prop) (E : halt -> memory -> Prop) :
  (write = nrfx_nvmc_halfword_write /\ n = 2 /\ a mod 2 = 0) \/ (write = nrfx_nvmc_word_write /\ n = 4 /\ a mod 4 = 0) ->
  octets_ok (mem s) -> torn_ok s ->
  (forall s', lasts s = S (lasts s') -> torn s' = torn s -> written (mem s) a n v (mem s') ->
    (forall x, mem s' x = if bool_decide (a <= x < a + n) then Z.land (mem s x) (octet v (x - a)) else mem s x) -> Q tt s') ->
  (forall m', lasts s = O -> written (mem s) a n v m' -> E PowerLoss m') ->
  runs (nvm_write write n a v) s Q E.
Proof.
  intros Hw Hm Ht HQ HE. unfold runs, nvm_write. destruct (lasts s) as [|k] eqn:El.
  - apply HE; [done|]. by apply Ht.
  - assert (Hx : forall x, write (mem s) a v x = if bool_decide (a <= x < a + n) then Z.land (mem s x) (octet v (x - a)) else mem s x).
    { intros x. destruct Hw as [(-> & -> & Ha)|(-> & -> & Ha)]; [by apply halfword_write_law|by apply word_write_law]. }
    apply HQ; try done. intros x. cbn. rewrite Hx. case_bool_decide; [|done].
    pose proof (land_range (mem s x) (octet v (x - a)) ltac:(apply Hm)). lia.
Qed.

Lemma written_octets m a n v m' : octets_ok m -> written m a n v m' -> octets_ok m'.
Proof.
  intros Hm Hw x. specialize (Hw x). specialize (Hm x). case_bool_decide; [|lia].
  pose proof (land_range (m x) (octet v (x - a)) ltac:(lia)). lia.
Qed.

Lemma half_range m a : octets_ok m -> 0 <= half m a < 65536.
Proof. intros Hm. unfold half. pose proof (Hm a). pose proof (Hm (a + 1)). lia. Qed.

Lemma word_range m a : octets_ok m -> 0 <= word m a < 4294967296.
Proof. intros Hm. unfold word. pose proof (half_range m a Hm). pose proof (half_range m (a + 2) Hm). lia. Qed.

Lemma half_le m m' a : m' a <= m a -> m' (a + 1) <= m (a + 1) -> half m' a <= half m a.
Proof. unfold half. lia. Qed.

Lemma half_same m m' a : m' a = m a -> m' (a + 1) = m (a + 1) -> half m' a = half m a.
Proof. unfold half. by intros -> ->. Qed.

Lemma word_same m m' a : (forall x, a <= x < a + 4 -> m' x = m x) -> word m' a = word m a.
Proof. intros E. unfold word. f_equal; [|f_equal]; apply half_same; apply E; lia. Qed.

(** ** The layout *)

Section Layout.
Context `{Nvmc} `{ProvisionConfig}.

(** Counters are given by their description and number of slots, in the order
    of the collection; a counter takes 4 octets and 2 for every slot. *)
Implicit Types cs : list (Z * Z).

Fixpoint counters_size cs : Z :=
  match cs with [] => 0 | (_, n) :: cs => 4 + 2 * n + counters_size cs end.

Fixpoint counters_at (m : memory) (p : Z) cs : Prop :=
  match cs with
  | [] => True
  | (d, n) :: cs => half m p = d /\ half m (p + 2) = n /\ counters_at m (p + 4 + 2 * n) cs
  end.

(** Octets of slots. *)
Fixpoint slot_octet (p : Z) cs (x : Z) : Prop :=
  match cs with
  | [] => False
  | (d, n) :: cs => p + 4 <= x < p + 4 + 2 * n \/ slot_octet (p + 4 + 2 * n) cs x
  end.

Definition collection_at (ks : Z) : Z := PM_PROVISION_ADDRESS + 52 + 20 * ks.
Definition counters_start (ks : Z) : Z := collection_at ks + 4.
Definition storage_end (ks : Z) cs : Z := counters_start ks + counters_size cs.

(** A provisioned device with [ks] keys and the counters [cs]. *)
Record provisioned (ks : Z) cs (m : memory) : Prop := {
  pv_octets : octets_ok m;
  pv_base : PM_PROVISION_ADDRESS mod 4 = 0 /\ 0 <= PM_PROVISION_ADDRESS;
  pv_end : storage_end ks cs <= 4294967296;
  pv_keys : 0 <= ks <= MAX_NUM_PUBLIC_KEYS;
  pv_num_keys : word m num_public_keys_at = ks;
  pv_type : half m (collection_at ks) = TYPE_COUNTERS;
  pv_num : half m (collection_at ks + 2) = Z.of_nat (length cs);
  pv_counters : counters_at m (counters_start ks) cs;
  pv_sizes : Forall (fun '(d, n) => 0 <= n < 65536) cs;
}.

(** The octets that the operations change: the entries of the life cycle, the
    lower halves of the tokens and the slots. All others of the storage stay. *)
Definition fixed (ks : Z) cs (x : Z) : Prop :=
  PM_PROVISION_ADDRESS + 8 <= x < storage_end ks cs /\
  (forall i, 0 <= i < ks -> ~ (PM_PROVISION_ADDRESS + 52 + 20 * i <= x < PM_PROVISION_ADDRESS + 54 + 20 * i)) /\
  ~ slot_octet (counters_start ks) cs x.

(** The storage wears down. *)
Record wear (ks : Z) cs (m m' : memory) : Prop := {
  wear_octets : octets_ok m';
  wear_down x : PM_PROVISION_ADDRESS <= x < storage_end ks cs -> m' x <= m x;
  wear_fixed x : fixed ks cs x -> m' x = m x;
}.

Lemma wear_trans ks cs m1 m2 m3 : wear ks cs m1 m2 -> wear ks cs m2 m3 -> wear ks cs m1 m3.
Proof.
  intros [O1 D1 F1] [O2 D2 F2]. split; [done| |].
  - intros x Hx. specialize (D1 x Hx). specialize (D2 x Hx). lia.
  - intros x Hx. by rewrite F2, F1.
Qed.

Lemma wear_refl ks cs m : octets_ok m -> wear ks cs m m.
Proof. by split. Qed.

Lemma counters_size_nonneg cs : Forall (fun '(d, n) => 0 <= n < 65536) cs -> 0 <= counters_size cs.
Proof. induction 1 as [|[d n] cs Hn _ IH]; cbn; lia. Qed.

Lemma counters_size_pos cs : Forall (fun '(d, n) => 0 <= n < 65536) cs -> cs <> [] -> 4 <= counters_size cs.
Proof. destruct 1 as [|[d n] cs Hn Hcs]; [done|]. intros _. pose proof (counters_size_nonneg _ Hcs). cbn. lia. Qed.

Lemma slot_octet_range p cs x : Forall (fun '(d, n) => 0 <= n < 65536) cs -> slot_octet p cs x -> p + 4 <= x < p + counters_size cs.
Proof.
  intros Hn. revert p. induction Hn as [|[d n] cs Hn Hcs IH]; intros p; cbn; [done|].
  pose proof (counters_size_nonneg _ Hcs). intros [Hx|Hx]; [lia|]. apply IH in Hx. lia.
Qed.

Lemma counters_at_same m m' p cs :
  Forall (fun '(d, n) => 0 <= n < 65536) cs ->
  (forall x, p <= x < p + counters_size cs -> ~ slot_octet p cs x -> m' x = m x) ->
  counters_at m p cs -> counters_at m' p cs.
Proof.
  intros Hn. revert p. induction Hn as [|[d n] cs Hn Hcs IH]; intros p Hx; cbn; [done|].
  pose proof (counters_size_nonneg _ Hcs) as Hs.
  assert (Hh : forall y, p <= y < p + 4 -> m' y = m y).
  { intros y Hy. apply Hx; cbn; [lia|]. intros [Hc|Hc]; [lia|]. apply slot_octet_range in Hc; [lia|done]. }
  intros (E1 & E2 & E3). split; [|split].
  - rewrite <- E1. apply half_same; apply Hh; lia.
  - rewrite <- E2. apply half_same; apply Hh; lia.
  - apply IH; [|done]. intros x Hr Hns. apply Hx; cbn; [lia|]. intros [Hc|Hc]; [lia|done].
Qed.

Lemma wear_provisioned ks cs m m' : provisioned ks cs m -> wear ks cs m m' -> provisioned ks cs m'.
Proof.
  intros [Ho Hb He Hk Hnk Ht Hn Hc Hz] [Wo Wd Wf]. pose proof (counters_size_nonneg _ Hz).
  assert (Hlow : forall x, PM_PROVISION_ADDRESS + 8 <= x < PM_PROVISION_ADDRESS + 52 \/
                           collection_at ks <= x < counters_start ks -> m' x = m x).
  { intros x Hx. unfold storage_end, counters_start, collection_at, MAX_NUM_PUBLIC_KEYS in *.
    apply Wf. unfold fixed, storage_end, counters_start, collection_at. split; [lia|]. split; [lia|].
    intros Hs. apply slot_octet_range in Hs; [lia|done]. }
  unfold storage_end, counters_start, MAX_NUM_PUBLIC_KEYS in *.
  split; try done.
  - etransitivity; [|exact Hnk]. apply word_same. intros x Hx. apply Hlow. unfold num_public_keys_at in *. lia.
  - rewrite <- Ht. apply half_same; apply Hlow; lia.
  - rewrite <- Hn. apply half_same; apply Hlow; lia.
  - apply (counters_at_same m); [done| |done]. intros x Hx Hns. apply Wf.
    unfold fixed, storage_end, counters_start, collection_at in *. split; [lia|]. split; [lia|done].
Qed.

(** ** The value of a counter *)

(** The values in slots; the storage has their complement. *)
Fixpoint slot_values (m : memory) (a : Z) (n : nat) : list Z :=
  match n with O => [] | S n => (65535 - half m a) :: slot_values m (a + 2) n end.

(** The counter is the highest of the values before the first free slot. *)
Fixpoint level (vs : list Z) : Z :=
  match vs with [] => 0 | v :: vs => if v =? 0 then 0 else Z.max v (level vs) end.

Fixpoint free_at (a : Z) (vs : list Z) : option Z :=
  match vs with [] => None | v :: vs => if v =? 0 then Some a else free_at (a + 2) vs end.

Fixpoint find_counter (p : Z) cs (d : Z) : option (Z * Z) :=
  match cs with
  | [] => None
  | (d', n) :: cs => if d' =? d then Some (p, n) else find_counter (p + 4 + 2 * n) cs d
  end.

Definition counter_value (ks : Z) cs (m : memory) (d : Z) : option Z :=
  '(p, n) ← find_counter (counters_start ks) cs d; Some (level (slot_values m (p + 4) (Z.to_nat n))).

Lemma level_nonneg vs : 0 <= level vs.
Proof. induction vs as [|v vs IH]; cbn; [lia|]. destruct (v =? 0); lia. Qed.

(** Clearing bits in the slots never lowers the counter. *)
Lemma level_mono m m' a n :
  octets_ok m -> (forall x, a <= x < a + 2 * Z.of_nat n -> m' x <= m x) ->
  level (slot_values m a n) <= level (slot_values m' a n).
Proof.
  intros Hm. revert a. induction n as [|n IH]; intros a Hx; cbn; [lia|].
  pose proof (half_le m m' a ltac:(apply Hx; lia) ltac:(apply Hx; lia)). pose proof (half_range m a Hm).
  specialize (IH (a + 2) ltac:(intros; apply Hx; lia)). pose proof (level_nonneg (slot_values m' (a + 2) n)).
  destruct (65535 - half m a =? 0) eqn:E1; destruct (65535 - half m' a =? 0) eqn:E2; lia.
Qed.

Lemma find_counter_place p cs d q n :
  Forall (fun '(d, n) => 0 <= n < 65536) cs -> find_counter p cs d = Some (q, n) ->
  0 <= n < 65536 /\ p <= q /\ q + 4 + 2 * n <= p + counters_size cs /\ (exists k, q = p + 2 * k) /\
  forall x, q + 4 <= x < q + 4 + 2 * n -> slot_octet p cs x.
Proof.
  intros Hn. revert p. induction Hn as [|[d' n'] cs Hn Hcs IH]; intros p; cbn; [done|].
  pose proof (counters_size_nonneg _ Hcs). destruct (d' =? d).
  - intros [= <- <-]. split; [lia|]. split; [lia|]. split; [lia|]. split; [exists 0; lia|]. intros x Hx. left. lia.
  - intros E. apply IH in E as (Hr & Hle & Hend & (k & ->) & Hx). split; [lia|]. split; [lia|]. split; [lia|].
    split; [exists (2 + n' + k); lia|]. intros x Hi. right. by apply Hx.
Qed.

Lemma counters_at_find m p cs d q n : counters_at m p cs -> find_counter p cs d = Some (q, n) -> half m (q + 2) = n.
Proof.
  revert p. induction cs as [|[d' n'] cs IH]; intros p; cbn; [done|]. intros (E1 & E2 & E3).
  destruct (d' =? d); [by intros [= <- <-]|]. by apply IH.
Qed.

Lemma wear_counter ks cs m m' d v :
  provisioned ks cs m -> wear ks cs m m' -> counter_value ks cs m d = Some v ->
  exists v', counter_value ks cs m' d = Some v' /\ v <= v'.
Proof.
  intros PV [Wo Wd Wf]. unfold counter_value.
  destruct (find_counter (counters_start ks) cs d) as [[q n]|] eqn:E; [|done]. cbn. intros [= <-].
  destruct PV as [Ho Hb He Hk Hnk Ht Hn Hc Hz].
  eexists. split; [done|]. apply level_mono; [done|]. intros x Hx. apply Wd.
  apply find_counter_place in E as (Hr & Hle & Hend & _ & _); [|done].
  unfold storage_end, counters_start, collection_at in *. lia.
Qed.

(** ** Reading *)

Section Reading.
Context (ks : Z) cs (m : memory) (PV : provisioned ks cs m).

Lemma num_keys_read : num_public_keys_read m = ks.
Proof.
  destruct PV as [Ho [Hb _] He Hk Hnk Ht Hn Hc Hz]. unfold num_public_keys_read, bl_storage_word_read.
  rewrite word_read_law by (unfold num_public_keys_at; rewrite Z.add_mod, Hb by lia; done).
  rewrite Hnk, u32_small; [done|]. unfold MAX_NUM_PUBLIC_KEYS in Hk. lia.
Qed.

Lemma key_data_place i : 0 <= i <= ks -> key_data_at i = PM_PROVISION_ADDRESS + 52 + 20 * i /\ key_data_at i mod 4 = 0.
Proof.
  intros Hi. destruct PV as [Ho [Hb Hb0] He Hk Hnk Ht Hn Hc Hz]. pose proof (counters_size_nonneg _ Hz).
  unfold storage_end, counters_start, collection_at in He.
  assert (E : key_data_at i = PM_PROVISION_ADDRESS + 52 + 20 * i)
    by (unfold key_data_at; rewrite u32_small; unfold SB_PUBLIC_KEY_HASH_LEN; lia).
  split; [done|]. rewrite E. replace (_ + _) with (PM_PROVISION_ADDRESS + (13 + 5 * i) * 4) by lia.
  by rewrite Z_mod_plus_full.
Qed.

Lemma halfword_read a : a mod 2 = 0 -> bl_storage_otp_halfword_read m a = half m a.
Proof.
  intros Ha. unfold bl_storage_otp_halfword_read. rewrite halfword_read_law, u16_small; [done|apply half_range, PV|done].
Qed.

Lemma base_even : PM_PROVISION_ADDRESS mod 2 = 0.
Proof. destruct PV as [_ [Hb _] _ _ _ _ _ _ _]. by apply Z.mod_divide, (Z.divide_trans _ 4), Z.mod_divide; [|exists 2| |]. Qed.

Lemma even_plus a b : a mod 2 = 0 -> (a + 2 * b) mod 2 = 0.
Proof. intros Ha. rewrite (Z.mul_comm 2). by rewrite Z_mod_plus_full. Qed.

Lemma counter_walk_spec l p d :
  Forall (fun '(d, n) => 0 <= n < 65536) l -> 0 <= p -> p mod 2 = 0 -> p + counters_size l <= 4294967296 ->
  counters_at m p l -> counter_walk m (length l) p d = fst <$> find_counter p l d.
Proof.
  intros Hn. revert p. induction Hn as [|[d' n] l Hn Hl IH]; intros p Hp Hev Hend; cbn; [done|].
  pose proof (counters_size_nonneg _ Hl). cbn in Hend. intros (E1 & E2 & E3).
  rewrite (halfword_read p) by done. rewrite E1. destruct (d' =? d); [done|].
  rewrite (u32_small (p + 2)), (halfword_read (p + 2)), E2 by (try apply (even_plus p 1); done || lia).
  destruct l as [|x l]; [done|]. destruct x as [d2 n2]. cbn in Hend. pose proof (Forall_inv Hl) as Hn2. cbn in Hn2.
  pose proof (counters_size_nonneg _ (Forall_inv_tail Hl)).
  rewrite u32_small by lia. apply IH; [lia| |cbn; lia|done].
  replace (p + 4 + 2 * n) with (p + 2 * (2 + n)) by lia. by apply even_plus.
Qed.

Lemma counters_start_place : 0 <= counters_start ks /\ counters_start ks mod 2 = 0.
Proof.
  destruct PV as [Ho [Hb Hb0] He Hk Hnk Ht Hn Hc Hz]. unfold counters_start, collection_at. split; [lia|].
  replace (_ + _ + _ + _) with (PM_PROVISION_ADDRESS + 2 * (28 + 10 * ks)) by lia. apply even_plus, base_even.
Qed.

Lemma get_counter_struct_spec d : get_counter_struct m d = fst <$> find_counter (counters_start ks) cs d.
Proof.
  destruct counters_start_place as [Hp Hev]. pose proof PV as [Ho [Hb Hb0] He Hk Hnk Ht Hn Hc Hz].
  pose proof (counters_size_nonneg _ Hz) as Hs. unfold storage_end in He.
  destruct (key_data_place ks) as [Ek _]; [lia|]. change (_ + _ + _) with (collection_at ks) in Ek.
  assert (Hev2 : forall k, (collection_at ks + 2 * k) mod 2 = 0).
  { intros k. replace (_ + _) with (counters_start ks + 2 * (k - 2)) by (unfold counters_start; lia). by apply even_plus. }
  unfold get_counter_struct, get_counter_collection. rewrite num_keys_read, Ek.
  rewrite halfword_read, Ht by (rewrite <- (Z.add_0_r (collection_at ks)); apply (Hev2 0)). cbn [Z.eqb TYPE_COUNTERS Pos.eqb].
  assert (0 <= collection_at ks) by (unfold collection_at; lia).
  unfold counters_start in *. rewrite (u32_small (collection_at ks + 2)) by lia.
  rewrite halfword_read, Hn, Nat2Z.id by apply (Hev2 1).
  destruct (decide (cs = [])) as [El|El]; [by rewrite El|]. pose proof (counters_size_pos _ Hz El).
  rewrite u32_small by lia. by apply counter_walk_spec.
Qed.

Lemma counter_get a : a mod 2 = 0 -> bl_storage_counter_get m a = 65535 - half m a.
Proof.
  intros Ha. unfold bl_storage_counter_get. rewrite halfword_read_law by done. pose proof (half_range m a ltac:(apply PV)).
  unfold u16, Z.lnot. change (2 ^ 16) with 65536. symmetry. apply (Z.mod_unique _ _ (-1)); lia.
Qed.

Lemma slot_scan_spec k a h :
  0 <= h -> 0 <= a -> a mod 2 = 0 -> a + 2 * Z.of_nat k <= 4294967296 ->
  slot_scan m k a h = (Z.max h (level (slot_values m a k)), free_at a (slot_values m a k)).
Proof.
  revert a h. induction k as [|k IH]; intros a h Hh Ha Hev Hend; cbn [slot_scan slot_values level free_at].
  - by rewrite Z.max_l by lia.
  - rewrite counter_get by done. destruct (65535 - half m a =? 0) eqn:E0; [by rewrite Z.max_l by lia|].
    pose proof (half_range m a ltac:(apply PV)). destruct k as [|k].
    + cbn. repeat f_equal. destruct (h <? _) eqn:El; lia.
    + rewrite u32_small by lia. rewrite IH; [|destruct (h <? _); lia|lia|by apply (even_plus a 1)|lia].
      f_equal. destruct (h <? _) eqn:El; lia.
Qed.

(** What [get_counter] finds. *)
Lemma get_counter_spec d :
  get_counter m d true =
    match find_counter (counters_start ks) cs d with
    | None => (- errno_num EINVAL, None)
    | Some (q, n) => let vs := slot_values m (q + 4) (Z.to_nat n) in (0, Some (level vs, free_at (q + 4) vs))
    end.
Proof.
  unfold get_counter. rewrite get_counter_struct_spec.
  destruct (find_counter (counters_start ks) cs d) as [[q n]|] eqn:E; [|done]. cbn [fst fmap option_fmap option_map negb].
  destruct counters_start_place as [Hp Hev]. pose proof PV as [Ho [Hb Hb0] He Hk Hnk Ht Hn Hc Hz].
  pose proof (counters_at_find _ _ _ _ _ _ Hc E) as Eh.
  apply find_counter_place in E as (Hr & Hle & Hend & (k & Eq) & _); [|done].
  unfold storage_end in He. rewrite (u32_small (q + 2)) by lia.
  rewrite halfword_read, Eh by (rewrite Eq, <- Z.add_assoc; apply (even_plus _ (k + 1)) in Hev; by rewrite Z.mul_add_distr_l in Hev).
  destruct (decide (n = 0)) as [->|Hn0]; [done|].
  rewrite u32_small by lia. rewrite slot_scan_spec; [|lia|lia| |rewrite Z2Nat.id; lia].
  - by rewrite Z.max_r by apply level_nonneg.
  - rewrite Eq. replace (_ + _) with (counters_start ks + 2 * (k + 2)) by lia. by apply even_plus.
Qed.

Lemma get_monotonic_counter_spec d :
  get_monotonic_counter m d true =
    match counter_value ks cs m d with Some v => (0, Some v) | None => (- errno_num EINVAL, None) end.
Proof.
  unfold get_monotonic_counter, counter_value. rewrite get_counter_spec.
  by destruct (find_counter (counters_start ks) cs d) as [[q n]|].
Qed.

Lemma num_slots_spec d :
  num_monotonic_counter_slots m d true =
    match find_counter (counters_start ks) cs d with
    | None => (- errno_num EINVAL, None)
    | Some (q, n) => if n =? 65535 then (- errno_num EINVAL, Some 0) else (0, Some n)
    end.
Proof.
  unfold num_monotonic_counter_slots. rewrite get_counter_struct_spec.
  destruct (find_counter (counters_start ks) cs d) as [[q n]|] eqn:E; [|done]. cbn [fst fmap option_fmap option_map negb].
  destruct counters_start_place as [Hp Hev]. pose proof PV as [Ho [Hb Hb0] He Hk Hnk Ht Hn Hc Hz].
  pose proof (counters_at_find _ _ _ _ _ _ Hc E) as Eh.
  apply find_counter_place in E as (Hr & Hle & Hend & (k & Eq) & _); [|done].
  unfold storage_end in He. rewrite (u32_small (q + 2)) by lia.
  by rewrite halfword_read, Eh by (rewrite Eq, <- Z.add_assoc; apply (even_plus _ (k + 1)) in Hev; by rewrite Z.mul_add_distr_l in Hev).
Qed.

End Reading.
(** ** The operations only wear the storage *)

Section Keeps.
Context (ks : Z) cs.

(** Outside of the storage nothing but [P] changes. *)
Definition spares (P : Z -> Prop) (m m' : memory) : Prop :=
  forall x, ~ (PM_PROVISION_ADDRESS <= x < storage_end ks cs) -> ~ P x -> m' x = m x.

Lemma spares_trans (P : Z -> Prop) m1 m2 m3 : spares P m1 m2 -> spares P m2 m3 -> spares P m1 m3.
Proof. intros S1 S2 x Hx HP. by rewrite S2, S1. Qed.

(** Whatever a computation does from a provisioned storage on, and however it
    ends, the storage only wears down and outside of it only [P] changes. *)
Definition keeps (P : Z -> Prop) {A} (c : M A) : Prop :=
  forall s, provisioned ks cs (mem s) -> torn_ok s ->
  runs c s (fun _ s' => (wear ks cs (mem s) (mem s') /\ spares P (mem s) (mem s')) /\ torn_ok s')
    (fun _ m' => wear ks cs (mem s) m' /\ spares P (mem s) m').

Section Any.
Context (P : Z -> Prop).

Lemma mem_keeps_same m : provisioned ks cs m -> wear ks cs m m /\ spares P m m.
Proof. intros PV. split; [apply wear_refl, PV|done]. Qed.

Lemma mem_keeps_ret {A} (a : A) : keeps P (mret a).
Proof. intros s PV Ht. split; [by apply mem_keeps_same|done]. Qed.

Lemma keeps_then s1 s2 {A} (c : M A) :
  provisioned ks cs (mem s1) -> wear ks cs (mem s1) (mem s2) /\ spares P (mem s1) (mem s2) -> torn_ok s2 -> keeps P c ->
  runs c s2 (fun _ s' => (wear ks cs (mem s1) (mem s') /\ spares P (mem s1) (mem s')) /\ torn_ok s')
    (fun _ m' => wear ks cs (mem s1) m' /\ spares P (mem s1) m').
Proof.
  intros PV [Hw Hs] Ht Hc. pose proof (wear_provisioned _ _ _ _ PV Hw) as PV2.
  eapply runs_mono; [by apply Hc| |]; cbn.
  - intros b s3 [[Hw2 Hs2] Ht2]. split; [split; [by eapply wear_trans|by eapply spares_trans]|done].
  - intros w m' [Hw2 Hs2]. split; [by eapply wear_trans|by eapply spares_trans].
Qed.

Lemma keeps_bind {A B} (c : M A) (f : A -> M B) : keeps P c -> (forall a, keeps P (f a)) -> keeps P (c ≫= f).
Proof.
  intros Hc Hf s PV Ht. apply runs_bind. eapply runs_mono; [by apply Hc| |done]. intros a s' [Hw Ht'].
  by apply keeps_then.
Qed.

Lemma keeps_reads {A B} (g : memory -> A) (f : A -> M B) : (forall a, keeps P (f a)) -> keeps P (reads g ≫= f).
Proof. intros Hf s PV Ht. apply runs_reads. by apply Hf. Qed.

Lemma keeps_panics {A B} (g : memory -> option A) (f : A -> M B) : (forall a, keeps P (f a)) -> keeps P (panics g ≫= f).
Proof. intros Hf s PV Ht. apply runs_panics; [intros a _; by apply Hf|]. intros _. by apply mem_keeps_same. Qed.

Lemma written_wear m a n v m' :
  octets_ok m -> written m a n v m' ->
  (forall x, a <= x < a + n -> fixed ks cs x -> octet v (x - a) = 255) -> wear ks cs m m'.
Proof.
  intros Ho Hw Hf. split; [by eapply written_octets| |].
  - intros x _. specialize (Hw x). case_bool_decide; lia.
  - intros x Hx. specialize (Hw x). case_bool_decide as Hr; [|done]. rewrite Hf in Hw by done. pose proof (Ho x).
    change 255 with (Z.ones 8) in Hw. rewrite Z.land_ones, Z.mod_small in Hw by lia. lia.
Qed.

Definition stored_at (x : Z) : Prop := PM_PROVISION_ADDRESS <= x < storage_end ks cs.

(** A write of the driver that clears no fixed bit. *)
Lemma write_keeps write n a v s :
  provisioned ks cs (mem s) -> torn_ok s ->
  (write = nrfx_nvmc_halfword_write /\ n = 2 /\ a mod 2 = 0) \/ (write = nrfx_nvmc_word_write /\ n = 4 /\ a mod 4 = 0) ->
  (forall x, a <= x < a + n -> (stored_at x \/ P x) /\ (fixed ks cs x -> octet v (x - a) = 255)) ->
  runs (nvm_write write n a v) s
    (fun _ s' => (wear ks cs (mem s) (mem s') /\ spares P (mem s) (mem s')) /\ torn_ok s')
    (fun _ m' => wear ks cs (mem s) m' /\ spares P (mem s) m').
Proof.
  intros PV Ht Hw Hf.
  assert (Hout : forall m', written (mem s) a n v m' -> wear ks cs (mem s) m' /\ spares P (mem s) m').
  { intros m' Hwr. split; [by eapply written_wear; [apply PV| |intros x Hx; apply Hf, Hx]|].
    intros x Hs HP. specialize (Hwr x). case_bool_decide as Hr; [|done]. by destruct (Hf x Hr) as [[?|?] _]. }
  apply runs_write; [done|apply PV|done| |].
  - intros s' _ Et Hwr _. split; [by apply Hout|]. unfold torn_ok. by rewrite Et.
  - intros m' _ Hwr. by apply Hout.
Qed.

Lemma free_at_place a vs b : free_at a vs = Some b -> exists i, b = a + 2 * i /\ 0 <= i < zlen vs.
Proof.
  revert a. induction vs as [|v vs IH]; intros a; cbn; [done|]. destruct (v =? 0).
  - intros [= <-]. exists 0. lia.
  - intros E. apply IH in E as (i & -> & Hi). exists (i + 1). lia.
Qed.

Lemma free_at_half m a n b : free_at a (slot_values m a n) = Some b -> half m b = 65535.
Proof.
  revert a. induction n as [|n IH]; intros a; cbn; [done|]. destruct (Z.eqb_spec (65535 - half m a) 0); [intros [= <-]; lia|by apply IH].
Qed.

Lemma length_slot_values m a n : length (slot_values m a n) = n.
Proof. revert a. induction n; intros a; cbn; [done|]. by rewrite IHn. Qed.

(** The place of a free slot. *)
Lemma free_slot_place m d q n b :
  provisioned ks cs m -> find_counter (counters_start ks) cs d = Some (q, n) ->
  free_at (q + 4) (slot_values m (q + 4) (Z.to_nat n)) = Some b ->
  b mod 2 = 0 /\ forall x, b <= x < b + 2 -> stored_at x /\ ~ fixed ks cs x.
Proof.
  intros PV Ef Eb. apply free_at_place in Eb as (i & -> & Hi). rewrite length_slot_values in Hi.
  destruct (counters_start_place ks cs m PV) as [Hp Hev].
  apply find_counter_place in Ef as (Hr & Hle & Hend & (k & ->) & Hx); [|apply PV]. split.
  - replace (_ + _) with (counters_start ks + 2 * (k + 2 + i)) by lia. by apply even_plus.
  - intros x Hb. split; [unfold stored_at, storage_end, counters_start, collection_at in *; pose proof (pv_base _ _ _ PV); pose proof (pv_keys _ _ _ PV); lia|].
    intros (_ & _ & Hns). apply Hns, Hx. lia.
Qed.

Lemma set_monotonic_counter_keeps d v : keeps P (set_monotonic_counter d v).
Proof.
  intros s PV Ht. unfold set_monotonic_counter. apply runs_reads. rewrite (get_counter_spec ks cs _ PV).
  destruct (find_counter (counters_start ks) cs d) as [[q n]|] eqn:Ef; [|by apply mem_keeps_ret]. cbn.
  destruct (v <=? _); [by apply mem_keeps_ret|]. destruct (free_at _ _) as [b|] eqn:Eb; [|by apply mem_keeps_ret].
  destruct (free_slot_place _ _ _ _ _ PV Ef Eb) as [Hev Hb]. apply runs_bind.
  eapply runs_mono; [apply write_keeps; [done|done|by left|]| |done].
  - intros x Hx. destruct (Hb x Hx). tauto.
  - intros [] s' Hs'. exact Hs'.
Qed.

Lemma invalidate_public_key_keeps i : 0 <= i -> keeps P (invalidate_public_key i).
Proof.
  intros Hi s PV Ht. unfold invalidate_public_key. apply runs_panics; [|intros _; by apply mem_keeps_same].
  intros [|] Ev; [|by apply mem_keeps_ret].
  assert (Hk : i < ks).
  { unfold key_is_valid in Ev. rewrite (num_keys_read ks cs _ PV) in Ev. destruct (ks <=? i) eqn:E; [done|lia]. }
  destruct (key_data_place ks cs _ PV i ltac:(lia)) as [Ek Hev].
  apply write_keeps; [done|done|by right|]. pose proof (counters_size_nonneg _ (pv_sizes _ _ _ PV)).
  intros x Hx. split; [left; unfold stored_at, storage_end, counters_start, collection_at; lia|]. intros (Hr & Hn & _). rewrite Ek in *.
  specialize (Hn i ltac:(lia)).
  assert (x = PM_PROVISION_ADDRESS + 52 + 20 * i + 2 \/ x = PM_PROVISION_ADDRESS + 52 + 20 * i + 3) as [->| ->] by lia.
  - by replace (_ - _) with 2 by lia.
  - by replace (_ - _) with 3 by lia.
Qed.

Lemma lcs_set_keeps a v : a = lcs_provisioning_at \/ a = lcs_secure_at \/ a = lcs_decommissioned_at ->
  keeps P (bl_storage_lcs_set a v).
Proof.
  intros Ha. apply keeps_bind; [|intros ?; apply mem_keeps_ret]. intros s PV Ht.
  pose proof (base_even ks cs _ PV) as Hev.
  unfold lcs_provisioning_at, lcs_secure_at, lcs_decommissioned_at in Ha. apply write_keeps; [done|done| |].
  - left. split; [done|]. split; [done|]. destruct Ha as [->|[->| ->]]; [done|by apply (even_plus _ 1)|by apply (even_plus _ 3)].
  - pose proof (counters_size_nonneg _ (pv_sizes _ _ _ PV)). pose proof (pv_keys _ _ _ PV). intros x Hx.
    split; [left; unfold stored_at, storage_end, counters_start, collection_at; lia|]. intros (Hr & _). lia.
Qed.

Lemma update_life_cycle_state_keeps l : keeps P (update_life_cycle_state l).
Proof.
  unfold update_life_cycle_state. case_bool_decide; [apply mem_keeps_ret|]. apply keeps_reads. intros [err [cur|]]; [|apply mem_keeps_ret].
  destruct (_ <? _); [apply mem_keeps_ret|]. case_bool_decide; [apply mem_keeps_ret|].
  destruct cur, l; first [apply mem_keeps_ret | apply lcs_set_keeps; tauto].
Qed.

Lemma boot_nv_update_keeps `{Fih} image cnt : keeps P (boot_nv_security_counter_update image cnt).
Proof.
  unfold boot_nv_security_counter_update. destruct (0 <? _); [apply mem_keeps_ret|]. apply keeps_reads. intros [e c].
  destruct (fih_not_eq _ _); [apply mem_keeps_ret|]. case_bool_decide; [apply mem_keeps_ret|].
  apply keeps_bind; [apply set_monotonic_counter_keeps|]. intros ?. apply mem_keeps_ret.
Qed.

End Any.

(** ** Keys and the life cycle never go back *)

Lemma invalid_token i : 0 <= i < 16 -> Z.lor INVALID_VAL (u32 (Z.shiftl i TOKEN_IDX_OFFSET)) mod 65536 = 0.
Proof.
  intros Hi. pose proof (range_check (fun i => Z.lor INVALID_VAL (u32 (Z.shiftl i TOKEN_IDX_OFFSET)) mod 65536 =? 0) 0 16
    ltac:(by vm_compute) i ltac:(lia)) as E. by apply Z.eqb_eq in E.
Qed.

Lemma token_high_fixed m i x :
  provisioned ks cs m -> 0 <= i < ks -> key_data_at i + 2 <= x < key_data_at i + 4 -> fixed ks cs x.
Proof.
  intros PV Hi Hx. destruct (key_data_place ks cs m PV i ltac:(lia)) as [E _]. rewrite E in Hx.
  pose proof (counters_size_nonneg _ (pv_sizes _ _ _ PV)).
  unfold fixed, storage_end, counters_start, collection_at. split; [lia|]. split; [lia|].
  intros Hs. apply slot_octet_range in Hs; [lia|apply PV].
Qed.

Lemma token_read m i : provisioned ks cs m -> 0 <= i < ks ->
  bl_storage_word_read m (key_data_at i) = half m (key_data_at i) + 65536 * half m (key_data_at i + 2).
Proof.
  intros PV Hi. destruct (key_data_place ks cs m PV i ltac:(lia)) as [E Hev].
  unfold bl_storage_word_read. rewrite word_read_law by done. apply u32_small, word_range, PV.
Qed.

Lemma wear_key m m' i :
  provisioned ks cs m -> wear ks cs m m' -> 0 <= i -> key_is_valid m i = Some false -> key_is_valid m' i = Some false.
Proof.
  intros PV W Hi. pose proof (wear_provisioned _ _ _ _ PV W) as PV'. unfold key_is_valid.
  rewrite (num_keys_read _ _ _ PV), (num_keys_read _ _ _ PV'). destruct (ks <=? i) eqn:Ei; [done|].
  rewrite (token_read m), (token_read m') by (done || lia).
  pose proof (pv_keys _ _ _ PV). unfold MAX_NUM_PUBLIC_KEYS in *. pose proof (invalid_token i ltac:(lia)) as Hl.
  destruct (half m _ + _ =? _) eqn:E1; [intros _|destruct (half m _ + _ =? Z.lor VALID_VAL _); by intros [=]].
  apply Z.eqb_eq in E1. rewrite <- E1 in Hl. destruct W as [Wo Wd Wf]. destruct PV as [Ho Hb He Hk Hnk Ht Hn Hc Hz].
  pose proof (half_range m (key_data_at i) Ho). pose proof (half_range m' (key_data_at i) Wo).
  assert (half m (key_data_at i) = 0) by (rewrite (Z.mul_comm 65536), Z_mod_plus_full, Z.mod_small in Hl; lia).
  assert (Hlo : half m' (key_data_at i) <= half m (key_data_at i)).
  { destruct (key_data_place ks cs m ltac:(by split) i ltac:(lia)) as [E _]. pose proof (counters_size_nonneg _ Hz).
    apply half_le; apply Wd; rewrite E; unfold storage_end, counters_start, collection_at; lia. }
  assert (E2 : half m' (key_data_at i + 2) = half m (key_data_at i + 2)).
  { apply half_same; apply Wf, (token_high_fixed m i); try (by split); lia. }
  rewrite E2. replace (half m' (key_data_at i)) with (half m (key_data_at i)) by lia. by rewrite E1, Z.eqb_refl.
Qed.

(** The life cycle as its three entries say. *)
Definition lcs_of (p s d : Z) : Z * option lcs :=
  if (p =? 65535) && (s =? 65535) && (d =? 65535) then (0, Some BL_STORAGE_LCS_ASSEMBLY)
  else if (p =? 0) && (s =? 65535) && (d =? 65535) then (0, Some BL_STORAGE_LCS_PROVISIONING)
  else if (p =? 0) && (s =? 0) && (d =? 65535) then (0, Some BL_STORAGE_LCS_SECURED)
  else if (p =? 0) && (s =? 0) && (d =? 0) then (0, Some BL_STORAGE_LCS_DECOMMISSIONED)
  else (- EREADLCS, None).

Lemma lcs_read m : provisioned ks cs m ->
  read_life_cycle_state m true =
    lcs_of (half m PM_PROVISION_ADDRESS) (half m (PM_PROVISION_ADDRESS + 2)) (half m (PM_PROVISION_ADDRESS + 6)).
Proof.
  intros PV. pose proof (base_even ks cs _ PV) as Hev. unfold read_life_cycle_state.
  assert (E : forall a, a mod 2 = 0 -> bl_storage_lcs_get m a = half m a) by apply (halfword_read ks cs m PV).
  rewrite !E; [done|by apply (even_plus _ 3)|by apply (even_plus _ 1)|done].
Qed.

Lemma lcs_of_mono p s d p' s' d' l l' :
  0 <= p' <= p -> 0 <= s' <= s -> 0 <= d' <= d ->
  lcs_of p s d = (0, Some l) -> lcs_of p' s' d' = (0, Some l') -> lcs_num l <= lcs_num l'.
Proof.
  intros Hp Hs Hd. unfold lcs_of.
  destruct (Z.eqb_spec p 65535), (Z.eqb_spec p 0), (Z.eqb_spec s 65535), (Z.eqb_spec s 0); try lia; cbn; try done;
  destruct (Z.eqb_spec d 65535), (Z.eqb_spec d 0); try lia; cbn; try done; intros [= <-];
  destruct (Z.eqb_spec p' 65535), (Z.eqb_spec p' 0), (Z.eqb_spec s' 65535), (Z.eqb_spec s' 0); try lia; cbn; try done;
  destruct (Z.eqb_spec d' 65535), (Z.eqb_spec d' 0); try lia; cbn; try done; intros [= <-]; cbn; lia.
Qed.

Lemma wear_lcs m m' l l' :
  provisioned ks cs m -> wear ks cs m m' ->
  read_life_cycle_state m true = (0, Some l) -> read_life_cycle_state m' true = (0, Some l') -> lcs_num l <= lcs_num l'.
Proof.
  intros PV W. pose proof (wear_provisioned _ _ _ _ PV W) as PV'. rewrite (lcs_read m PV), (lcs_read m' PV').
  pose proof (counters_size_nonneg _ (pv_sizes _ _ _ PV)). pose proof (pv_keys _ _ _ PV). destruct W as [Wo Wd _].
  apply lcs_of_mono; (split; [apply half_range, Wo|]); apply half_le; apply Wd;
    unfold storage_end, counters_start, collection_at; lia.
Qed.

End Keeps.
(** ** The storage as an abstract state *)

Inductive key_state := KeyValid | KeyInvalid | KeyBroken.

(** The keys, the counters with description, value and number of free slots,
    and the life cycle; [None] is a state that cannot be read. *)
Record store_state := { s_keys : list key_state; s_counters : list (Z * Z * Z); s_lcs : option lcs }.

Inductive op := SetCounter (d v : Z) | InvalidateKey (i : Z) | UpdateLife (l : lcs).

Definition op_run (o : op) : M Z :=
  match o with
  | SetCounter d v => set_monotonic_counter d v
  | InvalidateKey i => invalidate_public_key i ≫= fun _ => mret 0
  | UpdateLife l => update_life_cycle_state l
  end.

Definition op_ok (o : op) : Prop :=
  match o with SetCounter d v => 0 <= v < 65536 | InvalidateKey i => 0 <= i | UpdateLife l => True end.

(** What the header specifies: it excludes the value 0xFFFF of a counter, which
    the code does not refuse ([StorageDemo.highest_value_accepted]). *)
Definition op_documented (o : op) : Prop :=
  match o with SetCounter d v => 0 <= v < 0xFFFF | InvalidateKey i => 0 <= i | UpdateLife l => True end.

(** Setting the first counter of the description. *)
Fixpoint set_spec (d v : Z) (l : list (Z * Z * Z)) : Z * list (Z * Z * Z) :=
  match l with
  | [] => (- errno_num EINVAL, [])
  | (d', x, f) :: l =>
      if d' =? d then
        if v <=? x then (- errno_num EINVAL, (d', x, f) :: l)
        else if f =? 0 then (- errno_num ENOMEM, (d', x, f) :: l)
        else (0, (d', v, f - 1) :: l)
      else let '(e, l') := set_spec d v l in (e, (d', x, f) :: l')
  end.

Definition life_spec (cur : option lcs) (next : lcs) : Z * option lcs :=
  match next, cur with
  | BL_STORAGE_LCS_UNKNOWN, _ => (- EINVALIDLCS, cur)
  | _, None => (- EREADLCS, cur)
  | _, Some c =>
      if lcs_num next =? lcs_num c then (0, cur)
      else if lcs_num next =? lcs_num c + 1 then (0, Some next)
      else (- EINVALIDLCS, cur)
  end.

(** The answer, [None] for a panic, and the state afterwards. *)
Definition op_spec (o : op) (st : store_state) : option Z * store_state :=
  match o with
  | SetCounter d v =>
      let '(e, l) := if v =? 0xFFFF then (- errno_num EINVAL, s_counters st) else set_spec d v (s_counters st) in
      (Some e, {| s_keys := s_keys st; s_counters := l; s_lcs := s_lcs st |})
  | InvalidateKey i =>
      match s_keys st !! Z.to_nat i with
      | Some KeyBroken => (None, st)
      | Some KeyValid =>
          (Some 0, {| s_keys := <[Z.to_nat i := KeyInvalid]> (s_keys st); s_counters := s_counters st; s_lcs := s_lcs st |})
      | _ => (Some 0, st)
      end
  | UpdateLife l =>
      let '(e, c) := life_spec (s_lcs st) l in
      (Some e, {| s_keys := s_keys st; s_counters := s_counters st; s_lcs := c |})
  end.

(** What the operation may leave if the supply fails during it: a counter
    between its old and new value, a broken token, or an unreadable state. *)
Fixpoint set_broken (d v : Z) (l l' : list (Z * Z * Z)) : Prop :=
  match l, l' with
  | (d1, x, f) :: l, (d2, x', f') :: l' =>
      d1 = d2 /\
      if d1 =? d then (x <= x' <= v /\ f - 1 <= f' <= f) /\ l' = l
      else x' = x /\ f' = f /\ set_broken d v l l'
  | _, _ => False
  end.

Definition op_broken (o : op) (st st' : store_state) : Prop :=
  match o with
  | SetCounter d v => s_keys st' = s_keys st /\ s_lcs st' = s_lcs st /\ set_broken d v (s_counters st) (s_counters st')
  | InvalidateKey i =>
      s_counters st' = s_counters st /\ s_lcs st' = s_lcs st /\
      s_keys st !! Z.to_nat i = Some KeyValid /\ exists k, s_keys st' = <[Z.to_nat i := k]> (s_keys st)
  | UpdateLife l =>
      s_keys st' = s_keys st /\ s_counters st' = s_counters st /\
      fst (life_spec (s_lcs st) l) = 0 /\ (s_lcs st' = None \/ s_lcs st' = s_lcs st \/ s_lcs st' = Some l)
  end.

(** The slots of a counter: positive values and then free slots. *)
Definition slots_rel (vs : list Z) (x f : Z) : Prop :=
  exists used, vs = used ++ replicate (Z.to_nat f) 0 /\ 0 <= f /\ Forall (fun v => 0 < v) used /\ level used = x.

Fixpoint counters_rel (m : memory) (p : Z) (cs : list (Z * Z)) (l : list (Z * Z * Z)) : Prop :=
  match cs, l with
  | [], [] => True
  | (d, n) :: cs, (d', x, f) :: l =>
      d' = d /\ slots_rel (slot_values m (p + 4) (Z.to_nat n)) x f /\ counters_rel m (p + 4 + 2 * n) cs l
  | _, _ => False
  end.

Definition key_answer (k : key_state) : option bool :=
  match k with KeyValid => Some true | KeyInvalid => Some false | KeyBroken => None end.

(** A memory stands for a state. *)
Record stands (ks : Z) (cs : list (Z * Z)) (m : memory) (st : store_state) : Prop := {
  st_provisioned : provisioned ks cs m;
  st_keys_num : zlen (s_keys st) = ks;
  st_keys i k : s_keys st !! i = Some k -> key_is_valid m (Z.of_nat i) = key_answer k;
  st_counters : counters_rel m (counters_start ks) cs (s_counters st);
  st_lcs : read_life_cycle_state m true = match s_lcs st with Some l => (0, Some l) | None => (- EREADLCS, None) end;
}.

Section Refines.
Context (ks : Z) (cs : list (Z * Z)).

Lemma slots_rel_level vs x f : slots_rel vs x f -> level vs = x.
Proof.
  intros (used & -> & Hf & Hu & <-). clear Hf. induction Hu as [|v used Hv _ IH]; cbn.
  - by destruct (Z.to_nat f).
  - destruct (v =? 0); [done|]. by rewrite IH.
Qed.

Lemma slots_rel_free vs x f a : slots_rel vs x f ->
  free_at a vs = if f =? 0 then None else Some (a + 2 * (zlen vs - f)).
Proof.
  intros (used & -> & Hf & Hu & _). revert a. induction Hu as [|v used Hv _ IH]; intros a; cbn [app free_at].
  - destruct (Z.eqb_spec f 0) as [->|Hn]; [done|]. destruct (Z.to_nat f) as [|k] eqn:Ek; [lia|]. cbn [replicate free_at Z.eqb].
    cbn [length]. rewrite length_replicate. f_equal. lia.
  - destruct (Z.eqb_spec v 0); [lia|]. rewrite IH. destruct (f =? 0); [done|]. f_equal. cbn [length]. lia.
Qed.

(** Using a free slot. *)
Lemma slots_rel_use vs x f w : slots_rel vs x f -> 0 < f -> 0 <= w ->
  slots_rel (<[Z.to_nat (zlen vs - f) := w]> vs) (Z.max x w) (if w =? 0 then f else f - 1).
Proof.
  intros (used & -> & Hf & Hu & Hx) Hf0 Hw. rewrite length_app, length_replicate.
  replace (Z.to_nat (Z.of_nat (length used + Z.to_nat f) - f)) with (length used + 0)%nat by lia.
  rewrite insert_app_r. replace (Z.to_nat f) with (S (Z.to_nat (f - 1))) by lia. cbn.
  destruct (Z.eqb_spec w 0) as [->|Hn].
  - exists used. split; [|split; [lia|split; [done|]]].
    + f_equal. replace (Z.to_nat f) with (S (Z.to_nat (f - 1))) by lia. done.
    + pose proof (level_nonneg used). lia.
  - exists (used ++ [w]). split; [by rewrite <- app_assoc|]. split; [lia|]. split; [apply Forall_app; split; [done|constructor; [lia|done]]|].
    rewrite <- Hx. clear Hx. induction Hu as [|v used Hv _ IH]; cbn.
    + destruct (Z.eqb_spec w 0); lia.
    + destruct (Z.eqb_spec v 0); [lia|]. rewrite IH. lia.
Qed.

Lemma slot_values_same m m' a n :
  (forall x, a <= x < a + 2 * Z.of_nat n -> m' x = m x) -> slot_values m' a n = slot_values m a n.
Proof.
  revert a. induction n as [|n IH]; intros a Hx; cbn; [done|]. f_equal.
  - f_equal. apply half_same; apply Hx; lia.
  - apply IH. intros x Hr. apply Hx. lia.
Qed.

Lemma slot_values_write m m' a n i :
  0 <= i < Z.of_nat n -> (forall x, ~ (a + 2 * i <= x < a + 2 * i + 2) -> m' x = m x) ->
  slot_values m' a n = <[Z.to_nat i := 65535 - half m' (a + 2 * i)]> (slot_values m a n).
Proof.
  revert a i. induction n as [|n IH]; intros a i Hi Hx; [lia|]. cbn [slot_values].
  destruct (Z.to_nat i) as [|k] eqn:Ek.
  - cbn. replace i with 0 in * by lia. replace (a + 2 * 0) with a by lia. f_equal. apply slot_values_same. intros x Hr. apply Hx. lia.
  - cbn. f_equal.
    + f_equal. apply half_same; apply Hx; lia.
    + rewrite (IH (a + 2) (i - 1)); [|lia|intros x Hr; apply Hx; lia].
      replace (Z.to_nat (i - 1)) with k by lia. by replace (a + 2 + 2 * (i - 1)) with (a + 2 * i) by lia.
Qed.

Lemma counters_rel_same (c : list (Z * Z)) m m' p l :
  Forall (fun '(d, n) => 0 <= n < 65536) c ->
  (forall x, p <= x < p + counters_size c -> m' x = m x) -> counters_rel m p c l -> counters_rel m' p c l.
Proof.
  intros Hn. revert p l. induction Hn as [|[d n] c1 Hn Hc IH]; intros p [|[[d' x] f] l] Hx; cbn; try done.
  pose proof (counters_size_nonneg _ Hc). cbn in Hx. intros (E & Hs & Hr). split; [done|]. split.
  - rewrite (slot_values_same m m'); [done|]. intros y Hy. apply Hx. lia.
  - apply IH; [|done]. intros y Hy. apply Hx. lia.
Qed.

Lemma keys_same m m' i :
  provisioned ks cs m -> provisioned ks cs m' -> 0 <= i ->
  (forall x, key_data_at i <= x < key_data_at i + 4 -> m' x = m x) -> key_is_valid m' i = key_is_valid m i.
Proof.
  intros PV PV' Hi Hx. unfold key_is_valid. rewrite (num_keys_read _ _ _ PV), (num_keys_read _ _ _ PV').
  destruct (ks <=? i) eqn:E; [done|]. rewrite (token_read ks cs m), (token_read ks cs m') by (done || lia).
  rewrite !(half_same m m') by (apply Hx; lia). done.
Qed.

Lemma lcs_same m m' :
  provisioned ks cs m -> provisioned ks cs m' ->
  (forall x, PM_PROVISION_ADDRESS <= x < PM_PROVISION_ADDRESS + 8 -> m' x = m x) ->
  read_life_cycle_state m' true = read_life_cycle_state m true.
Proof.
  intros PV PV' Hx. rewrite (lcs_read ks cs m PV), (lcs_read ks cs m' PV'). f_equal; apply half_same; apply Hx; lia.
Qed.

(** A counter in its collection: what setting it answers, and what a change of
    its slots means for the collection. *)
Lemma counters_rel_find (c : list (Z * Z)) m p l d v :
  Forall (fun '(d, n) => 0 <= n < 65536) c -> counters_rel m p c l ->
  match find_counter p c d with
  | None => set_spec d v l = (- errno_num EINVAL, l)
  | Some (q, n) =>
      exists x f, slots_rel (slot_values m (q + 4) (Z.to_nat n)) x f /\
      fst (set_spec d v l) = (if v <=? x then - errno_num EINVAL else if f =? 0 then - errno_num ENOMEM else 0) /\
      (v <= x \/ f = 0 -> snd (set_spec d v l) = l) /\
      forall m' x' f',
        (forall y, ~ (q + 4 <= y < q + 4 + 2 * n) -> m' y = m y) ->
        slots_rel (slot_values m' (q + 4) (Z.to_nat n)) x' f' -> x < v -> f <> 0 ->
        exists l', counters_rel m' p c l' /\ (x' = v /\ f' = f - 1 -> snd (set_spec d v l) = l') /\
          (x <= x' <= v /\ f - 1 <= f' <= f -> set_broken d v l l')
  end.
Proof.
  intros Hn. revert p l. induction Hn as [|[d1 n1] c Hn Hc IH]; intros p [|[[d2 x] f] l]; cbn; try done.
  intros (-> & Hs & Hr). destruct (d1 =? d) eqn:Ed.
  - exists x, f. split; [done|]. split; [by destruct (v <=? x), (f =? 0)|]. split.
    { intros Hv. destruct (Z.leb_spec v x); [done|]. destruct (Z.eqb_spec f 0); [done|]. lia. }
    intros m' x' f' Hm Hs' Hx Hf. exists ((d1, x', f') :: l).
    split; [|split].
    + split; [done|]. split; [done|]. apply (counters_rel_same c m); [done| |done]. intros y Hy. apply Hm. lia.
    + intros [-> ->]. destruct (Z.leb_spec v x); [lia|]. by destruct (Z.eqb_spec f 0).
    + done.
  - specialize (IH _ _ Hr). destruct (find_counter _ c d) as [[q n]|] eqn:Ef.
    + destruct IH as (x1 & f1 & Hs1 & E1 & E2 & IH). exists x1, f1. destruct (set_spec d v l) as [e l1]. cbn in *.
      split; [done|]. split; [done|]. split; [intros Hv; by rewrite E2|].
      intros m' x' f' Hm Hs' Hx Hf. destruct (IH m' x' f' Hm Hs' Hx Hf) as (l' & Hl & H1 & H2).
      exists ((d1, x, f) :: l'). split; [|split].
      * split; [done|]. split; [|done]. rewrite (slot_values_same m m'); [done|].
        intros y Hy. apply Hm. apply find_counter_place in Ef; [|done]. lia.
      * intros Hv. by rewrite H1.
      * intros Hv. split; [done|]. split; [done|]. split; [done|]. by apply H2.
    + by rewrite IH.
Qed.

(** The octets of a free slot have all bits set. *)
Lemma slot_written m b v m' :
  octets_ok m -> half m b = 65535 -> 0 <= v < 65536 -> written m b 2 (u16 (Z.lnot v)) m' -> 0 <= 65535 - half m' b <= v.
Proof.
  intros Ho Hb Hv Hw. pose proof (written_octets _ _ _ _ _ Ho Hw) as Ho'. pose proof (half_range m' b Ho').
  pose proof (Ho b). pose proof (Ho (b + 1)). unfold half in Hb. assert (Hb1 : m b = 255) by lia. assert (Hb2 : m (b + 1) = 255) by lia.
  pose proof (Hw b) as W1. pose proof (Hw (b + 1)) as W2. rewrite !bool_decide_eq_true_2 in W1, W2 by lia.
  rewrite Hb1, Z.sub_diag in W1. rewrite Hb2, Z.add_simpl_l in W2.
  change 255 with (Z.ones 8) in W1, W2. rewrite Z.land_comm, Z.land_ones in W1, W2 by lia.
  assert (El : u16 (Z.lnot v) = 65535 - v).
  { unfold u16, Z.lnot. change (2 ^ 16) with 65536. symmetry. apply (Z.mod_unique _ _ (-1)); lia. }
  rewrite El in W1, W2. unfold octet, u8 in W1, W2. rewrite Z.shiftr_0_r in W1. rewrite Z.shiftr_div_pow2 in W2 by lia.
  change (2 ^ (8 * 1)) with 256 in W2. change (2 ^ 8) with 256 in W1, W2. rewrite Z.mod_mod in W1, W2 by lia.
  pose proof (Z_div_mod_eq_full (65535 - v) 256). rewrite (Z.mod_small ((65535 - v) / 256)) in W2; [unfold half in *; lia|].
  split; [apply Z.div_pos; lia|apply Z.div_lt_upper_bound; lia].
Qed.

Lemma slot_stored m b v m' :
  octets_ok m -> half m b = 65535 -> 0 <= v < 65536 ->
  (forall x, m' x = if bool_decide (b <= x < b + 2) then Z.land (m x) (octet (u16 (Z.lnot v)) (x - b)) else m x) ->
  65535 - half m' b = v.
Proof.
  intros Ho Hb Hv Hw. pose proof (Ho b). pose proof (Ho (b + 1)). unfold half in Hb.
  assert (Hb1 : m b = 255) by lia. assert (Hb2 : m (b + 1) = 255) by lia.
  unfold half. rewrite !Hw, !bool_decide_eq_true_2, Hb1, Hb2, Z.sub_diag, Z.add_simpl_l by lia.
  change 255 with (Z.ones 8). rewrite !(Z.land_comm (Z.ones 8)), !Z.land_ones by lia.
  assert (El : u16 (Z.lnot v) = 65535 - v).
  { unfold u16, Z.lnot. change (2 ^ 16) with 65536. symmetry. apply (Z.mod_unique _ _ (-1)); lia. }
  rewrite El. unfold octet, u8. rewrite Z.shiftr_0_r, Z.shiftr_div_pow2 by lia.
  change (2 ^ (8 * 1)) with 256. change (2 ^ 8) with 256. rewrite !Z.mod_mod by lia.
  pose proof (Z_div_mod_eq_full (65535 - v) 256). rewrite (Z.mod_small ((65535 - v) / 256)); [lia|].
  split; [apply Z.div_pos; lia|apply Z.div_lt_upper_bound; lia].
Qed.

Lemma free_half m a n x f : slots_rel (slot_values m a n) x f -> 0 < f ->
  f <= Z.of_nat n /\ half m (a + 2 * (Z.of_nat n - f)) = 65535.
Proof.
  intros Hs Hf. pose proof (slots_rel_free _ _ _ a Hs) as E. destruct (Z.eqb_spec f 0); [lia|]. rewrite length_slot_values in E.
  split; [|by apply (free_at_half m a n)]. destruct Hs as (used & Ev & _).
  rewrite <- (length_slot_values m a n), Ev, length_app, length_replicate. lia.
Qed.

(** A memory in which nothing but the life cycle, one token, or the slots
    changed stands for a state with the rest unchanged. *)
Lemma stands_slots m m' st l :
  stands ks cs m st -> provisioned ks cs m' ->
  (forall x, x < counters_start ks -> m' x = m x) -> counters_rel m' (counters_start ks) cs l ->
  stands ks cs m' {| s_keys := s_keys st; s_counters := l; s_lcs := s_lcs st |}.
Proof.
  intros [PV Hn Hk Hc Hl] PV' Hx Hr. pose proof (pv_keys _ _ _ PV). split; try done; cbn.
  - intros i k E. rewrite <- (Hk i k E). apply keys_same; try done; [lia|]. intros x Hi. apply Hx.
    apply lookup_lt_Some in E. destruct (key_data_place ks cs m PV (Z.of_nat i) ltac:(lia)) as [E' _].
    rewrite E' in Hi. unfold counters_start, collection_at. lia.
  - rewrite <- Hl. apply lcs_same; try done. intros x Hi. apply Hx. unfold counters_start, collection_at. lia.
Qed.

Lemma stands_key m m' st i k :
  stands ks cs m st -> provisioned ks cs m' -> 0 <= i < ks ->
  (forall x, ~ (key_data_at i <= x < key_data_at i + 4) -> m' x = m x) -> key_is_valid m' i = key_answer k ->
  stands ks cs m' {| s_keys := <[Z.to_nat i := k]> (s_keys st); s_counters := s_counters st; s_lcs := s_lcs st |}.
Proof.
  intros [PV Hn Hk Hc Hl] PV' Hi Hx Hr. pose proof (pv_keys _ _ _ PV).
  destruct (key_data_place ks cs m PV i ltac:(lia)) as [Ei _]. rewrite Ei in Hx. split; try done; cbn.
  - by rewrite length_insert.
  - intros j k' E. apply list_lookup_insert_Some in E as [(<- & <- & _)|(Hne & E)]; [by rewrite Z2Nat.id by lia|].
    rewrite <- (Hk j k' E). apply keys_same; try done; [lia|]. intros x Hj. apply Hx.
    apply lookup_lt_Some in E. destruct (key_data_place ks cs m PV (Z.of_nat j) ltac:(lia)) as [E' _].
    rewrite E' in Hj. lia.
  - apply (counters_rel_same cs m); [apply PV| |done]. intros x Hj. apply Hx. unfold counters_start, collection_at in Hj. lia.
  - rewrite <- Hl. apply lcs_same; try done. intros x Hj. apply Hx. lia.
Qed.

Lemma stands_lcs m m' st c :
  stands ks cs m st -> provisioned ks cs m' ->
  (forall x, ~ (PM_PROVISION_ADDRESS <= x < PM_PROVISION_ADDRESS + 8) -> m' x = m x) ->
  read_life_cycle_state m' true = match c with Some l => (0, Some l) | None => (- EREADLCS, None) end ->
  stands ks cs m' {| s_keys := s_keys st; s_counters := s_counters st; s_lcs := c |}.
Proof.
  intros [PV Hn Hk Hc Hl] PV' Hx Hr. pose proof (pv_keys _ _ _ PV). split; try done; cbn.
  - intros i k E. rewrite <- (Hk i k E). apply keys_same; try done; [lia|]. intros x Hi. apply Hx.
    apply lookup_lt_Some in E. destruct (key_data_place ks cs m PV (Z.of_nat i) ltac:(lia)) as [E' _]. rewrite E' in Hi. lia.
  - apply (counters_rel_same cs m); [apply PV| |done]. intros x Hj. apply Hx. unfold counters_start, collection_at in Hj. lia.
Qed.

(** The outcome of an operation as the abstract state says. *)
Definition agrees (o : op) (st : store_state) (s : device) (c : M Z) : Prop :=
  runs c s
    (fun e s' => torn s' = torn s /\ exists st', op_spec o st = (Some e, st') /\ stands ks cs (mem s') st')
    (fun w m' => match w with
                 | Panic => op_spec o st = (None, st) /\ m' = mem s
                 | PowerLoss => lasts s = O /\ exists st', op_broken o st st' /\ stands ks cs m' st'
                 | _ => False
                 end).

Lemma set_agrees d v st s :
  0 <= v < 65535 -> stands ks cs (mem s) st -> torn_ok s -> agrees (SetCounter d v) st s (set_monotonic_counter d v).
Proof.
  intros Hv ST Ht. assert (Hv' : 0 <= v < 65536) by lia. pose proof ST as [PV Hn Hk Hc Hl]. unfold agrees, set_monotonic_counter. apply runs_reads.
  rewrite (get_counter_spec ks cs _ PV). pose proof (counters_rel_find cs _ _ _ d v (pv_sizes _ _ _ PV) Hc) as HF.
  assert (Hsame : forall e, set_spec d v (s_counters st) = (e, s_counters st) ->
            exists st', op_spec (SetCounter d v) st = (Some e, st') /\ stands ks cs (mem s) st').
  { intros e Ee. exists st. cbn [op_spec]. rewrite (proj2 (Z.eqb_neq v 65535)), Ee by lia. by destruct st. }
  destruct (find_counter (counters_start ks) cs d) as [[q n]|] eqn:Ef; [|split; [done|by apply Hsame]].
  destruct HF as (x & f & Hs & E1 & E2 & HF). cbv beta iota zeta. rewrite (slots_rel_level _ _ _ Hs), (slots_rel_free _ _ _ _ Hs).
  destruct (Z.leb_spec v x); [split; [done|]; apply Hsame; rewrite (surjective_pairing (set_spec _ _ _)), E1, E2; [done|lia]|].
  destruct (Z.eqb_spec f 0); [split; [done|]; apply Hsame; rewrite (surjective_pairing (set_spec _ _ _)), E1, E2; [done|lia]|].
  pose proof (slots_rel_free _ _ _ (q + 4) Hs) as Ea. destruct (Z.eqb_spec f 0) as [?|_]; [lia|].
  destruct (free_slot_place ks cs _ _ _ _ _ PV Ef Ea) as [Hev Hb]. rewrite length_slot_values in *.
  assert (Hf : 0 < f) by (destruct Hs as (? & _ & ? & _); lia).
  destruct (free_half _ _ _ _ _ Hs Hf) as [Hfn Hff]. apply find_counter_place in Ef as (Hr & Hle & Hend & _ & _); [|apply PV].
  set (b := q + 4 + 2 * (Z.of_nat (Z.to_nat n) - f)) in *.
  assert (Hstep : forall m', written (mem s) b 2 (u16 (Z.lnot v)) m' -> exists l1,
    stands ks cs m' {| s_keys := s_keys st; s_counters := l1; s_lcs := s_lcs st |} /\
    set_broken d v (s_counters st) l1 /\ (65535 - half m' b = v -> l1 = snd (set_spec d v (s_counters st)))).
  { intros m' Hw. pose proof (slot_written _ _ _ _ (pv_octets _ _ _ PV) Hff Hv' Hw) as Hwv.
    assert (Hm : forall y, ~ (b <= y < b + 2) -> m' y = mem s y).
    { intros y Hy. specialize (Hw y). by rewrite bool_decide_eq_false_2 in Hw. }
    assert (PV' : provisioned ks cs m').
    { apply (wear_provisioned ks cs (mem s)); [done|]. eapply written_wear; [apply PV|done|]. intros y Hy Hfx. by destruct (Hb y Hy) as [_ []]. }
    pose proof (slots_rel_use _ _ _ (65535 - half m' b) Hs Hf ltac:(lia)) as Hu. rewrite length_slot_values in Hu.
    unfold b in Hu. rewrite <- (slot_values_write _ m') in Hu; [|lia|done]. fold b in Hu.
    destruct (HF m' _ _ ltac:(intros y Hy; apply Hm; lia) Hu ltac:(lia) ltac:(lia)) as (l1 & Hl1 & HE & HB).
    exists l1. split; [apply (stands_slots (mem s)); [done|done|intros y Hy; apply Hm; lia|done]|]. split.
    - apply HB. destruct (_ =? 0); lia.
    - intros Ew. symmetry. apply HE. rewrite Ew. destruct (Z.eqb_spec v 0); [|lia]. destruct Hs as (? & _ & _ & _ & <-).
      pose proof (level_nonneg x0). lia. }
  apply runs_bind, runs_write; [by left|apply PV|done| |].
  - intros s' _ Et Hw Hx. destruct (Hstep _ Hw) as (l1 & Hst & _ & Hl1). split; [done|]. eexists. cbn [op_spec].
    rewrite (proj2 (Z.eqb_neq v 65535)), (surjective_pairing (set_spec _ _ _)), E1 by lia. split; [done|].
    rewrite <- Hl1; [done|]. apply (slot_stored (mem s)); [apply PV|exact Hff|exact Hv'|exact Hx].
  - intros m' H0' Hw. destruct (Hstep _ Hw) as (l1 & Hst & Hbr & _). split; [done|]. eexists. by split; [|exact Hst].
Qed.

Lemma key_in_range m i : provisioned ks cs m -> key_is_valid m i <> Some false -> i < ks.
Proof.
  intros PV Ev. unfold key_is_valid in Ev. rewrite (num_keys_read ks cs _ PV) in Ev. destruct (Z.leb_spec ks i); [done|lia].
Qed.

(** The token of a key after its invalidation. *)
Lemma token_cleared m i :
  provisioned ks cs m -> 0 <= i < ks -> key_is_valid m i = Some true ->
  half m (key_data_at i) = 65535 /\
  65536 * half m (key_data_at i + 2) = Z.lor INVALID_VAL (u32 (Z.shiftl i TOKEN_IDX_OFFSET)).
Proof.
  intros PV Hi. unfold key_is_valid. rewrite (num_keys_read _ _ _ PV). destruct (Z.leb_spec ks i); [lia|].
  rewrite (token_read ks cs m) by done. destruct (_ =? Z.lor INVALID_VAL _); [by intros [=]|].
  destruct (_ =? Z.lor VALID_VAL _) eqn:E; [intros _|by intros [=]]. apply Z.eqb_eq in E.
  pose proof (pv_keys _ _ _ PV). unfold MAX_NUM_PUBLIC_KEYS in *.
  pose proof (range_check (fun i => Z.lor VALID_VAL (u32 (Z.shiftl i TOKEN_IDX_OFFSET)) =?
    65535 + Z.lor INVALID_VAL (u32 (Z.shiftl i TOKEN_IDX_OFFSET))) 0 16 ltac:(by vm_compute) i ltac:(lia)) as E2.
  apply Z.eqb_eq in E2. rewrite E2 in E. pose proof (invalid_token i ltac:(lia)) as Hd.
  pose proof (half_range m (key_data_at i) (pv_octets _ _ _ PV)).
  assert (Em : half m (key_data_at i) = 65535).
  { apply (f_equal (fun z => z mod 65536)) in E. rewrite (Z.mul_comm 65536), Z_mod_plus_full, Z.mod_small in E by lia.
    rewrite Z.add_mod, Hd in E by lia. exact E. }
  split; [done|]. lia.
Qed.

Lemma token_after m m' i :
  provisioned ks cs m -> provisioned ks cs m' -> 0 <= i < ks -> key_is_valid m i = Some true ->
  written m (key_data_at i) 4 INVALID_WRITE_VAL m' ->
  exists k, key_is_valid m' i = key_answer k /\ (half m' (key_data_at i) = 0 -> k = KeyInvalid).
Proof.
  intros PV PV' Hi Hv Hw. destruct (token_cleared m i PV Hi Hv) as [E1 E2].
  assert (Hh : half m' (key_data_at i + 2) = half m (key_data_at i + 2)).
  { assert (Hx : forall x, x = key_data_at i + 2 \/ x = key_data_at i + 3 -> m' x = m x).
    { intros x Hx. specialize (Hw x). rewrite bool_decide_eq_true_2 in Hw by lia. pose proof (pv_octets _ _ _ PV x).
      replace (octet INVALID_WRITE_VAL (x - key_data_at i)) with (Z.ones 8) in Hw.
      - rewrite Z.land_ones, Z.mod_small in Hw by lia. lia.
      - destruct Hx as [->| ->]; rewrite Z.add_simpl_l; reflexivity. }
    apply half_same; apply Hx; lia. }
  unfold key_is_valid. rewrite (num_keys_read _ _ _ PV'). destruct (Z.leb_spec ks i); [lia|].
  rewrite (token_read ks cs m') by done. rewrite Hh, E2.
  destruct (_ =? Z.lor INVALID_VAL _) eqn:Et; [exists KeyInvalid; done|].
  destruct (_ =? Z.lor VALID_VAL _); [exists KeyValid|exists KeyBroken]; (split; [done|]); intros E0; rewrite E0, Z.add_0_l, Z.eqb_refl in Et; done.
Qed.

Lemma token_write_provisioned m m' i :
  provisioned ks cs m -> 0 <= i < ks -> written m (key_data_at i) 4 INVALID_WRITE_VAL m' -> provisioned ks cs m'.
Proof.
  intros PV Hi Hw. destruct (key_data_place ks cs _ PV i ltac:(lia)) as [Ek _].
  apply (wear_provisioned ks cs m); [done|]. eapply written_wear; [apply PV|done|].
  intros x Hx (_ & Hns & _). specialize (Hns i ltac:(lia)). rewrite Ek in *.
  assert (x = PM_PROVISION_ADDRESS + 52 + 20 * i + 2 \/ x = PM_PROVISION_ADDRESS + 52 + 20 * i + 3) as [->| ->] by lia;
    rewrite Z.add_simpl_l; reflexivity.
Qed.

Lemma token_zero m m' a :
  (forall x, m' x = if bool_decide (a <= x < a + 4) then Z.land (m x) (octet INVALID_WRITE_VAL (x - a)) else m x) ->
  half m' a = 0.
Proof.
  intros Hx. unfold half. rewrite !Hx, !bool_decide_eq_true_2 by lia. rewrite Z.sub_diag, Z.add_simpl_l.
  change (octet INVALID_WRITE_VAL 0) with 0. change (octet INVALID_WRITE_VAL 1) with 0. by rewrite !Z.land_0_r.
Qed.

Lemma invalidate_done i s :
  0 <= i -> provisioned ks cs (mem s) -> torn_ok s ->
  runs (invalidate_public_key i) s (fun _ s' => key_is_valid (mem s') i = Some false) (fun w _ => w = Panic \/ w = PowerLoss).
Proof.
  intros Hi PV Ht. unfold invalidate_public_key. apply runs_panics; [|by left]. intros [|] Ev; [|done].
  pose proof (key_in_range _ i PV ltac:(by rewrite Ev)) as Hlt. destruct (key_data_place ks cs _ PV i ltac:(lia)) as [_ Hev].
  apply runs_write; [by right|apply PV|done| |by right]. intros s' _ _ Hw Hx.
  destruct (token_after _ (mem s') i PV (token_write_provisioned _ _ i PV ltac:(lia) Hw) ltac:(lia) Ev Hw) as (k & -> & Hk).
  by rewrite Hk by (by apply (token_zero (mem s))).
Qed.

Lemma invalidate_agrees i st s :
  0 <= i -> stands ks cs (mem s) st -> torn_ok s -> agrees (InvalidateKey i) st s (op_run (InvalidateKey i)).
Proof.
  intros Hi ST Ht. pose proof ST as [PV Hn Hk Hc Hl]. unfold agrees, op_run, invalidate_public_key.
  apply runs_bind, runs_panics.
  - intros [|] Ev.
    + pose proof (key_in_range _ i PV ltac:(by rewrite Ev)) as Hlt.
      destruct (key_data_place ks cs _ PV i ltac:(lia)) as [Ek Hev].
      destruct (lookup_lt_is_Some_2 (s_keys st) (Z.to_nat i) ltac:(lia)) as [k0 Ek0].
      assert (k0 = KeyValid) as ->.
      { specialize (Hk _ _ Ek0). rewrite Z2Nat.id, Ev in Hk by lia. by destruct k0. }
      assert (Hstep : forall m', written (mem s) (key_data_at i) 4 INVALID_WRITE_VAL m' -> exists k,
        stands ks cs m' {| s_keys := <[Z.to_nat i := k]> (s_keys st); s_counters := s_counters st; s_lcs := s_lcs st |} /\
        (half m' (key_data_at i) = 0 -> k = KeyInvalid)).
      { intros m' Hw. pose proof (token_write_provisioned _ _ i PV ltac:(lia) Hw) as PV'.
        destruct (token_after _ m' i PV PV' ltac:(lia) Ev Hw) as (k & Ea & Eh). exists k. split; [|done].
        apply (stands_key (mem s)); [done|done|lia| |done]. intros x Hx. specialize (Hw x). by rewrite bool_decide_eq_false_2 in Hw. }
      apply runs_write; [by right|apply PV|done| |].
      * intros s' _ Et Hw Hx. destruct (Hstep _ Hw) as (k & Hst & Hk'). split; [done|]. eexists. cbn. rewrite Ek0. split; [done|].
        by rewrite Hk' in Hst by (by apply (token_zero (mem s))).
      * intros m' H0' Hw. destruct (Hstep _ Hw) as (k & Hst & _). split; [done|]. eexists. split; [|exact Hst].
        split; [done|]. split; [done|]. split; [done|]. by eexists.
    + split; [done|]. exists st. split; [|done]. cbn. destruct (s_keys st !! Z.to_nat i) as [k|] eqn:E; [|done].
      specialize (Hk _ _ E). rewrite Z2Nat.id, Ev in Hk by lia. by destruct k.
  - intros Ev. split; [|done]. pose proof (key_in_range _ i PV ltac:(by rewrite Ev)) as Hlt.
    destruct (lookup_lt_is_Some_2 (s_keys st) (Z.to_nat i) ltac:(lia)) as [k0 Ek0]. cbn. rewrite Ek0.
    specialize (Hk _ _ Ek0). rewrite Z2Nat.id, Ev in Hk by lia. by destruct k0.
Qed.

Lemma lcs_of_inv p s d l : lcs_of p s d = (0, Some l) ->
  match l with
  | BL_STORAGE_LCS_UNKNOWN => False
  | BL_STORAGE_LCS_ASSEMBLY => p = 65535 /\ s = 65535 /\ d = 65535
  | BL_STORAGE_LCS_PROVISIONING => p = 0 /\ s = 65535 /\ d = 65535
  | BL_STORAGE_LCS_SECURED => p = 0 /\ s = 0 /\ d = 65535
  | BL_STORAGE_LCS_DECOMMISSIONED => p = 0 /\ s = 0 /\ d = 0
  end.
Proof.
  unfold lcs_of.
  destruct (Z.eqb_spec p 65535), (Z.eqb_spec p 0), (Z.eqb_spec s 65535), (Z.eqb_spec s 0); try lia; cbn; try done;
  destruct (Z.eqb_spec d 65535), (Z.eqb_spec d 0); try lia; cbn; try done; intros [= <-]; lia.
Qed.

(** Entering the next state clears an entry, in full or in part. *)
Lemma lcs_set_agrees st s a c l :
  stands ks cs (mem s) st -> torn_ok s -> s_lcs st = Some c -> life_spec (Some c) l = (0, Some l) ->
  (a = lcs_provisioning_at \/ a = lcs_secure_at \/ a = lcs_decommissioned_at) ->
  (forall m', (forall x, ~ (a <= x < a + 2) -> m' x = mem s x) -> 0 <= half m' a < 65536 -> provisioned ks cs m' ->
     read_life_cycle_state m' true =
       if half m' a =? 65535 then (0, Some c) else if half m' a =? 0 then (0, Some l) else (- EREADLCS, None)) ->
  agrees (UpdateLife l) st s (bl_storage_lcs_set a STATE_ENTERED).
Proof.
  intros ST Ht Ec El Ha Hread. pose proof ST as [PV Hn Hk Hc Hl]. pose proof (base_even ks cs _ PV) as Hev.
  unfold lcs_provisioning_at, lcs_secure_at, lcs_decommissioned_at in Ha.
  assert (Hstep : forall m', written (mem s) a 2 STATE_ENTERED m' -> exists r,
    stands ks cs m' {| s_keys := s_keys st; s_counters := s_counters st; s_lcs := r |} /\
    (r = None \/ r = Some c \/ r = Some l) /\ (half m' a = 0 -> r = Some l)).
  { intros m' Hw. assert (PV' : provisioned ks cs m').
    { apply (wear_provisioned ks cs (mem s)); [done|]. eapply written_wear; [apply PV|done|]. intros x Hx (Hr & _). lia. }
    assert (Hm : forall x, ~ (a <= x < a + 2) -> m' x = mem s x).
    { intros x Hx. specialize (Hw x). by rewrite bool_decide_eq_false_2 in Hw. }
    pose proof (half_range m' a (pv_octets _ _ _ PV')) as Hr. specialize (Hread m' Hm Hr PV').
    exists (if half m' a =? 65535 then Some c else if half m' a =? 0 then Some l else None).
    split; [apply (stands_lcs (mem s)); try done|].
    - intros x Hx. apply Hm. lia.
    - rewrite Hread. case (half m' a =? 65535); [done|]. by case (half m' a =? 0).
    - split; [case (half m' a =? 65535); [tauto|case (half m' a =? 0); tauto]|]. by intros ->. }
  apply runs_bind, runs_write; [|apply PV|done| |].
  - left. split; [done|]. split; [done|]. destruct Ha as [->|[->| ->]]; [done|by apply (even_plus _ 1)|by apply (even_plus _ 3)].
  - intros s' _ Et Hw Hx. destruct (Hstep _ Hw) as (r & Hst & _ & Hr). split; [done|]. eexists. cbn [op_spec].
    rewrite Ec, El. split; [done|]. rewrite Hr in Hst; [done|]. unfold half. rewrite !Hx, !bool_decide_eq_true_2 by lia.
    unfold octet, STATE_ENTERED. by rewrite !Z.shiftr_0_l, !Z.land_0_r.
  - intros m' H0' Hw. destruct (Hstep _ Hw) as (r & Hst & Hr & _). split; [done|]. eexists. split; [|exact Hst].
    split; [done|]. split; [done|]. cbn. rewrite Ec, El. by split.
Qed.

Lemma life_agrees l st s :
  stands ks cs (mem s) st -> torn_ok s -> agrees (UpdateLife l) st s (update_life_cycle_state l).
Proof.
  intros ST Ht. pose proof ST as [PV Hn Hk Hc Hl].
  assert (Hsame : forall e, life_spec (s_lcs st) l = (e, s_lcs st) -> agrees (UpdateLife l) st s (mret e)).
  { intros e E. split; [done|]. exists st. cbn [op_spec]. rewrite E. by destruct st. }
  unfold update_life_cycle_state. case_bool_decide as Eu; [subst l; by apply Hsame|].
  apply runs_reads. rewrite Hl. destruct (s_lcs st) as [c|] eqn:Ec; [|by apply Hsame; destruct l].
  rewrite (lcs_read ks cs _ PV) in Hl. apply lcs_of_inv in Hl. cbn iota.
  destruct c; [done|..]; destruct l; try done; try (by apply Hsame);
    apply (lcs_set_agrees st s _ _ _ ST Ht Ec); try done; try tauto; intros m' Hm Hr PV'; rewrite (lcs_read ks cs _ PV').
  - rewrite (half_same (mem s) m' (PM_PROVISION_ADDRESS + 2)), (half_same (mem s) m' (PM_PROVISION_ADDRESS + 6))
      by (apply Hm; unfold lcs_provisioning_at; lia).
    destruct Hl as (_ & -> & ->). unfold lcs_of, lcs_provisioning_at. case (half m' _ =? 65535); [done|]. by case (half m' _ =? 0).
  - unfold lcs_secure_at in *. rewrite (half_same (mem s) m' PM_PROVISION_ADDRESS), (half_same (mem s) m' (PM_PROVISION_ADDRESS + 6))
      by (apply Hm; lia).
    destruct Hl as (-> & _ & ->). unfold lcs_of. cbn. case (half m' _ =? 65535); [done|]. by case (half m' _ =? 0).
  - unfold lcs_decommissioned_at in *. rewrite (half_same (mem s) m' PM_PROVISION_ADDRESS), (half_same (mem s) m' (PM_PROVISION_ADDRESS + 2))
      by (apply Hm; lia).
    destruct Hl as (-> & -> & _). unfold lcs_of. cbn. case (half m' _ =? 65535); [done|]. by case (half m' _ =? 0).
Qed.

Lemma op_agrees o st s : op_documented o -> stands ks cs (mem s) st -> torn_ok s -> agrees o st s (op_run o).
Proof.
  destruct o; intros Ho ST Ht; [by apply set_agrees|by apply invalidate_agrees|by apply life_agrees].
Qed.

End Refines.
(** The counter of a description in the abstract state. *)
Fixpoint get_spec (d : Z) (l : list (Z * Z * Z)) : Z * option Z :=
  match l with
  | [] => (- errno_num EINVAL, None)
  | (d', x, f) :: l => if d' =? d then (0, Some x) else get_spec d l
  end.

Lemma counters_rel_get ks cs m l d :
  provisioned ks cs m -> counters_rel m (counters_start ks) cs l -> get_monotonic_counter m d true = get_spec d l.
Proof.
  intros PV. rewrite (get_monotonic_counter_spec ks cs m PV). unfold counter_value. generalize (counters_start ks). clear PV.
  revert l. induction cs as [|[d1 n] cs IH]; intros [|[[d2 x] f] l] p; cbn; try done.
  intros (-> & Hs & Hr). destruct (d1 =? d); [|by apply IH]. cbn. by rewrite (slots_rel_level _ _ _ Hs).
Qed.

(** Everything that may happen to the storage: operations of the bootloader
    and of MCUboot, with the supply failing at any of their writes, and
    changes of the memory outside of the storage. *)
Inductive history `{Fih} (ks : Z) (cs : list (Z * Z)) : memory -> memory -> Prop :=
  | history_nil m : history ks cs m m
  | history_op m1 m2 o s : mem s = m1 -> torn_ok s -> op_ok o -> ends (op_run o s) m2 ->
      forall m3, history ks cs m2 m3 -> history ks cs m1 m3
  | history_mcuboot m1 m2 image cnt s : mem s = m1 -> torn_ok s -> ends (boot_nv_security_counter_update image cnt s) m2 ->
      forall m3, history ks cs m2 m3 -> history ks cs m1 m3
  | history_outside m1 m2 : octets_ok m2 -> (forall x, PM_PROVISION_ADDRESS <= x < storage_end ks cs -> m2 x = m1 x) ->
      forall m3, history ks cs m2 m3 -> history ks cs m1 m3.

Lemma outside_wear ks cs m1 m2 :
  provisioned ks cs m1 -> octets_ok m2 ->
  (forall x, PM_PROVISION_ADDRESS <= x < storage_end ks cs -> m2 x = m1 x) -> wear ks cs m1 m2.
Proof.
  intros PV Ho Hx. split; [done| |].
  - intros x Hr. rewrite Hx by done. lia.
  - intros x (Hr & _). apply Hx. lia.
Qed.

Lemma keeps_ends {A} ks cs (c : M A) s m' :
  keeps ks cs (fun _ => False) c -> provisioned ks cs (mem s) -> torn_ok s -> ends (c s) m' -> wear ks cs (mem s) m'.
Proof. intros Hk PV Ht. specialize (Hk s PV Ht). unfold runs in Hk. destruct (c s); cbn; intros <-; tauto. Qed.

Lemma op_keeps ks cs P o : op_ok o -> keeps ks cs P (op_run o).
Proof.
  destruct o; cbn; intros Ho.
  - apply set_monotonic_counter_keeps.
  - apply keeps_bind; [by apply invalidate_public_key_keeps|]. intros ?. apply mem_keeps_ret.
  - apply update_life_cycle_state_keeps.
Qed.

Lemma history_wear `{Fih} ks cs m m' : provisioned ks cs m -> history ks cs m m' -> wear ks cs m m'.
Proof.
  intros PV Hh. induction Hh as [m|m1 m2 o s <- Ht Ho He m3 _ IH|m1 m2 image cnt s <- Ht He m3 _ IH|m1 m2 Ho Hx m3 _ IH].
  - apply wear_refl, PV.
  - pose proof (keeps_ends _ _ _ _ _ (op_keeps ks cs _ o Ho) PV Ht He) as W.
    eapply wear_trans; [exact W|]. apply IH. by apply (wear_provisioned _ _ _ _ PV W).
  - pose proof (keeps_ends _ _ _ _ _ (boot_nv_update_keeps ks cs _ image cnt) PV Ht He) as W.
    eapply wear_trans; [exact W|]. apply IH. by apply (wear_provisioned _ _ _ _ PV W).
  - pose proof (outside_wear _ _ _ _ PV Ho Hx) as W.
    eapply wear_trans; [exact W|]. apply IH. by apply (wear_provisioned _ _ _ _ PV W).
Qed.

End Layout.

(** C19: The storage of a provisioned device never goes back. Whatever
    operations are run on it and wherever the supply fails during them, no
    counter has a lower value afterwards, an invalidated key stays invalid, and
    the life cycle, if it can be read, is not earlier; the layout stays. *)
Theorem storage_never_goes_back `{Nvmc, ProvisionConfig, Fih} ks cs m m' :
  provisioned ks cs m -> history ks cs m m' ->
  provisioned ks cs m' /\
  (forall d v, get_monotonic_counter m d true = (0, Some v) ->
     exists v', get_monotonic_counter m' d true = (0, Some v') /\ v <= v') /\
  (forall i, 0 <= i -> key_is_valid m i = Some false -> key_is_valid m' i = Some false) /\
  (forall l l', read_life_cycle_state m true = (0, Some l) -> read_life_cycle_state m' true = (0, Some l') ->
     lcs_num l <= lcs_num l').
Proof.
  intros PV Hh. pose proof (history_wear _ _ _ _ PV Hh) as W. pose proof (wear_provisioned _ _ _ _ PV W) as PV'.
  split; [done|]. split; [|split].
  - intros d v. rewrite (get_monotonic_counter_spec _ _ _ PV), (get_monotonic_counter_spec _ _ _ PV').
    destruct (counter_value ks cs m d) as [x|] eqn:E; [intros [= <-]|by intros [=]].
    destruct (wear_counter _ _ _ _ _ _ PV W E) as (v' & -> & Hle). by exists v'.
  - intros i Hi. by apply (wear_key ks cs).
  - intros l l'. by apply (wear_lcs ks cs m m').
Qed.

(** C18: The storage refines an abstract state of keys, counters with a value
    and a number of free slots, and a life cycle: the reading functions give
    that state, every operation answers and changes it as specified, and an
    operation that a failing supply breaks off leaves a counter between the old
    and the new value, a token of any kind, or an old, new or unreadable life
    cycle, and nothing else changed. The specification is the one of the header,
    which refuses to set a counter to 0xFFFF; the code does not, so that this
    operation is excluded. *)
Theorem storage_refines `{Nvmc, ProvisionConfig} ks cs s st o :
  stands ks cs (mem s) st -> torn_ok s -> op_documented o ->
  agrees ks cs o st s (op_run o) /\
  (forall d, get_monotonic_counter (mem s) d true = get_spec d (s_counters st)) /\
  (forall i, 0 <= i -> key_is_valid (mem s) i = default (Some false) (key_answer <$> s_keys st !! Z.to_nat i)) /\
  read_life_cycle_state (mem s) true = match s_lcs st with Some l => (0, Some l) | None => (- EREADLCS, None) end.
Proof.
  intros ST Ht Ho. split; [by apply op_agrees|]. destruct ST as [PV Hn Hk Hc Hl]. split; [|split; [|done]].
  - intros d. by apply (counters_rel_get ks cs).
  - intros i Hi. destruct (s_keys st !! Z.to_nat i) as [k|] eqn:E.
    + apply Hk in E. by rewrite Z2Nat.id in E.
    + apply lookup_ge_None in E. unfold key_is_valid. rewrite (num_keys_read ks cs _ PV).
      by destruct (Z.leb_spec ks i); [|lia].
Qed.

(** ** An example *)

Module StorageDemo.

#[export] Instance nvmc_reference : Nvmc := {|
  nrfx_nvmc_otp_halfword_read := half;
  nrfx_nvmc_uicr_word_read := word;
  nrfx_nvmc_halfword_write := fun m a v x => if bool_decide (a <= x < a + 2) then Z.land (m x) (octet v (x - a)) else m x;
  nrfx_nvmc_word_write := fun m a v x => if bool_decide (a <= x < a + 4) then Z.land (m x) (octet v (x - a)) else m x;
  halfword_read_law m a _ := eq_refl;
  word_read_law m a _ := eq_refl;
  halfword_write_law m a v x _ := eq_refl;
  word_write_law m a v x _ := eq_refl;
|}.

#[export] Instance provision : ProvisionConfig := {| PM_PROVISION_ADDRESS := 0x8000 |}.

#[export] Program Instance fih_plain : Fih := {|
  fih_int := Z; FIH_SUCCESS := 0; FIH_FAILURE := 1; fih_not_eq x y := negb (x =? y);
  fih_int_encode v := v; fih_int_decode v := v; BOOT_EBADARGS := 7; BOOT_EBADSTATUS := 5;
|}.
Solve All Obligations with done.

(** Two keys, a counter with two slots and one with one. *)
Definition area : list Z :=
  replicate 8 255 ++ replicate 32 1 ++ [0; 0; 1; 0] ++ [0; 0; 2; 0] ++ [2; 0; 0; 0]
  ++ [255; 255; 0xFA; 0x50] ++ replicate 16 3 ++ [255; 255; 0xFA; 0x51] ++ replicate 16 4
  ++ [1; 0; 2; 0] ++ [1; 0; 2; 0] ++ replicate 4 255 ++ [2; 0; 1; 0] ++ replicate 2 255.

Definition demo_mem : memory := fun x => if bool_decide (0x8000 <= x) then zth area (x - 0x8000) else 0.

Definition demo_counters : list (Z * Z) := [(1, 2); (2, 1)].

Definition on (m : memory) (k : nat) : device := {| mem := m; lasts := k; torn := fun m _ _ _ => m |}.

Lemma on_torn m k : torn_ok (on m k).
Proof.
  intros m0 a n v Ho x. cbn. case_bool_decide; [|done]. pose proof (land_range (m0 x) (octet v (x - a)) ltac:(apply Ho)). lia.
Qed.

Lemma demo_octets : octets_ok demo_mem.
Proof.
  intros x. unfold demo_mem. case_bool_decide; [|lia]. apply (zth_Forall (fun v => 0 <= v < 256)); [lia|].
  apply (bool_decide_unpack _). vm_compute. exact I.
Qed.

Lemma demo_provisioned : provisioned 2 demo_counters demo_mem.
Proof.
  split; [apply demo_octets|by vm_compute|by vm_compute|by vm_compute|by vm_compute|by vm_compute|by vm_compute|by vm_compute|].
  repeat constructor; cbn; lia.
Qed.

Definition demo_state : store_state :=
  {| s_keys := [KeyValid; KeyValid]; s_counters := [(1, 0, 2); (2, 0, 1)]; s_lcs := Some BL_STORAGE_LCS_ASSEMBLY |}.

Lemma demo_stands : stands 2 demo_counters demo_mem demo_state.
Proof.
  split; try done.
  - apply demo_provisioned.
  - intros [|[|i]] k [= <-]; by vm_compute.
  - cbn. split; [done|]. split; [exists []; by split_and!; [vm_compute|..]|].
    split; [done|]. split; [exists []; by split_and!; [vm_compute|..]|done].
Qed.

Lemma storage_refines_witness :
  agrees 2 demo_counters (SetCounter 1 7) demo_state (on demo_mem 1) (op_run (SetCounter 1 7)) /\
  get_monotonic_counter demo_mem 1 true = (0, Some 0).
Proof.
  pose proof (storage_refines 2 demo_counters (on demo_mem 1) demo_state (SetCounter 1 7) demo_stands (on_torn _ _)
    ltac:(cbn; lia)) as (Ha & Hc & _). split; [exact Ha|]. exact (Hc 1).
Defined.

(** Setting a counter, invalidating a key while the supply fails, and a second
    setting that is refused. *)
Definition after_op (o : op) (k : nat) (m : memory) : memory :=
  match op_run o (on m k) with Go _ s => mem s | Stop _ m => m end.

Definition demo_end : memory := after_op (SetCounter 1 6) 1 (after_op (InvalidateKey 0) 0 (after_op (SetCounter 1 7) 1 demo_mem)).

Lemma history_after o k m m' :
  op_ok o -> history 2 demo_counters (after_op o k m) m' -> history 2 demo_counters m m'.
Proof.
  intros Ho. apply (history_op 2 demo_counters m (after_op o k m) o (on m k) eq_refl (on_torn _ _) Ho).
  unfold after_op. by destruct (op_run o (on m k)).
Qed.

Lemma demo_history : history 2 demo_counters demo_mem demo_end.
Proof.
  apply (history_after (SetCounter 1 7) 1); [cbn; lia|]. apply (history_after (InvalidateKey 0) 0); [cbn; lia|].
  apply (history_after (SetCounter 1 6) 1); [cbn; lia|]. apply history_nil.
Qed.

Lemma storage_never_goes_back_witness :
  exists v', get_monotonic_counter demo_end 1 true = (0, Some v') /\ 0 <= v'.
Proof.
  destruct (storage_never_goes_back 2 demo_counters demo_mem demo_end demo_provisioned demo_history) as (_ & Hc & _).
  apply (Hc 1 0). by vm_compute.
Defined.

(** The header says that the value 0xFFFF is refused. It is accepted. *)
Lemma highest_value_accepted :
  match op_run (SetCounter 1 0xFFFF) (on demo_mem 1) with
  | Go e s => e = 0 /\ get_monotonic_counter (mem s) 1 true = (0, Some 0xFFFF)
  | _ => False
  end.
Proof. by vm_compute. Qed.

(** The header gives -EFAULT for an index that is too large. *)
Lemma missing_key_invalid i : 2 <= i -> public_key_data_read demo_mem i = Some (- errno_num EINVAL, []).
Proof.
  intros Hi. unfold public_key_data_read, key_is_valid. change (num_public_keys_read demo_mem) with 2.
  by destruct (Z.leb_spec 2 i); [|lia].
Qed.

(** An invalidation that breaks off leaves a token on which every later use of
    the key panics. *)
Lemma broken_token_panics :
  let s := {| mem := demo_mem; lasts := 0; torn := fun m a _ _ x => if bool_decide (x = a) then 0 else m x |} in
  match op_run (InvalidateKey 0) s with
  | Stop PowerLoss m => verify_public_keys m = None /\ public_key_data_read m 0 = None
  | _ => False
  end.
Proof. by vm_compute. Qed.

End StorageDemo.
