(* ===== verification/BlBoot.v ===== *)
(** The immutable bootloader over its storage: the firmware information and
    its interfaces (include/fw_info_bare.h, subsys/fw_info), the root of trust
    (subsys/bootloader/bl_crypto with the Oberon library), the validation of a
    firmware (subsys/bootloader/bl_validation), the start of it
    (subsys/bootloader/bl_boot) and the program samples/bootloader/src/main.c. *)
From stdpp Require Import prelude list.
From Stdlib Require Import ZArith Lia.
From S2P Require Import Prelude BlStorage.

Open Scope Z_scope.

(** The octets of the memory from an address on. *)
Definition octets (m : memory) (a n : Z) : list Z := (fun i => m (u32 (a + i))) <$> seqZ 0 n.

(** A load of 32 bits through a pointer. *)
Definition load (m : memory) (a : Z) : Z := word m (u32 a).

(** ** Firmware information *)

Module FwInfo.

Definition CONFIG_FW_INFO_MAGIC_LEN := 12.
Definition fw_info_allowed_offsets : list Z := [0; 0x200; 0x400; 0x600; 0x800; 0xe00; 0x1000].
Definition INVALID_VAL := 0xFFFF0000.

(** What the build gives: the magic numbers as octets, the value that marks a
    valid firmware and the images that the linker lists; the region of the RAM
    is that of the device. *)
Class FwConfig := {
  FIRMWARE_INFO_MAGIC : list Z;
  EXT_API_MAGIC : list Z;
  VALIDATION_INFO_MAGIC : list Z;
  CONFIG_FW_INFO_VALID_VAL : Z;
  fw_info_images : list Z;
  ram_start : Z;
  ram_end : Z;
  firmware_info_magic_law : zlen FIRMWARE_INFO_MAGIC = CONFIG_FW_INFO_MAGIC_LEN;
  ext_api_magic_law : zlen EXT_API_MAGIC = CONFIG_FW_INFO_MAGIC_LEN;
  validation_info_magic_law : zlen VALIDATION_INFO_MAGIC = CONFIG_FW_INFO_MAGIC_LEN;
  valid_val_law : Z.land INVALID_VAL CONFIG_FW_INFO_VALID_VAL <> CONFIG_FW_INFO_VALID_VAL;
}.

(** The members of [struct fw_info] at an address. *)
Definition fw_info_total_size (m : memory) (p : Z) : Z := load m (p + 12).
Definition fw_info_size (m : memory) (p : Z) : Z := load m (p + 16).
Definition fw_info_version (m : memory) (p : Z) : Z := load m (p + 20).
Definition fw_info_address (m : memory) (p : Z) : Z := load m (p + 24).
Definition fw_info_boot_address (m : memory) (p : Z) : Z := load m (p + 28).
Definition fw_info_valid_at (p : Z) : Z := u32 (p + 32).
Definition fw_info_valid (m : memory) (p : Z) : Z := load m (p + 32).
Definition fw_info_ext_api_num (m : memory) (p : Z) : Z := load m (p + 52).
Definition fw_info_ext_api_request_num (m : memory) (p : Z) : Z := load m (p + 56).
Definition fw_info_ext_apis_at (p : Z) : Z := u32 (p + 60).

(** Those of [struct fw_info_ext_api] and [struct fw_info_ext_api_request]. *)
Definition ext_api_len (m : memory) (e : Z) : Z := load m (e + 12).
Definition ext_api_id (m : memory) (e : Z) : Z := load m (e + 16).
Definition ext_api_flags (m : memory) (e : Z) : Z := load m (e + 20).
Definition ext_api_version (m : memory) (e : Z) : Z := load m (e + 24).
Definition ext_api_max_version (m : memory) (e : Z) : Z := load m (e + 28).
Definition ext_api_required (m : memory) (e : Z) : Z := load m (e + 32).
Definition ext_api_ptr (m : memory) (e : Z) : Z := load m (e + 36).

Section Info.
Context `{FwConfig}.

(** Pointers are addresses, [None] is NULL. *)
Definition fw_info_check (m : memory) (fw_info_addr : Z) : option Z :=
  if bool_decide (octets m fw_info_addr CONFIG_FW_INFO_MAGIC_LEN = FIRMWARE_INFO_MAGIC) then Some fw_info_addr else None.

Fixpoint fw_info_search (m : memory) (firmware_address : Z) (offsets : list Z) : option Z :=
  match offsets with
  | [] => None
  | o :: offsets =>
      match fw_info_check m (u32 (firmware_address + o)) with
      | Some finfo => Some finfo
      | None => fw_info_search m firmware_address offsets
      end
  end.

Definition fw_info_find (m : memory) (firmware_address : Z) : option Z :=
  fw_info_search m firmware_address fw_info_allowed_offsets.

Definition fw_info_ext_api_check (m : memory) (ext_api_addr : Z) : option Z :=
  if bool_decide (octets m ext_api_addr CONFIG_FW_INFO_MAGIC_LEN = EXT_API_MAGIC) then Some ext_api_addr else None.

Definition NEXT_EXT_ABI (m : memory) (e : Z) : Z := u32 (e + ext_api_len m e).

Definition ext_api_satisfies_req (m : memory) (ext_api ext_api_req : Z) : bool :=
  let req_id := ext_api_id m ext_api_req in
  let req_flags := ext_api_flags m ext_api_req in
  let req_min_version := ext_api_version m ext_api_req in
  let req_max_version := ext_api_max_version m ext_api_req in
  (ext_api_id m ext_api =? req_id)
  && (req_min_version <=? ext_api_version m ext_api)
  && (ext_api_version m ext_api <? req_max_version)
  && (Z.land (ext_api_flags m ext_api) req_flags =? req_flags).

Fixpoint skip_loop (m : memory) (k : nat) (ext_api : Z) : Z :=
  match k with O => ext_api | S k => skip_loop m k (NEXT_EXT_ABI m ext_api) end.

Definition skip_ext_apis (m : memory) (fw_info : Z) : Z :=
  skip_loop m (Z.to_nat (fw_info_ext_api_num m fw_info)) (fw_info_ext_apis_at fw_info).

Fixpoint ext_api_search (m : memory) (k : nat) (ext_api ext_api_req : Z) : option Z :=
  match k with
  | O => None
  | S k =>
      if ext_api_satisfies_req m ext_api ext_api_req then Some ext_api
      else ext_api_search m k (NEXT_EXT_ABI m ext_api) ext_api_req
  end.

Fixpoint image_search (m : memory) (images : list Z) (ext_api_req skip_fw_info : Z) : option Z :=
  match images with
  | [] => None
  | image :: images =>
      match fw_info_find m image with
      | None => image_search m images ext_api_req skip_fw_info
      | Some fw_info =>
          if negb (fw_info_valid m fw_info =? CONFIG_FW_INFO_VALID_VAL) || (fw_info =? skip_fw_info)
          then image_search m images ext_api_req skip_fw_info
          else
            match ext_api_search m (Z.to_nat (fw_info_ext_api_num m fw_info)) (fw_info_ext_apis_at fw_info) ext_api_req with
            | Some ext_api => Some ext_api
            | None => image_search m images ext_api_req skip_fw_info
            end
      end
  end.

Definition find_ext_api (m : memory) (ext_api_req skip_fw_info : Z) : option Z :=
  image_search m fw_info_images ext_api_req skip_fw_info.

(** A store of a pointer. Outside of the RAM the bus refuses it. *)
Definition store (a v : Z) : M unit := fun s =>
  if bool_decide (ram_start <= a /\ a + 4 <= ram_end)
  then Go tt {| mem := fun x => if bool_decide (a <= x < a + 4) then octet v (x - a) else mem s x;
                lasts := lasts s; torn := torn s |}
  else Stop Undefined (mem s).

Fixpoint provide_loop (k : nat) (ext_api_req fw_info : Z) (provide : bool) : M bool :=
  match k with
  | O => mret true
  | S k =>
      reads (fun m => find_ext_api m ext_api_req fw_info) ≫= fun new_ext_api =>
      reads (fun m => ext_api_ptr m ext_api_req) ≫= fun ext_api =>
      (if provide then store ext_api (default 0 new_ext_api) else mret tt) ≫= fun _ =>
      reads (fun m => ext_api_required m ext_api_req) ≫= fun required =>
      if bool_decide (new_ext_api = None) && ctrue required then mret false
      else reads (fun m => NEXT_EXT_ABI m ext_api_req) ≫= fun next => provide_loop k next fw_info provide
  end.

Definition fw_info_ext_api_provide (fw_info : option Z) (provide : bool) : M bool :=
  match fw_info with
  | None => mret false
  | Some fw_info =>
      reads (fun m => skip_ext_apis m fw_info) ≫= fun ext_api_req =>
      reads (fun m => fw_info_ext_api_request_num m fw_info) ≫= fun num =>
      provide_loop (Z.to_nat num) ext_api_req fw_info provide
  end.

(** Run by the started firmware, for its own information. *)
Fixpoint check_loop (k : nat) (ext_api_req : Z) : M unit :=
  match k with
  | O => mret tt
  | S k =>
      reads (fun m => ext_api_ptr m ext_api_req) ≫= fun ptr =>
      reads (fun m =>
        bool_decide (is_Some (fw_info_ext_api_check m (load m ptr)))
        && ext_api_satisfies_req m (load m ptr) ext_api_req) ≫= fun met =>
      reads (fun m => ext_api_required m ext_api_req) ≫= fun required =>
      (if (met : bool) then mret tt
       else if ctrue required then panics (fun _ => None)
       else store ptr 0) ≫= fun _ =>
      reads (fun m => NEXT_EXT_ABI m ext_api_req) ≫= fun next => check_loop k next
  end.

Definition check_ext_api_requests (m_firmware_info : Z) : M Z :=
  reads (fun m => skip_ext_apis m m_firmware_info) ≫= fun ext_api_req =>
  reads (fun m => fw_info_ext_api_request_num m m_firmware_info) ≫= fun num =>
  check_loop (Z.to_nat num) ext_api_req ≫= fun _ => mret 0.

Definition fw_info_invalidate `{Nvmc} (fw_info : Z) : M unit :=
  reads (fun m => fw_info_valid m fw_info) ≫= fun valid =>
  if valid =? CONFIG_FW_INFO_VALID_VAL then nvm_write nrfx_nvmc_word_write 4 (fw_info_valid_at fw_info) INVALID_VAL
  else mret tt.

End Info.
End FwInfo.
Export FwInfo.

(** ** Root of trust *)

Module BlCrypto.

Definition EHASHINV := 101.
Definition ESIGINV := 102.
Definition CONFIG_SB_HASH_LEN := 32.
Definition CONFIG_SB_PUBLIC_KEY_LEN := 64.
Definition CONFIG_SB_SIGNATURE_LEN := 64.

(** The functions of the Oberon library that are used. *)
Class Ocrypto := {
  ocrypto_sha256 : list Z -> list Z;
  ocrypto_constant_time_equal : list Z -> list Z -> Z -> bool;
  ocrypto_ecdsa_p256_verify_hash : list Z -> list Z -> list Z -> Z;
  ocrypto_sha256_law data : zlen (ocrypto_sha256 data) = 32;
  ocrypto_equal_law x y n : ocrypto_constant_time_equal x y n = bool_decide (take (Z.to_nat n) x = take (Z.to_nat n) y);
  ocrypto_verify_law signature hash key :
    ocrypto_ecdsa_p256_verify_hash signature hash key = 0 \/ ocrypto_ecdsa_p256_verify_hash signature hash key = -1;
}.

Section Crypto.
Context `{Ocrypto}.

Definition crypto_init_signing : Z := 0.
Definition crypto_init_hash : Z := 0.
Definition bl_crypto_init : Z :=
  let retval := crypto_init_signing in if ctrue retval then retval else crypto_init_hash.

(** The value returned and the hash. *)
Definition get_hash (data : list Z) (external : bool) : Z * list Z := (0, ocrypto_sha256 data).

Definition bl_secp256r1_validate (hash : list Z) (hash_len : Z) (public_key signature : list Z) : Z :=
  if negb (hash_len =? CONFIG_SB_HASH_LEN) then - errno_num EINVAL
  else
    let retval := ocrypto_ecdsa_p256_verify_hash signature hash public_key in
    if retval =? -1 then - ESIGINV else 0.

Definition verify_truncated_hash (data expected : list Z) (hash_len : Z) (external : bool) : Z :=
  let '(retval, hash) := get_hash data external in
  if negb (retval =? 0) then retval
  else if negb (ocrypto_constant_time_equal expected hash hash_len) then - EHASHINV
  else 0.

Definition verify_signature (data signature public_key : list Z) (external : bool) : Z :=
  let '(retval, hash1) := get_hash data external in
  if negb (retval =? 0) then retval
  else
    let '(retval, hash2) := get_hash hash1 external in
    if negb (retval =? 0) then retval
    else bl_secp256r1_validate hash2 CONFIG_SB_HASH_LEN public_key signature.

Definition root_of_trust_verify (public_key public_key_hash signature firmware : list Z) (external : bool) : Z :=
  let retval := verify_truncated_hash public_key public_key_hash SB_PUBLIC_KEY_HASH_LEN external in
  if negb (retval =? 0) then retval
  else verify_signature firmware signature public_key external.

Definition bl_root_of_trust_verify (public_key public_key_hash signature firmware : list Z) : Z :=
  root_of_trust_verify public_key public_key_hash signature firmware false.
Definition bl_root_of_trust_verify_external (public_key public_key_hash signature firmware : list Z) : Z :=
  root_of_trust_verify public_key public_key_hash signature firmware true.
Definition bl_sha256_verify (data expected : list Z) : Z :=
  verify_truncated_hash data expected CONFIG_SB_HASH_LEN true.

End Crypto.
End BlCrypto.
Export BlCrypto.

(** ** Validation *)

Module BlValidation.

Section Validation.
Context `{Nvmc} `{ProvisionConfig} `{FwConfig} `{Ocrypto}.

(** The sizes of the slots, if the partitions are defined. *)
Context (PM_S0_SIZE : option Z).

(** The two assertions at the start (a version of 15 bits, slot 0 or 1) are left
    out, as they are where assertions are not compiled in: a longer version is
    truncated then. *)
Definition set_monotonic_version (version slot : Z) : M Z :=
  reads (fun m => num_monotonic_counter_slots m BL_MONOTONIC_COUNTERS_DESC_NSIB true) ≫= fun '(err, num_cnt_slots) =>
  if negb (err =? 0) then mret err
  else if bool_decide (num_cnt_slots = Some 0) then mret (- errno_num EINVAL)
  else
    set_monotonic_counter BL_MONOTONIC_COUNTERS_DESC_NSIB
      (u16 (Z.lor (Z.shiftl version 1) (if slot =? 0 then 1 else 0))) ≫= fun err =>
    mret err.

Definition get_monotonic_version (m : memory) (version_out : bool) : Z * option Z :=
  if negb version_out then (- errno_num EINVAL, None)
  else
    match get_monotonic_counter m BL_MONOTONIC_COUNTERS_DESC_NSIB true with
    | (err, Some monotonic_version_and_slot) => (err, Some (Z.shiftr monotonic_version_and_slot 1))
    | (err, None) => (err, None)
    end.

Definition get_monotonic_slot (m : memory) (slot_out : bool) : Z * option Z :=
  if negb slot_out then (- errno_num EINVAL, None)
  else
    match get_monotonic_counter m BL_MONOTONIC_COUNTERS_DESC_NSIB true with
    | (err, Some monotonic_version_and_slot) =>
        let inverted_slot := Z.land monotonic_version_and_slot 1 in
        (0, Some (if inverted_slot =? 0 then 1 else 0))
    | (err, None) => (err, None)
    end.

Definition within (addr start end_ : Z) : bool :=
  if end_ <? start then false else if addr <? start then false else if end_ <=? addr then false else true.

Definition region_within (inner_start inner_end start end_ : Z) : bool :=
  if inner_end <? inner_start then false
  else if negb (within inner_start start end_) then false
  else if negb (within (u32 (inner_end - 1)) start end_) then false
  else true.

(** The members of [struct fw_validation_info] at an address. *)
Definition vinfo_address (m : memory) (v : Z) : Z := load m (v + 12).
Definition vinfo_hash (m : memory) (v : Z) : list Z := octets m (v + 16) CONFIG_SB_HASH_LEN.
Definition vinfo_public_key (m : memory) (v : Z) : list Z :=
  octets m (v + 16 + CONFIG_SB_HASH_LEN) CONFIG_SB_PUBLIC_KEY_LEN.
Definition vinfo_signature (m : memory) (v : Z) : list Z :=
  octets m (v + 16 + CONFIG_SB_HASH_LEN + CONFIG_SB_PUBLIC_KEY_LEN) CONFIG_SB_SIGNATURE_LEN.

Definition validation_info_check (m : memory) (vinfo : Z) : bool :=
  bool_decide (octets m vinfo CONFIG_FW_INFO_MAGIC_LEN = VALIDATION_INFO_MAGIC).

Fixpoint validation_search (m : memory) (k : nat) (vinfo : Z) : option Z :=
  match k with
  | O => None
  | S k => if validation_info_check m vinfo then Some vinfo else validation_search m k (u32 (vinfo + 1))
  end.

Definition validation_info_find (m : memory) (start_address search_distance : Z) : option Z :=
  validation_search m (Z.to_nat (search_distance + 1)) (u32 start_address).

Fixpoint invalidate_loop (k : nat) (i : Z) : M unit :=
  match k with
  | O => mret tt
  | S k => invalidate_public_key i ≫= fun _ => invalidate_loop k (i + 1)
  end.

Fixpoint signature_loop (k : nat) (key_data_idx fw_src_address fw_size fw_val_info : Z) (external : bool) : M bool :=
  match k with
  | O => mret false
  | S k =>
      panics (fun m => public_key_data_read m key_data_idx) ≫= fun '(read_retval, key_data) =>
      if negb (read_retval =? SB_PUBLIC_KEY_HASH_LEN) then
        if read_retval =? - errno_num EINVAL
        then signature_loop k (key_data_idx + 1) fw_src_address fw_size fw_val_info external
        else mret false
      else
        reads (fun m =>
          (if external then bl_root_of_trust_verify_external else bl_root_of_trust_verify)
            (vinfo_public_key m fw_val_info) key_data (vinfo_signature m fw_val_info) (octets m fw_src_address fw_size))
          ≫= fun retval =>
        if retval =? 0 then invalidate_loop (Z.to_nat key_data_idx) 0 ≫= fun _ => mret true
        else if retval =? - EHASHINV
        then signature_loop k (key_data_idx + 1) fw_src_address fw_size fw_val_info external
        else mret false
  end.

Definition validate_signature (fw_src_address fw_size fw_val_info : Z) (external : bool) : M bool :=
  if ctrue bl_crypto_init then mret false
  else
    panics verify_public_keys ≫= fun init_retval =>
    if ctrue init_retval then mret false
    else
      reads num_public_keys_read ≫= fun num =>
      signature_loop (Z.to_nat num) 0 fw_src_address fw_size fw_val_info external.

(** The build that checks only the hash. *)
Definition validate_hash (m : memory) (fw_src_address fw_size fw_val_info : Z) (external : bool) : bool :=
  if ctrue bl_crypto_init then false
  else bl_sha256_verify (octets m fw_src_address fw_size) (vinfo_hash m fw_val_info) =? 0.

(** The checks of [validate_firmware] before the signature, up to the
    validation information. *)
Definition validate_info (m : memory) (fw_dst_address fw_src_address fwinfo : Z) (external : bool) : option Z :=
  let fwinfo_end := u32 (fwinfo + fw_info_total_size m fwinfo) in
  let fw_dst_end := u32 (fw_dst_address + fw_info_size m fwinfo) in
  let fw_src_end := u32 (fw_src_address + fw_info_size m fwinfo) in
  if bool_decide (fw_info_check m fwinfo = None) then None
  else if negb (fw_dst_address =? fw_info_address m fwinfo) then None
  else if negb external && negb (fw_src_address =? fw_dst_address) then None
  else if negb (bool_decide (fw_info_find m fw_src_address = Some fwinfo)) then None
  else if negb (fw_info_valid m fwinfo =? CONFIG_FW_INFO_VALID_VAL) then None
  else
    let stored_version := default 0 (snd (get_monotonic_version m true)) in
    if fw_info_version m fwinfo <? stored_version then None
    else if match PM_S0_SIZE with
            | Some size => (size <? fw_info_size m fwinfo) || (fw_info_size m fwinfo <? fw_info_total_size m fwinfo)
            | None => false
            end then None
    else if negb (region_within fwinfo fwinfo_end fw_src_address fw_src_end) then None
    else if negb (within (fw_info_boot_address m fwinfo) fw_dst_address fw_dst_end) then None
    else
      let stack_ptr_offset := u32 (fw_info_boot_address m fwinfo - fw_dst_address) in
      let reset_vector := load m (fw_src_address + stack_ptr_offset + 4) in
      if negb (within reset_vector fw_dst_address fw_dst_end) then None
      else
        match validation_info_find m (fw_src_address + fw_info_size m fwinfo) 4 with
        | None => None
        | Some fw_val_info =>
            if negb (vinfo_address m fw_val_info =? fw_info_address m fwinfo) then None else Some fw_val_info
        end.

(** The members of the information are read before the pointer is tested. *)
Definition validate_firmware (fw_dst_address fw_src_address : Z) (fwinfo : option Z) (external : bool) : M bool :=
  match fwinfo with
  | None => stops (fun _ => Undefined)
  | Some fwinfo =>
      reads (fun m => validate_info m fw_dst_address fw_src_address fwinfo external) ≫= fun found =>
      match found with
      | None => mret false
      | Some fw_val_info =>
          reads (fun m => fw_info_size m fwinfo) ≫= fun size =>
          validate_signature fw_src_address size fw_val_info external
      end
  end.

Definition bl_validate_firmware (fw_dst_address fw_src_address : Z) : M bool :=
  reads (fun m => fw_info_find m fw_src_address) ≫= fun fwinfo =>
  validate_firmware fw_dst_address fw_src_address fwinfo true.

Definition bl_validate_firmware_local (fw_address : Z) (fwinfo : option Z) : M bool :=
  validate_firmware fw_address fw_address fwinfo false.

End Validation.
End BlValidation.
Export BlValidation.

(** ** Start of a firmware, and the program *)

Module BlMain.

(** What the build and the device decide: whether the storage is protected
    before the start, the areas, and what the protection answers. *)
Class BootConfig := {
  protects_storage : bool;
  CONFIG_FPROTECT : bool;
  PM_B0_ADDRESS : Z;
  PM_B0_SIZE : Z;
  PM_PROVISION_SIZE : Z;
  PM_S0_SIZE : option Z;
  fprotect_area : Z -> Z -> Z;
}.

Section Main.
Context `{Nvmc} `{ProvisionConfig} `{FwConfig} `{Ocrypto} `{BootConfig}.

(** The jump itself. The interrupts that are disabled before it, the peripherals that
    are reset and the registers of the processor that are cleared are not modelled. *)
Definition bl_boot (fw_info : Z) : M unit :=
  if protects_storage && CONFIG_FPROTECT && ctrue (fprotect_area PM_PROVISION_ADDRESS PM_PROVISION_SIZE) then mret tt
  else
    reads (fun m => fw_info_address m fw_info) ≫= fun vector_table =>
    fw_info_ext_api_provide (Some fw_info) true ≫= fun provided =>
    if negb provided then mret tt
    else stops (fun m => Jump vector_table (load m vector_table) (load m (vector_table + 4))).

Definition validate_and_boot (fw_info : option Z) (slot : Z) : M unit :=
  match fw_info with
  | None => mret tt
  | Some fw_info =>
      reads (fun m => fw_info_address m fw_info) ≫= fun address =>
      bl_validate_firmware_local PM_S0_SIZE address (Some fw_info) ≫= fun valid =>
      if negb valid then fw_info_invalidate fw_info
      else
        reads (fun m => default 0 (snd (get_monotonic_version m true))) ≫= fun stored_version =>
        reads (fun m => fw_info_version m fw_info) ≫= fun version =>
        (if stored_version <? version then set_monotonic_version (u16 version) slot else mret 0) ≫= fun _ =>
        bl_boot fw_info
  end.

Definition BOOT_SLOT_0 := 0.
Definition BOOT_SLOT_1 := 1.

(** The comparison reads the version of the first slot also if it has no
    firmware information. *)
Definition main : M Z :=
  if CONFIG_FPROTECT && ctrue (fprotect_area PM_B0_ADDRESS PM_B0_SIZE) then mret 0
  else
    reads s0_address_read ≫= fun s0_addr =>
    reads s1_address_read ≫= fun s1_addr =>
    reads (fun m => fw_info_find m s0_addr) ≫= fun s0_info =>
    reads (fun m => fw_info_find m s1_addr) ≫= fun s1_info =>
    match s0_info, s1_info with
    | _, None => mret true
    | None, Some _ => stops (fun _ => Undefined)
    | Some s0, Some s1 => reads (fun m => fw_info_version m s1 <=? fw_info_version m s0)
    end ≫= fun s0_first =>
    (if s0_first : bool
     then validate_and_boot s0_info BOOT_SLOT_0 ≫= fun _ => validate_and_boot s1_info BOOT_SLOT_1
     else validate_and_boot s1_info BOOT_SLOT_1 ≫= fun _ => validate_and_boot s0_info BOOT_SLOT_0) ≫= fun _ =>
    mret 0.

End Main.
End BlMain.
Export BlMain.
