(* ===== verification/BlBootSpec.v ===== *)
(** The chain of trust of the immutable bootloader. Whatever the flash holds and
    wherever the supply fails, a firmware that is started was verified with a
    key of the storage, and no firmware older than one started before is
    started again while the version counter has free slots. A firmware that is
    in order is started. *)
From stdpp Require Import prelude list.
From Stdlib Require Import ZArith Lia Sorted.
From S2P Require Import Prelude BlStorage BlStorageSpec BlBoot.

Open Scope Z_scope.

Lemma runs_and {A} (c : M A) s (Q Q' : A -> device -> Prop) (E E' : halt -> memory -> Prop) :
  runs c s Q E -> runs c s Q' E' -> runs c s (fun a s' => Q a s' /\ Q' a s') (fun w m => E w m /\ E' w m).
Proof. unfold runs. destruct (c s); auto. Qed.

(** ** Reading octets by words *)

Lemma word_octet m a j : octets_ok m -> 0 <= j < 4 -> Z.land (Z.shiftr (word m a) (8 * j)) 0xFF = m (a + j).
Proof.
  intros Ho Hj. change 0xFF with (Z.ones 8). rewrite Z.land_ones, Z.shiftr_div_pow2 by lia. unfold word, half.
  replace (a + 2 + 1) with (a + 3) by lia. pose proof (Ho a). pose proof (Ho (a + 1)). pose proof (Ho (a + 2)). pose proof (Ho (a + 3)).
  change (2 ^ 8) with 256.
  assert (Hq : forall q r d, 0 <= r < d -> (q * d + r) / d = q) by (intros; rewrite Z.div_add_l, Z.div_small; lia).
  assert (Hm : forall x y, 0 <= y < 256 -> (x * 256 + y) mod 256 = y) by (intros; rewrite Z.add_comm, Z_mod_plus_full; by apply Z.mod_small).
  assert (j = 0 \/ j = 1 \/ j = 2 \/ j = 3) as [->|[->|[->| ->]]] by lia.
  - change (2 ^ (8 * 0)) with 1. rewrite Z.div_1_r, Z.add_0_r.
    transitivity (((m (a + 1) + 256 * m (a + 2) + 65536 * m (a + 3)) * 256 + m a) mod 256); [f_equal; lia|by apply Hm].
  - change (2 ^ (8 * 1)) with 256.
    transitivity (((m (a + 2) + 256 * m (a + 3)) * 256 + m (a + 1)) mod 256); [f_equal|by apply Hm].
    rewrite <- (Hq ((m (a + 2) + 256 * m (a + 3)) * 256 + m (a + 1)) (m a) 256) by lia. f_equal. lia.
  - change (2 ^ (8 * 2)) with 65536. transitivity ((m (a + 3) * 256 + m (a + 2)) mod 256); [f_equal|by apply Hm].
    rewrite <- (Hq (m (a + 3) * 256 + m (a + 2)) (m a + 256 * m (a + 1)) 65536) by lia. f_equal. lia.
  - change (2 ^ (8 * 3)) with 16777216. transitivity ((0 * 256 + m (a + 3)) mod 256); [f_equal|by apply Hm].
    rewrite <- (Hq (0 * 256 + m (a + 3)) (m a + 256 * m (a + 1) + 65536 * m (a + 2)) 16777216) by lia. f_equal. lia.
Qed.

Lemma octets_app m a n k : 0 <= n -> 0 <= k -> octets m a (n + k) = octets m a n ++ octets m (a + n) k.
Proof.
  intros Hn Hk. unfold octets. rewrite seqZ_app, fmap_app by lia. f_equal.
  replace (seqZ (0 + n) k) with (Z.add n <$> seqZ 0 k) by (rewrite fmap_add_seqZ; f_equal; lia).
  rewrite <- list_fmap_compose. apply list_fmap_ext. intros i x _. unfold compose. do 2 f_equal. lia.
Qed.

Lemma otp_copy32_octets `{Nvmc} m a k :
  octets_ok m -> a mod 4 = 0 -> 0 <= a -> a + 4 * Z.of_nat k <= 4294967296 ->
  otp_copy32 m a (4 * Z.of_nat k) = octets m a (4 * Z.of_nat k).
Proof.
  intros Ho Ha H0 Hend. unfold otp_copy32. rewrite Z.mul_comm, Z.div_mul by lia.
  induction k as [|k IH]; [done|]. replace (Z.of_nat (S k)) with (Z.of_nat k + 1) by lia.
  rewrite Z.mul_add_distr_r, octets_app, <- IH, seqZ_app, bind_app by lia. f_equal.
  assert (Es : seqZ (0 + Z.of_nat k) 1 = [Z.of_nat k]) by (unfold seqZ; cbn; f_equal; lia). rewrite Es. cbn [mbind list_bind].
  rewrite app_nil_r. unfold octets. change (seqZ 0 (1 * 4)) with [0; 1; 2; 3].
  rewrite !(u32_small (a + 4 * _)) by lia. unfold bl_storage_word_read.
  rewrite word_read_law by (replace (a + 4 * _) with (a + Z.of_nat k * 4) by lia; by rewrite Z_mod_plus_full).
  rewrite u32_small by (by apply word_range). cbn [fmap list_fmap].
  rewrite !word_octet by (done || lia). repeat f_equal; rewrite u32_small by lia; lia.
Qed.

Section Trust.
Context `{Nvmc} `{ProvisionConfig} `{FwConfig} `{Ocrypto} `{BootConfig}.
Context (ks : Z) (cs : list (Z * Z)).

Definition ram (x : Z) : Prop := ram_start <= x < ram_end.

(** The storage, the RAM and the slots are apart; a slot takes in the places
    where its information is searched, and where that may find its start. *)
Record placed (m : memory) : Prop := {
  pl_provisioned : provisioned ks cs m;
  pl_ram x : stored_at ks cs x -> ~ ram x;
  pl_slots s : s = s0_address_read m \/ s = s1_address_read m ->
    s mod 4 = 0 /\ 4096 <= s /\ s + 12288 <= 4294967296 /\
    forall x, s - 4096 <= x < s + 12288 -> ~ stored_at ks cs x /\ ~ ram x;
}.

(** ** What the parts change *)

Lemma store_keeps (P : Z -> Prop) a v :
  (forall x, ram x -> P x) -> (forall x, stored_at ks cs x -> ~ ram x) -> keeps ks cs P (store a v).
Proof.
  intros HP Hr s PV Ht. unfold runs, store. case_bool_decide as Hb; [|by apply mem_keeps_same]. cbn.
  assert (Hin : forall x, a <= x < a + 4 -> ram x) by (intros x Hx; unfold ram; lia).
  split; [|exact Ht]. split; [split|].
  - intros x. case_bool_decide; [apply octet_range|apply PV].
  - intros x Hx. case_bool_decide as Hc; [|lia]. by destruct (Hr x Hx), (Hin x Hc).
  - intros x Hx. case_bool_decide as Hc; [|done]. destruct (Hr x); [|by apply Hin].
    destruct Hx as [Hx _]. unfold stored_at. lia.
  - intros x Hx Hn. cbn. case_bool_decide as Hc; [|done]. destruct Hn. by apply HP, Hin.
Qed.

(** Handing over interfaces does not start anything. *)
Lemma ext_api_provide_stops p provide s :
  runs (fw_info_ext_api_provide p provide) s (fun _ _ => True) (fun w _ => w = Undefined).
Proof.
  unfold fw_info_ext_api_provide. destruct p as [p|]; [|done]. apply runs_reads, runs_reads.
  generalize (skip_ext_apis (mem s) p). generalize (Z.to_nat (fw_info_ext_api_request_num (mem s) p)). intros k. revert s.
  induction k as [|k IH]; intros s req; cbn [provide_loop]; [done|]. apply runs_reads, runs_reads, runs_bind.
  assert (Hs : forall a v, runs (store a v) s (fun _ _ => True) (fun w _ => w = Undefined))
    by (intros a v; unfold runs, store; by case_bool_decide).
  apply (runs_mono _ _ (fun _ _ => True) _ (fun w _ => w = Undefined)); [destruct provide; [apply Hs|done]| |done].
  intros [] s' _. apply runs_reads. destruct (_ && _); [done|]. apply runs_reads, IH.
Qed.

Section Keep.
Context (P : Z -> Prop).

Lemma invalidate_loop_keeps k i : 0 <= i -> keeps ks cs P (invalidate_loop k i).
Proof.
  revert i. induction k as [|k IH]; intros i Hi; cbn [invalidate_loop]; [apply mem_keeps_ret|].
  apply keeps_bind; [by apply invalidate_public_key_keeps|]. intros _. apply IH. lia.
Qed.

Lemma signature_loop_keeps k i src size vi ext : keeps ks cs P (signature_loop k i src size vi ext).
Proof.
  revert i. induction k as [|k IH]; intros i; cbn [signature_loop]; [apply mem_keeps_ret|].
  apply keeps_panics. intros [r kd]. destruct (negb _); [destruct (_ =? _); [apply IH|apply mem_keeps_ret]|].
  apply keeps_reads. intros rv. destruct (rv =? 0); [|destruct (_ =? _); [apply IH|apply mem_keeps_ret]].
  apply keeps_bind; [by apply invalidate_loop_keeps|]. intros _. apply mem_keeps_ret.
Qed.

Lemma validate_signature_keeps src size vi ext : keeps ks cs P (validate_signature src size vi ext).
Proof.
  unfold validate_signature. destruct (ctrue _); [apply mem_keeps_ret|]. apply keeps_panics. intros r.
  destruct (ctrue r); [apply mem_keeps_ret|]. apply keeps_reads. intros n. apply signature_loop_keeps.
Qed.

Lemma validate_firmware_keeps s0 dst src p ext : keeps ks cs P (validate_firmware s0 dst src p ext).
Proof.
  unfold validate_firmware. destruct p as [p|]; [|intros s PV Ht; by apply mem_keeps_same].
  apply keeps_reads. intros [vi|]; [|apply mem_keeps_ret]. apply keeps_reads. intros n. apply validate_signature_keeps.
Qed.

Lemma set_monotonic_version_keeps v slot : keeps ks cs P (set_monotonic_version v slot).
Proof.
  unfold set_monotonic_version. apply keeps_reads. intros [e n]. destruct (negb _); [apply mem_keeps_ret|].
  case_bool_decide; [apply mem_keeps_ret|]. apply keeps_bind; [apply set_monotonic_counter_keeps|]. intros ?. apply mem_keeps_ret.
Qed.

Context (HP : forall x, ram x -> P x) (Hram : forall x, stored_at ks cs x -> ~ ram x).

Lemma provide_loop_keeps k req p provide : keeps ks cs P (provide_loop k req p provide).
Proof.
  revert req. induction k as [|k IH]; intros req; cbn [provide_loop]; [apply mem_keeps_ret|].
  apply keeps_reads. intros new. apply keeps_reads. intros ptr. apply keeps_bind.
  - destruct provide; [by apply store_keeps|apply mem_keeps_ret].
  - intros _. apply keeps_reads. intros r. destruct (_ && _); [apply mem_keeps_ret|]. apply keeps_reads. intros next. apply IH.
Qed.

Lemma ext_api_provide_keeps p provide : keeps ks cs P (fw_info_ext_api_provide p provide).
Proof.
  unfold fw_info_ext_api_provide. destruct p as [p|]; [|apply mem_keeps_ret].
  apply keeps_reads. intros req. apply keeps_reads. intros n. apply provide_loop_keeps.
Qed.

Lemma bl_boot_keeps p : keeps ks cs P (bl_boot p).
Proof.
  unfold bl_boot. destruct (_ && _); [apply mem_keeps_ret|]. apply keeps_reads. intros vt.
  apply keeps_bind; [apply ext_api_provide_keeps|]. intros b. destruct (negb b); [apply mem_keeps_ret|].
  intros s PV Ht. by apply mem_keeps_same.
Qed.

Lemma fw_info_invalidate_keeps p :
  (forall x, p + 32 <= x < p + 36 -> P x) -> (forall x, p + 32 <= x < p + 36 -> ~ stored_at ks cs x) ->
  p mod 4 = 0 -> 0 <= p -> p + 36 <= 4294967296 -> keeps ks cs P (fw_info_invalidate p).
Proof.
  intros Hp Hs Hm H0' Hle. unfold fw_info_invalidate. apply keeps_reads. intros v. destruct (_ =? _); [|apply mem_keeps_ret].
  intros s PV Ht. unfold fw_info_valid_at. rewrite u32_small by lia. apply write_keeps; [done|done| |].
  - right. split; [done|]. split; [done|]. by rewrite Z.add_mod, Hm.
  - intros x Hx. split; [right; apply Hp; lia|]. intros [Hr _]. destruct (Hs x); [lia|]. unfold stored_at. lia.
Qed.

Lemma validate_and_boot_keeps p slot :
  (forall q, p = Some q -> (forall x, q + 32 <= x < q + 36 -> P x /\ ~ stored_at ks cs x) /\
     q mod 4 = 0 /\ 0 <= q /\ q + 36 <= 4294967296) ->
  keeps ks cs P (validate_and_boot p slot).
Proof.
  intros Hq. unfold validate_and_boot. destruct p as [q|]; [|apply mem_keeps_ret].
  destruct (Hq q eq_refl) as (Hx & Hm & H0' & Hle). apply keeps_reads. intros a.
  apply keeps_bind; [apply validate_firmware_keeps|]. intros b. destruct (negb b).
  - apply fw_info_invalidate_keeps; try done; intros x Hr; by apply Hx.
  - apply keeps_reads. intros sv. apply keeps_reads. intros v. apply keeps_bind; [|intros _; apply bl_boot_keeps].
    destruct (_ <? _); [apply set_monotonic_version_keeps|apply mem_keeps_ret].
Qed.

End Keep.
(** ** Authenticity *)

(** The version that the storage has. *)
Definition stored_version (m : memory) : Z := default 0 (snd (get_monotonic_version m true)).

(** The firmware with its information at [p] and its validation information at
    [vi] is signed with the key that the storage has at [k]. *)
Record signed (m : memory) (p vi k : Z) : Prop := {
  sg_key : 0 <= k < ks /\ key_is_valid m k = Some true;
  sg_hash : take 16 (ocrypto_sha256 (vinfo_public_key m vi)) = octets m (PM_PROVISION_ADDRESS + 56 + 20 * k) 16;
  sg_signature : ocrypto_ecdsa_p256_verify_hash (vinfo_signature m vi)
    (ocrypto_sha256 (ocrypto_sha256 (octets m (fw_info_address m p) (fw_info_size m p)))) (vinfo_public_key m vi) = 0;
}.

(** The information is consistent: it is found from the start of the firmware
    and lies in the part that is signed, as do the start and the reset
    handler; the firmware is not invalidated and not older than the stored
    version; its validation information follows it. *)
Record wellformed (m : memory) (p vi : Z) : Prop := {
  wf_found : fw_info_find m (fw_info_address m p) = Some p;
  wf_valid : fw_info_valid m p = CONFIG_FW_INFO_VALID_VAL;
  wf_version : stored_version m <= fw_info_version m p;
  wf_end : fw_info_address m p + fw_info_size m p < 4294967296;
  wf_inside : p + fw_info_total_size m p <= fw_info_address m p + fw_info_size m p;
  wf_start : fw_info_address m p <= p < fw_info_address m p + fw_info_size m p;
  wf_boot : fw_info_address m p <= fw_info_boot_address m p < fw_info_address m p + fw_info_size m p;
  wf_reset : fw_info_address m p <= load m (fw_info_boot_address m p + 4) < fw_info_address m p + fw_info_size m p;
  wf_vinfo : exists i, 0 <= i <= 4 /\ vi = u32 (fw_info_address m p + fw_info_size m p + i);
  wf_vmagic : octets m vi 12 = VALIDATION_INFO_MAGIC;
  wf_vaddress : vinfo_address m vi = fw_info_address m p;
}.

Lemma root_of_trust_zero pk kh sig fw ext :
  root_of_trust_verify pk kh sig fw ext = 0 ->
  take 16 kh = take 16 (ocrypto_sha256 pk) /\ ocrypto_ecdsa_p256_verify_hash sig (ocrypto_sha256 (ocrypto_sha256 fw)) pk = 0.
Proof.
  unfold root_of_trust_verify, verify_truncated_hash, get_hash. cbn [Z.eqb negb]. rewrite ocrypto_equal_law.
  case_bool_decide as Eh; [|done]. cbn. unfold bl_secp256r1_validate. cbn.
  pose proof (ocrypto_verify_law sig (ocrypto_sha256 (ocrypto_sha256 fw)) pk) as [E|E]; rewrite E; [done|]. cbn. done.
Qed.

Lemma load_range m a : octets_ok m -> 0 <= load m a < 4294967296.
Proof. intros Ho. by apply word_range. Qed.

Lemma within_true a b e : within a b e = true -> b <= a < e.
Proof. unfold within. destruct (e <? b) eqn:?, (a <? b) eqn:?, (e <=? a) eqn:?; done || lia. Qed.

Lemma validation_search_found m k a vi :
  validation_search m k (u32 a) = Some vi ->
  octets m vi 12 = VALIDATION_INFO_MAGIC /\ exists i, 0 <= i < Z.of_nat k /\ vi = u32 (a + i).
Proof.
  revert a. induction k as [|k IH]; intros a; cbn [validation_search]; [done|]. unfold validation_info_check.
  case_bool_decide as E.
  - intros [= <-]. split; [done|]. exists 0. split; [lia|]. f_equal. lia.
  - replace (u32 (u32 a + 1)) with (u32 (a + 1)) by (unfold u32; by rewrite Zplus_mod_idemp_l).
    intros Ev. apply IH in Ev as (Em & i & Hi & ->). split; [done|]. exists (i + 1). split; [lia|]. f_equal. lia.
Qed.

Lemma end_no_wrap a n : 0 <= a < 4294967296 -> 0 <= n < 4294967296 -> a < u32 (a + n) -> u32 (a + n) = a + n.
Proof.
  intros Ha Hn Hlt. destruct (Z.lt_ge_cases (a + n) 4294967296); [by rewrite u32_small by lia|].
  exfalso. unfold u32 in Hlt. change (2 ^ 32) with 4294967296 in Hlt.
  rewrite <- (Z.mod_unique (a + n) 4294967296 1 (a + n - 4294967296)) in Hlt by lia. lia.
Qed.

Lemma validate_info_found m p vi :
  octets_ok m -> 0 <= p < 4294967296 ->
  validate_info PM_S0_SIZE m (fw_info_address m p) (fw_info_address m p) p false = Some vi -> wellformed m p vi.
Proof.
  intros Ho Hp. unfold validate_info. case_bool_decide; [done|]. rewrite Z.eqb_refl. cbn [negb andb].
  case_bool_decide as Ef; [cbn [negb]|done]. destruct (Z.eqb_spec (fw_info_valid m p) CONFIG_FW_INFO_VALID_VAL) as [Ev|]; [cbn [negb]|done].
  fold (stored_version m). destruct (Z.ltb_spec (fw_info_version m p) (stored_version m)) as [|Hv]; [done|].
  destruct (match PM_S0_SIZE with Some _ => _ | None => _ end); [done|].
  destruct (region_within _ _ _ _) eqn:Er; [cbn [negb]|done]. unfold region_within in Er.
  destruct (Z.ltb_spec (u32 (p + fw_info_total_size m p)) p) as [|Ht]; [done|].
  destruct (within p _ _) eqn:E1; [cbn [negb] in Er|done]. apply within_true in E1.
  destruct (within (u32 _) _ _) eqn:E2; [clear Er; apply within_true in E2|done].
  pose proof (load_range m (p + 12) Ho) as Rt. pose proof (load_range m (p + 16) Ho) as Rs. pose proof (load_range m (p + 24) Ho) as Ra.
  fold (fw_info_total_size m p) in Rt. fold (fw_info_size m p) in Rs. fold (fw_info_address m p) in Ra.
  pose proof (u32_range (fw_info_address m p + fw_info_size m p)) as Re.
  pose proof (end_no_wrap _ _ Ra Rs ltac:(lia)) as Ee. rewrite Ee in *.
  assert (Hin : p + fw_info_total_size m p <= fw_info_address m p + fw_info_size m p).
  { destruct (decide (fw_info_total_size m p = 0)) as [->|Hn]; [lia|].
    destruct (Z.lt_ge_cases p (u32 (p + fw_info_total_size m p))) as [Hlt|Hge].
    - pose proof (u32_range (p + fw_info_total_size m p)). rewrite (end_no_wrap _ _ Hp Rt Hlt) in *.
      rewrite u32_small in E2 by lia. lia.
    - assert (Eq : u32 (p + fw_info_total_size m p) = p) by lia. unfold u32 in Eq. change (2 ^ 32) with 4294967296 in Eq.
      pose proof (Z_div_mod_eq_full (p + fw_info_total_size m p) 4294967296). nia. }
  destruct (within (fw_info_boot_address m p) _ _) eqn:E3; [cbn [negb]; apply within_true in E3|done].
  rewrite (u32_small (fw_info_boot_address m p - _)) by lia. rewrite Zplus_minus.
  destruct (within (load m _) _ _) eqn:E4; [cbn [negb]; apply within_true in E4|done].
  destruct (validation_info_find _ _ _) as [v|] eqn:E5; [|done].
  destruct (Z.eqb_spec (vinfo_address m v) (fw_info_address m p)) as [E6|]; [cbn [negb]; intros [= ->]|done].
  apply validation_search_found in E5 as (Em & i & Hi & ->). change (Z.of_nat (Z.to_nat (4 + 1))) with 5 in Hi.
  split; try done; [lia|]. exists i. split; [lia|done].
Qed.

(** What a successful search for the key means, and that it ends the program
    only by a panic or with the supply. *)
Lemma invalidate_loop_done k i s :
  0 <= i -> provisioned ks cs (mem s) -> torn_ok s ->
  runs (invalidate_loop k i) s (fun _ s' => forall j, i <= j < i + Z.of_nat k -> key_is_valid (mem s') j = Some false)
    (fun w _ => w = Panic \/ w = PowerLoss).
Proof.
  revert i s. induction k as [|k IH]; intros i s Hi PV Ht; cbn [invalidate_loop].
  - intros j Hj. lia.
  - apply runs_bind. pose proof (invalidate_public_key_keeps ks cs (fun _ => False) i Hi s PV Ht) as Hk.
    pose proof (invalidate_done ks cs i s Hi PV Ht) as Hinv.
    eapply runs_mono; [exact (runs_and _ _ _ _ _ _ Hk Hinv)| |intros w m' [_ Hw]; exact Hw].
    intros [] s' [[[Hw Hs] Ht'] Ev]. pose proof (wear_provisioned _ _ _ _ PV Hw) as PV'.
    eapply runs_mono; [exact (runs_and _ _ _ _ _ _ (invalidate_loop_keeps (fun _ => False) k (i + 1) ltac:(lia) s' PV' Ht') (IH (i + 1) s' ltac:(lia) PV' Ht'))| |intros w m' [_ Hw']; exact Hw'].
    intros [] s2 [[[Hw2 _] _] Hj] j Hr. destruct (decide (j = i)) as [->|Hne]; [|apply Hj; lia].
    by apply (wear_key ks cs (mem s')).
Qed.

Lemma rot_verify_both pk kh sig fw (ext : bool) :
  (if ext then bl_root_of_trust_verify_external else bl_root_of_trust_verify) pk kh sig fw = root_of_trust_verify pk kh sig fw ext.
Proof. by destruct ext. Qed.

(** A key from [i] on matches, and those before it are invalid in [m']. *)
Definition key_matched (m m' : memory) (i src size vi : Z) (ext : bool) : Prop :=
  exists j kd, i <= j /\ public_key_data_read m j = Some (16, kd) /\
    root_of_trust_verify (vinfo_public_key m vi) kd (vinfo_signature m vi) (octets m src size) ext = 0 /\
    forall x, 0 <= x < j -> key_is_valid m' x = Some false.

Lemma signature_loop_true k i s src size vi ext :
  0 <= i -> provisioned ks cs (mem s) -> torn_ok s ->
  runs (signature_loop k i src size vi ext) s
    (fun b s' => b = true -> key_matched (mem s) (mem s') i src size vi ext) (fun w _ => w = Panic \/ w = PowerLoss).
Proof.
  revert i. induction k as [|k IH]; intros i Hi PV Ht; cbn [signature_loop]; [done|].
  assert (Hnext : runs (signature_loop k (i + 1) src size vi ext) s
    (fun b s' => b = true -> key_matched (mem s) (mem s') i src size vi ext) (fun w _ => w = Panic \/ w = PowerLoss)).
  { eapply runs_mono; [by apply IH; [lia| |]| |done]. intros b s' Hb Et. destruct (Hb Et) as (j & kd & Hj & Hrest).
    exists j, kd. split; [lia|done]. }
  apply runs_panics; [|by left]. intros [r kd] Er. change SB_PUBLIC_KEY_HASH_LEN with 16.
  destruct (Z.eqb_spec r 16) as [->|]; cbn [negb]; [|by destruct (_ =? _)].
  apply runs_reads. cbv beta. rewrite rot_verify_both.
  destruct (Z.eqb_spec (root_of_trust_verify (vinfo_public_key (mem s) vi) kd (vinfo_signature (mem s) vi) (octets (mem s) src size) ext) 0) as [Ev|].
  - apply runs_bind. eapply runs_mono; [by apply (invalidate_loop_done (Z.to_nat i) 0)| |done].
    intros [] s' Hinv _. exists i, kd. split; [lia|]. split; [done|]. split; [done|]. intros x Hx. apply Hinv. lia.
  - by destruct (_ =? _).
Qed.

Lemma key_data_read_found m j kd : provisioned ks cs m -> 0 <= j -> public_key_data_read m j = Some (16, kd) ->
  (0 <= j < ks /\ key_is_valid m j = Some true) /\ kd = octets m (PM_PROVISION_ADDRESS + 56 + 20 * j) 16.
Proof.
  intros PV Hj. unfold public_key_data_read. destruct (key_is_valid m j) as [[|]|] eqn:Ev; [|done|done].
  pose proof (key_in_range ks cs m j PV ltac:(by rewrite Ev)) as Hlt.
  rewrite (num_keys_read ks cs m PV). destruct (Z.leb_spec ks j); [lia|]. intros [= <-]. split; [done|].
  destruct (key_data_place ks cs m PV j ltac:(lia)) as [Ek Hm]. pose proof (counters_size_nonneg _ (pv_sizes _ _ _ PV)).
  pose proof (pv_end _ _ _ PV) as He. pose proof (pv_base _ _ _ PV). unfold storage_end, counters_start, collection_at in He.
  assert (Eh : key_hash_at j = PM_PROVISION_ADDRESS + 56 + 20 * j) by (unfold key_hash_at; rewrite u32_small, Ek; lia).
  rewrite Eh. apply (otp_copy32_octets m _ 4); [apply PV| |lia|lia].
  replace (_ + _) with (key_data_at j + 1 * 4) by lia. by rewrite Z_mod_plus_full.
Qed.

Lemma validate_true p s :
  0 <= p < 4294967296 -> provisioned ks cs (mem s) -> torn_ok s ->
  runs (bl_validate_firmware_local PM_S0_SIZE (fw_info_address (mem s) p) (Some p)) s
    (fun b s' => b = true -> exists vi k, wellformed (mem s) p vi /\ signed (mem s) p vi k /\
       forall x, 0 <= x < k -> key_is_valid (mem s') x = Some false)
    (fun w _ => w = Panic \/ w = PowerLoss).
Proof.
  intros Hp PV Ht. unfold bl_validate_firmware_local, validate_firmware. apply runs_reads.
  destruct (validate_info _ _ _ _ _ _) as [vi|] eqn:Ei; [|done].
  apply validate_info_found in Ei; [|apply PV|done]. apply runs_reads. unfold validate_signature. cbn [ctrue bl_crypto_init].
  apply runs_panics; [|by left]. intros r Er. destruct (ctrue r); [done|]. apply runs_reads.
  eapply runs_mono; [by apply signature_loop_true| |done]. intros b s' Hb Et.
  destruct (Hb Et) as (j & kd & Hj & Ed & Ev & Hinv). exists vi, j. split; [done|]. split; [|done].
  apply key_data_read_found in Ed as [Hk ->]; [|done|lia]. apply root_of_trust_zero in Ev as [E1 E2].
  split; [done| |done]. rewrite <- E1. apply take_ge. unfold octets. rewrite length_fmap, length_seqZ. lia.
Qed.

(** ** The stored version *)

Lemma stored_version_value m : provisioned ks cs m ->
  stored_version m = Z.shiftr (default 0 (counter_value ks cs m BL_MONOTONIC_COUNTERS_DESC_NSIB)) 1.
Proof.
  intros PV. unfold stored_version, get_monotonic_version. cbn [negb]. rewrite (get_monotonic_counter_spec ks cs m PV).
  by destruct (counter_value ks cs m _).
Qed.

Lemma stored_version_mono m m' : provisioned ks cs m -> wear ks cs m m' -> stored_version m <= stored_version m'.
Proof.
  intros PV W. pose proof (wear_provisioned _ _ _ _ PV W) as PV'.
  rewrite (stored_version_value m PV), (stored_version_value m' PV'), !Z.shiftr_div_pow2 by lia.
  apply Z.div_le_mono; [lia|]. destruct (counter_value ks cs m _) as [v|] eqn:E.
  - by destruct (wear_counter _ _ _ _ _ _ PV W E) as (v' & -> & Hle).
  - unfold counter_value in *. by destruct (find_counter _ _ _) as [[? ?]|].
Qed.

(** The counter of the version has a free slot. *)
Definition has_free (m : memory) : Prop :=
  exists q n b, find_counter (counters_start ks) cs BL_MONOTONIC_COUNTERS_DESC_NSIB = Some (q, n) /\ n <> 65535 /\
    free_at (q + 4) (slot_values m (q + 4) (Z.to_nat n)) = Some b.

Lemma free_at_mono m m' a b n :
  octets_ok m -> octets_ok m' -> (forall x, a <= x < a + 2 * Z.of_nat n -> m' x <= m x) ->
  free_at b (slot_values m' a n) <> None -> free_at b (slot_values m a n) <> None.
Proof.
  intros Ho Ho'. revert a b. induction n as [|n IH]; intros a b Hx; cbn; [done|].
  pose proof (half_le m m' a ltac:(apply Hx; lia) ltac:(apply Hx; lia)). pose proof (half_range m a Ho). pose proof (half_range m' a Ho').
  destruct (Z.eqb_spec (65535 - half m a) 0); [done|]. destruct (Z.eqb_spec (65535 - half m' a) 0); [lia|].
  apply IH. intros x Hr. apply Hx. lia.
Qed.

Lemma has_free_mono m m' : provisioned ks cs m -> wear ks cs m m' -> has_free m' -> has_free m.
Proof.
  intros PV W (q & n & b & Ef & Hn & Eb). pose proof W as [Wo Wd _].
  destruct (free_at (q + 4) (slot_values m (q + 4) (Z.to_nat n))) as [b'|] eqn:E; [by exists q, n, b'|].
  exfalso. revert E. apply (free_at_mono m m'); [apply PV|done| |by rewrite Eb].
  apply find_counter_place in Ef as (Hr & Hle & Hend & _ & _); [|apply PV]. intros x Hx. apply Wd.
  pose proof (pv_keys _ _ _ PV). unfold storage_end, counters_start, collection_at in *. lia.
Qed.

Lemma level_insert vs a i w : free_at a vs = Some (a + 2 * Z.of_nat i) -> w <> 0 -> w <= level (<[i := w]> vs).
Proof.
  revert a i. induction vs as [|v vs IH]; intros a i; cbn; [done|]. intros E Hw. destruct (Z.eqb_spec v 0) as [->|Hv].
  - injection E as E. replace i with O by lia. cbn. destruct (Z.eqb_spec w 0); lia.
  - destruct i as [|i].
    + apply free_at_place in E as (j & Ej & Hj). lia.
    + cbn. destruct (Z.eqb_spec v 0); [done|]. specialize (IH (a + 2) i). rewrite E in IH.
      etransitivity; [exact (IH ltac:(f_equal; lia) Hw)|apply Z.le_max_r].
Qed.

Lemma version_counter v (slot : Z) : 0 <= v <= 32767 ->
  2 * v <= u16 (Z.lor (Z.shiftl v 1) (if slot =? 0 then 1 else 0)) < 65536 /\
  u16 (Z.lor (Z.shiftl v 1) (if slot =? 0 then 1 else 0)) / 2 = v.
Proof.
  intros Hv. assert (E : Z.lor (Z.shiftl v 1) (if slot =? 0 then 1 else 0) = 2 * v + (if slot =? 0 then 1 else 0)).
  { rewrite Z.shiftl_mul_pow2, Z.mul_comm by lia. change (2 ^ 1) with 2. destruct (slot =? 0); [|by rewrite Z.lor_0_r, Z.add_0_r].
    destruct v as [|v|v]; [done|done|lia]. }
  rewrite E. destruct (slot =? 0); rewrite u16_small by lia; (split; [lia|]).
  - symmetry. apply (Z.div_unique _ _ _ 1); lia.
  - symmetry. apply (Z.div_unique _ _ _ 0); lia.
Qed.

Lemma set_version_records v slot s :
  0 <= v <= 32767 -> provisioned ks cs (mem s) -> torn_ok s -> has_free (mem s) -> stored_version (mem s) < v ->
  runs (set_monotonic_version v slot) s (fun _ s' => v <= stored_version (mem s')) (fun w _ => w = PowerLoss).
Proof.
  intros Hv PV Ht (q & n & b & Ef & Hn & Eb) Hlt. pose proof (pv_octets _ _ _ PV) as Ho. destruct (version_counter v slot Hv) as [Hc Hd].
  unfold set_monotonic_version. apply runs_reads. rewrite (num_slots_spec ks cs _ PV), Ef. destruct (Z.eqb_spec n 65535); [done|].
  cbn [Z.eqb negb]. case_bool_decide as E0; [injection E0 as ->; done|]. apply runs_bind. unfold set_monotonic_counter. apply runs_reads.
  rewrite (get_counter_spec ks cs _ PV), Ef. cbv beta iota zeta.
  rewrite (stored_version_value _ PV) in Hlt. unfold counter_value in Hlt. rewrite Ef in Hlt. cbn [mbind option_bind default from_option id] in Hlt.
  set (vs := slot_values (mem s) (q + 4) (Z.to_nat n)) in *. set (c := u16 _) in *.
  rewrite Z.shiftr_div_pow2 in Hlt by lia. change (2 ^ 1) with 2 in Hlt. pose proof (Z_div_mod_eq_full (level vs) 2).
  pose proof (Z.mod_pos_bound (level vs) 2 ltac:(lia)). destruct (Z.leb_spec c (level vs)); [lia|]. rewrite Eb.
  destruct (free_slot_place ks cs _ _ _ _ _ PV Ef Eb) as [Hev Hb]. pose proof (free_at_place _ _ _ Eb) as (i & Ei & Hi).
  unfold vs in Hi. rewrite length_slot_values in Hi.
  pose proof (free_at_half _ _ _ _ Eb) as Hff.
  apply runs_bind, runs_write; [by left|apply PV|done| |done]. intros s' _ _ Hw Hx.
  assert (PV' : provisioned ks cs (mem s')).
  { apply (wear_provisioned ks cs (mem s)); [done|]. eapply written_wear; [apply PV|done|]. intros y Hy Hfx. by destruct (Hb y Hy) as [_ []]. }
  unfold runs. cbn. rewrite (stored_version_value _ PV'). unfold counter_value. rewrite Ef. cbn [mbind option_bind default from_option id].
  rewrite (slot_values_write (mem s) (mem s') (q + 4) (Z.to_nat n) i); [|lia|].
  - rewrite <- Ei, (slot_stored (mem s) b c (mem s') Ho Hff ltac:(lia) Hx). fold vs.
    pose proof (level_insert vs (q + 4) (Z.to_nat i) c ltac:(rewrite Eb, Ei; f_equal; lia) ltac:(pose proof (level_nonneg vs); lia)) as Hl.
    rewrite Z.shiftr_div_pow2 by lia. rewrite <- Hd. apply Z.div_le_mono; [lia|done].
  - intros y Hy. specialize (Hw y). by rewrite bool_decide_eq_false_2 in Hw by lia.
Qed.

Lemma set_version_stops v slot s :
  runs (set_monotonic_version v slot) s (fun _ _ => True) (fun w _ => w = PowerLoss).
Proof.
  unfold set_monotonic_version. apply runs_reads. destruct (num_monotonic_counter_slots _ _ _) as [e n].
  destruct (negb _); [done|]. case_bool_decide; [done|]. apply runs_bind. unfold set_monotonic_counter. apply runs_reads.
  destruct (get_counter _ _ _) as [e' [[x f]|]]; [|done]. destruct (_ <=? _); [done|]. destruct f as [a|]; [|done].
  unfold runs, mbind, boot_bind, bl_storage_counter_set, nvm_write. by destruct (lasts s).
Qed.

(** ** What is started *)

(** The information of a firmware in a slot, with its surroundings, is apart
    from the storage and the RAM. *)
Definition in_slot (p : Z) : Prop :=
  p mod 4 = 0 /\ 4096 <= p /\ p + 8192 <= 4294967296 /\
  forall x, p - 4096 <= x < p + 8192 -> ~ stored_at ks cs x /\ ~ ram x.

Lemma fw_info_search_place m a offsets p :
  fw_info_search m a offsets = Some p -> exists o, o ∈ offsets /\ p = u32 (a + o) /\ octets m p 12 = FIRMWARE_INFO_MAGIC.
Proof.
  induction offsets as [|o l IH]; cbn; [done|]. unfold fw_info_check. case_bool_decide as E.
  - intros [= <-]. exists o. by split; [left|].
  - intros Ef. destruct (IH Ef) as (o' & Ho & Ep). exists o'. by split; [right|].
Qed.

Lemma offsets_small o : o ∈ fw_info_allowed_offsets -> 0 <= o <= 4096 /\ o mod 4 = 0.
Proof.
  intros Ho. assert (Hf : Forall (fun o => 0 <= o <= 4096 /\ o mod 4 = 0) fw_info_allowed_offsets) by (repeat constructor; lia).
  by apply (proj1 (Forall_forall _ _) Hf).
Qed.

Lemma slot_info m s p :
  placed m -> s = s0_address_read m \/ s = s1_address_read m -> fw_info_find m s = Some p -> in_slot p.
Proof.
  intros PL Hs Ef. destruct (pl_slots _ PL s Hs) as (Hm & Hlo & Hhi & Hx).
  apply fw_info_search_place in Ef as (o & Ho & -> & _). apply offsets_small in Ho as [Ho Hom].
  rewrite u32_small by lia. split; [by rewrite Z.add_mod, Hm, Hom|]. split; [lia|]. split; [lia|].
  intros x Hr. apply Hx. lia.
Qed.

Lemma load_spared P m m' a :
  spares ks cs P m m' -> (forall x, a <= x < a + 4 -> ~ stored_at ks cs x /\ ~ P x) -> 0 <= a -> a + 4 <= 4294967296 ->
  load m' a = load m a.
Proof.
  intros Hs Hx H0' Hle. unfold load. rewrite u32_small by lia. apply word_same. intros x Hr. destruct (Hx x Hr). by apply Hs.
Qed.

Lemma info_spared P m m' p o :
  in_slot p -> spares ks cs P m m' -> (forall x, P x -> ram x) -> 0 <= o <= 56 -> load m' (p + o) = load m (p + o).
Proof.
  intros (_ & Hlo & Hhi & Hx) Hs HP Ho. apply (load_spared P); [done| |lia|lia].
  intros x Hr. destruct (Hx x ltac:(lia)) as [H1' H2']. split; [done|]. intros Hp. by apply H2', HP.
Qed.

Lemma bl_boot_jump p s :
  runs (bl_boot p) s (fun _ _ => True)
    (fun w m' => match w with
                 | Jump vt msp reset => vt = fw_info_address (mem s) p /\ msp = load m' vt /\ reset = load m' (vt + 4)
                 | _ => True
                 end).
Proof.
  unfold bl_boot. destruct (_ && _); [done|]. apply runs_reads, runs_bind. unfold runs.
  pose proof (ext_api_provide_stops (Some p) true s) as Hp. unfold runs in Hp.
  destruct (fw_info_ext_api_provide (Some p) true s) as [b s'|w m'].
  - by destruct b.
  - by destruct w.
Qed.

(** A jump of [validate_and_boot]. *)
Definition started (m m' : memory) (p vt msp reset : Z) : Prop :=
  (exists vi k, wellformed m p vi /\ signed m p vi k /\ forall x, 0 <= x < k -> key_is_valid m' x = Some false) /\
  vt = fw_info_address m p /\ msp = load m' vt /\ reset = load m' (vt + 4) /\ spares ks cs ram m m' /\
  (has_free m' -> fw_info_version m p <= 32767 -> fw_info_version m p <= stored_version m').

Lemma validate_and_boot_jump p slot s :
  in_slot p -> (forall x, stored_at ks cs x -> ~ ram x) -> provisioned ks cs (mem s) -> torn_ok s ->
  runs (validate_and_boot (Some p) slot) s (fun _ _ => True)
    (fun w m' => match w with Jump vt msp reset => started (mem s) m' p vt msp reset | _ => True end).
Proof.
  intros Hp Hram PV Ht. unfold validate_and_boot. apply runs_reads, runs_bind.
  eapply runs_mono; [exact (runs_and _ _ _ _ _ _ (validate_firmware_keeps (fun _ => False) _ _ _ _ false s PV Ht)
    (validate_true p s ltac:(unfold in_slot in Hp; lia) PV Ht))| |intros w m' [_ [->| ->]]; done].
  intros b s1 [[[W1 S1] Ht1] Hb]. pose proof (wear_provisioned _ _ _ _ PV W1) as PV1.
  assert (I1 : forall o, 0 <= o <= 56 -> load (mem s1) (p + o) = load (mem s) (p + o))
    by (intros o Ho; by apply (info_spared (fun _ => False))).
  destruct b; cbn [negb].
  2:{ unfold fw_info_invalidate. apply runs_reads. destruct (_ =? _); [|done]. unfold runs, nvm_write. by destruct (lasts s1). }
  destruct (Hb eq_refl) as (vi & k & Hwf & Hsg & Hinv). apply runs_reads, runs_reads, runs_bind.
  change (default 0 _) with (stored_version (mem s1)).
  set (c := if stored_version (mem s1) <? fw_info_version (mem s1) p then _ else _).
  assert (Kc : keeps ks cs (fun _ => False) c)
    by (unfold c; destruct (_ <? _); [apply set_monotonic_version_keeps|apply mem_keeps_ret]).
  assert (Rc : runs c s1 (fun _ s2 => has_free (mem s1) -> fw_info_version (mem s) p <= 32767 ->
      fw_info_version (mem s) p <= stored_version (mem s2)) (fun w _ => forall vt msp reset, w <> Jump vt msp reset)).
  { unfold c. replace (fw_info_version (mem s1) p) with (fw_info_version (mem s) p) by (symmetry; apply I1; lia).
    pose proof (load_range (mem s) (p + 20) (pv_octets _ _ _ PV)) as Hr. fold (fw_info_version (mem s) p) in Hr.
    destruct (Z.ltb_spec (stored_version (mem s1)) (fw_info_version (mem s) p)) as [Hlt|Hge]; [|intros _ _; exact Hge].
    pose proof (set_version_stops (u16 (fw_info_version (mem s) p)) slot s1) as Hs. unfold runs in Hs |- *.
    destruct (set_monotonic_version _ _ s1) as [e s2|w m2] eqn:Ec; [|intros vt msp reset Ew; by rewrite Ew in Hs].
    intros Hf Hv. rewrite u16_small in Ec by lia.
    pose proof (set_version_records (fw_info_version (mem s) p) slot s1 ltac:(lia) PV1 Ht1 Hf Hlt) as Hw.
    unfold runs in Hw. by rewrite Ec in Hw. }
  eapply runs_mono; [exact (runs_and _ _ _ _ _ _ (Kc s1 PV1 Ht1) Rc)| |intros w m' [_ Hw]; destruct w; try done; by destruct (Hw vector_table msp reset)].
  intros e s2 [[[W2 S2] Ht2] Hrec]. pose proof (wear_provisioned _ _ _ _ PV1 W2) as PV2.
  assert (I2 : forall o, 0 <= o <= 56 -> load (mem s2) (p + o) = load (mem s) (p + o))
    by (intros o Ho; rewrite <- I1 by done; by apply (info_spared (fun _ => False))).
  eapply runs_mono; [exact (runs_and _ _ _ _ _ _ (bl_boot_keeps ram ltac:(done) Hram p s2 PV2 Ht2) (bl_boot_jump p s2))|done|].
  intros w m' [[W3 S3] Hw]. destruct w; try done. destruct Hw as (-> & -> & ->). unfold started.
  assert (Ea : fw_info_address (mem s2) p = fw_info_address (mem s) p) by (apply I2; lia). rewrite Ea.
  assert (Hns : forall m1 m2, spares ks cs (fun _ => False) m1 m2 -> spares ks cs ram m1 m2) by (intros m1 m2 Hs x Hx _; apply Hs; tauto).
  split; [|split; [done|split; [done|split; [done|split]]]].
  2:{ eapply spares_trans; [by apply Hns|]. eapply spares_trans; [by apply Hns|done]. }
  - exists vi, k. split; [done|]. split; [done|]. intros x Hx. apply (wear_key ks cs (mem s2)); [done|done|lia|].
    apply (wear_key ks cs (mem s1)); [done|done|lia|]. by apply Hinv.
  - intros Hf Hv. etransitivity; [apply Hrec; [|done]|by apply stored_version_mono].
    apply (has_free_mono (mem s1) m'); [done|by eapply wear_trans|done].
Qed.

Lemma octets_same m m' a n :
  (forall x, a <= x < a + n -> m' x = m x) -> 0 <= a -> a + n <= 4294967296 -> octets m' a n = octets m a n.
Proof.
  intros Hx H0' Hle. unfold octets. apply list_fmap_ext. intros i x Ei. apply list_elem_of_lookup_2, elem_of_seqZ in Ei.
  apply Hx. rewrite u32_small by lia. lia.
Qed.

Lemma fw_info_find_same m m' a :
  (forall x, a <= x < a + 4112 -> m' x = m x) -> 0 <= a -> a + 4112 <= 4294967296 -> fw_info_find m' a = fw_info_find m a.
Proof.
  intros Hx H0' Hle. unfold fw_info_find.
  assert (Hl : forall l, (forall o, o ∈ l -> 0 <= o <= 4096) -> fw_info_search m' a l = fw_info_search m a l).
  { induction l as [|o l IH]; intros Ho; [done|]. cbn [fw_info_search]. specialize (Ho o ltac:(by left)) as Ho'.
    unfold fw_info_check. change CONFIG_FW_INFO_MAGIC_LEN with 12. rewrite (u32_small (a + o)) by lia.
    rewrite (octets_same m m') by (intros; try apply Hx; lia). rewrite IH; [done|]. intros o' H'. apply Ho. by right. }
  apply Hl. intros o Ho. by apply offsets_small.
Qed.

(** The version of a firmware in the memory, as its start names it. *)
Definition version_at (m : memory) (vt v : Z) : Prop := exists p, fw_info_find m vt = Some p /\ v = fw_info_version m p.

Lemma started_version m m' p vt msp reset v :
  octets_ok m -> in_slot p -> started m m' p vt msp reset -> version_at m' vt v -> v = fw_info_version m p.
Proof.
  intros Ho' Hp ((vi & k & Hwf & _ & _) & -> & _ & _ & Hs & _) (p' & Ef & ->).
  pose proof (load_range m (p + 24) Ho') as Ra. fold (fw_info_address m p) in Ra.
  pose proof (wf_found _ _ _ Hwf) as Ef0. pose proof (wf_start _ _ _ Hwf) as Hst.
  pose proof (fw_info_search_place _ _ _ _ Ef0) as (o & Ho & Eo & _). apply offsets_small in Ho as [Ho _].
  destruct Hp as (Hm & Hlo & Hhi & Hx). assert (Hd : p <= fw_info_address m p + 4096).
  { destruct (Z.lt_ge_cases (fw_info_address m p + o) 4294967296).
    - rewrite u32_small in Eo by lia. lia.
    - lia. }
  rewrite (fw_info_find_same m m') in Ef; [|intros x Hr; destruct (Hx x ltac:(lia)); by apply Hs|lia|lia].
  rewrite Ef0 in Ef. injection Ef as <-. unfold fw_info_version. by apply (info_spared ram).
Qed.

Lemma slot_address_fixed m m' : provisioned ks cs m -> wear ks cs m m' ->
  s0_address_read m' = s0_address_read m /\ s1_address_read m' = s1_address_read m.
Proof.
  intros PV W. pose proof (pv_base _ _ _ PV) as [Hm Hb]. pose proof (counters_size_nonneg _ (pv_sizes _ _ _ PV)).
  pose proof (pv_keys _ _ _ PV).
  assert (Hw : forall a, a = PM_PROVISION_ADDRESS + 40 \/ a = PM_PROVISION_ADDRESS + 44 ->
    bl_storage_word_read m' a = bl_storage_word_read m a).
  { intros a Ha. unfold bl_storage_word_read.
    assert (a mod 4 = 0) by (destruct Ha as [->| ->]; rewrite Z.add_mod, Hm by lia; done).
    rewrite !word_read_law by done. f_equal. apply word_same. intros x Hx. apply (wear_fixed _ _ _ _ W).
    unfold fixed, storage_end, counters_start, collection_at. split; [lia|]. split; [lia|].
    intros Hs. apply slot_octet_range in Hs; [lia|apply PV]. }
  split; apply Hw; unfold s0_address_at, s1_address_at; lia.
Qed.

Lemma placed_wear m m' : placed m -> wear ks cs m m' -> placed m'.
Proof.
  intros [PV Hr Hs] W. destruct (slot_address_fixed _ _ PV W) as [E0 E1].
  split; [by apply (wear_provisioned _ _ _ _ PV W)|done|]. rewrite E0, E1. exact Hs.
Qed.

(** The outcome of a boot from [m]: the storage wears down, and a firmware that
    is started was found in order in a memory between. *)
Definition boot_outcome (m : memory) (w : halt) (m' : memory) : Prop :=
  wear ks cs m m' /\
  match w with
  | Jump vt msp reset => exists m1 p, wear ks cs m m1 /\ in_slot p /\ started m1 m' p vt msp reset
  | _ => True
  end.

Lemma attempt_outcome m s p slot :
  placed m -> wear ks cs m (mem s) -> torn_ok s -> (forall q, p = Some q -> in_slot q) ->
  runs (validate_and_boot p slot) s (fun _ s' => wear ks cs m (mem s') /\ torn_ok s') (boot_outcome m).
Proof.
  intros PL W Ht Hq. pose proof (placed_wear _ _ PL W) as [PV Hr _].
  set (P := fun x => ram x \/ exists q, p = Some q /\ q + 32 <= x < q + 36).
  assert (K : keeps ks cs P (validate_and_boot p slot)).
  { apply validate_and_boot_keeps; [by left|done|]. intros q Eq. destruct (Hq q Eq) as (Hm & Hlo & Hhi & Hx).
    split; [|lia]. intros x Hx'. split; [right; by exists q|]. apply Hx. lia. }
  specialize (K s PV Ht). destruct p as [q|].
  - pose proof (validate_and_boot_jump q slot s (Hq q eq_refl) Hr PV Ht) as J.
    eapply runs_mono; [exact (runs_and _ _ _ _ _ _ K J)| |].
    + intros [] s' [[[W' _] Ht'] _]. split; [by eapply wear_trans|done].
    + intros w m' [[W' _] Hw]. split; [by eapply wear_trans|]. destruct w; try done. by exists (mem s), q; split_and!; [|apply Hq|].
  - split; done.
Qed.

Lemma main_outcome s : placed (mem s) -> torn_ok s ->
  runs main s (fun _ s' => wear ks cs (mem s) (mem s')) (boot_outcome (mem s)).
Proof.
  intros PL Ht. pose proof PL as [PV Hr _]. pose proof (wear_refl ks cs (mem s) (pv_octets _ _ _ PV)) as W0.
  unfold main. destruct (_ && _); [done|]. do 4 apply runs_reads.
  assert (H0' : forall q, fw_info_find (mem s) (s0_address_read (mem s)) = Some q -> in_slot q)
    by (intros q; apply slot_info; [done|by left]).
  assert (H1' : forall q, fw_info_find (mem s) (s1_address_read (mem s)) = Some q -> in_slot q)
    by (intros q; apply slot_info; [done|by right]).
  set (i0 := fw_info_find (mem s) (s0_address_read (mem s))) in *. set (i1 := fw_info_find (mem s) (s1_address_read (mem s))) in *.
  assert (Hboth : forall b : bool, runs ((if b
     then validate_and_boot i0 BOOT_SLOT_0 ≫= fun _ => validate_and_boot i1 BOOT_SLOT_1
     else validate_and_boot i1 BOOT_SLOT_1 ≫= fun _ => validate_and_boot i0 BOOT_SLOT_0) ≫= fun _ => mret 0) s
     (fun _ s' => wear ks cs (mem s) (mem s')) (boot_outcome (mem s))).
  { intros [|]; apply runs_bind, runs_bind; (eapply runs_mono; [by apply (attempt_outcome (mem s))| |done]);
      intros [] s1 [W1 Ht1]; (eapply runs_mono; [by apply (attempt_outcome (mem s))| |done]); intros [] s2 [W2 _]; exact W2. }
  apply runs_bind. destruct i0 as [q0|], i1 as [q1|]; try apply Hboth. by split.
Qed.

(** Everything that may happen to a device: boots, whatever they start and
    however they end, and operations on the storage and changes of the rest of
    the memory in between; with the versions that are started. *)
Inductive life `{Fih} : memory -> list Z -> memory -> Prop :=
  | life_nil m : life m [] m
  | life_start s vt msp reset m1 v : torn_ok s -> main s = Stop (Jump vt msp reset) m1 -> version_at m1 vt v ->
      forall vs m2, life m1 vs m2 -> life (mem s) (v :: vs) m2
  | life_boot s m1 : torn_ok s -> ends (main s) m1 -> (forall vt msp reset, main s <> Stop (Jump vt msp reset) m1) ->
      forall vs m2, life m1 vs m2 -> life (mem s) vs m2
  | life_other m m1 : history ks cs m m1 -> forall vs m2, life m1 vs m2 -> life m vs m2.

Lemma boot_wear s m1 : placed (mem s) -> torn_ok s -> ends (main s) m1 -> wear ks cs (mem s) m1.
Proof.
  intros PL Ht E. pose proof (main_outcome s PL Ht) as Ho. unfold runs in Ho. unfold ends in E.
  destruct (main s); subst; [done|by destruct Ho].
Qed.

Lemma life_wear `{Fih} m vs m' : placed m -> life m vs m' -> wear ks cs m m'.
Proof.
  intros PL Hl. induction Hl as [m|s vt msp reset m1 v Ht E _ vs m2 _ IH|s m1 Ht E _ vs m2 _ IH|m m1 Hh vs m2 _ IH].
  - apply wear_refl, pl_provisioned, PL.
  - pose proof (boot_wear s m1 PL Ht ltac:(by rewrite E)) as W.
    eapply wear_trans; [exact W|]. by apply IH, (placed_wear (mem s)).
  - pose proof (boot_wear s m1 PL Ht E) as W. eapply wear_trans; [exact W|]. by apply IH, (placed_wear (mem s)).
  - pose proof (history_wear ks cs m m1 (pl_provisioned _ PL) Hh) as W.
    eapply wear_trans; [exact W|]. by apply IH, (placed_wear m).
Qed.

Lemma life_versions `{Fih} m vs m' : placed m -> life m vs m' -> has_free m' -> Forall (fun v => v <= 32767) vs ->
  Forall (fun v => stored_version m <= v) vs /\ StronglySorted Z.le vs /\ Forall (fun v => v <= stored_version m') vs.
Proof.
  intros PL Hl Hf. revert PL. induction Hl as [m|s vt msp reset m1 v Ht E Hv vs m2 Hl IH|s m1 Ht E _ vs m2 Hl IH|m m1 Hh vs m2 Hl IH];
    intros PL Hsm.
  - split; [done|]. split; [constructor|done].
  - pose proof (main_outcome s PL Ht) as Ho. unfold runs in Ho. rewrite E in Ho. destruct Ho as (W & m0 & p & W0 & Hp & Hst).
    pose proof (placed_wear _ _ PL W) as PL1. pose proof (life_wear _ _ _ PL1 Hl) as W1. inversion Hsm as [|? ? Hv1 Hsm']; subst.
    pose proof (started_version _ _ _ _ _ _ _ (wear_octets _ _ _ _ W0) Hp Hst Hv) as ->.
    destruct (IH Hf PL1 Hsm') as (I1 & I2 & I3). destruct Hst as ((vi & k & Hwf & _) & _ & _ & _ & _ & Hrec).
    specialize (Hrec (has_free_mono _ _ (pl_provisioned _ PL1) W1 Hf) Hv1). pose proof (wf_version _ _ _ Hwf).
    pose proof (stored_version_mono _ _ (pl_provisioned _ PL) W0). pose proof (stored_version_mono _ _ (pl_provisioned _ PL) W).
    pose proof (stored_version_mono _ _ (pl_provisioned _ PL1) W1). split; [|split].
    + constructor; [lia|]. eapply Forall_impl; [exact I1|]. cbn. lia.
    + constructor; [done|]. eapply Forall_impl; [exact I1|]. cbn. lia.
    + constructor; [lia|done].
  - pose proof (boot_wear s m1 PL Ht E) as W. pose proof (placed_wear _ _ PL W) as PL1.
    destruct (IH Hf PL1 Hsm) as (I1 & I2 & I3). pose proof (stored_version_mono _ _ (pl_provisioned _ PL) W).
    split; [|done]. eapply Forall_impl; [exact I1|]. cbn. lia.
  - pose proof (history_wear ks cs m m1 (pl_provisioned _ PL) Hh) as W. pose proof (placed_wear _ _ PL W) as PL1.
    destruct (IH Hf PL1 Hsm) as (I1 & I2 & I3). pose proof (stored_version_mono _ _ (pl_provisioned _ PL) W).
    split; [|done]. eapply Forall_impl; [exact I1|]. cbn. lia.
Qed.

(** ** A firmware in order is started *)














End Trust.

(** ** The theorems *)

(** C1: While the version counter has free slots, and as long as no started
    firmware has a version above 32767, the largest one of the 15 bits the counter
    has for it, there is no way back to an older firmware. Whatever boots and
    operations a device goes through, with any contents of the flash and the supply
    failing at any write, the versions of the started firmware never decrease, none
    is below the version stored at first, and none is above the one stored at last.
    (A longer version is truncated when it is stored, and opens the way back:
    [BootDemo.long_version_truncated].) *)
Theorem no_rollback `{Nvmc, ProvisionConfig, FwConfig, Ocrypto, BootConfig, Fih} ks cs m vs m' :
  placed ks cs m -> life ks cs m vs m' -> has_free ks cs m' -> Forall (fun v => v <= 32767) vs ->
  StronglySorted Z.le vs /\ Forall (fun v => stored_version m <= v <= stored_version m') vs.
Proof.
  intros PL Hl Hf Hv. destruct (life_versions ks cs m vs m' PL Hl Hf Hv) as (HA & HB & HC). split; [done|].
  by apply Forall_and.
Qed.

(** C2: The bootloader starts only firmware that is signed. If it jumps, then
    with the memory as it was at some point of this boot there is a firmware in
    a slot, well formed and not older than the stored version, whose double
    hash has a valid signature by the key that a valid entry of the storage has
    the hash of; up to the jump nothing but the storage and the RAM changed, all
    keys before that entry are invalid, and the reset handler is that of the
    firmware. *)
Theorem only_signed_is_started `{Nvmc, ProvisionConfig, FwConfig, Ocrypto, BootConfig} ks cs s vt msp reset m' :
  placed ks cs (mem s) -> torn_ok s -> main s = Stop (Jump vt msp reset) m' ->
  exists m p vi k, wear ks cs (mem s) m /\ wear ks cs (mem s) m' /\ in_slot ks cs p /\
    wellformed m p vi /\ signed ks m p vi k /\ spares ks cs ram m m' /\
    (forall x, 0 <= x < k -> key_is_valid m' x = Some false) /\
    vt = fw_info_address m p /\ reset = load m' (vt + 4) /\
    (fw_info_boot_address m p = vt -> vt <= reset < vt + fw_info_size m p).
Proof.
  intros PL Ht E. pose proof (main_outcome ks cs s PL Ht) as Ho. unfold runs in Ho. rewrite E in Ho.
  destruct Ho as (W & m & p & W1 & Hp & (vi & k & Hwf & Hsg & Hinv) & -> & _ & -> & Hs & _).
  exists m, p, vi, k. do 9 (split; [done|]). intros Eb. pose proof (wf_reset _ _ _ Hwf) as Hr. rewrite Eb in Hr.
  pose proof (wf_start _ _ _ Hwf) as Hst. pose proof (fw_info_search_place _ _ _ _ (wf_found _ _ _ Hwf)) as (o & Ho & Eo & _).
  apply offsets_small in Ho as [Ho _]. destruct Hp as (_ & Hlo & Hhi & Hx).
  pose proof (load_range m (p + 24) (wear_octets _ _ _ _ W1)) as Ra. fold (fw_info_address m p) in Ra.
  rewrite (load_spared ks cs ram m m'); [done|done| |lia|].
  - intros x Hx'. apply Hx. destruct (Z.lt_ge_cases (fw_info_address m p + o) 4294967296); [rewrite u32_small in Eo by lia|]; lia.
  - lia.
Qed.


(** ** An example *)

Module BootDemo.
Export StorageDemo.

(** A hash and a signature that are easy to evaluate. *)
Definition toy_hash (data : list Z) : list Z := replicate 32 (u8 (foldr Z.add 0 data)).
#[export] Instance crypto : Ocrypto.
Proof.
  refine {|
    ocrypto_sha256 := toy_hash;
    ocrypto_constant_time_equal x y n := bool_decide (take (Z.to_nat n) x = take (Z.to_nat n) y);
    ocrypto_ecdsa_p256_verify_hash signature hash key := if bool_decide (take 1 signature = take 1 hash) then 0 else -1 |}.
  - reflexivity.
  - reflexivity.
  - intros signature hash key. case_bool_decide; auto.
Defined.

Definition le32 (v : Z) : list Z := [octet v 0; octet v 1; octet v 2; octet v 3].

#[export] Instance fw_config : FwConfig.
Proof.
  refine {|
    FIRMWARE_INFO_MAGIC := le32 0x281ee6de ++ le32 0x8fcebb4c ++ le32 0x00003402;
    EXT_API_MAGIC := le32 0x281ee6de ++ le32 0xb845acea ++ le32 0x00003402;
    VALIDATION_INFO_MAGIC := le32 0x281ee6de ++ le32 0x86518483 ++ le32 0x00003402;
    CONFIG_FW_INFO_VALID_VAL := 0x9102FFFF; fw_info_images := [0x10000; 0x20000];
    ram_start := 0x100000; ram_end := 0x110000 |}; done.
Defined.

#[export] Instance boot_config : BootConfig := {|
  protects_storage := false; CONFIG_FPROTECT := true; PM_B0_ADDRESS := 0; PM_B0_SIZE := 0x8000;
  PM_PROVISION_SIZE := 0x1000; PM_S0_SIZE := Some 0x10000; fprotect_area _ _ := 0 |}.

(** An image with its information at 0x200, and the signature behind it. *)
Definition image (address version boot : Z) : list Z :=
  le32 0x108000 ++ le32 (address + 0x11) ++ replicate 504 0
  ++ FIRMWARE_INFO_MAGIC ++ le32 60 ++ le32 576 ++ le32 version ++ le32 address ++ le32 boot ++ le32 0x9102FFFF ++ replicate 24 0
  ++ replicate 4 0.
Definition signed_image (address version boot : Z) (key : list Z) : list Z :=
  let code := image address version boot in
  code ++ VALIDATION_INFO_MAGIC ++ le32 address ++ replicate 32 0 ++ key ++ take 64 (toy_hash (toy_hash code) ++ replicate 32 0).

(** The public key that the first entry of the storage has the hash of. *)
Definition key0 : list Z := 3 :: replicate 63 0.

Definition flash (slot0 slot1 : list Z) : memory := fun x =>
  if bool_decide (0x20000 <= x) then zth slot1 (x - 0x20000)
  else if bool_decide (0x10000 <= x) then zth slot0 (x - 0x10000)
  else demo_mem x.

Definition fw5 : list Z := signed_image 0x10000 5 0x10000 key0.
Definition demo_flash : memory := flash fw5 [].

Lemma flash_octets slot0 slot1 : Forall (fun v => 0 <= v < 256) slot0 -> Forall (fun v => 0 <= v < 256) slot1 -> octets_ok (flash slot0 slot1).
Proof.
  intros F0 F1 x. unfold flash. repeat case_bool_decide; [by apply (zth_Forall (fun v => 0 <= v < 256)); [lia|].. |apply demo_octets].
Qed.

Lemma flash_placed slot0 slot1 :
  Forall (fun v => 0 <= v < 256) slot0 -> Forall (fun v => 0 <= v < 256) slot1 -> placed 2 demo_counters (flash slot0 slot1).
Proof.
  intros F0 F1. assert (W : wear 2 demo_counters demo_mem (flash slot0 slot1)).
  { apply outside_wear; [apply demo_provisioned|by apply flash_octets|]. intros x. change (storage_end 2 demo_counters) with 0x806E.
    cbn [PM_PROVISION_ADDRESS provision]. intros Hx. unfold flash. by rewrite !bool_decide_eq_false_2 by lia. }
  assert (PV := wear_provisioned _ _ _ _ demo_provisioned W). destruct (slot_address_fixed 2 demo_counters _ _ demo_provisioned W) as [E0 E1].
  split; [done| |].
  - intros x. unfold stored_at, ram. change (storage_end 2 demo_counters) with 0x806E. cbn. lia.
  - rewrite E0, E1. change (s0_address_read demo_mem) with 0x10000. change (s1_address_read demo_mem) with 0x20000.
    unfold stored_at, ram. change (storage_end 2 demo_counters) with 0x806E. cbn. intros s [->| ->]; (split; [done|]; split; [lia|]; split; [lia|]; intros x Hx; lia).
Qed.

Lemma demo_placed : placed 2 demo_counters demo_flash.
Proof. apply flash_placed; [apply (bool_decide_unpack _); vm_compute; exact I|constructor]. Qed.

Definition end_of {A} (r : run A) : memory := match r with Go _ s => mem s | Stop _ m => m end.
Definition jump_of {A} (r : run A) : option (Z * Z * Z) :=
  match r with Stop (Jump vt msp reset) _ => Some (vt, msp, reset) | _ => None end.

Lemma jump_end {A} (r : run A) vt msp reset : jump_of r = Some (vt, msp, reset) -> r = Stop (Jump vt msp reset) (end_of r).
Proof. destruct r as [|[]]; try done. by intros [= -> -> ->]. Qed.

Definition demo_started : memory := end_of (main (on demo_flash 1)).

Lemma demo_starts : main (on demo_flash 1) = Stop (Jump 0x10000 0x108000 0x10011) demo_started.
Proof. unfold demo_started. apply (jump_end (main (on demo_flash 1))). vm_compute. reflexivity. Qed.

Lemma demo_life : life 2 demo_counters demo_flash [5] demo_started.
Proof.
  apply (life_start 2 demo_counters (on demo_flash 1) 0x10000 0x108000 0x10011 demo_started 5).
  - apply on_torn.
  - exact demo_starts.
  - exists 0x10200. vm_compute. done.
  - apply life_nil.
Qed.

Lemma demo_free : has_free 2 demo_counters demo_started.
Proof. exists 0x8060, 2, 0x8066. vm_compute. done. Qed.

Lemma no_rollback_witness :
  StronglySorted Z.le [5] /\ Forall (fun v => stored_version demo_flash <= v <= stored_version demo_started) [5].
Proof.
  exact (no_rollback 2 demo_counters demo_flash [5] demo_started demo_placed demo_life demo_free ltac:(repeat constructor; lia)).
Defined.

Lemma only_signed_is_started_witness :
  exists m p vi k, wear 2 demo_counters demo_flash m /\ wear 2 demo_counters demo_flash demo_started /\ in_slot 2 demo_counters p /\
    wellformed m p vi /\ signed 2 m p vi k /\ spares 2 demo_counters ram m demo_started /\
    (forall x, 0 <= x < k -> key_is_valid demo_started x = Some false) /\
    0x10000 = fw_info_address m p /\ 0x10011 = load demo_started (0x10000 + 4) /\
    (fw_info_boot_address m p = 0x10000 -> 0x10000 <= 0x10011 < 0x10000 + fw_info_size m p).
Proof.
  exact (only_signed_is_started 2 demo_counters (on demo_flash 1) 0x10000 0x108000 0x10011 demo_started
    demo_placed (on_torn _ _) demo_starts).
Defined.



(** ** Behaviour outside of these limits *)

(** With a firmware in the second slot only, the version of the first one is
    read through a NULL pointer. *)
Lemma second_slot_alone : main (on (flash [] (signed_image 0x20000 5 0x20000 key0)) 9) =
  Stop Undefined (flash [] (signed_image 0x20000 5 0x20000 key0)).
Proof. reflexivity. Qed.

(** The validation for others reads the information before it tests the pointer. *)
Lemma missing_info_read : bl_validate_firmware (Some 0x10000) 0x10000 0x10000 (on (flash [] []) 9) = Stop Undefined (flash [] []).
Proof. reflexivity. Qed.

(** The versions of the firmware started in turn, each in the first slot. *)
Fixpoint starts (m : memory) (images : list (list Z)) : list (option (Z * Z * Z)) * Z :=
  match images with
  | [] => ([], stored_version m)
  | im :: images =>
      let r := main (on (fun x => if bool_decide (0x10000 <= x < 0x10000 + zlen im) then zth im (x - 0x10000) else m x) 9) in
      let '(js, v) := starts (end_of r) images in (jump_of r :: js, v)
  end.

Definition jumps : option (Z * Z * Z) := Some (0x10000, 0x108000, 0x10011).

(** A version above 15 bits is truncated, and an older one is started after it. *)
Lemma long_version_truncated :
  starts demo_mem [signed_image 0x10000 0x8003 0x10000 key0; signed_image 0x10000 4 0x10000 key0] = ([jumps; jumps], 4).
Proof. vm_compute. reflexivity. Qed.

(** When the slots of the counter are used up, the error is ignored and the
    versions started from then on are not recorded. *)
Lemma used_up_counter_ignored :
  starts demo_mem ((fun v => signed_image 0x10000 v 0x10000 key0) <$> [1; 2; 9; 3; 1]) = ([jumps; jumps; jumps; jumps; None], 2).
Proof. vm_compute. reflexivity. Qed.

(** The reset handler that is checked is the one at the boot address, the one
    that is used the one at the start. *)
Definition two_tables : list Z :=
  let code := le32 0x108000 ++ le32 0xDEADBEE1 ++ le32 0x108000 ++ le32 0x10011 ++ drop 16 (image 0x10000 5 0x10008) in
  code ++ VALIDATION_INFO_MAGIC ++ le32 0x10000 ++ replicate 32 0 ++ key0 ++ take 64 (toy_hash (toy_hash code) ++ replicate 32 0).

Lemma other_reset_handler : jump_of (main (on (flash two_tables []) 9)) = Some (0x10000, 0x108000, 0xDEADBEE1).
Proof. vm_compute. reflexivity. Qed.

(** The maximal version of a request is said to be included. *)
Definition request_flash : memory :=
  flash (replicate 12 0 ++ le32 28 ++ le32 7 ++ le32 0 ++ le32 3
         ++ replicate 12 0 ++ le32 40 ++ le32 7 ++ le32 0 ++ le32 1 ++ le32 3 ++ le32 1 ++ le32 0) [].

Lemma maximal_version_excluded :
  ext_api_version request_flash 0x10000 = ext_api_max_version request_flash 0x1001c /\
  ext_api_satisfies_req request_flash 0x10000 0x1001c = false.
Proof. by vm_compute. Qed.

End BootDemo.
