(* ===== verification/GattDm.v ===== *)
(** * GATT Discovery Manager

    The Discovery Manager (subsys/bluetooth/gatt_dm.c) finds a service of a peer
    with three discovery procedures, one after the other: the service, its
    attributes, and the values of its characteristics. The file has the state
    of the manager, the callback of the procedures, the functions that start,
    continue and release a discovery, and the look-up functions. *)

From stdpp Require Import prelude list.
From Stdlib Require Import ZArith Lia.
From S2P Require Import Prelude.

Open Scope Z_scope.

(** ** What the manager uses *)

Inductive uuid_type := BT_UUID_TYPE_16 | BT_UUID_TYPE_32 | BT_UUID_TYPE_128.
#[export] Instance uuid_type_eq_dec : EqDecision uuid_type.
Proof. solve_decision. Defined.

Record bt_uuid := { u_type : uuid_type; u_val : Z }.
#[export] Instance bt_uuid_eq_dec : EqDecision bt_uuid.
Proof. solve_decision. Defined.

Definition uuid16 (v : Z) : bt_uuid := {| u_type := BT_UUID_TYPE_16; u_val := v |}.
Definition BT_UUID_GATT_PRIMARY : bt_uuid := uuid16 0x2800.
Definition BT_UUID_GATT_SECONDARY : bt_uuid := uuid16 0x2801.
Definition BT_UUID_GATT_CHRC : bt_uuid := uuid16 0x2803.
Definition BT_UUID_GATT_CCC : bt_uuid := uuid16 0x2902.

Definition ROUND_UP (x align : Z) : Z := (x + (align - 1)) / align * align.

(** The comparison of UUIDs is zero exactly for equivalent UUIDs, where UUIDs of
    16 bits are equivalent only if they are equal. The sizes of the structures
    fit the chunks of memory the manager allocates. *)
Class GattStack := {
  bt_uuid_cmp : bt_uuid -> bt_uuid -> Z;
  sizeof_uuid : uuid_type -> Z;
  sizeof_service_val : Z;
  sizeof_chrc : Z;
  sizeof_pointer : Z;
  MAX_ATTRS : nat;
  uuid_cmp_refl u : bt_uuid_cmp u u = 0;
  uuid_cmp_sym u v : bt_uuid_cmp u v = 0 -> bt_uuid_cmp v u = 0;
  uuid_cmp_trans u v w : bt_uuid_cmp u v = 0 -> bt_uuid_cmp v w = 0 -> bt_uuid_cmp u w = 0;
  sizes_fit t n : n = 0 \/ n = sizeof_service_val \/ n = sizeof_chrc ->
    ROUND_UP (n + sizeof_uuid t) 4 <= 128 - sizeof_pointer - sizeof_pointer;
  uuid_cmp_16 a b : bt_uuid_cmp (uuid16 a) (uuid16 b) = 0 -> a = b
}.

(** The octets of a chunk, next to two pointers. *)
Definition CHUNK_DATA_SIZE `{GattStack} : Z := 128 - sizeof_pointer - sizeof_pointer.

Lemma chunk_room `{GattStack} t n :
  n = 0 \/ n = sizeof_service_val \/ n = sizeof_chrc -> ROUND_UP (n + sizeof_uuid t) 4 <= CHUNK_DATA_SIZE.
Proof. apply sizes_fit. Qed.

(** Values of attributes: of services and of characteristics. A missing UUID is
    a null pointer. *)
Record bt_gatt_service_val := { sv_uuid : option bt_uuid; sv_end_handle : Z }.
Record bt_gatt_chrc := { ch_uuid : option bt_uuid; ch_value_handle : Z; ch_properties : Z }.
Inductive user_data := NoData | ServiceVal (v : bt_gatt_service_val) | ChrcVal (c : bt_gatt_chrc).

(** An attribute as the discovery procedures report it. *)
Record bt_gatt_attr := { ga_uuid : bt_uuid; ga_handle : Z; ga_perm : Z; ga_user_data : user_data }.

Inductive discover_type :=
  BT_GATT_DISCOVER_PRIMARY | BT_GATT_DISCOVER_SECONDARY | BT_GATT_DISCOVER_INCLUDE
| BT_GATT_DISCOVER_CHARACTERISTIC | BT_GATT_DISCOVER_DESCRIPTOR | BT_GATT_DISCOVER_ATTRIBUTE.
#[export] Instance discover_type_eq_dec : EqDecision discover_type.
Proof. solve_decision. Defined.

(** Parameters of a discovery procedure; [p_func] says whether the callback of
    the manager is set. *)
Record bt_gatt_discover_params := {
  p_uuid : option bt_uuid;
  p_func : bool;
  p_type : discover_type;
  p_start_handle : Z;
  p_end_handle : Z
}.

Inductive iter := BT_GATT_ITER_STOP | BT_GATT_ITER_CONTINUE.
#[export] Instance iter_eq_dec : EqDecision iter.
Proof. solve_decision. Defined.

(** ** State of the manager *)

(** The functions of the user that are set. *)
Record bt_gatt_dm_cb := { cb_completed : bool; cb_service_not_found : bool; cb_error_found : bool }.

(** A stored attribute. The value of a service or a characteristic, which the
    code places before the UUID in the same piece of memory, is [d_data]. *)
Record bt_gatt_dm_attr := { d_uuid : bt_uuid; d_handle : Z; d_perm : Z; d_data : user_data }.

(** The calls of the functions of the user and of the procedures of the stack.
    The completion carries the attributes the user finds then. *)
Inductive dm_event :=
  | Completed (found : list bt_gatt_dm_attr) (context : Z)
  | ServiceNotFound (conn : option Z) (context : Z)
  | ErrorFound (conn : option Z) (err : Z) (context : Z)
  | Discover (conn : option Z) (params : bt_gatt_discover_params).

(** The first [cur_attr_id] elements of the array of attributes are [attrs]; the
    others are not used. [chunks] is the length of the list of chunks, [callocs]
    the number of allocations so far, [work] tells whether the work item is
    submitted. *)
Record bt_gatt_dm := {
  conn : option Z;
  context : Z;
  callback : option bt_gatt_dm_cb;
  discover_params : bt_gatt_discover_params;
  attrs : list bt_gatt_dm_attr;
  locked : bool;
  release_pending : bool;
  svc_uuid : option bt_uuid;
  search_svc_by_uuid : bool;
  chunks : nat;
  cur_chunk_len : Z;
  callocs : nat;
  work : bool;
  events : list dm_event
}.

(** Updates of a field. *)
Definition set_conn (v : option Z) (d : bt_gatt_dm) : bt_gatt_dm :=
  {| conn := v; context := context d; callback := callback d; discover_params := discover_params d;
     attrs := attrs d; locked := locked d; release_pending := release_pending d; svc_uuid := svc_uuid d;
     search_svc_by_uuid := search_svc_by_uuid d; chunks := chunks d; cur_chunk_len := cur_chunk_len d;
     callocs := callocs d; work := work d; events := events d |}.
Definition set_context (v : Z) (d : bt_gatt_dm) : bt_gatt_dm :=
  {| conn := conn d; context := v; callback := callback d; discover_params := discover_params d; attrs
     := attrs d; locked := locked d; release_pending := release_pending d; svc_uuid := svc_uuid d;
     search_svc_by_uuid := search_svc_by_uuid d; chunks := chunks d; cur_chunk_len := cur_chunk_len d;
     callocs := callocs d; work := work d; events := events d |}.
Definition set_callback (v : option bt_gatt_dm_cb) (d : bt_gatt_dm) : bt_gatt_dm :=
  {| conn := conn d; context := context d; callback := v; discover_params := discover_params d; attrs :=
     attrs d; locked := locked d; release_pending := release_pending d; svc_uuid := svc_uuid d;
     search_svc_by_uuid := search_svc_by_uuid d; chunks := chunks d; cur_chunk_len := cur_chunk_len d;
     callocs := callocs d; work := work d; events := events d |}.
Definition set_discover_params (v : bt_gatt_discover_params) (d : bt_gatt_dm) : bt_gatt_dm :=
  {| conn := conn d; context := context d; callback := callback d; discover_params := v; attrs := attrs
     d; locked := locked d; release_pending := release_pending d; svc_uuid := svc_uuid d;
     search_svc_by_uuid := search_svc_by_uuid d; chunks := chunks d; cur_chunk_len := cur_chunk_len d;
     callocs := callocs d; work := work d; events := events d |}.
Definition set_attrs (v : list bt_gatt_dm_attr) (d : bt_gatt_dm) : bt_gatt_dm :=
  {| conn := conn d; context := context d; callback := callback d; discover_params := discover_params d;
     attrs := v; locked := locked d; release_pending := release_pending d; svc_uuid := svc_uuid d;
     search_svc_by_uuid := search_svc_by_uuid d; chunks := chunks d; cur_chunk_len := cur_chunk_len d;
     callocs := callocs d; work := work d; events := events d |}.
Definition set_locked (v : bool) (d : bt_gatt_dm) : bt_gatt_dm :=
  {| conn := conn d; context := context d; callback := callback d; discover_params := discover_params d;
     attrs := attrs d; locked := v; release_pending := release_pending d; svc_uuid := svc_uuid d;
     search_svc_by_uuid := search_svc_by_uuid d; chunks := chunks d; cur_chunk_len := cur_chunk_len d;
     callocs := callocs d; work := work d; events := events d |}.
Definition set_release_pending (v : bool) (d : bt_gatt_dm) : bt_gatt_dm :=
  {| conn := conn d; context := context d; callback := callback d; discover_params := discover_params d;
     attrs := attrs d; locked := locked d; release_pending := v; svc_uuid := svc_uuid d;
     search_svc_by_uuid := search_svc_by_uuid d; chunks := chunks d; cur_chunk_len := cur_chunk_len d;
     callocs := callocs d; work := work d; events := events d |}.
Definition set_svc_uuid (v : option bt_uuid) (d : bt_gatt_dm) : bt_gatt_dm :=
  {| conn := conn d; context := context d; callback := callback d; discover_params := discover_params d;
     attrs := attrs d; locked := locked d; release_pending := release_pending d; svc_uuid := v;
     search_svc_by_uuid := search_svc_by_uuid d; chunks := chunks d; cur_chunk_len := cur_chunk_len d;
     callocs := callocs d; work := work d; events := events d |}.
Definition set_search_svc_by_uuid (v : bool) (d : bt_gatt_dm) : bt_gatt_dm :=
  {| conn := conn d; context := context d; callback := callback d; discover_params := discover_params d;
     attrs := attrs d; locked := locked d; release_pending := release_pending d; svc_uuid := svc_uuid d;
     search_svc_by_uuid := v; chunks := chunks d; cur_chunk_len := cur_chunk_len d; callocs := callocs
     d; work := work d; events := events d |}.
Definition set_chunks (v : nat) (d : bt_gatt_dm) : bt_gatt_dm :=
  {| conn := conn d; context := context d; callback := callback d; discover_params := discover_params d;
     attrs := attrs d; locked := locked d; release_pending := release_pending d; svc_uuid := svc_uuid d;
     search_svc_by_uuid := search_svc_by_uuid d; chunks := v; cur_chunk_len := cur_chunk_len d; callocs
     := callocs d; work := work d; events := events d |}.
Definition set_cur_chunk_len (v : Z) (d : bt_gatt_dm) : bt_gatt_dm :=
  {| conn := conn d; context := context d; callback := callback d; discover_params := discover_params d;
     attrs := attrs d; locked := locked d; release_pending := release_pending d; svc_uuid := svc_uuid d;
     search_svc_by_uuid := search_svc_by_uuid d; chunks := chunks d; cur_chunk_len := v; callocs :=
     callocs d; work := work d; events := events d |}.
Definition set_callocs (v : nat) (d : bt_gatt_dm) : bt_gatt_dm :=
  {| conn := conn d; context := context d; callback := callback d; discover_params := discover_params d;
     attrs := attrs d; locked := locked d; release_pending := release_pending d; svc_uuid := svc_uuid d;
     search_svc_by_uuid := search_svc_by_uuid d; chunks := chunks d; cur_chunk_len := cur_chunk_len d;
     callocs := v; work := work d; events := events d |}.
Definition set_work (v : bool) (d : bt_gatt_dm) : bt_gatt_dm :=
  {| conn := conn d; context := context d; callback := callback d; discover_params := discover_params d;
     attrs := attrs d; locked := locked d; release_pending := release_pending d; svc_uuid := svc_uuid d;
     search_svc_by_uuid := search_svc_by_uuid d; chunks := chunks d; cur_chunk_len := cur_chunk_len d;
     callocs := callocs d; work := v; events := events d |}.
Definition set_events (v : list dm_event) (d : bt_gatt_dm) : bt_gatt_dm :=
  {| conn := conn d; context := context d; callback := callback d; discover_params := discover_params d;
     attrs := attrs d; locked := locked d; release_pending := release_pending d; svc_uuid := svc_uuid d;
     search_svc_by_uuid := search_svc_by_uuid d; chunks := chunks d; cur_chunk_len := cur_chunk_len d;
     callocs := callocs d; work := work d; events := v |}.
Definition set_p_uuid (v : option bt_uuid) (p : bt_gatt_discover_params) : bt_gatt_discover_params :=
  {| p_uuid := v; p_func := p_func p; p_type := p_type p; p_start_handle := p_start_handle p;
     p_end_handle := p_end_handle p |}.
Definition set_p_func (v : bool) (p : bt_gatt_discover_params) : bt_gatt_discover_params :=
  {| p_uuid := p_uuid p; p_func := v; p_type := p_type p; p_start_handle := p_start_handle p;
     p_end_handle := p_end_handle p |}.
Definition set_p_type (v : discover_type) (p : bt_gatt_discover_params) : bt_gatt_discover_params :=
  {| p_uuid := p_uuid p; p_func := p_func p; p_type := v; p_start_handle := p_start_handle p;
     p_end_handle := p_end_handle p |}.
Definition set_p_start_handle (v : Z) (p : bt_gatt_discover_params) : bt_gatt_discover_params :=
  {| p_uuid := p_uuid p; p_func := p_func p; p_type := p_type p; p_start_handle := v; p_end_handle :=
     p_end_handle p |}.
Definition set_p_end_handle (v : Z) (p : bt_gatt_discover_params) : bt_gatt_discover_params :=
  {| p_uuid := p_uuid p; p_func := p_func p; p_type := p_type p; p_start_handle := p_start_handle p;
     p_end_handle := v |}.

Definition emit (e : dm_event) (d : bt_gatt_dm) : bt_gatt_dm := set_events (events d ++ [e]) d.
Definition cur_attr_id (d : bt_gatt_dm) : Z := zlen (attrs d).

(** ** Memory of the attributes *)

Section GattDm.
Context {GS : GattStack} (k_calloc : nat -> bool).

Definition DATA_ALIGN : Z := 4.

(** Space in the current chunk or in a new one. *)
Definition user_data_alloc (d : bt_gatt_dm) (len : Z) : res (bt_gatt_dm * bool) :=
  let len := ROUND_UP len DATA_ALIGN in
  let full := bool_decide (chunks d = O) || (CHUNK_DATA_SIZE <? cur_chunk_len d + len) in
  let got := negb full || k_calloc (callocs d) in
  let d := if full then set_callocs (S (callocs d)) d else d in
  if negb got then Ok (d, false) else
  let d := if full then set_cur_chunk_len 0 (set_chunks (S (chunks d)) d) else d in
  if CHUNK_DATA_SIZE <? cur_chunk_len d + len then Fault
  else Ok (set_cur_chunk_len (cur_chunk_len d + len) d, true).

Definition svc_attr_memory_release (d : bt_gatt_dm) : bt_gatt_dm :=
  set_cur_chunk_len 0 (set_chunks O (set_attrs [] d)).

Definition get_uuid_size (u : bt_uuid) : Z := sizeof_uuid (u_type u).

(** The space for the value of an attribute. *)
Definition additional_len (slot : user_data) : Z :=
  match slot with NoData => 0 | ServiceVal _ => sizeof_service_val | ChrcVal _ => sizeof_chrc end.

(** The place of the new attribute; [slot] says which value it has room for. *)
Definition attr_store (d : bt_gatt_dm) (attr : bt_gatt_attr) (slot : user_data) : res (bt_gatt_dm * option nat) :=
  if Z.of_nat MAX_ATTRS <=? cur_attr_id d then Ok (d, None) else
  let uuid_size := get_uuid_size (ga_uuid attr) in
  let* '(d, ok) := user_data_alloc d (additional_len slot + uuid_size) in
  if negb ok then Ok (d, None) else
  let cur_attr := {| d_uuid := ga_uuid attr; d_handle := ga_handle attr; d_perm := ga_perm attr; d_data := slot |} in
  Ok (set_attrs (attrs d ++ [cur_attr]) d, Some (length (attrs d))).

Definition uuid_store (d : bt_gatt_dm) (uuid : option bt_uuid) : res (bt_gatt_dm * option bt_uuid) :=
  match uuid with
  | None => Ok (d, None)
  | Some u =>
    let* '(d, ok) := user_data_alloc d (get_uuid_size u) in
    Ok (d, if (ok : bool) then Some u else None)
  end.

(** ** Stored attributes *)

Definition attr_at (d : bt_gatt_dm) (i : nat) : res bt_gatt_dm_attr :=
  match attrs d !! i with Some a => Ok a | None => Fault end.

Definition set_data (i : nat) (v : user_data) (d : bt_gatt_dm) : bt_gatt_dm :=
  set_attrs (alter (fun a => {| d_uuid := d_uuid a; d_handle := d_handle a; d_perm := d_perm a; d_data := v |}) i
    (attrs d)) d.

(** Whether the attribute is a service, and its value; a null pointer, or a
    pointer outside the memory of the attribute, has no value to access. *)
Definition bt_gatt_dm_attr_service_val (a : bt_gatt_dm_attr) : bool :=
  (bt_uuid_cmp BT_UUID_GATT_PRIMARY (d_uuid a) =? 0) || (bt_uuid_cmp BT_UUID_GATT_SECONDARY (d_uuid a) =? 0).

Definition service_val_of (a : bt_gatt_dm_attr) : res bt_gatt_service_val :=
  if bt_gatt_dm_attr_service_val a then match d_data a with ServiceVal v => Ok v | _ => Fault end else Fault.

Definition bt_gatt_dm_attr_chrc_val (a : bt_gatt_dm_attr) : bool := bt_uuid_cmp BT_UUID_GATT_CHRC (d_uuid a) =? 0.

Definition chrc_val_of (a : bt_gatt_dm_attr) : res bt_gatt_chrc :=
  if bt_gatt_dm_attr_chrc_val a then match d_data a with ChrcVal c => Ok c | _ => Fault end else Fault.

Fixpoint find_loop (fuel : nat) (d : bt_gatt_dm) (handle lower upper : Z) : res (option nat) :=
  match fuel with
  | O => NoFuel
  | S fuel =>
    if lower <=? upper then
      let m := (lower + upper) / 2 in
      let* cur_attr := attr_at d (Z.to_nat m) in
      if d_handle cur_attr <? handle then find_loop fuel d handle (m + 1) upper
      else if handle <? d_handle cur_attr then find_loop fuel d handle lower (m - 1)
      else Ok (Some (Z.to_nat m))
    else Ok None
  end.

Definition attr_find_by_handle (d : bt_gatt_dm) (handle : Z) : res (option nat) :=
  if cur_attr_id d =? 0 then Ok None else find_loop (S (length (attrs d))) d handle 0 (cur_attr_id d - 1).

(** ** End of a discovery *)

Definition discovery_complete (d : bt_gatt_dm) : res bt_gatt_dm :=
  let d := set_release_pending true d in
  match callback d with
  | None => Fault
  | Some cb => Ok (if cb_completed cb then emit (Completed (attrs d) (context d)) d else d)
  end.

Definition discovery_complete_not_found (d : bt_gatt_dm) : res bt_gatt_dm :=
  let d := set_locked false (svc_attr_memory_release d) in
  match callback d with
  | None => Fault
  | Some cb => Ok (if cb_service_not_found cb then emit (ServiceNotFound (conn d) (context d)) d else d)
  end.

Definition discovery_complete_error (d : bt_gatt_dm) (err : Z) : res bt_gatt_dm :=
  let d := set_locked false (svc_attr_memory_release d) in
  match callback d with
  | None => Fault
  | Some cb => Ok (if cb_error_found cb then emit (ErrorFound (conn d) err (context d)) d else d)
  end.

(** ** Discovery procedures *)

(** The start of a procedure; the stack returns [err]. *)
Definition bt_gatt_discover (err : Z) (d : bt_gatt_dm) : bt_gatt_dm * Z :=
  (emit (Discover (conn d) (discover_params d)) d, err).

Definition gatt_discover_work (d : bt_gatt_dm) (res_discover : Z) : res bt_gatt_dm :=
  let d := set_work false d in
  if negb (locked d) then Ok d else
  let '(d, err) := bt_gatt_discover res_discover d in
  if ctrue err then discovery_complete_error d (- errno_num ENOMEM) else Ok d.

Definition stop (r : res bt_gatt_dm) : res (bt_gatt_dm * iter) := let* d := r in Ok (d, BT_GATT_ITER_STOP).

Definition discovery_process_service (d : bt_gatt_dm) (attr : option bt_gatt_attr) : res (bt_gatt_dm * iter) :=
  match attr with
  | None => stop (discovery_complete_not_found d)
  | Some attr =>
    let* '(d, cur) := attr_store d attr (ServiceVal {| sv_uuid := None; sv_end_handle := 0 |}) in
    match cur with
    | None => stop (discovery_complete_error d (- errno_num ENOMEM))
    | Some cur =>
      match ga_user_data attr with
      | ServiceVal service_val =>
        let* cur_attr := attr_at d cur in
        let* _ := service_val_of cur_attr in
        let d := set_data cur (ServiceVal service_val) d in
        let* '(d, uuid) := uuid_store d (sv_uuid service_val) in
        let d := set_data cur (ServiceVal {| sv_uuid := uuid; sv_end_handle := sv_end_handle service_val |}) d in
        match uuid with
        | None => stop (discovery_complete_error d (- errno_num ENOMEM))
        | Some _ =>
          let d := set_discover_params (set_p_end_handle (sv_end_handle service_val) (discover_params d)) d in
          if d_handle cur_attr =? sv_end_handle service_val then stop (discovery_complete d) else
          let p := discover_params d in
          let p := set_p_start_handle (u16 (d_handle cur_attr + 1))
                     (set_p_type BT_GATT_DISCOVER_ATTRIBUTE (set_p_uuid None p)) in
          stop (Ok (set_work true (set_discover_params p d)))
        end
      | _ => Fault
      end
    end
  end.

Definition discovery_process_attribute (d : bt_gatt_dm) (attr : option bt_gatt_attr) : res (bt_gatt_dm * iter) :=
  match attr with
  | None =>
    if 1 <? cur_attr_id d then
      let* first := attr_at d 0 in
      let p := set_p_type BT_GATT_DISCOVER_CHARACTERISTIC
                 (set_p_start_handle (u16 (d_handle first + 1)) (discover_params d)) in
      stop (Ok (set_work true (set_discover_params p d)))
    else stop (discovery_complete d)
  | Some attr =>
    let* '(d, cur) :=
      if bt_uuid_cmp (ga_uuid attr) BT_UUID_GATT_CHRC =? 0 then
        let* '(d, cur) := attr_store d attr (ChrcVal {| ch_uuid := None; ch_value_handle := 0; ch_properties := 0 |}) in
        match cur with
        | None => Fault
        | Some i =>
          let* cur_attr := attr_at d i in
          let* c := chrc_val_of cur_attr in
          Ok (set_data i (ChrcVal {| ch_uuid := Some (d_uuid cur_attr); ch_value_handle := ch_value_handle c;
                                     ch_properties := ch_properties c |}) d, cur)
        end
      else attr_store d attr NoData in
    match cur with
    | None => stop (discovery_complete_error d (- errno_num ENOMEM))
    | Some _ => Ok (d, BT_GATT_ITER_CONTINUE)
    end
  end.

Definition discovery_process_characteristic (d : bt_gatt_dm) (attr : option bt_gatt_attr) : res (bt_gatt_dm * iter) :=
  match attr with
  | None => stop (discovery_complete d)
  | Some attr =>
    let* cur := attr_find_by_handle d (ga_handle attr) in
    match cur with
    | None => stop (discovery_complete_error d (- errno_num ESRCH))
    | Some i =>
      match ga_user_data attr with
      | ChrcVal gatt_chrc =>
        let* cur_attr := attr_at d i in
        let* _ := chrc_val_of cur_attr in
        let d := set_data i (ChrcVal gatt_chrc) d in
        let* '(d, uuid) := uuid_store d (ch_uuid gatt_chrc) in
        let d := set_data i (ChrcVal {| ch_uuid := uuid; ch_value_handle := ch_value_handle gatt_chrc;
                                        ch_properties := ch_properties gatt_chrc |}) d in
        match uuid with
        | None => stop (discovery_complete_error d (- errno_num ENOMEM))
        | Some _ => Ok (d, BT_GATT_ITER_CONTINUE)
        end
      | _ => Fault
      end
    end
  end.

Definition discovery_callback (d : bt_gatt_dm) (c : option Z) (attr : option bt_gatt_attr) : res (bt_gatt_dm * iter) :=
  if negb (bool_decide (c = conn d)) then stop (discovery_complete_error d (- errno_num EFAULT)) else
  match p_type (discover_params d) with
  | BT_GATT_DISCOVER_PRIMARY | BT_GATT_DISCOVER_SECONDARY => discovery_process_service d attr
  | BT_GATT_DISCOVER_ATTRIBUTE => discovery_process_attribute d attr
  | BT_GATT_DISCOVER_CHARACTERISTIC => discovery_process_characteristic d attr
  | _ => stop (discovery_complete_error d (- errno_num EINVAL))
  end.

(** ** Functions of the user *)

Definition bt_gatt_dm_start (d : bt_gatt_dm) (c : option Z) (uuid : option bt_uuid) (cb : option bt_gatt_dm_cb)
    (ctx : Z) (res_discover : Z) : bt_gatt_dm * Z :=
  if match uuid with Some u => bool_decide (u_type u = BT_UUID_TYPE_32) | None => false end
  then (d, - errno_num EINVAL) else
  match cb with
  | None => (d, - errno_num EINVAL)
  | Some _ =>
    if locked d then (d, - errno_num EALREADY) else
    let d := set_callback cb (set_context ctx (set_conn c (set_locked true d))) in
    let d := set_cur_chunk_len 0 (set_chunks O (set_attrs [] d)) in
    let d := set_search_svc_by_uuid (bool_decide (is_Some uuid)) d in
    let d := match uuid with Some _ => set_svc_uuid uuid d | None => d end in
    let d := set_discover_params {| p_uuid := uuid; p_func := true; p_type := BT_GATT_DISCOVER_PRIMARY;
                                    p_start_handle := 0x0001; p_end_handle := 0xffff |} d in
    let d := set_work false d in
    let '(d, err) := bt_gatt_discover res_discover d in
    (if ctrue err then set_locked false d else d, err)
  end.

Definition bt_gatt_dm_continue (d : bt_gatt_dm) (ctx : Z) (res_discover : Z) : res (bt_gatt_dm * Z) :=
  if bool_decide (callback d = None) || negb (p_func (discover_params d)) then Ok (d, - errno_num EINVAL) else
  if bool_decide (is_Some (p_uuid (discover_params d))) then Ok (d, - errno_num EINVAL) else
  if locked d then Ok (d, - errno_num EALREADY) else
  let d := set_locked true d in
  if p_end_handle (discover_params d) =? 0xffff then let* d := discovery_complete_not_found d in Ok (d, 0) else
  let d := set_context ctx d in
  let d := set_discover_params {| p_uuid := if search_svc_by_uuid d then svc_uuid d else None;
                                  p_func := p_func (discover_params d); p_type := BT_GATT_DISCOVER_PRIMARY;
                                  p_start_handle := u16 (p_end_handle (discover_params d) + 1);
                                  p_end_handle := 0xffff |} d in
  let '(d, err) := bt_gatt_discover res_discover d in
  if ctrue err then let* d := discovery_complete_error (set_locked false d) err in Ok (d, err) else Ok (d, err).

Definition bt_gatt_dm_data_release (d : bt_gatt_dm) : bt_gatt_dm * Z :=
  if negb (release_pending d) then (d, - errno_num EALREADY) else
  let d := set_release_pending false d in
  (set_locked false (svc_attr_memory_release (set_work false d)), 0).

(** ** Look-up *)

Definition bt_gatt_dm_conn_get (d : bt_gatt_dm) : option Z := conn d.
Definition bt_gatt_dm_attr_cnt (d : bt_gatt_dm) : Z := cur_attr_id d.
Definition bt_gatt_dm_service_get (d : bt_gatt_dm) : res bt_gatt_dm_attr := attr_at d 0.

(** The first characteristic among the attributes [l], the first of which is at [i]. *)
Fixpoint char_scan (l : list bt_gatt_dm_attr) (i : nat) : option nat :=
  match l with
  | [] => None
  | a :: l => if bt_uuid_cmp BT_UUID_GATT_CHRC (d_uuid a) =? 0 then Some i else char_scan l (S i)
  end.

Definition bt_gatt_dm_char_next (d : bt_gatt_dm) (prev : option nat) : option nat :=
  let prev := default O prev in char_scan (drop (S prev) (attrs d)) (S prev).

Fixpoint char_by_uuid_loop (fuel : nat) (d : bt_gatt_dm) (uuid : bt_uuid) (curr : option nat) : res (option nat) :=
  match fuel with
  | O => NoFuel
  | S fuel =>
    match bt_gatt_dm_char_next d curr with
    | None => Ok None
    | Some i =>
      let* a := attr_at d i in
      let* chrc := chrc_val_of a in
      match ch_uuid chrc with
      | None => Fault
      | Some u => if bt_uuid_cmp uuid u =? 0 then Ok (Some i) else char_by_uuid_loop fuel d uuid (Some i)
      end
    end
  end.

Definition bt_gatt_dm_char_by_uuid (d : bt_gatt_dm) (uuid : bt_uuid) : res (option nat) :=
  char_by_uuid_loop (S (length (attrs d))) d uuid None.

Definition bt_gatt_dm_attr_by_handle (d : bt_gatt_dm) (handle : Z) : res (option nat) := attr_find_by_handle d handle.

Definition bt_gatt_dm_attr_next (d : bt_gatt_dm) (prev : option nat) : option nat :=
  let prev := default O prev in if decide (S prev < length (attrs d))%nat then Some (S prev) else None.

Definition bt_gatt_dm_desc_next (d : bt_gatt_dm) (prev : nat) : res (option nat) :=
  match bt_gatt_dm_attr_next d (Some prev) with
  | None => Ok None
  | Some i => let* curr := attr_at d i in Ok (if bt_uuid_cmp BT_UUID_GATT_CHRC (d_uuid curr) =? 0 then None else Some i)
  end.

Fixpoint desc_by_uuid_loop (fuel : nat) (d : bt_gatt_dm) (uuid : bt_uuid) (curr : nat) : res (option nat) :=
  match fuel with
  | O => NoFuel
  | S fuel =>
    let* next := bt_gatt_dm_desc_next d curr in
    match next with
    | None => Ok None
    | Some i =>
      let* a := attr_at d i in
      if bt_uuid_cmp uuid (d_uuid a) =? 0 then Ok (Some i) else desc_by_uuid_loop fuel d uuid i
    end
  end.

Definition bt_gatt_dm_desc_by_uuid (d : bt_gatt_dm) (attr_chrc : nat) (uuid : bt_uuid) : res (option nat) :=
  desc_by_uuid_loop (S (length (attrs d))) d uuid attr_chrc.

End GattDm.
