(* ===== verification/GattDmSpec.v ===== *)
(** * Correctness of the GATT Discovery Manager

    The binary search is a search by handle; a discovery reports the first
    service of the server that was asked for, with all its attributes; continued
    discoveries report all of them in order. Whatever the server, the stack and
    the heap do, each discovery is answered once, and no memory is kept when the
    manager is free. *)

From stdpp Require Import prelude list sorting.
From Stdlib Require Import ZArith Lia.
From S2P Require Import Prelude GattDm.

Open Scope Z_scope.

(** ** Search by handle *)

Definition sorted_handles (l : list bt_gatt_dm_attr) : Prop := StronglySorted Z.lt (d_handle <$> l).

(** The place of the attribute with a handle. *)
Definition handle_place (l : list bt_gatt_dm_attr) (handle : Z) : option nat :=
  fst <$> list_find (fun a => d_handle a = handle) l.

Lemma sorted_lookup (l : list Z) i j x y :
  StronglySorted Z.lt l -> l !! i = Some x -> l !! j = Some y -> (i < j)%nat -> x < y.
Proof.
  intros Hs. revert i j. induction Hs as [|z l Hs IH Hz]; [done|]. intros [|i] [|j] Hi Hj Hij; try lia.
  - cbn in Hi, Hj. injection Hi as <-. by eapply Forall_lookup_1 in Hz.
  - cbn in Hi, Hj. eapply IH; eauto. lia.
Qed.

Lemma handles_lookup l i j a b :
  sorted_handles l -> l !! i = Some a -> l !! j = Some b -> (i < j)%nat -> d_handle a < d_handle b.
Proof. intros Hs Hi Hj Hij. apply (sorted_lookup _ i j _ _ Hs); [by rewrite list_lookup_fmap, ?Hi, ?Hj..|done]. Qed.

Lemma handle_place_Some l i a : sorted_handles l -> l !! i = Some a -> handle_place l (d_handle a) = Some i.
Proof.
  intros Hs Hi. unfold handle_place. replace (list_find _ l) with (Some (i, a)); [done|].
  symmetry. apply list_find_Some. split; [done|]. split; [done|]. intros j b Hj Hji E.
  pose proof (handles_lookup l j i b a Hs Hj Hi Hji). lia.
Qed.

Lemma handle_place_None l h : Forall (fun a => d_handle a <> h) l -> handle_place l h = None.
Proof. intros H. unfold handle_place. by rewrite (proj2 (list_find_None _ _) H). Qed.

Section Search.
Context {GS : GattStack}.

Lemma find_loop_place fuel d h lo up :
  sorted_handles (attrs d) -> 0 <= lo <= up + 1 -> up < zlen (attrs d) -> up - lo + 1 < Z.of_nat fuel ->
  (forall i a, attrs d !! i = Some a -> d_handle a = h -> lo <= Z.of_nat i <= up) ->
  find_loop fuel d h lo up = Ok (handle_place (attrs d) h).
Proof.
  intros Hs. revert lo up. induction fuel as [|fuel IH]; intros lo up H0 Hu Hf Hin; [lia|]. cbn [find_loop].
  destruct (Z.leb_spec lo up).
  2:{ rewrite handle_place_None; [done|]. apply Forall_lookup_2. intros i a Hi E. specialize (Hin i a Hi E). lia. }
  set (m := (lo + up) / 2). assert (Hm : lo <= m <= up) by (unfold m; pose proof (Z.div_mod (lo + up) 2); pose proof (Z.mod_pos_bound (lo + up) 2); lia).
  unfold attr_at. destruct (attrs d !! Z.to_nat m) as [b|] eqn:Eb; [|apply lookup_ge_None in Eb; lia]. cbn [mbind res_bind].
  destruct (Z.ltb_spec (d_handle b) h).
  - apply IH; [lia..|]. intros i a Hi E. specialize (Hin i a Hi E). split; [|lia].
    destruct (decide (i <= Z.to_nat m)%nat) as [Hle|]; [|lia]. exfalso.
    destruct (decide (i = Z.to_nat m)) as [->|]; [rewrite Eb in Hi; injection Hi as ->; lia|].
    pose proof (handles_lookup _ i (Z.to_nat m) a b Hs Hi Eb). lia.
  - destruct (Z.ltb_spec h (d_handle b)).
    + apply IH; [lia..|]. intros i a Hi E. specialize (Hin i a Hi E). split; [lia|].
      destruct (decide (Z.to_nat m <= i)%nat) as [Hle|]; [|lia]. exfalso.
      destruct (decide (i = Z.to_nat m)) as [->|]; [rewrite Eb in Hi; injection Hi as ->; lia|].
      pose proof (handles_lookup _ (Z.to_nat m) i b a Hs Eb Hi). lia.
    + assert (h = d_handle b) as -> by lia. by rewrite (handle_place_Some _ (Z.to_nat m)).
Qed.

Lemma find_by_handle_place d h :
  sorted_handles (attrs d) -> attr_find_by_handle d h = Ok (handle_place (attrs d) h).
Proof.
  intros Hs. unfold attr_find_by_handle, cur_attr_id. destruct (Z.eqb_spec (zlen (attrs d)) 0) as [E|].
  - destruct (attrs d); [done|cbn in E; lia].
  - apply find_loop_place; [done|lia..|]. intros i a Hi _. apply lookup_lt_Some in Hi. lia.
Qed.

End Search.

(** ** A server and the stack *)

(** A characteristic declaration or another attribute, with the permissions the
    stack reports. *)
Inductive gkind := GChrc (u : bt_uuid) (value_handle props : Z) | GDesc (u : bt_uuid).
Record gattr := { g_handle : Z; g_perm : Z; g_kind : gkind }.
Record gservice := { gs_handle : Z; gs_perm : Z; gs_uuid : bt_uuid; gs_end : Z; gs_attrs : list gattr }.

Definition g_uuid (a : gattr) : bt_uuid := match g_kind a with GChrc _ _ _ => BT_UUID_GATT_CHRC | GDesc u => u end.
Definition is_chrc (a : gattr) : bool := match g_kind a with GChrc _ _ _ => true | GDesc _ => false end.

(** The attributes of the service follow it with growing handles, up to its end
    handle; only characteristic declarations have their UUID. *)
Record service_ok `{GattStack} (s : gservice) : Prop := {
  ok_range : 1 <= gs_handle s <= gs_end s /\ gs_end s <= 0xffff;
  ok_sorted : StronglySorted Z.lt (gs_handle s :: (g_handle <$> gs_attrs s));
  ok_end : Forall (fun a => g_handle a <= gs_end s) (gs_attrs s);
  ok_kinds : Forall (fun a => is_chrc a = false -> bt_uuid_cmp (g_uuid a) BT_UUID_GATT_CHRC <> 0) (gs_attrs s);
  ok_room : (length (gs_attrs s) < MAX_ATTRS)%nat
}.

Record db_ok `{GattStack} (db : list gservice) : Prop := {
  ok_services : Forall service_ok db;
  ok_order : StronglySorted (fun s t => gs_end s < gs_handle t) db
}.

Definition svc_report (s : gservice) : bt_gatt_attr :=
  {| ga_uuid := BT_UUID_GATT_PRIMARY; ga_handle := gs_handle s; ga_perm := gs_perm s;
     ga_user_data := ServiceVal {| sv_uuid := Some (gs_uuid s); sv_end_handle := gs_end s |} |}.

Definition chrc_data (a : gattr) : user_data :=
  match g_kind a with
  | GChrc u v p => ChrcVal {| ch_uuid := Some u; ch_value_handle := v; ch_properties := p |}
  | GDesc _ => NoData
  end.

(** What the stack reports of an attribute and of a characteristic. *)
Definition attr_report (r : bt_gatt_attr) (a : gattr) : Prop :=
  ga_uuid r = g_uuid a /\ ga_handle r = g_handle a /\ ga_perm r = g_perm a.
Definition chrc_report (r : bt_gatt_attr) (a : gattr) : Prop := attr_report r a /\ ga_user_data r = chrc_data a.

(** The service is asked for. *)
Definition asked `{GattStack} (uuid : option bt_uuid) (lo : Z) (s : gservice) : Prop :=
  lo <= gs_handle s /\ match uuid with Some u => bt_uuid_cmp u (gs_uuid s) = 0 | None => True end.
#[export] Instance asked_dec `{GattStack} uuid lo s : Decision (asked uuid lo s).
Proof. unfold asked. destruct uuid; apply _. Defined.

(** The discovery procedures of the stack with a server that has the services
    [db]: what they report, in this order, for the parameters. *)
Class GattServer `{GattStack} (db : list gservice) := {
  answers : bt_gatt_discover_params -> list bt_gatt_attr;
  answers_primary p : p_type p = BT_GATT_DISCOVER_PRIMARY -> p_end_handle p = 0xffff ->
    answers p = svc_report <$> filter (asked (p_uuid p) (p_start_handle p)) db;
  answers_attribute p s : p_type p = BT_GATT_DISCOVER_ATTRIBUTE -> p_uuid p = None -> s ∈ db ->
    p_start_handle p = gs_handle s + 1 -> p_end_handle p = gs_end s -> Forall2 attr_report (answers p) (gs_attrs s);
  answers_characteristic p s : p_type p = BT_GATT_DISCOVER_CHARACTERISTIC -> p_uuid p = None -> s ∈ db ->
    p_start_handle p = gs_handle s + 1 -> p_end_handle p = gs_end s ->
    Forall2 chrc_report (answers p) (filter (fun a => is_chrc a = true) (gs_attrs s))
}.

(** A procedure calls the callback for what it reports, until the callback stops
    it, and without an attribute at its end. *)
Fixpoint deliver `{GattStack} (k_calloc : nat -> bool) (d : bt_gatt_dm) (l : list bt_gatt_attr) : res bt_gatt_dm :=
  match l with
  | [] => let* '(d, _) := discovery_callback k_calloc d (conn d) None in Ok d
  | a :: l =>
    let* '(d, r) := discovery_callback k_calloc d (conn d) (Some a) in
    if bool_decide (r = BT_GATT_ITER_STOP) then Ok d else deliver k_calloc d l
  end.

(** Runs the work item and its procedure as long as it is submitted. *)
Fixpoint pump `{GattServer db} (k_calloc : nat -> bool) (fuel : nat) (d : bt_gatt_dm) : res bt_gatt_dm :=
  if work d then
    match fuel with
    | O => NoFuel
    | S fuel =>
      let* d := gatt_discover_work d 0 in
      let* d := deliver k_calloc d (answers (discover_params d)) in
      pump k_calloc fuel d
    end
  else Ok d.

(** The procedures of one discovery: the search for the service, of its
    attributes, and of the values of its characteristics. *)
Definition discovery `{GattServer db} (k_calloc : nat -> bool) (d : bt_gatt_dm) : res bt_gatt_dm :=
  let* d := deliver k_calloc d (answers (discover_params d)) in pump k_calloc 2 d.

(** The attributes of the manager after the discovery of a service. *)
Definition svc_attr (s : gservice) : bt_gatt_dm_attr :=
  {| d_uuid := BT_UUID_GATT_PRIMARY; d_handle := gs_handle s; d_perm := gs_perm s;
     d_data := ServiceVal {| sv_uuid := Some (gs_uuid s); sv_end_handle := gs_end s |} |}.
Definition view (a : gattr) : bt_gatt_dm_attr :=
  {| d_uuid := g_uuid a; d_handle := g_handle a; d_perm := g_perm a; d_data := chrc_data a |}.
Definition found (s : gservice) : list bt_gatt_dm_attr := svc_attr s :: (view <$> gs_attrs s).

(** ** Memory of the attributes *)

(** The state with another use of the memory. *)
Definition with_mem (m : nat * Z * nat) (d : bt_gatt_dm) : bt_gatt_dm :=
  set_callocs m.2 (set_cur_chunk_len m.1.2 (set_chunks m.1.1 d)).

Section Stored.
Context {GS : GattStack} (k_calloc : nat -> bool) (heap : forall n, k_calloc n = true).

Lemma user_data_alloc_ok d n t :
  n = 0 \/ n = sizeof_service_val \/ n = sizeof_chrc ->
  exists m, user_data_alloc k_calloc d (n + sizeof_uuid t) = Ok (with_mem m d, true).
Proof.
  intros Hn. pose proof (chunk_room t n Hn) as Hr. unfold user_data_alloc. change DATA_ALIGN with 4.
  rewrite heap, orb_true_r. cbn [negb]. set (full := _ || _). destruct full eqn:Ef.
  - cbn [cur_chunk_len set_cur_chunk_len set_chunks set_callocs]. destruct (Z.ltb_spec CHUNK_DATA_SIZE (0 + ROUND_UP (n + sizeof_uuid t) 4)); [lia|].
    exists (S (chunks d), 0 + ROUND_UP (n + sizeof_uuid t) 4, S (callocs d)). by destruct d.
  - unfold full in Ef. apply orb_false_iff in Ef as [_ ->].
    exists (chunks d, cur_chunk_len d + ROUND_UP (n + sizeof_uuid t) 4, callocs d). by destruct d.
Qed.

Definition stored (r : bt_gatt_attr) (slot : user_data) : bt_gatt_dm_attr :=
  {| d_uuid := ga_uuid r; d_handle := ga_handle r; d_perm := ga_perm r; d_data := slot |}.

Lemma attr_store_ok d r slot :
  (length (attrs d) < MAX_ATTRS)%nat ->
  exists m, attr_store k_calloc d r slot =
    Ok (with_mem m (set_attrs (attrs d ++ [stored r slot]) d), Some (length (attrs d))).
Proof.
  intros Hl. unfold attr_store, cur_attr_id. destruct (Z.leb_spec (Z.of_nat MAX_ATTRS) (zlen (attrs d))); [lia|].
  edestruct (user_data_alloc_ok d (additional_len slot) (u_type (ga_uuid r))) as [m E]; [destruct slot; cbn; tauto|].
  exists m. unfold get_uuid_size. rewrite E. by destruct d.
Qed.

Lemma uuid_store_ok d u : exists m, uuid_store k_calloc d (Some u) = Ok (with_mem m d, Some u).
Proof.
  unfold uuid_store, get_uuid_size. edestruct (user_data_alloc_ok d 0 (u_type u)) as [m E]; [tauto|].
  rewrite Z.add_0_l in E. exists m. by rewrite E.
Qed.

(** ** The three procedures *)

(** An attribute after the second procedure. *)
Definition bare (a : gattr) : bt_gatt_dm_attr :=
  {| d_uuid := g_uuid a; d_handle := g_handle a; d_perm := g_perm a;
     d_data := if is_chrc a
               then ChrcVal {| ch_uuid := Some BT_UUID_GATT_CHRC; ch_value_handle := 0; ch_properties := 0 |}
               else NoData |}.

Lemma set_data_last d l x v :
  attrs d = l ++ [x] ->
  set_data (length l) v d = set_attrs (l ++ [{| d_uuid := d_uuid x; d_handle := d_handle x; d_perm := d_perm x; d_data := v |}]) d.
Proof. intros E. unfold set_data. rewrite E, alter_app_r_alt by lia. by rewrite Nat.sub_diag. Qed.

Lemma attribute_stored d r a :
  attr_report r a -> (is_chrc a = false -> bt_uuid_cmp (g_uuid a) BT_UUID_GATT_CHRC <> 0) ->
  (length (attrs d) < MAX_ATTRS)%nat ->
  exists m, discovery_process_attribute k_calloc d (Some r) =
    Ok (with_mem m (set_attrs (attrs d ++ [bare a]) d), BT_GATT_ITER_CONTINUE).
Proof.
  intros (Hu & Hh & Hp) Hk Hl. unfold discovery_process_attribute. rewrite Hu.
  unfold bare. destruct (is_chrc a) eqn:Ek.
  - assert (g_uuid a = BT_UUID_GATT_CHRC) as Ea by (unfold g_uuid, is_chrc in *; by destruct (g_kind a)).
    rewrite Ea, uuid_cmp_refl, Z.eqb_refl.
    destruct (attr_store_ok d r (ChrcVal {| ch_uuid := None; ch_value_handle := 0; ch_properties := 0 |}) Hl) as [m ->].
    cbn [mbind res_bind]. unfold attr_at. cbn [attrs with_mem set_callocs set_cur_chunk_len set_chunks set_attrs].
    rewrite list_lookup_middle by done. cbn [mbind res_bind]. unfold chrc_val_of, bt_gatt_dm_attr_chrc_val. cbn [d_uuid stored d_data].
    rewrite Hu, Ea, uuid_cmp_refl, Z.eqb_refl. cbn [mbind res_bind]. exists m.
    rewrite (set_data_last _ (attrs d) (stored r _)) by done. unfold stored. cbn [d_uuid d_handle d_perm]. by rewrite Hu, Ea, Hh, Hp.
  - specialize (Hk eq_refl). apply Z.eqb_neq in Hk as ->.
    destruct (attr_store_ok d r NoData Hl) as [m ->]. exists m. cbn. unfold stored. by rewrite Hu, Hh, Hp.
Qed.

Lemma attributes_delivered d l rs rest :
  p_type (discover_params d) = BT_GATT_DISCOVER_ATTRIBUTE -> Forall2 attr_report rs l ->
  Forall (fun a => is_chrc a = false -> bt_uuid_cmp (g_uuid a) BT_UUID_GATT_CHRC <> 0) l ->
  (length (attrs d) + length l <= MAX_ATTRS)%nat ->
  exists m, deliver k_calloc d (rs ++ rest) = deliver k_calloc (with_mem m (set_attrs (attrs d ++ (bare <$> l)) d)) rest.
Proof.
  intros Ht Hr. revert d Ht. induction Hr as [|r a rs l Ha Hr IH]; intros d Ht Hk Hl.
  - exists (chunks d, cur_chunk_len d, callocs d). cbn. rewrite app_nil_r. by destruct d.
  - apply Forall_cons in Hk as [Hk Hks]. cbn in Hl. cbn [app deliver]. unfold discovery_callback at 1.
    rewrite bool_decide_true by done. cbn [negb]. rewrite Ht.
    destruct (attribute_stored d r a Ha Hk) as [m ->]; [lia|]. cbn [mbind res_bind]. rewrite bool_decide_false by done.
    edestruct (IH (with_mem m (set_attrs (attrs d ++ [bare a]) d))) as [m' E]; [done..|cbn; rewrite length_app; cbn; lia|].
    exists m'. rewrite E. cbn. by rewrite <- app_assoc.
Qed.

(** The value of a characteristic is stored at its place. *)
Lemma chrc_stored d r a pre post :
  chrc_report r a -> is_chrc a = true -> attrs d = pre ++ bare a :: post -> sorted_handles (attrs d) ->
  exists m, discovery_process_characteristic k_calloc d (Some r) =
    Ok (with_mem m (set_attrs (pre ++ view a :: post) d), BT_GATT_ITER_CONTINUE).
Proof.
  intros [(Hu & Hh & Hp) Hd] Hc Ed Hs. unfold discovery_process_characteristic.
  assert (El : attrs d !! length pre = Some (bare a)) by (rewrite Ed; by apply list_lookup_middle).
  pose proof (handle_place_Some _ (length pre) (bare a) Hs El) as Hpl. cbn [d_handle bare] in Hpl.
  rewrite find_by_handle_place, Hh, Hpl by done. cbn [mbind res_bind].
  assert (Hcu : g_uuid a = BT_UUID_GATT_CHRC) by (unfold g_uuid, is_chrc in *; by destruct (g_kind a)).
  rewrite Hd. unfold view, chrc_data, is_chrc in *. destruct (g_kind a) as [u v p|u] eqn:Ek; [|done].
  unfold attr_at. rewrite El. cbn [mbind res_bind]. unfold chrc_val_of, bt_gatt_dm_attr_chrc_val, bare. cbn [d_uuid d_data].
  unfold is_chrc. rewrite Ek, Hcu, uuid_cmp_refl, Z.eqb_refl. cbn [mbind res_bind ch_uuid].
  destruct (uuid_store_ok (set_data (length pre) (ChrcVal {| ch_uuid := Some u; ch_value_handle := v; ch_properties := p |}) d) u) as [m ->].
  cbn [mbind res_bind]. exists m. unfold set_data.
  cbn [attrs with_mem set_callocs set_cur_chunk_len set_chunks set_attrs ch_value_handle ch_properties].
  rewrite Ed, !alter_app_r_alt, Nat.sub_diag by lia. cbn [alter list_alter]. unfold bare. cbn [d_uuid d_handle d_perm].
  by rewrite Hcu.
Qed.

Lemma handles_same (l : list gattr) (f : gattr -> bt_gatt_dm_attr) : (forall a, d_handle (f a) = g_handle a) -> d_handle <$> (f <$> l) = g_handle <$> l.
Proof. intros Hf. induction l as [|a l IH]; [done|]. cbn. by rewrite Hf, IH. Qed.

Lemma characteristics_delivered d x l1 l2 rs rest :
  p_type (discover_params d) = BT_GATT_DISCOVER_CHARACTERISTIC ->
  attrs d = (x :: (view <$> l1)) ++ (bare <$> l2) -> StronglySorted Z.lt (d_handle x :: (g_handle <$> l1 ++ l2)) ->
  Forall2 chrc_report rs (filter (fun a => is_chrc a = true) l2) ->
  exists m, deliver k_calloc d (rs ++ rest) =
    deliver k_calloc (with_mem m (set_attrs (x :: (view <$> l1 ++ l2)) d)) rest.
Proof.
  intros Ht Ed Hs. revert d l1 rs Ht Ed Hs. induction l2 as [|a l2 IH]; intros d l1 rs Ht Ed Hs Hr.
  - inversion Hr; subst. exists (chunks d, cur_chunk_len d, callocs d). rewrite app_nil_r in *. cbn. rewrite <- Ed. by destruct d.
  - assert (Em : l1 ++ a :: l2 = (l1 ++ [a]) ++ l2) by (by rewrite <- app_assoc). destruct (is_chrc a) eqn:Ea.
    2:{ rewrite filter_cons_False in Hr by congruence. rewrite Em in *.
        apply (IH d (l1 ++ [a])); [done| |done..]. rewrite Ed, fmap_app. cbn [fmap list_fmap]. 
        replace (bare a) with (view a); [cbn; by rewrite <- app_assoc|].
        unfold bare, view, chrc_data. unfold is_chrc in *. by destruct (g_kind a). }
    rewrite filter_cons_True in Hr by done. inversion Hr as [|r a' rs' l' Ha Hr']; subst. cbn [app deliver].
    unfold discovery_callback at 1. rewrite bool_decide_true by done. cbn [negb]. rewrite Ht.
    destruct (chrc_stored d r a (x :: (view <$> l1)) (bare <$> l2)) as [m E]; [done..| |].
    { unfold sorted_handles. rewrite Ed, fmap_app, fmap_cons, (handles_same _ view), (handles_same _ bare) by done.
      by rewrite fmap_app in Hs. }
    rewrite E. cbn [mbind res_bind]. rewrite bool_decide_false by done. rewrite Em in *.
    edestruct (IH (with_mem m (set_attrs ((x :: (view <$> l1)) ++ view a :: (bare <$> l2)) d)) (l1 ++ [a]) rs') as [m' E']; [done| |done..|].
    { cbn. by rewrite fmap_app, <- app_assoc. }
    exists m'. by rewrite E'.
Qed.

End Stored.

(** ** A discovery *)

(** The manager waits for the first procedure of a discovery. *)
Record searching (uuid : option bt_uuid) (lo : Z) (cb : bt_gatt_dm_cb) (d : bt_gatt_dm) : Prop := {
  se_locked : locked d = true;
  se_pending : release_pending d = false;
  se_params : discover_params d = {| p_uuid := uuid; p_func := true; p_type := BT_GATT_DISCOVER_PRIMARY;
                                     p_start_handle := lo; p_end_handle := 0xffff |};
  se_attrs : attrs d = [];
  se_work : work d = false;
  se_callback : callback d = Some cb
}.

(** The calls of the functions of the user. *)
Definition is_report (e : dm_event) : bool := match e with Discover _ _ => false | _ => true end.
Definition reports (d : bt_gatt_dm) : list dm_event := filter (fun e => is_report e = true) (events d).

(** The manager has got the attributes of the service [s] and has reported it. *)
Record finished (s : gservice) (d d' : bt_gatt_dm) : Prop := {
  fi_attrs : attrs d' = found s;
  fi_pending : release_pending d' = true;
  fi_work : work d' = false;
  fi_locked : locked d' = locked d;
  fi_func : p_func (discover_params d') = p_func (discover_params d);
  fi_end : p_end_handle (discover_params d') = p_end_handle (discover_params d);
  fi_uuid : p_uuid (discover_params d') = p_uuid (discover_params d);
  fi_callback : callback d' = callback d;
  fi_context : context d' = context d;
  fi_conn : conn d' = conn d;
  fi_search : search_svc_by_uuid d' = search_svc_by_uuid d;
  fi_svc_uuid : svc_uuid d' = svc_uuid d;
  fi_reports : reports d' = reports d ++ [Completed (found s) (context d)]
}.

Definition set_user_calls (cb : bt_gatt_dm_cb) : Prop :=
  cb_completed cb = true /\ cb_service_not_found cb = true /\ cb_error_found cb = true.

Section Discovery.
Context {GS : GattStack} (k_calloc : nat -> bool) (heap : forall n, k_calloc n = true).
Context (cb : bt_gatt_dm_cb) (user : set_user_calls cb).

Definition params_of (s : gservice) (t : discover_type) (p : bt_gatt_discover_params) : bt_gatt_discover_params :=
  {| p_uuid := None; p_func := p_func p; p_type := t; p_start_handle := gs_handle s + 1; p_end_handle := gs_end s |}.

Lemma service_store d s :
  attrs d = [] -> p_type (discover_params d) = BT_GATT_DISCOVER_PRIMARY -> (0 < MAX_ATTRS)%nat ->
  exists m, discovery_callback k_calloc d (conn d) (Some (svc_report s)) =
    let d' := with_mem m (set_attrs [svc_attr s] (set_discover_params (set_p_end_handle (gs_end s) (discover_params d)) d)) in
    if gs_handle s =? gs_end s then stop (discovery_complete d')
    else stop (Ok (set_work true (set_discover_params
           (set_p_start_handle (u16 (gs_handle s + 1)) (set_p_type BT_GATT_DISCOVER_ATTRIBUTE (set_p_uuid None (discover_params d')))) d'))).
Proof.
  intros Ha Ht Hm. unfold discovery_callback. rewrite bool_decide_true by done. cbn [negb]. rewrite Ht.
  unfold discovery_process_service.
  destruct (attr_store_ok k_calloc heap d (svc_report s) (ServiceVal {| sv_uuid := None; sv_end_handle := 0 |})) as [m ->];
    [by rewrite Ha|]. cbn [mbind res_bind]. rewrite Ha. cbn [length app ga_user_data svc_report].
  unfold attr_at. cbn [attrs with_mem set_callocs set_cur_chunk_len set_chunks set_attrs].
  cbn [lookup list_lookup mbind res_bind]. unfold service_val_of, bt_gatt_dm_attr_service_val. cbn [d_uuid stored ga_uuid d_data].
  rewrite uuid_cmp_refl. cbn [Z.eqb orb mbind res_bind sv_uuid]. 
  match goal with |- context [uuid_store _ ?x _] => destruct (uuid_store_ok k_calloc heap x (gs_uuid s)) as [m' ->] end.
  cbn [mbind res_bind]. exists m'. cbn [d_handle stored ga_handle svc_report sv_end_handle].
  unfold set_data. cbn [attrs with_mem set_callocs set_cur_chunk_len set_chunks set_attrs alter list_alter].
  destruct (gs_handle s =? gs_end s); by destruct d.
Qed.

Lemma reports_emit d e : is_report e = true -> reports (emit e d) = reports d ++ [e].
Proof. intros He. unfold reports, emit. cbn. rewrite filter_app. by rewrite filter_cons_True. Qed.

Lemma reports_discover d c p : reports (emit (Discover c p) d) = reports d.
Proof. unfold reports, emit. cbn. rewrite filter_app, filter_cons_False by done. by rewrite app_nil_r. Qed.

(** The work item starts the next procedure. *)
Lemma work_starts d : locked d = true ->
  gatt_discover_work d 0 = Ok (emit (Discover (conn d) (discover_params d)) (set_work false d)).
Proof. intros Hl. unfold gatt_discover_work. cbn [locked set_work]. by rewrite Hl. Qed.

Lemma completes d : callback d = Some cb ->
  discovery_complete d = Ok (emit (Completed (attrs d) (context d)) (set_release_pending true d)).
Proof.
  intros Hc. unfold discovery_complete. cbn [callback set_release_pending]. rewrite Hc. by destruct user as (-> & _).
Qed.

Lemma empty_service s : service_ok s -> gs_handle s = gs_end s -> gs_attrs s = [].
Proof.
  intros Hs E. destruct (gs_attrs s) as [|a l] eqn:Ea; [done|]. exfalso.
  pose proof (ok_sorted s Hs) as H. pose proof (ok_end s Hs) as He. rewrite Ea in *. cbn in H.
  apply StronglySorted_inv in H as [_ H]. apply Forall_cons in H as [H _]. apply Forall_cons in He as [He _]. lia.
Qed.

Lemma finished_now s d :
  attrs d = found s -> work d = false ->
  finished s d (emit (Completed (attrs d) (context d)) (set_release_pending true d)).
Proof. intros Ha Hw. split; try done. by rewrite reports_emit, Ha. Qed.

(** The state from which the rest of the discovery starts differs from [d] in
    fields that do not matter then. *)
Lemma finished_from s d d1 d' :
  finished s d1 d' -> locked d1 = locked d -> p_func (discover_params d1) = p_func (discover_params d) ->
  p_end_handle (discover_params d1) = p_end_handle (discover_params d) ->
  p_uuid (discover_params d1) = p_uuid (discover_params d) -> callback d1 = callback d -> context d1 = context d ->
  conn d1 = conn d -> search_svc_by_uuid d1 = search_svc_by_uuid d -> svc_uuid d1 = svc_uuid d -> reports d1 = reports d ->
  finished s d d'.
Proof. intros [] **. split; congruence. Qed.

Lemma values_found `{!GattServer db} d s p :
  s ∈ db -> service_ok s -> locked d = true -> attrs d = svc_attr s :: (bare <$> gs_attrs s) -> callback d = Some cb ->
  discover_params d = params_of s BT_GATT_DISCOVER_CHARACTERISTIC p -> work d = true ->
  exists d', pump k_calloc 1 d = Ok d' /\ finished s d d'.
Proof.
  intros Hin Hok Hl Ha Hc Hp Hw. cbn [pump]. rewrite Hw, (work_starts d Hl). cbn [mbind res_bind].
  set (d1 := emit _ _). assert (Hp1 : discover_params d1 = params_of s BT_GATT_DISCOVER_CHARACTERISTIC p) by exact Hp.
  pose proof (answers_characteristic (discover_params d1) s) as Hat. rewrite Hp1 in Hat at 1 2 3 4.
  specialize (Hat eq_refl eq_refl Hin eq_refl eq_refl).
  destruct (characteristics_delivered k_calloc heap d1 (svc_attr s) [] (gs_attrs s) (answers (discover_params d1)) []) as [m E];
    [by rewrite Hp1|exact Ha|apply Hok|done|].
  rewrite app_nil_r in E. rewrite E. cbn [deliver app]. set (d2 := with_mem _ _).
  assert (Hp2 : discover_params d2 = params_of s BT_GATT_DISCOVER_CHARACTERISTIC p) by exact Hp.
  unfold discovery_callback. rewrite bool_decide_true by done. cbn [negb]. rewrite Hp2. cbn [p_type params_of].
  unfold discovery_process_characteristic, stop. rewrite completes by exact Hc. cbn [mbind res_bind].
  eexists. split; [reflexivity|]. eapply finished_from; [by apply finished_now|try reflexivity..].
  apply (reports_discover (set_work false d)).
Qed.

(** The attributes of the service, and their values. *)
Lemma attributes_found `{!GattServer db} d s p :
  s ∈ db -> service_ok s -> gs_handle s <> gs_end s -> locked d = true -> attrs d = [svc_attr s] -> callback d = Some cb ->
  discover_params d = params_of s BT_GATT_DISCOVER_ATTRIBUTE p -> work d = true ->
  exists d', pump k_calloc 2 d = Ok d' /\ finished s d d'.
Proof.
  intros Hin Hok Hne Hl Ha Hc Hp Hw. cbn [pump]. rewrite Hw, (work_starts d Hl). cbn [mbind res_bind].
  set (d1 := emit _ _). pose proof (ok_range s Hok) as Hr. pose proof (ok_room s Hok) as Hroom.
  assert (Hp1 : discover_params d1 = params_of s BT_GATT_DISCOVER_ATTRIBUTE p) by exact Hp.
  pose proof (answers_attribute (discover_params d1) s) as Hat. rewrite Hp1 in Hat at 1 2 3 4.
  specialize (Hat eq_refl eq_refl Hin eq_refl eq_refl).
  destruct (attributes_delivered k_calloc heap d1 (gs_attrs s) (answers (discover_params d1)) []) as [m E];
    [by rewrite Hp1|done|apply Hok|change (attrs d1) with (attrs d); rewrite Ha; cbn; lia|].
  rewrite app_nil_r in E. rewrite E. change (attrs d1) with (attrs d). rewrite Ha. cbn [deliver app]. set (d2 := with_mem _ _).
  assert (Hp2 : discover_params d2 = params_of s BT_GATT_DISCOVER_ATTRIBUTE p) by exact Hp.
  unfold discovery_callback. rewrite bool_decide_true by done. cbn [negb]. rewrite Hp2. cbn [p_type params_of].
  unfold discovery_process_attribute, cur_attr_id. change (attrs d2) with (svc_attr s :: (bare <$> gs_attrs s)).
  cbn [length]. rewrite length_fmap. destruct (Z.ltb_spec 1 (Z.of_nat (S (length (gs_attrs s))))) as [Hlt|Hlt].
  - unfold attr_at. change (attrs d2) with (svc_attr s :: (bare <$> gs_attrs s)). cbn [lookup list_lookup mbind res_bind stop].
    set (d3 := set_work true _).
    destruct (values_found d3 s p) as (d' & E' & F); [done..| |done|].
    { unfold d3. cbn [discover_params set_work set_discover_params]. rewrite Hp2. cbn [d_handle svc_attr].
      by rewrite u16_small by lia. }
    exists d'. split; [exact E'|]. eapply finished_from; [exact F|try reflexivity..|].
    apply (reports_discover (set_work false d)).
  - assert (E0 : gs_attrs s = []) by (destruct (gs_attrs s); [done|cbn in Hlt; lia]).
    unfold stop. rewrite completes by exact Hc. cbn [mbind res_bind].
    eexists. split; [reflexivity|]. eapply finished_from; [apply finished_now|try reflexivity..|]; [|done|].
    + change (attrs d2) with (svc_attr s :: (bare <$> gs_attrs s)). unfold found. by rewrite E0.
    + apply (reports_discover (set_work false d)).
Qed.

(** Only the UUID of an empty service remains a parameter of the procedures. *)
Definition after (s : gservice) (d : bt_gatt_dm) : bt_gatt_dm :=
  set_discover_params (set_p_end_handle (gs_end s)
    (if decide (gs_handle s = gs_end s) then discover_params d else set_p_uuid None (discover_params d))) d.

Lemma pump_idle `{!GattServer db} fuel d : work d = false -> pump k_calloc fuel d = Ok d.
Proof. intros Hw. destruct fuel; cbn [pump]; by rewrite Hw. Qed.

Lemma discovery_found `{!GattServer db} uuid lo d s l :
  searching uuid lo cb d -> filter (asked uuid lo) db = s :: l -> service_ok s ->
  exists d', discovery k_calloc d = Ok d' /\ finished s (after s d) d'.
Proof.
  intros [Hl Hpe Hp Ha Hw Hc] Ef Hok. pose proof (ok_range s Hok) as Hr. pose proof (ok_room s Hok) as Hroom.
  assert (Hin : s ∈ db) by (eapply (list_elem_of_filter (asked uuid lo)); rewrite Ef; left).
  unfold discovery. rewrite answers_primary, Hp by (by rewrite Hp).
  cbn [p_uuid p_start_handle]. rewrite Ef. cbn [fmap list_fmap deliver].
  destruct (service_store d s) as [m E]; [done|by rewrite Hp|lia|]. rewrite E. cbv zeta. clear E.
  set (d1 := with_mem _ _). unfold after. destruct (Z.eqb_spec (gs_handle s) (gs_end s)) as [Ee|Ee].
  - rewrite decide_True by done. unfold stop. rewrite completes by exact Hc. cbn [mbind res_bind]. rewrite bool_decide_true by done.
    cbn [mbind res_bind]. eexists. split.
    + apply pump_idle. exact Hw.
    + eapply finished_from; [apply finished_now|try reflexivity..]; [|done]. unfold found. by rewrite (empty_service s Hok Ee).
  - rewrite decide_False by done. unfold stop. cbn [mbind res_bind]. rewrite bool_decide_true by done. cbn [mbind res_bind].
    set (d2 := set_work true _).
    assert (Hp2 : discover_params d2 = params_of s BT_GATT_DISCOVER_ATTRIBUTE (discover_params d)).
    { unfold d2, d1. cbn [discover_params set_work set_discover_params with_mem set_callocs set_cur_chunk_len set_chunks set_attrs].
      unfold params_of. rewrite u16_small by lia. by rewrite Hp. }
    destruct (attributes_found d2 s (discover_params d)) as (d' & E' & F); [done..|].
    exists d'. split; [exact E'|]. eapply finished_from; [exact F|try reflexivity..].
Qed.

Definition freed (d : bt_gatt_dm) : bt_gatt_dm := set_locked false (svc_attr_memory_release d).

Lemma discovery_not_found `{!GattServer db} uuid lo d :
  searching uuid lo cb d -> filter (asked uuid lo) db = [] ->
  discovery k_calloc d = Ok (emit (ServiceNotFound (conn d) (context d)) (freed d)).
Proof.
  intros [Hl Hpe Hp Ha Hw Hc] Ef. unfold discovery. rewrite answers_primary, Hp by (by rewrite Hp).
  cbn [p_uuid p_start_handle]. rewrite Ef. cbn [fmap list_fmap deliver]. unfold discovery_callback. rewrite bool_decide_true by done. cbn [negb].
  rewrite Hp. cbn [p_type]. unfold discovery_process_service, stop, discovery_complete_not_found.
  change (callback _) with (callback d). rewrite Hc. destruct user as (_ & -> & _). cbn [mbind res_bind].
  apply pump_idle. exact Hw.
Qed.

(** ** All services *)

(** The user releases each service that was reported and continues, until none is
    reported any more. *)
Fixpoint rest_of_services `{!GattServer db} (fuel : nat) (ctx : Z) (d : bt_gatt_dm) : res bt_gatt_dm :=
  if negb (release_pending d) then Ok d else
  match fuel with
  | O => NoFuel
  | S fuel =>
    let d := (bt_gatt_dm_data_release d).1 in
    let* '(d, _) := bt_gatt_dm_continue d ctx 0 in
    if negb (locked d) then Ok d else
    let* d := discovery k_calloc d in
    rest_of_services fuel ctx d
  end.

Definition all_services `{!GattServer db} (d : bt_gatt_dm) (c : option Z) (uuid : option bt_uuid) (ctx : Z) : res bt_gatt_dm :=
  let '(d, err) := bt_gatt_dm_start d c uuid (Some cb) ctx 0 in
  if ctrue err then Ok d else
  let* d := discovery k_calloc d in
  rest_of_services (S (length db)) ctx d.

Lemma filter_agree {A} (P Q : A -> Prop) `{forall x, Decision (P x), forall x, Decision (Q x)} (l : list A) :
  (forall x, x ∈ l -> P x <-> Q x) -> filter P l = filter Q l.
Proof.
  induction l as [|x l IH]; intros Hl; [done|]. assert (Hx : P x <-> Q x) by (apply Hl; left).
  rewrite !filter_cons, IH by (intros y Hy; apply Hl; by right).
  destruct (decide (P x)), (decide (Q x)); tauto.
Qed.

(** After a service, the services asked for are the ones that follow it. *)
Lemma asked_next db uuid lo s l :
  db_ok db -> filter (asked uuid lo) db = s :: l -> filter (asked uuid (gs_end s + 1)) db = l.
Proof.
  intros [Hs Ho]. induction db as [|t db IH]; [done|]. intros E.
  apply Forall_cons in Hs as [Ht Hs]. apply StronglySorted_inv in Ho as [Ho Hlt].
  pose proof (ok_range t Ht). destruct (decide (asked uuid lo t)) as [Ha|Ha].
  - rewrite filter_cons_True in E by done. injection E as -> <-. rewrite filter_cons_False by (intros [? _]; lia).
    apply filter_agree. intros u Hu. rewrite Forall_forall in Hlt. specialize (Hlt u Hu).
    destruct Ha. unfold asked. split; (intros [? ?]; split; [lia|done]).
  - rewrite filter_cons_False in E by done.
    assert (Hin : s ∈ db) by (eapply (list_elem_of_filter (asked uuid lo)); rewrite E; left).
    rewrite Forall_forall in Hlt, Hs. specialize (Hlt s Hin). pose proof (ok_range s (Hs s Hin)).
    rewrite filter_cons_False; [by apply IH; [apply Forall_forall|..]|]. intros [? _]. lia.
Qed.

(** A reported service that a discovery of all services has got to. *)
Record holding (uuid : option bt_uuid) (ctx : Z) (s : gservice) (d : bt_gatt_dm) : Prop := {
  ho_locked : locked d = true;
  ho_pending : release_pending d = true;
  ho_func : p_func (discover_params d) = true;
  ho_end : p_end_handle (discover_params d) = gs_end s;
  ho_uuid : p_uuid (discover_params d) = None;
  ho_work : work d = false;
  ho_callback : callback d = Some cb;
  ho_context : context d = ctx;
  ho_search : (if search_svc_by_uuid d then svc_uuid d else None) = uuid
}.

Lemma holding_finished uuid ctx s lo d d' :
  searching uuid lo cb d -> finished s (after s d) d' -> uuid = None \/ gs_handle s <> gs_end s -> context d = ctx ->
  (if search_svc_by_uuid d then svc_uuid d else None) = uuid -> holding uuid ctx s d'.
Proof.
  intros [Hl _ Hp _ _ Hc] [] Hu Hx Hs. cbn in *. split; try done; [congruence|..].
  - rewrite fi_func0. destruct (decide _); cbn; by rewrite Hp.
  - rewrite fi_uuid0. destruct (decide _); cbn; [rewrite Hp; cbn; by destruct Hu|done].
  - congruence.
  - congruence.
  - by rewrite fi_search0, fi_svc_uuid0.
Qed.

Definition completions (ctx : Z) (l : list gservice) : list dm_event := (fun s => Completed (found s) ctx) <$> l.

(** The manager is free and has reported the services [l], and no other ones. *)
Definition all_reported (ctx : Z) (l : list gservice) (d d' : bt_gatt_dm) : Prop :=
  reports d' = reports d ++ completions ctx l ++ [ServiceNotFound (conn d) ctx] /\
  locked d' = false /\ release_pending d' = false /\ attrs d' = [] /\ chunks d' = O.

(** The manager after a service was released, and ready for the next one. *)
Definition continued (ctx : Z) (s : gservice) (uuid : option bt_uuid) (d : bt_gatt_dm) : bt_gatt_dm :=
  let d := set_context ctx (set_locked true (bt_gatt_dm_data_release d).1) in
  let d := set_discover_params {| p_uuid := uuid; p_func := true; p_type := BT_GATT_DISCOVER_PRIMARY;
                                  p_start_handle := gs_end s + 1; p_end_handle := 0xffff |} d in
  emit (Discover (conn d) (discover_params d)) d.

Lemma continues uuid ctx s d :
  holding uuid ctx s d -> service_ok s ->
  bt_gatt_dm_continue (bt_gatt_dm_data_release d).1 ctx 0 =
    if gs_end s =? 0xffff then Ok (emit (ServiceNotFound (conn d) ctx) (freed (bt_gatt_dm_data_release d).1), 0)
    else Ok (continued ctx s uuid d, 0).
Proof.
  intros [Hl Hpe Hf He Hu Hw Hc Hx Hs] Hok. pose proof (ok_range s Hok).
  unfold bt_gatt_dm_data_release. rewrite Hpe. cbn [negb fst]. set (r := set_locked false _).
  unfold bt_gatt_dm_continue. change (callback r) with (callback d). change (discover_params r) with (discover_params d).
  rewrite Hc, Hf, Hu. cbn [bool_decide]. rewrite !bool_decide_false by (by try (intros [? ?])). cbn [orb negb].
  change (locked r) with false. cbv beta iota zeta. change (discover_params (set_locked true r)) with (discover_params d).
  rewrite He. destruct (gs_end s =? 0xffff) eqn:Ee.
  - unfold discovery_complete_not_found. change (callback _) with (callback d). rewrite Hc. destruct user as (_ & -> & _).
    cbn [mbind res_bind]. do 3 f_equal. by rewrite <- Hx.
  - change (search_svc_by_uuid _) with (search_svc_by_uuid d). change (svc_uuid _) with (svc_uuid d). rewrite Hs.
    change (p_func _) with (p_func (discover_params d)). change (p_end_handle _) with (p_end_handle (discover_params d)).
    rewrite Hf, He. apply Z.eqb_neq in Ee. rewrite u16_small by lia. unfold continued, bt_gatt_dm_data_release. by rewrite Hpe.
Qed.

Lemma continued_searching uuid ctx s d :
  holding uuid ctx s d -> searching uuid (gs_end s + 1) cb (continued ctx s uuid d).
Proof. intros [Hl Hpe Hf He Hu Hw Hc Hx Hs]. unfold continued, bt_gatt_dm_data_release. rewrite Hpe. by split. Qed.

Lemma released_reports d : reports (bt_gatt_dm_data_release d).1 = reports d /\ conn (bt_gatt_dm_data_release d).1 = conn d.
Proof. unfold bt_gatt_dm_data_release. by destruct (release_pending d). Qed.

Lemma finished_reports s d d' :
  finished s (after s d) d' -> reports d' = reports d ++ [Completed (found s) (context d)] /\ conn d' = conn d.
Proof. intros Hf. split; apply Hf. Qed.

Lemma continued_reports uuid ctx s d :
  holding uuid ctx s d ->
  reports (continued ctx s uuid d) = reports d /\ conn (continued ctx s uuid d) = conn d /\ context (continued ctx s uuid d) = ctx /\
  (if search_svc_by_uuid (continued ctx s uuid d) then svc_uuid (continued ctx s uuid d) else None) = uuid.
Proof.
  intros [Hl Hpe Hf He Hu Hw Hc Hx Hs]. pose proof (released_reports d) as [Hr Hn]. unfold continued.
  rewrite reports_discover. split; [exact Hr|]. split; [exact Hn|]. split; [done|].
  unfold bt_gatt_dm_data_release. by rewrite Hpe.
Qed.

Lemma not_found_reported ctx d d0 :
  reports d = reports d0 -> conn d = conn d0 -> release_pending d = false ->
  all_reported ctx [] d0 (emit (ServiceNotFound (conn d0) ctx) (freed d)).
Proof. intros Hr Hc Hp. unfold all_reported. rewrite reports_emit by done. by rewrite <- Hr. Qed.

(** The services that are asked for are not empty, or any service is. *)
Definition distinct_end (uuid : option bt_uuid) (l : list gservice) : Prop :=
  uuid = None \/ Forall (fun s => gs_handle s <> gs_end s) l.

Lemma rest_reported `{!GattServer db} fuel uuid ctx l s d :
  db_ok db -> service_ok s -> holding uuid ctx s d -> filter (asked uuid (gs_end s + 1)) db = l -> distinct_end uuid l ->
  (length l < fuel)%nat -> exists d', rest_of_services fuel ctx d = Ok d' /\ all_reported ctx l d d'.
Proof.
  intros Hdb. revert l s d. induction fuel as [|fuel IH]; intros l s d Hok Hh El Hd Hf; [lia|].
  cbn [rest_of_services]. rewrite (ho_pending _ _ _ _ Hh). cbn [negb]. cbv zeta. rewrite (continues _ _ _ _ Hh Hok).
  destruct (released_reports d) as [Hr Hn]. destruct (Z.eqb_spec (gs_end s) 0xffff) as [Ee|Ee].
  - destruct l as [|t l].
    + cbn [mbind res_bind]. eexists. split; [reflexivity|]. apply not_found_reported; [done..|].
      unfold bt_gatt_dm_data_release. by rewrite (ho_pending _ _ _ _ Hh).
    + exfalso. assert (Ht : t ∈ filter (asked uuid (gs_end s + 1)) db) by (rewrite El; left).
      apply list_elem_of_filter in Ht as [[Hlo _] Ht]. pose proof (ok_services db Hdb) as Hs. rewrite Forall_forall in Hs.
      pose proof (ok_range t (Hs t Ht)). lia.
  - cbn [mbind res_bind]. pose proof (continued_searching _ _ _ _ Hh) as Hse.
    destruct (continued_reports _ _ _ _ Hh) as (Hcr & Hcc & Hcx & Hcs). rewrite (se_locked _ _ _ _ Hse). cbn [negb].
    destruct l as [|t l].
    + rewrite (discovery_not_found _ _ _ Hse El). cbn [mbind res_bind].
      destruct fuel; cbn [rest_of_services]; change (release_pending _) with (release_pending (continued ctx s uuid d));
        rewrite (se_pending _ _ _ _ Hse); cbn [negb];
        (eexists; split; [reflexivity|]; rewrite Hcx, Hcc; apply not_found_reported; [done..|apply Hse]).
    + assert (Ht : t ∈ filter (asked uuid (gs_end s + 1)) db) by (rewrite El; left).
      apply list_elem_of_filter in Ht as [_ Ht]. pose proof (ok_services db Hdb) as Hs. rewrite Forall_forall in Hs.
      destruct (discovery_found _ _ _ _ _ Hse El (Hs t Ht)) as (d1 & -> & Hfi). cbn [mbind res_bind].
      assert (Hd' : uuid = None \/ gs_handle t <> gs_end t /\ distinct_end uuid l)
        by (destruct Hd as [|Hd]; [tauto|apply Forall_cons in Hd as [? ?]; right; split; [done|by right]]).
      destruct (IH l t d1) as (d' & E & Hrep); [by apply Hs|..].
      * eapply holding_finished; [exact Hse|done|tauto|done..].
      * by eapply asked_next.
      * destruct Hd' as [|[_ ?]]; [by left|done].
      * cbn in Hf. lia.
      * exists d'. split; [exact E|]. destruct Hrep as (Hrr & ?). split; [|done]. rewrite Hrr.
        destruct (finished_reports _ _ _ Hfi) as [-> ->]. by rewrite Hcr, Hcc, Hcx, <- app_assoc.
Qed.

(** The state in which a discovery starts. *)
Definition started (d : bt_gatt_dm) (c : option Z) (uuid : option bt_uuid) (ctx : Z) : bt_gatt_dm :=
  (bt_gatt_dm_start d c uuid (Some cb) ctx 0).1.

Lemma started_searching d c uuid ctx :
  locked d = false -> release_pending d = false ->
  match uuid with Some u => u_type u <> BT_UUID_TYPE_32 | None => True end ->
  bt_gatt_dm_start d c uuid (Some cb) ctx 0 = (started d c uuid ctx, 0) /\
  searching uuid 1 cb (started d c uuid ctx) /\ reports (started d c uuid ctx) = reports d /\
  conn (started d c uuid ctx) = c /\ context (started d c uuid ctx) = ctx /\
  (if search_svc_by_uuid (started d c uuid ctx) then svc_uuid (started d c uuid ctx) else None) = uuid.
Proof.
  intros Hl Hp Hu. unfold started, bt_gatt_dm_start.
  destruct uuid as [u|]; [rewrite bool_decide_false by done|]; rewrite Hl; unfold bt_gatt_dm_start; cbn -[emit reports];
    (split; [done|]); (split; [by split|]); (split; [etrans; [apply reports_discover|done]|done]).
Qed.

End Discovery.

(** C12: A server has services in the order of their handles, each with fewer
    attributes than the table of the manager has entries; a search by UUID (of 16 or
    128 bits) is for services with more than one handle, since it cannot be continued
    after an empty one ([empty_service_not_continued]). With a heap that does not run
    out and a manager that is idle, a discovery that the user continues reports every
    service of the server that was asked for, once, in the order of the handles and
    with all its attributes and the values of its characteristics, and then that
    there are no more; the manager is free then and keeps no memory. *)
Theorem discovery_reports_all_services `{GattServer db} k_calloc cb d c uuid ctx :
  (forall n, k_calloc n = true) -> set_user_calls cb -> db_ok db ->
  locked d = false -> release_pending d = false ->
  match uuid with Some u => u_type u <> BT_UUID_TYPE_32 | None => True end ->
  distinct_end uuid (filter (asked uuid 1) db) ->
  exists d', all_services k_calloc cb d c uuid ctx = Ok d' /\
    reports d' = reports d ++ completions ctx (filter (asked uuid 1) db) ++ [ServiceNotFound c ctx] /\
    locked d' = false /\ attrs d' = [] /\ chunks d' = O.
Proof.
  intros Hk Hcb Hdb Hl Hp Hu Hd. destruct (started_searching cb d c uuid ctx Hl Hp Hu) as (E & Hse & Hr & Hc & Hx & Hs).
  unfold all_services. rewrite E. cbn [ctrue Z.eqb negb].
  destruct (filter (asked uuid 1) db) as [|s l] eqn:Ef.
  - rewrite (discovery_not_found k_calloc cb Hcb _ _ _ Hse Ef). cbn [mbind res_bind rest_of_services].
    change (release_pending _) with (release_pending (started cb d c uuid ctx)). rewrite (se_pending _ _ _ _ Hse). cbn [negb].
    eexists. split; [reflexivity|]. rewrite Hx, Hc, reports_emit by done. rewrite <- Hr. done.
  - assert (Hin : s ∈ filter (asked uuid 1) db) by (rewrite Ef; left). apply list_elem_of_filter in Hin as [_ Hin].
    pose proof (ok_services db Hdb) as Hok. rewrite Forall_forall in Hok.
    destruct (discovery_found k_calloc Hk cb Hcb _ _ _ _ _ Hse Ef (Hok s Hin)) as (d1 & -> & Hfi). cbn [mbind res_bind].
    assert (Hd' : uuid = None \/ gs_handle s <> gs_end s /\ distinct_end uuid l)
      by (destruct Hd as [|Hd]; [tauto|apply Forall_cons in Hd as [? ?]; right; split; [done|by right]]).
    pose proof (length_filter (asked uuid 1) db) as Hlen. rewrite Ef in Hlen. cbn in Hlen.
    destruct (rest_reported k_calloc Hk cb Hcb (S (length db)) uuid ctx l s d1) as (d' & E' & Hrep); [done|by apply Hok|..|lia|].
    + eapply holding_finished; [exact Hse|done|tauto|done..].
    + by eapply asked_next.
    + destruct Hd' as [|[_ ?]]; [by left|done].
    + exists d'. split; [exact E'|]. destruct Hrep as (Hrr & Hl' & _ & Ha & Hch). rewrite Hrr.
      destruct (finished_reports _ _ _ Hfi) as [-> ->]. rewrite Hr, Hc, Hx, <- app_assoc. done.
Qed.

(** ** Any server, any heap *)

(** The control state is the same. *)
Record same_control (d d' : bt_gatt_dm) : Prop := {
  sc_locked : locked d' = locked d;
  sc_pending : release_pending d' = release_pending d;
  sc_work : work d' = work d;
  sc_callback : callback d' = callback d;
  sc_reports : reports d' = reports d
}.
#[export] Instance same_control_preorder : PreOrder same_control.
Proof. split; [by split|]. intros d1 d2 d3 [] []. split; congruence. Qed.

(** The manager becomes free with a report. *)
Record frees (d d' : bt_gatt_dm) : Prop := {
  fr_locked : locked d' = false;
  fr_attrs : attrs d' = [];
  fr_chunks : chunks d' = O;
  fr_pending : release_pending d' = release_pending d;
  fr_work : work d' = work d;
  fr_callback : callback d' = callback d;
  fr_reports : length (reports d') = S (length (reports d))
}.

(** What a call of the callback of the procedures does to the control state: it
    fails or finds nothing, ends the discovery, submits the next procedure, or
    asks for more. *)
Inductive outcome (d d' : bt_gatt_dm) (attr : option bt_gatt_attr) : iter -> Prop :=
  | OutFree : frees d d' -> outcome d d' attr BT_GATT_ITER_STOP
  | OutDone : locked d' = locked d -> release_pending d' = true -> work d' = work d -> callback d' = callback d ->
      length (reports d') = S (length (reports d)) -> outcome d d' attr BT_GATT_ITER_STOP
  | OutNext : locked d' = locked d -> release_pending d' = release_pending d -> work d' = true ->
      callback d' = callback d -> reports d' = reports d -> outcome d d' attr BT_GATT_ITER_STOP
  | OutMore : is_Some attr -> same_control d d' -> outcome d d' attr BT_GATT_ITER_CONTINUE.

Section AnyServer.
Context {GS : GattStack} (k_calloc : nat -> bool).

Lemma alloc_control d n d' b : user_data_alloc k_calloc d n = Ok (d', b) -> same_control d d'.
Proof.
  unfold user_data_alloc. cbv zeta. generalize (bool_decide (chunks d = O) || (CHUNK_DATA_SIZE <? cur_chunk_len d + ROUND_UP n DATA_ALIGN)).
  intros [|]; cbn [negb orb].
  - destruct (k_calloc (callocs d)); cbn [negb]; [|by intros [= <- <-]].
    case (_ <? _); [done|]. intros [= <- <-]. by split.
  - case (_ <? _); [done|]. intros [= <- <-]. by split.
Qed.

Lemma attr_store_control d a slot d' i : attr_store k_calloc d a slot = Ok (d', i) -> same_control d d'.
Proof.
  unfold attr_store. destruct (_ <=? _); [by intros [= <- <-]|]. intros E.
  apply bind_Ok_inv in E as ([d1 b] & E1 & E2). apply alloc_control in E1. destruct b; injection E2 as <- <-; [|done].
  destruct E1. by split.
Qed.

Lemma uuid_store_control d u d' r : uuid_store k_calloc d u = Ok (d', r) -> same_control d d'.
Proof.
  unfold uuid_store. destruct u as [u|]; [|by intros [= <- <-]]. intros E.
  apply bind_Ok_inv in E as ([d1 b] & E1 & E2). apply alloc_control in E1. by injection E2 as <- <-.
Qed.

Lemma set_data_control i v d : same_control d (set_data i v d).
Proof. by split. Qed.

Lemma error_frees cb d e d' :
  set_user_calls cb -> callback d = Some cb -> discovery_complete_error d e = Ok d' -> frees d d'.
Proof.
  intros (_ & _ & Hcb) Hc. unfold discovery_complete_error. change (callback (set_locked _ _)) with (callback d).
  rewrite Hc, Hcb. intros [= <-]. split; try done. rewrite reports_emit, length_app by done. cbn -[reports].
  change (reports (set_locked false _)) with (reports d). lia.
Qed.

Lemma not_found_frees cb d d' :
  set_user_calls cb -> callback d = Some cb -> discovery_complete_not_found d = Ok d' -> frees d d'.
Proof.
  intros (_ & Hcb & _) Hc. unfold discovery_complete_not_found. change (callback (set_locked _ _)) with (callback d).
  rewrite Hc, Hcb. intros [= <-]. split; try done. rewrite reports_emit, length_app by done. cbn -[reports].
  change (reports (set_locked false _)) with (reports d). lia.
Qed.

Lemma frees_from d0 d d' : same_control d0 d -> frees d d' -> frees d0 d'.
Proof. intros [] []. split; congruence. Qed.

Lemma error_free cb d0 d e d' r attr :
  set_user_calls cb -> callback d0 = Some cb -> same_control d0 d ->
  stop (discovery_complete_error d e) = Ok (d', r) -> outcome d0 d' attr r.
Proof.
  intros Hcb Hc Hs E. unfold stop in E. apply bind_Ok_inv in E as (d1 & E & [= <- <-]). apply OutFree.
  eapply frees_from; [exact Hs|]. eapply error_frees; [exact Hcb|destruct Hs; congruence|done].
Qed.

Lemma complete_done cb d0 d d' r attr :
  set_user_calls cb -> callback d0 = Some cb -> same_control d0 d ->
  stop (discovery_complete d) = Ok (d', r) -> outcome d0 d' attr r.
Proof.
  intros Hcb Hc [] E. unfold stop in E. rewrite (completes cb Hcb) in E by congruence. injection E as <- <-.
  apply OutDone; [exact sc_locked0|done|exact sc_work0|exact sc_callback0|]. rewrite reports_emit by done. rewrite length_app. cbn -[reports]. rewrite <- sc_reports0.
  change (reports (set_release_pending true d)) with (reports d). lia.
Qed.

Lemma next_outcome d0 d p d' r attr :
  same_control d0 d -> stop (Ok (set_work true (set_discover_params p d))) = Ok (d', r) -> outcome d0 d' attr r.
Proof. intros [] [= <- <-]. by apply OutNext. Qed.

Section Outcomes.
Context (cb : bt_gatt_dm_cb) (user : set_user_calls cb).

Lemma service_outcome d attr d' r :
  callback d = Some cb -> discovery_process_service k_calloc d attr = Ok (d', r) -> outcome d d' attr r.
Proof.
  intros Hc. destruct attr as [a|]; cbn [discovery_process_service]; intros E.
  2:{ unfold stop in E. apply bind_Ok_inv in E as (d1 & E1 & E2). injection E2 as <- <-. apply OutFree. by eapply not_found_frees. }
  apply bind_Ok_inv in E as ([d1 [i|]] & E1 & E); apply attr_store_control in E1; [|by eapply error_free].
  destruct (ga_user_data a) as [|v|]; try done. apply bind_Ok_inv in E as (x & _ & E). apply bind_Ok_inv in E as (y & _ & E).
  apply bind_Ok_inv in E as ([d2 u] & E2 & E). apply uuid_store_control in E2.
  assert (Hd : same_control d (set_data i (ServiceVal {| sv_uuid := u; sv_end_handle := sv_end_handle v |}) d2))
    by (etrans; [exact E1|]; etrans; [apply set_data_control|]; etrans; [exact E2|apply set_data_control]).
  destruct u as [u|]; [|by eapply error_free]. cbv zeta in E. destruct (_ =? _) in E.
  - eapply complete_done; [exact user|done| |exact E]. etrans; [exact Hd|by split].
  - eapply next_outcome; [|exact E]. etrans; [exact Hd|by split].
Qed.

Lemma attribute_outcome d attr d' r :
  callback d = Some cb -> discovery_process_attribute k_calloc d attr = Ok (d', r) -> outcome d d' attr r.
Proof.
  intros Hc. destruct attr as [a|]; cbn [discovery_process_attribute]; intros E.
  2:{ destruct (_ <? _) in E; [|by eapply complete_done]. apply bind_Ok_inv in E as (x & _ & E). by eapply next_outcome. }
  apply bind_Ok_inv in E as ([d1 cur] & E1 & E).
  assert (Hd : same_control d d1).
  { destruct (_ =? _) in E1; [|by eapply attr_store_control].
    apply bind_Ok_inv in E1 as ([d2 [i|]] & E2 & E1); [|done]. apply attr_store_control in E2.
    apply bind_Ok_inv in E1 as (x & _ & E1). apply bind_Ok_inv in E1 as (y & _ & E1). injection E1 as <- <-.
    etrans; [exact E2|apply set_data_control]. }
  destruct cur; [injection E as <- <-; by apply OutMore|by eapply error_free].
Qed.

Lemma characteristic_outcome d attr d' r :
  callback d = Some cb -> discovery_process_characteristic k_calloc d attr = Ok (d', r) -> outcome d d' attr r.
Proof.
  intros Hc. destruct attr as [a|]; cbn [discovery_process_characteristic]; intros E; [|by eapply complete_done].
  apply bind_Ok_inv in E as ([i|] & _ & E); [|by eapply error_free].
  destruct (ga_user_data a) as [| |v]; try done. apply bind_Ok_inv in E as (x & _ & E). apply bind_Ok_inv in E as (y & _ & E).
  apply bind_Ok_inv in E as ([d2 u] & E2 & E). apply uuid_store_control in E2.
  match type of E with context [set_data i ?x d2] => assert (Hd : same_control d (set_data i x d2))
    by (etrans; [apply set_data_control|]; etrans; [exact E2|apply set_data_control]) end.
  destruct u as [u|]; [injection E as <- <-; by apply OutMore|by eapply error_free].
Qed.

Lemma callback_outcome d c attr d' r :
  callback d = Some cb -> discovery_callback k_calloc d c attr = Ok (d', r) -> outcome d d' attr r.
Proof.
  intros Hc. unfold discovery_callback. destruct (negb _); [by apply (error_free cb)|].
  destruct (p_type _); first [by apply service_outcome | by apply attribute_outcome | by apply characteristic_outcome | by apply (error_free cb)].
Qed.

End Outcomes.

(** *** Calls that return *)

(** The characteristic declarations among the attributes have room for their values. *)
Definition typed (l : list bt_gatt_dm_attr) : Prop :=
  Forall (fun a => bt_uuid_cmp BT_UUID_GATT_CHRC (d_uuid a) = 0 -> exists c, d_data a = ChrcVal c) l.

(** What the stack reports in a procedure: services in the first one, any
    attributes in the second one, with room in the table and on the heap for
    characteristic declarations, and in the third one values of
    characteristics, not at the handle of another attribute. *)
Definition served (d : bt_gatt_dm) (a : bt_gatt_attr) : Prop :=
  match p_type (discover_params d) with
  | BT_GATT_DISCOVER_PRIMARY | BT_GATT_DISCOVER_SECONDARY =>
    (exists v, ga_user_data a = ServiceVal v) /\
    (bt_uuid_cmp BT_UUID_GATT_PRIMARY (ga_uuid a) = 0 \/ bt_uuid_cmp BT_UUID_GATT_SECONDARY (ga_uuid a) = 0)
  | BT_GATT_DISCOVER_ATTRIBUTE =>
    bt_uuid_cmp (ga_uuid a) BT_UUID_GATT_CHRC = 0 -> (length (attrs d) < MAX_ATTRS)%nat /\ k_calloc (callocs d) = true
  | BT_GATT_DISCOVER_CHARACTERISTIC =>
    (exists c, ga_user_data a = ChrcVal c) /\
    Forall (fun b => d_handle b = ga_handle a -> bt_uuid_cmp BT_UUID_GATT_CHRC (d_uuid b) = 0) (attrs d)
  | _ => True
  end.

Lemma alloc_total d n t :
  n = 0 \/ n = sizeof_service_val \/ n = sizeof_chrc ->
  exists d' b, user_data_alloc k_calloc d (n + sizeof_uuid t) = Ok (d', b) /\ attrs d' = attrs d /\
    (k_calloc (callocs d) = true -> b = true).
Proof.
  intros Hn. pose proof (chunk_room t n Hn) as Hr. unfold user_data_alloc. change DATA_ALIGN with 4.
  cbv zeta. match goal with |- context [negb ?f || k_calloc _] => destruct f eqn:Ef end; cbn [negb orb].
  - destruct (k_calloc (callocs d)); cbn [negb]; [|eexists _, _; split; [reflexivity|]; by split].
    cbn [cur_chunk_len set_cur_chunk_len set_chunks set_callocs].
    destruct (Z.ltb_spec CHUNK_DATA_SIZE (0 + ROUND_UP (n + sizeof_uuid t) 4)); [lia|]. eexists _, _; split; [reflexivity|]; by split.
  - apply orb_false_iff in Ef as [_ ->]. eexists _, _; split; [reflexivity|]; by split.
Qed.

Lemma attr_store_total d a slot :
  exists d' cur, attr_store k_calloc d a slot = Ok (d', cur) /\
    (cur = None /\ attrs d' = attrs d \/ cur = Some (length (attrs d)) /\ attrs d' = attrs d ++ [stored a slot]) /\
    ((length (attrs d) < MAX_ATTRS)%nat -> k_calloc (callocs d) = true -> cur <> None).
Proof.
  unfold attr_store, cur_attr_id. destruct (Z.leb_spec (Z.of_nat MAX_ATTRS) (zlen (attrs d))).
  { exists d, None. split; [done|]. split; [by left|lia]. }
  destruct (alloc_total d (additional_len slot) (u_type (ga_uuid a))) as (d' & b & E & Ha & Hb); [destruct slot; cbn; tauto|].
  unfold get_uuid_size. rewrite E. cbn [mbind res_bind]. destruct b; cbn [negb]; eexists _, _; (split; [reflexivity|]).
  - cbn [attrs set_attrs]. rewrite Ha. split; [by right|done].
  - split; [by left|]. intros _ Hk. by specialize (Hb Hk).
Qed.

Lemma uuid_store_total d u : exists d' v, uuid_store k_calloc d u = Ok (d', v) /\ attrs d' = attrs d.
Proof.
  destruct u as [u|]; cbn [uuid_store]; [|by eexists _, _].
  destruct (alloc_total d 0 (u_type u)) as (d' & b & E & Ha & _); [tauto|]. rewrite Z.add_0_l in E.
  unfold get_uuid_size. rewrite E. by eexists _, _.
Qed.

(** The search by handle ends, and what it finds has the handle. *)
Lemma find_loop_total fuel d h lo up :
  0 <= lo <= up + 1 -> up < zlen (attrs d) -> up - lo + 1 < Z.of_nat fuel ->
  exists o, find_loop fuel d h lo up = Ok o /\ forall i, o = Some i -> exists a, attrs d !! i = Some a /\ d_handle a = h.
Proof.
  revert lo up. induction fuel as [|fuel IH]; intros lo up H0 Hu Hf; [lia|]. cbn [find_loop].
  destruct (Z.leb_spec lo up); [|by exists None].
  set (m := (lo + up) / 2). assert (Hm : lo <= m <= up) by (unfold m; pose proof (Z.div_mod (lo + up) 2); pose proof (Z.mod_pos_bound (lo + up) 2); lia).
  unfold attr_at. destruct (attrs d !! Z.to_nat m) as [b|] eqn:Eb; [|apply lookup_ge_None in Eb; lia]. cbn [mbind res_bind].
  destruct (Z.ltb_spec (d_handle b) h); [apply IH; lia|]. destruct (Z.ltb_spec h (d_handle b)); [apply IH; lia|].
  exists (Some (Z.to_nat m)). split; [done|]. intros i [= <-]. exists b. split; [done|lia].
Qed.

Lemma find_by_handle_total d h :
  exists o, attr_find_by_handle d h = Ok o /\ forall i, o = Some i -> exists a, attrs d !! i = Some a /\ d_handle a = h.
Proof.
  unfold attr_find_by_handle, cur_attr_id. destruct (Z.eqb_spec (zlen (attrs d)) 0); [by exists None|]. apply find_loop_total; lia.
Qed.

Lemma typed_snoc l a : typed l -> (bt_uuid_cmp BT_UUID_GATT_CHRC (d_uuid a) = 0 -> exists c, d_data a = ChrcVal c) -> typed (l ++ [a]).
Proof. intros Hl Ha. apply Forall_app. by split; [|constructor]. Qed.

Lemma typed_chrc d i c : typed (attrs d) -> typed (attrs (set_data i (ChrcVal c) d)).
Proof. intros Ht. apply Forall_alter; [done|]. intros a _ _ _. by exists c. Qed.

Lemma service_uuid_not_chrc u :
  bt_uuid_cmp BT_UUID_GATT_PRIMARY u = 0 \/ bt_uuid_cmp BT_UUID_GATT_SECONDARY u = 0 -> bt_uuid_cmp BT_UUID_GATT_CHRC u <> 0.
Proof.
  intros [Hu|Hu] Hc; apply uuid_cmp_sym in Hc; pose proof (uuid_cmp_trans _ _ _ Hu Hc) as E; by apply uuid_cmp_16 in E.
Qed.

Lemma typed_service d i v a :
  attrs d !! i = Some a -> bt_uuid_cmp BT_UUID_GATT_CHRC (d_uuid a) <> 0 -> typed (attrs d) -> typed (attrs (set_data i v d)).
Proof. intros Hi Ha Ht. apply Forall_alter; [done|]. intros b Hb. rewrite Hi in Hb. by injection Hb as <-. Qed.

(** A call returns and keeps the types of the attributes. *)
Definition returns (r : res (bt_gatt_dm * iter)) : Prop := exists d i, r = Ok (d, i) /\ typed (attrs d).

Lemma complete_returns d : callback d <> None -> typed (attrs d) -> returns (stop (discovery_complete d)).
Proof.
  intros Hc Ht. unfold discovery_complete. change (callback (set_release_pending true d)) with (callback d).
  destruct (callback d) as [cb|]; [|done]. eexists _, _. split; [reflexivity|]. by destruct (cb_completed cb).
Qed.

Lemma error_returns d e : callback d <> None -> returns (stop (discovery_complete_error d e)).
Proof.
  intros Hc. unfold discovery_complete_error. change (callback (set_locked false _)) with (callback d).
  destruct (callback d) as [cb|]; [|done]. eexists _, _. split; [reflexivity|]. destruct (cb_error_found cb); apply Forall_nil_2.
Qed.

Lemma not_found_returns d : callback d <> None -> returns (stop (discovery_complete_not_found d)).
Proof.
  intros Hc. unfold discovery_complete_not_found. change (callback (set_locked false _)) with (callback d).
  destruct (callback d) as [cb|]; [|done]. eexists _, _. split; [reflexivity|]. destruct (cb_service_not_found cb); apply Forall_nil_2.
Qed.

Lemma next_returns d p : typed (attrs d) -> returns (stop (Ok (set_work true (set_discover_params p d)))).
Proof. intros Ht. by eexists _, _. Qed.

Lemma service_returns d a :
  callback d <> None -> typed (attrs d) -> (exists v, ga_user_data a = ServiceVal v) ->
  bt_uuid_cmp BT_UUID_GATT_PRIMARY (ga_uuid a) = 0 \/ bt_uuid_cmp BT_UUID_GATT_SECONDARY (ga_uuid a) = 0 ->
  returns (discovery_process_service k_calloc d (Some a)).
Proof.
  intros Hc Ht (v & Hv) Hu. cbn [discovery_process_service]. set (slot := ServiceVal _).
  destruct (attr_store_total d a slot) as (d1 & cur & E1 & Hcur & _).
  pose proof (attr_store_control _ _ _ _ _ E1) as C1. rewrite E1. cbn [mbind res_bind].
  destruct Hcur as [(-> & _)|(-> & Ha)]; [apply error_returns; by rewrite (sc_callback _ _ C1)|].
  assert (Hl : attrs d1 !! length (attrs d) = Some (stored a slot)) by (rewrite Ha; by apply list_lookup_middle).
  pose proof (service_uuid_not_chrc _ Hu) as Hn. rewrite Hv. unfold attr_at. rewrite Hl. cbn [mbind res_bind].
  unfold service_val_of, bt_gatt_dm_attr_service_val. cbn [d_uuid stored d_data].
  assert ((bt_uuid_cmp BT_UUID_GATT_PRIMARY (ga_uuid a) =? 0) || (bt_uuid_cmp BT_UUID_GATT_SECONDARY (ga_uuid a) =? 0) = true) as ->
    by (apply orb_true_iff; rewrite !Z.eqb_eq; done).
  cbn [mbind res_bind slot]. set (d2 := set_data _ _ d1). destruct (uuid_store_total d2 (sv_uuid v)) as (d3 & u & E3 & A3).
  pose proof (uuid_store_control _ _ _ _ E3) as C3. rewrite E3. cbn [mbind res_bind]. cbv zeta. set (d4 := set_data _ _ d3).
  assert (Hc4 : callback d4 <> None) by (change (callback d3 <> None); rewrite (sc_callback _ _ C3); change (callback d1 <> None); by rewrite (sc_callback _ _ C1)).
  assert (T1 : typed (attrs d1)) by (rewrite Ha; by apply typed_snoc).
  assert (T2 : typed (attrs d2)) by (by eapply typed_service).
  assert (T4 : typed (attrs d4)).
  { eapply (typed_service d3 _ _ {| d_uuid := ga_uuid a; d_handle := ga_handle a; d_perm := ga_perm a; d_data := ServiceVal v |});
      [|done|by rewrite A3]. rewrite A3. unfold d2. cbn. by rewrite list_lookup_alter_eq, Hl. }
  destruct u as [u|]; [|by apply error_returns]. destruct (_ =? _); [by apply complete_returns|by apply next_returns].
Qed.

Lemma attribute_returns d a :
  callback d <> None -> typed (attrs d) ->
  (bt_uuid_cmp (ga_uuid a) BT_UUID_GATT_CHRC = 0 -> (length (attrs d) < MAX_ATTRS)%nat /\ k_calloc (callocs d) = true) ->
  returns (discovery_process_attribute k_calloc d (Some a)).
Proof.
  intros Hc Ht Hs. cbn [discovery_process_attribute]. destruct (Z.eqb_spec (bt_uuid_cmp (ga_uuid a) BT_UUID_GATT_CHRC) 0) as [Hu|Hu].
  - destruct (Hs Hu) as [Hroom Hk]. set (slot := ChrcVal _).
    destruct (attr_store_total d a slot) as (d1 & cur & E1 & Hcur & Hsome). rewrite E1. cbn [mbind res_bind].
    destruct Hcur as [(-> & _)|(-> & Ha)]; [by destruct (Hsome Hroom Hk)|].
    assert (Hl : attrs d1 !! length (attrs d) = Some (stored a slot)) by (rewrite Ha; by apply list_lookup_middle).
    unfold attr_at. rewrite Hl. cbn [mbind res_bind]. unfold chrc_val_of, bt_gatt_dm_attr_chrc_val. cbn [d_uuid stored d_data].
    rewrite (uuid_cmp_sym _ _ Hu). cbn [Z.eqb mbind res_bind slot]. eexists _, _. split; [reflexivity|]. apply typed_chrc.
    rewrite Ha. apply typed_snoc; [done|]. cbn. by eauto.
  - destruct (attr_store_total d a NoData) as (d1 & cur & E1 & Hcur & _).
    pose proof (attr_store_control _ _ _ _ _ E1) as C1. rewrite E1. cbn [mbind res_bind].
    destruct Hcur as [(-> & _)|(-> & Ha)]; [apply error_returns; by rewrite (sc_callback _ _ C1)|].
    eexists _, _. split; [reflexivity|]. rewrite Ha. apply typed_snoc; [done|]. intros Hn. by apply uuid_cmp_sym in Hn.
Qed.

Lemma characteristic_returns d a :
  callback d <> None -> typed (attrs d) -> (exists c, ga_user_data a = ChrcVal c) ->
  Forall (fun b => d_handle b = ga_handle a -> bt_uuid_cmp BT_UUID_GATT_CHRC (d_uuid b) = 0) (attrs d) ->
  returns (discovery_process_characteristic k_calloc d (Some a)).
Proof.
  intros Hc Ht (v & Hv) Hs. cbn [discovery_process_characteristic].
  destruct (find_by_handle_total d (ga_handle a)) as (o & -> & Ho). cbn [mbind res_bind].
  destruct o as [i|]; [|by apply error_returns]. destruct (Ho i eq_refl) as (b & Hi & Hh).
  rewrite Hv. unfold attr_at. rewrite Hi. cbn [mbind res_bind].
  pose proof (Forall_lookup_1 _ _ _ _ Hs Hi Hh) as Hb. destruct (Forall_lookup_1 _ _ _ _ Ht Hi Hb) as (c & Hd).
  unfold chrc_val_of, bt_gatt_dm_attr_chrc_val. rewrite Hb, Hd. cbn [Z.eqb mbind res_bind]. set (d1 := set_data i (ChrcVal v) d).
  destruct (uuid_store_total d1 (ch_uuid v)) as (d2 & u & E2 & A2). pose proof (uuid_store_control _ _ _ _ E2) as C2.
  rewrite E2. cbn [mbind res_bind]. cbv zeta. destruct u as [u|].
  - eexists _, _. split; [reflexivity|]. apply typed_chrc. rewrite A2. by apply typed_chrc.
  - apply error_returns. change (callback d2 <> None). by rewrite (sc_callback _ _ C2).
Qed.

(** The callback of the procedures returns for what the stack reports. *)
Lemma callback_returns d c attr :
  callback d <> None -> typed (attrs d) -> (c = conn d -> match attr with Some a => served d a | None => True end) ->
  returns (discovery_callback k_calloc d c attr).
Proof.
  intros Hc Ht Hs. unfold discovery_callback. destruct (bool_decide_reflect (c = conn d)) as [E|]; [|by apply error_returns].
  cbn [negb]. specialize (Hs E). unfold served in Hs. destruct attr as [a|].
  - destruct (p_type _); try (by apply error_returns);
      [destruct Hs; by apply service_returns|destruct Hs; by apply service_returns|destruct Hs; by apply characteristic_returns|by apply attribute_returns].
  - destruct (p_type _); try (by apply error_returns); [by apply not_found_returns..|by apply complete_returns|].
    cbn [discovery_process_attribute]. destruct (Z.ltb_spec 1 (cur_attr_id d)) as [Hl|]; [|by apply complete_returns].
    unfold cur_attr_id, attr_at in *. destruct (attrs d) as [|x l] eqn:Ea; [cbn in Hl; lia|]. cbn [lookup list_lookup mbind res_bind].
    apply next_returns. by rewrite Ea.
Qed.

End AnyServer.

(** The manager and the stack: whether a procedure is under way, and how many
    discoveries the user has been granted. *)
Record gsys := { dm : bt_gatt_dm; running : bool; requests : nat }.

Definition dm_init : bt_gatt_dm :=
  {| conn := None; context := 0; callback := None;
     discover_params := {| p_uuid := None; p_func := false; p_type := BT_GATT_DISCOVER_PRIMARY; p_start_handle := 0; p_end_handle := 0 |};
     attrs := []; locked := false; release_pending := false; svc_uuid := None; search_svc_by_uuid := false;
     chunks := O; cur_chunk_len := 0; callocs := O; work := false; events := [] |}.
Definition gsys_init : gsys := {| dm := dm_init; running := false; requests := O |}.

(** The call to continue is refused without any effect. *)
Definition continue_refused (d : bt_gatt_dm) : bool :=
  bool_decide (callback d = None) || negb (p_func (discover_params d)) || bool_decide (is_Some (p_uuid (discover_params d))) || locked d.

(** What happens: the user calls a function, with the error the stack refuses the
    procedure with if it is not 0; the work item runs; the stack calls the
    callback of the procedure, also for another connection. *)
Inductive gevent :=
  | GStart (c : option Z) (uuid : option bt_uuid) (cb : option bt_gatt_dm_cb) (ctx err : Z)
  | GContinue (ctx err : Z)
  | GRelease
  | GWork (err : Z)
  | GCallback (c : option Z) (attr : option bt_gatt_attr).

Definition gdo `{GattStack} (k_calloc : nat -> bool) (e : gevent) (s : gsys) : res gsys :=
  match e with
  | GStart c uuid cb ctx err =>
    let '(d, r) := bt_gatt_dm_start (dm s) c uuid cb ctx err in
    Ok {| dm := d; running := running s || (r =? 0); requests := if r =? 0 then S (requests s) else requests s |}
  | GContinue ctx err =>
    let* '(d, _) := bt_gatt_dm_continue (dm s) ctx err in
    Ok {| dm := d;
          running := running s || negb (continue_refused (dm s)) && negb (p_end_handle (discover_params (dm s)) =? 0xffff) && (err =? 0);
          requests := if continue_refused (dm s) then requests s else S (requests s) |}
  | GRelease => Ok {| dm := (bt_gatt_dm_data_release (dm s)).1; running := running s; requests := requests s |}
  | GWork err =>
    let* d := gatt_discover_work (dm s) err in
    Ok {| dm := d; running := running s || locked (dm s) && (err =? 0); requests := requests s |}
  | GCallback c attr =>
    let* '(d, r) := discovery_callback k_calloc (dm s) c attr in
    Ok {| dm := d; running := bool_decide (r = BT_GATT_ITER_CONTINUE); requests := requests s |}
  end.

(** The user sets the three functions; the work item runs when it is submitted;
    the stack reports something [served] in a procedure that is under way. *)
Definition enabled `{GattStack} (k_calloc : nat -> bool) (e : gevent) (s : gsys) : Prop :=
  match e with
  | GStart _ _ cb _ _ => match cb with Some cb => set_user_calls cb | None => True end
  | GContinue _ _ | GRelease => True
  | GWork _ => work (dm s) = true
  | GCallback c attr =>
    running s = true /\ (c = conn (dm s) -> match attr with Some a => served k_calloc (dm s) a | None => True end)
  end.

Definition gstep `{GattStack} (k_calloc : nat -> bool) (s s' : gsys) : Prop :=
  exists e, enabled k_calloc e s /\ gdo k_calloc e s = Ok s'.

(** A discovery is under way. *)
Definition busy (d : bt_gatt_dm) : bool := locked d && negb (release_pending d).

Record gsys_ok (s : gsys) : Prop := {
  go_free : locked (dm s) = false -> attrs (dm s) = [] /\ chunks (dm s) = O /\ release_pending (dm s) = false;
  go_busy : if busy (dm s) then running s = negb (work (dm s)) else running s = false /\ work (dm s) = false;
  go_callback : match callback (dm s) with Some cb => set_user_calls cb | None => locked (dm s) = false end;
  go_requests : requests s = (length (reports (dm s)) + if busy (dm s) then 1 else 0)%nat
}.

Section Preserve.
Context `{GattStack} (k_calloc : nat -> bool).

Lemma start_ok s c uuid cb ctx err d r :
  gsys_ok s -> match cb with Some cb => set_user_calls cb | None => True end ->
  bt_gatt_dm_start (dm s) c uuid cb ctx err = (d, r) ->
  gsys_ok {| dm := d; running := running s || (r =? 0); requests := if r =? 0 then S (requests s) else requests s |}.
Proof.
  intros [Hf Hb Hc Hr] Hcb. unfold bt_gatt_dm_start.
  destruct (match uuid with Some u => _ | None => _ end); [intros [= <- <-]; rewrite orb_false_r; by split|].
  destruct cb as [cb|]; [|intros [= <- <-]; rewrite orb_false_r; by split].
  destruct (locked (dm s)) eqn:El; [intros [= <- <-]; rewrite orb_false_r; split; cbn; rewrite ?El; done|].
  destruct (Hf eq_refl) as (_ & _ & Hp). unfold busy in Hb, Hr. rewrite El in Hb, Hr. cbn in Hb, Hr. destruct Hb as [Hb1 _].
  unfold bt_gatt_discover, ctrue. set (d1 := emit _ _).
  assert (Hd1 : locked d1 = true /\ release_pending d1 = false /\ attrs d1 = [] /\ chunks d1 = O /\ work d1 = false /\
    callback d1 = Some cb /\ reports d1 = reports (dm s)).
  { unfold d1. rewrite reports_discover. by destruct uuid. }
  destruct Hd1 as (H1 & H2 & H3 & H4 & H5 & H6 & H7). clearbody d1.
  destruct (Z.eqb_spec err 0) as [->|Hne]; cbn [negb]; intros [= <- <-].
  - split; unfold busy; cbn; rewrite ?H1, ?H2, ?H5, ?H6, ?H7; cbn; [done|by rewrite orb_true_r|done|lia].
  - apply Z.eqb_neq in Hne. rewrite Hne. split; unfold busy; cbn -[reports]; [done|by rewrite Hb1|by rewrite H6|].
    change (reports (set_locked false d1)) with (reports d1). rewrite H7. lia.
Qed.

Lemma continue_ok s ctx err d r :
  gsys_ok s -> bt_gatt_dm_continue (dm s) ctx err = Ok (d, r) ->
  gsys_ok {| dm := d;
    running := running s || negb (continue_refused (dm s)) && negb (p_end_handle (discover_params (dm s)) =? 0xffff) && (err =? 0);
    requests := if continue_refused (dm s) then requests s else S (requests s) |}.
Proof.
  intros Hok. pose proof Hok as [Hf Hb Hc Hr]. unfold bt_gatt_dm_continue, continue_refused.
  assert (Hid : gsys_ok {| dm := dm s; running := running s || false; requests := requests s |}) by (rewrite orb_false_r; by split).
  destruct (callback (dm s)) as [cb|] eqn:Ecb; [|by intros [= <- <-]]. rewrite (bool_decide_false (Some cb = None)) by done.
  destruct (negb (p_func (discover_params (dm s)))); [by intros [= <- <-]|]. cbn [orb].
  destruct (bool_decide (is_Some _)); [by intros [= <- <-]|]. destruct (locked (dm s)) eqn:El; [by intros [= <- <-]|]. clear Hid.
  destruct (Hf eq_refl) as (Ha & Hch & Hp). unfold busy in Hb, Hr. rewrite El in Hb, Hr. destruct Hb as [Hb1 Hb2]. cbn in Hr.
  cbn [orb negb andb]. change (discover_params (set_locked true (dm s))) with (discover_params (dm s)). rewrite Hb1. cbn [orb].
  destruct (_ =? 0xffff).
  - intros E. apply bind_Ok_inv in E as (d1 & E1 & [= <- <-]).
    apply (not_found_frees cb) in E1 as []; [|done..]. split; unfold busy; cbn -[reports]; rewrite fr_locked0; cbn -[reports].
    + by rewrite fr_pending0.
    + by rewrite fr_work0.
    + rewrite fr_callback0. cbn. by rewrite Ecb.
    + rewrite fr_reports0. change (reports (set_locked true (dm s))) with (reports (dm s)). lia.
  - unfold bt_gatt_discover, ctrue. set (d1 := emit _ _).
    assert (Hd1 : locked d1 = true /\ release_pending d1 = false /\ attrs d1 = [] /\ chunks d1 = O /\ work d1 = false /\
      callback d1 = Some cb /\ reports d1 = reports (dm s)) by (unfold d1; by rewrite reports_discover).
    destruct Hd1 as (H1 & H2 & H3 & H4 & H5 & H6 & H7). clearbody d1.
    destruct (Z.eqb_spec err 0) as [->|Hne]; cbn [negb andb]; intros E.
    + injection E as <- <-. split; unfold busy; cbn -[reports]; rewrite ?H1, ?H2; cbn -[reports]; [done|by rewrite H5|by rewrite H6|]. rewrite H7. lia.
    + apply bind_Ok_inv in E as (d2 & E1 & [= <- <-]). apply (error_frees cb) in E1 as []; [|done..].
      split; unfold busy; cbn -[reports]; rewrite fr_locked0; cbn -[reports]; [by rewrite fr_pending0|by rewrite fr_work0|by rewrite fr_callback0; cbn; rewrite H6|].
      rewrite fr_reports0. change (reports (set_locked false d1)) with (reports d1). rewrite H7. lia.
Qed.

Lemma release_ok s :
  gsys_ok s -> gsys_ok {| dm := (bt_gatt_dm_data_release (dm s)).1; running := running s; requests := requests s |}.
Proof.
  intros [Hf Hb Hc Hr]. unfold bt_gatt_dm_data_release. destruct (release_pending (dm s)) eqn:Ep;
    [|split; cbn -[reports]; rewrite ?Ep; assumption].
  unfold busy in Hb, Hr. rewrite Ep, andb_false_r in Hb, Hr. destruct Hb as [Hb1 Hb2].
  split; unfold busy; cbn -[reports]; [done|done| |exact Hr].
  destruct (callback (dm s)); [done|]. rewrite Hc in Hf. destruct (Hf eq_refl) as (_ & _ & ?). congruence.
Qed.

Lemma busy_inv d : busy d = true -> locked d = true /\ release_pending d = false.
Proof. unfold busy. by destruct (locked d), (release_pending d). Qed.

Lemma work_ok s err d :
  gsys_ok s -> work (dm s) = true -> gatt_discover_work (dm s) err = Ok d ->
  gsys_ok {| dm := d; running := running s || locked (dm s) && (err =? 0); requests := requests s |}.
Proof.
  intros [Hf Hb Hc Hr] Hw. destruct (busy (dm s)) eqn:Eb; [|destruct Hb; congruence]. apply busy_inv in Eb as [El Ep].
  rewrite Hw in Hb. rewrite Hb, El. unfold gatt_discover_work. change (locked (set_work false (dm s))) with (locked (dm s)).
  rewrite El. cbn [negb orb andb]. unfold bt_gatt_discover, ctrue. set (d1 := emit _ _).
  assert (Hd1 : locked d1 = true /\ release_pending d1 = false /\ work d1 = false /\ callback d1 = callback (dm s) /\ reports d1 = reports (dm s))
    by (unfold d1; by rewrite reports_discover).
  destruct Hd1 as (H1 & H2 & H5 & H6 & H7). clearbody d1. destruct (callback (dm s)) as [cb|] eqn:Ecb; [|congruence].
  destruct (Z.eqb_spec err 0) as [->|Hne]; cbn [negb]; intros E.
  - injection E as <-. split; unfold busy; cbn -[reports]; rewrite ?H1, ?H2; cbn -[reports]; [done|by rewrite H5|by rewrite H6|by rewrite H7].
  - apply (error_frees cb) in E as []; [|done..]. split; unfold busy; cbn -[reports]; rewrite fr_locked0; cbn -[reports];
      [by rewrite fr_pending0|by rewrite fr_work0|by rewrite fr_callback0, H6|]. rewrite fr_reports0, H7. lia.
Qed.

Lemma callback_ok s c attr d r :
  gsys_ok s -> running s = true -> discovery_callback k_calloc (dm s) c attr = Ok (d, r) ->
  gsys_ok {| dm := d; running := bool_decide (r = BT_GATT_ITER_CONTINUE); requests := requests s |}.
Proof.
  intros [Hf Hb Hc Hr] Hrun E. destruct (busy (dm s)) eqn:Eb; [|destruct Hb; congruence]. apply busy_inv in Eb as [El Ep].
  rewrite Hrun in Hb. assert (Hw : work (dm s) = false) by (by destruct (work (dm s))).
  destruct (callback (dm s)) as [cb|] eqn:Ecb; [|congruence].
  apply (callback_outcome k_calloc cb Hc _ _ _ _ _ Ecb) in E as [[]|H1 H2 H3 H4 H5|H1 H2 H3 H4 H5|_ []].
  - split; unfold busy; cbn -[reports]; rewrite fr_locked0; cbn -[reports];
      [by rewrite fr_pending0|by rewrite fr_work0|by rewrite fr_callback0, Ecb|]. rewrite fr_reports0. lia.
  - split; unfold busy; cbn -[reports]; rewrite ?H1, ?H2, ?El; cbn -[reports]; [done|by rewrite H3|by rewrite H4, Ecb|]. lia.
  - split; unfold busy; cbn -[reports]; rewrite ?H1, ?H2, ?El, ?Ep; cbn -[reports]; [done|by rewrite H3|by rewrite H4, Ecb|by rewrite H5].
  - split; unfold busy; cbn -[reports]; rewrite ?sc_locked0, ?sc_pending0, ?El, ?Ep; cbn -[reports];
      [done|by rewrite sc_work0, Hw|by rewrite sc_callback0, Ecb|by rewrite sc_reports0].
Qed.

Lemma event_ok s e s' : gsys_ok s -> enabled k_calloc e s -> gdo k_calloc e s = Ok s' -> gsys_ok s'.
Proof.
  intros Hok He. destruct e as [c uuid cb ctx err|ctx err| |err|c attr]; cbn [gdo enabled] in *.
  - destruct (bt_gatt_dm_start _ _ _ _ _ _) as [d r] eqn:E. intros [= <-]. by eapply start_ok.
  - intros E. apply bind_Ok_inv in E as ([d r] & E & [= <-]). by eapply continue_ok.
  - intros [= <-]. by apply release_ok.
  - intros E. apply bind_Ok_inv in E as (d & E & [= <-]). by apply work_ok.
  - destruct He as [Hrun _]. intros E. apply bind_Ok_inv in E as ([d r] & E & [= <-]). by eapply callback_ok.
Qed.

Lemma busy_callback s : gsys_ok s -> running s = true \/ work (dm s) = true -> callback (dm s) <> None.
Proof.
  intros [_ Hb Hc _] Hrun Hn. rewrite Hn in Hc. unfold busy in Hb. rewrite Hc in Hb. cbn in Hb. destruct Hb, Hrun; congruence.
Qed.

(** Every event that can happen is handled: the calls return. *)
Lemma event_returns s e :
  gsys_ok s -> typed (attrs (dm s)) -> enabled k_calloc e s -> exists s', gdo k_calloc e s = Ok s' /\ typed (attrs (dm s')).
Proof.
  intros Hok Ht He. destruct e as [c uuid cb ctx err|ctx err| |err|c attr]; cbn [gdo enabled] in *.
  - unfold bt_gatt_dm_start. destruct (match uuid with Some u => _ | None => _ end); [by eexists; split|].
    destruct cb as [cb|]; [|by eexists; split]. destruct (locked (dm s)); [by eexists; split|].
    eexists. split; [reflexivity|]. destruct (ctrue err), uuid; apply Forall_nil_2.
  - unfold bt_gatt_dm_continue. destruct (bool_decide_reflect (callback (dm s) = None)) as [|Hc]; [by eexists; split|].
    cbn [orb]. destruct (negb (p_func _)); [by eexists; split|]. destruct (bool_decide (is_Some _)); [by eexists; split|]. destruct (locked (dm s)); [by eexists; split|].
    cbv zeta. match goal with |- context [if ?c =? 0xffff then let* _ := _ in _ else _] => destruct (c =? 0xffff) end.
    + destruct (not_found_returns (set_locked true (dm s)) Hc) as (d & i & E & Hd).
      unfold stop in E. apply bind_Ok_inv in E as (d' & -> & [= <- <-]). by eexists; split.
    + unfold bt_gatt_discover. destruct (ctrue err); [|by eexists; split]. set (d1 := set_locked false _).
      destruct (error_returns d1 err Hc) as (d & i & E & Hd).
      unfold stop in E. apply bind_Ok_inv in E as (d' & -> & [= <- <-]). by eexists; split.
  - eexists. split; [reflexivity|]. unfold bt_gatt_dm_data_release. destruct (release_pending (dm s)); [apply Forall_nil_2|done].
  - unfold gatt_discover_work. destruct (negb _); [by eexists; split|]. unfold bt_gatt_discover. destruct (ctrue err); [|by eexists; split].
    set (d1 := emit _ _). destruct (error_returns d1 (- errno_num ENOMEM)) as (d & i & E & Hd); [apply (busy_callback s Hok); by right|].
    unfold stop in E. apply bind_Ok_inv in E as (d' & -> & [= <- <-]). by eexists; split.
  - destruct He as [Hrun Hs]. destruct (callback_returns k_calloc (dm s) c attr) as (d & i & -> & Hd); [apply (busy_callback s Hok); by left|done..|].
    by eexists; split.
Qed.

Lemma reachable_gsys_ok s : rtc (gstep k_calloc) gsys_init s -> gsys_ok s /\ typed (attrs (dm s)).
Proof.
  revert s. apply (rtc_ind_r (R := gstep k_calloc) (fun s => gsys_ok s /\ typed (attrs (dm s))) gsys_init).
  { split; [by split|apply Forall_nil_2]. }
  intros t u _ (e & He & E) [Hok Ht]. split; [by eapply event_ok|].
  destruct (event_returns t e Hok Ht He) as (u' & E' & Hu). rewrite E in E'. by injection E' as <-.
Qed.

End Preserve.

(** C13: For a user who sets the three functions and calls the manager in any
    order, a stack that refuses any procedure or reports anything [served], also
    for another connection, and a heap that fails at any other allocation: every
    call returns, each discovery the user was granted is answered by exactly one
    report, the one that is under way excepted, which waits for the stack or for
    the work item but not for both; a manager that is free keeps neither
    attributes nor memory. [served] excludes two reports the manager does not
    survive ([full_characteristic_faults], [other_attribute_faults]) and reports
    of the wrong kind. *)
Theorem each_discovery_answered_once `{GattStack} k_calloc s :
  rtc (gstep k_calloc) gsys_init s ->
  requests s = (length (reports (dm s)) + if busy (dm s) then 1 else 0)%nat /\
  (if busy (dm s) then running s = negb (work (dm s)) else running s = false /\ work (dm s) = false) /\
  (locked (dm s) = false -> attrs (dm s) = [] /\ chunks (dm s) = O) /\
  (forall e, enabled k_calloc e s -> exists s', gdo k_calloc e s = Ok s').
Proof.
  intros Hr. destruct (reachable_gsys_ok k_calloc s Hr) as [Hok Ht]. pose proof Hok as [Hf Hb _ Hq].
  split; [done|]. split; [done|]. split; [intros Hl; by destruct (Hf Hl) as (? & ? & _)|].
  intros e He. destruct (event_returns k_calloc s e Hok Ht He) as (s' & E & _). by exists s'.
Qed.

(** ** Where the manager fails *)

Section Findings.
Context `{GattStack} (k_calloc : nat -> bool).

(** A characteristic for which there is no room left is written through a null
    pointer. *)
Lemma full_characteristic_faults d a :
  bt_uuid_cmp (ga_uuid a) BT_UUID_GATT_CHRC = 0 -> Z.of_nat MAX_ATTRS <= cur_attr_id d ->
  discovery_process_attribute k_calloc d (Some a) = Fault.
Proof.
  intros Hu Hf. cbn [discovery_process_attribute]. rewrite Hu. cbn [Z.eqb]. unfold attr_store.
  by destruct (Z.leb_spec (Z.of_nat MAX_ATTRS) (cur_attr_id d)); [|lia].
Qed.

(** So is the value of a characteristic at a handle where the server has reported
    another attribute before. *)
Lemma other_attribute_faults d a b i :
  sorted_handles (attrs d) -> attrs d !! i = Some b -> ga_handle a = d_handle b ->
  bt_uuid_cmp BT_UUID_GATT_CHRC (d_uuid b) <> 0 ->
  discovery_process_characteristic k_calloc d (Some a) = Fault.
Proof.
  intros Hs Hi Hh Hne. cbn [discovery_process_characteristic].
  rewrite find_by_handle_place, Hh, (handle_place_Some _ i b) by done. cbn [mbind res_bind].
  destruct (ga_user_data a); [done..|]. unfold attr_at. rewrite Hi. cbn [mbind res_bind].
  unfold chrc_val_of, bt_gatt_dm_attr_chrc_val. by apply Z.eqb_neq in Hne as ->.
Qed.

(** After an empty service that was asked for by its UUID, a discovery cannot be
    continued. *)
Lemma empty_service_not_continued `{!GattServer db} cb uuid lo d s l ctx err :
  (forall n, k_calloc n = true) -> set_user_calls cb -> searching (Some uuid) lo cb d ->
  filter (asked (Some uuid) lo) db = s :: l -> service_ok s -> gs_handle s = gs_end s ->
  exists d', discovery k_calloc d = Ok d' /\
    bt_gatt_dm_continue (bt_gatt_dm_data_release d').1 ctx err = Ok ((bt_gatt_dm_data_release d').1, - errno_num EINVAL).
Proof.
  intros Hk Hcb Hse Ef Hok He. destruct (discovery_found k_calloc Hk cb Hcb _ _ _ _ _ Hse Ef Hok) as (d' & E & Hf).
  exists d'. split; [done|]. unfold bt_gatt_dm_data_release. rewrite (fi_pending _ _ _ Hf). cbn [negb fst].
  unfold bt_gatt_dm_continue. destruct (_ || _); [done|]. set (r := set_locked false _).
  change (discover_params r) with (discover_params d'). rewrite (fi_uuid _ _ _ Hf). unfold after. rewrite decide_True by done.
  cbn. by rewrite (se_params _ _ _ _ Hse).
Qed.

(** At the end of the handles the user gets the context of the call before. *)
Lemma last_context_is_old uuid ctx ctx' s cb d :
  set_user_calls cb -> holding cb uuid ctx s d -> service_ok s -> gs_end s = 0xffff ->
  exists d', bt_gatt_dm_continue (bt_gatt_dm_data_release d).1 ctx' 0 = Ok (d', 0) /\
    reports d' = reports d ++ [ServiceNotFound (conn d) ctx].
Proof.
  intros Hcb [Hl Hpe Hf He Hu Hw Hc Hx Hs] Hok Hend. unfold bt_gatt_dm_data_release. rewrite Hpe. cbn [negb fst].
  set (r := set_locked false _). unfold bt_gatt_dm_continue.
  change (callback r) with (callback d). change (discover_params r) with (discover_params d). rewrite Hc, Hf, Hu.
  rewrite !bool_decide_false by (by try (intros [? ?])). cbn [orb negb]. change (locked r) with false. cbv beta iota zeta.
  change (discover_params (set_locked true r)) with (discover_params d). rewrite He, Hend. cbn [Z.eqb Pos.eqb].
  unfold discovery_complete_not_found. change (callback _) with (callback d). rewrite Hc. destruct Hcb as (_ & -> & _).
  cbn [mbind res_bind]. eexists. split; [reflexivity|]. rewrite reports_emit by done. by rewrite <- Hx.
Qed.

End Findings.

(** ** A server *)

Module GattDemo.

Definition to128 (u : bt_uuid) : Z :=
  match u_type u with
  | BT_UUID_TYPE_128 => u_val u
  | _ => u_val u * 2 ^ 96 + 0x00001000800000805f9b34fb
  end.

#[export, refine] Instance stack : GattStack := {|
  bt_uuid_cmp u v := if to128 u =? to128 v then 0 else 1;
  sizeof_uuid t := match t with BT_UUID_TYPE_16 => 4 | BT_UUID_TYPE_32 => 8 | BT_UUID_TYPE_128 => 17 end;
  sizeof_service_val := 8; sizeof_chrc := 8; sizeof_pointer := 4; MAX_ATTRS := 10 |}.
Proof.
  - intros u. by rewrite Z.eqb_refl.
  - intros u v. destruct (Z.eqb_spec (to128 u) (to128 v)) as [->|]; [by rewrite Z.eqb_refl|done].
  - intros u v w. destruct (Z.eqb_spec (to128 u) (to128 v)) as [->|]; [done|done].
  - intros t n [->|[->| ->]]; by destruct t.
  - intros a b. destruct (Z.eqb_spec (to128 (uuid16 a)) (to128 (uuid16 b))) as [E|]; [|done]. intros _.
    unfold to128, uuid16 in E. cbn -[Z.mul Z.pow] in E. lia.
Defined.

(** Two services of which the second has a characteristic with a descriptor. *)
Definition device_info : gservice := {| gs_handle := 1; gs_perm := 0; gs_uuid := uuid16 0x180a; gs_end := 1; gs_attrs := [] |}.
Definition battery : gservice :=
  {| gs_handle := 10; gs_perm := 0; gs_uuid := uuid16 0x180f; gs_end := 0xffff;
     gs_attrs := [{| g_handle := 11; g_perm := 0; g_kind := GChrc (uuid16 0x2a19) 12 0x12 |};
                  {| g_handle := 12; g_perm := 0; g_kind := GDesc (uuid16 0x2a19) |};
                  {| g_handle := 13; g_perm := 0; g_kind := GDesc BT_UUID_GATT_CCC |}] |}.
Definition services : list gservice := [device_info; battery].

Definition report (a : gattr) : bt_gatt_attr :=
  {| ga_uuid := g_uuid a; ga_handle := g_handle a; ga_perm := g_perm a; ga_user_data := chrc_data a |}.

(** The attributes between the handles, for services that differ in them. *)
Definition in_range (p : bt_gatt_discover_params) (s : gservice) : Prop :=
  p_start_handle p = gs_handle s + 1 /\ p_end_handle p = gs_end s.
Definition attrs_of (db : list gservice) (p : bt_gatt_discover_params) : list gattr := concat (gs_attrs <$> filter (in_range p) db).
Definition distinct (db : list gservice) : Prop :=
  forall p s, s ∈ db -> in_range p s -> filter (in_range p) db = [s].

Lemma attr_reports l : Forall2 attr_report (report <$> l) l.
Proof. induction l; constructor; done. Qed.
Lemma chrc_reports l : Forall2 chrc_report (report <$> l) l.
Proof. induction l; constructor; done. Qed.

Lemma attrs_of_service db p s : distinct db -> s ∈ db -> in_range p s -> attrs_of db p = gs_attrs s.
Proof. intros Hd Hs Hp. unfold attrs_of. rewrite (Hd p s Hs Hp). cbn. apply app_nil_r. Qed.

#[refine] Definition server_of (db : list gservice) (Hd : distinct db) : GattServer db := {|
  answers p := match p_type p with
    | BT_GATT_DISCOVER_PRIMARY => svc_report <$> filter (asked (p_uuid p) (p_start_handle p)) db
    | BT_GATT_DISCOVER_ATTRIBUTE => report <$> attrs_of db p
    | BT_GATT_DISCOVER_CHARACTERISTIC => report <$> filter (fun a => is_chrc a = true) (attrs_of db p)
    | _ => []
    end |}.
Proof.
  - by intros p -> _.
  - intros p s -> _ Hs H1 H2. rewrite (attrs_of_service db p s) by done. apply attr_reports.
  - intros p s -> _ Hs H1 H2. rewrite (attrs_of_service db p s) by done. apply chrc_reports.
Defined.

Lemma services_distinct : distinct services.
Proof.
  intros p s Hs [H1 H2]. unfold services in *. rewrite !filter_cons, filter_nil. unfold in_range. rewrite H1, H2.
  apply elem_of_cons in Hs as [->|Hs]; [done|]. apply list_elem_of_singleton in Hs as ->. done.
Qed.
#[export] Instance server : GattServer services := server_of services services_distinct.

Definition all_calls : bt_gatt_dm_cb := {| cb_completed := true; cb_service_not_found := true; cb_error_found := true |}.

Lemma services_ok : db_ok services.
Proof.
  split.
  - apply Forall_cons. split; [|apply Forall_cons; split; [|done]]; split; cbn; try lia; try (split; lia);
      repeat constructor; cbn; try lia; done.
  - repeat constructor; cbn; lia.
Qed.

Lemma discovery_reports_all_services_witness :
  exists d', all_services (fun _ => true) all_calls dm_init (Some 1) None 7 = Ok d' /\
    reports d' = [Completed (found device_info) 7; Completed (found battery) 7; ServiceNotFound (Some 1) 7] /\
    locked d' = false /\ attrs d' = [] /\ chunks d' = O.
Proof.
  apply (discovery_reports_all_services (db := services) (fun _ => true) all_calls dm_init (Some 1) None 7);
    [done|done|apply services_ok|done..|by left].
Defined.

(** A discovery of the second service: the user starts it, the stack reports the
    service, its attributes and the value of its characteristic. *)
Definition battery_events : list gevent :=
  [GStart (Some 1) (Some (uuid16 0x180f)) (Some all_calls) 7 0; GCallback (Some 1) (Some (svc_report battery)); GWork 0] ++
  ((fun a => GCallback (Some 1) (Some (report a))) <$> gs_attrs battery) ++
  [GCallback (Some 1) None; GWork 0] ++
  ((fun a => GCallback (Some 1) (Some (report a))) <$> filter (fun a => is_chrc a = true) (gs_attrs battery)) ++
  [GCallback (Some 1) None].

Fixpoint gdo_all (l : list gevent) (s : gsys) : res gsys :=
  match l with [] => Ok s | e :: l => let* s := gdo (fun _ => true) e s in gdo_all l s end.
Fixpoint all_enabled (l : list gevent) (s : gsys) : Prop :=
  match l with
  | [] => True
  | e :: l => enabled (fun _ => true) e s /\ forall s', gdo (fun _ => true) e s = Ok s' -> all_enabled l s'
  end.

Lemma gdo_all_reachable l s s' : all_enabled l s -> gdo_all l s = Ok s' -> rtc (gstep (fun _ => true)) s s'.
Proof.
  revert s. induction l as [|e l IH]; intros s; cbn [all_enabled gdo_all]; [by intros _ [= ->]|]. intros [He Hl] E.
  apply bind_Ok_inv in E as (t & Et & E). eapply rtc_l; [by exists e|]. apply IH; [by apply Hl|done].
Qed.

Definition battery_found : gsys := match gdo_all battery_events gsys_init with Ok s => s | _ => gsys_init end.

Lemma battery_found_reachable : rtc (gstep (fun _ => true)) gsys_init battery_found.
Proof.
  apply (gdo_all_reachable battery_events); [|vm_compute; reflexivity].
  unfold battery_events. cbn [app fmap list_fmap].
  repeat (split; [|intros ? E; vm_compute in E; injection E as <-]); try done; (split; [done|intros _]); try exact I; hnf.
  - split; [by eexists|by left].
  - intros _. split; [cbn; lia|done].
  - split; [by eexists|]. cbn [attrs dm].
    repeat (apply Forall_cons; split; [intros Hh; first [by vm_compute in Hh|by vm_compute]|]). apply Forall_nil_2.
Qed.

Lemma each_discovery_answered_once_witness :
  let s := battery_found in
  (reports (dm s) = [Completed (found battery) 7] /\ requests s = 1%nat) /\
  requests s = (length (reports (dm s)) + if busy (dm s) then 1 else 0)%nat /\
  (if busy (dm s) then running s = negb (work (dm s)) else running s = false /\ work (dm s) = false) /\
  (locked (dm s) = false -> attrs (dm s) = [] /\ chunks (dm s) = O) /\
  (forall e, enabled (fun _ => true) e s -> exists s', gdo (fun _ => true) e s = Ok s').
Proof.
  split; [split; vm_compute; reflexivity|]. exact (each_discovery_answered_once (fun _ => true) battery_found battery_found_reachable).
Defined.

End GattDemo.
