(* ===== verification/GattDmLookup.v ===== *)
(** * Look-up in the attributes the Discovery Manager has found

    The functions that search a characteristic and its descriptors find the
    attributes of the service that was discovered, and return for any UUID. *)

From stdpp Require Import prelude list.
From Stdlib Require Import ZArith Lia.
From S2P Require Import Prelude GattDm GattDmSpec.

Open Scope Z_scope.

(** The first characteristic with the UUID [cu] of the service, and the first
    attribute with the UUID [du] that belongs to it, which has the handle [h]. *)
Definition chrc_with `{GattStack} (cu : bt_uuid) (a : gattr) : Prop :=
  match g_kind a with GChrc u _ _ => bt_uuid_cmp cu u = 0 | GDesc _ => False end.
Definition first_desc `{GattStack} (s : gservice) (cu du : bt_uuid) (h : Z) : Prop :=
  exists pre a ds x rest, gs_attrs s = pre ++ a :: ds ++ x :: rest /\
    chrc_with cu a /\ Forall (fun b => ~ chrc_with cu b) pre /\
    Forall (fun b => is_chrc b = false /\ bt_uuid_cmp du (g_uuid b) <> 0) ds /\
    is_chrc x = false /\ bt_uuid_cmp du (g_uuid x) = 0 /\ g_handle x = h.

Section Lookup.
Context `{GattStack} (d : bt_gatt_dm).

Lemma char_next_at prev a :
  attrs d !! S prev = Some a ->
  bt_gatt_dm_char_next d (Some prev) =
    if bt_uuid_cmp BT_UUID_GATT_CHRC (d_uuid a) =? 0 then Some (S prev) else bt_gatt_dm_char_next d (Some (S prev)).
Proof. intros Ha. unfold bt_gatt_dm_char_next. cbn [default]. erewrite drop_S by exact Ha. done. Qed.

(** The scan passes over the attributes [pre], none of which it is looking for. *)
Lemma char_loop_found cu pre a rest fuel prev :
  (forall i b, (pre ++ [a]) !! i = Some b -> attrs d !! (S prev + i)%nat = Some (view b)) ->
  Forall (fun b => is_chrc b = false -> bt_uuid_cmp (g_uuid b) BT_UUID_GATT_CHRC <> 0) (pre ++ a :: rest) ->
  Forall (fun b => ~ chrc_with cu b) pre -> chrc_with cu a -> (length pre < fuel)%nat ->
  char_by_uuid_loop fuel d cu (Some prev) = Ok (Some (S prev + length pre)%nat).
Proof.
  revert fuel prev. induction pre as [|b pre IH]; intros fuel prev Hat Hk Hno Ha Hf; (destruct fuel as [|fuel]; [cbn in Hf; lia|]).
  - specialize (Hat O a eq_refl). rewrite Nat.add_0_r in *. cbn [char_by_uuid_loop]. rewrite (char_next_at _ _ Hat).
    unfold chrc_with in Ha. destruct (g_kind a) as [u v p|] eqn:Ek; [|done].
    assert (Ev : view a = {| d_uuid := BT_UUID_GATT_CHRC; d_handle := g_handle a; d_perm := g_perm a;
      d_data := ChrcVal {| ch_uuid := Some u; ch_value_handle := v; ch_properties := p |} |}) by (unfold view, g_uuid, chrc_data; by rewrite Ek).
    rewrite Ev in *. cbn [d_uuid]. rewrite uuid_cmp_refl. cbn [Z.eqb]. unfold attr_at. rewrite Hat. cbn [mbind res_bind].
    unfold chrc_val_of, bt_gatt_dm_attr_chrc_val. cbn [d_uuid d_data]. rewrite uuid_cmp_refl. cbn. by rewrite Ha.
  - pose proof (Hat O b eq_refl) as Hb. rewrite Nat.add_0_r in Hb. apply Forall_cons in Hno as [Hnb Hno]. cbn in Hk.
    apply Forall_cons in Hk as [Hkb Hk].
    assert (Hnext : forall fuel, (length pre < fuel)%nat -> char_by_uuid_loop fuel d cu (Some (S prev)) = Ok (Some (S prev + length (b :: pre))%nat)).
    { intros f Hlt. rewrite (IH f (S prev)); [do 2 f_equal; cbn; lia| |done..]. intros i c Hi. specialize (Hat (S i) c Hi).
      by rewrite Nat.add_succ_r in Hat. }
    cbn [length] in Hf. cbn [char_by_uuid_loop]. rewrite (char_next_at _ _ Hb). unfold chrc_with in Hnb.
    destruct (g_kind b) as [u v p|u] eqn:Ek.
    + assert (Ev : view b = {| d_uuid := BT_UUID_GATT_CHRC; d_handle := g_handle b; d_perm := g_perm b;
        d_data := ChrcVal {| ch_uuid := Some u; ch_value_handle := v; ch_properties := p |} |}) by (unfold view, g_uuid, chrc_data; by rewrite Ek).
      rewrite Ev in *. cbn [d_uuid]. rewrite uuid_cmp_refl. cbn [Z.eqb]. unfold attr_at. rewrite Hb. cbn [mbind res_bind].
      unfold chrc_val_of, bt_gatt_dm_attr_chrc_val. cbn [d_uuid d_data]. rewrite uuid_cmp_refl. cbn [Z.eqb mbind res_bind ch_uuid].
      apply Z.eqb_neq in Hnb. rewrite Hnb. apply Hnext. lia.
    + assert (bt_uuid_cmp BT_UUID_GATT_CHRC (d_uuid (view b)) <> 0) as Hne.
      { intros E. apply uuid_cmp_sym in E. revert E. apply Hkb. unfold is_chrc. by rewrite Ek. }
      apply Z.eqb_neq in Hne. rewrite Hne. specialize (Hnext (S fuel)). cbn [char_by_uuid_loop] in Hnext. apply Hnext. lia.
Qed.

Lemma desc_next_at prev b :
  attrs d !! S prev = Some (view b) -> bt_uuid_cmp (g_uuid b) BT_UUID_GATT_CHRC <> 0 ->
  bt_gatt_dm_desc_next d prev = Ok (Some (S prev)).
Proof.
  intros Hb Hne. unfold bt_gatt_dm_desc_next, bt_gatt_dm_attr_next. cbn [default].
  rewrite decide_True by (by eapply lookup_lt_Some). unfold attr_at, id. rewrite Hb. cbn [mbind res_bind].
  destruct (Z.eqb_spec (bt_uuid_cmp BT_UUID_GATT_CHRC (d_uuid (view b))) 0) as [E|]; [|done]. by apply uuid_cmp_sym in E.
Qed.

Lemma desc_loop_found du ds x fuel prev :
  (forall i b, (ds ++ [x]) !! i = Some b -> attrs d !! (S prev + i)%nat = Some (view b)) ->
  Forall (fun b => bt_uuid_cmp (g_uuid b) BT_UUID_GATT_CHRC <> 0) (ds ++ [x]) ->
  Forall (fun b => bt_uuid_cmp du (g_uuid b) <> 0) ds -> bt_uuid_cmp du (g_uuid x) = 0 -> (length ds < fuel)%nat ->
  desc_by_uuid_loop fuel d du prev = Ok (Some (S prev + length ds)%nat).
Proof.
  revert fuel prev. induction ds as [|b ds IH]; intros fuel prev Hat Hk Hno Hu Hf; (destruct fuel as [|fuel]; [cbn in Hf; lia|]).
  - specialize (Hat O x eq_refl). rewrite Nat.add_0_r in *. apply Forall_cons in Hk as [Hk _].
    cbn [desc_by_uuid_loop]. rewrite (desc_next_at _ _ Hat Hk). cbn [mbind res_bind]. unfold attr_at. rewrite Hat. cbn [mbind res_bind].
    change (d_uuid (view x)) with (g_uuid x). by rewrite Hu.
  - pose proof (Hat O b eq_refl) as Hb. rewrite Nat.add_0_r in Hb. cbn in Hk. apply Forall_cons in Hk as [Hkb Hk].
    apply Forall_cons in Hno as [Hnb Hno]. cbn [desc_by_uuid_loop]. rewrite (desc_next_at _ _ Hb Hkb). cbn [mbind res_bind].
    unfold attr_at. rewrite Hb. cbn [mbind res_bind]. change (d_uuid (view b)) with (g_uuid b). apply Z.eqb_neq in Hnb as ->.
    cbn in Hf. rewrite (IH fuel (S prev)); [do 2 f_equal; cbn; lia| |done..|lia]. intros i c Hi. specialize (Hat (S i) c Hi).
    by rewrite Nat.add_succ_r in Hat.
Qed.

(** The characteristic is found, and the attribute of it. *)
Lemma first_desc_found s cu du h :
  service_ok s -> attrs d = found s -> first_desc s cu du h ->
  exists i j b, bt_gatt_dm_char_by_uuid d cu = Ok (Some i) /\ bt_gatt_dm_desc_by_uuid d i du = Ok (Some j) /\
    attrs d !! j = Some b /\ d_handle b = h.
Proof.
  intros Hok Hd (pre & a & ds & x & rest & Ea & Ha & Hpre & Hds & Hx & Hu & Hh).
  pose proof (ok_kinds s Hok) as Hk. rewrite Ea in Hk.
  assert (Hat : forall i b, (pre ++ a :: ds ++ x :: rest) !! i = Some b -> attrs d !! S i = Some (view b)).
  { intros i b Hi. rewrite Hd. change ((view <$> gs_attrs s) !! i = Some (view b)). by rewrite Ea, list_lookup_fmap, Hi. }
  assert (Hlen : (length pre + length ds + 2 <= length (attrs d))%nat)
    by (rewrite Hd; unfold found; cbn; rewrite length_fmap, Ea, !length_app; cbn; rewrite length_app; cbn; lia).
  exists (S (length pre)), (S (S (length pre)) + length ds)%nat, (view x). split; [|split; [|split; [|exact Hh]]].
  - unfold bt_gatt_dm_char_by_uuid.
    transitivity (char_by_uuid_loop (S (length (attrs d))) d cu (Some O)); [done|].
    rewrite (char_loop_found cu pre a (ds ++ x :: rest)); [done| |done..|lia].
    intros i b Hi. apply Hat. change (a :: ds ++ x :: rest) with ([a] ++ ds ++ x :: rest). rewrite app_assoc. by apply lookup_app_l_Some.
  - unfold bt_gatt_dm_desc_by_uuid. apply (desc_loop_found du ds x); [| | |done|lia].
    + intros i b Hi. replace (S (S (length pre)) + i)%nat with (S (length pre + S i)) by lia. apply Hat.
      rewrite lookup_app_r by lia. replace (length pre + S i - length pre)%nat with (S i) by lia. cbn.
      change (x :: rest) with ([x] ++ rest). rewrite app_assoc. by apply lookup_app_l_Some.
    + apply Forall_app in Hk as [_ Hk]. apply Forall_cons in Hk as [_ Hk]. apply Forall_app in Hk as [Hkd Hkx].
      apply Forall_app. split; [|apply Forall_cons; split; [apply Forall_cons in Hkx as [Hkx _]; auto|done]].
      rewrite Forall_forall in *. intros b Hb. apply Hkd; [done|]. by apply Hds.
    + rewrite Forall_forall in *. intros b Hb. by apply Hds.
  - apply (Hat (S (length pre) + length ds)%nat). rewrite lookup_app_r by lia.
    replace (S (length pre) + length ds - length pre)%nat with (S (length ds)) by lia. cbn. by apply list_lookup_middle.
Qed.

(** *** Any UUID *)

(** The attributes of a completed discovery: a service with its UUID, and
    characteristics with theirs. *)
Definition discovered : Prop :=
  (exists a v u, attrs d !! O = Some a /\ bt_gatt_dm_attr_service_val a = true /\ d_data a = ServiceVal v /\ sv_uuid v = Some u) /\
  Forall (fun a => bt_uuid_cmp BT_UUID_GATT_CHRC (d_uuid a) = 0 -> exists c u, d_data a = ChrcVal c /\ ch_uuid c = Some u) (attrs d).

Lemma char_scan_place l i j :
  char_scan l i = Some j -> (i <= j)%nat /\ exists a, l !! (j - i)%nat = Some a /\ bt_uuid_cmp BT_UUID_GATT_CHRC (d_uuid a) = 0.
Proof.
  revert i. induction l as [|a l IH]; intros i; cbn [char_scan]; [done|].
  destruct (Z.eqb_spec (bt_uuid_cmp BT_UUID_GATT_CHRC (d_uuid a)) 0) as [E|].
  - intros [= <-]. split; [lia|]. exists a. by rewrite Nat.sub_diag.
  - intros Hj. destruct (IH _ Hj) as (? & b & Hb & Hu). split; [lia|]. exists b. replace (j - i)%nat with (S (j - S i)) by lia. done.
Qed.

Lemma char_loop_total fuel cu prev :
  discovered -> (default O prev <= length (attrs d) < fuel + default O prev)%nat ->
  exists o, char_by_uuid_loop fuel d cu prev = Ok o /\ forall i, o = Some i -> (i < length (attrs d))%nat.
Proof.
  intros [_ Hd]. revert prev. induction fuel as [|fuel IH]; intros prev Hf; [lia|]. cbn [char_by_uuid_loop].
  destruct (bt_gatt_dm_char_next d prev) as [i|] eqn:En; [|by exists None].
  unfold bt_gatt_dm_char_next in En. apply char_scan_place in En as (Hi & a & Ha & Hu). rewrite lookup_drop in Ha.
  replace (S (default O prev) + (i - S (default O prev)))%nat with i in Ha by lia.
  destruct (Forall_lookup_1 _ _ _ _ Hd Ha Hu) as (c & u & Hc & Hcu). unfold attr_at. rewrite Ha. cbn [mbind res_bind].
  unfold chrc_val_of, bt_gatt_dm_attr_chrc_val. rewrite Hu, Hc. cbn [Z.eqb mbind res_bind]. rewrite Hcu.
  apply lookup_lt_Some in Ha. destruct (_ =? _); [exists (Some i); split; [done|]; by intros ? [= <-]|]. apply IH. cbn. unfold id. lia.
Qed.

Lemma char_by_uuid_total cu :
  discovered -> exists o, bt_gatt_dm_char_by_uuid d cu = Ok o /\ forall i, o = Some i -> (i < length (attrs d))%nat.
Proof. intros Hd. apply char_loop_total; [done|cbn; lia]. Qed.

Lemma desc_loop_total fuel du curr :
  (curr <= length (attrs d) < fuel + curr)%nat ->
  exists o, desc_by_uuid_loop fuel d du curr = Ok o /\ forall i, o = Some i -> exists a, attrs d !! i = Some a.
Proof.
  revert curr. induction fuel as [|fuel IH]; intros curr Hf; [lia|]. cbn [desc_by_uuid_loop].
  unfold bt_gatt_dm_desc_next, bt_gatt_dm_attr_next. cbn [default]. unfold id.
  destruct (decide (S curr < length (attrs d))%nat) as [Hl|]; [|by exists None].
  destruct (lookup_lt_is_Some_2 _ _ Hl) as [a Ha]. unfold attr_at. rewrite Ha. cbn [mbind res_bind].
  destruct (_ =? _); [by exists None|]. rewrite Ha. cbn [mbind res_bind].
  destruct (_ =? _); [exists (Some (S curr)); split; [done|]; intros ? [= <-]; by exists a|]. apply IH. lia.
Qed.

Lemma desc_by_uuid_total du i :
  (i < length (attrs d))%nat ->
  exists o, bt_gatt_dm_desc_by_uuid d i du = Ok o /\ forall j, o = Some j -> exists a, attrs d !! j = Some a.
Proof. intros Hi. apply desc_loop_total. lia. Qed.

Lemma found_discovered s : service_ok s -> attrs d = found s -> discovered.
Proof.
  intros Hok Hd. unfold discovered. rewrite Hd. split.
  - exists (svc_attr s), {| sv_uuid := Some (gs_uuid s); sv_end_handle := gs_end s |}, (gs_uuid s). split; [done|].
    split; [|done]. unfold bt_gatt_dm_attr_service_val. cbn [d_uuid svc_attr]. by rewrite uuid_cmp_refl.
  - apply Forall_cons. split.
    + intros E. cbn [d_uuid svc_attr] in E. by apply uuid_cmp_16 in E.
    + apply Forall_fmap. eapply Forall_impl; [exact (ok_kinds s Hok)|]. intros a Hk. cbn. intros E.
      unfold chrc_data, is_chrc in *. destruct (g_kind a); [by eexists _, _|]. apply uuid_cmp_sym in E. by specialize (Hk eq_refl).
Qed.

End Lookup.
