(* ===== verification/Ancs.v ===== *)
(** * Apple Notification Center Service client

    The client (subsys/bluetooth/services/ancs_client.c, ancs_attr_parser.c,
    ancs_app_attr_get.c) subscribes to the notifications of an iOS device, asks
    for the attributes of notifications and of apps, and parses the responses,
    which arrive in pieces. *)

From stdpp Require Import prelude list.
From Stdlib Require Import ZArith Lia.
From S2P Require Import Prelude GattDm.

Open Scope Z_scope.

(** ** What the client uses *)

Class LittleEndian := {
  sys_get_le32 : list Z -> Z;
  sys_put_le32 : Z -> list Z;
  sys_put_le16 : Z -> list Z;
  sys_get_le32_spec a b c d : sys_get_le32 [a; b; c; d] = a + b * 2 ^ 8 + c * 2 ^ 16 + d * 2 ^ 24;
  sys_put_le32_spec v : sys_put_le32 v = [v mod 256; v / 2 ^ 8 mod 256; v / 2 ^ 16 mod 256; v / 2 ^ 24 mod 256];
  sys_put_le16_spec v : sys_put_le16 v = [v mod 256; v / 2 ^ 8 mod 256]
}.

(** Buffers that data is appended to, made over memory of a given size. *)
Class NetBuf := {
  net_buf_simple : Type;
  nb_data : net_buf_simple -> list Z;
  net_buf_simple_init_with_data : Z -> net_buf_simple;
  net_buf_simple_tailroom : net_buf_simple -> Z;
  net_buf_simple_add_mem : net_buf_simple -> list Z -> net_buf_simple;
  nb_init_data n : nb_data (net_buf_simple_init_with_data n) = [];
  nb_init_room n : 0 <= n -> net_buf_simple_tailroom (net_buf_simple_init_with_data n) = n;
  nb_add_data b bs : zlen bs <= net_buf_simple_tailroom b -> nb_data (net_buf_simple_add_mem b bs) = nb_data b ++ bs;
  nb_add_room b bs : zlen bs <= net_buf_simple_tailroom b ->
    net_buf_simple_tailroom (net_buf_simple_add_mem b bs) = net_buf_simple_tailroom b - zlen bs
}.

Class AncsConfig := {
  CP_BUFF_SIZE : Z;
  cp_buff_size_range : 20 <= CP_BUFF_SIZE <= 65535
}.

(** ** Data of the client *)

Definition BT_ANCS_ATTR_DATA_MAX : Z := 32.
Definition BT_ANCS_CATEGORY_ID_COUNT : Z := 12.
Definition BT_ANCS_NOTIF_ATTR_COUNT : Z := 8.
Definition BT_ANCS_APP_ATTR_COUNT : Z := 1.
Definition BT_ANCS_EVT_ID_COUNT : Z := 3.
Definition BT_ANCS_NOTIF_DATA_LENGTH : Z := 8.
Definition BT_ANCS_COMMAND_ID_GET_NOTIF_ATTRIBUTES : Z := 0.
Definition BT_ANCS_COMMAND_ID_GET_APP_ATTRIBUTES : Z := 1.
Definition BT_ANCS_COMMAND_ID_PERFORM_NOTIF_ACTION : Z := 2.
Definition BT_ANCS_NOTIF_ATTR_ID_TITLE : Z := 1.
Definition BT_ANCS_NOTIF_ATTR_ID_SUBTITLE : Z := 2.
Definition BT_ANCS_NOTIF_ATTR_ID_MESSAGE : Z := 3.

Inductive bt_ancs_parse_state :=
  | BT_ANCS_PARSE_STATE_COMMAND_ID
  | BT_ANCS_PARSE_STATE_NOTIF_UID
  | BT_ANCS_PARSE_STATE_APP_ID
  | BT_ANCS_PARSE_STATE_ATTR_ID
  | BT_ANCS_PARSE_STATE_ATTR_LEN1
  | BT_ANCS_PARSE_STATE_ATTR_LEN2
  | BT_ANCS_PARSE_STATE_ATTR_DATA
  | BT_ANCS_PARSE_STATE_ATTR_SKIP
  | BT_ANCS_PARSE_STATE_DONE.
#[export] Instance bt_ancs_parse_state_eq_dec : EqDecision bt_ancs_parse_state.
Proof. solve_decision. Defined.

Record bt_ancs_evt_notif := {
  n_notif_uid : Z;
  evt_id : Z;
  silent : Z;
  important : Z;
  pre_existing : Z;
  positive_action : Z;
  negative_action : Z;
  category_id : Z;
  category_count : Z
}.

(** An attribute the user has registered; buffers of the user are given by their
    places in the memory [bufs]. *)
Record bt_ancs_attr_list := { get : bool; l_attr_len : Z; l_attr_data : option nat }.

(** The response that is being parsed, with its attribute. *)
Record bt_ancs_attr_response := {
  r_command_id : Z;
  attr_len : Z;
  attr_id : Z;
  attr_data : option nat;
  notif_uid : Z;
  app_id : list Z
}.

(** The lists of attributes the parser can point to. *)
Inductive which_list := NotifList | AppList.

Record bt_ancs_parse_sm := {
  attr_list : option which_list;
  attr_count : Z;
  expected_number_of_attrs : Z;
  parse_state : bt_ancs_parse_state;
  p_command_id : Z;
  current_attr_index : Z;
  current_app_id_index : Z
}.

(** The calls of functions of the user and of the stack. The call with a response
    has the content of the buffer of its attribute then. *)
Inductive ancs_call :=
  | NsNotif (cb : Z) (err : Z) (notif : bt_ancs_evt_notif)
  | DsNotif (cb : Z) (response : bt_ancs_attr_response) (content : list Z)
  | WriteDone (cb : Z) (err : Z)
  | GattWrite (handle : Z) (data : list Z)
  | GattSubscribe (value_handle ccc_handle : Z)
  | GattUnsubscribe (value_handle ccc_handle : Z).

(** The client, the memory of the user, and the calls so far. The bits of the
    atomic state are fields of their own; functions of the user are given by
    numbers. *)
Record bt_ancs_client := {
  c_conn : option Z;
  ns_enabled : bool;
  ds_enabled : bool;
  cp_pending : bool;
  handle_cp : Z;
  handle_ns : Z;
  handle_ns_ccc : Z;
  handle_ds : Z;
  handle_ds_ccc : Z;
  cp_write_cb : option Z;
  cp_data : list Z;
  ns_notif_cb : option Z;
  ds_notif_cb : option Z;
  ancs_notif_attr_list : list bt_ancs_attr_list;
  ancs_app_attr_list : list bt_ancs_attr_list;
  number_of_requested_attr : Z;
  parse_info : bt_ancs_parse_sm;
  attr_response : bt_ancs_attr_response;
  bufs : list (list Z);
  calls : list ancs_call
}.

(** Updates of a field. *)
Definition set_r_command_id (v : Z) (r : bt_ancs_attr_response) : bt_ancs_attr_response :=
  {| r_command_id := v; attr_len := attr_len r; attr_id := attr_id r; attr_data := attr_data r;
     notif_uid := notif_uid r; app_id := app_id r |}.
Definition set_attr_len (v : Z) (r : bt_ancs_attr_response) : bt_ancs_attr_response :=
  {| r_command_id := r_command_id r; attr_len := v; attr_id := attr_id r; attr_data := attr_data r;
     notif_uid := notif_uid r; app_id := app_id r |}.
Definition set_attr_id (v : Z) (r : bt_ancs_attr_response) : bt_ancs_attr_response :=
  {| r_command_id := r_command_id r; attr_len := attr_len r; attr_id := v; attr_data := attr_data r;
     notif_uid := notif_uid r; app_id := app_id r |}.
Definition set_attr_data (v : option nat) (r : bt_ancs_attr_response) : bt_ancs_attr_response :=
  {| r_command_id := r_command_id r; attr_len := attr_len r; attr_id := attr_id r; attr_data := v;
     notif_uid := notif_uid r; app_id := app_id r |}.
Definition set_notif_uid (v : Z) (r : bt_ancs_attr_response) : bt_ancs_attr_response :=
  {| r_command_id := r_command_id r; attr_len := attr_len r; attr_id := attr_id r; attr_data :=
     attr_data r; notif_uid := v; app_id := app_id r |}.
Definition set_app_id (v : list Z) (r : bt_ancs_attr_response) : bt_ancs_attr_response :=
  {| r_command_id := r_command_id r; attr_len := attr_len r; attr_id := attr_id r; attr_data :=
     attr_data r; notif_uid := notif_uid r; app_id := v |}.
Definition set_attr_list (v : option which_list) (p : bt_ancs_parse_sm) : bt_ancs_parse_sm :=
  {| attr_list := v; attr_count := attr_count p; expected_number_of_attrs := expected_number_of_attrs p;
     parse_state := parse_state p; p_command_id := p_command_id p; current_attr_index :=
     current_attr_index p; current_app_id_index := current_app_id_index p |}.
Definition set_attr_count (v : Z) (p : bt_ancs_parse_sm) : bt_ancs_parse_sm :=
  {| attr_list := attr_list p; attr_count := v; expected_number_of_attrs := expected_number_of_attrs p;
     parse_state := parse_state p; p_command_id := p_command_id p; current_attr_index :=
     current_attr_index p; current_app_id_index := current_app_id_index p |}.
Definition set_expected_number_of_attrs (v : Z) (p : bt_ancs_parse_sm) : bt_ancs_parse_sm :=
  {| attr_list := attr_list p; attr_count := attr_count p; expected_number_of_attrs := v; parse_state :=
     parse_state p; p_command_id := p_command_id p; current_attr_index := current_attr_index p;
     current_app_id_index := current_app_id_index p |}.
Definition set_parse_state (v : bt_ancs_parse_state) (p : bt_ancs_parse_sm) : bt_ancs_parse_sm :=
  {| attr_list := attr_list p; attr_count := attr_count p; expected_number_of_attrs :=
     expected_number_of_attrs p; parse_state := v; p_command_id := p_command_id p; current_attr_index :=
     current_attr_index p; current_app_id_index := current_app_id_index p |}.
Definition set_current_attr_index (v : Z) (p : bt_ancs_parse_sm) : bt_ancs_parse_sm :=
  {| attr_list := attr_list p; attr_count := attr_count p; expected_number_of_attrs :=
     expected_number_of_attrs p; parse_state := parse_state p; p_command_id := p_command_id p;
     current_attr_index := v; current_app_id_index := current_app_id_index p |}.
Definition set_current_app_id_index (v : Z) (p : bt_ancs_parse_sm) : bt_ancs_parse_sm :=
  {| attr_list := attr_list p; attr_count := attr_count p; expected_number_of_attrs :=
     expected_number_of_attrs p; parse_state := parse_state p; p_command_id := p_command_id p;
     current_attr_index := current_attr_index p; current_app_id_index := v |}.
Definition set_p_command_id (v : Z) (p : bt_ancs_parse_sm) : bt_ancs_parse_sm :=
  {| attr_list := attr_list p; attr_count := attr_count p; expected_number_of_attrs :=
     expected_number_of_attrs p; parse_state := parse_state p; p_command_id := v; current_attr_index :=
     current_attr_index p; current_app_id_index := current_app_id_index p |}.
Definition set_c_conn (v : option Z) (c : bt_ancs_client) : bt_ancs_client :=
  {| c_conn := v; ns_enabled := ns_enabled c; ds_enabled := ds_enabled c; cp_pending := cp_pending c;
     handle_cp := handle_cp c; handle_ns := handle_ns c; handle_ns_ccc := handle_ns_ccc c; handle_ds :=
     handle_ds c; handle_ds_ccc := handle_ds_ccc c; cp_write_cb := cp_write_cb c; cp_data := cp_data c;
     ns_notif_cb := ns_notif_cb c; ds_notif_cb := ds_notif_cb c; ancs_notif_attr_list :=
     ancs_notif_attr_list c; ancs_app_attr_list := ancs_app_attr_list c; number_of_requested_attr :=
     number_of_requested_attr c; parse_info := parse_info c; attr_response := attr_response c; bufs :=
     bufs c; calls := calls c |}.
Definition set_ns_enabled (v : bool) (c : bt_ancs_client) : bt_ancs_client :=
  {| c_conn := c_conn c; ns_enabled := v; ds_enabled := ds_enabled c; cp_pending := cp_pending c;
     handle_cp := handle_cp c; handle_ns := handle_ns c; handle_ns_ccc := handle_ns_ccc c; handle_ds :=
     handle_ds c; handle_ds_ccc := handle_ds_ccc c; cp_write_cb := cp_write_cb c; cp_data := cp_data c;
     ns_notif_cb := ns_notif_cb c; ds_notif_cb := ds_notif_cb c; ancs_notif_attr_list :=
     ancs_notif_attr_list c; ancs_app_attr_list := ancs_app_attr_list c; number_of_requested_attr :=
     number_of_requested_attr c; parse_info := parse_info c; attr_response := attr_response c; bufs :=
     bufs c; calls := calls c |}.
Definition set_ds_enabled (v : bool) (c : bt_ancs_client) : bt_ancs_client :=
  {| c_conn := c_conn c; ns_enabled := ns_enabled c; ds_enabled := v; cp_pending := cp_pending c;
     handle_cp := handle_cp c; handle_ns := handle_ns c; handle_ns_ccc := handle_ns_ccc c; handle_ds :=
     handle_ds c; handle_ds_ccc := handle_ds_ccc c; cp_write_cb := cp_write_cb c; cp_data := cp_data c;
     ns_notif_cb := ns_notif_cb c; ds_notif_cb := ds_notif_cb c; ancs_notif_attr_list :=
     ancs_notif_attr_list c; ancs_app_attr_list := ancs_app_attr_list c; number_of_requested_attr :=
     number_of_requested_attr c; parse_info := parse_info c; attr_response := attr_response c; bufs :=
     bufs c; calls := calls c |}.
Definition set_cp_pending (v : bool) (c : bt_ancs_client) : bt_ancs_client :=
  {| c_conn := c_conn c; ns_enabled := ns_enabled c; ds_enabled := ds_enabled c; cp_pending := v;
     handle_cp := handle_cp c; handle_ns := handle_ns c; handle_ns_ccc := handle_ns_ccc c; handle_ds :=
     handle_ds c; handle_ds_ccc := handle_ds_ccc c; cp_write_cb := cp_write_cb c; cp_data := cp_data c;
     ns_notif_cb := ns_notif_cb c; ds_notif_cb := ds_notif_cb c; ancs_notif_attr_list :=
     ancs_notif_attr_list c; ancs_app_attr_list := ancs_app_attr_list c; number_of_requested_attr :=
     number_of_requested_attr c; parse_info := parse_info c; attr_response := attr_response c; bufs :=
     bufs c; calls := calls c |}.
Definition set_handle_cp (v : Z) (c : bt_ancs_client) : bt_ancs_client :=
  {| c_conn := c_conn c; ns_enabled := ns_enabled c; ds_enabled := ds_enabled c; cp_pending :=
     cp_pending c; handle_cp := v; handle_ns := handle_ns c; handle_ns_ccc := handle_ns_ccc c; handle_ds
     := handle_ds c; handle_ds_ccc := handle_ds_ccc c; cp_write_cb := cp_write_cb c; cp_data := cp_data
     c; ns_notif_cb := ns_notif_cb c; ds_notif_cb := ds_notif_cb c; ancs_notif_attr_list :=
     ancs_notif_attr_list c; ancs_app_attr_list := ancs_app_attr_list c; number_of_requested_attr :=
     number_of_requested_attr c; parse_info := parse_info c; attr_response := attr_response c; bufs :=
     bufs c; calls := calls c |}.
Definition set_handle_ns (v : Z) (c : bt_ancs_client) : bt_ancs_client :=
  {| c_conn := c_conn c; ns_enabled := ns_enabled c; ds_enabled := ds_enabled c; cp_pending :=
     cp_pending c; handle_cp := handle_cp c; handle_ns := v; handle_ns_ccc := handle_ns_ccc c; handle_ds
     := handle_ds c; handle_ds_ccc := handle_ds_ccc c; cp_write_cb := cp_write_cb c; cp_data := cp_data
     c; ns_notif_cb := ns_notif_cb c; ds_notif_cb := ds_notif_cb c; ancs_notif_attr_list :=
     ancs_notif_attr_list c; ancs_app_attr_list := ancs_app_attr_list c; number_of_requested_attr :=
     number_of_requested_attr c; parse_info := parse_info c; attr_response := attr_response c; bufs :=
     bufs c; calls := calls c |}.
Definition set_handle_ns_ccc (v : Z) (c : bt_ancs_client) : bt_ancs_client :=
  {| c_conn := c_conn c; ns_enabled := ns_enabled c; ds_enabled := ds_enabled c; cp_pending :=
     cp_pending c; handle_cp := handle_cp c; handle_ns := handle_ns c; handle_ns_ccc := v; handle_ds :=
     handle_ds c; handle_ds_ccc := handle_ds_ccc c; cp_write_cb := cp_write_cb c; cp_data := cp_data c;
     ns_notif_cb := ns_notif_cb c; ds_notif_cb := ds_notif_cb c; ancs_notif_attr_list :=
     ancs_notif_attr_list c; ancs_app_attr_list := ancs_app_attr_list c; number_of_requested_attr :=
     number_of_requested_attr c; parse_info := parse_info c; attr_response := attr_response c; bufs :=
     bufs c; calls := calls c |}.
Definition set_handle_ds (v : Z) (c : bt_ancs_client) : bt_ancs_client :=
  {| c_conn := c_conn c; ns_enabled := ns_enabled c; ds_enabled := ds_enabled c; cp_pending :=
     cp_pending c; handle_cp := handle_cp c; handle_ns := handle_ns c; handle_ns_ccc := handle_ns_ccc c;
     handle_ds := v; handle_ds_ccc := handle_ds_ccc c; cp_write_cb := cp_write_cb c; cp_data := cp_data
     c; ns_notif_cb := ns_notif_cb c; ds_notif_cb := ds_notif_cb c; ancs_notif_attr_list :=
     ancs_notif_attr_list c; ancs_app_attr_list := ancs_app_attr_list c; number_of_requested_attr :=
     number_of_requested_attr c; parse_info := parse_info c; attr_response := attr_response c; bufs :=
     bufs c; calls := calls c |}.
Definition set_handle_ds_ccc (v : Z) (c : bt_ancs_client) : bt_ancs_client :=
  {| c_conn := c_conn c; ns_enabled := ns_enabled c; ds_enabled := ds_enabled c; cp_pending :=
     cp_pending c; handle_cp := handle_cp c; handle_ns := handle_ns c; handle_ns_ccc := handle_ns_ccc c;
     handle_ds := handle_ds c; handle_ds_ccc := v; cp_write_cb := cp_write_cb c; cp_data := cp_data c;
     ns_notif_cb := ns_notif_cb c; ds_notif_cb := ds_notif_cb c; ancs_notif_attr_list :=
     ancs_notif_attr_list c; ancs_app_attr_list := ancs_app_attr_list c; number_of_requested_attr :=
     number_of_requested_attr c; parse_info := parse_info c; attr_response := attr_response c; bufs :=
     bufs c; calls := calls c |}.
Definition set_cp_write_cb (v : option Z) (c : bt_ancs_client) : bt_ancs_client :=
  {| c_conn := c_conn c; ns_enabled := ns_enabled c; ds_enabled := ds_enabled c; cp_pending :=
     cp_pending c; handle_cp := handle_cp c; handle_ns := handle_ns c; handle_ns_ccc := handle_ns_ccc c;
     handle_ds := handle_ds c; handle_ds_ccc := handle_ds_ccc c; cp_write_cb := v; cp_data := cp_data c;
     ns_notif_cb := ns_notif_cb c; ds_notif_cb := ds_notif_cb c; ancs_notif_attr_list :=
     ancs_notif_attr_list c; ancs_app_attr_list := ancs_app_attr_list c; number_of_requested_attr :=
     number_of_requested_attr c; parse_info := parse_info c; attr_response := attr_response c; bufs :=
     bufs c; calls := calls c |}.
Definition set_cp_data (v : list Z) (c : bt_ancs_client) : bt_ancs_client :=
  {| c_conn := c_conn c; ns_enabled := ns_enabled c; ds_enabled := ds_enabled c; cp_pending :=
     cp_pending c; handle_cp := handle_cp c; handle_ns := handle_ns c; handle_ns_ccc := handle_ns_ccc c;
     handle_ds := handle_ds c; handle_ds_ccc := handle_ds_ccc c; cp_write_cb := cp_write_cb c; cp_data
     := v; ns_notif_cb := ns_notif_cb c; ds_notif_cb := ds_notif_cb c; ancs_notif_attr_list :=
     ancs_notif_attr_list c; ancs_app_attr_list := ancs_app_attr_list c; number_of_requested_attr :=
     number_of_requested_attr c; parse_info := parse_info c; attr_response := attr_response c; bufs :=
     bufs c; calls := calls c |}.
Definition set_ns_notif_cb (v : option Z) (c : bt_ancs_client) : bt_ancs_client :=
  {| c_conn := c_conn c; ns_enabled := ns_enabled c; ds_enabled := ds_enabled c; cp_pending :=
     cp_pending c; handle_cp := handle_cp c; handle_ns := handle_ns c; handle_ns_ccc := handle_ns_ccc c;
     handle_ds := handle_ds c; handle_ds_ccc := handle_ds_ccc c; cp_write_cb := cp_write_cb c; cp_data
     := cp_data c; ns_notif_cb := v; ds_notif_cb := ds_notif_cb c; ancs_notif_attr_list :=
     ancs_notif_attr_list c; ancs_app_attr_list := ancs_app_attr_list c; number_of_requested_attr :=
     number_of_requested_attr c; parse_info := parse_info c; attr_response := attr_response c; bufs :=
     bufs c; calls := calls c |}.
Definition set_ds_notif_cb (v : option Z) (c : bt_ancs_client) : bt_ancs_client :=
  {| c_conn := c_conn c; ns_enabled := ns_enabled c; ds_enabled := ds_enabled c; cp_pending :=
     cp_pending c; handle_cp := handle_cp c; handle_ns := handle_ns c; handle_ns_ccc := handle_ns_ccc c;
     handle_ds := handle_ds c; handle_ds_ccc := handle_ds_ccc c; cp_write_cb := cp_write_cb c; cp_data
     := cp_data c; ns_notif_cb := ns_notif_cb c; ds_notif_cb := v; ancs_notif_attr_list :=
     ancs_notif_attr_list c; ancs_app_attr_list := ancs_app_attr_list c; number_of_requested_attr :=
     number_of_requested_attr c; parse_info := parse_info c; attr_response := attr_response c; bufs :=
     bufs c; calls := calls c |}.
Definition set_ancs_notif_attr_list (v : list bt_ancs_attr_list) (c : bt_ancs_client) : bt_ancs_client :=
  {| c_conn := c_conn c; ns_enabled := ns_enabled c; ds_enabled := ds_enabled c; cp_pending :=
     cp_pending c; handle_cp := handle_cp c; handle_ns := handle_ns c; handle_ns_ccc := handle_ns_ccc c;
     handle_ds := handle_ds c; handle_ds_ccc := handle_ds_ccc c; cp_write_cb := cp_write_cb c; cp_data
     := cp_data c; ns_notif_cb := ns_notif_cb c; ds_notif_cb := ds_notif_cb c; ancs_notif_attr_list :=
     v; ancs_app_attr_list := ancs_app_attr_list c; number_of_requested_attr := number_of_requested_attr
     c; parse_info := parse_info c; attr_response := attr_response c; bufs := bufs c; calls := calls c
     |}.
Definition set_ancs_app_attr_list (v : list bt_ancs_attr_list) (c : bt_ancs_client) : bt_ancs_client :=
  {| c_conn := c_conn c; ns_enabled := ns_enabled c; ds_enabled := ds_enabled c; cp_pending :=
     cp_pending c; handle_cp := handle_cp c; handle_ns := handle_ns c; handle_ns_ccc := handle_ns_ccc c;
     handle_ds := handle_ds c; handle_ds_ccc := handle_ds_ccc c; cp_write_cb := cp_write_cb c; cp_data
     := cp_data c; ns_notif_cb := ns_notif_cb c; ds_notif_cb := ds_notif_cb c; ancs_notif_attr_list :=
     ancs_notif_attr_list c; ancs_app_attr_list := v; number_of_requested_attr :=
     number_of_requested_attr c; parse_info := parse_info c; attr_response := attr_response c; bufs :=
     bufs c; calls := calls c |}.
Definition set_number_of_requested_attr (v : Z) (c : bt_ancs_client) : bt_ancs_client :=
  {| c_conn := c_conn c; ns_enabled := ns_enabled c; ds_enabled := ds_enabled c; cp_pending :=
     cp_pending c; handle_cp := handle_cp c; handle_ns := handle_ns c; handle_ns_ccc := handle_ns_ccc c;
     handle_ds := handle_ds c; handle_ds_ccc := handle_ds_ccc c; cp_write_cb := cp_write_cb c; cp_data
     := cp_data c; ns_notif_cb := ns_notif_cb c; ds_notif_cb := ds_notif_cb c; ancs_notif_attr_list :=
     ancs_notif_attr_list c; ancs_app_attr_list := ancs_app_attr_list c; number_of_requested_attr := v;
     parse_info := parse_info c; attr_response := attr_response c; bufs := bufs c; calls := calls c |}.
Definition set_parse_info (v : bt_ancs_parse_sm) (c : bt_ancs_client) : bt_ancs_client :=
  {| c_conn := c_conn c; ns_enabled := ns_enabled c; ds_enabled := ds_enabled c; cp_pending :=
     cp_pending c; handle_cp := handle_cp c; handle_ns := handle_ns c; handle_ns_ccc := handle_ns_ccc c;
     handle_ds := handle_ds c; handle_ds_ccc := handle_ds_ccc c; cp_write_cb := cp_write_cb c; cp_data
     := cp_data c; ns_notif_cb := ns_notif_cb c; ds_notif_cb := ds_notif_cb c; ancs_notif_attr_list :=
     ancs_notif_attr_list c; ancs_app_attr_list := ancs_app_attr_list c; number_of_requested_attr :=
     number_of_requested_attr c; parse_info := v; attr_response := attr_response c; bufs := bufs c;
     calls := calls c |}.
Definition set_attr_response (v : bt_ancs_attr_response) (c : bt_ancs_client) : bt_ancs_client :=
  {| c_conn := c_conn c; ns_enabled := ns_enabled c; ds_enabled := ds_enabled c; cp_pending :=
     cp_pending c; handle_cp := handle_cp c; handle_ns := handle_ns c; handle_ns_ccc := handle_ns_ccc c;
     handle_ds := handle_ds c; handle_ds_ccc := handle_ds_ccc c; cp_write_cb := cp_write_cb c; cp_data
     := cp_data c; ns_notif_cb := ns_notif_cb c; ds_notif_cb := ds_notif_cb c; ancs_notif_attr_list :=
     ancs_notif_attr_list c; ancs_app_attr_list := ancs_app_attr_list c; number_of_requested_attr :=
     number_of_requested_attr c; parse_info := parse_info c; attr_response := v; bufs := bufs c; calls
     := calls c |}.
Definition set_bufs (v : list (list Z)) (c : bt_ancs_client) : bt_ancs_client :=
  {| c_conn := c_conn c; ns_enabled := ns_enabled c; ds_enabled := ds_enabled c; cp_pending :=
     cp_pending c; handle_cp := handle_cp c; handle_ns := handle_ns c; handle_ns_ccc := handle_ns_ccc c;
     handle_ds := handle_ds c; handle_ds_ccc := handle_ds_ccc c; cp_write_cb := cp_write_cb c; cp_data
     := cp_data c; ns_notif_cb := ns_notif_cb c; ds_notif_cb := ds_notif_cb c; ancs_notif_attr_list :=
     ancs_notif_attr_list c; ancs_app_attr_list := ancs_app_attr_list c; number_of_requested_attr :=
     number_of_requested_attr c; parse_info := parse_info c; attr_response := attr_response c; bufs :=
     v; calls := calls c |}.
Definition set_calls (v : list ancs_call) (c : bt_ancs_client) : bt_ancs_client :=
  {| c_conn := c_conn c; ns_enabled := ns_enabled c; ds_enabled := ds_enabled c; cp_pending :=
     cp_pending c; handle_cp := handle_cp c; handle_ns := handle_ns c; handle_ns_ccc := handle_ns_ccc c;
     handle_ds := handle_ds c; handle_ds_ccc := handle_ds_ccc c; cp_write_cb := cp_write_cb c; cp_data
     := cp_data c; ns_notif_cb := ns_notif_cb c; ds_notif_cb := ds_notif_cb c; ancs_notif_attr_list :=
     ancs_notif_attr_list c; ancs_app_attr_list := ancs_app_attr_list c; number_of_requested_attr :=
     number_of_requested_attr c; parse_info := parse_info c; attr_response := attr_response c; bufs :=
     bufs c; calls := v |}.

Definition on_parse (f : bt_ancs_parse_sm -> bt_ancs_parse_sm) (c : bt_ancs_client) : bt_ancs_client :=
  set_parse_info (f (parse_info c)) c.
Definition on_response (f : bt_ancs_attr_response -> bt_ancs_attr_response) (c : bt_ancs_client) : bt_ancs_client :=
  set_attr_response (f (attr_response c)) c.
Definition call (e : ancs_call) (c : bt_ancs_client) : bt_ancs_client := set_calls (calls c ++ [e]) c.

(** Memory of the user. *)
Definition buf_at (c : bt_ancs_client) (p : option nat) : res (list Z) :=
  match p with
  | None => Fault
  | Some i => match bufs c !! i with Some b => Ok b | None => Fault end
  end.

Definition buf_wr (c : bt_ancs_client) (p : option nat) (i v : Z) : res bt_ancs_client :=
  match p with
  | None => Fault
  | Some n => let* b := buf_at c p in let* b := wr b i v in Ok (set_bufs (<[n := b]> (bufs c)) c)
  end.

Definition list_of (c : bt_ancs_client) : res (list bt_ancs_attr_list) :=
  match attr_list (parse_info c) with
  | None => Fault
  | Some NotifList => Ok (ancs_notif_attr_list c)
  | Some AppList => Ok (ancs_app_attr_list c)
  end.

(** The element of the current list for the attribute that is being parsed. *)
Definition cur_entry (c : bt_ancs_client) : res bt_ancs_attr_list :=
  let* l := list_of c in
  match l !! Z.to_nat (attr_id (attr_response c)) with Some e => Ok e | None => Fault end.

(** ** Parser of the responses *)

Section Ancs.
Context {LE : LittleEndian} {NB : NetBuf} {AC : AncsConfig} {GS : GattStack}.

Definition bt_ancs_do_ns_notif_cb (c : bt_ancs_client) (err : Z) (notif : bt_ancs_evt_notif) : bt_ancs_client :=
  match ns_notif_cb c with Some f => call (NsNotif f err notif) c | None => c end.

Definition bt_ancs_do_ds_notif_cb (c : bt_ancs_client) : bt_ancs_client :=
  match ds_notif_cb c with
  | Some f =>
    let content := match attr_data (attr_response c) with Some i => default [] (bufs c !! i) | None => [] end in
    call (DsNotif f (attr_response c) content) c
  | None => c
  end.

Definition all_req_attrs_parsed (c : bt_ancs_client) : bool := expected_number_of_attrs (parse_info c) =? 0.

Definition attr_is_requested (c : bt_ancs_client) : res bool := let* e := cur_entry c in Ok (get e).

(** A step of the parser: the new client, the next state, and the new index. *)
Definition pstep : Type := bt_ancs_client * bt_ancs_parse_state * Z.

Definition command_id_parse (c : bt_ancs_client) (data : list Z) (index : Z) : res pstep :=
  let* b := rd data index in
  let c := on_parse (set_p_command_id b) c in
  if b =? BT_ANCS_COMMAND_ID_GET_NOTIF_ATTRIBUTES then
    let c := on_response (set_r_command_id BT_ANCS_COMMAND_ID_GET_NOTIF_ATTRIBUTES) c in
    let c := on_parse (set_attr_list (Some NotifList)) c in
    let c := on_parse (set_attr_count BT_ANCS_NOTIF_ATTR_COUNT) c in
    Ok (c, BT_ANCS_PARSE_STATE_NOTIF_UID, index + 1)
  else if b =? BT_ANCS_COMMAND_ID_GET_APP_ATTRIBUTES then
    let c := on_response (set_r_command_id BT_ANCS_COMMAND_ID_GET_APP_ATTRIBUTES) c in
    let c := on_parse (set_attr_list (Some AppList)) c in
    let c := on_parse (set_attr_count BT_ANCS_APP_ATTR_COUNT) c in
    let c := on_parse (set_current_app_id_index 0) c in
    Ok (c, BT_ANCS_PARSE_STATE_APP_ID, index + 1)
  else Ok (c, BT_ANCS_PARSE_STATE_DONE, index + 1).

Definition notif_uid_parse (c : bt_ancs_client) (data : list Z) (index : Z) : res pstep :=
  let* bs := rd_block data index 4 in
  Ok (on_response (set_notif_uid (sys_get_le32 bs)) c, BT_ANCS_PARSE_STATE_ATTR_ID, index + 4).

Definition app_id_parse (c : bt_ancs_client) (data : list Z) (index : Z) : res pstep :=
  let i := current_app_id_index (parse_info c) in
  if zlen (app_id (attr_response c)) <=? i then Ok (c, BT_ANCS_PARSE_STATE_DONE, index) else
  let* b := rd data index in
  let* a := wr (app_id (attr_response c)) i b in
  let c := on_response (set_app_id a) c in
  if negb (b =? 0) then Ok (on_parse (set_current_app_id_index (u32 (i + 1))) c, BT_ANCS_PARSE_STATE_APP_ID, index + 1)
  else Ok (c, BT_ANCS_PARSE_STATE_ATTR_ID, index + 1).

Definition attr_id_parse (c : bt_ancs_client) (data : list Z) (index : Z) : res pstep :=
  let* b := rd data index in
  let c := on_response (set_attr_id b) c in
  if attr_count (parse_info c) <=? b then Ok (c, BT_ANCS_PARSE_STATE_DONE, index + 1) else
  let* e := cur_entry c in
  let c := on_response (set_attr_data (l_attr_data e)) c in
  if all_req_attrs_parsed c then Ok (c, BT_ANCS_PARSE_STATE_DONE, index + 1) else
  let* requested := attr_is_requested c in
  let c := if requested : bool
           then on_parse (set_expected_number_of_attrs (u32 (expected_number_of_attrs (parse_info c) - 1))) c else c in
  Ok (c, BT_ANCS_PARSE_STATE_ATTR_LEN1, index + 1).

Definition attr_len1_parse (c : bt_ancs_client) (data : list Z) (index : Z) : res pstep :=
  let* b := rd data index in
  Ok (on_response (set_attr_len b) c, BT_ANCS_PARSE_STATE_ATTR_LEN2, index + 1).

(** The end of an attribute. *)
Definition attr_end (c : bt_ancs_client) (index : Z) : res pstep :=
  let* requested := attr_is_requested c in
  let c := if requested : bool then bt_ancs_do_ds_notif_cb c else c in
  Ok (c, if all_req_attrs_parsed c then BT_ANCS_PARSE_STATE_DONE else BT_ANCS_PARSE_STATE_ATTR_ID, index).

Definition attr_len2_parse (c : bt_ancs_client) (data : list Z) (index : Z) : res pstep :=
  let* b := rd data index in
  let c := on_response (set_attr_len (u16 (Z.lor (attr_len (attr_response c)) (Z.shiftl b 8)))) c in
  let c := on_parse (set_current_attr_index 0) c in
  if negb (attr_len (attr_response c) =? 0) then
    let* e := cur_entry c in
    if (l_attr_len e =? 0) || bool_decide (l_attr_data e = None) then Ok (c, BT_ANCS_PARSE_STATE_ATTR_SKIP, index + 1)
    else Ok (c, BT_ANCS_PARSE_STATE_ATTR_DATA, index + 1)
  else attr_end c (index + 1).

(** The part of the function for data that follows the copying. *)
Definition attr_data_next (c : bt_ancs_client) (e : bt_ancs_attr_list) (index : Z) : res pstep :=
  let len := attr_len (attr_response c) in
  let i := current_attr_index (parse_info c) in
  if (i =? len) || (i =? l_attr_len e - 1) then
    let* requested := attr_is_requested c in
    let* c := if requested : bool then buf_wr c (attr_data (attr_response c)) i 0 else Ok c in
    if i <? len then Ok (c, BT_ANCS_PARSE_STATE_ATTR_SKIP, index) else attr_end c index
  else Ok (c, BT_ANCS_PARSE_STATE_ATTR_DATA, index).

Definition attr_data_parse (c : bt_ancs_client) (data : list Z) (index : Z) : res pstep :=
  let* e := cur_entry c in
  if (current_attr_index (parse_info c) <? l_attr_len e) && (current_attr_index (parse_info c) <? attr_len (attr_response c)) then
    let* b := rd data index in
    let* c := buf_wr c (attr_data (attr_response c)) (current_attr_index (parse_info c)) b in
    attr_data_next (on_parse (set_current_attr_index (u16 (current_attr_index (parse_info c) + 1))) c) e (index + 1)
  else attr_data_next c e index.

Definition attr_skip (c : bt_ancs_client) (data : list Z) (index : Z) : res pstep :=
  let len := attr_len (attr_response c) in
  let '(c, index) :=
    if current_attr_index (parse_info c) <? len
    then (on_parse (set_current_attr_index (u16 (current_attr_index (parse_info c) + 1))) c, index + 1) else (c, index) in
  if current_attr_index (parse_info c) =? len then attr_end c index
  else Ok (c, BT_ANCS_PARSE_STATE_ATTR_SKIP, index).

(** One round of the loop of the parser. *)
Definition parse_round (c : bt_ancs_client) (data : list Z) (index : Z) : res pstep :=
  match parse_state (parse_info c) with
  | BT_ANCS_PARSE_STATE_COMMAND_ID => command_id_parse c data index
  | BT_ANCS_PARSE_STATE_NOTIF_UID => notif_uid_parse c data index
  | BT_ANCS_PARSE_STATE_APP_ID => app_id_parse c data index
  | BT_ANCS_PARSE_STATE_ATTR_ID => attr_id_parse c data index
  | BT_ANCS_PARSE_STATE_ATTR_LEN1 => attr_len1_parse c data index
  | BT_ANCS_PARSE_STATE_ATTR_LEN2 => attr_len2_parse c data index
  | BT_ANCS_PARSE_STATE_ATTR_DATA => attr_data_parse c data index
  | BT_ANCS_PARSE_STATE_ATTR_SKIP => attr_skip c data index
  | BT_ANCS_PARSE_STATE_DONE => Ok (c, BT_ANCS_PARSE_STATE_DONE, zlen data)
  end.

Fixpoint parse_loop (fuel : nat) (c : bt_ancs_client) (data : list Z) (index : Z) : res bt_ancs_client :=
  if index <? zlen data then
    match fuel with
    | O => NoFuel
    | S fuel =>
      let* '(c, st, index) := parse_round c data index in
      parse_loop fuel (on_parse (set_parse_state st) c) data index
    end
  else Ok c.

Definition bt_ancs_parse_get_attrs_response (c : bt_ancs_client) (data : list Z) : res bt_ancs_client :=
  parse_loop (length data + 2) c data 0.

(** ** Notifications *)

Definition bt_ancs_verify_notification_format (notif : bt_ancs_evt_notif) : Z :=
  if (BT_ANCS_EVT_ID_COUNT <=? evt_id notif) || (BT_ANCS_CATEGORY_ID_COUNT <=? category_id notif)
  then - errno_num EINVAL else 0.

Definition no_notif : bt_ancs_evt_notif :=
  {| n_notif_uid := 0; evt_id := 0; silent := 0; important := 0; pre_existing := 0; positive_action := 0;
     negative_action := 0; category_id := 0; category_count := 0 |}.

Definition parse_notif (c : bt_ancs_client) (data : list Z) : res bt_ancs_client :=
  if negb (zlen data =? BT_ANCS_NOTIF_DATA_LENGTH) then Ok (bt_ancs_do_ns_notif_cb c (- errno_num EINVAL) no_notif) else
  let* id := rd data 0 in
  let* flags := rd data 1 in
  let* category := rd data 2 in
  let* count := rd data 3 in
  let* uid := rd_block data 4 4 in
  let flag n := Z.land (Z.shiftr flags n) 0x01 in
  let notif := {| n_notif_uid := sys_get_le32 uid; evt_id := id; silent := flag 0; important := flag 1;
                  pre_existing := flag 2; positive_action := flag 3; negative_action := flag 4;
                  category_id := category; category_count := count |} in
  Ok (bt_ancs_do_ns_notif_cb c (bt_ancs_verify_notification_format notif) notif).

Definition on_received_ns (c : bt_ancs_client) (data : list Z) : res (bt_ancs_client * iter) :=
  let* c := parse_notif c data in Ok (c, BT_GATT_ITER_CONTINUE).

Definition on_received_ds (c : bt_ancs_client) (data : list Z) : res (bt_ancs_client * iter) :=
  let* c := bt_ancs_parse_get_attrs_response c data in Ok (c, BT_GATT_ITER_CONTINUE).

(** ** Set-up *)

Definition no_attr : bt_ancs_attr_list := {| get := false; l_attr_len := 0; l_attr_data := None |}.

(** The client is cleared; the memory of the user and the calls so far are not
    part of it. *)
Definition bt_ancs_client_init (c : bt_ancs_client) : bt_ancs_client :=
  {| c_conn := None; ns_enabled := false; ds_enabled := false; cp_pending := false;
     handle_cp := 0; handle_ns := 0; handle_ns_ccc := 0; handle_ds := 0; handle_ds_ccc := 0;
     cp_write_cb := None; cp_data := replicate (Z.to_nat CP_BUFF_SIZE) 0; ns_notif_cb := None; ds_notif_cb := None;
     ancs_notif_attr_list := replicate (Z.to_nat BT_ANCS_NOTIF_ATTR_COUNT) no_attr;
     ancs_app_attr_list := replicate (Z.to_nat BT_ANCS_APP_ATTR_COUNT) no_attr;
     number_of_requested_attr := 0;
     parse_info := {| attr_list := None; attr_count := 0; expected_number_of_attrs := 0;
                      parse_state := BT_ANCS_PARSE_STATE_COMMAND_ID; p_command_id := 0; current_attr_index := 0;
                      current_app_id_index := 0 |};
     attr_response := {| r_command_id := 0; attr_len := 0; attr_id := 0; attr_data := None; notif_uid := 0;
                         app_id := replicate (Z.to_nat BT_ANCS_ATTR_DATA_MAX) 0 |};
     bufs := bufs c; calls := calls c |}.

Definition ancs_reinit (c : bt_ancs_client) : bt_ancs_client :=
  let c := set_handle_ds_ccc 0 (set_handle_ds 0 (set_handle_ns_ccc 0 (set_handle_ns 0 (set_handle_cp 0 (set_c_conn None c))))) in
  set_cp_pending false (set_ds_enabled false (set_ns_enabled false c)).

Definition uuid128 (v : Z) : bt_uuid := {| u_type := BT_UUID_TYPE_128; u_val := v |}.
Definition BT_UUID_ANCS : bt_uuid := uuid128 0x7905f431b5ce4e99a40f4b1e122d00d0.
Definition BT_UUID_ANCS_NOTIFICATION_SOURCE : bt_uuid := uuid128 0x9fbf120d630142d98c5825e699a21dbd.
Definition BT_UUID_ANCS_CONTROL_POINT : bt_uuid := uuid128 0x69d1d8f345e149a898219bbdfdaad9d9.
Definition BT_UUID_ANCS_DATA_SOURCE : bt_uuid := uuid128 0x22eac6e924d64bb5be44b36ace7c7bfb.

(** The handle of an attribute with the UUID [du] of the characteristic. *)
Definition desc_handle (d : bt_gatt_dm) (chrc : nat) (du : bt_uuid) : res (option Z) :=
  let* desc := bt_gatt_dm_desc_by_uuid d chrc du in
  match desc with
  | None => Ok None
  | Some i => let* a := attr_at d i in Ok (Some (d_handle a))
  end.

Definition bt_ancs_handles_assign (d : bt_gatt_dm) (c : bt_ancs_client) : res (bt_ancs_client * Z) :=
  let einval c := Ok (c, - errno_num EINVAL) in
  let* svc := bt_gatt_dm_service_get d in
  let* val := service_val_of svc in
  match sv_uuid val with
  | None => Fault
  | Some u =>
    if ctrue (bt_uuid_cmp u BT_UUID_ANCS) then Ok (c, - errno_num ENOTSUP) else
    let c := ancs_reinit c in
    let* chrc := bt_gatt_dm_char_by_uuid d BT_UUID_ANCS_CONTROL_POINT in
    match chrc with None => einval c | Some chrc =>
    let* desc := desc_handle d chrc BT_UUID_ANCS_CONTROL_POINT in
    match desc with None => einval c | Some h =>
    let c := set_handle_cp h c in
    let* chrc := bt_gatt_dm_char_by_uuid d BT_UUID_ANCS_NOTIFICATION_SOURCE in
    match chrc with None => einval c | Some chrc =>
    let* desc := desc_handle d chrc BT_UUID_ANCS_NOTIFICATION_SOURCE in
    match desc with None => einval c | Some h =>
    let c := set_handle_ns h c in
    let* desc := desc_handle d chrc BT_UUID_GATT_CCC in
    match desc with None => einval c | Some h =>
    let c := set_handle_ns_ccc h c in
    let* chrc := bt_gatt_dm_char_by_uuid d BT_UUID_ANCS_DATA_SOURCE in
    match chrc with None => einval c | Some chrc =>
    let* desc := desc_handle d chrc BT_UUID_ANCS_DATA_SOURCE in
    match desc with None => einval c | Some h =>
    let c := set_handle_ds h c in
    let* desc := desc_handle d chrc BT_UUID_GATT_CCC in
    match desc with None => einval c | Some h =>
    let c := set_handle_ds_ccc h c in
    Ok (set_c_conn (bt_gatt_dm_conn_get d) c, 0)
    end end end end end end end end
  end.

(** Subscriptions; [err] is what the stack returns. *)
Definition bt_ancs_subscribe_notification_source (c : bt_ancs_client) (func : option Z) (err : Z) : bt_ancs_client * Z :=
  match func with
  | None => (c, - errno_num EINVAL)
  | Some _ =>
    if ns_enabled c then (c, - errno_num EALREADY) else
    let c := set_ns_notif_cb func (set_ns_enabled true c) in
    let c := call (GattSubscribe (handle_ns c) (handle_ns_ccc c)) c in
    (if ctrue err then set_ns_enabled false c else c, err)
  end.

Definition bt_ancs_subscribe_data_source (c : bt_ancs_client) (func : option Z) (err : Z) : bt_ancs_client * Z :=
  match func with
  | None => (c, - errno_num EINVAL)
  | Some _ =>
    if ds_enabled c then (c, - errno_num EALREADY) else
    let c := set_ds_notif_cb func (set_ds_enabled true c) in
    let c := call (GattSubscribe (handle_ds c) (handle_ds_ccc c)) c in
    (if ctrue err then set_ds_enabled false c else c, err)
  end.

Definition bt_ancs_unsubscribe_notification_source (c : bt_ancs_client) (err : Z) : bt_ancs_client * Z :=
  if negb (ns_enabled c) then (c, - errno_num EFAULT) else
  let c := call (GattUnsubscribe (handle_ns c) (handle_ns_ccc c)) c in
  (if ctrue err then c else set_ns_enabled false c, err).

Definition bt_ancs_unsubscribe_data_source (c : bt_ancs_client) (err : Z) : bt_ancs_client * Z :=
  if negb (ds_enabled c) then (c, - errno_num EFAULT) else
  let c := call (GattUnsubscribe (handle_ds c) (handle_ds_ccc c)) c in
  (if ctrue err then c else set_ds_enabled false c, err).

(** ** Control Point *)

(** The first octets of the buffer become [bs]. *)
Definition put_cp (bs : list Z) (c : bt_ancs_client) : res bt_ancs_client :=
  let* data := wr_block (cp_data c) 0 bs in Ok (set_cp_data data c).

Definition bt_ancs_cp_write_callback (c : bt_ancs_client) (err : Z) : bt_ancs_client :=
  let write_cb := cp_write_cb c in
  let c := set_cp_pending false c in
  match write_cb with Some f => call (WriteDone f err) c | None => c end.

Definition bt_ancs_cp_write (c : bt_ancs_client) (len : Z) (func : option Z) (err : Z) : bt_ancs_client * Z :=
  let c := set_cp_write_cb func c in
  let c := call (GattWrite (handle_cp c) (take (Z.to_nat len) (cp_data c))) c in
  (if ctrue err then set_cp_pending false c else c, err).

Definition encode_notif_action (uid action_id : Z) : list Z :=
  [BT_ANCS_COMMAND_ID_PERFORM_NOTIF_ACTION] ++ sys_put_le32 uid ++ [u8 action_id].

Definition bt_ancs_notification_action (c : bt_ancs_client) (uuid action_id : Z) (func : option Z) (err : Z) :
    res (bt_ancs_client * Z) :=
  if cp_pending c then Ok (c, - errno_num EBUSY) else
  let c := set_cp_pending true c in
  let bs := encode_notif_action uuid action_id in
  let* c := put_cp bs c in
  Ok (bt_ancs_cp_write c (zlen bs) func err).

(** What is asked for the attributes from [attr] on. *)
Fixpoint encode_attrs (l : list bt_ancs_attr_list) (attr : Z) : list Z * Z :=
  match l with
  | [] => ([], 0)
  | e :: l =>
    let '(bs, n) := encode_attrs l (attr + 1) in
    if get e then
      (attr :: (if (attr =? BT_ANCS_NOTIF_ATTR_ID_TITLE) || (attr =? BT_ANCS_NOTIF_ATTR_ID_SUBTITLE)
                   || (attr =? BT_ANCS_NOTIF_ATTR_ID_MESSAGE) then sys_put_le16 (l_attr_len e) else []) ++ bs, n + 1)
    else (bs, n)
  end.

Definition bt_ancs_get_notif_attrs (c : bt_ancs_client) (uid : Z) (func : option Z) (err : Z) : res (bt_ancs_client * Z) :=
  if cp_pending c then Ok (c, - errno_num EBUSY) else
  let c := set_cp_pending true c in
  let '(bs, n) := encode_attrs (ancs_notif_attr_list c) 0 in
  let bs := [BT_ANCS_COMMAND_ID_GET_NOTIF_ATTRIBUTES] ++ sys_put_le32 uid ++ bs in
  let* c := put_cp bs c in
  let c := set_number_of_requested_attr n c in
  let c := on_parse (set_expected_number_of_attrs n) c in
  Ok (bt_ancs_cp_write c (zlen bs) func err).

Definition bt_ancs_request_attrs (c : bt_ancs_client) (notif : bt_ancs_evt_notif) (func : option Z) (err : Z) :
    res (bt_ancs_client * Z) :=
  let bad := bt_ancs_verify_notification_format notif in
  if ctrue bad then Ok (c, bad) else
  let c := on_parse (set_parse_state BT_ANCS_PARSE_STATE_COMMAND_ID) c in
  bt_ancs_get_notif_attrs c (n_notif_uid notif) func err.

Definition bt_ancs_register_attr (c : bt_ancs_client) (id : Z) (data : option nat) (len : Z) : bt_ancs_client * Z :=
  if bool_decide (data = None) then (c, - errno_num EINVAL) else
  if (len =? 0) || (BT_ANCS_ATTR_DATA_MAX <? len) then (c, - errno_num EINVAL) else
  if (id <? 0) || (BT_ANCS_NOTIF_ATTR_COUNT <=? id) then (c, - errno_num EINVAL) else
  let e := {| get := true; l_attr_len := len; l_attr_data := data |} in
  (set_ancs_notif_attr_list (<[Z.to_nat id := e]> (ancs_notif_attr_list c)) c, 0).

Definition bt_ancs_register_app_attr (c : bt_ancs_client) (id : Z) (data : option nat) (len : Z) : bt_ancs_client * Z :=
  if bool_decide (data = None) then (c, - errno_num EINVAL) else
  if (len =? 0) || (BT_ANCS_ATTR_DATA_MAX <? len) then (c, - errno_num EINVAL) else
  if (id <? 0) || (BT_ANCS_APP_ATTR_COUNT <=? id) then (c, - errno_num EINVAL) else
  let e := {| get := true; l_attr_len := len; l_attr_data := data |} in
  (set_ancs_app_attr_list (<[Z.to_nat id := e]> (ancs_app_attr_list c)) c, 0).

(** ** Attributes of apps *)

Inductive encode_app_attr :=
  APP_ATTR_COMMAND_ID | APP_ATTR_APP_ID | APP_ATTR_ATTR_ID | APP_ATTR_DONE | APP_ATTR_ABORT.

(** Appending to a buffer that has too little room writes outside it. *)
Definition nb_add (b : net_buf_simple) (bs : list Z) : res net_buf_simple :=
  if net_buf_simple_tailroom b <? zlen bs then Fault else Ok (net_buf_simple_add_mem b bs).

Definition app_attr_encode_cmd_id (b : net_buf_simple) : res (net_buf_simple * encode_app_attr) :=
  if net_buf_simple_tailroom b <? 1 then Ok (b, APP_ATTR_ABORT) else
  let* b := nb_add b [BT_ANCS_COMMAND_ID_GET_APP_ATTRIBUTES] in Ok (b, APP_ATTR_APP_ID).

Definition app_attr_encode_app_id (b : net_buf_simple) (id : list Z) (len : Z) : res (net_buf_simple * encode_app_attr) :=
  if net_buf_simple_tailroom b <? u32 (len + 1) then Ok (b, APP_ATTR_ABORT) else
  let* bs := rd_block id 0 len in
  let* b := nb_add b bs in
  let* b := nb_add b [0] in
  Ok (b, APP_ATTR_ATTR_ID).

Fixpoint encode_app_ids (l : list bt_ancs_attr_list) (i : Z) (b : net_buf_simple) (n : Z) :
    res (net_buf_simple * Z * encode_app_attr) :=
  match l with
  | [] => Ok (b, n, APP_ATTR_DONE)
  | e :: l =>
    if get e then
      if net_buf_simple_tailroom b <? 1 then Ok (b, n, APP_ATTR_ABORT) else
      let* b := nb_add b [u8 i] in encode_app_ids l (i + 1) b (n + 1)
    else encode_app_ids l (i + 1) b n
  end.

Definition app_attr_encode_attr_id (c : bt_ancs_client) (b : net_buf_simple) :
    res (bt_ancs_client * net_buf_simple * encode_app_attr) :=
  let* '(b, n, st) := encode_app_ids (ancs_app_attr_list c) 0 b 0 in
  Ok (set_number_of_requested_attr n c, b, st).

(** The states of the encoder follow each other, so that three rounds are enough. *)
Fixpoint app_attr_loop (fuel : nat) (c : bt_ancs_client) (b : net_buf_simple) (id : list Z) (len : Z) (st : encode_app_attr) :
    res (bt_ancs_client * net_buf_simple * encode_app_attr) :=
  match st with
  | APP_ATTR_DONE | APP_ATTR_ABORT => Ok (c, b, st)
  | _ =>
    match fuel with
    | O => NoFuel
    | S fuel =>
      let* '(c, b, st) :=
        match st with
        | APP_ATTR_COMMAND_ID => let* '(b, st) := app_attr_encode_cmd_id b in Ok (c, b, st)
        | APP_ATTR_APP_ID => let* '(b, st) := app_attr_encode_app_id b id len in Ok (c, b, st)
        | _ => app_attr_encode_attr_id c b
        end in
      app_attr_loop fuel c b id len st
    end
  end.

Definition app_attr_get (c : bt_ancs_client) (id : list Z) (len : Z) (func : option Z) (err : Z) : res (bt_ancs_client * Z) :=
  if cp_pending c then Ok (c, - errno_num EBUSY) else
  let c := set_cp_pending true c in
  let* '(c, b, st) := app_attr_loop 3 c (net_buf_simple_init_with_data (zlen (cp_data c))) id len APP_ATTR_COMMAND_ID in
  let* c := put_cp (nb_data b) c in
  match st with
  | APP_ATTR_DONE =>
    let '(c, err) := bt_ancs_cp_write c (zlen (nb_data b)) func err in
    Ok (on_parse (set_expected_number_of_attrs (number_of_requested_attr c)) c, err)
  | _ => Ok (c, - errno_num ENOMEM)
  end.

Definition bt_ancs_app_attr_request (c : bt_ancs_client) (id : list Z) (len : Z) (func : option Z) (err : Z) :
    res (bt_ancs_client * Z) :=
  if len =? 0 then Ok (c, - errno_num EINVAL) else
  app_attr_get (on_parse (set_parse_state BT_ANCS_PARSE_STATE_COMMAND_ID) c) id len func err.

Definition bt_ancs_request_app_attr (c : bt_ancs_client) (id : list Z) (len : Z) (func : option Z) (err : Z) :
    res (bt_ancs_client * Z) := bt_ancs_app_attr_request c id len func err.

End Ancs.
