(* ===== verification/AncsSpec.v ===== *)
(** * Correctness of the parser of the notification service

    Pieces of a response are parsed as the whole response is; no data of the peer
    makes the parser leave its buffers or loop; the attributes of a response are
    reported with their data. *)

From stdpp Require Import prelude list.
From Stdlib Require Import ZArith Lia.
From S2P Require Import Prelude GattDm Ancs.

Open Scope Z_scope.

(** ** Pieces of a response *)

Section Pieces.
Context {LE : LittleEndian} {NB : NetBuf} {AC : AncsConfig}.

(** A round that does not end the parsing reads only at the index. *)
Lemma rd_app_l a b i : i < zlen a -> rd (a ++ b) i = rd a i.
Proof. intros Hi. unfold rd. destruct (Z.ltb_spec i 0); [done|]. by rewrite lookup_app_l by lia. Qed.

Lemma rd_block_app_l a b i n : i + n <= zlen a -> rd_block (a ++ b) i n = rd_block a i n.
Proof.
  intros Hi. unfold rd_block. destruct (Z.ltb_spec i 0), (Z.ltb_spec n 0); try done. cbn [orb].
  rewrite length_app. destruct (Z.ltb_spec (zlen a) (i + n)); [lia|].
  destruct (Z.ltb_spec (Z.of_nat (length a + length b)) (i + n)); [lia|].
  rewrite drop_app_le, take_app_le by (rewrite ?length_drop; lia). done.
Qed.

Lemma rd_app_r a b i : 0 <= i -> rd (a ++ b) (zlen a + i) = rd b i.
Proof.
  intros Hi. unfold rd. destruct (Z.ltb_spec (zlen a + i) 0), (Z.ltb_spec i 0); try lia.
  rewrite lookup_app_r by lia. by replace (Z.to_nat (zlen a + i) - length a)%nat with (Z.to_nat i) by lia.
Qed.

Lemma rd_block_app_r a b i n : 0 <= i -> 0 <= n -> rd_block (a ++ b) (zlen a + i) n = rd_block b i n.
Proof.
  intros Hi Hn. unfold rd_block. destruct (Z.ltb_spec (zlen a + i) 0), (Z.ltb_spec i 0), (Z.ltb_spec n 0); try lia. cbn [orb].
  rewrite length_app. destruct (Z.ltb_spec (zlen b) (i + n)), (Z.ltb_spec (Z.of_nat (length a + length b)) (zlen a + i + n)); try lia; [done|].
  rewrite drop_app_ge by lia. by replace (Z.to_nat (zlen a + i) - length a)%nat with (Z.to_nat i) by lia.
Qed.

Definition shift (n : Z) (r : res pstep) : res pstep := let* '(c, st, i) := r in Ok (c, st, n + i).

Lemma attr_end_shift c n i : attr_end c (n + i) = shift n (attr_end c i).
Proof. unfold attr_end, shift. by destruct (attr_is_requested c). Qed.

Lemma shift_bind {A} n (m : res A) f : shift n (let* x := m in f x) = let* x := m in shift n (f x).
Proof. by destruct m. Qed.

Lemma data_next_shift c e n i : attr_data_next c e (n + i) = shift n (attr_data_next c e i).
Proof.
  unfold attr_data_next. destruct (_ || _); [|done]. rewrite shift_bind. destruct (attr_is_requested c) as [r| | |]; cbn [mbind res_bind]; [|done..].
  rewrite shift_bind. destruct r; [destruct (buf_wr _ _ _ _)|]; cbn [mbind res_bind]; try done; (destruct (_ <? _); [done|apply attr_end_shift]).
Qed.

(** Behind the data [a], the parser does on [b] what it does on [b] alone. *)
Lemma round_shift a b c i :
  0 <= i -> parse_round c (a ++ b) (zlen a + i) = shift (zlen a) (parse_round c b i).
Proof.
  intros Hi. unfold parse_round. destruct (parse_state (parse_info c)).
  - unfold command_id_parse. rewrite rd_app_r, shift_bind by done. destruct (rd b i); cbn; [|done..].
    repeat case_match; cbn; by rewrite ?Z.add_assoc.
  - unfold notif_uid_parse. rewrite rd_block_app_r, shift_bind by lia. destruct (rd_block b i 4); cbn; by rewrite ?Z.add_assoc.
  - unfold app_id_parse. destruct (_ <=? _); [done|]. rewrite rd_app_r, shift_bind by done. destruct (rd b i); cbn; [|done..].
    rewrite shift_bind. destruct (wr _ _ _); cbn; [|done..]. destruct (negb _); cbn; by rewrite ?Z.add_assoc.
  - unfold attr_id_parse. rewrite rd_app_r, shift_bind by done. destruct (rd b i); cbn [mbind res_bind]; [|done..].
    destruct (_ <=? _); [cbn; by rewrite ?Z.add_assoc|]. rewrite shift_bind. destruct (cur_entry _); cbn [mbind res_bind]; [|done..].
    destruct (all_req_attrs_parsed _); [cbn; by rewrite ?Z.add_assoc|]. rewrite shift_bind.
    destruct (attr_is_requested _); cbn [mbind res_bind]; [|done..]. cbn; by rewrite ?Z.add_assoc.
  - unfold attr_len1_parse. rewrite rd_app_r, shift_bind by done. destruct (rd b i); cbn; by rewrite ?Z.add_assoc.
  - unfold attr_len2_parse. rewrite rd_app_r, shift_bind by done. destruct (rd b i); cbn [mbind res_bind]; [|done..].
    destruct (negb _); [|rewrite <- Z.add_assoc; apply attr_end_shift]. rewrite shift_bind.
    destruct (cur_entry _); cbn [mbind res_bind]; [|done..]. destruct (_ || _); cbn; by rewrite ?Z.add_assoc.
  - unfold attr_data_parse. rewrite shift_bind. destruct (cur_entry c) as [e| | |]; cbn [mbind res_bind]; [|done..].
    destruct (_ && _); [|apply data_next_shift]. rewrite rd_app_r, shift_bind by done.
    destruct (rd b i); cbn [mbind res_bind]; [|done..]. rewrite shift_bind. destruct (buf_wr _ _ _ _); cbn [mbind res_bind]; [|done..].
    rewrite <- Z.add_assoc. apply data_next_shift.
  - unfold attr_skip. destruct (_ <? _); [rewrite <- Z.add_assoc|]; (destruct (_ =? _); [apply attr_end_shift|done]).
  - cbn. rewrite length_app. do 3 f_equal. lia.
Qed.

(** A round at an index within [a] does not depend on what follows, if it does
    not end the parsing and the notification UID is not split. *)
Lemma round_prefix a b c i :
  i < zlen a -> parse_state (parse_info c) <> BT_ANCS_PARSE_STATE_DONE ->
  (parse_state (parse_info c) = BT_ANCS_PARSE_STATE_NOTIF_UID -> i + 4 <= zlen a) ->
  parse_round c (a ++ b) i = parse_round c a i.
Proof.
  intros Hi Hd Hu. unfold parse_round. destruct (parse_state (parse_info c)); try done.
  all: unfold command_id_parse, notif_uid_parse, app_id_parse, attr_id_parse, attr_len1_parse, attr_len2_parse, attr_data_parse, attr_skip.
  all: by rewrite ?rd_app_l, ?rd_block_app_l by (done || auto).
Qed.

Lemma parse_loop_more fuel fuel' c data i c' :
  parse_loop fuel c data i = Ok c' -> (fuel <= fuel')%nat -> parse_loop fuel' c data i = Ok c'.
Proof.
  revert fuel' c i. induction fuel as [|fuel IH]; intros fuel' c i E Hf.
  - cbn in E. destruct fuel'; cbn; destruct (_ <? _); done.
  - destruct fuel' as [|fuel']; [lia|]. cbn [parse_loop] in *. destruct (_ <? _); [|done].
    apply bind_Ok_inv in E as ([[c1 st] j] & -> & E). cbn [mbind res_bind]. apply IH; [done|lia].
Qed.

Lemma attr_end_index c i c' st j : attr_end c i = Ok (c', st, j) -> j = i.
Proof. intros E. unfold attr_end in E. apply bind_Ok_inv in E as (r & _ & E). by injection E as _ _ <-. Qed.

Lemma data_next_index c e i c' st j : attr_data_next c e i = Ok (c', st, j) -> j = i.
Proof.
  unfold attr_data_next. destruct (_ || _); [|by intros [= _ _ <-]]. intros E. apply bind_Ok_inv in E as (r & _ & E).
  apply bind_Ok_inv in E as (c1 & _ & E). destruct (_ <? _); [by injection E as _ _ <-|by eapply attr_end_index].
Qed.

Lemma rd_block_within m i n bs : rd_block m i n = Ok bs -> i + n <= zlen m.
Proof.
  unfold rd_block. destruct (_ <? _); [done|]. destruct (_ <? _); [done|]. cbn [orb]. destruct (Z.ltb_spec (zlen m) (i + n)); [done|lia].
Qed.

(** The index does not go back, and stays within the data. *)
Lemma round_index c data i c' st j :
  i < zlen data -> parse_round c data i = Ok (c', st, j) -> i <= j <= zlen data.
Proof.
  intros Hi. unfold parse_round. destruct (parse_state (parse_info c)); intros E.
  - apply bind_Ok_inv in E as (b & _ & E). repeat case_match; injection E as _ _ <-; lia.
  - apply bind_Ok_inv in E as (b & Eb & E). apply rd_block_within in Eb. injection E as _ _ <-. lia.
  - unfold app_id_parse in E. destruct (_ <=? _); [injection E as _ _ <-; lia|]. apply bind_Ok_inv in E as (b & _ & E).
    apply bind_Ok_inv in E as (x & _ & E). destruct (negb _); injection E as _ _ <-; lia.
  - apply bind_Ok_inv in E as (b & _ & E). destruct (_ <=? _); [injection E as _ _ <-; lia|].
    apply bind_Ok_inv in E as (e & _ & E). destruct (all_req_attrs_parsed _); [injection E as _ _ <-; lia|].
    apply bind_Ok_inv in E as (x & _ & E). injection E as _ _ <-. lia.
  - apply bind_Ok_inv in E as (b & _ & E). injection E as _ _ <-. lia.
  - apply bind_Ok_inv in E as (b & _ & E). destruct (negb _); [|apply attr_end_index in E; lia].
    apply bind_Ok_inv in E as (e & _ & E). destruct (_ || _); injection E as _ _ <-; lia.
  - apply bind_Ok_inv in E as (e & _ & E). destruct (_ && _); [|apply data_next_index in E; lia].
    apply bind_Ok_inv in E as (b & _ & E). apply bind_Ok_inv in E as (x & _ & E). apply data_next_index in E. lia.
  - unfold attr_skip in E. destruct (_ <? _); (destruct (_ =? _); [apply attr_end_index in E|injection E as _ _ <-]); lia.
  - injection E as _ _ <-. lia.
Qed.

Lemma parse_loop_shift fuel a b c i :
  0 <= i -> parse_loop fuel c (a ++ b) (zlen a + i) = parse_loop fuel c b i.
Proof.
  revert c i. induction fuel as [|fuel IH]; intros c i Hi; cbn [parse_loop]; rewrite length_app.
  - destruct (Z.ltb_spec (zlen a + i) (Z.of_nat (length a + length b))), (Z.ltb_spec i (zlen b)); done || lia.
  - destruct (Z.ltb_spec (zlen a + i) (Z.of_nat (length a + length b))), (Z.ltb_spec i (zlen b)); try done; try lia.
    rewrite round_shift by done. destruct (parse_round c b i) as [[[c1 st] j]| | |] eqn:E; cbn; [|done..].
    apply IH. apply round_index in E; lia.
Qed.

Lemma done_stays c : parse_state (parse_info c) = BT_ANCS_PARSE_STATE_DONE -> on_parse (set_parse_state BT_ANCS_PARSE_STATE_DONE) c = c.
Proof. destruct c as [????????????????[] ???]. cbn. by intros ->. Qed.

Lemma done_loop fuel c data c' :
  parse_state (parse_info c) = BT_ANCS_PARSE_STATE_DONE -> parse_loop fuel c data 0 = Ok c' -> c' = c.
Proof.
  intros Hd. destruct fuel as [|fuel]; cbn [parse_loop]; (destruct (_ <? _); [|by intros [= <-]]); [done|].
  unfold parse_round. rewrite Hd. cbn [mbind res_bind]. rewrite done_stays by done.
  destruct fuel; cbn [parse_loop]; rewrite Z.ltb_irrefl; by intros [= <-].
Qed.

(** Two pieces are parsed one after the other as both at once. *)
Lemma parse_pieces f1 f2 c a b i c1 c2 :
  0 <= i <= zlen a -> parse_loop f1 c a i = Ok c1 -> parse_loop f2 c1 b 0 = Ok c2 ->
  parse_loop (f1 + f2) c (a ++ b) i = Ok c2.
Proof.
  revert c i. induction f1 as [|f1 IH]; intros c i Hi E1 E2.
  - cbn in E1. destruct (Z.ltb_spec i (zlen a)); [done|]. injection E1 as <-. replace i with (zlen a + 0) by lia.
    by rewrite parse_loop_shift.
  - cbn [parse_loop] in E1. destruct (Z.ltb_spec i (zlen a)) as [Hlt|].
    2:{ injection E1 as <-. replace i with (zlen a + 0) by lia. rewrite parse_loop_shift by lia. eapply parse_loop_more; [done|lia]. }
    apply bind_Ok_inv in E1 as ([[c' st] j] & Er & E1). cbn [Nat.add parse_loop]. rewrite length_app.
    destruct (Z.ltb_spec i (Z.of_nat (length a + length b))); [|lia].
    destruct (decide (parse_state (parse_info c) = BT_ANCS_PARSE_STATE_DONE)) as [Hd|Hd].
    + unfold parse_round in *. rewrite Hd in *. injection Er as <- <- <-. cbn [mbind res_bind]. rewrite done_stays in * by done.
      assert (c1 = c) as -> by (destruct f1; cbn in E1; rewrite Z.ltb_irrefl in E1; by injection E1).
      apply done_loop in E2; [|done]. subst. destruct (f1 + f2)%nat; cbn [parse_loop]; by rewrite Z.ltb_irrefl.
    + rewrite round_prefix; [|done..|].
      * rewrite Er. cbn [mbind res_bind]. apply IH; [|done..]. apply round_index in Er; lia.
      * intros Hu. unfold parse_round, notif_uid_parse in Er. rewrite Hu in Er. apply bind_Ok_inv in Er as (bs & Eb & _).
        by apply rd_block_within in Eb.
Qed.

End Pieces.

(** ** Any data of the peer *)

(** An attribute that is registered has a buffer of at least the length that was
    given, which is more than one octet. *)
Definition entry_ok (m : list (list Z)) (e : bt_ancs_attr_list) : Prop :=
  if get e then 2 <= l_attr_len e <= BT_ANCS_ATTR_DATA_MAX /\
                exists i b, l_attr_data e = Some i /\ m !! i = Some b /\ l_attr_len e <= zlen b
  else l_attr_len e = 0 /\ l_attr_data e = None.

(** The parser points to one of the lists. *)
Definition listed (c : bt_ancs_client) : Prop :=
  let p := parse_info c in
  (attr_list p = Some NotifList /\ attr_count p = BT_ANCS_NOTIF_ATTR_COUNT) \/
  (attr_list p = Some AppList /\ attr_count p = BT_ANCS_APP_ATTR_COUNT).

(** It is at an attribute, whose element of the list is [e]. *)
Definition at_attr (c : bt_ancs_client) (e : bt_ancs_attr_list) : Prop :=
  listed c /\ cur_entry c = Ok e /\ attr_data (attr_response c) = l_attr_data e.

Definition state_ok (c : bt_ancs_client) : Prop :=
  let p := parse_info c in
  let r := attr_response c in
  match parse_state p with
  | BT_ANCS_PARSE_STATE_COMMAND_ID | BT_ANCS_PARSE_STATE_DONE => True
  | BT_ANCS_PARSE_STATE_NOTIF_UID => attr_list p = Some NotifList /\ attr_count p = BT_ANCS_NOTIF_ATTR_COUNT
  | BT_ANCS_PARSE_STATE_APP_ID =>
    attr_list p = Some AppList /\ attr_count p = BT_ANCS_APP_ATTR_COUNT /\
    0 <= current_app_id_index p <= BT_ANCS_ATTR_DATA_MAX
  | BT_ANCS_PARSE_STATE_ATTR_ID => listed c
  | BT_ANCS_PARSE_STATE_ATTR_LEN1 => exists e, at_attr c e
  | BT_ANCS_PARSE_STATE_ATTR_LEN2 => (exists e, at_attr c e) /\ byte (attr_len r)
  | BT_ANCS_PARSE_STATE_ATTR_DATA =>
    exists e, at_attr c e /\ get e = true /\ 0 <= current_attr_index p < attr_len r /\
      current_attr_index p < l_attr_len e - 1 /\ attr_len r < 65536
  | BT_ANCS_PARSE_STATE_ATTR_SKIP =>
    exists e, at_attr c e /\ 0 <= current_attr_index p < attr_len r /\ attr_len r < 65536
  end.

Record base_ok (c : bt_ancs_client) : Prop := {
  co_notif : zlen (ancs_notif_attr_list c) = BT_ANCS_NOTIF_ATTR_COUNT;
  co_app : zlen (ancs_app_attr_list c) = BT_ANCS_APP_ATTR_COUNT;
  co_notif_entries : Forall (entry_ok (bufs c)) (ancs_notif_attr_list c);
  co_app_entries : Forall (entry_ok (bufs c)) (ancs_app_attr_list c);
  co_app_id : zlen (app_id (attr_response c)) = BT_ANCS_ATTR_DATA_MAX
}.
Definition client_ok (c : bt_ancs_client) : Prop := base_ok c /\ state_ok c.

Section AnyData.
Context {LE : LittleEndian} {NB : NetBuf} {AC : AncsConfig}.

Lemma cur_entry_ok c e : base_ok c -> cur_entry c = Ok e -> entry_ok (bufs c) e.
Proof.
  intros [_ _ Hn Ha _]. unfold cur_entry, list_of. destruct (attr_list _) as [[]|]; [..|done]; cbn [mbind res_bind];
    (destruct (_ !! _) eqn:El; [intros [= <-]|done]); by eapply Forall_lookup_1 in El.
Qed.

Lemma listed_entry c b :
  base_ok c -> listed c -> 0 <= b < attr_count (parse_info c) ->
  exists e, cur_entry (on_response (set_attr_id b) c) = Ok e.
Proof.
  intros [Hn Ha _ _ _] Hl Hb. unfold cur_entry, list_of. cbn.
  destruct Hl as [[-> Hc]|[-> Hc]]; rewrite Hc in Hb; cbn [mbind res_bind].
  - destruct (ancs_notif_attr_list c !! Z.to_nat b) eqn:E; [eauto|apply lookup_ge_None in E; lia].
  - destruct (ancs_app_attr_list c !! Z.to_nat b) eqn:E; [eauto|apply lookup_ge_None in E; lia].
Qed.

Lemma entry_insert m i b b' e : m !! i = Some b -> length b' = length b -> entry_ok m e -> entry_ok (<[i := b']> m) e.
Proof.
  intros Hi Hl. unfold entry_ok. destruct (get e); [|done]. intros (Hr & j & x & Hj & Hx & Hlen). split; [done|].
  destruct (decide (i = j)) as [->|]; [exists j, b'|exists j, x]; (split; [done|]).
  - rewrite list_lookup_insert_eq by (by eapply lookup_lt_Some). split; [done|]. rewrite Hx in Hi. injection Hi as <-. lia.
  - by rewrite list_lookup_insert_ne.
Qed.

Lemma base_ok_with c c' :
  base_ok c -> ancs_notif_attr_list c' = ancs_notif_attr_list c -> ancs_app_attr_list c' = ancs_app_attr_list c ->
  (forall e, entry_ok (bufs c) e -> entry_ok (bufs c') e) -> zlen (app_id (attr_response c')) = BT_ANCS_ATTR_DATA_MAX ->
  base_ok c'.
Proof. intros [H1 H2 H3 H4 H5] En Ea He Hl. split; rewrite ?En, ?Ea; try done; by eapply Forall_impl. Qed.

(** The parts of the client that count are the same. *)
Lemma base_ok_same c c' :
  base_ok c -> ancs_notif_attr_list c' = ancs_notif_attr_list c -> ancs_app_attr_list c' = ancs_app_attr_list c ->
  bufs c' = bufs c -> app_id (attr_response c') = app_id (attr_response c) -> base_ok c'.
Proof. intros Hok En Ea Eb Ei. eapply base_ok_with; [exact Hok|done..|by rewrite Eb|rewrite Ei; apply Hok]. Qed.

(** What a round achieves: progress, or the end of the parsing. *)
Definition round_done (c : bt_ancs_client) (data : list Z) (i : Z) (r : pstep) : Prop :=
  let '(c', st, j) := r in
  client_ok (on_parse (set_parse_state st) c') /\
  (i < j \/ (st = BT_ANCS_PARSE_STATE_DONE /\ parse_state (parse_info c) <> BT_ANCS_PARSE_STATE_DONE)).

Lemma attr_end_done c0 c data i j e :
  base_ok c -> at_attr c e -> i < j -> gives (attr_end c j) (round_done c0 data i).
Proof.
  intros Hok Hat Hij. pose proof Hat as (Hl & He & Hd). unfold attr_end, attr_is_requested. rewrite He. cbn [mbind res_bind].
  eexists. split; [reflexivity|]. split; [|by left].
  set (st := if all_req_attrs_parsed _ then _ else _).
  assert (Hst : st = BT_ANCS_PARSE_STATE_DONE \/ st = BT_ANCS_PARSE_STATE_ATTR_ID) by (unfold st; destruct (all_req_attrs_parsed _); tauto).
  clearbody st. unfold bt_ancs_do_ds_notif_cb.
  split.
  - destruct (get e), (ds_notif_cb c); by apply (base_ok_same c).
  - destruct (get e), (ds_notif_cb c); destruct Hst as [->| ->]; done.
Qed.

Lemma rd_gives m i : bytes m -> 0 <= i < zlen m -> gives (rd m i) byte.
Proof.
  intros Hm Hi. exists (zth m i). split; [by apply rd_Ok|]. by apply zth_Forall; [split|].
Qed.

(** The client with another content of a buffer. *)
Definition with_buf (j : nat) (b : list Z) (c : bt_ancs_client) : bt_ancs_client := set_bufs (<[j := b]> (bufs c)) c.

Lemma buf_wr_ok c p i b j v :
  p = Some j -> bufs c !! j = Some b -> 0 <= i < zlen b -> buf_wr c p i v = Ok (with_buf j (<[Z.to_nat i := v]> b) c).
Proof. intros -> Hj Hi. unfold buf_wr, buf_at. rewrite Hj. cbn [mbind res_bind]. by rewrite wr_Ok. Qed.

Lemma with_buf_base c j b b' : base_ok c -> bufs c !! j = Some b -> length b' = length b -> base_ok (with_buf j b' c).
Proof. intros Hb Hj Hl. apply (base_ok_with c); [done..| |apply Hb]. intros e. by eapply entry_insert. Qed.

(** The place of the next octet is within the buffer. *)
Lemma data_next_done c0 c data i j e :
  base_ok c -> at_attr c e -> get e = true -> i < j ->
  0 <= current_attr_index (parse_info c) <= attr_len (attr_response c) -> current_attr_index (parse_info c) <= l_attr_len e - 1 ->
  attr_len (attr_response c) < 65536 -> gives (attr_data_next c e j) (round_done c0 data i).
Proof.
  intros Hb Hat Hg Hij Hidx HidxL Hlen. pose proof Hat as (Hl & He & Hd). pose proof (cur_entry_ok c e Hb He) as Heo.
  unfold entry_ok in Heo. rewrite Hg in Heo. destruct Heo as (Hr & k & b & Hk & Hkb & Hbl). unfold attr_data_next.
  destruct (_ || _) eqn:Ec.
  - unfold attr_is_requested. rewrite He. cbn [mbind res_bind]. rewrite Hg.
    rewrite (buf_wr_ok c _ _ b k) by (congruence || lia). cbn [mbind res_bind].
    assert (Hb' : base_ok (with_buf k (<[Z.to_nat (current_attr_index (parse_info c)) := 0]> b) c))
      by (eapply with_buf_base; [done..|by rewrite length_insert]).
    destruct (Z.ltb_spec (current_attr_index (parse_info c)) (attr_len (attr_response c))).
    + eexists. split; [reflexivity|]. split; [|by left]. split; [by eapply base_ok_same|]. exists e. split; [exact Hat|]. cbn. lia.
    + eapply attr_end_done; [done|exact Hat|done].
  - apply orb_false_iff in Ec as [E1 E2]. apply Z.eqb_neq in E1, E2.
    eexists. split; [reflexivity|]. split; [|by left]. split; [by apply (base_ok_same c)|]. exists e. split; [exact Hat|]. cbn. split; [done|]. lia.
Qed.

Section Rounds.
Context (c : bt_ancs_client) (Hok : client_ok c) (data : list Z) (Hd : bytes data) (i : Z) (Hi : 0 <= i < zlen data).

Lemma command_id_done : gives (command_id_parse c data i) (round_done c data i).
Proof.
  destruct Hok as [Hb _]. eapply gives_then; [by apply rd_gives|]. intros b _.
  repeat case_match; (eexists; split; [reflexivity|]; split; [split; [by apply (base_ok_same c)|]|left; lia]); [by split|done|done].
Qed.

Lemma notif_uid_done :
  parse_state (parse_info c) = BT_ANCS_PARSE_STATE_NOTIF_UID -> i + 4 <= zlen data ->
  gives (notif_uid_parse c data i) (round_done c data i).
Proof.
  intros Hs H4. destruct Hok as [Hb Hst]. unfold state_ok in Hst. rewrite Hs in Hst. unfold notif_uid_parse.
  rewrite rd_block_Ok by lia. eexists. split; [reflexivity|]. split; [|left; lia]. split; [by apply (base_ok_same c)|by left].
Qed.

Lemma app_id_done :
  parse_state (parse_info c) = BT_ANCS_PARSE_STATE_APP_ID -> gives (app_id_parse c data i) (round_done c data i).
Proof.
  intros Hs. destruct Hok as [Hb Hst]. unfold state_ok in Hst. rewrite Hs in Hst. destruct Hst as (Hl & Hc & Hidx).
  unfold app_id_parse. rewrite (co_app_id _ Hb). change BT_ANCS_ATTR_DATA_MAX with 32 in *.
  destruct (Z.leb_spec 32 (current_app_id_index (parse_info c))).
  - eexists. split; [reflexivity|]. split; [|right; by rewrite Hs]. split; [by apply (base_ok_same c)|done].
  - eapply gives_then; [by apply rd_gives|]. intros b _. rewrite wr_Ok by (rewrite (co_app_id _ Hb); change BT_ANCS_ATTR_DATA_MAX with 32; lia).
    cbn [mbind res_bind].
    assert (Hb' : forall c', ancs_notif_attr_list c' = ancs_notif_attr_list c -> ancs_app_attr_list c' = ancs_app_attr_list c ->
      bufs c' = bufs c -> app_id (attr_response c') = <[Z.to_nat (current_app_id_index (parse_info c)) := b]> (app_id (attr_response c)) -> base_ok c').
    { intros c' E1 E2 E3 E4. eapply base_ok_with; [exact Hb|done..|by rewrite E3|]. rewrite E4, length_insert. apply Hb. }
    destruct (negb _); (eexists; split; [reflexivity|]; split; [|left; lia]); (split; [by apply Hb'|]).
    + cbn. rewrite u32_small by lia. change BT_ANCS_ATTR_DATA_MAX with 32. split; [done|]. split; [done|]. lia.
    + by right.
Qed.

Lemma attr_id_done :
  parse_state (parse_info c) = BT_ANCS_PARSE_STATE_ATTR_ID -> gives (attr_id_parse c data i) (round_done c data i).
Proof.
  intros Hs. destruct Hok as [Hb Hst]. unfold state_ok in Hst. rewrite Hs in Hst.
  eapply gives_then; [by apply rd_gives|]. intros b Hbyte. cbv zeta. change (attr_count (parse_info (on_response _ c))) with (attr_count (parse_info c)).
  destruct (Z.leb_spec (attr_count (parse_info c)) b).
  { eexists. split; [reflexivity|]. split; [|left; lia]. split; [by apply (base_ok_same c)|done]. }
  destruct (listed_entry c b Hb Hst) as [e He]; [destruct Hbyte; lia|]. rewrite He. cbn [mbind res_bind].
  destruct (all_req_attrs_parsed _).
  { eexists. split; [reflexivity|]. split; [|left; lia]. split; [by apply (base_ok_same c)|done]. }
  unfold attr_is_requested. change (cur_entry (on_response (set_attr_data _) _)) with (cur_entry (on_response (set_attr_id b) c)).
  rewrite He. cbn [mbind res_bind]. eexists. split; [reflexivity|]. split; [|left; lia].
  destruct (get e); (split; [by apply (base_ok_same c)|]); exists e; (split; [exact Hst|]; split; [exact He|done]).
Qed.

Lemma attr_len1_done :
  parse_state (parse_info c) = BT_ANCS_PARSE_STATE_ATTR_LEN1 -> gives (attr_len1_parse c data i) (round_done c data i).
Proof.
  intros Hs. destruct Hok as [Hb Hst]. unfold state_ok in Hst. rewrite Hs in Hst.
  eapply gives_then; [by apply rd_gives|]. intros b Hbyte. eexists. split; [reflexivity|]. split; [|left; lia].
  split; [by apply (base_ok_same c)|]. split; [exact Hst|exact Hbyte].
Qed.

Lemma len_u16 a b : u16 (Z.lor a (Z.shiftl b 8)) < 65536 /\ 0 <= u16 (Z.lor a (Z.shiftl b 8)).
Proof. pose proof (u16_range (Z.lor a (Z.shiftl b 8))). lia. Qed.

Lemma attr_len2_done :
  parse_state (parse_info c) = BT_ANCS_PARSE_STATE_ATTR_LEN2 -> gives (attr_len2_parse c data i) (round_done c data i).
Proof.
  intros Hs. destruct Hok as [Hb Hst]. unfold state_ok in Hst. rewrite Hs in Hst. destruct Hst as [[e He] Hlen].
  eapply gives_then; [by apply rd_gives|]. intros b Hbyte. cbv zeta.
  set (c1 := on_parse _ _). destruct (len_u16 (attr_len (attr_response c)) b) as [Hu Hu0].
  assert (Hb1 : base_ok c1) by (by apply (base_ok_same c)). assert (Hat : at_attr c1 e) by exact He.
  change (attr_len (attr_response c1)) with (u16 (Z.lor (attr_len (attr_response c)) (Z.shiftl b 8))).
  destruct (Z.eqb_spec (u16 (Z.lor (attr_len (attr_response c)) (Z.shiftl b 8))) 0) as [E|E]; cbn [negb].
  - eapply attr_end_done; [exact Hb1|exact Hat|lia].
  - change (cur_entry c1) with (cur_entry c). destruct He as (Hl & He & Hd'). rewrite He. cbn [mbind res_bind].
    pose proof (cur_entry_ok c e Hb He) as Heo. unfold entry_ok in Heo.
    destruct ((l_attr_len e =? 0) || bool_decide (l_attr_data e = None)) eqn:Ec;
      (eexists; split; [reflexivity|]; split; [|left; lia]); (split; [by apply (base_ok_same c)|]); exists e; (split; [exact Hat|]).
    + cbn. lia.
    + apply orb_false_iff in Ec as [El Ed]. apply Z.eqb_neq in El. destruct (get e); [|lia]. cbn. split; [done|]. lia.
Qed.

Lemma attr_data_done :
  parse_state (parse_info c) = BT_ANCS_PARSE_STATE_ATTR_DATA -> gives (attr_data_parse c data i) (round_done c data i).
Proof.
  intros Hs. destruct Hok as [Hb Hst]. unfold state_ok in Hst. rewrite Hs in Hst. destruct Hst as (e & Hat & Hg & Hidx & HL & Hlen).
  pose proof Hat as (Hl & He & Hd'). pose proof (cur_entry_ok c e Hb He) as Heo. unfold entry_ok in Heo. rewrite Hg in Heo.
  destruct Heo as (Hr & k & b & Hk & Hkb & Hbl). change BT_ANCS_ATTR_DATA_MAX with 32 in Hr. unfold attr_data_parse. rewrite He. cbn [mbind res_bind].
  destruct (Z.ltb_spec (current_attr_index (parse_info c)) (l_attr_len e)); [|lia].
  destruct (Z.ltb_spec (current_attr_index (parse_info c)) (attr_len (attr_response c))); [|lia]. cbn [andb].
  eapply gives_then; [by apply rd_gives|]. intros x _. rewrite (buf_wr_ok c _ _ b k) by (congruence || lia). cbn [mbind res_bind].
  eapply data_next_done; [|exact Hat|done|lia|..].
  - eapply (base_ok_same (with_buf k _ c)); [|done..]. eapply with_buf_base; [done..|by rewrite length_insert].
  - cbn. rewrite u16_small by lia. lia.
  - cbn. rewrite u16_small by lia. lia.
  - done.
Qed.

Lemma attr_skip_done :
  parse_state (parse_info c) = BT_ANCS_PARSE_STATE_ATTR_SKIP -> gives (attr_skip c data i) (round_done c data i).
Proof.
  intros Hs. destruct Hok as [Hb Hst]. unfold state_ok in Hst. rewrite Hs in Hst. destruct Hst as (e & Hat & Hidx & Hlen).
  unfold attr_skip. destruct (Z.ltb_spec (current_attr_index (parse_info c)) (attr_len (attr_response c))); [|lia].
  set (c1 := on_parse _ _). change (current_attr_index (parse_info c1)) with (u16 (current_attr_index (parse_info c) + 1)).
  rewrite u16_small by lia. destruct (Z.eqb_spec (current_attr_index (parse_info c) + 1) (attr_len (attr_response c))).
  - eapply attr_end_done; [by apply (base_ok_same c)|exact Hat|lia].
  - eexists. split; [reflexivity|]. split; [|left; lia]. split; [by apply (base_ok_same c)|]. exists e. split; [exact Hat|].
    cbn. rewrite u16_small by lia. lia.
Qed.

Lemma round_gives :
  (parse_state (parse_info c) = BT_ANCS_PARSE_STATE_NOTIF_UID -> i + 4 <= zlen data) ->
  gives (parse_round c data i) (round_done c data i).
Proof.
  intros Hu. unfold parse_round. destruct (parse_state (parse_info c)) eqn:Hs.
  - apply command_id_done.
  - by apply notif_uid_done; [|apply Hu].
  - by apply app_id_done.
  - by apply attr_id_done.
  - by apply attr_len1_done.
  - by apply attr_len2_done.
  - by apply attr_data_done.
  - by apply attr_skip_done.
  - eexists. split; [reflexivity|]. split; [|left; lia]. rewrite done_stays by done. exact Hok.
Qed.

End Rounds.

(** The notification UID is not split at the end of the data. *)
Definition uid_fits (c : bt_ancs_client) (data : list Z) (i : Z) : Prop :=
  (parse_state (parse_info c) = BT_ANCS_PARSE_STATE_NOTIF_UID -> i = zlen data \/ i + 4 <= zlen data) /\
  (parse_state (parse_info c) = BT_ANCS_PARSE_STATE_COMMAND_ID -> i < zlen data ->
   zth data i = BT_ANCS_COMMAND_ID_GET_NOTIF_ATTRIBUTES -> i + 1 = zlen data \/ i + 5 <= zlen data).

Definition later_state (st : bt_ancs_parse_state) : bool :=
  match st with BT_ANCS_PARSE_STATE_COMMAND_ID | BT_ANCS_PARSE_STATE_NOTIF_UID => false | _ => true end.

Lemma attr_end_later c i c' st j : attr_end c i = Ok (c', st, j) -> later_state st = true.
Proof.
  intros E. unfold attr_end in E. apply bind_Ok_inv in E as (r & _ & E). injection E as _ <- _. by destruct (all_req_attrs_parsed _).
Qed.

Lemma data_next_later c e i c' st j : attr_data_next c e i = Ok (c', st, j) -> later_state st = true.
Proof.
  unfold attr_data_next. destruct (_ || _); [|by intros [= _ <- _]]. intros E. apply bind_Ok_inv in E as (r & _ & E).
  apply bind_Ok_inv in E as (c1 & _ & E). destruct (_ <? _); [by injection E as _ <- _|by eapply attr_end_later].
Qed.

(** Only the command makes the notification UID the next to be parsed. *)
Lemma round_later c data i c' st j :
  parse_round c data i = Ok (c', st, j) ->
  later_state st = true \/
  (parse_state (parse_info c) = BT_ANCS_PARSE_STATE_COMMAND_ID /\ st = BT_ANCS_PARSE_STATE_NOTIF_UID /\ j = i + 1 /\
   zth data i = BT_ANCS_COMMAND_ID_GET_NOTIF_ATTRIBUTES).
Proof.
  unfold parse_round. destruct (parse_state (parse_info c)) eqn:Es; intros E; [|left..].
  - apply bind_Ok_inv in E as (b & Eb & E). apply rd_Ok_inv in Eb as [_ ->]. destruct (Z.eqb_spec (zth data i) BT_ANCS_COMMAND_ID_GET_NOTIF_ATTRIBUTES).
    + injection E as _ <- <-. by right.
    + left. case_match; by injection E as _ <- _.
  - apply bind_Ok_inv in E as (b & _ & E). by injection E as _ <- _.
  - unfold app_id_parse in E. destruct (_ <=? _); [by injection E as _ <- _|]. apply bind_Ok_inv in E as (b & _ & E).
    apply bind_Ok_inv in E as (x & _ & E). destruct (negb _); by injection E as _ <- _.
  - apply bind_Ok_inv in E as (b & _ & E). destruct (_ <=? _); [by injection E as _ <- _|].
    apply bind_Ok_inv in E as (e & _ & E). destruct (all_req_attrs_parsed _); [by injection E as _ <- _|].
    apply bind_Ok_inv in E as (x & _ & E). by injection E as _ <- _.
  - apply bind_Ok_inv in E as (b & _ & E). by injection E as _ <- _.
  - apply bind_Ok_inv in E as (b & _ & E). destruct (negb _); [|by apply attr_end_later in E].
    apply bind_Ok_inv in E as (e & _ & E). destruct (_ || _); by injection E as _ <- _.
  - apply bind_Ok_inv in E as (e & _ & E). destruct (_ && _); [|by apply data_next_later in E].
    apply bind_Ok_inv in E as (b & _ & E). apply bind_Ok_inv in E as (x & _ & E). by apply data_next_later in E.
  - unfold attr_skip in E. destruct (_ <? _); (destruct (_ =? _); [by apply attr_end_later in E|by injection E as _ <- _]).
  - by injection E as _ <- _.
Qed.

(** The rounds that are left at most. *)
Definition rounds_left (c : bt_ancs_client) (data : list Z) (i : Z) : Z :=
  zlen data - i + if bool_decide (parse_state (parse_info c) = BT_ANCS_PARSE_STATE_DONE) then 0 else 1.

Lemma parse_loop_gives fuel c data i :
  client_ok c -> bytes data -> 0 <= i <= zlen data -> uid_fits c data i -> rounds_left c data i <= Z.of_nat fuel ->
  gives (parse_loop fuel c data i) client_ok.
Proof.
  intros Hok Hd. revert c i Hok. induction fuel as [|fuel IH]; intros c i Hok Hi Hu Hf; cbn [parse_loop];
    (destruct (Z.ltb_spec i (zlen data)) as [Hlt|]; [|by exists c]).
  - unfold rounds_left in Hf. case_bool_decide; lia.
  - destruct (round_gives c Hok data Hd i) as ([[c1 st] j] & E & Hok1 & Hprog); [lia|intros Hs; apply Hu in Hs; lia|].
    rewrite E. cbn [mbind res_bind]. apply round_index in E as Hj; [|done]. apply IH; [done|lia| |].
    + apply round_later in E as [Hl|(Hs & -> & -> & Hz)]; [by destruct st|]. split; [|done]. intros _. destruct Hu as [_ Hu].
      destruct (Hu Hs Hlt Hz); lia.
    + unfold rounds_left in *. cbn. destruct (bool_decide_reflect (st = BT_ANCS_PARSE_STATE_DONE)) as [->|Hst].
      { case_bool_decide; [|lia]. destruct Hprog as [|[_ ?]]; [lia|done]. }
      case_bool_decide as Hc; [unfold parse_round in E; rewrite Hc in E; by injection E as _ <- _|].
      destruct Hprog as [|[? _]]; [lia|done].
Qed.

Lemma parse_gives c data :
  client_ok c -> bytes data -> uid_fits c data 0 -> gives (bt_ancs_parse_get_attrs_response c data) client_ok.
Proof.
  intros Hok Hd Hu. apply parse_loop_gives; [done..|lia|done|]. unfold rounds_left. case_bool_decide; lia.
Qed.

(** Pieces of a response, one after the other. *)
Definition receive (c : bt_ancs_client) (pieces : list (list Z)) : res bt_ancs_client :=
  foldl (fun r data => let* c := r in bt_ancs_parse_get_attrs_response c data) (Ok c) pieces.

Lemma parse_app c a b c1 c2 :
  client_ok c -> bytes (a ++ b) -> uid_fits c (a ++ b) 0 ->
  bt_ancs_parse_get_attrs_response c a = Ok c1 -> bt_ancs_parse_get_attrs_response c1 b = Ok c2 ->
  bt_ancs_parse_get_attrs_response c (a ++ b) = Ok c2.
Proof.
  intros Hok Hd Hu E1 E2. destruct (parse_gives c (a ++ b) Hok Hd Hu) as (c3 & E3 & _). rewrite E3. f_equal.
  pose proof (parse_pieces _ _ _ _ _ _ _ _ (conj (Z.le_refl 0) (Nat2Z.is_nonneg (length a))) E1 E2) as E.
  unfold bt_ancs_parse_get_attrs_response in E3.
  eapply (parse_loop_more _ (length a + 2 + (length b + 2))) in E3; [|rewrite length_app; lia]. congruence.
Qed.

Lemma loop_later fuel c data i c' :
  later_state (parse_state (parse_info c)) = true -> parse_loop fuel c data i = Ok c' ->
  later_state (parse_state (parse_info c')) = true.
Proof.
  revert c i. induction fuel as [|fuel IH]; intros c i Hl; cbn [parse_loop]; (destruct (_ <? _); [|by intros [= <-]]); [done|].
  intros E. apply bind_Ok_inv in E as ([[c1 st] j] & Er & E). apply IH in E; [done|].
  apply round_later in Er as [?|(Hs & _)]; [done|]. by rewrite Hs in Hl.
Qed.

Lemma parse_loop_S fuel c data i :
  parse_loop (S fuel) c data i =
    if i <? zlen data then
      let* '(c, st, j) := parse_round c data i in parse_loop fuel (on_parse (set_parse_state st) c) data j
    else Ok c.
Proof. done. Qed.

(** Where data leaves the parser. *)
Lemma state_after c data c' :
  bt_ancs_parse_get_attrs_response c data = Ok c' ->
  later_state (parse_state (parse_info c')) = true \/ (data = [] /\ c' = c) \/
  (parse_state (parse_info c) = BT_ANCS_PARSE_STATE_COMMAND_ID /\ data = [BT_ANCS_COMMAND_ID_GET_NOTIF_ATTRIBUTES] /\
   parse_state (parse_info c') = BT_ANCS_PARSE_STATE_NOTIF_UID).
Proof.
  unfold bt_ancs_parse_get_attrs_response. destruct data as [|b data]; [intros [= <-]; tauto|].
  replace (length (b :: data) + 2)%nat with (S (S (S (length data)))) by (cbn; lia). rewrite parse_loop_S.
  intros E. destruct (Z.ltb_spec 0 (zlen (b :: data))); [|done]. apply bind_Ok_inv in E as ([[c1 st] j] & Er & E).
  destruct (round_later _ _ _ _ _ _ Er) as [Hl|(Hs & -> & -> & Hz)]; [left; by apply loop_later in E|].
  change (zth (b :: data) 0) with b in Hz. subst b. destruct data as [|x data].
  - cbn in E. injection E as <-. right. by right.
  - left. rewrite parse_loop_S in E. destruct (Z.ltb_spec (0 + 1) (zlen (BT_ANCS_COMMAND_ID_GET_NOTIF_ATTRIBUTES :: x :: data))); [|cbn in *; lia]. apply bind_Ok_inv in E as ([[c2 st2] j2] & Er2 & E).
    destruct (round_later _ _ _ _ _ _ Er2) as [Hl|(Hs2 & _)]; [by apply loop_later in E|]. done.
Qed.

Lemma uid_fits_rest c a b c1 :
  uid_fits c (a ++ b) 0 -> bt_ancs_parse_get_attrs_response c a = Ok c1 -> uid_fits c1 b 0.
Proof.
  intros [Hu Hc] E. destruct (state_after _ _ _ E) as [Hl|[[-> ->]|(Hs & -> & Hs')]]; [|done|].
  - split; intros Hs; by rewrite Hs in Hl.
  - split; [|by rewrite Hs']. intros _. specialize (Hc Hs). cbn in Hc. destruct Hc as [?|?]; [lia|done|left|right]; lia.
Qed.

(** The notification UID is within one piece. *)
Definition unsplit (c : bt_ancs_client) (pieces : list (list Z)) : Prop :=
  forall n, uid_fits c (concat (take n pieces)) 0.

Lemma receive_snoc c ps p : receive c (ps ++ [p]) = let* c1 := receive c ps in bt_ancs_parse_get_attrs_response c1 p.
Proof. unfold receive. by rewrite foldl_snoc. Qed.

Lemma receive_whole c pieces :
  client_ok c -> bytes (concat pieces) -> unsplit c pieces ->
  receive c pieces = bt_ancs_parse_get_attrs_response c (concat pieces).
Proof.
  intros Hok. induction pieces as [|p ps IH] using rev_ind; intros Hd Hu; [by destruct c|].
  rewrite concat_app in *. cbn [concat] in *. rewrite app_nil_r in *.
  assert (Hu' : unsplit c ps).
  { intros n. destruct (decide (n <= length ps)%nat).
    - specialize (Hu n). by rewrite take_app_le in Hu.
    - specialize (Hu (length ps)). rewrite take_app_length in Hu. by rewrite take_ge by lia. }
  assert (Hall : uid_fits c (concat ps ++ p) 0).
  { specialize (Hu (length (ps ++ [p]))). rewrite firstn_all, concat_app in Hu. cbn in Hu. by rewrite app_nil_r in Hu. }
  pose proof Hd as Hd'. apply Forall_app in Hd' as [Hd1 Hd2]. rewrite receive_snoc, IH by done.
  destruct (parse_gives c (concat ps) Hok Hd1) as (c1 & E1 & Hok1); [specialize (Hu' (length ps)); by rewrite firstn_all in Hu'|].
  rewrite E1. cbn [mbind res_bind]. destruct (parse_gives c1 p Hok1 Hd2) as (c2 & E2 & _); [by eapply uid_fits_rest|].
  rewrite E2. symmetry. by eapply parse_app.
Qed.

End AnyData.

(** C24: Whatever a peer sends, in whatever pieces: the parser of the responses
    comes to an end without leaving the data or the buffers of the attributes,
    keeps its state consistent, and does with the pieces what it does with all of
    the data at once, provided that the notification UID is not split over two
    pieces and that the buffers of the attributes have at least two octets. *)
Theorem pieces_parsed_as_whole `{LittleEndian} c pieces :
  client_ok c -> bytes (concat pieces) -> unsplit c pieces ->
  exists c', receive c pieces = Ok c' /\ bt_ancs_parse_get_attrs_response c (concat pieces) = Ok c' /\ client_ok c'.
Proof.
  intros Hok Hd Hu. destruct (parse_gives c (concat pieces) Hok Hd) as (c' & E & Hok').
  - specialize (Hu (length pieces)). by rewrite firstn_all in Hu.
  - exists c'. by rewrite receive_whole.
Qed.
