(* ===== verification/AncsDeliver.v ===== *)
(** * Delivery of the attributes of notifications

    A response with the attributes that were asked for makes the client report
    each of them once, in order, with its data cut to the buffer of the user. *)

From stdpp Require Import prelude list.
From Stdlib Require Import ZArith Lia.
From S2P Require Import Prelude GattDm Ancs AncsSpec.

Open Scope Z_scope.

(** ** One octet after the other *)

Section Octets.
Context {LE : LittleEndian} {NB : NetBuf} {AC : AncsConfig}.

Lemma octet_parsed c x c1 st :
  parse_round c [x] 0 = Ok (c1, st, 1) ->
  bt_ancs_parse_get_attrs_response c [x] = Ok (on_parse (set_parse_state st) c1).
Proof. intros E. unfold bt_ancs_parse_get_attrs_response. cbn [length Nat.add]. rewrite parse_loop_S. cbn [length Z.of_nat Z.ltb Z.compare]. by rewrite E. Qed.

Lemma later_fits c data i : later_state (parse_state (parse_info c)) = true -> uid_fits c data i.
Proof. intros Hl. split; intros Hs; by rewrite Hs in Hl. Qed.

(** Data behind an octet, in a state in which the notification UID is known. *)
Lemma parse_cons c x rest c1 :
  client_ok c -> later_state (parse_state (parse_info c)) = true -> bytes (x :: rest) ->
  bt_ancs_parse_get_attrs_response c [x] = Ok c1 ->
  bt_ancs_parse_get_attrs_response c (x :: rest) = bt_ancs_parse_get_attrs_response c1 rest.
Proof.
  intros Hok Hl Hd E. pose proof Hd as Hd'. apply Forall_cons in Hd' as [Hx Hr].
  destruct (parse_gives c [x] Hok) as (c1' & E1 & Hok1); [by apply Forall_singleton|by apply later_fits|].
  rewrite E in E1. injection E1 as <-.
  destruct (parse_gives c1 rest Hok1 Hr) as (c2 & E2 & _); [by eapply uid_fits_rest; [apply (later_fits c ([x] ++ rest)); done|done]|].
  rewrite E2. by apply (parse_app c [x] rest c1); [..|apply later_fits| |].
Qed.

Lemma insert_append {A} (e rest : list A) v n : n = length e -> rest <> [] -> <[n := v]> (e ++ rest) = (e ++ [v]) ++ drop 1 rest.
Proof. intros -> Hr. destruct rest as [|y rest]; [done|]. rewrite insert_app_r_alt, Nat.sub_diag by lia. cbn. by rewrite <- app_assoc. Qed.

(** What the parsing of attributes does not change. *)
Record frame (c c' : bt_ancs_client) : Prop := {
  fr_notif : ancs_notif_attr_list c' = ancs_notif_attr_list c;
  fr_app : ancs_app_attr_list c' = ancs_app_attr_list c;
  fr_cb : ds_notif_cb c' = ds_notif_cb c;
  fr_list : attr_list (parse_info c') = attr_list (parse_info c);
  fr_count : attr_count (parse_info c') = attr_count (parse_info c);
  fr_command : r_command_id (attr_response c') = r_command_id (attr_response c);
  fr_uid : notif_uid (attr_response c') = notif_uid (attr_response c);
  fr_app_id : app_id (attr_response c') = app_id (attr_response c)
}.

Lemma frame_trans c1 c2 c3 : frame c1 c2 -> frame c2 c3 -> frame c1 c3.
Proof. intros [] []. split; congruence. Qed.

(** The response a user gets for an attribute. *)
Definition response_of (c : bt_ancs_client) (e : bt_ancs_attr_list) (id : Z) (v : list Z) : bt_ancs_attr_response :=
  {| r_command_id := r_command_id (attr_response c); attr_len := zlen v; attr_id := id; attr_data := l_attr_data e;
     notif_uid := notif_uid (attr_response c); app_id := app_id (attr_response c) |}.

(** The buffer starts with as much of the value as fits, and a final zero. *)
Definition holds_value (e : bt_ancs_attr_list) (v content : list Z) : Prop :=
  exists rest, content = take (Z.to_nat (l_attr_len e - 1)) v ++ 0 :: rest.

(** The call for an attribute, if it was asked for. *)
Definition reported (f : Z) (c : bt_ancs_client) (e : bt_ancs_attr_list) (id : Z) (v : list Z) (new : list ancs_call) : Prop :=
  if get e then exists content, new = [DsNotif f (response_of c e id v) content] /\ (v <> [] -> holds_value e v content)
  else new = [].

(** The client [c'] after the attribute, which began with [c]. *)
Record attr_parsed (f : Z) (c c' : bt_ancs_client) (e : bt_ancs_attr_list) (id : Z) (v : list Z) : Prop := {
  ap_frame : frame c c';
  ap_expected : expected_number_of_attrs (parse_info c') = expected_number_of_attrs (parse_info c) - if get e then 1 else 0;
  ap_state : parse_state (parse_info c') =
    if expected_number_of_attrs (parse_info c') =? 0 then BT_ANCS_PARSE_STATE_DONE else BT_ANCS_PARSE_STATE_ATTR_ID;
  ap_calls : exists new, calls c' = calls c ++ new /\ reported f c e id v new
}.

(** Within the attribute: [c] is the client now, [c0] at its beginning. *)
Record within (c0 c : bt_ancs_client) (e : bt_ancs_attr_list) (id : Z) (v : list Z) (k : Z) : Prop := {
  wi_frame : frame c0 c;
  wi_at : at_attr c e;
  wi_expected : expected_number_of_attrs (parse_info c) = expected_number_of_attrs (parse_info c0) - if get e then 1 else 0;
  wi_calls : calls c = calls c0;
  wi_id : attr_id (attr_response c) = id;
  wi_len : attr_len (attr_response c) = zlen v;
  wi_index : current_attr_index (parse_info c) = k
}.

(** The content of the buffer of the attribute. *)
Definition buffer_of (c : bt_ancs_client) (e : bt_ancs_attr_list) : list Z :=
  match l_attr_data e with Some i => default [] (bufs c !! i) | None => [] end.

Lemma attr_end_parsed f c0 c e id v j :
  within c0 c e id v (zlen v) -> ds_notif_cb c0 = Some f -> (get e = true -> v <> [] -> holds_value e v (buffer_of c e)) ->
  exists c1 st, attr_end c j = Ok (c1, st, j) /\ attr_parsed f c0 (on_parse (set_parse_state st) c1) e id v.
Proof.
  intros [Hfr Hat Hex Hca Hid Hlen Hidx] Hf Hbuf. pose proof Hat as (Hl & He & Hd). unfold attr_end, attr_is_requested.
  rewrite He. cbn [mbind res_bind]. eexists _, _. split; [reflexivity|].
  unfold bt_ancs_do_ds_notif_cb. rewrite (fr_cb _ _ Hfr), Hf. destruct (get e) eqn:Hg.
  - split; [by destruct Hfr|rewrite Hg; exact Hex|done|]. eexists. split; [cbn; by rewrite Hca|]. unfold reported. rewrite Hg.
    eexists. split; [|].
    + f_equal. f_equal. unfold response_of. destruct Hfr as [_ _ _ _ _ <- <- <-]. rewrite <- Hd, <- Hid, <- Hlen. by destruct (attr_response c).
    + intros Hv. rewrite Hd. by apply (Hbuf eq_refl Hv).
  - split; [by destruct Hfr|rewrite Hg; exact Hex|done|]. exists []. split; [cbn; by rewrite Hca, app_nil_r|]. unfold reported. by rewrite Hg.
Qed.

Lemma within_step c0 c c' e id v k :
  within c0 c e id v k -> frame c c' -> cur_entry c' = cur_entry c -> attr_data (attr_response c') = attr_data (attr_response c) ->
  expected_number_of_attrs (parse_info c') = expected_number_of_attrs (parse_info c) -> calls c' = calls c ->
  attr_id (attr_response c') = attr_id (attr_response c) -> attr_len (attr_response c') = attr_len (attr_response c) ->
  within c0 c' e id v (current_attr_index (parse_info c')).
Proof.
  intros [Hfr (Hl & He & Hd) Hex Hca Hid Hlen Hidx] Hf E1 E2 E3 E4 E5 E6. split; try congruence; [by eapply frame_trans|].
  split; [|split; congruence]. destruct Hf. unfold listed in *. by rewrite fr_list0, fr_count0.
Qed.

Lemma within_state c0 c e id v k st : within c0 c e id v k -> within c0 (on_parse (set_parse_state st) c) e id v k.
Proof. intros [[] Hat ?????]. by split. Qed.

Lemma drop_next (v : list Z) k : 0 <= k < zlen v -> exists x, v !! Z.to_nat k = Some x /\ drop (Z.to_nat k) v = x :: drop (Z.to_nat (k + 1)) v.
Proof.
  intros Hk. destruct (v !! Z.to_nat k) as [x|] eqn:E; [|apply lookup_ge_None in E; lia]. exists x. split; [done|].
  rewrite (drop_S v x) by done. do 2 f_equal. lia.
Qed.

Lemma parse_nil c : bt_ancs_parse_get_attrs_response c [] = Ok c.
Proof. done. Qed.

Lemma client_ok_octet c x c1 :
  client_ok c -> later_state (parse_state (parse_info c)) = true -> byte x ->
  bt_ancs_parse_get_attrs_response c [x] = Ok c1 -> client_ok c1.
Proof.
  intros Hok Hl Hx E. destruct (parse_gives c [x] Hok) as (c' & E' & ?); [by apply Forall_singleton|by apply later_fits|]. congruence.
Qed.

Lemma skip_parsed f c0 e id v : ds_notif_cb c0 = Some f -> bytes v -> zlen v < 65536 ->
  forall n c k, client_ok c -> parse_state (parse_info c) = BT_ANCS_PARSE_STATE_ATTR_SKIP -> within c0 c e id v k ->
  0 <= k < zlen v -> zlen v - k = Z.of_nat n -> (get e = true -> holds_value e v (buffer_of c e)) ->
  exists c', bt_ancs_parse_get_attrs_response c (drop (Z.to_nat k) v) = Ok c' /\ attr_parsed f c0 c' e id v.
Proof.
  intros Hf Hv Hlv. induction n as [|n IH]; intros c k Hok Hs Hw Hk Hn Hbuf; [lia|].
  destruct (drop_next v k Hk) as (x & Hx & ->). assert (Hbx : byte x) by (by eapply Forall_lookup_1 in Hx).
  assert (Hbr : bytes (x :: drop (Z.to_nat (k + 1)) v)) by (apply Forall_cons; split; [done|by apply Forall_drop]).
  assert (Hl : later_state (parse_state (parse_info c)) = true) by (by rewrite Hs).
  set (c1 := on_parse (set_current_attr_index (k + 1)) c).
  assert (Hw1 : within c0 c1 e id v (k + 1)) by (apply (within_step c0 c c1 e id v k Hw); done).
  assert (Er : parse_round c [x] 0 = if k + 1 =? zlen v then attr_end c1 1 else Ok (c1, BT_ANCS_PARSE_STATE_ATTR_SKIP, 1)).
  { unfold parse_round. rewrite Hs. unfold attr_skip. rewrite (wi_index _ _ _ _ _ _ Hw), (wi_len _ _ _ _ _ _ Hw).
    destruct (Z.ltb_spec k (zlen v)); [|lia]. rewrite u16_small by lia. fold c1. change (current_attr_index (parse_info c1)) with (k + 1). done. }
  destruct (Z.eqb_spec (k + 1) (zlen v)) as [Ek|Ek].
  - destruct (attr_end_parsed f c0 c1 e id v 1) as (c2 & st & E & Hap); [by rewrite <- Ek|done|intros; by apply Hbuf|].
    rewrite E in Er. apply octet_parsed in Er. exists (on_parse (set_parse_state st) c2). split; [|done].
    rewrite (parse_cons _ _ _ _ Hok Hl Hbr Er). rewrite drop_ge by lia. apply parse_nil.
  - apply octet_parsed in Er. rewrite (parse_cons _ _ _ _ Hok Hl Hbr Er). apply IH; [by eapply client_ok_octet|done| |lia|lia|done].
    by apply within_state.
Qed.

(** The next octet of the value behind the part of it that is in the buffer. *)
Lemma value_extended (v rest : list Z) k x :
  0 <= k < zlen v -> v !! Z.to_nat k = Some x -> rest <> [] ->
  <[Z.to_nat k := x]> (take (Z.to_nat k) v ++ rest) = take (Z.to_nat (k + 1)) v ++ drop 1 rest.
Proof.
  intros Hk Hx Hr. rewrite insert_append by (done || rewrite length_take; lia).
  replace (Z.to_nat (k + 1)) with (S (Z.to_nat k)) by lia. by rewrite (take_S_r v _ x).
Qed.

(** One octet of the value in its place. *)
Lemma data_octet c e x k b j :
  at_attr c e -> get e = true -> l_attr_data e = Some j -> bufs c !! j = Some b -> l_attr_len e <= zlen b ->
  parse_state (parse_info c) = BT_ANCS_PARSE_STATE_ATTR_DATA -> current_attr_index (parse_info c) = k ->
  0 <= k < attr_len (attr_response c) -> k < l_attr_len e - 1 -> attr_len (attr_response c) < 65536 ->
  let c2 := on_parse (set_current_attr_index (k + 1)) (with_buf j (<[Z.to_nat k := x]> b) c) in
  let c3 := with_buf j (<[Z.to_nat (k + 1) := 0]> (<[Z.to_nat k := x]> b)) c2 in
  parse_round c [x] 0 =
    if k + 1 =? attr_len (attr_response c) then attr_end c3 1
    else if k + 1 =? l_attr_len e - 1 then Ok (c3, BT_ANCS_PARSE_STATE_ATTR_SKIP, 1)
    else Ok (c2, BT_ANCS_PARSE_STATE_ATTR_DATA, 1).
Proof.
  intros (Hl & He & Hd) Hg Hj Hb Hlb Hs Hidx Hk HkL Hlen c2 c3. unfold parse_round. rewrite Hs. unfold attr_data_parse. rewrite He.
  cbn [mbind res_bind]. rewrite Hidx. destruct (Z.ltb_spec k (l_attr_len e)); [|lia].
  destruct (Z.ltb_spec k (attr_len (attr_response c))); [|lia]. cbn [andb]. change (rd [x] 0) with (Ok x). cbn [mbind res_bind].
  rewrite (buf_wr_ok c _ _ b j) by (congruence || lia). cbn [mbind res_bind].
  change (current_attr_index (parse_info (with_buf j _ c))) with (current_attr_index (parse_info c)). rewrite Hidx, u16_small by lia.
  fold c2. unfold attr_data_next. change (current_attr_index (parse_info c2)) with (k + 1).
  change (attr_len (attr_response c2)) with (attr_len (attr_response c)).
  assert (Ew : buf_wr c2 (attr_data (attr_response c2)) (k + 1) 0 = Ok c3).
  { apply buf_wr_ok; [|cbn; apply list_lookup_insert_eq; by eapply lookup_lt_Some|rewrite length_insert; lia]. cbn. congruence. }
  unfold attr_is_requested. change (cur_entry c2) with (cur_entry c). rewrite He. cbn [mbind res_bind]. rewrite Hg, Ew. cbn [mbind res_bind].
  destruct (Z.eqb_spec (k + 1) (attr_len (attr_response c))) as [Ek|Ek]; cbn [orb].
  - destruct (Z.ltb_spec (k + 1) (attr_len (attr_response c))); [lia|done].
  - destruct (Z.eqb_spec (k + 1) (l_attr_len e - 1)); [|done]. destruct (Z.ltb_spec (k + 1) (attr_len (attr_response c))); [done|lia].
Qed.

Lemma data_parsed f c0 e id v : ds_notif_cb c0 = Some f -> bytes v -> zlen v < 65536 -> get e = true ->
  forall n c k, client_ok c -> parse_state (parse_info c) = BT_ANCS_PARSE_STATE_ATTR_DATA -> within c0 c e id v k ->
  0 <= k < zlen v -> k < l_attr_len e - 1 -> zlen v - k = Z.of_nat n -> (exists rest, buffer_of c e = take (Z.to_nat k) v ++ rest) ->
  exists c', bt_ancs_parse_get_attrs_response c (drop (Z.to_nat k) v) = Ok c' /\ attr_parsed f c0 c' e id v.
Proof.
  intros Hf Hv Hlv Hg. induction n as [|n IH]; intros c k Hok Hs Hw Hk HkL Hn [rest Hrest]; [lia|].
  destruct (drop_next v k Hk) as (x & Hx & ->). assert (Hbx : byte x) by (by eapply Forall_lookup_1 in Hx).
  assert (Hbr : bytes (x :: drop (Z.to_nat (k + 1)) v)) by (apply Forall_cons; split; [done|by apply Forall_drop]).
  assert (Hl : later_state (parse_state (parse_info c)) = true) by (by rewrite Hs).
  pose proof (wi_at _ _ _ _ _ _ Hw) as Hat. pose proof Hat as (_ & He & _). destruct Hok as [Hb Hst].
  pose proof (cur_entry_ok c e Hb He) as Heo. unfold entry_ok in Heo. rewrite Hg in Heo. destruct Heo as (Hr & j & b & Hj & Hjb & Hlb).
  unfold buffer_of in Hrest. rewrite Hj, Hjb in Hrest. change (b = take (Z.to_nat k) v ++ rest) in Hrest.
  pose proof (data_octet c e x k b j Hat Hg Hj Hjb Hlb Hs (wi_index _ _ _ _ _ _ Hw)) as Er. rewrite (wi_len _ _ _ _ _ _ Hw) in Er.
  specialize (Er Hk HkL Hlv). cbv zeta in Er. set (c2 := on_parse _ _) in Er. set (c3 := with_buf _ _ c2) in Er.
  assert (Hrl : (2 <= length rest)%nat) by (rewrite Hrest, length_app, length_take in Hlb; lia).
  destruct rest as [|y0 [|y1 rest]]; [cbn in Hrl; lia..|].
  assert (E1 : <[Z.to_nat k := x]> b = take (Z.to_nat (k + 1)) v ++ y1 :: rest) by (rewrite Hrest; by apply value_extended).
  assert (E2 : <[Z.to_nat (k + 1) := 0]> (<[Z.to_nat k := x]> b) = take (Z.to_nat (k + 1)) v ++ 0 :: rest)
    by (rewrite E1, insert_append by (done || rewrite length_take; lia); by rewrite <- app_assoc).
  assert (Hw2 : within c0 c2 e id v (k + 1)) by (apply (within_step c0 c c2 e id v k Hw); done).
  assert (Hw3 : within c0 c3 e id v (k + 1)) by (apply (within_step c0 c2 c3 e id v (k + 1) Hw2); done).
  assert (Hjl : (j < length (bufs c))%nat) by (by eapply lookup_lt_Some).
  assert (Hb2 : buffer_of c2 e = take (Z.to_nat (k + 1)) v ++ y1 :: rest)
    by (unfold buffer_of; rewrite Hj; cbn; by rewrite list_lookup_insert_eq).
  assert (Hb3 : buffer_of c3 e = take (Z.to_nat (k + 1)) v ++ 0 :: rest)
    by (unfold buffer_of; rewrite Hj; cbn; by rewrite list_lookup_insert_eq by (by rewrite length_insert)).
  clearbody c2 c3.
  destruct (Z.eqb_spec (k + 1) (zlen v)) as [Ek|Ek].
  - destruct (attr_end_parsed f c0 c3 e id v 1) as (c4 & st & E & Hap); [by rewrite <- Ek|done| |].
    { intros _ _. exists rest. rewrite Hb3. f_equal. by rewrite !take_ge by lia. }
    rewrite E in Er. apply octet_parsed in Er. exists (on_parse (set_parse_state st) c4). split; [|done].
    rewrite (parse_cons _ _ _ _ (conj Hb Hst) Hl Hbr Er). rewrite drop_ge by lia. apply parse_nil.
  - destruct (Z.eqb_spec (k + 1) (l_attr_len e - 1)) as [EL|EL]; apply octet_parsed in Er;
      rewrite (parse_cons _ _ _ _ (conj Hb Hst) Hl Hbr Er).
    + apply (skip_parsed f c0 e id v Hf Hv Hlv n); [by eapply client_ok_octet|done| |lia|lia|].
      * by apply within_state.
      * intros _. exists rest. rewrite <- EL. exact Hb3.
    + apply IH; [by eapply client_ok_octet|done| |lia|lia|lia|eexists; exact Hb2].
      by apply within_state.
Qed.

(** ** An attribute *)

Definition attr_octets (id : Z) (v : list Z) : list Z := id :: (zlen v) mod 256 :: zlen v / 256 :: v.

Lemma length_octets n : 0 <= n < 65536 -> u16 (Z.lor (n mod 256) (Z.shiftl (n / 256) 8)) = n.
Proof.
  intros Hn. pose proof (Z.mod_pos_bound n 256). pose proof (Z.div_mod n 256).
  assert (Hh : byte (n / 256)) by (split; [apply Z.div_pos|apply Z.div_lt_upper_bound]; change (2 ^ 8) with 256; lia).
  assert (E : Z.shiftl (n / 256) 8 = u16 (Z.shiftl (n / 256) 8))
    by (destruct Hh; rewrite Z.shiftl_mul_pow2 by lia; change (2 ^ 8) with 256 in *; rewrite u16_small; lia).
  rewrite Z.lor_comm, E, lor_be16 by (done || (split; change (2 ^ 8) with 256; lia)). rewrite u16_small; lia.
Qed.

(** The client after the identifier and the length of an attribute. *)
Definition at_length (c : bt_ancs_client) (e : bt_ancs_attr_list) (id : Z) (len : Z) (st : bt_ancs_parse_state) : bt_ancs_client :=
  let c := on_response (set_attr_data (l_attr_data e)) (on_response (set_attr_id id) c) in
  let c := if get e then on_parse (set_expected_number_of_attrs (expected_number_of_attrs (parse_info c) - 1)) c else c in
  on_parse (set_parse_state st) (on_response (set_attr_len len) c).

Section Attribute.
Context (f : Z) (c : bt_ancs_client) (e : bt_ancs_attr_list) (id : Z) (v : list Z).
Context (Hok : client_ok c) (Hs : parse_state (parse_info c) = BT_ANCS_PARSE_STATE_ATTR_ID) (Hcb : ds_notif_cb c = Some f).
Context (Hid : 0 <= id < attr_count (parse_info c)) (He : cur_entry (on_response (set_attr_id id) c) = Ok e).
Context (Hex : 0 < expected_number_of_attrs (parse_info c) < 2 ^ 32) (Hv : bytes v) (Hlv : zlen v < 65536).

Lemma id_octet :
  bt_ancs_parse_get_attrs_response c [id] = Ok (at_length c e id (attr_len (attr_response c)) BT_ANCS_PARSE_STATE_ATTR_LEN1).
Proof.
  erewrite octet_parsed; [reflexivity|]. unfold parse_round. rewrite Hs. unfold attr_id_parse. change (rd [id] 0) with (Ok id).
  cbn [mbind res_bind]. change (attr_count (parse_info (on_response _ c))) with (attr_count (parse_info c)).
  destruct (Z.leb_spec (attr_count (parse_info c)) id); [lia|]. rewrite He. cbn [mbind res_bind].
  unfold all_req_attrs_parsed. change (expected_number_of_attrs _) with (expected_number_of_attrs (parse_info c)).
  destruct (Z.eqb_spec (expected_number_of_attrs (parse_info c)) 0); [lia|]. unfold attr_is_requested.
  change (cur_entry (on_response (set_attr_data _) _)) with (cur_entry (on_response (set_attr_id id) c)). rewrite He. cbn [mbind res_bind].
  rewrite u32_small by (change (2 ^ 32) with 4294967296 in Hex; lia). unfold at_length. destruct c as [????????????????[] [] ??]. by destruct (get e).
Qed.

Lemma at_length_entry len st : cur_entry (at_length c e id len st) = Ok e.
Proof. rewrite <- He. unfold at_length, cur_entry, list_of. destruct (get e); done. Qed.

Lemma len1_octet x lo :
  bt_ancs_parse_get_attrs_response (at_length c e id x BT_ANCS_PARSE_STATE_ATTR_LEN1) [lo] =
    Ok (at_length c e id lo BT_ANCS_PARSE_STATE_ATTR_LEN2).
Proof.
  unfold at_length. destruct (get e); (etransitivity; [apply octet_parsed; reflexivity|reflexivity]).
Qed.

(** The client at the first octet of the value. *)
Definition at_value : bt_ancs_client :=
  on_parse (set_current_attr_index 0) (at_length c e id (zlen v) BT_ANCS_PARSE_STATE_ATTR_LEN2).

Lemma at_value_within : within c at_value e id v 0.
Proof.
  assert (Hl : listed c) by (destruct Hok as [_ Hst]; unfold state_ok in Hst; by rewrite Hs in Hst).
  assert (Hce : cur_entry at_value = Ok e) by exact (at_length_entry (zlen v) BT_ANCS_PARSE_STATE_ATTR_LEN2).
  split; [| |unfold at_value, at_length; by destruct (get e); [|cbn; lia]|unfold at_value, at_length; by destruct (get e)..].
  - unfold at_value, at_length. by destruct (get e).
  - split; [|split; [exact Hce|]]; unfold at_value, at_length, listed in *; by destruct (get e).
Qed.

Lemma len2_round :
  parse_round (at_length c e id (zlen v mod 256) BT_ANCS_PARSE_STATE_ATTR_LEN2) [zlen v / 256] 0 =
    if zlen v =? 0 then attr_end at_value 1
    else Ok (at_value, if get e then BT_ANCS_PARSE_STATE_ATTR_DATA else BT_ANCS_PARSE_STATE_ATTR_SKIP, 1).
Proof.
  assert (Ec : on_parse (set_current_attr_index 0) (on_response (set_attr_len (zlen v)) (at_length c e id (zlen v mod 256) BT_ANCS_PARSE_STATE_ATTR_LEN2)) = at_value)
    by (unfold at_value, at_length; by destruct (get e)).
  transitivity (attr_len2_parse (at_length c e id (zlen v mod 256) BT_ANCS_PARSE_STATE_ATTR_LEN2) [zlen v / 256] 0);
    [unfold parse_round, at_length; by destruct (get e)|].
  unfold attr_len2_parse. change (rd [zlen v / 256] 0) with (Ok (zlen v / 256)). cbn [mbind res_bind].
  replace (attr_len (attr_response (at_length c e id (zlen v mod 256) BT_ANCS_PARSE_STATE_ATTR_LEN2))) with (zlen v mod 256)
    by (unfold at_length; by destruct (get e)).
  rewrite length_octets, Ec by lia. rewrite (wi_len _ _ _ _ _ _ at_value_within). destruct (zlen v =? 0); cbn [negb]; [done|].
  destruct (wi_at _ _ _ _ _ _ at_value_within) as (_ & Hce & _). rewrite Hce. cbn [mbind res_bind].
  destruct Hok as [Hb _]. assert (Heo : entry_ok (bufs c) e).
  { apply (cur_entry_ok (on_response (set_attr_id id) c)); [by apply (base_ok_same c)|done]. }
  unfold entry_ok in Heo. destruct (get e).
  - destruct Heo as (Hr & j & b & Hj & _). rewrite Hj. destruct (Z.eqb_spec (l_attr_len e) 0); [lia|]. by rewrite bool_decide_false.
  - destruct Heo as [-> ->]. done.
Qed.

Lemma attribute_parsed :
  exists c', bt_ancs_parse_get_attrs_response c (attr_octets id v) = Ok c' /\ client_ok c' /\ attr_parsed f c c' e id v.
Proof.
  assert (Hl : later_state (parse_state (parse_info c)) = true) by (by rewrite Hs).
  assert (Hl1 : forall len, later_state (parse_state (parse_info (at_length c e id len BT_ANCS_PARSE_STATE_ATTR_LEN1))) = true) by (intros; unfold at_length; by destruct (get e)).
  assert (Hl2 : forall len, later_state (parse_state (parse_info (at_length c e id len BT_ANCS_PARSE_STATE_ATTR_LEN2))) = true) by (intros; unfold at_length; by destruct (get e)).
  pose proof (Z.mod_pos_bound (zlen v) 256). pose proof (Z.div_mod (zlen v) 256).
  assert (Hb1 : byte (zlen v mod 256)) by (split; change (2 ^ 8) with 256; lia).
  assert (Hb2 : byte (zlen v / 256)) by (split; [apply Z.div_pos|apply Z.div_lt_upper_bound]; change (2 ^ 8) with 256; lia).
  assert (Hbi : byte id).
  { destruct Hok as [_ Hst]. unfold state_ok in Hst. rewrite Hs in Hst. destruct Hst as [[_ E]|[_ E]]; rewrite E in Hid; (split; [lia|]);
      change (2 ^ 8) with 256; [change BT_ANCS_NOTIF_ATTR_COUNT with 8 in Hid|change BT_ANCS_APP_ATTR_COUNT with 1 in Hid]; lia. }
  assert (Hd2 : bytes (zlen v / 256 :: v)) by (by apply Forall_cons).
  assert (Hd1 : bytes (zlen v mod 256 :: zlen v / 256 :: v)) by (by apply Forall_cons).
  pose proof (client_ok_octet _ _ _ Hok Hl Hbi id_octet) as Hok1.
  pose proof (client_ok_octet _ _ _ Hok1 (Hl1 _) Hb1 (len1_octet _ _)) as Hok2.
  unfold attr_octets. rewrite (parse_cons _ _ _ _ Hok Hl (proj2 (Forall_cons _ _ _) (conj Hbi Hd1)) id_octet).
  rewrite (parse_cons _ _ _ _ Hok1 (Hl1 _) Hd1 (len1_octet _ _)). pose proof len2_round as Er.
  destruct (Z.eqb_spec (zlen v) 0) as [E0|E0].
  - assert (v = []) as Ev by (destruct v; [done|cbn in E0; lia]).
    destruct (attr_end_parsed f c at_value e id v 1) as (c1 & st & E & Hap); [rewrite E0; apply at_value_within|done|done|].
    rewrite E in Er. apply octet_parsed in Er. pose proof (client_ok_octet _ _ _ Hok2 (Hl2 _) Hb2 Er) as Hok3.
    rewrite (parse_cons _ _ _ _ Hok2 (Hl2 _) Hd2 Er), Ev, parse_nil. eexists. split; [done|]. split; [done|]. by rewrite <- Ev.
  - apply octet_parsed in Er. pose proof (client_ok_octet _ _ _ Hok2 (Hl2 _) Hb2 Er) as Hok3.
    rewrite (parse_cons _ _ _ _ Hok2 (Hl2 _) Hd2 Er). set (st := if get e then _ else _) in *.
    pose proof (within_state _ _ _ _ _ _ st at_value_within) as Hw. set (c3 := on_parse (set_parse_state st) at_value) in *.
    destruct (parse_gives c3 v Hok3 Hv) as (c' & Ec & Hok'); [apply later_fits; unfold c3, st; by destruct (get e)|].
    exists c'. split; [done|]. split; [done|].
    assert (Hgoal : exists c'', bt_ancs_parse_get_attrs_response c3 (drop (Z.to_nat 0) v) = Ok c'' /\ attr_parsed f c c'' e id v).
    { destruct (get e) eqn:Hg.
      - apply (data_parsed f c e id v Hcb Hv Hlv Hg (length v)); [done|done|done|lia| |lia|by exists (buffer_of c3 e)].
        destruct (wi_at _ _ _ _ _ _ Hw) as (_ & Hce & _). pose proof (cur_entry_ok c3 e (proj1 Hok3) Hce) as Heo.
        unfold entry_ok in Heo. rewrite Hg in Heo. lia.
      - apply (skip_parsed f c e id v Hcb Hv Hlv (length v)); [done|done|done|lia|lia|by rewrite Hg]. }
    destruct Hgoal as (c'' & E'' & ?). change (drop (Z.to_nat 0) v) with v in E''. congruence.
Qed.

End Attribute.

(** ** The attributes of a response *)

(** The element of the current list for an attribute. *)
Definition entry_of (c : bt_ancs_client) (id : Z) : res bt_ancs_attr_list := cur_entry (on_response (set_attr_id id) c).

Lemma entry_of_frame c c' id : frame c c' -> entry_of c' id = entry_of c id.
Proof. intros []. unfold entry_of, cur_entry, list_of. cbn. by rewrite fr_list0, fr_notif0, fr_app0. Qed.

Definition attrs_octets (l : list (Z * list Z)) : list Z := concat ((fun '(id, v) => attr_octets id v) <$> l).

(** An attribute that was asked for, and a value that it can have. *)
Definition expected_attr (c : bt_ancs_client) (a : Z * list Z) : Prop :=
  0 <= a.1 < attr_count (parse_info c) /\ (exists e, entry_of c a.1 = Ok e /\ get e = true) /\ bytes a.2 /\ zlen a.2 < 65536.

(** The call for an attribute that was asked for. *)
Definition call_for (f : Z) (c : bt_ancs_client) (a : Z * list Z) (x : ancs_call) : Prop :=
  exists e content, entry_of c a.1 = Ok e /\ x = DsNotif f (response_of c e a.1 a.2) content /\
    (a.2 <> [] -> holds_value e a.2 content).

Lemma call_for_frame f c c' a x : frame c c' -> call_for f c' a x -> call_for f c a x.
Proof.
  intros Hf (e & content & He & -> & Hv). exists e, content. rewrite <- (entry_of_frame c c') by done. split; [done|]. split; [|done].
  unfold response_of. by destruct Hf as [_ _ _ _ _ <- <- <-].
Qed.

Lemma attr_octets_bytes id v : byte id -> bytes v -> zlen v < 65536 -> bytes (attr_octets id v).
Proof.
  intros Hi Hv Hl. pose proof (Z.mod_pos_bound (zlen v) 256).
  apply Forall_cons. split; [done|]. apply Forall_cons. split; [split; change (2 ^ 8) with 256; lia|]. apply Forall_cons. split; [|done].
  split; [apply Z.div_pos|apply Z.div_lt_upper_bound]; change (2 ^ 8) with 256; lia.
Qed.

Lemma expected_bytes c l : listed c -> Forall (expected_attr c) l -> bytes (attrs_octets l).
Proof.
  intros Hl Hex. induction Hex as [|[id v] l (Hid & _ & Hv & Hlv) _ IH]; [done|]. cbn [fst snd] in *.
  change (bytes (attr_octets id v ++ attrs_octets l)). apply Forall_app. split; [|done].
  apply attr_octets_bytes; [|done..]. unfold listed in Hl. change BT_ANCS_NOTIF_ATTR_COUNT with 8 in Hl. change BT_ANCS_APP_ATTR_COUNT with 1 in Hl.
  split; [lia|]. change (2 ^ 8) with 256. lia.
Qed.

Lemma attributes_parsed f l c :
  client_ok c -> parse_state (parse_info c) = BT_ANCS_PARSE_STATE_ATTR_ID -> ds_notif_cb c = Some f ->
  Forall (expected_attr c) l -> l <> [] -> expected_number_of_attrs (parse_info c) = zlen l -> zlen l < 2 ^ 32 ->
  exists c' new, bt_ancs_parse_get_attrs_response c (attrs_octets l) = Ok c' /\ client_ok c' /\ frame c c' /\
    parse_state (parse_info c') = BT_ANCS_PARSE_STATE_DONE /\ calls c' = calls c ++ new /\ Forall2 (call_for f c) l new.
Proof.
  revert c. induction l as [|[id v] l IH]; intros c Hok Hs Hf Hex Hne Hn Hlt; [done|].
  assert (Hl : listed c) by (destruct Hok as [_ Hst]; unfold state_ok in Hst; by rewrite Hs in Hst).
  pose proof (expected_bytes c _ Hl Hex) as Hbytes. apply Forall_cons in Hex as [(Hid & (e & He & Hg) & Hv & Hlv) Hex]. cbn in Hid, He, Hv, Hlv.
  cbn [length] in Hn, Hlt. destruct (attribute_parsed f c e id v) as (c1 & E1 & Hok1 & [Hfr Hexp Hst (new1 & Hc1 & Hr1)]); [done|done|done|done|done|lia|done|done|].
  rewrite Hg in Hexp. unfold reported in Hr1. rewrite Hg in Hr1. destruct Hr1 as (content & -> & Hval).
  assert (Hcall : call_for f c (id, v) (DsNotif f (response_of c e id v) content)) by (by exists e, content).
  change (attrs_octets ((id, v) :: l)) with (attr_octets id v ++ attrs_octets l) in *.
  destruct l as [|a l].
  - exists c1, [DsNotif f (response_of c e id v) content]. cbn in Hn. rewrite Hst.
    replace (expected_number_of_attrs (parse_info c1)) with 0 by lia. cbn [attrs_octets concat fmap list_fmap] in *. rewrite app_nil_r.
    split; [exact E1|]. split; [exact Hok1|]. split; [exact Hfr|]. split; [done|]. split; [exact Hc1|]. by constructor.
  - rewrite Hexp, Hn in Hst. destruct (Z.eqb_spec (Z.of_nat (S (length (a :: l))) - 1) 0); [cbn [length] in *; lia|].
    destruct (IH c1) as (c2 & new & E2 & Hok2 & Hfr2 & Hs2 & Hc2 & Hall); [done|done|destruct Hfr; congruence| |done|lia|lia|].
    { eapply Forall_impl; [exact Hex|]. intros b (H1 & H2 & H3). split; [destruct Hfr; congruence|]. rewrite (entry_of_frame c c1) by done. done. }
    exists c2, (DsNotif f (response_of c e id v) content :: new). split; [eapply parse_app; [done|done|apply later_fits; by rewrite Hs|done..]|].
    split; [done|]. split; [by eapply frame_trans|]. split; [done|]. split; [by rewrite Hc2, Hc1, <- app_assoc|].
    constructor; [done|]. eapply Forall2_impl; [exact Hall|]. intros. by eapply call_for_frame.
Qed.

(** ** Notifications *)

Definition notif_header (uid : Z) : list Z := BT_ANCS_COMMAND_ID_GET_NOTIF_ATTRIBUTES :: sys_put_le32 uid.

(** The client when the attributes of a notification follow. *)
Definition at_attributes (c : bt_ancs_client) (uid : Z) : bt_ancs_client :=
  let c := on_parse (set_p_command_id 0) c in
  let c := on_response (set_r_command_id BT_ANCS_COMMAND_ID_GET_NOTIF_ATTRIBUTES) c in
  let c := on_parse (set_attr_count BT_ANCS_NOTIF_ATTR_COUNT) (on_parse (set_attr_list (Some NotifList)) c) in
  on_parse (set_parse_state BT_ANCS_PARSE_STATE_ATTR_ID)
    (on_response (set_notif_uid uid) (on_parse (set_parse_state BT_ANCS_PARSE_STATE_NOTIF_UID) c)).

Lemma le32_round_trip u : 0 <= u < 2 ^ 32 -> sys_get_le32 (sys_put_le32 u) = u.
Proof.
  intros Hu. rewrite sys_put_le32_spec, sys_get_le32_spec. change (2 ^ 32) with 4294967296 in Hu.
  change (2 ^ 8) with 256. change (2 ^ 16) with (256 * 256). change (2 ^ 24) with (256 * 256 * 256).
  rewrite <- !Z.div_div by lia. pose proof (Z.div_mod u 256). pose proof (Z.div_mod (u / 256) 256). pose proof (Z.div_mod (u / 256 / 256) 256).
  assert (u / 256 / 256 / 256 < 256) by (rewrite !Z.div_div by lia; apply Z.div_lt_upper_bound; lia).
  assert (0 <= u / 256 / 256 / 256) by (rewrite !Z.div_div by lia; apply Z.div_pos; lia).
  rewrite (Z.mod_small (u / 256 / 256 / 256) 256) by lia. lia.
Qed.

Lemma header_bytes uid : bytes (notif_header uid).
Proof.
  unfold notif_header. rewrite sys_put_le32_spec.
  repeat (apply Forall_cons; split; [split; [try apply Z.mod_pos_bound; done|try (apply Z.mod_pos_bound; done); done]|]). done.
Qed.

Lemma header_parsed c uid :
  parse_state (parse_info c) = BT_ANCS_PARSE_STATE_COMMAND_ID -> 0 <= uid < 2 ^ 32 ->
  bt_ancs_parse_get_attrs_response c (notif_header uid) = Ok (at_attributes c uid).
Proof.
  intros Hs Hu. unfold notif_header, bt_ancs_parse_get_attrs_response.
  assert (El : length (sys_put_le32 uid) = 4%nat) by (by rewrite sys_put_le32_spec).
  set (data := _ :: _). assert (Ez : zlen data = 5) by (unfold data; cbn; by rewrite El).
  replace (length data + 2)%nat with 7%nat by lia. rewrite parse_loop_S, Ez. cbn [Z.ltb Z.compare]. unfold parse_round at 1. rewrite Hs.
  unfold command_id_parse. change (rd data 0) with (Ok 0). cbn [mbind res_bind]. change (0 =? BT_ANCS_COMMAND_ID_GET_NOTIF_ATTRIBUTES) with true.
  cbv iota zeta. cbn [mbind res_bind]. rewrite parse_loop_S, Ez. change (0 + 1 <? 5) with true. cbv iota.
  set (c1 := on_parse (set_parse_state BT_ANCS_PARSE_STATE_NOTIF_UID) _).
  change (parse_round c1 data (0 + 1)) with (notif_uid_parse c1 data 1). unfold notif_uid_parse.
  rewrite rd_block_Ok by lia. change (drop (Z.to_nat 1) data) with (sys_put_le32 uid). rewrite take_ge by (rewrite El; done).
  cbn [mbind res_bind]. rewrite le32_round_trip by done. rewrite parse_loop_S, Ez. done.
Qed.

(** The attributes that the user has registered, from the one with number [i] on. *)
Fixpoint asked_ids (l : list bt_ancs_attr_list) (i : Z) : list Z :=
  match l with [] => [] | e :: l => if get e then i :: asked_ids l (i + 1) else asked_ids l (i + 1) end.

Lemma encode_attrs_count l i : (encode_attrs l i).2 = zlen (asked_ids l i).
Proof.
  revert i. induction l as [|e l IH]; intros i; [done|]. cbn. specialize (IH (i + 1)). destruct (encode_attrs l (i + 1)) as [bs n]. cbn in IH.
  destruct (get e); cbn; [rewrite IH; lia|done].
Qed.

Lemma asked_ids_length l i : zlen (asked_ids l i) <= zlen l.
Proof. revert i. induction l as [|e l IH]; intros i; [done|]. cbn. specialize (IH (i + 1)). destruct (get e); cbn; lia. Qed.

(** The most octets the attributes from number [i] on can take in a request. *)
Fixpoint most_octets (l : list bt_ancs_attr_list) (i : Z) : Z :=
  match l with [] => 0 | _ :: l => (if (1 <=? i) && (i <=? 3) then 3 else 1) + most_octets l (i + 1) end.

Lemma encode_attrs_length l i : zlen (encode_attrs l i).1 <= most_octets l i.
Proof.
  revert i. induction l as [|e l IH]; intros i; [done|]. cbn -[Z.leb]. specialize (IH (i + 1)). destruct (encode_attrs l (i + 1)) as [bs n].
  cbn [fst] in *. change BT_ANCS_NOTIF_ATTR_ID_TITLE with 1. change BT_ANCS_NOTIF_ATTR_ID_SUBTITLE with 2. change BT_ANCS_NOTIF_ATTR_ID_MESSAGE with 3.
  destruct (get e); cbn [fst length].
  - rewrite length_app. destruct (Z.eqb_spec i 1), (Z.eqb_spec i 2), (Z.eqb_spec i 3); cbn [orb]; rewrite ?sys_put_le16_spec; cbn [length];
      destruct (Z.leb_spec 1 i), (Z.leb_spec i 3); cbn [andb]; lia.
  - destruct (_ && _); lia.
Qed.

Lemma most_octets_list l : zlen l = 8 -> most_octets l 0 = 14.
Proof. do 9 (destruct l as [|? l]; [done|]). cbn. lia. Qed.

Definition request_octets (c : bt_ancs_client) (uid : Z) : list Z := notif_header uid ++ (encode_attrs (ancs_notif_attr_list c) 0).1.

(** The client [c1] after a request of the client [c]. *)
Record requested (c c1 : bt_ancs_client) (uid : Z) : Prop := {
  rq_ok : client_ok c1;
  rq_state : parse_state (parse_info c1) = BT_ANCS_PARSE_STATE_COMMAND_ID;
  rq_expected : expected_number_of_attrs (parse_info c1) = zlen (asked_ids (ancs_notif_attr_list c) 0);
  rq_calls : calls c1 = calls c ++ [GattWrite (handle_cp c) (request_octets c uid)];
  rq_notif : ancs_notif_attr_list c1 = ancs_notif_attr_list c;
  rq_cb : ds_notif_cb c1 = ds_notif_cb c;
  rq_app_id : app_id (attr_response c1) = app_id (attr_response c);
  rq_pending : cp_pending c1 = true
}.

Lemma request_sent c notif func :
  client_ok c -> cp_pending c = false -> bt_ancs_verify_notification_format notif = 0 -> zlen (cp_data c) = CP_BUFF_SIZE ->
  exists c1, bt_ancs_request_attrs c notif func 0 = Ok (c1, 0) /\ requested c c1 (n_notif_uid notif).
Proof.
  intros [Hb Hst] Hp Hv Hcp. unfold bt_ancs_request_attrs. rewrite Hv. cbn [ctrue Z.eqb negb]. unfold bt_ancs_get_notif_attrs.
  change (cp_pending (on_parse _ c)) with (cp_pending c). rewrite Hp. cbv iota zeta.
  change (ancs_notif_attr_list (set_cp_pending true _)) with (ancs_notif_attr_list c).
  pose proof (encode_attrs_count (ancs_notif_attr_list c) 0) as Hn. pose proof (encode_attrs_length (ancs_notif_attr_list c) 0) as Hl.
  rewrite most_octets_list in Hl by apply Hb. pose proof (eq_refl (request_octets c (n_notif_uid notif))) as Hq.
  unfold request_octets at 1 in Hq. destruct (encode_attrs (ancs_notif_attr_list c) 0) as [bs n]. cbn [fst snd] in *.
  change ([BT_ANCS_COMMAND_ID_GET_NOTIF_ATTRIBUTES] ++ sys_put_le32 (n_notif_uid notif) ++ bs) with (notif_header (n_notif_uid notif) ++ bs).
  rewrite Hq. unfold put_cp. change (cp_data (set_cp_pending true _)) with (cp_data c).
  assert (Hlen : zlen (request_octets c (n_notif_uid notif)) <= zlen (cp_data c)).
  { rewrite <- Hq, length_app, Hcp. unfold notif_header. rewrite sys_put_le32_spec. cbn [length]. pose proof cp_buff_size_range. lia. }
  rewrite wr_block_start by done. cbn [mbind res_bind]. unfold bt_ancs_cp_write. cbn [ctrue Z.eqb negb].
  eexists. split; [reflexivity|]. split; [|done|by rewrite <- Hn| |done..].
  - split; [by apply (base_ok_same c)|done].
  - set (q := request_octets c (n_notif_uid notif)).
    change (calls c ++ [GattWrite (handle_cp c) (take (Z.to_nat (zlen q)) (q ++ drop (length q) (cp_data c)))] = calls c ++ [GattWrite (handle_cp c) q]).
    by rewrite Nat2Z.id, take_app_length.
Qed.

(** What the user gets for an attribute of the notification with this UID. *)
Definition delivered (f : Z) (c : bt_ancs_client) (uid : Z) (value : Z -> list Z) (id : Z) (x : ancs_call) : Prop :=
  exists e content, ancs_notif_attr_list c !! Z.to_nat id = Some e /\
    x = DsNotif f {| r_command_id := BT_ANCS_COMMAND_ID_GET_NOTIF_ATTRIBUTES; attr_len := zlen (value id); attr_id := id;
                     attr_data := l_attr_data e; notif_uid := uid; app_id := app_id (attr_response c) |} content /\
    (value id <> [] -> holds_value e (value id) content).

Definition notif_response (c : bt_ancs_client) (uid : Z) (value : Z -> list Z) : list Z :=
  notif_header uid ++ attrs_octets ((fun id => (id, value id)) <$> asked_ids (ancs_notif_attr_list c) 0).

Lemma asked_ids_entry l i :
  Forall (fun id => i <= id < i + zlen l /\ exists e, l !! Z.to_nat (id - i) = Some e /\ get e = true) (asked_ids l i).
Proof.
  revert i. induction l as [|e l IH]; intros i; [done|]. cbn [asked_ids length].
  assert (H : Forall (fun id => i <= id < i + Z.of_nat (S (length l)) /\ exists e0, (e :: l) !! Z.to_nat (id - i) = Some e0 /\ get e0 = true) (asked_ids l (i + 1))).
  { eapply Forall_impl; [apply (IH (i + 1))|]. intros id (Hr & e0 & He0 & Hg). split; [lia|]. exists e0. split; [|done].
    replace (Z.to_nat (id - i)) with (S (Z.to_nat (id - (i + 1)))) by lia. done. }
  destruct (get e) eqn:Hg; [|done]. apply Forall_cons. split; [|done]. split; [lia|]. exists e. by rewrite Z.sub_diag.
Qed.

Lemma response_parsed f c c1 uid value :
  requested c c1 uid -> ds_notif_cb c = Some f -> 0 <= uid < 2 ^ 32 -> asked_ids (ancs_notif_attr_list c) 0 <> [] ->
  (forall id, bytes (value id) /\ zlen (value id) < 65536) ->
  exists c' new, bt_ancs_parse_get_attrs_response c1 (notif_response c uid value) = Ok c' /\ bytes (notif_response c uid value) /\
    parse_state (parse_info c') = BT_ANCS_PARSE_STATE_DONE /\ calls c' = calls c1 ++ new /\
    Forall2 (delivered f c uid value) (asked_ids (ancs_notif_attr_list c) 0) new.
Proof.
  intros [Hok Hs Hex _ Hli Hcb Happ _] Hf Hu Hne Hv. set (ids := asked_ids (ancs_notif_attr_list c) 0) in *.
  set (l := (fun id => (id, value id)) <$> ids). pose proof (header_parsed c1 uid Hs Hu) as E1. set (c2 := at_attributes c1 uid) in *.
  assert (Hfit : forall data, uid_fits c1 (notif_header uid ++ data) 0).
  { intros data. split; [by rewrite Hs|]. intros _ _ _. right. unfold notif_header. rewrite sys_put_le32_spec. cbn [length app]. lia. }
  assert (Hok2 : client_ok c2).
  { destruct (parse_gives c1 (notif_header uid) Hok (header_bytes uid)) as (c2' & E & ?); [|congruence]. specialize (Hfit []). by rewrite app_nil_r in Hfit. }
  assert (Hn : zlen ids <= 8) by (etrans; [apply asked_ids_length|]; destruct Hok as [[Hn _ _ _ _] _]; rewrite Hli in Hn; by rewrite Hn).
  assert (Hent : forall id e, ancs_notif_attr_list c !! Z.to_nat id = Some e -> entry_of c2 id = Ok e).
  { intros id e He. unfold entry_of, cur_entry, list_of, c2. cbn. by rewrite Hli, He. }
  assert (Hall : Forall (expected_attr c2) l).
  { unfold l. apply Forall_fmap. pose proof (asked_ids_entry (ancs_notif_attr_list c) 0) as Ha. eapply Forall_impl; [exact Ha|].
    intros id (Hr & e & He & Hg). rewrite Z.sub_0_r in He. split; [|split; [exists e; split; [by apply Hent|done]|apply Hv]].
    cbn. destruct Hok as [[Hn8 _ _ _ _] _]. rewrite Hli in Hn8. rewrite Hn8 in Hr. exact Hr. }
  destruct (attributes_parsed f l c2) as (c' & new & E2 & Hok' & Hfr & Hs' & Hc & Hcalls); try done.
  - cbn. by rewrite Hcb.
  - unfold l. by destruct ids.
  - unfold l. rewrite length_fmap. exact Hex.
  - unfold l. rewrite length_fmap. change (2 ^ 32) with 4294967296. lia.
  - assert (Hby : bytes (notif_response c uid value)).
    { apply Forall_app. split; [apply header_bytes|]. eapply expected_bytes; [|exact Hall]. by left. }
    exists c', new. split; [eapply parse_app; [done|done|apply Hfit|done..]|]. split; [done|]. split; [done|]. split; [done|].
    unfold l in Hcalls. rewrite Forall2_fmap_l in Hcalls. eapply Forall2_impl; [exact Hcalls|]. intros id x (e & content & He & -> & Hval). cbn in He, Hval.
    unfold entry_of, cur_entry, list_of, c2 in He. cbn in He. rewrite Hli in He.
    destruct (ancs_notif_attr_list c !! Z.to_nat id) as [e'|] eqn:El; [|done]. injection He as ->.
    exists e, content. split; [done|]. split; [|done]. f_equal. unfold response_of. cbn. by rewrite Happ.
Qed.

End Octets.

(** C16: A request for the attributes of a notification sends the request that
    asks for the registered attributes; when the response to it arrives, in pieces
    of any sizes that do not split the notification UID, the user is called once
    for each attribute, in order, with its identifier, its length and the
    notification UID, and the buffer of the attribute then has, for a value that is
    not empty, as much of the value as fits with a final zero. For an empty value
    nothing is written into the buffer, not even the zero. The registered buffers
    have at least two octets. *)
Theorem notification_attributes_delivered `{LittleEndian, NetBuf, AncsConfig} c notif func f value pieces :
  client_ok c -> cp_pending c = false -> zlen (cp_data c) = CP_BUFF_SIZE -> ds_notif_cb c = Some f ->
  bt_ancs_verify_notification_format notif = 0 -> 0 <= n_notif_uid notif < 2 ^ 32 ->
  asked_ids (ancs_notif_attr_list c) 0 <> [] -> (forall id, bytes (value id) /\ zlen (value id) < 65536) ->
  concat pieces = notif_response c (n_notif_uid notif) value ->
  (forall n, zlen (concat (take n pieces)) <= 1 \/ 5 <= zlen (concat (take n pieces))) ->
  exists c1 c2 new, bt_ancs_request_attrs c notif func 0 = Ok (c1, 0) /\
    calls c1 = calls c ++ [GattWrite (handle_cp c) (request_octets c (n_notif_uid notif))] /\
    receive c1 pieces = Ok c2 /\ parse_state (parse_info c2) = BT_ANCS_PARSE_STATE_DONE /\ calls c2 = calls c1 ++ new /\
    Forall2 (delivered f c (n_notif_uid notif) value) (asked_ids (ancs_notif_attr_list c) 0) new.
Proof.
  intros Hok Hp Hcp Hf Hver Hu Hne Hv Hpieces Hsplit. destruct (request_sent c notif func Hok Hp Hver Hcp) as (c1 & E & Hrq).
  destruct (response_parsed f c c1 _ value Hrq Hf Hu Hne Hv) as (c2 & new & E2 & Hby & Hs & Hc & Hall).
  exists c1, c2, new. split; [done|]. split; [apply Hrq|]. split; [|done]. rewrite receive_whole; [by rewrite Hpieces|apply Hrq|by rewrite Hpieces|].
  intros n. split; [by rewrite (rq_state _ _ _ Hrq)|]. intros _ Hlt _. destruct (Hsplit n); lia.
Qed.
