(* ===== verification/AncsSession.v ===== *)
(** * The client of the notification service as a whole

    The client finds the handles of the service that the Discovery Manager has
    discovered; no order of the calls of the user and of the stack, and no data of
    the peer, makes it leave its buffers; and where it goes wrong. *)

From stdpp Require Import prelude list.
From Stdlib Require Import ZArith Lia.
From S2P Require Import Prelude GattDm GattDmSpec GattDmLookup Ancs AncsSpec AncsDeliver.

Open Scope Z_scope.

(** ** Handles of the service *)

(** The characteristics of the service with their handles. *)
Record ancs_service `{GattStack} (s : gservice) (cp ns ns_ccc ds ds_ccc : Z) : Prop := {
  as_ok : service_ok s;
  as_uuid : bt_uuid_cmp (gs_uuid s) BT_UUID_ANCS = 0;
  as_cp : first_desc s BT_UUID_ANCS_CONTROL_POINT BT_UUID_ANCS_CONTROL_POINT cp;
  as_ns : first_desc s BT_UUID_ANCS_NOTIFICATION_SOURCE BT_UUID_ANCS_NOTIFICATION_SOURCE ns;
  as_ns_ccc : first_desc s BT_UUID_ANCS_NOTIFICATION_SOURCE BT_UUID_GATT_CCC ns_ccc;
  as_ds : first_desc s BT_UUID_ANCS_DATA_SOURCE BT_UUID_ANCS_DATA_SOURCE ds;
  as_ds_ccc : first_desc s BT_UUID_ANCS_DATA_SOURCE BT_UUID_GATT_CCC ds_ccc
}.

Section Handles.
Context `{GattStack}.

Lemma desc_handle_found d s cu du h :
  service_ok s -> attrs d = found s -> first_desc s cu du h ->
  exists i, bt_gatt_dm_char_by_uuid d cu = Ok (Some i) /\ desc_handle d i du = Ok (Some h).
Proof.
  intros Hok Hd Hf. destruct (first_desc_found d s cu du h Hok Hd Hf) as (i & j & b & E1 & E2 & E3 & E4).
  exists i. split; [done|]. unfold desc_handle. rewrite E2. cbn [mbind res_bind]. unfold attr_at. rewrite E3. cbn. by rewrite E4.
Qed.

Lemma handles_assigned d s c cp ns ns_ccc ds ds_ccc :
  ancs_service s cp ns ns_ccc ds ds_ccc -> attrs d = found s ->
  exists c', bt_ancs_handles_assign d c = Ok (c', 0) /\ c_conn c' = conn d /\ handle_cp c' = cp /\
    handle_ns c' = ns /\ handle_ns_ccc c' = ns_ccc /\ handle_ds c' = ds /\ handle_ds_ccc c' = ds_ccc /\ cp_pending c' = false.
Proof.
  intros [Hok Hu Hcp Hns Hnc Hds Hdc] Hd.
  assert (E0 : bt_gatt_dm_service_get d = Ok (svc_attr s)) by (unfold bt_gatt_dm_service_get, attr_at; by rewrite Hd).
  unfold bt_ancs_handles_assign. rewrite E0. cbn [mbind res_bind]. unfold service_val_of, bt_gatt_dm_attr_service_val. cbn [svc_attr d_uuid].
  rewrite uuid_cmp_refl. cbn [Z.eqb orb d_data svc_attr mbind res_bind sv_uuid]. rewrite Hu. cbn [ctrue Z.eqb negb].
  destruct (desc_handle_found d s _ _ _ Hok Hd Hcp) as (i1 & E1 & Ecp). rewrite E1. cbn [mbind res_bind]. rewrite Ecp. cbn [mbind res_bind].
  destruct (desc_handle_found d s _ _ _ Hok Hd Hns) as (i2 & E2 & Ens). rewrite E2. cbn [mbind res_bind]. rewrite Ens. cbn [mbind res_bind].
  destruct (desc_handle_found d s _ _ _ Hok Hd Hnc) as (i2' & E2' & Enc). rewrite E2 in E2'. injection E2' as <-. rewrite Enc. cbn [mbind res_bind].
  destruct (desc_handle_found d s _ _ _ Hok Hd Hds) as (i3 & E3 & Eds). rewrite E3. cbn [mbind res_bind]. rewrite Eds. cbn [mbind res_bind].
  destruct (desc_handle_found d s _ _ _ Hok Hd Hdc) as (i3' & E3' & Edc). rewrite E3 in E3'. injection E3' as <-. rewrite Edc. cbn [mbind res_bind].
  eexists. split; [reflexivity|]. by destruct c.
Qed.

Lemma desc_handle_total d i du : (i < length (attrs d))%nat -> exists o, desc_handle d i du = Ok o.
Proof.
  intros Hi. unfold desc_handle. destruct (desc_by_uuid_total d du i Hi) as (o & -> & Ho). cbn [mbind res_bind].
  destruct o as [j|]; [|by eexists]. destruct (Ho j eq_refl) as (a & Ha). unfold attr_at. rewrite Ha. by eexists.
Qed.

(** The state with other handles, another connection and other flags. *)
Definition same_but_handles (c c' : bt_ancs_client) : Prop :=
  ancs_notif_attr_list c' = ancs_notif_attr_list c /\ ancs_app_attr_list c' = ancs_app_attr_list c /\ bufs c' = bufs c /\
  parse_info c' = parse_info c /\ attr_response c' = attr_response c /\ cp_data c' = cp_data c.

(** The next search of a characteristic or of a descriptor. *)
Ltac assign_chrc d Hd := match goal with |- context [bt_gatt_dm_char_by_uuid d ?cu] =>
  let o := fresh "o" in let i := fresh "i" in let Ho := fresh "Ho" in
  destruct (char_by_uuid_total d cu Hd) as (o & -> & Ho); cbn [mbind res_bind];
  destruct o as [i|]; [specialize (Ho i eq_refl)|by eexists] end.
Ltac assign_desc d := match goal with |- context [desc_handle d ?i ?du] =>
  let o := fresh "o" in let h := fresh "h" in
  destruct (desc_handle_total d i du) as (o & ->); [done|]; cbn [mbind res_bind]; destruct o as [h|]; [|by eexists] end.

(** Whatever service was discovered, the assignment of the handles returns. *)
Lemma handles_assign_gives d c : discovered d -> gives (bt_ancs_handles_assign d c) (fun r => same_but_handles c r.1).
Proof.
  intros Hd. pose proof Hd as [(a & v & u & Ha & Hs & Hv & Hu) _]. unfold bt_ancs_handles_assign, bt_gatt_dm_service_get, attr_at.
  rewrite Ha. cbn [mbind res_bind]. unfold service_val_of. rewrite Hs, Hv. cbn [mbind res_bind]. rewrite Hu.
  destruct (ctrue _); [by eexists|].
  assign_chrc d Hd. assign_desc d. assign_chrc d Hd. assign_desc d. assign_desc d. assign_chrc d Hd. assign_desc d. assign_desc d.
  by eexists.
Qed.

End Handles.

(** C22: When a server has the notification service, a discovery of the service by
    its UUID reports it, and the client then has the connection and the handles of
    its three characteristics and of their configuration descriptors. *)
Theorem ancs_service_connected `{GattServer db} k_calloc cb d conn_id ctx s l c cp ns ns_ccc ds ds_ccc :
  (forall n, k_calloc n = true) -> set_user_calls cb -> locked d = false -> release_pending d = false ->
  filter (asked (Some BT_UUID_ANCS) 1) db = s :: l -> ancs_service s cp ns ns_ccc ds ds_ccc ->
  exists d1 d2 c', bt_gatt_dm_start d conn_id (Some BT_UUID_ANCS) (Some cb) ctx 0 = (d1, 0) /\
    discovery k_calloc d1 = Ok d2 /\ reports d2 = reports d ++ [Completed (found s) ctx] /\
    bt_ancs_handles_assign d2 c = Ok (c', 0) /\ c_conn c' = conn_id /\ handle_cp c' = cp /\
    handle_ns c' = ns /\ handle_ns_ccc c' = ns_ccc /\ handle_ds c' = ds /\ handle_ds_ccc c' = ds_ccc.
Proof.
  intros Hk Hcb Hl Hp Ef Hs. destruct (started_searching cb d conn_id (Some BT_UUID_ANCS) ctx Hl Hp) as (E & Hse & Hr & Hc & Hx & _); [done|].
  destruct (discovery_found k_calloc Hk cb Hcb _ _ _ _ _ Hse Ef (as_ok _ _ _ _ _ _ Hs)) as (d2 & E2 & Hfi).
  destruct (finished_reports _ _ _ Hfi) as [Hr2 Hc2].
  destruct (handles_assigned d2 s c _ _ _ _ _ Hs (fi_attrs _ _ _ Hfi)) as (c' & E3 & Hcc & H1 & H2 & H3 & H4 & H5 & _).
  exists (started cb d conn_id (Some BT_UUID_ANCS) ctx), d2, c'. split; [done|]. split; [done|]. split; [by rewrite Hr2, Hr, Hx|]. split; [done|].
  split; [by rewrite Hcc, Hc2|done].
Qed.

(** ** Any order of calls *)

(** The calls of the user and of the stack, with what the stack returns. *)
Inductive ancs_op :=
  | OpHandlesAssign (d : bt_gatt_dm)
  | OpRegister (id : Z) (data : option nat) (len : Z)
  | OpRegisterApp (id : Z) (data : option nat) (len : Z)
  | OpSubscribeNs (func : option Z) (err : Z)
  | OpSubscribeDs (func : option Z) (err : Z)
  | OpUnsubscribeNs (err : Z)
  | OpUnsubscribeDs (err : Z)
  | OpAction (uuid action_id : Z) (func : option Z) (err : Z)
  | OpRequest (notif : bt_ancs_evt_notif) (func : option Z) (err : Z)
  | OpRequestApp (id : list Z) (len : Z) (func : option Z) (err : Z)
  | OpReceiveNs (data : list Z)
  | OpReceiveDs (data : list Z)
  | OpWritten (err : Z).

Section Operations.
Context {LE : LittleEndian} {NB : NetBuf} {AC : AncsConfig} {GS : GattStack}.

Definition ancs_apply (c : bt_ancs_client) (op : ancs_op) : res bt_ancs_client :=
  match op with
  | OpHandlesAssign d => let* r := bt_ancs_handles_assign d c in Ok r.1
  | OpRegister id data len => Ok (bt_ancs_register_attr c id data len).1
  | OpRegisterApp id data len => Ok (bt_ancs_register_app_attr c id data len).1
  | OpSubscribeNs func err => Ok (bt_ancs_subscribe_notification_source c func err).1
  | OpSubscribeDs func err => Ok (bt_ancs_subscribe_data_source c func err).1
  | OpUnsubscribeNs err => Ok (bt_ancs_unsubscribe_notification_source c err).1
  | OpUnsubscribeDs err => Ok (bt_ancs_unsubscribe_data_source c err).1
  | OpAction uuid action_id func err => let* r := bt_ancs_notification_action c uuid action_id func err in Ok r.1
  | OpRequest notif func err => let* r := bt_ancs_request_attrs c notif func err in Ok r.1
  | OpRequestApp id len func err => let* r := bt_ancs_request_app_attr c id len func err in Ok r.1
  | OpReceiveNs data => let* r := on_received_ns c data in Ok r.1
  | OpReceiveDs data => let* r := on_received_ds c data in Ok r.1
  | OpWritten err => Ok (bt_ancs_cp_write_callback c err)
  end.

(** No attribute is being parsed. *)
Definition between_attrs (c : bt_ancs_client) : Prop :=
  match parse_state (parse_info c) with
  | BT_ANCS_PARSE_STATE_ATTR_LEN1 | BT_ANCS_PARSE_STATE_ATTR_LEN2 | BT_ANCS_PARSE_STATE_ATTR_DATA
  | BT_ANCS_PARSE_STATE_ATTR_SKIP => False
  | _ => True
  end.

(** A buffer that is registered has the length that is given with it, which is
    not one. *)
Definition buffer_given (c : bt_ancs_client) (data : option nat) (len : Z) : Prop :=
  0 <= len /\ len <> 1 /\ forall i, data = Some i -> exists b, bufs c !! i = Some b /\ len <= zlen b.

(** What the user and the stack respect: handles are assigned after a discovery,
    buffers are registered while no attribute is being parsed (with other buffers
    the parser would not come to an end, or leave them: [registered_in_attribute_hangs],
    [registered_in_attribute_overruns]), an app identifier has its length, and the
    stack does not split the notification UID. *)
Definition op_allowed (c : bt_ancs_client) (op : ancs_op) : Prop :=
  match op with
  | OpHandlesAssign d => discovered d
  | OpRegister _ data len | OpRegisterApp _ data len => between_attrs c /\ buffer_given c data len
  | OpRequestApp id len _ _ => 0 <= len <= zlen id /\ len < 2 ^ 32 - 1
  | OpReceiveDs data => bytes data /\ uid_fits c data 0
  | _ => True
  end.

Definition ancs_ok (c : bt_ancs_client) : Prop := client_ok c /\ zlen (cp_data c) = CP_BUFF_SIZE.

Definition ancs_step (c c' : bt_ancs_client) : Prop := exists op, op_allowed c op /\ ancs_apply c op = Ok c'.

(** The parser and what it depends on are the same. *)
Lemma client_ok_same c c' :
  client_ok c -> ancs_notif_attr_list c' = ancs_notif_attr_list c -> ancs_app_attr_list c' = ancs_app_attr_list c ->
  bufs c' = bufs c -> parse_info c' = parse_info c -> attr_response c' = attr_response c -> client_ok c'.
Proof.
  intros [Hb Hst] En Ea Eb Ep Er. split; [apply (base_ok_same c); congruence|].
  unfold state_ok, at_attr, listed, cur_entry, list_of in *. by rewrite Ep, Er, En, Ea.
Qed.

(** Before a response, the parser is ready for it whatever it was doing. *)
Lemma client_ok_ready c c' :
  base_ok c -> ancs_notif_attr_list c' = ancs_notif_attr_list c -> ancs_app_attr_list c' = ancs_app_attr_list c ->
  bufs c' = bufs c -> parse_state (parse_info c') = BT_ANCS_PARSE_STATE_COMMAND_ID -> attr_response c' = attr_response c -> client_ok c'.
Proof. intros Hb En Ea Eb Ep Er. split; [apply (base_ok_same c); congruence|]. unfold state_ok. by rewrite Ep. Qed.

Lemma registered_ok (c c' : bt_ancs_client) :
  client_ok c -> between_attrs c -> zlen (ancs_notif_attr_list c') = BT_ANCS_NOTIF_ATTR_COUNT ->
  zlen (ancs_app_attr_list c') = BT_ANCS_APP_ATTR_COUNT -> Forall (entry_ok (bufs c)) (ancs_notif_attr_list c') ->
  Forall (entry_ok (bufs c)) (ancs_app_attr_list c') -> bufs c' = bufs c -> parse_info c' = parse_info c ->
  attr_response c' = attr_response c -> client_ok c'.
Proof.
  intros [Hb Hst] Hbt H1 H2 H3 H4 Eb Ep Er. split.
  - split; [done|done|by rewrite Eb|by rewrite Eb|rewrite Er; apply Hb].
  - unfold state_ok, between_attrs, listed in *. rewrite Ep. by destruct (parse_state (parse_info c)).
Qed.

Lemma entry_given c i len :
  buffer_given c (Some i) len -> len <> 0 -> len <= BT_ANCS_ATTR_DATA_MAX ->
  entry_ok (bufs c) {| get := true; l_attr_len := len; l_attr_data := Some i |}.
Proof.
  intros (H0 & H1 & Hb) Hn Hm. unfold entry_ok. cbn [get l_attr_len l_attr_data]. split; [lia|].
  destruct (Hb i eq_refl) as (b & Hi & Hl). by exists i, b.
Qed.

Lemma register_ok c id data len :
  ancs_ok c -> between_attrs c -> buffer_given c data len -> ancs_ok (bt_ancs_register_attr c id data len).1.
Proof.
  intros Hall Hbt Hg. pose proof Hall as [Hok Hcp]. unfold bt_ancs_register_attr. destruct data as [i|]; [|exact Hall].
  rewrite bool_decide_false by done. destruct (Z.eqb_spec len 0); [exact Hall|].
  destruct (Z.ltb_spec BT_ANCS_ATTR_DATA_MAX len); [exact Hall|]. cbn [orb]. destruct (_ || _); [exact Hall|].
  pose proof Hok as [Hb _]. split; [|done]. apply (registered_ok c); try done.
  - cbn. rewrite length_insert. apply Hb.
  - apply Hb.
  - cbn. apply Forall_insert; [apply Hb|]. by apply entry_given.
  - apply Hb.
Qed.

Lemma register_app_ok c id data len :
  ancs_ok c -> between_attrs c -> buffer_given c data len -> ancs_ok (bt_ancs_register_app_attr c id data len).1.
Proof.
  intros Hall Hbt Hg. pose proof Hall as [Hok Hcp]. unfold bt_ancs_register_app_attr. destruct data as [i|]; [|exact Hall].
  rewrite bool_decide_false by done. destruct (Z.eqb_spec len 0); [exact Hall|].
  destruct (Z.ltb_spec BT_ANCS_ATTR_DATA_MAX len); [exact Hall|]. cbn [orb]. destruct (_ || _); [exact Hall|].
  pose proof Hok as [Hb _]. split; [|done]. apply (registered_ok c); try done.
  - apply Hb.
  - cbn. rewrite length_insert. apply Hb.
  - apply Hb.
  - cbn. apply Forall_insert; [apply Hb|]. by apply entry_given.
Qed.

Lemma put_cp_gives c bs :
  zlen bs <= zlen (cp_data c) -> gives (put_cp bs c) (fun c' => exists data, c' = set_cp_data data c /\ zlen data = zlen (cp_data c)).
Proof.
  intros Hl. unfold put_cp. rewrite wr_block_start by done. eexists. split; [reflexivity|]. eexists. split; [reflexivity|].
  rewrite length_app, length_drop. lia.
Qed.

Lemma cp_write_ok c len func err : ancs_ok c -> ancs_ok (bt_ancs_cp_write c len func err).1.
Proof. intros [Hok Hcp]. unfold bt_ancs_cp_write. destruct (ctrue err); (split; [by apply (client_ok_same c)|done]). Qed.

Lemma action_ok c uuid action_id func err :
  ancs_ok c -> gives (bt_ancs_notification_action c uuid action_id func err) (fun r => ancs_ok r.1).
Proof.
  intros [Hok Hcp]. unfold bt_ancs_notification_action. destruct (cp_pending c); [by exists (c, - errno_num EBUSY)|].
  eapply gives_then.
  - apply put_cp_gives. unfold encode_notif_action. rewrite sys_put_le32_spec. pose proof cp_buff_size_range. cbn. lia.
  - intros c1 (data & -> & Hd). eexists. split; [reflexivity|]. apply cp_write_ok. split; [by apply (client_ok_same c)|]. by rewrite <- Hcp.
Qed.

Lemma request_ok c notif func err : ancs_ok c -> gives (bt_ancs_request_attrs c notif func err) (fun r => ancs_ok r.1).
Proof.
  intros [Hok Hcp]. pose proof Hok as [Hb _]. unfold bt_ancs_request_attrs. destruct (ctrue _); [by eexists|].
  unfold bt_ancs_get_notif_attrs. change (cp_pending (on_parse _ c)) with (cp_pending c).
  destruct (cp_pending c); [eexists; split; [reflexivity|]; split; [by apply (client_ok_ready c)|done]|]. cbv zeta.
  change (ancs_notif_attr_list (set_cp_pending true _)) with (ancs_notif_attr_list c).
  pose proof (encode_attrs_length (ancs_notif_attr_list c) 0) as Hl. rewrite most_octets_list in Hl by apply Hb.
  destruct (encode_attrs (ancs_notif_attr_list c) 0) as [bs n]. cbn [fst] in Hl. eapply gives_then.
  - apply put_cp_gives. rewrite !length_app, sys_put_le32_spec. pose proof cp_buff_size_range.
    change (cp_data (set_cp_pending true _)) with (cp_data c). cbn [length]. lia.
  - intros c1 (data & -> & Hd). eexists. split; [reflexivity|]. apply cp_write_ok. split; [by apply (client_ok_ready c)|]. by rewrite <- Hcp.
Qed.

(** The buffer for the request of an app's attributes, over [n] octets. *)
Definition nb_fits (n : Z) (b : net_buf_simple) : Prop :=
  zlen (nb_data b) + net_buf_simple_tailroom b = n /\ 0 <= net_buf_simple_tailroom b.

Lemma nb_add_gives n b bs :
  nb_fits n b -> zlen bs <= net_buf_simple_tailroom b ->
  gives (nb_add b bs) (fun b' => nb_fits n b' /\ net_buf_simple_tailroom b' = net_buf_simple_tailroom b - zlen bs).
Proof.
  intros [Hn H0] Hl. unfold nb_add. destruct (Z.ltb_spec (net_buf_simple_tailroom b) (zlen bs)); [lia|].
  eexists. split; [reflexivity|]. pose proof (nb_add_data b bs Hl) as Hd. pose proof (nb_add_room b bs Hl) as Hr.
  split; [|done]. split; [|lia]. rewrite Hd, length_app. lia.
Qed.

Lemma cmd_id_gives n b : nb_fits n b ->
  gives (app_attr_encode_cmd_id b) (fun r => nb_fits n r.1 /\ (r.2 = APP_ATTR_APP_ID \/ r.2 = APP_ATTR_ABORT)).
Proof.
  intros Hb. unfold app_attr_encode_cmd_id. destruct (Z.ltb_spec (net_buf_simple_tailroom b) 1).
  - eexists. split; [reflexivity|]. auto.
  - eapply gives_then; [by apply (nb_add_gives n)|]. intros b' [Hb' _]. eexists. split; [reflexivity|]. auto.
Qed.

Lemma app_id_gives n b id len : nb_fits n b -> 0 <= len <= zlen id -> len < 2 ^ 32 - 1 ->
  gives (app_attr_encode_app_id b id len) (fun r => nb_fits n r.1 /\ (r.2 = APP_ATTR_ATTR_ID \/ r.2 = APP_ATTR_ABORT)).
Proof.
  intros Hb Hlen Hlt. unfold app_attr_encode_app_id. change (2 ^ 32) with 4294967296 in Hlt. rewrite u32_small by lia.
  destruct (Z.ltb_spec (net_buf_simple_tailroom b) (len + 1)).
  { eexists. split; [reflexivity|]. auto. }
  rewrite rd_block_Ok by lia. cbn [mbind res_bind]. set (bs := take _ _).
  assert (Hbs : zlen bs = len) by (unfold bs; rewrite length_take, length_drop; lia).
  eapply gives_then; [apply (nb_add_gives n); [done|lia]|]. intros b1 [Hb1 Hr1].
  eapply gives_then; [apply (nb_add_gives n); [done|cbn; lia]|]. intros b2 [Hb2 _]. eexists. split; [reflexivity|]. auto.
Qed.

Lemma app_ids_gives n l i b k : nb_fits n b ->
  gives (encode_app_ids l i b k) (fun r => nb_fits n r.1.1 /\ (r.2 = APP_ATTR_DONE \/ r.2 = APP_ATTR_ABORT)).
Proof.
  revert i b k. induction l as [|e l IH]; intros i b k Hb; cbn [encode_app_ids]; [eexists; split; [reflexivity|auto]|].
  destruct (get e); [|by apply IH]. destruct (Z.ltb_spec (net_buf_simple_tailroom b) 1); [eexists; split; [reflexivity|auto]|].
  eapply gives_then; [by apply (nb_add_gives n)|]. intros b' [Hb' _]. by apply IH.
Qed.

(** The encoder comes to an end, with the client changed only in the number of
    attributes. *)
Lemma app_attr_loop_gives n c b id len : nb_fits n b -> 0 <= len <= zlen id -> len < 2 ^ 32 - 1 ->
  gives (app_attr_loop 3 c b id len APP_ATTR_COMMAND_ID)
    (fun r => nb_fits n r.1.2 /\ exists k, r.1.1 = set_number_of_requested_attr k c).
Proof.
  intros Hb Hlen Hlt. assert (Hsame : c = set_number_of_requested_attr (number_of_requested_attr c) c) by (by destruct c).
  cbn [app_attr_loop]. destruct (cmd_id_gives n b Hb) as ([b1 st1] & -> & Hb1 & Hs1). cbn [mbind res_bind fst snd] in *.
  destruct Hs1 as [->| ->]; [|eexists; split; [reflexivity|]; split; [done|by eexists]].
  destruct (app_id_gives n b1 id len Hb1 Hlen Hlt) as ([b2 st2] & -> & Hb2 & Hs2). cbn [mbind res_bind fst snd] in *.
  destruct Hs2 as [->| ->]; [|eexists; split; [reflexivity|]; split; [done|by eexists]].
  unfold app_attr_encode_attr_id. destruct (app_ids_gives n (ancs_app_attr_list c) 0 b2 0 Hb2) as ([[b3 k] st3] & -> & Hb3 & Hs3).
  cbn [mbind res_bind fst snd] in *. destruct Hs3 as [->| ->]; (eexists; split; [reflexivity|]; split; [done|by eexists]).
Qed.

Lemma request_app_ok c id len func err :
  ancs_ok c -> 0 <= len <= zlen id -> len < 2 ^ 32 - 1 -> gives (bt_ancs_request_app_attr c id len func err) (fun r => ancs_ok r.1).
Proof.
  intros [Hok Hcp] Hlen Hlt. pose proof Hok as [Hb _]. unfold bt_ancs_request_app_attr, bt_ancs_app_attr_request.
  destruct (len =? 0); [by eexists|]. unfold app_attr_get. change (cp_pending (on_parse _ c)) with (cp_pending c).
  destruct (cp_pending c); [eexists; split; [reflexivity|]; split; [by apply (client_ok_ready c)|done]|]. cbv zeta.
  change (cp_data (set_cp_pending true _)) with (cp_data c).
  assert (Hnb : nb_fits (zlen (cp_data c)) (net_buf_simple_init_with_data (zlen (cp_data c))))
    by (split; [rewrite nb_init_data, nb_init_room by lia; done|rewrite nb_init_room by lia; lia]).
  eapply gives_then; [by apply (app_attr_loop_gives (zlen (cp_data c)))|]. intros [[c1 b] st] [[Hd Hroom] (k & Ek)]. cbn [fst snd] in *. subst c1.
  eapply gives_then; [apply put_cp_gives; cbn; lia|]. intros c2 (data & -> & Hdata).
  set (c3 := set_cp_data data _). assert (Hc3 : ancs_ok c3) by (split; [by apply (client_ok_ready c)|by rewrite <- Hcp]).
  destruct st; try (eexists; split; [reflexivity|exact Hc3]).
  pose proof (cp_write_ok c3 (zlen (nb_data b)) func err Hc3) as [Hw Hw2]. unfold bt_ancs_cp_write in *. cbv zeta in *. cbn [fst] in *.
  eexists. split; [reflexivity|]. cbn [fst]. destruct (ctrue err); (split; [by apply (client_ok_ready c)|done]).
Qed.

Lemma parse_notif_ok c data : ancs_ok c -> gives (on_received_ns c data) (fun r => ancs_ok r.1).
Proof.
  intros [Hok Hcp]. unfold on_received_ns.
  assert (Hcb : forall err notif, ancs_ok (bt_ancs_do_ns_notif_cb c err notif)).
  { intros. unfold bt_ancs_do_ns_notif_cb. destruct (ns_notif_cb c); [|done]. split; [by apply (client_ok_same c)|done]. }
  eapply (gives_then _ _ ancs_ok); [|intros c1 Hc1; eexists; by split]. unfold parse_notif.
  destruct (Z.eqb_spec (zlen data) BT_ANCS_NOTIF_DATA_LENGTH) as [E|]; cbn [negb]; [|by eexists].
  change BT_ANCS_NOTIF_DATA_LENGTH with 8 in E. cmem. by eexists.
Qed.

(** The parser does not touch the buffer for requests. *)
Lemma attr_end_cp c i c' st j : attr_end c i = Ok (c', st, j) -> cp_data c' = cp_data c.
Proof.
  intros E. unfold attr_end in E. apply bind_Ok_inv in E as (r & _ & E). injection E as <- _ _. unfold bt_ancs_do_ds_notif_cb.
  by destruct r, (ds_notif_cb c).
Qed.

Lemma buf_wr_cp c p i v c' : buf_wr c p i v = Ok c' -> cp_data c' = cp_data c.
Proof.
  unfold buf_wr. destruct p; [|done]. intros E. apply bind_Ok_inv in E as (b & _ & E). apply bind_Ok_inv in E as (b' & _ & E). by injection E as <-.
Qed.

Lemma data_next_cp c e i c' st j : attr_data_next c e i = Ok (c', st, j) -> cp_data c' = cp_data c.
Proof.
  unfold attr_data_next. destruct (_ || _); [|by intros [= <- _ _]]. intros E. apply bind_Ok_inv in E as (r & _ & E).
  apply bind_Ok_inv in E as (c1 & E1 & E). assert (H1 : cp_data c1 = cp_data c) by (destruct r; [by eapply buf_wr_cp|by injection E1 as <-]).
  rewrite <- H1. destruct (_ <? _); [by injection E as <- _ _|by eapply attr_end_cp].
Qed.

Lemma round_cp c data i c' st j : parse_round c data i = Ok (c', st, j) -> cp_data c' = cp_data c.
Proof.
  unfold parse_round. destruct (parse_state (parse_info c)); intros E.
  - apply bind_Ok_inv in E as (b & _ & E). repeat case_match; by injection E as <- _ _.
  - apply bind_Ok_inv in E as (b & _ & E). by injection E as <- _ _.
  - unfold app_id_parse in E. destruct (_ <=? _); [by injection E as <- _ _|]. apply bind_Ok_inv in E as (b & _ & E).
    apply bind_Ok_inv in E as (x & _ & E). destruct (negb _); by injection E as <- _ _.
  - apply bind_Ok_inv in E as (b & _ & E). destruct (_ <=? _); [by injection E as <- _ _|].
    apply bind_Ok_inv in E as (e & _ & E). destruct (all_req_attrs_parsed _); [by injection E as <- _ _|].
    apply bind_Ok_inv in E as (x & _ & E). injection E as <- _ _. by destruct x.
  - apply bind_Ok_inv in E as (b & _ & E). by injection E as <- _ _.
  - apply bind_Ok_inv in E as (b & _ & E). destruct (negb _); [|by apply attr_end_cp in E].
    apply bind_Ok_inv in E as (e & _ & E). destruct (_ || _); by injection E as <- _ _.
  - apply bind_Ok_inv in E as (e & _ & E). destruct (_ && _); [|by apply data_next_cp in E].
    apply bind_Ok_inv in E as (b & _ & E). apply bind_Ok_inv in E as (x & Ex & E). apply data_next_cp in E. apply buf_wr_cp in Ex.
    rewrite E. exact Ex.
  - unfold attr_skip in E. destruct (_ <? _); (destruct (_ =? _); [by apply attr_end_cp in E|by injection E as <- _ _]).
  - by injection E as <- _ _.
Qed.

Lemma parse_cp fuel c data i c' : parse_loop fuel c data i = Ok c' -> cp_data c' = cp_data c.
Proof.
  revert c i. induction fuel as [|fuel IH]; intros c i; cbn [parse_loop]; (destruct (_ <? _); [|by intros [= <-]]); [done|].
  intros E. apply bind_Ok_inv in E as ([[c1 st] j] & Er & E). apply IH in E. apply round_cp in Er. rewrite E. exact Er.
Qed.

Lemma handles_ok c d : ancs_ok c -> discovered d -> gives (bt_ancs_handles_assign d c) (fun r => ancs_ok r.1).
Proof.
  intros [Hok Hcp] Hd. destruct (handles_assign_gives d c Hd) as (r & E & H1 & H2 & H3 & H4 & H5 & H6).
  exists r. split; [done|]. split; [by apply (client_ok_same c)|by rewrite H6].
Qed.

(** The calls are answered, and leave the client in a consistent state. *)
Lemma ancs_apply_ok c op : ancs_ok c -> op_allowed c op -> gives (ancs_apply c op) ancs_ok.
Proof.
  intros Hc Ha. pose proof Hc as [Hok Hcp]. destruct op; cbn [ancs_apply op_allowed] in *.
  - eapply gives_then; [by apply handles_ok|]. intros r Hr. by eexists.
  - eexists. split; [reflexivity|]. by destruct Ha; apply register_ok.
  - eexists. split; [reflexivity|]. by destruct Ha; apply register_app_ok.
  - eexists. split; [reflexivity|]. unfold bt_ancs_subscribe_notification_source. repeat case_match; try done; (split; [by apply (client_ok_same c)|done]).
  - eexists. split; [reflexivity|]. unfold bt_ancs_subscribe_data_source. repeat case_match; try done; (split; [by apply (client_ok_same c)|done]).
  - eexists. split; [reflexivity|]. unfold bt_ancs_unsubscribe_notification_source. repeat case_match; try done; (split; [by apply (client_ok_same c)|done]).
  - eexists. split; [reflexivity|]. unfold bt_ancs_unsubscribe_data_source. repeat case_match; try done; (split; [by apply (client_ok_same c)|done]).
  - eapply gives_then; [by apply action_ok|]. intros r Hr. by eexists.
  - eapply gives_then; [by apply request_ok|]. intros r Hr. by eexists.
  - eapply gives_then; [by destruct Ha; apply request_app_ok|]. intros r Hr. by eexists.
  - eapply gives_then; [by apply parse_notif_ok|]. intros r Hr. by eexists.
  - destruct Ha as [Hd Hu]. unfold on_received_ds. destruct (parse_gives c data Hok Hd Hu) as (c1 & E & Hok1).
    rewrite E. eexists. split; [reflexivity|]. split; [done|]. apply parse_cp in E. change (zlen (cp_data c1) = CP_BUFF_SIZE). by rewrite E.
  - eexists. split; [reflexivity|]. unfold bt_ancs_cp_write_callback. case_match; (split; [by apply (client_ok_same c)|done]).
Qed.

(** A client that is initialized is consistent. *)
Lemma client_init_ok c : ancs_ok (bt_ancs_client_init c).
Proof.
  pose proof cp_buff_size_range. split; [|cbn; rewrite length_replicate; lia]. split; [|done].
  split; [done|done|apply Forall_replicate; by split|apply Forall_replicate; by split|done].
Qed.

End Operations.

(** C23: From the initialization on, in whatever order the user and the stack call
    the functions of the client, and whatever the peer sends: the client stays
    consistent, and every call comes to an end within its buffers, as long as the
    handles are assigned after a completed discovery, the buffers of attributes are
    as long as the user says, have not just one octet and are not registered while
    an attribute is being parsed, the identifier of an app has its length, and the
    stack does not split a notification UID. *)
Theorem ancs_calls_safe `{LittleEndian, NetBuf, AncsConfig, GattStack} c0 c op :
  rtc ancs_step (bt_ancs_client_init c0) c -> op_allowed c op -> exists c', ancs_apply c op = Ok c' /\ ancs_ok c'.
Proof.
  intros Hr Ha. apply ancs_apply_ok; [|done]. clear Ha. revert c Hr.
  apply (rtc_ind_r (R := ancs_step) ancs_ok (bt_ancs_client_init c0)); [apply client_init_ok|].
  intros c c' _ (op' & Ha & E) Hc. destruct (ancs_apply_ok c op' Hc Ha) as (c'' & E' & ?). congruence.
Qed.

(** ** Where the client goes wrong *)

Section Findings.
Context {LE : LittleEndian} {NB : NetBuf} {AC : AncsConfig}.

(** With a registered length of one octet, the parser does not come to an end in
    an attribute of more than one octet. *)
Lemma one_octet_length_hangs c e data i fuel :
  parse_state (parse_info c) = BT_ANCS_PARSE_STATE_ATTR_DATA -> cur_entry c = Ok e -> l_attr_len e = 1 ->
  current_attr_index (parse_info c) = 1 -> 2 <= attr_len (attr_response c) -> i < zlen data ->
  parse_loop fuel c data i = NoFuel.
Proof.
  intros Hs He Hl Hi Hlen Hd. assert (Hsame : on_parse (set_parse_state BT_ANCS_PARSE_STATE_ATTR_DATA) c = c)
    by (destruct c as [????????????????[] ???]; cbn in *; by subst).
  induction fuel as [|fuel IH]; cbn [parse_loop]; (destruct (Z.ltb_spec i (zlen data)); [|lia]); [done|].
  unfold parse_round. rewrite Hs. unfold attr_data_parse. rewrite He. cbn [mbind res_bind]. rewrite Hi, Hl. cbn [Z.ltb Z.compare Pos.compare Pos.compare_cont andb].
  unfold attr_data_next. rewrite Hi, Hl. destruct (Z.eqb_spec 1 (attr_len (attr_response c))); [lia|].
  change (1 =? 1 - 1) with false. cbn [orb mbind res_bind]. by rewrite Hsame.
Qed.

(** A notification UID of which a part is missing is read behind the data. *)
Lemma split_uid_faults c data :
  parse_state (parse_info c) = BT_ANCS_PARSE_STATE_NOTIF_UID -> data <> [] -> zlen data < 4 ->
  bt_ancs_parse_get_attrs_response c data = Fault.
Proof.
  intros Hs Hne Hl. unfold bt_ancs_parse_get_attrs_response. rewrite Nat.add_comm. cbn [Nat.add]. rewrite parse_loop_S.
  destruct (Z.ltb_spec 0 (zlen data)); [|destruct data; [done|cbn in *; lia]]. unfold parse_round. rewrite Hs. unfold notif_uid_parse, rd_block.
  cbn [Z.ltb Z.compare orb]. by destruct (Z.ltb_spec (zlen data) (0 + 4)); [|lia].
Qed.

(** A request for the attributes of an app whose identifier is too long leaves the
    client waiting for the end of a write that was not started. *)
Lemma long_app_id_blocks c id len func err :
  cp_pending c = false -> 0 < len <= zlen id -> zlen (cp_data c) = CP_BUFF_SIZE -> CP_BUFF_SIZE - 1 < len + 1 < 2 ^ 32 ->
  exists c', bt_ancs_request_app_attr c id len func err = Ok (c', - errno_num ENOMEM) /\ cp_pending c' = true /\ calls c' = calls c.
Proof.
  intros Hp Hlen Hcp Hlong. pose proof cp_buff_size_range. unfold bt_ancs_request_app_attr, bt_ancs_app_attr_request.
  destruct (Z.eqb_spec len 0); [lia|]. unfold app_attr_get. change (cp_pending (on_parse _ c)) with (cp_pending c). rewrite Hp. cbv zeta.
  change (cp_data (set_cp_pending true _)) with (cp_data c). rewrite Hcp. set (c1 := set_cp_pending true _). cbn [app_attr_loop].
  assert (Hroom : net_buf_simple_tailroom (net_buf_simple_init_with_data CP_BUFF_SIZE) = CP_BUFF_SIZE) by (apply nb_init_room; lia).
  unfold app_attr_encode_cmd_id, nb_add. rewrite Hroom. destruct (Z.ltb_spec CP_BUFF_SIZE 1); [lia|].
  destruct (Z.ltb_spec CP_BUFF_SIZE (zlen [BT_ANCS_COMMAND_ID_GET_APP_ATTRIBUTES])); [cbn in *; lia|]. cbn [mbind res_bind].
  unfold app_attr_encode_app_id. rewrite nb_add_room by (rewrite Hroom; cbn; lia). rewrite Hroom. change (2 ^ 32) with 4294967296 in Hlong.
  rewrite u32_small by lia. cbn [length]. destruct (Z.ltb_spec (CP_BUFF_SIZE - Z.of_nat 1) (len + 1)); [|lia]. cbn [mbind res_bind].
  rewrite nb_add_data by (rewrite Hroom; cbn; lia). rewrite nb_init_data. unfold put_cp. change (cp_data c1) with (cp_data c).
  rewrite wr_block_start by (rewrite Hcp; cbn; lia). cbn [mbind res_bind]. eexists. split; [reflexivity|]. done.
Qed.

(** A request that is refused because another one is pending makes the parser
    forget the response it is in. *)
Lemma refused_request_resets_parser c notif func err :
  cp_pending c = true -> bt_ancs_verify_notification_format notif = 0 ->
  bt_ancs_request_attrs c notif func err =
    Ok (on_parse (set_parse_state BT_ANCS_PARSE_STATE_COMMAND_ID) c, - errno_num EBUSY).
Proof.
  intros Hp Hv. unfold bt_ancs_request_attrs. rewrite Hv. cbn [ctrue Z.eqb negb]. unfold bt_ancs_get_notif_attrs.
  change (cp_pending (on_parse _ c)) with (cp_pending c). by rewrite Hp.
Qed.

End Findings.

(** ** A notification *)

Module AncsDemo.

#[export, refine] Instance little_endian : LittleEndian := {|
  sys_get_le32 bs := match bs with [a; b; c; d] => a + b * 2 ^ 8 + c * 2 ^ 16 + d * 2 ^ 24 | _ => 0 end;
  sys_put_le32 v := [v mod 256; v / 2 ^ 8 mod 256; v / 2 ^ 16 mod 256; v / 2 ^ 24 mod 256];
  sys_put_le16 v := [v mod 256; v / 2 ^ 8 mod 256] |}.
Proof. all: done. Defined.

#[export, refine] Instance net_buf : NetBuf := {|
  net_buf_simple := list Z * Z;
  nb_data b := b.1;
  net_buf_simple_init_with_data n := ([], n);
  net_buf_simple_tailroom b := b.2 - zlen b.1;
  net_buf_simple_add_mem b bs := (b.1 ++ bs, b.2) |}.
Proof.
  - done.
  - intros n _. cbn. lia.
  - done.
  - intros b bs _. cbn. rewrite length_app. lia.
Defined.

#[export, refine] Instance config : AncsConfig := {| CP_BUFF_SIZE := 20 |}.
Proof. lia. Defined.

Definition memory (bs : list (list Z)) : bt_ancs_client :=
  set_bufs bs (bt_ancs_client_init
    {| c_conn := None; ns_enabled := false; ds_enabled := false; cp_pending := false; handle_cp := 0; handle_ns := 0;
       handle_ns_ccc := 0; handle_ds := 0; handle_ds_ccc := 0; cp_write_cb := None; cp_data := []; ns_notif_cb := None; ds_notif_cb := None;
       ancs_notif_attr_list := []; ancs_app_attr_list := []; number_of_requested_attr := 0;
       parse_info := {| attr_list := None; attr_count := 0; expected_number_of_attrs := 0;
                        parse_state := BT_ANCS_PARSE_STATE_COMMAND_ID; p_command_id := 0; current_attr_index := 0;
                        current_app_id_index := 0 |};
       attr_response := {| r_command_id := 0; attr_len := 0; attr_id := 0; attr_data := None; notif_uid := 0; app_id := [] |};
       bufs := []; calls := [] |}).

(** A client with a buffer of eight octets for titles. *)
Definition client : bt_ancs_client :=
  set_ds_notif_cb (Some 5) (bt_ancs_register_attr (memory [replicate 8 255]) BT_ANCS_NOTIF_ATTR_ID_TITLE (Some 0%nat) 8).1.

Definition notification : bt_ancs_evt_notif :=
  {| n_notif_uid := 0x01020304; evt_id := 0; silent := 0; important := 0; pre_existing := 0; positive_action := 0;
     negative_action := 0; category_id := 4; category_count := 1 |}.

Definition title : list Z := [72; 101; 108; 108; 111; 44; 32; 119; 111; 114; 108; 100].
Definition values (id : Z) : list Z := if id =? BT_ANCS_NOTIF_ATTR_ID_TITLE then title else [].
Definition response : list Z := notif_response client 0x01020304 values.

Lemma client_consistent : ancs_ok client.
Proof.
  split; [|done]. split; [|done]. split; [done|done| |by repeat constructor|done].
  repeat (apply Forall_cons; split; [|]); try done; try (by split).
  split; [cbn; unfold BT_ANCS_ATTR_DATA_MAX; lia|]. exists 0%nat, (replicate 8 255). done.
Qed.

Lemma values_fit id : bytes (values id) /\ zlen (values id) < 65536.
Proof. unfold values. destruct (id =? _); [|done]. split; [|done]. repeat constructor; done. Qed.

Lemma pieces_sizes n :
  zlen (concat (take n [take 7 response; drop 7 response])) <= 1 \/ 5 <= zlen (concat (take n [take 7 response; drop 7 response])).
Proof. destruct n as [|[|[|n]]]; [left|right..]; vm_compute; done. Qed.

Lemma pieces_parsed_as_whole_witness :
  exists c', receive client [take 7 response; drop 7 response] = Ok c' /\
    bt_ancs_parse_get_attrs_response client response = Ok c' /\ client_ok c'.
Proof.
  apply (pieces_parsed_as_whole client [take 7 response; drop 7 response]).
  - apply client_consistent.
  - vm_compute. repeat constructor; done.
  - intros n. split; [done|]. intros _ Hlt _. destruct (pieces_sizes n); lia.
Defined.

Lemma notification_attributes_delivered_witness :
  exists c1 c2 new, bt_ancs_request_attrs client notification None 0 = Ok (c1, 0) /\
    calls c1 = [GattWrite 0 [0; 4; 3; 2; 1; 1; 8; 0]] /\
    receive c1 [take 7 response; drop 7 response] = Ok c2 /\ parse_state (parse_info c2) = BT_ANCS_PARSE_STATE_DONE /\
    calls c2 = calls c1 ++ new /\ Forall2 (delivered 5 client 0x01020304 values) [BT_ANCS_NOTIF_ATTR_ID_TITLE] new.
Proof.
  destruct (notification_attributes_delivered client notification None 5 values [take 7 response; drop 7 response])
    as (c1 & c2 & new & E1 & E2 & E3 & E4 & E5 & E6).
  - apply client_consistent.
  - done.
  - done.
  - done.
  - done.
  - cbn. lia.
  - done.
  - exact values_fit.
  - vm_compute. reflexivity.
  - exact pieces_sizes.
  - exists c1, c2, new. split; [exact E1|]. split; [rewrite E2; vm_compute; reflexivity|]. split; [exact E3|]. split; [exact E4|].
    split; [exact E5|exact E6].
Defined.

(** A server with the service. *)
#[local] Existing Instance GattDemo.stack.
Definition chrc (h : Z) (u : bt_uuid) (props : Z) : gattr := {| g_handle := h; g_perm := 0; g_kind := GChrc u (h + 1) props |}.
Definition desc (h : Z) (u : bt_uuid) : gattr := {| g_handle := h; g_perm := 0; g_kind := GDesc u |}.
Definition ancs : gservice :=
  {| gs_handle := 20; gs_perm := 0; gs_uuid := BT_UUID_ANCS; gs_end := 30;
     gs_attrs := [chrc 21 BT_UUID_ANCS_CONTROL_POINT 0x08; desc 22 BT_UUID_ANCS_CONTROL_POINT;
                  chrc 23 BT_UUID_ANCS_NOTIFICATION_SOURCE 0x10; desc 24 BT_UUID_ANCS_NOTIFICATION_SOURCE; desc 25 BT_UUID_GATT_CCC;
                  chrc 26 BT_UUID_ANCS_DATA_SOURCE 0x10; desc 27 BT_UUID_ANCS_DATA_SOURCE; desc 28 BT_UUID_GATT_CCC] |}.
Definition phone : list gservice := [GattDemo.device_info; ancs].

Lemma phone_distinct : GattDemo.distinct phone.
Proof.
  intros p s Hs [H1 H2]. unfold phone in *. rewrite !filter_cons, filter_nil. unfold GattDemo.in_range. rewrite H1, H2.
  apply elem_of_cons in Hs as [->|Hs]; [done|]. apply list_elem_of_singleton in Hs as ->. done.
Qed.
#[export] Instance phone_server : GattServer phone := GattDemo.server_of phone phone_distinct.

Ltac in_service pre ds rest :=
  exists pre; eexists; exists ds; eexists; exists rest; split; [reflexivity|];
  split; [vm_compute; reflexivity|]; split; [repeat constructor; vm_compute; done|];
  split; [repeat constructor; vm_compute; done|]; split; [done|]; split; [vm_compute; reflexivity|reflexivity].

Lemma ancs_has_characteristics : ancs_service ancs 22 24 25 27 28.
Proof.
  split.
  - split; [cbn; lia|repeat constructor; cbn; lia|repeat constructor; cbn; lia|repeat constructor; vm_compute; done|cbn; lia].
  - vm_compute. reflexivity.
  - in_service (take 0 (gs_attrs ancs)) (@nil gattr) (drop 2 (gs_attrs ancs)).
  - in_service (take 2 (gs_attrs ancs)) (@nil gattr) (drop 4 (gs_attrs ancs)).
  - in_service (take 2 (gs_attrs ancs)) [desc 24 BT_UUID_ANCS_NOTIFICATION_SOURCE] (drop 5 (gs_attrs ancs)).
  - in_service (take 5 (gs_attrs ancs)) (@nil gattr) (drop 7 (gs_attrs ancs)).
  - in_service (take 5 (gs_attrs ancs)) [desc 27 BT_UUID_ANCS_DATA_SOURCE] (drop 8 (gs_attrs ancs)).
Qed.

Lemma ancs_service_connected_witness :
  exists d1 d2 c', bt_gatt_dm_start dm_init (Some 1) (Some BT_UUID_ANCS) (Some GattDemo.all_calls) 7 0 = (d1, 0) /\
    discovery (fun _ => true) d1 = Ok d2 /\ reports d2 = reports dm_init ++ [Completed (found ancs) 7] /\
    bt_ancs_handles_assign d2 client = Ok (c', 0) /\ c_conn c' = Some 1 /\ handle_cp c' = 22 /\
    handle_ns c' = 24 /\ handle_ns_ccc c' = 25 /\ handle_ds c' = 27 /\ handle_ds_ccc c' = 28.
Proof.
  apply (ancs_service_connected (db := phone) (fun _ => true) GattDemo.all_calls dm_init (Some 1) 7 ancs [] client 22 24 25 27 28);
    [done|done|done|done|vm_compute; reflexivity|exact ancs_has_characteristics].
Defined.

(** The handles of the service are assigned, a buffer is registered, attributes
    are requested, and the first part of the response arrives. *)
Definition phone_found : bt_gatt_dm := set_attrs (found ancs) dm_init.
Definition session_ops : list ancs_op :=
  [OpHandlesAssign phone_found; OpRegister BT_ANCS_NOTIF_ATTR_ID_TITLE (Some 0%nat) 8; OpSubscribeDs (Some 5) 0;
   OpRequest notification None 0; OpReceiveDs (take 12 response)].
Fixpoint apply_ops (l : list ancs_op) (c : bt_ancs_client) : res bt_ancs_client :=
  match l with [] => Ok c | op :: l => let* c := ancs_apply c op in apply_ops l c end.
Definition in_session : bt_ancs_client := match apply_ops session_ops (memory [replicate 8 255]) with Ok c => c | _ => client end.

Lemma phone_found_discovered : discovered phone_found.
Proof. apply (found_discovered phone_found ancs); [apply (as_ok _ _ _ _ _ _ ancs_has_characteristics)|done]. Qed.

Lemma apply_ops_reachable l c c' :
  (forall n op c1, l !! n = Some op -> apply_ops (take n l) c = Ok c1 -> op_allowed c1 op) -> apply_ops l c = Ok c' -> rtc ancs_step c c'.
Proof.
  revert c. induction l as [|op l IH]; intros c Ha E; cbn [apply_ops] in E; [by injection E as ->|].
  apply bind_Ok_inv in E as (c1 & E1 & E). eapply rtc_l; [exists op; split; [by apply (Ha O op c)|exact E1]|].
  apply IH; [|done]. intros n op' c2 Hn E2. apply (Ha (S n) op'); [done|]. cbn [take apply_ops]. by rewrite E1.
Qed.

Lemma in_session_reachable : rtc ancs_step (bt_ancs_client_init (memory [replicate 8 255])) in_session.
Proof.
  apply (apply_ops_reachable session_ops); [|vm_compute; reflexivity].
  intros [|[|[|[|[|n]]]]] op c1 [= <-] E; cbn [op_allowed]; try exact I.
  - exact phone_found_discovered.
  - vm_compute in E. injection E as <-. split; [done|]. split; [lia|]. split; [lia|]. intros i [= <-]. by exists (replicate 8 255).
  - vm_compute in E. injection E as <-. split; [vm_compute; repeat constructor; done|].
    split; [done|]. intros _ _ _. right. vm_compute. discriminate.
Qed.

Lemma ancs_calls_safe_witness : exists c', ancs_apply in_session (OpReceiveDs (drop 12 response)) = Ok c' /\ ancs_ok c'.
Proof.
  apply (ancs_calls_safe (memory [replicate 8 255]) in_session (OpReceiveDs (drop 12 response)) in_session_reachable).
  split; [vm_compute; repeat constructor; done|]. split; [vm_compute; done|]. intros E. vm_compute in E. done.
Defined.

(** With a buffer of one octet, an attribute of one octet is followed by a zero
    behind the buffer. *)
Lemma one_octet_buffer_overrun :
  let c := (bt_ancs_register_attr (memory [[255]]) BT_ANCS_NOTIF_ATTR_ID_TITLE (Some 0%nat) 1).1 in
  match bt_ancs_request_attrs c notification None 0 with
  | Ok (c1, _) => bt_ancs_parse_get_attrs_response c1 ([0; 4; 3; 2; 1] ++ attr_octets 1 [65]) = Fault
  | _ => False
  end.
Proof. vm_compute. reflexivity. Qed.

(** With an attribute of two octets, no number of rounds is enough. *)
Lemma one_octet_buffer_hangs :
  let c := (bt_ancs_register_attr (memory [[255]]) BT_ANCS_NOTIF_ATTR_ID_TITLE (Some 0%nat) 1).1 in
  match bt_ancs_request_attrs c notification None 0 with
  | Ok (c1, _) => bt_ancs_parse_get_attrs_response c1 ([0; 4; 3; 2; 1] ++ attr_octets 1 [65; 66]) = NoFuel
  | _ => False
  end.
Proof. vm_compute. reflexivity. Qed.

(** After a buffer is registered while an attribute is being parsed, its length is
    used with the old buffer: the parser does not come to an end with a shorter
    one, and writes behind the old one with a longer one. *)
Lemma registered_in_attribute_hangs :
  match apply_ops [OpRegister BT_ANCS_NOTIF_ATTR_ID_TITLE (Some 0%nat) 2] in_session with
  | Ok c => ancs_apply c (OpReceiveDs (drop 12 response)) = NoFuel
  | _ => False
  end.
Proof. vm_compute. reflexivity. Qed.

Lemma registered_in_attribute_overruns :
  match apply_ops [OpRegister BT_ANCS_NOTIF_ATTR_ID_TITLE (Some 1%nat) 12] (set_bufs [replicate 8 255; replicate 12 255] in_session) with
  | Ok c => ancs_apply c (OpReceiveDs (drop 12 response)) = Fault
  | _ => False
  end.
Proof. vm_compute. reflexivity. Qed.

End AncsDemo.
