(* ===== verification/MeshTime.v ===== *)
(** * Time of Bluetooth mesh

    The calendar (subsys/bluetooth/mesh/time_util.c, time_util.h), the coding of
    the time in messages (time.c, time_internal.h) and the Time Server
    (time_srv.c), which keeps the time of a node between the messages that set it.

    Times are seconds of International Atomic Time since 2000, in 40 bits. The
    fields of a broken-down time are integers of C that are far from overflow, and
    so are the milliseconds since the start. *)

From stdpp Require Import prelude list.
From Stdlib Require Import ZArith Lia.
From S2P Require Import Prelude Digits.

Open Scope Z_scope.

(** ** What the code uses *)

(** Messages are lists of octets; numbers are appended and taken off with the
    least octet first. *)
Class MeshBuf := {
  net_buf_simple_pull_u8 : list Z -> Z * list Z;
  net_buf_simple_pull_le16 : list Z -> Z * list Z;
  net_buf_simple_pull_le32 : list Z -> Z * list Z;
  net_buf_simple_add_u8 : list Z -> Z -> list Z;
  net_buf_simple_add_le16 : list Z -> Z -> list Z;
  net_buf_simple_add_le32 : list Z -> Z -> list Z;
  pull_u8_spec v l : net_buf_simple_pull_u8 (v :: l) = (v, l);
  pull_le16_spec a l : length a = 2%nat -> net_buf_simple_pull_le16 (a ++ l) = (value 8 a, l);
  pull_le32_spec a l : length a = 4%nat -> net_buf_simple_pull_le32 (a ++ l) = (value 8 a, l);
  add_u8_spec b v : net_buf_simple_add_u8 b v = b ++ [u8 v];
  add_le16_spec b v : net_buf_simple_add_le16 b v = b ++ digits 8 2 v;
  add_le32_spec b v : net_buf_simple_add_le32 b v = b ++ digits 8 4 v
}.

(** [FIELD_BITS] is the width in which the compiler computes with the seconds,
    which are a bit-field of 40 bits in an integer of 64. [times_SEC_PER_MIN] is
    the product of an integer with the constant of Zephyr, converted to 64 bits;
    for a negative integer it depends on the type of the constant. *)
Class MeshConfig := {
  FIELD_BITS : Z;
  times_SEC_PER_MIN : Z -> Z;
  CLOCK_ACCURACY : Z;
  MESH_HOP_UNCERTAINTY : Z;
  SETTINGS : bool;
  field_bits_range : 40 <= FIELD_BITS <= 64;
  times_sec_per_min_spec z : 0 <= z -> times_SEC_PER_MIN z = 60 * z
}.

Definition u40 (z : Z) : Z := z mod 2 ^ 40.
Definition u64 (z : Z) : Z := z mod 2 ^ 64.

(** ** Calendar *)

Definition TAI_START_YEAR : Z := 2000.
Definition TM_START_YEAR : Z := 1900.
Definition TAI_START_DAY : Z := 6.
Definition DAYS_YEAR : Z := 365.
Definition DAYS_LEAP_YEAR : Z := 366.
Definition SEC_PER_MIN : Z := 60.
Definition SEC_PER_HOUR : Z := 60 * SEC_PER_MIN.
Definition SEC_PER_DAY : Z := 24 * SEC_PER_HOUR.
Definition WEEKDAY_CNT : Z := 7.

Record tm := {
  tm_sec : Z;
  tm_min : Z;
  tm_hour : Z;
  tm_mday : Z;
  tm_mon : Z;
  tm_year : Z;
  tm_wday : Z;
  tm_yday : Z;
  tm_isdst : Z
}.

Record bt_mesh_time_tai := { sec : Z; subsec : Z }.

Definition is_leap_year (year : Z) : bool :=
  (year mod 4 =? 0) && (negb (year mod 100 =? 0) || (year mod 400 =? 0)).

Definition month_cfg : list Z := [31; 28; 31; 30; 31; 30; 31; 31; 30; 31; 30; 31].
Definition month_leap_cfg : list Z := [31; 29; 31; 30; 31; 30; 31; 31; 30; 31; 30; 31].

Definition days_in_year (year : Z) : Z := if is_leap_year year then DAYS_LEAP_YEAR else DAYS_YEAR.
Definition months_of (is_leap : bool) : list Z := if is_leap then month_leap_cfg else month_cfg.

(** The loops over the years and over the months. *)
Fixpoint add_years (n : nat) (year days : Z) : Z :=
  match n with
  | O => days
  | S n => add_years n (year + 1) (u32 (days + days_in_year year))
  end.

Fixpoint add_months (n : nat) (months : list Z) (i days : Z) : res Z :=
  match n with
  | O => Ok days
  | S n => let* m := rd months i in add_months n months (i + 1) (u32 (days + m))
  end.

Definition ts_to_tai (timeptr : tm) : res bt_mesh_time_tai :=
  let current_year := u32 (tm_year timeptr + TM_START_YEAR) in
  if current_year <? TAI_START_YEAR then Err EAGAIN else
  let days := add_years (Z.to_nat (current_year - TAI_START_YEAR)) TAI_START_YEAR 0 in
  let months := months_of (is_leap_year current_year) in
  let* days := add_months (Z.to_nat (tm_mon timeptr)) months 0 days in
  let days := u32 (days + (tm_mday timeptr - 1)) in
  let s := u40 (days * SEC_PER_DAY) in
  let s := u40 (s + tm_hour timeptr * SEC_PER_HOUR) in
  let s := u40 (s + tm_min timeptr * SEC_PER_MIN) in
  let s := u40 (s + tm_sec timeptr) in
  Ok {| sec := s; subsec := 0 |}.

(** The year and the day in it; [fuel] bounds the number of years. *)
Fixpoint year_loop (fuel : nat) (year day_cnt : Z) : res (Z * Z) :=
  if day_cnt <? days_in_year year then Ok (year, day_cnt)
  else match fuel with
       | O => NoFuel
       | S fuel => year_loop fuel (year + 1) (day_cnt - days_in_year year)
       end.

Fixpoint mon_loop (months : list Z) (mon day_cnt : Z) : Z * Z :=
  match months with
  | [] => (mon, day_cnt)
  | m :: months => if m <=? day_cnt then mon_loop months (mon + 1) (day_cnt - m) else (mon, day_cnt)
  end.

Definition tai_to_ts (tai : bt_mesh_time_tai) : res tm :=
  let day_cnt := sec tai / SEC_PER_DAY in
  let* '(year, yday) := year_loop (Z.to_nat (day_cnt / DAYS_YEAR)) TAI_START_YEAR day_cnt in
  let '(mon, rest) := mon_loop (months_of (is_leap_year year)) 0 yday in
  Ok {| tm_sec := sec tai mod SEC_PER_MIN;
        tm_min := sec tai mod SEC_PER_HOUR / SEC_PER_MIN;
        tm_hour := sec tai mod SEC_PER_DAY / SEC_PER_HOUR;
        tm_mday := rest + 1;
        tm_mon := mon;
        tm_year := year - TM_START_YEAR;
        tm_wday := (TAI_START_DAY + day_cnt) mod WEEKDAY_CNT;
        tm_yday := yday;
        tm_isdst := -1 |}.

(** ** Messages *)

Definition ZONE_CHANGE_ZERO_POINT : Z := 0x40.
Definition UTC_CHANGE_ZERO_POINT : Z := 0x00FF.
Definition UNCERTAINTY_STEP_MS : Z := 10.
Definition UNCERTAINTY_MS_MAX : Z := 2550.
Definition BT_MESH_TIME_MSG_MAXLEN_TIME_STATUS : Z := 10.

Record bt_mesh_time_status := {
  tai : bt_mesh_time_tai;
  uncertainty : Z;
  tai_utc_delta : Z;
  time_zone_offset : Z;
  is_authority : bool
}.

Definition no_status : bt_mesh_time_status :=
  {| tai := {| sec := 0; subsec := 0 |}; uncertainty := 0; tai_utc_delta := 0; time_zone_offset := 0;
     is_authority := false |}.

Section Messages.
Context {MB : MeshBuf}.

Definition bt_mesh_time_buf_pull_tai_sec (buf : list Z) : Z * list Z :=
  let '(low, buf) := net_buf_simple_pull_le32 buf in
  let '(high, buf) := net_buf_simple_pull_u8 buf in
  (Z.lor low (Z.shiftl high 32), buf).

Definition bt_mesh_time_buf_put_tai_sec (buf : list Z) (s : Z) : list Z :=
  buf ++ map (fun i => u8 (Z.shiftr s (i * 8))) [0; 1; 2; 3; 4].

Definition bt_mesh_time_decode_time_params (buf : list Z) : bt_mesh_time_status :=
  if negb (zlen buf =? BT_MESH_TIME_MSG_MAXLEN_TIME_STATUS) then no_status else
  let '(s, buf) := bt_mesh_time_buf_pull_tai_sec buf in
  let '(sub, buf) := net_buf_simple_pull_u8 buf in
  let '(raw_uncertainty, buf) := net_buf_simple_pull_u8 buf in
  let '(temp, buf) := net_buf_simple_pull_le16 buf in
  let '(zone, buf) := net_buf_simple_pull_u8 buf in
  {| tai := {| sec := u40 s; subsec := sub |};
     uncertainty := raw_uncertainty * UNCERTAINTY_STEP_MS;
     is_authority := ctrue (Z.land temp 1);
     tai_utc_delta := sint 16 (Z.shiftr temp 1 - UTC_CHANGE_ZERO_POINT);
     time_zone_offset := sint 16 (zone - ZONE_CHANGE_ZERO_POINT) |}.

Definition bt_mesh_time_encode_time_params (buf : list Z) (status : bt_mesh_time_status) : list Z :=
  let raw_uncertainty :=
    if uncertainty status <? UNCERTAINTY_MS_MAX then u8 (uncertainty status / UNCERTAINTY_STEP_MS) else 255 in
  let buf := bt_mesh_time_buf_put_tai_sec buf (sec (tai status)) in
  let buf := net_buf_simple_add_u8 buf (subsec (tai status)) in
  let buf := net_buf_simple_add_u8 buf raw_uncertainty in
  let buf := net_buf_simple_add_le16 buf
    (Z.lor (Z.b2z (is_authority status)) (Z.shiftl (u16 (tai_utc_delta status + UTC_CHANGE_ZERO_POINT)) 1)) in
  net_buf_simple_add_u8 buf (u8 (time_zone_offset status + ZONE_CHANGE_ZERO_POINT)).

End Messages.

(** ** Time Server *)

Definition SUBSEC_STEPS : Z := 256.
Definition STATUS_INTERVAL_MIN : Z := 30000.
Definition MSEC_PER_SEC : Z := 1000.
Definition USEC_PER_SEC : Z := 1000000.

Definition BT_MESH_TIME_NONE : Z := 0.
Definition BT_MESH_TIME_AUTHORITY : Z := 1.
Definition BT_MESH_TIME_RELAY : Z := 2.
Definition BT_MESH_TIME_CLIENT : Z := 3.

Record bt_mesh_time_zone_change := { new_offset : Z; zone_timestamp : Z }.
Record bt_mesh_time_tai_utc_change := { delta_new : Z; delta_timestamp : Z }.

Inductive bt_mesh_time_update_types :=
  | BT_MESH_TIME_SRV_STATUS_UPDATE
  | BT_MESH_TIME_SRV_SET_UPDATE
  | BT_MESH_TIME_SRV_ZONE_UPDATE
  | BT_MESH_TIME_SRV_UTC_UPDATE.

Record bt_mesh_time_srv_settings_data := {
  st_role : Z;
  time_zone_offset_new : Z;
  tai_utc_delta_new : Z;
  tai_of_zone_change : Z;
  tai_of_delta_change : Z
}.

(** The context of a message: the peer, the number of hops and the random delay. *)
Record bt_mesh_msg_ctx := { addr : Z; send_ttl : Z; rnd_delay : bool }.

Inductive time_op :=
  | BT_MESH_TIME_OP_TIME_STATUS
  | BT_MESH_TIME_OP_TIME_ROLE_STATUS
  | BT_MESH_TIME_OP_TIME_ZONE_STATUS
  | BT_MESH_TIME_OP_TAI_UTC_DELTA_STATUS.

(** The calls of the mesh stack, of the settings, of the timer and of the user. A
    message without context is a publication. *)
Inductive time_event :=
  | TimeSent (op : time_op) (ctx : option bt_mesh_msg_ctx) (msg : list Z)
  | TimeStored (data : option bt_mesh_time_srv_settings_data)
  | TimeUpdated (type : bt_mesh_time_update_types)
  | DelayStarted (ms : Z).

(** The state, with the number of hops and the message of the publication;
    [status_delay] tells whether the work item is pending, [outs] the calls so
    far. *)
Record bt_mesh_time_srv := {
  sync_uptime : Z;
  sync_status : bt_mesh_time_status;
  time_zone_change : bt_mesh_time_zone_change;
  tai_utc_change : bt_mesh_time_tai_utc_change;
  role : Z;
  timestamp : Z;
  status_delay : bool;
  is_unsolicited : bool;
  cached_ttl : Z;
  pub_ttl : Z;
  pub_msg : list Z;
  time_update_cb : bool;
  outs : list time_event
}.

(** Updates of a field. *)
Definition set_sync_uptime (v : Z) (srv : bt_mesh_time_srv) : bt_mesh_time_srv :=
  {| sync_uptime := v; sync_status := sync_status srv; time_zone_change := time_zone_change srv;
     tai_utc_change := tai_utc_change srv; role := role srv; timestamp := timestamp srv; status_delay :=
     status_delay srv; is_unsolicited := is_unsolicited srv; cached_ttl := cached_ttl srv; pub_ttl :=
     pub_ttl srv; pub_msg := pub_msg srv; time_update_cb := time_update_cb srv; outs := outs srv |}.
Definition set_sync_status (v : bt_mesh_time_status) (srv : bt_mesh_time_srv) : bt_mesh_time_srv :=
  {| sync_uptime := sync_uptime srv; sync_status := v; time_zone_change := time_zone_change srv;
     tai_utc_change := tai_utc_change srv; role := role srv; timestamp := timestamp srv; status_delay :=
     status_delay srv; is_unsolicited := is_unsolicited srv; cached_ttl := cached_ttl srv; pub_ttl :=
     pub_ttl srv; pub_msg := pub_msg srv; time_update_cb := time_update_cb srv; outs := outs srv |}.
Definition set_time_zone_change (v : bt_mesh_time_zone_change) (srv : bt_mesh_time_srv) : bt_mesh_time_srv :=
  {| sync_uptime := sync_uptime srv; sync_status := sync_status srv; time_zone_change := v;
     tai_utc_change := tai_utc_change srv; role := role srv; timestamp := timestamp srv; status_delay :=
     status_delay srv; is_unsolicited := is_unsolicited srv; cached_ttl := cached_ttl srv; pub_ttl :=
     pub_ttl srv; pub_msg := pub_msg srv; time_update_cb := time_update_cb srv; outs := outs srv |}.
Definition set_tai_utc_change (v : bt_mesh_time_tai_utc_change) (srv : bt_mesh_time_srv) : bt_mesh_time_srv :=
  {| sync_uptime := sync_uptime srv; sync_status := sync_status srv; time_zone_change :=
     time_zone_change srv; tai_utc_change := v; role := role srv; timestamp := timestamp srv;
     status_delay := status_delay srv; is_unsolicited := is_unsolicited srv; cached_ttl := cached_ttl
     srv; pub_ttl := pub_ttl srv; pub_msg := pub_msg srv; time_update_cb := time_update_cb srv; outs :=
     outs srv |}.
Definition set_role (v : Z) (srv : bt_mesh_time_srv) : bt_mesh_time_srv :=
  {| sync_uptime := sync_uptime srv; sync_status := sync_status srv; time_zone_change :=
     time_zone_change srv; tai_utc_change := tai_utc_change srv; role := v; timestamp := timestamp srv;
     status_delay := status_delay srv; is_unsolicited := is_unsolicited srv; cached_ttl := cached_ttl
     srv; pub_ttl := pub_ttl srv; pub_msg := pub_msg srv; time_update_cb := time_update_cb srv; outs :=
     outs srv |}.
Definition set_timestamp (v : Z) (srv : bt_mesh_time_srv) : bt_mesh_time_srv :=
  {| sync_uptime := sync_uptime srv; sync_status := sync_status srv; time_zone_change :=
     time_zone_change srv; tai_utc_change := tai_utc_change srv; role := role srv; timestamp := v;
     status_delay := status_delay srv; is_unsolicited := is_unsolicited srv; cached_ttl := cached_ttl
     srv; pub_ttl := pub_ttl srv; pub_msg := pub_msg srv; time_update_cb := time_update_cb srv; outs :=
     outs srv |}.
Definition set_status_delay (v : bool) (srv : bt_mesh_time_srv) : bt_mesh_time_srv :=
  {| sync_uptime := sync_uptime srv; sync_status := sync_status srv; time_zone_change :=
     time_zone_change srv; tai_utc_change := tai_utc_change srv; role := role srv; timestamp :=
     timestamp srv; status_delay := v; is_unsolicited := is_unsolicited srv; cached_ttl := cached_ttl
     srv; pub_ttl := pub_ttl srv; pub_msg := pub_msg srv; time_update_cb := time_update_cb srv; outs :=
     outs srv |}.
Definition set_is_unsolicited (v : bool) (srv : bt_mesh_time_srv) : bt_mesh_time_srv :=
  {| sync_uptime := sync_uptime srv; sync_status := sync_status srv; time_zone_change :=
     time_zone_change srv; tai_utc_change := tai_utc_change srv; role := role srv; timestamp :=
     timestamp srv; status_delay := status_delay srv; is_unsolicited := v; cached_ttl := cached_ttl srv;
     pub_ttl := pub_ttl srv; pub_msg := pub_msg srv; time_update_cb := time_update_cb srv; outs := outs
     srv |}.
Definition set_cached_ttl (v : Z) (srv : bt_mesh_time_srv) : bt_mesh_time_srv :=
  {| sync_uptime := sync_uptime srv; sync_status := sync_status srv; time_zone_change :=
     time_zone_change srv; tai_utc_change := tai_utc_change srv; role := role srv; timestamp :=
     timestamp srv; status_delay := status_delay srv; is_unsolicited := is_unsolicited srv; cached_ttl
     := v; pub_ttl := pub_ttl srv; pub_msg := pub_msg srv; time_update_cb := time_update_cb srv; outs :=
     outs srv |}.
Definition set_pub_ttl (v : Z) (srv : bt_mesh_time_srv) : bt_mesh_time_srv :=
  {| sync_uptime := sync_uptime srv; sync_status := sync_status srv; time_zone_change :=
     time_zone_change srv; tai_utc_change := tai_utc_change srv; role := role srv; timestamp :=
     timestamp srv; status_delay := status_delay srv; is_unsolicited := is_unsolicited srv; cached_ttl
     := cached_ttl srv; pub_ttl := v; pub_msg := pub_msg srv; time_update_cb := time_update_cb srv; outs
     := outs srv |}.
Definition set_pub_msg (v : list Z) (srv : bt_mesh_time_srv) : bt_mesh_time_srv :=
  {| sync_uptime := sync_uptime srv; sync_status := sync_status srv; time_zone_change :=
     time_zone_change srv; tai_utc_change := tai_utc_change srv; role := role srv; timestamp :=
     timestamp srv; status_delay := status_delay srv; is_unsolicited := is_unsolicited srv; cached_ttl
     := cached_ttl srv; pub_ttl := pub_ttl srv; pub_msg := v; time_update_cb := time_update_cb srv; outs
     := outs srv |}.
Definition set_outs (v : list time_event) (srv : bt_mesh_time_srv) : bt_mesh_time_srv :=
  {| sync_uptime := sync_uptime srv; sync_status := sync_status srv; time_zone_change :=
     time_zone_change srv; tai_utc_change := tai_utc_change srv; role := role srv; timestamp :=
     timestamp srv; status_delay := status_delay srv; is_unsolicited := is_unsolicited srv; cached_ttl
     := cached_ttl srv; pub_ttl := pub_ttl srv; pub_msg := pub_msg srv; time_update_cb := time_update_cb
     srv; outs := v |}.

Definition time_out (e : time_event) (srv : bt_mesh_time_srv) : bt_mesh_time_srv := set_outs (outs srv ++ [e]) srv.

Section TimeServer.
Context {MB : MeshBuf} {MC : MeshConfig}.

Definition zone_offset_to_sec (raw_zone : Z) : Z := times_SEC_PER_MIN (raw_zone * 15).

Definition tai_to_ms (t : bt_mesh_time_tai) : Z :=
  (MSEC_PER_SEC * sec t + MSEC_PER_SEC * subsec t / SUBSEC_STEPS) mod 2 ^ FIELD_BITS.

Definition tai_is_unknown (t : bt_mesh_time_tai) : bool := (sec t =? 0) && (subsec t =? 0).

Definition tai_at (srv : bt_mesh_time_srv) (uptime : Z) : bt_mesh_time_tai :=
  let sync := tai (sync_status srv) in
  let steps := Z.quot (SUBSEC_STEPS * (uptime - sync_uptime srv)) MSEC_PER_SEC in
  if tai_is_unknown sync then sync else
  {| sec := u40 (sec sync + Z.quot steps SUBSEC_STEPS); subsec := u8 (subsec sync + steps) |}.

Definition store_state (srv : bt_mesh_time_srv) : bt_mesh_time_srv :=
  if negb SETTINGS then srv else
  time_out (TimeStored (Some {| st_role := u8 (role srv);
    time_zone_offset_new := new_offset (time_zone_change srv);
    tai_utc_delta_new := delta_new (tai_utc_change srv);
    tai_of_zone_change := zone_timestamp (time_zone_change srv);
    tai_of_delta_change := delta_timestamp (tai_utc_change srv) |})) srv.

Definition get_uncertainty_ms (srv : bt_mesh_time_srv) (uptime : Z) : Z :=
  let drift := u64 (Z.quot ((uptime - sync_uptime srv) * CLOCK_ACCURACY) USEC_PER_SEC) in
  u64 (uncertainty (sync_status srv) + drift).

Definition get_zone_offset (srv : bt_mesh_time_srv) (uptime : Z) : Z :=
  let t := tai_at srv uptime in
  if ctrue (zone_timestamp (time_zone_change srv)) && (zone_timestamp (time_zone_change srv) <=? sec t)
  then new_offset (time_zone_change srv) else time_zone_offset (sync_status srv).

Definition get_utc_delta (srv : bt_mesh_time_srv) (uptime : Z) : Z :=
  let t := tai_at srv uptime in
  if ctrue (delta_timestamp (tai_utc_change srv)) && (delta_timestamp (tai_utc_change srv) <=? sec t)
  then delta_new (tai_utc_change srv) else tai_utc_delta (sync_status srv).

(** *** Status messages; [now] is the time of the call *)

Definition send_zone_status (srv : bt_mesh_time_srv) (ctx : option bt_mesh_msg_ctx) (now : Z) : bt_mesh_time_srv :=
  let msg := net_buf_simple_add_u8 [] (u8 (get_zone_offset srv now + ZONE_CHANGE_ZERO_POINT)) in
  let msg := net_buf_simple_add_u8 msg (u8 (new_offset (time_zone_change srv) + ZONE_CHANGE_ZERO_POINT)) in
  let msg := bt_mesh_time_buf_put_tai_sec msg (zone_timestamp (time_zone_change srv)) in
  time_out (TimeSent BT_MESH_TIME_OP_TIME_ZONE_STATUS ctx msg) srv.

Definition send_tai_utc_delta_status (srv : bt_mesh_time_srv) (ctx : option bt_mesh_msg_ctx) (now : Z) :
    bt_mesh_time_srv :=
  let msg := net_buf_simple_add_le16 [] (u16 (get_utc_delta srv now + UTC_CHANGE_ZERO_POINT)) in
  let msg := net_buf_simple_add_le16 msg (u16 (delta_new (tai_utc_change srv) + UTC_CHANGE_ZERO_POINT)) in
  let msg := bt_mesh_time_buf_put_tai_sec msg (delta_timestamp (tai_utc_change srv)) in
  time_out (TimeSent BT_MESH_TIME_OP_TAI_UTC_DELTA_STATUS ctx msg) srv.

Definition send_role_status (srv : bt_mesh_time_srv) (ctx : option bt_mesh_msg_ctx) : bt_mesh_time_srv :=
  time_out (TimeSent BT_MESH_TIME_OP_TIME_ROLE_STATUS ctx (net_buf_simple_add_u8 [] (u8 (role srv)))) srv.

Definition bt_mesh_time_srv_status (srv : bt_mesh_time_srv) (uptime : Z) : res bt_mesh_time_status :=
  if (u64 uptime <? u64 (sync_uptime srv)) || tai_is_unknown (tai (sync_status srv)) then Err EAGAIN else
  Ok {| tai := tai_at srv uptime; uncertainty := get_uncertainty_ms srv uptime;
        tai_utc_delta := get_utc_delta srv uptime; time_zone_offset := get_zone_offset srv uptime;
        is_authority := is_authority (sync_status srv) |}.

(** The status that is sent, with the delay of the sending. *)
Definition with_hop (s : bt_mesh_time_status) : bt_mesh_time_status :=
  {| tai := tai s; uncertainty := u64 (uncertainty s + MESH_HOP_UNCERTAINTY); tai_utc_delta := tai_utc_delta s;
     time_zone_offset := time_zone_offset s; is_authority := is_authority s |}.

Definition send_time_status (srv : bt_mesh_time_srv) (ctx : option bt_mesh_msg_ctx) (uptime : Z) : bt_mesh_time_srv :=
  let msg := match bt_mesh_time_srv_status srv uptime with
             | Ok status => bt_mesh_time_encode_time_params [] (with_hop status)
             | _ => bt_mesh_time_buf_put_tai_sec [] 0
             end in
  time_out (TimeSent BT_MESH_TIME_OP_TIME_STATUS ctx msg) srv.

(** [err] is what the sending returns. *)
Definition bt_mesh_time_srv_time_status_send (srv : bt_mesh_time_srv) (ctx : option bt_mesh_msg_ctx) (now err : Z) :
    bt_mesh_time_srv * Z :=
  if negb (role srv =? BT_MESH_TIME_AUTHORITY) && negb (role srv =? BT_MESH_TIME_RELAY)
  then (srv, - errno_num EOPNOTSUPP) else
  let '(srv, ctx) :=
    match ctx with
    | Some c => (srv, Some {| addr := addr c; send_ttl := 0; rnd_delay := false |})
    | None =>
      let srv := set_cached_ttl (if is_unsolicited srv then cached_ttl srv else pub_ttl srv) srv in
      (set_pub_ttl 0 (set_is_unsolicited true srv), None)
    end in
  let srv := send_time_status srv ctx now in
  (if err =? 0 then set_timestamp now srv else srv, err).

Definition time_status_send_after_delay (srv : bt_mesh_time_srv) (now err : Z) : bt_mesh_time_srv :=
  (bt_mesh_time_srv_time_status_send (set_status_delay false srv) None now err).1.

(** *** Messages that are received *)

Definition time_updated (srv : bt_mesh_time_srv) (type : bt_mesh_time_update_types) : bt_mesh_time_srv :=
  if time_update_cb srv then time_out (TimeUpdated type) srv else srv.

(** [rnd] is the random octet. *)
Definition handle_time_status (srv : bt_mesh_time_srv) (buf : list Z) (now rnd : Z) : bt_mesh_time_srv :=
  if negb (role srv =? BT_MESH_TIME_CLIENT) && negb (role srv =? BT_MESH_TIME_RELAY) then srv else
  let status := bt_mesh_time_decode_time_params buf in
  let sync := sync_status srv in
  if implb (is_authority status) (is_authority sync) && (uncertainty sync <? uncertainty status) then srv else
  let srv := set_sync_uptime now srv in
  let srv := set_sync_status {| tai := tai status; uncertainty := uncertainty status;
    tai_utc_delta := tai_utc_delta status; time_zone_offset := time_zone_offset status;
    is_authority := is_authority sync |} srv in
  let srv := time_updated srv BT_MESH_TIME_SRV_STATUS_UPDATE in
  if negb (role srv =? BT_MESH_TIME_RELAY) then srv else
  if sync_uptime srv <? timestamp srv + STATUS_INTERVAL_MIN then srv else
  if status_delay srv then srv else
  let rnd := 20 + rnd mod 30 in
  let s := sync_status srv in
  let srv := set_sync_status {| tai := tai s; uncertainty := u64 (uncertainty s + rnd);
    tai_utc_delta := tai_utc_delta s; time_zone_offset := time_zone_offset s; is_authority := is_authority s |} srv in
  time_out (DelayStarted rnd) (set_status_delay true srv).

Definition handle_time_get (srv : bt_mesh_time_srv) (ctx : bt_mesh_msg_ctx) (now : Z) : bt_mesh_time_srv :=
  send_time_status srv (Some ctx) now.

(** [now'] is the time when the new status is published, [err] the result. *)
Definition handle_time_set (srv : bt_mesh_time_srv) (ctx : bt_mesh_msg_ctx) (buf : list Z) (now now' err : Z) :
    bt_mesh_time_srv :=
  let srv := set_sync_status (bt_mesh_time_decode_time_params buf) srv in
  let srv := set_sync_uptime now srv in
  let srv := time_updated srv BT_MESH_TIME_SRV_SET_UPDATE in
  let srv := (bt_mesh_time_srv_time_status_send srv None now' err).1 in
  send_time_status srv (Some ctx) (sync_uptime srv).

Definition handle_zone_get (srv : bt_mesh_time_srv) (ctx : bt_mesh_msg_ctx) (now : Z) : bt_mesh_time_srv :=
  send_zone_status srv (Some ctx) now.

Definition handle_zone_set (srv : bt_mesh_time_srv) (ctx : bt_mesh_msg_ctx) (buf : list Z) (now : Z) : bt_mesh_time_srv :=
  let '(zone, buf) := net_buf_simple_pull_u8 buf in
  let '(s, buf) := bt_mesh_time_buf_pull_tai_sec buf in
  let srv := set_time_zone_change {| new_offset := sint 16 (zone - ZONE_CHANGE_ZERO_POINT); zone_timestamp := s |} srv in
  let srv := time_updated (store_state srv) BT_MESH_TIME_SRV_ZONE_UPDATE in
  send_zone_status srv (Some ctx) now.

Definition handle_tai_utc_delta_get (srv : bt_mesh_time_srv) (ctx : bt_mesh_msg_ctx) (now : Z) : bt_mesh_time_srv :=
  send_tai_utc_delta_status srv (Some ctx) now.

Definition handle_tai_utc_delta_set (srv : bt_mesh_time_srv) (ctx : bt_mesh_msg_ctx) (buf : list Z) (now : Z) :
    bt_mesh_time_srv :=
  let '(delta, buf) := net_buf_simple_pull_le16 buf in
  let '(s, buf) := bt_mesh_time_buf_pull_tai_sec buf in
  let srv := set_tai_utc_change {| delta_new := sint 16 (delta - UTC_CHANGE_ZERO_POINT); delta_timestamp := s |} srv in
  let srv := time_updated (store_state srv) BT_MESH_TIME_SRV_UTC_UPDATE in
  send_tai_utc_delta_status srv (Some ctx) now.

Definition handle_role_get (srv : bt_mesh_time_srv) (ctx : bt_mesh_msg_ctx) : bt_mesh_time_srv :=
  send_role_status srv (Some ctx).

Definition handle_role_set (srv : bt_mesh_time_srv) (ctx : bt_mesh_msg_ctx) (buf : list Z) : bt_mesh_time_srv * Z :=
  let '(r, buf) := net_buf_simple_pull_u8 buf in
  if negb (r =? BT_MESH_TIME_NONE) && negb (r =? BT_MESH_TIME_AUTHORITY) &&
     negb (r =? BT_MESH_TIME_RELAY) && negb (r =? BT_MESH_TIME_CLIENT) then (srv, - errno_num EINVAL) else
  (send_role_status (store_state (set_role r srv)) (Some ctx), 0).

(** *** Model *)

Definition bt_mesh_time_srv_init (srv : bt_mesh_time_srv) : bt_mesh_time_srv :=
  let srv := set_pub_msg [] (set_timestamp (- STATUS_INTERVAL_MIN) srv) in
  set_status_delay false (set_cached_ttl 0 (set_is_unsolicited false srv)).

Definition bt_mesh_time_srv_reset (srv : bt_mesh_time_srv) : bt_mesh_time_srv :=
  let srv := set_sync_status no_status (set_sync_uptime 0 srv) in
  let srv := set_time_zone_change {| new_offset := 0; zone_timestamp := 0 |} srv in
  let srv := set_tai_utc_change {| delta_new := 0; delta_timestamp := 0 |} srv in
  let srv := set_timestamp (- STATUS_INTERVAL_MIN) (set_role BT_MESH_TIME_NONE srv) in
  let srv := set_status_delay false (set_cached_ttl 0 (set_is_unsolicited false (set_pub_msg [] srv))) in
  if SETTINGS then time_out (TimeStored None) srv else srv.

(** [data] is what is read, unless its size is another. *)
Definition bt_mesh_time_srv_settings_set (srv : bt_mesh_time_srv) (data : option bt_mesh_time_srv_settings_data) :
    bt_mesh_time_srv * Z :=
  match data with
  | None => (srv, - errno_num EINVAL)
  | Some data =>
    let srv := set_role (st_role data) srv in
    let srv := set_time_zone_change {| new_offset := time_zone_offset_new data; zone_timestamp := tai_of_zone_change data |} srv in
    (set_tai_utc_change {| delta_new := tai_utc_delta_new data; delta_timestamp := tai_of_delta_change data |} srv, 0)
  end.

Definition _bt_mesh_time_srv_update_handler (srv : bt_mesh_time_srv) (retransmission : bool) (now : Z) :
    bt_mesh_time_srv * Z :=
  if negb (role srv =? BT_MESH_TIME_AUTHORITY) && negb (role srv =? BT_MESH_TIME_RELAY)
  then (srv, - errno_num EPERM) else
  match bt_mesh_time_srv_status srv now with
  | Ok status =>
    let srv := if negb retransmission && is_unsolicited srv
               then set_is_unsolicited false (set_pub_ttl (cached_ttl srv) srv) else srv in
    let srv := set_timestamp now srv in
    (set_pub_msg (bt_mesh_time_encode_time_params [] (with_hop status)) srv, 0)
  | Err e => (srv, - errno_num e)
  | _ => (srv, 0)
  end.

(** *** Functions for the user *)

Definition bt_mesh_time_srv_mktime (srv : bt_mesh_time_srv) (timeptr : tm) : res Z :=
  let curr_utc_delta := tai_utc_delta (sync_status srv) in
  let curr_time_zone := zone_offset_to_sec (time_zone_offset (sync_status srv)) in
  let* t := ts_to_tai timeptr in
  let new_time_zone := zone_offset_to_sec (new_offset (time_zone_change srv)) in
  let s := if ctrue (zone_timestamp (time_zone_change srv)) &&
              (u64 (zone_timestamp (time_zone_change srv) + new_time_zone) <=? u64 (sec t))
           then sec t - new_time_zone else sec t - curr_time_zone in
  let new_utc_delta := delta_new (tai_utc_change srv) in
  let s := if ctrue (delta_timestamp (tai_utc_change srv)) &&
              (u64 (delta_timestamp (tai_utc_change srv) - new_utc_delta) <=? u64 s)
           then s + new_utc_delta else s + curr_utc_delta in
  if (s <? 0) || (s <? sec (tai (sync_status srv))) then Err EINVAL else
  let t := {| sec := u40 s; subsec := subsec t |} in
  Ok (sint 64 (tai_to_ms t - tai_to_ms (tai (sync_status srv)) + sync_uptime srv)).

Definition bt_mesh_time_srv_localtime_r (srv : bt_mesh_time_srv) (uptime : Z) : res (option tm) :=
  if tai_is_unknown (tai (sync_status srv)) || (uptime <? sync_uptime srv) then Ok None else
  let t := tai_at srv uptime in
  let s := u40 (sec t + zone_offset_to_sec (get_zone_offset srv uptime)) in
  let s := u40 (s - get_utc_delta srv uptime) in
  let* timeptr := tai_to_ts {| sec := s; subsec := subsec t |} in
  Ok (Some timeptr).

Definition bt_mesh_time_srv_localtime (srv : bt_mesh_time_srv) (uptime : Z) : res (option tm) :=
  bt_mesh_time_srv_localtime_r srv uptime.

Definition bt_mesh_time_srv_uncertainty_get (srv : bt_mesh_time_srv) (uptime : Z) : Z :=
  if uptime - sync_uptime srv <? 0 then u64 (- errno_num EAGAIN) else get_uncertainty_ms srv uptime.

Definition bt_mesh_time_srv_time_set (srv : bt_mesh_time_srv) (uptime : Z) (status : bt_mesh_time_status) :
    bt_mesh_time_srv := set_sync_status status (set_sync_uptime uptime srv).

Definition bt_mesh_time_srv_time_zone_change_set (srv : bt_mesh_time_srv) (data : bt_mesh_time_zone_change) :
    bt_mesh_time_srv := store_state (set_time_zone_change data srv).

Definition bt_mesh_time_srv_tai_utc_change_set (srv : bt_mesh_time_srv) (data : bt_mesh_time_tai_utc_change) :
    bt_mesh_time_srv := store_state (set_tai_utc_change data srv).

Definition bt_mesh_time_srv_role_set (srv : bt_mesh_time_srv) (r : Z) : bt_mesh_time_srv := store_state (set_role r srv).

End TimeServer.
