(* ===== verification/MeshTimeSpec.v ===== *)
(** * Correctness of the time of Bluetooth mesh

    The conversions between seconds and dates are inverse to each other on all 40
    bits of seconds; the coding of the time in messages is; and the local time and
    the time since the start correspond to each other. *)

From stdpp Require Import prelude list.
From Stdlib Require Import ZArith Lia.
From S2P Require Import Prelude Digits MeshTime.

Open Scope Z_scope.

(** ** Dates *)

Fixpoint zsum (l : list Z) : Z := match l with [] => 0 | x :: l => x + zsum l end.

(** The days from the start of a year on, over [n] years. *)
Fixpoint years_sum (n : nat) (year : Z) : Z :=
  match n with O => 0 | S n => days_in_year year + years_sum n (year + 1) end.

(** The days before a year since 2000, and before a month since the year's start. *)
Definition days_before_year (year : Z) : Z := years_sum (Z.to_nat (year - TAI_START_YEAR)) TAI_START_YEAR.
Definition days_before_month (leap : bool) (mon : Z) : Z := zsum (take (Z.to_nat mon) (months_of leap)).
Definition days_in_month (leap : bool) (mon : Z) : Z := zth (months_of leap) mon.

Definition leap_of (t : tm) : bool := is_leap_year (tm_year t + TM_START_YEAR).

(** The year is 2000 or later, and month, day and time are those of a calendar. *)
Record date_ok (t : tm) : Prop := {
  ok_year : TAI_START_YEAR <= tm_year t + TM_START_YEAR;
  ok_mon : 0 <= tm_mon t < 12;
  ok_mday : 1 <= tm_mday t <= days_in_month (leap_of t) (tm_mon t);
  ok_hour : 0 <= tm_hour t < 24;
  ok_min : 0 <= tm_min t < 60;
  ok_sec : 0 <= tm_sec t < 60
}.

(** The number of the day since 2000 and of the second. *)
Definition day_number (t : tm) : Z :=
  days_before_year (tm_year t + TM_START_YEAR) + days_before_month (leap_of t) (tm_mon t) + (tm_mday t - 1).
Definition seconds (t : tm) : Z :=
  day_number t * SEC_PER_DAY + tm_hour t * SEC_PER_HOUR + tm_min t * SEC_PER_MIN + tm_sec t.

(** *** Years *)

Lemma days_in_year_range y : 365 <= days_in_year y <= 366.
Proof. unfold days_in_year. case_match; unfold DAYS_LEAP_YEAR, DAYS_YEAR; lia. Qed.

Lemma years_sum_snoc n y : years_sum (S n) y = years_sum n y + days_in_year (y + Z.of_nat n).
Proof.
  revert y. induction n as [|n IH]; intros y; [cbn [years_sum Z.of_nat]; by rewrite !Z.add_0_r|].
  change (days_in_year y + years_sum (S n) (y + 1) = days_in_year y + years_sum n (y + 1) + days_in_year (y + Z.of_nat (S n))).
  rewrite IH. replace (y + 1 + Z.of_nat n) with (y + Z.of_nat (S n)) by lia. lia.
Qed.

Lemma days_before_year_succ y : TAI_START_YEAR <= y -> days_before_year (y + 1) = days_before_year y + days_in_year y.
Proof.
  unfold days_before_year. intros Hy. replace (Z.to_nat (y + 1 - TAI_START_YEAR)) with (S (Z.to_nat (y - TAI_START_YEAR))) by lia.
  rewrite years_sum_snoc. do 2 f_equal. lia.
Qed.

Lemma days_before_year_mono a b : TAI_START_YEAR <= a -> a < b -> days_before_year a + days_in_year a <= days_before_year b.
Proof.
  intros Ha Hab. replace b with (a + 1 + Z.of_nat (Z.to_nat (b - a - 1))) by lia.
  induction (Z.to_nat (b - a - 1)) as [|n IH].
  - rewrite Z.add_0_r, days_before_year_succ by done. lia.
  - replace (a + 1 + Z.of_nat (S n)) with (a + 1 + Z.of_nat n + 1) by lia. rewrite days_before_year_succ by lia.
    pose proof (days_in_year_range (a + 1 + Z.of_nat n)). lia.
Qed.

Lemma years_sum_range n y : 365 * Z.of_nat n <= years_sum n y <= 366 * Z.of_nat n.
Proof. revert y. induction n as [|n IH]; intros y; [done|]. cbn [years_sum]. specialize (IH (y + 1)). pose proof (days_in_year_range y). lia. Qed.

(** *** Months *)

(** Goals about all months are decided by cases. *)
Ltac by_month mon leap :=
  let H := fresh in
  assert (H : mon = 0 \/ mon = 1 \/ mon = 2 \/ mon = 3 \/ mon = 4 \/ mon = 5 \/ mon = 6 \/ mon = 7 \/ mon = 8 \/ mon = 9 \/
    mon = 10 \/ mon = 11) by lia;
  repeat (destruct H as [->|H]); try subst mon; destruct leap.

Lemma days_in_month_range leap mon : 0 <= mon < 12 -> 28 <= days_in_month leap mon <= 31.
Proof. intros Hm. by_month mon leap; by vm_compute. Qed.

Lemma days_before_month_succ leap mon :
  0 <= mon < 12 -> days_before_month leap (mon + 1) = days_before_month leap mon + days_in_month leap mon.
Proof. intros Hm. by_month mon leap; by vm_compute. Qed.

Lemma days_before_month_mono leap a b :
  0 <= a -> a < b -> b <= 12 -> days_before_month leap a + days_in_month leap a <= days_before_month leap b.
Proof.
  intros Ha Hab. replace b with (a + 1 + Z.of_nat (Z.to_nat (b - a - 1))) by lia.
  induction (Z.to_nat (b - a - 1)) as [|n IH]; intros Hb.
  - rewrite Z.add_0_r, days_before_month_succ by lia. lia.
  - replace (a + 1 + Z.of_nat (S n)) with (a + 1 + Z.of_nat n + 1) by lia. rewrite days_before_month_succ by lia.
    pose proof (days_in_month_range leap (a + 1 + Z.of_nat n)). lia.
Qed.

Lemma days_before_month_end leap : days_before_month leap 12 = if leap then 366 else 365.
Proof. by destruct leap. Qed.

Lemma days_before_month_nonneg leap mon : 0 <= mon <= 12 -> 0 <= days_before_month leap mon.
Proof.
  intros Hm. destruct (decide (mon = 0)) as [->|]; [done|]. change 0 with (days_before_month leap 0) at 1.
  pose proof (days_before_month_mono leap 0 mon). pose proof (days_in_month_range leap 0). lia.
Qed.

(** The day within the year. *)
Lemma day_of_year_range t : date_ok t ->
  0 <= days_before_month (leap_of t) (tm_mon t) + (tm_mday t - 1) < days_in_year (tm_year t + TM_START_YEAR).
Proof.
  intros [_ Hm Hd _ _ _]. pose proof (days_before_month_nonneg (leap_of t) (tm_mon t)).
  pose proof (days_before_month_mono (leap_of t) (tm_mon t) 12). rewrite days_before_month_end in *.
  unfold days_in_year. fold (leap_of t). unfold DAYS_LEAP_YEAR, DAYS_YEAR. destruct (leap_of t); lia.
Qed.

(** ** Order of dates *)

(** Comparison field by field. *)
Definition day_lt (a b : tm) : Prop :=
  tm_year a < tm_year b \/ tm_year a = tm_year b /\
  (tm_mon a < tm_mon b \/ tm_mon a = tm_mon b /\ tm_mday a < tm_mday b).
Definition same_day (a b : tm) : Prop := tm_year a = tm_year b /\ tm_mon a = tm_mon b /\ tm_mday a = tm_mday b.
Definition clock_lt (a b : tm) : Prop :=
  tm_hour a < tm_hour b \/ tm_hour a = tm_hour b /\
  (tm_min a < tm_min b \/ tm_min a = tm_min b /\ tm_sec a < tm_sec b).
Definition same_clock (a b : tm) : Prop := tm_hour a = tm_hour b /\ tm_min a = tm_min b /\ tm_sec a = tm_sec b.

Lemma day_number_lt a b : date_ok a -> date_ok b -> day_lt a b -> day_number a < day_number b.
Proof.
  intros Ha Hb [Hy|[Hy [Hm|[Hm Hd]]]]; unfold day_number.
  - pose proof (day_of_year_range a Ha). pose proof (day_of_year_range b Hb).
    pose proof (days_before_year_mono _ (tm_year b + TM_START_YEAR) (ok_year a Ha)). lia.
  - unfold leap_of. rewrite Hy. fold (leap_of b). destruct Ha as [_ Hma Hda _ _ _], Hb as [_ Hmb Hdb _ _ _].
    unfold leap_of in Hda. rewrite Hy in Hda. fold (leap_of b) in Hda.
    pose proof (days_before_month_mono (leap_of b) (tm_mon a) (tm_mon b)). lia.
  - unfold leap_of. rewrite Hy, Hm. lia.
Qed.

Lemma day_number_same a b : same_day a b -> day_number a = day_number b.
Proof. intros (Hy & Hm & Hd). unfold day_number, leap_of. by rewrite Hy, Hm, Hd. Qed.

Lemma day_cases a b : day_lt a b \/ same_day a b \/ day_lt b a.
Proof. unfold day_lt, same_day. lia. Qed.

Lemma clock_cases a b : clock_lt a b \/ same_clock a b \/ clock_lt b a.
Proof. unfold clock_lt, same_clock. lia. Qed.

(** Dates are ordered as their seconds are. *)
Lemma seconds_lt a b : date_ok a -> date_ok b ->
  seconds a < seconds b <-> day_lt a b \/ same_day a b /\ clock_lt a b.
Proof.
  assert (H : forall a b, date_ok a -> date_ok b -> day_lt a b -> seconds a < seconds b).
  { intros ?? Ha Hb Hd. pose proof (day_number_lt _ _ Ha Hb Hd). destruct Ha, Hb.
    unfold seconds, SEC_PER_DAY, SEC_PER_HOUR, SEC_PER_MIN. lia. }
  intros Ha Hb. split.
  - intros Hs. destruct (day_cases a b) as [|[Hd|Hd]]; [by left| |specialize (H b a Hb Ha Hd); lia].
    right. split; [done|]. destruct (clock_cases a b) as [|[Hc|Hc]]; [done|..]; exfalso;
      pose proof (day_number_same _ _ Hd); destruct Ha, Hb; unfold seconds, SEC_PER_DAY, SEC_PER_HOUR, SEC_PER_MIN in Hs;
      unfold clock_lt, same_clock in Hc; lia.
  - intros [Hd|[Hd Hc]]; [by apply H|]. pose proof (day_number_same _ _ Hd). destruct Ha, Hb. unfold clock_lt in Hc.
    unfold seconds, SEC_PER_DAY, SEC_PER_HOUR, SEC_PER_MIN. lia.
Qed.

Lemma seconds_inj a b : date_ok a -> date_ok b -> seconds a = seconds b -> same_day a b /\ same_clock a b.
Proof.
  intros Ha Hb Hs. pose proof (seconds_lt a b Ha Hb) as H1. pose proof (seconds_lt b a Hb Ha) as H2.
  destruct (day_cases a b) as [Hd|[Hd|Hd]]; [exfalso; assert (seconds a < seconds b) by tauto; lia| |
    exfalso; assert (seconds b < seconds a) by tauto; lia].
  split; [done|]. assert (Hd' : same_day b a) by (destruct Hd as (? & ? & ?); done).
  destruct (clock_cases a b) as [Hc|[|Hc]]; [exfalso; assert (seconds a < seconds b) by tauto; lia|done|
    exfalso; assert (seconds b < seconds a) by tauto; lia].
Qed.

Lemma seconds_nonneg t : date_ok t -> 0 <= seconds t.
Proof.
  intros H. pose proof (day_of_year_range t H). pose proof (years_sum_range (Z.to_nat (tm_year t + TM_START_YEAR - TAI_START_YEAR)) TAI_START_YEAR).
  destruct H. unfold seconds, day_number, days_before_year, SEC_PER_DAY, SEC_PER_HOUR, SEC_PER_MIN. lia.
Qed.

(** ** From dates to seconds *)

Lemma add_years_sum n y d : 0 <= d -> d + years_sum n y < 2 ^ 32 -> add_years n y d = d + years_sum n y.
Proof.
  revert y d. induction n as [|n IH]; intros y d Hd Hs; [cbn; lia|]. cbn [add_years years_sum] in *.
  pose proof (days_in_year_range y). pose proof (years_sum_range n (y + 1)). rewrite u32_small by lia. rewrite IH by lia. lia.
Qed.

Lemma months_length leap : length (months_of leap) = 12%nat.
Proof. by destruct leap. Qed.

Lemma add_months_sum n leap i d :
  0 <= i -> i + Z.of_nat n <= 12 -> 0 <= d ->
  d + (days_before_month leap (i + Z.of_nat n) - days_before_month leap i) < 2 ^ 32 ->
  add_months n (months_of leap) i d = Ok (d + (days_before_month leap (i + Z.of_nat n) - days_before_month leap i)).
Proof.
  revert i d. induction n as [|n IH]; intros i d Hi Hn Hd Hs; [cbn [add_months]; f_equal; change (Z.of_nat 0) with 0; rewrite Z.add_0_r; lia|].
  cbn [add_months]. rewrite rd_Ok by (rewrite months_length; lia). cbn [mbind res_bind]. fold (days_in_month leap i).
  pose proof (days_in_month_range leap i). pose proof (days_before_month_succ leap i).
  assert (days_before_month leap (i + 1) <= days_before_month leap (i + Z.of_nat (S n))).
  { destruct n; [done|]. pose proof (days_before_month_mono leap (i + 1) (i + Z.of_nat (S (S n)))).
    pose proof (days_in_month_range leap (i + 1)). lia. }
  rewrite u32_small by lia. replace (i + Z.of_nat (S n)) with (i + 1 + Z.of_nat n) in * by lia. rewrite IH by lia. f_equal. lia.
Qed.

(** A date whose seconds have 40 bits is converted to its seconds. *)
Lemma ts_to_tai_seconds t : date_ok t -> seconds t < 2 ^ 40 -> ts_to_tai t = Ok {| sec := seconds t; subsec := 0 |}.
Proof.
  intros Ht Hs. pose proof (day_of_year_range t Ht) as Hr. pose proof (ok_year t Ht) as Hy. pose proof (ok_mon t Ht) as Hm.
  pose proof (years_sum_range (Z.to_nat (tm_year t + TM_START_YEAR - TAI_START_YEAR)) TAI_START_YEAR) as Hys.
  pose proof (days_before_month_nonneg (leap_of t) (tm_mon t)) as Hmn. pose proof (days_in_month_range (leap_of t) (tm_mon t)) as Hdm.
  assert (Hday : 0 <= day_number t < 2 ^ 24).
  { unfold day_number, days_before_year. split; [destruct Ht; lia|]. revert Hs. unfold seconds, day_number, days_before_year, SEC_PER_DAY, SEC_PER_HOUR, SEC_PER_MIN.
    destruct Ht. lia. }
  assert (Hyear : tm_year t + TM_START_YEAR < 2 ^ 32) by (revert Hday; unfold day_number, days_before_year, TAI_START_YEAR in *; lia).
  unfold ts_to_tai. unfold TAI_START_YEAR in Hy. rewrite (u32_small (_ + _)) by lia. fold (leap_of t).
  destruct (Z.ltb_spec (tm_year t + TM_START_YEAR) TAI_START_YEAR); [unfold TAI_START_YEAR in *; lia|].
  revert Hday. unfold day_number. intros Hday.
  rewrite add_years_sum by (fold (days_before_year (tm_year t + TM_START_YEAR)); lia). fold (days_before_year (tm_year t + TM_START_YEAR)).
  rewrite add_months_sum; rewrite ?Z2Nat.id by lia; rewrite ?Z.add_0_l; change (days_before_month (leap_of t) 0) with 0;
    [|lia|lia|unfold days_before_year in *; lia|destruct Ht; lia].
  rewrite Z.sub_0_r. cbn [mbind res_bind]. rewrite (u32_small (_ + (tm_mday t - 1))) by (destruct Ht; unfold days_before_year in *; lia).
  assert (H40 : forall z, 0 <= z <= seconds t -> u40 z = z) by (intros z Hz; apply Z.mod_small; lia).
  unfold seconds, day_number, SEC_PER_DAY, SEC_PER_HOUR, SEC_PER_MIN in *. destruct Ht.
  rewrite (H40 (_ * _)) by lia. rewrite (H40 (_ + tm_hour t * _)) by lia. rewrite (H40 (_ + tm_min t * _)) by lia.
  by rewrite H40 by lia.
Qed.

(** ** From seconds to dates *)

Lemma year_loop_finds fuel y d :
  TAI_START_YEAR <= y -> 0 <= d < years_sum (S fuel) y ->
  exists year, year_loop fuel y d = Ok (year, d - (days_before_year year - days_before_year y)) /\ y <= year /\
    0 <= d - (days_before_year year - days_before_year y) < days_in_year year.
Proof.
  revert y d. induction fuel as [|fuel IH]; intros y d Hy Hd; cbn [year_loop]; destruct (Z.ltb_spec d (days_in_year y)) as [Hl|Hl];
    try (exists y; rewrite Z.sub_diag, Z.sub_0_r; split; [done|lia]).
  - cbn [years_sum] in Hd. lia.
  - destruct (IH (y + 1) (d - days_in_year y)) as (year & E & Hle & Hr); [lia|cbn [years_sum] in *; lia|]. rewrite days_before_year_succ in * by done.
    exists year. rewrite E. split; [do 2 f_equal; lia|lia].
Qed.

Lemma mon_loop_finds months mon d :
  0 <= d < zsum months ->
  exists k : nat, mon_loop months mon d = (mon + Z.of_nat k, d - zsum (take k months)) /\ (k < length months)%nat /\
    0 <= d - zsum (take k months) < zth months (Z.of_nat k).
Proof.
  revert mon d. induction months as [|m months IH]; intros mon d Hd; cbn [mon_loop zsum] in *; [lia|].
  destruct (Z.leb_spec m d).
  - destruct (IH (mon + 1) (d - m)) as (k & E & Hk & Hr); [lia|]. exists (S k). rewrite E. cbn [take zsum length].
    split; [f_equal; lia|]. split; [lia|]. unfold zth in *. rewrite Nat2Z.id in *.
    change (default 0 ((m :: months) !! S k)) with (default 0 (months !! k)). lia.
  - exists O. change (zth (m :: months) (Z.of_nat 0)) with m. cbn. split; [f_equal; lia|]. lia.
Qed.

(** Every number of seconds is the one of a date, with the day of the week. *)
Lemma tai_to_ts_seconds s sub : 0 <= s ->
  exists t, tai_to_ts {| sec := s; subsec := sub |} = Ok t /\ date_ok t /\ seconds t = s /\
    tm_wday t = (TAI_START_DAY + day_number t) mod WEEKDAY_CNT /\
    tm_yday t = days_before_month (leap_of t) (tm_mon t) + (tm_mday t - 1).
Proof.
  intros Hs. unfold tai_to_ts. cbn [sec]. set (day := s / SEC_PER_DAY).
  assert (Hday : 0 <= day) by (apply Z.div_pos; done). unfold SEC_PER_DAY, SEC_PER_HOUR, SEC_PER_MIN in *.
  destruct (year_loop_finds (Z.to_nat (day / DAYS_YEAR)) TAI_START_YEAR day) as (year & E & Hy & Hr); [done| |].
  { split; [done|]. pose proof (years_sum_range (S (Z.to_nat (day / DAYS_YEAR))) TAI_START_YEAR).
    pose proof (Z.mul_succ_div_gt day DAYS_YEAR). pose proof (Z.div_pos day DAYS_YEAR). unfold DAYS_YEAR in *. lia. }
  change (days_before_year TAI_START_YEAR) with 0 in *. rewrite Z.sub_0_r in *. rewrite E. cbn [mbind res_bind].
  set (yday := day - days_before_year year) in *.
  destruct (mon_loop_finds (months_of (is_leap_year year)) 0 yday) as (k & Em & Hk & Hm).
  { split; [lia|]. pose proof (days_before_month_end (is_leap_year year)) as He. unfold days_before_month in He.
    rewrite firstn_all2 in He by (rewrite months_length; lia). rewrite He. unfold days_in_year, DAYS_LEAP_YEAR, DAYS_YEAR in Hr. destruct (is_leap_year year); lia. }
  rewrite Em, Z.add_0_l. rewrite months_length in Hk. eexists. split; [reflexivity|]. cbn [tm_wday tm_yday].
  assert (Hleap : forall t, tm_year t = year - TM_START_YEAR -> leap_of t = is_leap_year year).
  { intros t Ht. unfold leap_of. rewrite Ht. f_equal. lia. }
  rewrite !(Hleap _) by done. assert (Hdn : forall t, tm_year t = year - TM_START_YEAR -> tm_mon t = Z.of_nat k ->
    tm_mday t = yday - zsum (take k (months_of (is_leap_year year))) + 1 -> day_number t = day).
  { intros t H1 H2 H3. unfold day_number, days_before_month. rewrite Hleap, H1, H2, H3, Nat2Z.id by done.
    replace (year - TM_START_YEAR + TM_START_YEAR) with year by lia. lia. }
  cbn [tm_mon tm_mday]. split; [|split; [|split]].
  - split; cbn; [lia|lia|rewrite Hleap by done; unfold days_in_month; lia|..]; Z.to_euclidean_division_equations; lia.
  - unfold seconds. rewrite Hdn by done. cbn. unfold day, SEC_PER_DAY, SEC_PER_HOUR, SEC_PER_MIN. Z.to_euclidean_division_equations. lia.
  - by rewrite Hdn.
  - unfold days_before_month. rewrite Nat2Z.id. lia.
Qed.

(** C26: The conversions between seconds and dates are inverse to each other: all
    seconds of 40 bits become dates of the calendar from 2000 on, which are
    converted back to the same seconds, and every date whose seconds have 40 bits
    comes back from its seconds, with the day of the week and of the year. *)
Theorem calendar_round_trip s sub t :
  0 <= s < 2 ^ 40 -> date_ok t -> seconds t < 2 ^ 40 ->
  (exists d, tai_to_ts {| sec := s; subsec := sub |} = Ok d /\ date_ok d /\ ts_to_tai d = Ok {| sec := s; subsec := 0 |}) /\
  (exists n d, ts_to_tai t = Ok n /\ tai_to_ts n = Ok d /\ same_day d t /\ same_clock d t /\
    tm_wday d = (TAI_START_DAY + day_number t) mod WEEKDAY_CNT /\
    tm_yday d = days_before_month (leap_of t) (tm_mon t) + (tm_mday t - 1)).
Proof.
  intros Hs Ht Hts. split.
  - destruct (tai_to_ts_seconds s sub) as (d & E & Hd & Hds & _); [lia|]. exists d. split; [done|]. split; [done|].
    rewrite ts_to_tai_seconds by (done || lia). by rewrite Hds.
  - destruct (tai_to_ts_seconds (seconds t) 0 (seconds_nonneg t Ht)) as (d & E & Hd & Hds & Hw & Hy).
    eexists _, d. split; [by apply ts_to_tai_seconds|]. split; [done|].
    destruct (seconds_inj d t Hd Ht Hds) as [Hday Hclock]. split; [done|]. split; [done|].
    rewrite Hw, Hy, (day_number_same d t Hday). destruct Hday as (H1 & H2 & H3). unfold leap_of. by rewrite H1, H2, H3.
Qed.

(** ** Messages *)

(** What the fields of a message can hold. *)
Record status_ok (s : bt_mesh_time_status) : Prop := {
  so_sec : bits 40 (sec (tai s));
  so_subsec : byte (subsec (tai s));
  so_uncertainty : 0 <= uncertainty s;
  so_delta : 0 <= tai_utc_delta s + UTC_CHANGE_ZERO_POINT < 2 ^ 15;
  so_zone : 0 <= time_zone_offset s + ZONE_CHANGE_ZERO_POINT < 2 ^ 8
}.

(** The uncertainty in steps of 10 ms, up to 2550 ms. *)
Definition rounded (s : bt_mesh_time_status) : bt_mesh_time_status :=
  {| tai := tai s; uncertainty := Z.min 2550 (uncertainty s / 10 * 10); tai_utc_delta := tai_utc_delta s;
     time_zone_offset := time_zone_offset s; is_authority := is_authority s |}.

Lemma sint16_small z : -32768 <= z < 32768 -> sint 16 z = z.
Proof.
  intros. unfold sint. change (2 ^ (16 - 1)) with 32768. change (2 ^ 16) with 65536. destruct (decide (0 <= z)).
  - rewrite Z.mod_small by lia. destruct (Z.ltb_spec z 32768); lia.
  - replace (z mod 65536) with (z + 65536); [destruct (Z.ltb_spec (z + 65536) 32768); lia|]. apply Z.mod_unique with (-1); lia.
Qed.

Lemma lor_shiftl_add a b k : 0 <= k -> bits k a -> Z.lor a (Z.shiftl b k) = a + b * 2 ^ k.
Proof.
  intros Hk Ha. rewrite <- Z.shiftl_mul_pow2 by done. assert (H : Z.land a (Z.shiftl b k) = 0).
  { apply Z.bits_inj'. intros n Hn. rewrite Z.land_spec, Z.bits_0. destruct (decide (n < k)).
    - rewrite Z.shiftl_spec_low by done. apply andb_false_r.
    - by rewrite (bits_testbit_high k) by (done || lia). }
  by rewrite Z.add_nocarry_lxor, Z.lxor_lor.
Qed.

Section Messages.
Context {MB : MeshBuf}.

Lemma put_tai_sec_digits b s : bt_mesh_time_buf_put_tai_sec b s = b ++ digits 8 5 s.
Proof.
  unfold bt_mesh_time_buf_put_tai_sec, u8. cbn. rewrite !Z.shiftr_div_pow2, !Z.div_div by lia. change (2 ^ 0) with 1.
  rewrite Z.div_1_r. done.
Qed.

Lemma pull_tai_sec_digits s l : bits 40 s -> bt_mesh_time_buf_pull_tai_sec (digits 8 5 s ++ l) = (s, l).
Proof.
  intros Hs. rewrite (digits_app 8 4 1) by lia. unfold bt_mesh_time_buf_pull_tai_sec. rewrite <- app_assoc.
  rewrite pull_le32_spec by apply length_digits. change (8 * Z.of_nat 4) with 32. change (digits 8 1 (s / 2 ^ 32)) with [(s / 2 ^ 32) mod 256].
  cbn [app]. rewrite pull_u8_spec, value_digits by lia. f_equal. change (8 * Z.of_nat 4) with 32.
  rewrite lor_shiftl_add by (lia || apply bits_mod; lia). rewrite (Z.mod_small (s / 2 ^ 32)) by (unfold bits in Hs; Z.to_euclidean_division_equations; lia).
  pose proof (Z.div_mod s (2 ^ 32)). lia.
Qed.

(** A time status that is put into a message is read from it again, but for
    its uncertainty, which is rounded down to steps of 10 ms. *)
Theorem time_params_round_trip s :
  status_ok s -> bt_mesh_time_decode_time_params (bt_mesh_time_encode_time_params [] s) = rounded s.
Proof.
  intros [Hsec Hsub Hunc Hdelta Hzone]. unfold bt_mesh_time_encode_time_params. rewrite put_tai_sec_digits, !add_u8_spec, add_le16_spec, <- !app_assoc.
  unfold UTC_CHANGE_ZERO_POINT, ZONE_CHANGE_ZERO_POINT in *. rewrite (u16_small (_ + _)) by lia. rewrite (u8_small (u8 _)) by apply u8_range.
  rewrite (u8_small (_ + 64)), (u8_small (subsec _)) by (unfold bits in *; lia). unfold bt_mesh_time_decode_time_params. rewrite !length_app, !length_digits.
  cbn [Z.eqb negb app]. rewrite pull_tai_sec_digits by done. cbn [app]. rewrite !pull_u8_spec, pull_le16_spec by done.
  rewrite pull_u8_spec, value_digits by lia. change (2 ^ (8 * Z.of_nat 2)) with 65536.
  assert (Hb : 0 <= Z.b2z (is_authority s) < 2) by (destruct (is_authority s); cbn; lia).
  rewrite lor_shiftl_add by (done || lia). change (2 ^ 1) with 2. rewrite (Z.mod_small _ 65536) by lia.
  set (x := Z.b2z (is_authority s) + (tai_utc_delta s + 255) * 2).
  assert (E1 : Z.shiftr x 1 = tai_utc_delta s + 255) by (rewrite Z.shiftr_div_pow2 by lia; subst x; Z.to_euclidean_division_equations; lia).
  assert (E2 : Z.land x 1 = Z.b2z (is_authority s))
    by (change 1 with (Z.ones 1); rewrite Z.land_ones by lia; subst x; Z.to_euclidean_division_equations; lia).
  rewrite E1, E2. unfold UTC_CHANGE_ZERO_POINT, ZONE_CHANGE_ZERO_POINT.
  rewrite !sint16_small by lia. unfold u40. rewrite (Z.mod_small (sec _)) by apply Hsec. cbn [length Nat.add Z.of_nat Pos.of_succ_nat Pos.succ]. cbn [negb Z.eqb].
  unfold rounded. unfold UNCERTAINTY_MS_MAX, UNCERTAINTY_STEP_MS. f_equal; [by destruct (tai s)| |lia..|by destruct (is_authority s)].
  destruct (Z.ltb_spec (uncertainty s) 2550); [|rewrite u8_small by lia; Z.to_euclidean_division_equations; lia].
  assert (0 <= uncertainty s / 10 < 255) by (Z.to_euclidean_division_equations; lia). rewrite !u8_small by (rewrite ?u8_small; lia). lia.
Qed.

End Messages.

(** ** Local time *)

(** The time is known to the second, and no change of the zone or of the leap
    seconds is announced. *)
Record clock_ok (srv : bt_mesh_time_srv) : Prop := {
  ck_sec : 0 < sec (tai (sync_status srv));
  ck_subsec : subsec (tai (sync_status srv)) = 0;
  ck_zone : 0 <= time_zone_offset (sync_status srv);
  ck_zone_change : zone_timestamp (time_zone_change srv) = 0;
  ck_delta_change : delta_timestamp (tai_utc_change srv) = 0;
  ck_uptime : 0 <= sync_uptime srv < 2 ^ 62
}.

(** The seconds of atomic time and of local time at a time since the start. *)
Definition tai_sec (srv : bt_mesh_time_srv) (u : Z) : Z :=
  sec (tai (sync_status srv)) + (u - sync_uptime srv) / MSEC_PER_SEC.
Definition zone_sec (srv : bt_mesh_time_srv) : Z :=
  900 * time_zone_offset (sync_status srv) - tai_utc_delta (sync_status srv).
Definition local_sec (srv : bt_mesh_time_srv) (u : Z) : Z := tai_sec srv u + zone_sec srv.

(** The time since the start at which a local second begins. *)
Definition uptime_of (srv : bt_mesh_time_srv) (s : Z) : Z :=
  MSEC_PER_SEC * (s - zone_sec srv - sec (tai (sync_status srv))) + sync_uptime srv.

Section Local.
Context {MC : MeshConfig}.

Lemma zone_offset_sec z : 0 <= z -> zone_offset_to_sec z = 900 * z.
Proof. intros. unfold zone_offset_to_sec. rewrite times_sec_per_min_spec by lia. lia. Qed.

Lemma known srv : clock_ok srv -> tai_is_unknown (tai (sync_status srv)) = false.
Proof. intros [H _ _ _ _ _]. unfold tai_is_unknown. by destruct (Z.eqb_spec (sec (tai (sync_status srv))) 0); [lia|]. Qed.

Lemma tai_at_sec srv u : clock_ok srv -> sync_uptime srv <= u -> tai_sec srv u < 2 ^ 40 -> sec (tai_at srv u) = tai_sec srv u.
Proof.
  intros Hc Hu Hs. unfold tai_at. rewrite (known srv Hc). cbn [sec]. unfold u40. pose proof (ck_sec srv Hc).
  rewrite (Z.quot_div_nonneg (SUBSEC_STEPS * _)) by (unfold SUBSEC_STEPS, MSEC_PER_SEC; lia).
  rewrite Z.quot_div_nonneg by (try apply Z.div_pos; unfold SUBSEC_STEPS, MSEC_PER_SEC; lia).
  rewrite Z.div_div, (Z.mul_comm MSEC_PER_SEC), Z.div_mul_cancel_l by done. apply Z.mod_small.
  unfold tai_sec in *. pose proof (Z.div_pos (u - sync_uptime srv) MSEC_PER_SEC). unfold MSEC_PER_SEC in *. lia.
Qed.

Lemma local_time srv u : clock_ok srv -> sync_uptime srv <= u -> tai_sec srv u < 2 ^ 40 -> 0 <= local_sec srv u < 2 ^ 40 ->
  exists t, bt_mesh_time_srv_localtime_r srv u = Ok (Some t) /\ date_ok t /\ seconds t = local_sec srv u.
Proof.
  intros Hc Hu Hs Hl. unfold bt_mesh_time_srv_localtime_r. rewrite (known srv Hc). cbn [orb].
  destruct (Z.ltb_spec u (sync_uptime srv)); [lia|]. unfold get_zone_offset, get_utc_delta.
  rewrite (ck_zone_change srv Hc), (ck_delta_change srv Hc). cbn [ctrue Z.eqb negb andb].
  rewrite tai_at_sec, zone_offset_sec by (done || apply Hc). unfold u40. rewrite Zminus_mod_idemp_l.
  replace (tai_sec srv u + 900 * time_zone_offset (sync_status srv) - tai_utc_delta (sync_status srv)) with (local_sec srv u)
    by (unfold local_sec, zone_sec; lia).
  rewrite Z.mod_small by done. destruct (tai_to_ts_seconds (local_sec srv u) (subsec (tai_at srv u))) as (t & -> & Ht & E & _); [lia|].
  by exists t.
Qed.

(** The time since the start of a local time that is not before the last setting. *)
Lemma make_time srv t : clock_ok srv -> date_ok t -> seconds t < 2 ^ 40 ->
  sec (tai (sync_status srv)) <= seconds t - zone_sec srv < 2 ^ 40 -> MSEC_PER_SEC * (seconds t - zone_sec srv) < 2 ^ FIELD_BITS ->
  bt_mesh_time_srv_mktime srv t = Ok (uptime_of srv (seconds t)).
Proof.
  intros Hc Ht H40 Hs Hms. unfold bt_mesh_time_srv_mktime. rewrite ts_to_tai_seconds by done. cbn [mbind res_bind].
  rewrite (ck_zone_change srv Hc), (ck_delta_change srv Hc). cbn [ctrue Z.eqb negb andb sec subsec].
  rewrite zone_offset_sec by apply Hc. set (s := seconds t - _ + _).
  assert (Es : s = seconds t - zone_sec srv) by (unfold s, zone_sec; lia). rewrite <- Es in Hs, Hms.
  pose proof (ck_sec srv Hc) as Hpos. destruct (Z.ltb_spec s 0); [lia|].
  destruct (Z.ltb_spec s (sec (tai (sync_status srv)))); [lia|]. cbn [orb]. unfold u40. rewrite (Z.mod_small s) by lia.
  assert (Hto : forall x, 0 <= x <= s -> tai_to_ms {| sec := x; subsec := 0 |} = MSEC_PER_SEC * x).
  { intros x Hx. unfold tai_to_ms. cbn [sec subsec]. change (MSEC_PER_SEC * 0 / SUBSEC_STEPS) with 0.
    rewrite Z.add_0_r, Z.mod_small; unfold MSEC_PER_SEC in *; lia. }
  assert (Esync : tai (sync_status srv) = {| sec := sec (tai (sync_status srv)); subsec := 0 |})
    by (rewrite <- (ck_subsec srv Hc); by destruct (tai (sync_status srv))).
  rewrite Esync at 1. rewrite !Hto by lia. f_equal. unfold uptime_of. rewrite <- Es. cbn [sec]. pose proof (ck_uptime srv Hc).
  unfold sint, MSEC_PER_SEC. rewrite Z.mod_small by lia.
  destruct (Z.ltb_spec (1000 * s - 1000 * sec (tai (sync_status srv)) + sync_uptime srv) (2 ^ (64 - 1))); lia.
Qed.

Lemma local_of_uptime srv s : local_sec srv (uptime_of srv s) = s.
Proof.
  unfold local_sec, tai_sec, uptime_of. replace (_ + sync_uptime srv - sync_uptime srv)
    with ((s - zone_sec srv - sec (tai (sync_status srv))) * MSEC_PER_SEC) by lia. rewrite Z.div_mul by done. lia.
Qed.

Lemma uptime_of_local srv u : uptime_of srv (local_sec srv u) <= u < uptime_of srv (local_sec srv u) + MSEC_PER_SEC.
Proof.
  unfold local_sec, tai_sec, uptime_of. pose proof (Z.mul_div_le (u - sync_uptime srv) MSEC_PER_SEC).
  pose proof (Z.mul_succ_div_gt (u - sync_uptime srv) MSEC_PER_SEC). unfold MSEC_PER_SEC in *. lia.
Qed.

(** C27: With a time that is set to the second, in a zone that is not behind UTC,
    without announced changes of the zone or of the leap seconds, and with seconds
    that fit the fields of the messages and the arithmetic of the compiler: the
    local time at any later moment is a date of the calendar, the function for the
    inverse gives the moment at which this second of local time began, less than a
    second before, and at that moment the local time is the same. (With an announced
    change of the zone the inverse is wrong for some seconds after the change:
    [Demo.announced_zone_inverse].) *)
Theorem local_time_inverse srv u :
  clock_ok srv -> sync_uptime srv <= u -> tai_sec srv u < 2 ^ 40 -> MSEC_PER_SEC * tai_sec srv u < 2 ^ FIELD_BITS ->
  0 <= local_sec srv u < 2 ^ 40 ->
  exists t u', bt_mesh_time_srv_localtime_r srv u = Ok (Some t) /\ date_ok t /\ seconds t = local_sec srv u /\
    bt_mesh_time_srv_mktime srv t = Ok u' /\ u' <= u < u' + MSEC_PER_SEC /\
    exists t', bt_mesh_time_srv_localtime_r srv u' = Ok (Some t') /\ same_day t' t /\ same_clock t' t.
Proof.
  intros Hc Hu Hs Hms Hl.
  destruct (local_time srv u Hc Hu) as (t & E & Ht & Et); [lia|done|]. exists t, (uptime_of srv (local_sec srv u)).
  split; [done|]. split; [done|]. split; [done|]. pose proof (Z.div_pos (u - sync_uptime srv) MSEC_PER_SEC) as Hd.
  assert (Hsync : sync_uptime srv <= uptime_of srv (local_sec srv u)).
  { unfold uptime_of, local_sec, tai_sec, MSEC_PER_SEC in *. lia. }
  split; [rewrite <- Et; apply make_time; [done|done|lia|..]; rewrite Et; unfold local_sec, tai_sec, MSEC_PER_SEC in *; lia|].
  split; [apply uptime_of_local|]. destruct (local_time srv (uptime_of srv (local_sec srv u)) Hc Hsync) as (t' & E' & Ht' & Et').
  - pose proof (local_of_uptime srv (local_sec srv u)) as Hlo. unfold local_sec in Hlo. unfold local_sec. lia.
  - by rewrite local_of_uptime.
  - exists t'. split; [done|]. apply seconds_inj; [done|done|]. by rewrite Et', local_of_uptime, Et.
Qed.

End Local.
