(* ===== verification/MeshSched.v ===== *)
(** * Scheduler of Bluetooth mesh

    The Scheduler Server (subsys/bluetooth/mesh/scheduler_srv.c,
    scheduler_internal.h) keeps a register of sixteen actions, each with a pattern
    of points in time, computes for each the next point in local time, and has one
    work item wait for the first of them. *)

From stdpp Require Import prelude list.
From Stdlib Require Import ZArith Lia.
From S2P Require Import Prelude Digits MeshTime.

Open Scope Z_scope.

(** ** What the server uses *)

(** Random numbers are numbered by the calls. [bt_mesh_elem_find] finds the element
    of the node at an address; [has_scene_srv], [has_onoff_srv] and
    [has_scheduler_srv] tell which models [bt_mesh_model_find] finds on it. *)
Class MeshStack := {
  sys_rand32_get : nat -> Z;
  u32_count_trailing_zeros : Z -> Z;
  bt_mesh_elem : Type;
  elem_addr : bt_mesh_elem -> Z;
  bt_mesh_elem_find : Z -> option bt_mesh_elem;
  has_scene_srv : bt_mesh_elem -> bool;
  has_onoff_srv : bt_mesh_elem -> bool;
  has_scheduler_srv : bt_mesh_elem -> bool;
  count_trailing_zeros_0 : u32_count_trailing_zeros 0 = 32;
  count_trailing_zeros_spec x : 0 < x < 2 ^ 32 ->
    0 <= u32_count_trailing_zeros x < 32 /\ Z.testbit x (u32_count_trailing_zeros x) = true /\
    forall i, 0 <= i < u32_count_trailing_zeros x -> Z.testbit x i = false;
  elem_find_addr a e : bt_mesh_elem_find a = Some e -> elem_addr e = a
}.

Definition BIT (n : Z) : Z := Z.shiftl 1 n.
Definition BIT_MASK (n : Z) : Z := BIT n - 1.
Definition WRITE_BIT (var bit : Z) (set : bool) : Z := if set then Z.setbit var bit else Z.clearbit var bit.
Definition DIV_ROUND_UP (n d : Z) : Z := Z.quot (n + d - 1) d.
Definition BT_MESH_ADDR_IS_UNICAST (a : Z) : bool := ctrue a && (a <? 0x8000).
Definition SYS_FOREVER_MS : Z := -1.

(** ** Schedule register *)

Definition BT_MESH_SCHEDULER_ACTION_ENTRY_COUNT : Z := 16.
Definition BT_MESH_SCHEDULER_ANY_YEAR : Z := 0x64.
Definition BT_MESH_SCHEDULER_ANY_DAY : Z := 0.
Definition BT_MESH_SCHEDULER_ANY_HOUR : Z := 0x18.
Definition BT_MESH_SCHEDULER_ONCE_A_DAY : Z := 0x19.
Definition BT_MESH_SCHEDULER_ANY_MINUTE : Z := 0x3C.
Definition BT_MESH_SCHEDULER_EVERY_15_MINUTES : Z := 0x3D.
Definition BT_MESH_SCHEDULER_EVERY_20_MINUTES : Z := 0x3E.
Definition BT_MESH_SCHEDULER_ONCE_AN_HOUR : Z := 0x3F.
Definition BT_MESH_SCHEDULER_ANY_SECOND : Z := 0x3C.
Definition BT_MESH_SCHEDULER_EVERY_15_SECONDS : Z := 0x3D.
Definition BT_MESH_SCHEDULER_EVERY_20_SECONDS : Z := 0x3E.
Definition BT_MESH_SCHEDULER_ONCE_A_MINUTE : Z := 0x3F.
Definition BT_MESH_SCHEDULER_TURN_OFF : Z := 0.
Definition BT_MESH_SCHEDULER_TURN_ON : Z := 1.
Definition BT_MESH_SCHEDULER_SCENE_RECALL : Z := 2.
Definition BT_MESH_SCHEDULER_NO_ACTIONS : Z := 0xf.
Definition MAX_DAY : Z := 0x1F.

Record bt_mesh_schedule_entry := {
  e_year : Z;
  e_month : Z;
  e_day : Z;
  e_hour : Z;
  e_minute : Z;
  e_second : Z;
  e_day_of_week : Z;
  e_action : Z;
  e_transition_time : Z;
  e_scene_number : Z
}.

Definition set_e_day (v : Z) (e : bt_mesh_schedule_entry) : bt_mesh_schedule_entry :=
  {| e_year := e_year e; e_month := e_month e; e_day := v; e_hour := e_hour e; e_minute := e_minute e;
     e_second := e_second e; e_day_of_week := e_day_of_week e; e_action := e_action e; e_transition_time
     := e_transition_time e; e_scene_number := e_scene_number e |}.
Definition set_e_action (v : Z) (e : bt_mesh_schedule_entry) : bt_mesh_schedule_entry :=
  {| e_year := e_year e; e_month := e_month e; e_day := e_day e; e_hour := e_hour e; e_minute :=
     e_minute e; e_second := e_second e; e_day_of_week := e_day_of_week e; e_action := v;
     e_transition_time := e_transition_time e; e_scene_number := e_scene_number e |}.

Definition scheduler_action_valid (entry : bt_mesh_schedule_entry) (idx : Z) : bool :=
  negb ((BT_MESH_SCHEDULER_ANY_YEAR <? e_year entry) || (MAX_DAY <? e_day entry) ||
        (BT_MESH_SCHEDULER_ONCE_A_DAY <? e_hour entry) || (BT_MESH_SCHEDULER_ONCE_AN_HOUR <? e_minute entry) ||
        (BT_MESH_SCHEDULER_ONCE_A_MINUTE <? e_second entry) ||
        ((BT_MESH_SCHEDULER_SCENE_RECALL <? e_action entry) && negb (e_action entry =? BT_MESH_SCHEDULER_NO_ACTIONS)) ||
        (BT_MESH_SCHEDULER_ACTION_ENTRY_COUNT <=? idx)).

Section Coding.
Context {MB : MeshBuf}.

Definition scheduler_action_unpack (buf : list Z) : Z * bt_mesh_schedule_entry * list Z :=
  let '(word, buf) := net_buf_simple_pull_le32 buf in
  let '(word', buf) := net_buf_simple_pull_le32 buf in
  let '(scene, buf) := net_buf_simple_pull_le16 buf in
  (Z.land word (BIT_MASK 4),
   {| e_year := Z.land (Z.shiftr word 4) (BIT_MASK 7);
      e_month := Z.land (Z.shiftr word 11) (BIT_MASK 12);
      e_day := Z.land (Z.shiftr word 23) (BIT_MASK 5);
      e_hour := Z.lor (Z.shiftr word 28) (Z.shiftl (Z.land word' (BIT_MASK 1)) 4);
      e_minute := Z.land (Z.shiftr word' 1) (BIT_MASK 6);
      e_second := Z.land (Z.shiftr word' 7) (BIT_MASK 6);
      e_day_of_week := Z.land (Z.shiftr word' 13) (BIT_MASK 7);
      e_action := Z.land (Z.shiftr word' 20) (BIT_MASK 4);
      e_transition_time := Z.land (Z.shiftr word' 24) (BIT_MASK 8);
      e_scene_number := scene |}, buf).

Definition scheduler_action_pack (buf : list Z) (idx : Z) (entry : bt_mesh_schedule_entry) : list Z :=
  let buf := net_buf_simple_add_le32 buf (u32
    (Z.lor (Z.lor (Z.lor (Z.lor (Z.land idx (BIT_MASK 4))
      (Z.shiftl (Z.land (e_year entry) (BIT_MASK 7)) 4))
      (Z.shiftl (Z.land (e_month entry) (BIT_MASK 12)) 11))
      (Z.shiftl (Z.land (e_day entry) (BIT_MASK 5)) 23))
      (Z.shiftl (Z.land (e_hour entry) (BIT_MASK 5)) 28))) in
  let buf := net_buf_simple_add_le32 buf (u32
    (Z.lor (Z.lor (Z.lor (Z.lor (Z.lor (Z.land (Z.shiftr (e_hour entry) 4) (BIT_MASK 1))
      (Z.shiftl (Z.land (e_minute entry) (BIT_MASK 6)) 1))
      (Z.shiftl (Z.land (e_second entry) (BIT_MASK 6)) 7))
      (Z.shiftl (Z.land (e_day_of_week entry) (BIT_MASK 7)) 13))
      (Z.shiftl (Z.land (e_action entry) (BIT_MASK 4)) 20))
      (Z.shiftl (Z.land (e_transition_time entry) (BIT_MASK 8)) 24))) in
  net_buf_simple_add_le16 buf (e_scene_number entry).

End Coding.

(** ** The next point in time *)

Inductive stage :=
  | YEAR_STAGE
  | MONTH_STAGE
  | DAY_STAGE
  | HOUR_STAGE
  | MINUTE_STAGE
  | SECOND_STAGE
  | PROTECTOR_STAGE
  | FINAL_STAGE
  | ERROR_STAGE.

#[export] Instance stage_eq_dec : EqDecision stage.
Proof. solve_decision. Defined.

Record tm_converter := {
  consider_ovflw : bool;
  start_year : Z;
  start_month : Z;
  start_day : Z;
  start_hour : Z;
  start_minute : Z;
  start_second : Z
}.

(** What the handlers of the stages work on: the time so far, the entry, which one
    of them changes, the values to start from and the number of random numbers
    used. *)
Record conv := {
  sched_time : tm;
  entry : bt_mesh_schedule_entry;
  info : tm_converter;
  rands : nat
}.

(** Updates of a field. *)
Definition set_tm_sec (v : Z) (t : tm) : tm :=
  {| tm_sec := v; tm_min := tm_min t; tm_hour := tm_hour t; tm_mday := tm_mday t; tm_mon := tm_mon t;
     tm_year := tm_year t; tm_wday := tm_wday t; tm_yday := tm_yday t; tm_isdst := tm_isdst t |}.
Definition set_tm_min (v : Z) (t : tm) : tm :=
  {| tm_sec := tm_sec t; tm_min := v; tm_hour := tm_hour t; tm_mday := tm_mday t; tm_mon := tm_mon t;
     tm_year := tm_year t; tm_wday := tm_wday t; tm_yday := tm_yday t; tm_isdst := tm_isdst t |}.
Definition set_tm_hour (v : Z) (t : tm) : tm :=
  {| tm_sec := tm_sec t; tm_min := tm_min t; tm_hour := v; tm_mday := tm_mday t; tm_mon := tm_mon t;
     tm_year := tm_year t; tm_wday := tm_wday t; tm_yday := tm_yday t; tm_isdst := tm_isdst t |}.
Definition set_tm_mday (v : Z) (t : tm) : tm :=
  {| tm_sec := tm_sec t; tm_min := tm_min t; tm_hour := tm_hour t; tm_mday := v; tm_mon := tm_mon t;
     tm_year := tm_year t; tm_wday := tm_wday t; tm_yday := tm_yday t; tm_isdst := tm_isdst t |}.
Definition set_tm_mon (v : Z) (t : tm) : tm :=
  {| tm_sec := tm_sec t; tm_min := tm_min t; tm_hour := tm_hour t; tm_mday := tm_mday t; tm_mon := v;
     tm_year := tm_year t; tm_wday := tm_wday t; tm_yday := tm_yday t; tm_isdst := tm_isdst t |}.
Definition set_tm_year (v : Z) (t : tm) : tm :=
  {| tm_sec := tm_sec t; tm_min := tm_min t; tm_hour := tm_hour t; tm_mday := tm_mday t; tm_mon :=
     tm_mon t; tm_year := v; tm_wday := tm_wday t; tm_yday := tm_yday t; tm_isdst := tm_isdst t |}.
Definition set_tm_wday (v : Z) (t : tm) : tm :=
  {| tm_sec := tm_sec t; tm_min := tm_min t; tm_hour := tm_hour t; tm_mday := tm_mday t; tm_mon :=
     tm_mon t; tm_year := tm_year t; tm_wday := v; tm_yday := tm_yday t; tm_isdst := tm_isdst t |}.
Definition set_consider_ovflw (v : bool) (i : tm_converter) : tm_converter :=
  {| consider_ovflw := v; start_year := start_year i; start_month := start_month i; start_day :=
     start_day i; start_hour := start_hour i; start_minute := start_minute i; start_second :=
     start_second i |}.
Definition set_start_year (v : Z) (i : tm_converter) : tm_converter :=
  {| consider_ovflw := consider_ovflw i; start_year := v; start_month := start_month i; start_day :=
     start_day i; start_hour := start_hour i; start_minute := start_minute i; start_second :=
     start_second i |}.
Definition set_start_month (v : Z) (i : tm_converter) : tm_converter :=
  {| consider_ovflw := consider_ovflw i; start_year := start_year i; start_month := v; start_day :=
     start_day i; start_hour := start_hour i; start_minute := start_minute i; start_second :=
     start_second i |}.
Definition set_start_day (v : Z) (i : tm_converter) : tm_converter :=
  {| consider_ovflw := consider_ovflw i; start_year := start_year i; start_month := start_month i;
     start_day := v; start_hour := start_hour i; start_minute := start_minute i; start_second :=
     start_second i |}.
Definition set_start_hour (v : Z) (i : tm_converter) : tm_converter :=
  {| consider_ovflw := consider_ovflw i; start_year := start_year i; start_month := start_month i;
     start_day := start_day i; start_hour := v; start_minute := start_minute i; start_second :=
     start_second i |}.
Definition set_start_minute (v : Z) (i : tm_converter) : tm_converter :=
  {| consider_ovflw := consider_ovflw i; start_year := start_year i; start_month := start_month i;
     start_day := start_day i; start_hour := start_hour i; start_minute := v; start_second :=
     start_second i |}.
Definition set_start_second (v : Z) (i : tm_converter) : tm_converter :=
  {| consider_ovflw := consider_ovflw i; start_year := start_year i; start_month := start_month i;
     start_day := start_day i; start_hour := start_hour i; start_minute := start_minute i; start_second
     := v |}.
Definition set_sched_time (v : tm) (c : conv) : conv :=
  {| sched_time := v; entry := entry c; info := info c; rands := rands c |}.
Definition set_entry (v : bt_mesh_schedule_entry) (c : conv) : conv :=
  {| sched_time := sched_time c; entry := v; info := info c; rands := rands c |}.
Definition set_info (v : tm_converter) (c : conv) : conv :=
  {| sched_time := sched_time c; entry := entry c; info := v; rands := rands c |}.
Definition set_rands (v : nat) (c : conv) : conv :=
  {| sched_time := sched_time c; entry := entry c; info := info c; rands := v |}.

Definition on_time (f : tm -> tm) (c : conv) : conv := set_sched_time (f (sched_time c)) c.
Definition on_info (f : tm_converter -> tm_converter) (c : conv) : conv := set_info (f (info c)) c.

Definition get_days_in_month (year month : Z) : res Z :=
  rd [31; if is_leap_year year then 29 else 28; 31; 30; 31; 30; 31; 31; 30; 31; 30; 31] month.

Fixpoint count_years (n : nat) (i day_cnt : Z) : Z :=
  match n with O => day_cnt | S n => count_years n (i + 1) (day_cnt + days_in_year i) end.

Fixpoint count_months (n : nat) (year i day_cnt : Z) : res Z :=
  match n with
  | O => Ok day_cnt
  | S n => let* m := get_days_in_month year i in count_months n year (i + 1) (day_cnt + m)
  end.

Definition get_day_of_week (year month day : Z) : res Z :=
  let year := year + TM_START_YEAR in
  let day_cnt := count_years (Z.to_nat (year - TM_START_YEAR)) TM_START_YEAR 0 in
  let* day_cnt := count_months (Z.to_nat month) year 0 day_cnt in
  Ok (Z.rem (day_cnt + day - 1) WEEKDAY_CNT).

Definition day_validation (sched_time : tm) (day : Z) : res bool :=
  let* days := get_days_in_month (tm_year sched_time + TM_START_YEAR) (tm_mon sched_time) in
  Ok (day <=? days).

Section Next.
Context {MS : MeshStack} (current_local : tm).

Definition year_handler (c : conv) : conv * stage :=
  if negb (start_year (info c) =? tm_year current_local) && negb (e_year (entry c) =? BT_MESH_SCHEDULER_ANY_YEAR)
  then (c, ERROR_STAGE) else
  let current_year := u8 (Z.rem (start_year (info c)) 100) in
  let diff := u8 (if current_year <=? e_year (entry c) then e_year (entry c) - current_year
                  else 100 - current_year + e_year (entry c)) in
  let c := on_time (set_tm_year (if e_year (entry c) =? BT_MESH_SCHEDULER_ANY_YEAR
                                 then start_year (info c) else start_year (info c) + diff)) c in
  let c := on_info (set_start_month (if tm_year (sched_time c) =? tm_year current_local
                                     then tm_mon current_local else 0)) c in
  (c, MONTH_STAGE).

Definition month_handler (c : conv) : conv * stage :=
  let month := Z.land (e_month (entry c)) (Z.shiftl (BIT_MASK 12) (start_month (info c))) in
  if month =? 0 then (on_info (set_start_year (start_year (info c) + 1)) c, YEAR_STAGE) else
  let c := on_time (set_tm_mon (u32_count_trailing_zeros month)) c in
  let c := on_info (set_consider_ovflw ((tm_mon (sched_time c) =? tm_mon current_local) &&
                                        (tm_year (sched_time c) =? tm_year current_local))) c in
  let c := on_info (set_start_day (if consider_ovflw (info c) then tm_mday current_local else 1)) c in
  (c, DAY_STAGE).

Definition next_month (c : conv) : conv * stage :=
  (on_info (set_start_month (start_month (info c) + 1)) c, MONTH_STAGE).

(** The day that the entry asks for, and whether it is over. *)
Definition day_of_entry (c : conv) : res (conv * bool) :=
  if e_day (entry c) =? BT_MESH_SCHEDULER_ANY_DAY then
    let* valid := day_validation (sched_time c) (start_day (info c)) in
    Ok (on_time (set_tm_mday (start_day (info c))) c, negb valid)
  else
    let* days := get_days_in_month (tm_year (sched_time c) + TM_START_YEAR) (tm_mon (sched_time c)) in
    let c := set_entry (set_e_day (u8 (Z.min (e_day (entry c)) days)) (entry c)) c in
    let c := on_time (set_tm_mday (e_day (entry c))) c in
    Ok (c, tm_mday (sched_time c) <? tm_mday current_local).

(** The day of the week that the entry asks for. *)
Definition weekday_of_entry (c : conv) (day_ovflw : bool) : res (conv * bool) :=
  let wday := tm_wday (sched_time c) in
  if negb (Z.land (e_day_of_week (entry c)) (BIT wday) =? 0) then Ok (c, day_ovflw) else
  if e_day (entry c) =? BT_MESH_SCHEDULER_ANY_DAY then
    let rest_wday := Z.shiftr (e_day_of_week (entry c)) wday in
    let delta := if ctrue rest_wday then u32_count_trailing_zeros rest_wday
                 else u32_count_trailing_zeros (e_day_of_week (entry c)) + WEEKDAY_CNT - wday in
    let c := on_info (set_start_day (start_day (info c) + delta)) c in
    let c := on_time (set_tm_mday (start_day (info c))) c in
    let* valid := day_validation (sched_time c) (start_day (info c)) in
    Ok (c, if valid : bool then day_ovflw else true)
  else Ok (c, true).

Definition day_handler (c : conv) : res (conv * stage) :=
  let* '(c, day_ovflw) := day_of_entry c in
  if (day_ovflw : bool) && consider_ovflw (info c) then Ok (next_month c) else
  let* wday := get_day_of_week (tm_year (sched_time c)) (tm_mon (sched_time c)) (tm_mday (sched_time c)) in
  let c := on_time (set_tm_wday wday) c in
  let* '(c, day_ovflw) := weekday_of_entry c day_ovflw in
  if (day_ovflw : bool) && consider_ovflw (info c) then Ok (next_month c) else
  let c := on_info (set_consider_ovflw (consider_ovflw (info c) && (tm_mday (sched_time c) =? tm_mday current_local))) c in
  let c := on_info (set_start_hour (if consider_ovflw (info c) then tm_hour current_local else 0)) c in
  Ok (c, HOUR_STAGE).

Definition hour_handler (c : conv) : res (conv * stage) :=
  let '(c, hour_ovflw) :=
    if e_hour (entry c) =? BT_MESH_SCHEDULER_ONCE_A_DAY then
      (set_rands (S (rands c)) (on_time (set_tm_hour (sys_rand32_get (rands c) mod 24)) c), true)
    else if e_hour (entry c) =? BT_MESH_SCHEDULER_ANY_HOUR then
      let ovflw := 23 <? start_hour (info c) in
      (on_time (set_tm_hour (if ovflw then 0 else start_hour (info c))) c, ovflw)
    else (on_time (set_tm_hour (e_hour (entry c))) c, e_hour (entry c) <? start_hour (info c)) in
  if (hour_ovflw : bool) && consider_ovflw (info c) then
    let c := on_info (set_start_day (start_day (info c) + 1)) c in
    let* valid := day_validation (sched_time c) (start_day (info c)) in
    if valid : bool then Ok (c, DAY_STAGE) else Ok (next_month c)
  else
  let c := on_info (set_consider_ovflw (consider_ovflw (info c) && (tm_hour (sched_time c) =? tm_hour current_local))) c in
  let c := on_info (set_start_minute (if consider_ovflw (info c) then tm_min current_local else 0)) c in
  Ok (c, MINUTE_STAGE).

(** Every 15 or 20 minutes or seconds: the next multiple behind the current value. *)
Definition next_multiple (step cur : Z) : Z := step * DIV_ROUND_UP (cur + 1) step.

Definition minute_handler (c : conv) : conv * stage :=
  let every step :=
    let c := on_info (set_start_minute (next_multiple step (tm_min current_local))) c in
    let ovflw := start_minute (info c) =? 60 in
    (on_time (set_tm_min (if ovflw then 0 else start_minute (info c))) c, ovflw) in
  let '(c, minute_ovflw) :=
    if e_minute (entry c) =? BT_MESH_SCHEDULER_EVERY_15_MINUTES then every 15
    else if e_minute (entry c) =? BT_MESH_SCHEDULER_EVERY_20_MINUTES then every 20
    else if e_minute (entry c) =? BT_MESH_SCHEDULER_ONCE_AN_HOUR then
      (set_rands (S (rands c)) (on_time (set_tm_min (sys_rand32_get (rands c) mod 60)) c), true)
    else if e_minute (entry c) =? BT_MESH_SCHEDULER_ANY_MINUTE then
      let ovflw := 59 <? start_minute (info c) in
      (on_time (set_tm_min (if ovflw then 0 else start_minute (info c))) c, ovflw)
    else (on_time (set_tm_min (e_minute (entry c))) c, e_minute (entry c) <? start_minute (info c)) in
  if (minute_ovflw : bool) && consider_ovflw (info c)
  then (on_info (set_start_hour (start_hour (info c) + 1)) c, HOUR_STAGE) else
  let c := on_info (set_consider_ovflw (consider_ovflw (info c) && (tm_min (sched_time c) =? tm_min current_local))) c in
  let c := on_info (set_start_second (if consider_ovflw (info c) then tm_sec current_local else 0)) c in
  (c, SECOND_STAGE).

Definition second_handler (c : conv) : conv * stage :=
  let every step :=
    let c := on_info (set_start_second (next_multiple step (tm_sec current_local))) c in
    let ovflw := start_second (info c) =? 60 in
    (on_time (set_tm_sec (if ovflw then 0 else start_second (info c))) c, ovflw) in
  let '(c, second_ovflw) :=
    if e_second (entry c) =? BT_MESH_SCHEDULER_EVERY_15_SECONDS then every 15
    else if e_second (entry c) =? BT_MESH_SCHEDULER_EVERY_20_SECONDS then every 20
    else if e_second (entry c) =? BT_MESH_SCHEDULER_ONCE_A_MINUTE then
      (set_rands (S (rands c)) (on_time (set_tm_sec (sys_rand32_get (rands c) mod 60)) c), true)
    else if e_second (entry c) =? BT_MESH_SCHEDULER_ANY_SECOND then
      let ovflw := 59 <? start_second (info c) in
      (on_time (set_tm_sec (if ovflw then 0 else start_second (info c))) c, ovflw)
    else (on_time (set_tm_sec (e_second (entry c))) c, e_second (entry c) <? start_second (info c)) in
  if (second_ovflw : bool) && consider_ovflw (info c)
  then (on_info (set_start_minute (start_minute (info c) + 1)) c, MINUTE_STAGE) else
  (c, PROTECTOR_STAGE).

Definition same_time (a b : tm) : bool :=
  (tm_year a =? tm_year b) && (tm_mon a =? tm_mon b) && (tm_mday a =? tm_mday b) &&
  (tm_hour a =? tm_hour b) && (tm_min a =? tm_min b) && (tm_sec a =? tm_sec b).

Definition protector_handler (c : conv) : conv * stage :=
  if same_time current_local (sched_time c) then
    let c := on_info (set_consider_ovflw true) c in
    if e_second (entry c) =? BT_MESH_SCHEDULER_ANY_SECOND
    then (on_info (set_start_second (start_second (info c) + 1)) c, SECOND_STAGE)
    else if e_minute (entry c) =? BT_MESH_SCHEDULER_ANY_MINUTE
    then (on_info (set_start_minute (start_minute (info c) + 1)) c, MINUTE_STAGE)
    else if e_hour (entry c) =? BT_MESH_SCHEDULER_ANY_HOUR
    then (on_info (set_start_hour (start_hour (info c) + 1)) c, HOUR_STAGE)
    else if e_day (entry c) =? BT_MESH_SCHEDULER_ANY_DAY
    then (on_info (set_start_day (start_day (info c) + 1)) c, DAY_STAGE)
    else if e_year (entry c) =? BT_MESH_SCHEDULER_ANY_YEAR
    then (on_info (set_start_year (start_year (info c) + 1)) c, YEAR_STAGE)
    else (c, ERROR_STAGE)
  else (c, FINAL_STAGE).

(** The handlers by stage, and the loop over the stages. *)
Definition handlers (s : stage) (c : conv) : res (conv * stage) :=
  match s with
  | YEAR_STAGE => Ok (year_handler c)
  | MONTH_STAGE => Ok (month_handler c)
  | DAY_STAGE => day_handler c
  | HOUR_STAGE => hour_handler c
  | MINUTE_STAGE => Ok (minute_handler c)
  | SECOND_STAGE => Ok (second_handler c)
  | PROTECTOR_STAGE => Ok (protector_handler c)
  | FINAL_STAGE | ERROR_STAGE => Fault
  end.

Fixpoint convert_loop (fuel : nat) (c : conv) (s : stage) : res (conv * bool) :=
  match s with
  | FINAL_STAGE => Ok (c, true)
  | ERROR_STAGE => Ok (c, false)
  | _ =>
    match fuel with
    | O => NoFuel
    | S fuel => let* '(c, s) := handlers s c in convert_loop fuel c s
    end
  end.

Definition CONVERT_FUEL : nat := 1024.

Definition convert_scheduler_time_to_tm (c : conv) : res (conv * bool) :=
  if e_month (entry c) =? 0 then Ok (c, false) else
  if e_day_of_week (entry c) =? 0 then Ok (c, false) else
  let conv_info := {| consider_ovflw := false; start_year := tm_year current_local; start_month := 0; start_day := 0;
                      start_hour := 0; start_minute := 0; start_second := 0 |} in
  convert_loop CONVERT_FUEL (set_info conv_info c) YEAR_STAGE.

End Next.

(** ** Server *)

Record bt_mesh_model_transition := { time : Z; delay : Z }.

Inductive sched_op := BT_MESH_SCHEDULER_OP_STATUS | BT_MESH_SCHEDULER_OP_ACTION_STATUS.

(** The calls of the models of the elements, of the mesh stack, of the settings and
    of the user. A message without context is a publication. *)
Inductive sched_event :=
  | SceneRecalled (elem scene : Z) (transition : bt_mesh_model_transition)
  | OnOffSet (elem : Z) (on_off : bool) (transition : bt_mesh_model_transition)
  | SchedSent (op : sched_op) (ctx : option bt_mesh_msg_ctx) (msg : list Z)
  | SchedStored (idx : Z) (data : option bt_mesh_schedule_entry)
  | ActionSet (idx : Z) (entry : bt_mesh_schedule_entry).

(** The state of the server; [delayed_work] is the time at which the work item is
    due. *)
Record bt_mesh_scheduler_srv := {
  sched_tai : list bt_mesh_time_tai;
  idx : Z;
  last_idx : Z;
  active_bitmap : Z;
  sch_reg : list bt_mesh_schedule_entry;
  delayed_work : option Z;
  sched_pub_msg : list Z;
  time_srv : bt_mesh_time_srv;
  action_set_cb : bool;
  rand_count : nat;
  sched_outs : list sched_event
}.

Definition set_sched_tai (v : list bt_mesh_time_tai) (srv : bt_mesh_scheduler_srv) : bt_mesh_scheduler_srv :=
  {| sched_tai := v; idx := idx srv; last_idx := last_idx srv; active_bitmap := active_bitmap srv;
     sch_reg := sch_reg srv; delayed_work := delayed_work srv; sched_pub_msg := sched_pub_msg srv;
     time_srv := time_srv srv; action_set_cb := action_set_cb srv; rand_count := rand_count srv;
     sched_outs := sched_outs srv |}.
Definition set_idx (v : Z) (srv : bt_mesh_scheduler_srv) : bt_mesh_scheduler_srv :=
  {| sched_tai := sched_tai srv; idx := v; last_idx := last_idx srv; active_bitmap := active_bitmap srv;
     sch_reg := sch_reg srv; delayed_work := delayed_work srv; sched_pub_msg := sched_pub_msg srv;
     time_srv := time_srv srv; action_set_cb := action_set_cb srv; rand_count := rand_count srv;
     sched_outs := sched_outs srv |}.
Definition set_last_idx (v : Z) (srv : bt_mesh_scheduler_srv) : bt_mesh_scheduler_srv :=
  {| sched_tai := sched_tai srv; idx := idx srv; last_idx := v; active_bitmap := active_bitmap srv;
     sch_reg := sch_reg srv; delayed_work := delayed_work srv; sched_pub_msg := sched_pub_msg srv;
     time_srv := time_srv srv; action_set_cb := action_set_cb srv; rand_count := rand_count srv;
     sched_outs := sched_outs srv |}.
Definition set_active_bitmap (v : Z) (srv : bt_mesh_scheduler_srv) : bt_mesh_scheduler_srv :=
  {| sched_tai := sched_tai srv; idx := idx srv; last_idx := last_idx srv; active_bitmap := v; sch_reg
     := sch_reg srv; delayed_work := delayed_work srv; sched_pub_msg := sched_pub_msg srv; time_srv :=
     time_srv srv; action_set_cb := action_set_cb srv; rand_count := rand_count srv; sched_outs :=
     sched_outs srv |}.
Definition set_sch_reg (v : list bt_mesh_schedule_entry) (srv : bt_mesh_scheduler_srv) : bt_mesh_scheduler_srv :=
  {| sched_tai := sched_tai srv; idx := idx srv; last_idx := last_idx srv; active_bitmap :=
     active_bitmap srv; sch_reg := v; delayed_work := delayed_work srv; sched_pub_msg := sched_pub_msg
     srv; time_srv := time_srv srv; action_set_cb := action_set_cb srv; rand_count := rand_count srv;
     sched_outs := sched_outs srv |}.
Definition set_delayed_work (v : option Z) (srv : bt_mesh_scheduler_srv) : bt_mesh_scheduler_srv :=
  {| sched_tai := sched_tai srv; idx := idx srv; last_idx := last_idx srv; active_bitmap :=
     active_bitmap srv; sch_reg := sch_reg srv; delayed_work := v; sched_pub_msg := sched_pub_msg srv;
     time_srv := time_srv srv; action_set_cb := action_set_cb srv; rand_count := rand_count srv;
     sched_outs := sched_outs srv |}.
Definition set_sched_pub_msg (v : list Z) (srv : bt_mesh_scheduler_srv) : bt_mesh_scheduler_srv :=
  {| sched_tai := sched_tai srv; idx := idx srv; last_idx := last_idx srv; active_bitmap :=
     active_bitmap srv; sch_reg := sch_reg srv; delayed_work := delayed_work srv; sched_pub_msg := v;
     time_srv := time_srv srv; action_set_cb := action_set_cb srv; rand_count := rand_count srv;
     sched_outs := sched_outs srv |}.
Definition set_time_srv (v : bt_mesh_time_srv) (srv : bt_mesh_scheduler_srv) : bt_mesh_scheduler_srv :=
  {| sched_tai := sched_tai srv; idx := idx srv; last_idx := last_idx srv; active_bitmap :=
     active_bitmap srv; sch_reg := sch_reg srv; delayed_work := delayed_work srv; sched_pub_msg :=
     sched_pub_msg srv; time_srv := v; action_set_cb := action_set_cb srv; rand_count := rand_count srv;
     sched_outs := sched_outs srv |}.
Definition set_rand_count (v : nat) (srv : bt_mesh_scheduler_srv) : bt_mesh_scheduler_srv :=
  {| sched_tai := sched_tai srv; idx := idx srv; last_idx := last_idx srv; active_bitmap :=
     active_bitmap srv; sch_reg := sch_reg srv; delayed_work := delayed_work srv; sched_pub_msg :=
     sched_pub_msg srv; time_srv := time_srv srv; action_set_cb := action_set_cb srv; rand_count := v;
     sched_outs := sched_outs srv |}.
Definition set_sched_outs (v : list sched_event) (srv : bt_mesh_scheduler_srv) : bt_mesh_scheduler_srv :=
  {| sched_tai := sched_tai srv; idx := idx srv; last_idx := last_idx srv; active_bitmap :=
     active_bitmap srv; sch_reg := sch_reg srv; delayed_work := delayed_work srv; sched_pub_msg :=
     sched_pub_msg srv; time_srv := time_srv srv; action_set_cb := action_set_cb srv; rand_count :=
     rand_count srv; sched_outs := v |}.

Definition sched_out (e : sched_event) (srv : bt_mesh_scheduler_srv) : bt_mesh_scheduler_srv :=
  set_sched_outs (sched_outs srv ++ [e]) srv.

Definition entry_at (srv : bt_mesh_scheduler_srv) (i : Z) : res bt_mesh_schedule_entry :=
  if i <? 0 then Fault else match sch_reg srv !! Z.to_nat i with Some e => Ok e | None => Fault end.
Definition tai_of (srv : bt_mesh_scheduler_srv) (i : Z) : res bt_mesh_time_tai :=
  if i <? 0 then Fault else match sched_tai srv !! Z.to_nat i with Some t => Ok t | None => Fault end.
Definition write_entry (i : Z) (e : bt_mesh_schedule_entry) (srv : bt_mesh_scheduler_srv) : bt_mesh_scheduler_srv :=
  set_sch_reg (<[Z.to_nat i := e]> (sch_reg srv)) srv.

Definition model_transition_res : list Z := [100; 1 * MSEC_PER_SEC; 10 * MSEC_PER_SEC; 60 * 10 * MSEC_PER_SEC].

Definition model_transition_decode (encoded_transition : Z) : res Z :=
  let steps := Z.land encoded_transition 0x3f in
  let r := Z.shiftr encoded_transition 6 in
  if steps =? 0x3F then Ok SYS_FOREVER_MS else let* ms := rd model_transition_res r in Ok (ms * steps).

Section Server.
Context {MB : MeshBuf} {MC : MeshConfig} {MS : MeshStack}.

Definition store (srv : bt_mesh_scheduler_srv) (i : Z) (store_ndel : bool) : res bt_mesh_scheduler_srv :=
  let* e := entry_at srv i in
  Ok (sched_out (SchedStored i (if store_ndel then Some e else None)) srv).

Definition is_entry_defined (srv : bt_mesh_scheduler_srv) (i : Z) : res bool :=
  let* e := entry_at srv i in Ok (negb (e_action e =? BT_MESH_SCHEDULER_NO_ACTIONS)).

Fixpoint least_loop (fuel : nat) (srv : bt_mesh_scheduler_srv) (cnt i : Z) : res Z :=
  match fuel with
  | O => Ok i
  | S fuel =>
    let cnt := u8 (cnt + 1) in
    if cnt <? BT_MESH_SCHEDULER_ACTION_ENTRY_COUNT then
      if negb (Z.land (active_bitmap srv) (BIT cnt) =? 0) then
        let* a := tai_of srv i in
        let* b := tai_of srv cnt in
        least_loop fuel srv cnt (if sec b <? sec a then cnt else i)
      else least_loop fuel srv cnt i
    else Ok i
  end.

Definition get_least_time_index (srv : bt_mesh_scheduler_srv) : res Z :=
  let cnt := u8 (u32_count_trailing_zeros (active_bitmap srv)) in
  let* i := least_loop (Z.to_nat BT_MESH_SCHEDULER_ACTION_ENTRY_COUNT) srv cnt cnt in
  Ok (Z.min BT_MESH_SCHEDULER_ACTION_ENTRY_COUNT i).

(** [now] is the time of the call. *)
Definition run_scheduler (srv : bt_mesh_scheduler_srv) (now : Z) : res bt_mesh_scheduler_srv :=
  let* planned_idx := get_least_time_index srv in
  if planned_idx =? BT_MESH_SCHEDULER_ACTION_ENTRY_COUNT then Ok srv else
  let* t := tai_of srv planned_idx in
  let* sched_time := tai_to_ts t in
  match bt_mesh_time_srv_mktime (time_srv srv) sched_time with
  | Ok scheduled_uptime =>
    if scheduled_uptime <? 0 then Ok srv else
    Ok (set_delayed_work (Some (now + Z.max (scheduled_uptime - now) 0)) (set_idx planned_idx srv))
  | Err _ => Ok srv
  | Fault => Fault
  | NoFuel => NoFuel
  end.

Definition tm_zero : tm :=
  {| tm_sec := 0; tm_min := 0; tm_hour := 0; tm_mday := 0; tm_mon := 0; tm_year := 0; tm_wday := 0; tm_yday := 0;
     tm_isdst := 0 |}.

Definition no_info : tm_converter :=
  {| consider_ovflw := false; start_year := 0; start_month := 0; start_day := 0; start_hour := 0; start_minute := 0;
     start_second := 0 |}.

Definition schedule_action (srv : bt_mesh_scheduler_srv) (i : Z) (now : Z) : res bt_mesh_scheduler_srv :=
  let* e := entry_at srv i in
  let* current_local := bt_mesh_time_srv_localtime (time_srv srv) now in
  match current_local with
  | None => Ok srv
  | Some current_local =>
    let* '(c, ok) := convert_scheduler_time_to_tm current_local
                       {| sched_time := tm_zero; entry := e; info := no_info; rands := rand_count srv |} in
    let srv := set_rand_count (rands c) (write_entry i (entry c) srv) in
    if negb (ok : bool) then Ok srv else
    match ts_to_tai (sched_time c) with
    | Ok t =>
      let srv := set_sched_tai (<[Z.to_nat i := t]> (sched_tai srv)) srv in
      Ok (set_active_bitmap (WRITE_BIT (active_bitmap srv) i true) srv)
    | Err _ => Ok srv
    | Fault => Fault
    | NoFuel => NoFuel
    end
  end.

(** The action on one element. *)
Definition act_on (recall : bool) (action scene : Z) (transition : bt_mesh_model_transition) (elem : bt_mesh_elem)
    (srv : bt_mesh_scheduler_srv) : bt_mesh_scheduler_srv :=
  if recall then
    if has_scene_srv elem then sched_out (SceneRecalled (elem_addr elem) scene transition) srv else srv
  else
    if has_onoff_srv elem then sched_out (OnOffSet (elem_addr elem) (ctrue action) transition) srv else srv.

(** The elements from the first one on, up to the next one with a scheduler. *)
Fixpoint elem_loop (fuel : nat) (recall : bool) (action scene : Z) (transition : bt_mesh_model_transition)
    (elem : bt_mesh_elem) (srv : bt_mesh_scheduler_srv) : res bt_mesh_scheduler_srv :=
  match fuel with
  | O => NoFuel
  | S fuel =>
    let srv := act_on recall action scene transition elem srv in
    let next := if BT_MESH_ADDR_IS_UNICAST (elem_addr elem + 1) then bt_mesh_elem_find (elem_addr elem + 1) else None in
    match next with
    | None => Ok srv
    | Some elem => if has_scheduler_srv elem then Ok srv else elem_loop fuel recall action scene transition elem srv
    end
  end.

(** The work item runs; [elem] is the element of the server, [now] and [now'] are
    the times of scheduling the action again and of the next one. *)
Definition scheduled_action_handle (srv : bt_mesh_scheduler_srv) (elem : bt_mesh_elem) (now now' : Z) :
    res bt_mesh_scheduler_srv :=
  let srv := set_delayed_work None srv in
  if idx srv =? BT_MESH_SCHEDULER_ACTION_ENTRY_COUNT then Ok srv else
  let srv := set_active_bitmap (WRITE_BIT (active_bitmap srv) (idx srv) false) srv in
  let* e := entry_at srv (idx srv) in
  let* t := model_transition_decode (e_transition_time e) in
  let transition := {| time := t; delay := 0 |} in
  let* srv := elem_loop (Z.to_nat 0x8000) (e_action e =? BT_MESH_SCHEDULER_SCENE_RECALL) (e_action e)
                (e_scene_number e) transition elem srv in
  let srv := set_idx BT_MESH_SCHEDULER_ACTION_ENTRY_COUNT (set_last_idx (idx srv) srv) in
  let* srv := schedule_action srv (last_idx srv) now in
  run_scheduler srv now'.

(** *** Messages *)

Fixpoint status_loop (fuel : nat) (srv : bt_mesh_scheduler_srv) (i status_bitmap : Z) : res Z :=
  match fuel with
  | O => Ok status_bitmap
  | S fuel =>
    let* defined := is_entry_defined srv i in
    status_loop fuel srv (i + 1) (if defined : bool then WRITE_BIT status_bitmap i true else status_bitmap)
  end.

Definition encode_status (srv : bt_mesh_scheduler_srv) : res (list Z) :=
  let* status_bitmap := status_loop (Z.to_nat BT_MESH_SCHEDULER_ACTION_ENTRY_COUNT) srv 0 0 in
  Ok (net_buf_simple_add_le16 [] status_bitmap).

Definition encode_action_status (srv : bt_mesh_scheduler_srv) (i : Z) (is_reduced : bool) : res (list Z) :=
  if is_reduced then Ok (net_buf_simple_add_u8 [] i)
  else let* e := entry_at srv i in Ok (scheduler_action_pack [] i e).

Definition send_scheduler_status (srv : bt_mesh_scheduler_srv) (ctx : option bt_mesh_msg_ctx) : res bt_mesh_scheduler_srv :=
  let* msg := encode_status srv in
  Ok (sched_out (SchedSent BT_MESH_SCHEDULER_OP_STATUS ctx msg) srv).

Definition send_scheduler_action_status (srv : bt_mesh_scheduler_srv) (ctx : option bt_mesh_msg_ctx) (i : Z)
    (is_reduced : bool) : res bt_mesh_scheduler_srv :=
  let* msg := encode_action_status srv i is_reduced in
  Ok (sched_out (SchedSent BT_MESH_SCHEDULER_OP_ACTION_STATUS ctx msg) srv).

(** The entry starts a new schedule. *)
Definition is_scheduled (e : bt_mesh_schedule_entry) : bool :=
  (e_action e <? BT_MESH_SCHEDULER_SCENE_RECALL) ||
  ((e_action e =? BT_MESH_SCHEDULER_SCENE_RECALL) && negb (e_scene_number e =? 0)).

Definition action_set (srv : bt_mesh_scheduler_srv) (ctx : bt_mesh_msg_ctx) (buf : list Z) (ack : bool) (now now' : Z) :
    res (bt_mesh_scheduler_srv * Z) :=
  let '(i, tmp, buf) := scheduler_action_unpack buf in
  if negb (scheduler_action_valid tmp i) then Ok (srv, - errno_num EINVAL) else
  let srv := write_entry i tmp srv in
  let* e := entry_at srv i in
  let* srv := if is_scheduled e then let* srv := schedule_action srv i now in run_scheduler srv now' else Ok srv in
  let* e := entry_at srv i in
  let srv := if action_set_cb srv then sched_out (ActionSet i e) srv else srv in
  let* defined := is_entry_defined srv i in
  let* srv := if SETTINGS then store srv i defined else Ok srv in
  let* srv := if (defined : bool) then send_scheduler_action_status srv None i false else Ok srv in
  let* srv := if ack then send_scheduler_action_status srv (Some ctx) i false else Ok srv in
  Ok (srv, 0).

Definition handle_scheduler_get (srv : bt_mesh_scheduler_srv) (ctx : bt_mesh_msg_ctx) : res bt_mesh_scheduler_srv :=
  send_scheduler_status srv (Some ctx).

Definition handle_scheduler_action_get (srv : bt_mesh_scheduler_srv) (ctx : bt_mesh_msg_ctx) (buf : list Z) :
    res (bt_mesh_scheduler_srv * Z) :=
  let '(i, buf) := net_buf_simple_pull_u8 buf in
  if BT_MESH_SCHEDULER_ACTION_ENTRY_COUNT <=? i then Ok (srv, - errno_num ENOENT) else
  let* defined := is_entry_defined srv i in
  let* srv := send_scheduler_action_status srv (Some ctx) i (negb defined) in
  Ok (srv, 0).

Definition handle_scheduler_action_set (srv : bt_mesh_scheduler_srv) (ctx : bt_mesh_msg_ctx) (buf : list Z) (now now' : Z) :
    res (bt_mesh_scheduler_srv * Z) := action_set srv ctx buf true now now'.

Definition handle_scheduler_action_set_unack (srv : bt_mesh_scheduler_srv) (ctx : bt_mesh_msg_ctx) (buf : list Z)
    (now now' : Z) : res (bt_mesh_scheduler_srv * Z) := action_set srv ctx buf false now now'.

Definition update_handler (srv : bt_mesh_scheduler_srv) : res bt_mesh_scheduler_srv :=
  let* msg := if last_idx srv =? BT_MESH_SCHEDULER_ACTION_ENTRY_COUNT then encode_status srv
              else encode_action_status srv (last_idx srv) false in
  Ok (set_sched_pub_msg msg srv).

(** *** Model *)

Definition no_actions (srv : bt_mesh_scheduler_srv) : bt_mesh_scheduler_srv :=
  set_sch_reg (map (set_e_action BT_MESH_SCHEDULER_NO_ACTIONS) (sch_reg srv)) srv.

Definition scheduler_srv_init (srv : bt_mesh_scheduler_srv) : bt_mesh_scheduler_srv :=
  let srv := set_active_bitmap 0 (set_sched_pub_msg [] srv) in
  let srv := set_last_idx BT_MESH_SCHEDULER_ACTION_ENTRY_COUNT (set_idx BT_MESH_SCHEDULER_ACTION_ENTRY_COUNT srv) in
  no_actions (set_delayed_work None srv).

Fixpoint erase_loop (fuel : nat) (srv : bt_mesh_scheduler_srv) (i : Z) : res bt_mesh_scheduler_srv :=
  match fuel with
  | O => Ok srv
  | S fuel => let* srv := store srv i false in erase_loop fuel srv (i + 1)
  end.

(** [cancelled] tells whether the work item could be cancelled. *)
Definition scheduler_srv_reset (srv : bt_mesh_scheduler_srv) (cancelled : bool) : res bt_mesh_scheduler_srv :=
  let srv := set_last_idx BT_MESH_SCHEDULER_ACTION_ENTRY_COUNT (set_idx BT_MESH_SCHEDULER_ACTION_ENTRY_COUNT srv) in
  let srv := set_active_bitmap 0 srv in
  let srv := if cancelled then set_delayed_work None srv else srv in
  let srv := no_actions (set_sched_pub_msg [] srv) in
  if SETTINGS then erase_loop (Z.to_nat BT_MESH_SCHEDULER_ACTION_ENTRY_COUNT) srv 0 else Ok srv.

(** [i] is the number the name of the setting gives, [data] what is read, unless it
    is too short. *)
Definition scheduler_srv_settings_set (srv : bt_mesh_scheduler_srv) (i : Z) (data : option bt_mesh_schedule_entry) :
    bt_mesh_scheduler_srv * Z :=
  match data with
  | None => (srv, - errno_num EINVAL)
  | Some data =>
    if BT_MESH_SCHEDULER_ACTION_ENTRY_COUNT <=? u8 i then (srv, - errno_num EINVAL) else (write_entry (u8 i) data srv, 0)
  end.

(** [now] gives the time of each call. *)
Fixpoint update_loop (fuel : nat) (srv : bt_mesh_scheduler_srv) (i : Z) (now : Z -> Z) : res bt_mesh_scheduler_srv :=
  match fuel with
  | O => Ok srv
  | S fuel => let* srv := schedule_action srv i (now i) in update_loop fuel srv (i + 1) now
  end.

Definition bt_mesh_scheduler_srv_time_update (srv : bt_mesh_scheduler_srv) (now : Z -> Z) (now' : Z) :
    res bt_mesh_scheduler_srv :=
  let* srv := update_loop (Z.to_nat BT_MESH_SCHEDULER_ACTION_ENTRY_COUNT) srv 0 now in
  run_scheduler srv now'.

End Server.
