(* ===== verification/MeshSchedSpec.v ===== *)
(** * The scheduler finds the next point in time

    For an entry whose fields are values or wild cards, the loop over the stages
    ends with the first point in local time after the current one that the entry
    describes, or finds that there is none. *)

From stdpp Require Import prelude list.
From Stdlib Require Import ZArith Lia.
From S2P Require Import Prelude Digits MeshTime MeshTimeSpec MeshSched.

Open Scope Z_scope.

(** ** What an entry describes *)

(** The days since 2000 and the day of the week, from Monday on, by the fields. *)
Definition day_no (y mo d : Z) : Z :=
  days_before_year (y + TM_START_YEAR) + days_before_month (is_leap_year (y + TM_START_YEAR)) mo + (d - 1).
Definition weekday (y mo d : Z) : Z := (day_no y mo d + 5) mod 7.
Definition month_days (y mo : Z) : Z := days_in_month (is_leap_year (y + TM_START_YEAR)) mo.

Definition year_matches (e : bt_mesh_schedule_entry) (y : Z) : Prop :=
  e_year e = BT_MESH_SCHEDULER_ANY_YEAR \/ y mod 100 = e_year e.
Definition day_matches (e : bt_mesh_schedule_entry) (y mo d : Z) : Prop :=
  (e_day e = BT_MESH_SCHEDULER_ANY_DAY \/ d = e_day e) /\ Z.testbit (e_day_of_week e) (weekday y mo d) = true.
Definition date_matches (e : bt_mesh_schedule_entry) (y mo d : Z) : Prop :=
  year_matches e y /\ Z.testbit (e_month e) mo = true /\ day_matches e y mo d.
Definition clock_matches (e : bt_mesh_schedule_entry) (h mi s : Z) : Prop :=
  (e_hour e = BT_MESH_SCHEDULER_ANY_HOUR \/ h = e_hour e) /\
  (e_minute e = BT_MESH_SCHEDULER_ANY_MINUTE \/ mi = e_minute e) /\
  (e_second e = BT_MESH_SCHEDULER_ANY_SECOND \/ s = e_second e).
Definition matches (e : bt_mesh_schedule_entry) (t : tm) : Prop :=
  date_matches e (tm_year t) (tm_mon t) (tm_mday t) /\ clock_matches e (tm_hour t) (tm_min t) (tm_sec t).

(** Values or wild cards; a day of the month is one that every month has, and is
    not combined with days of the week. *)
Record plain (e : bt_mesh_schedule_entry) : Prop := {
  pl_year : 0 <= e_year e <= BT_MESH_SCHEDULER_ANY_YEAR;
  pl_month : 0 < e_month e < 2 ^ 12;
  pl_weekday : 0 < e_day_of_week e < 2 ^ 7;
  pl_day : e_day e = BT_MESH_SCHEDULER_ANY_DAY \/ 1 <= e_day e <= 28 /\ e_day_of_week e = 127;
  pl_hour : 0 <= e_hour e <= BT_MESH_SCHEDULER_ANY_HOUR;
  pl_minute : 0 <= e_minute e <= BT_MESH_SCHEDULER_ANY_MINUTE;
  pl_second : 0 <= e_second e <= BT_MESH_SCHEDULER_ANY_SECOND
}.

(** ** The day of the week *)

Lemma count_years_sum n i d : count_years n i d = d + years_sum n i.
Proof. revert i d. induction n as [|n IH]; intros i d; cbn [count_years years_sum]; [lia|]. rewrite IH. lia. Qed.

Lemma years_sum_app n m y : years_sum (n + m) y = years_sum n y + years_sum m (y + Z.of_nat n).
Proof.
  revert y. induction n as [|n IH]; intros y; [cbn [Nat.add years_sum Z.of_nat]; by rewrite Z.add_0_r|].
  cbn [Nat.add years_sum]. rewrite IH. replace (y + 1 + Z.of_nat n) with (y + Z.of_nat (S n)) by lia. lia.
Qed.

Lemma get_days_in_month_ok y mo : 0 <= mo < 12 -> get_days_in_month (y + TM_START_YEAR) mo = Ok (month_days y mo).
Proof. intros Hm. unfold get_days_in_month, month_days. destruct (is_leap_year (y + TM_START_YEAR)); rewrite rd_Ok by (cbn; lia); done. Qed.

Lemma count_months_sum n y i d : 0 <= i -> i + Z.of_nat n <= 12 ->
  count_months n (y + TM_START_YEAR) i d =
    Ok (d + (days_before_month (is_leap_year (y + TM_START_YEAR)) (i + Z.of_nat n) -
             days_before_month (is_leap_year (y + TM_START_YEAR)) i)).
Proof.
  revert i d. induction n as [|n IH]; intros i d Hi Hn; cbn [count_months].
  { cbn [Z.of_nat]. rewrite Z.add_0_r. f_equal. lia. }
  rewrite get_days_in_month_ok by lia. cbn [mbind res_bind]. rewrite IH by lia. unfold month_days.
  replace (i + Z.of_nat (S n)) with (i + 1 + Z.of_nat n) by lia. rewrite (days_before_month_succ _ i) by lia. f_equal. lia.
Qed.

Lemma day_of_week_ok y mo d : 100 <= y -> 0 <= mo < 12 -> 1 <= d -> get_day_of_week y mo d = Ok (weekday y mo d).
Proof.
  intros Hy Hm Hd. unfold get_day_of_week. rewrite count_years_sum, count_months_sum by lia. cbn [mbind res_bind].
  replace (Z.to_nat (y + TM_START_YEAR - TM_START_YEAR)) with (100 + Z.to_nat (y - 100))%nat by lia.
  rewrite years_sum_app, !Z2Nat.id, !Z.add_0_l by lia. change (years_sum 100 TM_START_YEAR) with 36524.
  change (TM_START_YEAR + Z.of_nat 100) with TAI_START_YEAR. change (days_before_month _ 0) with 0. rewrite Z.sub_0_r.
  f_equal. unfold weekday, day_no, days_before_year.
  replace (y + TM_START_YEAR - TAI_START_YEAR) with (y - 100) by (unfold TM_START_YEAR, TAI_START_YEAR; lia).
  pose proof (years_sum_range (Z.to_nat (y - 100)) TAI_START_YEAR).
  pose proof (days_before_month_nonneg (is_leap_year (y + TM_START_YEAR)) mo). unfold WEEKDAY_CNT. rewrite Z.rem_mod_nonneg by lia.
  set (a := years_sum _ _) in *. set (b := days_before_month _ _) in *.
  replace (36524 + a + b + d - 1) with (a + b + (d - 1) + 5 + 5217 * 7) by lia. apply Z.mod_add. lia.
Qed.

Lemma weekday_range y mo d : 0 <= weekday y mo d < 7.
Proof. apply Z.mod_pos_bound. lia. Qed.

Lemma weekday_add y mo d j : weekday y mo (d + j) = (weekday y mo d + j) mod 7.
Proof. unfold weekday, day_no. rewrite Zplus_mod_idemp_l. f_equal. lia. Qed.

Lemma month_days_range y mo : 0 <= mo < 12 -> 28 <= month_days y mo <= 31.
Proof. apply days_in_month_range. Qed.

(** ** The run of the stages *)

Section Run.
Context {MS : MeshStack} (cur : tm).

Inductive reach : nat -> conv -> stage -> conv -> stage -> Prop :=
  | reach_refl k c s : reach k c s c s
  | reach_step k c s c1 s1 c2 s2 : handlers cur s c = Ok (c1, s1) -> reach k c1 s1 c2 s2 -> reach (S k) c s c2 s2.

Lemma reach_mono k k' c s c' s' : reach k c s c' s' -> (k <= k')%nat -> reach k' c s c' s'.
Proof.
  intros H. revert k'. induction H as [|k c s c1 s1 c2 s2 E _ IH]; intros k' Hk; [constructor|].
  destruct k' as [|k']; [lia|]. econstructor; [exact E|]. apply IH. lia.
Qed.

Lemma reach_trans k k' c s c1 s1 c2 s2 : reach k c s c1 s1 -> reach k' c1 s1 c2 s2 -> reach (k + k') c s c2 s2.
Proof.
  induction 1 as [k c s|k c s c1 s1 c3 s3 E _ IH]; intros H'; [eapply reach_mono; [exact H'|lia]|].
  cbn [Nat.add]. econstructor; [exact E|by apply IH].
Qed.

(** The loop ends where the stages end. *)
Lemma reach_loop k c s c' s' : reach k c s c' s' -> s' = FINAL_STAGE \/ s' = ERROR_STAGE ->
  forall fuel, (k <= fuel)%nat -> convert_loop cur fuel c s = Ok (c', bool_decide (s' = FINAL_STAGE)).
Proof.
  induction 1 as [k c s|k c s c1 s1 c2 s2 E _ IH]; intros Hs fuel Hf.
  - destruct fuel; destruct Hs as [->| ->]; done.
  - destruct fuel as [|fuel]; [lia|]. assert (Hloop : convert_loop cur (S fuel) c s = let* '(c, s) := handlers cur s c in convert_loop cur fuel c s)
      by (destruct s; [done..|cbn in E; discriminate|cbn in E; discriminate]).
    rewrite Hloop, E. cbn [mbind res_bind]. apply IH; [done|lia].
Qed.

Context (e : bt_mesh_schedule_entry) (r : nat) (He : plain e) (Hcur : date_ok cur).

Definition T (y mo d h mi s w yd ds : Z) : tm :=
  {| tm_sec := s; tm_min := mi; tm_hour := h; tm_mday := d; tm_mon := mo; tm_year := y; tm_wday := w; tm_yday := yd;
     tm_isdst := ds |}.
Definition I (c : bool) (sy sm sd sh smi ss : Z) : tm_converter :=
  {| consider_ovflw := c; start_year := sy; start_month := sm; start_day := sd; start_hour := sh; start_minute := smi;
     start_second := ss |}.
Definition St (t : tm) (i : tm_converter) : conv := {| sched_time := t; entry := e; info := i; rands := r |}.

(** The run ends with a point in time. *)
Definition finals (k : nat) (c : conv) (s : stage) (y mo d h mi se : Z) : Prop :=
  exists w yd ds i, reach k c s (St (T y mo d h mi se w yd ds) i) FINAL_STAGE.

Lemma finals_step k c s c1 s1 y mo d h mi se :
  handlers cur s c = Ok (c1, s1) -> finals k c1 s1 y mo d h mi se -> finals (S k) c s y mo d h mi se.
Proof. intros E (w & yd & ds & i & H). exists w, yd, ds, i. by econstructor. Qed.

Lemma finals_reach k k' c s c1 s1 y mo d h mi se :
  reach k c s c1 s1 -> finals k' c1 s1 y mo d h mi se -> finals (k + k') c s y mo d h mi se.
Proof. intros E (w & yd & ds & i & H). exists w, yd, ds, i. by eapply reach_trans. Qed.

Lemma finals_mono k k' c s y mo d h mi se :
  finals k c s y mo d h mi se -> (k <= k')%nat -> finals k' c s y mo d h mi se.
Proof. intros (w & yd & ds & i & H) Hk. exists w, yd, ds, i. by eapply reach_mono. Qed.

(** *** What the handlers of the time of the day do *)

(** The value of a field from a start value on, and whether it is over. *)
Definition pick (v any last start : Z) : Z * bool :=
  if v =? any then (if last <? start then 0 else start, last <? start) else (v, v <? start).

Lemma second_eq y mo d h mi s w yd ds c sy sm sd sh smi ss :
  second_handler cur (St (T y mo d h mi s w yd ds) (I c sy sm sd sh smi ss)) =
    let '(v, ov) := pick (e_second e) BT_MESH_SCHEDULER_ANY_SECOND 59 ss in
    if ov && c then (St (T y mo d h mi v w yd ds) (I c sy sm sd sh (smi + 1) ss), MINUTE_STAGE)
    else (St (T y mo d h mi v w yd ds) (I c sy sm sd sh smi ss), PROTECTOR_STAGE).
Proof.
  pose proof (pl_second e He) as H. unfold second_handler, pick. cbn [St entry].
  unfold BT_MESH_SCHEDULER_EVERY_15_SECONDS, BT_MESH_SCHEDULER_EVERY_20_SECONDS, BT_MESH_SCHEDULER_ONCE_A_MINUTE, BT_MESH_SCHEDULER_ANY_SECOND in *.
  destruct (Z.eqb_spec (e_second e) 61); [lia|]. destruct (Z.eqb_spec (e_second e) 62); [lia|]. destruct (Z.eqb_spec (e_second e) 63); [lia|].
  destruct (Z.eqb_spec (e_second e) 60); cbn; by case_match.
Qed.

Lemma minute_eq y mo d h mi s w yd ds c sy sm sd sh smi ss :
  minute_handler cur (St (T y mo d h mi s w yd ds) (I c sy sm sd sh smi ss)) =
    let '(v, ov) := pick (e_minute e) BT_MESH_SCHEDULER_ANY_MINUTE 59 smi in
    if ov && c then (St (T y mo d h v s w yd ds) (I c sy sm sd (sh + 1) smi ss), HOUR_STAGE)
    else let c' := c && (v =? tm_min cur) in
         (St (T y mo d h v s w yd ds) (I c' sy sm sd sh smi (if c' then tm_sec cur else 0)), SECOND_STAGE).
Proof.
  pose proof (pl_minute e He) as H. unfold minute_handler, pick. cbn [St entry].
  unfold BT_MESH_SCHEDULER_EVERY_15_MINUTES, BT_MESH_SCHEDULER_EVERY_20_MINUTES, BT_MESH_SCHEDULER_ONCE_AN_HOUR, BT_MESH_SCHEDULER_ANY_MINUTE in *.
  destruct (Z.eqb_spec (e_minute e) 61); [lia|]. destruct (Z.eqb_spec (e_minute e) 62); [lia|]. destruct (Z.eqb_spec (e_minute e) 63); [lia|].
  destruct (Z.eqb_spec (e_minute e) 60); cbn; by case_match.
Qed.

Lemma hour_eq y mo d h mi s w yd ds c sy sm sd sh smi ss :
  0 <= mo < 12 ->
  hour_handler cur (St (T y mo d h mi s w yd ds) (I c sy sm sd sh smi ss)) =
    let '(v, ov) := pick (e_hour e) BT_MESH_SCHEDULER_ANY_HOUR 23 sh in
    if ov && c then
      Ok (if sd + 1 <=? month_days y mo then (St (T y mo d v mi s w yd ds) (I c sy sm (sd + 1) sh smi ss), DAY_STAGE)
          else (St (T y mo d v mi s w yd ds) (I c sy (sm + 1) (sd + 1) sh smi ss), MONTH_STAGE))
    else let c' := c && (v =? tm_hour cur) in
         Ok (St (T y mo d v mi s w yd ds) (I c' sy sm sd sh (if c' then tm_min cur else 0) ss), MINUTE_STAGE).
Proof.
  intros Hmo. pose proof (pl_hour e He) as H. unfold hour_handler, pick. cbn [St entry].
  unfold BT_MESH_SCHEDULER_ONCE_A_DAY, BT_MESH_SCHEDULER_ANY_HOUR in *.
  destruct (Z.eqb_spec (e_hour e) 25); [lia|]. unfold day_validation.
  destruct (Z.eqb_spec (e_hour e) 24); cbn -[get_days_in_month month_days Z.leb Z.ltb TM_START_YEAR];
    rewrite get_days_in_month_ok by done; cbn -[month_days Z.leb Z.ltb]; by repeat case_match.
Qed.

(** The first value that a field takes. *)
Definition first (v any : Z) : Z := if v =? any then 0 else v.
Definition first_hour : Z := first (e_hour e) BT_MESH_SCHEDULER_ANY_HOUR.
Definition first_minute : Z := first (e_minute e) BT_MESH_SCHEDULER_ANY_MINUTE.
Definition first_second : Z := first (e_second e) BT_MESH_SCHEDULER_ANY_SECOND.

Lemma pick_first v any last : 0 <= v -> 0 <= last -> pick v any last 0 = (first v any, false).
Proof.
  intros Hv Hl. unfold pick, first. destruct (v =? any); [by destruct (Z.ltb_spec last 0); [lia|]|].
  by destruct (Z.ltb_spec v 0); [lia|].
Qed.

Lemma protector_passes t i : same_time cur t = false -> handlers cur PROTECTOR_STAGE (St t i) = Ok (St t i, FINAL_STAGE).
Proof. intros H. cbn [handlers]. unfold protector_handler. cbn [St sched_time]. by rewrite H. Qed.

Lemma same_time_spec y mo d h mi s w yd ds :
  same_time cur (T y mo d h mi s w yd ds) = true <->
  y = tm_year cur /\ mo = tm_mon cur /\ d = tm_mday cur /\ h = tm_hour cur /\ mi = tm_min cur /\ s = tm_sec cur.
Proof. unfold same_time. cbn. rewrite !andb_true_iff, !Z.eqb_eq. intuition congruence. Qed.

Lemma protector_finals y mo d h mi s w yd ds i :
  ~ (y = tm_year cur /\ mo = tm_mon cur /\ d = tm_mday cur /\ h = tm_hour cur /\ mi = tm_min cur /\ s = tm_sec cur) ->
  finals 1 (St (T y mo d h mi s w yd ds) i) PROTECTOR_STAGE y mo d h mi s.
Proof.
  intros H. exists w, yd, ds, i. econstructor; [|constructor]. apply protector_passes.
  destruct (same_time _ _) eqn:E; [|done]. by apply same_time_spec in E.
Qed.

(** *** On another day than the current one *)

Lemma second_fast y mo d h mi s w yd ds sy sm sd sh smi :
  ~ (y = tm_year cur /\ mo = tm_mon cur /\ d = tm_mday cur /\ h = tm_hour cur /\ mi = tm_min cur) ->
  finals 2 (St (T y mo d h mi s w yd ds) (I false sy sm sd sh smi 0)) SECOND_STAGE y mo d h mi first_second.
Proof.
  intros H. pose proof (pl_second e He). eapply finals_step.
  - cbn [handlers]. rewrite second_eq, pick_first, andb_false_r by lia. reflexivity.
  - apply protector_finals. tauto.
Qed.

Lemma minute_fast y mo d h mi s w yd ds sy sm sd sh ss :
  ~ (y = tm_year cur /\ mo = tm_mon cur /\ d = tm_mday cur /\ h = tm_hour cur) ->
  finals 3 (St (T y mo d h mi s w yd ds) (I false sy sm sd sh 0 ss)) MINUTE_STAGE y mo d h first_minute first_second.
Proof.
  intros H. pose proof (pl_minute e He). eapply finals_step.
  - cbn [handlers]. rewrite minute_eq, pick_first, andb_false_r by lia. reflexivity.
  - apply second_fast. tauto.
Qed.

Lemma hour_fast y mo d h mi s w yd ds sy sm sd smi ss :
  0 <= mo < 12 -> ~ (y = tm_year cur /\ mo = tm_mon cur /\ d = tm_mday cur) ->
  finals 4 (St (T y mo d h mi s w yd ds) (I false sy sm sd 0 smi ss)) HOUR_STAGE y mo d first_hour first_minute first_second.
Proof.
  intros Hmo H. pose proof (pl_hour e He). eapply finals_step.
  - cbn [handlers]. rewrite hour_eq, pick_first, andb_false_r by lia. reflexivity.
  - apply minute_fast. tauto.
Qed.

(** *** On the current day *)

Definition clock_range (h mi s : Z) : Prop := 0 <= h < 24 /\ 0 <= mi < 60 /\ 0 <= s < 60.
Definition clock (h mi s : Z) : Z := 3600 * h + 60 * mi + s.
Definition cur_clock : Z := clock (tm_hour cur) (tm_min cur) (tm_sec cur).

(** The first time of the day after the current one, or none. *)
Definition clock_next (h mi s : Z) : Prop :=
  clock_range h mi s /\ clock_matches e h mi s /\ cur_clock < clock h mi s /\
  forall h' mi' s', clock_range h' mi' s' -> clock_matches e h' mi' s' -> cur_clock < clock h' mi' s' ->
    clock h mi s <= clock h' mi' s'.
Definition clock_none : Prop :=
  forall h mi s, clock_range h mi s -> clock_matches e h mi s -> clock h mi s <= cur_clock.

(** The run goes on with the next day of the month, or with the next month. *)
Definition day_step (k : nat) (c : conv) (s : stage) (sy sm sd : Z) : Prop :=
  (sd + 1 <= month_days (tm_year cur) (tm_mon cur) ->
    exists d h mi se w yd ds sh smi ss, reach k c s
      (St (T (tm_year cur) (tm_mon cur) d h mi se w yd ds) (I true sy sm (sd + 1) sh smi ss)) DAY_STAGE) /\
  (month_days (tm_year cur) (tm_mon cur) < sd + 1 ->
    exists d h mi se w yd ds sd' sh smi ss, reach k c s
      (St (T (tm_year cur) (tm_mon cur) d h mi se w yd ds) (I true sy (sm + 1) sd' sh smi ss)) MONTH_STAGE).

Definition outcome (k : nat) (c : conv) (s : stage) (sy sm sd : Z) : Prop :=
  (exists h mi se, clock_next h mi se /\ finals k c s (tm_year cur) (tm_mon cur) (tm_mday cur) h mi se) \/
  (clock_none /\ day_step k c s sy sm sd).

Lemma outcome_step k c s c1 s1 sy sm sd :
  handlers cur s c = Ok (c1, s1) -> outcome k c1 s1 sy sm sd -> outcome (S k) c s sy sm sd.
Proof.
  intros E [(h & mi & se & Hn & Hf)|[Hn [H1 H2]]].
  - left. exists h, mi, se. split; [done|]. by eapply finals_step.
  - right. split; [done|]. split; intros H.
    + destruct (H1 H) as (? & ? & ? & ? & ? & ? & ? & ? & ? & ? & Hr). repeat eexists. by econstructor.
    + destruct (H2 H) as (? & ? & ? & ? & ? & ? & ? & ? & ? & ? & ? & Hr). repeat eexists. by econstructor.
Qed.

Lemma outcome_finals k c s sy sm sd h mi se :
  clock_next h mi se -> finals k c s (tm_year cur) (tm_mon cur) (tm_mday cur) h mi se -> outcome k c s sy sm sd.
Proof. intros Hn Hf. left. by exists h, mi, se. Qed.

Lemma outcome_mono k k' c s sy sm sd : outcome k c s sy sm sd -> (k <= k')%nat -> outcome k' c s sy sm sd.
Proof.
  intros [(h & mi & se & Hn & Hf)|[Hn [H1 H2]]] Hk.
  - left. exists h, mi, se. split; [done|]. by eapply finals_mono.
  - right. split; [done|]. split; intros H.
    + destruct (H1 H) as (? & ? & ? & ? & ? & ? & ? & ? & ? & ? & Hr). repeat eexists. by eapply reach_mono.
    + destruct (H2 H) as (? & ? & ? & ? & ? & ? & ? & ? & ? & ? & ? & Hr). repeat eexists. by eapply reach_mono.
Qed.

(** Facts about the fields of the time of the day. *)
Ltac clock_facts :=
  pose proof (pl_hour e He); pose proof (pl_minute e He); pose proof (pl_second e He);
  pose proof (ok_hour cur Hcur); pose proof (ok_min cur Hcur); pose proof (ok_sec cur Hcur);
  unfold BT_MESH_SCHEDULER_ANY_HOUR, BT_MESH_SCHEDULER_ANY_MINUTE, BT_MESH_SCHEDULER_ANY_SECOND in *.

Lemma first_range v any last : 0 <= last -> 0 <= v <= any -> any = last + 1 -> 0 <= first v any <= last.
Proof. intros. unfold first. destruct (Z.eqb_spec v any); lia. Qed.

Lemma first_matches v any : v = any \/ first v any = v.
Proof. unfold first. destruct (Z.eqb_spec v any); tauto. Qed.

Lemma first_least v any x : 0 <= x -> v = any \/ x = v -> first v any <= x.
Proof. intros Hx H. unfold first. destruct (Z.eqb_spec v any); lia. Qed.

(** The next value of the hour or of the minute, with the first values of the rest. *)
Lemma clock_next_hour h :
  0 <= h < 24 -> tm_hour cur < h -> e_hour e = BT_MESH_SCHEDULER_ANY_HOUR \/ h = e_hour e ->
  (forall h' mi s, clock_range h' mi s -> clock_matches e h' mi s -> cur_clock < clock h' mi s -> h <= h') ->
  clock_next h first_minute first_second.
Proof.
  intros Hr Hh Hm Hleast. clock_facts. pose proof (first_range (e_minute e) 60 59). pose proof (first_range (e_second e) 60 59).
  split; [unfold clock_range, first_minute, first_second, BT_MESH_SCHEDULER_ANY_MINUTE, BT_MESH_SCHEDULER_ANY_SECOND; lia|].
  split; [split; [done|]; split; (destruct (first_matches (e_minute e) 60), (first_matches (e_second e) 60); tauto)|].
  split; [unfold cur_clock, clock, first_minute, first_second, BT_MESH_SCHEDULER_ANY_MINUTE, BT_MESH_SCHEDULER_ANY_SECOND; lia|].
  intros h' mi' s' Hr' Hm' Hgt. specialize (Hleast h' mi' s' Hr' Hm' Hgt). destruct Hr' as (_ & ? & ?), Hm' as (_ & Hmi & Hs).
  pose proof (first_least _ _ mi' ltac:(lia) Hmi). pose proof (first_least _ _ s' ltac:(lia) Hs). unfold clock, first_minute, first_second. lia.
Qed.

Lemma clock_next_minute mi :
  0 <= mi < 60 -> tm_min cur < mi -> e_minute e = BT_MESH_SCHEDULER_ANY_MINUTE \/ mi = e_minute e ->
  e_hour e = BT_MESH_SCHEDULER_ANY_HOUR \/ tm_hour cur = e_hour e ->
  (forall mi' s, clock_range (tm_hour cur) mi' s -> clock_matches e (tm_hour cur) mi' s ->
    cur_clock < clock (tm_hour cur) mi' s -> mi <= mi') ->
  clock_next (tm_hour cur) mi first_second.
Proof.
  intros Hr Hmi Hm Hh Hleast. clock_facts. pose proof (first_range (e_second e) 60 59).
  split; [unfold clock_range, first_second, BT_MESH_SCHEDULER_ANY_SECOND; lia|].
  split; [split; [done|]; split; [done|]; destruct (first_matches (e_second e) 60); tauto|].
  split; [unfold cur_clock, clock, first_second, BT_MESH_SCHEDULER_ANY_SECOND; lia|].
  intros h' mi' s' Hr' Hm' Hgt. destruct (decide (h' = tm_hour cur)) as [->|].
  - specialize (Hleast mi' s' Hr' Hm' Hgt). destruct Hr' as (_ & ? & ?), Hm' as (_ & _ & Hs).
    pose proof (first_least _ _ s' ltac:(lia) Hs). unfold clock, first_second. lia.
  - unfold cur_clock, clock, clock_range, first_second, BT_MESH_SCHEDULER_ANY_SECOND in *. lia.
Qed.

(** Without a later time in the current hour, nor a later hour, there is none. *)
Lemma clock_none_hour :
  (forall mi s, clock_range (tm_hour cur) mi s -> clock_matches e (tm_hour cur) mi s -> clock (tm_hour cur) mi s <= cur_clock) ->
  e_hour e = BT_MESH_SCHEDULER_ANY_HOUR /\ tm_hour cur = 23 \/ e_hour e <= tm_hour cur -> clock_none.
Proof.
  intros Hn Hh h mi s Hr Hm. clock_facts. destruct (decide (h = tm_hour cur)) as [->|]; [by apply Hn|].
  destruct Hm as (Hm & _). unfold clock_range, cur_clock, clock, BT_MESH_SCHEDULER_ANY_HOUR in *. lia.
Qed.

(** The hour is over: with its next value, or on another day. *)
Lemma hour_over h mi s w yd ds sy sm sd sh smi ss :
  clock_none -> (pick (e_hour e) BT_MESH_SCHEDULER_ANY_HOUR 23 sh).2 = true ->
  outcome 1 (St (T (tm_year cur) (tm_mon cur) (tm_mday cur) h mi s w yd ds) (I true sy sm sd sh smi ss)) HOUR_STAGE sy sm sd.
Proof.
  intros Hn Hp. right. split; [done|].
  assert (E : handlers cur HOUR_STAGE (St (T (tm_year cur) (tm_mon cur) (tm_mday cur) h mi s w yd ds) (I true sy sm sd sh smi ss)) = _)
    by (cbn [handlers]; apply hour_eq, Hcur).
  destruct (pick _ _ _ _) as [v ov]. cbn in Hp. subst ov. cbn [andb] in E.
  split; intros H; destruct (Z.leb_spec (sd + 1) (month_days (tm_year cur) (tm_mon cur))); [|lia|lia|]; repeat eexists;
    (econstructor; [exact E|constructor]).
Qed.

Lemma hour_next h mi s w yd ds sy sm sd smi ss :
  e_hour e = BT_MESH_SCHEDULER_ANY_HOUR \/ tm_hour cur = e_hour e ->
  (forall mi s, clock_range (tm_hour cur) mi s -> clock_matches e (tm_hour cur) mi s -> clock (tm_hour cur) mi s <= cur_clock) ->
  outcome 4 (St (T (tm_year cur) (tm_mon cur) (tm_mday cur) h mi s w yd ds) (I true sy sm sd (tm_hour cur + 1) smi ss))
    HOUR_STAGE sy sm sd.
Proof.
  intros Hh Hn. clock_facts. destruct (decide (e_hour e = 24 /\ tm_hour cur < 23)) as [[E Hl]|Hno].
  - eapply outcome_finals; [apply (clock_next_hour (tm_hour cur + 1)); [lia|lia|by left|]|].
    + intros h' mi' s' Hr Hm Hgt. destruct (decide (h' = tm_hour cur)) as [->|]; [specialize (Hn mi' s' Hr Hm); lia|].
      unfold cur_clock, clock, clock_range in *. lia.
    + eapply finals_step; [|apply minute_fast; lia].
      cbn [handlers]. rewrite hour_eq by apply Hcur. unfold pick, BT_MESH_SCHEDULER_ANY_HOUR. rewrite E. cbn [Z.eqb Pos.eqb].
      destruct (Z.ltb_spec 23 (tm_hour cur + 1)); [lia|]. cbn [andb]. destruct (Z.eqb_spec (tm_hour cur + 1) (tm_hour cur)); [lia|]. reflexivity.
  - eapply outcome_mono; [apply hour_over|lia]; [apply clock_none_hour; [done|unfold BT_MESH_SCHEDULER_ANY_HOUR; lia]|].
    unfold pick, BT_MESH_SCHEDULER_ANY_HOUR. destruct (Z.eqb_spec (e_hour e) 24); cbn [snd]; apply Z.ltb_lt; lia.
Qed.

(** The minute is over. *)
Lemma minute_next mi s w yd ds sy sm sd ss :
  e_hour e = BT_MESH_SCHEDULER_ANY_HOUR \/ tm_hour cur = e_hour e ->
  e_minute e = BT_MESH_SCHEDULER_ANY_MINUTE \/ tm_min cur = e_minute e ->
  (forall s, 0 <= s < 60 -> clock_matches e (tm_hour cur) (tm_min cur) s -> s <= tm_sec cur) ->
  outcome 5 (St (T (tm_year cur) (tm_mon cur) (tm_mday cur) (tm_hour cur) mi s w yd ds)
    (I true sy sm sd (tm_hour cur) (tm_min cur + 1) ss)) MINUTE_STAGE sy sm sd.
Proof.
  intros Hh Hmi Hn. clock_facts. destruct (decide (e_minute e = 60 /\ tm_min cur < 59)) as [[E Hl]|Hno].
  - eapply outcome_finals; [apply (clock_next_minute (tm_min cur + 1)); [lia|lia|by left|done|]|].
    + intros mi' s' Hr Hm Hgt. destruct (decide (mi' = tm_min cur)) as [->|]; unfold cur_clock, clock, clock_range in *; [|lia].
      specialize (Hn s' ltac:(lia) Hm). lia.
    + eapply finals_mono with (k := 3%nat); [|lia]. eapply finals_step; [|apply second_fast; lia].
      cbn [handlers]. rewrite minute_eq. unfold pick, BT_MESH_SCHEDULER_ANY_MINUTE. rewrite E. cbn [Z.eqb Pos.eqb].
      destruct (Z.ltb_spec 59 (tm_min cur + 1)); [lia|]. cbn [andb]. destruct (Z.eqb_spec (tm_min cur + 1) (tm_min cur)); [lia|]. reflexivity.
  - eapply outcome_step; [|apply hour_next; [done|]].
    + cbn [handlers]. rewrite minute_eq. replace (pick _ _ _ _) with ((pick (e_minute e) BT_MESH_SCHEDULER_ANY_MINUTE 59 (tm_min cur + 1)).1, true); [reflexivity|].
      rewrite (surjective_pairing (pick _ _ _ _)) at 2. f_equal. unfold pick, BT_MESH_SCHEDULER_ANY_MINUTE.
      destruct (Z.eqb_spec (e_minute e) 60); cbn [snd]; symmetry; apply Z.ltb_lt; lia.
    + intros mi' s' Hr Hm. destruct (decide (mi' = tm_min cur)) as [->|].
      * specialize (Hn s' ltac:(unfold clock_range in Hr; lia) Hm). unfold cur_clock, clock. lia.
      * destruct Hm as (_ & Hm & _). unfold cur_clock, clock, clock_range, BT_MESH_SCHEDULER_ANY_MINUTE in *. lia.
Qed.

(** *** The day *)

Lemma land_bit x n : 0 <= n -> (Z.land x (BIT n) =? 0) = negb (Z.testbit x n).
Proof.
  intros Hn. unfold BIT. rewrite Z.shiftl_1_l. destruct (Z.testbit x n) eqn:E; cbn [negb].
  - apply Z.eqb_neq. intros H0. apply (f_equal (fun z => Z.testbit z n)) in H0.
    rewrite Z.land_spec, Z.pow2_bits_true, E, Z.bits_0 in H0 by done. done.
  - apply Z.eqb_eq, Z.bits_inj'. intros m Hm. rewrite Z.land_spec, Z.bits_0. destruct (decide (m = n)) as [->|]; [by rewrite E|].
    by rewrite Z.pow2_bits_false, andb_false_r by lia.
Qed.

(** The days up to the next day of the week of the entry. *)
Definition weekday_delta (w : Z) : Z :=
  if Z.testbit (e_day_of_week e) w then 0
  else if ctrue (Z.shiftr (e_day_of_week e) w) then u32_count_trailing_zeros (Z.shiftr (e_day_of_week e) w)
  else u32_count_trailing_zeros (e_day_of_week e) + WEEKDAY_CNT - w.

Lemma weekday_delta_spec w : 0 <= w < 7 ->
  0 <= weekday_delta w < 7 /\ Z.testbit (e_day_of_week e) ((w + weekday_delta w) mod 7) = true /\
  forall j, 0 <= j < weekday_delta w -> Z.testbit (e_day_of_week e) ((w + j) mod 7) = false.
Proof.
  intros Hw. pose proof (pl_weekday e He) as Hd. set (m := e_day_of_week e) in *.
  assert (Hhigh : forall n, 7 <= n -> Z.testbit m n = false) by (intros n Hn; apply (bits_testbit_high 7); [lia|split; lia|done]).
  unfold weekday_delta. fold m. destruct (Z.testbit m w) eqn:E.
  { rewrite Z.add_0_r, Z.mod_small by lia. split; [lia|]. split; [done|]. lia. }
  unfold ctrue. destruct (Z.eqb_spec (Z.shiftr m w) 0) as [E0|E0]; cbn [negb].
  - destruct (count_trailing_zeros_spec m) as (Hr & Hb & Hl); [lia|]. set (i := u32_count_trailing_zeros m) in *.
    assert (Hz : forall n, w <= n -> Z.testbit m n = false).
    { intros n Hn. replace n with (n - w + w) by lia. rewrite <- Z.shiftr_spec by lia. by rewrite E0, Z.bits_0. }
    assert (Hi : i < w) by (destruct (decide (i < w)); [done|rewrite Hz in Hb by lia; done]).
    unfold WEEKDAY_CNT. split; [lia|]. replace (w + (i + 7 - w)) with (i + 1 * 7) by lia. rewrite Z.mod_add, Z.mod_small by lia.
    split; [done|]. intros j Hj. destruct (decide (w + j < 7)); [rewrite Z.mod_small by lia; apply Hz; lia|].
    replace (w + j) with (w + j - 7 + 1 * 7) by lia. rewrite Z.mod_add, Z.mod_small by lia. apply Hl. lia.
  - assert (Hs : 0 < Z.shiftr m w < 2 ^ 32).
    { assert (0 <= Z.shiftr m w) by (apply Z.shiftr_nonneg; lia). rewrite Z.shiftr_div_pow2 in * by lia.
      pose proof (Z.pow_pos_nonneg 2 w). pose proof (Z.div_le_upper_bound m (2 ^ w) m). nia. }
    destruct (count_trailing_zeros_spec (Z.shiftr m w)) as (Hr & Hb & Hl); [done|]. set (i := u32_count_trailing_zeros (Z.shiftr m w)) in *.
    rewrite Z.shiftr_spec in Hb by lia. assert (Hi : i + w < 7) by (destruct (decide (i + w < 7)); [done|rewrite Hhigh in Hb by lia; done]).
    split; [lia|]. rewrite Z.mod_small by lia. split; [by rewrite Z.add_comm|]. intros j Hj. rewrite Z.mod_small by lia.
    specialize (Hl j Hj). rewrite Z.shiftr_spec in Hl by lia. by rewrite Z.add_comm.
Qed.

Lemma day_any_eq y mo d h mi s w yd ds c sy sm sd sh smi ss :
  e_day e = BT_MESH_SCHEDULER_ANY_DAY -> 100 <= y -> 0 <= mo < 12 -> 1 <= sd <= month_days y mo ->
  let d' := sd + weekday_delta (weekday y mo sd) in
  handlers cur DAY_STAGE (St (T y mo d h mi s w yd ds) (I c sy sm sd sh smi ss)) =
    Ok (if (month_days y mo <? d') && c
        then (St (T y mo d' h mi s (weekday y mo sd) yd ds) (I c sy (sm + 1) d' sh smi ss), MONTH_STAGE)
        else let c' := c && (d' =? tm_mday cur) in
             (St (T y mo d' h mi s (weekday y mo sd) yd ds) (I c' sy sm d' (if c' then tm_hour cur else 0) smi ss), HOUR_STAGE)).
Proof.
  intros E Hy Hmo Hsd d'. cbn [handlers]. unfold day_handler, day_of_entry, day_validation. cbn [St entry sched_time T tm_year tm_mon info I start_day].
  rewrite E. cbn [Z.eqb BT_MESH_SCHEDULER_ANY_DAY]. rewrite get_days_in_month_ok by done. cbn [mbind res_bind].
  destruct (Z.leb_spec sd (month_days y mo)); [|lia]. cbn [negb andb]. cbn -[get_day_of_week weekday_of_entry month_days weekday].
  rewrite day_of_week_ok by lia. cbn -[weekday_of_entry month_days weekday Z.ltb Z.leb].
  unfold weekday_of_entry. cbn -[month_days weekday Z.ltb Z.leb get_days_in_month TM_START_YEAR Z.add Z.land BIT Z.shiftr ctrue].
  pose proof (weekday_range y mo sd). rewrite land_bit by lia. rewrite E. subst d'. unfold weekday_delta.
  destruct (Z.testbit (e_day_of_week e) (weekday y mo sd)) eqn:Eb; cbn -[month_days weekday Z.ltb Z.leb get_days_in_month TM_START_YEAR Z.add Z.land BIT Z.shiftr ctrue].
  - rewrite Z.add_0_r. destruct (Z.ltb_spec (month_days y mo) sd); [lia|]. reflexivity.
  - unfold day_validation. cbn [set_tm_mday set_tm_wday tm_year tm_mon T]. rewrite get_days_in_month_ok by done.
    cbn -[month_days weekday Z.ltb Z.leb Z.shiftr Z.add ctrue]. rewrite Z.ltb_antisym.
    by destruct (Z.leb _ _), c.
Qed.

Lemma day_any_over y mo d h mi s w yd ds sy sm sd sh smi ss :
  e_day e = BT_MESH_SCHEDULER_ANY_DAY -> 0 <= mo < 12 -> month_days y mo < sd ->
  handlers cur DAY_STAGE (St (T y mo d h mi s w yd ds) (I true sy sm sd sh smi ss)) =
    Ok (St (T y mo sd h mi s w yd ds) (I true sy (sm + 1) sd sh smi ss), MONTH_STAGE).
Proof.
  intros E Hmo Hsd. cbn [handlers]. unfold day_handler, day_of_entry, day_validation. cbn [St entry sched_time T tm_year tm_mon info I start_day].
  rewrite E. cbn [Z.eqb BT_MESH_SCHEDULER_ANY_DAY]. rewrite get_days_in_month_ok by done. cbn [mbind res_bind].
  by destruct (Z.leb_spec sd (month_days y mo)); [lia|].
Qed.

Lemma day_fixed_eq y mo d h mi s w yd ds c sy sm sd sh smi ss :
  1 <= e_day e <= 28 -> e_day_of_week e = 127 -> 100 <= y -> 0 <= mo < 12 ->
  exists w', handlers cur DAY_STAGE (St (T y mo d h mi s w yd ds) (I c sy sm sd sh smi ss)) =
    Ok (if (e_day e <? tm_mday cur) && c
        then (St (T y mo (e_day e) h mi s w' yd ds) (I c sy (sm + 1) sd sh smi ss), MONTH_STAGE)
        else let c' := c && (e_day e =? tm_mday cur) in
             (St (T y mo (e_day e) h mi s w' yd ds) (I c' sy sm sd (if c' then tm_hour cur else 0) smi ss), HOUR_STAGE)).
Proof.
  intros Hd Hw Hy Hmo. cbn [handlers]. unfold day_handler, day_of_entry. cbn [St entry sched_time T tm_year tm_mon info I start_day].
  unfold BT_MESH_SCHEDULER_ANY_DAY. destruct (Z.eqb_spec (e_day e) 0); [lia|]. rewrite get_days_in_month_ok by done. cbn [mbind res_bind].
  pose proof (month_days_range y mo Hmo). rewrite Z.min_l, u8_small by lia.
  assert (Eset : set_e_day (e_day e) e = e) by (by destruct e). rewrite Eset.
  destruct ((e_day e <? tm_mday cur) && c) eqn:Eo.
  { exists w. cbn -[Z.ltb]. by rewrite Eo. }
  exists (weekday y mo (e_day e)). cbn -[get_day_of_week weekday_of_entry weekday Z.ltb]. rewrite Eo. cbn [mbind res_bind].
  rewrite day_of_week_ok by lia. cbn -[weekday_of_entry weekday Z.ltb].
  unfold weekday_of_entry. cbn -[weekday Z.ltb Z.land BIT]. pose proof (weekday_range y mo (e_day e)). rewrite land_bit by lia.
  replace (Z.testbit (e_day_of_week e) (weekday y mo (e_day e))) with true; cycle 1.
  { rewrite Hw. change 127 with (Z.ones 7). symmetry. apply Z.ones_spec_low. lia. }
  cbn -[weekday Z.ltb]. by rewrite Eo.
Qed.

(** *** The rest of the current day *)

Lemma clock_next_second s :
  0 <= s < 60 -> tm_sec cur < s -> e_second e = BT_MESH_SCHEDULER_ANY_SECOND \/ s = e_second e ->
  e_hour e = BT_MESH_SCHEDULER_ANY_HOUR \/ tm_hour cur = e_hour e ->
  e_minute e = BT_MESH_SCHEDULER_ANY_MINUTE \/ tm_min cur = e_minute e ->
  (forall s', 0 <= s' < 60 -> clock_matches e (tm_hour cur) (tm_min cur) s' -> tm_sec cur < s' -> s <= s') ->
  clock_next (tm_hour cur) (tm_min cur) s.
Proof.
  intros Hr Hs Hm Hh Hmi Hleast. clock_facts. split; [unfold clock_range; lia|]. split; [done|].
  split; [unfold cur_clock, clock; lia|]. intros h' mi' s' Hr' Hm' Hgt.
  destruct (decide (h' = tm_hour cur /\ mi' = tm_min cur)) as [[-> ->]|].
  - specialize (Hleast s' ltac:(unfold clock_range in Hr'; lia) Hm'). unfold cur_clock, clock in *. lia.
  - unfold cur_clock, clock, clock_range in *. lia.
Qed.

(** The current time itself is described by the entry. *)
Lemma protector_same w yd ds c sy sm sd sh smi ss :
  handlers cur PROTECTOR_STAGE (St (T (tm_year cur) (tm_mon cur) (tm_mday cur) (tm_hour cur) (tm_min cur) (tm_sec cur) w yd ds)
      (I c sy sm sd sh smi ss)) =
    let to i s := Ok (St (T (tm_year cur) (tm_mon cur) (tm_mday cur) (tm_hour cur) (tm_min cur) (tm_sec cur) w yd ds) i, s) in
    if e_second e =? BT_MESH_SCHEDULER_ANY_SECOND then to (I true sy sm sd sh smi (ss + 1)) SECOND_STAGE
    else if e_minute e =? BT_MESH_SCHEDULER_ANY_MINUTE then to (I true sy sm sd sh (smi + 1) ss) MINUTE_STAGE
    else if e_hour e =? BT_MESH_SCHEDULER_ANY_HOUR then to (I true sy sm sd (sh + 1) smi ss) HOUR_STAGE
    else if e_day e =? BT_MESH_SCHEDULER_ANY_DAY then to (I true sy sm (sd + 1) sh smi ss) DAY_STAGE
    else if e_year e =? BT_MESH_SCHEDULER_ANY_YEAR then to (I true (sy + 1) sm sd sh smi ss) YEAR_STAGE
    else to (I true sy sm sd sh smi ss) ERROR_STAGE.
Proof.
  cbn [handlers]. unfold protector_handler. cbn [St sched_time].
  replace (same_time cur _) with true; [|symmetry; by apply same_time_spec].
  cbn -[Z.eqb BT_MESH_SCHEDULER_ANY_SECOND BT_MESH_SCHEDULER_ANY_MINUTE BT_MESH_SCHEDULER_ANY_HOUR BT_MESH_SCHEDULER_ANY_DAY BT_MESH_SCHEDULER_ANY_YEAR].
  by repeat case_match.
Qed.

(** The entry can describe a time after the current one before the next month. *)
Definition repeats : Prop :=
  e_day e = BT_MESH_SCHEDULER_ANY_DAY \/ e_hour e = BT_MESH_SCHEDULER_ANY_HOUR \/
  e_minute e = BT_MESH_SCHEDULER_ANY_MINUTE \/ e_second e = BT_MESH_SCHEDULER_ANY_SECOND \/
  ~ clock_matches e (tm_hour cur) (tm_min cur) (tm_sec cur).

(** At the current time, with a second that is given. *)
Lemma second_same w yd ds c sy sm sd ss :
  repeats -> e_hour e = BT_MESH_SCHEDULER_ANY_HOUR \/ tm_hour cur = e_hour e ->
  e_minute e = BT_MESH_SCHEDULER_ANY_MINUTE \/ tm_min cur = e_minute e ->
  e_second e <> BT_MESH_SCHEDULER_ANY_SECOND -> e_second e = tm_sec cur ->
  outcome 6 (St (T (tm_year cur) (tm_mon cur) (tm_mday cur) (tm_hour cur) (tm_min cur) (tm_sec cur) w yd ds)
    (I c sy sm sd (tm_hour cur) (tm_min cur) ss)) PROTECTOR_STAGE sy sm sd.
Proof.
  intros Hrep Hh Hmi Hne Es. pose proof (protector_same w yd ds c sy sm sd (tm_hour cur) (tm_min cur) ss) as E. cbv zeta in E.
  destruct (Z.eqb_spec (e_second e) BT_MESH_SCHEDULER_ANY_SECOND); [done|].
  destruct (Z.eqb_spec (e_minute e) BT_MESH_SCHEDULER_ANY_MINUTE) as [Em|Em].
  { eapply outcome_step; [exact E|]. apply minute_next; [done|done|]. intros s' _ (_ & _ & [|]); [done|lia]. }
  assert (Hmi' : tm_min cur = e_minute e) by tauto.
  assert (Hhour : forall h mi s, clock_matches e h mi s -> mi = tm_min cur /\ s = tm_sec cur).
  { intros h mi s (_ & [|] & [|]); try done. split; congruence. }
  destruct (Z.eqb_spec (e_hour e) BT_MESH_SCHEDULER_ANY_HOUR) as [Eh|Eh].
  { eapply outcome_mono; [eapply outcome_step; [exact E|apply hour_next; [done|]]|lia]. intros mi s _ Hm.
    destruct (Hhour _ _ _ Hm) as [-> ->]. done. }
  assert (Hh' : tm_hour cur = e_hour e) by tauto.
  destruct (Z.eqb_spec (e_day e) BT_MESH_SCHEDULER_ANY_DAY) as [Ed|Ed]; [|exfalso; unfold repeats, clock_matches in Hrep; intuition congruence].
  right. split.
  - intros h mi s _ Hm. destruct (Hhour _ _ _ Hm) as [-> ->]. destruct Hm as ([|] & _); [done|]. unfold cur_clock, clock. lia.
  - split; intros Hsd.
    + repeat eexists. econstructor; [exact E|]. constructor.
    + repeat eexists. econstructor; [exact E|]. econstructor; [apply day_any_over; [done|apply Hcur|lia]|constructor].
Qed.

Lemma second_slow s w yd ds sy sm sd :
  repeats -> e_hour e = BT_MESH_SCHEDULER_ANY_HOUR \/ tm_hour cur = e_hour e ->
  e_minute e = BT_MESH_SCHEDULER_ANY_MINUTE \/ tm_min cur = e_minute e ->
  outcome 8 (St (T (tm_year cur) (tm_mon cur) (tm_mday cur) (tm_hour cur) (tm_min cur) s w yd ds)
    (I true sy sm sd (tm_hour cur) (tm_min cur) (tm_sec cur))) SECOND_STAGE sy sm sd.
Proof.
  intros Hrep Hh Hmi. clock_facts.
  assert (E : forall s ss, handlers cur SECOND_STAGE (St (T (tm_year cur) (tm_mon cur) (tm_mday cur) (tm_hour cur) (tm_min cur) s w yd ds)
    (I true sy sm sd (tm_hour cur) (tm_min cur) ss)) = _) by (intros; cbn [handlers]; rewrite second_eq; reflexivity).
  unfold pick, BT_MESH_SCHEDULER_ANY_SECOND in E. destruct (Z.eqb_spec (e_second e) 60) as [Es|Es].
  - eapply outcome_step; [rewrite E; destruct (Z.ltb_spec 59 (tm_sec cur)); [lia|]; reflexivity|].
    eapply outcome_step; [rewrite protector_same, Es; reflexivity|]. destruct (decide (tm_sec cur < 59)).
    + eapply outcome_finals; [apply (clock_next_second (tm_sec cur + 1)); [lia|lia|by left|done|done|lia]|].
      eapply finals_mono with (k := 2%nat); [|lia]. eapply finals_step; [rewrite E; destruct (Z.ltb_spec 59 (tm_sec cur + 1)); [lia|]; reflexivity|].
      apply protector_finals. lia.
    + eapply outcome_step; [rewrite E; destruct (Z.ltb_spec 59 (tm_sec cur + 1)); [|lia]; reflexivity|]. apply minute_next; [done|done|lia].
  - destruct (Z_lt_ge_dec (e_second e) (tm_sec cur)) as [Hl|Hl].
    + eapply outcome_mono; [eapply outcome_step; [rewrite E; destruct (Z.ltb_spec (e_second e) (tm_sec cur)); [|lia]; reflexivity|]|].
      * apply minute_next; [done|done|]. intros s' _ (_ & _ & [|]); [done|lia].
      * lia.
    + eapply outcome_mono with (k := 7%nat); [|lia].
      eapply outcome_step; [rewrite E; destruct (Z.ltb_spec (e_second e) (tm_sec cur)); [lia|]; reflexivity|].
      destruct (decide (e_second e = tm_sec cur)) as [Eq|Ne]; [rewrite Eq; by apply second_same|].
      eapply outcome_finals; [apply (clock_next_second (e_second e)); [lia|lia|by right|done|done|]|].
      * intros s' _ (_ & _ & [|]); [done|lia].
      * eapply finals_mono; [apply protector_finals; lia|lia].
Qed.

Lemma minute_slow mi s w yd ds sy sm sd ss :
  repeats -> e_hour e = BT_MESH_SCHEDULER_ANY_HOUR \/ tm_hour cur = e_hour e ->
  outcome 9 (St (T (tm_year cur) (tm_mon cur) (tm_mday cur) (tm_hour cur) mi s w yd ds)
    (I true sy sm sd (tm_hour cur) (tm_min cur) ss)) MINUTE_STAGE sy sm sd.
Proof.
  intros Hrep Hh. clock_facts.
  assert (E : handlers cur MINUTE_STAGE (St (T (tm_year cur) (tm_mon cur) (tm_mday cur) (tm_hour cur) mi s w yd ds)
    (I true sy sm sd (tm_hour cur) (tm_min cur) ss)) = _) by (cbn [handlers]; rewrite minute_eq; reflexivity).
  unfold pick, BT_MESH_SCHEDULER_ANY_MINUTE in E. destruct (Z.eqb_spec (e_minute e) 60) as [Em|Em].
  - destruct (Z.ltb_spec 59 (tm_min cur)); [lia|]. cbn [andb] in E. rewrite Z.eqb_refl in E. eapply outcome_step; [exact E|].
    apply second_slow; [done|done|by left].
  - destruct (Z.ltb_spec (e_minute e) (tm_min cur)) as [Hl|Hl]; cbn [andb] in E.
    + eapply outcome_mono; [eapply outcome_step; [exact E|apply hour_next; [done|]]|lia].
      intros mi' s' Hr (_ & [|] & _); [done|]. unfold cur_clock, clock, clock_range in *. lia.
    + destruct (Z.eqb_spec (e_minute e) (tm_min cur)) as [Eq|Ne]; (eapply outcome_step; [exact E|]).
      * rewrite Eq. apply second_slow; [done|done|by right].
      * eapply outcome_finals; [apply (clock_next_minute (e_minute e)); [lia|lia|by right|done|]|].
        -- intros mi' s' _ (_ & [|] & _); [done|lia].
        -- eapply finals_mono; [apply second_fast; lia|lia].
Qed.

Lemma hour_slow h mi s w yd ds sy sm sd smi ss :
  repeats ->
  outcome 10 (St (T (tm_year cur) (tm_mon cur) (tm_mday cur) h mi s w yd ds)
    (I true sy sm sd (tm_hour cur) smi ss)) HOUR_STAGE sy sm sd.
Proof.
  intros Hrep. clock_facts.
  assert (E : handlers cur HOUR_STAGE (St (T (tm_year cur) (tm_mon cur) (tm_mday cur) h mi s w yd ds)
    (I true sy sm sd (tm_hour cur) smi ss)) = _) by (cbn [handlers]; rewrite hour_eq by apply Hcur; reflexivity).
  destruct (decide (e_hour e < tm_hour cur)) as [Hl|Hl].
  { eapply outcome_mono; [apply hour_over|lia].
    - apply clock_none_hour; [|lia]. intros mi' s' _ ([|] & _); unfold BT_MESH_SCHEDULER_ANY_HOUR in *; lia.
    - unfold pick, BT_MESH_SCHEDULER_ANY_HOUR. destruct (Z.eqb_spec (e_hour e) 24); [lia|]. cbn [snd]. by apply Z.ltb_lt. }
  unfold pick, BT_MESH_SCHEDULER_ANY_HOUR in E. destruct (Z.eqb_spec (e_hour e) 24) as [Eh|Eh].
  - destruct (Z.ltb_spec 23 (tm_hour cur)); [lia|]. cbn [andb] in E. rewrite Z.eqb_refl in E. eapply outcome_step; [exact E|].
    apply minute_slow; [done|by left].
  - destruct (Z.ltb_spec (e_hour e) (tm_hour cur)); [lia|]. cbn [andb] in E.
    destruct (Z.eqb_spec (e_hour e) (tm_hour cur)) as [Eq|Ne]; (eapply outcome_step; [exact E|]).
    + rewrite Eq. apply minute_slow; [done|by right].
    + eapply outcome_finals; [apply (clock_next_hour (e_hour e)); [lia|lia|by right|]|].
      * intros h' mi' s' _ ([|] & _) _; [done|lia].
      * eapply finals_mono; [apply minute_fast; lia|lia].
Qed.

(** *** The days of a month *)

Lemma all_weekdays y mo d : e_day_of_week e = 127 -> Z.testbit (e_day_of_week e) (weekday y mo d) = true.
Proof. intros ->. change 127 with (Z.ones 7). apply Z.ones_spec_low, weekday_range. Qed.

(** The next day from [d] on that the entry describes, if its day is a wild card. *)
Definition next_day (y mo d : Z) : Z := d + weekday_delta (weekday y mo d).

Lemma next_day_spec y mo d : e_day e = BT_MESH_SCHEDULER_ANY_DAY ->
  d <= next_day y mo d < d + 7 /\ day_matches e y mo (next_day y mo d) /\
  forall d', d <= d' -> day_matches e y mo d' -> next_day y mo d <= d'.
Proof.
  intros E. destruct (weekday_delta_spec (weekday y mo d) (weekday_range y mo d)) as (Hr & Hb & Hl).
  unfold next_day. split; [lia|]. split; [split; [by left|by rewrite weekday_add]|]. intros d' Hd [_ Hm].
  destruct (Z_lt_ge_dec d' (d + weekday_delta (weekday y mo d))); [|lia].
  replace d' with (d + (d' - d)) in Hm by lia. rewrite weekday_add, Hl in Hm by lia. done.
Qed.

Definition first_day (y mo : Z) : Z := if e_day e =? BT_MESH_SCHEDULER_ANY_DAY then next_day y mo 1 else e_day e.

Lemma first_day_spec y mo : 0 <= mo < 12 ->
  1 <= first_day y mo <= month_days y mo /\ day_matches e y mo (first_day y mo) /\
  forall d, 1 <= d -> day_matches e y mo d -> first_day y mo <= d.
Proof.
  intros Hmo. pose proof (month_days_range y mo Hmo). unfold first_day. destruct (Z.eqb_spec (e_day e) BT_MESH_SCHEDULER_ANY_DAY) as [E|E].
  - destruct (next_day_spec y mo 1 E) as (? & ? & ?). split; [lia|]. done.
  - destruct (pl_day e He) as [|[Hd Hw]]; [done|]. split; [lia|]. split; [split; [by right|by apply all_weekdays]|].
    intros d _ [[|] _]; [done|lia].
Qed.

(** In another month than the current one. *)
Lemma day_fast y mo d h mi s w yd ds sy sm sh smi ss :
  100 <= y -> 0 <= mo < 12 -> ~ (y = tm_year cur /\ mo = tm_mon cur) ->
  finals 5 (St (T y mo d h mi s w yd ds) (I false sy sm 1 sh smi ss)) DAY_STAGE y mo (first_day y mo)
    first_hour first_minute first_second.
Proof.
  intros Hy Hmo Hne. pose proof (month_days_range y mo Hmo). unfold first_day.
  destruct (Z.eqb_spec (e_day e) BT_MESH_SCHEDULER_ANY_DAY) as [E|E].
  - eapply finals_step; [rewrite day_any_eq, andb_false_r by (done || lia); reflexivity|]. apply hour_fast; [done|tauto].
  - destruct (pl_day e He) as [|[Hd Hw]]; [done|].
    destruct (day_fixed_eq y mo d h mi s w yd ds false sy sm 1 sh smi ss) as [w' Ew]; [done..|].
    eapply finals_step; [rewrite Ew, andb_false_r; reflexivity|]. apply hour_fast; [done|tauto].
Qed.

(** The first point in time after the current one in the current month, or none. *)
Definition in_month (d h mi s : Z) : Prop :=
  1 <= d <= month_days (tm_year cur) (tm_mon cur) /\ clock_range h mi s /\
  day_matches e (tm_year cur) (tm_mon cur) d /\ clock_matches e h mi s.
Definition later_in_month (d h mi s : Z) : Prop := tm_mday cur < d \/ d = tm_mday cur /\ cur_clock < clock h mi s.
Definition mon_next (d h mi s : Z) : Prop :=
  in_month d h mi s /\ later_in_month d h mi s /\
  forall d' h' mi' s', in_month d' h' mi' s' -> later_in_month d' h' mi' s' ->
    d < d' \/ d = d' /\ clock h mi s <= clock h' mi' s'.
Definition mon_none : Prop := forall d h mi s, in_month d h mi s -> ~ later_in_month d h mi s.

Definition mon_outcome (k : nat) (c : conv) (s : stage) (sy sm : Z) : Prop :=
  (exists d h mi se, mon_next d h mi se /\ finals k c s (tm_year cur) (tm_mon cur) d h mi se) \/
  (mon_none /\ exists d h mi se w yd ds sd sh smi ss,
    reach k c s (St (T (tm_year cur) (tm_mon cur) d h mi se w yd ds) (I true sy (sm + 1) sd sh smi ss)) MONTH_STAGE).

Lemma mon_outcome_reach k k' c s c1 s1 sy sm :
  reach k c s c1 s1 -> mon_outcome k' c1 s1 sy sm -> mon_outcome (k + k') c s sy sm.
Proof.
  intros E [(d & h & mi & se & Hn & Hf)|(Hn & ? & ? & ? & ? & ? & ? & ? & ? & ? & ? & ? & Hr)].
  - left. exists d, h, mi, se. split; [done|]. by eapply finals_reach.
  - right. split; [done|]. repeat eexists. by eapply reach_trans.
Qed.

Lemma first_clock_range : clock_range first_hour first_minute first_second.
Proof.
  pose proof (pl_hour e He). pose proof (pl_minute e He). pose proof (pl_second e He).
  pose proof (first_range (e_hour e) 24 23). pose proof (first_range (e_minute e) 60 59). pose proof (first_range (e_second e) 60 59).
  unfold clock_range, first_hour, first_minute, first_second, BT_MESH_SCHEDULER_ANY_HOUR, BT_MESH_SCHEDULER_ANY_MINUTE, BT_MESH_SCHEDULER_ANY_SECOND in *. lia.
Qed.

Lemma first_clock_matches : clock_matches e first_hour first_minute first_second.
Proof. split; [|split]; unfold first_hour, first_minute, first_second; apply first_matches. Qed.

Lemma first_clock_least h mi s : clock_range h mi s -> clock_matches e h mi s ->
  clock first_hour first_minute first_second <= clock h mi s.
Proof.
  intros (? & ? & ?) (Hh & Hmi & Hs). pose proof (first_least _ _ h ltac:(lia) Hh). pose proof (first_least _ _ mi ltac:(lia) Hmi).
  pose proof (first_least _ _ s ltac:(lia) Hs). unfold clock, first_hour, first_minute, first_second. lia.
Qed.

(** A day after the current one, with the first time of the day. *)
Lemma mon_next_day d :
  tm_mday cur < d <= month_days (tm_year cur) (tm_mon cur) -> day_matches e (tm_year cur) (tm_mon cur) d ->
  (forall d' h' mi' s', in_month d' h' mi' s' -> later_in_month d' h' mi' s' -> d <= d') ->
  mon_next d first_hour first_minute first_second.
Proof.
  intros Hd Hm Hl. pose proof (ok_mday cur Hcur). split; [|split].
  - split; [lia|]. split; [apply first_clock_range|]. split; [done|apply first_clock_matches].
  - left. lia.
  - intros d' h' mi' s' Hi Hla. specialize (Hl _ _ _ _ Hi Hla). destruct (decide (d = d')); [|lia]. right. split; [done|].
    apply first_clock_least; apply Hi.
Qed.

Lemma mon_next_today h mi s : day_matches e (tm_year cur) (tm_mon cur) (tm_mday cur) -> clock_next h mi s ->
  mon_next (tm_mday cur) h mi s.
Proof.
  intros Hd (Hr & Hm & Hgt & Hleast). pose proof (ok_mday cur Hcur) as Hok. split; [|split].
  - split; [exact Hok|]. done.
  - by right.
  - intros d' h' mi' s' (_ & Hr' & _ & Hm') [|[-> Hgt']]; [by left|]. right. split; [done|]. by apply Hleast.
Qed.

Lemma cur_year : 100 <= tm_year cur.
Proof. pose proof (ok_year cur Hcur). unfold TAI_START_YEAR, TM_START_YEAR in *. lia. Qed.

Lemma cur_mday : 1 <= tm_mday cur <= month_days (tm_year cur) (tm_mon cur).
Proof. exact (ok_mday cur Hcur). Qed.

(** Any day of the month, when nothing later is described before day [sd]. *)
Lemma day_any_later d h mi s w yd ds sy sm sd sh smi ss :
  e_day e = BT_MESH_SCHEDULER_ANY_DAY -> 1 <= sd <= month_days (tm_year cur) (tm_mon cur) ->
  tm_mday cur < next_day (tm_year cur) (tm_mon cur) sd ->
  (forall d' h' mi' s', in_month d' h' mi' s' -> later_in_month d' h' mi' s' -> sd <= d') ->
  mon_outcome 5 (St (T (tm_year cur) (tm_mon cur) d h mi s w yd ds) (I true sy sm sd sh smi ss)) DAY_STAGE sy sm.
Proof.
  intros E Hsd Hnext Hno. pose proof cur_year. pose proof (ok_mon cur Hcur) as Hmo.
  pose proof (day_any_eq _ _ d h mi s w yd ds true sy sm sd sh smi ss E cur_year Hmo Hsd) as Ed. cbv zeta in Ed. fold (next_day (tm_year cur) (tm_mon cur) sd) in Ed.
  destruct (next_day_spec (tm_year cur) (tm_mon cur) sd E) as (_ & Hm & Hl).
  assert (Hleast : forall d' h' mi' s', in_month d' h' mi' s' -> later_in_month d' h' mi' s' -> next_day (tm_year cur) (tm_mon cur) sd <= d').
  { intros d' h' mi' s' Hi Hla. apply Hl; [by eapply Hno|apply Hi]. }
  destruct (Z.ltb_spec (month_days (tm_year cur) (tm_mon cur)) (next_day (tm_year cur) (tm_mon cur) sd)) as [Hov|Hov]; cbn [andb] in Ed.
  - right. split.
    + intros d' h' mi' s' Hi Hla. specialize (Hleast _ _ _ _ Hi Hla). destruct Hi as (? & _). lia.
    + repeat eexists. econstructor; [exact Ed|constructor].
  - destruct (Z.eqb_spec (next_day (tm_year cur) (tm_mon cur) sd) (tm_mday cur)); [lia|]. left. eexists (next_day (tm_year cur) (tm_mon cur) sd), _, _, _.
    split; [apply mon_next_day; [lia|done|done]|]. eapply finals_step; [exact Ed|]. apply hour_fast; [done|lia].
Qed.

(** The current month from the current day on. *)
Lemma day_any_slow d h mi s w yd ds sy sm sh smi ss :
  e_day e = BT_MESH_SCHEDULER_ANY_DAY -> repeats ->
  mon_outcome 16 (St (T (tm_year cur) (tm_mon cur) d h mi s w yd ds) (I true sy sm (tm_mday cur) sh smi ss)) DAY_STAGE sy sm.
Proof.
  intros E Hrep. pose proof (ok_mon cur Hcur) as Hmo. pose proof cur_mday as Hd.
  assert (Hfrom : forall d' h' mi' s', in_month d' h' mi' s' -> later_in_month d' h' mi' s' -> tm_mday cur <= d') by (unfold later_in_month; lia).
  destruct (next_day_spec (tm_year cur) (tm_mon cur) (tm_mday cur) E) as (Hr & Hm & Hl).
  destruct (decide (next_day (tm_year cur) (tm_mon cur) (tm_mday cur) = tm_mday cur)) as [Eq|Ne].
  2:{ change 16%nat with (11 + 5)%nat. eapply mon_outcome_reach; [constructor|]. apply day_any_later; [done|exact Hd|lia|done]. }
  rewrite Eq in Hm. pose proof (day_any_eq _ _ d h mi s w yd ds true sy sm _ sh smi ss E cur_year Hmo Hd) as Ed. cbv zeta in Ed.
  fold (next_day (tm_year cur) (tm_mon cur) (tm_mday cur)) in Ed. rewrite Eq in Ed.
  destruct (Z.ltb_spec (month_days (tm_year cur) (tm_mon cur)) (tm_mday cur)); [lia|]. cbn [andb] in Ed. rewrite Z.eqb_refl in Ed.
  destruct (hour_slow h mi s (weekday (tm_year cur) (tm_mon cur) (tm_mday cur)) yd ds sy sm (tm_mday cur) smi ss Hrep)
    as [(h' & mi' & s' & Hn & Hf)|(Hn & H1 & H2)].
  - left. exists (tm_mday cur), h', mi', s'. split; [by apply mon_next_today|]. eapply finals_mono; [eapply finals_step; [exact Ed|exact Hf]|lia].
  - assert (Hafter : forall d' h' mi' s', in_month d' h' mi' s' -> later_in_month d' h' mi' s' -> tm_mday cur + 1 <= d').
    { intros d' h' mi' s' (_ & Hr' & _ & Hm') [|[_ Hgt]]; [lia|]. specialize (Hn _ _ _ Hr' Hm'). lia. }
    destruct (decide (tm_mday cur + 1 <= month_days (tm_year cur) (tm_mon cur))) as [Hv|Hv].
    + destruct (H1 Hv) as (d' & h' & mi' & s' & w' & yd' & ds' & sh' & smi' & ss' & Hreach).
      change 16%nat with (11 + 5)%nat. eapply mon_outcome_reach; [econstructor; [exact Ed|exact Hreach]|].
      destruct (next_day_spec (tm_year cur) (tm_mon cur) (tm_mday cur + 1) E) as (? & _). apply day_any_later; [done|lia|lia|done].
    + destruct H2 as (d' & h' & mi' & s' & w' & yd' & ds' & sd' & sh' & smi' & ss' & Hreach); [lia|]. right. split.
      * intros d'' h'' mi'' s'' Hi Hla. specialize (Hafter _ _ _ _ Hi Hla). destruct Hi as (? & _). lia.
      * repeat eexists. eapply reach_mono; [econstructor; [exact Ed|exact Hreach]|lia].
Qed.

(** With a given day: one round from the current day. *)
Lemma day_fixed_round d h mi s w yd ds sy sm sd sh smi ss :
  1 <= e_day e <= 28 -> e_day_of_week e = 127 -> (e_day e = tm_mday cur -> repeats) ->
  let c := St (T (tm_year cur) (tm_mon cur) d h mi s w yd ds) (I true sy sm sd sh smi ss) in
  mon_outcome 11 c DAY_STAGE sy sm \/
  (mon_none /\ sd + 1 <= month_days (tm_year cur) (tm_mon cur) /\ exists d h mi se w yd ds sh smi ss,
    reach 11 c DAY_STAGE (St (T (tm_year cur) (tm_mon cur) d h mi se w yd ds) (I true sy sm (sd + 1) sh smi ss)) DAY_STAGE).
Proof.
  intros Hd Hw Hrep c. pose proof (ok_mon cur Hcur) as Hmo. pose proof (month_days_range (tm_year cur) (tm_mon cur) Hmo) as Hmd.
  assert (Hday : forall d h mi s, in_month d h mi s -> d = e_day e)
    by (intros ???? (_ & _ & [[E|E] _] & _); [unfold BT_MESH_SCHEDULER_ANY_DAY in E; lia|done]).
  assert (Hdm : day_matches e (tm_year cur) (tm_mon cur) (e_day e)) by (split; [by right|by apply all_weekdays]).
  destruct (day_fixed_eq (tm_year cur) (tm_mon cur) d h mi s w yd ds true sy sm sd sh smi ss Hd Hw cur_year Hmo) as [w' Ed]. cbv zeta in Ed.
  destruct (Z.ltb_spec (e_day e) (tm_mday cur)) as [Hlt|Hge]; cbn [andb] in Ed.
  { left. right. split; [intros ???? Hi; rewrite (Hday _ _ _ _ Hi); unfold later_in_month; lia|]. repeat eexists. econstructor; [exact Ed|constructor]. }
  destruct (Z.eqb_spec (e_day e) (tm_mday cur)) as [Eq|Ne]; cycle 1.
  { left. left. eexists _, _, _, _. split; [apply (mon_next_day (e_day e)); [lia|done|intros ???? Hi _; rewrite (Hday _ _ _ _ Hi); lia]|].
    eapply finals_mono; [eapply finals_step; [exact Ed|apply hour_fast; [done|lia]]|lia]. }
  rewrite Eq in Ed. destruct (hour_slow h mi s w' yd ds sy sm sd smi ss (Hrep Eq)) as [(h' & mi' & s' & Hn & Hf)|(Hn & H1 & H2)].
  { left. left. exists (tm_mday cur), h', mi', s'. split; [apply mon_next_today; [by rewrite <- Eq|done]|]. eapply finals_step; [exact Ed|exact Hf]. }
  assert (Hnone : mon_none).
  { intros d' h' mi' s' Hi [|[_ Hgt]]; [rewrite (Hday _ _ _ _ Hi) in *; lia|]. destruct Hi as (_ & Hr & _ & Hm). specialize (Hn _ _ _ Hr Hm). lia. }
  destruct (decide (sd + 1 <= month_days (tm_year cur) (tm_mon cur))) as [Hv|Hv].
  - right. split; [done|]. split; [done|]. destruct (H1 Hv) as (d' & h' & mi' & s' & w'' & yd' & ds' & sh' & smi' & ss' & Hreach).
    repeat eexists. econstructor; [exact Ed|exact Hreach].
  - left. right. split; [done|]. destruct H2 as (d' & h' & mi' & s' & w'' & yd' & ds' & sd' & sh' & smi' & ss' & Hreach); [lia|].
    repeat eexists. econstructor; [exact Ed|exact Hreach].
Qed.

(** The rounds end with the last day of the month at the latest. *)
Lemma day_fixed_slow n d h mi s w yd ds sy sm sd sh smi ss :
  1 <= e_day e <= 28 -> e_day_of_week e = 127 -> (e_day e = tm_mday cur -> repeats) -> month_days (tm_year cur) (tm_mon cur) - sd <= Z.of_nat n ->
  mon_outcome (11 * S n) (St (T (tm_year cur) (tm_mon cur) d h mi s w yd ds) (I true sy sm sd sh smi ss)) DAY_STAGE sy sm.
Proof.
  intros Hd Hw Hrep. revert d h mi s w yd ds sd sh smi ss. induction n as [|n IH]; intros d h mi s w yd ds sd sh smi ss Hsd;
    destruct (day_fixed_round d h mi s w yd ds sy sm sd sh smi ss Hd Hw Hrep)
      as [H|(Hn & Hv & d' & h' & mi' & s' & w' & yd' & ds' & sh' & smi' & ss' & Hreach)].
  - exact H.
  - lia.
  - replace (11 * S (S n))%nat with (11 * S n + 11)%nat by lia. eapply mon_outcome_reach; [constructor|exact H].
  - replace (11 * S (S n))%nat with (11 + 11 * S n)%nat by lia. eapply mon_outcome_reach; [exact Hreach|]. apply IH. lia.
Qed.

Lemma day_slow d h mi s w yd ds sy sm sh smi ss :
  (e_day e = BT_MESH_SCHEDULER_ANY_DAY \/ e_day e = tm_mday cur -> repeats) ->
  mon_outcome 352 (St (T (tm_year cur) (tm_mon cur) d h mi s w yd ds) (I true sy sm (tm_mday cur) sh smi ss)) DAY_STAGE sy sm.
Proof.
  intros Hrep. destruct (pl_day e He) as [E|[Hd Hw]].
  - change 352%nat with (336 + 16)%nat. eapply mon_outcome_reach; [constructor|]. apply day_any_slow; [done|tauto].
  - change 352%nat with (11 * 32)%nat. apply day_fixed_slow; [done|done|tauto|]. pose proof (ok_mday cur Hcur).
    pose proof (month_days_range (tm_year cur) (tm_mon cur) (ok_mon cur Hcur)). lia.
Qed.

(** *** Months and years *)

Lemma month_stage y mo d h mi s w yd ds c sy sm sd sh smi ss : 0 <= sm <= 12 ->
  let st := St (T y mo d h mi s w yd ds) (I c sy sm sd sh smi ss) in
  (exists m, sm <= m < 12 /\ Z.testbit (e_month e) m = true /\ (forall i, sm <= i < m -> Z.testbit (e_month e) i = false) /\
    let c' := (m =? tm_mon cur) && (y =? tm_year cur) in
    handlers cur MONTH_STAGE st =
      Ok (St (T y m d h mi s w yd ds) (I c' sy sm (if c' then tm_mday cur else 1) sh smi ss), DAY_STAGE)) \/
  ((forall i, sm <= i < 12 -> Z.testbit (e_month e) i = false) /\
    handlers cur MONTH_STAGE st = Ok (St (T y mo d h mi s w yd ds) (I c (sy + 1) sm sd sh smi ss), YEAR_STAGE)).
Proof.
  intros Hsm st. pose proof (pl_month e He) as Hm. cbn [handlers]. unfold month_handler. cbn [st St entry info I start_month].
  set (x := Z.land (e_month e) (Z.shiftl (BIT_MASK 12) sm)).
  assert (Hx : forall i, sm <= i -> Z.testbit x i = Z.testbit (e_month e) i).
  { intros i Hi. unfold x. change (BIT_MASK 12) with (Z.ones 12). rewrite Z.land_spec, Z.shiftl_spec by lia.
    destruct (decide (i - sm < 12)); [by rewrite Z.ones_spec_low, andb_true_r by lia|].
    by rewrite (bits_testbit_high 12 (e_month e)) by (lia || split; lia). }
  assert (Hlow : forall i, 0 <= i < sm -> Z.testbit x i = false).
  { intros i Hi. unfold x. rewrite Z.land_spec, Z.shiftl_spec_low, andb_false_r by lia. done. }
  assert (Hr : 0 <= x < 2 ^ 12) by (apply (bits_land 12); [lia|split; lia]).
  destruct (Z.eqb_spec x 0) as [E0|E0].
  - right. split; [|reflexivity]. intros i Hi. rewrite <- Hx, E0 by lia. apply Z.bits_0.
  - left. destruct (count_trailing_zeros_spec x) as (Hc & Hb & Hl); [lia|]. set (m := u32_count_trailing_zeros x) in *.
    assert (sm <= m) by (destruct (Z_lt_ge_dec m sm); [rewrite Hlow in Hb by lia; done|lia]).
    assert (m < 12) by (destruct (Z_lt_ge_dec m 12); [done|rewrite (bits_testbit_high 12 x) in Hb by (done || lia); done]).
    exists m. split; [lia|]. split; [by rewrite <- Hx|]. split; [|reflexivity]. intros i Hi. rewrite <- Hx by lia. apply Hl. lia.
Qed.

(** The year that the entry describes from the current one on. *)
Definition entry_year : Z := tm_year cur + (e_year e - tm_year cur) mod 100.

Lemma year_any y mo d h mi s w yd ds c sy sm sd sh smi ss : e_year e = BT_MESH_SCHEDULER_ANY_YEAR ->
  handlers cur YEAR_STAGE (St (T y mo d h mi s w yd ds) (I c sy sm sd sh smi ss)) =
    Ok (St (T sy mo d h mi s w yd ds) (I c sy (if sy =? tm_year cur then tm_mon cur else 0) sd sh smi ss), MONTH_STAGE).
Proof. intros E. cbn [handlers]. unfold year_handler. cbn [St entry info I start_year]. rewrite E, Z.eqb_refl, andb_false_r. reflexivity. Qed.

Lemma year_fixed y mo d h mi s w yd ds c sm sd sh smi ss : e_year e <> BT_MESH_SCHEDULER_ANY_YEAR ->
  handlers cur YEAR_STAGE (St (T y mo d h mi s w yd ds) (I c (tm_year cur) sm sd sh smi ss)) =
    Ok (St (T entry_year mo d h mi s w yd ds)
          (I c (tm_year cur) (if entry_year =? tm_year cur then tm_mon cur else 0) sd sh smi ss), MONTH_STAGE).
Proof.
  intros E. cbn [handlers]. unfold year_handler. cbn [St entry info I start_year]. rewrite Z.eqb_refl. cbn [negb andb].
  destruct (Z.eqb_spec (e_year e) BT_MESH_SCHEDULER_ANY_YEAR); [done|]. pose proof cur_year. pose proof (pl_year e He).
  unfold BT_MESH_SCHEDULER_ANY_YEAR in *. rewrite Z.rem_mod_nonneg by lia. pose proof (Z.mod_pos_bound (tm_year cur) 100).
  rewrite (u8_small (_ mod _)) by lia. replace (u8 _) with ((e_year e - tm_year cur) mod 100); [reflexivity|].
  rewrite u8_small by (destruct (Z.leb_spec (tm_year cur mod 100) (e_year e)); lia).
  destruct (Z.leb_spec (tm_year cur mod 100) (e_year e)); Z.to_euclidean_division_equations; lia.
Qed.

Lemma year_error y mo d h mi s w yd ds c sy sm sd sh smi ss : e_year e <> BT_MESH_SCHEDULER_ANY_YEAR -> sy <> tm_year cur ->
  handlers cur YEAR_STAGE (St (T y mo d h mi s w yd ds) (I c sy sm sd sh smi ss)) =
    Ok (St (T y mo d h mi s w yd ds) (I c sy sm sd sh smi ss), ERROR_STAGE).
Proof.
  intros E Hs. cbn [handlers]. unfold year_handler. cbn [St entry info I start_year].
  destruct (Z.eqb_spec sy (tm_year cur)); [done|]. destruct (Z.eqb_spec (e_year e) BT_MESH_SCHEDULER_ANY_YEAR); [done|]. reflexivity.
Qed.

(** *** The first point in time *)

Definition described (y mo d h mi s : Z) : Prop :=
  100 <= y /\ 0 <= mo < 12 /\ 1 <= d <= month_days y mo /\ clock_range h mi s /\
  date_matches e y mo d /\ clock_matches e h mi s /\ (e_year e = BT_MESH_SCHEDULER_ANY_YEAR \/ y < tm_year cur + 100).
Definition before (y mo d k y' mo' d' k' : Z) : Prop :=
  y < y' \/ y = y' /\ (mo < mo' \/ mo = mo' /\ (d < d' \/ d = d' /\ k < k')).
Definition after_cur (y mo d h mi s : Z) : Prop :=
  before (tm_year cur) (tm_mon cur) (tm_mday cur) cur_clock y mo d (clock h mi s).

Definition best (y mo d h mi s : Z) : Prop :=
  described y mo d h mi s /\ after_cur y mo d h mi s /\
  forall y' mo' d' h' mi' s', described y' mo' d' h' mi' s' -> after_cur y' mo' d' h' mi' s' ->
    ~ before y' mo' d' (clock h' mi' s') y mo d (clock h mi s).
Definition nothing : Prop := forall y mo d h mi s, described y mo d h mi s -> ~ after_cur y mo d h mi s.

Definition ends (k : nat) (c : conv) (s : stage) : Prop :=
  (exists y mo d h mi se, best y mo d h mi se /\ finals k c s y mo d h mi se) \/
  (nothing /\ exists t i, reach k c s (St t i) ERROR_STAGE).

Lemma ends_reach k k' c s c1 s1 : reach k c s c1 s1 -> ends k' c1 s1 -> ends (k + k') c s.
Proof.
  intros E [(y & mo & d & h & mi & se & Hb & Hf)|(Hn & t & i & Hr)].
  - left. exists y, mo, d, h, mi, se. split; [done|]. by eapply finals_reach.
  - right. split; [done|]. exists t, i. by eapply reach_trans.
Qed.

Lemma ends_step k c s c1 s1 : handlers cur s c = Ok (c1, s1) -> ends k c1 s1 -> ends (S k) c s.
Proof. intros E H. change (S k) with (1 + k)%nat. eapply ends_reach; [|exact H]. econstructor; [exact E|constructor]. Qed.

Lemma ends_mono k k' c s : ends k c s -> (k <= k')%nat -> ends k' c s.
Proof. intros H Hk. replace k' with (k' - k + k)%nat by lia. eapply ends_reach; [constructor|exact H]. Qed.

(** The first day of the first month from [sm] on, when nothing is before it. *)
Lemma month_best y sm m :
  100 <= y -> 0 <= sm <= m -> m < 12 -> year_matches e y -> e_year e = BT_MESH_SCHEDULER_ANY_YEAR \/ y < tm_year cur + 100 ->
  Z.testbit (e_month e) m = true -> (forall i, sm <= i < m -> Z.testbit (e_month e) i = false) ->
  tm_year cur < y \/ tm_year cur = y /\ tm_mon cur < m ->
  (forall y' mo' d' h' mi' s', described y' mo' d' h' mi' s' -> after_cur y' mo' d' h' mi' s' -> y < y' \/ y = y' /\ sm <= mo') ->
  best y m (first_day y m) first_hour first_minute first_second.
Proof.
  intros Hy Hsm Hm Hym Hwin Hb Hl Hafter Hno. destruct (first_day_spec y m) as (Hd & Hdm & Hdl); [lia|]. split; [|split].
  - split; [done|]. split; [lia|]. split; [done|]. split; [apply first_clock_range|]. split; [done|]. split; [apply first_clock_matches|done].
  - unfold after_cur, before. lia.
  - intros y' mo' d' h' mi' s' Hdes Haf Hbef. specialize (Hno _ _ _ _ _ _ Hdes Haf).
    destruct Hdes as (_ & _ & Hd' & Hr' & (_ & Hb' & Hdm') & Hm' & _).
    assert (Hmo : y' = y -> m <= mo') by (intros ->; destruct (Z_lt_ge_dec mo' m); [rewrite Hl in Hb' by lia; done|lia]).
    assert (Hday : y' = y -> mo' = m -> first_day y m <= d') by (intros -> ->; apply Hdl; [lia|done]).
    pose proof (first_clock_least _ _ _ Hr' Hm'). unfold before in Hbef. lia.
Qed.

(** The months behind the current one. *)
Lemma month_later y mo d h mi s w yd ds c sy sm sd sh smi ss :
  100 <= y -> 0 <= sm <= 12 -> year_matches e y -> e_year e = BT_MESH_SCHEDULER_ANY_YEAR \/ y < tm_year cur + 100 ->
  tm_year cur < y \/ tm_year cur = y /\ tm_mon cur < sm ->
  (forall y' mo' d' h' mi' s', described y' mo' d' h' mi' s' -> after_cur y' mo' d' h' mi' s' -> y < y' \/ y = y' /\ sm <= mo') ->
  let st := St (T y mo d h mi s w yd ds) (I c sy sm sd sh smi ss) in
  ends 6 st MONTH_STAGE \/
  ((forall i, sm <= i < 12 -> Z.testbit (e_month e) i = false) /\
    handlers cur MONTH_STAGE st = Ok (St (T y mo d h mi s w yd ds) (I c (sy + 1) sm sd sh smi ss), YEAR_STAGE)).
Proof.
  intros Hy Hsm Hym Hwin Hlater Hno st.
  destruct (month_stage y mo d h mi s w yd ds c sy sm sd sh smi ss Hsm) as [(m & Hm & Hb & Hl & E)|H]; [|by right].
  left. left. eexists _, _, _, _, _, _. split; [apply (month_best y sm m); [done|lia|lia|done..|lia|done]|]. cbv zeta in E.
  assert (Hne : (m =? tm_mon cur) && (y =? tm_year cur) = false).
  { apply andb_false_iff. destruct Hlater; [right|left]; apply Z.eqb_neq; lia. }
  rewrite Hne in E. eapply finals_step; [exact E|]. apply day_fast; lia.
Qed.

Lemma some_month : exists i, 0 <= i < 12 /\ Z.testbit (e_month e) i = true.
Proof.
  pose proof (pl_month e He) as Hm. destruct (count_trailing_zeros_spec (e_month e)) as (Hr & Hb & _); [lia|].
  exists (u32_count_trailing_zeros (e_month e)). split; [|done]. destruct (Z_lt_ge_dec (u32_count_trailing_zeros (e_month e)) 12); [lia|].
  rewrite (bits_testbit_high 12) in Hb by (lia || split; lia). done.
Qed.

(** A year behind the current one. *)
Lemma month_of_later_year y mo d h mi s w yd ds c sy sd sh smi ss :
  tm_year cur < y -> year_matches e y -> e_year e = BT_MESH_SCHEDULER_ANY_YEAR \/ y < tm_year cur + 100 ->
  (forall y' mo' d' h' mi' s', described y' mo' d' h' mi' s' -> after_cur y' mo' d' h' mi' s' -> y <= y') ->
  ends 6 (St (T y mo d h mi s w yd ds) (I c sy 0 sd sh smi ss)) MONTH_STAGE.
Proof.
  intros Hy Hym Hwin Hno. pose proof cur_year.
  destruct (month_later y mo d h mi s w yd ds c sy 0 sd sh smi ss) as [|[Hz _]]; [lia|lia|done|done|by left| |done|].
  - intros y' mo' d' h' mi' s' Hd Ha. specialize (Hno _ _ _ _ _ _ Hd Ha). destruct Hd as (_ & ? & _). lia.
  - destruct some_month as (i & Hi & Hb). rewrite Hz in Hb by lia. done.
Qed.

(** Nothing is left in the current year. *)
Lemma year_over y mo d h mi s w yd ds c sm sd sh smi ss :
  (forall y' mo' d' h' mi' s', described y' mo' d' h' mi' s' -> after_cur y' mo' d' h' mi' s' -> tm_year cur < y') ->
  year_matches e (tm_year cur) ->
  ends 7 (St (T y mo d h mi s w yd ds) (I c (tm_year cur + 1) sm sd sh smi ss)) YEAR_STAGE.
Proof.
  intros Hno Hym. destruct (decide (e_year e = BT_MESH_SCHEDULER_ANY_YEAR)) as [E|E].
  - eapply ends_step; [by apply year_any|]. destruct (Z.eqb_spec (tm_year cur + 1) (tm_year cur)); [lia|].
    apply month_of_later_year; [lia|by left|by left|]. intros. assert (tm_year cur < y') by eauto. lia.
  - right. split; [|eexists _, _; econstructor; [apply year_error; [done|lia]|constructor]].
    intros y' mo' d' h' mi' s' Hd Ha. specialize (Hno _ _ _ _ _ _ Hd Ha). destruct Hd as (_ & _ & _ & _ & (Hy & _) & _ & Hwin).
    destruct Hym as [|Hym]; [done|]. destruct Hy as [|Hy]; [done|]. destruct Hwin as [|Hwin]; [done|].
    rewrite <- Hym in Hy. Z.to_euclidean_division_equations. lia.
Qed.

(** The current year behind the current month. *)
Lemma month_next_ends mo d h mi s w yd ds c sd sh smi ss :
  (forall y' mo' d' h' mi' s', described y' mo' d' h' mi' s' -> after_cur y' mo' d' h' mi' s' ->
    tm_year cur < y' \/ tm_year cur = y' /\ tm_mon cur + 1 <= mo') ->
  year_matches e (tm_year cur) ->
  ends 8 (St (T (tm_year cur) mo d h mi s w yd ds) (I c (tm_year cur) (tm_mon cur + 1) sd sh smi ss)) MONTH_STAGE.
Proof.
  intros Hno Hym. pose proof (ok_mon cur Hcur). pose proof cur_year.
  destruct (month_later (tm_year cur) mo d h mi s w yd ds c (tm_year cur) (tm_mon cur + 1) sd sh smi ss) as [H1|[Hz E]];
    [lia|lia|done|right; lia|right; lia|done|eapply ends_mono; [exact H1|lia]|].
  eapply ends_step; [exact E|]. apply year_over; [|done]. intros y' mo' d' h' mi' s' Hd Ha. specialize (Hno _ _ _ _ _ _ Hd Ha).
  destruct Hno as [|[-> Hle]]; [done|]. destruct Hd as (_ & Hmo & _ & _ & (_ & Hb & _) & _). rewrite Hz in Hb by lia. done.
Qed.

(** The current month. *)
Lemma day_slow_ends d h mi s w yd ds sh smi ss :
  Z.testbit (e_month e) (tm_mon cur) = true -> year_matches e (tm_year cur) ->
  (date_matches e (tm_year cur) (tm_mon cur) (tm_mday cur) -> repeats) ->
  ends 360 (St (T (tm_year cur) (tm_mon cur) d h mi s w yd ds) (I true (tm_year cur) (tm_mon cur) (tm_mday cur) sh smi ss)) DAY_STAGE.
Proof.
  intros Hb Hym Hrep. pose proof (ok_mon cur Hcur). pose proof cur_year.
  destruct (day_slow d h mi s w yd ds (tm_year cur) (tm_mon cur) sh smi ss)
    as [(d' & h' & mi' & s' & (Hin & Hla & Hl) & Hf)|(Hn & d' & h' & mi' & s' & w' & yd' & ds' & sd' & sh' & smi' & ss' & Hr)].
  - intros [E|E]; [by left|]. apply Hrep. split; [done|]. split; [done|]. destruct (pl_day e He) as [E0|[Hd Hw]].
    + unfold BT_MESH_SCHEDULER_ANY_DAY in E0. pose proof cur_mday. lia.
    + split; [by right|by apply all_weekdays].
  - left. eexists _, _, _, _, _, _. split; [|eapply finals_mono; [exact Hf|lia]]. destruct Hin as (H1 & H2 & H3 & H4). split; [|split].
    + split; [done|]. split; [done|]. split; [done|]. split; [done|]. split; [done|]. split; [done|]. right. lia.
    + unfold after_cur, before. unfold later_in_month in Hla. lia.
    + intros y2 mo2 d2 h2 mi2 s2 (_ & _ & Hd2 & Hr2 & (_ & _ & Hdm2) & Hm2 & _) Ha Hbef. unfold after_cur, before in *.
      assert (Heq : y2 = tm_year cur /\ mo2 = tm_mon cur) by lia. destruct Heq as [-> ->].
      specialize (Hl d2 h2 mi2 s2). unfold in_month, later_in_month in Hl. destruct Hl; [done|lia|lia|lia].
  - change 360%nat with (352 + 8)%nat. eapply ends_reach; [exact Hr|]. apply month_next_ends; [|done].
    intros y2 mo2 d2 h2 mi2 s2 (_ & _ & Hd2 & Hr2 & (_ & _ & Hdm2) & Hm2 & _) Ha. destruct (decide (y2 = tm_year cur /\ mo2 = tm_mon cur)) as [[-> ->]|];
      [|unfold after_cur, before in Ha; lia].
    exfalso. apply (Hn d2 h2 mi2 s2); [done|]. unfold after_cur, before in Ha. unfold later_in_month. lia.
Qed.

Lemma month_cur_ends mo d h mi s w yd ds c sd sh smi ss :
  year_matches e (tm_year cur) -> (date_matches e (tm_year cur) (tm_mon cur) (tm_mday cur) -> repeats) ->
  ends 361 (St (T (tm_year cur) mo d h mi s w yd ds) (I c (tm_year cur) (tm_mon cur) sd sh smi ss)) MONTH_STAGE.
Proof.
  intros Hym Hrep. pose proof (ok_mon cur Hcur) as Hmo. pose proof cur_year.
  assert (Hno : forall y' mo' d' h' mi' s', described y' mo' d' h' mi' s' -> after_cur y' mo' d' h' mi' s' ->
    tm_year cur < y' \/ tm_year cur = y' /\ tm_mon cur <= mo') by (intros; unfold after_cur, before in *; lia).
  destruct (month_stage (tm_year cur) mo d h mi s w yd ds c (tm_year cur) (tm_mon cur) sd sh smi ss) as [(m & Hm & Hb & Hl & E)|[Hz E]]; [lia|..].
  - cbv zeta in E. rewrite Z.eqb_refl, andb_true_r in E. destruct (Z.eqb_spec m (tm_mon cur)) as [->|Hne].
    + eapply ends_step; [exact E|]. by apply day_slow_ends.
    + left. eexists _, _, _, _, _, _. split; [apply (month_best (tm_year cur) (tm_mon cur) m); [done|lia|lia|done|right; lia|done|done|right; lia|done]|].
      eapply finals_mono; [eapply finals_step; [exact E|apply day_fast; lia]|lia].
  - eapply ends_mono; [eapply ends_step; [exact E|apply year_over; [|done]]|lia]. intros y' mo' d' h' mi' s' Hd Ha.
    destruct (Hno _ _ _ _ _ _ Hd Ha) as [|[-> ?]]; [done|]. destruct Hd as (_ & ? & _ & _ & (_ & Hb & _) & _). rewrite Hz in Hb by lia. done.
Qed.

(** The whole run. *)
Lemma run_ends y mo d h mi s w yd ds :
  (date_matches e (tm_year cur) (tm_mon cur) (tm_mday cur) -> repeats) ->
  ends 362 (St (T y mo d h mi s w yd ds) (I false (tm_year cur) 0 0 0 0 0)) YEAR_STAGE.
Proof.
  intros Hrep. pose proof cur_year. pose proof (pl_year e He) as Hye. destruct (decide (e_year e = BT_MESH_SCHEDULER_ANY_YEAR)) as [E|E].
  - eapply ends_step; [by apply year_any|]. rewrite Z.eqb_refl. apply month_cur_ends; [by left|done].
  - eapply ends_step; [by apply year_fixed|]. pose proof (Z.mod_pos_bound (e_year e - tm_year cur) 100).
    assert (Hym : year_matches e entry_year).
    { right. unfold entry_year, BT_MESH_SCHEDULER_ANY_YEAR in *. rewrite Zplus_mod_idemp_r.
      replace (tm_year cur + (e_year e - tm_year cur)) with (e_year e) by lia. apply Z.mod_small. lia. }
    destruct (Z.eqb_spec entry_year (tm_year cur)) as [Eq|Ne].
    + rewrite Eq in Hym. rewrite Eq. by apply month_cur_ends.
    + eapply ends_mono; [apply month_of_later_year; [unfold entry_year in *; lia|done|right; unfold entry_year; lia|]|lia].
      intros y' mo' d' h' mi' s' (_ & _ & _ & _ & ([|Hy'] & _) & _ & [|Hwin]) Ha; [done..|].
      assert (Hge : tm_year cur <= y') by (unfold after_cur, before in Ha; lia). destruct Hym as [|Hym]; [done|].
      unfold entry_year in *. rewrite <- Hy' in *. Z.to_euclidean_division_equations. lia.
Qed.

End Run.

(** Dates by their fields. *)
Lemma seconds_before a b : date_ok a -> date_ok b ->
  seconds a < seconds b <->
  before (tm_year a) (tm_mon a) (tm_mday a) (clock (tm_hour a) (tm_min a) (tm_sec a))
         (tm_year b) (tm_mon b) (tm_mday b) (clock (tm_hour b) (tm_min b) (tm_sec b)).
Proof.
  intros Ha Hb. rewrite seconds_lt by done. destruct Ha as [_ _ _ ? ? ?], Hb as [_ _ _ ? ? ?].
  unfold day_lt, same_day, clock_lt, before, clock. lia.
Qed.

(** With the last two digits of a year, the next hundred years are meant. *)
Definition in_window (e : bt_mesh_schedule_entry) (cur t : tm) : Prop :=
  e_year e = BT_MESH_SCHEDULER_ANY_YEAR \/ tm_year t < tm_year cur + 100.

Lemma described_date e cur t : date_ok t -> matches e t -> in_window e cur t ->
  described cur e (tm_year t) (tm_mon t) (tm_mday t) (tm_hour t) (tm_min t) (tm_sec t).
Proof. intros [Hy Hm Hd H1 H2 H3] [Hdm Hcm] Hw. unfold TAI_START_YEAR, TM_START_YEAR in Hy. split; [lia|]. by repeat (split; [done|]). Qed.

Lemma conversion_finds `{MeshStack} cur e t0 i0 r :
  date_ok cur -> plain e ->
  e_day e = BT_MESH_SCHEDULER_ANY_DAY \/ e_hour e = BT_MESH_SCHEDULER_ANY_HOUR \/
    e_minute e = BT_MESH_SCHEDULER_ANY_MINUTE \/ e_second e = BT_MESH_SCHEDULER_ANY_SECOND \/ ~ matches e cur ->
  exists t i found,
    convert_scheduler_time_to_tm cur {| sched_time := t0; entry := e; info := i0; rands := r |} =
      Ok ({| sched_time := t; entry := e; info := i; rands := r |}, found) /\
    if found then
      date_ok t /\ matches e t /\ in_window e cur t /\ seconds cur < seconds t /\
      forall t', date_ok t' -> matches e t' -> in_window e cur t' -> seconds cur < seconds t' -> seconds t <= seconds t'
    else forall t', date_ok t' -> matches e t' -> in_window e cur t' -> seconds t' <= seconds cur.
Proof.
  intros Hcur He Hrep. unfold convert_scheduler_time_to_tm. cbn [entry].
  pose proof (pl_month e He). pose proof (pl_weekday e He).
  destruct (Z.eqb_spec (e_month e) 0); [lia|]. destruct (Z.eqb_spec (e_day_of_week e) 0); [lia|].
  destruct t0 as [s0 mi0 h0 d0 mo0 y0 w0 yd0 ds0].
  destruct (run_ends cur e r He Hcur y0 mo0 d0 h0 mi0 s0 w0 yd0 ds0) as [(y & mo & d & h & mi & s & Hb & w & yd & ds & i & Hr)|(Hn & t & i & Hr)].
  - intros Hd. unfold repeats. destruct Hrep as [|[|[|[|Hno]]]]; try tauto. right. right. right. right. intros Hc. apply Hno. by split.
  - exists (T y mo d h mi s w yd ds), i, true.
    split; [exact (reach_loop cur _ _ _ _ _ Hr (or_introl eq_refl) CONVERT_FUEL ltac:(vm_compute; lia))|].
    destruct Hb as ((Hy & Hmo & Hd & (Hh & Hmi & Hsec) & Hdm & Hcm & Hw) & Haf & Hl).
    assert (Hok : date_ok (T y mo d h mi s w yd ds)) by (split; cbn; [unfold TAI_START_YEAR, TM_START_YEAR; lia|done..]).
    split; [done|]. split; [by split|]. split; [done|]. split; [by apply seconds_before|]. intros t' Hok' Hm' Hw' Hs'.
    destruct (Z_lt_ge_dec (seconds t') (seconds (T y mo d h mi s w yd ds))) as [Hlt|]; [|lia]. exfalso.
    apply seconds_before in Hlt; [|done|done]. apply seconds_before in Hs'; [|done|done].
    eapply Hl; [by apply described_date|exact Hs'|exact Hlt].
  - exists t, i, false.
    split; [exact (reach_loop cur _ _ _ _ _ Hr (or_intror eq_refl) CONVERT_FUEL ltac:(vm_compute; lia))|].
    intros t' Hok' Hm' Hw'. destruct (Z_lt_ge_dec (seconds cur) (seconds t')) as [Hlt|]; [|lia]. exfalso.
    apply seconds_before in Hlt; [|done|done]. eapply Hn; [by apply described_date|exact Hlt].
Qed.

(** C25: The search for the next point in time that an entry of the schedule
    register describes always ends; it leaves the entry as it is, and finds the
    first one after the current local time, or that there is none; for an entry with
    a year, within the hundred years the two digits can mean. This holds for entries
    of plain values and wild cards (no random values, and not every 15 or 20 minutes
    or seconds), with a day that every month has and that is not combined with days
    of the week, unless the current time itself is described by an entry without
    wild card from the day to the second. *)
Theorem next_time_found `{MeshStack} cur e t0 i0 r :
  date_ok cur -> plain e ->
  e_day e = BT_MESH_SCHEDULER_ANY_DAY \/ e_hour e = BT_MESH_SCHEDULER_ANY_HOUR \/
    e_minute e = BT_MESH_SCHEDULER_ANY_MINUTE \/ e_second e = BT_MESH_SCHEDULER_ANY_SECOND \/ ~ matches e cur ->
  exists t i found,
    convert_scheduler_time_to_tm cur {| sched_time := t0; entry := e; info := i0; rands := r |} =
      Ok ({| sched_time := t; entry := e; info := i; rands := r |}, found) /\
    if found then
      date_ok t /\ matches e t /\ in_window e cur t /\ seconds cur < seconds t /\
      forall t', date_ok t' -> matches e t' -> in_window e cur t' -> seconds cur < seconds t' -> seconds t <= seconds t'
    else forall t', date_ok t' -> matches e t' -> in_window e cur t' -> seconds t' <= seconds cur.
Proof. apply conversion_finds. Qed.
