(* ===== verification/MeshSchedSrv.v ===== *)
(** * The Scheduler Server carries out what its register describes

    The server is related to an abstract scheduler that knows, for each entry, the
    last second that was dealt with: the work item always waits for the first
    second that some entry describes behind it, so that every point in time that an
    entry describes is acted on, in order and once. *)

From stdpp Require Import prelude list.
From Stdlib Require Import ZArith Lia.
From S2P Require Import Prelude Digits MeshTime MeshTimeSpec MeshSched MeshSchedSpec.

Open Scope Z_scope.

(** ** Messages *)

(** An entry of the width that a message has for its fields. *)
Record entry_bits (e : bt_mesh_schedule_entry) : Prop := {
  eb_year : bits 7 (e_year e);
  eb_month : bits 12 (e_month e);
  eb_day : bits 5 (e_day e);
  eb_hour : bits 5 (e_hour e);
  eb_minute : bits 6 (e_minute e);
  eb_second : bits 6 (e_second e);
  eb_weekday : bits 7 (e_day_of_week e);
  eb_action : bits 4 (e_action e);
  eb_transition : bits 8 (e_transition_time e);
  eb_scene : bits 16 (e_scene_number e)
}.

Lemma land_mask x n : 0 <= n -> Z.land x (BIT_MASK n) = x mod 2 ^ n.
Proof. intros Hn. unfold BIT_MASK, BIT. rewrite Z.shiftl_1_l. change (2 ^ n - 1) with (Z.pred (2 ^ n)). rewrite <- Z.ones_equiv. by apply Z.land_ones. Qed.

(** A field of [n] bits at bit [k]. *)
Lemma field_of x a f b k n : x = a + 2 ^ k * (f + 2 ^ n * b) -> 0 <= k -> 0 <= n -> 0 <= a < 2 ^ k -> 0 <= f < 2 ^ n -> x / 2 ^ k mod 2 ^ n = f.
Proof.
  intros -> Hk Hn Ha Hf. rewrite (Z.mul_comm (2 ^ k)), Z.div_add, (Z.div_small a), Z.add_0_l by lia.
  rewrite (Z.mul_comm (2 ^ n)), Z.mod_add by lia. by apply Z.mod_small.
Qed.

Section Coding.
Context {MB : MeshBuf}.

Lemma action_unpack_pack i e l : bits 4 i -> entry_bits e -> scheduler_action_unpack (scheduler_action_pack [] i e ++ l) = (i, e, l).
Proof.
  intros Hi [H1 H2 H3 H4 H5 H6 H7 H8 H9 H10]. unfold scheduler_action_pack. rewrite add_le16_spec, !add_le32_spec, <- !app_assoc.
  unfold scheduler_action_unpack. cbn [app]. rewrite pull_le32_spec, pull_le32_spec, pull_le16_spec by apply length_digits.
  rewrite !value_digits by lia. change (8 * Z.of_nat 4) with 32. change (8 * Z.of_nat 2) with 16.
  unfold u32. rewrite !Z.mod_mod by done. rewrite !land_mask by lia. unfold bits in *.
  rewrite (Z.mod_small (e_year e)), (Z.mod_small (e_month e)), (Z.mod_small (e_day e)), (Z.mod_small (e_hour e)), (Z.mod_small (e_minute e)),
    (Z.mod_small (e_second e)), (Z.mod_small (e_day_of_week e)), (Z.mod_small (e_action e)), (Z.mod_small (e_transition_time e)),
    (Z.mod_small (e_scene_number e)), (Z.mod_small i) by done.
  rewrite !Z.shiftr_div_pow2 by lia.
  assert (Hh : exists hl hb, e_hour e = hl + 16 * hb /\ 0 <= hl < 16 /\ 0 <= hb < 2).
  { exists (e_hour e mod 16), (e_hour e / 16). Z.to_euclidean_division_equations. lia. }
  destruct Hh as (hl & hb & Eh & Hl & Hb). replace (e_hour e / 2 ^ 4 mod 2 ^ 1) with hb by (rewrite Eh; Z.to_euclidean_division_equations; lia).
  rewrite (lor_shiftl_add i), (lor_shiftl_add (i + _)), (lor_shiftl_add (i + _ + _)), (lor_shiftl_add (i + _ + _ + _)) by (unfold bits; lia).
  rewrite (lor_shiftl_add hb), (lor_shiftl_add (hb + _)), (lor_shiftl_add (hb + _ + _)), (lor_shiftl_add (hb + _ + _ + _)),
    (lor_shiftl_add (hb + _ + _ + _ + _)) by (unfold bits; lia).
  set (x := (_ + e_hour e * 2 ^ 28) mod 2 ^ 32).
  assert (Ex : x = i + e_year e * 2 ^ 4 + e_month e * 2 ^ 11 + e_day e * 2 ^ 23 + hl * 2 ^ 28).
  { subst x. rewrite Eh. replace (_ + (hl + 16 * hb) * 2 ^ 28) with (i + e_year e * 2 ^ 4 + e_month e * 2 ^ 11 + e_day e * 2 ^ 23 + hl * 2 ^ 28 + hb * 2 ^ 32) by lia.
    rewrite Z.mod_add by lia. apply Z.mod_small. lia. }
  rewrite (Z.mod_small (hb + _ + _ + _ + _ + _)) by lia. set (y := hb + _ + _ + _ + _ + _).
  f_equal. f_equal; [rewrite Ex; Z.to_euclidean_division_equations; lia|]. destruct e as [e1 e2 e3 e4 e5 e6 e7 e8 e9 e10]. cbn [e_year e_month e_day e_hour e_minute e_second e_day_of_week e_action e_transition_time e_scene_number] in *.
  f_equal.
  - apply (field_of x i e1 (e2 + e3 * 2 ^ 12 + hl * 2 ^ 17) 4 7); lia.
  - apply (field_of x (i + e1 * 2 ^ 4) e2 (e3 + hl * 2 ^ 5) 11 12); lia.
  - apply (field_of x (i + e1 * 2 ^ 4 + e2 * 2 ^ 11) e3 hl 23 5); lia.
  - assert (Ey : y mod 2 ^ 1 = hb) by (subst y; Z.to_euclidean_division_equations; lia).
    assert (El : x / 2 ^ 28 = hl) by (rewrite Ex; Z.to_euclidean_division_equations; lia).
    rewrite El, Ey, lor_shiftl_add by (unfold bits; lia). lia.
  - apply (field_of y hb e5 (e6 + e7 * 2 ^ 6 + e8 * 2 ^ 13 + e9 * 2 ^ 17) 1 6); lia.
  - apply (field_of y (hb + e5 * 2 ^ 1) e6 (e7 + e8 * 2 ^ 7 + e9 * 2 ^ 11) 7 6); lia.
  - apply (field_of y (hb + e5 * 2 ^ 1 + e6 * 2 ^ 7) e7 (e8 + e9 * 2 ^ 4) 13 7); lia.
  - apply (field_of y (hb + e5 * 2 ^ 1 + e6 * 2 ^ 7 + e7 * 2 ^ 13) e8 e9 20 4); lia.
  - apply (field_of y (hb + e5 * 2 ^ 1 + e6 * 2 ^ 7 + e7 * 2 ^ 13 + e8 * 2 ^ 20) e9 0 24 8); lia.
Qed.
End Coding.

(** ** The next second of an entry *)

(** An entry of plain values and wild cards, for every year and with a wild card
    from the day to the second. (The search does not find the next time of an entry
    that is fixed from the day to the second while it is carried out; see
    [next_time_found].) *)
Record regular (e : bt_mesh_schedule_entry) : Prop := {
  rg_plain : plain e;
  rg_bits : entry_bits e;
  rg_year : e_year e = BT_MESH_SCHEDULER_ANY_YEAR;
  rg_wild : e_day e = BT_MESH_SCHEDULER_ANY_DAY \/ e_hour e = BT_MESH_SCHEDULER_ANY_HOUR \/
    e_minute e = BT_MESH_SCHEDULER_ANY_MINUTE \/ e_second e = BT_MESH_SCHEDULER_ANY_SECOND
}.

(** [n] is the first second after [last] that the entry describes. *)
Definition is_next (e : bt_mesh_schedule_entry) (last n : Z) : Prop :=
  last < n /\ (exists t, date_ok t /\ matches e t /\ seconds t = n) /\
  forall t, date_ok t -> matches e t -> last < seconds t -> n <= seconds t.

Lemma is_next_unique e last n n' : is_next e last n -> is_next e last n' -> n = n'.
Proof.
  intros (H1 & (t & Ht & Hm & Et) & H2) (H1' & (t' & Ht' & Hm' & Et') & H2').
  specialize (H2 t' Ht' Hm'). specialize (H2' t Ht Hm). lia.
Qed.

(** Two years: an entry describes a second within them. *)
Definition HORIZON : Z := 732 * SEC_PER_DAY.

Section Next.
Context {MS : MeshStack}.

Lemma some_match cur e : date_ok cur -> plain e -> e_year e = BT_MESH_SCHEDULER_ANY_YEAR ->
  exists t, date_ok t /\ matches e t /\ seconds cur < seconds t <= seconds cur + HORIZON.
Proof.
  intros Hcur He Hy. destruct (some_month e He) as (m & Hm & Hb).
  destruct (first_day_spec e He (tm_year cur + 1) m Hm) as (Hd & Hdm & _).
  destruct (first_clock_range e He) as (Hh & Hmi & Hs). pose proof (cur_year cur Hcur) as Hc.
  set (t := T (tm_year cur + 1) m (first_day e (tm_year cur + 1) m) (first_hour e) (first_minute e) (first_second e) 0 0 0).
  assert (Ht : date_ok t) by (split; cbn; [unfold TAI_START_YEAR, TM_START_YEAR; lia|done..]).
  exists t. split; [done|]. split; [split; [split; [by left|done]|apply (first_clock_matches e)]|].
  split; [apply seconds_lt; [done|done|]; left; left; cbn; lia|].
  pose proof (day_of_year_range t Ht) as H1. pose proof (day_of_year_range cur Hcur) as H2. unfold seconds, day_number.
  change (tm_year t) with (tm_year cur + 1) in *. replace (tm_year cur + 1 + TM_START_YEAR) with (tm_year cur + TM_START_YEAR + 1) in * by lia.
  rewrite days_before_year_succ by apply Hcur. pose proof (days_in_year_range (tm_year cur + TM_START_YEAR)).
  pose proof (days_in_year_range (tm_year cur + TM_START_YEAR + 1)). destruct Hcur, Ht.
  unfold HORIZON, SEC_PER_DAY, SEC_PER_HOUR, SEC_PER_MIN. lia.
Qed.

(** The conversion finds it. *)
Lemma conversion_next cur e t0 i0 r : date_ok cur -> regular e ->
  exists t i, convert_scheduler_time_to_tm cur {| sched_time := t0; entry := e; info := i0; rands := r |} =
      Ok ({| sched_time := t; entry := e; info := i; rands := r |}, true) /\
    date_ok t /\ is_next e (seconds cur) (seconds t) /\ seconds t <= seconds cur + HORIZON.
Proof.
  intros Hcur [He _ Hy Hw]. destruct (some_match cur e Hcur He Hy) as (m & Hm & Hmm & Hml).
  destruct (conversion_finds cur e t0 i0 r Hcur He) as (t & i & found & E & H); [tauto|]. destruct found.
  - destruct H as (Ht & Hmt & _ & Hgt & Hl). exists t, i. split; [done|]. split; [done|].
    split; [|specialize (Hl m Hm Hmm (or_introl Hy) (proj1 Hml)); lia].
    split; [done|]. split; [by exists t|]. intros t' Ht' Hm'. apply Hl; [done|done|by left].
  - specialize (H m Hm Hmm (or_introl Hy)). lia.
Qed.

End Next.

(** ** The abstract scheduler *)

(** For each slot of the register: the entry and the last second dealt with. *)
Abbreviation slots := (list (option (bt_mesh_schedule_entry * Z))).

(** No slot is to be carried out before [n]. *)
Definition first_of (A : slots) (n : Z) : Prop :=
  forall k e last n', A !! k = Some (Some (e, last)) -> is_next e last n' -> n <= n'.

Definition active (srv : bt_mesh_scheduler_srv) (k : nat) : Prop := Z.testbit (active_bitmap srv) (Z.of_nat k) = true.
Definition planned (srv : bt_mesh_scheduler_srv) (k : nat) (n : Z) : Prop := sched_tai srv !! k = Some {| sec := n; subsec := 0 |}.

(** The local second at which the time was set. *)
Definition base (srv : bt_mesh_scheduler_srv) : Z := local_sec (time_srv srv) (sync_uptime (time_srv srv)).

Definition slot_ok (srv : bt_mesh_scheduler_srv) (now : Z) (k : nat) (a : option (bt_mesh_schedule_entry * Z)) : Prop :=
  match a with
  | None => ~ active srv k
  | Some (e, last) =>
    active srv k /\ sch_reg srv !! k = Some e /\ regular e /\ base srv <= last <= local_sec (time_srv srv) now /\
    exists n, planned srv k n /\ is_next e last n /\ n <= last + HORIZON
  end.

(** The work item waits for the first of the planned seconds, unless it is due. *)
Definition waits (srv : bt_mesh_scheduler_srv) (now : Z) : Prop :=
  exists k n due, idx srv = Z.of_nat k /\ active srv k /\ planned srv k n /\
    (forall k' n', active srv k' -> planned srv k' n' -> n <= n') /\
    delayed_work srv = Some due /\ (due = uptime_of (time_srv srv) n \/ uptime_of (time_srv srv) n <= due <= now).

Record register_ok (srv : bt_mesh_scheduler_srv) : Prop := {
  rk_reg : length (sch_reg srv) = 16%nat;
  rk_tai : length (sched_tai srv) = 16%nat;
  rk_bits : bits 16 (active_bitmap srv);
  rk_clock : clock_ok (time_srv srv)
}.

Record refines (now : Z) (srv : bt_mesh_scheduler_srv) (A : slots) : Prop := {
  rf_register : register_ok srv;
  rf_now : sync_uptime (time_srv srv) <= now;
  rf_length : length A = 16%nat;
  rf_slots : forall k a, A !! k = Some a -> slot_ok srv now k a;
  rf_waits : (exists k, active srv k) -> waits srv now
}.

(** The seconds of the next two years fit. *)
Definition in_range `{MeshConfig} (srv : bt_mesh_scheduler_srv) (now : Z) : Prop :=
  0 <= local_sec (time_srv srv) now /\ local_sec (time_srv srv) now + HORIZON < 2 ^ 40 /\
  tai_sec (time_srv srv) now + HORIZON < 2 ^ 40 /\ MSEC_PER_SEC * (tai_sec (time_srv srv) now + HORIZON) < 2 ^ FIELD_BITS.

Section Server.
Context {MB : MeshBuf} {MC : MeshConfig} {MS : MeshStack}.

Lemma active_lt srv k : register_ok srv -> active srv k -> (k < 16)%nat.
Proof.
  intros H Ha. unfold active in Ha. destruct (decide (k < 16)%nat); [done|].
  rewrite (bits_testbit_high 16) in Ha by (lia || apply H). done.
Qed.

Lemma entry_at_ok srv k e : sch_reg srv !! k = Some e -> entry_at srv (Z.of_nat k) = Ok e.
Proof. intros E. unfold entry_at. destruct (Z.ltb_spec (Z.of_nat k) 0); [lia|]. by rewrite Nat2Z.id, E. Qed.

Lemma tai_of_ok srv k t : sched_tai srv !! k = Some t -> tai_of srv (Z.of_nat k) = Ok t.
Proof. intros E. unfold tai_of. destruct (Z.ltb_spec (Z.of_nat k) 0); [lia|]. by rewrite Nat2Z.id, E. Qed.

(** Scheduling an entry sets its second and makes it active. *)
Lemma schedule_action_ok srv k e now :
  register_ok srv -> sch_reg srv !! k = Some e -> regular e -> sync_uptime (time_srv srv) <= now -> in_range srv now ->
  exists n, schedule_action srv (Z.of_nat k) now =
      Ok (set_active_bitmap (Z.setbit (active_bitmap srv) (Z.of_nat k)) (set_sched_tai (<[k := {| sec := n; subsec := 0 |}]> (sched_tai srv)) srv)) /\
    is_next e (local_sec (time_srv srv) now) n /\ n <= local_sec (time_srv srv) now + HORIZON.
Proof.
  intros Hreg He Hrg Hnow (H0 & H1 & H2 & H3). assert (Hh : 0 < HORIZON) by done. unfold schedule_action. rewrite (entry_at_ok srv k e He). cbn [mbind res_bind].
  unfold bt_mesh_time_srv_localtime. destruct (local_time (time_srv srv) now (rk_clock srv Hreg) Hnow) as (cur & -> & Hcur & Ecur); [lia|lia|].
  cbn [mbind res_bind]. destruct (conversion_next cur e tm_zero no_info (rand_count srv) Hcur Hrg) as (t & i & -> & Ht & Hn & Hl).
  cbn [mbind res_bind sched_time entry rands negb]. rewrite Ecur in Hn, Hl. rewrite ts_to_tai_seconds by (done || lia).
  exists (seconds t). split; [|done]. rewrite Nat2Z.id. unfold write_entry. rewrite Nat2Z.id, (list_insert_id (sch_reg srv) k e He). by destruct srv.
Qed.

(** The loop over the active entries finds the first second. *)
Lemma least_loop_ok fuel srv c j n :
  register_ok srv -> (forall k, active srv k -> exists n, planned srv k n) -> active srv j -> planned srv j n ->
  (c <= 16 <= c + fuel)%nat -> (forall k m, (k <= c)%nat -> active srv k -> planned srv k m -> n <= m) ->
  exists j' n', least_loop fuel srv (Z.of_nat c) (Z.of_nat j) = Ok (Z.of_nat j') /\ active srv j' /\ planned srv j' n' /\
    forall k m, active srv k -> planned srv k m -> n' <= m.
Proof.
  intros Hreg Hall. revert c j n. induction fuel as [|fuel IH]; intros c j n Hj Hn Hc Hl; cbn [least_loop].
  { exists j, n. split; [done|]. split; [done|]. split; [done|]. intros k m Ha. apply Hl; [|done]. pose proof (active_lt srv k Hreg Ha). lia. }
  rewrite u8_small by lia. replace (Z.of_nat c + 1) with (Z.of_nat (S c)) by lia. unfold BT_MESH_SCHEDULER_ACTION_ENTRY_COUNT.
  destruct (Z.ltb_spec (Z.of_nat (S c)) 16) as [Hlt|Hge]; cycle 1.
  { exists j, n. split; [done|]. split; [done|]. split; [done|]. intros k m Ha. apply Hl; [|done]. pose proof (active_lt srv k Hreg Ha). lia. }
  rewrite land_bit, negb_involutive by lia. destruct (Z.testbit (active_bitmap srv) (Z.of_nat (S c))) eqn:E.
  - destruct (Hall (S c) E) as [m Hm]. rewrite (tai_of_ok _ _ _ Hn), (tai_of_ok _ _ _ Hm). cbn [mbind res_bind sec].
    assert (Hle : forall k p, (k <= S c)%nat -> active srv k -> planned srv k p -> Z.min n m <= p).
    { intros k p Hk Ha Hp. destruct (decide (k = S c)) as [->|]; [unfold planned in *; rewrite Hm in Hp; injection Hp as ->; lia|].
      assert (n <= p) by (eapply Hl; [|done..]; lia). lia. }
    destruct (Z.ltb_spec m n).
    + rewrite Z.min_r in Hle by lia. eapply IH; [exact E|exact Hm|lia|done].
    + rewrite Z.min_l in Hle by lia. eapply IH; [done|exact Hn|lia|done].
  - eapply IH; [done|exact Hn|lia|]. intros k m Hk Ha. destruct (decide (k = S c)) as [->|]; [unfold active in Ha; congruence|]. apply Hl; [lia|done].
Qed.

Lemma least_time_index srv :
  register_ok srv -> (forall k, active srv k -> exists n, planned srv k n) -> (exists k, active srv k) ->
  exists j n, get_least_time_index srv = Ok (Z.of_nat j) /\ active srv j /\ planned srv j n /\
    forall k m, active srv k -> planned srv k m -> n <= m.
Proof.
  intros Hreg Hall [k0 Ha0]. destruct (rk_bits srv Hreg) as [Hb0 Hb1].
  assert (Hne : active_bitmap srv <> 0) by (intros E; unfold active in Ha0; by rewrite E, Z.bits_0 in Ha0).
  destruct (count_trailing_zeros_spec (active_bitmap srv)) as (Hr & Hb & Hl); [lia|]. set (f := u32_count_trailing_zeros (active_bitmap srv)) in *.
  assert (Hf : active srv (Z.to_nat f)) by (unfold active; by rewrite Z2Nat.id by lia). pose proof (active_lt srv _ Hreg Hf) as Hf16.
  destruct (Hall _ Hf) as [n Hn]. unfold get_least_time_index. fold f. rewrite u8_small by lia.
  destruct (least_loop_ok 16 srv (Z.to_nat f) (Z.to_nat f) n Hreg Hall Hf Hn) as (j & n' & E & Hj & Hn' & Hl').
  - lia.
  - intros k m Hk Ha Hm. destruct (decide (k = Z.to_nat f)) as [->|]; [unfold planned in *; rewrite Hn in Hm; by injection Hm as ->|].
    unfold active in Ha. rewrite Hl in Ha by lia. done.
  - rewrite !Z2Nat.id in E by lia. change (Z.to_nat BT_MESH_SCHEDULER_ACTION_ENTRY_COUNT) with 16%nat. rewrite E. cbn [mbind res_bind].
    exists j, n'. pose proof (active_lt srv j Hreg Hj). split; [|done]. unfold BT_MESH_SCHEDULER_ACTION_ENTRY_COUNT. f_equal. lia.
Qed.

(** The work item is started for the first of the planned seconds. *)
Lemma run_scheduler_ok srv now :
  register_ok srv -> (exists k, active srv k) ->
  (forall k, active srv k -> exists n, planned srv k n /\ base srv <= n < 2 ^ 40 /\ 0 <= n /\ n - zone_sec (time_srv srv) < 2 ^ 40 /\
    MSEC_PER_SEC * (n - zone_sec (time_srv srv)) < 2 ^ FIELD_BITS) ->
  exists j n, run_scheduler srv now =
      Ok (set_delayed_work (Some (Z.max (uptime_of (time_srv srv) n) now)) (set_idx (Z.of_nat j) srv)) /\
    active srv j /\ planned srv j n /\ forall k m, active srv k -> planned srv k m -> n <= m.
Proof.
  intros Hreg Hex Hall. destruct (least_time_index srv Hreg) as (j & n & E & Hj & Hn & Hl); [intros k Ha; destruct (Hall k Ha) as (n & ? & _); by exists n|done|].
  exists j, n. split; [|done]. unfold run_scheduler. rewrite E. cbn [mbind res_bind]. pose proof (active_lt srv j Hreg Hj).
  unfold BT_MESH_SCHEDULER_ACTION_ENTRY_COUNT. destruct (Z.eqb_spec (Z.of_nat j) 16); [lia|].
  rewrite (tai_of_ok _ _ _ Hn). cbn [mbind res_bind]. destruct (Hall j Hj) as (n' & Hn' & Hb & Hpos & H40 & Hms).
  unfold planned in Hn, Hn'. rewrite Hn in Hn'. injection Hn' as <-. destruct (tai_to_ts_seconds n 0 Hpos) as (t & -> & Ht & Et & _). cbn [mbind res_bind].
  pose proof (rk_clock srv Hreg) as Hc. assert (Hsync : sec (tai (sync_status (time_srv srv))) <= n - zone_sec (time_srv srv)).
  { unfold base, local_sec, tai_sec in Hb. rewrite Z.sub_diag in Hb. change (0 / MSEC_PER_SEC) with 0 in Hb. lia. }
  rewrite make_time; rewrite ?Et; [|done|done|lia|lia|done].
  destruct (Z.ltb_spec (uptime_of (time_srv srv) n) 0) as [Hneg|_].
  { exfalso. unfold uptime_of, MSEC_PER_SEC in Hneg. pose proof (ck_uptime _ Hc). lia. }
  do 3 f_equal. lia.
Qed.

(** ** The elements of a scheduler *)

(** [els] are the elements from [elem] on, up to the next one with a scheduler. *)
Record governed (elem : bt_mesh_elem) (els : list bt_mesh_elem) : Prop := {
  gv_head : head els = Some elem;
  gv_next i x : els !! S i = Some x ->
    bt_mesh_elem_find (elem_addr elem + 1 + Z.of_nat i) = Some x /\ has_scheduler_srv x = false;
  gv_end : let a := elem_addr elem + zlen els in
    BT_MESH_ADDR_IS_UNICAST a = false \/ bt_mesh_elem_find a = None \/
    exists x, bt_mesh_elem_find a = Some x /\ has_scheduler_srv x = true
}.

(** What an entry does on an element. *)
Definition action_on (e : bt_mesh_schedule_entry) (t : Z) (elem : bt_mesh_elem) : list sched_event :=
  if e_action e =? BT_MESH_SCHEDULER_SCENE_RECALL then
    if has_scene_srv elem then [SceneRecalled (elem_addr elem) (e_scene_number e) {| time := t; delay := 0 |}] else []
  else
    if has_onoff_srv elem then [OnOffSet (elem_addr elem) (ctrue (e_action e)) {| time := t; delay := 0 |}] else [].

Lemma act_on_ok e t elem srv :
  act_on (e_action e =? BT_MESH_SCHEDULER_SCENE_RECALL) (e_action e) (e_scene_number e) {| time := t; delay := 0 |} elem srv =
  set_sched_outs (sched_outs srv ++ action_on e t elem) srv.
Proof. unfold act_on, action_on. repeat case_match; [done|..|done|]; cbn; rewrite app_nil_r; by destruct srv. Qed.

Lemma elem_loop_ok fuel e t elem srv :
  0 <= elem_addr elem < 0x8000 -> 0x8000 - elem_addr elem <= Z.of_nat fuel ->
  exists els, governed elem els /\
    elem_loop fuel (e_action e =? BT_MESH_SCHEDULER_SCENE_RECALL) (e_action e) (e_scene_number e) {| time := t; delay := 0 |} elem srv =
    Ok (set_sched_outs (sched_outs srv ++ flat_map (action_on e t) els) srv).
Proof.
  revert elem srv. induction fuel as [|fuel IH]; intros elem srv Ha Hf; [lia|]. cbn [elem_loop]. rewrite act_on_ok.
  assert (Hone : (BT_MESH_ADDR_IS_UNICAST (elem_addr elem + 1) = false \/ bt_mesh_elem_find (elem_addr elem + 1) = None \/
      exists x, bt_mesh_elem_find (elem_addr elem + 1) = Some x /\ has_scheduler_srv x = true) -> governed elem [elem]).
  { intros H. split; [done| |exact H]. intros i x Hx. by apply lookup_nil in Hx || destruct i. }
  destruct (BT_MESH_ADDR_IS_UNICAST (elem_addr elem + 1)) eqn:Eu; cycle 1.
  { exists [elem]. split; [apply Hone; by left|]. cbn [flat_map]. by rewrite app_nil_r. }
  destruct (bt_mesh_elem_find (elem_addr elem + 1)) as [x|] eqn:Ex; cycle 1.
  { exists [elem]. split; [apply Hone; by right; left|]. cbn [flat_map]. by rewrite app_nil_r. }
  destruct (has_scheduler_srv x) eqn:Es.
  { exists [elem]. split; [apply Hone; right; right; by exists x|]. cbn [flat_map]. by rewrite app_nil_r. }
  pose proof (elem_find_addr _ _ Ex) as Hax. unfold BT_MESH_ADDR_IS_UNICAST in Eu. apply andb_true_iff in Eu as [_ Eu%Z.ltb_lt].
  destruct (IH x (set_sched_outs (sched_outs srv ++ action_on e t elem) srv)) as (els & [G1 G2 G3] & ->); [lia|lia|].
  exists (elem :: els). split; [split|].
  - done.
  - intros [|i] y Hy; cbn [lookup list_lookup] in Hy.
    + destruct els as [|z els]; [done|]. cbn in G1, Hy. replace (elem_addr elem + 1 + Z.of_nat 0) with (elem_addr elem + 1) by lia. by simplify_eq.
    + replace (elem_addr elem + 1 + Z.of_nat (S i)) with (elem_addr x + 1 + Z.of_nat i) by lia. by apply G2.
  - replace (elem_addr elem + zlen (elem :: els)) with (elem_addr x + zlen els) by (cbn [length]; lia). exact G3.
  - cbn [flat_map sched_outs set_sched_outs]. by rewrite <- app_assoc.
Qed.

Lemma transition_ok e : entry_bits e -> exists t, model_transition_decode (e_transition_time e) = Ok t.
Proof.
  intros H. pose proof (eb_transition e H) as [H0 H1]. unfold model_transition_decode. case_match; [by eexists|]. rewrite Z.shiftr_div_pow2 by lia.
  assert (Hr : 0 <= e_transition_time e / 2 ^ 6 < 4) by (Z.to_euclidean_division_equations; lia).
  assert (Hc : e_transition_time e / 2 ^ 6 = 0 \/ e_transition_time e / 2 ^ 6 = 1 \/ e_transition_time e / 2 ^ 6 = 2 \/ e_transition_time e / 2 ^ 6 = 3) by lia.
  destruct Hc as [-> | [-> | [-> | ->]]]; by eexists.
Qed.

(** ** Simulation *)

Lemma bits_of_testbit w x : 0 <= w -> (forall n, w <= n -> Z.testbit x n = false) -> bits w x.
Proof.
  intros Hw H. replace x with (x mod 2 ^ w); [by apply bits_mod|]. apply Z.bits_inj'. intros n Hn. destruct (Z_lt_ge_dec n w).
  - by rewrite Z.mod_pow2_bits_low by lia.
  - rewrite Z.mod_pow2_bits_high by lia. by rewrite H by lia.
Qed.

Lemma bits_write w x k b : 0 <= k < w -> bits w x -> bits w (WRITE_BIT x k b).
Proof.
  intros Hk Hx. apply bits_of_testbit; [lia|]. intros n Hn. pose proof (bits_testbit_high w x n ltac:(lia) Hx Hn) as E. destruct b; cbn [WRITE_BIT].
  - rewrite Z.setbit_neq by lia. done.
  - rewrite Z.clearbit_neq by lia. done.
Qed.

Lemma local_sec_mono srv u u' : u <= u' -> local_sec srv u <= local_sec srv u'.
Proof.
  intros H. unfold local_sec, tai_sec. assert ((u - sync_uptime srv) / MSEC_PER_SEC <= (u' - sync_uptime srv) / MSEC_PER_SEC)
    by (apply Z.div_le_mono; [done|lia]). lia.
Qed.

Lemma slot_ok_later srv now now' k a : now <= now' -> slot_ok srv now k a -> slot_ok srv now' k a.
Proof.
  intros Hn. destruct a as [[e last]|]; [|done]. intros (H1 & H2 & H3 & H4 & H5). pose proof (local_sec_mono (time_srv srv) _ _ Hn).
  split; [done|]. split; [done|]. split; [done|]. split; [lia|done].
Qed.

Lemma refines_later now now' srv A : now <= now' -> refines now srv A -> refines now' srv A.
Proof.
  intros Hn [H1 H2 H3 H4 H5]. split; [done|lia|done|intros k a Ha; by eapply slot_ok_later, H4|].
  intros Hex. destruct (H5 Hex) as (k & n & due & ? & ? & ? & ? & ? & Hd). exists k, n, due.
  do 5 (split; [done|]). destruct Hd; [by left|right; lia].
Qed.

(** The calls of others do not matter. *)
Lemma refines_out now srv A x : refines now srv A -> refines now (sched_out x srv) A.
Proof. intros [[] ? ? ? ?]. by split. Qed.

(** Scheduling a slot again, with the other slots in order. *)
Lemma rearmed srv now now' k e A :
  register_ok srv -> sync_uptime (time_srv srv) <= now <= now' -> in_range srv now -> sch_reg srv !! k = Some e -> regular e ->
  length A = 16%nat -> (forall k' a, k' <> k -> A !! k' = Some a -> slot_ok srv now k' a) ->
  exists srv', (let* s := schedule_action srv (Z.of_nat k) now in run_scheduler s now') = Ok srv' /\
    refines now' srv' (<[k := Some (e, local_sec (time_srv srv) now)]> A) /\
    sch_reg srv' = sch_reg srv /\ action_set_cb srv' = action_set_cb srv /\ sched_outs srv' = sched_outs srv.
Proof.
  intros Hreg Hnow Hrange He Hrg HA Hslots. pose proof (lookup_lt_Some _ _ _ He) as Hk. rewrite (rk_reg srv Hreg) in Hk.
  destruct (schedule_action_ok srv k e now Hreg He Hrg) as (n & -> & Hn & Hle); [lia|done|]. cbn [mbind res_bind].
  set (s1 := set_active_bitmap _ _). assert (Hbit : forall k', active s1 k' <-> k' = k \/ active srv k').
  { intros k'. unfold active. cbn [s1 set_active_bitmap active_bitmap]. rewrite Z.setbit_eqb, orb_true_iff, Z.eqb_eq by lia. split; (intros [?|?]; [left; lia|by right]). }
  assert (Hreg1 : register_ok s1).
  { destruct Hreg as [R1 R2 R3 R4]. split; [done|cbn; by rewrite length_insert| |done]. cbn [s1 set_active_bitmap active_bitmap].
    by apply (bits_write 16 _ (Z.of_nat k) true); [lia|]. }
  assert (Hs1 : forall k' a, <[k := Some (e, local_sec (time_srv srv) now)]> A !! k' = Some a -> slot_ok s1 now k' a).
  { intros k' a Ha. destruct (decide (k' = k)) as [->|Hne].
    - rewrite list_lookup_insert_eq in Ha by lia. injection Ha as <-. split; [apply Hbit; by left|]. split; [done|]. split; [done|].
      split; [split; [apply (local_sec_mono (time_srv srv) (sync_uptime (time_srv srv))); lia|done]|]. exists n. split; [|done]. unfold planned. cbn. by rewrite list_lookup_insert_eq by (rewrite (rk_tai srv Hreg); lia).
    - rewrite list_lookup_insert_ne in Ha by done. specialize (Hslots k' a Hne Ha). destruct a as [[e' last]|].
      + destruct Hslots as (H1 & H2 & H3 & H4 & m & Hm & H5). split; [apply Hbit; by right|]. split; [done|]. split; [done|]. split; [done|].
        exists m. split; [|done]. unfold planned in *. cbn. by rewrite list_lookup_insert_ne by done.
      + intros Ha'. apply Hbit in Ha' as [|]; [done|by apply Hslots]. }
  destruct (run_scheduler_ok s1 now' Hreg1) as (j & m & E & Hj & Hm & Hl); [exists k; apply Hbit; by left| |].
  - intros k' Ha'. pose proof (active_lt s1 k' Hreg1 Ha') as Hk'. destruct (lookup_lt_is_Some_2 (<[k := Some (e, local_sec (time_srv srv) now)]> A) k') as [a Hak];
      [rewrite length_insert; lia|]. specialize (Hs1 k' a Hak). destruct a as [[e' last]|]; [|done].
    destruct Hs1 as (_ & _ & _ & Hlast & p & Hp & (Hlt & (t & Ht & _ & Et) & _) & Hple). exists p. split; [done|].
    pose proof (seconds_nonneg t Ht). destruct Hrange as (R0 & R1 & R2 & R3). change (time_srv s1) with (time_srv srv) in *. unfold local_sec in *.
    unfold MSEC_PER_SEC in *. lia.
  - rewrite E. eexists. split; [reflexivity|]. split; [|done]. split; [by destruct Hreg1|cbn; lia|by rewrite length_insert| |].
    + intros k' a Ha. apply (slot_ok_later s1 now now'); [lia|]. by apply Hs1.
    + intros _. exists j, m, (Z.max (uptime_of (time_srv srv) m) now'). split; [done|]. split; [done|]. split; [done|]. split; [exact Hl|]. split; [done|].
      change (time_srv (set_delayed_work _ _)) with (time_srv srv). lia.
Qed.

Lemma entry_at_out x srv i : entry_at (sched_out x srv) i = entry_at srv i.
Proof. done. Qed.

(** A new entry that is to be carried out is valid. *)
Lemma regular_valid k e : (k < 16)%nat -> regular e -> is_scheduled e = true -> scheduler_action_valid e (Z.of_nat k) = true.
Proof.
  intros Hk [He Hb Hy _] Hs. unfold is_scheduled in Hs. destruct He, Hb. unfold bits, BT_MESH_SCHEDULER_ANY_YEAR, BT_MESH_SCHEDULER_ANY_DAY,
    BT_MESH_SCHEDULER_ANY_HOUR, BT_MESH_SCHEDULER_ANY_MINUTE, BT_MESH_SCHEDULER_ANY_SECOND, BT_MESH_SCHEDULER_SCENE_RECALL in *.
  unfold scheduler_action_valid, BT_MESH_SCHEDULER_ANY_YEAR, MAX_DAY, BT_MESH_SCHEDULER_ONCE_A_DAY, BT_MESH_SCHEDULER_ONCE_AN_HOUR,
    BT_MESH_SCHEDULER_ONCE_A_MINUTE, BT_MESH_SCHEDULER_SCENE_RECALL, BT_MESH_SCHEDULER_ACTION_ENTRY_COUNT. lia.
Qed.

(** Setting an action starts it from the moment of the call. *)
Lemma set_step now srv A k e ctx ack now1 now2 :
  refines now srv A -> now <= now1 <= now2 -> in_range srv now1 -> (k < 16)%nat -> regular e -> is_scheduled e = true ->
  exists srv', action_set srv ctx (scheduler_action_pack [] (Z.of_nat k) e) ack now1 now2 = Ok (srv', 0) /\
    refines now2 srv' (<[k := Some (e, local_sec (time_srv srv) now1)]> A).
Proof.
  intros [Hreg Hnow HA Hslots _] Hn Hrange Hk He Hs. unfold action_set.
  rewrite <- (app_nil_r (scheduler_action_pack _ _ _)), action_unpack_pack by (apply He || (unfold bits; lia)).
  rewrite regular_valid by done. cbn [negb]. set (s0 := write_entry _ _ _).
  assert (E0 : sch_reg s0 !! k = Some e) by (cbn; rewrite Nat2Z.id, list_lookup_insert_eq; [done|rewrite (rk_reg srv Hreg); lia]).
  rewrite (entry_at_ok s0 k e E0). cbn [mbind res_bind]. rewrite Hs.
  destruct (rearmed s0 now1 now2 k e A) as (s1 & E1 & Href & E2 & _ & _); [|cbn; lia|done|done|done|done| |].
  - destruct Hreg. split; [cbn; by rewrite length_insert|done..].
  - intros k' a Hne Ha. apply (slot_ok_later s0 now); [lia|]. specialize (Hslots k' a Ha). destruct a as [[e' last]|]; [|done].
    destruct Hslots as (H1 & H2 & H3). split; [done|]. split; [|done]. cbn. rewrite Nat2Z.id, list_lookup_insert_ne by done. done.
  - change (mbind (fun srv => run_scheduler srv now2) (schedule_action s0 (Z.of_nat k) now1)) with (let* s := schedule_action s0 (Z.of_nat k) now1 in run_scheduler s now2).
    rewrite E1. cbn [mbind res_bind]. rewrite <- E2 in E0.
    rewrite (entry_at_ok s1 k e E0). cbn [mbind res_bind]. clear E1. unfold is_entry_defined, store, send_scheduler_action_status, encode_action_status.
    repeat first [rewrite entry_at_out | rewrite (entry_at_ok s1 k e E0) | progress cbn [mbind res_bind] | case_match];
      (eexists; split; [reflexivity|]; repeat apply refines_out; exact Href).
Qed.

(** The entry that the work item waits for is the first one to be carried out. *)
Lemma waits_first now srv A k n : refines now srv A -> idx srv = Z.of_nat k -> active srv k -> planned srv k n -> first_of A n.
Proof.
  intros [_ _ _ Hslots Hw] Hidx Ha Hp k' e' last' n' Hk' Hn'. destruct Hw as (k0 & n0 & due & E0 & _ & P0 & Hl & _); [by exists k|].
  rewrite Hidx in E0. apply Nat2Z.inj in E0 as <-. unfold planned in Hp, P0. rewrite Hp in P0. injection P0 as <-.
  destruct (Hslots _ _ Hk') as (Ha' & _ & _ & _ & m & Hm & Hnm & _). rewrite (is_next_unique _ _ _ _ Hn' Hnm). by apply (Hl k').
Qed.

(** The work item carries out the entry that it waited for, and waits for the next. *)
Lemma fire_step now srv A k n elem now1 now2 :
  refines now srv A -> now <= now1 <= now2 -> in_range srv now1 -> idx srv = Z.of_nat k -> active srv k -> planned srv k n ->
  local_sec (time_srv srv) now1 = n -> 0 <= elem_addr elem < 0x8000 ->
  exists e last els t srv', A !! k = Some (Some (e, last)) /\ is_next e last n /\ first_of A n /\ governed elem els /\
    model_transition_decode (e_transition_time e) = Ok t /\ scheduled_action_handle srv elem now1 now2 = Ok srv' /\
    refines now2 srv' (<[k := Some (e, n)]> A) /\ sched_outs srv' = sched_outs srv ++ flat_map (action_on e t) els.
Proof.
  intros Href0 Hn Hrange Hidx Hact Hpl Hloc Hel. pose proof (waits_first now srv A k n Href0 Hidx Hact Hpl) as Hfirst.
  destruct Href0 as [Hreg Hnow HA Hslots _]. pose proof (active_lt srv k Hreg Hact) as Hk.
  destruct (lookup_lt_is_Some_2 A k) as [a Ha]; [lia|]. pose proof (Hslots k a Ha) as Hsl. destruct a as [[e last]|]; [|done].
  destruct Hsl as (_ & He & Hrg & _ & n' & Hn' & Hnext & _). unfold planned in Hpl, Hn'. rewrite Hpl in Hn'. injection Hn' as <-.
  unfold scheduled_action_handle. pose proof (Z2Nat.id 0x8000 ltac:(lia)) as Hfuel. revert Hfuel. generalize (Z.to_nat 0x8000) as fuel. intros fuel Hfuel. change (idx (set_delayed_work None srv)) with (idx srv). rewrite Hidx. unfold BT_MESH_SCHEDULER_ACTION_ENTRY_COUNT.
  destruct (Z.eqb_spec (Z.of_nat k) 16); [lia|]. set (s0 := set_active_bitmap _ _).
  change (idx s0) with (idx srv). rewrite Hidx, (entry_at_ok s0 k e He). cbn [mbind res_bind].
  destruct (transition_ok e (rg_bits e Hrg)) as [t Et]. rewrite Et. cbn [mbind res_bind].
  destruct (elem_loop_ok fuel e t elem s0) as (els & Hels & E); [done|lia|]. rewrite E. cbn [mbind res_bind].
  set (s1 := set_idx _ _). change (last_idx s1) with (idx srv). rewrite Hidx.
  destruct (rearmed s1 now1 now2 k e A) as (s2 & E2 & Href & _ & _ & Eo); [|cbn; lia|done|done|done|done| |].
  - destruct Hreg as [R1 R2 R3 R4]. split; [done|done| |done]. by apply (bits_write 16 _ (Z.of_nat k) false); [lia|].
  - intros k' a Hne Ha'. apply (slot_ok_later s1 now); [lia|]. specialize (Hslots k' a Ha').
    assert (Hb : active s1 k' <-> active srv k').
    { unfold active. cbn [s1 s0 active_bitmap set_idx set_last_idx set_sched_outs set_active_bitmap WRITE_BIT]. by rewrite Z.clearbit_neq by lia. }
    destruct a as [[e' last']|]; cbn [slot_ok]; by rewrite Hb.
  - exists e, last, els, t, s2. split; [done|]. split; [done|]. split; [done|]. split; [done|]. split; [done|]. split; [exact E2|].
    change (time_srv s1) with (time_srv srv) in Href. rewrite Hloc in Href. split; [done|]. by rewrite Eo.
Qed.

(** A server that was initialized has nothing to do. *)
Lemma initialized srv now :
  length (sch_reg srv) = 16%nat -> length (sched_tai srv) = 16%nat -> clock_ok (time_srv srv) -> sync_uptime (time_srv srv) <= now ->
  refines now (scheduler_srv_init srv) (replicate 16 None).
Proof.
  intros H1 H2 H3 H4. assert (Hno : forall k, ~ active (scheduler_srv_init srv) k) by (intros k; unfold active; cbn; by rewrite Z.bits_0).
  split.
  - split; [cbn; by rewrite length_map|done|done|done].
  - done.
  - done.
  - intros k a Ha. apply lookup_replicate in Ha as [-> _]. apply Hno.
  - intros [k Hk]. by destruct (Hno k).
Qed.

(** C14: the Scheduler Server implements the scheduler that its register describes.
    A server whose slots wait for the seconds [A] tells, with the work item started
    for the first of them, accepts every Scheduler Action Set message that schedules
    an action (not one that cancels it) with a [regular] entry: of plain values and
    wild cards, for every year, with a day that every month has and that is not
    combined with days of the week, and with a wild card from the day to the second.
    It then waits for the first second after the call that the entry describes, the
    other slots being left alone.  When the work item runs in the second it was
    started for, this is the next second that an entry describes, no other slot has
    an earlier one, the action is carried out on the elements up to the next
    scheduler, and the slot waits for the second after.  Neither operation fails or
    accesses anything outside the register.  The time is set to the second, in a
    zone that is not behind UTC and without announced changes, and the seconds of
    the next two years fit their fields. *)
Theorem scheduler_refines now srv A (Href : refines now srv A) :
  (forall k e ctx ack now1 now2,
    now <= now1 <= now2 -> in_range srv now1 -> (k < 16)%nat -> regular e -> is_scheduled e = true ->
    exists srv', action_set srv ctx (scheduler_action_pack [] (Z.of_nat k) e) ack now1 now2 = Ok (srv', 0) /\
      refines now2 srv' (<[k := Some (e, local_sec (time_srv srv) now1)]> A)) /\
  (forall k n elem now1 now2,
    now <= now1 <= now2 -> in_range srv now1 -> idx srv = Z.of_nat k -> active srv k -> planned srv k n ->
    local_sec (time_srv srv) now1 = n -> 0 <= elem_addr elem < 0x8000 ->
    exists e last els t srv', A !! k = Some (Some (e, last)) /\ is_next e last n /\ first_of A n /\ governed elem els /\
      model_transition_decode (e_transition_time e) = Ok t /\ scheduled_action_handle srv elem now1 now2 = Ok srv' /\
      refines now2 srv' (<[k := Some (e, n)]> A) /\ sched_outs srv' = sched_outs srv ++ flat_map (action_on e t) els).
Proof. split; intros; [by eapply set_step|by eapply fire_step]. Qed.

End Server.
