(* ===== verification/MeshSchedRun.v ===== *)
(** * Runs of the Scheduler Server

    Actions are set and the work item runs, in any order: every second that an entry
    of the register describes is acted on, or the work item is started for it. *)

From stdpp Require Import prelude list sorting.
From Stdlib Require Import ZArith Lia.
From S2P Require Import Prelude Digits MeshTime MeshTimeSpec MeshSched MeshSchedSpec MeshSchedSrv.

Open Scope Z_scope.

(** ** Runs *)

(** An entry was set at a local second; an entry was carried out at one. *)
Inductive sched_label :=
| Configured (k : nat) (e : bt_mesh_schedule_entry) (s : Z)
| Fired (k : nat) (n : Z).

(** The entry of a slot, the second it was set at and the seconds it was carried out at. *)
Definition record_label (k : nat) (h : option (bt_mesh_schedule_entry * Z * list Z)) (l : sched_label) :
    option (bt_mesh_schedule_entry * Z * list Z) :=
  match l with
  | Configured k' e s => if decide (k' = k) then Some (e, s, []) else h
  | Fired k' n => if decide (k' = k) then (fun '(e, s, l) => (e, s, l ++ [n])) <$> h else h
  end.

Definition served (k : nat) (tr : list sched_label) : option (bt_mesh_schedule_entry * Z * list Z) :=
  fold_left (record_label k) tr None.

Definition describes_second (e : bt_mesh_schedule_entry) (n : Z) : Prop := exists t, date_ok t /\ matches e t /\ seconds t = n.

(** [l] are the seconds after [s], up to the last one of [l], that the entry describes. *)
Record complete_to (e : bt_mesh_schedule_entry) (s : Z) (l : list Z) : Prop := {
  ct_sorted : StronglySorted Z.lt (s :: l);
  ct_sound : Forall (describes_second e) l;
  ct_complete n : describes_second e n -> s < n <= List.last l s -> n ∈ l
}.

Section Runs.
Context {MB : MeshBuf} {MC : MeshConfig} {MS : MeshStack}.
Variable elem : bt_mesh_elem.
Hypothesis elem_unicast : 0 <= elem_addr elem < 0x8000.

(** A message is handled, or the work item runs in the second it was started for. *)
Inductive sched_step : Z * bt_mesh_scheduler_srv -> sched_label -> Z * bt_mesh_scheduler_srv -> Prop :=
| step_set now srv k e ctx ack now1 now2 srv' :
    now <= now1 <= now2 -> in_range srv now1 -> (k < 16)%nat -> regular e -> is_scheduled e = true ->
    action_set srv ctx (scheduler_action_pack [] (Z.of_nat k) e) ack now1 now2 = Ok (srv', 0) ->
    sched_step (now, srv) (Configured k e (local_sec (time_srv srv) now1)) (now2, srv')
| step_fire now srv k n now1 now2 srv' :
    now <= now1 <= now2 -> in_range srv now1 -> idx srv = Z.of_nat k -> active srv k -> planned srv k n ->
    local_sec (time_srv srv) now1 = n -> scheduled_action_handle srv elem now1 now2 = Ok srv' ->
    sched_step (now, srv) (Fired k n) (now2, srv').

Inductive sched_run : Z * bt_mesh_scheduler_srv -> list sched_label -> Z * bt_mesh_scheduler_srv -> Prop :=
| run_refl s : sched_run s [] s
| run_step s tr s' l s'' : sched_run s tr s' -> sched_step s' l s'' -> sched_run s (tr ++ [l]) s''.

(** What a run has done to the slots. *)
Definition served_ok (A : slots) (tr : list sched_label) : Prop :=
  forall k, match served k tr with
       | Some (e, s, l) => A !! k = Some (Some (e, List.last l s)) /\ complete_to e s l
       | None => A !! k = None \/ A !! k = Some None
       end.

Lemma served_snoc k tr l : served k (tr ++ [l]) = record_label k (served k tr) l.
Proof. unfold served. by rewrite fold_left_app. Qed.

Lemma complete_start e s : complete_to e s [].
Proof. split; [by repeat constructor|done|]. cbn. lia. Qed.

Lemma last_snoc (l : list Z) x d : List.last (l ++ [x]) d = x.
Proof. induction l as [|a l IH]; [done|]. cbn. rewrite IH. by destruct l. Qed.

Lemma last_of_cons (l : list Z) a s : List.last (a :: l) s = List.last l a.
Proof. revert a s. induction l as [|b l IH]; intros a s; [done|]. change (List.last (a :: b :: l) s) with (List.last (b :: l) s). by rewrite !IH. Qed.

Lemma sorted_snoc (l : list Z) s n : StronglySorted Z.lt (s :: l) -> List.last l s < n -> StronglySorted Z.lt (s :: l ++ [n]).
Proof.
  revert s. induction l as [|a l IH]; intros s Hs Hn; inversion_clear Hs as [|? ? H1 H2].
  - repeat constructor. cbn in Hn. lia.
  - change ((a :: l) ++ [n]) with (a :: l ++ [n]). assert (Hn' : List.last l a < n) by (by rewrite last_of_cons in Hn).
    specialize (IH a H1 Hn'). constructor; [done|]. inversion_clear H2 as [|? ? H3 H4]. constructor; [lia|].
    inversion_clear IH as [|? ? _ H5]. apply Forall_app. split; [done|]. repeat constructor.
    apply Forall_app in H5 as [_ H5]. inversion_clear H5. lia.
Qed.

Lemma complete_next e s l n : complete_to e s l -> is_next e (List.last l s) n -> complete_to e s (l ++ [n]).
Proof.
  intros [H1 H2 H3] (Hlt & Hd & Hl). split.
  - by apply sorted_snoc.
  - apply Forall_app. split; [done|]. by repeat constructor.
  - intros m Hm. rewrite last_snoc. intros Hb. apply elem_of_app. destruct (Z_le_gt_dec m (List.last l s)); [left; apply H3; [done|lia]|].
    right. apply list_elem_of_singleton. destruct Hm as (t & Ht & Hmt & Et). specialize (Hl t Ht Hmt). lia.
Qed.

Lemma step_served now srv A tr l now' srv' :
  refines now srv A -> served_ok A tr -> sched_step (now, srv) l (now', srv') ->
  exists A', refines now' srv' A' /\ served_ok A' (tr ++ [l]).
Proof.
  unfold served_ok. intros Href Hok Hstep. inversion Hstep; subst.
  - destruct (set_step now srv A k e ctx ack now1 now') as (s & E & Hs); [done..|]. assert (s = srv') as -> by congruence. eexists. split; [exact Hs|].
    intros k'. rewrite served_snoc. cbn [record_label]. pose proof (rf_length _ _ _ Href). destruct (decide (k = k')) as [<-|Hne].
    + rewrite list_lookup_insert_eq by lia. split; [done|]. apply complete_start.
    + rewrite list_lookup_insert_ne by done. apply Hok.
  - destruct (fire_step now srv A k (local_sec (time_srv srv) now1) elem now1 now') as (e & last & els & t & s & HA & Hn & _ & _ & _ & E & Hs & _); [done..|].
    assert (s = srv') as -> by congruence. eexists. split; [exact Hs|]. intros k'. rewrite served_snoc. cbn [record_label]. pose proof (rf_length _ _ _ Href).
    destruct (decide (k = k')) as [<-|Hne].
    + specialize (Hok k). destruct (served k tr) as [[[e0 s0] l0]|]; [|destruct Hok; congruence]. destruct Hok as [Hk Hc]. rewrite HA in Hk.
      injection Hk as -> ->. cbn. rewrite list_lookup_insert_eq by (apply lookup_lt_Some in HA; done). rewrite last_snoc. split; [done|]. by apply complete_next.
    + rewrite list_lookup_insert_ne by done. apply Hok.
Qed.

Lemma run_served now srv A tr now' srv' :
  refines now srv A -> served_ok A [] -> sched_run (now, srv) tr (now', srv') -> exists A', refines now' srv' A' /\ served_ok A' tr.
Proof.
  intros Href Hok. remember (now, srv) as s0 eqn:E0. remember (now', srv') as s1 eqn:E1. intros Hrun. revert now' srv' E1.
  induction Hrun as [s|s tr [now1 srv1] l s'' Hrun IH Hstep]; intros now' srv' E1; simplify_eq; [by exists A|].
  destruct (IH eq_refl now1 srv1 eq_refl) as (A1 & H1 & H2). by eapply step_served.
Qed.

(** C15: no second is missed.  From the initialization on, let messages schedule
    actions with [regular] entries (plain values and wild cards, every year, a day
    that every month has and that is not combined with days of the week, a wild card
    from the day to the second; no cancelling) and the work item run in the seconds
    it was started for, in any order, with a clock that is set to the second, in a
    zone that is not behind UTC and without announced changes.  Then the
    entry of every slot was carried out, since it was set, at seconds that it
    describes, each one once and in order; and for every second after it was set
    that the entry describes and at which it was not carried out, the work item is
    started, to run at the latest when that second begins, unless it is due. *)
Theorem every_second_served now srv tr now' srv' :
  length (sch_reg srv) = 16%nat -> length (sched_tai srv) = 16%nat -> clock_ok (time_srv srv) -> sync_uptime (time_srv srv) <= now ->
  sched_run (now, scheduler_srv_init srv) tr (now', srv') ->
  forall k e s l, served k tr = Some (e, s, l) ->
    StronglySorted Z.lt (s :: l) /\ Forall (describes_second e) l /\
    forall n, describes_second e n -> s < n ->
      n ∈ l \/ exists due, delayed_work srv' = Some due /\ (due <= uptime_of (time_srv srv') n \/ due <= now').
Proof.
  intros H1 H2 H3 H4 Hrun k e s l Hk.
  destruct (run_served now (scheduler_srv_init srv) (replicate 16 None) tr now' srv') as (A & Href & Hok).
  - by apply initialized.
  - intros j. change (served j []) with (@None (bt_mesh_schedule_entry * Z * list Z)). destruct ((replicate 16 None : slots) !! j) as [a|] eqn:E; [|by left]. apply lookup_replicate in E as [-> _]. by right.
  - done.
  - specialize (Hok k). rewrite Hk in Hok. destruct Hok as [HA [C1 C2 C3]]. split; [done|]. split; [done|]. intros n Hn Hs.
    destruct (Z_le_gt_dec n (List.last l s)); [left; apply C3; [done|lia]|right].
    destruct (rf_slots _ _ _ Href _ _ HA) as (Ha & _ & _ & _ & m & Hm & (_ & _ & Hl) & _).
    destruct (rf_waits _ _ _ Href) as (k0 & n0 & due & _ & _ & _ & Hle & Hd & Hdue); [by exists k|]. exists due. split; [done|].
    destruct Hn as (t & Ht & Hmt & <-). specialize (Hl t Ht Hmt ltac:(lia)). specialize (Hle _ _ Ha Hm). unfold uptime_of, MSEC_PER_SEC in *. lia.
Qed.

End Runs.
