(* ===== verification/MeshDemo.v ===== *)
(** * Demonstration of the mesh Time and Scheduler Servers

    A node with two elements: instances of the interfaces, concrete inputs for the
    theorems, and what the servers do outside of what the theorems are about. *)

From stdpp Require Import prelude list sorting.
From Stdlib Require Import ZArith Lia.
From S2P Require Import Prelude Digits MeshTime MeshTimeSpec MeshSched MeshSchedSpec MeshSchedSrv MeshSchedRun.

Open Scope Z_scope.

Module Demo.

Fixpoint ctz (p : positive) : Z := match p with xO p => 1 + ctz p | _ => 0 end.

Lemma ctz_spec p : 0 <= ctz p /\ 2 ^ ctz p <= Z.pos p /\ Z.testbit (Z.pos p) (ctz p) = true /\ forall i, 0 <= i < ctz p -> Z.testbit (Z.pos p) i = false.
Proof.
  induction p as [p _|p (IH1 & IH2 & IH3 & IH4)|]; cbn [ctz]; [split; [done|]; split; [cbn; lia|]; split; [done|]; lia| |split; [done|]; split; [done|]; split; [done|]; lia].
  change (Z.pos p~0) with (2 * Z.pos p). split; [lia|]. split; [rewrite Z.pow_add_r by lia; lia|].
  replace (1 + ctz p) with (Z.succ (ctz p)) by lia. rewrite Z.testbit_even_succ by done. split; [done|]. intros i Hi.
  destruct (Z.eq_dec i 0) as [->|]; [apply Z.testbit_even_0|]. replace i with (Z.succ (i - 1)) by lia.
  rewrite Z.testbit_even_succ by lia. apply IH4. lia.
Qed.

#[local, refine] Instance buf : MeshBuf := {
  net_buf_simple_pull_u8 l := match l with v :: l => (v, l) | [] => (0, []) end;
  net_buf_simple_pull_le16 l := (value 8 (take 2 l), drop 2 l);
  net_buf_simple_pull_le32 l := (value 8 (take 4 l), drop 4 l);
  net_buf_simple_add_u8 b v := b ++ [u8 v];
  net_buf_simple_add_le16 b v := b ++ digits 8 2 v;
  net_buf_simple_add_le32 b v := b ++ digits 8 4 v
}.
Proof.
  - done.
  - intros a l Ha. by rewrite take_app_length', drop_app_length'.
  - intros a l Ha. by rewrite take_app_length', drop_app_length'.
  - done.
  - done.
  - done.
Defined.

#[local, refine] Instance config : MeshConfig := {
  FIELD_BITS := 64;
  times_SEC_PER_MIN z := 60 * z;
  CLOCK_ACCURACY := 0;
  MESH_HOP_UNCERTAINTY := 50;
  SETTINGS := true
}.
Proof. all: done. Defined.

(** Elements 1 and 2, with a scheduler on the first one. *)
#[local, refine] Instance stack : MeshStack := {
  sys_rand32_get n := 12345;
  u32_count_trailing_zeros x := match x with Zpos p => ctz p | _ => 32 end;
  bt_mesh_elem := Z;
  elem_addr e := e;
  bt_mesh_elem_find a := if (a =? 1) || (a =? 2) then Some a else None;
  has_scene_srv e := false;
  has_onoff_srv e := true;
  has_scheduler_srv e := e =? 1
}.
Proof.
  - done.
  - intros x Hx. destruct x as [|p|p]; [lia| |lia]. destruct (ctz_spec p) as (H1 & H2 & H3 & H4). split; [|done].
    split; [done|]. apply (Z.pow_lt_mono_r_iff 2); lia.
  - intros a e. destruct (_ || _); [by intros [= ->]|done].
Defined.

Definition element : bt_mesh_elem := 1.

(** 2024-12-31 10:00:00 local time, an hour ahead of UTC. *)
Definition date : tm :=
  {| tm_sec := 0; tm_min := 0; tm_hour := 10; tm_mday := 31; tm_mon := 11; tm_year := 124; tm_wday := 2; tm_yday := 365; tm_isdst := 0 |}.

Definition status : bt_mesh_time_status :=
  {| tai := {| sec := 788954437 - 3600; subsec := 0 |}; uncertainty := 25; tai_utc_delta := 37; time_zone_offset := 4; is_authority := true |}.

Definition time_server : bt_mesh_time_srv :=
  {| sync_uptime := 0; sync_status := status; time_zone_change := {| new_offset := 4; zone_timestamp := 0 |};
     tai_utc_change := {| delta_new := 37; delta_timestamp := 0 |}; role := 0; timestamp := 0; status_delay := false;
     is_unsolicited := false; cached_ttl := 0; pub_ttl := 5; pub_msg := []; time_update_cb := false; outs := [] |}.

(** Every day at noon the lights are turned on. *)
Definition noon : bt_mesh_schedule_entry :=
  {| e_year := BT_MESH_SCHEDULER_ANY_YEAR; e_month := 4095; e_day := BT_MESH_SCHEDULER_ANY_DAY; e_hour := 12; e_minute := 0;
     e_second := 0; e_day_of_week := 127; e_action := 1; e_transition_time := 0x41; e_scene_number := 0 |}.

Definition no_entry : bt_mesh_schedule_entry :=
  {| e_year := 0; e_month := 0; e_day := 0; e_hour := 0; e_minute := 0; e_second := 0; e_day_of_week := 0;
     e_action := BT_MESH_SCHEDULER_NO_ACTIONS; e_transition_time := 0; e_scene_number := 0 |}.

Definition memory : bt_mesh_scheduler_srv :=
  {| sched_tai := replicate 16 {| sec := 0; subsec := 0 |}; idx := 0; last_idx := 0; active_bitmap := 0; sch_reg := replicate 16 no_entry;
     delayed_work := None; sched_pub_msg := []; time_srv := time_server; action_set_cb := false; rand_count := 0; sched_outs := [] |}.

Definition server : bt_mesh_scheduler_srv := scheduler_srv_init memory.

Definition ctx : bt_mesh_msg_ctx := {| addr := 7; send_ttl := 5; rnd_delay := false |}.

(** After the message, and after the first noon. *)
Definition armed : bt_mesh_scheduler_srv :=
  match action_set server ctx (scheduler_action_pack [] 3 noon) true 1000 1001 with Ok (srv, _) => srv | _ => server end.
Definition after_noon : bt_mesh_scheduler_srv :=
  match scheduled_action_handle armed element 7200005 7200006 with Ok srv => srv | _ => armed end.

Ltac concrete := vm_compute; (done || (split; (done || discriminate))).

Lemma noon_regular : regular noon.
Proof. split; [split; cbn; unfold BT_MESH_SCHEDULER_ANY_YEAR, BT_MESH_SCHEDULER_ANY_DAY, BT_MESH_SCHEDULER_ANY_HOUR,
  BT_MESH_SCHEDULER_ANY_MINUTE, BT_MESH_SCHEDULER_ANY_SECOND; lia|split; concrete|done|by left]. Qed.

Lemma date_is_ok : date_ok date.
Proof. split; concrete. Qed.

Lemma clock_is_ok : clock_ok time_server.
Proof. split; cbn; lia. Qed.

Lemma soon srv now : time_srv srv = time_server -> 0 <= now < 2 ^ 31 -> in_range srv now.
Proof.
  intros E Hn. unfold in_range, local_sec, tai_sec, zone_sec. rewrite E.
  assert (0 <= now / 1000 < 2 ^ 31) by (Z.to_euclidean_division_equations; lia). cbn -[Z.div Z.pow Z.add Z.mul].
  unfold MSEC_PER_SEC, HORIZON, SEC_PER_DAY, SEC_PER_HOUR, SEC_PER_MIN. rewrite Z.sub_0_r. lia.
Qed.

Lemma calendar_round_trip_witness :
  exists n d, ts_to_tai date = Ok n /\ tai_to_ts n = Ok d /\ same_day d date /\ same_clock d date /\
    tm_wday d = (TAI_START_DAY + day_number date) mod WEEKDAY_CNT /\
    tm_yday d = days_before_month (leap_of date) (tm_mon date) + (tm_mday date - 1).
Proof. refine (proj2 (calendar_round_trip 0 0 date _ date_is_ok _)); [lia|by vm_compute]. Defined.

Lemma time_params_round_trip_witness :
  bt_mesh_time_decode_time_params (bt_mesh_time_encode_time_params [] status) = rounded status.
Proof. apply time_params_round_trip. split; concrete. Defined.

Lemma local_time_inverse_witness : exists t u', bt_mesh_time_srv_localtime_r time_server 12345 = Ok (Some t) /\ date_ok t /\
  seconds t = local_sec time_server 12345 /\ bt_mesh_time_srv_mktime time_server t = Ok u' /\ u' <= 12345 < u' + MSEC_PER_SEC /\
  exists t', bt_mesh_time_srv_localtime_r time_server u' = Ok (Some t') /\ same_day t' t /\ same_clock t' t.
Proof. apply (local_time_inverse time_server 12345 clock_is_ok); concrete. Defined.

Lemma next_time_found_witness : exists t i found,
  convert_scheduler_time_to_tm date {| sched_time := tm_zero; entry := noon; info := no_info; rands := 0 |} =
    Ok ({| sched_time := t; entry := noon; info := i; rands := 0 |}, found) /\
  if found : bool then
    date_ok t /\ matches noon t /\ in_window noon date t /\ seconds date < seconds t /\
    forall t', date_ok t' -> matches noon t' -> in_window noon date t' -> seconds date < seconds t' -> seconds t <= seconds t'
  else forall t', date_ok t' -> matches noon t' -> in_window noon date t' -> seconds t' <= seconds date.
Proof. apply (next_time_found date noon tm_zero no_info 0 date_is_ok (rg_plain noon noon_regular)). by left. Defined.

Lemma scheduler_refines_witness : exists e last els t,
  is_next e last 788961600 /\ governed element els /\ scheduled_action_handle armed element 7200005 7200006 = Ok after_noon /\
  sched_outs after_noon = sched_outs armed ++ flat_map (action_on e t) els.
Proof.
  assert (H0 : refines 0 server (replicate 16 None)) by (apply initialized; [done|done|apply clock_is_ok|done]).
  destruct (proj1 (scheduler_refines 0 server _ H0) 3%nat noon ctx true 1000 1001) as (srv & E & H1);
    [lia|apply soon; [done|lia]|lia|apply noon_regular|done|].
  assert (srv = armed) as -> by (unfold armed; change 3 with (Z.of_nat 3); by rewrite E).
  clear E.
  assert (T1 : in_range armed 7200005) by (apply soon; [by vm_compute|lia]).
  assert (T2 : idx armed = Z.of_nat 3) by (by vm_compute).
  assert (T3 : active armed 3) by (by vm_compute).
  assert (T4 : planned armed 3 788961600) by (by vm_compute).
  assert (T5 : local_sec (time_srv armed) 7200005 = 788961600) by (by vm_compute).
  assert (T6 : 0 <= elem_addr element < 0x8000) by (vm_compute; split; [discriminate|done]).
  destruct (proj2 (scheduler_refines 1001 armed _ H1) 3%nat 788961600 element 7200005 7200006 ltac:(lia) T1 T2 T3 T4 T5 T6) as (e & last & els & t & srv & _ & Hn & _ & Hg & _ & E' & _ & Ho).
  exists e, last, els, t. assert (srv = after_noon) as -> by (unfold after_noon; by rewrite E').
  exact (conj Hn (conj Hg (conj E' Ho))).
Defined.

Lemma demo_run : sched_run element (0, server) [Configured 3 noon 788954401; Fired 3 788961600] (7200006, after_noon).
Proof.
  apply (run_step element (0, server) [Configured 3 noon 788954401] (1001, armed)).
  - apply (run_step element (0, server) [] (0, server)); [constructor|].
    change 788954401 with (local_sec (time_srv server) 1000). apply step_set with (ctx := ctx) (ack := true);
      [lia|apply soon; [done|lia]|lia|apply noon_regular|done|by vm_compute].
  - apply step_fire with (now1 := 7200005); [lia|apply soon; [by vm_compute|lia]|by vm_compute..].
Qed.

Lemma every_second_served_witness :
  StronglySorted Z.lt [788954401; 788961600] /\ Forall (describes_second noon) [788961600] /\
  forall n, describes_second noon n -> 788954401 < n ->
    n ∈ [788961600] \/ exists due, delayed_work after_noon = Some due /\ (due <= uptime_of (time_srv after_noon) n \/ due <= 7200006).
Proof.
  refine (every_second_served element _ 0 memory [Configured 3 noon 788954401; Fired 3 788961600] 7200006 after_noon _ _ clock_is_ok _ demo_run 3 noon 788954401 [788961600] _);
    (done || (cbn; lia)).
Defined.

(** ** What the servers do elsewhere *)

(** The fractions of a second are not carried: a clock that was set to 10 s and 200/256
    reads 10 s and 20/256 after 300 ms, instead of 11 s and 20/256. *)
Lemma clock_steps_back :
  let srv := set_sync_status {| tai := {| sec := 10; subsec := 200 |}; uncertainty := 0; tai_utc_delta := 0; time_zone_offset := 0;
                                is_authority := true |} time_server in
  tai_at srv 0 = {| sec := 10; subsec := 200 |} /\ tai_at srv 300 = {| sec := 10; subsec := 20 |}.
Proof. by vm_compute. Qed.

Definition at_time (y mo d h mi s : Z) : tm :=
  {| tm_sec := s; tm_min := mi; tm_hour := h; tm_mday := d; tm_mon := mo; tm_year := y; tm_wday := 0; tm_yday := 0; tm_isdst := 0 |}.
Definition every (y d h mi s w : Z) : bt_mesh_schedule_entry :=
  {| e_year := y; e_month := 4095; e_day := d; e_hour := h; e_minute := mi; e_second := s; e_day_of_week := w; e_action := 1;
     e_transition_time := 0; e_scene_number := 0 |}.

(** The date found, the time of day, the day that the entry is left with. *)
Definition found (cur : tm) (e : bt_mesh_schedule_entry) : option (Z * Z * Z * (Z * Z * Z) * Z * bool) :=
  match convert_scheduler_time_to_tm cur {| sched_time := tm_zero; entry := e; info := no_info; rands := 0 |} with
  | Ok (c, ok) =>
    let t := sched_time c in Some (tm_year t, tm_mon t, tm_mday t, (tm_hour t, tm_min t, tm_sec t), e_day (entry c), ok)
  | _ => None
  end.

(** The last day of every month: in February the entry itself becomes one for day 28. *)
Lemma last_day_overwritten :
  found (at_time 123 1 1 0 0 0) (every BT_MESH_SCHEDULER_ANY_YEAR 31 12 0 0 127) = Some (123, 1, 28, (12, 0, 0), 28, true).
Proof. by vm_compute. Qed.

(** Noon on the 15th of every month: carried out on 15 January, the next one is a
    year later; with the year given there is none. *)
Lemma monthly_is_yearly :
  found (at_time 123 0 15 12 0 0) (every BT_MESH_SCHEDULER_ANY_YEAR 15 12 0 0 127) = Some (124, 0, 15, (12, 0, 0), 15, true) /\
  found (at_time 123 0 15 12 0 0) (every 23 15 12 0 0 127) = Some (123, 0, 15, (12, 0, 0), 15, false).
Proof. by vm_compute. Qed.

(** Every quarter of the hour from noon: at 10:20 the first one found is 12:30. *)
Lemma first_quarters_missed :
  found (at_time 123 0 15 10 20 0) (every BT_MESH_SCHEDULER_ANY_YEAR 0 12 BT_MESH_SCHEDULER_EVERY_15_MINUTES 0 127) =
  Some (123, 0, 15, (12, 30, 0), 0, true).
Proof. by vm_compute. Qed.

(** The 15th when it is a Monday: 15 February 2023, a Wednesday, is found. *)
Lemma weekday_ignored :
  found (at_time 123 0 16 10 50 0) (every BT_MESH_SCHEDULER_ANY_YEAR 15 12 0 0 1) = Some (123, 1, 15, (12, 0, 0), 15, true).
Proof. by vm_compute. Qed.

(** The entry is set to no action, and the lights are still turned on at noon. *)
Definition cancelled : bt_mesh_scheduler_srv :=
  match action_set armed ctx (scheduler_action_pack [] 3 (set_e_action BT_MESH_SCHEDULER_NO_ACTIONS noon)) true 2000 2001 with
  | Ok (srv, _) => srv | _ => armed end.

Lemma cancelled_still_fires :
  delayed_work cancelled = Some 7200000 /\
  (let* srv := scheduled_action_handle cancelled element 7200005 7200006 in Ok (drop (length (sched_outs cancelled)) (sched_outs srv))) =
  Ok [OnOffSet 1 true {| time := 1000; delay := 0 |}; OnOffSet 2 true {| time := 1000; delay := 0 |}].
Proof. by vm_compute. Qed.

(** The end of a zone is announced for a moment of atomic time; the inverse
    compares it with a time from which the leap seconds were taken. A second after
    the change, it gives a moment an hour later. *)
Lemma announced_zone_inverse :
  let srv := set_time_zone_change {| new_offset := 8; zone_timestamp := sec (tai status) + 100 |} time_server in
  match bt_mesh_time_srv_localtime_r srv 101000 with
  | Ok (Some t) => bt_mesh_time_srv_mktime srv t = Ok 3701000
  | _ => False
  end.
Proof. vm_compute. reflexivity. Qed.

End Demo.
